(* ===== verification/_CoqProject ===== *)
-Q . S2P
Prelude.v
Lists.v
Bitmap.v
Sched.v
SchedSpec.v
Object.v
Wakeup.v
Kernel.v
Event.v
EventSpec.v
Boot.v
TickSpec.v
Semaphore.v
Mutex.v
SemSpec.v
LifeSpec.v
SemRefine.v
MutexSpec.v
RwSpec.v
System.v
Errors.v
EventSet.v
EventSetSpec.v
EventSetLife.v
Heap.v
HeapSpec.v
HeapLife.v
HeapRun.v
MsgQueue.v
MsgStore.v
MsgQueueSpec.v
MsgQueueLife.v
MsgQueueRun.v
JobQueue.v
JobSync.v
JobSpec.v
JobRun.v
WorkQueue.v
RbTree.v
RbSpec.v
RbLoop.v
RbOps.v
RbLife.v
Vmm.v
Area.v
AreaSpec.v
AreaRun.v
PageLib.v
PageSpec.v
PageFit.v
PageLife.v
VirPage.v
PhyPage.v
PhySpec.v
VmmApi.v
PhyZone.v
PhySys.v
PhyRun.v
PhyRam.v
PageRun.v
Thread.v
ThreadFrame.v
ThreadSpec.v
ThreadCalls.v
ThreadSleep.v
ThreadPoint.v
ThreadRun.v
ThreadLife.v
ThreadNap.v
ThreadDemo.v
