(* ===== verification/Prelude.v ===== *)
(** * SylixOS kernel core: a verification development

    SylixOS (src/SylixOS) is a real-time operating system in C.  This library models
    the core of its kernel, kernel/, and proves what the rest of the system
    relies on: linked lists, the priority bitmap, the scheduler of a multi-processor
    kernel, timed waits and the tick, object handles and pools, and the services
    threads synchronise with: counting and binary semaphores, mutexes with priority
    inheritance, read-write semaphores, event sets and message queues; the control of threads (suspending, stopping,
    sleeping, waking); job and work queues; the heap; red-black
    trees; and the memory manager: page zones, the areas that find pages, physical memory.

    ** The program and the model

    A thread control block belongs to a ready ring of its priority or to a wait ring of an
    event; the scheduler keeps, per CPU, a candidate chosen from the ready rings; a tick
    walks the delta list of timed waits.  Each service of kernel/interface locks the
    kernel, changes these structures and ends with a scheduling point.  A C
    function is a Rocq function of the same name from the state it sees to an option of the
    new state and its results; [None] is an undefined access (NULL, an object that does
    not exist) or the kernel's fatal [_BugHandle].  Machine integers are [Z] with the
    wrap-around of their width written out ([wrap], [+64], [-64]).

    The files, in the order they depend on each other:

    - [Prelude]: integers, tactics, generic lemmas.
    - [Lists]: the pointer structures of kernel/list (ring, line and mono lists) over a store of
      nodes, shown to refine operations on [list]; the other files use the lists.
    - [Bitmap]: _BitmapLib.c over the table-driven [archFindLsb] of the RISC-V port, shown to be a
      finite set of priorities with a minimum.
    - [Sched], [SchedSpec]: ready tables, candidate table, scheduling, ticks of time slices, yield and
      priority change; then the scheduler as a transition system with its invariant.
    - [Object]: handles (kernel/include/k_object.h) and object pools.
    - [Wakeup]: wake-up lines (_WakeupLine.c), the pass macros of k_scanlink.h and the tick timers.
    - [Kernel], [Event], [EventSpec]: the state of the waiting services, the wait queues of events
      (_EventQueue.c, _EventHighLevel.c, _TimeTick.c), their invariant and what each step
      changes.  [Boot] is a small concrete system, [TickSpec] the tick.
    - [Semaphore], [Mutex]: the services; [SemSpec], [LifeSpec], [SemRefine], [MutexSpec], [RwSpec]: their
      invariant, creation and deletion, and the refinement of an abstract
      object per kind; [System]: all of them in any order; [Errors]: calls that fail.
    - [EventSet], [EventSetSpec], [EventSetLife]: the same for event sets.
    - [MsgQueue]: message queues (_MsgQueueLib.c, MsgQueue*.c); [MsgStore]: the message nodes hold a list sorted
      by urgency; [MsgQueueSpec], [MsgQueueLife], [MsgQueueRun]: refinement, life and runs.
    - [Heap], [HeapSpec], [HeapLife], [HeapRun]: the heap (_HeapLib.c), the list of blocks a
      consistent heap denotes, what each operation does to it, and runs of operations.
    - [JobQueue]: job queues (_JobQueue.c) and deferred interrupt jobs (InterDefer.c), one section under the spin lock at
      a time; [JobSync]: the contract of their semaphore as a class, and the kernel as its instance; [JobSpec]: the ring as
      a bounded queue; [JobRun]: contexts that interleave.  [WorkQueue]: work queues (WorkQueue.c).
    - [RbTree]: treeRb.c on a store of nodes; [RbSpec], [RbLoop], [RbOps], [RbLife]: trees with a hole as
      their meaning, the re-colouring loops, linking and unlinking, and what insertion and deletion promise.
    - [Vmm]: the data of kernel/vmm; [Area] (vmmArea.c) with [AreaSpec], [AreaRun]: the areas as finite maps
      from addresses to pages, on top of the trees.
    - [PageLib] (pageLib.c) with [PageSpec], [PageFit], [PageLife], [PageRun]: a zone as a list of blocks that tile
      it; the search for a block; allocation and release.
    - [VirPage] (virPage.c), [PhyPage] (phyPage.c), [VmmApi] (vmm.c): the tables of zones and the calls.
      [PhySpec], [PhyZone], [PhySys] describe zones with their areas side by side, [PhyRun] refines a memory of
      regions, [PhyRam] adds memory.
    - [Thread]: thread control (_ThreadStatus.c, _ThreadMiscLib.c, ThreadSuspend.c, ThreadStop.c, TimeSleep.c and the like)
      and the scheduling points of _Sched.c, with the requests for a change of status that one CPU leaves with the
      thread another runs.  [ThreadFrame]: what holds a thread and what does not, on the kernel of the waiting
      services; [ThreadSpec]: the invariant and how requests are served; [ThreadCalls], [ThreadSleep], [ThreadPoint]: the
      calls, sleeping and waking, the scheduling points; [ThreadRun]: all of them in any order, on top of [System];
      [ThreadLife], [ThreadNap]: the theorems; [ThreadDemo]: a small concrete system, and runs that show where the
      code goes wrong.

    ** Configuration

    A 64-bit machine; LW_CFG_SMP_EN = 1, without CPU hot-plug and hyper-threads
    (LW_CFG_SMP_CPU_DOWN_EN = 0, LW_CFG_CPU_ARCH_SMT = 0), LW_CFG_SMP_REVERSE_FOREACH = 0,
    LW_CFG_ARG_CHK_EN = 1, LW_CFG_THREAD_DEL_EN = 1.  The number of CPUs, threads,
    events and event sets are parameters of the state.

    ** What the theorems show

    - Structure: the list operations, the pools, the bitmap, the handles and the wake-up lines
      implement lists, queues, finite sets, packed triples and queues of absolute times.
    - Scheduling: every event keeps the tables consistent; after an update no ready thread
      is more urgent than a running one it could replace; a thread that becomes ready and
      should preempt is not missed; a thread is in one ready ring or one CPU; equal
      priorities share a CPU in turn.
    - Waiting: the tick ends exactly the waits whose time has come, each wake-up takes the
      head of the wake-up order, and a call returns the code of what ended its wait, whatever step
      that was.  A thread waits only for what is not there; the one exception, readers left behind by a
      writer whose wait timed out, is a finding, and runs without such a tick have none.  A sleep
      lasts as long as it was asked for in every run, whoever uses the delay line meanwhile.
    - Services: each call does exactly one step of an abstract semaphore, mutex, read-write
      semaphore, event set or message queue; failed calls change nothing; no sequence of legal calls
      reaches an undefined access; counters stay in their bounds; loops end.
    - Messages: the store of a message queue is a stable sort by urgency inside its
      heap block; one run shows a sender and a receiver that wait for each other.
    - Heap: in any run of legal requests live pointers own disjoint memory, free blocks are merged,
      and releasing everything restores the first block.
    - Threads: a thread that is suspended, stopped or waits for a change of status is in no ready ring and no
      candidate; a request to a running thread is carried out at the next scheduling point of its CPU, and the
      requesting thread goes on; suspensions nest; a sleep lasts as long as was asked for.
    - Jobs: a job ring is a bounded queue; queued jobs always have somebody who will run them, whatever interleaves; a
      delayed work queue loses no job, keeps times, and is shown where it does not.
    - Trees: insertion and deletion keep the order of the nodes and the red-black invariant (hence the
      logarithmic height) for every shape of the tree.
    - Physical memory: an area is a finite map; a zone is cut at a smallest free block with room and merged again;
      the calls refine taking and giving back ranges of pages; errors change nothing; giving everything back
      restores the zones; added memory is one free region.

    ** Bounds and fuel

    Loops over a structure recurse on it.  Loops until a queue is empty, and the pass of a
    tick, take a fuel argument; the callers give the length of the queue plus one, or
    the length of the line, and [System.queue_loops_terminate] and
    [TickSpec._ThreadTick_spec] show that it is enough.
    A heap is in the lower half of the address space ([HEAP_TOP] = 2^63), and sizes
    are below 2^64 - 46, so that rounding does not wrap; alignments go up to 2^62.
    The loops of the red-black trees get one more than the number of nodes ([RbTree.rb_fuel]); a page
    count is at most [PageFit.PAGES_MAX] = 2^52, the pages of the address space.

    ** What is not modelled, and why

    Calls are atomic (but for job and work queues, whose sections interleave): the kernel spin lock, interrupts and
    memory ordering are below the model, and a call that waits is cut at its scheduling point, where other calls
    may run.  The errno variable, the object hooks, the monitor, debug messages
    and object names (beyond their length check) change nothing the services read.  The waiting
    kernel holds the set of threads fixed: creation, deletion, restart, join and signal
    delivery of threads are not in it, nor is the change of contexts (the result of a scheduling point that a signal
    ended is an argument of the [_resume] definitions).  Waits on user words
    (vutex) are not in the state.  Page tables, the mapping of virtual pages, page faults and swapping
    are the MMU driver's and the device drivers' (the mapping that a DMA allocation asks for is an argument of
    it); of pageLib.c [__pageTraversalLink] is left out, whose callbacks move the nodes it walks over.
    The memory for control blocks comes from the kernel heap, whose answers are arguments.
    The I/O system, file systems, network, loader, shell and architecture code are outside the kernel core; the
    manifest lists them. *)

From Stdlib Require Export ZArith Lia.
From stdpp Require Export base tactics numbers list option gmap.
#[global] Open Scope Z_scope.
#[global] Set Default Goal Selector "!".

(** ** Machine integers

    The modelled configuration is a 64-bit target: [ULONG], [size_t] and
    [addr_t] are 64 bits, [UINT32] 32, [UINT16] 16 and [UINT8] 8.  A value is a
    [Z] in range; [wrap w] is the reduction the C conversions perform. *)

Definition wrap (w x : Z) : Z := x mod 2 ^ w.

Definition ULONG_MAX : Z := 2 ^ 64 - 1.

Declare Scope sylixos_scope.
Delimit Scope sylixos_scope with syl.
Notation "x +64 y" := (wrap 64 (x + y)) (at level 50, left associativity) : sylixos_scope.
Notation "x -64 y" := (wrap 64 (x - y)) (at level 50, left associativity) : sylixos_scope.
#[global] Open Scope sylixos_scope.

Lemma wrap_small w x : 0 <= x < 2 ^ w -> wrap w x = x.
Proof. apply Z.mod_small. Qed.

Lemma wrap_range w x : 0 <= w -> 0 <= wrap w x < 2 ^ w.
Proof. intros. apply Z.mod_pos_bound. lia. Qed.

Lemma wrap64_small x : 0 <= x <= ULONG_MAX -> wrap 64 x = x.
Proof. unfold ULONG_MAX. intros. apply wrap_small. lia. Qed.

(** [ROUND_UP(x, align)] of kernel/include/k_value.h, at 64 bits, [align] a
    power of two [2 ^ k]: the addition wraps before the low bits are cleared. *)
Definition ROUND_UP (x k : Z) : Z :=
  Z.ldiff (x +64 (2 ^ k - 1)) (Z.ones k).

(** [ROUND_DOWN(x, align)]. *)
Definition ROUND_DOWN (x k : Z) : Z := Z.ldiff (wrap 64 x) (Z.ones k).

Lemma ldiff_ones_div x k : 0 <= k -> Z.ldiff x (Z.ones k) = x / 2 ^ k * 2 ^ k.
Proof.
  intros Hk. rewrite Z.ldiff_ones_r, Z.shiftl_mul_pow2, Z.shiftr_div_pow2; lia.
Qed.

Lemma lor_ones_div d k : 0 <= k -> Z.lor d (Z.ones k) + 1 = (d / 2 ^ k + 1) * 2 ^ k.
Proof.
  intros Hk. assert (E : Z.lor d (Z.ones k) = Z.ldiff d (Z.ones k) + Z.ones k).
  { assert (Hz : Z.land (Z.ldiff d (Z.ones k)) (Z.ones k) = 0) by (rewrite Z.land_comm; apply Z.land_ldiff || (apply Z.bits_inj'; intros i _; rewrite Z.land_spec, Z.ldiff_spec, Z.bits_0; by destruct (Z.testbit d i), (Z.testbit (Z.ones k) i))).
    rewrite (Z.add_nocarry_lxor _ _ Hz), Z.lxor_lor by done. apply Z.bits_inj'. intros i _.
    rewrite !Z.lor_spec, Z.ldiff_spec. by destruct (Z.testbit d i), (Z.testbit (Z.ones k) i). }
  rewrite E, ldiff_ones_div, Z.ones_equiv by done. lia.
Qed.

(** A word with [x & (x - 1) == 0]. *)
Lemma power_of_two x : 0 < x < 2 ^ 64 -> Z.land x (wrap 64 (x - 1)) = 0 -> exists k, 0 <= k < 64 /\ x = 2 ^ k.
Proof.
  intros Hx. rewrite wrap_small by lia. intros H. exists (Z.log2 x). assert (Hk : 0 <= Z.log2 x < 64).
  { split; [apply Z.log2_nonneg|]. apply Z.log2_lt_pow2; lia. }
  split; [done|]. pose proof (Z.log2_spec x ltac:(lia)) as [H1 H2]. destruct (Z.eq_dec x (2 ^ Z.log2 x)) as [|Hne]; [done|].
  exfalso. assert (Hb : Z.testbit (Z.land x (x - 1)) (Z.log2 x) = true); [|by rewrite H, Z.bits_0 in Hb].
  rewrite Z.land_spec, Z.bit_log2 by lia. cbn. assert (E : Z.log2 (x - 1) = Z.log2 x) by (apply Z.log2_unique; lia). rewrite <-E at 1. apply Z.bit_log2. lia.
Qed.

Lemma ROUND_UP_spec x k :
  0 <= k -> 0 <= x -> x + (2 ^ k - 1) <= ULONG_MAX ->
  x <= ROUND_UP x k < x + 2 ^ k /\ ROUND_UP x k mod 2 ^ k = 0.
Proof.
  intros Hk Hx Hb. unfold ROUND_UP.
  assert (0 < 2 ^ k) by (apply Z.pow_pos_nonneg; lia).
  rewrite wrap64_small, ldiff_ones_div by lia.
  split; [|by apply Z.mod_mul; lia].
  pose proof (Z.div_mod (x + (2 ^ k - 1)) (2 ^ k)).
  pose proof (Z.mod_pos_bound (x + (2 ^ k - 1)) (2 ^ k)). lia.
Qed.

Lemma ROUND_DOWN_spec x k :
  0 <= k -> 0 <= x <= ULONG_MAX ->
  x - 2 ^ k < ROUND_DOWN x k <= x /\ 0 <= ROUND_DOWN x k /\ ROUND_DOWN x k mod 2 ^ k = 0.
Proof.
  intros Hk Hx. unfold ROUND_DOWN.
  assert (0 < 2 ^ k) by (apply Z.pow_pos_nonneg; lia).
  rewrite wrap64_small, ldiff_ones_div by lia.
  split; [|split; [|by apply Z.mod_mul; lia]].
  - pose proof (Z.div_mod x (2 ^ k)). pose proof (Z.mod_pos_bound x (2 ^ k)). lia.
  - pose proof (Z.div_pos x (2 ^ k)). nia.
Qed.

(** ** Tactics *)

(** Split every conjunction of the goal. *)
Ltac splits := repeat match goal with |- _ /\ _ => split end.

(** Close a decidable goal by evaluation. *)
Ltac decide_now := solve [exact I | apply (bool_decide_unpack _); vm_compute; exact I].

(** Case on the first [if]/[match] of the goal whose scrutinee is closed. *)
Ltac case_if :=
  match goal with
  | |- context [if ?b then _ else _] => destruct b eqn:?
  end.

(** Turn boolean comparisons of the context into propositions. *)
Ltac zbool :=
  repeat match goal with
  | H : (_ =? _) = true |- _ => apply Z.eqb_eq in H
  | H : (_ =? _) = false |- _ => apply Z.eqb_neq in H
  | H : (_ <? _) = true |- _ => apply Z.ltb_lt in H
  | H : (_ <? _) = false |- _ => apply Z.ltb_ge in H
  | H : (_ <=? _) = true |- _ => apply Z.leb_le in H
  | H : (_ <=? _) = false |- _ => apply Z.leb_gt in H
  | H : negb _ = true |- _ => apply negb_true_iff in H
  | H : negb _ = false |- _ => apply negb_false_iff in H
  | H : _ && _ = true |- _ => apply andb_true_iff in H as [? ?]
  | H : _ || _ = false |- _ => apply orb_false_iff in H as [? ?]
  end.

(** ** Lists *)

(** The successor of the position of [x]: used by the neighbour lists. *)
Definition hd_or {A} (d : A) (l : list A) : A := match l with [] => d | x :: _ => x end.

Definition last_or {A} (d : A) (l : list A) : A := default d (last l).

Lemma last_or_snoc {A} (d x : A) l : last_or d (l ++ [x]) = x.
Proof. unfold last_or. by rewrite last_snoc. Qed.

Lemma last_or_cons {A} (d x : A) l : last_or d (x :: l) = last_or x l.
Proof. unfold last_or. rewrite last_cons. by destruct (last l). Qed.

Lemma last_or_app {A} (d : A) l1 l2 : last_or d (l1 ++ l2) = last_or (last_or d l1) l2.
Proof.
  revert d. induction l1 as [|x l1 IH]; intros d; [done|].
  by rewrite <-app_comm_cons, !last_or_cons.
Qed.

Lemma hd_or_app {A} (d : A) l1 l2 : hd_or d (l1 ++ l2) = hd_or (hd_or d l2) l1.
Proof. by destruct l1. Qed.
