(* ===== verification/Lists.v ===== *)
(** * Linked lists: kernel/list/listLink.c and the inlines of kernel/list/listOp.h

    The ring, line and mono lists at the level of their pointers: a store maps
    the address of a list node to its link fields, an operation returns [None]
    where the C dereferences NULL or memory that holds no node.  The
    representation predicates [ring_rep], [line_rep] and [mono_rep] relate a
    header pointer to the [list] it denotes, and the theorems show that each
    pointer operation refines the operation on lists the other files use. *)

From S2P Require Import Prelude.

(** ** Data *)

Definition ptr := Z.
Definition NULL : ptr := 0.

(** [LW_LIST_RING] and [LW_LIST_LINE] have the same two link fields. *)
Record LW_LIST_NODE := mkNode { plistNext : ptr; plistPrev : ptr }.

#[export] Instance LW_LIST_NODE_eq_dec : EqDecision LW_LIST_NODE.
Proof. solve_decision. Defined.

Abbreviation store := (gmap ptr LW_LIST_NODE).

Definition load (p : ptr) (m : store) : option LW_LIST_NODE :=
  if p =? NULL then None else m !! p.

Definition get_next (p : ptr) (m : store) : option ptr := plistNext <$> load p m.
Definition get_prev (p : ptr) (m : store) : option ptr := plistPrev <$> load p m.

Definition set_next (p v : ptr) (m : store) : option store :=
  n ← load p m; Some (<[p := mkNode v (plistPrev n)]> m).
Definition set_prev (p v : ptr) (m : store) : option store :=
  n ← load p m; Some (<[p := mkNode (plistNext n) v]> m).

(** [_INIT_LIST_RING_HEAD] / [_INIT_LIST_LINE_HEAD]. *)
Definition _INIT_LIST_HEAD (p : ptr) (m : store) : option store :=
  m ← set_next p NULL m; set_prev p NULL m.

(** ** Ring operations *)

(** [_list_ring_next(&head)]: the new header. *)
Definition _list_ring_next (head : ptr) (m : store) : option ptr := get_next head m.
Definition _list_ring_get_next (p : ptr) (m : store) : option ptr := get_next p m.
Definition _list_ring_get_prev (p : ptr) (m : store) : option ptr := get_prev p m.

Definition _List_Ring_Add_Ahead (pringNew pringHeader : ptr) (m : store) : option (store * ptr) :=
  m ← (if negb (pringHeader =? NULL) then
         m ← set_next pringNew pringHeader m;
         hp ← get_prev pringHeader m;
         m ← set_prev pringNew hp m;
         hp ← get_prev pringHeader m;
         m ← set_next hp pringNew m;
         set_prev pringHeader pringNew m
       else
         m ← set_prev pringNew pringNew m;
         set_next pringNew pringNew m);
  Some (m, pringNew).

Definition _List_Ring_Add_Front (pringNew pringHeader : ptr) (m : store) : option (store * ptr) :=
  if negb (pringHeader =? NULL) then
    m ← set_prev pringNew pringHeader m;
    hn ← get_next pringHeader m;
    m ← set_next pringNew hn m;
    hn ← get_next pringHeader m;
    m ← set_prev hn pringNew m;
    m ← set_next pringHeader pringNew m;
    Some (m, pringHeader)
  else
    m ← set_prev pringNew pringNew m;
    m ← set_next pringNew pringNew m;
    Some (m, pringNew).

Definition _List_Ring_Add_Last (pringNew pringHeader : ptr) (m : store) : option (store * ptr) :=
  if negb (pringHeader =? NULL) then
    hp ← get_prev pringHeader m;
    m ← set_next hp pringNew m;
    hp ← get_prev pringHeader m;
    m ← set_prev pringNew hp m;
    m ← set_next pringNew pringHeader m;
    m ← set_prev pringHeader pringNew m;
    Some (m, pringHeader)
  else
    m ← set_prev pringNew pringNew m;
    m ← set_next pringNew pringNew m;
    Some (m, pringNew).

Definition _List_Ring_Del (pringDel pringHeader : ptr) (m : store) : option (store * ptr) :=
  dn ← get_next pringDel m;
  if dn =? pringDel then
    m ← _INIT_LIST_HEAD pringDel m;
    Some (m, NULL)
  else
    h ← (if pringDel =? pringHeader then _list_ring_next pringHeader m else Some pringHeader);
    prev ← get_prev pringDel m;
    dn ← get_next pringDel m;
    m ← set_next prev dn m;
    dn ← get_next pringDel m;
    m ← set_prev dn prev m;
    m ← _INIT_LIST_HEAD pringDel m;
    Some (m, h).

(** ** Line operations *)

Definition _list_line_get_next (p : ptr) (m : store) : option ptr := get_next p m.
Definition _list_line_get_prev (p : ptr) (m : store) : option ptr := get_prev p m.

Definition _List_Line_Add_Ahead (plineNew plineHeader : ptr) (m : store) : option (store * ptr) :=
  m ← set_next plineNew plineHeader m;
  m ← set_prev plineNew NULL m;
  m ← (if negb (plineHeader =? NULL) then set_prev plineHeader plineNew m else Some m);
  Some (m, plineNew).

Definition _List_Line_Add_Tail (plineNew plineHeader : ptr) (m : store) : option (store * ptr) :=
  if negb (plineHeader =? NULL) then
    hn ← get_next plineHeader m;
    if negb (hn =? NULL) then
      m ← set_next plineNew hn m;
      m ← set_prev plineNew plineHeader m;
      hn ← get_next plineHeader m;
      m ← set_prev hn plineNew m;
      m ← set_next plineHeader plineNew m;
      Some (m, plineHeader)
    else
      m ← set_next plineHeader plineNew m;
      m ← set_prev plineNew plineHeader m;
      m ← set_next plineNew NULL m;
      Some (m, plineHeader)
  else
    m ← set_prev plineNew NULL m;
    m ← set_next plineNew NULL m;
    Some (m, plineNew).

Definition _List_Line_Add_Left (plineNew plineRight : ptr) (m : store) : option store :=
  plineLeft ← get_prev plineRight m;
  m ← set_next plineNew plineRight m;
  m ← set_prev plineNew plineLeft m;
  m ← (if negb (plineLeft =? NULL) then set_next plineLeft plineNew m else Some m);
  set_prev plineRight plineNew m.

Definition _List_Line_Add_Right (plineNew plineLeft : ptr) (m : store) : option store :=
  plineRight ← get_next plineLeft m;
  m ← set_next plineNew plineRight m;
  m ← set_prev plineNew plineLeft m;
  m ← (if negb (plineRight =? NULL) then set_prev plineRight plineNew m else Some m);
  set_next plineLeft plineNew m.

Definition _List_Line_Del (plineDel plineHeader : ptr) (m : store) : option (store * ptr) :=
  dp ← get_prev plineDel m;
  dn ← get_next plineDel m;
  '(m, h) ← (if dp =? NULL then Some (m, dn)
             else m ← set_next dp dn m; Some (m, plineHeader));
  dn ← get_next plineDel m;
  m ← (if negb (dn =? NULL) then
         dp ← get_prev plineDel m; set_prev dn dp m
       else Some m);
  Some (m, h).

(** ** Mono (resource) lists: a store of single next pointers *)

Abbreviation mono_store := (gmap ptr ptr).

Definition mono_load (p : ptr) (m : mono_store) : option ptr :=
  if p =? NULL then None else m !! p.
Definition mono_set (p v : ptr) (m : mono_store) : option mono_store :=
  _ ← mono_load p m; Some (<[p := v]> m).

(** Returns the allocated node and the new head. *)
Definition _list_mono_allocate (head : ptr) (m : mono_store) : option (ptr * ptr) :=
  n ← mono_load head m; Some (head, n).

Definition _list_mono_free (head pfree : ptr) (m : mono_store) : option (mono_store * ptr) :=
  m ← mono_set pfree head m; Some (m, pfree).

(** Returns the allocated node, the new head and the new tail. *)
Definition _list_mono_allocate_seq (head tail : ptr) (m : mono_store) : option (ptr * ptr * ptr) :=
  n ← mono_load head m;
  Some (head, n, if tail =? head then n else tail).

Definition _list_mono_free_seq (head tail pfree : ptr) (m : mono_store)
    : option (mono_store * ptr * ptr) :=
  m ← mono_set pfree NULL m;
  '(m, head) ← (if negb (tail =? NULL) then m ← mono_set tail pfree m; Some (m, head)
                else Some (m, pfree));
  Some (m, head, pfree).

(** ** The lists the headers denote *)

(** [dseg m p l q]: the nodes of [l] are doubly linked in order, the first
    one's previous pointer is [p] and the last one's next pointer is [q]. *)
Fixpoint dseg (m : store) (p : ptr) (l : list ptr) (q : ptr) : Prop :=
  match l with
  | [] => True
  | x :: l' => m !! x = Some (mkNode (hd_or q l') p) /\ dseg m x l' q
  end.

Definition wf_nodes (l : list ptr) : Prop := NoDup l /\ NULL ∉ l.

(** A ring: the last node links to the first. *)
Definition ring_rep (m : store) (h : ptr) (l : list ptr) : Prop :=
  h = hd_or NULL l /\ wf_nodes l /\ dseg m (last_or NULL l) l (hd_or NULL l).

(** A line: NULL-terminated at both ends. *)
Definition line_rep (m : store) (h : ptr) (l : list ptr) : Prop :=
  h = hd_or NULL l /\ wf_nodes l /\ dseg m NULL l NULL.

Fixpoint mono_seg (m : mono_store) (l : list ptr) : Prop :=
  match l with
  | [] => True
  | x :: l' => m !! x = Some (hd_or NULL l') /\ mono_seg m l'
  end.

(** A sequential pool: head and tail pointers of a NULL-terminated chain; the
    tail is NULL when the pool is empty. *)
Definition mono_rep (m : mono_store) (h t : ptr) (l : list ptr) : Prop :=
  h = hd_or NULL l /\ t = last_or NULL l /\ wf_nodes l /\ mono_seg m l.

(** Only the nodes of [l] may have changed. *)
Definition frame {A} (m m' : gmap ptr A) (l : list ptr) : Prop :=
  forall x, x ∉ l -> m' !! x = m !! x.

(** ** Shared lemmas *)

(** One write: the node at [p] becomes [n], nothing else changes. *)
Definition upd {A} (m m' : gmap ptr A) (p : ptr) (n : A) : Prop :=
  m' !! p = Some n /\ frame m m' [p].

Lemma upd_ne {A} (m m' : gmap ptr A) p n x : upd m m' p n -> x <> p -> m' !! x = m !! x.
Proof. intros [_ H] Hx. apply H. rewrite list_elem_of_singleton. done. Qed.

Lemma upd_insert {A} (m : gmap ptr A) p n : upd m (<[p := n]> m) p n.
Proof.
  split; [apply lookup_insert_eq|]. intros x Hx. apply lookup_insert_ne.
  rewrite list_elem_of_singleton in Hx. congruence.
Qed.

Lemma load_Some p m n : p <> NULL -> m !! p = Some n -> load p m = Some n.
Proof. intros Hp Hm. unfold load. case (Z.eqb_spec p NULL); [done|]. by intros. Qed.

Lemma set_next_upd p v m n :
  p <> NULL -> m !! p = Some n ->
  exists m', set_next p v m = Some m' /\ upd m m' p (mkNode v (plistPrev n)).
Proof.
  intros. unfold set_next. rewrite (load_Some p m n) by done. simpl.
  eexists. split; [done|]. apply upd_insert.
Qed.

Lemma set_prev_upd p v m n :
  p <> NULL -> m !! p = Some n ->
  exists m', set_prev p v m = Some m' /\ upd m m' p (mkNode (plistNext n) v).
Proof.
  intros. unfold set_prev. rewrite (load_Some p m n) by done. simpl.
  eexists. split; [done|]. apply upd_insert.
Qed.

Lemma get_next_eq p m n : p <> NULL -> m !! p = Some n -> get_next p m = Some (plistNext n).
Proof. intros. unfold get_next. by rewrite (load_Some p m n). Qed.

Lemma get_prev_eq p m n : p <> NULL -> m !! p = Some n -> get_prev p m = Some (plistPrev n).
Proof. intros. unfold get_prev. by rewrite (load_Some p m n). Qed.

Lemma frame_trans {A} (m1 m2 m3 : gmap ptr A) l : frame m1 m2 l -> frame m2 m3 l -> frame m1 m3 l.
Proof. intros H1 H2 x Hx. by rewrite H2, H1. Qed.

Lemma frame_refl {A} (m : gmap ptr A) l : frame m m l.
Proof. by intros x _. Qed.

Lemma frame_upd {A} (m m' : gmap ptr A) p n l : upd m m' p n -> p ∈ l -> frame m m' l.
Proof. intros H Hp x Hx. eapply upd_ne; [done|]. by intros ->. Qed.

Lemma dseg_frame m m' p l q fl :
  frame m m' fl -> (forall x, x ∈ l -> x ∉ fl) -> dseg m p l q -> dseg m' p l q.
Proof.
  intros Hf. revert p. induction l as [|x l IH]; intros p Hm; [done|].
  intros [Hx Hl]. split; [rewrite Hf; [done|apply Hm; left]|].
  apply IH; [|done]. intros y Hy. apply Hm. by right.
Qed.

Lemma dseg_upd_ne m m' p l q y n : upd m m' y n -> y ∉ l -> dseg m p l q -> dseg m' p l q.
Proof.
  intros [_ Hf] Hy. apply (dseg_frame _ _ _ _ _ _ Hf).
  intros x Hx. rewrite list_elem_of_singleton. by intros ->.
Qed.

Lemma dseg_app m p l1 l2 q :
  dseg m p (l1 ++ l2) q <-> dseg m p l1 (hd_or q l2) /\ dseg m (last_or p l1) l2 q.
Proof.
  revert p. induction l1 as [|x l1 IH]; intros p; simpl; [by split; [|intros [_ ?]]|].
  rewrite IH, hd_or_app, last_or_cons. tauto.
Qed.

Lemma dseg_head m p x l q : dseg m p (x :: l) q -> m !! x = Some (mkNode (hd_or q l) p).
Proof. by intros [? _]. Qed.

Lemma dseg_mid m p l1 x l2 q :
  dseg m p (l1 ++ x :: l2) q -> m !! x = Some (mkNode (hd_or q l2) (last_or p l1)).
Proof. intros [_ [H _]]%dseg_app. done. Qed.

Lemma dseg_upd_head m m' p x l q p' :
  upd m m' x (mkNode (hd_or q l) p') -> x ∉ l -> dseg m p (x :: l) q -> dseg m' p' (x :: l) q.
Proof.
  intros Hu Hx [_ Hl]. split; [apply Hu|]. by eapply dseg_upd_ne.
Qed.

Lemma dseg_upd_last m m' p l x q q' :
  upd m m' x (mkNode q' (last_or p l)) -> x ∉ l ->
  dseg m p (l ++ [x]) q -> dseg m' p (l ++ [x]) q'.
Proof.
  intros Hu Hx [Hl _]%dseg_app. apply dseg_app. split; [by eapply dseg_upd_ne|].
  split; [apply Hu|done].
Qed.

Lemma wf_nodes_cons x l : wf_nodes (x :: l) <-> x <> NULL /\ x ∉ l /\ wf_nodes l.
Proof. unfold wf_nodes. rewrite NoDup_cons, not_elem_of_cons. firstorder. Qed.

Lemma wf_nodes_nil : wf_nodes [].
Proof. split; [constructor|]. apply not_elem_of_nil. Qed.

Lemma wf_nodes_perm l l' : l ≡ₚ l' -> wf_nodes l -> wf_nodes l'.
Proof. intros Hp [? ?]. unfold wf_nodes. by rewrite <-Hp. Qed.

Lemma wf_nodes_in l x : wf_nodes l -> x ∈ l -> x <> NULL.
Proof. intros [_ H] Hx ->. done. Qed.

Create HintDb lists.
#[export] Hint Resolve wf_nodes_nil frame_refl : lists.

(** Membership of a node in an explicit list of nodes. *)
Ltac in_list := repeat first [assumption | apply list_elem_of_here | apply list_elem_of_further].

(** The writes of the context compose to the frame of the goal. *)
Ltac solve_frame :=
  repeat (eapply frame_trans; [eapply frame_upd; [eassumption|in_list]|]); apply frame_refl.

Lemma cons_snoc {A} (x : A) l : exists l', x :: l = l' ++ [last_or x l].
Proof.
  destruct l as [|y l _] using rev_ind; [by exists []|].
  exists (x :: l). by rewrite last_or_snoc.
Qed.

Lemma last_or_in {A} (x : A) l : last_or x l ∈ x :: l.
Proof.
  destruct (cons_snoc x l) as [l' ->]. apply elem_of_app. right. by left.
Qed.

(** The last node of a non-empty ring, with the view of the ring from it. *)
Lemma ring_rep_cons m h x l :
  ring_rep m h (x :: l) <->
  h = x /\ wf_nodes (x :: l) /\ dseg m (last_or x l) (x :: l) x.
Proof. unfold ring_rep. by rewrite last_or_cons. Qed.

Lemma ring_rep_null m h : ring_rep m h [] <-> h = NULL.
Proof.
  split; [by intros [-> _]|]. intros ->. split; [done|]. split; [auto with lists|done].
Qed.

(** Writing the next pointer of a segment's last node. *)
Lemma dseg_set_tail_next m h l t p q v :
  t = last_or h l -> wf_nodes (h :: l) -> dseg m p (h :: l) q ->
  exists m' n, set_next t v m = Some m' /\ upd m m' t n /\ dseg m' p (h :: l) v.
Proof.
  intros Ht Hwf Hd. pose proof (wf_nodes_in _ _ Hwf (last_or_in h l)) as Hnull.
  destruct (cons_snoc h l) as [l' E]. rewrite <-Ht in Hnull, E. clear Ht.
  rewrite E in Hd, Hwf |- *.
  destruct (set_next_upd t v m _ Hnull (dseg_mid _ _ _ _ _ _ Hd)) as (m' & E' & U).
  exists m', (mkNode v (last_or p l')). splits; [done|done|].
  apply dseg_upd_last with m q; [done| |done].
  destruct Hwf as [Hnd _]. apply NoDup_app in Hnd as (_ & Hdis & _).
  intros Hin. apply (Hdis t Hin). left.
Qed.

(** Writing the previous pointer of a segment's first node. *)
Lemma dseg_set_head_prev m h l p q v :
  wf_nodes (h :: l) -> dseg m p (h :: l) q ->
  exists m' n, set_prev h v m = Some m' /\ upd m m' h n /\ dseg m' v (h :: l) q.
Proof.
  intros (Hh & Hl & _)%wf_nodes_cons Hd.
  destruct (set_prev_upd h v m _ Hh (dseg_head _ _ _ _ _ Hd)) as (m' & E' & U).
  exists m', (mkNode (hd_or q l) v). splits; [done|done|]. by eapply dseg_upd_head.
Qed.

(** Run one pointer write or read of the goal, given the node it hits. *)
Ltac run_set H m U :=
  let E := fresh "E" in destruct H as (m & E & U); rewrite E; clear E; simpl.

(** *** Rings *)

Lemma _List_Ring_Add_Ahead_rep m h l new :
  ring_rep m h l -> new ∉ l -> new <> NULL -> is_Some (m !! new) ->
  exists m', _List_Ring_Add_Ahead new h m = Some (m', new) /\
    ring_rep m' new (new :: l) /\ frame m m' (new :: l).
Proof.
  intros Hr Hnew Hnn [n0 Hn0]. unfold _List_Ring_Add_Ahead. destruct l as [|x l].
  - apply ring_rep_null in Hr as ->. simpl.
    run_set (set_prev_upd new new m n0 Hnn Hn0) m1 U1.
    run_set (set_next_upd new new m1 _ Hnn (proj1 U1)) m2 U2.
    exists m2. splits; [done| |solve_frame].
    apply ring_rep_cons. splits; [done|apply wf_nodes_cons; auto with lists|].
    split; [apply U2|done].
  - apply ring_rep_cons in Hr as (-> & Hwf & Hd).
    pose proof (last_or_in x l) as Hin. remember (last_or x l) as t eqn:Et.
    assert (Ht : t <> new) by congruence.
    assert (Hxn : x <> new) by (intros ->; apply Hnew; left).
    assert (Hx : x <> NULL) by (by apply wf_nodes_cons in Hwf as [? _]).
    case (Z.eqb_spec x NULL); [done|]. intros _. simpl.
    run_set (set_next_upd new x m n0 Hnn Hn0) m1 U1.
    assert (Hd1 : dseg m1 t (x :: l) x) by (by eapply dseg_upd_ne).
    rewrite (get_prev_eq x m1 _ Hx (dseg_head _ _ _ _ _ Hd1)). simpl.
    run_set (set_prev_upd new t m1 _ Hnn (proj1 U1)) m2 U2.
    assert (Hd2 : dseg m2 t (x :: l) x) by (by eapply dseg_upd_ne).
    rewrite (get_prev_eq x m2 _ Hx (dseg_head _ _ _ _ _ Hd2)). simpl.
    destruct (dseg_set_tail_next m2 x l t t x new Et Hwf Hd2) as (m3 & n3 & -> & U3 & Hd3). simpl.
    destruct (dseg_set_head_prev m3 x l t new new Hwf Hd3) as (m4 & n4 & -> & U4 & Hd4). simpl.
    exists m4. splits; [done| |].
    + apply ring_rep_cons. splits; [done|by apply wf_nodes_cons|].
      rewrite last_or_cons, <-Et. split; [|done].
      rewrite (upd_ne _ _ _ _ _ U4), (upd_ne _ _ _ _ _ U3) by done. apply U2.
    + solve_frame.
Qed.

Lemma _List_Ring_Add_Last_rep m h l new :
  ring_rep m h l -> new ∉ l -> new <> NULL -> is_Some (m !! new) ->
  exists m', _List_Ring_Add_Last new h m = Some (m', hd_or new l) /\
    ring_rep m' (hd_or new l) (l ++ [new]) /\ frame m m' (new :: l).
Proof.
  intros Hr Hnew Hnn [n0 Hn0]. unfold _List_Ring_Add_Last. destruct l as [|x l].
  - apply ring_rep_null in Hr as ->. simpl.
    run_set (set_prev_upd new new m n0 Hnn Hn0) m1 U1.
    run_set (set_next_upd new new m1 _ Hnn (proj1 U1)) m2 U2.
    exists m2. splits; [done| |solve_frame].
    apply ring_rep_cons. splits; [done|apply wf_nodes_cons; auto with lists|].
    split; [apply U2|done].
  - apply ring_rep_cons in Hr as (-> & Hwf & Hd).
    pose proof (last_or_in x l) as Hin. remember (last_or x l) as t eqn:Et.
    assert (Ht : t <> new) by congruence.
    assert (Hxn : new <> x) by (intros ->; apply Hnew; left).
    assert (Hx : x <> NULL) by (by apply wf_nodes_cons in Hwf as [? _]).
    case (Z.eqb_spec x NULL); [done|]. intros _. simpl.
    rewrite (get_prev_eq x m _ Hx (dseg_head _ _ _ _ _ Hd)). simpl.
    destruct (dseg_set_tail_next m x l t t x new Et Hwf Hd) as (m1 & n1 & -> & U1 & Hd1). simpl.
    rewrite (get_prev_eq x m1 _ Hx (dseg_head _ _ _ _ _ Hd1)). simpl.
    assert (Hn1 : m1 !! new = Some n0) by (by rewrite (upd_ne _ _ _ _ _ U1)).
    run_set (set_prev_upd new t m1 n0 Hnn Hn1) m2 U2.
    run_set (set_next_upd new x m2 _ Hnn (proj1 U2)) m3 U3.
    assert (Hd3 : dseg m3 t (x :: l) new).
    { eapply dseg_upd_ne; [done..|]. by eapply dseg_upd_ne. }
    destruct (dseg_set_head_prev m3 x l t new new Hwf Hd3) as (m4 & n4 & -> & U4 & Hd4). simpl.
    exists m4. splits; [done| |solve_frame].
    apply ring_rep_cons. splits; [done| |].
    + apply wf_nodes_perm with (new :: x :: l); [|by apply wf_nodes_cons].
      by rewrite Permutation_cons_append.
    + rewrite last_or_snoc, app_comm_cons. apply dseg_app. split; [done|].
      rewrite last_or_cons, <-Et. split; [|done].
      rewrite (upd_ne _ _ _ _ _ U4) by done. apply U3.
Qed.

(** The list a ring denotes after [_List_Ring_Add_Front]: right after the header. *)
Definition add_front {A} (x : A) (l : list A) : list A :=
  match l with [] => [x] | h :: l' => h :: x :: l' end.

Lemma add_front_perm {A} (x : A) l : add_front x l ≡ₚ x :: l.
Proof. destruct l; [done|]. apply Permutation_swap. Qed.

Lemma _List_Ring_Add_Front_rep m h l new :
  ring_rep m h l -> new ∉ l -> new <> NULL -> is_Some (m !! new) ->
  exists m', _List_Ring_Add_Front new h m = Some (m', hd_or new l) /\
    ring_rep m' (hd_or new l) (add_front new l) /\ frame m m' (new :: l).
Proof.
  intros Hr Hnew Hnn [n0 Hn0]. unfold _List_Ring_Add_Front. destruct l as [|x l].
  - apply ring_rep_null in Hr as ->. simpl.
    run_set (set_prev_upd new new m n0 Hnn Hn0) m1 U1.
    run_set (set_next_upd new new m1 _ Hnn (proj1 U1)) m2 U2.
    exists m2. splits; [done| |solve_frame].
    apply ring_rep_cons. splits; [done|apply wf_nodes_cons; auto with lists|].
    split; [apply U2|done].
  - apply ring_rep_cons in Hr as (-> & Hwf & Hd).
    assert (Hxn : x <> new) by (intros ->; apply Hnew; left).
    assert (Hwf' : wf_nodes (x :: new :: l)).
    { apply wf_nodes_perm with (new :: x :: l); [apply Permutation_swap|].
      by apply wf_nodes_cons. }
    assert (Hx : x <> NULL) by (by apply wf_nodes_cons in Hwf as [? _]).
    case (Z.eqb_spec x NULL); [done|]. intros _. simpl.
    run_set (set_prev_upd new x m n0 Hnn Hn0) m1 U1.
    assert (Hd1 : dseg m1 (last_or x l) (x :: l) x) by (by eapply dseg_upd_ne).
    pose proof (dseg_head _ _ _ _ _ Hd1) as Hx1.
    rewrite (get_next_eq x m1 _ Hx Hx1). simpl.
    run_set (set_next_upd new (hd_or x l) m1 _ Hnn (proj1 U1)) m2 U2. simpl in U2.
    assert (Hd2 : dseg m2 (last_or x l) (x :: l) x) by (by eapply dseg_upd_ne).
    pose proof (dseg_head _ _ _ _ _ Hd2) as Hx2.
    rewrite (get_next_eq x m2 _ Hx Hx2). simpl.
    destruct l as [|y l]; simpl in *.
    + run_set (set_prev_upd x new m2 _ Hx Hx2) m3 U3.
      run_set (set_next_upd x new m3 _ Hx (proj1 U3)) m4 U4.
      exists m4. splits; [done| |solve_frame].
      apply ring_rep_cons. splits; [done..|]. split; [apply U4|]. split; [|done].
      rewrite (upd_ne _ _ _ _ _ U4), (upd_ne _ _ _ _ _ U3) by done. apply U2.
    + destruct Hd2 as [_ Hd2].
      assert (Hwy : wf_nodes (y :: l)) by (by apply wf_nodes_cons in Hwf as (_ & _ & ?)).
      assert (Hxy : x ∉ y :: l) by (by apply wf_nodes_cons in Hwf as (_ & ? & _)).
      assert (Hyn : new <> y) by (intros ->; apply Hnew; right; left).
      assert (x <> y) by (intros ->; apply Hxy; left).
      destruct (dseg_set_head_prev m2 y l x x new Hwy Hd2) as (m3 & n3 & -> & U3 & Hd3). simpl.
      assert (Hx3 : m3 !! x = m2 !! x) by (by apply (upd_ne _ _ _ _ _ U3)).
      rewrite Hx2 in Hx3.
      run_set (set_next_upd x new m3 _ Hx Hx3) m4 U4.
      exists m4. splits; [done| |solve_frame].
      apply ring_rep_cons. split; [done|]. split; [done|]. rewrite !last_or_cons.
      simpl in U4. rewrite last_or_cons in U4. split; [apply U4|]. split.
      * rewrite (upd_ne _ _ _ _ _ U4), (upd_ne _ _ _ _ _ U3) by done. apply U2.
      * by apply (dseg_upd_ne _ _ _ _ _ _ _ U4).
Qed.

(** A ring seen from any of its nodes. *)
Definition cyc (m : store) (l : list ptr) : Prop := dseg m (last_or NULL l) l (hd_or NULL l).

Lemma cyc_rotate m a b : cyc m (a ++ b) <-> cyc m (b ++ a).
Proof.
  destruct a as [|x a]; [by rewrite app_nil_r|]. destruct b as [|y b]; [by rewrite app_nil_r|].
  unfold cyc. rewrite !last_or_app, !last_or_cons, !dseg_app, !last_or_cons. simpl. tauto.
Qed.

(** Unlinking a node of a ring with other nodes, from that node's view. *)
Lemma cyc_unlink m d y r :
  wf_nodes (d :: y :: r) -> cyc m (d :: y :: r) ->
  exists m1 m2 n1 n2, set_next (last_or y r) y m = Some m1 /\ set_prev y (last_or y r) m1 = Some m2
    /\ upd m m1 (last_or y r) n1 /\ upd m1 m2 y n2 /\ cyc m2 (y :: r).
Proof.
  intros (Hd & Hdr & Hwf)%wf_nodes_cons [_ Hs]. simpl in Hs.
  destruct (dseg_set_tail_next m y r _ d d y eq_refl Hwf Hs) as (m1 & n1 & E1 & U1 & Hs1).
  destruct (dseg_set_head_prev m1 y r d y (last_or y r) Hwf Hs1) as (m2 & n2 & E2 & U2 & Hs2).
  exists m1, m2, n1, n2. splits; try done. unfold cyc. by rewrite last_or_cons.
Qed.

(** Removing the first occurrence of a node. *)
Fixpoint remove_node (d : Z) (l : list Z) : list Z :=
  match l with
  | [] => []
  | x :: l' => if x =? d then l' else x :: remove_node d l'
  end.

Lemma remove_node_app d l1 l2 : d ∉ l1 -> remove_node d (l1 ++ d :: l2) = l1 ++ l2.
Proof.
  induction l1 as [|x l1 IH]; intros Hd; simpl; [by rewrite Z.eqb_refl|].
  apply not_elem_of_cons in Hd as [Hx Hd].
  case (Z.eqb_spec x d); [congruence|]. by rewrite IH.
Qed.

Lemma remove_node_perm d l : d ∈ l -> l ≡ₚ d :: remove_node d l.
Proof.
  induction l as [|x l IH]; intros Hd; [by apply not_elem_of_nil in Hd|]. simpl.
  case (Z.eqb_spec x d) as [->|Hne]; [done|].
  apply elem_of_cons in Hd as [->|Hd]; [done|]. rewrite (IH Hd) at 1. apply Permutation_swap.
Qed.

Lemma remove_node_notin d l : d ∉ l -> remove_node d l = l.
Proof.
  induction l as [|x l IH]; intros Hd; [done|]. apply not_elem_of_cons in Hd as [Hx Hd]. simpl.
  case (Z.eqb_spec x d); [congruence|]. by rewrite IH.
Qed.

Lemma elem_of_remove_node d l x :
  NoDup l -> x ∈ remove_node d l <-> x ∈ l /\ x <> d.
Proof.
  intros Hnd. destruct (decide (d ∈ l)) as [Hd|Hd].
  - pose proof (remove_node_perm d l Hd) as Hp. rewrite Hp in Hnd.
    apply NoDup_cons in Hnd as [Hn _]. rewrite Hp at 2. rewrite elem_of_cons.
    split; [|tauto]. intros Hx. split; [by right|]. by intros ->.
  - rewrite remove_node_notin by done. split; [|tauto].
    intros Hx. split; [done|]. by intros ->.
Qed.

Lemma remove_node_NoDup d l : NoDup l -> NoDup (remove_node d l).
Proof.
  intros Hnd. destruct (decide (d ∈ l)) as [Hd|Hd]; [|by rewrite remove_node_notin].
  rewrite (remove_node_perm d l Hd) in Hnd. by apply NoDup_cons in Hnd as [_ ?].
Qed.

Lemma init_list_head m p n :
  p <> NULL -> m !! p = Some n ->
  exists m1 m2 n1, _INIT_LIST_HEAD p m = Some m2 /\ upd m m1 p n1 /\
    upd m1 m2 p (mkNode NULL NULL).
Proof.
  intros Hp Hm. unfold _INIT_LIST_HEAD.
  run_set (set_next_upd p NULL m n Hp Hm) m1 U1.
  run_set (set_prev_upd p NULL m1 _ Hp (proj1 U1)) m2 U2.
  exists m1, m2, (mkNode NULL (plistPrev n)). splits; done.
Qed.

Lemma _List_Ring_Del_rep m h l d :
  ring_rep m h l -> d ∈ l ->
  exists m', _List_Ring_Del d h m = Some (m', hd_or NULL (remove_node d l)) /\
    ring_rep m' (hd_or NULL (remove_node d l)) (remove_node d l) /\
    m' !! d = Some (mkNode NULL NULL) /\ frame m m' l.
Proof.
  intros (Hh & Hwf & Hd) (l1 & l2 & ->)%list_elem_of_split.
  assert (Hd1 : d ∉ l1).
  { destruct Hwf as [(_ & Hdis & _)%NoDup_app _]. intros Hin. apply (Hdis d Hin). left. }
  rewrite remove_node_app by done. fold (cyc m (l1 ++ d :: l2)) in Hd.
  apply cyc_rotate in Hd. rewrite <-app_comm_cons in Hd.
  assert (Hp : l1 ++ d :: l2 ≡ₚ d :: l2 ++ l1) by (rewrite Permutation_app_comm; done).
  pose proof (wf_nodes_perm _ _ Hp Hwf) as Hwf'.
  assert (Hdn : d <> NULL) by (by apply wf_nodes_cons in Hwf' as [? _]).
  pose proof (dseg_head _ _ _ _ _ Hd) as Hdl. simpl in Hdl. rewrite last_or_cons in Hdl.
  unfold _List_Ring_Del. rewrite (get_next_eq d m _ Hdn Hdl). simpl.
  destruct (l2 ++ l1) as [|y r] eqn:E; simpl in *.
  - apply app_eq_nil in E as [-> ->]. rewrite Z.eqb_refl.
    destruct (init_list_head m d _ Hdn Hdl) as (m1 & m2 & n1 & -> & U1 & U2). simpl.
    exists m2. splits; [done|by apply ring_rep_null|apply U2|simpl; solve_frame].
  - assert (Hyd : d ∉ y :: r) by (by apply wf_nodes_cons in Hwf' as (_ & ? & _)).
    case (Z.eqb_spec y d) as [->|_]; [exfalso; apply Hyd; left|].
    rewrite last_or_cons in Hdl.
    assert (Hhead : (if d =? h then _list_ring_next h m else Some h)
                    = Some (hd_or NULL (l1 ++ l2))).
    { destruct l1 as [|x l1]; simpl in *.
      - rewrite Hh, Z.eqb_refl. unfold _list_ring_next. rewrite (get_next_eq d m _ Hdn Hdl).
        by rewrite app_nil_r in E; subst.
      - case (Z.eqb_spec d h) as [->|_]; [|by subst]. exfalso. apply Hd1. subst. left. }
    rewrite Hhead. simpl. rewrite (get_prev_eq d m _ Hdn Hdl). simpl.
    destruct (cyc_unlink m d y r Hwf' Hd) as (m1 & m2 & n1 & n2 & -> & E2 & U1 & U2 & Hc). simpl.
    assert (Htd : d <> last_or y r) by (intros Heq; apply Hyd; rewrite Heq; apply last_or_in).
    assert (Hyd' : d <> y) by (intros ->; apply Hyd; left).
    assert (Hm1 : m1 !! d = m !! d) by (by apply (upd_ne _ _ _ _ _ U1)).
    rewrite Hdl in Hm1. rewrite (get_next_eq d m1 _ Hdn Hm1). simpl. rewrite E2. simpl.
    assert (Hm2 : m2 !! d = m1 !! d) by (by apply (upd_ne _ _ _ _ _ U2)).
    rewrite Hm1 in Hm2.
    destruct (init_list_head m2 d _ Hdn Hm2) as (m3 & m4 & n3 & -> & U3 & U4). simpl.
    exists m4. splits; [done| |apply U4|].
    + assert (Hc4 : cyc m4 (y :: r)).
      { eapply dseg_upd_ne; [done..|]. by eapply dseg_upd_ne. }
      rewrite <-E in Hc4. apply cyc_rotate in Hc4. split; [done|]. split; [|done].
      apply wf_nodes_cons in Hwf' as (_ & _ & Hw). rewrite <-E in Hw.
      eapply wf_nodes_perm; [apply Permutation_app_comm|done].
    + assert (Hin : forall z, z ∈ d :: y :: r -> z ∈ l1 ++ d :: l2) by (intros z; by rewrite Hp).
      assert (last_or y r ∈ l1 ++ d :: l2) by (apply Hin; right; apply last_or_in).
      assert (y ∈ l1 ++ d :: l2) by (apply Hin; right; left).
      assert (d ∈ l1 ++ d :: l2) by (apply Hin; left).
      solve_frame.
Qed.

(** *** Lines *)

Lemma line_rep_cons m h x l :
  line_rep m h (x :: l) <-> h = x /\ wf_nodes (x :: l) /\ dseg m NULL (x :: l) NULL.
Proof. done. Qed.

Lemma line_rep_null m h : line_rep m h [] <-> h = NULL.
Proof. unfold line_rep. split; [by intros [-> _]|]. intros ->. repeat split; apply wf_nodes_nil. Qed.

Lemma line_insert_wf l1 l2 new :
  wf_nodes (l1 ++ l2) -> new ∉ l1 ++ l2 -> new <> NULL -> wf_nodes (l1 ++ new :: l2).
Proof.
  intros Hwf Hnew Hnn. apply wf_nodes_perm with (new :: l1 ++ l2); [|by apply wf_nodes_cons].
  by rewrite Permutation_middle.
Qed.

Lemma _List_Line_Add_Ahead_rep m h l new :
  line_rep m h l -> new ∉ l -> new <> NULL -> is_Some (m !! new) ->
  exists m', _List_Line_Add_Ahead new h m = Some (m', new) /\
    line_rep m' new (new :: l) /\ frame m m' (new :: l).
Proof.
  intros (-> & Hwf & Hd) Hnew Hnn [n0 Hn0]. unfold _List_Line_Add_Ahead.
  run_set (set_next_upd new (hd_or NULL l) m n0 Hnn Hn0) m1 U1.
  run_set (set_prev_upd new NULL m1 _ Hnn (proj1 U1)) m2 U2. simpl in U2.
  assert (Hd2 : dseg m2 NULL l NULL).
  { eapply dseg_upd_ne; [done..|]. by eapply dseg_upd_ne. }
  destruct l as [|x l]; simpl.
  - exists m2. splits; [done| |solve_frame]. apply line_rep_cons.
    splits; [done|by apply wf_nodes_cons|]. split; [apply U2|done].
  - assert (Hx : x <> NULL) by (by apply wf_nodes_cons in Hwf as [? _]).
    assert (Hxn : new <> x) by (intros ->; apply Hnew; left).
    case (Z.eqb_spec x NULL); [done|]. intros _. simpl.
    destruct (dseg_set_head_prev m2 x l NULL NULL new Hwf Hd2) as (m3 & n3 & -> & U3 & Hd3).
    simpl. exists m3. splits; [done| |solve_frame]. apply line_rep_cons.
    splits; [done|by apply wf_nodes_cons|]. split; [|done].
    rewrite (upd_ne _ _ _ _ _ U3) by done. apply U2.
Qed.

(** Insertion to the right of a node: [_List_Line_Add_Right], and
    [_List_Line_Add_Tail], which inserts right after the node it is given. *)
Lemma _List_Line_Add_Right_rep m h l1 x l2 new :
  line_rep m h (l1 ++ x :: l2) -> new ∉ l1 ++ x :: l2 -> new <> NULL -> is_Some (m !! new) ->
  exists m', _List_Line_Add_Right new x m = Some m' /\
    line_rep m' h (l1 ++ x :: new :: l2) /\ frame m m' (new :: l1 ++ x :: l2).
Proof.
  intros (Hh & Hwf & Hd) Hnew Hnn [n0 Hn0]. unfold _List_Line_Add_Right.
  assert (Hx : x <> NULL) by (eapply wf_nodes_in; [done|]; apply elem_of_app; right; left).
  assert (Hxn : new <> x) by (intros ->; apply Hnew, elem_of_app; right; left).
  pose proof (dseg_mid _ _ _ _ _ _ Hd) as Hx0. rewrite (get_next_eq x m _ Hx Hx0). simpl.
  run_set (set_next_upd new (hd_or NULL l2) m n0 Hnn Hn0) m1 U1.
  run_set (set_prev_upd new x m1 _ Hnn (proj1 U1)) m2 U2. simpl in U2.
  assert (Hd2 : dseg m2 NULL (l1 ++ x :: l2) NULL).
  { eapply dseg_upd_ne; [done..|]. by eapply dseg_upd_ne. }
  apply dseg_app in Hd2 as (Hda & Hx2 & Hdb). simpl in Hda.
  assert (Hwf2 : wf_nodes (l1 ++ x :: new :: l2)).
  { rewrite cons_middle, app_assoc. apply line_insert_wf; [..|done]; by rewrite <-app_assoc. }
  assert (Hsplit : wf_nodes (x :: new :: l2) /\ x ∉ l1 /\ (forall y, y ∈ l2 -> y ∉ l1)).
  { destruct Hwf2 as [(_ & Hdis & Hnd)%NoDup_app Hnull]. splits.
    - split; [done|]. intros Hi. apply Hnull, elem_of_app. by right.
    - intros Hi. apply (Hdis x Hi). left.
    - intros y Hy Hi. apply (Hdis y Hi). right. by right. }
  destruct Hsplit as ((_ & Hxl2 & Hw2)%wf_nodes_cons & Hxl1 & Hdisj).
  assert (exists m3, (if negb (hd_or NULL l2 =? NULL) then set_prev (hd_or NULL l2) new m2
                      else Some m2) = Some m3 /\ dseg m3 new l2 NULL /\ frame m2 m3 l2)
    as (m3 & -> & Hdb3 & Hf3).
  { destruct l2 as [|y l2]; [by exists m2; auto with lists|]. simpl.
    apply wf_nodes_cons in Hw2 as (_ & _ & Hw2).
    case (Z.eqb_spec y NULL) as [->|_]; [by apply wf_nodes_cons in Hw2 as [? _]|]. simpl.
    destruct (dseg_set_head_prev m2 y l2 x NULL new Hw2 Hdb) as (m3 & n3 & -> & U3 & Hd3).
    exists m3. split; [done|]. split; [exact Hd3|solve_frame]. }
  simpl. assert (Hx3 : m3 !! x = m2 !! x).
  { apply Hf3. intros Hi. apply Hxl2. by right. }
  rewrite Hx2 in Hx3. run_set (set_next_upd x new m3 _ Hx Hx3) m4 U4. simpl in U4.
  exists m4. splits; [done| |].
  - split; [by destruct l1|]. split; [done|]. apply dseg_app. simpl. splits.
    + eapply dseg_upd_ne; [done..|]. eapply dseg_frame; [done| |done].
      intros z Hz Hz'. by eapply Hdisj.
    + apply U4.
    + rewrite (upd_ne _ _ _ _ _ U4) by done. rewrite Hf3; [apply U2|].
      intros Hi. apply Hnew, elem_of_app. right. by right.
    + eapply dseg_upd_ne; [done| |done]. intros Hi. apply Hxl2. by right.
  - assert (x ∈ new :: l1 ++ x :: l2) by (right; apply elem_of_app; right; left).
    assert (Hf3' : frame m2 m3 (new :: l1 ++ x :: l2)).
    { intros z Hz. apply Hf3. intros Hi. apply Hz. right. apply elem_of_app. right. by right. }
    eapply frame_trans; [eapply frame_upd; [done|in_list]|].
    eapply frame_trans; [eapply frame_upd; [done|in_list]|].
    eapply frame_trans; [done|]. solve_frame.
Qed.

Lemma _List_Line_Add_Tail_rep m h l1 x l2 new :
  line_rep m h (l1 ++ x :: l2) -> new ∉ l1 ++ x :: l2 -> new <> NULL -> is_Some (m !! new) ->
  exists m', _List_Line_Add_Tail new x m = Some (m', x) /\
    line_rep m' h (l1 ++ x :: new :: l2) /\ frame m m' (new :: l1 ++ x :: l2).
Proof.
  intros Hrep Hnew Hnn [n0 Hn0].
  pose proof Hrep as (Hh & Hwf & Hd).
  assert (Hx : x <> NULL) by (eapply wf_nodes_in; [done|]; apply elem_of_app; right; left).
  assert (Hxn : new <> x) by (intros ->; apply Hnew, elem_of_app; right; left).
  pose proof (dseg_mid _ _ _ _ _ _ Hd) as Hx0.
  unfold _List_Line_Add_Tail. case (Z.eqb_spec x NULL); [done|]. intros _. simpl.
  rewrite (get_next_eq x m _ Hx Hx0). simpl. destruct l2 as [|y l2]; simpl.
  - run_set (set_next_upd x new m _ Hx Hx0) m1 U1. simpl in U1.
    assert (Hn1 : m1 !! new = Some n0) by (rewrite (upd_ne _ _ _ _ _ U1); done).
    run_set (set_prev_upd new x m1 _ Hnn Hn1) m2 U2.
    run_set (set_next_upd new NULL m2 _ Hnn (proj1 U2)) m3 U3. simpl in U3.
    exists m3. split; [done|]. split; [split; [by destruct l1|split]|].
    + rewrite cons_middle, app_assoc. apply line_insert_wf; rewrite ?app_nil_r; done.
    + assert (Hxl1 : x ∉ l1).
      { destruct Hwf as [(_ & Hdis & _)%NoDup_app _]. intros Hi. apply (Hdis x Hi). left. }
      assert (Hd1 : dseg m1 NULL (l1 ++ [x]) new) by (by eapply dseg_upd_last).
      rewrite cons_middle, app_assoc. apply dseg_app. split.
      * eapply dseg_upd_ne; [done..|]. by eapply dseg_upd_ne.
      * rewrite last_or_snoc. split; [apply U3|done].
    + assert (x ∈ new :: l1 ++ [x]) by (right; apply elem_of_app; right; left). solve_frame.
  - assert (Hy : y <> NULL).
    { eapply wf_nodes_in; [done|]. apply elem_of_app. right. right. left. }
    case (Z.eqb_spec y NULL); [done|]. intros _. simpl.
    destruct (_List_Line_Add_Right_rep m h l1 x (y :: l2) new) as (m' & E & H1 & H2); [done..|].
    exists m'. split; [|done]. unfold _List_Line_Add_Right in E.
    rewrite (get_next_eq x m _ Hx Hx0) in E. simpl in E.
    destruct (set_next_upd new y m n0 Hnn Hn0) as (m1 & E1 & U1).
    rewrite E1 in E |- *. simpl in E |- *.
    destruct (set_prev_upd new x m1 _ Hnn (proj1 U1)) as (m2 & E2 & U2).
    rewrite E2 in E |- *. simpl in E |- *.
    assert (Hx2 : m2 !! x = m !! x).
    { by rewrite (upd_ne _ _ _ _ _ U2), (upd_ne _ _ _ _ _ U1). }
    rewrite Hx0 in Hx2. rewrite (get_next_eq x m2 _ Hx Hx2). simpl.
    revert E. case (Z.eqb_spec y NULL); [done|]. intros _. simpl.
    destruct (set_prev y new m2) as [m3|]; simpl; [|done]. by intros ->.
Qed.

(** Insertion to the left of a node that is not the first one (the callers
    insert left of the first node with [_List_Line_Add_Ahead]). *)
Lemma _List_Line_Add_Left_rep m h l1 x l2 new :
  l1 <> [] ->
  line_rep m h (l1 ++ x :: l2) -> new ∉ l1 ++ x :: l2 -> new <> NULL -> is_Some (m !! new) ->
  exists m', _List_Line_Add_Left new x m = Some m' /\
    line_rep m' h (l1 ++ new :: x :: l2) /\ frame m m' (new :: l1 ++ x :: l2).
Proof.
  intros Hl1 (Hh & Hwf & Hd) Hnew Hnn [n0 Hn0]. unfold _List_Line_Add_Left.
  destruct l1 as [|w l1]; [done|]. clear Hl1.
  assert (Hx : x <> NULL) by (eapply wf_nodes_in; [done|]; apply elem_of_app; right; left).
  assert (Hxn : new <> x) by (intros ->; apply Hnew, elem_of_app; right; left).
  pose proof (dseg_mid _ _ _ _ _ _ Hd) as Hx0. rewrite (get_prev_eq x m _ Hx Hx0). simpl.
  rewrite last_or_cons in Hx0 |- *. pose proof (last_or_in w l1) as Ht.
  remember (last_or w l1) as t eqn:Et.
  assert (Hwf1 : wf_nodes (w :: l1) /\ wf_nodes (x :: l2) /\ t ∉ x :: l2 /\ x ∉ w :: l1).
  { destruct Hwf as [(Hnd1 & Hdis & Hnd2)%NoDup_app Hnull].
    rewrite elem_of_app in Hnull. splits.
    - split; tauto.
    - split; tauto.
    - by apply Hdis.
    - intros Hi. apply (Hdis x Hi). left. }
  destruct Hwf1 as (Hw1 & Hw2 & Htx & Hxw).
  pose proof (wf_nodes_in _ _ Hw1 Ht) as Htnull.
  run_set (set_next_upd new x m n0 Hnn Hn0) m1 U1.
  run_set (set_prev_upd new t m1 _ Hnn (proj1 U1)) m2 U2. simpl in U2.
  case (Z.eqb_spec t NULL); [done|]. intros _. simpl.
  assert (Hd2 : dseg m2 NULL ((w :: l1) ++ x :: l2) NULL).
  { eapply dseg_upd_ne; [done..|]. by eapply dseg_upd_ne. }
  apply dseg_app in Hd2 as [Hda Hdb]. rewrite last_or_cons, <-Et in Hdb.
  destruct (dseg_set_tail_next m2 w l1 t NULL _ new Et Hw1 Hda) as (m3 & n3 & -> & U3 & Hd3).
  simpl.
  assert (Hdb3 : dseg m3 t (x :: l2) NULL) by (by eapply dseg_upd_ne).
  destruct (dseg_set_head_prev m3 x l2 t NULL new Hw2 Hdb3) as (m4 & n4 & -> & U4 & Hd4).
  assert (Htn : new <> t) by (intros ->; apply Hnew, elem_of_app; by left).
  exists m4. split; [done|]. split.
  - split; [done|]. split; [apply (line_insert_wf (w :: l1) (x :: l2) new); done|].
    apply (dseg_app _ _ (w :: l1)). split.
    + by apply (dseg_upd_ne _ _ _ _ _ _ _ U4).
    + rewrite last_or_cons, <-Et. split; [|done].
      rewrite (upd_ne _ _ _ _ _ U4), (upd_ne _ _ _ _ _ U3) by done. apply U2.
  - assert (t ∈ new :: (w :: l1) ++ x :: l2) by (right; apply elem_of_app; by left).
    assert (x ∈ new :: (w :: l1) ++ x :: l2) by (right; apply elem_of_app; right; left).
    solve_frame.
Qed.

(** Unlinking a node of a line: both neighbours, where there are any, are
    relinked and the node itself keeps its stale pointers. *)
Lemma _List_Line_Del_rep m h l d :
  line_rep m h l -> d ∈ l ->
  exists m', _List_Line_Del d h m = Some (m', hd_or NULL (remove_node d l)) /\
    line_rep m' (hd_or NULL (remove_node d l)) (remove_node d l) /\ frame m m' (remove_node d l).
Proof.
  intros (Hh & Hwf & Hd) (l1 & l2 & ->)%list_elem_of_split.
  assert (Hdl1 : d ∉ l1).
  { destruct Hwf as [(_ & Hdis & _)%NoDup_app _]. intros Hin. apply (Hdis d Hin). left. }
  rewrite remove_node_app by done.
  pose proof (wf_nodes_perm _ _ (symmetry (Permutation_middle l1 l2 d)) Hwf) as Hwf'.
  apply wf_nodes_cons in Hwf' as (Hdn & Hdr & Hwf').
  pose proof (dseg_mid _ _ _ _ _ _ Hd) as Hd0.
  apply dseg_app in Hd as [Hda [_ Hdb]]. simpl in Hda.
  unfold _List_Line_Del. rewrite (get_prev_eq d m _ Hdn Hd0), (get_next_eq d m _ Hdn Hd0). simpl.
  assert (exists m1, (if last_or NULL l1 =? NULL then Some (m, hd_or NULL l2)
            else m' ← set_next (last_or NULL l1) (hd_or NULL l2) m; Some (m', h))
            = Some (m1, hd_or NULL (l1 ++ l2)) /\ dseg m1 NULL l1 (hd_or NULL l2) /\ frame m m1 l1)
    as (m1 & -> & Ha & Hf1).
  { destruct l1 as [|w l1]; [by exists m; auto with lists|]. rewrite last_or_cons.
    assert (Hw : wf_nodes (w :: l1)).
    { destruct Hwf' as [(? & _)%NoDup_app Hn]. split; [done|].
      intros Hi. apply Hn, elem_of_app. by left. }
    pose proof (wf_nodes_in _ _ Hw (last_or_in w l1)) as Ht.
    case (Z.eqb_spec (last_or w l1) NULL); [done|]. intros _.
    destruct (dseg_set_tail_next m w l1 _ NULL d (hd_or NULL l2) eq_refl Hw Hda)
      as (m1 & n1 & -> & U1 & Hd1).
    exists m1. split; [simpl in Hh |- *; by rewrite Hh|]. split; [done|].
    eapply frame_upd; [done|apply last_or_in]. }
  simpl. assert (Hd1 : m1 !! d = m !! d) by (by apply Hf1).
  rewrite Hd0 in Hd1. rewrite (get_next_eq d m1 _ Hdn Hd1), (get_prev_eq d m1 _ Hdn Hd1). simpl.
  assert (Hdisj : forall z, z ∈ l2 -> z ∉ l1).
  { destruct Hwf' as [(_ & Hdis & _)%NoDup_app _]. intros z Hz Hz'. by apply (Hdis z). }
  assert (Hdb1 : dseg m1 d l2 NULL) by (by eapply dseg_frame).
  assert (exists m2, (if negb (hd_or NULL l2 =? NULL) then set_prev (hd_or NULL l2) (last_or NULL l1) m1
            else Some m1) = Some m2 /\ dseg m2 (last_or NULL l1) l2 NULL /\ frame m1 m2 l2)
    as (m2 & -> & Hb & Hf2).
  { destruct l2 as [|y l2]; [by exists m1; auto with lists|]. simpl hd_or.
    assert (Hw : wf_nodes (y :: l2)).
    { destruct Hwf' as [(_ & _ & ?)%NoDup_app Hn]. split; [done|].
      intros Hi. apply Hn, elem_of_app. by right. }
    case (Z.eqb_spec y NULL) as [->|_]; [by apply wf_nodes_cons in Hw as [? _]|]. simpl negb.
    destruct (dseg_set_head_prev m1 y l2 d NULL (last_or NULL l1) Hw Hdb1)
      as (m2 & n2 & -> & U2 & Hd2).
    exists m2. split; [done|]. split; [done|solve_frame]. }
  exists m2. split; [done|]. split.
  - split; [done|]. split; [done|]. apply dseg_app. split; [|done].
    eapply dseg_frame; [done| |done]. intros z Hz Hz'. by apply (Hdisj z).
  - intros z [Hz1 Hz2]%not_elem_of_app. by rewrite Hf2, Hf1.
Qed.

(** A loop may go on from the node it has just unlinked. *)
Lemma _List_Line_Del_next m h l d m' h' :
  line_rep m h l -> d ∈ l -> _List_Line_Del d h m = Some (m', h') ->
  _list_line_get_next d m' = _list_line_get_next d m.
Proof.
  intros Hr Hd E. destruct (_List_Line_Del_rep m h l d Hr Hd) as (m2 & E2 & _ & Hf).
  rewrite E in E2. injection E2 as <- ->. unfold _list_line_get_next, get_next, load.
  rewrite Hf; [done|]. destruct Hr as (_ & [Hnd _] & _). rewrite elem_of_remove_node by done. tauto.
Qed.

(** *** Mono lists: the object pools *)

Lemma mono_seg_frame m m' l fl :
  frame m m' fl -> (forall x, x ∈ l -> x ∉ fl) -> mono_seg m l -> mono_seg m' l.
Proof.
  intros Hf. induction l as [|x l IH]; intros Hm; [done|]. intros [Hx Hl].
  split; [rewrite Hf; [done|apply Hm; left]|]. apply IH; [|done]. intros y Hy. apply Hm. by right.
Qed.

Lemma mono_set_upd p v m n :
  p <> NULL -> m !! p = Some n -> exists m', mono_set p v m = Some m' /\ upd m m' p v.
Proof.
  intros Hp Hm. unfold mono_set, mono_load. case (Z.eqb_spec p NULL); [done|]. intros _.
  rewrite Hm. simpl. eexists. split; [done|]. apply upd_insert.
Qed.

Lemma mono_seg_snoc m m' l t new :
  wf_nodes (l ++ [t]) -> mono_seg m (l ++ [t]) -> upd m m' t new -> m' !! new = Some NULL ->
  mono_seg m' (l ++ [t; new]).
Proof.
  induction l as [|x l IH]; intros Hwf Hs Hu Hn; simpl in *.
  - split; [apply Hu|]. split; [done|done].
  - apply wf_nodes_cons in Hwf as (_ & Hx & Hwf). destruct Hs as [Hx0 Hs]. split; [|by apply IH].
    rewrite (upd_ne _ _ _ _ _ Hu).
    + rewrite Hx0. by destruct l.
    + intros ->. apply Hx, elem_of_app. right. left.
Qed.

(** A pool with its tail pointer is a first-in first-out queue of objects. *)
Lemma _list_mono_allocate_seq_rep m h t x l :
  mono_rep m h t (x :: l) ->
  exists h' t', _list_mono_allocate_seq h t m = Some (x, h', t') /\ mono_rep m h' t' l.
Proof.
  intros (-> & -> & (Hx & Hxl & Hwf)%wf_nodes_cons & Hx0 & Hs). simpl hd_or in *.
  unfold _list_mono_allocate_seq, mono_load. case (Z.eqb_spec x NULL); [done|]. intros _.
  rewrite Hx0. simpl. do 2 eexists. split; [done|]. split; [done|]. split; [|by split].
  rewrite last_or_cons. destruct l as [|y l]; [by rewrite Z.eqb_refl|].
  rewrite !last_or_cons. case (Z.eqb_spec (last_or y l) x) as [E|]; [|done].
  exfalso. apply Hxl. rewrite <-E. apply last_or_in.
Qed.

Lemma _list_mono_free_seq_rep m h t l new :
  mono_rep m h t l -> new ∉ l -> new <> NULL -> is_Some (m !! new) ->
  exists m' h', _list_mono_free_seq h t new m = Some (m', h', new) /\
    mono_rep m' h' new (l ++ [new]) /\ frame m m' (new :: l).
Proof.
  intros (-> & -> & Hwf & Hs) Hnew Hnn [n0 Hn0]. unfold _list_mono_free_seq.
  run_set (mono_set_upd new NULL m n0 Hnn Hn0) m1 U1.
  assert (Hs1 : mono_seg m1 l).
  { eapply mono_seg_frame; [apply U1| |done]. intros x Hx. rewrite list_elem_of_singleton.
    by intros ->. }
  assert (Hwf' : wf_nodes (l ++ [new])).
  { apply wf_nodes_perm with (new :: l); [apply Permutation_cons_append|by apply wf_nodes_cons]. }
  destruct l as [|y l' _] using rev_ind; simpl.
  - exists m1, new. splits; [done| |solve_frame]. split; [done|]. split; [done|].
    split; [done|]. split; [apply U1|done].
  - rewrite last_or_snoc.
    assert (Hy : y ∈ l' ++ [y]) by (apply elem_of_app; right; left).
    pose proof (wf_nodes_in _ _ Hwf Hy) as Hyn.
    case (Z.eqb_spec y NULL); [done|]. intros _. simpl.
    assert (is_Some (m1 !! y)) as [n1 Hn1].
    { clear -Hs1. induction l' as [|x l' IH]; simpl in Hs1; [|apply IH, Hs1].
      destruct Hs1 as [-> _]. done. }
    run_set (mono_set_upd y new m1 n1 Hyn Hn1) m2 U2.
    eexists m2, _. split; [done|]. split.
    + split; [by destruct l'|]. split; [by rewrite last_or_snoc|]. split; [done|].
      rewrite <-app_assoc. eapply mono_seg_snoc; [done..|].
      rewrite (upd_ne _ _ _ _ _ U2); [apply U1|]. by intros ->.
    + assert (y ∈ new :: l' ++ [y]) by (by right). solve_frame.
Qed.

(** ** Refinement of sequences of operations

    The contract the rest of the kernel relies on: starting from a header
    that denotes a list, any sequence of legal calls runs without touching an
    unmapped node and ends with a header that denotes the list the abstract
    operations compute; nodes outside the arena [N] are never written. *)

Section Arena.
Variable N : list ptr.

(** Every node of the arena is mapped. *)
Definition arena {A} (m : gmap ptr A) : Prop := forall x, x ∈ N -> x <> NULL /\ is_Some (m !! x).

Lemma arena_step {A} (m m' : gmap ptr A) l l' :
  arena m -> frame m m' l -> (forall x, x ∈ l -> is_Some (m' !! x)) -> l' = l -> arena m'.
Proof.
  intros Ha Hf Hm _ x Hx. destruct (Ha x Hx) as [? Hs]. split; [done|].
  destruct (decide (x ∈ l)) as [Hi|Hi]; [by apply Hm|]. by rewrite Hf.
Qed.

Lemma dseg_mapped m p l q x : dseg m p l q -> x ∈ l -> is_Some (m !! x).
Proof. intros Hd (l1 & l2 & ->)%list_elem_of_split. by rewrite (dseg_mid _ _ _ _ _ _ Hd). Qed.

Lemma frame_mono {A} (m m' : gmap ptr A) l l' :
  frame m m' l -> (forall x, x ∈ l -> x ∈ l') -> frame m m' l'.
Proof. intros Hf Hl x Hx. apply Hf. intros Hi. by apply Hx, Hl. Qed.

(** *** Rings *)

Inductive ring_op := RAhead (x : ptr) | RFront (x : ptr) | RLast (x : ptr) | RDel (x : ptr) | RNext.

Definition ring_exec (op : ring_op) (s : store * ptr) : option (store * ptr) :=
  let '(m, h) := s in
  match op with
  | RAhead x => _List_Ring_Add_Ahead x h m
  | RFront x => _List_Ring_Add_Front x h m
  | RLast x => _List_Ring_Add_Last x h m
  | RDel x => _List_Ring_Del x h m
  | RNext => h' ← _list_ring_next h m; Some (m, h')
  end.

Definition ring_spec (op : ring_op) (l : list ptr) : list ptr :=
  match op with
  | RAhead x => x :: l
  | RFront x => add_front x l
  | RLast x => l ++ [x]
  | RDel x => remove_node x l
  | RNext => match l with [] => [] | h :: l' => l' ++ [h] end
  end.

(** The callers' obligations: a node is inserted when it is in no ring, and
    removed from the ring it is in. *)
Definition ring_legal (op : ring_op) (l : list ptr) : Prop :=
  match op with
  | RAhead x | RFront x | RLast x => x ∈ N /\ x ∉ l
  | RDel x => x ∈ l
  | RNext => l <> []
  end.

Fixpoint run {op S} (exec : op -> S -> option S) (ops : list op) (s : S) : option S :=
  match ops with [] => Some s | o :: ops' => s' ← exec o s; run exec ops' s' end.

Fixpoint legal {op T} (ok : op -> list T -> Prop) (spec : op -> list T -> list T)
    (ops : list op) (l : list T) : Prop :=
  match ops with [] => True | o :: ops' => ok o l /\ legal ok spec ops' (spec o l) end.

Lemma ring_step_refines op m h l :
  arena m -> (forall x, x ∈ l -> x ∈ N) -> ring_rep m h l -> ring_legal op l ->
  exists m' h', ring_exec op (m, h) = Some (m', h') /\ ring_rep m' h' (ring_spec op l) /\
    arena m' /\ (forall x, x ∈ ring_spec op l -> x ∈ N) /\ frame m m' N.
Proof.
  intros Ha Hl Hr Hok.
  assert (Hadd : forall x m' h' l', x ∈ N -> x ∉ l -> l' ≡ₚ x :: l ->
    ring_rep m' h' l' -> frame m m' (x :: l) ->
    arena m' /\ (forall y, y ∈ l' -> y ∈ N) /\ frame m m' N).
  { intros x m' h' l' Hx Hxl Hp (_ & _ & Hd) Hf.
    assert (Hin : forall y, y ∈ x :: l -> y ∈ N) by (intros y [->|?]%elem_of_cons; auto).
    splits.
    - eapply arena_step; [done..| |done]. intros y Hy. rewrite <-Hp in Hy. by eapply dseg_mapped.
    - intros y Hy. rewrite Hp in Hy. auto.
    - by eapply frame_mono. }
  destruct op as [x|x|x|x|]; simpl in *.
  - destruct Hok as [Hx Hxl]. destruct (Ha x Hx) as [Hn Hs].
    destruct (_List_Ring_Add_Ahead_rep m h l x) as (m' & E & Hr' & Hf); [done..|].
    exists m', x. split; [done|]. split; [done|]. by eapply Hadd.
  - destruct Hok as [Hx Hxl]. destruct (Ha x Hx) as [Hn Hs].
    destruct (_List_Ring_Add_Front_rep m h l x) as (m' & E & Hr' & Hf); [done..|].
    eexists m', _. split; [done|]. split; [done|]. eapply Hadd; try done. apply add_front_perm.
  - destruct Hok as [Hx Hxl]. destruct (Ha x Hx) as [Hn Hs].
    destruct (_List_Ring_Add_Last_rep m h l x) as (m' & E & Hr' & Hf); [done..|].
    eexists m', _. split; [done|]. split; [done|]. eapply Hadd; try done.
    by rewrite <-Permutation_cons_append.
  - destruct (_List_Ring_Del_rep m h l x Hr Hok) as (m' & E & Hr' & Hdx & Hf).
    eexists m', _. splits; try done.
    + eapply arena_step; [done..| |done]. intros y Hy. destruct (decide (y = x)) as [->|Hne]; [done|].
      destruct Hr' as (_ & _ & Hd). eapply dseg_mapped; [done|].
      apply elem_of_remove_node; [apply Hr|done].
    + intros y Hy. apply Hl. apply elem_of_remove_node in Hy; [by destruct Hy|apply Hr].
    + by eapply frame_mono.
  - destruct l as [|x l]; [done|]. apply ring_rep_cons in Hr as (-> & Hwf & Hd).
    assert (Hx : x <> NULL) by (by apply wf_nodes_cons in Hwf as [? _]).
    unfold _list_ring_next. rewrite (get_next_eq x m _ Hx (dseg_head _ _ _ _ _ Hd)). simpl.
    eexists m, _. splits; [done| |done| |auto with lists].
    + split; [by destruct l|]. split.
      * eapply wf_nodes_perm; [apply Permutation_cons_append|done].
      * apply (cyc_rotate m [x] l). unfold cyc. simpl. by rewrite last_or_cons.
    + intros y Hy. apply Hl. by rewrite Permutation_cons_append.
Qed.

(** *** Lines *)

Inductive line_op := LAhead (x : ptr) | LTail (x : ptr) | LLeft (x y : ptr) | LRight (x y : ptr)
  | LDel (x : ptr).

(** [LLeft x y]: insertion of [x] before [y] the way [_WakeupAdd] and
    [_AddTCBToEventPriority] do it, through the header when [y] is first. *)
Definition line_exec (op : line_op) (s : store * ptr) : option (store * ptr) :=
  let '(m, h) := s in
  match op with
  | LAhead x => _List_Line_Add_Ahead x h m
  | LTail x => _List_Line_Add_Tail x h m
  | LLeft x y => if y =? h then _List_Line_Add_Ahead x h m
                 else m ← _List_Line_Add_Left x y m; Some (m, h)
  | LRight x y => m ← _List_Line_Add_Right x y m; Some (m, h)
  | LDel x => _List_Line_Del x h m
  end.

(** The neighbours of a node in a line. *)
Fixpoint list_next (x : Z) (l : list Z) : option Z :=
  match l with
  | [] => None
  | y :: l => if y =? x then head l else list_next x l
  end.
Definition list_prev (x : Z) (l : list Z) : option Z := list_next x (reverse l).

Lemma list_next_mid s l1 l2 : s ∉ l1 -> list_next s (l1 ++ s :: l2) = head l2.
Proof.
  induction l1 as [|x l1 IH]; cbn [app list_next]; [by rewrite Z.eqb_refl|].
  intros [Hne Hn]%not_elem_of_cons. rewrite (proj2 (Z.eqb_neq x s)) by congruence. auto.
Qed.

Lemma list_prev_mid s l1 l2 : s ∉ l2 -> list_prev s (l1 ++ s :: l2) = last l1.
Proof.
  intros H. unfold list_prev. rewrite reverse_app, reverse_cons, <-app_assoc. cbn [app].
  rewrite list_next_mid by (by rewrite elem_of_reverse). by rewrite head_reverse.
Qed.

Fixpoint insert_before (x y : Z) (l : list Z) : list Z :=
  match l with [] => [] | z :: l' => if z =? y then x :: l else z :: insert_before x y l' end.

Fixpoint insert_after (x y : Z) (l : list Z) : list Z :=
  match l with [] => [] | z :: l' => if z =? y then z :: x :: l' else z :: insert_after x y l' end.

Definition line_spec (op : line_op) (l : list ptr) : list ptr :=
  match op with
  | LAhead x => x :: l
  | LTail x => add_front x l
  | LLeft x y => insert_before x y l
  | LRight x y => insert_after x y l
  | LDel x => remove_node x l
  end.

Definition line_legal (op : line_op) (l : list ptr) : Prop :=
  match op with
  | LAhead x | LTail x => x ∈ N /\ x ∉ l
  | LLeft x y | LRight x y => x ∈ N /\ x ∉ l /\ y ∈ l
  | LDel x => x ∈ l
  end.

Lemma insert_before_app x y l1 l2 : y ∉ l1 -> insert_before x y (l1 ++ y :: l2) = l1 ++ x :: y :: l2.
Proof.
  induction l1 as [|z l1 IH]; intros Hy; simpl; [by rewrite Z.eqb_refl|].
  apply not_elem_of_cons in Hy as [? ?]. case (Z.eqb_spec z y); [congruence|]. by rewrite IH.
Qed.

Lemma insert_after_app x y l1 l2 : y ∉ l1 -> insert_after x y (l1 ++ y :: l2) = l1 ++ y :: x :: l2.
Proof.
  induction l1 as [|z l1 IH]; intros Hy; simpl; [by rewrite Z.eqb_refl|].
  apply not_elem_of_cons in Hy as [? ?]. case (Z.eqb_spec z y); [congruence|]. by rewrite IH.
Qed.

(** Splitting a well-formed list at a member. *)
Lemma wf_nodes_split y l :
  wf_nodes l -> y ∈ l -> exists l1 l2, l = l1 ++ y :: l2 /\ y ∉ l1.
Proof.
  intros [Hwf _] (l1 & l2 & ->)%list_elem_of_split. exists l1, l2. split; [done|].
  apply NoDup_app in Hwf as (_ & Hdis & _). intros Hin. apply (Hdis y Hin). left.
Qed.

Lemma line_step_refines op m h l :
  arena m -> (forall x, x ∈ l -> x ∈ N) -> line_rep m h l -> line_legal op l ->
  exists m' h', line_exec op (m, h) = Some (m', h') /\ line_rep m' h' (line_spec op l) /\
    arena m' /\ (forall x, x ∈ line_spec op l -> x ∈ N) /\ frame m m' N.
Proof.
  intros Ha Hl Hr Hok.
  assert (Hadd : forall x m' h' l', x ∈ N -> x ∉ l -> l' ≡ₚ x :: l ->
    line_rep m' h' l' -> frame m m' (x :: l) ->
    arena m' /\ (forall y, y ∈ l' -> y ∈ N) /\ frame m m' N).
  { intros x m' h' l' Hx Hxl Hp (_ & _ & Hd) Hf.
    assert (Hin : forall y, y ∈ x :: l -> y ∈ N) by (intros y [->|?]%elem_of_cons; auto).
    splits.
    - eapply arena_step; [done..| |done]. intros y Hy. rewrite <-Hp in Hy. by eapply dseg_mapped.
    - intros y Hy. rewrite Hp in Hy. auto.
    - by eapply frame_mono. }
  destruct op as [x|x|x y|x y|x]; simpl in *.
  - destruct Hok as [Hx Hxl]. destruct (Ha x Hx) as [Hn Hs].
    destruct (_List_Line_Add_Ahead_rep m h l x) as (m' & E & Hr' & Hf); [done..|].
    exists m', x. split; [done|]. split; [done|]. by eapply Hadd.
  - destruct Hok as [Hx Hxl]. destruct (Ha x Hx) as [Hn Hs]. destruct l as [|y l].
    + apply line_rep_null in Hr as ->. destruct (_List_Line_Add_Ahead_rep m NULL [] x)
        as (m' & E & Hr' & Hf); [by apply line_rep_null|done..|].
      destruct Hs as [n0 Hn0]. unfold _List_Line_Add_Tail. simpl.
      run_set (set_prev_upd x NULL m n0 Hn Hn0) m1 U1.
      run_set (set_next_upd x NULL m1 _ Hn (proj1 U1)) m2 U2.
      assert (Hr2 : line_rep m2 x [x]).
      { split; [done|]. split; [by apply wf_nodes_cons; auto with lists|]. split; [apply U2|done]. }
      eexists m2, _. split; [done|]. split; [done|]. eapply Hadd; [done..|]. solve_frame.
    + pose proof Hr as (-> & _ & _). simpl.
      destruct (_List_Line_Add_Tail_rep m y [] y l x) as (m' & E & Hr' & Hf); [done..|].
      eexists m', _. split; [done|]. split; [done|]. eapply Hadd; try done. apply Permutation_swap.
  - destruct Hok as (Hx & Hxl & Hy). destruct (Ha x Hx) as [Hn Hs].
    destruct (wf_nodes_split y l (proj1 (proj2 Hr)) Hy) as (l1 & l2 & -> & Hy1).
    rewrite insert_before_app by done.
    assert (Hp : l1 ++ x :: y :: l2 ≡ₚ x :: l1 ++ y :: l2) by (by rewrite Permutation_middle).
    destruct l1 as [|w l1].
    + pose proof Hr as (-> & _ & _). simpl. rewrite Z.eqb_refl.
      destruct (_List_Line_Add_Ahead_rep m y (y :: l2) x) as (m' & E & Hr' & Hf); [done..|].
      eexists m', _. split; [done|]. split; [done|]. by eapply Hadd.
    + assert (Hyh : y <> h).
      { destruct Hr as (-> & _ & _). simpl. intros <-. apply Hy1. left. }
      case (Z.eqb_spec y h); [done|]. intros _.
      destruct (_List_Line_Add_Left_rep m h (w :: l1) y l2 x) as (m' & -> & Hr' & Hf); [done..|].
      eexists m', _. split; [done|]. split; [done|]. by eapply Hadd.
  - destruct Hok as (Hx & Hxl & Hy). destruct (Ha x Hx) as [Hn Hs].
    destruct (wf_nodes_split y l (proj1 (proj2 Hr)) Hy) as (l1 & l2 & -> & Hy1).
    rewrite insert_after_app by done.
    destruct (_List_Line_Add_Right_rep m h l1 y l2 x) as (m' & -> & Hr' & Hf); [done..|].
    eexists m', _. split; [done|]. split; [done|]. eapply Hadd; try done.
    rewrite Permutation_swap. by rewrite Permutation_middle.
  - destruct (_List_Line_Del_rep m h l x Hr Hok) as (m' & E & Hr' & Hf).
    assert (Hin : forall y, y ∈ remove_node x l -> y ∈ l).
    { intros y Hy. apply elem_of_remove_node in Hy as [? _]; [done|apply Hr]. }
    eexists m', _. splits; try done.
    + eapply arena_step; [done..| |done]. intros y Hy.
      destruct Hr' as (_ & _ & Hd). by eapply dseg_mapped.
    + intros y Hy. auto.
    + eapply frame_mono; [done|]. auto.
Qed.

(** *** Pools *)

Inductive pool_op := PAlloc (x : ptr) | PFree (x : ptr).

(** The state is the chain, its head and its tail; [PAlloc x] is an
    allocation that returns [x]. *)
Definition pool_exec (op : pool_op) (s : mono_store * ptr * ptr) : option (mono_store * ptr * ptr) :=
  let '(m, h, t) := s in
  match op with
  | PAlloc x => '(r, h, t) ← _list_mono_allocate_seq h t m; if r =? x then Some (m, h, t) else None
  | PFree x => _list_mono_free_seq h t x m
  end.

Definition pool_spec (op : pool_op) (l : list ptr) : list ptr :=
  match op with PAlloc _ => tl l | PFree x => l ++ [x] end.

Definition pool_legal (op : pool_op) (l : list ptr) : Prop :=
  match op with PAlloc x => head l = Some x | PFree x => x ∈ N /\ x ∉ l end.

Lemma mono_seg_mapped m l x : mono_seg m l -> x ∈ l -> is_Some (m !! x).
Proof.
  induction l as [|y l IH]; [by intros _ ?%not_elem_of_nil|].
  intros [Hy Hs] [->|Hx]%elem_of_cons; [by rewrite Hy|auto].
Qed.

Lemma pool_step_refines op m h t l :
  arena m -> mono_rep m h t l -> pool_legal op l ->
  exists m' h' t', pool_exec op (m, h, t) = Some (m', h', t') /\ mono_rep m' h' t' (pool_spec op l)
    /\ arena m'.
Proof.
  intros Ha Hr Hok. destruct op as [x|x]; simpl in *.
  - destruct l as [|y l]; [done|]. injection Hok as ->.
    destruct (_list_mono_allocate_seq_rep m h t x l Hr) as (h' & t' & -> & Hr'). simpl.
    rewrite Z.eqb_refl. by exists m, h', t'.
  - destruct Hok as [Hx Hxl]. destruct (Ha x Hx) as [Hn Hs].
    destruct (_list_mono_free_seq_rep m h t l x Hr Hxl Hn Hs) as (m' & h' & -> & Hr' & Hf).
    exists m', h', x. splits; [done..|]. eapply arena_step; [done..| |done].
    intros y Hy. destruct Hr' as (_ & _ & _ & Hs'). eapply mono_seg_mapped; [done|].
    by rewrite <-Permutation_cons_append.
Qed.
End Arena.

(** Any sequence of legal ring calls runs without fault and implements the
    list operations. A header denoting [l] goes to a header
    denoting the list the abstract operations compute, and nothing outside the
    arena is written. *)
Theorem ring_refines N ops m h l :
  arena N m -> (forall x, x ∈ l -> x ∈ N) -> ring_rep m h l -> legal (ring_legal N) ring_spec ops l ->
  exists m' h', run ring_exec ops (m, h) = Some (m', h') /\
    ring_rep m' h' (fold_left (fun l o => ring_spec o l) ops l) /\ frame m m' N.
Proof.
  revert m h l. induction ops as [|o ops IH]; intros m h l Ha Hl Hr Hok;
    cbn [run fold_left legal] in *.
  - by exists m, h; auto with lists.
  - destruct Hok as [Ho Hok].
    destruct (ring_step_refines N o m h l) as (m1 & h1 & -> & Hr1 & Ha1 & Hl1 & Hf1); [done..|].
    destruct (IH m1 h1 _ Ha1 Hl1 Hr1 Hok) as (m2 & h2 & E & Hr2 & Hf2).
    exists m2, h2. splits; [done..|]. by eapply frame_trans.
Qed.

(** The same for the doubly linked lines, insertion before and after a
    given node included. *)
Theorem line_refines N ops m h l :
  arena N m -> (forall x, x ∈ l -> x ∈ N) -> line_rep m h l -> legal (line_legal N) line_spec ops l ->
  exists m' h', run line_exec ops (m, h) = Some (m', h') /\
    line_rep m' h' (fold_left (fun l o => line_spec o l) ops l) /\ frame m m' N.
Proof.
  revert m h l. induction ops as [|o ops IH]; intros m h l Ha Hl Hr Hok;
    cbn [run fold_left legal] in *.
  - by exists m, h; auto with lists.
  - destruct Hok as [Ho Hok].
    destruct (line_step_refines N o m h l) as (m1 & h1 & -> & Hr1 & Ha1 & Hl1 & Hf1); [done..|].
    destruct (IH m1 h1 _ Ha1 Hl1 Hr1 Hok) as (m2 & h2 & E & Hr2 & Hf2).
    exists m2, h2. splits; [done..|]. by eapply frame_trans.
Qed.

(** A pool with a tail pointer (the kernel's object pools) is a first-in
    first-out queue: whatever the sequence of frees and allocations, the object
    allocated is the one freed longest ago. *)
Theorem pool_refines N ops m h t l :
  arena N m -> mono_rep m h t l -> legal (pool_legal N) pool_spec ops l ->
  exists m' h' t', run pool_exec ops (m, h, t) = Some (m', h', t') /\
    mono_rep m' h' t' (fold_left (fun l o => pool_spec o l) ops l).
Proof.
  revert m h t l. induction ops as [|o ops IH]; intros m h t l Ha Hr Hok;
    cbn [run fold_left legal] in *.
  - by exists m, h, t.
  - destruct Hok as [Ho Hok].
    destruct (pool_step_refines N o m h t l) as (m1 & h1 & t1 & -> & Hr1 & Ha1); [done..|].
    by apply (IH m1 h1 t1).
Qed.

(** *** Witnesses: an arena of three unlinked nodes *)

Definition blank : store :=
  <[16 := mkNode 0 0]> (<[32 := mkNode 0 0]> (<[48 := mkNode 0 0]> ∅)).

Definition blank_mono : mono_store := <[16 := 0]> (<[32 := 0]> (<[48 := 0]> ∅)).

Lemma arena3 {A} (m : gmap ptr A) a b c :
  m !! 16 = Some a -> m !! 32 = Some b -> m !! 48 = Some c -> arena [16; 32; 48] m.
Proof.
  intros Ha Hb Hc x Hx. repeat (apply elem_of_cons in Hx as [->|Hx]; [by split; [done|eexists]|]).
  by apply not_elem_of_nil in Hx.
Qed.

Lemma ring_refines_witness :
  exists m' h', run ring_exec [RLast 16; RAhead 32; RFront 48; RNext; RDel 32] (blank, NULL)
      = Some (m', h') /\ ring_rep m' h' [48; 16] /\ frame blank m' [16; 32; 48].
Proof.
  apply (ring_refines [16; 32; 48] [RLast 16; RAhead 32; RFront 48; RNext; RDel 32] blank NULL []).
  - by eapply arena3.
  - by intros x ?%not_elem_of_nil.
  - by apply ring_rep_null.
  - cbn. splits; decide_now.
Defined.

Lemma line_refines_witness :
  exists m' h', run line_exec [LAhead 16; LLeft 32 16; LRight 48 32; LDel 32] (blank, NULL)
      = Some (m', h') /\ line_rep m' h' [48; 16] /\ frame blank m' [16; 32; 48].
Proof.
  apply (line_refines [16; 32; 48] [LAhead 16; LLeft 32 16; LRight 48 32; LDel 32] blank NULL []).
  - by eapply arena3.
  - by intros x ?%not_elem_of_nil.
  - by apply line_rep_null.
  - cbn. splits; decide_now.
Defined.

Lemma pool_refines_witness :
  exists m' h' t', run pool_exec [PFree 16; PFree 32; PAlloc 16; PFree 48; PAlloc 32]
      (blank_mono, NULL, NULL) = Some (m', h', t') /\ mono_rep m' h' t' [48].
Proof.
  apply (pool_refines [16; 32; 48] [PFree 16; PFree 32; PAlloc 16; PFree 48; PAlloc 32]
    blank_mono NULL NULL []).
  - by eapply arena3.
  - split; [done|]. split; [done|]. by split; [apply wf_nodes_nil|].
  - cbn. splits; decide_now.
Defined.
