(* ===== verification/Bitmap.v ===== *)
(** * Priority bitmaps: kernel/core/_BitmapLib.c and archFindLsb of the RISC-V port

    The two-level bitmap of 256 priorities that every ready table and message
    queue is indexed by, over the table-driven [archFindLsb]
    of arch/riscv/common/riscvLib.c.  It is shown to be a set of priorities with a constant-time minimum. *)

From S2P Require Import Prelude.

(** ** archFindLsb / archFindMsb *)

Definition ucLsbBitmap : list Z :=
 [   0; 0; 1; 0; 2; 0; 1; 0; 3; 0; 1; 0; 2; 0; 1; 0; 4; 0; 1; 0; 2; 0; 1; 0; 3; 0; 1; 0; 2; 0; 1; 0;
   5; 0; 1; 0; 2; 0; 1; 0; 3; 0; 1; 0; 2; 0; 1; 0; 4; 0; 1; 0; 2; 0; 1; 0; 3; 0; 1; 0; 2; 0; 1; 0;
   6; 0; 1; 0; 2; 0; 1; 0; 3; 0; 1; 0; 2; 0; 1; 0; 4; 0; 1; 0; 2; 0; 1; 0; 3; 0; 1; 0; 2; 0; 1; 0;
   5; 0; 1; 0; 2; 0; 1; 0; 3; 0; 1; 0; 2; 0; 1; 0; 4; 0; 1; 0; 2; 0; 1; 0; 3; 0; 1; 0; 2; 0; 1; 0;
   7; 0; 1; 0; 2; 0; 1; 0; 3; 0; 1; 0; 2; 0; 1; 0; 4; 0; 1; 0; 2; 0; 1; 0; 3; 0; 1; 0; 2; 0; 1; 0;
   5; 0; 1; 0; 2; 0; 1; 0; 3; 0; 1; 0; 2; 0; 1; 0; 4; 0; 1; 0; 2; 0; 1; 0; 3; 0; 1; 0; 2; 0; 1; 0;
   6; 0; 1; 0; 2; 0; 1; 0; 3; 0; 1; 0; 2; 0; 1; 0; 4; 0; 1; 0; 2; 0; 1; 0; 3; 0; 1; 0; 2; 0; 1; 0;
   5; 0; 1; 0; 2; 0; 1; 0; 3; 0; 1; 0; 2; 0; 1; 0; 4; 0; 1; 0; 2; 0; 1; 0; 3; 0; 1; 0; 2; 0; 1; 0].

Definition ucMsbBitmap : list Z :=
 [   0; 0; 1; 1; 2; 2; 2; 2; 3; 3; 3; 3; 3; 3; 3; 3; 4; 4; 4; 4; 4; 4; 4; 4; 4; 4; 4; 4; 4; 4; 4; 4;
   5; 5; 5; 5; 5; 5; 5; 5; 5; 5; 5; 5; 5; 5; 5; 5; 5; 5; 5; 5; 5; 5; 5; 5; 5; 5; 5; 5; 5; 5; 5; 5;
   6; 6; 6; 6; 6; 6; 6; 6; 6; 6; 6; 6; 6; 6; 6; 6; 6; 6; 6; 6; 6; 6; 6; 6; 6; 6; 6; 6; 6; 6; 6; 6;
   6; 6; 6; 6; 6; 6; 6; 6; 6; 6; 6; 6; 6; 6; 6; 6; 6; 6; 6; 6; 6; 6; 6; 6; 6; 6; 6; 6; 6; 6; 6; 6;
   7; 7; 7; 7; 7; 7; 7; 7; 7; 7; 7; 7; 7; 7; 7; 7; 7; 7; 7; 7; 7; 7; 7; 7; 7; 7; 7; 7; 7; 7; 7; 7;
   7; 7; 7; 7; 7; 7; 7; 7; 7; 7; 7; 7; 7; 7; 7; 7; 7; 7; 7; 7; 7; 7; 7; 7; 7; 7; 7; 7; 7; 7; 7; 7;
   7; 7; 7; 7; 7; 7; 7; 7; 7; 7; 7; 7; 7; 7; 7; 7; 7; 7; 7; 7; 7; 7; 7; 7; 7; 7; 7; 7; 7; 7; 7; 7;
   7; 7; 7; 7; 7; 7; 7; 7; 7; 7; 7; 7; 7; 7; 7; 7; 7; 7; 7; 7; 7; 7; 7; 7; 7; 7; 7; 7; 7; 7; 7; 7].

(** Reading a static table; every index below is a [UINT8], hence in range. *)
Definition tab (t : list Z) (i : Z) : Z := nth (Z.to_nat i) t 0.

Definition archFindLsb (ui32 : Z) : Z :=
  let usMsw := wrap 16 (Z.shiftr ui32 16) in
  let usLsw := wrap 16 (Z.land ui32 0xffff) in
  if ui32 =? 0 then 0 else
  if negb (usLsw =? 0) then
    let ucByte := wrap 8 (Z.land usLsw 0xff) in
    if negb (ucByte =? 0) then tab ucLsbBitmap ucByte + 1
    else tab ucLsbBitmap (wrap 8 (Z.shiftr usLsw 8)) + 8 + 1
  else
    let ucByte := wrap 8 (Z.land usMsw 0xff) in
    if negb (ucByte =? 0) then tab ucLsbBitmap ucByte + 16 + 1
    else tab ucLsbBitmap (wrap 8 (Z.shiftr usMsw 8)) + 24 + 1.

Definition archFindMsb (ui32 : Z) : Z :=
  let usMsw := wrap 16 (Z.shiftr ui32 16) in
  let usLsw := wrap 16 (Z.land ui32 0xffff) in
  if ui32 =? 0 then 0 else
  if negb (usMsw =? 0) then
    let ucByte := wrap 8 (Z.shiftr usMsw 8) in
    if negb (ucByte =? 0) then tab ucMsbBitmap ucByte + 24 + 1
    else tab ucMsbBitmap (wrap 8 usMsw) + 16 + 1
  else
    let ucByte := wrap 8 (Z.shiftr usLsw 8) in
    if negb (ucByte =? 0) then tab ucMsbBitmap ucByte + 8 + 1
    else tab ucMsbBitmap (wrap 8 usLsw) + 1.

(** ** The bitmap: [LW_CLASS_BMAP] *)

Record LW_CLASS_BMAP := mkBmap { BMAP_uiMap : Z; BMAP_uiSubMap : list Z }.

Definition submap (b : LW_CLASS_BMAP) (i : Z) : Z := tab (BMAP_uiSubMap b) i.

Definition set_submap (b : LW_CLASS_BMAP) (i v : Z) : LW_CLASS_BMAP :=
  mkBmap (BMAP_uiMap b) (<[Z.to_nat i := v]> (BMAP_uiSubMap b)).

Definition set_map (b : LW_CLASS_BMAP) (v : Z) : LW_CLASS_BMAP := mkBmap v (BMAP_uiSubMap b).

(** [lib_bzero] of the control block. *)
Definition _BitmapInit : LW_CLASS_BMAP := mkBmap 0 (replicate 8 0).

Definition _BitmapAdd (b : LW_CLASS_BMAP) (ucPriority : Z) : LW_CLASS_BMAP :=
  let i := Z.shiftr ucPriority 5 in
  let b := set_map b (Z.lor (BMAP_uiMap b) (wrap 32 (Z.shiftl 1 i))) in
  set_submap b i (Z.lor (submap b i) (wrap 32 (Z.shiftl 1 (Z.land ucPriority 0x1f)))).

Definition _BitmapDel (b : LW_CLASS_BMAP) (ucPriority : Z) : LW_CLASS_BMAP :=
  let i := Z.shiftr ucPriority 5 in
  let b := set_submap b i
    (Z.land (submap b i) (wrap 32 (Z.lnot (Z.shiftl 1 (Z.land ucPriority 0x1f))))) in
  if submap b i =? 0
  then set_map b (Z.land (BMAP_uiMap b) (wrap 32 (Z.lnot (Z.shiftl 1 i))))
  else b.

Definition _BitmapHigh (b : LW_CLASS_BMAP) : Z :=
  let uiHigh := archFindLsb (BMAP_uiMap b) in
  if uiHigh =? 0 then 0 else
  let uiHigh := uiHigh - 1 in
  let uiLow := wrap 32 (archFindLsb (submap b uiHigh) - 1) in
  wrap 8 (Z.lor (Z.shiftl uiHigh 5) uiLow).

Definition _BitmapIsEmpty (b : LW_CLASS_BMAP) : bool := BMAP_uiMap b =? 0.

(** ** Bits of machine words *)

Lemma testbit_wrap w x k : 0 <= w -> 0 <= k -> Z.testbit (wrap w x) k = (k <? w) && Z.testbit x k.
Proof. intros. unfold wrap. by apply Z.testbit_mod_pow2. Qed.

Lemma testbit_zero_word w x k : 0 <= w -> wrap w x = 0 -> 0 <= k < w -> Z.testbit x k = false.
Proof.
  intros Hw Hx Hk. pose proof (testbit_wrap w x k) as H. rewrite Hx, Z.bits_0 in H.
  specialize (H ltac:(lia) ltac:(lia)). rewrite (proj2 (Z.ltb_lt k w)) in H by lia. done.
Qed.

Lemma testbit_pow2 i k : 0 <= i -> 0 <= k -> Z.testbit (2 ^ i) k = (k =? i).
Proof. intros. rewrite Z.pow2_bits_eqb by done. apply Z.eqb_sym. Qed.

(** The lowest and the highest bit of a word. *)
Definition lsb (x n : Z) : Prop := Z.testbit x n = true /\ forall k, 0 <= k < n -> Z.testbit x k = false.
Definition msb (x n : Z) : Prop := Z.testbit x n = true /\ forall k, n < k -> Z.testbit x k = false.

(** *** The tables, checked entry by entry *)

Definition byte_ok (f : Z -> Z -> bool) (t : list Z) (b : nat) : bool :=
  let n := tab t (Z.of_nat b) in
  (0 <=? n) && (n <? 8) && Z.testbit (Z.of_nat b) n &&
  forallb (fun k => if f (Z.of_nat k) n then negb (Z.testbit (Z.of_nat b) (Z.of_nat k)) else true)
    (seq 0 8).

Lemma byte_ok_spec f t b :
  forallb (byte_ok f t) (seq 1 255) = true -> 0 < b < 256 ->
  0 <= tab t b < 8 /\ Z.testbit b (tab t b) = true /\
  forall k, 0 <= k < 8 -> f k (tab t b) = true -> Z.testbit b k = false.
Proof.
  intros H Hb. rewrite forallb_forall in H. specialize (H (Z.to_nat b)).
  unfold byte_ok in H. rewrite Z2Nat.id in H by lia.
  rewrite !andb_true_iff, forallb_forall, Z.leb_le, Z.ltb_lt in H.
  destruct H as [[[H1 H2] H3] H4]; [apply in_seq; lia|]. splits; [done..|].
  intros k Hk Hf. specialize (H4 (Z.to_nat k)). rewrite Z2Nat.id, Hf in H4 by lia.
  apply negb_true_iff, H4, in_seq. lia.
Qed.

Lemma ucLsbBitmap_ok b : 0 < b < 256 -> 0 <= tab ucLsbBitmap b < 8 /\ lsb b (tab ucLsbBitmap b).
Proof.
  intros Hb. destruct (byte_ok_spec Z.ltb ucLsbBitmap b) as (H1 & H2 & H3);
    [by vm_compute|done|]. split; [done|]. split; [done|]. intros k Hk. apply H3; lia.
Qed.

Lemma ucMsbBitmap_ok b : 0 < b < 256 -> 0 <= tab ucMsbBitmap b < 8 /\ msb b (tab ucMsbBitmap b).
Proof.
  intros Hb. destruct (byte_ok_spec Z.gtb ucMsbBitmap b) as (H1 & H2 & H3);
    [by vm_compute|done|]. split; [done|]. split; [done|]. intros k Hk.
  destruct (Z.ltb_spec k 8); [apply H3; lia|].
  apply Z.bits_above_log2; [lia|]. apply Z.log2_lt_pow2; [lia|].
  assert (2 ^ 8 <= 2 ^ k) by (apply Z.pow_le_mono_r; lia). lia.
Qed.

(** [b] is byte [j] of [x]. *)
Definition byte_of (x j b : Z) : Prop :=
  0 <= b < 256 /\ forall k, 0 <= k < 8 -> Z.testbit b k = Z.testbit x (8 * j + k).

Lemma byte_of_0 x j k : byte_of x j 0 -> 8 * j <= k < 8 * j + 8 -> Z.testbit x k = false.
Proof.
  intros [_ H] Hk. specialize (H (k - 8 * j)). rewrite Z.bits_0 in H.
  replace (8 * j + (k - 8 * j)) with k in H by lia. symmetry. apply H. lia.
Qed.

Lemma lsb_byte x j b :
  0 <= j -> byte_of x j b -> b <> 0 -> (forall k, 0 <= k < 8 * j -> Z.testbit x k = false) ->
  exists n, tab ucLsbBitmap b + 8 * j = n /\ 8 * j <= n < 8 * j + 8 /\ lsb x n.
Proof.
  intros Hj [Hb Hbit] Hnz Hlow. destruct (ucLsbBitmap_ok b) as (Hr & Ht & Hl); [lia|].
  eexists. split; [done|]. split; [lia|]. split.
  - rewrite <-Ht, Hbit by lia. f_equal. lia.
  - intros k Hk. destruct (Z.ltb_spec k (8 * j)); [apply Hlow; lia|].
    replace k with (8 * j + (k - 8 * j)) by lia. rewrite <-Hbit by lia. apply Hl. lia.
Qed.

Lemma msb_byte x j b :
  0 <= j -> byte_of x j b -> b <> 0 -> (forall k, 8 * j + 8 <= k -> Z.testbit x k = false) ->
  exists n, tab ucMsbBitmap b + 8 * j = n /\ 8 * j <= n < 8 * j + 8 /\ msb x n.
Proof.
  intros Hj [Hb Hbit] Hnz Hhigh. destruct (ucMsbBitmap_ok b) as (Hr & Ht & Hl); [lia|].
  eexists. split; [done|]. split; [lia|]. split.
  - rewrite <-Ht, Hbit by lia. f_equal. lia.
  - intros k Hk. destruct (Z.ltb_spec k (8 * j + 8)); [|apply Hhigh; lia].
    replace k with (8 * j + (k - 8 * j)) by lia. rewrite <-Hbit by lia. apply Hl. lia.
Qed.

(** Decide a bit of a word assembled from masks, shifts and truncations. *)
Ltac solve_byte_of :=
  split; [apply wrap_range; lia|]; let k := fresh "k" in intros k ?;
  rewrite ?testbit_wrap, ?Z.land_spec, ?Z.shiftr_spec, ?testbit_wrap, ?Z.land_spec,
    ?Z.shiftr_spec by lia;
  change 255 with (Z.ones 8); change 65535 with (Z.ones 16);
  rewrite ?Z.testbit_ones_nonneg by lia;
  repeat match goal with |- context [?a <? ?b] => destruct (Z.ltb_spec a b); [|lia] end;
  rewrite ?andb_true_r; simpl; f_equal; lia.

Lemma word_bytes x :
  byte_of x 0 (wrap 8 (Z.land (wrap 16 (Z.land x 0xffff)) 0xff)) /\
  byte_of x 1 (wrap 8 (Z.shiftr (wrap 16 (Z.land x 0xffff)) 8)) /\
  byte_of x 2 (wrap 8 (Z.land (wrap 16 (Z.shiftr x 16)) 0xff)) /\
  byte_of x 3 (wrap 8 (Z.shiftr (wrap 16 (Z.shiftr x 16)) 8)) /\
  byte_of x 0 (wrap 8 (wrap 16 (Z.land x 0xffff))) /\
  byte_of x 2 (wrap 8 (wrap 16 (Z.shiftr x 16))).
Proof. splits; solve_byte_of. Qed.

Lemma word_zero w y : 0 <= w -> 0 <= y < 2 ^ w -> (forall k, 0 <= k < w -> Z.testbit y k = false) -> y = 0.
Proof.
  intros Hw Hy H. apply Z.bits_inj_0. intros k. destruct (Z.ltb_spec k 0); [by apply Z.testbit_neg_r|].
  destruct (Z.ltb_spec k w); [apply H; lia|]. rewrite <-(Z.mod_small y (2 ^ w)) by lia.
  apply Z.mod_pow2_bits_high. lia.
Qed.

Lemma testbit_above w y k : 0 <= w -> 0 <= y < 2 ^ w -> w <= k -> Z.testbit y k = false.
Proof.
  intros Hw Hy Hk. rewrite <-(Z.mod_small y (2 ^ w)) by lia. apply Z.mod_pow2_bits_high. lia.
Qed.

#[local] Opaque tab wrap.

(** A half word: zero, or with a byte that is not. *)
Lemma half_zero y j x : 0 <= y < 2 ^ 16 -> 
  (forall k, 0 <= k < 16 -> Z.testbit y k = Z.testbit x (16 * j + k)) ->
  (y = 0 <-> forall k, 16 * j <= k < 16 * j + 16 -> Z.testbit x k = false).
Proof.
  intros Hy H. split.
  - intros -> k Hk. specialize (H (k - 16 * j) ltac:(lia)). rewrite Z.bits_0 in H.
    replace (16 * j + (k - 16 * j)) with k in H by lia. done.
  - intros Hx. apply (word_zero 16); [lia|lia|]. intros k Hk. rewrite H by lia. apply Hx. lia.
Qed.

Lemma halves x :
  (wrap 16 (Z.land x 0xffff) = 0 <-> forall k, 0 <= k < 16 -> Z.testbit x k = false) /\
  (wrap 16 (Z.shiftr x 16) = 0 <-> forall k, 16 <= k < 32 -> Z.testbit x k = false).
Proof.
  split.
  - apply (half_zero _ 0); [apply wrap_range; lia|]. intros k Hk. rewrite testbit_wrap, Z.land_spec by lia.
    change 65535 with (Z.ones 16). rewrite Z.testbit_ones_nonneg by lia.
    destruct (Z.ltb_spec k 16); [|lia]. by rewrite andb_true_r.
  - apply (half_zero _ 1); [apply wrap_range; lia|]. intros k Hk.
    rewrite testbit_wrap, Z.shiftr_spec by lia. destruct (Z.ltb_spec k 16); [|lia].
    simpl. f_equal. lia.
Qed.

(** The bytes below or above are all zero. *)
Ltac zero_bytes :=
  intros k ?; destruct (Z.le_gt_cases 32 k);
    [first [eauto 2; fail | exfalso; lia]|];
  repeat match goal with
  | H : byte_of ?x ?j 0 |- Z.testbit ?x ?k = false =>
    destruct (decide (8 * j <= k < 8 * j + 8)); [by apply (byte_of_0 x j)|]; clear H
  | H : forall k, _ -> Z.testbit ?x k = false |- Z.testbit ?x ?k = false =>
    first [apply H; lia | clear H]
  end; try lia.

Lemma archFindLsb_spec x :
  0 <= x < 2 ^ 32 ->
  (x = 0 /\ archFindLsb x = 0) \/ exists n, archFindLsb x = n + 1 /\ 0 <= n < 32 /\ lsb x n.
Proof.
  intros Hx. destruct (word_bytes x) as (B0 & B1 & B2 & B3 & _ & _).
  destruct (halves x) as [HL HM]. unfold archFindLsb.
  destruct (Z.eqb_spec x 0) as [->|Hnz]; [by left|]. right.
  destruct (Z.eqb_spec (wrap 16 (Z.land x 65535)) 0) as [E|E]; cbn [negb].
  - clear B0 B1. pose proof (proj1 HL E) as E1.
    destruct (Z.eqb_spec (wrap 8 (Z.land (wrap 16 (Z.shiftr x 16)) 255)) 0) as [E0|E0]; cbn [negb].
    + rewrite E0 in B2. destruct (lsb_byte x 3 _ ltac:(lia) B3) as (n & En & ? & ?).
      * intros E2. rewrite E2 in B3. apply Hnz, (word_zero 32); [lia|done|]. zero_bytes.
      * zero_bytes.
      * exists n. splits; [lia..|done].
    + destruct (lsb_byte x 2 _ ltac:(lia) B2 E0) as (n & En & ? & ?); [zero_bytes|].
      exists n. splits; [lia..|done].
  - clear B2 B3. destruct (Z.eqb_spec (wrap 8 (Z.land (wrap 16 (Z.land x 65535)) 255)) 0) as [E0|E0]; cbn [negb].
    + rewrite E0 in B0. destruct (lsb_byte x 1 _ ltac:(lia) B1) as (n & En & ? & ?).
      * intros E2. rewrite E2 in B1. apply E, HL. zero_bytes.
      * zero_bytes.
      * exists n. splits; [lia..|done].
    + destruct (lsb_byte x 0 _ ltac:(lia) B0 E0) as (n & En & ? & ?); [zero_bytes|].
      exists n. splits; [lia..|done].
Qed.

Lemma archFindMsb_spec x :
  0 <= x < 2 ^ 32 ->
  (x = 0 /\ archFindMsb x = 0) \/ exists n, archFindMsb x = n + 1 /\ 0 <= n < 32 /\ msb x n.
Proof.
  intros Hx. destruct (word_bytes x) as (_ & B1 & _ & B3 & B0 & B2).
  assert (Htop : forall k, 32 <= k -> Z.testbit x k = false) by (intros; by apply (testbit_above 32)).
  destruct (halves x) as [HL HM]. unfold archFindMsb.
  destruct (Z.eqb_spec x 0) as [->|Hnz]; [by left|]. right.
  destruct (Z.eqb_spec (wrap 16 (Z.shiftr x 16)) 0) as [E|E]; cbn [negb].
  - clear B2 B3. pose proof (proj1 HM E) as E1.
    destruct (Z.eqb_spec (wrap 8 (Z.shiftr (wrap 16 (Z.land x 65535)) 8)) 0) as [E0|E0]; cbn [negb].
    + rewrite E0 in B1. destruct (msb_byte x 0 _ ltac:(lia) B0) as (n & En & ? & ?).
      * intros E2. rewrite E2 in B0. apply Hnz, (word_zero 32); [lia|done|]. zero_bytes.
      * zero_bytes.
      * exists n. splits; [lia..|done].
    + destruct (msb_byte x 1 _ ltac:(lia) B1 E0) as (n & En & ? & ?); [zero_bytes|].
      exists n. splits; [lia..|done].
  - clear B0 B1. destruct (Z.eqb_spec (wrap 8 (Z.shiftr (wrap 16 (Z.shiftr x 16)) 8)) 0) as [E0|E0]; cbn [negb].
    + rewrite E0 in B3. destruct (msb_byte x 2 _ ltac:(lia) B2) as (n & En & ? & ?).
      * intros E2. rewrite E2 in B2. apply E, HM. zero_bytes.
      * zero_bytes.
      * exists n. splits; [lia..|done].
    + destruct (msb_byte x 3 _ ltac:(lia) B3 E0) as (n & En & ? & ?); [zero_bytes|].
      exists n. splits; [lia..|done].
Qed.

(** ** The bitmap is a set of priorities *)

Definition prio_ok (p : Z) : Prop := 0 <= p < 256.

(** The main map has bit [i] exactly when sub-map [i] is not zero. *)
Record bmap_wf (b : LW_CLASS_BMAP) : Prop := {
  bw_len : length (BMAP_uiSubMap b) = 8%nat;
  bw_map : 0 <= BMAP_uiMap b < 2 ^ 8;
  bw_sub : forall i, 0 <= i < 8 -> 0 <= submap b i < 2 ^ 32;
  bw_bit : forall i, 0 <= i < 8 -> Z.testbit (BMAP_uiMap b) i = negb (submap b i =? 0)
}.

Definition bmap_mem (b : LW_CLASS_BMAP) (p : Z) : bool := Z.testbit (submap b (p / 32)) (p mod 32).

Lemma prio_split p : prio_ok p ->
  Z.shiftr p 5 = p / 32 /\ Z.land p 0x1f = p mod 32 /\ 0 <= p / 32 < 8 /\ 0 <= p mod 32 < 32.
Proof.
  intros Hp. unfold prio_ok in Hp. rewrite Z.shiftr_div_pow2 by lia.
  change 31 with (Z.ones 5). rewrite Z.land_ones by lia.
  splits; try done; try (apply Z.div_pos; lia); try (apply Z.div_lt_upper_bound; lia);
    apply Z.mod_pos_bound; lia.
Qed.

#[local] Transparent tab wrap.
Lemma submap_set b i j v :
  length (BMAP_uiSubMap b) = 8%nat -> 0 <= i < 8 -> 0 <= j ->
  submap (set_submap b i v) j = if j =? i then v else submap b j.
Proof.
  intros Hl Hi Hj. unfold submap, set_submap, tab. simpl. rewrite !nth_lookup.
  destruct (Z.eqb_spec j i) as [->|Hne].
  - rewrite list_lookup_insert_eq; [done|]. lia.
  - rewrite list_lookup_insert_ne; [done|]. lia.
Qed.
#[local] Opaque tab wrap.

Lemma set_submap_len b i v : length (BMAP_uiSubMap (set_submap b i v)) = length (BMAP_uiSubMap b).
Proof. unfold set_submap. simpl. apply length_insert. Qed.

Lemma shl1 k : 0 <= k < 32 -> wrap 32 (Z.shiftl 1 k) = 2 ^ k.
Proof.
  intros Hk. rewrite Z.shiftl_1_l. apply wrap_small. split; [apply Z.pow_nonneg; lia|].
  apply Z.pow_lt_mono_r; lia.
Qed.

(** Setting and clearing one bit of a word. *)
Lemma setbit_word w v k : 0 <= k < w -> 0 <= v < 2 ^ w ->
  0 <= Z.lor v (2 ^ k) < 2 ^ w /\ Z.lor v (2 ^ k) <> 0 /\
  forall j, 0 <= j -> Z.testbit (Z.lor v (2 ^ k)) j = (j =? k) || Z.testbit v j.
Proof.
  intros Hk Hv.
  assert (Hb : forall j, 0 <= j -> Z.testbit (Z.lor v (2 ^ k)) j = (j =? k) || Z.testbit v j).
  { intros j Hj. rewrite Z.lor_spec, testbit_pow2 by lia. apply orb_comm. }
  assert (Hp : 0 < 2 ^ k) by (apply Z.pow_pos_nonneg; lia).
  assert (Hnn : 0 <= Z.lor v (2 ^ k)) by (apply Z.lor_nonneg; lia).
  splits; [done| | |done].
  - apply Z.log2_lt_cancel. rewrite Z.log2_lor, !Z.log2_pow2 by lia.
    destruct (Z.eq_dec v 0) as [->|]; [change (Z.log2 0) with 0; lia|].
    assert (Z.log2 v < w) by (apply Z.log2_lt_pow2; lia). lia.
  - intros E. specialize (Hb k ltac:(lia)). by rewrite E, Z.bits_0, Z.eqb_refl in Hb.
Qed.

Lemma clrbit_word v k : 0 <= k < 32 -> 0 <= v < 2 ^ 32 ->
  0 <= Z.land v (wrap 32 (Z.lnot (Z.shiftl 1 k))) <= v /\
  forall j, 0 <= j -> Z.testbit (Z.land v (wrap 32 (Z.lnot (Z.shiftl 1 k)))) j = negb (j =? k) && Z.testbit v j.
Proof.
  intros Hk Hv.
  assert (Hb : forall j, 0 <= j -> Z.testbit (Z.land v (wrap 32 (Z.lnot (Z.shiftl 1 k)))) j
    = negb (j =? k) && Z.testbit v j).
  { intros j Hj. rewrite Z.land_spec, testbit_wrap, Z.lnot_spec by lia.
    rewrite Z.shiftl_1_l, testbit_pow2 by lia.
    destruct (Z.ltb_spec j 32); [simpl; by rewrite andb_comm|].
    rewrite (testbit_above 32 v j) by lia. simpl. by rewrite andb_false_r. }
  split; [|done]. split; [apply Z.land_nonneg; lia|]. apply Z.ldiff_le; [lia|].
  apply Z.bits_inj'. intros j Hj. rewrite Z.ldiff_spec, Hb, Z.bits_0 by lia.
  destruct (Z.testbit v j); by rewrite ?andb_false_r.
Qed.

Lemma _BitmapInit_wf : bmap_wf _BitmapInit.
Proof.
  split; [done|done| |]; intros i Hi;
    (assert (i = 0 \/ i = 1 \/ i = 2 \/ i = 3 \/ i = 4 \/ i = 5 \/ i = 6 \/ i = 7) as Hc by lia);
    destruct Hc as [->|[->|[->|[->|[->|[->|[->| ->]]]]]]]; by vm_compute.
Qed.

Lemma _BitmapInit_mem p : prio_ok p -> bmap_mem _BitmapInit p = false.
Proof.
  intros (_ & _ & Hi & _)%prio_split. unfold bmap_mem.
  assert (submap _BitmapInit (p / 32) = 0) as ->; [|apply Z.bits_0].
  assert (p / 32 = 0 \/ p / 32 = 1 \/ p / 32 = 2 \/ p / 32 = 3 \/ p / 32 = 4 \/ p / 32 = 5
    \/ p / 32 = 6 \/ p / 32 = 7) as Hc by lia.
  destruct Hc as [->|[->|[->|[->|[->|[->|[->| ->]]]]]]]; by vm_compute.
Qed.

Lemma prio_eqb p q : (p / 32 =? q / 32) && (p mod 32 =? q mod 32) = (p =? q).
Proof.
  destruct (Z.eqb_spec p q) as [->|Hne]; [by rewrite !Z.eqb_refl|].
  apply andb_false_iff. rewrite !Z.eqb_neq.
  destruct (Z.eq_dec (p / 32) (q / 32)); [|by left]. right. intros Hm. apply Hne.
  rewrite (Z.div_mod p 32), (Z.div_mod q 32); lia.
Qed.

Lemma _BitmapAdd_spec b p :
  bmap_wf b -> prio_ok p ->
  bmap_wf (_BitmapAdd b p) /\
  forall q, prio_ok q -> bmap_mem (_BitmapAdd b p) q = (q =? p) || bmap_mem b q.
Proof.
  intros [Hl Hm Hs Hb] Hp. destruct (prio_split p Hp) as (E1 & E2 & Hi & Hj).
  unfold _BitmapAdd. rewrite E1, E2, !shl1 by lia.
  change (submap (set_map b _)) with (submap b).
  destruct (setbit_word 32 (submap b (p / 32)) (p mod 32)) as (R & Nz & Sb); [lia|by apply Hs|].
  destruct (setbit_word 8 (BMAP_uiMap b) (p / 32)) as (Rm & _ & Sm); [lia|done|].
  split.
  - split; [by rewrite set_submap_len|done| |].
    + intros i Hii. rewrite submap_set by (done || lia).
      destruct (Z.eqb_spec i (p / 32)); [done|by apply Hs].
    + intros i Hii. rewrite submap_set by (done || lia). simpl. rewrite Sm by lia.
      destruct (Z.eqb_spec i (p / 32)) as [->|]; [|by apply Hb].
      simpl. symmetry. apply negb_true_iff. by apply Z.eqb_neq.
  - intros q Hq. destruct (prio_split q Hq) as (_ & _ & Hqi & Hqj). unfold bmap_mem.
    rewrite submap_set, <-(prio_eqb q p) by (done || lia).
    destruct (Z.eqb_spec (q / 32) (p / 32)) as [->|]; [|done]. rewrite Sb by lia. done.
Qed.

Lemma _BitmapDel_spec b p :
  bmap_wf b -> prio_ok p ->
  bmap_wf (_BitmapDel b p) /\
  forall q, prio_ok q -> bmap_mem (_BitmapDel b p) q = negb (q =? p) && bmap_mem b q.
Proof.
  intros [Hl Hm Hs Hb] Hp. destruct (prio_split p Hp) as (E1 & E2 & Hi & Hj).
  unfold _BitmapDel. rewrite E1, E2.
  destruct (clrbit_word (submap b (p / 32)) (p mod 32)) as (R & Sb); [lia|by apply Hs|].
  destruct (clrbit_word (BMAP_uiMap b) (p / 32)) as (Rm & Sm); [lia|lia|].
  pose proof (Hs _ Hi) as Hsi. remember (Z.land (submap b (p / 32)) _) as v eqn:Ev. clear Ev.
  assert (Hsub : forall j, 0 <= j -> submap (set_submap b (p / 32) v) j
    = if j =? p / 32 then v else submap b j) by (intros; apply submap_set; done || lia).
  rewrite Hsub, Z.eqb_refl by lia.
  assert (Hmem : forall q, prio_ok q -> Z.testbit (submap (set_submap b (p / 32) v) (q / 32)) (q mod 32)
    = negb (q =? p) && bmap_mem b q).
  { intros q Hq. destruct (prio_split q Hq) as (_ & _ & Hqi & Hqj).
    rewrite Hsub, <-(prio_eqb q p) by lia. unfold bmap_mem.
    destruct (Z.eqb_spec (q / 32) (p / 32)) as [->|]; [|done]. rewrite Sb by lia. done. }
  assert (Hrange : forall i, 0 <= i < 8 -> 0 <= submap (set_submap b (p / 32) v) i < 2 ^ 32).
  { intros i Hii. rewrite Hsub by lia. destruct (Z.eqb_spec i (p / 32)); [lia|by apply Hs]. }
  destruct (Z.eqb_spec v 0) as [Ez|Ez]; (split; [|exact Hmem]).
  - split; [simpl; by rewrite length_insert|simpl; lia|exact Hrange|].
    intros i Hii. change (submap (set_map ?x _)) with (submap x). rewrite Hsub by lia.
    simpl. rewrite Sm by lia.
    destruct (Z.eqb_spec i (p / 32)) as [->|]; [by rewrite Ez|by apply Hb].
  - split; [simpl; by rewrite length_insert|done|exact Hrange|].
    intros i Hii. rewrite Hsub by lia. simpl.
    destruct (Z.eqb_spec i (p / 32)) as [->|]; [|by apply Hb].
    rewrite Hb by lia. f_equal. rewrite (proj2 (Z.eqb_neq v 0)) by done.
    apply Z.eqb_neq. lia.
Qed.

Lemma lor_shift h l : 0 <= h < 8 -> 0 <= l < 32 -> Z.lor (Z.shiftl h 5) l = 32 * h + l.
Proof.
  intros Hh Hl. pose proof (Z.add_lor_land (Z.shiftl h 5) l) as E.
  assert (Z.land (Z.shiftl h 5) l = 0) as E0.
  { apply Z.bits_inj_0. intros k. destruct (Z.ltb_spec k 0); [by apply Z.testbit_neg_r|].
    rewrite Z.land_spec. destruct (Z.ltb_spec k 5).
    - by rewrite Z.shiftl_spec_low.
    - rewrite (testbit_above 5 l k) by lia. apply andb_false_r. }
  rewrite Z.shiftl_mul_pow2 in * by lia. lia.
Qed.

Lemma lsb_bit x n : lsb x n -> forall k, 0 <= k -> Z.testbit x k = true -> n <= k.
Proof. intros [_ H] k Hk Hb. destruct (Z.le_gt_cases n k); [done|]. rewrite H in Hb; [done|lia]. Qed.

(** The empty test and the search, on a well-formed bitmap. *)
Lemma _BitmapHigh_spec b :
  bmap_wf b ->
  (_BitmapIsEmpty b = true /\ _BitmapHigh b = 0 /\ forall p, prio_ok p -> bmap_mem b p = false) \/
  (_BitmapIsEmpty b = false /\ prio_ok (_BitmapHigh b) /\ bmap_mem b (_BitmapHigh b) = true /\
   forall p, prio_ok p -> bmap_mem b p = true -> _BitmapHigh b <= p).
Proof.
  intros [Hl Hm Hs Hb]. unfold _BitmapIsEmpty, _BitmapHigh.
  destruct (archFindLsb_spec (BMAP_uiMap b)) as [[E ->]|(h & -> & Hh & Hlsb)]; [lia| |].
  - left. rewrite E. splits; [done..|]. intros p Hp. destruct (prio_split p Hp) as (_ & _ & Hi & _).
    specialize (Hb _ Hi). rewrite E, Z.bits_0 in Hb. symmetry in Hb.
    apply negb_false_iff, Z.eqb_eq in Hb. unfold bmap_mem. by rewrite Hb, Z.bits_0.
  - right. assert (Hh8 : h < 8).
    { destruct (Z.lt_ge_cases h 8); [done|]. destruct Hlsb as [Ht _].
      by rewrite (testbit_above 8) in Ht. }
    assert (Hsub : submap b h <> 0).
    { pose proof (Hb h ltac:(lia)) as H. destruct Hlsb as [Ht _]. rewrite Ht in H. symmetry in H.
      by apply negb_true_iff, Z.eqb_neq in H. }
    rewrite (proj2 (Z.eqb_neq (h + 1) 0)) by lia. replace (h + 1 - 1) with h by lia.
    destruct (archFindLsb_spec (submap b h)) as [[E _]|(l & -> & Hl5 & Hlsb')]; [by apply Hs; lia|done|].
    replace (l + 1 - 1) with l by lia. rewrite (wrap_small 32), lor_shift by lia.
    rewrite wrap_small by lia.
    assert (Hd : (32 * h + l) / 32 = h) by (rewrite Z.mul_comm, Z.div_add_l, Z.div_small; lia).
    assert (Hmo : (32 * h + l) mod 32 = l)
      by (rewrite Z.add_comm, Z.mul_comm, Z.mod_add, Z.mod_small; lia).
    splits.
    + apply Z.eqb_neq. intros E. destruct Hlsb as [Ht _]. by rewrite E, Z.bits_0 in Ht.
    + unfold prio_ok. lia.
    + unfold bmap_mem. rewrite Hd, Hmo. apply Hlsb'.
    + intros p Hp Hmem. destruct (prio_split p Hp) as (_ & _ & Hi & Hj). unfold bmap_mem in Hmem.
      assert (h <= p / 32).
      { apply (lsb_bit _ _ Hlsb); [lia|]. rewrite Hb by lia. apply negb_true_iff, Z.eqb_neq.
        intros E. by rewrite E, Z.bits_0 in Hmem. }
      pose proof (Z.div_mod p 32 ltac:(lia)).
      destruct (Z.eq_dec (p / 32) h) as [E|]; [|lia].
      rewrite E in Hmem. pose proof (lsb_bit _ _ Hlsb' (p mod 32) ltac:(lia) Hmem). lia.
Qed.

Inductive bmap_op := BAdd (ucPriority : Z) | BDel (ucPriority : Z).

Definition bmap_exec (b : LW_CLASS_BMAP) (o : bmap_op) : LW_CLASS_BMAP :=
  match o with BAdd p => _BitmapAdd b p | BDel p => _BitmapDel b p end.

Definition bmap_spec (s : gset Z) (o : bmap_op) : gset Z :=
  match o with BAdd p => {[p]} ∪ s | BDel p => s ∖ {[p]} end.

Definition bmap_op_ok (o : bmap_op) : Prop := match o with BAdd p | BDel p => prio_ok p end.

(** [b] holds exactly the priorities of [s]. *)
Definition bmap_rep (b : LW_CLASS_BMAP) (s : gset Z) : Prop :=
  bmap_wf b /\ (forall p, p ∈ s -> prio_ok p) /\
  forall p, prio_ok p -> bmap_mem b p = bool_decide (p ∈ s).

Lemma bmap_exec_rep b s o : bmap_rep b s -> bmap_op_ok o -> bmap_rep (bmap_exec b o) (bmap_spec s o).
Proof.
  intros (Hwf & Hs & Hm) Ho. destruct o as [p|p]; simpl in *.
  - destruct (_BitmapAdd_spec b p Hwf Ho) as [Hwf' Hm']. split; [done|]. split.
    + intros q Hq. apply elem_of_union in Hq as [->%elem_of_singleton|Hq]; auto.
    + intros q Hq. rewrite Hm', Hm by done. destruct (Z.eqb_spec q p) as [->|Hne]; simpl.
      * symmetry. apply bool_decide_eq_true. set_solver.
      * apply bool_decide_ext. set_solver.
  - destruct (_BitmapDel_spec b p Hwf Ho) as [Hwf' Hm']. split; [done|]. split.
    + intros q Hq. apply Hs. set_solver.
    + intros q Hq. rewrite Hm', Hm by done. destruct (Z.eqb_spec q p) as [->|Hne]; simpl.
      * symmetry. apply bool_decide_eq_false. set_solver.
      * apply bool_decide_ext. set_solver.
Qed.

Lemma bmap_run_rep ops b s :
  bmap_rep b s -> Forall bmap_op_ok ops -> bmap_rep (fold_left bmap_exec ops b) (fold_left bmap_spec ops s).
Proof.
  intros Hr Hok. revert b s Hr. induction Hok as [|o ops Ho _ IH]; intros b s Hr; simpl; [done|].
  apply IH. by apply bmap_exec_rep.
Qed.

Lemma bmap_rep_empty : bmap_rep _BitmapInit ∅.
Proof.
  split; [apply _BitmapInit_wf|]. split; [set_solver|]. intros p Hp. rewrite _BitmapInit_mem by done.
  symmetry. apply bool_decide_eq_false. set_solver.
Qed.

Lemma bmap_rep_nonempty b s :
  bmap_rep b s -> s <> ∅ ->
  _BitmapIsEmpty b = false /\ _BitmapHigh b ∈ s /\ forall q, q ∈ s -> _BitmapHigh b <= q.
Proof.
  intros (Hwf & Hs & Hm) Hne. apply set_choose_L in Hne as [x Hx].
  destruct (_BitmapHigh_spec b Hwf) as [(_ & _ & H)|(He & Hp & Hh & H)].
  - specialize (H x (Hs x Hx)). rewrite Hm, bool_decide_eq_true_2 in H; [done..|auto].
  - split; [done|]. rewrite Hm in Hh by done. apply bool_decide_eq_true in Hh. split; [done|].
    intros q Hq. apply H; [by apply Hs|]. rewrite Hm by auto. by apply bool_decide_eq_true.
Qed.

(** C38: the priority bitmap is a set of priorities. After any sequence of
    additions and deletions from the empty bitmap, the empty test is exact and
    [_BitmapHigh] is the numerically least (most urgent) priority of the set. *)
Theorem _Bitmap_refines ops :
  Forall bmap_op_ok ops ->
  let b := fold_left bmap_exec ops _BitmapInit in
  let s := fold_left bmap_spec ops ∅ in
  bmap_wf b /\ _BitmapIsEmpty b = bool_decide (s = ∅) /\
  (s = ∅ -> _BitmapHigh b = 0) /\
  (s <> ∅ -> _BitmapHigh b ∈ s /\ forall q, q ∈ s -> _BitmapHigh b <= q).
Proof.
  intros Hok b s. assert (Hr : bmap_rep b s) by (apply bmap_run_rep; [apply bmap_rep_empty|done]).
  pose proof Hr as (Hwf & Hs & Hm). split; [done|].
  destruct (decide (s = ∅)) as [Es|Hne].
  - rewrite bool_decide_eq_true_2 by done.
    destruct (_BitmapHigh_spec b Hwf) as [(He & Hz & _)|(_ & Hp & Hh & _)]; [by splits|].
    rewrite Hm, bool_decide_eq_false_2 in Hh; [done|set_solver|done].
  - destruct (bmap_rep_nonempty b s Hr Hne) as (He & Hh & Hmin).
    rewrite bool_decide_eq_false_2 by done. by splits.
Qed.

Lemma _Bitmap_refines_witness :
  let b := fold_left bmap_exec [BAdd 200; BAdd 37; BAdd 64; BDel 37] _BitmapInit in
  bmap_wf b /\ _BitmapHigh b = 64 /\
  let s := fold_left bmap_spec [BAdd 200; BAdd 37; BAdd 64; BDel 37] ∅ in
  (s <> ∅ -> _BitmapHigh b ∈ s /\ forall q, q ∈ s -> _BitmapHigh b <= q).
Proof.
  assert (Hok : Forall bmap_op_ok [BAdd 200; BAdd 37; BAdd 64; BDel 37])
    by (repeat constructor; unfold prio_ok; simpl; lia).
  destruct (_Bitmap_refines _ Hok) as (Hwf & _ & _ & Hmin).
  split; [exact Hwf|]. split; [by vm_compute|]. exact Hmin.
Defined.

(** The table-driven bit searches of the RISC-V port are 1-based
    find-lowest-set and find-highest-set on 32-bit words, 0 for the zero word. *)
Theorem archFind_correct x :
  0 <= x < 2 ^ 32 ->
  (x = 0 /\ archFindLsb x = 0 /\ archFindMsb x = 0) \/
  (x <> 0 /\ 1 <= archFindLsb x <= 32 /\ lsb x (archFindLsb x - 1) /\
   1 <= archFindMsb x <= 32 /\ msb x (archFindMsb x - 1)).
Proof.
  intros Hx. destruct (archFindLsb_spec x Hx) as [[-> E]|(n & E & Hn & Hl)]; [by left|].
  destruct (archFindMsb_spec x Hx) as [[-> _]|(k & E' & Hk & Hm)].
  - destruct Hl as [Hl _]. by rewrite Z.bits_0 in Hl.
  - right. rewrite E, E'. replace (n + 1 - 1) with n by lia. replace (k + 1 - 1) with k by lia.
    splits; try done; try lia. intros ->. destruct Hl as [Hl _]. by rewrite Z.bits_0 in Hl.
Qed.

Lemma archFind_correct_witness :
  archFindLsb 0x00a40000 = 19 /\ archFindMsb 0x00a40000 = 24 /\
  ((0x00a40000 = 0 /\ archFindLsb 0x00a40000 = 0 /\ archFindMsb 0x00a40000 = 0) \/
   (0x00a40000 <> 0 /\ 1 <= archFindLsb 0x00a40000 <= 32 /\ lsb 0x00a40000 (archFindLsb 0x00a40000 - 1) /\
    1 <= archFindMsb 0x00a40000 <= 32 /\ msb 0x00a40000 (archFindMsb 0x00a40000 - 1))).
Proof.
  split; [by vm_compute|]. split; [by vm_compute|]. apply (archFind_correct 0x00a40000). lia.
Defined.
