(* ===== verification/Sched.v ===== *)
(** * The scheduler's tables

    The ready tables (kernel/core/_ReadyRing.c, _ReadyTableLib.c and the inlines
    of kernel/inline/inlGetPcb.h), the candidate table (kernel/core/_CandTable.c)
    and the parts of kernel/core/_SchedCand.c and _Sched.c that change them, for
    an SMP kernel (LW_CFG_SMP_EN > 0, no SMT, no CPU down).  A
    ready ring is the list its header denotes (file Lists); a pointer to a
    thread control block is its key in [tcbs]; [None] is a dereference of NULL or of
    a missing object, or the kernel's fatal [_BugHandle]. *)

From S2P Require Import Prelude Lists Bitmap.

(** ** Data *)

Definition LW_PRIO_LOWEST : Z := 255.
Definition LW_OPTION_SCHED_RR : Z := 0.
Definition LW_OPTION_SCHED_FIFO : Z := 1.
Definition LW_OPTION_RESPOND_IMMIEDIA : Z := 0.
Definition LW_OPTION_RESPOND_STANDARD : Z := 1.
Definition LW_SCHED_ACT_OTHER : Z := 1.
Definition LW_THREAD_STATUS_RDY : Z := 0.

(** The scheduling fields of [LW_CLASS_TCB]. *)
Record TCB := mkTCB {
  TCB_ucPriority : Z;
  TCB_ucSchedPolicy : Z;
  TCB_ucSchedActivateMode : Z;
  TCB_ucSchedActivate : Z;
  TCB_usSchedSlice : Z;
  TCB_usSchedCounter : Z;
  TCB_bCPULock : bool;
  TCB_ulCPULock : Z;
  TCB_ulCPUId : Z;
  TCB_bIsCand : bool;
  TCB_usStatus : Z;
  TCB_ulThreadLockCounter : Z
}.

(** The scheduling fields of [LW_CLASS_CPU]: its candidate [CPU_cand], the
    running thread [CPU_ptcbTCBCur] and the counters that forbid a switch. *)
Record CPU := mkCPU {
  CPU_bActive : bool;
  CPU_bOnlyAffinity : bool;
  CAND_ptcbCand : option Z;
  CAND_bNeedRotate : bool;
  CPU_ptcbTCBCur : Z;
  CPU_ulInterNesting : Z;
  CPU_iKernelCounter : Z
}.

(** [LW_CLASS_PCBBMAP]: a bitmap and a ring per priority. *)
Record PCBBMAP := mkPcbbmap { PCBM_bmap : LW_CLASS_BMAP; PCBM_pcb : gmap Z (list Z) }.

(** The ready tables: [None] is [_K_pcbbmapGlobalReady], [Some i] is
    [CPU_pcbbmapReady] of CPU [i]. *)
Record SCHED := mkSched {
  tcbs : gmap Z TCB;
  cpus : gmap Z CPU;
  rdys : gmap (option Z) PCBBMAP;
  LW_NCPUS : Z
}.

(** A [PLW_CLASS_PCB]: a priority of a ready table. *)
Abbreviation PCB := (option Z * Z)%type.

Definition set_TCB_ucPriority (v : Z) (t : TCB) : TCB :=
  mkTCB v (TCB_ucSchedPolicy t) (TCB_ucSchedActivateMode t) (TCB_ucSchedActivate t)
    (TCB_usSchedSlice t) (TCB_usSchedCounter t) (TCB_bCPULock t) (TCB_ulCPULock t) (TCB_ulCPUId t)
    (TCB_bIsCand t) (TCB_usStatus t) (TCB_ulThreadLockCounter t).
Definition set_TCB_usSchedCounter (v : Z) (t : TCB) : TCB :=
  mkTCB (TCB_ucPriority t) (TCB_ucSchedPolicy t) (TCB_ucSchedActivateMode t) (TCB_ucSchedActivate t)
    (TCB_usSchedSlice t) v (TCB_bCPULock t) (TCB_ulCPULock t) (TCB_ulCPUId t)
    (TCB_bIsCand t) (TCB_usStatus t) (TCB_ulThreadLockCounter t).
Definition set_TCB_ulCPUId (v : Z) (t : TCB) : TCB :=
  mkTCB (TCB_ucPriority t) (TCB_ucSchedPolicy t) (TCB_ucSchedActivateMode t) (TCB_ucSchedActivate t)
    (TCB_usSchedSlice t) (TCB_usSchedCounter t) (TCB_bCPULock t) (TCB_ulCPULock t) v
    (TCB_bIsCand t) (TCB_usStatus t) (TCB_ulThreadLockCounter t).
Definition set_TCB_bIsCand (v : bool) (t : TCB) : TCB :=
  mkTCB (TCB_ucPriority t) (TCB_ucSchedPolicy t) (TCB_ucSchedActivateMode t) (TCB_ucSchedActivate t)
    (TCB_usSchedSlice t) (TCB_usSchedCounter t) (TCB_bCPULock t) (TCB_ulCPULock t) (TCB_ulCPUId t)
    v (TCB_usStatus t) (TCB_ulThreadLockCounter t).
Definition set_TCB_usStatus (v : Z) (t : TCB) : TCB :=
  mkTCB (TCB_ucPriority t) (TCB_ucSchedPolicy t) (TCB_ucSchedActivateMode t) (TCB_ucSchedActivate t)
    (TCB_usSchedSlice t) (TCB_usSchedCounter t) (TCB_bCPULock t) (TCB_ulCPULock t) (TCB_ulCPUId t)
    (TCB_bIsCand t) v (TCB_ulThreadLockCounter t).

Definition set_CAND_ptcbCand (v : option Z) (c : CPU) : CPU :=
  mkCPU (CPU_bActive c) (CPU_bOnlyAffinity c) v (CAND_bNeedRotate c) (CPU_ptcbTCBCur c)
    (CPU_ulInterNesting c) (CPU_iKernelCounter c).
Definition set_CAND_bNeedRotate (v : bool) (c : CPU) : CPU :=
  mkCPU (CPU_bActive c) (CPU_bOnlyAffinity c) (CAND_ptcbCand c) v (CPU_ptcbTCBCur c)
    (CPU_ulInterNesting c) (CPU_iKernelCounter c).

(** Field writes through a pointer. *)
Definition upd_tcb (t : Z) (f : TCB -> TCB) (s : SCHED) : SCHED :=
  mkSched (alter f t (tcbs s)) (cpus s) (rdys s) (LW_NCPUS s).
Definition upd_cpu (i : Z) (f : CPU -> CPU) (s : SCHED) : SCHED :=
  mkSched (tcbs s) (alter f i (cpus s)) (rdys s) (LW_NCPUS s).
Definition upd_rdy (r : option Z) (f : PCBBMAP -> PCBBMAP) (s : SCHED) : SCHED :=
  mkSched (tcbs s) (cpus s) (alter f r (rdys s)) (LW_NCPUS s).

Definition ring (s : SCHED) (ppcb : PCB) : list Z :=
  match rdys s !! fst ppcb with Some m => default [] (PCBM_pcb m !! snd ppcb) | None => [] end.
Definition set_ring (ppcb : PCB) (l : list Z) (s : SCHED) : SCHED :=
  upd_rdy (fst ppcb) (fun m => mkPcbbmap (PCBM_bmap m) (<[snd ppcb := l]> (PCBM_pcb m))) s.

Definition bmap (s : SCHED) (r : option Z) : LW_CLASS_BMAP :=
  match rdys s !! r with Some m => PCBM_bmap m | None => _BitmapInit end.
Definition set_bmap (r : option Z) (b : LW_CLASS_BMAP) (s : SCHED) : SCHED :=
  upd_rdy r (fun m => mkPcbbmap b (PCBM_pcb m)) s.

(** Shorthands of the candidate table. *)
Definition LW_CAND_TCB_set (i : Z) (v : option Z) : SCHED -> SCHED := upd_cpu i (set_CAND_ptcbCand v).
Definition LW_CAND_ROT_set (i : Z) (v : bool) : SCHED -> SCHED := upd_cpu i (set_CAND_bNeedRotate v).

(** [LW_PRIO_IS_HIGH] and [LW_PRIO_IS_HIGH_OR_EQU]: a smaller number is more urgent. *)
Definition LW_PRIO_IS_HIGH (a b : Z) : bool := a <? b.
Definition LW_PRIO_IS_HIGH_OR_EQU (a b : Z) : bool := a <=? b.

Definition __LW_THREAD_IS_READY (t : TCB) : bool := TCB_usStatus t =? LW_THREAD_STATUS_RDY.

(** ** inlGetPcb.h *)

(** The ready table a thread belongs to. *)
Definition home (t : TCB) : option Z := if TCB_bCPULock t then Some (TCB_ulCPULock t) else None.

Definition _GetPcb (t : TCB) : PCB :=
  if TCB_bCPULock t then (Some (TCB_ulCPULock t), TCB_ucPriority t) else (None, TCB_ucPriority t).
Definition _GetPcbEx (t : TCB) (ucPriority : Z) : PCB :=
  if TCB_bCPULock t then (Some (TCB_ulCPULock t), ucPriority) else (None, ucPriority).

Definition _PcbIsEmpty (s : SCHED) (ppcb : PCB) : bool :=
  match ring s ppcb with [] => true | _ :: _ => false end.
Definition _PcbIsOne (s : SCHED) (ppcb : PCB) : bool :=
  match ring s ppcb with [_] => true | _ => false end.

(** ** _ReadyRing.c *)

Definition _AddTCBToReadyRing (s : SCHED) (ptcb : Z) (ppcb : PCB) (bIsHeader : bool) : option SCHED :=
  t ← tcbs s !! ptcb;
  let l := ring s ppcb in
  Some (set_ring ppcb
    (if bIsHeader then ptcb :: l
     else if TCB_ucSchedPolicy t =? LW_OPTION_SCHED_FIFO then l ++ [ptcb]
     else if TCB_ucSchedActivateMode t =? LW_OPTION_RESPOND_IMMIEDIA then add_front ptcb l
     else if TCB_ucSchedActivateMode t =? LW_OPTION_RESPOND_STANDARD then l ++ [ptcb]
     else if TCB_ucSchedActivate t =? LW_SCHED_ACT_OTHER then l ++ [ptcb]
     else add_front ptcb l) s).

(** Unlinking a thread that is in no ring dereferences NULL. *)
Definition _DelTCBFromReadyRing (s : SCHED) (ptcb : Z) (ppcb : PCB) : option SCHED :=
  if bool_decide (ptcb ∈ ring s ppcb)
  then Some (set_ring ppcb (remove_node ptcb (ring s ppcb)) s) else None.

(** ** _ReadyTableLib.c *)

Definition _ReadyTableAdd (s : SCHED) (ptcb : Z) : option SCHED :=
  t ← tcbs s !! ptcb;
  Some (set_bmap (home t) (_BitmapAdd (bmap s (home t)) (TCB_ucPriority t)) s).

Definition _ReadyTableDel (s : SCHED) (ptcb : Z) : option SCHED :=
  t ← tcbs s !! ptcb;
  Some (set_bmap (home t) (_BitmapDel (bmap s (home t)) (TCB_ucPriority t)) s).

(** ** _CandTable.c *)

(** The table and the priority of the next thread for a CPU: its own table
    wins ties against the global one. *)
Definition _CandTableSeek (s : SCHED) (pcpu : Z) : option (option PCB) :=
  c ← cpus s !! pcpu;
  let own := bmap s (Some pcpu) in
  let glb := bmap s None in
  if _BitmapIsEmpty own then
    if CPU_bOnlyAffinity c || _BitmapIsEmpty glb then Some None
    else Some (Some (None, _BitmapHigh glb))
  else
    let ucPriority := _BitmapHigh own in
    if CPU_bOnlyAffinity c || _BitmapIsEmpty glb then Some (Some (Some pcpu, ucPriority))
    else
      let ucGlobal := _BitmapHigh glb in
      if LW_PRIO_IS_HIGH_OR_EQU ucPriority ucGlobal then Some (Some (Some pcpu, ucPriority))
      else Some (Some (None, ucGlobal)).

(** The header thread of a ring; when its slice is used up it is reloaded and
    the ring advances. *)
Definition _CandTableNext (s : SCHED) (ppcb : PCB) : option (SCHED * Z) :=
  match ring s ppcb with
  | [] => None
  | ptcb :: l =>
    t ← tcbs s !! ptcb;
    if TCB_usSchedCounter t =? 0 then
      let s := upd_tcb ptcb (set_TCB_usSchedCounter (TCB_usSchedSlice t)) s in
      Some (set_ring ppcb (l ++ [ptcb]) s, hd_or ptcb l)
    else Some (s, ptcb)
  end.

(** The thread chosen from [ppcb] becomes the candidate and leaves its ring. *)
Definition _CandTableResel (s : SCHED) (pcpu : Z) (ppcb : PCB) : option SCHED :=
  '(s, ptcb) ← _CandTableNext s ppcb;
  let s := LW_CAND_TCB_set pcpu (Some ptcb) s in
  let s := upd_tcb ptcb (fun t => set_TCB_bIsCand true (set_TCB_ulCPUId pcpu t)) s in
  s ← _DelTCBFromReadyRing s ptcb ppcb;
  if _PcbIsEmpty s ppcb then _ReadyTableDel s ptcb else Some s.

(** Filling an empty candidate slot: fatal when nothing is ready. *)
Definition _CandTableFill (s : SCHED) (pcpu : Z) : option SCHED :=
  seek ← _CandTableSeek s pcpu;
  ppcb ← seek;
  '(s, ptcb) ← _CandTableNext s ppcb;
  let s := LW_CAND_TCB_set pcpu (Some ptcb) s in
  let s := upd_tcb ptcb (fun t => set_TCB_bIsCand true (set_TCB_ulCPUId pcpu t)) s in
  s ← _DelTCBFromReadyRing s ptcb ppcb;
  if _PcbIsEmpty s ppcb then _ReadyTableDel s ptcb else Some s.

Definition _CandTableEmpty (s : SCHED) (pcpu : Z) : option SCHED :=
  c ← cpus s !! pcpu;
  ptcb ← CAND_ptcbCand c;
  t ← tcbs s !! ptcb;
  let ppcb := _GetPcb t in
  let s := upd_tcb ptcb (set_TCB_bIsCand false) s in
  s ← _AddTCBToReadyRing s ptcb ppcb true;
  s ← (if _PcbIsOne s ppcb then _ReadyTableAdd s ptcb else Some s);
  Some (LW_CAND_TCB_set pcpu None s).

(** The CPUs [LW_CPU_FOREACH_LOOP] visits, in order. *)
Definition cpu_ids (s : SCHED) : list Z := seqZ 0 (LW_NCPUS s).

(** How a scan of the CPUs ends: the thread took an empty candidate slot, the
    scan stopped after asking an idle CPU to rotate, or it ran to the end. *)
Inductive cand_scan := ScanTaken (s : SCHED) | ScanRot (s : SCHED) | ScanEnd (s : SCHED).

(** [ptcb] becomes the candidate of [i]. *)
Definition take_cand (s : SCHED) (ptcb i : Z) : SCHED :=
  upd_tcb ptcb (fun t => set_TCB_bIsCand true (set_TCB_ulCPUId i t)) (LW_CAND_TCB_set i (Some ptcb) s).

(** The loop over [LW_CPU_FOREACH_ACTIVE_EXCEPT (i, ulCPUId)] of
    [_CandTableTryAdd]: a CPU without a candidate takes the thread, the first one
    about to run an idle thread is asked to rotate. *)
Fixpoint tryadd_idle (ids : list Z) (ulCPUId ptcb : Z) (s : SCHED) : option cand_scan :=
  match ids with
  | [] => Some (ScanEnd s)
  | i :: ids =>
    c ← cpus s !! i;
    if (i =? ulCPUId) || negb (CPU_bActive c) || CPU_bOnlyAffinity c
    then tryadd_idle ids ulCPUId ptcb s
    else match CAND_ptcbCand c with
    | None => Some (ScanTaken (take_cand s ptcb i))
    | Some cand =>
      tc ← tcbs s !! cand;
      if negb (CAND_bNeedRotate c) && (LW_PRIO_LOWEST =? TCB_ucPriority tc)
      then Some (ScanRot (LW_CAND_ROT_set i true s))
      else tryadd_idle ids ulCPUId ptcb s
    end
  end.

(** The loop over [LW_CPU_FOREACH_ACTIVE (i)]: every CPU whose candidate is
    less urgent is asked to rotate. *)
Fixpoint tryadd_lower (ids : list Z) (ptcb ucPriority : Z) (s : SCHED) : option cand_scan :=
  match ids with
  | [] => Some (ScanEnd s)
  | i :: ids =>
    c ← cpus s !! i;
    if negb (CPU_bActive c) || CPU_bOnlyAffinity c then tryadd_lower ids ptcb ucPriority s
    else match CAND_ptcbCand c with
    | None => Some (ScanTaken (take_cand s ptcb i))
    | Some cand =>
      tc ← tcbs s !! cand;
      let s := if LW_PRIO_IS_HIGH ucPriority (TCB_ucPriority tc) then LW_CAND_ROT_set i true s else s in
      tryadd_lower ids ptcb ucPriority s
    end
  end.

(** The label [__can_not_cand]. *)
Definition __can_not_cand (s : SCHED) (ptcb : Z) (ppcb : PCB) : option (SCHED * bool) :=
  s ← (if _PcbIsEmpty s ppcb then _ReadyTableAdd s ptcb else Some s);
  Some (s, false).

Definition _CandTableTryAdd (s : SCHED) (ptcb : Z) (ppcb : PCB) : option (SCHED * bool) :=
  t ← tcbs s !! ptcb;
  if TCB_bCPULock t then
    let pcpu := TCB_ulCPULock t in
    c ← cpus s !! pcpu;
    if negb (CPU_bActive c) then __can_not_cand s ptcb ppcb
    else match CAND_ptcbCand c with
    | None => Some (take_cand s ptcb pcpu, true)
    | Some cand =>
      tc ← tcbs s !! cand;
      let s := if LW_PRIO_IS_HIGH (TCB_ucPriority t) (TCB_ucPriority tc)
               then LW_CAND_ROT_set pcpu true s else s in
      __can_not_cand s ptcb ppcb
    end
  else
    let pcpu := TCB_ulCPUId t in
    c ← cpus s !! pcpu;
    r ← (if negb (CPU_bOnlyAffinity c) then
           match CAND_ptcbCand c with
           | None => Some (ScanTaken (take_cand s ptcb pcpu))
           | Some cand =>
             tc ← tcbs s !! cand;
             if negb (CAND_bNeedRotate c) && (LW_PRIO_LOWEST =? TCB_ucPriority tc)
             then Some (ScanRot (LW_CAND_ROT_set pcpu true s)) else Some (ScanEnd s)
           end
         else Some (ScanEnd s));
    r ← (match r with ScanEnd s => tryadd_idle (cpu_ids s) pcpu ptcb s | _ => Some r end);
    r ← (match r with ScanEnd s => tryadd_lower (cpu_ids s) ptcb (TCB_ucPriority t) s | _ => Some r end);
    match r with
    | ScanTaken s => Some (s, true)
    | ScanRot s | ScanEnd s => __can_not_cand s ptcb ppcb
    end.

Definition _CandTableTryDel (s : SCHED) (ptcb : Z) (ppcb : PCB) : option SCHED :=
  t ← tcbs s !! ptcb;
  let pcpu := TCB_ulCPUId t in
  c ← cpus s !! pcpu;
  if bool_decide (CAND_ptcbCand c = Some ptcb) then
    let s := upd_tcb ptcb (set_TCB_bIsCand false) s in
    s ← _CandTableFill s pcpu;
    Some (LW_CAND_ROT_set pcpu false s)
  else if _PcbIsEmpty s ppcb then _ReadyTableDel s ptcb else Some s.

(** The two loops of [_CandTableNotify] over the other active CPUs. *)
Fixpoint notify_idle (ids : list Z) (ulCPUId : Z) (s : SCHED) : option cand_scan :=
  match ids with
  | [] => Some (ScanEnd s)
  | i :: ids =>
    c ← cpus s !! i;
    if (i =? ulCPUId) || negb (CPU_bActive c) || CPU_bOnlyAffinity c then notify_idle ids ulCPUId s
    else
      (* the candidate is only read when the CPU has no rotation pending *)
      if CAND_bNeedRotate c then notify_idle ids ulCPUId s
      else
        cand ← CAND_ptcbCand c;
        tc ← tcbs s !! cand;
        if LW_PRIO_LOWEST =? TCB_ucPriority tc then Some (ScanRot (LW_CAND_ROT_set i true s))
        else notify_idle ids ulCPUId s
  end.

Fixpoint notify_lower (ids : list Z) (ulCPUId ucPriority : Z) (s : SCHED) : option SCHED :=
  match ids with
  | [] => Some s
  | i :: ids =>
    c ← cpus s !! i;
    if (i =? ulCPUId) || negb (CPU_bActive c) || CPU_bOnlyAffinity c
    then notify_lower ids ulCPUId ucPriority s
    else
      cand ← CAND_ptcbCand c;
      tc ← tcbs s !! cand;
      let s := if LW_PRIO_IS_HIGH ucPriority (TCB_ucPriority tc) then LW_CAND_ROT_set i true s else s in
      notify_lower ids ulCPUId ucPriority s
  end.

Definition _CandTableNotify (s : SCHED) (pcpu ptcbCand : Z) : option SCHED :=
  t ← tcbs s !! ptcbCand;
  r ← notify_idle (cpu_ids s) pcpu s;
  match r with
  | ScanEnd s => notify_lower (cpu_ids s) pcpu (TCB_ucPriority t) s
  | ScanRot s | ScanTaken s => Some s
  end.

Definition _CandTableUpdate (s : SCHED) (pcpu : Z) : option SCHED :=
  c ← cpus s !! pcpu;
  if negb (CPU_bActive c) then Some s
  else match CAND_ptcbCand c with
  | None => s ← _CandTableFill s pcpu; Some (LW_CAND_ROT_set pcpu false s)
  | Some ptcbCand =>
    seek ← _CandTableSeek s pcpu;
    match seek with
    | None => Some (LW_CAND_ROT_set pcpu false s)
    | Some ppcb =>
      t ← tcbs s !! ptcbCand;
      let bNeedRotate :=
        if CPU_bOnlyAffinity c && negb (TCB_bCPULock t) then true
        else if TCB_usSchedCounter t =? 0
             then LW_PRIO_IS_HIGH_OR_EQU (snd ppcb) (TCB_ucPriority t)
             else LW_PRIO_IS_HIGH (snd ppcb) (TCB_ucPriority t) in
      s ← (if bNeedRotate then
             s ← _CandTableEmpty s pcpu;
             s ← _CandTableResel s pcpu ppcb;
             c ← cpus s !! pcpu;
             if negb (bool_decide (CAND_ptcbCand c = Some ptcbCand)) && negb (TCB_bCPULock t)
             then _CandTableNotify s pcpu ptcbCand else Some s
           else Some s);
      Some (LW_CAND_ROT_set pcpu false s)
    end
  end.

(** ** k_sched.h: entering and leaving the ready tables *)

Definition __ADD_TO_READY_RING (s : SCHED) (ptcb : Z) (ppcb : PCB) : option SCHED :=
  match _CandTableTryAdd s ptcb ppcb with
  | Some (s, true) => Some s
  | Some (s, false) => _AddTCBToReadyRing s ptcb ppcb false
  | None => None
  end.

Definition __DEL_FROM_READY_RING (s : SCHED) (ptcb : Z) (ppcb : PCB) : option SCHED :=
  t ← tcbs s !! ptcb;
  s ← (if negb (TCB_bIsCand t) then _DelTCBFromReadyRing s ptcb ppcb else Some s);
  _CandTableTryDel s ptcb ppcb.

(** ** _SchedCand.c and _Sched.c *)

Definition __COULD_SCHED (s : SCHED) (pcpu ulMaxLockCounter : Z) : option bool :=
  c ← cpus s !! pcpu;
  t ← tcbs s !! CPU_ptcbTCBCur c;
  Some (if negb (CPU_ulInterNesting c =? 0) || negb (CPU_iKernelCounter c =? 0) then false
        else negb ((ulMaxLockCounter <? TCB_ulThreadLockCounter t) && __LW_THREAD_IS_READY t)).

(** The thread to run next on a CPU; a pending rotation is served first. *)
Definition _SchedGetCand (s : SCHED) (pcpuCur ulCurMaxLock : Z) : option (SCHED * option Z) :=
  b ← __COULD_SCHED s pcpuCur ulCurMaxLock;
  c ← cpus s !! pcpuCur;
  if negb b then Some (s, Some (CPU_ptcbTCBCur c))
  else
    s ← (if CAND_bNeedRotate c then _CandTableUpdate s pcpuCur else Some s);
    c ← cpus s !! pcpuCur;
    Some (s, CAND_ptcbCand c).

Definition sched_tick1 (s : SCHED) (i : Z) : option SCHED :=
  c ← cpus s !! i;
  if CPU_bActive c then
    let ptcb := CPU_ptcbTCBCur c in
    t ← tcbs s !! ptcb;
    if TCB_ucSchedPolicy t =? LW_OPTION_SCHED_RR then
      if TCB_usSchedCounter t =? 0 then Some (LW_CAND_ROT_set i true s)
      else Some (upd_tcb ptcb (set_TCB_usSchedCounter (TCB_usSchedCounter t - 1)) s)
    else Some s
  else Some s.

Fixpoint sched_ticks (ids : list Z) (s : SCHED) : option SCHED :=
  match ids with [] => Some s | i :: ids => s ← sched_tick1 s i; sched_ticks ids s end.

Definition _SchedTick (s : SCHED) : option SCHED := sched_ticks (cpu_ids s) s.

(** [__LW_THREAD_IS_RUNNING]: the thread is the current one of its CPU. *)
Definition _SchedYield (s : SCHED) (ptcb : Z) : option SCHED :=
  t ← tcbs s !! ptcb;
  c ← cpus s !! TCB_ulCPUId t;
  if CPU_ptcbTCBCur c =? ptcb then
    Some (LW_CAND_ROT_set (TCB_ulCPUId t) true (upd_tcb ptcb (set_TCB_usSchedCounter 0) s))
  else Some s.

Definition _SchedSetPrio (s : SCHED) (ptcb ucPriority : Z) : option SCHED :=
  t ← tcbs s !! ptcb;
  let ppcbFrom := _GetPcb t in
  let ppcbTo := _GetPcbEx t ucPriority in
  if __LW_THREAD_IS_READY t then
    if TCB_bIsCand t then
      Some (upd_tcb ptcb (set_TCB_ucPriority ucPriority) (LW_CAND_ROT_set (TCB_ulCPUId t) true s))
    else
      s ← __DEL_FROM_READY_RING s ptcb ppcbFrom;
      __ADD_TO_READY_RING (upd_tcb ptcb (set_TCB_ucPriority ucPriority) s) ptcb ppcbTo
  else Some (upd_tcb ptcb (set_TCB_ucPriority ucPriority) s).

(** ** Invariant *)

Arguments LW_PRIO_LOWEST : simpl never.
Arguments Z.eqb : simpl never.
#[local] Opaque _BitmapHigh _BitmapAdd _BitmapDel _BitmapIsEmpty.

Section Invariant.
Variable s : SCHED.

Definition cpu_id (i : Z) : Prop := 0 <= i < LW_NCPUS s.

(** A thread control block is linked when it is a candidate or in its ring. *)
Definition linked (t : Z) : Prop :=
  exists T, tcbs s !! t = Some T /\ (TCB_bIsCand T = true \/ t ∈ ring s (_GetPcb T)).

(** The structure of the tables: a ring holds exactly threads of its table
    and priority that are no candidates, each once; a bitmap has the bits of
    the non-empty rings; candidates and CPUs point at each other, and a
    thread locked to a CPU is a candidate of no other one. *)
Record sched_wf : Prop := {
  sw_cpu : forall i, is_Some (cpus s !! i) <-> cpu_id i;
  sw_rdy : forall r, is_Some (rdys s !! r) <-> match r with None => True | Some i => cpu_id i end;
  sw_tcb : forall t T, tcbs s !! t = Some T ->
    prio_ok (TCB_ucPriority T) /\ cpu_id (TCB_ulCPUId T) /\
    (TCB_bCPULock T = true -> cpu_id (TCB_ulCPULock T));
  sw_ring : forall ppcb t, t ∈ ring s ppcb ->
    exists T, tcbs s !! t = Some T /\ _GetPcb T = ppcb /\ TCB_bIsCand T = false;
  sw_nodup : forall ppcb, NoDup (ring s ppcb);
  sw_bmap : forall r, bmap_wf (bmap s r) /\
    forall p, prio_ok p -> bmap_mem (bmap s r) p = negb (_PcbIsEmpty s (r, p));
  sw_cand : forall i c t, cpus s !! i = Some c -> CAND_ptcbCand c = Some t ->
    exists T, tcbs s !! t = Some T /\ TCB_bIsCand T = true /\ TCB_ulCPUId T = i /\
      (TCB_bCPULock T = true -> TCB_ulCPULock T = i);
  sw_isc : forall t T, tcbs s !! t = Some T -> TCB_bIsCand T = true ->
    exists c, cpus s !! TCB_ulCPUId T = Some c /\ CAND_ptcbCand c = Some t
}.

(** At rest the ready threads are exactly the linked ones. *)
Definition ready_linked : Prop :=
  forall t T, tcbs s !! t = Some T -> (__LW_THREAD_IS_READY T = true <-> linked t).
End Invariant.

(** What scheduling never changes in a thread: priority, CPU lock, status. *)
Definition attrs (T : TCB) := (TCB_ucPriority T, TCB_bCPULock T, TCB_ulCPULock T, TCB_usStatus T).
Definition same_attrs (s s' : SCHED) : Prop :=
  LW_NCPUS s' = LW_NCPUS s /\ forall t, attrs <$> tcbs s' !! t = attrs <$> tcbs s !! t.

Lemma same_attrs_refl s : same_attrs s s.
Proof. by split. Qed.

Lemma same_attrs_trans s1 s2 s3 : same_attrs s1 s2 -> same_attrs s2 s3 -> same_attrs s1 s3.
Proof. intros [E1 H1] [E2 H2]. split; [congruence|]. intros t. by rewrite H2, H1. Qed.

#[export] Hint Resolve same_attrs_refl : lists.

Lemma same_attrs_get s s' t T :
  same_attrs s s' -> tcbs s !! t = Some T -> exists T', tcbs s' !! t = Some T' /\ attrs T' = attrs T.
Proof.
  intros [_ H] HT. specialize (H t). rewrite HT in H. destruct (tcbs s' !! t) as [T'|]; [|done].
  exists T'. split; [done|]. simpl in H. congruence.
Qed.

Lemma attrs_pcb T T' : attrs T = attrs T' -> _GetPcb T = _GetPcb T'.
Proof. unfold attrs, _GetPcb. intros [= E1 E2 E3 E4]. by rewrite E1, E2, E3. Qed.

(** ** Primitive changes *)

(** Rewrite one ring and its bitmap. *)
Definition ready_put (ppcb : PCB) (l : list Z) (b : LW_CLASS_BMAP) (s : SCHED) : SCHED :=
  upd_rdy (fst ppcb) (fun m => mkPcbbmap b (<[snd ppcb := l]> (PCBM_pcb m))) s.

Lemma ring_put ppcb l b s q :
  is_Some (rdys s !! fst ppcb) ->
  ring (ready_put ppcb l b s) q = if decide (q = ppcb) then l else ring s q.
Proof.
  intros [m Hm]. unfold ring, ready_put, upd_rdy. simpl.
  destruct ppcb as [r p], q as [r' p']. simpl in *. destruct (decide (r' = r)) as [->|Hr].
  - rewrite lookup_alter_eq, Hm. simpl. case_decide as E.
    + injection E as ->. by rewrite lookup_insert_eq.
    + rewrite lookup_insert_ne by congruence. done.
  - rewrite lookup_alter_ne by done. case_decide as E; [by injection E|done].
Qed.

Lemma bmap_put ppcb l b s r :
  is_Some (rdys s !! fst ppcb) ->
  bmap (ready_put ppcb l b s) r = if decide (r = fst ppcb) then b else bmap s r.
Proof.
  intros [m Hm]. unfold bmap, ready_put, upd_rdy. simpl. destruct (decide (r = fst ppcb)) as [->|Hr].
  - by rewrite lookup_alter_eq, Hm.
  - by rewrite lookup_alter_ne.
Qed.

Lemma set_ring_put ppcb l s : set_ring ppcb l s = ready_put ppcb l (bmap s (fst ppcb)) s.
Proof.
  unfold set_ring, ready_put, upd_rdy, bmap. f_equal. apply map_eq. intros r.
  destruct (decide (r = fst ppcb)) as [->|Hr].
  - rewrite !lookup_alter_eq. by destruct (rdys s !! fst ppcb).
  - by rewrite !lookup_alter_ne.
Qed.

Lemma set_ring_bmap ppcb l b s :
  set_ring ppcb l (set_bmap (fst ppcb) b s) = ready_put ppcb l b s.
Proof.
  unfold set_ring, set_bmap, ready_put, upd_rdy. f_equal. simpl. apply map_eq. intros r.
  destruct (decide (r = fst ppcb)) as [->|Hr].
  - rewrite !lookup_alter_eq. by destruct (rdys s !! fst ppcb).
  - by rewrite !lookup_alter_ne.
Qed.

Lemma set_bmap_ring ppcb l b s :
  set_bmap (fst ppcb) b (set_ring ppcb l s) = ready_put ppcb l b s.
Proof.
  unfold set_ring, set_bmap, ready_put, upd_rdy. f_equal. simpl. apply map_eq. intros r.
  destruct (decide (r = fst ppcb)) as [->|Hr].
  - rewrite !lookup_alter_eq. by destruct (rdys s !! fst ppcb).
  - by rewrite !lookup_alter_ne.
Qed.

Lemma lookup_upd_tcb t f s u :
  tcbs (upd_tcb t f s) !! u = if decide (u = t) then f <$> tcbs s !! u else tcbs s !! u.
Proof. simpl. destruct (decide (u = t)) as [->|]; [apply lookup_alter_eq|by apply lookup_alter_ne]. Qed.

Lemma lookup_upd_cpu i f s j :
  cpus (upd_cpu i f s) !! j = if decide (j = i) then f <$> cpus s !! j else cpus s !! j.
Proof. simpl. destruct (decide (j = i)) as [->|]; [apply lookup_alter_eq|by apply lookup_alter_ne]. Qed.

(** A well-formed bitmap and ring for [ppcb]. *)
Lemma sched_wf_put s ppcb l b :
  sched_wf s -> is_Some (rdys s !! fst ppcb) -> prio_ok (snd ppcb) -> NoDup l ->
  (forall t, t ∈ l -> exists T, tcbs s !! t = Some T /\ _GetPcb T = ppcb /\ TCB_bIsCand T = false) ->
  bmap_wf b ->
  (forall p, prio_ok p -> bmap_mem b p =
     if p =? snd ppcb then negb (match l with [] => true | _ => false end)
     else bmap_mem (bmap s (fst ppcb)) p) ->
  sched_wf (ready_put ppcb l b s).
Proof.
  intros Hwf Hr Hp Hnd Hl Hb Hbit. destruct Hwf as [W1 W2 W3 W4 W5 W6 W7 W8]. split; try done.
  - intros r. rewrite <-W2. unfold ready_put, upd_rdy. simpl.
    destruct (decide (r = fst ppcb)) as [->|]; [by rewrite lookup_alter_eq, fmap_is_Some|].
    by rewrite lookup_alter_ne.
  - intros q t. rewrite ring_put by done. destruct (decide (q = ppcb)) as [->|]; [apply Hl|apply W4].
  - intros q. rewrite ring_put by done. destruct (decide (q = ppcb)); [done|apply W5].
  - intros r. rewrite bmap_put by done.
    assert (He : forall p, _PcbIsEmpty (ready_put ppcb l b s) (r, p) =
       if decide ((r, p) = ppcb) then match l with [] => true | _ => false end else _PcbIsEmpty s (r, p)).
    { intros p. unfold _PcbIsEmpty. rewrite ring_put by done. by case_decide. }
    destruct (decide (r = fst ppcb)) as [->|Hne].
    + split; [done|]. intros p Hpp. rewrite Hbit, He by done. destruct ppcb as [r q]. simpl in *.
      destruct (Z.eqb_spec p q) as [->|Hpq].
      * rewrite decide_True by done. done.
      * rewrite decide_False by congruence. by apply W6.
    + split; [apply W6|]. intros p Hpp. rewrite He, decide_False by (intros <-; done). by apply W6.
Qed.

Lemma sched_wf_pcb s t T : sched_wf s -> tcbs s !! t = Some T ->
  is_Some (rdys s !! fst (_GetPcb T)) /\ prio_ok (snd (_GetPcb T)).
Proof.
  intros Hwf HT. destruct (sw_tcb s Hwf t T HT) as (Hp & _ & Hl).
  rewrite (sw_rdy s Hwf). unfold _GetPcb. destruct (TCB_bCPULock T); simpl; auto.
Qed.

Definition bmap_ins (s : SCHED) (ppcb : PCB) : LW_CLASS_BMAP :=
  if _PcbIsEmpty s ppcb then _BitmapAdd (bmap s (fst ppcb)) (snd ppcb) else bmap s (fst ppcb).

Definition bmap_del (s : SCHED) (ppcb : PCB) (l : list Z) : LW_CLASS_BMAP :=
  match l with [] => _BitmapDel (bmap s (fst ppcb)) (snd ppcb) | _ => bmap s (fst ppcb) end.

Lemma linked_in s t T : tcbs s !! t = Some T ->
  linked s t <-> TCB_bIsCand T = true \/ t ∈ ring s (_GetPcb T).
Proof.
  intros HT. split.
  - intros (T' & E & H). rewrite HT in E. by injection E as <-.
  - intros H. by exists T.
Qed.

(** A link into a ring. *)
Lemma wf_ready_ins s t T l :
  sched_wf s -> tcbs s !! t = Some T -> ~ linked s t -> l ≡ₚ t :: ring s (_GetPcb T) ->
  let s' := ready_put (_GetPcb T) l (bmap_ins s (_GetPcb T)) s in
  sched_wf s' /\ forall u, linked s' u <-> u = t \/ linked s u.
Proof.
  intros Hwf HT Hnl Hl s'. rewrite (linked_in s t T HT) in Hnl.
  apply Decidable.not_or in Hnl as [Hc Hnin]. apply not_true_is_false in Hc.
  destruct (sched_wf_pcb s t T Hwf HT) as [Hr Hp].
  set (ppcb := _GetPcb T) in *. split.
  - destruct (sw_bmap s Hwf (fst ppcb)) as [Hb Hbit].
    apply sched_wf_put; try done.
    + rewrite Hl. constructor; [done|apply (sw_nodup s Hwf)].
    + intros u. rewrite Hl, elem_of_cons. intros [->|Hu]; [by exists T|by apply (sw_ring s Hwf)].
    + unfold bmap_ins. destruct (_PcbIsEmpty s ppcb); [|done]. by apply _BitmapAdd_spec.
    + intros p Hpp. unfold bmap_ins.
      assert (El : negb (match l with [] => true | _ => false end) = true).
      { destruct l; [|done]. by apply Permutation_nil_cons in Hl. }
      rewrite El. destruct (_PcbIsEmpty s ppcb) eqn:Ee.
      * rewrite (proj2 (_BitmapAdd_spec _ _ Hb Hp)) by done. by destruct (p =? snd ppcb).
      * destruct (Z.eqb_spec p (snd ppcb)) as [->|]; [|done].
        rewrite Hbit by done. by rewrite <-surjective_pairing, Ee.
  - intros u. split.
    + intros (U & HU & [Hcu|Hu]); [right; exists U; auto|].
      subst s'. rewrite ring_put in Hu by done. case_decide as E.
      * rewrite Hl, elem_of_cons in Hu. destruct Hu as [->|Hu]; [by left|]. right.
        exists U. rewrite E. auto.
      * right. exists U. auto.
    + intros [->|(U & HU & [Hcu|Hu])].
      * exists T. split; [done|]. right. subst s'. rewrite ring_put, decide_True by done.
        rewrite Hl. left.
      * exists U. auto.
      * exists U. split; [done|]. right. subst s'. rewrite ring_put by done.
        case_decide as E; [|done]. rewrite Hl, <-E. by right.
Qed.

(** A removal from a ring. *)
Lemma wf_ready_del s t ppcb :
  sched_wf s -> t ∈ ring s ppcb ->
  let l := remove_node t (ring s ppcb) in
  let s' := ready_put ppcb l (bmap_del s ppcb l) s in
  sched_wf s' /\ forall u, linked s' u <-> u <> t /\ linked s u.
Proof.
  intros Hwf Hin l s'. destruct (sw_ring s Hwf ppcb t Hin) as (T & HT & Ep & Hc).
  destruct (sched_wf_pcb s t T Hwf HT) as [Hr Hp]. rewrite Ep in Hr, Hp.
  pose proof (sw_nodup s Hwf ppcb) as Hnd.
  assert (Hel : forall u, u ∈ l <-> u ∈ ring s ppcb /\ u <> t) by (intros; by apply elem_of_remove_node).
  split.
  - destruct (sw_bmap s Hwf (fst ppcb)) as [Hb Hbit].
    apply sched_wf_put; try done.
    + by apply remove_node_NoDup.
    + intros u [Hu _]%Hel. by apply (sw_ring s Hwf).
    + unfold bmap_del. destruct l; [|done]. by apply _BitmapDel_spec.
    + intros p Hpp. unfold bmap_del. destruct l as [|x l0] eqn:El.
      * rewrite (proj2 (_BitmapDel_spec _ _ Hb Hp)) by done. by destruct (p =? snd ppcb).
      * destruct (Z.eqb_spec p (snd ppcb)) as [->|]; [|done].
        rewrite Hbit, <-surjective_pairing by done. unfold _PcbIsEmpty.
        destruct (ring s ppcb); [by apply not_elem_of_nil in Hin|done].
  - intros u. split.
    + intros (U & HU & [Hcu|Hu]).
      * change (tcbs s !! u = Some U) in HU. split; [intros ->; congruence|exists U; auto].
      * subst s'. rewrite ring_put in Hu by done. change (tcbs s !! u = Some U) in HU. case_decide as E.
        -- apply Hel in Hu as [Hu Hne]. split; [done|]. exists U. rewrite E. auto.
        -- split; [|exists U; auto]. intros ->. apply E. rewrite HT in HU. injection HU as <-. done.
    + intros [Hne (U & HU & [Hcu|Hu])]; exists U; (split; [done|]); [auto|]. right.
      subst s'. rewrite ring_put by done. case_decide as E; [|done]. apply Hel. by rewrite <-E.
Qed.

(** Rotating a ring. *)
Lemma wf_rotate s ppcb l :
  sched_wf s -> l ≡ₚ ring s ppcb -> l <> [] ->
  let s' := set_ring ppcb l s in
  sched_wf s' /\ forall u, linked s' u <-> linked s u.
Proof.
  intros Hwf Hl Hne s'.
  assert (exists t, t ∈ ring s ppcb) as [t Hin].
  { destruct l as [|t l]; [done|]. exists t. rewrite <-Hl. left. }
  destruct (sw_ring s Hwf ppcb t Hin) as (T & HT & Ep & Hc).
  destruct (sched_wf_pcb s t T Hwf HT) as [Hr Hp]. rewrite Ep in Hr, Hp.
  destruct (sw_bmap s Hwf (fst ppcb)) as [Hb Hbit].
  subst s'. rewrite set_ring_put. split.
  - apply sched_wf_put; try done.
    + rewrite Hl. apply (sw_nodup s Hwf).
    + intros u. rewrite Hl. apply (sw_ring s Hwf).
    + intros p Hpp. destruct (Z.eqb_spec p (snd ppcb)) as [->|]; [|done].
      rewrite Hbit, <-surjective_pairing by done. unfold _PcbIsEmpty.
      destruct (ring s ppcb); [by apply not_elem_of_nil in Hin|]. by destruct l.
  - intros u. unfold linked. split; intros (U & HU & H); exists U; (split; [done|]);
      (destruct H as [H|H]; [by left|right]); rewrite ring_put in * by done;
      case_decide as E; try done.
    + by rewrite Hl, <-E in H.
    + by rewrite Hl, <-E.
Qed.

Lemma linked_ring s ppcb t : sched_wf s -> t ∈ ring s ppcb -> linked s t.
Proof. intros Hwf Hin. destruct (sw_ring s Hwf ppcb t Hin) as (T & HT & <- & _). exists T. auto. Qed.

Lemma linked_cand s i c t : sched_wf s -> cpus s !! i = Some c -> CAND_ptcbCand c = Some t -> linked s t.
Proof. intros Hwf Hc Ht. destruct (sw_cand s Hwf i c t Hc Ht) as (T & HT & Hcd & _). exists T. auto. Qed.

Lemma sched_wf_cpu s i c : sched_wf s -> cpus s !! i = Some c -> cpu_id s i.
Proof. intros Hwf Hc. apply (sw_cpu s Hwf). by exists c. Qed.

(** Rewrite lookups through pointer writes, deciding which object is meant. *)
Ltac look := repeat first
  [ rewrite lookup_upd_tcb in * | rewrite lookup_upd_cpu in * ].

(** An unlinked thread becomes the candidate of a CPU without one. *)
Lemma wf_take_cand s t T i c :
  sched_wf s -> tcbs s !! t = Some T -> ~ linked s t ->
  cpus s !! i = Some c -> CAND_ptcbCand c = None ->
  (TCB_bCPULock T = true -> TCB_ulCPULock T = i) ->
  sched_wf (take_cand s t i) /\ forall u, linked (take_cand s t i) u <-> u = t \/ linked s u.
Proof.
  intros Hwf HT Hnl Hc Hcn Hlock. pose proof (sched_wf_cpu s i c Hwf Hc) as Hi.
  pose proof (proj1 (not_iff_compat (linked_in s t T HT)) Hnl) as Hnl'.
  apply Decidable.not_or in Hnl' as [HcT HnT].
  assert (Hlk : forall u, tcbs (take_cand s t i) !! u = if decide (u = t)
    then Some (set_TCB_bIsCand true (set_TCB_ulCPUId i T)) else tcbs s !! u).
  { intros u. unfold take_cand. rewrite lookup_upd_tcb. simpl.
    destruct (decide (u = t)) as [->|]; [by rewrite HT|done]. }
  assert (Hlc : forall j, cpus (take_cand s t i) !! j = if decide (j = i)
    then Some (set_CAND_ptcbCand (Some t) c) else cpus s !! j).
  { intros j. change (cpus (take_cand s t i)) with (cpus (LW_CAND_TCB_set i (Some t) s)).
    unfold LW_CAND_TCB_set. rewrite lookup_upd_cpu. destruct (decide (j = i)) as [->|]; [by rewrite Hc|done]. }
  pose proof Hwf as [W1 W2 W3 W4 W5 W6 W7 W8]. split; [split; try done|].
  - intros j. rewrite Hlc. destruct (decide (j = i)) as [->|]; [|apply W1].
    split; [intros _; exact Hi|by eexists].
  - intros u U. rewrite Hlk. destruct (decide (u = t)) as [->|]; [|apply W3].
    intros [= <-]. destruct (W3 t T HT) as (? & ? & ?). splits; done.
  - intros p u Hu. destruct (W4 p u Hu) as (U & HU & Ep & HcU). exists U. rewrite Hlk.
    destruct (decide (u = t)) as [->|]; [|done]. exfalso. apply Hnl. by apply (linked_ring s p).
  - intros j d u. rewrite Hlc. destruct (decide (j = i)) as [->|].
    + intros [= <-] [= <-]. eexists. rewrite Hlk, decide_True by done. by splits.
    + intros Hd Hu. destruct (W7 j d u Hd Hu) as (U & HU & H). exists U. rewrite Hlk.
      destruct (decide (u = t)) as [->|]; [|done]. exfalso. apply Hnl. by apply (linked_cand s j d).
  - intros u U. rewrite Hlk. destruct (decide (u = t)) as [->|].
    + intros [= <-] _. eexists. rewrite Hlc. simpl. by rewrite decide_True.
    + intros HU HcU. destruct (W8 u U HU HcU) as (d & Hd & Hcd). exists d. rewrite Hlc.
      destruct (decide (TCB_ulCPUId U = i)) as [E|]; [|done]. rewrite E in Hd. congruence.
  - intros u. unfold linked. setoid_rewrite Hlk. destruct (decide (u = t)) as [->|Hne].
    + split; [by left|]. intros _. eexists. split; [done|]. by left.
    + split; [by right|]. intros [?|?]; [done|]. done.
Qed.

Definition drop_cand (s : SCHED) (t i : Z) : SCHED :=
  upd_tcb t (set_TCB_bIsCand false) (LW_CAND_TCB_set i None s).

(** The candidate of a CPU is given up. *)
Lemma wf_drop_cand s t i c :
  sched_wf s -> cpus s !! i = Some c -> CAND_ptcbCand c = Some t ->
  sched_wf (drop_cand s t i) /\ forall u, linked (drop_cand s t i) u <-> u <> t /\ linked s u.
Proof.
  intros Hwf Hc Hcn. pose proof (sched_wf_cpu s i c Hwf Hc) as Hi.
  destruct (sw_cand s Hwf i c t Hc Hcn) as (T & HT & HcT & HiT & Hlock).
  assert (Hlk : forall u, tcbs (drop_cand s t i) !! u = if decide (u = t)
    then Some (set_TCB_bIsCand false T) else tcbs s !! u).
  { intros u. unfold drop_cand. rewrite lookup_upd_tcb. simpl.
    destruct (decide (u = t)) as [->|]; [by rewrite HT|done]. }
  assert (Hlc : forall j, cpus (drop_cand s t i) !! j = if decide (j = i)
    then Some (set_CAND_ptcbCand None c) else cpus s !! j).
  { intros j. change (cpus (drop_cand s t i)) with (cpus (LW_CAND_TCB_set i None s)).
    unfold LW_CAND_TCB_set. rewrite lookup_upd_cpu. destruct (decide (j = i)) as [->|]; [by rewrite Hc|done]. }
  assert (Hnr : forall p, t ∉ ring s p).
  { intros p Hin. destruct (sw_ring s Hwf p t Hin) as (T' & HT' & _ & HcT').
    rewrite HT in HT'. injection HT' as <-. congruence. }
  pose proof Hwf as [W1 W2 W3 W4 W5 W6 W7 W8]. split; [split; try done|].
  - intros j. rewrite Hlc. destruct (decide (j = i)) as [->|]; [|apply W1].
    split; [intros _; exact Hi|by eexists].
  - intros u U. rewrite Hlk. destruct (decide (u = t)) as [->|]; [|apply W3].
    intros [= <-]. by apply (W3 t T HT).
  - intros p u Hu. destruct (W4 p u Hu) as (U & HU & Ep & HcU). exists U. rewrite Hlk.
    destruct (decide (u = t)) as [->|]; [|done]. exfalso. by apply (Hnr p).
  - intros j d u. rewrite Hlc. destruct (decide (j = i)) as [->|]; [by intros [= <-] [=]|].
    intros Hd Hu. destruct (W7 j d u Hd Hu) as (U & HU & H). exists U. rewrite Hlk.
    destruct (decide (u = t)) as [->|]; [|done]. rewrite HT in HU. injection HU as <-.
    destruct H as (_ & H & _). congruence.
  - intros u U. rewrite Hlk. destruct (decide (u = t)) as [->|Hne]; [by intros [= <-] [=]|].
    intros HU HcU. destruct (W8 u U HU HcU) as (d & Hd & Hcd). exists d. rewrite Hlc.
    destruct (decide (TCB_ulCPUId U = i)) as [E|]; [|done]. rewrite E in Hd. congruence.
  - intros u. unfold linked. setoid_rewrite Hlk. destruct (decide (u = t)) as [->|Hne].
    + split; [|by intros [? _]]. intros (U & [= <-] & [H|H]); [done|]. exfalso. by eapply Hnr.
    + split; [by split|by intros [_ ?]].
Qed.

(** Writes that the structure does not depend on. *)
Definition harmless_tcb (f : TCB -> TCB) : Prop := forall T,
  TCB_ucPriority (f T) = TCB_ucPriority T /\ TCB_bCPULock (f T) = TCB_bCPULock T /\
  TCB_ulCPULock (f T) = TCB_ulCPULock T /\ TCB_ulCPUId (f T) = TCB_ulCPUId T /\
  TCB_bIsCand (f T) = TCB_bIsCand T.

Lemma wf_upd_tcb s t f :
  harmless_tcb f -> sched_wf s ->
  sched_wf (upd_tcb t f s) /\ forall u, linked (upd_tcb t f s) u <-> linked s u.
Proof.
  intros Hf Hwf.
  assert (Hlk : forall u U, tcbs s !! u = Some U -> exists U', tcbs (upd_tcb t f s) !! u = Some U' /\
     (U' = U \/ U' = f U)).
  { intros u U HU. rewrite lookup_upd_tcb, HU. destruct (decide (u = t)); eauto. }
  assert (Hlk' : forall u U', tcbs (upd_tcb t f s) !! u = Some U' -> exists U, tcbs s !! u = Some U /\
     (U' = U \/ U' = f U)).
  { intros u U' HU. rewrite lookup_upd_tcb in HU. destruct (decide (u = t)); [|eauto].
    destruct (tcbs s !! u) as [U|]; [|done]. injection HU as <-. eauto. }
  assert (Hg : forall U, _GetPcb (f U) = _GetPcb U).
  { intros U. destruct (Hf U) as (E1 & E2 & E3 & _). unfold _GetPcb. by rewrite E1, E2, E3. }
  pose proof Hwf as [W1 W2 W3 W4 W5 W6 W7 W8]. split; [split; try done|].
  - intros u U (V & HV & [-> | ->])%Hlk'; [by apply (W3 u)|].
    destruct (Hf V) as (-> & -> & -> & -> & _). by apply (W3 u).
  - intros p u Hu. destruct (W4 p u Hu) as (U & HU & Ep & HcU).
    destruct (Hlk u U HU) as (V & HV & [-> | ->]); [by exists U|]. exists (f U).
    rewrite Hg. destruct (Hf U) as (_ & _ & _ & _ & ->). done.
  - intros j d u Hd Hu. destruct (W7 j d u Hd Hu) as (U & HU & H).
    destruct (Hlk u U HU) as (V & HV & [-> | ->]); [by exists U|]. exists (f U).
    destruct (Hf U) as (_ & -> & -> & -> & ->). done.
  - intros u U (V & HV & [-> | ->])%Hlk'; [by apply W8|].
    destruct (Hf V) as (_ & _ & _ & -> & ->). by apply W8.
  - intros u. split.
    + intros (U & (V & HV & [-> | ->])%Hlk' & H); exists V; [done|].
      rewrite Hg in H. destruct (Hf V) as (_ & _ & _ & _ & E). rewrite E in H. done.
    + intros (U & HU & H). destruct (Hlk u U HU) as (V & HV & [-> | ->]); [by exists U|]. exists (f U).
      rewrite Hg. destruct (Hf U) as (_ & _ & _ & _ & ->). done.
Qed.

Lemma wf_rot s i v :
  sched_wf s -> sched_wf (LW_CAND_ROT_set i v s) /\ forall u, linked (LW_CAND_ROT_set i v s) u <-> linked s u.
Proof.
  intros Hwf.
  assert (Hlk : forall j d', cpus (LW_CAND_ROT_set i v s) !! j = Some d' -> exists d, cpus s !! j = Some d
    /\ CAND_ptcbCand d' = CAND_ptcbCand d).
  { intros j d'. unfold LW_CAND_ROT_set. rewrite lookup_upd_cpu. destruct (decide (j = i)); [|eauto].
    destruct (cpus s !! j) as [d|]; [|done]. intros [= <-]. eauto. }
  assert (Hlk' : forall j d, cpus s !! j = Some d -> exists d', cpus (LW_CAND_ROT_set i v s) !! j = Some d'
    /\ CAND_ptcbCand d' = CAND_ptcbCand d).
  { intros j d Hd. unfold LW_CAND_ROT_set. rewrite lookup_upd_cpu, Hd. destruct (decide (j = i)); eexists; done. }
  pose proof Hwf as [W1 W2 W3 W4 W5 W6 W7 W8]. split; [split; try done|done].
  - intros j. change (cpu_id (LW_CAND_ROT_set i v s) j) with (cpu_id s j). rewrite <-W1. split; intros [d Hd].
    + destruct (Hlk j d Hd) as (? & ? & _). by eexists.
    + destruct (Hlk' j d Hd) as (? & ? & _). by eexists.
  - intros j d u (d0 & Hd0 & E)%Hlk Hu. rewrite E in Hu. by apply (W7 j d0).
  - intros u U HU HcU. destruct (W8 u U HU HcU) as (d & Hd & Hcd).
    destruct (Hlk' _ d Hd) as (d' & Hd' & E). exists d'. by rewrite E.
Qed.

(** ** The operations *)

(** What an operation does to the structure: it keeps it well formed, keeps
    the threads' attributes, and links exactly the threads of [L]. *)
Definition step_ok (s s' : SCHED) (L : Z -> Prop) : Prop :=
  sched_wf s' /\ same_attrs s s' /\ forall u, linked s' u <-> L u.

Lemma step_ok_trans s1 s2 s3 L1 L2 :
  step_ok s1 s2 L1 -> step_ok s2 s3 L2 -> step_ok s1 s3 L2.
Proof. intros (W1 & A1 & H1) (W2 & A2 & H2). split; [done|]. split; [by eapply same_attrs_trans|done]. Qed.

Lemma step_ok_ext s1 s2 (L1 L2 : Z -> Prop) :
  (forall u, L1 u <-> L2 u) -> step_ok s1 s2 L1 -> step_ok s1 s2 L2.
Proof. intros HL (W & A & H). split; [done|]. split; [done|]. intros u. by rewrite H. Qed.

Lemma same_attrs_upd_tcb s t f : (forall T, attrs (f T) = attrs T) -> same_attrs s (upd_tcb t f s).
Proof.
  intros Hf. split; [done|]. intros u. rewrite lookup_upd_tcb. destruct (decide (u = t)); [|done].
  destruct (tcbs s !! u); [|done]. simpl. by rewrite Hf.
Qed.

Lemma same_attrs_take s t i : same_attrs s (take_cand s t i).
Proof. eapply same_attrs_trans; [|by apply same_attrs_upd_tcb]. by split. Qed.

Lemma same_attrs_drop s t i : same_attrs s (drop_cand s t i).
Proof. eapply same_attrs_trans; [|by apply same_attrs_upd_tcb]. by split. Qed.

(** The thread [_CandTableNext] picks and the ring it leaves. *)
Definition next_pick (h : Z) (H : TCB) (l : list Z) : Z :=
  if TCB_usSchedCounter H =? 0 then hd_or h l else h.
Definition next_ring (h : Z) (H : TCB) (l : list Z) : list Z :=
  if TCB_usSchedCounter H =? 0 then l ++ [h] else h :: l.
Definition next_state (s : SCHED) (ppcb : PCB) (h : Z) (H : TCB) (l : list Z) : SCHED :=
  if TCB_usSchedCounter H =? 0
  then set_ring ppcb (l ++ [h]) (upd_tcb h (set_TCB_usSchedCounter (TCB_usSchedSlice H)) s) else s.

Lemma next_eq s ppcb h H l :
  ring s ppcb = h :: l -> tcbs s !! h = Some H ->
  _CandTableNext s ppcb = Some (next_state s ppcb h H l, next_pick h H l).
Proof.
  intros E HH. unfold _CandTableNext, next_state, next_pick. rewrite E, HH. simpl.
  by destruct (TCB_usSchedCounter H =? 0).
Qed.

Lemma ring_set_ring ppcb l s q :
  is_Some (rdys s !! fst ppcb) -> ring (set_ring ppcb l s) q = if decide (q = ppcb) then l else ring s q.
Proof. rewrite set_ring_put. apply ring_put. Qed.

Lemma next_wf s ppcb h H l :
  sched_wf s -> ring s ppcb = h :: l -> tcbs s !! h = Some H ->
  let s' := next_state s ppcb h H l in
  step_ok s s' (linked s) /\ next_pick h H l ∈ next_ring h H l /\
  (forall q, ring s' q = if decide (q = ppcb) then next_ring h H l else ring s q).
Proof.
  intros Hwf E HH s'. assert (Hin : h ∈ ring s ppcb) by (rewrite E; left).
  destruct (sw_ring s Hwf ppcb h Hin) as (T & HT & Ep & _).
  destruct (sched_wf_pcb s h T Hwf HT) as [Hr _]. rewrite Ep in Hr.
  subst s'. unfold next_state, next_pick, next_ring.
  destruct (TCB_usSchedCounter H =? 0).
  - destruct (wf_upd_tcb s h (set_TCB_usSchedCounter (TCB_usSchedSlice H))) as [Hwf1 HL1]; [by intros ?|done|].
    set (s1 := upd_tcb h _ s) in *.
    assert (Er1 : ring s1 ppcb = h :: l) by done.
    destruct (wf_rotate s1 ppcb (l ++ [h]) Hwf1) as [Hwf2 HL2].
    { by rewrite Er1, <-Permutation_cons_append. }
    { by destruct l. }
    splits.
    + split; [done|]. split; [|intros u; rewrite (HL2 u); apply HL1].
      eapply same_attrs_trans; [apply (same_attrs_upd_tcb s h (set_TCB_usSchedCounter (TCB_usSchedSlice H))); done|]. by split.
    + destruct l as [|y l]; simpl; left.
    + intros q. by rewrite ring_set_ring.
  - splits; [by split; [|split]|left|].
    intros q. case_decide as Eq; [by rewrite Eq|done].
Qed.

(** [_CandTableResel], as a rotation, a removal and a take. *)
Lemma resel_spec s pcpu c ppcb h l :
  sched_wf s -> cpus s !! pcpu = Some c -> CAND_ptcbCand c = None ->
  ring s ppcb = h :: l -> (fst ppcb = None \/ fst ppcb = Some pcpu) ->
  exists s' H, tcbs s !! h = Some H /\ _CandTableResel s pcpu ppcb = Some s' /\
    step_ok s s' (linked s) /\
    cpus s' = alter (set_CAND_ptcbCand (Some (next_pick h H l))) pcpu (cpus s) /\
    (forall q, ring s' q = if decide (q = ppcb) then remove_node (next_pick h H l) (next_ring h H l)
                           else ring s q) /\
    (forall u, tcbs s' !! u = if decide (u = next_pick h H l)
       then (fun t => set_TCB_bIsCand true (set_TCB_ulCPUId pcpu t)) <$> tcbs (next_state s ppcb h H l) !! u
       else tcbs (next_state s ppcb h H l) !! u).
Proof.
  intros Hwf Hc Hcn E Hfst. assert (Hin : h ∈ ring s ppcb) by (rewrite E; left).
  destruct (sw_ring s Hwf ppcb h Hin) as (H & HH & Ep & HcH).
  destruct (sched_wf_pcb s h H Hwf HH) as [Hr _]. rewrite Ep in Hr.
  unfold _CandTableResel. rewrite (next_eq s ppcb h H l E HH). simpl.
  destruct (next_wf s ppcb h H l Hwf E HH) as ((Hwf1 & Ha1 & HL1) & Hpick & Hring).
  assert (Ec1 : cpus (next_state s ppcb h H l) = cpus s).
  { unfold next_state. by destruct (TCB_usSchedCounter H =? 0). }
  set (s1 := next_state s ppcb h H l) in *. set (t := next_pick h H l) in *.
  assert (Er1 : ring s1 ppcb = next_ring h H l) by (by rewrite Hring, decide_True).
  rewrite <-Er1 in Hpick.
  destruct (wf_ready_del s1 t ppcb Hwf1 Hpick) as [Hwf2 HL2]. simpl in Hwf2, HL2.
  set (l2 := remove_node t (ring s1 ppcb)) in *.
  set (s2 := ready_put ppcb l2 (bmap_del s1 ppcb l2) s1) in *.
  destruct (sw_ring s1 Hwf1 ppcb t Hpick) as (T & HT & EpT & HcT).
  destruct (sched_wf_pcb s1 t T Hwf1 HT) as [Hr1 _]. rewrite EpT in Hr1.
  destruct (wf_take_cand s2 t T pcpu c) as [Hwf3 HL3]; [done|done| |by simpl; rewrite Ec1|done| |].
  { rewrite HL2. by intros [? _]. }
  { intros Hlk. unfold _GetPcb in EpT. rewrite Hlk in EpT. rewrite <-EpT in Hfst; simpl in Hfst.
    destruct Hfst as [Hf|Hf]; [done|congruence]. }
  exists (take_cand s2 t pcpu), H. split; [done|]. split.
  - unfold _DelTCBFromReadyRing.
    change (ring (upd_tcb t ?f (LW_CAND_TCB_set pcpu ?v s1)) ppcb) with (ring s1 ppcb).
    rewrite bool_decide_eq_true_2 by done. simpl. fold l2.
    match goal with |- context [_PcbIsEmpty ?x ppcb] => set (s3 := x) end.
    assert (E3 : s3 = take_cand (set_ring ppcb l2 s1) t pcpu) by done.
    assert (Er3 : ring s3 ppcb = l2).
    { rewrite E3. change (ring (take_cand ?x t pcpu) ppcb) with (ring x ppcb).
      rewrite ring_set_ring by done. by rewrite decide_True. }
    unfold _PcbIsEmpty. rewrite Er3. subst s2. unfold bmap_del. clearbody l2.
    destruct l2 as [|x l2].
    + assert (EtT : tcbs s3 !! t = Some (set_TCB_bIsCand true (set_TCB_ulCPUId pcpu T))).
      { change (tcbs s3) with (tcbs (take_cand s1 t pcpu)). unfold take_cand.
        rewrite lookup_upd_tcb, decide_True by done. simpl. by rewrite HT. }
      unfold _ReadyTableDel. rewrite EtT. simpl mbind. rewrite E3.
      assert (Eh : home (set_TCB_bIsCand true (set_TCB_ulCPUId pcpu T)) = fst ppcb /\ TCB_ucPriority T = snd ppcb).
      { rewrite <-EpT. unfold home, _GetPcb. simpl. by destruct (TCB_bCPULock T). }
      destruct Eh as [-> ->]. f_equal.
      transitivity (take_cand (set_bmap (fst ppcb) (_BitmapDel (bmap (set_ring ppcb [] s1) (fst ppcb)) (snd ppcb))
        (set_ring ppcb [] s1)) t pcpu); [done|]. rewrite set_bmap_ring. f_equal. f_equal.
      rewrite set_ring_put, bmap_put by done. by rewrite decide_True.
    + f_equal. rewrite E3. by rewrite set_ring_put.
  - splits.
    + split; [done|]. split.
      * eapply same_attrs_trans; [done|]. eapply same_attrs_trans; [|apply same_attrs_take]. by split.
      * intros u. rewrite HL3, HL2, HL1. destruct (decide (u = t)) as [->|]; [|tauto].
        split; [|tauto]. intros _. rewrite <-HL1. by apply (linked_ring s1 ppcb).
    + simpl. by rewrite Ec1.
    + intros q. change (ring (take_cand s2 t pcpu) q) with (ring s2 q). subst s2.
      rewrite ring_put by done. case_decide as Eq; [subst l2; by rewrite Er1|].
      by rewrite Hring, decide_False.
    + intros u. unfold take_cand. by rewrite lookup_upd_tcb.
Qed.

(** The ready tables a CPU takes threads from. *)
Definition visible (c : CPU) (i : Z) (r : option Z) : Prop :=
  r = Some i \/ (r = None /\ CPU_bOnlyAffinity c = false).

Lemma ring_prio s ppcb : sched_wf s -> ring s ppcb <> [] -> prio_ok (snd ppcb).
Proof.
  intros Hwf Hne. destruct (ring s ppcb) as [|t l] eqn:E; [done|].
  destruct (sw_ring s Hwf ppcb t) as (T & HT & <- & _); [rewrite E; left|].
  by apply (sched_wf_pcb s t T).
Qed.

Lemma mem_ring s r p : sched_wf s -> prio_ok p -> bmap_mem (bmap s r) p = true <-> ring s (r, p) <> [].
Proof.
  intros Hwf Hp. rewrite (proj2 (sw_bmap s Hwf r)) by done. unfold _PcbIsEmpty.
  destruct (ring s (r, p)); naive_solver.
Qed.

(** One table: empty, or [_BitmapHigh] is the first non-empty ring. *)
Lemma table_high s r :
  sched_wf s ->
  (_BitmapIsEmpty (bmap s r) = true /\ forall p, ring s (r, p) = []) \/
  (_BitmapIsEmpty (bmap s r) = false /\ ring s (r, _BitmapHigh (bmap s r)) <> [] /\
   forall p, ring s (r, p) <> [] -> _BitmapHigh (bmap s r) <= p).
Proof.
  intros Hwf. destruct (_BitmapHigh_spec (bmap s r)) as [(He & _ & H)|(He & Hp & Hm & H)];
    [apply (sw_bmap s Hwf)|left|right].
  - split; [done|]. intros p. destruct (ring s (r, p)) eqn:E; [done|]. exfalso.
    assert (Hne : ring s (r, p) <> []) by (by rewrite E).
    pose proof (ring_prio s (r, p) Hwf Hne) as Hp. apply mem_ring in Hne; [|done|done].
    by rewrite H in Hne.
  - split; [done|]. split; [by apply mem_ring|]. intros p Hne. apply H; [by apply (ring_prio s (r, p))|].
    apply mem_ring; [done| |done]. by apply (ring_prio s (r, p)).
Qed.

(** The search finds the most urgent visible ring, if there is one; on a tie
    it prefers the CPU's own table. *)
Lemma seek_spec s i c :
  sched_wf s -> cpus s !! i = Some c ->
  (_CandTableSeek s i = Some None /\ forall r p, visible c i r -> ring s (r, p) = []) \/
  (exists r p, _CandTableSeek s i = Some (Some (r, p)) /\ ring s (r, p) <> [] /\ visible c i r /\
    (forall r' q, visible c i r' -> ring s (r', q) <> [] -> p <= q) /\
    (r = None -> forall q, ring s (Some i, q) <> [] -> p < q)).
Proof.
  intros Hwf Hc. unfold _CandTableSeek. rewrite Hc. simpl.
  destruct (table_high s (Some i) Hwf) as [(-> & Ho)|(-> & Ho & Hmin)];
    destruct (table_high s None Hwf) as [(-> & Hg)|(-> & Hg & Hgmin)].
  - left. rewrite orb_true_r. split; [done|]. by intros r p [-> | [-> _]].
  - destruct (CPU_bOnlyAffinity c) eqn:Ea; simpl.
    + left. split; [done|]. intros r p [-> | [-> E]]; [done|congruence].
    + right. eexists None, _. splits; [done|done|by right| |].
      * intros r q [-> | [-> E]] Hq; [by destruct (Hq (Ho q))|by apply Hgmin].
      * intros _ q. by rewrite Ho.
  - right. rewrite orb_true_r. eexists (Some i), _. splits; [done|done|by left| |done].
    intros r q [-> | [-> E]] Hq; [by apply Hmin|by destruct (Hq (Hg q))].
  - right. destruct (CPU_bOnlyAffinity c) eqn:Ea; simpl.
    + eexists (Some i), _. splits; [reflexivity|exact Ho|by left| |done].
      intros r q [-> | [-> E]] Hq; [exact (Hmin q Hq)|congruence].
    + unfold LW_PRIO_IS_HIGH_OR_EQU.
      destruct (Z.leb_spec (_BitmapHigh (bmap s (Some i))) (_BitmapHigh (bmap s None))).
      * eexists (Some i), _. splits; [reflexivity|exact Ho|by left| |done].
        intros r q [-> | [-> E]] Hq; [exact (Hmin q Hq)|pose proof (Hgmin q Hq); lia].
      * eexists None, _. splits; [reflexivity|exact Hg|by right| |].
        -- intros r q [-> | [-> E]] Hq; [pose proof (Hmin q Hq); lia|exact (Hgmin q Hq)].
        -- intros _ q Hq. pose proof (Hmin q Hq). lia.
Qed.

Lemma fill_eq s i :
  _CandTableFill s i = (seek ← _CandTableSeek s i; ppcb ← seek; _CandTableResel s i ppcb).
Proof. done. Qed.

Lemma visible_fst c i r : visible c i r -> r = None \/ r = Some i.
Proof. intros [?|[? _]]; auto. Qed.

(** The candidate returns to the head of its ring. *)
Lemma empty_spec s i c t T :
  sched_wf s -> cpus s !! i = Some c -> CAND_ptcbCand c = Some t -> tcbs s !! t = Some T ->
  exists s', _CandTableEmpty s i = Some s' /\ step_ok s s' (linked s) /\
    cpus s' = alter (set_CAND_ptcbCand None) i (cpus s) /\
    tcbs s' = alter (set_TCB_bIsCand false) t (tcbs s) /\
    (forall q, ring s' q = if decide (q = _GetPcb T) then t :: ring s (_GetPcb T) else ring s q).
Proof.
  intros Hwf Hc Hcn HT. destruct (wf_drop_cand s t i c Hwf Hc Hcn) as [Hwf1 HL1].
  set (s1 := drop_cand s t i) in *.
  assert (HT1 : tcbs s1 !! t = Some (set_TCB_bIsCand false T)).
  { unfold s1, drop_cand. rewrite lookup_upd_tcb, decide_True by done. simpl. by rewrite HT. }
  destruct (sched_wf_pcb s t T Hwf HT) as [Hr _].
  change (_GetPcb T) with (_GetPcb (set_TCB_bIsCand false T)).
  destruct (wf_ready_ins s1 t _ (t :: ring s1 (_GetPcb T)) Hwf1 HT1) as [Hwf2 HL2].
  { rewrite HL1. by intros [? _]. } { done. }
  simpl in Hwf2, HL2. set (ppcb := _GetPcb (set_TCB_bIsCand false T)) in *.
  change (_GetPcb T) with ppcb in *.
  set (s2 := ready_put ppcb (t :: ring s1 ppcb) (bmap_ins s1 ppcb) s1) in *.
  exists s2. split; [|splits].
  - unfold _CandTableEmpty. rewrite Hc. simpl. rewrite Hcn. simpl. rewrite HT. simpl.
    unfold _AddTCBToReadyRing. change (_GetPcb T) with ppcb.
    rewrite lookup_upd_tcb, decide_True, HT by done. simpl.
    change (ring (upd_tcb t ?f s) ppcb) with (ring s1 ppcb).
    set (s3 := set_ring ppcb _ _).
    assert (Er3 : ring s3 ppcb = t :: ring s1 ppcb).
    { subst s3. rewrite ring_set_ring by done. by rewrite decide_True. }
    unfold _PcbIsOne. rewrite Er3. subst s2. unfold bmap_ins, _PcbIsEmpty.
    destruct (ring s1 ppcb) as [|x l] eqn:El.
    + unfold _ReadyTableAdd.
      assert (EtT : tcbs s3 !! t = Some (set_TCB_bIsCand false T)).
      { subst s3. simpl. by rewrite lookup_alter_eq, HT. }
      rewrite EtT. simpl.
      assert (Eh : home (set_TCB_bIsCand false T) = fst ppcb /\ TCB_ucPriority T = snd ppcb).
      { unfold ppcb, home, _GetPcb. simpl. by destruct (TCB_bCPULock T). }
      destruct Eh as [-> ->]. f_equal.
      transitivity (set_bmap (fst ppcb) (_BitmapAdd (bmap (set_ring ppcb [t] s1) (fst ppcb)) (snd ppcb))
        (set_ring ppcb [t] s1)); [done|]. rewrite set_bmap_ring. f_equal. f_equal.
      rewrite set_ring_put, bmap_put by done. by rewrite decide_True.
    + simpl. f_equal. rewrite <-set_ring_put. done.
  - split; [done|]. split; [eapply same_attrs_trans; [apply same_attrs_drop|by split]|].
    intros u. rewrite HL2, HL1. destruct (decide (u = t)) as [->|]; [|tauto].
    split; [|tauto]. intros _. by apply (linked_cand s i c).
  - done.
  - done.
  - intros q. unfold s2. rewrite ring_put by done. done.
Qed.

(** *** The scans over the CPUs *)

(** Only rotation requests were raised. *)
Definition rot_rel (s s' : SCHED) : Prop :=
  tcbs s' = tcbs s /\ rdys s' = rdys s /\ LW_NCPUS s' = LW_NCPUS s /\
  forall j, match cpus s !! j with
    | Some c => cpus s' !! j = Some c \/ cpus s' !! j = Some (set_CAND_bNeedRotate true c)
    | None => cpus s' !! j = None
    end.

Lemma rot_rel_refl s : rot_rel s s.
Proof. unfold rot_rel. splits; try done. intros j. destruct (cpus s !! j); [by left|done]. Qed.

Lemma rot_rel_trans s1 s2 s3 : rot_rel s1 s2 -> rot_rel s2 s3 -> rot_rel s1 s3.
Proof.
  intros (E1 & E2 & E3 & H1) (F1 & F2 & F3 & H2). unfold rot_rel. splits; [congruence..|]. intros j.
  specialize (H1 j). specialize (H2 j). destruct (cpus s1 !! j) as [c|].
  - destruct H1 as [E|E]; rewrite E in H2; [done|]. right. by destruct H2 as [?|?].
  - by rewrite H1 in H2.
Qed.

Lemma rot_rel_set s i : rot_rel s (LW_CAND_ROT_set i true s).
Proof.
  unfold rot_rel. splits; try done. intros j. unfold LW_CAND_ROT_set. rewrite lookup_upd_cpu.
  destruct (cpus s !! j) as [c|]; destruct (decide (j = i)); simpl; auto.
Qed.

Lemma rot_rel_cpu s s' i c : rot_rel s s' -> cpus s !! i = Some c ->
  exists c', cpus s' !! i = Some c' /\ (c' = c \/ c' = set_CAND_bNeedRotate true c).
Proof.
  intros (_ & _ & _ & H) Hc. specialize (H i). rewrite Hc in H. destruct H; eauto.
Qed.

Lemma rot_rel_cpu' s s' i c' : rot_rel s s' -> cpus s' !! i = Some c' ->
  exists c, cpus s !! i = Some c /\ (c' = c \/ c' = set_CAND_bNeedRotate true c).
Proof.
  intros (_ & _ & _ & H) Hc. specialize (H i). destruct (cpus s !! i) as [c|]; [|congruence].
  exists c. split; [done|]. rewrite Hc in H. destruct H as [[= ?]|[= ?]]; auto.
Qed.

Lemma rot_rel_ring s s' q : rot_rel s s' -> ring s' q = ring s q.
Proof. intros (_ & E & _). unfold ring. by rewrite E. Qed.

Lemma rot_rel_bmap s s' r : rot_rel s s' -> bmap s' r = bmap s r.
Proof. intros (_ & E & _). unfold bmap. by rewrite E. Qed.

Lemma rot_rel_wf s s' : rot_rel s s' -> sched_wf s -> step_ok s s' (linked s).
Proof.
  intros Hr Hwf. pose proof Hr as (Et & Er & En & _).
  assert (Hring : forall q, ring s' q = ring s q) by (intros; by apply rot_rel_ring).
  assert (Hid : forall i, cpu_id s' i <-> cpu_id s i) by (intros; unfold cpu_id; by rewrite En).
  pose proof Hwf as [W1 W2 W3 W4 W5 W6 W7 W8]. split; [split|split].
  - intros i. rewrite Hid, <-W1. split; intros [c Hc].
    + destruct (rot_rel_cpu' s s' i c Hr Hc) as (d & -> & _). done.
    + destruct (rot_rel_cpu s s' i c Hr Hc) as (d & -> & _). done.
  - intros r. rewrite Er, W2. destruct r; [by rewrite Hid|done].
  - intros t T. rewrite Et, !Hid. apply W3.
  - intros q t. rewrite Hring, Et. apply W4.
  - intros q. rewrite Hring. apply W5.
  - intros r. rewrite (rot_rel_bmap s s' r Hr). unfold _PcbIsEmpty. setoid_rewrite Hring. apply W6.
  - intros i c' t (c & Hc & Ec)%(rot_rel_cpu' s s' i c' Hr) Ht. rewrite Et. apply (W7 i c); [done|].
    by destruct Ec as [-> | ->].
  - intros t T. rewrite Et. intros HT HcT. destruct (W8 t T HT HcT) as (c & Hc & Hcd).
    destruct (rot_rel_cpu s s' _ c Hr Hc) as (c' & Hc' & Ec). exists c'. split; [done|].
    by destruct Ec as [-> | ->].
  - split; [done|]. intros t. by rewrite Et.
  - intros u. unfold linked. rewrite Et. by setoid_rewrite Hring.
Qed.

(** A CPU the scans may ask: active and open to unbound threads. *)
Definition eligible (c : CPU) : Prop := CPU_bActive c = true /\ CPU_bOnlyAffinity c = false.

(** The candidate of [i] exists and has priority [p]. *)
Definition cand_prio (s : SCHED) (i p : Z) : Prop :=
  exists c t T, cpus s !! i = Some c /\ CAND_ptcbCand c = Some t /\ tcbs s !! t = Some T /\
    TCB_ucPriority T = p.

Definition rot_set (s : SCHED) (i : Z) : Prop :=
  exists c, cpus s !! i = Some c /\ CAND_bNeedRotate c = true.

Lemma rot_set_mono s s' i : rot_rel s s' -> rot_set s i -> rot_set s' i.
Proof.
  intros Hr (c & Hc & Hrot). destruct (rot_rel_cpu s s' i c Hr Hc) as (c' & Hc' & [-> | ->]); by eexists.
Qed.

Lemma cand_prio_rot s s' i p : rot_rel s s' -> cand_prio s i p <-> cand_prio s' i p.
Proof.
  intros Hr. pose proof Hr as (Et & _). unfold cand_prio. rewrite Et. split.
  - intros (c & t & T & Hc & Ht & H). destruct (rot_rel_cpu s s' i c Hr Hc) as (c' & Hc' & E).
    exists c', t, T. splits; [done| |apply H..]. by destruct E as [-> | ->].
  - intros (c' & t & T & Hc & Ht & H). destruct (rot_rel_cpu' s s' i c' Hr Hc) as (c & Hc' & E).
    exists c, t, T. splits; [done| |apply H..]. by destruct E as [-> | ->].
Qed.

Lemma rot_set_set s i c : cpus s !! i = Some c -> rot_set (LW_CAND_ROT_set i true s) i.
Proof.
  intros Hc. unfold rot_set, LW_CAND_ROT_set. rewrite lookup_upd_cpu, decide_True, Hc by done.
  by eexists.
Qed.

(** The taken slot was free. *)
Definition taken (s s' : SCHED) (t : Z) : Prop :=
  exists i c, s' = take_cand s t i /\ cpus s !! i = Some c /\ CAND_ptcbCand c = None.

Lemma tryadd_idle_spec ids cur t s :
  sched_wf s -> (forall i, i ∈ ids -> cpu_id s i) ->
  exists r, tryadd_idle ids cur t s = Some r /\
    match r with
    | ScanTaken s' => taken s s' t
    | ScanRot s' => exists i c, s' = LW_CAND_ROT_set i true s /\ cpus s !! i = Some c /\ eligible c /\
        cand_prio s i LW_PRIO_LOWEST
    | ScanEnd s' => s' = s
    end.
Proof.
  intros Hwf. induction ids as [|i ids IH]; intros Hids; cbn [tryadd_idle].
  - by eexists.
  - destruct (proj2 (sw_cpu s Hwf i)) as [c Hc]; [apply Hids; left|]. rewrite Hc. simpl.
    assert (IH' := IH (fun j Hj => Hids j (list_elem_of_further _ _ _ Hj))).
    destruct ((i =? cur) || negb (CPU_bActive c) || CPU_bOnlyAffinity c) eqn:Eg; [done|].
    apply orb_false_iff in Eg as [[_ Ea]%orb_false_iff Eo]. apply negb_false_iff in Ea.
    destruct (CAND_ptcbCand c) as [cd|] eqn:Ecd.
    + destruct (sw_cand s Hwf i c cd Hc Ecd) as (T & HT & _). rewrite HT. simpl.
      destruct (negb (CAND_bNeedRotate c) && (LW_PRIO_LOWEST =? TCB_ucPriority T)) eqn:El; [|done].
      eexists. split; [done|]. exists i, c. splits; [done|done|done|].
      apply andb_true_iff in El as [_ El%Z.eqb_eq]. by exists c, cd, T.
    + eexists. split; [done|]. by exists i, c.
Qed.

Lemma tryadd_lower_spec ids t p s :
  sched_wf s -> (forall i, i ∈ ids -> cpu_id s i) ->
  exists r, tryadd_lower ids t p s = Some r /\
    match r with
    | ScanTaken s' => exists s1, rot_rel s s1 /\ taken s1 s' t
    | ScanRot s' => False
    | ScanEnd s' => rot_rel s s' /\ forall i c q, i ∈ ids -> cpus s !! i = Some c -> eligible c ->
        cand_prio s i q -> p < q -> rot_set s' i
    end.
Proof.
  revert s. induction ids as [|i ids IH]; intros s Hwf Hids; cbn [tryadd_lower].
  - eexists. split; [done|]. split; [apply rot_rel_refl|]. by intros i c q ?%not_elem_of_nil.
  - destruct (proj2 (sw_cpu s Hwf i)) as [c Hc]; [apply Hids; left|]. rewrite Hc. simpl.
    assert (Hids' : forall j, j ∈ ids -> cpu_id s j) by (intros j Hj; apply Hids; by right).
    destruct (negb (CPU_bActive c) || CPU_bOnlyAffinity c) eqn:Eg.
    + destruct (IH s Hwf Hids') as (r & -> & Hr). exists r. split; [done|].
      destruct r as [s'|s'|s']; [done|done|]. destruct Hr as [Hr H]. split; [done|].
      intros j d q [->|Hj]%elem_of_cons Hd [He1 He2]; [|by apply (H j d q)].
      rewrite Hc in Hd. injection Hd as ->. by rewrite He1, He2 in Eg.
    + destruct (CAND_ptcbCand c) as [cd|] eqn:Ecd.
      * destruct (sw_cand s Hwf i c cd Hc Ecd) as (T & HT & _). rewrite HT. simpl.
        set (s1 := if LW_PRIO_IS_HIGH p (TCB_ucPriority T) then LW_CAND_ROT_set i true s else s).
        assert (H1 : rot_rel s s1).
        { subst s1. destruct (LW_PRIO_IS_HIGH _ _); [apply rot_rel_set|apply rot_rel_refl]. }
        destruct (rot_rel_wf s s1 H1 Hwf) as [Hwf1 _].
        assert (Hids1 : forall j, j ∈ ids -> cpu_id s1 j).
        { intros j Hj. unfold cpu_id. destruct H1 as (_ & _ & -> & _). by apply Hids'. }
        destruct (IH s1 Hwf1 Hids1) as (r & -> & Hr). exists r. split; [done|].
        destruct r as [s'|s'|s']; [|done|].
        -- destruct Hr as (s2 & Hr2 & Ht). exists s2. split; [by eapply rot_rel_trans|done].
        -- destruct Hr as [Hr H]. split; [by eapply rot_rel_trans|].
           intros j d q [->|Hj]%elem_of_cons Hd He Hq Hlt.
           ++ apply (rot_set_mono s1); [done|]. destruct Hq as (c' & t' & T' & Hc' & Ht' & HT' & <-).
              rewrite Hc in Hc'. injection Hc' as <-. rewrite Ecd in Ht'. injection Ht' as <-.
              rewrite HT in HT'. injection HT' as <-. subst s1. unfold LW_PRIO_IS_HIGH.
              rewrite (proj2 (Z.ltb_lt _ _)) by done. by apply (rot_set_set _ _ c).
           ++ destruct (rot_rel_cpu s s1 j d H1 Hd) as (d' & Hd' & Ed). apply (H j d' q); try done.
              ** destruct Ed as [-> | ->]; done.
              ** by apply (cand_prio_rot s s1).
      * eexists. split; [done|]. exists s. split; [apply rot_rel_refl|]. by exists i, c.
Qed.

(** No CPU loses its candidate, its running thread or its settings. *)
Definition cpu_keep (s s' : SCHED) : Prop :=
  forall j c, cpus s !! j = Some c -> exists c', cpus s' !! j = Some c' /\
    CPU_bActive c' = CPU_bActive c /\ CPU_bOnlyAffinity c' = CPU_bOnlyAffinity c /\
    CPU_ptcbTCBCur c' = CPU_ptcbTCBCur c /\ (CAND_ptcbCand c <> None -> CAND_ptcbCand c' <> None).

Lemma cpu_keep_refl s s' : cpus s' = cpus s -> cpu_keep s s'.
Proof. intros E j c Hc. exists c. by rewrite E. Qed.

Lemma cpu_keep_trans s1 s2 s3 : cpu_keep s1 s2 -> cpu_keep s2 s3 -> cpu_keep s1 s3.
Proof.
  intros H1 H2 j c Hc. destruct (H1 j c Hc) as (c1 & Hc1 & ? & ? & ? & ?).
  destruct (H2 j c1 Hc1) as (c2 & Hc2 & ? & ? & ? & ?). exists c2. splits; [done|congruence..|auto].
Qed.

Lemma cpu_keep_rot s s' : rot_rel s s' -> cpu_keep s s'.
Proof.
  intros Hr j c Hc. destruct (rot_rel_cpu s s' j c Hr Hc) as (c' & Hc' & E). exists c'.
  split; [done|]. by destruct E as [-> | ->].
Qed.

Lemma cpu_keep_rot_set s i v : cpu_keep s (LW_CAND_ROT_set i v s).
Proof.
  intros j c Hc. unfold LW_CAND_ROT_set. rewrite lookup_upd_cpu, Hc.
  destruct (decide (j = i)); eexists; by splits.
Qed.

Lemma cpu_keep_cand s s' i t :
  cpus s' = alter (set_CAND_ptcbCand (Some t)) i (cpus s) -> cpu_keep s s'.
Proof.
  intros E j c Hc. rewrite E. destruct (decide (j = i)) as [->|].
  - rewrite lookup_alter_eq, Hc. eexists. by splits.
  - rewrite lookup_alter_ne, Hc by done. eexists. by splits.
Qed.

(** *** Entering the ready tables *)

(** Where [_AddTCBToReadyRing] puts a thread that is not the header. *)
Definition ring_pos (t : Z) (T : TCB) (l : list Z) : list Z :=
  if TCB_ucSchedPolicy T =? LW_OPTION_SCHED_FIFO then l ++ [t]
  else if TCB_ucSchedActivateMode T =? LW_OPTION_RESPOND_IMMIEDIA then add_front t l
  else if TCB_ucSchedActivateMode T =? LW_OPTION_RESPOND_STANDARD then l ++ [t]
  else if TCB_ucSchedActivate T =? LW_SCHED_ACT_OTHER then l ++ [t]
  else add_front t l.

Lemma ring_pos_perm t T l : ring_pos t T l ≡ₚ t :: l.
Proof.
  unfold ring_pos. assert (l ++ [t] ≡ₚ t :: l) by (by rewrite <-Permutation_cons_append).
  repeat case_match; done || apply add_front_perm.
Qed.

(** The thread is not taken: it goes to its ring, and the bitmap follows. *)
Definition ring_add (s : SCHED) (t : Z) (T : TCB) : SCHED :=
  ready_put (_GetPcb T) (ring_pos t T (ring s (_GetPcb T))) (bmap_ins s (_GetPcb T)) s.

Lemma home_pcb T : home T = fst (_GetPcb T) /\ TCB_ucPriority T = snd (_GetPcb T).
Proof. unfold home, _GetPcb. by destruct (TCB_bCPULock T). Qed.

Lemma can_not_cand_eq s t T :
  tcbs s !! t = Some T ->
  match __can_not_cand s t (_GetPcb T) with
  | Some (s', true) => Some s'
  | Some (s', false) => _AddTCBToReadyRing s' t (_GetPcb T) false
  | None => None
  end = Some (ring_add s t T).
Proof.
  intros HT. unfold __can_not_cand, _PcbIsEmpty. destruct (home_pcb T) as [Eh Ep].
  unfold ring_add, bmap_ins, _PcbIsEmpty. destruct (ring s (_GetPcb T)) as [|x l] eqn:E.
  - unfold _ReadyTableAdd. rewrite HT. simpl. unfold _AddTCBToReadyRing. simpl. rewrite HT. simpl.
    rewrite Eh, Ep. f_equal. rewrite <-set_ring_bmap. f_equal.
    unfold ring_pos. replace (ring _ (_GetPcb T)) with (@nil Z); [done|].
    rewrite <-E. unfold ring, set_bmap. simpl. destruct (rdys s !! fst (_GetPcb T)) as [m|] eqn:Em.
    + by rewrite lookup_alter_eq, Em.
    + by rewrite lookup_alter_eq, Em.
  - simpl. unfold _AddTCBToReadyRing. rewrite HT. simpl. rewrite E. f_equal. by rewrite set_ring_put.
Qed.

Lemma ring_add_ok s t T :
  sched_wf s -> tcbs s !! t = Some T -> ~ linked s t ->
  step_ok s (ring_add s t T) (fun u => u = t \/ linked s u).
Proof.
  intros Hwf HT Hnl. destruct (wf_ready_ins s t T (ring_pos t T (ring s (_GetPcb T))) Hwf HT Hnl)
    as [Hwf' HL]; [apply ring_pos_perm|]. by split; [|split].
Qed.

(** A taken slot. *)
Lemma taken_ok s s' t T :
  sched_wf s -> tcbs s !! t = Some T -> ~ linked s t -> TCB_bCPULock T = false -> taken s s' t ->
  step_ok s s' (fun u => u = t \/ linked s u) /\ tcbs s' !! t <> None /\
  exists T', tcbs s' !! t = Some T' /\ TCB_bIsCand T' = true.
Proof.
  intros Hwf HT Hnl Hlock (i & c & -> & Hc & Hcn).
  destruct (wf_take_cand s t T i c) as [Hwf' HL]; try done; [congruence|].
  assert (E : tcbs (take_cand s t i) !! t = Some (set_TCB_bIsCand true (set_TCB_ulCPUId i T))).
  { unfold take_cand. rewrite lookup_upd_tcb, decide_True by done. simpl. by rewrite HT. }
  split; [split; [done|split; [apply same_attrs_take|done]]|]. rewrite E. split; [done|]. by eexists.
Qed.

Definition is_cand (s : SCHED) (t : Z) : Prop :=
  exists T, tcbs s !! t = Some T /\ TCB_bIsCand T = true.

(** No preemption is missed: if a CPU that may run [t] has a less urgent
    candidate, then such a CPU has been asked to rotate. *)
Definition preempts (s : SCHED) (t : Z) (T : TCB) : Prop :=
  forall i c q, cpus s !! i = Some c -> CPU_bActive c = true -> cand_prio s i q ->
    (if TCB_bCPULock T then i = TCB_ulCPULock T else CPU_bOnlyAffinity c = false) ->
    TCB_ucPriority T < q ->
    exists j d r, cpus s !! j = Some d /\ CPU_bActive d = true /\
      (if TCB_bCPULock T then j = TCB_ulCPULock T else CPU_bOnlyAffinity d = false) /\
      CAND_bNeedRotate d = true /\ cand_prio s j r /\ TCB_ucPriority T < r.

Lemma add_taken_or_ring s t T :
  sched_wf s -> tcbs s !! t = Some T -> ~ linked s t ->
  (TCB_bCPULock T = false -> exists c, cpus s !! TCB_ulCPUId T = Some c /\ CPU_bActive c = true) ->
  exists r, _CandTableTryAdd s t (_GetPcb T) = r /\
  ((exists s1 s', r = Some (s', true) /\ rot_rel s s1 /\ 
      exists i c, s' = take_cand s1 t i /\ cpus s1 !! i = Some c /\ CAND_ptcbCand c = None /\
      (TCB_bCPULock T = true -> TCB_ulCPULock T = i)) \/
   (exists s1, r = __can_not_cand s1 t (_GetPcb T) /\ rot_rel s s1 /\
      preempts s1 t T)).
Proof.
  intros Hwf HT Hnl Hact. eexists. split; [done|]. unfold _CandTableTryAdd. rewrite HT. cbn [mbind option_bind].
  unfold preempts. destruct (TCB_bCPULock T) eqn:Elock.
  - destruct (sw_tcb s Hwf t T HT) as (_ & _ & Hid). specialize (Hid Elock).
    destruct (proj2 (sw_cpu s Hwf _) Hid) as [c Hc]. rewrite Hc. cbn [mbind option_bind].
    destruct (CPU_bActive c) eqn:Ea; cbn [negb].
    + destruct (CAND_ptcbCand c) as [cd|] eqn:Ecd.
      * destruct (sw_cand s Hwf _ c cd Hc Ecd) as (U & HU & _). rewrite HU. cbn [mbind option_bind].
        right. eexists. split; [done|].
        assert (Hr : rot_rel s (if LW_PRIO_IS_HIGH (TCB_ucPriority T) (TCB_ucPriority U)
          then LW_CAND_ROT_set (TCB_ulCPULock T) true s else s)).
        { destruct (LW_PRIO_IS_HIGH _ _); [apply rot_rel_set|apply rot_rel_refl]. }
        split; [done|]. intros i d q Hd Had Hq -> Hlt.
        pose proof Hq as Hq0. apply (cand_prio_rot s _ _ _ Hr) in Hq0.
        destruct Hq0 as (c1 & cd1 & U1 & Hc1 & Hcd1 & HU1 & <-).
        rewrite Hc in Hc1. injection Hc1 as <-. rewrite Ecd in Hcd1. injection Hcd1 as <-.
        rewrite HU in HU1. injection HU1 as <-.
        revert Hr Hd Hq. unfold LW_PRIO_IS_HIGH. rewrite (proj2 (Z.ltb_lt _ _)) by done. intros Hr Hd Hq.
        destruct (rot_set_set s _ c Hc) as (e & He & Hrot). rewrite Hd in He. injection He as <-.
        exists (TCB_ulCPULock T), d, (TCB_ucPriority U). by splits.
      * left. exists s. eexists. split; [done|]. split; [apply rot_rel_refl|].
        exists (TCB_ulCPULock T), c. by splits.
    + right. exists s. split; [done|]. split; [apply rot_rel_refl|].
      intros i d q Hd Had _ -> _. congruence.
  - destruct (Hact eq_refl) as (c & Hc & Hac). rewrite Hc. cbn [mbind option_bind].
    assert (Hids : forall i, i ∈ cpu_ids s -> cpu_id s i).
    { intros i. unfold cpu_ids, cpu_id. rewrite elem_of_seqZ. lia. }
    assert (Hids' : forall i, cpu_id s i -> i ∈ cpu_ids s).
    { intros i. unfold cpu_ids, cpu_id. rewrite elem_of_seqZ. lia. }
    (* asking an idle CPU is enough *)
    assert (Hidle : forall i e, cpus s !! i = Some e -> eligible e -> cand_prio s i LW_PRIO_LOWEST ->
      forall i0 c0 q, cpus (LW_CAND_ROT_set i true s) !! i0 = Some c0 -> CPU_bActive c0 = true ->
      cand_prio (LW_CAND_ROT_set i true s) i0 q -> CPU_bOnlyAffinity c0 = false -> TCB_ucPriority T < q ->
      exists j d r, cpus (LW_CAND_ROT_set i true s) !! j = Some d /\ CPU_bActive d = true /\
        CPU_bOnlyAffinity d = false /\ CAND_bNeedRotate d = true /\
        cand_prio (LW_CAND_ROT_set i true s) j r /\ TCB_ucPriority T < r).
    { intros i e He [He1 He2] Hcp i0 c0 q _ _ Hq _ Hlt.
      destruct (rot_set_set s i e He) as (d & Hd & Hrot). exists i, d, LW_PRIO_LOWEST.
      destruct (rot_rel_cpu' s _ i d (rot_rel_set s i) Hd) as (e' & He' & Ed).
      rewrite He in He'. injection He' as <-.
      splits; try done; [by destruct Ed as [-> | ->]..|by apply (cand_prio_rot s _ _ _ (rot_rel_set s i))|].
      apply (cand_prio_rot s _ _ _ (rot_rel_set s i)) in Hq. destruct Hq as (c1 & cd1 & U1 & _ & _ & HU1 & <-).
      destruct (sw_tcb s Hwf cd1 U1 HU1) as (Hp & _). unfold prio_ok, LW_PRIO_LOWEST in *. lia. }
    assert (Htake : forall s1 s', rot_rel s s1 -> taken s1 s' t ->
      exists s1 s'0, Some (s', true) = Some (s'0, true) /\ rot_rel s s1 /\
        exists i c, s'0 = take_cand s1 t i /\ cpus s1 !! i = Some c /\ CAND_ptcbCand c = None /\
        (false = true -> TCB_ulCPULock T = i)).
    { intros s1 s' Hr (i & e & -> & He & Hen). exists s1. eexists. split; [done|]. split; [done|].
      by exists i, e. }
    (* the two scans *)
    assert (Hscan : exists r, 
      (r ← tryadd_idle (cpu_ids s) (TCB_ulCPUId T) t s;
       r ← (match r with ScanEnd s => tryadd_lower (cpu_ids s) t (TCB_ucPriority T) s | _ => Some r end);
       match r with ScanTaken s => Some (s, true) | ScanRot s | ScanEnd s => __can_not_cand s t (_GetPcb T) end)
      = r /\ ((exists s1 s', r = Some (s', true) /\ rot_rel s s1 /\ 
      exists i c, s' = take_cand s1 t i /\ cpus s1 !! i = Some c /\ CAND_ptcbCand c = None /\
      (false = true -> TCB_ulCPULock T = i)) \/
      (exists s1, r = __can_not_cand s1 t (_GetPcb T) /\ rot_rel s s1 /\
        forall i c q, cpus s1 !! i = Some c -> CPU_bActive c = true -> cand_prio s1 i q ->
        CPU_bOnlyAffinity c = false -> TCB_ucPriority T < q ->
        exists j d r, cpus s1 !! j = Some d /\ CPU_bActive d = true /\ CPU_bOnlyAffinity d = false /\
          CAND_bNeedRotate d = true /\ cand_prio s1 j r /\ TCB_ucPriority T < r))).
    { eexists. split; [done|].
      destruct (tryadd_idle_spec (cpu_ids s) (TCB_ulCPUId T) t s Hwf Hids) as (r & -> & Hr).
      cbn [mbind option_bind]. destruct r as [s'|s'|s']; cbn [mbind option_bind].
      - left. apply (Htake s); [apply rot_rel_refl|done].
      - destruct Hr as (i & e & -> & He & Hel & Hcp). right. eexists. split; [done|].
        split; [apply rot_rel_set|]. by apply (Hidle i e).
      - subst s'. destruct (tryadd_lower_spec (cpu_ids s) t (TCB_ucPriority T) s Hwf Hids) as (r & -> & Hr).
        cbn [mbind option_bind]. destruct r as [s'|s'|s']; [|done|].
        + destruct Hr as (s1 & Hr & Ht). left. by apply (Htake s1).
        + destruct Hr as [Hr H]. right. exists s'. split; [done|]. split; [done|].
          intros i d' q Hd' Ha Hq Ho Hlt. destruct (rot_rel_cpu' s s' i d' Hr Hd') as (d & Hd & Ed).
          assert (rot_set s' i) as (e & He & Hrot).
          { apply (H i d q); [apply Hids'; by apply (sched_wf_cpu s i d)|done| |by apply (cand_prio_rot s s')|done].
            split; by destruct Ed as [-> | ->]. }
          rewrite Hd' in He. injection He as <-. by exists i, d', q. }
    destruct (CPU_bOnlyAffinity c) eqn:Eo; cbn [negb mbind option_bind].
    { destruct Hscan as (r & <- & Hr). exact Hr. }
    destruct (CAND_ptcbCand c) as [cd|] eqn:Ecd.
    + destruct (sw_cand s Hwf _ c cd Hc Ecd) as (U & HU & _). rewrite HU. cbn [mbind option_bind].
      destruct (negb (CAND_bNeedRotate c) && (LW_PRIO_LOWEST =? TCB_ucPriority U)) eqn:Ei;
        cbn [mbind option_bind]; [|destruct Hscan as (r & <- & Hr); exact Hr].
      right. eexists. split; [done|]. split; [apply rot_rel_set|].
      apply (Hidle _ c); try done. apply andb_true_iff in Ei as [_ Ei%Z.eqb_eq]. by exists c, cd, U.
    + cbn [mbind option_bind]. left. apply (Htake s); [apply rot_rel_refl|].
      exists (TCB_ulCPUId T), c. by splits.
Qed.

Lemma add_ready s t T :
  sched_wf s -> tcbs s !! t = Some T -> ~ linked s t ->
  (TCB_bCPULock T = false -> exists c, cpus s !! TCB_ulCPUId T = Some c /\ CPU_bActive c = true) ->
  exists s', __ADD_TO_READY_RING s t (_GetPcb T) = Some s' /\
    step_ok s s' (fun u => u = t \/ linked s u) /\ cpu_keep s s' /\
    (is_cand s' t \/ preempts s' t T).
Proof.
  intros Hwf HT Hnl Hact. unfold __ADD_TO_READY_RING.
  destruct (add_taken_or_ring s t T Hwf HT Hnl Hact) as (r & -> & [Hl|Hr]).
  - destruct Hl as (s1 & s' & -> & Hr & i & c & -> & Hc & Hcn & Hlk).
    destruct (rot_rel_wf s s1 Hr Hwf) as (Hwf1 & Ha1 & HL1).
    assert (HT1 : tcbs s1 !! t = Some T) by (by rewrite (proj1 Hr)).
    destruct (wf_take_cand s1 t T i c) as [Hwf2 HL2]; [done|done|by rewrite HL1|done..|].
    eexists. split; [done|]. split; [split; [done|split]|].
    + eapply same_attrs_trans; [done|apply same_attrs_take].
    + intros u. by rewrite HL2, HL1.
    + split; [eapply cpu_keep_trans; [by apply cpu_keep_rot|by apply (cpu_keep_cand _ _ i t)]|].
      left. eexists. unfold take_cand. rewrite lookup_upd_tcb, decide_True by done. simpl.
      rewrite HT1. by split.
  - destruct Hr as (s1 & -> & Hr & Hp). destruct (rot_rel_wf s s1 Hr Hwf) as (Hwf1 & Ha1 & HL1).
    assert (HT1 : tcbs s1 !! t = Some T) by (by rewrite (proj1 Hr)).
    exists (ring_add s1 t T). split; [|split; [|split; [apply (cpu_keep_trans _ s1); [by apply cpu_keep_rot|by apply cpu_keep_refl]|by right]]].
    + rewrite <-(can_not_cand_eq s1 t T HT1).
      destruct (__can_not_cand s1 t (_GetPcb T)) as [[s2 []]|]; done.
    + destruct (ring_add_ok s1 t T Hwf1 HT1) as (W & A & L); [by rewrite HL1|].
      split; [done|]. split; [by eapply same_attrs_trans|]. intros u. by rewrite L, HL1.
Qed.

(** *** Leaving the ready tables *)

Lemma cand_set_set i v w s : LW_CAND_TCB_set i v (LW_CAND_TCB_set i w s) = LW_CAND_TCB_set i v s.
Proof.
  unfold LW_CAND_TCB_set, upd_cpu. simpl. f_equal. apply map_eq. intros j.
  destruct (decide (j = i)) as [->|].
  - rewrite !lookup_alter_eq. by destruct (cpus s !! i).
  - by rewrite !lookup_alter_ne.
Qed.

(** The old content of the candidate slot is irrelevant to a fill. *)
Lemma fill_cand i v s : _CandTableFill (LW_CAND_TCB_set i v s) i = _CandTableFill s i.
Proof.
  rewrite !fill_eq.
  assert (E : _CandTableSeek (LW_CAND_TCB_set i v s) i = _CandTableSeek s i).
  { unfold _CandTableSeek.
    replace (cpus (LW_CAND_TCB_set i v s) !! i) with (set_CAND_ptcbCand v <$> cpus s !! i)
      by (unfold LW_CAND_TCB_set; by rewrite lookup_upd_cpu, decide_True).
    destruct (cpus s !! i); [|done]. done. }
  rewrite E. destruct (_CandTableSeek s i) as [[ppcb|]|]; [|done..]. simpl.
  unfold _CandTableResel, _CandTableNext. change (ring (LW_CAND_TCB_set i v s) ppcb) with (ring s ppcb).
  destruct (ring s ppcb) as [|h l]; [done|].
  change (tcbs (LW_CAND_TCB_set i v s)) with (tcbs s).
  destruct (tcbs s !! h) as [H|]; [|done]. simpl.
  destruct (TCB_usSchedCounter H =? 0); simpl.
  - change (LW_CAND_TCB_set i (Some (hd_or h l)) ?x) with
      (LW_CAND_TCB_set i (Some (hd_or h l)) (LW_CAND_TCB_set i v
        (set_ring ppcb (l ++ [h]) (upd_tcb h (set_TCB_usSchedCounter (TCB_usSchedSlice H)) s)))) at 1.
    by rewrite cand_set_set.
  - by rewrite cand_set_set.
Qed.

(** A CPU always has something to run: a visible ring is not empty. *)
Definition has_ready (s : SCHED) (i : Z) : Prop :=
  exists c r p, cpus s !! i = Some c /\ visible c i r /\ ring s (r, p) <> [].

Lemma hd_in {A} (x y : A) l : x :: l <> [] -> hd_or y (x :: l) ∈ x :: l.
Proof. left. Qed.

Lemma fill_spec s i c :
  sched_wf s -> cpus s !! i = Some c -> CAND_ptcbCand c = None -> has_ready s i ->
  exists s' t T, _CandTableFill s i = Some s' /\ step_ok s s' (linked s) /\
    cpus s' = alter (set_CAND_ptcbCand (Some t)) i (cpus s) /\
    tcbs s !! t = Some T /\ t ∈ ring s (_GetPcb T) /\
    (forall r q, visible c i r -> ring s (r, q) <> [] -> TCB_ucPriority T <= q) /\
    (forall q, ring s' q <> [] -> ring s q <> []).
Proof.
  intros Hwf Hc Hcn (c' & r0 & p0 & Hc' & Hv0 & Hne0). rewrite Hc in Hc'. injection Hc' as <-.
  rewrite fill_eq. destruct (seek_spec s i c Hwf Hc) as [[_ H]|(r & p & -> & Hne & Hv & Hmin & _)].
  { by rewrite (H r0 p0 Hv0) in Hne0. }
  simpl. destruct (ring s (r, p)) as [|h l] eqn:E; [done|].
  destruct (resel_spec s i c (r, p) h l Hwf Hc Hcn E) as (s' & H & HH & -> & Hok & Hcpu & Hr' & _);
    [by apply (visible_fst c)|].
  destruct (next_wf s (r, p) h H l Hwf E HH) as (_ & Hpick & _).
  assert (Hin : next_pick h H l ∈ ring s (r, p)).
  { rewrite E. unfold next_ring in Hpick. destruct (TCB_usSchedCounter H =? 0); [|done].
    by rewrite Permutation_cons_append. }
  destruct (sw_ring s Hwf _ _ Hin) as (T & HT & Ep & _).
  exists s', (next_pick h H l), T. splits; try done; [by rewrite Ep|..].
  - intros r' q Hv' Hq. destruct (home_pcb T) as [_ ->]. rewrite Ep. by apply (Hmin r').
  - intros q. rewrite Hr'. case_decide as Eq; [by rewrite Eq, E|done].
Qed.

Lemma del_ready s t T :
  sched_wf s -> tcbs s !! t = Some T -> linked s t ->
  (TCB_bIsCand T = true -> has_ready s (TCB_ulCPUId T)) ->
  exists s', __DEL_FROM_READY_RING s t (_GetPcb T) = Some s' /\
    step_ok s s' (fun u => u <> t /\ linked s u) /\ cpu_keep s s' /\
    (TCB_bIsCand T = true -> exists u U c, CAND_ptcbCand <$> cpus s' !! TCB_ulCPUId T = Some (Some u) /\
       cpus s !! TCB_ulCPUId T = Some c /\ tcbs s !! u = Some U /\
       forall r q, visible c (TCB_ulCPUId T) r -> ring s (r, q) <> [] -> TCB_ucPriority U <= q).
Proof.
  intros Hwf HT Hl Hready. unfold __DEL_FROM_READY_RING. rewrite HT. cbn [mbind option_bind].
  destruct (sw_tcb s Hwf t T HT) as (Hp & Hid & _). destruct (TCB_bIsCand T) eqn:Ec; cbn [negb].
  - destruct (sw_isc s Hwf t T HT Ec) as (c & Hc & Hcd). cbn [mbind option_bind].
    unfold _CandTableTryDel. rewrite HT. cbn [mbind option_bind]. rewrite Hc. cbn [mbind option_bind].
    rewrite bool_decide_eq_true_2 by done. set (i := TCB_ulCPUId T) in *.
    rewrite <-(fill_cand i None). change (LW_CAND_TCB_set i None (upd_tcb t (set_TCB_bIsCand false) s))
      with (drop_cand s t i).
    destruct (wf_drop_cand s t i c Hwf Hc Hcd) as [Hwf1 HL1].
    assert (Hc1 : cpus (drop_cand s t i) !! i = Some (set_CAND_ptcbCand None c)).
    { change (cpus (drop_cand s t i)) with (cpus (LW_CAND_TCB_set i None s)).
      unfold LW_CAND_TCB_set. by rewrite lookup_upd_cpu, decide_True, Hc. }
    destruct (fill_spec (drop_cand s t i) i (set_CAND_ptcbCand None c) Hwf1 Hc1 eq_refl)
      as (s2 & u & U & -> & (Hwf2 & Ha2 & HL2) & Hcpu & HU & Hin & Hmin & _).
    { destruct (Hready eq_refl) as (c' & r & p & Hc' & Hv & Hne). rewrite Hc in Hc'. injection Hc' as <-.
      by exists (set_CAND_ptcbCand None c), r, p. }
    cbn [mbind option_bind]. eexists. split; [done|].
    destruct (wf_rot s2 i false Hwf2) as [Hwf3 HL3]. split; [split; [done|split]|].
    + eapply same_attrs_trans; [apply same_attrs_drop|]. eapply same_attrs_trans; [done|]. by split.
    + intros v. by rewrite HL3, HL2, HL1.
    + split; [|intros _].
      { eapply cpu_keep_trans; [|apply cpu_keep_rot_set]. apply (cpu_keep_cand _ _ i u).
        rewrite Hcpu. change (cpus (drop_cand s t i)) with (cpus (LW_CAND_TCB_set i None s)).
        change (alter ?f i (cpus ?x)) with (cpus (LW_CAND_TCB_set i (Some u) x)).
        by rewrite cand_set_set. }
      assert (Hut : u <> t).
      { intros ->. apply (linked_ring _ _ _ Hwf1) in Hin. rewrite HL1 in Hin. by destruct Hin. }
      exists u, U, c. splits; [|done| |done].
      * unfold LW_CAND_ROT_set. rewrite lookup_upd_cpu, decide_True, Hcpu by done.
        rewrite lookup_alter_eq, Hc1. done.
      * unfold drop_cand in HU. rewrite lookup_upd_tcb, decide_False in HU by done. done.
  - assert (Hin : t ∈ ring s (_GetPcb T)).
    { apply (linked_in s t T HT) in Hl as [?|?]; [congruence|done]. }
    unfold _DelTCBFromReadyRing. rewrite bool_decide_eq_true_2 by done. cbn [mbind option_bind].
    destruct (wf_ready_del s t (_GetPcb T) Hwf Hin) as [Hwf1 HL1]. simpl in Hwf1, HL1.
    destruct (sched_wf_pcb s t T Hwf HT) as [Hr _].
    set (l := remove_node t (ring s (_GetPcb T))) in *.
    exists (ready_put (_GetPcb T) l (bmap_del s (_GetPcb T) l) s). split; [|split; [by split; [|split]|split; [by apply cpu_keep_refl|done]]].
    unfold _CandTableTryDel. change (tcbs (set_ring (_GetPcb T) l s)) with (tcbs s). rewrite HT.
    cbn [mbind option_bind]. change (cpus (set_ring (_GetPcb T) l s)) with (cpus s).
    destruct (proj2 (sw_cpu s Hwf _) Hid) as [c Hc]. rewrite Hc. cbn [mbind option_bind].
    rewrite bool_decide_eq_false_2.
    2:{ intros Ht. destruct (sw_cand s Hwf _ c t Hc Ht) as (T' & HT' & Hc' & _).
        rewrite HT in HT'. injection HT' as <-. congruence. }
    unfold _PcbIsEmpty. rewrite ring_set_ring, decide_True by done. unfold bmap_del.
    destruct l as [|x l0]; [|by rewrite set_ring_put].
    unfold _ReadyTableDel. change (tcbs (set_ring (_GetPcb T) [] s)) with (tcbs s). rewrite HT.
    cbn [mbind option_bind]. destruct (home_pcb T) as [-> ->]. rewrite set_bmap_ring.
    by rewrite set_ring_put, bmap_put, decide_True.
Qed.

(** *** Updating a candidate *)

(** Every other CPU open to unbound threads has a candidate. *)
Definition others_have_cand (s : SCHED) (i : Z) : Prop :=
  forall j d, cpus s !! j = Some d -> eligible d -> j <> i -> CAND_ptcbCand d <> None.

(** A less urgent CPU other than [i], if there is one, has been asked. *)
Definition asked (s : SCHED) (i p : Z) : Prop :=
  forall j d q, cpus s !! j = Some d -> eligible d -> j <> i -> cand_prio s j q -> p < q ->
    exists k e r, k <> i /\ cpus s !! k = Some e /\ eligible e /\ CAND_bNeedRotate e = true /\
      cand_prio s k r /\ p < r.

Lemma others_rot s s' i : rot_rel s s' -> others_have_cand s i -> others_have_cand s' i.
Proof.
  intros Hr H j d' Hd' He Hj. destruct (rot_rel_cpu' s s' j d' Hr Hd') as (d & Hd & Ed).
  assert (eligible d) by (destruct Ed as [-> | ->]; done).
  specialize (H j d Hd H0 Hj). by destruct Ed as [-> | ->].
Qed.

(** The guard of the scans. *)
Lemma scan_guard (i cur : Z) c :
  (i =? cur) || negb (CPU_bActive c) || CPU_bOnlyAffinity c = false <-> i <> cur /\ eligible c.
Proof.
  rewrite !orb_false_iff, Z.eqb_neq, negb_false_iff. unfold eligible. tauto.
Qed.

Lemma notify_idle_spec ids cur s :
  sched_wf s -> others_have_cand s cur -> (forall i, i ∈ ids -> cpu_id s i) ->
  exists r, notify_idle ids cur s = Some r /\
    match r with
    | ScanRot s' => exists i c, s' = LW_CAND_ROT_set i true s /\ cpus s !! i = Some c /\ eligible c /\
        i <> cur /\ cand_prio s i LW_PRIO_LOWEST
    | ScanEnd s' => s' = s
    | ScanTaken _ => False
    end.
Proof.
  intros Hwf Ho. induction ids as [|i ids IH]; intros Hids; cbn [notify_idle].
  - by eexists.
  - destruct (proj2 (sw_cpu s Hwf i)) as [c Hc]; [apply Hids; left|]. rewrite Hc. cbn [mbind option_bind].
    assert (IH' := IH (fun j Hj => Hids j (list_elem_of_further _ _ _ Hj))).
    destruct ((i =? cur) || negb (CPU_bActive c) || CPU_bOnlyAffinity c) eqn:Eg; [done|].
    apply scan_guard in Eg as [Hic He]. destruct (CAND_bNeedRotate c); [done|].
    destruct (CAND_ptcbCand c) as [cd|] eqn:Ecd; [|by destruct (Ho i c Hc He Hic)].
    destruct (sw_cand s Hwf i c cd Hc Ecd) as (T & HT & _). cbn [mbind option_bind]. rewrite HT. cbn [mbind option_bind].
    destruct (LW_PRIO_LOWEST =? TCB_ucPriority T) eqn:El; [|done].
    eexists. split; [done|]. exists i, c. apply Z.eqb_eq in El. splits; try done. by exists c, cd, T.
Qed.

Lemma notify_lower_spec ids cur p s :
  sched_wf s -> others_have_cand s cur -> (forall i, i ∈ ids -> cpu_id s i) ->
  exists s', notify_lower ids cur p s = Some s' /\ rot_rel s s' /\
    forall i c q, i ∈ ids -> cpus s !! i = Some c -> eligible c -> i <> cur ->
      cand_prio s i q -> p < q -> rot_set s' i.
Proof.
  revert s. induction ids as [|i ids IH]; intros s Hwf Ho Hids; cbn [notify_lower].
  - eexists. split; [done|]. split; [apply rot_rel_refl|]. by intros i c q ?%not_elem_of_nil.
  - destruct (proj2 (sw_cpu s Hwf i)) as [c Hc]; [apply Hids; left|]. rewrite Hc. cbn [mbind option_bind].
    assert (Hids' : forall j, j ∈ ids -> cpu_id s j) by (intros j Hj; apply Hids; by right).
    destruct ((i =? cur) || negb (CPU_bActive c) || CPU_bOnlyAffinity c) eqn:Eg.
    + destruct (IH s Hwf Ho Hids') as (s' & -> & Hr & H). exists s'. split; [done|]. split; [done|].
      intros j d q [->|Hj]%elem_of_cons Hd He Hjc; [|by apply (H j d q)].
      rewrite Hc in Hd. injection Hd as ->.
      by rewrite (proj2 (scan_guard i cur d) (conj Hjc He)) in Eg.
    + apply scan_guard in Eg as [Hic He].
      destruct (CAND_ptcbCand c) as [cd|] eqn:Ecd; [|by destruct (Ho i c Hc He Hic)].
      destruct (sw_cand s Hwf i c cd Hc Ecd) as (T & HT & _). cbn [mbind option_bind]. rewrite HT. cbn [mbind option_bind].
      set (s1 := if LW_PRIO_IS_HIGH p (TCB_ucPriority T) then LW_CAND_ROT_set i true s else s).
      assert (H1 : rot_rel s s1).
      { subst s1. destruct (LW_PRIO_IS_HIGH _ _); [apply rot_rel_set|apply rot_rel_refl]. }
      destruct (rot_rel_wf s s1 H1 Hwf) as [Hwf1 _].
      assert (Hids1 : forall j, j ∈ ids -> cpu_id s1 j).
      { intros j Hj. unfold cpu_id. destruct H1 as (_ & _ & -> & _). by apply Hids'. }
      destruct (IH s1 Hwf1 (others_rot _ _ _ H1 Ho) Hids1) as (s' & -> & Hr & H). exists s'.
      split; [done|]. split; [by eapply rot_rel_trans|].
      intros j d q [->|Hj]%elem_of_cons Hd Hed Hjc Hq Hlt.
      * apply (rot_set_mono s1); [done|]. destruct Hq as (c' & t' & T' & Hc' & Ht' & HT' & <-).
        rewrite Hc in Hc'. injection Hc' as <-. rewrite Ecd in Ht'. injection Ht' as <-.
        rewrite HT in HT'. injection HT' as <-. subst s1. unfold LW_PRIO_IS_HIGH.
        rewrite (proj2 (Z.ltb_lt _ _)) by done. by apply (rot_set_set _ _ c).
      * destruct (rot_rel_cpu s s1 j d H1 Hd) as (d' & Hd' & Ed). apply (H j d' q); try done.
        -- destruct Ed as [-> | ->]; done.
        -- by apply (cand_prio_rot s s1).
Qed.

Lemma cpu_ids_id s i : i ∈ cpu_ids s <-> cpu_id s i.
Proof. unfold cpu_ids, cpu_id. rewrite elem_of_seqZ. lia. Qed.

Lemma notify_spec s i t T :
  sched_wf s -> others_have_cand s i -> tcbs s !! t = Some T ->
  exists s', _CandTableNotify s i t = Some s' /\ rot_rel s s' /\ asked s' i (TCB_ucPriority T).
Proof.
  intros Hwf Ho HT. unfold _CandTableNotify. rewrite HT. cbn [mbind option_bind].
  destruct (notify_idle_spec (cpu_ids s) i s Hwf Ho) as (r & -> & Hr); [by intros j ?%cpu_ids_id|].
  cbn [mbind option_bind]. destruct r as [s1|s1|s1]; [done| |].
  - destruct Hr as (k & e & -> & He & Hel & Hk & Hcp). eexists. split; [done|].
    split; [apply rot_rel_set|]. intros j d q _ _ _ Hq Hlt.
    destruct (rot_set_set s k e He) as (e' & He' & Hrot). exists k, e', LW_PRIO_LOWEST.
    destruct (rot_rel_cpu' s _ k e' (rot_rel_set s k) He') as (e0 & He0 & Ee).
    rewrite He in He0. injection He0 as <-.
    splits; try done; [by destruct Ee as [-> | ->]|by apply (cand_prio_rot s _ _ _ (rot_rel_set s k))|].
    apply (cand_prio_rot s _ _ _ (rot_rel_set s k)) in Hq. destruct Hq as (? & u & U & _ & _ & HU & <-).
    destruct (sw_tcb s Hwf u U HU) as (Hp & _). unfold prio_ok, LW_PRIO_LOWEST in *. lia.
  - subst s1. destruct (notify_lower_spec (cpu_ids s) i (TCB_ucPriority T) s Hwf Ho)
      as (s' & -> & Hr & H); [by intros j ?%cpu_ids_id|].
    exists s'. split; [done|]. split; [done|]. intros j d' q Hd' He Hj Hq Hlt.
    destruct (rot_rel_cpu' s s' j d' Hr Hd') as (d & Hd & Ed).
    assert (eligible d) by (destruct Ed as [-> | ->]; done).
    assert (rot_set s' j) as (e & He' & Hrot).
    { apply (H j d q); try done; [apply cpu_ids_id; by apply (sched_wf_cpu s j d)|].
      by apply (cand_prio_rot s s'). }
    rewrite Hd' in He'. injection He' as <-. by exists j, d', q.
Qed.

Lemma rot_lookup s i v j : cpus (LW_CAND_ROT_set i v s) !! j =
  if decide (j = i) then set_CAND_bNeedRotate v <$> cpus s !! j else cpus s !! j.
Proof. apply lookup_upd_cpu. Qed.

Lemma cand_prio_set s i v j p : cand_prio (LW_CAND_ROT_set i v s) j p <-> cand_prio s j p.
Proof.
  unfold cand_prio. setoid_rewrite rot_lookup. change (tcbs (LW_CAND_ROT_set i v s)) with (tcbs s).
  destruct (decide (j = i)) as [->|]; [|done]. destruct (cpus s !! i) as [c|] eqn:Ec; simpl.
  - split; intros (c' & t & T & [= <-] & H); eexists _, t, T; (split; [done|]); apply H.
  - by split; intros (? & ? & ? & ? & _).
Qed.

Lemma asked_set s i p : asked s i p -> asked (LW_CAND_ROT_set i false s) i p.
Proof.
  intros H j d q Hd He Hj Hq Hlt. rewrite rot_lookup, decide_False in Hd by done.
  apply cand_prio_set in Hq. destruct (H j d q Hd He Hj Hq Hlt) as (k & e & r & Hk & He' & H').
  exists k, e, r. rewrite rot_lookup, decide_False, cand_prio_set by done. done.
Qed.

(** The candidate slot of a CPU after an update. *)
Definition update_post (s s' : SCHED) (i : Z) (c : CPU) : Prop :=
  exists c' t T, step_ok s s' (linked s) /\ cpu_keep s s' /\ cpus s' !! i = Some c' /\ CAND_ptcbCand c' = Some t /\
    CAND_bNeedRotate c' = false /\ tcbs s' !! t = Some T /\
    (forall r q, visible c i r -> ring s' (r, q) <> [] -> TCB_ucPriority T <= q) /\
    (forall t0 T0, CAND_ptcbCand c = Some t0 -> tcbs s !! t0 = Some T0 -> t <> t0 ->
       TCB_bCPULock T0 = false -> asked s' i (TCB_ucPriority T0)).

Lemma step_ok_rot s s' L i : step_ok s s' L -> step_ok s (LW_CAND_ROT_set i false s') L.
Proof.
  intros (W & A & HL). destruct (wf_rot s' i false W) as [W' HL']. split; [done|].
  split; [eapply same_attrs_trans; [done|by split]|]. intros u. by rewrite HL', HL.
Qed.

Lemma attrs_prio T T' : attrs T = attrs T' -> TCB_ucPriority T = TCB_ucPriority T'.
Proof. unfold attrs. congruence. Qed.

(** Nothing to rotate: the slot only drops its request. *)
Lemma update_keep s i c t T :
  sched_wf s -> cpus s !! i = Some c -> CAND_ptcbCand c = Some t -> tcbs s !! t = Some T ->
  (forall r q, visible c i r -> ring s (r, q) <> [] -> TCB_ucPriority T <= q) ->
  update_post s (LW_CAND_ROT_set i false s) i c.
Proof.
  intros Hwf Hc Ht HT Hmin. exists (set_CAND_bNeedRotate false c), t, T. splits.
  - apply step_ok_rot. by split; [|split].
  - apply cpu_keep_rot_set.
  - by rewrite rot_lookup, decide_True, Hc.
  - done.
  - done.
  - done.
  - exact Hmin.
  - intros t0 T0 E0. rewrite Ht in E0. injection E0 as <-. done.
Qed.

(** A reselection from the most urgent visible ring. *)
Lemma update_resel s i c t T r p :
  sched_wf s -> cpus s !! i = Some c -> CPU_bActive c = true -> CAND_ptcbCand c = Some t ->
  tcbs s !! t = Some T -> others_have_cand s i ->
  ring s (r, p) <> [] -> visible c i r ->
  (forall r' q, visible c i r' -> ring s (r', q) <> [] -> p <= q) ->
  (visible c i (home T) -> p <= TCB_ucPriority T) ->
  exists s', (s ← _CandTableEmpty s i;
             s ← _CandTableResel s i (r, p);
             c ← cpus s !! i;
             s ← (if negb (bool_decide (CAND_ptcbCand c = Some t)) && negb (TCB_bCPULock T)
                  then _CandTableNotify s i t else Some s);
             Some (LW_CAND_ROT_set i false s)) = Some s' /\ update_post s s' i c.
Proof.
  intros Hwf Hc Hact Ht HT Ho Hne Hv Hmin Hp.
  destruct (empty_spec s i c t T Hwf Hc Ht HT) as (s1 & -> & Hok1 & Ec1 & Et1 & Er1).
  pose proof Hok1 as (Hwf1 & Ha1 & HL1). cbn [mbind option_bind].
  assert (Hc1 : cpus s1 !! i = Some (set_CAND_ptcbCand None c)) by (by rewrite Ec1, lookup_alter_eq, Hc).
  assert (Hne1 : ring s1 (r, p) <> []) by (rewrite Er1; case_decide; [done|done]).
  destruct (ring s1 (r, p)) as [|h l] eqn:E1; [done|].
  destruct (resel_spec s1 i _ (r, p) h l Hwf1 Hc1 eq_refl E1) as (s2 & H & HH & -> & Hok2 & Ec2 & Er2 & Et2);
    [by apply (visible_fst c)|].
  pose proof Hok2 as (Hwf2 & Ha2 & HL2). set (u := next_pick h H l) in *. cbn [mbind option_bind].
  assert (Hc2 : cpus s2 !! i = Some (set_CAND_ptcbCand (Some u) c)).
  { rewrite Ec2, lookup_alter_eq, Hc1. done. }
  rewrite Hc2. cbn [mbind option_bind]. change (CAND_ptcbCand (set_CAND_ptcbCand (Some u) c)) with (Some u).
  (* the new candidate has priority [p] *)
  destruct (next_wf s1 (r, p) h H l Hwf1 E1 HH) as (_ & Hpick & _). fold u in Hpick.
  assert (Hin : u ∈ ring s1 (r, p)).
  { rewrite E1. unfold next_ring in Hpick. destruct (TCB_usSchedCounter H =? 0); [|done].
    by rewrite Permutation_cons_append. }
  destruct (sw_ring s1 Hwf1 _ _ Hin) as (U1 & HU1 & EpU & _).
  destruct (same_attrs_get s1 s2 u U1 Ha2 HU1) as (U2 & HU2 & EU2).
  assert (HpU : TCB_ucPriority U2 = p).
  { rewrite (attrs_prio U2 U1 EU2). destruct (home_pcb U1) as [_ ->]. by rewrite EpU. }
  assert (Hmin2 : forall r' q, visible c i r' -> ring s2 (r', q) <> [] -> p <= q).
  { intros r' q Hv' Hq. assert (Hq1 : ring s1 (r', q) <> []).
    { rewrite Er2 in Hq. case_decide as Eq; [by rewrite Eq, E1|done]. }
    rewrite Er1 in Hq1. case_decide as Eq; [|by apply (Hmin r')].
    destruct (home_pcb T) as [Eh Ep]. rewrite <-Eq in Eh, Ep. simpl in Eh, Ep.
    rewrite <-Ep. apply Hp. by rewrite Eh. }
  assert (Ho2 : others_have_cand s2 i).
  { intros j d Hd He Hj. rewrite Ec2, lookup_alter_ne, Ec1, lookup_alter_ne in Hd by done. by apply (Ho j). }
  assert (Hok : step_ok s s2 (linked s)).
  { apply (step_ok_ext _ _ (linked s1)); [done|]. by apply (step_ok_trans s s1 s2 (linked s)). }
  (* the displaced thread *)
  assert (exists s3, (if negb (bool_decide (Some u = Some t)) && negb (TCB_bCPULock T)
    then _CandTableNotify s2 i t else Some s2) = Some s3 /\ rot_rel s2 s3 /\
    (u <> t -> TCB_bCPULock T = false -> asked s3 i (TCB_ucPriority T))) as (s3 & -> & Hr3 & Hask).
  { destruct (same_attrs_get s s2 t T (proj1 (proj2 Hok)) HT) as (T2 & HT2 & ET2).
    destruct (notify_spec s2 i t T2 Hwf2 Ho2 HT2) as (s3 & E3 & Hr3 & Hask).
    rewrite (attrs_prio T2 T ET2) in Hask.
    destruct (bool_decide_reflect (Some u = Some t)) as [Eu|Eu]; simpl.
    - exists s2. split; [done|]. split; [apply rot_rel_refl|]. intros Hut. by injection Eu.
    - destruct (TCB_bCPULock T); simpl.
      + exists s2. split; [done|]. split; [apply rot_rel_refl|done].
      + exists s3. by split. }
  cbn [mbind option_bind]. eexists. split; [done|].
  destruct (rot_rel_cpu s2 s3 i _ Hr3 Hc2) as (c3 & Hc3 & Ec3).
  destruct (rot_rel_wf s2 s3 Hr3 Hwf2) as (Hwf3 & Ha3 & HL3).
  exists (set_CAND_bNeedRotate false c3), u, U2. splits.
  - apply step_ok_rot. destruct Hok as (_ & Ha & HL). split; [done|].
    split; [by eapply same_attrs_trans|]. intros v. by rewrite HL3, HL.
  - eapply cpu_keep_trans; [|apply cpu_keep_rot_set]. eapply cpu_keep_trans; [|by apply cpu_keep_rot].
    apply (cpu_keep_cand _ _ i u). rewrite Ec2, Ec1.
    change (alter ?f i (alter ?g i (cpus s))) with (cpus (LW_CAND_TCB_set i (Some u) (LW_CAND_TCB_set i None s))).
    by rewrite cand_set_set.
  - by rewrite rot_lookup, decide_True, Hc3.
  - by destruct Ec3 as [-> | ->].
  - done.
  - change (tcbs (LW_CAND_ROT_set i false s3)) with (tcbs s3). by rewrite (proj1 Hr3).
  - intros r' q Hv' Hq. rewrite HpU. apply (Hmin2 r' q Hv').
    rewrite <-(rot_rel_ring s2 s3 _ Hr3). exact Hq.
  - intros t0 T0 E0 HT0 Hut Hlk. rewrite Ht in E0. injection E0 as <-.
    rewrite HT in HT0. injection HT0 as <-. apply asked_set. by apply Hask.
Qed.

Lemma update_spec s i c :
  sched_wf s -> cpus s !! i = Some c -> CPU_bActive c = true ->
  (CAND_ptcbCand c = None -> has_ready s i) -> others_have_cand s i ->
  exists s', _CandTableUpdate s i = Some s' /\ update_post s s' i c.
Proof.
  intros Hwf Hc Hact Hready Ho. unfold _CandTableUpdate. rewrite Hc. cbn [mbind option_bind].
  rewrite Hact. cbn [negb]. destruct (CAND_ptcbCand c) as [t|] eqn:Ht.
  - destruct (sw_cand s Hwf i c t Hc Ht) as (T & HT & _ & _ & Hlock).
    destruct (seek_spec s i c Hwf Hc) as [[-> H]|(r & p & -> & Hne & Hv & Hmin & _)]; cbn [mbind option_bind].
    + eexists. split; [done|]. apply (update_keep s i c t T Hwf Hc Ht HT).
      intros r q Hv Hq. by rewrite (H r q Hv) in Hq.
    + rewrite HT. cbn [mbind option_bind snd].
      assert (Hhome : visible c i (home T) \/ (CPU_bOnlyAffinity c = true /\ TCB_bCPULock T = false)).
      { unfold visible, home. destruct (TCB_bCPULock T); [left; left; by rewrite Hlock|].
        destruct (CPU_bOnlyAffinity c); auto. }
      match goal with |- context [mbind _ (if ?b then _ else _)] => destruct b eqn:Eb end.
      * destruct (update_resel s i c t T r p) as (s' & E & Hpost); try done.
        { intros Hvh. destruct (CPU_bOnlyAffinity c && negb (TCB_bCPULock T)) eqn:Ea.
          - apply andb_true_iff in Ea as [Ea1 Ea2%negb_true_iff]. unfold visible, home in Hvh.
            rewrite Ea2 in Hvh. destruct Hvh as [?|[_ ?]]; congruence.
          - unfold LW_PRIO_IS_HIGH, LW_PRIO_IS_HIGH_OR_EQU in Eb.
            destruct (TCB_usSchedCounter T =? 0); zbool; lia. }
        exists s'. split; [|done]. rewrite <-E.
        destruct (_CandTableEmpty s i) as [s1|]; [|done]. cbn [mbind option_bind].
        destruct (_CandTableResel s1 i (r, p)) as [s2|]; [|done]. cbn [mbind option_bind].
        destruct (cpus s2 !! i) as [c2|]; [|done]. cbn [mbind option_bind]. by case_if.
      * cbn [mbind option_bind]. eexists. split; [done|]. apply (update_keep s i c t T Hwf Hc Ht HT).
        intros r' q Hv' Hq. specialize (Hmin r' q Hv' Hq).
        destruct (CPU_bOnlyAffinity c && negb (TCB_bCPULock T)) eqn:Ea; [done|].
        unfold LW_PRIO_IS_HIGH, LW_PRIO_IS_HIGH_OR_EQU in Eb.
        destruct (TCB_usSchedCounter T =? 0); zbool; lia.
  - destruct (fill_spec s i c Hwf Hc Ht (Hready eq_refl)) as (s1 & t & T & -> & Hok & Ec & HT & Hin & Hmin & Hsub).
    cbn [mbind option_bind]. eexists. split; [done|].
    destruct (same_attrs_get s s1 t T (proj1 (proj2 Hok)) HT) as (T' & HT' & ET).
    assert (Hcpu : cpus s1 !! i = Some (set_CAND_ptcbCand (Some t) c)) by (by rewrite Ec, lookup_alter_eq, Hc).
    eexists _, t, T'. splits.
    + by apply step_ok_rot.
    + eapply cpu_keep_trans; [|apply cpu_keep_rot_set]. by apply (cpu_keep_cand _ _ i t).
    + by rewrite rot_lookup, decide_True, Hcpu.
    + done.
    + done.
    + done.
    + intros r q Hv Hq. rewrite (attrs_prio T' T ET). apply (Hmin r q Hv).
      change (ring (LW_CAND_ROT_set i false s1) (r, q)) with (ring s1 (r, q)) in Hq.
      by apply Hsub.
    + intros t0 T0 E0. congruence.
Qed.
