(* ===== verification/SchedSpec.v ===== *)
(** * The scheduler as a system

    The operations of the file Sched composed the way the kernel's services
    compose them (a thread becomes ready, blocks, changes priority or yields, the tick, a
    scheduling point), as executable events over the whole state, with
    the invariant every event keeps, and the theorems on preemption and time slices. *)

From S2P Require Import Prelude Lists Bitmap Sched.

(** ** Scheduling points *)

Definition set_CPU_ptcbTCBCur (v : Z) (c : CPU) : CPU :=
  mkCPU (CPU_bActive c) (CPU_bOnlyAffinity c) (CAND_ptcbCand c) (CAND_bNeedRotate c) v
    (CPU_ulInterNesting c) (CPU_iKernelCounter c).

(** [_Schedule] on CPU [i], with no status-change request pending: the
    candidate, when it is not the running thread, becomes it ([_SchedSwp]).
    The inter-processor interrupts and the context switch are not part of the state. *)
Definition _Schedule (s : SCHED) (i : Z) : option SCHED :=
  c ← cpus s !! i;
  let ptcbCur := CPU_ptcbTCBCur c in
  r ← _SchedGetCand s i 1;
  ptcbCand ← snd r;
  if ptcbCand =? ptcbCur then Some (fst r)
  else Some (upd_cpu i (set_CPU_ptcbTCBCur ptcbCand) (fst r)).

(** ** Events *)

Inductive event :=
| EvWake (t : Z)                (* a thread becomes ready *)
| EvBlock (t st : Z)            (* a ready thread waits, with status bits [st] *)
| EvPrio (t p : Z)              (* _SchedSetPrio *)
| EvUpdate (i : Z)              (* _CandTableUpdate *)
| EvYield (t : Z)
| EvTick
| EvSchedule (i : Z).

Definition exec (s : SCHED) (e : event) : option SCHED :=
  match e with
  | EvWake t =>
    T ← tcbs s !! t;
    __ADD_TO_READY_RING (upd_tcb t (set_TCB_usStatus LW_THREAD_STATUS_RDY) s) t (_GetPcb T)
  | EvBlock t st =>
    T ← tcbs s !! t;
    __DEL_FROM_READY_RING (upd_tcb t (set_TCB_usStatus st) s) t (_GetPcb T)
  | EvPrio t p => _SchedSetPrio s t p
  | EvUpdate i => _CandTableUpdate s i
  | EvYield t => _SchedYield s t
  | EvTick => _SchedTick s
  | EvSchedule i => _Schedule s i
  end.

Fixpoint exec_all (s : SCHED) (es : list event) : option SCHED :=
  match es with [] => Some s | e :: es => s ← exec s e; exec_all s es end.

(** ** The invariant *)

Section System.
(** The idle thread of each CPU. *)
Variable idle : Z -> Z.

(** Every CPU is active and has a candidate and a running thread; its
    idle thread is locked to it and always ready. *)
Record sys_inv (s : SCHED) : Prop := {
  si_wf : sched_wf s;
  si_ready : ready_linked s;
  si_idle : forall i, cpu_id s i -> exists T, tcbs s !! idle i = Some T /\ TCB_bCPULock T = true /\
    TCB_ulCPULock T = i /\ __LW_THREAD_IS_READY T = true;
  si_cpu : forall i c, cpus s !! i = Some c -> CPU_bActive c = true /\ CAND_ptcbCand c <> None /\
    is_Some (tcbs s !! CPU_ptcbTCBCur c)
}.

(** Which events may happen when. *)
Definition event_ok (s : SCHED) (e : event) : Prop :=
  match e with
  | EvWake t => exists T, tcbs s !! t = Some T /\ __LW_THREAD_IS_READY T = false
  | EvBlock t st => (exists T, tcbs s !! t = Some T /\ __LW_THREAD_IS_READY T = true) /\
      st <> LW_THREAD_STATUS_RDY /\ forall i, cpu_id s i -> t <> idle i
  | EvPrio t p => is_Some (tcbs s !! t) /\ prio_ok p
  | EvUpdate i | EvSchedule i => cpu_id s i
  | EvYield t => is_Some (tcbs s !! t)
  | EvTick => True
  end.

Fixpoint events_ok (s : SCHED) (es : list event) : Prop :=
  match es with
  | [] => True
  | e :: es => event_ok s e /\ forall s', exec s e = Some s' -> events_ok s' es
  end.

Lemma si_others s i : sys_inv s -> others_have_cand s i.
Proof. intros Hi j d Hd _ _. by apply (si_cpu s Hi j d). Qed.

(** A CPU that does not run its idle thread has it in its ring. *)
Lemma si_has_ready s i c t :
  sys_inv s -> cpus s !! i = Some c -> CAND_ptcbCand c = Some t -> t <> idle i -> has_ready s i.
Proof.
  intros Hi Hc Ht Hne. pose proof (si_wf s Hi) as Hwf.
  destruct (si_idle s Hi i) as (T & HT & Hl & Hli & Hr); [by apply (sched_wf_cpu s i c)|].
  apply (si_ready s Hi _ T HT), (linked_in _ _ _ HT) in Hr.
  destruct Hr as [Hcd|Hin].
  - destruct (sw_isc s Hwf _ T HT Hcd) as (c' & Hc' & Hcc).
    destruct (sw_cand s Hwf _ c' _ Hc' Hcc) as (T' & HT' & _ & _ & Hlk).
    rewrite HT in HT'. injection HT' as <-. specialize (Hlk Hl). rewrite Hli in Hlk.
    rewrite <-Hlk, Hc in Hc'. injection Hc' as <-. congruence.
  - unfold _GetPcb in Hin. rewrite Hl, Hli in Hin. exists c, (Some i), (TCB_ucPriority T).
    splits; [done|by left|]. intros E. rewrite E in Hin. by apply not_elem_of_nil in Hin.
Qed.

(** Rebuilding the invariant after a step. *)
Lemma sys_inv_step s s' :
  sys_inv s -> sched_wf s' -> ready_linked s' -> LW_NCPUS s' = LW_NCPUS s -> cpu_keep s s' ->
  (forall t T, tcbs s !! t = Some T -> is_Some (tcbs s' !! t)) ->
  (forall i T, cpu_id s i -> tcbs s !! idle i = Some T -> exists T', tcbs s' !! idle i = Some T' /\
     TCB_bCPULock T' = TCB_bCPULock T /\ TCB_ulCPULock T' = TCB_ulCPULock T /\
     TCB_usStatus T' = TCB_usStatus T) ->
  sys_inv s'.
Proof.
  intros Hi Hwf Hrl En Hk Hdom Hidle. split; [done|done| |].
  - intros i Hid. unfold cpu_id in Hid. rewrite En in Hid.
    destruct (si_idle s Hi i Hid) as (T & HT & H1 & H2 & H3).
    destruct (Hidle i T Hid HT) as (T' & HT' & E1 & E2 & E3). exists T'.
    unfold __LW_THREAD_IS_READY in *. rewrite E1, E2, E3. by splits.
  - intros i c' Hc'. assert (Hid : cpu_id s i).
    { apply (sched_wf_cpu s' i c') in Hc'; [|done]. unfold cpu_id in *. by rewrite En in Hc'. }
    destruct (proj2 (sw_cpu s (si_wf s Hi) i) Hid) as [c Hc].
    destruct (Hk i c Hc) as (d & Hd & E1 & _ & E3 & E4). rewrite Hc' in Hd. injection Hd as <-.
    destruct (si_cpu s Hi i c Hc) as (H1 & H2 & [T HT]). rewrite E1, E3. splits; [done|auto|].
    by apply (Hdom _ T).
Qed.

(** A step that keeps the attributes of all threads and links the same ones. *)
Lemma ready_linked_same s s' :
  ready_linked s -> same_attrs s s' -> (forall u, linked s' u <-> linked s u) -> ready_linked s'.
Proof.
  intros Hr [_ Ha] HL u U HU. rewrite HL. specialize (Ha u). rewrite HU in Ha.
  destruct (tcbs s !! u) as [U0|] eqn:E; [|done]. simpl in Ha. injection Ha as _ _ _ Es.
  unfold __LW_THREAD_IS_READY. rewrite Es. by apply Hr.
Qed.

Lemma sys_inv_same s s' :
  sys_inv s -> step_ok s s' (linked s) -> cpu_keep s s' -> sys_inv s'.
Proof.
  intros Hi (W & A & L) Hk. apply (sys_inv_step s); try done.
  - by apply (ready_linked_same s); [apply (si_ready s Hi)|..].
  - apply A.
  - intros t T HT. destruct (same_attrs_get s s' t T A HT) as (T' & -> & _). done.
  - intros i T _ HT. destruct (same_attrs_get s s' _ T A HT) as (T' & HT' & E). exists T'.
    unfold attrs in E. injection E as _ E1 E2 E3. done.
Qed.

(** Changing one thread's status. *)
Lemma wf_status s t st : sched_wf s ->
  sched_wf (upd_tcb t (set_TCB_usStatus st) s) /\
  forall u, linked (upd_tcb t (set_TCB_usStatus st) s) u <-> linked s u.
Proof. by apply wf_upd_tcb. Qed.

Lemma lookup_status s t st u U : tcbs (upd_tcb t (set_TCB_usStatus st) s) !! u = Some U ->
  exists U0, tcbs s !! u = Some U0 /\ TCB_usStatus U = (if decide (u = t) then st else TCB_usStatus U0)
    /\ TCB_bCPULock U = TCB_bCPULock U0 /\ TCB_ulCPULock U = TCB_ulCPULock U0.
Proof.
  rewrite lookup_upd_tcb. destruct (decide (u = t)); [|by exists U].
  destruct (tcbs s !! u) as [U0|]; [|done]. intros [= <-]. by exists U0.
Qed.

(** A status change of [t] followed by a step that links or unlinks it. *)
Lemma sys_inv_status s s' t st (L : Z -> Prop) T :
  sys_inv s -> tcbs s !! t = Some T -> 
  step_ok (upd_tcb t (set_TCB_usStatus st) s) s' L -> cpu_keep (upd_tcb t (set_TCB_usStatus st) s) s' ->
  (forall u, u <> t -> L u <-> linked s u) -> (st = LW_THREAD_STATUS_RDY <-> L t) ->
  (st = LW_THREAD_STATUS_RDY \/ forall i, cpu_id s i -> t <> idle i) ->
  sys_inv s'.
Proof.
  intros Hi HT (W & A & HL) Hk Hother Ht Hidle. set (s1 := upd_tcb t (set_TCB_usStatus st) s) in *.
  assert (Hget : forall u U', tcbs s' !! u = Some U' -> exists U, tcbs s !! u = Some U /\
    TCB_usStatus U' = (if decide (u = t) then st else TCB_usStatus U)).
  { intros u U' HU'. destruct A as [_ A]. specialize (A u). rewrite HU' in A.
    destruct (tcbs s1 !! u) as [U1|] eqn:E1; [|done]. simpl in A. injection A as _ _ _ Es.
    destruct (lookup_status s t st u U1 E1) as (U & HU & EU & _). exists U. rewrite Es. by split. }
  assert (Hfwd : forall u U, tcbs s !! u = Some U -> exists U', tcbs s' !! u = Some U' /\
    TCB_bCPULock U' = TCB_bCPULock U /\ TCB_ulCPULock U' = TCB_ulCPULock U).
  { intros u U HU. assert (exists U1, tcbs s1 !! u = Some U1 /\ TCB_bCPULock U1 = TCB_bCPULock U /\
      TCB_ulCPULock U1 = TCB_ulCPULock U) as (U1 & HU1 & E1 & E2).
    { unfold s1. rewrite lookup_upd_tcb, HU. destruct (decide (u = t)); eexists; done. }
    destruct (same_attrs_get s1 s' u U1 A HU1) as (U' & HU' & E). injection E as _ E3 E4 _.
    exists U'. splits; [done|congruence..]. }
  apply (sys_inv_step s); try done.
  - intros u U' HU'. destruct (Hget u U' HU') as (U & HU & Es). rewrite HL.
    unfold __LW_THREAD_IS_READY. rewrite Es. destruct (decide (u = t)) as [->|Hne].
    + by rewrite Z.eqb_eq.
    + rewrite (Hother u Hne). by apply (si_ready s Hi).
  - apply A.
  - intros u U HU. destruct (Hfwd u U HU) as (U' & -> & _). done.
  - intros i U Hid HU. destruct (Hfwd _ U HU) as (U' & HU' & E1 & E2). exists U'. splits; try done.
    destruct (Hget _ U' HU') as (U0 & HU0 & Es). rewrite HU in HU0. injection HU0 as <-.
    rewrite Es. destruct (decide (idle i = t)) as [Eit|]; [|done].
    destruct Hidle as [->|Hidle]; [|by destruct (Hidle i Hid)].
    destruct (si_idle s Hi i Hid) as (U0 & HU0 & _ & _ & Hr). rewrite HU in HU0. injection HU0 as <-.
    unfold __LW_THREAD_IS_READY in Hr. symmetry. by apply Z.eqb_eq.
Qed.

(** *** Each event *)

Lemma exec_wake s t T :
  sys_inv s -> tcbs s !! t = Some T -> __LW_THREAD_IS_READY T = false ->
  exists s', exec s (EvWake t) = Some s' /\ sys_inv s' /\ (is_cand s' t \/ preempts s' t T).
Proof.
  intros Hi HT Hr. simpl. rewrite HT. cbn [mbind option_bind].
  destruct (wf_status s t LW_THREAD_STATUS_RDY (si_wf s Hi)) as [Hwf1 HL1].
  set (s1 := upd_tcb t (set_TCB_usStatus LW_THREAD_STATUS_RDY) s) in *.
  set (T1 := set_TCB_usStatus LW_THREAD_STATUS_RDY T).
  assert (HT1 : tcbs s1 !! t = Some T1).
  { unfold s1. by rewrite lookup_upd_tcb, decide_True, HT. }
  assert (Hnl : ~ linked s t).
  { intros Hl. apply (si_ready s Hi t T HT) in Hl. congruence. }
  destruct (add_ready s1 t T1 Hwf1 HT1) as (s' & E & Hok & Hk & Hp).
  { by rewrite HL1. }
  { intros _. destruct (sw_tcb s (si_wf s Hi) t T HT) as (_ & Hid & _).
    destruct (proj2 (sw_cpu s (si_wf s Hi) _) Hid) as [c Hc]. exists c. split; [done|].
    by apply (si_cpu s Hi (TCB_ulCPUId T) c). }
  exists s'. split; [exact E|]. split; [|exact Hp].
  apply (sys_inv_status s s' t LW_THREAD_STATUS_RDY _ T Hi HT Hok Hk); [|tauto|by left].
  intros u Hu. rewrite HL1. tauto.
Qed.

Lemma exec_block s t st T :
  sys_inv s -> tcbs s !! t = Some T -> __LW_THREAD_IS_READY T = true -> st <> LW_THREAD_STATUS_RDY ->
  (forall i, cpu_id s i -> t <> idle i) ->
  exists s', exec s (EvBlock t st) = Some s' /\ sys_inv s' /\ ~ linked s' t /\
    (TCB_bIsCand T = true -> exists u U c, CAND_ptcbCand <$> cpus s' !! TCB_ulCPUId T = Some (Some u) /\
       cpus s !! TCB_ulCPUId T = Some c /\ tcbs s !! u = Some U /\ u <> t /\
       forall r q, visible c (TCB_ulCPUId T) r -> ring s (r, q) <> [] -> TCB_ucPriority U <= q).
Proof.
  intros Hi HT Hr Hst Hidle. simpl. rewrite HT. cbn [mbind option_bind].
  destruct (wf_status s t st (si_wf s Hi)) as [Hwf1 HL1].
  set (s1 := upd_tcb t (set_TCB_usStatus st) s) in *.
  set (T1 := set_TCB_usStatus st T).
  assert (HT1 : tcbs s1 !! t = Some T1) by (unfold s1; by rewrite lookup_upd_tcb, decide_True, HT).
  destruct (del_ready s1 t T1 Hwf1 HT1) as (s' & E & Hok & Hk & Hnext).
  { rewrite HL1. by apply (si_ready s Hi t T HT). }
  { intros Hc. change (TCB_bIsCand T = true) in Hc.
    destruct (sw_isc s (si_wf s Hi) t T HT Hc) as (c & Hcc & Hct).
    destruct (si_has_ready s _ c t Hi Hcc Hct) as (c' & r & p & H); [|by exists c', r, p].
    apply Hidle. by apply (sched_wf_cpu s _ c (si_wf s Hi)). }
  exists s'. split; [exact E|]. pose proof Hok as (W & A & HL).
  assert (Hnl : ~ linked s' t) by (rewrite HL; tauto). split; [|split; [done|]].
  - apply (sys_inv_status s s' t st _ T Hi HT Hok Hk); [|tauto|by right].
    intros u Hu. rewrite HL1. tauto.
  - intros Hc. destruct (Hnext Hc) as (u & U & c & Hu & Hcc & HU & Hmin).
    destruct (lookup_status s t st u U HU) as (U0 & HU0 & _).
    assert (Hut : u <> t).
    { intros ->. destruct (cpus s' !! TCB_ulCPUId T1) as [d|] eqn:Ed; [|done].
      injection Hu as Hu. apply Hnl. by apply (linked_cand s' (TCB_ulCPUId T1) d). }
    exists u, U, c. splits; try done. unfold s1 in HU. by rewrite lookup_upd_tcb, decide_False in HU.
Qed.

(** Changing the priority of a thread that is in no ring. *)
Lemma wf_set_prio s t p :
  sched_wf s -> prio_ok p -> (forall q, t ∉ ring s q) ->
  sched_wf (upd_tcb t (set_TCB_ucPriority p) s) /\
  forall u, linked (upd_tcb t (set_TCB_ucPriority p) s) u <-> linked s u.
Proof.
  intros Hwf Hp Hnr. set (f := set_TCB_ucPriority p).
  assert (Hlk : forall u, tcbs (upd_tcb t f s) !! u = if decide (u = t) then f <$> tcbs s !! u else tcbs s !! u)
    by (intros; apply lookup_upd_tcb).
  pose proof Hwf as [W1 W2 W3 W4 W5 W6 W7 W8]. split; [split; try done|].
  - intros u U. rewrite Hlk. destruct (decide (u = t)) as [->|]; [|apply W3].
    destruct (tcbs s !! t) as [T|] eqn:E; [|done]. intros [= <-].
    destruct (W3 t T E) as (_ & ? & ?). by splits.
  - intros q u Hu. destruct (W4 q u Hu) as (U & HU & H). exists U. rewrite Hlk, decide_False; [done|].
    intros ->. by apply (Hnr q).
  - intros i c u Hc Hu. destruct (W7 i c u Hc Hu) as (U & HU & H). rewrite Hlk, HU.
    destruct (decide (u = t)); eexists; (split; [done|]); apply H.
  - intros u U. rewrite Hlk. destruct (decide (u = t)) as [->|]; [|apply W8].
    destruct (tcbs s !! t) as [T|] eqn:E; [|done]. intros [= <-] Hc. by apply (W8 t T).
  - intros u. unfold linked. setoid_rewrite Hlk. destruct (decide (u = t)) as [->|]; [|done].
    destruct (tcbs s !! t) as [T|] eqn:E; simpl; [|by split; intros (? & ? & _)].
    split; intros (U & [= <-] & [H|H]); eexists; (split; [done|]); [by left| |by left|];
      exfalso; by eapply Hnr.
Qed.

Lemma not_linked_ring s t : sched_wf s -> ~ linked s t -> forall q, t ∉ ring s q.
Proof. intros Hwf Hnl q Hq. apply Hnl. by apply (linked_ring s q). Qed.

(** A priority change keeps the invariant, however the thread is re-linked. *)
Lemma sys_inv_prio s s1 s2 s' t p :
  sys_inv s -> step_ok s s1 (fun u => u <> t /\ linked s u) -> cpu_keep s s1 ->
  s2 = upd_tcb t (set_TCB_ucPriority p) s1 ->
  step_ok s2 s' (linked s) -> cpu_keep s2 s' -> sys_inv s'.
Proof.
  intros Hi (W1 & A1 & L1) K1 E2 (W & A & L) K.
  assert (Hfwd : forall u U, tcbs s !! u = Some U -> exists U', tcbs s' !! u = Some U' /\
    TCB_bCPULock U' = TCB_bCPULock U /\ TCB_ulCPULock U' = TCB_ulCPULock U /\
    TCB_usStatus U' = TCB_usStatus U).
  { intros u U HU. destruct (same_attrs_get s s1 u U A1 HU) as (U1 & HU1 & Ea1).
    assert (exists U2, tcbs s2 !! u = Some U2 /\ TCB_bCPULock U2 = TCB_bCPULock U1 /\
      TCB_ulCPULock U2 = TCB_ulCPULock U1 /\ TCB_usStatus U2 = TCB_usStatus U1) as (U2 & HU2 & E).
    { rewrite E2, lookup_upd_tcb, HU1. destruct (decide (u = t)); eexists; done. }
    destruct (same_attrs_get s2 s' u U2 A HU2) as (U' & HU' & Ea). exists U'.
    unfold attrs in *. split; [done|]. destruct E as (? & ? & ?). splits; congruence. }
  apply (sys_inv_step s); try done.
  - intros u U' HU'. rewrite L. destruct (tcbs s !! u) as [U|] eqn:EU.
    + destruct (Hfwd u U EU) as (V & HV & _ & _ & Es). rewrite HU' in HV. injection HV as <-.
      unfold __LW_THREAD_IS_READY. rewrite Es. by apply (si_ready s Hi).
    + exfalso. destruct A as [_ A]. specialize (A u). rewrite HU', E2, lookup_upd_tcb in A.
      destruct A1 as [_ A1]. specialize (A1 u). rewrite EU in A1.
      destruct (tcbs s1 !! u); [done|]. by destruct (decide (u = t)).
  - transitivity (LW_NCPUS s2); [apply A|]. rewrite E2. apply A1.
  - eapply cpu_keep_trans; [done|]. eapply cpu_keep_trans; [|done]. rewrite E2. by apply cpu_keep_refl.
  - intros u U HU. destruct (Hfwd u U HU) as (U' & -> & _). done.
  - intros i U _ HU. by apply Hfwd.
Qed.

Lemma _GetPcbEx_eq T p : _GetPcbEx T p = _GetPcb (set_TCB_ucPriority p T).
Proof. done. Qed.

Lemma sys_inv_prio_only s t p :
  sys_inv s -> prio_ok p -> (forall q, t ∉ ring s q) -> sys_inv (upd_tcb t (set_TCB_ucPriority p) s).
Proof.
  intros Hi Hp Hnr. destruct (wf_set_prio s t p (si_wf s Hi) Hp Hnr) as [W L].
  set (s' := upd_tcb t (set_TCB_ucPriority p) s) in *.
  assert (Hlk : forall u, tcbs s' !! u = if decide (u = t) then set_TCB_ucPriority p <$> tcbs s !! u else tcbs s !! u)
    by (intros; apply lookup_upd_tcb).
  apply (sys_inv_step s); try done.
  - intros u U HU. rewrite L. rewrite Hlk in HU. destruct (decide (u = t)); [|by apply (si_ready s Hi)].
    destruct (tcbs s !! u) as [U0|] eqn:E; [|done]. injection HU as <-. by apply (si_ready s Hi u U0).
  - by apply cpu_keep_refl.
  - intros u U HU. rewrite Hlk, HU. by destruct (decide (u = t)).
  - intros i U _ HU. rewrite Hlk, HU. destruct (decide (idle i = t)); eexists; done.
Qed.

Lemma sys_inv_rot s i v : sys_inv s -> sys_inv (LW_CAND_ROT_set i v s).
Proof.
  intros Hi. destruct (wf_rot s i v (si_wf s Hi)) as [W L]. apply (sys_inv_same s); [done| |apply cpu_keep_rot_set].
  by split; [|split].
Qed.

Lemma exec_prio s t p :
  sys_inv s -> event_ok s (EvPrio t p) -> exists s', exec s (EvPrio t p) = Some s' /\ sys_inv s'.
Proof.
  intros Hi [[T HT] Hp]. simpl. unfold _SchedSetPrio. rewrite HT. cbn [mbind option_bind].
  pose proof (si_wf s Hi) as Hwf. pose proof (si_ready s Hi t T HT) as Hrl.
  destruct (__LW_THREAD_IS_READY T) eqn:Hr.
  - assert (Hl : linked s t) by (by apply Hrl). destruct (TCB_bIsCand T) eqn:Hc.
    + eexists. split; [done|]. apply sys_inv_prio_only; [by apply sys_inv_rot|done|].
      intros q Hq. destruct (sw_ring s Hwf q t Hq) as (T' & HT' & _ & Hc').
      rewrite HT in HT'. injection HT' as <-. congruence.
    + destruct (del_ready s t T Hwf HT Hl) as (s1 & -> & Hok1 & Hk1 & _); [congruence|].
      cbn [mbind option_bind]. pose proof Hok1 as (W1 & A1 & L1).
      destruct (same_attrs_get s s1 t T A1 HT) as (T1 & HT1 & EA).
      assert (Hnl : ~ linked s1 t) by (rewrite L1; tauto).
      destruct (wf_set_prio s1 t p W1 Hp (not_linked_ring s1 t W1 Hnl)) as [W2 L2].
      set (s2 := upd_tcb t (set_TCB_ucPriority p) s1) in *.
      assert (HT2 : tcbs s2 !! t = Some (set_TCB_ucPriority p T1)).
      { unfold s2. by rewrite lookup_upd_tcb, decide_True, HT1. }
      assert (Epcb : _GetPcbEx T p = _GetPcb (set_TCB_ucPriority p T1)).
      { rewrite _GetPcbEx_eq. apply attrs_pcb. unfold attrs in *. simpl. congruence. }
      rewrite Epcb.
      destruct (add_ready s2 t _ W2 HT2) as (s' & E & (W & A & L) & K & _).
      { by rewrite L2. }
      { intros _. destruct (sw_tcb s2 W2 t _ HT2) as (_ & Hid & _).
        destruct (proj2 (sw_cpu s2 W2 _) Hid) as [c2 Hc2]. exists c2. split; [done|].
        assert (Hid1 : cpu_id s (TCB_ulCPUId (set_TCB_ucPriority p T1))).
        { unfold cpu_id in *. change (LW_NCPUS s2) with (LW_NCPUS s1) in Hid. by rewrite (proj1 A1) in Hid. }
        destruct (proj2 (sw_cpu s Hwf _) Hid1) as [c0 Hc0].
        destruct (Hk1 _ c0 Hc0) as (c1 & Hc1 & Ea & _). change (cpus s2) with (cpus s1) in Hc2.
        rewrite Hc2 in Hc1. injection Hc1 as <-. rewrite Ea. by apply (si_cpu s Hi _ c0 Hc0). }
      exists s'. split; [exact E|]. apply (sys_inv_prio s s1 s2 s' t p); try done.
      split; [done|]. split; [done|]. intros u. rewrite L, L2, L1.
      destruct (decide (u = t)) as [->|]; tauto.
  - eexists. split; [done|]. apply sys_inv_prio_only; [done|done|]. apply not_linked_ring; [done|].
    rewrite <-Hrl. done.
Qed.

Lemma exec_update s i :
  sys_inv s -> cpu_id s i ->
  exists s' c, exec s (EvUpdate i) = Some s' /\ sys_inv s' /\ cpus s !! i = Some c /\ update_post s s' i c.
Proof.
  intros Hi Hid. destruct (proj2 (sw_cpu s (si_wf s Hi) i) Hid) as [c Hc].
  destruct (si_cpu s Hi i c Hc) as (Ha & Hn & _).
  destruct (update_spec s i c (si_wf s Hi) Hc Ha) as (s' & E & Hpost); [done|by apply si_others|].
  exists s', c. split; [exact E|]. split; [|by split].
  destruct Hpost as (c' & t & T & Hok & Hk & _). by apply (sys_inv_same s).
Qed.

Lemma sys_inv_counter s t v : sys_inv s -> sys_inv (upd_tcb t (set_TCB_usSchedCounter v) s).
Proof.
  intros Hi. destruct (wf_upd_tcb s t (set_TCB_usSchedCounter v)) as [W L]; [by intros ?|apply Hi|].
  apply (sys_inv_same s); [done| |by apply cpu_keep_refl].
  split; [done|]. split; [|done]. by apply same_attrs_upd_tcb.
Qed.

Lemma exec_yield s t :
  sys_inv s -> is_Some (tcbs s !! t) -> exists s', exec s (EvYield t) = Some s' /\ sys_inv s'.
Proof.
  intros Hi [T HT]. simpl. unfold _SchedYield. rewrite HT. cbn [mbind option_bind].
  destruct (sw_tcb s (si_wf s Hi) t T HT) as (_ & Hid & _).
  destruct (proj2 (sw_cpu s (si_wf s Hi) _) Hid) as [c Hc]. rewrite Hc. cbn [mbind option_bind].
  destruct (CPU_ptcbTCBCur c =? t); eexists; (split; [done|]); [|done].
  by apply sys_inv_rot, sys_inv_counter.
Qed.

Lemma tick1_ok s i : sys_inv s -> cpu_id s i ->
  exists s', sched_tick1 s i = Some s' /\ sys_inv s' /\ LW_NCPUS s' = LW_NCPUS s.
Proof.
  intros Hi Hid. unfold sched_tick1. destruct (proj2 (sw_cpu s (si_wf s Hi) i) Hid) as [c Hc].
  destruct (si_cpu s Hi i c Hc) as (Ha & _ & [T HT]). rewrite Hc. cbn [mbind option_bind].
  rewrite Ha, HT. cbn [mbind option_bind].
  destruct (TCB_ucSchedPolicy T =? LW_OPTION_SCHED_RR); [|by eexists].
  destruct (TCB_usSchedCounter T =? 0); eexists; (split; [done|]); (split; [|done]).
  - by apply sys_inv_rot.
  - by apply sys_inv_counter.
Qed.

Lemma exec_tick s : sys_inv s -> exists s', exec s EvTick = Some s' /\ sys_inv s'.
Proof.
  intros Hi. simpl. unfold _SchedTick.
  assert (Hids : forall i, i ∈ cpu_ids s -> cpu_id s i) by (intros; by apply cpu_ids_id).
  revert s Hi Hids. generalize (cpu_ids : SCHED -> list Z) as f. intros f s Hi. generalize (f s) as ids.
  clear f. intros ids. revert s Hi. induction ids as [|i ids IH]; intros s Hi Hids; [by eexists|].
  cbn [sched_ticks]. destruct (tick1_ok s i Hi) as (s1 & -> & Hi1 & En); [apply Hids; left|].
  cbn [mbind option_bind]. apply IH; [done|]. intros j Hj. unfold cpu_id. rewrite En. apply Hids. by right.
Qed.

Lemma sys_inv_cur s i t :
  sys_inv s -> is_Some (tcbs s !! t) -> sys_inv (upd_cpu i (set_CPU_ptcbTCBCur t) s).
Proof.
  intros Hi Ht. pose proof (si_wf s Hi) as Hwf. set (s' := upd_cpu i (set_CPU_ptcbTCBCur t) s).
  assert (Hlk : forall j d', cpus s' !! j = Some d' -> exists d, cpus s !! j = Some d /\
    CAND_ptcbCand d' = CAND_ptcbCand d /\ CPU_bActive d' = CPU_bActive d /\
    (CPU_ptcbTCBCur d' = CPU_ptcbTCBCur d \/ CPU_ptcbTCBCur d' = t)).
  { intros j d'. unfold s'. rewrite lookup_upd_cpu. destruct (decide (j = i)); [|intros Hd; exists d'; splits; auto].
    destruct (cpus s !! j) as [d|]; [|done]. intros [= <-]. eexists. split; [done|]. splits; try done. by right. }
  assert (Hlk' : forall j d, cpus s !! j = Some d -> exists d', cpus s' !! j = Some d' /\
    CAND_ptcbCand d' = CAND_ptcbCand d).
  { intros j d Hd. unfold s'. rewrite lookup_upd_cpu, Hd. destruct (decide (j = i)); eexists; done. }
  pose proof Hwf as [W1 W2 W3 W4 W5 W6 W7 W8]. split; [split; try done| |apply Hi|].
  - intros j. change (cpu_id s' j) with (cpu_id s j). rewrite <-W1. split; intros [d Hd].
    + destruct (Hlk j d Hd) as (? & ? & _). by eexists.
    + destruct (Hlk' j d Hd) as (? & ? & _). by eexists.
  - intros j d u (d0 & Hd0 & E & _)%Hlk Hu. rewrite E in Hu. by apply (W7 j d0).
  - intros u U HU HcU. destruct (W8 u U HU HcU) as (d & Hd & Hcd).
    destruct (Hlk' _ d Hd) as (d' & Hd' & E). exists d'. by rewrite E.
  - apply (si_ready s Hi).
  - intros j d' (d & Hd & -> & -> & Hcur)%Hlk. destruct (si_cpu s Hi j d Hd) as (? & ? & ?).
    splits; [done..|]. by destruct Hcur as [-> | ->].
Qed.

Lemma exec_schedule s i : sys_inv s -> cpu_id s i ->
  exists s', exec s (EvSchedule i) = Some s' /\ sys_inv s'.
Proof.
  intros Hi Hid. simpl. unfold _Schedule, _SchedGetCand, __COULD_SCHED.
  destruct (proj2 (sw_cpu s (si_wf s Hi) i) Hid) as [c Hc].
  destruct (si_cpu s Hi i c Hc) as (Ha & Hn & [T HT]). rewrite Hc. cbn [mbind option_bind].
  rewrite HT. cbn [mbind option_bind]. destruct (negb _); cbn [mbind option_bind fst snd].
  { rewrite Z.eqb_refl. by eexists. }
  assert (exists s1, (if CAND_bNeedRotate c then _CandTableUpdate s i else Some s) = Some s1 /\ sys_inv s1
    /\ cpu_keep s s1) as (s1 & -> & Hi1 & Hk1).
  { destruct (CAND_bNeedRotate c).
    - destruct (exec_update s i Hi Hid) as (s1 & c' & E & Hi1 & _ & (? & ? & ? & _ & Hk & _)). by exists s1.
    - exists s. by split; [|split; [|apply cpu_keep_refl]]. }
  cbn [mbind option_bind]. destruct (Hk1 i c Hc) as (c1 & Hc1 & _ & _ & Ecur & Hcand). rewrite Hc1.
  cbn [mbind option_bind fst snd]. destruct (CAND_ptcbCand c1) as [t|] eqn:Ht; [|by specialize (Hcand Hn)].
  cbn [mbind option_bind]. destruct (t =? CPU_ptcbTCBCur c); eexists; (split; [done|]); [done|].
  apply sys_inv_cur; [done|]. destruct (sw_cand s1 (si_wf s1 Hi1) i c1 t Hc1 Ht) as (U & HU & _). by eexists.
Qed.

(** Every legal event runs and keeps the invariant. *)
Lemma exec_ok s e : sys_inv s -> event_ok s e -> exists s', exec s e = Some s' /\ sys_inv s'.
Proof.
  intros Hi Hok. destruct e as [t|t st|t p|i|t| |i].
  - destruct Hok as (T & HT & Hr). destruct (exec_wake s t T Hi HT Hr) as (s' & ? & ? & _). by exists s'.
  - destruct Hok as ((T & HT & Hr) & Hst & Hne).
    destruct (exec_block s t st T Hi HT Hr Hst Hne) as (s' & ? & ? & _). by exists s'.
  - by apply exec_prio.
  - destruct (exec_update s i Hi Hok) as (s' & _ & ? & ? & _). by exists s'.
  - by apply exec_yield.
  - by apply exec_tick.
  - by apply exec_schedule.
Qed.

(** *** Time slices *)

(** The slice of the running candidate of [i] ends, and its candidate is updated. *)
Definition rr_round (i : Z) (s : SCHED) : option SCHED :=
  c ← cpus s !! i;
  t ← CAND_ptcbCand c;
  _CandTableUpdate (upd_tcb t (set_TCB_usSchedCounter 0) s) i.

(** Threads of one ring share CPU [i]: the candidate [t] and the ring behind it,
    with everything else the CPU sees less urgent. *)
Definition rr_group (s : SCHED) (i : Z) (ppcb : PCB) (q : list Z) : Prop :=
  exists c t T l, q = t :: l /\ cpus s !! i = Some c /\ CAND_ptcbCand c = Some t /\
    tcbs s !! t = Some T /\ _GetPcb T = ppcb /\ ring s ppcb = l /\ visible c i (fst ppcb) /\
    forall r p, visible c i r -> ring s (r, p) <> [] -> (r, p) = ppcb \/ snd ppcb < p.

Definition rot1 (q : list Z) : list Z := match q with [] => [] | t :: l => l ++ [t] end.

Lemma resel_head s i c ppcb t T x l :
  sched_wf s -> cpus s !! i = Some c -> CAND_ptcbCand c = Some t -> tcbs s !! t = Some T ->
  _GetPcb T = ppcb -> ring s ppcb = x :: l -> visible c i (fst ppcb) -> TCB_usSchedCounter T = 0 ->
  exists s1 s2, _CandTableEmpty s i = Some s1 /\ _CandTableResel s1 i ppcb = Some s2 /\
    step_ok s s2 (linked s) /\ cpus s2 !! i = Some (set_CAND_ptcbCand (Some x) c) /\
    (forall j, j <> i -> cpus s2 !! j = cpus s !! j) /\
    (forall q, ring s2 q = if decide (q = ppcb) then l ++ [t] else ring s q).
Proof.
  intros Hwf Hc Ht HT Ep E Hv H0.
  destruct (empty_spec s i c t T Hwf Hc Ht HT) as (s1 & E1 & Hok1 & Ec1 & Et1 & Er1).
  pose proof Hok1 as (Hwf1 & _ & HL1). rewrite Ep in Er1.
  assert (Hc1 : cpus s1 !! i = Some (set_CAND_ptcbCand None c)) by (by rewrite Ec1, lookup_alter_eq, Hc).
  assert (Hr1 : ring s1 ppcb = t :: x :: l) by (rewrite Er1, decide_True by done; by rewrite E).
  destruct (resel_spec s1 i _ ppcb t (x :: l) Hwf1 Hc1 eq_refl Hr1) as (s2 & H & HH & E2 & Hok2 & Ec2 & Er2 & _);
    [by apply (visible_fst c)|].
  assert (HcH : TCB_usSchedCounter H = 0).
  { rewrite Et1, lookup_alter_eq, HT in HH. injection HH as <-. exact H0. }
  unfold next_pick, next_ring in Ec2, Er2. rewrite HcH in Ec2, Er2. simpl in Ec2, Er2.
  exists s1, s2. splits; try done.
  - apply (step_ok_ext _ _ (linked s1)); [done|]. by apply (step_ok_trans s s1 s2 (linked s)).
  - rewrite Ec2, lookup_alter_eq, Hc1. done.
  - intros j Hj. rewrite Ec2, lookup_alter_ne, Ec1, lookup_alter_ne by done. done.
  - intros q. rewrite Er2. case_decide as Eq.
    + by rewrite Z.eqb_refl.
    + by rewrite Er1, decide_False.
Qed.

Lemma rr_step s i ppcb t x l :
  sys_inv s -> rr_group s i ppcb (t :: x :: l) ->
  exists s', rr_round i s = Some s' /\ sys_inv s' /\ rr_group s' i ppcb (x :: l ++ [t]).
Proof.
  intros Hi (c & t' & T & l' & [= <- <-] & Hc & Ht & HT & Ep & E & Hv & Hmin).
  unfold rr_round. rewrite Hc. cbn [mbind option_bind]. rewrite Ht. cbn [mbind option_bind].
  pose proof (sys_inv_counter s t 0 Hi) as Hi0. set (s0 := upd_tcb t (set_TCB_usSchedCounter 0) s) in *.
  pose proof (si_wf s0 Hi0) as Hwf0. set (T0 := set_TCB_usSchedCounter 0 T).
  assert (HT0 : tcbs s0 !! t = Some T0) by (unfold s0; by rewrite lookup_upd_tcb, decide_True, HT).
  assert (Hid : cpu_id s0 i) by (by apply (sched_wf_cpu s0 i c)).
  destruct (exec_update s0 i Hi0 Hid) as (s' & c0 & Eu & Hi' & _ & _). exists s'.
  split; [exact Eu|]. split; [exact Hi'|].
  destruct (resel_head s0 i c ppcb t T0 x l Hwf0 Hc Ht HT0 Ep E Hv eq_refl)
    as (s1 & s2 & E1 & E2 & (Hwf2 & Ha2 & HL2) & Hc2 & Ho2 & Hr2).
  assert (Hx : x ∈ ring s0 ppcb) by (change (ring s0 ppcb) with (ring s ppcb); rewrite E; left).
  destruct (sw_ring s0 Hwf0 ppcb x Hx) as (X & HX & EpX & _).
  destruct (same_attrs_get s0 s2 x X Ha2 HX) as (X2 & HX2 & EX2).
  assert (exists s3, rot_rel s2 s3 /\ s' = LW_CAND_ROT_set i false s3) as (s3 & Hr3 & ->).
  { revert Eu. simpl. unfold _CandTableUpdate. change (cpus s0) with (cpus s). rewrite Hc. cbn [mbind option_bind].
    destruct (si_cpu s Hi i c Hc) as (-> & _ & _). cbn [negb]. rewrite Ht.
    destruct (seek_spec s0 i c Hwf0 Hc) as [[_ H]|(r & p & -> & Hne & Hvr & Hminp & _)].
    { destruct ppcb as [r p]. rewrite (H r p Hv) in Hx. by apply not_elem_of_nil in Hx. }
    cbn [mbind option_bind]. rewrite HT0. cbn [mbind option_bind snd].
    assert (Erp : (r, p) = ppcb).
    { destruct (Hmin r p Hvr Hne) as [?|Hlt]; [done|]. exfalso. destruct ppcb as [r0 p0].
      assert (p <= p0); [|simpl in Hlt; lia]. apply (Hminp r0 p0 Hv). intros E0.
      rewrite E0 in Hx. by apply not_elem_of_nil in Hx. }
    assert (Hp : p = TCB_ucPriority T) by (destruct (home_pcb T) as [_ ->]; by rewrite Ep, <-Erp).
    rewrite Erp, E1. cbn [mbind option_bind]. rewrite E2. cbn [mbind option_bind].
    rewrite Hc2. cbn [mbind option_bind].
    replace (LW_PRIO_IS_HIGH_OR_EQU p (TCB_ucPriority T0)) with true
      by (unfold LW_PRIO_IS_HIGH_OR_EQU; symmetry; apply Z.leb_le; simpl; lia).
    change (TCB_usSchedCounter T0 =? 0) with true. cbn [mbind option_bind].
    replace (if CPU_bOnlyAffinity c && negb (TCB_bCPULock T0) then true else true) with true
      by (by destruct (CPU_bOnlyAffinity c && negb (TCB_bCPULock T0))).
    destruct (negb _ && _).
    - destruct (same_attrs_get s0 s2 t T0 Ha2 HT0) as (T2 & HT2 & _).
      destruct (notify_spec s2 i t T2 Hwf2) as (s3 & -> & Hr3 & _); [|done|].
      { intros j d Hd _ Hj. rewrite Ho2 in Hd by done. by apply (si_cpu s Hi j d). }
      cbn [mbind option_bind]. intros [= <-]. by exists s3.
    - cbn [mbind option_bind]. intros [= <-]. exists s2. by split; [apply rot_rel_refl|]. }
  destruct (rot_rel_cpu s2 s3 i _ Hr3 Hc2) as (c3 & Hc3 & Ec3).
  assert (Hring : forall q, ring (LW_CAND_ROT_set i false s3) q = if decide (q = ppcb) then l ++ [t] else ring s q).
  { intros q. change (ring (LW_CAND_ROT_set i false s3) q) with (ring s3 q).
    by rewrite (rot_rel_ring s2 s3 _ Hr3), Hr2. }
  exists (set_CAND_bNeedRotate false c3), x, X2, (l ++ [t]). splits; try done.
  - by rewrite rot_lookup, decide_True, Hc3.
  - by destruct Ec3 as [-> | ->].
  - change (tcbs (LW_CAND_ROT_set i false s3)) with (tcbs s3). by rewrite (proj1 Hr3).
  - by rewrite (attrs_pcb X2 X EX2).
  - by rewrite Hring, decide_True.
  - by destruct Ec3 as [-> | ->].
  - intros r p Hvr Hne. assert (Hvr' : visible c i r) by (by destruct Ec3 as [-> | ->]).
    rewrite Hring in Hne. case_decide as Eq; [by left|]. by apply Hmin.
Qed.
End System.

Lemma rot1_length n q : length (Nat.iter n rot1 q) = length q.
Proof.
  induction n as [|n IH]; [done|]. simpl. rewrite <-IH. destruct (Nat.iter n rot1 q); [done|].
  simpl. rewrite length_app. simpl. lia.
Qed.

Lemma rot1_iter l1 l2 : Nat.iter (length l1) rot1 (l1 ++ l2) = l2 ++ l1.
Proof.
  revert l2. induction l1 as [|x l1 IH]; intros l2; [by rewrite app_nil_r|].
  simpl length. rewrite Nat.iter_succ_r. simpl. rewrite <-app_assoc, IH, <-app_assoc. done.
Qed.

(** ** A small system *)

Definition tcb0 (prio lock : Z) (locked cand : bool) (st : Z) : TCB :=
  mkTCB prio LW_OPTION_SCHED_RR LW_OPTION_RESPOND_STANDARD LW_SCHED_ACT_OTHER 5 5 locked lock lock cand st 0.

(** Two CPUs running their idle threads 0 and 1; three threads bound to CPU 0 and
    two unbound ones, all blocked with status [st]. *)
Definition sched_at (st : Z) : SCHED := mkSched
  (<[0 := tcb0 255 0 true true 0]> (<[1 := tcb0 255 1 true true 0]>
   (<[10 := tcb0 100 0 true false st]> (<[11 := tcb0 100 0 true false st]>
   (<[12 := tcb0 100 0 true false st]> (<[20 := tcb0 50 1 false false st]>
   (<[21 := tcb0 200 0 false false st]> ∅)))))))
  (<[0 := mkCPU true false (Some 0) false 0 0 0]> (<[1 := mkCPU true false (Some 1) false 1 0 0]> ∅))
  (<[None := mkPcbbmap _BitmapInit ∅]> (<[Some 0 := mkPcbbmap _BitmapInit ∅]>
   (<[Some 1 := mkPcbbmap _BitmapInit ∅]> ∅)))
  2.

#[local] Ltac all_keys H :=
  repeat (apply lookup_insert_Some in H as [[<- <-]|[_ H]]); [..|try by apply lookup_empty_Some in H].

Lemma init_ring st q : ring (sched_at st) q = [].
Proof.
  destruct q as [r p]. unfold ring. destruct (rdys (sched_at st) !! fst (r, p)) as [m|] eqn:E; [|done].
  simpl in E. all_keys E; simpl; by rewrite lookup_empty.
Qed.

Lemma sched_at_inv st : st <> 0 -> sys_inv id (sched_at st).
Proof.
  intros Hst.
  assert (Hid : forall i, cpu_id (sched_at st) i <-> i = 0 \/ i = 1) by (intros; unfold cpu_id; simpl; lia).
  assert (Hwf : sched_wf (sched_at st)).
  { split.
    - intros i. rewrite Hid. split; [|by intros [-> | ->]]. intros [c H]. simpl in H.
      all_keys H; auto.
    - intros r. split.
      + intros [m H]. simpl in H. all_keys H; try done; apply Hid; auto.
      + destruct r as [i|]; [|done]. rewrite Hid. by intros [-> | ->].
    - intros t T H. simpl in H. unfold prio_ok, cpu_id. simpl. all_keys H; simpl; lia.
    - intros q t. rewrite init_ring. by intros ?%not_elem_of_nil.
    - intros q. rewrite init_ring. constructor.
    - intros r. assert (bmap (sched_at st) r = _BitmapInit) as ->.
      { unfold bmap. destruct (rdys (sched_at st) !! r) as [m|] eqn:E; [|done]. simpl in E. by all_keys E. }
      split; [apply _BitmapInit_wf|]. intros p Hp. unfold _PcbIsEmpty. rewrite init_ring.
      by apply _BitmapInit_mem.
    - intros i c t H Ht. simpl in H.
      all_keys H; injection Ht as <-; (eexists; split; [reflexivity|]; done).
    - intros t T H Hc. simpl in H. all_keys H; try done; eexists; done. }
  split; [done| | |].
  - intros t T H. rewrite (linked_in _ _ T H), init_ring. rewrite elem_of_nil.
    assert (Hr : __LW_THREAD_IS_READY (tcb0 100 0 true false st) = false) by (by apply Z.eqb_neq).
    simpl in H. unfold __LW_THREAD_IS_READY, LW_THREAD_STATUS_RDY in *.
    all_keys H; simpl in *; rewrite ?Hr; naive_solver.
  - intros i [-> | ->]%Hid; eexists; (split; [reflexivity|done]).
  - intros i c H. simpl in H. all_keys H; (splits; [done|done|by eexists]).
Qed.

Definition init_sched : SCHED := sched_at 2.

Lemma init_inv : sys_inv id init_sched.
Proof. by apply sched_at_inv. Qed.

(** ** Theorems *)

(** C1: the scheduler's tables stay consistent and no operation is undefined:
    from any consistent state, every legal sequence of wake-ups, blockings, priority
    changes, yields, ticks, candidate updates and scheduling points runs, and the
    state it reaches is consistent. *)
Theorem sched_run_safe idle s es :
  sys_inv idle s -> events_ok idle s es -> exists s', exec_all s es = Some s' /\ sys_inv idle s'.
Proof.
  revert s. induction es as [|e es IH]; intros s Hi Hok; cbn [exec_all events_ok] in *; [by eexists|].
  destruct Hok as [He Hes]. destruct (exec_ok idle s e Hi He) as (s1 & E & Hi1).
  rewrite E. cbn [mbind option_bind]. apply IH; [done|]. by apply Hes.
Qed.

Definition demo_events : list event :=
  [EvWake 10; EvWake 11; EvWake 12; EvWake 20; EvUpdate 0; EvUpdate 1; EvTick; EvSchedule 0;
   EvYield 10; EvPrio 11 90; EvBlock 10 2].

(** Check the next event of a concrete run. *)
Ltac run_event :=
  split; [first [exact I | by eexists
    | eexists; split; [vm_compute; reflexivity|reflexivity]
    | split; [by eexists|unfold prio_ok; lia]
    | unfold cpu_id; vm_compute; split; [discriminate|reflexivity]
    | split; [eexists; split; [vm_compute; reflexivity|reflexivity]|split; [done|
        intros ? [? ?]; unfold id; intros <-; vm_compute in *; congruence]]]
  |let s := fresh "s" in let E := fresh "E" in
   intros s E; vm_compute in E; injection E as <-].

Lemma demo_ok : events_ok id init_sched demo_events.
Proof. repeat run_event. exact I. Qed.

Lemma sched_run_safe_witness :
  sys_inv id init_sched /\ events_ok id init_sched demo_events /\
  exists s', exec_all init_sched demo_events = Some s' /\ sys_inv id s'.
Proof.
  split; [exact init_inv|]. split; [exact demo_ok|].
  apply (sched_run_safe id init_sched demo_events); [exact init_inv|exact demo_ok].
Defined.

(** C4: a thread is in exactly one place. In a consistent state a ready thread is either
    the candidate of one CPU and in no ring, or once in the ring of its own
    table and priority and candidate of none; a thread that is not ready is in neither; and a
    priority's bit is set exactly when its ring is not empty. *)
Theorem ready_in_one_place idle s :
  sys_inv idle s ->
  (forall t T, tcbs s !! t = Some T -> __LW_THREAD_IS_READY T = true ->
     (exists i c, cpus s !! i = Some c /\ CAND_ptcbCand c = Some t /\
        (forall j d, cpus s !! j = Some d -> CAND_ptcbCand d = Some t -> j = i) /\
        forall q, t ∉ ring s q) \/
     (t ∈ ring s (_GetPcb T) /\ NoDup (ring s (_GetPcb T)) /\
        (forall q, t ∈ ring s q -> q = _GetPcb T) /\
        forall j d, cpus s !! j = Some d -> CAND_ptcbCand d <> Some t)) /\
  (forall t T, tcbs s !! t = Some T -> __LW_THREAD_IS_READY T = false ->
     (forall q, t ∉ ring s q) /\ forall j d, cpus s !! j = Some d -> CAND_ptcbCand d <> Some t) /\
  (forall r p, prio_ok p -> bmap_mem (bmap s r) p = true <-> ring s (r, p) <> []).
Proof.
  intros Hi. pose proof (si_wf idle s Hi) as Hwf. splits.
  - intros t T HT Hr. apply (si_ready idle s Hi t T HT), (linked_in _ _ _ HT) in Hr.
    destruct Hr as [Hc|Hin].
    + left. destruct (sw_isc s Hwf t T HT Hc) as (c & Hcc & Hct).
      exists (TCB_ulCPUId T), c. splits; [done|done| |].
      * intros j d Hd Hdt. destruct (sw_cand s Hwf j d t Hd Hdt) as (T' & HT' & _ & <- & _). congruence.
      * intros q Hq. destruct (sw_ring s Hwf q t Hq) as (T' & HT' & _ & Hc'). congruence.
    + right. splits; [done|apply (sw_nodup s Hwf)| |].
      * intros q Hq. destruct (sw_ring s Hwf q t Hq) as (T' & HT' & <- & _). congruence.
      * intros j d Hd Hdt. destruct (sw_cand s Hwf j d t Hd Hdt) as (T' & HT' & Hc' & _).
        destruct (sw_ring s Hwf _ t Hin) as (T2 & HT2 & _ & Hc2). congruence.
  - intros t T HT Hr. assert (Hnl : ~ linked s t).
    { intros Hl. apply (si_ready idle s Hi t T HT) in Hl. congruence. }
    split; [by apply not_linked_ring|]. intros j d Hd Hdt. by apply Hnl, (linked_cand s j d).
  - intros r p Hp. by apply mem_ring.
Qed.

Lemma ready_in_one_place_witness :
  sys_inv id init_sched /\
  forall t T, tcbs init_sched !! t = Some T -> __LW_THREAD_IS_READY T = false ->
     (forall q, t ∉ ring init_sched q) /\
     forall j d, cpus init_sched !! j = Some d -> CAND_ptcbCand d <> Some t.
Proof. split; [exact init_inv|]. exact (proj1 (proj2 (ready_in_one_place id init_sched init_inv))). Defined.

(** C2: a candidate update installs the most urgent thread. After
    [_CandTableUpdate] the CPU's candidate is at least as urgent as every thread waiting in a
    table the CPU may take threads from, its rotation request is cleared, and
    if it displaced an unbound thread that another CPU should run instead, such a
    CPU has been asked to rotate. *)
Theorem _CandTableUpdate_optimal idle s i :
  sys_inv idle s -> cpu_id s i ->
  exists s' c c' t T, _CandTableUpdate s i = Some s' /\ cpus s !! i = Some c /\
    cpus s' !! i = Some c' /\ CAND_ptcbCand c' = Some t /\ CAND_bNeedRotate c' = false /\
    tcbs s' !! t = Some T /\
    (forall r q, visible c i r -> ring s' (r, q) <> [] -> TCB_ucPriority T <= q) /\
    (forall t0 T0, CAND_ptcbCand c = Some t0 -> tcbs s !! t0 = Some T0 -> t <> t0 ->
       TCB_bCPULock T0 = false -> asked s' i (TCB_ucPriority T0)).
Proof.
  intros Hi Hid. destruct (exec_update idle s i Hi Hid) as (s' & c & E & _ & Hc & Hpost).
  destruct Hpost as (c' & t & T & _ & _ & Hc' & Ht & Hrot & HT & Hmin & Hask).
  by exists s', c, c', t, T.
Qed.

Lemma _CandTableUpdate_optimal_witness :
  exists s' c c' t T, _CandTableUpdate init_sched 1 = Some s' /\ cpus init_sched !! 1 = Some c /\
    cpus s' !! 1 = Some c' /\ CAND_ptcbCand c' = Some t /\ CAND_bNeedRotate c' = false /\
    tcbs s' !! t = Some T /\
    (forall r q, visible c 1 r -> ring s' (r, q) <> [] -> TCB_ucPriority T <= q) /\
    (forall t0 T0, CAND_ptcbCand c = Some t0 -> tcbs init_sched !! t0 = Some T0 -> t <> t0 ->
       TCB_bCPULock T0 = false -> asked s' 1 (TCB_ucPriority T0)).
Proof. apply (_CandTableUpdate_optimal id init_sched 1 init_inv). vm_compute. by split. Defined.

(** C3: no preemption is missed. A thread that becomes ready is made a candidate at
    once, or every CPU it could run on is busy with a thread at least as urgent, or a
    CPU running a less urgent thread has been asked to rotate. *)
Theorem wake_no_missed_preemption idle s t T :
  sys_inv idle s -> tcbs s !! t = Some T -> __LW_THREAD_IS_READY T = false ->
  exists s', __ADD_TO_READY_RING (upd_tcb t (set_TCB_usStatus LW_THREAD_STATUS_RDY) s) t (_GetPcb T) = Some s' /\
    (is_cand s' t \/ preempts s' t T).
Proof.
  intros Hi HT Hr. destruct (exec_wake idle s t T Hi HT Hr) as (s' & E & _ & Hp). exists s'.
  split; [|done]. simpl in E. by rewrite HT in E.
Qed.

Lemma wake_no_missed_preemption_witness :
  exists s', __ADD_TO_READY_RING (upd_tcb 10 (set_TCB_usStatus LW_THREAD_STATUS_RDY) init_sched) 10
      (_GetPcb (tcb0 100 0 true false 2)) = Some s' /\
    (is_cand s' 10 \/ preempts s' 10 (tcb0 100 0 true false 2)).
Proof. by apply (wake_no_missed_preemption id init_sched 10 _ init_inv). Defined.

(** When a running candidate blocks, its CPU immediately gets the most urgent
    thread it may take, and the blocked thread is in no table any more. *)
Theorem block_runs_next idle s t st T :
  sys_inv idle s -> tcbs s !! t = Some T -> __LW_THREAD_IS_READY T = true -> st <> LW_THREAD_STATUS_RDY ->
  (forall i, cpu_id s i -> t <> idle i) ->
  exists s', __DEL_FROM_READY_RING (upd_tcb t (set_TCB_usStatus st) s) t (_GetPcb T) = Some s' /\
    ~ linked s' t /\
    (TCB_bIsCand T = true -> exists u U c, CAND_ptcbCand <$> cpus s' !! TCB_ulCPUId T = Some (Some u) /\
       cpus s !! TCB_ulCPUId T = Some c /\ tcbs s !! u = Some U /\ u <> t /\
       forall r q, visible c (TCB_ulCPUId T) r -> ring s (r, q) <> [] -> TCB_ucPriority U <= q).
Proof.
  intros Hi HT Hr Hst Hne. destruct (exec_block idle s t st T Hi HT Hr Hst Hne) as (s' & E & _ & Hl & Hn).
  exists s'. split; [|done]. simpl in E. by rewrite HT in E.
Qed.

(** The state after thread 20 has taken CPU 1. *)
Definition demo_busy : SCHED := default init_sched (exec_all init_sched [EvWake 20; EvUpdate 1]).

Lemma demo_busy_inv : sys_inv id demo_busy.
Proof.
  destruct (exec_ok id init_sched (EvWake 20) init_inv) as (s1 & E1 & Hi1).
  { eexists. split; [vm_compute; reflexivity|reflexivity]. }
  destruct (exec_ok id s1 (EvUpdate 1) Hi1) as (s2 & E2 & Hi2).
  { vm_compute in E1. injection E1 as <-. vm_compute. by split. }
  assert (exec_all init_sched [EvWake 20; EvUpdate 1] = Some s2) as E.
  { cbn [exec_all]. rewrite E1. cbn [mbind option_bind]. rewrite E2. done. }
  unfold demo_busy. by rewrite E.
Qed.

Lemma block_runs_next_witness :
  exists T, tcbs demo_busy !! 20 = Some T /\ TCB_bIsCand T = true /\
  exists s', __DEL_FROM_READY_RING (upd_tcb 20 (set_TCB_usStatus 2) demo_busy) 20 (_GetPcb T) = Some s' /\
    ~ linked s' 20 /\
    (TCB_bIsCand T = true -> exists u U c, CAND_ptcbCand <$> cpus s' !! TCB_ulCPUId T = Some (Some u) /\
       cpus demo_busy !! TCB_ulCPUId T = Some c /\ tcbs demo_busy !! u = Some U /\ u <> 20 /\
       forall r q, visible c (TCB_ulCPUId T) r -> ring demo_busy (r, q) <> [] -> TCB_ucPriority U <= q).
Proof.
  eexists. split; [vm_compute; reflexivity|]. split; [reflexivity|].
  apply (block_runs_next id demo_busy 20 2 _ demo_busy_inv); [vm_compute; reflexivity|reflexivity|done|].
  assert (En : LW_NCPUS demo_busy = 2) by (by vm_compute).
  intros i Hi. unfold cpu_id in Hi. rewrite En in Hi. unfold id. lia.
Defined.

(** C14: round robin is fair. Let threads of one ring share a CPU on which nothing more
    urgent or equally urgent is ready elsewhere. Then each of them becomes the candidate
    within as many slices as there are threads, in ring order. *)
Theorem round_robin_fair idle s i ppcb q u :
  sys_inv idle s -> rr_group s i ppcb q -> (2 <= length q)%nat -> u ∈ q ->
  exists k s' c, (k < length q)%nat /\ Nat.iter k (fun os => os ≫= rr_round i) (Some s) = Some s' /\
    rr_group s' i ppcb (Nat.iter k rot1 q) /\ cpus s' !! i = Some c /\ CAND_ptcbCand c = Some u.
Proof.
  intros Hi Hg Hlen Hu.
  assert (Hiter : forall k, exists s', Nat.iter k (fun os => os ≫= rr_round i) (Some s) = Some s' /\
    sys_inv idle s' /\ rr_group s' i ppcb (Nat.iter k rot1 q)).
  { induction k as [|k (s1 & E & Hi1 & Hg1)]; [by exists s|]. simpl. rewrite E. cbn [mbind option_bind].
    pose proof (rot1_length k q) as Hl. destruct (Nat.iter k rot1 q) as [|t [|x l]]; simpl in Hl; [lia..|].
    destruct (rr_step idle s1 i ppcb t x l Hi1 Hg1) as (s2 & -> & Hi2 & Hg2). by exists s2. }
  apply list_elem_of_split in Hu as (l1 & l2 & ->). destruct (Hiter (length l1)) as (s' & E & _ & Hg').
  pose proof Hg' as (c & t & T & l & Eq & Hc & Ht & _).
  rewrite rot1_iter in Eq. injection Eq as <- _.
  exists (length l1), s', c. splits; try done. rewrite length_app. simpl. lia.
Qed.

(** A run ends consistent, or it does not run. *)
Lemma exec_all_inv idle es s : sys_inv idle s -> events_ok idle s es -> sys_inv idle (default s (exec_all s es)).
Proof.
  revert s. induction es as [|e es IH]; intros s Hi Ho; [done|]. destruct Ho as [He Hes].
  destruct (exec_ok idle s e Hi He) as (s1 & E & Hi1). cbn [exec_all]. rewrite E. cbn [mbind option_bind].
  specialize (IH s1 Hi1 (Hes s1 E)). destruct (exec_all s1 es); done.
Qed.

(** Threads 10, 11 and 12 share CPU 0. *)
Definition demo_rr : SCHED :=
  default init_sched (exec_all init_sched [EvWake 10; EvWake 11; EvWake 12; EvUpdate 0]).

Lemma demo_rr_inv : sys_inv id demo_rr.
Proof.
  assert (Hok : events_ok id init_sched [EvWake 10; EvWake 11; EvWake 12; EvUpdate 0])
    by (repeat run_event; exact I).
  exact (exec_all_inv id _ _ init_inv Hok).
Qed.

(** The other rings of a state, checked by evaluation. *)
Lemma others_less_urgent s (ppcb : PCB) :
  bool_decide (map_Forall (fun r m => map_Forall (fun p l => l = [] \/ (r, p) = ppcb \/ snd ppcb < p) (PCBM_pcb m))
    (rdys s)) = true ->
  forall r p, ring s (r, p) <> [] -> (r, p) = ppcb \/ snd ppcb < p.
Proof.
  intros H%bool_decide_eq_true r p Hne. unfold ring in Hne. simpl in Hne.
  destruct (rdys s !! r) as [m|] eqn:Em; [|done].
  destruct (PCBM_pcb m !! p) as [l|] eqn:El; [|done]. simpl in Hne.
  destruct (H r m Em p l El) as [?|?]; done.
Qed.

Lemma demo_rr_group : rr_group demo_rr 0 (Some 0, 100) [10; 11; 12].
Proof.
  do 4 eexists. split; [reflexivity|]. split; [vm_compute; reflexivity|]. split; [reflexivity|].
  split; [vm_compute; reflexivity|]. split; [reflexivity|]. split; [vm_compute; reflexivity|].
  split; [by left|]. intros r p _. apply others_less_urgent. by vm_compute.
Qed.

Lemma round_robin_fair_witness :
  exists k s' c, (k < 3)%nat /\ Nat.iter k (fun os => os ≫= rr_round 0) (Some demo_rr) = Some s' /\
    rr_group s' 0 (Some 0, 100) (Nat.iter k rot1 [10; 11; 12]) /\ cpus s' !! 0 = Some c /\
    CAND_ptcbCand c = Some 12.
Proof.
  apply (round_robin_fair id demo_rr 0 (Some 0, 100) [10; 11; 12] 12 demo_rr_inv demo_rr_group);
    [simpl; lia|]. right. right. left.
Defined.
