(* ===== verification/Object.v ===== *)
(** * Kernel objects: kernel/core/_Object.c, kernel/inline/inlObject.h,
    kernel/include/k_object.h and the object pools of kernel/list/listEvent.c
    and listEventSet.c

    A handle packs a class, a processor number and an index into a table of
    control blocks.  The file shows that packing and unpacking agree, and that a
    pool hands out free control blocks in first-in first-out order and counts
    those in use. *)

From S2P Require Import Prelude Lists.

(** ** k_object.h: the classes *)

Definition _OBJECT_THREAD : Z := 1.
Definition _OBJECT_SEM_C : Z := 3.
Definition _OBJECT_SEM_B : Z := 4.
Definition _OBJECT_SEM_M : Z := 5.
Definition _OBJECT_SEM_RW : Z := 6.
Definition _OBJECT_MSGQUEUE : Z := 7.
Definition _OBJECT_EVENT_SET : Z := 8.

Definition LW_OBJECT_HANDLE_INVALID : Z := 0.

(** The conversion of an [int] result of 32 bits to [ULONG]. *)
Definition int_to_ulong (x : Z) : Z := wrap 64 (wrap 32 (x + 2 ^ 31) - 2 ^ 31).

(** ** _Object.c *)

Definition _MakeObjectId (ucCls usNode usIndex : Z) : Z :=
  Z.lor (Z.lor (int_to_ulong (Z.shiftl ucCls 26)) (int_to_ulong (Z.shiftl usNode 16))) usIndex.

(** ** inlObject.h *)

Definition _ObjectGetIndex (ulId : Z) : Z := wrap 16 (Z.land ulId 0xffff).
Definition _ObjectGetNode (ulId : Z) : Z := Z.land (Z.shiftr ulId 16) 0x03ff.
Definition _ObjectGetClass (ulId : Z) : Z := Z.land (Z.shiftr ulId 26) 0x3f.
Definition _ObjectClassOK (ulId ucClass : Z) : bool := Z.land (Z.shiftr ulId 26) 0x3f =? ucClass.

(** ** The object pools *)

(** [LW_CLASS_OBJECT_RESRC]: the chain of free control blocks (its header and
    tail pointers denote the list, file Lists) and the usage counters. *)
Record RESRC := mkResrc { RESRC_free : list Z; RESRC_uiUsed : Z; RESRC_uiMaxUsed : Z }.

(** [_list_mono_allocate_seq] takes the first free control block,
    [_list_mono_free_seq] appends at the tail. *)
Definition resrc_allocate (r : RESRC) : option (RESRC * Z) :=
  match RESRC_free r with
  | [] => None
  | x :: l =>
    let used := wrap 32 (RESRC_uiUsed r + 1) in
    Some (mkResrc l used (if RESRC_uiMaxUsed r <? used then used else RESRC_uiMaxUsed r), x)
  end.
Definition resrc_free (r : RESRC) (x : Z) : RESRC :=
  mkResrc (RESRC_free r ++ [x]) (wrap 32 (RESRC_uiUsed r - 1)) (RESRC_uiMaxUsed r).

Definition _Allocate_Event_Object : RESRC -> option (RESRC * Z) := resrc_allocate.
Definition _Free_Event_Object : RESRC -> Z -> RESRC := resrc_free.
Definition _Allocate_EventSet_Object : RESRC -> option (RESRC * Z) := resrc_allocate.
Definition _Free_EventSet_Object : RESRC -> Z -> RESRC := resrc_free.

(** The pool holds exactly the unused control blocks, and counts the others. *)
Definition pool_inv (r : RESRC) (max : Z) (unused : Z -> Prop) : Prop :=
  NoDup (RESRC_free r) /\ (forall e, e ∈ RESRC_free r <-> unused e) /\ (forall e, unused e -> 0 <= e < max) /\
  0 <= max <= 2 ^ 16 /\ RESRC_uiUsed r = max - Z.of_nat (length (RESRC_free r)).

Lemma pool_inv_ext r max P Q : (forall e, P e <-> Q e) -> pool_inv r max P -> pool_inv r max Q.
Proof.
  intros H (P1 & P2 & P3 & P4). split; [done|]. split; [|split; [|done]]; intros e.
  - by rewrite P2.
  - rewrite <-H. apply P3.
Qed.

Lemma pool_room max l : NoDup l -> (forall e, e ∈ l -> 0 <= e < max) -> Z.of_nat (length l) <= Z.max 0 max.
Proof.
  intros Hn Hr. assert (Hs : l ⊆+ seqZ 0 max).
  { apply NoDup_submseteq; [done|]. intros e He. apply elem_of_seqZ. rewrite Z.add_0_l. by apply Hr. }
  apply submseteq_length in Hs. rewrite length_seqZ in Hs. lia.
Qed.

Lemma pool_alloc r max P e l : pool_inv r max P -> RESRC_free r = e :: l ->
  exists r', resrc_allocate r = Some (r', e) /\ RESRC_free r' = l /\ pool_inv r' max (fun x => P x /\ x <> e).
Proof.
  intros (P1 & P2 & P3 & P4 & P5) Hf. unfold resrc_allocate. rewrite Hf in *.
  eexists. split; [done|]. split; [done|]. apply NoDup_cons in P1 as [Q1 Q2].
  split; [done|]. split; [|split; [intros x [Hx _]; by apply P3|split; [done|]]].
  - intros x. rewrite <-P2, elem_of_cons. cbn [RESRC_free]. split; [|tauto]. intros Hx. split; [tauto|]. by intros ->.
  - cbn [RESRC_uiUsed RESRC_free]. cbn [length] in P5. 
    pose proof (pool_room max (e :: l)) as Hl. cbn [length] in Hl.
    assert (Z.of_nat (S (length l)) <= Z.max 0 max).
    { apply Hl; [by apply NoDup_cons|]. intros x Hx. by apply P3, P2. }
    assert (0 <= e < max) by (apply P3, P2; left). rewrite wrap_small; lia.
Qed.

Lemma pool_free r max (P : Z -> Prop) e : pool_inv r max P -> 0 <= e < max -> ~ P e ->
  pool_inv (resrc_free r e) max (fun x => P x \/ x = e).
Proof.
  intros (P1 & P2 & P3 & P4 & P5) He Hn. unfold resrc_free.
  assert (Hnin : e ∉ RESRC_free r) by (by rewrite P2).
  split; [|split; [|split; [intros x [Hx| ->]; [by apply P3|done]|split; [done|]]]]; cbn [RESRC_free RESRC_uiUsed].
  - apply NoDup_app. split; [done|]. split; [by intros x Hx ->%list_elem_of_singleton|apply NoDup_singleton].
  - intros x. rewrite elem_of_app, list_elem_of_singleton, P2. done.
  - rewrite length_app, P5. cbn [length].
    pose proof (pool_room max (e :: RESRC_free r)) as Hl. cbn [length] in Hl.
    assert (Z.of_nat (S (length (RESRC_free r))) <= Z.max 0 max).
    { apply Hl; [by apply NoDup_cons|]. intros x [->|Hx]%elem_of_cons; [done|]. by apply P3, P2. }
    rewrite wrap_small; lia.
Qed.

(** ** Handles *)

Lemma testbit_high x n m : 0 <= x < 2 ^ n -> n <= m -> Z.testbit x m = false.
Proof.
  intros Hx Hn. destruct (decide (x = 0)) as [->|Hne]; [apply Z.bits_0|].
  apply Z.bits_above_log2; [lia|]. assert (Z.log2 x < n); [|lia].
  apply Z.log2_lt_pow2; lia.
Qed.

Lemma mod_pow_bits x n : 0 <= n -> Z.land x (Z.ones n) = x mod 2 ^ n.
Proof. intros. by apply Z.land_ones. Qed.

(** Whatever the sign extension does above bit 31, the low 32 bits stay. *)
Lemma int_to_ulong_bit x i : 0 <= i < 32 -> Z.testbit (int_to_ulong x) i = Z.testbit x i.
Proof.
  intros Hi. unfold int_to_ulong, wrap. rewrite Z.mod_pow2_bits_low by lia.
  assert (E : ((x + 2 ^ 31) mod 2 ^ 32 - 2 ^ 31) mod 2 ^ 32 = x mod 2 ^ 32).
  { rewrite Zminus_mod_idemp_l. f_equal. lia. }
  rewrite <-(Z.mod_pow2_bits_low _ 32 i) by lia. rewrite E. apply Z.mod_pow2_bits_low. lia.
Qed.

Lemma make_id_bit c n x i : 0 <= i < 32 ->
  Z.testbit (_MakeObjectId c n x) i = Z.testbit c (i - 26) || Z.testbit n (i - 16) || Z.testbit x i.
Proof.
  intros Hi. unfold _MakeObjectId. rewrite !Z.lor_spec, !int_to_ulong_bit by lia.
  by rewrite !Z.shiftl_spec by lia.
Qed.

Lemma make_id_class c n x : 0 <= c < 64 -> 0 <= n < 1024 -> 0 <= x < 65536 ->
  _ObjectGetClass (_MakeObjectId c n x) = c.
Proof.
  intros Hc Hn Hx. apply Z.bits_inj'. intros i Hi. unfold _ObjectGetClass.
  change 0x3f with (Z.ones 6). rewrite Z.land_spec, Z.shiftr_spec by lia.
  destruct (decide (i < 6)) as [Hlt|Hge].
  - rewrite Z.ones_spec_low by lia. rewrite make_id_bit by lia.
    rewrite (testbit_high n 10), (testbit_high x 16) by lia.
    rewrite !orb_false_r, andb_true_r. f_equal. lia.
  - rewrite Z.ones_spec_high, andb_false_r by lia. symmetry. by apply (testbit_high c 6); lia.
Qed.

Lemma make_id_node c n x : 0 <= c < 64 -> 0 <= n < 1024 -> 0 <= x < 65536 ->
  _ObjectGetNode (_MakeObjectId c n x) = n.
Proof.
  intros Hc Hn Hx. apply Z.bits_inj'. intros i Hi. unfold _ObjectGetNode.
  change 0x03ff with (Z.ones 10). rewrite Z.land_spec, Z.shiftr_spec by lia.
  destruct (decide (i < 10)) as [Hlt|Hge].
  - rewrite Z.ones_spec_low by lia. rewrite make_id_bit by lia.
    rewrite (Z.testbit_neg_r c), (testbit_high x 16) by lia.
    rewrite orb_false_r, andb_true_r. simpl. f_equal. lia.
  - rewrite Z.ones_spec_high, andb_false_r by lia. symmetry. by apply (testbit_high n 10); lia.
Qed.

Lemma make_id_index c n x : 0 <= x < 65536 -> _ObjectGetIndex (_MakeObjectId c n x) = x.
Proof.
  intros Hx. unfold _ObjectGetIndex. change 0xffff with (Z.ones 16). rewrite mod_pow_bits by lia.
  unfold wrap. rewrite Z.mod_mod by lia. rewrite <-mod_pow_bits by lia.
  apply Z.bits_inj'. intros i Hi. rewrite Z.land_spec. destruct (decide (i < 16)) as [Hlt|Hge].
  - rewrite Z.ones_spec_low by lia. rewrite make_id_bit by lia.
    by rewrite (Z.testbit_neg_r c), (Z.testbit_neg_r n), andb_true_r by lia.
  - rewrite Z.ones_spec_high, andb_false_r by lia. symmetry. by apply (testbit_high x 16); lia.
Qed.

(** Packing a class, a processor number and an index into a handle and
    unpacking them are inverse; in particular the class check of a handle
    succeeds for its own class only. *)
Theorem object_id_roundtrip c n x :
  0 <= c < 64 -> 0 <= n < 1024 -> 0 <= x < 65536 ->
  let id := _MakeObjectId c n x in
  _ObjectGetClass id = c /\ _ObjectGetNode id = n /\ _ObjectGetIndex id = x /\
  forall c', _ObjectClassOK id c' = (c =? c').
Proof.
  intros Hc Hn Hx id. splits; [by apply make_id_class|by apply make_id_node|by apply make_id_index|].
  intros c'. change (_ObjectClassOK id c') with (_ObjectGetClass id =? c').
  unfold id. by rewrite make_id_class.
Qed.

Lemma object_id_roundtrip_witness :
  (0 <= 23 < 64 /\ 0 <= 5 < 1024 /\ 0 <= 1000 < 65536) /\
  _ObjectGetClass (_MakeObjectId 23 5 1000) = 23 /\ _ObjectGetNode (_MakeObjectId 23 5 1000) = 5 /\
  _ObjectGetIndex (_MakeObjectId 23 5 1000) = 1000 /\
  forall c', _ObjectClassOK (_MakeObjectId 23 5 1000) c' = (23 =? c').
Proof. split; [lia|]. apply (object_id_roundtrip 23 5 1000); lia. Defined.
