(* ===== verification/Wakeup.v ===== *)
(** * Wake-up lines: kernel/core/_WakeupLine.c, the pass macros of
    kernel/include/k_scanlink.h and the tick timers of kernel/interface/TimerHTicks.c

    A wake-up line is a list of nodes ordered by expiry, each holding the time
    that separates it from its predecessor.  The file shows that it implements
    a queue of absolute remaining times: insertion is sorted and stable,
    removal leaves the other times unchanged, and a pass fires
    exactly the expired nodes in order. *)

From S2P Require Import Prelude Lists.

(** ** Data *)

Record LW_CLASS_WAKEUP_NODE := mkWun { WUN_bInQ : bool; WUN_ulCounter : Z }.

(** The line is the list of its nodes' addresses (file Lists); [WU_plineOp] is
    the next node of a running pass; [WU_pfuncWakeup] tells whether a wake-up
    function is installed. *)
Record LW_CLASS_WAKEUP := mkWu {
  WU_line : list Z;
  WU_plineOp : option Z;
  WU_i64LastTime : Z;
  WU_pfuncWakeup : bool
}.

Abbreviation nodes := (gmap Z LW_CLASS_WAKEUP_NODE).

Definition set_counter (x v : Z) (m : nodes) : nodes :=
  alter (fun n => mkWun (WUN_bInQ n) v) x m.
Definition set_inq (x : Z) (v : bool) (m : nodes) : nodes :=
  alter (fun n => mkWun v (WUN_ulCounter n)) x m.

Definition set_line (l : list Z) (w : LW_CLASS_WAKEUP) : LW_CLASS_WAKEUP :=
  mkWu l (WU_plineOp w) (WU_i64LastTime w) (WU_pfuncWakeup w).
Definition set_op (o : option Z) (w : LW_CLASS_WAKEUP) : LW_CLASS_WAKEUP :=
  mkWu (WU_line w) o (WU_i64LastTime w) (WU_pfuncWakeup w).
Definition set_last (t : Z) (w : LW_CLASS_WAKEUP) : LW_CLASS_WAKEUP :=
  mkWu (WU_line w) (WU_plineOp w) t (WU_pfuncWakeup w).

(** [_list_line_get_next] and [_list_line_get_prev] of a node of the line. *)
Fixpoint next_of (x : Z) (l : list Z) : option Z :=
  match l with [] => None | y :: l' => if y =? x then head l' else next_of x l' end.
Definition is_first (x : Z) (l : list Z) : bool :=
  match l with [] => false | y :: _ => y =? x end.

(** The time that has passed since [last], as the code computes it. *)
Definition elapsed (now last : Z) : Z := wrap 64 (now - last).

(** A counter after [c] ticks that expire nobody: it saturates at zero. *)
Definition drain (n c : Z) : Z := if c <? n then n - c else 0.

(** ** _WakeupAdd *)

(** The [while] loop and the three insertions: the new node [x], with [c] still
    to go, is put before the first node that is further away, and that node is
    shortened.  Result: the nodes' counters, the line and the counter of [x]. *)
Fixpoint wakeup_insert (x c : Z) (l : list Z) (m : nodes) : option (nodes * list Z * Z) :=
  match l with
  | [] => Some (m, [x], c)
  | y :: l' =>
    n ← m !! y;
    if WUN_ulCounter n <=? c then
      '(m, l', c) ← wakeup_insert x (c - WUN_ulCounter n) l' m;
      Some (m, y :: l', c)
    else Some (set_counter y (WUN_ulCounter n - c) m, x :: y :: l', c)
  end.

(** Result: the line, the nodes and whether the wake-up function was called. *)
Definition _WakeupAdd (w : LW_CLASS_WAKEUP) (m : nodes) (pwun : Z) (bProcTime : bool) (now : Z)
    : option (LW_CLASS_WAKEUP * nodes * bool) :=
  let proc := bProcTime && WU_pfuncWakeup w in
  '(w, m) ← match WU_line w with
            | y :: _ =>
              if proc then
                n ← m !! y;
                Some (set_last now w,
                  set_counter y (drain (WUN_ulCounter n) (elapsed now (WU_i64LastTime w))) m)
              else Some (w, m)
            | [] => Some (w, m)
            end;
  n ← m !! pwun;
  let bSaveTime := match WU_line w with [] => true | _ => false end in
  '(m, l, c) ← wakeup_insert pwun (WUN_ulCounter n) (WU_line w) m;
  let m := set_inq pwun true (set_counter pwun c m) in
  let w := set_line l w in
  let w := if proc && bSaveTime then set_last now w else w in
  Some (w, m, proc).

(** ** _WakeupDel *)

Definition _WakeupDel (w : LW_CLASS_WAKEUP) (m : nodes) (pwun : Z) (bProcTime : bool) (now : Z)
    : option (LW_CLASS_WAKEUP * nodes) :=
  n ← m !! pwun;
  let plineRight := next_of pwun (WU_line w) in
  let w := if bool_decide (WU_plineOp w = Some pwun) then set_op plineRight w else w in
  m ← match plineRight with
      | Some r => nr ← m !! r; Some (set_counter r (wrap 64 (WUN_ulCounter nr + WUN_ulCounter n)) m)
      | None => Some m
      end;
  '(w, m) ← (if bProcTime && is_first pwun (WU_line w) && WU_pfuncWakeup w then
               let e := elapsed now (WU_i64LastTime w) in
               let w := set_last now w in
               match plineRight with
               | Some r => nr ← m !! r; Some (w, set_counter r (drain (WUN_ulCounter nr) e) m)
               | None => Some (w, m)
               end
             else Some (w, m));
  Some (set_line (remove_node pwun (WU_line w)) w, set_inq pwun false m).

(** ** _WakeupStatus *)

(** The [for] loop: the sum of the counters up to the node, if it is met. *)
Fixpoint wakeup_sum (pwun acc : Z) (l : list Z) (m : nodes) : option (option Z) :=
  match l with
  | [] => Some None
  | y :: l' =>
    n ← m !! y;
    let acc := wrap 64 (acc + WUN_ulCounter n) in
    if y =? pwun then Some (Some acc) else wakeup_sum pwun acc l' m
  end.

Definition _WakeupStatus (w : LW_CLASS_WAKEUP) (m : nodes) (pwun now : Z) : option Z :=
  r ← wakeup_sum pwun 0 (WU_line w) m;
  Some match r with
       | Some ulCounter =>
         if negb (WU_i64LastTime w =? 0) then
           let ulDelta := elapsed now (WU_i64LastTime w) in
           if ulDelta <? ulCounter then ulCounter - ulDelta else 0
         else ulCounter
       | None => 0
       end.

(** ** The pass macros *)

(** The body of the pass for an expired node: it takes the node out of the line. *)
Definition handler (A : Type) : Type :=
  LW_CLASS_WAKEUP -> nodes -> A -> Z -> option (LW_CLASS_WAKEUP * nodes * A).

(** [__WAKEUP_PASS_FIRST .. __WAKEUP_PASS_END] from [WU_plineOp] on; [fuel]
    bounds the nodes met.  Result: also the nodes fired, in order. *)
Fixpoint wakeup_pass {A} (fuel : nat) (h : handler A) (w : LW_CLASS_WAKEUP) (m : nodes) (a : A)
    (ulCounter : Z) : option (LW_CLASS_WAKEUP * nodes * A * list Z) :=
  match WU_plineOp w with
  | None => Some (w, m, a, [])
  | Some pwun =>
    match fuel with
    | O => None
    | S fuel =>
      n ← m !! pwun;
      let w := set_op (next_of pwun (WU_line w)) w in
      if ulCounter <? WUN_ulCounter n
      then Some (w, set_counter pwun (WUN_ulCounter n - ulCounter) m, a, [])
      else
        let ulCounter := ulCounter - WUN_ulCounter n in
        '(w, m, a) ← h w (set_counter pwun 0 m) a pwun;
        '(w, m, a, fired) ← wakeup_pass fuel h w m a ulCounter;
        Some (w, m, a, pwun :: fired)
    end
  end.

Definition __WAKEUP_PASS {A} (fuel : nat) (h : handler A) (w : LW_CLASS_WAKEUP) (m : nodes) (a : A)
    (ulCounter : Z) : option (LW_CLASS_WAKEUP * nodes * A * list Z) :=
  wakeup_pass fuel h (set_op (head (WU_line w)) w) m a ulCounter.

(** [_WatchDogTick]: one tick; an expired watchdog leaves the line (its hook
    is called with interrupts enabled, outside the model). *)
Definition watchdog_handler : handler unit := fun w m a pwun =>
  '(w, m) ← _WakeupDel w m pwun false 0; Some (w, m, a).

Definition _WatchDogTick (w : LW_CLASS_WAKEUP) (m : nodes)
    : option (LW_CLASS_WAKEUP * nodes * unit * list Z) :=
  __WAKEUP_PASS (length (WU_line w)) watchdog_handler w m tt 1.

(** ** TimerHTicks.c *)

Record TIMER := mkTimer { TIMER_bAutoRestart : bool; TIMER_ulCounterSave : Z; TIMER_bRunning : bool }.

(** An expired tick timer leaves the line; with automatic restart it
    re-enters it with its saved counter, otherwise it is stopped. *)
Definition htimer_handler : handler (gmap Z TIMER) := fun w m tm pwun =>
  t ← tm !! pwun;
  '(w, m) ← _WakeupDel w m pwun false 0;
  if TIMER_bAutoRestart t then
    '(w, m, _) ← _WakeupAdd w (set_counter pwun (TIMER_ulCounterSave t) m) pwun false 0;
    Some (w, m, tm)
  else Some (w, m, <[pwun := mkTimer (TIMER_bAutoRestart t) (TIMER_ulCounterSave t) false]> tm).

Definition API_TimerHTicks (w : LW_CLASS_WAKEUP) (m : nodes) (tm : gmap Z TIMER)
    : option (LW_CLASS_WAKEUP * nodes * gmap Z TIMER * list Z) :=
  __WAKEUP_PASS (S (length (WU_line w))) htimer_handler w m tm 1.

(** ** The queue of remaining times *)

(** The nodes in order, each with the time it still has to wait. *)
Abbreviation queue := (list (Z * Z)).

Fixpoint deltas (base : Z) (q : queue) (m : nodes) : Prop :=
  match q with
  | [] => True
  | (x, d) :: q' => base <= d /\ m !! x = Some (mkWun true (d - base)) /\ deltas d q' m
  end.

Definition bounded (q : queue) : Prop := forall x d, (x, d) ∈ q -> d <= ULONG_MAX.

(** [l] and [m] represent the queue [q]. *)
Definition line_queue (l : list Z) (m : nodes) (q : queue) : Prop :=
  l = q.*1 /\ NoDup l /\ deltas 0 q m /\ bounded q.

(** Sorted stable insertion, removal and the passage of time. *)
Fixpoint q_insert (x d : Z) (q : queue) : queue :=
  match q with
  | [] => [(x, d)]
  | (y, e) :: q' => if e <=? d then (y, e) :: q_insert x d q' else (x, d) :: q
  end.

Fixpoint q_remove (x : Z) (q : queue) : queue :=
  match q with [] => [] | (y, e) :: q' => if y =? x then q' else (y, e) :: q_remove x q' end.

Definition q_shift (c : Z) (q : queue) : queue := (fun p => (fst p, snd p - c)) <$> q.

(** The expired prefix and the rest. *)
Fixpoint q_expired (c : Z) (q : queue) : list Z :=
  match q with [] => [] | (x, d) :: q' => if d <=? c then x :: q_expired c q' else [] end.
Fixpoint q_rest (c : Z) (q : queue) : queue :=
  match q with [] => [] | (x, d) :: q' => if d <=? c then q_rest c q' else q end.

(** *** Lemmas *)

Lemma lookup_counter x v m y :
  set_counter x v m !! y = if decide (y = x) then (fun n => mkWun (WUN_bInQ n) v) <$> m !! y else m !! y.
Proof. unfold set_counter. destruct (decide (y = x)) as [->|]; [apply lookup_alter_eq|by apply lookup_alter_ne]. Qed.

Lemma lookup_inq x v m y :
  set_inq x v m !! y = if decide (y = x) then (fun n => mkWun v (WUN_ulCounter n)) <$> m !! y else m !! y.
Proof. unfold set_inq. destruct (decide (y = x)) as [->|]; [apply lookup_alter_eq|by apply lookup_alter_ne]. Qed.

Lemma deltas_ext base q m m' :
  (forall x, x ∈ q.*1 -> m' !! x = m !! x) -> deltas base q m -> deltas base q m'.
Proof.
  revert base. induction q as [|[x d] q IH]; intros base Hm; [done|]. simpl. intros (Hb & Hx & Hd).
  splits; [done|rewrite Hm; [done|left]|]. apply IH; [|done]. intros y Hy. apply Hm. by right.
Qed.

Lemma deltas_base base base' q m x d :
  deltas base ((x, d) :: q) m -> base' <= d ->
  forall m', (forall y, y ∈ q.*1 -> m' !! y = m !! y) -> m' !! x = Some (mkWun true (d - base')) ->
  deltas base' ((x, d) :: q) m'.
Proof. intros (_ & _ & Hd) Hb m' Hm Hx. simpl. splits; [done|done|]. by eapply deltas_ext. Qed.

(** Time can be taken off all nodes at once. *)
Lemma deltas_shift base c q m : deltas base q m <-> deltas (base - c) (q_shift c q) m.
Proof.
  revert base. induction q as [|[x d] q IH]; intros base; [done|]. simpl.
  replace (d - c - (base - c)) with (d - base) by lia. rewrite (IH d).
  split; intros (? & ? & ?); splits; try done; lia.
Qed.

Lemma q_shift_fst c q : (q_shift c q).*1 = q.*1.
Proof. unfold q_shift. rewrite <-list_fmap_compose. done. Qed.

Lemma q_insert_perm x d q : q_insert x d q ≡ₚ (x, d) :: q.
Proof.
  induction q as [|[y e] q IH]; [done|]. simpl. destruct (e <=? d); [|done].
  rewrite IH. apply Permutation_swap.
Qed.

Lemma q_insert_fst x d q : (q_insert x d q).*1 ≡ₚ x :: q.*1.
Proof. by rewrite q_insert_perm. Qed.

(** The insertion loop. *)
Lemma wakeup_insert_spec x c base q m :
  deltas base q m -> 0 <= c -> x ∉ q.*1 -> NoDup q.*1 -> is_Some (m !! x) ->
  exists m' c', wakeup_insert x c q.*1 m = Some (m', (q_insert x (base + c) q).*1, c') /\
    deltas base (q_insert x (base + c) q) (set_inq x true (set_counter x c' m')) /\
    (forall y, y ∉ q.*1 -> m' !! y = m !! y).
Proof.
  revert base c. induction q as [|[y e] q IH]; intros base c Hd Hc Hx Hnd [nx Hnx].
  - simpl. exists m, c. splits; [done|lia| |done|done].
    rewrite lookup_inq, decide_True, lookup_counter, decide_True, Hnx by done. simpl. do 2 f_equal. lia.
  - cbn [fmap list_fmap fst wakeup_insert q_insert]. destruct Hd as (Hb & Hy & Hd).
    apply not_elem_of_cons in Hx as [Hxy Hx]. apply NoDup_cons in Hnd as [Hyq Hnd].
    rewrite Hy. cbn [mbind option_bind WUN_ulCounter].
    destruct (Z.leb_spec (e - base) c) as [Hle|Hgt].
    + rewrite (proj2 (Z.leb_le e (base + c))) by lia.
      destruct (IH e (c - (e - base)) Hd) as (m' & c' & -> & Hd' & Hf); [lia|done|done|by eexists|].
      replace (e + (c - (e - base))) with (base + c) in * by lia.
      cbn [mbind option_bind]. exists m', c'. splits; [done| |].
      * simpl. splits; [done| |exact Hd'].
        rewrite lookup_inq, decide_False, lookup_counter, decide_False by done. by rewrite Hf.
      * intros z [Hzy Hz]%not_elem_of_cons. by apply Hf.
    + rewrite (proj2 (Z.leb_gt e (base + c))) by lia. eexists _, c. split; [done|]. split.
      * simpl. splits; [lia| |lia| |].
        -- rewrite lookup_inq, decide_True, lookup_counter, decide_True, lookup_counter, decide_False, Hnx by done.
           simpl. do 2 f_equal. lia.
        -- rewrite lookup_inq, decide_False, lookup_counter, decide_False, lookup_counter, decide_True, Hy by done.
           simpl. do 2 f_equal. lia.
        -- eapply deltas_ext; [|exact Hd]. intros z Hz.
           assert (z <> x) by (intros ->; done). assert (z <> y) by (intros ->; done).
           by rewrite lookup_inq, decide_False, lookup_counter, decide_False, lookup_counter, decide_False.
      * intros z [Hzy _]%not_elem_of_cons. by rewrite lookup_counter, decide_False.
Qed.

(** The queue's times are never below a lower bound of the first. *)
Lemma deltas_lower base q m x d : deltas base q m -> (x, d) ∈ q -> base <= d.
Proof.
  revert base. induction q as [|[y e] q IH]; intros base Hd Hin; [by apply not_elem_of_nil in Hin|].
  destruct Hd as (Hb & _ & Hd). apply elem_of_cons in Hin as [[= -> ->]|Hin]; [done|].
  specialize (IH e Hd Hin). lia.
Qed.

Lemma bounded_cons x d q : bounded ((x, d) :: q) <-> d <= ULONG_MAX /\ bounded q.
Proof.
  unfold bounded. split.
  - intros H. split; [apply (H x d); left|]. intros y e Hy. apply (H y e). by right.
  - intros [Hx Hq] y e [[= -> ->]|Hy]%elem_of_cons; [done|by apply (Hq y)].
Qed.

Lemma q_remove_fst x q : NoDup q.*1 -> (q_remove x q).*1 = remove_node x q.*1.
Proof.
  induction q as [|[y e] q IH]; [done|]. cbn [fmap list_fmap fst q_remove remove_node].
  intros [_ Hnd]%NoDup_cons. destruct (y =? x); [done|]. cbn [fmap list_fmap fst]. by rewrite IH.
Qed.

(** What [_WakeupDel] does to the counters: the right neighbour takes over the
    counter of the removed node. *)
Lemma deltas_remove base q m x n :
  deltas base q m -> bounded q -> NoDup q.*1 -> 0 <= base -> x ∈ q.*1 -> m !! x = Some n ->
  exists m1, (match next_of x q.*1 with
      | Some r => nr ← m !! r; Some (set_counter r (wrap 64 (WUN_ulCounter nr + WUN_ulCounter n)) m)
      | None => Some m
      end) = Some m1 /\ deltas base (q_remove x q) m1 /\ (forall y, y ∉ q.*1 \/ y = x -> m1 !! y = m !! y).
Proof.
  revert base. induction q as [|[y e] q IH]; intros base Hd Hbd Hnd Hb Hx Hn;
    [by apply not_elem_of_nil in Hx|].
  destruct Hd as (Hbe & Hy & Hd). apply bounded_cons in Hbd as [He Hbd].
  apply NoDup_cons in Hnd as [Hyq Hnd]. cbn [fmap list_fmap fst next_of q_remove].
  destruct (Z.eqb_spec y x) as [->|Hne].
  - rewrite Hy in Hn. injection Hn as <-. destruct q as [|[z f] q]; cbn [fmap list_fmap fst head].
    + exists m. by splits.
    + destruct Hd as (Hef & Hz & Hd). apply bounded_cons in Hbd as [Hf Hbd].
      rewrite Hz. cbn [mbind option_bind WUN_ulCounter]. eexists. split; [done|].
      apply not_elem_of_cons in Hyq as [Hxz Hyq]. apply NoDup_cons in Hnd as [Hzq Hnd].
      rewrite wrap64_small by lia. split.
      * simpl. splits; [lia| |].
        -- rewrite lookup_counter, decide_True, Hz by done. simpl. do 2 f_equal. lia.
        -- eapply deltas_ext; [|exact Hd]. intros u Hu. rewrite lookup_counter, decide_False; [done|].
           by intros ->.
      * intros u Hu. rewrite lookup_counter, decide_False; [done|]. intros Eu.
        destruct Hu as [Hu|Hu]; [|by subst]. apply Hu. rewrite Eu. right. left.
  - apply elem_of_cons in Hx as [?|Hx]; [exfalso; by apply Hne|].
    destruct (IH e Hd Hbd Hnd ltac:(lia) Hx Hn) as (m1 & E & Hd1 & Hf). exists m1. split; [exact E|].
    split.
    + simpl. splits; [done| |done]. rewrite Hf; [done|]. by left.
    + intros u [Hu|Hu]; apply Hf; [|by right]. left. intros Hi. apply Hu. by right.
Qed.

(** *** The operations on queues *)

Lemma add_spec w m q x n (b : bool) now :
  line_queue (WU_line w) m q -> (b && WU_pfuncWakeup w = false) -> x ∉ WU_line w ->
  m !! x = Some n -> 0 <= WUN_ulCounter n <= ULONG_MAX ->
  exists m', _WakeupAdd w m x b now
      = Some (set_line (q_insert x (WUN_ulCounter n) q).*1 w, m', false) /\
    line_queue (q_insert x (WUN_ulCounter n) q).*1 m' (q_insert x (WUN_ulCounter n) q) /\
    (forall y, y ∉ x :: WU_line w -> m' !! y = m !! y).
Proof.
  intros (El & Hnd & Hd & Hbd) Hb Hx Hn Hc. unfold _WakeupAdd. rewrite Hb.
  assert (Epre : match WU_line w with [] => Some (w, m) | y :: _ => Some (w, m) end = Some (w, m))
    by (by destruct (WU_line w)).
  rewrite Epre. cbn [mbind option_bind]. rewrite Hn. cbn [mbind option_bind].
  rewrite El in Hx, Hnd. destruct (wakeup_insert_spec x (WUN_ulCounter n) 0 q m Hd) as (m1 & c1 & E & Hd1 & Hf);
    [lia|done|done|by eexists|].
  rewrite El, E. cbn [mbind option_bind andb]. replace (0 + WUN_ulCounter n) with (WUN_ulCounter n) in * by lia.
  eexists. split; [done|]. split.
  - split; [done|]. split; [rewrite q_insert_fst; by constructor|]. split; [done|].
    intros y d. rewrite q_insert_perm, elem_of_cons. intros [[= -> ->]|Hy]; [lia|by apply (Hbd y)].
  - intros y [Hyx Hy]%not_elem_of_cons.
    by rewrite lookup_inq, decide_False, lookup_counter, decide_False, Hf.
Qed.

Lemma bounded_remove x q : bounded q -> bounded (q_remove x q).
Proof.
  intros H y d Hin. apply (H y d). clear H. induction q as [|[z e] q IH]; [done|]. simpl in Hin.
  destruct (z =? x); [by right|]. apply elem_of_cons in Hin as [->|Hin]; [left|right; auto].
Qed.

Lemma del_spec w m q x b now :
  line_queue (WU_line w) m q -> (b && WU_pfuncWakeup w = false) -> x ∈ WU_line w ->
  exists m', _WakeupDel w m x b now
      = Some (set_line (q_remove x q).*1 (if bool_decide (WU_plineOp w = Some x)
                                          then set_op (next_of x (WU_line w)) w else w), m') /\
    line_queue (q_remove x q).*1 m' (q_remove x q) /\
    (forall y, y ∉ WU_line w -> m' !! y = m !! y) /\
    (exists n', m' !! x = Some n' /\ WUN_ulCounter n' = default 0 (WUN_ulCounter <$> m !! x)).
Proof.
  intros (El & Hnd & Hd & Hbd) Hb Hx. unfold _WakeupDel.
  assert (exists n, m !! x = Some n) as [n Hn].
  { rewrite El in Hx. clear -Hd Hx. revert Hd. generalize 0 as base. induction q as [|[y e] q IH]; intros base Hd;
      [by apply not_elem_of_nil in Hx|]. destruct Hd as (_ & Hy & Hd).
    apply elem_of_cons in Hx as [->|Hx]; [eauto|]. by apply (IH Hx e). }
  rewrite Hn. cbn [mbind option_bind]. rewrite El in *.
  destruct (deltas_remove 0 q m x n Hd Hbd Hnd ltac:(lia) Hx Hn) as (m1 & -> & Hd1 & Hf).
  cbn [mbind option_bind].
  set (w1 := if bool_decide (WU_plineOp w = Some x) then set_op (next_of x q.*1) w else w).
  assert (El1 : WU_line w1 = q.*1 /\ WU_pfuncWakeup w1 = WU_pfuncWakeup w).
  { unfold w1. by destruct (bool_decide _). }
  destruct El1 as [El1 Ef1]. rewrite Ef1.
  replace (b && is_first x (WU_line w1) && WU_pfuncWakeup w) with false
    by (destruct b, (is_first x (WU_line w1)); simpl in *; congruence).
  cbn [mbind option_bind]. rewrite El1, <-q_remove_fst by done.
  eexists. split; [done|]. splits.
  - split; [done|]. split; [|split; [|by apply bounded_remove]].
    + rewrite q_remove_fst by done. by apply remove_node_NoDup.
    + eapply deltas_ext; [|exact Hd1]. intros y Hy. rewrite lookup_inq, decide_False; [done|].
      intros ->. rewrite q_remove_fst in Hy by done. apply elem_of_remove_node in Hy; [|done]. by destruct Hy.
  - intros y Hy. rewrite lookup_inq, decide_False; [|by intros ->]. apply Hf. by left.
  - exists (mkWun false (WUN_ulCounter n)). rewrite lookup_inq, decide_True, Hf, Hn by (done || by right).
    done.
Qed.

(** *** A pass that only removes *)

Lemma next_of_head x l : next_of x (x :: l) = head l.
Proof. simpl. by rewrite Z.eqb_refl. Qed.

Lemma bounded_shift c q : 0 <= c -> bounded q -> bounded (q_shift c q).
Proof.
  intros Hc H y e Hin. apply list_elem_of_fmap in Hin as ([z f] & [= -> ->] & Hin).
  specialize (H z f Hin). simpl. lia.
Qed.

(** Consuming [c] of the time of the first node. *)
Lemma line_queue_tick l m x d q c n :
  line_queue l m ((x, d) :: q) -> m !! x = Some n -> 0 <= c <= d ->
  line_queue l (set_counter x (WUN_ulCounter n - c) m) (q_shift c ((x, d) :: q)).
Proof.
  intros (El & Hnd & (Hb & Hx & Hd) & Hbd) Hn Hc. rewrite Hx in Hn. injection Hn as <-.
  split; [by rewrite q_shift_fst|]. split; [done|]. split; [|apply bounded_shift; [lia|done]].
  simpl. splits; [lia| |].
  - rewrite lookup_counter, decide_True, Hx by done. simpl. do 2 f_equal. lia.
  - apply deltas_shift. eapply deltas_ext; [|exact Hd]. intros y Hy.
    rewrite lookup_counter, decide_False; [done|]. intros ->.
    rewrite El in Hnd. by apply NoDup_cons in Hnd as [? _].
Qed.

Lemma q_expired_shift c d q : q_expired (c - d) (q_shift d q) = q_expired c q.
Proof.
  induction q as [|[x e] q IH]; [done|]. simpl. rewrite IH.
  destruct (Z.leb_spec (e - d) (c - d)); destruct (Z.leb_spec e c); try done; lia.
Qed.

Lemma q_rest_shift c d q : q_shift (c - d) (q_rest (c - d) (q_shift d q)) = q_shift c (q_rest c q).
Proof.
  induction q as [|[x e] q IH]; [done|]. cbn [q_shift fmap list_fmap q_rest fst snd].
  destruct (Z.leb_spec (e - d) (c - d)); destruct (Z.leb_spec e c); try lia; [exact IH|].
  cbn [q_shift fmap list_fmap fst snd]. f_equal; [f_equal; lia|].
  unfold q_shift. rewrite <-list_fmap_compose. apply list_fmap_ext. intros i [y f] _. simpl. f_equal. lia.
Qed.

Lemma q_rest_nil_shift c q : q_rest c q = [] -> q_shift c (q_rest c q) = [].
Proof. by intros ->. Qed.

(** *** Nodes are never lost *)

Definition same_dom (m m' : nodes) : Prop := forall x, is_Some (m' !! x) <-> is_Some (m !! x).

Lemma same_dom_trans m1 m2 m3 : same_dom m1 m2 -> same_dom m2 m3 -> same_dom m1 m3.
Proof. intros H1 H2 x. transitivity (is_Some (m2 !! x)); [apply H2|apply H1]. Qed.

Lemma same_dom_counter x v m : same_dom m (set_counter x v m).
Proof. intros y. rewrite lookup_counter. case_decide; [by rewrite fmap_is_Some|done]. Qed.

Lemma same_dom_inq x v m : same_dom m (set_inq x v m).
Proof. intros y. rewrite lookup_inq. case_decide; [by rewrite fmap_is_Some|done]. Qed.

(** *** A pass whose handler only takes the expired node out *)

(** A pass with any such handler fires exactly the expired nodes, in order, and
    keeps any property [P] of the line, the nodes and the handler's state
    that every call of the handler keeps ([l] are the nodes fired so far). *)
Lemma removing_pass {A} (P : list Z -> LW_CLASS_WAKEUP -> nodes -> A -> Prop) (h : handler A) :
  (forall l w m a o, P l w m a -> P l (set_op o w) m a) ->
  (forall l w m m' a, P l w m a -> same_dom m m' -> P l w m' a) ->
  (forall l w m a x w2 m2, P l w m a -> x ∈ WU_line w -> _WakeupDel w m x false 0 = Some (w2, m2) ->
     WU_line w2 = remove_node x (WU_line w) ->
     exists a', h w m a x = Some (w2, m2, a') /\ P (l ++ [x]) w2 m2 a') ->
  forall fuel l w m a q c,
  line_queue (WU_line w) m q -> WU_plineOp w = head (WU_line w) -> (length q <= fuel)%nat -> 0 <= c ->
  P l w m a ->
  exists w' m' a', wakeup_pass fuel h w m a c = Some (w', m', a', q_expired c q) /\
    WU_line w' = (q_rest c q).*1 /\ line_queue (WU_line w') m' (q_shift c (q_rest c q)) /\
    WU_pfuncWakeup w' = WU_pfuncWakeup w /\ (forall y, y ∉ WU_line w -> m' !! y = m !! y) /\
    P (l ++ q_expired c q) w' m' a'.
Proof.
  intros Pop Pdom Ph fuel. induction fuel as [|fuel IH]; intros l w m a q c Hq Hop Hf Hc HP.
  - destruct q; [|simpl in Hf; lia]. pose proof Hq as (El & _). rewrite El in Hop. simpl in Hop.
    simpl. rewrite Hop, app_nil_r. exists w, m, a. by splits.
  - pose proof Hq as (El & Hnd & Hd & Hbd). destruct q as [|[x d] q].
    { rewrite El in Hop. simpl in Hop. simpl. rewrite Hop, app_nil_r. exists w, m, a. by splits. }
    rewrite El in Hop. cbn [fmap list_fmap fst head] in Hop. cbn [wakeup_pass]. rewrite Hop.
    pose proof Hd as (Hb & Hx & Hd'). rewrite Hx. cbn [mbind option_bind WUN_ulCounter].
    replace (d - 0) with d by lia. assert (En : next_of x (WU_line w) = head q.*1) by (rewrite El; apply next_of_head). rewrite !En.
    set (w1 := set_op (head q.*1) w). destruct (Z.ltb_spec c d) as [Hlt|Hge].
    + exists w1. eexists _, a. split; [simpl; by rewrite (proj2 (Z.leb_gt d c))|].
      simpl q_rest. simpl q_expired. rewrite (proj2 (Z.leb_gt d c)) by lia. change (WU_line w1) with (WU_line w).
      split; [done|]. split; [|split; [done|split]].
      * replace (d - c) with (WUN_ulCounter (mkWun true (d - 0)) - c) by (simpl; lia).
        apply (line_queue_tick _ m x d q c _ Hq Hx). lia.
      * intros y Hy. rewrite lookup_counter, decide_False; [done|]. intros ->. apply Hy. rewrite El. left.
      * rewrite app_nil_r. eapply Pdom; [by apply Pop|apply same_dom_counter].
    + assert (Hq1 : line_queue (WU_line w1) (set_counter x 0 m) (q_shift d ((x, d) :: q))).
      { change (WU_line w1) with (WU_line w).
        replace 0 with (WUN_ulCounter (mkWun true (d - 0)) - d) at 1 by (simpl; lia).
        apply (line_queue_tick _ m x d q d _ Hq Hx). lia. }
      assert (Hxl : x ∈ WU_line w1) by (change (WU_line w1) with (WU_line w); rewrite El; left).
      destruct (del_spec w1 (set_counter x 0 m) _ x false 0 Hq1 eq_refl Hxl) as (m2 & E2 & Hq2 & Hf2 & _).
      assert (Erem : q_remove x (q_shift d ((x, d) :: q)) = q_shift d q) by (simpl; by rewrite Z.eqb_refl).
      rewrite Erem in *. set (w2 := set_line _ _) in *.
      assert (Hnx : bool_decide (WU_plineOp w1 = Some x) = false).
      { apply bool_decide_eq_false. simpl. rewrite El in Hnd. apply NoDup_cons in Hnd as [Hn _].
        destruct q as [|[z f] q]; [done|]. simpl. intros [= ->]. apply Hn. left. }
      assert (Ew2 : WU_line w2 = q.*1 /\ WU_plineOp w2 = head q.*1 /\ WU_pfuncWakeup w2 = WU_pfuncWakeup w).
      { unfold w2. rewrite Hnx, q_shift_fst. done. }
      destruct Ew2 as (El2 & Eo2 & Ef2).
      destruct (Ph l w1 (set_counter x 0 m) a x w2 m2) as (a2 & Eh & HP2); [|done..| |].
      { eapply Pdom; [by apply Pop|apply same_dom_counter]. }
      { rewrite El2. change (WU_line w1) with (WU_line w). rewrite El. cbn [fmap list_fmap fst remove_node].
        by rewrite Z.eqb_refl. }
      rewrite Eh. cbn [mbind option_bind].
      destruct (IH (l ++ [x]) w2 m2 a2 (q_shift d q) (c - d)) as (w' & m' & a' & E & El' & Hq' & Hf' & Hfr & HP').
      { rewrite El2. by rewrite q_shift_fst in Hq2. }
      { by rewrite Eo2, El2. }
      { unfold q_shift. rewrite length_fmap. simpl in Hf. lia. }
      { lia. }
      { done. }
      rewrite E. cbn [mbind option_bind]. exists w', m', a'.
      rewrite q_expired_shift in *. rewrite q_rest_shift in Hq'.
      simpl q_expired. simpl q_rest. rewrite (proj2 (Z.leb_le d c)) by lia. splits; try done.
      * transitivity (q_shift (c - d) (q_rest (c - d) (q_shift d q))).*1; [by rewrite q_shift_fst|].
        by rewrite q_rest_shift, q_shift_fst.
      * congruence.
      * intros y Hy. rewrite Hfr.
        -- rewrite Hf2 by done. rewrite lookup_counter, decide_False; [done|]. intros ->. apply Hy. rewrite El. left.
        -- rewrite El2. intros Hi. apply Hy. rewrite El. by right.
      * by rewrite <-app_assoc in HP'.
Qed.

Lemma watchdog_pass fuel w m q c :
  line_queue (WU_line w) m q -> WU_plineOp w = head (WU_line w) -> (length q <= fuel)%nat -> 0 <= c ->
  exists w' m', wakeup_pass fuel watchdog_handler w m tt c = Some (w', m', tt, q_expired c q) /\
    WU_line w' = (q_rest c q).*1 /\ line_queue (WU_line w') m' (q_shift c (q_rest c q)) /\
    WU_pfuncWakeup w' = WU_pfuncWakeup w /\ (forall y, y ∉ WU_line w -> m' !! y = m !! y).
Proof.
  intros Hq Hop Hf Hc.
  destruct (removing_pass (fun _ _ _ (_ : unit) => True) watchdog_handler) with (fuel := fuel) (l := @nil Z)
    (w := w) (m := m) (a := tt) (q := q) (c := c) as (w' & m' & [] & E & H1 & H2 & H3 & H4 & _); try done.
  - intros _ w0 m0 [] x w2 m2 _ _ E _. exists tt. unfold watchdog_handler. by rewrite E.
  - by exists w', m'.
Qed.

Lemma insert_dom x c l m m' l' c' : wakeup_insert x c l m = Some (m', l', c') -> same_dom m m'.
Proof.
  revert c l' c'. induction l as [|y l IH]; intros c l' c'; cbn [wakeup_insert].
  - by intros [= <- _ _].
  - destruct (m !! y) as [n|]; [|done]. cbn [mbind option_bind]. destruct (WUN_ulCounter n <=? c).
    + destruct (wakeup_insert x _ l m) as [[[m1 l1] c1]|] eqn:E; [|done]. cbn [mbind option_bind].
      intros [= <- _ _]. by eapply IH.
    + intros [= <- _ _]. apply same_dom_counter.
Qed.

Lemma add_dom w m x b now w' m' r : _WakeupAdd w m x b now = Some (w', m', r) -> same_dom m m'.
Proof.
  unfold _WakeupAdd. intros H.
  match type of H with mbind _ ?e = _ => destruct e as [[w1 m1]|] eqn:E1; [|done] end.
  assert (D1 : same_dom m m1).
  { destruct (WU_line w) as [|y l]; [by injection E1 as _ <-|]. destruct (b && WU_pfuncWakeup w); [|by injection E1 as _ <-].
    destruct (m !! y); [|done]. injection E1 as _ <-. apply same_dom_counter. }
  cbn [mbind option_bind] in H. destruct (m1 !! x) as [n|]; [|done]. cbn [mbind option_bind] in H.
  destruct (wakeup_insert x _ _ m1) as [[[m2 l2] c2]|] eqn:E2; [|done]. cbn [mbind option_bind] in H.
  injection H as _ <- _. eapply same_dom_trans; [done|]. eapply same_dom_trans; [by eapply insert_dom|].
  eapply same_dom_trans; [apply same_dom_counter|apply same_dom_inq].
Qed.

Lemma del_dom w m x b now w' m' : _WakeupDel w m x b now = Some (w', m') -> same_dom m m'.
Proof.
  unfold _WakeupDel. intros H. destruct (m !! x) as [n|]; [|done]. cbn [mbind option_bind] in H.
  match type of H with mbind _ ?e = _ => destruct e as [m1|] eqn:E1; [|done] end.
  assert (D1 : same_dom m m1).
  { destruct (next_of x _) as [r|]; [|by injection E1 as <-]. destruct (m !! r); [|done].
    injection E1 as <-. apply same_dom_counter. }
  cbn [mbind option_bind] in H.
  match type of H with mbind _ ?e = _ => destruct e as [[w2 m2]|] eqn:E2; [|done] end.
  assert (D2 : same_dom m1 m2).
  { destruct (_ && _ && _); [|by injection E2 as _ <-]. destruct (next_of x _) as [r|]; [|by injection E2 as _ <-].
    destruct (m1 !! r); [|done]. injection E2 as _ <-. apply same_dom_counter. }
  cbn [mbind option_bind] in H. injection H as _ <-. eapply same_dom_trans; [done|].
  eapply same_dom_trans; [done|apply same_dom_inq].
Qed.

Lemma pass_dom {A} fuel (h : handler A) w m a c w' m' a' f :
  (forall w m a x w' m' a', h w m a x = Some (w', m', a') -> same_dom m m') ->
  wakeup_pass fuel h w m a c = Some (w', m', a', f) -> same_dom m m'.
Proof.
  intros Hh. revert w m a c f. induction fuel as [|fuel IH]; intros w m a c f; cbn [wakeup_pass].
  - destruct (WU_plineOp w); [done|]. by intros [= _ <- _ _].
  - destruct (WU_plineOp w) as [x|]; [|by intros [= _ <- _ _]].
    destruct (m !! x) as [n|]; [|done]. cbn [mbind option_bind]. destruct (c <? WUN_ulCounter n).
    + intros [= _ <- _ _]. apply same_dom_counter.
    + destruct (h _ _ a x) as [[[w1 m1] a1]|] eqn:E1; [|done]. cbn [mbind option_bind].
      destruct (wakeup_pass fuel h w1 m1 a1 _) as [[[[w2 m2] a2] f2]|] eqn:E2; [|done].
      cbn [mbind option_bind]. intros [= <- <- <- _]. eapply same_dom_trans; [apply (same_dom_counter x 0)|].
      eapply same_dom_trans; [by eapply Hh|by eapply IH].
Qed.

Lemma watchdog_dom w m a x w' m' a' : watchdog_handler w m a x = Some (w', m', a') -> same_dom m m'.
Proof.
  unfold watchdog_handler. destruct (_WakeupDel w m x false 0) as [[w1 m1]|] eqn:E; [|done].
  cbn [mbind option_bind]. intros [= _ <- _]. by eapply del_dom.
Qed.

(** ** Sequences of operations *)

(** Arming a node with a time, disarming it, and the passage of [c] ticks. *)
Inductive wop := WAdd (x c : Z) | WDel (x : Z) | WPass (c : Z).

(** The state is the line and its nodes; an operation returns the nodes fired. *)
Definition wexec (s : LW_CLASS_WAKEUP * nodes) (o : wop)
    : option (LW_CLASS_WAKEUP * nodes * list Z) :=
  let '(w, m) := s in
  match o with
  | WAdd x c => '(w, m, _) ← _WakeupAdd w (set_counter x c m) x false 0; Some (w, m, [])
  | WDel x => '(w, m) ← _WakeupDel w m x false 0; Some (w, m, [])
  | WPass c => '(w, m, _, f) ← __WAKEUP_PASS (length (WU_line w)) watchdog_handler w m tt c; Some (w, m, f)
  end.

Fixpoint wrun (s : LW_CLASS_WAKEUP * nodes) (os : list wop)
    : option (LW_CLASS_WAKEUP * nodes * list (list Z)) :=
  match os with
  | [] => Some (s, [])
  | o :: os => '(s, f) ← wexec s o; '(s, fs) ← wrun s os; Some (s, f :: fs)
  end.

Definition wspec (q : queue) (o : wop) : queue * list Z :=
  match o with
  | WAdd x c => (q_insert x c q, [])
  | WDel x => (q_remove x q, [])
  | WPass c => (q_shift c (q_rest c q), q_expired c q)
  end.

Fixpoint wspecs (q : queue) (os : list wop) : queue * list (list Z) :=
  match os with
  | [] => (q, [])
  | o :: os => let '(q, f) := wspec q o in let '(q, fs) := wspecs q os in (q, f :: fs)
  end.

(** [N] are the existing nodes; a node is armed once. *)
Definition wok (N : list Z) (q : queue) (o : wop) : Prop :=
  match o with
  | WAdd x c => x ∈ N /\ x ∉ q.*1 /\ 0 <= c <= ULONG_MAX
  | WDel x => x ∈ q.*1
  | WPass c => 0 <= c
  end.

Fixpoint woks (N : list Z) (q : queue) (os : list wop) : Prop :=
  match os with [] => True | o :: os => wok N q o /\ woks N (fst (wspec q o)) os end.

Lemma wexec_refines N w m q o :
  line_queue (WU_line w) m q -> (forall x, x ∈ N -> is_Some (m !! x)) -> wok N q o ->
  exists w' m', wexec (w, m) o = Some (w', m', snd (wspec q o)) /\
    line_queue (WU_line w') m' (fst (wspec q o)) /\ (forall x, x ∈ N -> is_Some (m' !! x)).
Proof.
  intros Hq HN Hok. pose proof Hq as (El & Hnd & Hd & Hbd).
  destruct o as [x c|x|c]; cbn [wok wspec wexec fst snd] in *.
  - destruct Hok as (Hx & Hxq & Hc). destruct (HN x Hx) as [n Hn].
    assert (Hq1 : line_queue (WU_line w) (set_counter x c m) q).
    { split; [done|]. split; [done|]. split; [|done]. eapply deltas_ext; [|done]. intros y Hy.
      rewrite lookup_counter, decide_False; [done|]. by intros ->. }
    assert (Hn1 : set_counter x c m !! x = Some (mkWun (WUN_bInQ n) c))
      by (by rewrite lookup_counter, decide_True, Hn).
    destruct (add_spec w (set_counter x c m) q x (mkWun (WUN_bInQ n) c) false 0 Hq1 eq_refl) as (m' & E & Hq' & _);
      [by rewrite El|done|done|]. cbn [WUN_ulCounter] in *.
    rewrite E. cbn [mbind option_bind]. eexists _, m'. split; [done|]. split; [done|].
    intros y Hy. apply (add_dom _ _ _ _ _ _ _ _ E), same_dom_counter. auto.
  - destruct (del_spec w m q x false 0 Hq eq_refl) as (m' & E & Hq' & _); [by rewrite El|].
    rewrite E. cbn [mbind option_bind]. eexists _, m'. split; [done|]. split; [done|].
    intros y Hy. apply (del_dom _ _ _ _ _ _ _ E). auto.
  - unfold __WAKEUP_PASS.
    destruct (watchdog_pass (length (WU_line w)) (set_op (head (WU_line w)) w) m q c)
      as (w' & m' & E & El' & Hq' & _); [done|done|by rewrite El, length_fmap|done|].
    rewrite E. cbn [mbind option_bind]. exists w', m'. split; [done|]. split; [done|].
    intros y Hy. apply (pass_dom _ _ _ _ _ _ _ _ _ _ watchdog_dom E). auto.
Qed.

(** C29: a wake-up line is a queue of remaining times. Under any sequence of
    arming, disarming and elapsing time, the difference-coded list
    represents the sorted queue in which arming inserts after the entries that are not later,
    disarming leaves every other remaining time unchanged, and a pass of
    [c] ticks fires exactly the entries with at most [c] ticks left, in order, and takes [c]
    from the others. *)
Theorem wakeup_line_refines N w m q os :
  line_queue (WU_line w) m q -> (forall x, x ∈ N -> is_Some (m !! x)) -> woks N q os ->
  exists w' m', wrun (w, m) os = Some (w', m', snd (wspecs q os)) /\
    line_queue (WU_line w') m' (fst (wspecs q os)).
Proof.
  revert w m q. induction os as [|o os IH]; intros w m q Hq HN Hok; cbn [wrun wspecs woks] in *.
  - by exists w, m.
  - destruct Hok as [Ho Hos]. destruct (wexec_refines N w m q o Hq HN Ho) as (w1 & m1 & E & Hq1 & HN1).
    rewrite E. cbn [mbind option_bind]. destruct (IH w1 m1 _ Hq1 HN1 Hos) as (w2 & m2 & -> & Hq2).
    cbn [mbind option_bind]. destruct (wspec q o) as [q1 f1]. cbn [fst snd] in *.
    destruct (wspecs q1 os) as [q2 f2]. by exists w2, m2.
Qed.

Definition empty_line : LW_CLASS_WAKEUP := mkWu [] None 0 false.
Definition three_nodes : nodes :=
  <[1 := mkWun false 0]> (<[2 := mkWun false 0]> (<[3 := mkWun false 0]> ∅)).

Lemma empty_queue m : line_queue [] m [].
Proof. split; [done|]. split; [constructor|]. split; [done|]. by intros x d ?%not_elem_of_nil. Qed.

Lemma wakeup_line_refines_witness :
  exists w' m', wrun (empty_line, three_nodes) [WAdd 1 5; WAdd 2 3; WAdd 3 5; WPass 4; WDel 1; WPass 1]
      = Some (w', m', [[]; []; []; [2]; []; [3]]) /\ line_queue (WU_line w') m' [].
Proof.
  apply (wakeup_line_refines [1; 2; 3] empty_line three_nodes []
    [WAdd 1 5; WAdd 2 3; WAdd 3 5; WPass 4; WDel 1; WPass 1]).
  - apply empty_queue.
  - intros x Hx. repeat (apply elem_of_cons in Hx as [->|Hx]; [by eexists|]). by apply not_elem_of_nil in Hx.
  - unfold ULONG_MAX. cbn. splits; try decide_now; lia.
Defined.

(** *** Queries *)

Lemma wakeup_sum_in base q m x d :
  deltas base q m -> bounded q -> 0 <= base -> NoDup q.*1 -> (x, d) ∈ q ->
  wakeup_sum x base q.*1 m = Some (Some d).
Proof.
  revert base. induction q as [|[y e] q IH]; intros base Hd Hbd Hb Hnd Hin; [by apply not_elem_of_nil in Hin|].
  destruct Hd as (Hbe & Hy & Hd). apply bounded_cons in Hbd as [He Hbd]. apply NoDup_cons in Hnd as [Hyq Hnd].
  cbn [fmap list_fmap fst wakeup_sum]. rewrite Hy. cbn [mbind option_bind WUN_ulCounter].
  rewrite wrap64_small by lia. replace (base + (e - base)) with e by lia.
  apply elem_of_cons in Hin as [[= -> ->]|Hin]; [by rewrite Z.eqb_refl|].
  destruct (Z.eqb_spec y x) as [->|_].
  - exfalso. apply Hyq. by apply (list_elem_of_fmap_2 fst) in Hin.
  - apply IH; try done. lia.
Qed.

Lemma wakeup_sum_out acc base q m x : deltas base q m -> x ∉ q.*1 -> wakeup_sum x acc q.*1 m = Some None.
Proof.
  revert acc base. induction q as [|[y e] q IH]; intros acc base Hd Hx; [done|].
  destruct Hd as (_ & Hy & Hd). apply not_elem_of_cons in Hx as [Hxy Hx].
  cbn [fmap list_fmap fst wakeup_sum]. rewrite Hy. cbn [mbind option_bind].
  destruct (Z.eqb_spec y x) as [E|_]; [by destruct Hxy|]. by apply (IH _ e).
Qed.

(** [_WakeupStatus] reports the remaining time of an armed node (less the
    time since the last update, never below zero, on a line that keeps
    absolute time) and zero for a node that is not armed. *)
Theorem _WakeupStatus_remaining w m q x now :
  line_queue (WU_line w) m q ->
  _WakeupStatus w m x now = Some
    match list_find (fun p => fst p = x) q with
    | Some (_, (_, d)) => if WU_i64LastTime w =? 0 then d else Z.max 0 (d - elapsed now (WU_i64LastTime w))
    | None => 0
    end.
Proof.
  intros (El & Hnd & Hd & Hbd). unfold _WakeupStatus. rewrite El in *.
  destruct (list_find (fun p => fst p = x) q) as [[i [y d]]|] eqn:E.
  - apply list_find_Some in E as (Hi & Hx & _). simpl in Hx. subst y.
    apply list_elem_of_lookup_2 in Hi. rewrite (wakeup_sum_in 0 q m x d); try done.
    cbn [mbind option_bind]. destruct (WU_i64LastTime w =? 0); cbn [negb]; [done|].
    f_equal. destruct (Z.ltb_spec (elapsed now (WU_i64LastTime w)) d); lia.
  - apply list_find_None in E. rewrite (wakeup_sum_out 0 0 q m x Hd); [done|].
    intros Hin. apply list_elem_of_fmap in Hin as ([y d] & -> & Hin).
    rewrite Forall_forall in E. by apply (E (y, d)).
Qed.

(** A line that keeps absolute time, with two armed nodes. *)
Definition demo_line : LW_CLASS_WAKEUP := mkWu [1; 2] None 10 true.
Definition demo_nodes : nodes :=
  <[1 := mkWun true 3]> (<[2 := mkWun true 2]> (<[3 := mkWun false 4]> ∅)).

Lemma demo_line_queue : line_queue (WU_line demo_line) demo_nodes [(1, 3); (2, 5)].
Proof.
  split; [done|]. split; [apply (bool_decide_unpack _); by vm_compute|].
  split; [simpl; splits; done|].
  intros x d Hin. repeat (apply elem_of_cons in Hin as [[= -> ->]|Hin]; [done|]).
  by apply not_elem_of_nil in Hin.
Qed.

Lemma _WakeupStatus_remaining_witness :
  line_queue (WU_line demo_line) demo_nodes [(1, 3); (2, 5)] /\
  _WakeupStatus demo_line demo_nodes 2 12 = Some 3.
Proof.
  split; [apply demo_line_queue|].
  exact (_WakeupStatus_remaining demo_line demo_nodes _ 2 12 demo_line_queue).
Defined.

(** *** Lines that keep absolute time *)

(** Arming a node on a line with a wake-up function first takes the time
    since the last update off the queue, but at most the remaining time of its first
    entry, and restarts the clock: when the first entry is overdue, the overdue
    time is not taken off the later entries. *)
Theorem _WakeupAdd_proc_time w m y e q x n now :
  line_queue (WU_line w) m ((y, e) :: q) -> WU_pfuncWakeup w = true -> x ∉ WU_line w ->
  m !! x = Some n -> 0 <= WUN_ulCounter n <= ULONG_MAX ->
  let late := Z.min e (elapsed now (WU_i64LastTime w)) in
  exists m', _WakeupAdd w m x true now
      = Some (set_last now (set_line (q_insert x (WUN_ulCounter n) (q_shift late ((y, e) :: q))).*1 w), m', true) /\
    line_queue (q_insert x (WUN_ulCounter n) (q_shift late ((y, e) :: q))).*1 m'
      (q_insert x (WUN_ulCounter n) (q_shift late ((y, e) :: q))).
Proof.
  intros Hq Hp Hx Hn Hc late. pose proof Hq as (El & Hnd & (Hb & Hy & _) & _).
  assert (Hel : 0 <= elapsed now (WU_i64LastTime w)) by (apply wrap_range; lia).
  assert (Hyx : y <> x) by (intros ->; apply Hx; rewrite El; left).
  assert (Hq1 : line_queue (WU_line w) (set_counter y (e - 0 - late) m) (q_shift late ((y, e) :: q))).
  { apply (line_queue_tick _ m y e q late _ Hq Hy). unfold late. lia. }
  set (w1 := set_last now w). set (m1 := set_counter y (e - 0 - late) m) in *.
  assert (Hn1 : m1 !! x = Some n) by (unfold m1; by rewrite lookup_counter, decide_False).
  destruct (add_spec w1 m1 _ x n false now Hq1 eq_refl Hx Hn1 Hc) as (m' & E & Hq' & _).
  exists m'. split; [|done]. clear Hq'. revert E.
  generalize (q_insert x (WUN_ulCounter n) (q_shift late ((y, e) :: q))). intros Q.
  unfold _WakeupAdd. change (WU_line w1) with (WU_line w).
  rewrite El. cbn [fmap list_fmap fst]. rewrite Hp. cbn [andb]. rewrite Hy. cbn [mbind option_bind WUN_ulCounter].
  replace (drain (e - 0) (elapsed now (WU_i64LastTime w))) with (e - 0 - late)
    by (unfold drain, late; destruct (Z.ltb_spec (elapsed now (WU_i64LastTime w)) (e - 0)); lia).
  fold m1 w1. rewrite Hn1. cbn [mbind option_bind]. change (WU_line w1) with (WU_line w). rewrite El.
  cbn [fmap list_fmap fst]. 
  destruct (wakeup_insert x (WUN_ulCounter n) (y :: q.*1) m1) as [[[m2 l2] c2]|]; [|done].
  cbn [mbind option_bind andb]. intros [= -> <-]. done.
Qed.

(** Node 1 is overdue by 7: node 2 should have 0 left after 10 time units and
    keeps 2. *)
Lemma _WakeupAdd_proc_time_witness :
  line_queue (WU_line demo_line) demo_nodes [(1, 3); (2, 5)] /\
  exists m', _WakeupAdd demo_line demo_nodes 3 true 20
      = Some (set_last 20 (set_line [1; 2; 3] demo_line), m', true) /\
    line_queue [1; 2; 3] m' [(1, 0); (2, 2); (3, 4)].
Proof.
  split; [apply demo_line_queue|].
  apply (_WakeupAdd_proc_time demo_line demo_nodes 1 3 [(2, 5)] 3 (mkWun false 4) 20 demo_line_queue eq_refl).
  - decide_now.
  - reflexivity.
  - unfold ULONG_MAX. simpl. lia.
Defined.

(** ** The tick timers *)

(** A timer that stops. *)
Definition stopped (t : TIMER) : TIMER := mkTimer (TIMER_bAutoRestart t) (TIMER_ulCounterSave t) false.

(** The effect of firing timer [x] on the queue and on the timers. *)
Definition fire_queue (tm : gmap Z TIMER) (q : queue) (x : Z) : queue :=
  match tm !! x with
  | Some t => if TIMER_bAutoRestart t then q_insert x (TIMER_ulCounterSave t) q else q
  | None => q
  end.
Definition fire_timer (tm : gmap Z TIMER) (x : Z) : gmap Z TIMER :=
  match tm !! x with
  | Some t => if TIMER_bAutoRestart t then tm else <[x := stopped t]> tm
  | None => tm
  end.

Definition timer_ok (tm : gmap Z TIMER) (x : Z) : Prop :=
  exists t, tm !! x = Some t /\ 1 <= TIMER_ulCounterSave t <= ULONG_MAX.

Definition zeros (zs : list Z) : queue := (fun z => (z, 0)) <$> zs.
Definition positive (q : queue) : Prop := forall x d, (x, d) ∈ q -> 1 <= d.

Lemma zeros_insert zs rest x p : 0 <= p -> q_insert x p (zeros zs ++ rest) = zeros zs ++ q_insert x p rest.
Proof.
  intros Hp. induction zs as [|z zs IH]; [done|]. cbn [zeros fmap list_fmap app q_insert].
  rewrite (proj2 (Z.leb_le 0 p)) by done. f_equal. exact IH.
Qed.

(** The pass would stop at [o]. *)
Definition stops_at (o : option Z) (m : nodes) : Prop :=
  match o with None => True | Some y => exists n, m !! y = Some n /\ 0 < WUN_ulCounter n end.

Lemma stops_insert x p rest m :
  deltas 0 (q_insert x p rest) m -> positive rest -> stops_at (head rest.*1) m.
Proof.
  destruct rest as [|[y d] rest]; [done|]. intros Hd Hp. specialize (Hp y d ltac:(left)).
  cbn [fmap list_fmap fst head stops_at]. simpl in Hd. destruct (Z.leb_spec d p).
  - destruct Hd as (_ & Hy & _). eexists. split; [exact Hy|]. simpl. lia.
  - destruct Hd as (_ & _ & _ & Hy & _). eexists. split; [exact Hy|]. simpl. lia.
Qed.

Lemma stops_head rest m : deltas 0 rest m -> positive rest -> stops_at (head rest.*1) m.
Proof.
  destruct rest as [|[y d] rest]; [done|]. intros (_ & Hy & _) Hp. specialize (Hp y d ltac:(left)).
  eexists. split; [exact Hy|]. simpl. lia.
Qed.

Lemma htimer_handler_spec w m tm z zs rest :
  line_queue (WU_line w) m (zeros (z :: zs) ++ rest) -> positive rest ->
  WU_plineOp w = head (zeros zs ++ rest).*1 -> timer_ok tm z ->
  exists w' m', htimer_handler w m tm z = Some (w', m', fire_timer tm z) /\
    line_queue (WU_line w') m' (zeros zs ++ fire_queue tm rest z) /\ WU_plineOp w' = WU_plineOp w /\
    (zs = [] -> stops_at (WU_plineOp w') m').
Proof.
  intros Hq Hp Hop (t & Ht & HP). pose proof Hq as (El & Hnd & _).
  cbn [zeros fmap list_fmap fst app] in El, Hq. fold (zeros zs) in El, Hq.
  rewrite El in Hnd. apply NoDup_cons in Hnd as [Hz Hnd].
  assert (Hzl : z ∈ WU_line w) by (rewrite El; left).
  destruct (del_spec w m _ z false 0 Hq eq_refl Hzl) as (m1 & E1 & Hq1 & _ & (n1 & Hn1 & _)).
  assert (Er : q_remove z ((z, 0) :: zeros zs ++ rest) = zeros zs ++ rest) by (simpl; by rewrite Z.eqb_refl).
  rewrite Er in *.
  assert (Hno : bool_decide (WU_plineOp w = Some z) = false).
  { apply bool_decide_eq_false. rewrite Hop. intros E. apply Hz.
    destruct (zeros zs ++ rest).*1; [done|]. injection E as ->. left. }
  rewrite Hno in E1. unfold htimer_handler, fire_queue, fire_timer. rewrite Ht. cbn [mbind option_bind].
  rewrite E1. cbn [mbind option_bind]. set (w1 := set_line (zeros zs ++ rest).*1 w) in *.
  unfold stopped. destruct (TIMER_bAutoRestart t).
  - set (m2 := set_counter z (TIMER_ulCounterSave t) m1).
    assert (Hq2 : line_queue (WU_line w1) m2 (zeros zs ++ rest)).
    { destruct Hq1 as (_ & Hn & Hd & Hb). split; [done|]. split; [done|]. split; [|done].
      eapply deltas_ext; [|exact Hd]. intros y Hy. unfold m2. rewrite lookup_counter, decide_False; [done|].
      by intros ->. }
    assert (Hn2 : m2 !! z = Some (mkWun (WUN_bInQ n1) (TIMER_ulCounterSave t)))
      by (unfold m2; by rewrite lookup_counter, decide_True, Hn1).
    destruct (add_spec w1 m2 _ z _ false 0 Hq2 eq_refl Hz Hn2) as (m' & E & Hq' & _); [simpl; lia|].
    cbn [WUN_ulCounter] in *. rewrite E. cbn [mbind option_bind]. rewrite zeros_insert in * by lia.
    eexists _, m'. splits; [done|exact Hq'|done|]. intros ->. change (stops_at (WU_plineOp w) m').
    rewrite Hop. destruct Hq' as (_ & _ & Hd' & _). exact (stops_insert _ _ _ _ Hd' Hp).
  - eexists _, m1. splits; [done|exact Hq1|done|]. intros ->. change (stops_at (WU_plineOp w) m1).
    rewrite Hop. destruct Hq1 as (_ & _ & Hd' & _). exact (stops_head _ _ Hd' Hp).
Qed.

Lemma fire_positive tm rest z : timer_ok tm z -> positive rest -> positive (fire_queue tm rest z).
Proof.
  intros (t & Ht & HP) Hp x d. unfold fire_queue. rewrite Ht. destruct (TIMER_bAutoRestart t); [|apply Hp].
  rewrite q_insert_perm, elem_of_cons. intros [[= -> ->]|Hin]; [lia|by apply (Hp x)].
Qed.

Lemma timer_ok_fire tm z x : timer_ok tm x -> timer_ok (fire_timer tm z) x.
Proof.
  intros (t & Ht & HP). unfold timer_ok, fire_timer. destruct (tm !! z) as [tz|] eqn:Ez; [|eauto].
  destruct (TIMER_bAutoRestart tz); [eauto|]. destruct (decide (x = z)) as [->|Hne].
  - rewrite lookup_insert_eq. rewrite Ez in Ht. injection Ht as ->. by eexists.
  - rewrite lookup_insert_ne by done. eauto.
Qed.

(** Firing another timer does not change what firing [x] does. *)
Lemma fire_queue_other tm z x q : fire_queue (fire_timer tm z) q x = fire_queue tm q x.
Proof.
  unfold fire_queue, fire_timer. destruct (tm !! z) as [tz|] eqn:Ez; [|done].
  destruct (TIMER_bAutoRestart tz) eqn:Ea; [done|]. destruct (decide (x = z)) as [->|Hne].
  - rewrite lookup_insert_eq, Ez. simpl. by rewrite Ea.
  - by rewrite lookup_insert_ne.
Qed.

Lemma htimer_rest fuel w m tm zs rest :
  line_queue (WU_line w) m (zeros zs ++ rest) -> positive rest -> (length zs < fuel)%nat ->
  (match zs with z :: _ => WU_plineOp w = Some z | [] => stops_at (WU_plineOp w) m end) ->
  (forall z, z ∈ zs -> timer_ok tm z) ->
  exists w' m', wakeup_pass fuel htimer_handler w m tm 0
      = Some (w', m', fold_left fire_timer zs tm, zs) /\
    line_queue (WU_line w') m' (fold_left (fire_queue tm) zs rest).
Proof.
  revert fuel w m tm rest. induction zs as [|z zs IH]; intros fuel w m tm rest Hq Hp Hf Hop Hok.
  - destruct fuel as [|fuel]; [simpl in Hf; lia|]. cbn [wakeup_pass].
    destruct (WU_plineOp w) as [y|]; [|by exists w, m].
    destruct Hop as (n & Hn & Hpos). rewrite Hn. cbn [mbind option_bind].
    rewrite (proj2 (Z.ltb_lt _ _)) by done. eexists _, _. split; [done|]. simpl.
    destruct Hq as (El & Hnd & Hd & Hb). split; [done|]. split; [done|]. split; [|done].
    eapply deltas_ext; [|exact Hd]. intros x _. rewrite lookup_counter. case_decide as E; [|done].
    rewrite E, Hn. simpl. destruct n. simpl. do 2 f_equal. lia.
  - destruct fuel as [|fuel]; [simpl in Hf; lia|]. cbn [wakeup_pass]. rewrite Hop.
    pose proof Hq as (El & Hnd & Hd & Hb). destruct Hd as (_ & Hz & _). rewrite Hz.
    cbn [mbind option_bind WUN_ulCounter]. change (0 <? 0 - 0) with false. cbn [Z.sub].
    set (w1 := set_op (next_of z (WU_line w)) w). set (m1 := set_counter z 0 m).
    assert (Hq1 : line_queue (WU_line w1) m1 (zeros (z :: zs) ++ rest)).
    { destruct Hq as (_ & _ & Hd & _). split; [done|]. split; [done|]. split; [|done].
      eapply deltas_ext; [|exact Hd]. intros x _. unfold m1. rewrite lookup_counter.
      case_decide as E; [|done]. by rewrite E, Hz. }
    assert (Hop1 : WU_plineOp w1 = head (zeros zs ++ rest).*1).
    { unfold w1. cbn [WU_plineOp set_op]. rewrite El. apply next_of_head. }
    destruct (htimer_handler_spec w1 m1 tm z zs rest Hq1 Hp Hop1) as (w2 & m2 & E2 & Hq2 & Ho2 & Hs2);
      [apply Hok; left|].
    rewrite E2. cbn [mbind option_bind].
    destruct (IH fuel w2 m2 (fire_timer tm z) (fire_queue tm rest z)) as (w' & m' & E & Hq').
    { done. }
    { apply fire_positive; [apply Hok; left|done]. }
    { simpl in Hf. lia. }
    { destruct zs as [|z' zs]; [by apply Hs2|]. by rewrite Ho2, Hop1. }
    { intros x Hx. apply timer_ok_fire, Hok. by right. }
    change (0 - (0 - 0)) with 0. rewrite E. cbn [mbind option_bind]. exists w', m'. split; [done|].
    cbn [fold_left]. replace (fold_left (fire_queue tm) zs (fire_queue tm rest z))
      with (fold_left (fire_queue (fire_timer tm z)) zs (fire_queue tm rest z)); [done|].
    clear. generalize (fire_queue tm rest z). induction zs as [|x zs IH]; intros q; [done|].
    cbn [fold_left]. by rewrite fire_queue_other, IH.
Qed.

(** A queue whose first entry expires at the next tick. *)
Lemma q_shift_split q : positive q -> q_shift 1 q = zeros (q_expired 1 q) ++ q_shift 1 (q_rest 1 q).
Proof.
  induction q as [|[x d] q IH]; intros Hp; [done|]. pose proof (Hp x d ltac:(left)) as Hd.
  assert (Hp' : positive q) by (intros y e Hy; apply (Hp y e); by right).
  cbn [q_expired q_rest]. destruct (Z.leb_spec d 1); [|done].
  cbn [q_shift fmap list_fmap zeros app fst snd]. replace (d - 1) with 0 by lia. f_equal. by apply IH.
Qed.

Lemma q_rest_lower base q m c : deltas base q m -> forall x d, (x, d) ∈ q_rest c q -> c < d /\ (x, d) ∈ q.
Proof.
  revert base. induction q as [|[y e] q IH]; intros base Hd x d Hin; [by apply not_elem_of_nil in Hin|].
  destruct Hd as (_ & _ & Hd). cbn [q_rest] in Hin. destruct (Z.leb_spec e c).
  - destruct (IH e Hd x d Hin). split; [done|by right].
  - split; [|done]. apply elem_of_cons in Hin as [[= -> ->]|Hin]; [done|].
    pose proof (deltas_lower e q m x d Hd Hin). lia.
Qed.

Lemma q_expired_in c q x : x ∈ q_expired c q -> x ∈ q.*1.
Proof.
  induction q as [|[y e] q IH]; [done|]. cbn [q_expired fmap list_fmap fst].
  destruct (e <=? c); [|by intros ?%not_elem_of_nil].
  intros [->|Hx]%elem_of_cons; [left|right; auto].
Qed.

Lemma q_expired_length c q : (length (q_expired c q) <= length q)%nat.
Proof. induction q as [|[y e] q IH]; [done|]. simpl. destruct (e <=? c); simpl; lia. Qed.

Lemma htick_spec w m tm q :
  line_queue (WU_line w) m q -> positive q -> (forall x, x ∈ q.*1 -> timer_ok tm x) ->
  exists w' m', API_TimerHTicks w m tm
      = Some (w', m', fold_left fire_timer (q_expired 1 q) tm, q_expired 1 q) /\
    line_queue (WU_line w') m' (fold_left (fire_queue tm) (q_expired 1 q) (q_shift 1 (q_rest 1 q))).
Proof.
  intros Hq Hp Hok. pose proof Hq as (El & Hnd & Hd & Hb). unfold API_TimerHTicks, __WAKEUP_PASS.
  set (w0 := set_op (head (WU_line w)) w).
  destruct q as [|[x d] q].
  { cbn [wakeup_pass]. assert (WU_plineOp w0 = None) as -> by (unfold w0; simpl; by rewrite El).
    exists w0, m. by split. }
  cbn [wakeup_pass]. assert (WU_plineOp w0 = Some x) as -> by (unfold w0; simpl; by rewrite El).
  pose proof Hd as (_ & Hx & Hd'). rewrite Hx. cbn [mbind option_bind WUN_ulCounter].
  pose proof (Hp x d ltac:(left)) as Hd1. cbn [q_expired q_rest].
  destruct (Z.leb_spec d 1) as [Hle|Hgt].
  - assert (d = 1) as -> by lia. change (1 <? 1 - 0) with false. change (1 - (1 - 0)) with 0.
    set (w1 := set_op (next_of x (WU_line w0)) w0). set (m1 := set_counter x 0 m).
    assert (Hq1 : line_queue (WU_line w1) m1 (zeros (x :: q_expired 1 q) ++ q_shift 1 (q_rest 1 q))).
    { change (zeros (x :: q_expired 1 q) ++ q_shift 1 (q_rest 1 q)) with
        ((x, 0) :: (zeros (q_expired 1 q) ++ q_shift 1 (q_rest 1 q))).
      rewrite <-q_shift_split by (intros y e Hy; apply (Hp y e); by right).
      apply (line_queue_tick _ m x 1 q 1 _ Hq Hx). lia. }
    assert (Hop1 : WU_plineOp w1 = head (zeros (q_expired 1 q) ++ q_shift 1 (q_rest 1 q)).*1).
    { unfold w1. cbn [WU_plineOp set_op]. change (WU_line w0) with (WU_line w).
      destruct Hq1 as (E1 & _). change (WU_line w1) with (WU_line w) in E1. rewrite E1. apply next_of_head. }
    assert (Hpr : positive (q_shift 1 (q_rest 1 q))).
    { intros y e Hy. apply list_elem_of_fmap in Hy as ([z f] & [= -> ->] & Hz).
      destruct (q_rest_lower 1 q m 1 Hd' z f Hz). simpl. lia. }
    destruct (htimer_handler_spec w1 m1 tm x _ _ Hq1 Hpr Hop1) as (w2 & m2 & E2 & Hq2 & Ho2 & Hs2);
      [apply Hok; left|].
    rewrite E2. cbn [mbind option_bind].
    destruct (htimer_rest (length (WU_line w)) w2 m2 (fire_timer tm x) (q_expired 1 q) _ Hq2)
      as (w' & m' & E & Hq').
    { apply fire_positive; [apply Hok; left|done]. }
    { rewrite El. cbn [fmap list_fmap fst length]. rewrite length_fmap.
      pose proof (q_expired_length 1 q). lia. }
    { destruct (q_expired 1 q) as [|z zs]; [by apply Hs2|]. by rewrite Ho2, Hop1. }
    { intros y Hy. apply timer_ok_fire, Hok. right. by apply (q_expired_in 1). }
    rewrite E. cbn [mbind option_bind]. exists w', m'. split; [done|]. cbn [fold_left].
    replace (fold_left (fire_queue tm) (q_expired 1 q) (fire_queue tm (q_shift 1 (q_rest 1 q)) x))
      with (fold_left (fire_queue (fire_timer tm x)) (q_expired 1 q) (fire_queue tm (q_shift 1 (q_rest 1 q)) x));
      [done|].
    clear. generalize (fire_queue tm (q_shift 1 (q_rest 1 q)) x). generalize (q_expired 1 q) as zs.
    induction zs as [|z zs IH]; intros r; [done|]. cbn [fold_left]. by rewrite fire_queue_other, IH.
  - replace (1 <? d - 0) with true by (symmetry; apply Z.ltb_lt; lia).
    eexists _, _. split; [done|]. cbn [fold_left].
    replace (d - 0 - 1) with (WUN_ulCounter (mkWun true (d - 0)) - 1) by done.
    apply (line_queue_tick _ m x d q 1 _ Hq Hx). lia.
Qed.

(** One tick of the tick timers.  Exactly the timers whose remaining time
    is one tick fire, in the order of the line; a firing timer with automatic
    restart re-enters the line with its saved counter (behind the timers that
    expire at the same time), any other is stopped and leaves the line; the
    timers that did not fire have one tick less to wait.  The pass always
    comes to an end. *)
Theorem API_TimerHTicks_spec w m tm q :
  line_queue (WU_line w) m q -> positive q -> (forall x, x ∈ q.*1 -> timer_ok tm x) ->
  exists w' m', API_TimerHTicks w m tm
      = Some (w', m', fold_left fire_timer (q_expired 1 q) tm, q_expired 1 q) /\
    line_queue (WU_line w') m' (fold_left (fire_queue tm) (q_expired 1 q) (q_shift 1 (q_rest 1 q))).
Proof. apply htick_spec. Qed.

Definition demo_tline : LW_CLASS_WAKEUP := mkWu [1; 2; 3] None 0 false.
Definition demo_tnodes : nodes :=
  <[1 := mkWun true 1]> (<[2 := mkWun true 0]> (<[3 := mkWun true 2]> ∅)).
Definition demo_timers : gmap Z TIMER :=
  <[1 := mkTimer true 5 true]> (<[2 := mkTimer false 1 true]> (<[3 := mkTimer true 3 true]> ∅)).

(** Timers 1 and 2 fire; 1 restarts with 5 ticks behind 3, 2 stops. *)
Lemma API_TimerHTicks_spec_witness :
  line_queue (WU_line demo_tline) demo_tnodes [(1, 1); (2, 1); (3, 3)] /\
  exists w' m', API_TimerHTicks demo_tline demo_tnodes demo_timers
      = Some (w', m', <[2 := mkTimer false 1 false]> demo_timers, [1; 2]) /\
    line_queue (WU_line w') m' [(3, 2); (1, 5)].
Proof.
  assert (Hq : line_queue (WU_line demo_tline) demo_tnodes [(1, 1); (2, 1); (3, 3)]).
  { unfold line_queue. splits; [reflexivity|decide_now| | ].
    - simpl. splits; (reflexivity || lia).
    - intros x d Hx. unfold ULONG_MAX. repeat (apply elem_of_cons in Hx as [[= -> ->]|Hx]; [simpl; lia|]).
      by apply not_elem_of_nil in Hx. }
  split; [exact Hq|].
  refine (API_TimerHTicks_spec demo_tline demo_tnodes demo_timers _ Hq _ _).
  - intros x d Hx. repeat (apply elem_of_cons in Hx as [[= -> ->]|Hx]; [simpl; lia|]).
    by apply not_elem_of_nil in Hx.
  - intros x Hx. cbn [fmap list_fmap fst] in Hx. unfold timer_ok, ULONG_MAX.
    repeat (apply elem_of_cons in Hx as [->|Hx]; [eexists; split; [reflexivity|simpl; lia]|]).
    by apply not_elem_of_nil in Hx.
Defined.
