(* ===== verification/Kernel.v ===== *)
(** * The kernel state of the waiting services

    The scheduler's tables (file Sched), the line of timed waits (file Wakeup),
    the waiting fields of the thread control blocks and the event control blocks of
    kernel/include/k_class.h in one state, with the field writes the
    services of the files Event and Semaphore make, and what those writes
    mean for the scheduler's invariant. *)

From S2P Require Import Prelude Lists Bitmap Sched SchedSpec Object Wakeup.

(** ** k_typemacro.h, k_option.h, k_error.h *)

Definition LW_SCHED_ACT_INTERRUPT : Z := 0.
Definition LW_THREAD_STATUS_DELAY : Z := 0x0001.
Definition LW_THREAD_STATUS_SEM : Z := 0x0002.
Definition LW_THREAD_STATUS_MSGQUEUE : Z := 0x0004.
Definition LW_THREAD_STATUS_EVENTSET : Z := 0x0008.
Definition LW_THREAD_STATUS_SIGNAL : Z := 0x0010.
Definition LW_THREAD_STATUS_VUTEX : Z := 0x8000.
Definition LW_THREAD_STATUS_PEND_ANY : Z := 0x801e.
Definition LW_WAIT_TIME_OUT : Z := 1.
Definition LW_WAIT_TIME_CLEAR : Z := 0.
Definition LW_EVENT_DELETE : Z := 1.
Definition LW_EVENT_EXIST : Z := 0.

Definition LW_TYPE_EVENT_UNUSED : Z := 0.
Definition LW_TYPE_EVENT_SEMRW : Z := 1.
Definition LW_TYPE_EVENT_MSGQUEUE : Z := 2.
Definition LW_TYPE_EVENT_SEMC : Z := 3.
Definition LW_TYPE_EVENT_MUTEX : Z := 4.
Definition LW_TYPE_EVENT_SEMB : Z := 6.

Definition LW_OPTION_NOT_WAIT : Z := 0.
Definition LW_OPTION_WAIT_INFINITE : Z := ULONG_MAX.
Definition LW_OPTION_WAIT_PRIORITY : Z := 0x00010000.
Definition LW_OPTION_DELETE_SAFE : Z := 0x00020000.
Definition LW_OPTION_SIGNAL_INTER : Z := 0x00040000.
Definition LW_OPTION_INHERIT_PRIORITY : Z := 0x00080000.
Definition LW_OPTION_NORMAL : Z := 0x00100000.
Definition LW_OPTION_ERRORCHECK : Z := 0x00200000.
Definition LW_OPTION_RW_PREFER_WRITER : Z := 0x00400000.

(** [x & option]. *)
Definition has_option (x o : Z) : bool := negb (Z.land x o =? 0).

(** ** Data *)

(** The address of a wait ring: [&pevent->EVENT_wqWaitQ[iQ].WQ_wlQ.WL_pringPrio[i]].
    [WL_pringFifo] shares the address of [WL_pringPrio[0]] (the C union). *)
Abbreviation PRING := (Z * Z * Z)%type.

(** The waiting fields of [LW_CLASS_TCB].  [TCB_ulDelay] is the counter of
    the wake-up node of the thread ([TCB_wunDelay.WUN_ulCounter]); the status and
    the priority are with the scheduling fields.  The node of an event
    set wait lives on the stack of its thread and is named by the thread. *)
Record WAIT := mkWait {
  TCB_iPendQ : Z;
  TCB_ucWaitTimeout : Z;
  TCB_peventPtr : option Z;
  TCB_ppringPriorityQueue : PRING;
  TCB_pvMsgBoxMessage : Z;
  TCB_ucIsEventDelete : Z;
  TCB_ulThreadSafeCounter : Z;
  TCB_iDeleteProcStatus : Z;
  TCB_pesnPtr : option Z;
  TCB_ulEventSets : Z
}.

(** [LW_CLASS_EVENT], less its wait queues. *)
Record LW_CLASS_EVENT := mkEvent {
  EVENT_ucType : Z;
  EVENT_pvTcbOwn : option Z;
  EVENT_ulCounter : Z;
  EVENT_ulMaxCounter : Z;
  EVENT_iStatus : Z;
  EVENT_ulOption : Z;
  EVENT_ucCeilingPriority : Z;
  EVENT_pvPtr : Z
}.

(** [LW_CLASS_EVENTSET]: its list of waiting nodes (file Lists) names the
    threads; and [LW_CLASS_EVENTSETNODE], less its owner, which is its name. *)
Record LW_CLASS_EVENTSET := mkEventSet {
  EVENTSET_ucType : Z;
  EVENTSET_plineWaitList : list Z;
  EVENTSET_ulEventSets : Z;
  EVENTSET_ulOption : Z
}.

Record LW_CLASS_EVENTSETNODE := mkEsn {
  EVENTSETNODE_pesEventSet : Z;
  EVENTSETNODE_ulEventSets : Z;
  EVENTSETNODE_ucWaitType : Z
}.

(** The kernel: the scheduler, the waiting fields of each thread, the event
    buffer [_K_eventBuffer], the headers of the wait rings and the lengths
    [WQ_usNum] by address, the delay line [_K_wuDelay] and its nodes, the pool
    [_K_resrcEvent], the same for event sets, and the configuration constants
    LW_CFG_MAX_EVENTS and LW_CFG_MAX_EVENTSETS. *)
Record KERNEL := mkKern {
  K_sched : SCHED;
  K_wait : gmap Z WAIT;
  K_event : gmap Z LW_CLASS_EVENT;
  K_wlQ : gmap PRING (list Z);
  K_usNum : gmap (Z * Z) Z;
  K_wuDelay : LW_CLASS_WAKEUP;
  K_wun : nodes;
  K_resrcEvent : RESRC;
  K_es : gmap Z LW_CLASS_EVENTSET;
  K_esn : gmap Z LW_CLASS_EVENTSETNODE;
  K_resrcEventSet : RESRC;
  LW_CFG_MAX_EVENTS : Z;
  LW_CFG_MAX_EVENTSETS : Z
}.

(** *** Field writes *)

Definition set_TCB_iPendQ (v : Z) (w : WAIT) : WAIT :=
  mkWait v (TCB_ucWaitTimeout w) (TCB_peventPtr w) (TCB_ppringPriorityQueue w) (TCB_pvMsgBoxMessage w)
    (TCB_ucIsEventDelete w) (TCB_ulThreadSafeCounter w) (TCB_iDeleteProcStatus w) (TCB_pesnPtr w) (TCB_ulEventSets w).
Definition set_TCB_ucWaitTimeout (v : Z) (w : WAIT) : WAIT :=
  mkWait (TCB_iPendQ w) v (TCB_peventPtr w) (TCB_ppringPriorityQueue w) (TCB_pvMsgBoxMessage w)
    (TCB_ucIsEventDelete w) (TCB_ulThreadSafeCounter w) (TCB_iDeleteProcStatus w) (TCB_pesnPtr w) (TCB_ulEventSets w).
Definition set_TCB_peventPtr (v : option Z) (w : WAIT) : WAIT :=
  mkWait (TCB_iPendQ w) (TCB_ucWaitTimeout w) v (TCB_ppringPriorityQueue w) (TCB_pvMsgBoxMessage w)
    (TCB_ucIsEventDelete w) (TCB_ulThreadSafeCounter w) (TCB_iDeleteProcStatus w) (TCB_pesnPtr w) (TCB_ulEventSets w).
Definition set_TCB_ppringPriorityQueue (v : PRING) (w : WAIT) : WAIT :=
  mkWait (TCB_iPendQ w) (TCB_ucWaitTimeout w) (TCB_peventPtr w) v (TCB_pvMsgBoxMessage w)
    (TCB_ucIsEventDelete w) (TCB_ulThreadSafeCounter w) (TCB_iDeleteProcStatus w) (TCB_pesnPtr w) (TCB_ulEventSets w).
Definition set_TCB_pvMsgBoxMessage (v : Z) (w : WAIT) : WAIT :=
  mkWait (TCB_iPendQ w) (TCB_ucWaitTimeout w) (TCB_peventPtr w) (TCB_ppringPriorityQueue w) v
    (TCB_ucIsEventDelete w) (TCB_ulThreadSafeCounter w) (TCB_iDeleteProcStatus w) (TCB_pesnPtr w) (TCB_ulEventSets w).
Definition set_TCB_ucIsEventDelete (v : Z) (w : WAIT) : WAIT :=
  mkWait (TCB_iPendQ w) (TCB_ucWaitTimeout w) (TCB_peventPtr w) (TCB_ppringPriorityQueue w)
    (TCB_pvMsgBoxMessage w) v (TCB_ulThreadSafeCounter w) (TCB_iDeleteProcStatus w) (TCB_pesnPtr w) (TCB_ulEventSets w).
Definition set_TCB_ulThreadSafeCounter (v : Z) (w : WAIT) : WAIT :=
  mkWait (TCB_iPendQ w) (TCB_ucWaitTimeout w) (TCB_peventPtr w) (TCB_ppringPriorityQueue w)
    (TCB_pvMsgBoxMessage w) (TCB_ucIsEventDelete w) v (TCB_iDeleteProcStatus w) (TCB_pesnPtr w) (TCB_ulEventSets w).
Definition set_TCB_pesnPtr (v : option Z) (w : WAIT) : WAIT :=
  mkWait (TCB_iPendQ w) (TCB_ucWaitTimeout w) (TCB_peventPtr w) (TCB_ppringPriorityQueue w) (TCB_pvMsgBoxMessage w)
    (TCB_ucIsEventDelete w) (TCB_ulThreadSafeCounter w) (TCB_iDeleteProcStatus w) v (TCB_ulEventSets w).
Definition set_TCB_ulEventSets (v : Z) (w : WAIT) : WAIT :=
  mkWait (TCB_iPendQ w) (TCB_ucWaitTimeout w) (TCB_peventPtr w) (TCB_ppringPriorityQueue w) (TCB_pvMsgBoxMessage w)
    (TCB_ucIsEventDelete w) (TCB_ulThreadSafeCounter w) (TCB_iDeleteProcStatus w) (TCB_pesnPtr w) v.

Definition set_EVENT_ucType (v : Z) (e : LW_CLASS_EVENT) : LW_CLASS_EVENT :=
  mkEvent v (EVENT_pvTcbOwn e) (EVENT_ulCounter e) (EVENT_ulMaxCounter e) (EVENT_iStatus e)
    (EVENT_ulOption e) (EVENT_ucCeilingPriority e) (EVENT_pvPtr e).
Definition set_EVENT_pvTcbOwn (v : option Z) (e : LW_CLASS_EVENT) : LW_CLASS_EVENT :=
  mkEvent (EVENT_ucType e) v (EVENT_ulCounter e) (EVENT_ulMaxCounter e) (EVENT_iStatus e)
    (EVENT_ulOption e) (EVENT_ucCeilingPriority e) (EVENT_pvPtr e).
Definition set_EVENT_ulCounter (v : Z) (e : LW_CLASS_EVENT) : LW_CLASS_EVENT :=
  mkEvent (EVENT_ucType e) (EVENT_pvTcbOwn e) v (EVENT_ulMaxCounter e) (EVENT_iStatus e)
    (EVENT_ulOption e) (EVENT_ucCeilingPriority e) (EVENT_pvPtr e).
Definition set_EVENT_ulMaxCounter (v : Z) (e : LW_CLASS_EVENT) : LW_CLASS_EVENT :=
  mkEvent (EVENT_ucType e) (EVENT_pvTcbOwn e) (EVENT_ulCounter e) v (EVENT_iStatus e)
    (EVENT_ulOption e) (EVENT_ucCeilingPriority e) (EVENT_pvPtr e).
Definition set_EVENT_iStatus (v : Z) (e : LW_CLASS_EVENT) : LW_CLASS_EVENT :=
  mkEvent (EVENT_ucType e) (EVENT_pvTcbOwn e) (EVENT_ulCounter e) (EVENT_ulMaxCounter e) v
    (EVENT_ulOption e) (EVENT_ucCeilingPriority e) (EVENT_pvPtr e).
Definition set_EVENT_pvPtr (v : Z) (e : LW_CLASS_EVENT) : LW_CLASS_EVENT :=
  mkEvent (EVENT_ucType e) (EVENT_pvTcbOwn e) (EVENT_ulCounter e) (EVENT_ulMaxCounter e) (EVENT_iStatus e)
    (EVENT_ulOption e) (EVENT_ucCeilingPriority e) v.

Definition set_sched (s : SCHED) (k : KERNEL) : KERNEL :=
  mkKern s (K_wait k) (K_event k) (K_wlQ k) (K_usNum k) (K_wuDelay k) (K_wun k) (K_resrcEvent k)
    (K_es k) (K_esn k) (K_resrcEventSet k) (LW_CFG_MAX_EVENTS k) (LW_CFG_MAX_EVENTSETS k).
Definition upd_wait (t : Z) (f : WAIT -> WAIT) (k : KERNEL) : KERNEL :=
  mkKern (K_sched k) (alter f t (K_wait k)) (K_event k) (K_wlQ k) (K_usNum k) (K_wuDelay k)
    (K_wun k) (K_resrcEvent k) (K_es k) (K_esn k) (K_resrcEventSet k) (LW_CFG_MAX_EVENTS k)
    (LW_CFG_MAX_EVENTSETS k).
Definition upd_event (e : Z) (f : LW_CLASS_EVENT -> LW_CLASS_EVENT) (k : KERNEL) : KERNEL :=
  mkKern (K_sched k) (K_wait k) (alter f e (K_event k)) (K_wlQ k) (K_usNum k) (K_wuDelay k)
    (K_wun k) (K_resrcEvent k) (K_es k) (K_esn k) (K_resrcEventSet k) (LW_CFG_MAX_EVENTS k)
    (LW_CFG_MAX_EVENTSETS k).
Definition set_wring (p : PRING) (l : list Z) (k : KERNEL) : KERNEL :=
  mkKern (K_sched k) (K_wait k) (K_event k) (<[p := l]> (K_wlQ k)) (K_usNum k) (K_wuDelay k)
    (K_wun k) (K_resrcEvent k) (K_es k) (K_esn k) (K_resrcEventSet k) (LW_CFG_MAX_EVENTS k)
    (LW_CFG_MAX_EVENTSETS k).
Definition set_num (q : Z * Z) (n : Z) (k : KERNEL) : KERNEL :=
  mkKern (K_sched k) (K_wait k) (K_event k) (K_wlQ k) (<[q := n]> (K_usNum k)) (K_wuDelay k)
    (K_wun k) (K_resrcEvent k) (K_es k) (K_esn k) (K_resrcEventSet k) (LW_CFG_MAX_EVENTS k)
    (LW_CFG_MAX_EVENTSETS k).
Definition set_delay (w : LW_CLASS_WAKEUP) (m : nodes) (k : KERNEL) : KERNEL :=
  mkKern (K_sched k) (K_wait k) (K_event k) (K_wlQ k) (K_usNum k) w m (K_resrcEvent k) (K_es k)
    (K_esn k) (K_resrcEventSet k) (LW_CFG_MAX_EVENTS k) (LW_CFG_MAX_EVENTSETS k).
Definition set_resrc (r : RESRC) (k : KERNEL) : KERNEL :=
  mkKern (K_sched k) (K_wait k) (K_event k) (K_wlQ k) (K_usNum k) (K_wuDelay k) (K_wun k) r (K_es k)
    (K_esn k) (K_resrcEventSet k) (LW_CFG_MAX_EVENTS k) (LW_CFG_MAX_EVENTSETS k).
Definition upd_es (e : Z) (f : LW_CLASS_EVENTSET -> LW_CLASS_EVENTSET) (k : KERNEL) : KERNEL :=
  mkKern (K_sched k) (K_wait k) (K_event k) (K_wlQ k) (K_usNum k) (K_wuDelay k) (K_wun k)
    (K_resrcEvent k) (alter f e (K_es k)) (K_esn k) (K_resrcEventSet k) (LW_CFG_MAX_EVENTS k)
    (LW_CFG_MAX_EVENTSETS k).
Definition set_esn (t : Z) (n : LW_CLASS_EVENTSETNODE) (k : KERNEL) : KERNEL :=
  mkKern (K_sched k) (K_wait k) (K_event k) (K_wlQ k) (K_usNum k) (K_wuDelay k) (K_wun k)
    (K_resrcEvent k) (K_es k) (<[t := n]> (K_esn k)) (K_resrcEventSet k) (LW_CFG_MAX_EVENTS k)
    (LW_CFG_MAX_EVENTSETS k).
Definition set_resrces (r : RESRC) (k : KERNEL) : KERNEL :=
  mkKern (K_sched k) (K_wait k) (K_event k) (K_wlQ k) (K_usNum k) (K_wuDelay k) (K_wun k)
    (K_resrcEvent k) (K_es k) (K_esn k) r (LW_CFG_MAX_EVENTS k) (LW_CFG_MAX_EVENTSETS k).

Definition wring (k : KERNEL) (p : PRING) : list Z := default [] (K_wlQ k !! p).

Definition set_TCB_ucSchedActivate (v : Z) (t : TCB) : TCB :=
  mkTCB (TCB_ucPriority t) (TCB_ucSchedPolicy t) (TCB_ucSchedActivateMode t) v
    (TCB_usSchedSlice t) (TCB_usSchedCounter t) (TCB_bCPULock t) (TCB_ulCPULock t) (TCB_ulCPUId t)
    (TCB_bIsCand t) (TCB_usStatus t) (TCB_ulThreadLockCounter t).

Definition status (k : KERNEL) (t : Z) : option Z := TCB_usStatus <$> tcbs (K_sched k) !! t.
Definition prio (k : KERNEL) (t : Z) : option Z := TCB_ucPriority <$> tcbs (K_sched k) !! t.

Definition set_status (t v : Z) (k : KERNEL) : KERNEL :=
  set_sched (upd_tcb t (set_TCB_usStatus v) (K_sched k)) k.
Definition set_TCB_ulDelay (t v : Z) (k : KERNEL) : KERNEL :=
  set_delay (K_wuDelay k) (set_counter t v (K_wun k)) k.

(** ** k_scanlink.h: the delay line *)

Definition __ADD_TO_WAKEUP_LINE (k : KERNEL) (ptcb : Z) : option KERNEL :=
  st ← status k ptcb;
  let k := set_status ptcb (Z.lor st LW_THREAD_STATUS_DELAY) k in
  '(w, m, _) ← _WakeupAdd (K_wuDelay k) (K_wun k) ptcb false 0;
  Some (set_delay w m k).

Definition __DEL_FROM_WAKEUP_LINE (k : KERNEL) (ptcb : Z) : option KERNEL :=
  st ← status k ptcb;
  let k := set_status ptcb (Z.ldiff st LW_THREAD_STATUS_DELAY) k in
  '(w, m) ← _WakeupDel (K_wuDelay k) (K_wun k) ptcb false 0;
  Some (set_delay w m k).

(** A ready thread enters the ready ring: the [if (__LW_THREAD_IS_READY)] block
    that ends every wake-up. *)
Definition ready_if (k : KERNEL) (ptcb ucSchedActivate : Z) : option KERNEL :=
  T ← tcbs (K_sched k) !! ptcb;
  if __LW_THREAD_IS_READY T then
    let s := upd_tcb ptcb (set_TCB_ucSchedActivate ucSchedActivate) (K_sched k) in
    s ← __ADD_TO_READY_RING s ptcb (_GetPcb T);
    Some (set_sched s k)
  else Some k.

(** The current thread leaves the ready ring. *)
Definition unready (k : KERNEL) (ptcbCur : Z) : option KERNEL :=
  T ← tcbs (K_sched k) !! ptcbCur;
  s ← __DEL_FROM_READY_RING (K_sched k) ptcbCur (_GetPcb T);
  Some (set_sched s k).

(** ** The scheduler seen by the waiting services *)

(** What they read of a thread. *)
Definition sview (s : SCHED) (t : Z) : option (Z * Z) :=
  (fun T => (TCB_ucPriority T, TCB_usStatus T)) <$> tcbs s !! t.

(** The step changed nothing of this but, possibly, for thread [t]. *)
Definition schg (s s' : SCHED) (t : Z) (v : Z * Z) : Prop :=
  LW_NCPUS s' = LW_NCPUS s /\ forall u, sview s' u = if decide (u = t) then Some v else sview s u.

Lemma schg_trans s1 s2 s3 t v w : schg s1 s2 t v -> schg s2 s3 t w -> schg s1 s3 t w.
Proof.
  intros [E1 H1] [E2 H2]. split; [congruence|]. intros u. rewrite H2. case_decide; [done|].
  by rewrite H1, decide_False.
Qed.

Lemma same_attrs_sview s s' u : same_attrs s s' -> sview s' u = sview s u.
Proof.
  intros [_ H]. specialize (H u). unfold sview.
  destruct (tcbs s' !! u), (tcbs s !! u); simpl in *; try done. unfold attrs in H. congruence.
Qed.

Lemma upd_tcb_sview s t f T : tcbs s !! t = Some T ->
  forall u, sview (upd_tcb t f s) u = if decide (u = t) then Some (TCB_ucPriority (f T), TCB_usStatus (f T)) else sview s u.
Proof.
  intros HT u. unfold sview. rewrite lookup_upd_tcb. destruct (decide (u = t)) as [->|]; [|done].
  by rewrite HT.
Qed.

Lemma sview_some s t p st : sview s t = Some (p, st) ->
  exists T, tcbs s !! t = Some T /\ TCB_ucPriority T = p /\ TCB_usStatus T = st.
Proof. unfold sview. destruct (tcbs s !! t) as [T|]; [|done]. intros [= <- <-]. by exists T. Qed.

Section SchedSteps.
Variable idle : Z -> Z.

(** [t] is the idle thread of no CPU. *)
Definition not_idle (s : SCHED) (t : Z) : Prop := forall i, cpu_id s i -> t <> idle i.

(** Writes to a thread that neither make it ready nor unready. *)
Lemma sys_inv_upd s t T f :
  sys_inv idle s -> tcbs s !! t = Some T -> harmless_tcb f ->
  (TCB_usStatus (f T) = LW_THREAD_STATUS_RDY <-> TCB_usStatus T = LW_THREAD_STATUS_RDY) ->
  (TCB_usStatus (f T) = TCB_usStatus T \/ not_idle s t) ->
  sys_inv idle (upd_tcb t f s).
Proof.
  intros Hi HT Hf Hst Hid. destruct (wf_upd_tcb s t f Hf (si_wf _ s Hi)) as [W L].
  apply (sys_inv_step idle s); try done.
  - intros u U HU. rewrite L. rewrite lookup_upd_tcb in HU. destruct (decide (u = t)) as [->|].
    + rewrite HT in HU. injection HU as <-. unfold __LW_THREAD_IS_READY. rewrite Z.eqb_eq, Hst, <-Z.eqb_eq.
      by apply (si_ready idle s Hi t T).
    + by apply (si_ready idle s Hi).
  - by apply cpu_keep_refl.
  - intros u U HU. rewrite lookup_upd_tcb, HU. by destruct (decide (u = t)).
  - intros i U Hi' HU. rewrite lookup_upd_tcb, HU. destruct (decide (idle i = t)) as [E|]; [|by exists U].
    rewrite E in HU. rewrite HT in HU. injection HU as <-. exists (f T). split; [done|].
    destruct (Hf T) as (_ & -> & -> & _). splits; try done.
    destruct Hid as [Hid|Hid]; [done|]. by destruct (Hid i Hi').
Qed.

Lemma sched_status s t p st st' :
  sys_inv idle s -> sview s t = Some (p, st) -> st <> 0 -> st' <> 0 -> not_idle s t ->
  sys_inv idle (upd_tcb t (set_TCB_usStatus st') s) /\
  schg s (upd_tcb t (set_TCB_usStatus st') s) t (p, st').
Proof.
  intros Hi Hv H1 H2 Hid. destruct (sview_some s t p st Hv) as (T & HT & <- & <-). split.
  - apply (sys_inv_upd s t T); [done|done|by intros ?| |by right]. simpl. unfold LW_THREAD_STATUS_RDY. tauto.
  - split; [done|]. intros u. by rewrite (upd_tcb_sview s t _ T HT).
Qed.

Lemma sched_block s t p st' :
  sys_inv idle s -> sview s t = Some (p, 0) -> st' <> 0 -> not_idle s t ->
  exists T s', tcbs s !! t = Some T /\
    __DEL_FROM_READY_RING (upd_tcb t (set_TCB_usStatus st') s) t (_GetPcb T) = Some s' /\
    sys_inv idle s' /\ schg s s' t (p, st').
Proof.
  intros Hi Hv Hst Hid. destruct (sview_some s t p 0 Hv) as (T & HT & <- & HS).
  destruct (wf_status s t st' (si_wf _ s Hi)) as [Hwf1 HL1].
  set (s1 := upd_tcb t (set_TCB_usStatus st') s) in *. set (T1 := set_TCB_usStatus st' T).
  assert (HT1 : tcbs s1 !! t = Some T1) by (unfold s1; by rewrite lookup_upd_tcb, decide_True, HT).
  assert (Hl : linked s t).
  { apply (si_ready idle s Hi t T HT). unfold __LW_THREAD_IS_READY. by rewrite HS. }
  destruct (del_ready s1 t T1 Hwf1 HT1) as (s' & E & Hok & Hk & _).
  { by rewrite HL1. }
  { intros Hc. destruct (sw_isc s (si_wf _ s Hi) t T HT Hc) as (c & Hcc & Hct).
    destruct (si_has_ready idle s _ c t Hi Hcc Hct) as (c' & r & q & H); [|by exists c', r, q].
    apply Hid. by apply (sched_wf_cpu s _ c (si_wf _ s Hi)). }
  exists T, s'. split; [done|]. split; [exact E|]. split.
  - pose proof Hok as (W & A & HL).
    apply (sys_inv_status idle s s' t st' _ T Hi HT Hok Hk); [| |by right].
    + intros u Hu. rewrite HL1. tauto.
    + unfold LW_THREAD_STATUS_RDY. tauto.
  - destruct Hok as (_ & A & _). split; [apply A|]. intros u. rewrite (same_attrs_sview s1 s' u A).
    unfold s1. by rewrite (upd_tcb_sview s t _ T HT).
Qed.

(** Status cleared, the thread takes its place among the ready ones. *)
Lemma sched_wake s t p st a :
  sys_inv idle s -> sview s t = Some (p, st) -> st <> 0 ->
  let s1 := upd_tcb t (set_TCB_usStatus 0) s in
  exists T s', tcbs s1 !! t = Some T /\ TCB_usStatus T = 0 /\
    __ADD_TO_READY_RING (upd_tcb t (set_TCB_ucSchedActivate a) s1) t (_GetPcb T) = Some s' /\
    sys_inv idle s' /\ schg s s' t (p, 0).
Proof.
  intros Hi Hv Hst s1. destruct (sview_some s t p st Hv) as (T & HT & <- & <-).
  set (T1 := set_TCB_usStatus 0 T). set (T2 := set_TCB_ucSchedActivate a T1).
  assert (HT1 : tcbs s1 !! t = Some T1) by (unfold s1; by rewrite lookup_upd_tcb, decide_True, HT).
  assert (Hi0 : sys_inv idle (upd_tcb t (set_TCB_ucSchedActivate a) s)).
  { apply (sys_inv_upd s t T); [done|done|by intros ?|done|by left]. }
  set (s0 := upd_tcb t (set_TCB_ucSchedActivate a) s) in *. set (T0 := set_TCB_ucSchedActivate a T).
  assert (HT0 : tcbs s0 !! t = Some T0) by (unfold s0; by rewrite lookup_upd_tcb, decide_True, HT).
  set (s2 := upd_tcb t (set_TCB_ucSchedActivate a) s1).
  assert (E2 : s2 = upd_tcb t (set_TCB_usStatus 0) s0).
  { unfold s2, s1, s0, upd_tcb. simpl. f_equal. by rewrite !alter_alter_eq. }
  assert (HT2 : tcbs s2 !! t = Some T2) by (unfold s2; by rewrite lookup_upd_tcb, decide_True, HT1).
  destruct (exec_wake idle s0 t T0 Hi0 HT0) as (s' & E & Hi' & _).
  { unfold __LW_THREAD_IS_READY, LW_THREAD_STATUS_RDY. apply Z.eqb_neq. done. }
  unfold exec in E. rewrite HT0 in E. cbn [mbind option_bind] in E.
  change LW_THREAD_STATUS_RDY with 0 in E. rewrite <-E2 in E.
  exists T1, s'. splits; [done|done|exact E|done|].
  assert (Hnl : ~ linked s2 t).
  { rewrite E2. destruct (wf_status s0 t 0 (si_wf _ s0 Hi0)) as [_ HL]. rewrite HL.
    intros Hl. apply (si_ready idle s0 Hi0 t T0 HT0) in Hl. unfold __LW_THREAD_IS_READY in Hl.
    by apply Z.eqb_eq in Hl. }
  assert (W2 : sched_wf s2) by (rewrite E2; by apply wf_status, Hi0).
  destruct (add_ready s2 t T2 W2 HT2 Hnl) as (s'' & E' & (_ & A & _) & _).
  { intros _. destruct (sw_tcb s2 W2 t T2 HT2) as (_ & Hid & _).
    destruct (proj2 (sw_cpu s2 W2 _) Hid) as [c Hc]. exists c. split; [done|].
    change (cpus s2) with (cpus s) in Hc. by apply (si_cpu idle s Hi _ c Hc). }
  change (_GetPcb T2) with (_GetPcb T0) in E'. rewrite E in E'. injection E' as <-.
  split; [apply A|]. intros u. rewrite (same_attrs_sview s2 s' u A). unfold s2.
  rewrite (upd_tcb_sview s1 t _ T1 HT1). case_decide as Eu; [done|]. unfold s1.
  by rewrite (upd_tcb_sview s t _ T HT), decide_False.
Qed.

Lemma sched_prio s t p q st :
  sys_inv idle s -> sview s t = Some (p, st) -> prio_ok q ->
  exists s', _SchedSetPrio s t q = Some s' /\ sys_inv idle s' /\ schg s s' t (q, st).
Proof.
  intros Hi Hv Hq. destruct (sview_some s t p st Hv) as (T & HT & Ep & Es).
  destruct (exec_prio idle s t q Hi) as (s' & E & Hi'); [by split; [eexists|]|].
  exists s'. split; [exact E|]. split; [done|]. unfold exec, _SchedSetPrio in E. rewrite HT in E.
  cbn [mbind option_bind] in E. pose proof (si_wf _ s Hi) as Hwf.
  assert (Hu : forall s0, LW_NCPUS s0 = LW_NCPUS s -> (forall u, sview s0 u = sview s u) ->
    schg s (upd_tcb t (set_TCB_ucPriority q) s0) t (q, st)).
  { intros s0 En Hs0. split; [done|]. intros u. specialize (Hs0 t) as Ht. rewrite Hv in Ht.
    destruct (sview_some s0 t p st Ht) as (T0 & HT0 & _ & Es0).
    rewrite (upd_tcb_sview s0 t _ T0 HT0). simpl. rewrite Es0. case_decide; [done|]. apply Hs0. }
  destruct (__LW_THREAD_IS_READY T) eqn:Hr; [destruct (TCB_bIsCand T) eqn:Hc|].
  - injection E as <-. by apply Hu.
  - assert (Hl : linked s t) by (by apply (si_ready idle s Hi t T HT)).
    destruct (del_ready s t T Hwf HT Hl) as (s1 & E1 & (W1 & A1 & L1) & Hk1 & _); [congruence|].
    rewrite E1 in E. cbn [mbind option_bind] in E.
    destruct (same_attrs_get s s1 t T A1 HT) as (T1 & HT1 & EA).
    assert (Hnl : ~ linked s1 t) by (rewrite L1; tauto).
    destruct (wf_set_prio s1 t q W1 Hq (not_linked_ring s1 t W1 Hnl)) as [W2 L2].
    set (s2 := upd_tcb t (set_TCB_ucPriority q) s1) in *.
    assert (HT2 : tcbs s2 !! t = Some (set_TCB_ucPriority q T1)).
    { unfold s2. by rewrite lookup_upd_tcb, decide_True, HT1. }
    assert (Epcb : _GetPcbEx T q = _GetPcb (set_TCB_ucPriority q T1)).
    { rewrite _GetPcbEx_eq. apply attrs_pcb. unfold attrs in *. simpl. congruence. }
    rewrite Epcb in E. destruct (add_ready s2 t _ W2 HT2) as (s3 & E3 & (_ & A & _) & _).
    { by rewrite L2. }
    { intros _. destruct (sw_tcb s2 W2 t _ HT2) as (_ & Hid & _).
      destruct (proj2 (sw_cpu s2 W2 _) Hid) as [c2 Hc2]. exists c2. split; [done|].
      assert (Hid1 : cpu_id s (TCB_ulCPUId (set_TCB_ucPriority q T1))).
      { unfold cpu_id in *. change (LW_NCPUS s2) with (LW_NCPUS s1) in Hid. by rewrite (proj1 A1) in Hid. }
      destruct (proj2 (sw_cpu s Hwf _) Hid1) as [c0 Hc0].
      destruct (Hk1 _ c0 Hc0) as (c1 & Hc1 & Ea & _). change (cpus s2) with (cpus s1) in Hc2.
      rewrite Hc2 in Hc1. injection Hc1 as <-. rewrite Ea. by apply (si_cpu idle s Hi _ c0 Hc0). }
    rewrite E3 in E. injection E as <-.
    destruct (Hu s1) as [En HH]; [apply A1|intros; by apply same_attrs_sview|].
    split; [transitivity (LW_NCPUS s2); [apply A|done]|]. intros u.
    rewrite (same_attrs_sview s2 s3 u A). apply HH.
  - injection E as <-. by apply Hu.
Qed.
End SchedSteps.
