(* ===== verification/Event.v ===== *)
(** * Waiting on events: kernel/core/_EventQueue.c, _EventHighLevel.c, the tick
    of _TimeTick.c, kernel/inline/inlSearchEventQueue.h and the forced wake-up of
    system/signal/signalLib.c

    The wait rings of an event control block, the operations that put the current
    thread into one and take a thread out of it, and the time-out of a tick.
    An operation is a transformation of the whole kernel state
    (file Kernel) with the kernel locked; [None] is a dereference of NULL or of a missing object. *)

From S2P Require Import Prelude Lists Bitmap Sched SchedSpec Object Wakeup Kernel.

(** ** inlSearchEventQueue.h *)

Definition __EVENT_Q_SIZE : Z := 8.
Definition __EVENT_Q_SHIFT : Z := 5.
Definition EVENT_SEM_Q : Z := 0.
Definition EVENT_RW_Q_R : Z := 0.
Definition EVENT_RW_Q_W : Z := 1.
Definition EVENT_MSG_Q_R : Z := 0.
Definition EVENT_MSG_Q_S : Z := 1.

Definition _EVENT_FIFO_Q_PTR (pevent iQ : Z) : PRING := (pevent, iQ, 0).
Definition _EVENT_PRIORITY_Q_PTR (pevent iQ ucPrioIndex : Z) : PRING := (pevent, iQ, ucPrioIndex).
Definition _EVENT_DEL_Q_FIFO (pevent iQ : Z) : PRING := (pevent, iQ, 0).

(** The first non-empty ring, from index [i] on; past the last one when all
    are empty. *)
Fixpoint del_q_scan (n : nat) (k : KERNEL) (pevent iQ i : Z) : PRING :=
  match n with
  | O => (pevent, iQ, i)
  | S n =>
    match wring k (pevent, iQ, i) with
    | _ :: _ => (pevent, iQ, i)
    | [] => del_q_scan n k pevent iQ (i + 1)
    end
  end.
Definition _EVENT_DEL_Q_PRIORITY (k : KERNEL) (pevent iQ : Z) : PRING :=
  del_q_scan (Z.to_nat __EVENT_Q_SIZE) k pevent iQ 0.

Definition _EVENT_INDEX_Q_PRIORITY (ucPriority : Z) : Z := wrap 8 (Z.shiftr ucPriority __EVENT_Q_SHIFT).

Definition _EventWaitNum (k : KERNEL) (iQ pevent : Z) : Z := default 0 (K_usNum k !! (pevent, iQ)).

(** The oldest thread of a FIFO ring is the one before its header; the most
    urgent one of a priority ring is its header. *)
Definition _EventQGetTcbFifo (k : KERNEL) (ppringList : PRING) : option Z := last (wring k ppringList).
Definition _EventQGetTcbPriority (k : KERNEL) (ppringList : PRING) : option Z := head (wring k ppringList).

(** ** _EventQueue.c *)

(** [WQ_usNum++] and [WQ_usNum--] of the queue the thread waits in. *)
Definition num_add (k : KERNEL) (ptcb pevent d : Z) : option KERNEL :=
  w ← K_wait k !! ptcb;
  Some (set_num (pevent, TCB_iPendQ w) (wrap 16 (_EventWaitNum k (TCB_iPendQ w) pevent + d)) k).

Definition _AddTCBToEventFifo (k : KERNEL) (ptcb pevent : Z) (ppringList : PRING) : option KERNEL :=
  let k := set_wring ppringList (ptcb :: wring k ppringList) k in
  num_add k ptcb pevent 1.

(** Unlinking a thread that is not in the ring dereferences NULL. *)
Definition wring_del (k : KERNEL) (ptcb : Z) (ppringList : PRING) : option KERNEL :=
  if bool_decide (ptcb ∈ wring k ppringList)
  then Some (set_wring ppringList (remove_node ptcb (wring k ppringList)) k) else None.

Definition _DelTCBFromEventFifo (k : KERNEL) (ptcb pevent : Z) (ppringList : PRING) : option KERNEL :=
  k ← wring_del k ptcb ppringList;
  num_add k ptcb pevent (-1).

(** The loop of [_AddTCBToEventPriority]: the rest of the ring behind its
    header, with the thread before the first less urgent one. *)
Fixpoint prio_scan (k : KERNEL) (ptcb ucPriority : Z) (l : list Z) : option (list Z) :=
  match l with
  | [] => Some [ptcb]
  | x :: l' =>
    p ← prio k x;
    if LW_PRIO_IS_HIGH ucPriority p then Some (ptcb :: l)
    else l' ← prio_scan k ptcb ucPriority l'; Some (x :: l')
  end.

Definition _AddTCBToEventPriority (k : KERNEL) (ptcb pevent : Z) (ppringList : PRING) : option KERNEL :=
  ucPriority ← prio k ptcb;
  l ← match wring k ppringList with
      | [] => Some [ptcb]
      | h :: l =>
        p ← prio k h;
        if LW_PRIO_IS_HIGH ucPriority p then Some (ptcb :: h :: l)
        else l ← prio_scan k ptcb ucPriority l; Some (h :: l)
      end;
  num_add (set_wring ppringList l k) ptcb pevent 1.

Definition _DelTCBFromEventPriority (k : KERNEL) (ptcb pevent : Z) (ppringList : PRING) : option KERNEL :=
  k ← wring_del k ptcb ppringList;
  num_add k ptcb pevent (-1).

(** ** _EventHighLevel.c *)

(** [if (ptcbCur->TCB_ulDelay) __ADD_TO_WAKEUP_LINE(ptcbCur)]. *)
Definition start_delay (k : KERNEL) (ptcbCur : Z) : option KERNEL :=
  n ← K_wun k !! ptcbCur;
  if negb (WUN_ulCounter n =? 0) then __ADD_TO_WAKEUP_LINE k ptcbCur else Some k.

Definition _EventWaitFifo (k : KERNEL) (ptcbCur pevent : Z) (ppringList : PRING) : option KERNEL :=
  let k := upd_wait ptcbCur (set_TCB_peventPtr (Some pevent)) k in
  k ← unready k ptcbCur;
  k ← _AddTCBToEventFifo k ptcbCur pevent ppringList;
  k ← start_delay k ptcbCur;
  Some (upd_wait ptcbCur (set_TCB_ucIsEventDelete LW_EVENT_EXIST) k).

Definition _EventWaitPriority (k : KERNEL) (ptcbCur pevent : Z) (ppringList : PRING) : option KERNEL :=
  let k := upd_wait ptcbCur (set_TCB_peventPtr (Some pevent)) k in
  k ← unready k ptcbCur;
  k ← _AddTCBToEventPriority k ptcbCur pevent ppringList;
  k ← start_delay k ptcbCur;
  Some (upd_wait ptcbCur (set_TCB_ucIsEventDelete LW_EVENT_EXIST) k).

(** [if (TCB_usStatus & LW_THREAD_STATUS_DELAY) { __DEL_FROM_WAKEUP_LINE; TCB_ulDelay = 0 }]. *)
Definition stop_delay (k : KERNEL) (ptcb : Z) : option KERNEL :=
  st ← status k ptcb;
  if has_option st LW_THREAD_STATUS_DELAY then
    k ← __DEL_FROM_WAKEUP_LINE k ptcb; Some (set_TCB_ulDelay ptcb 0 k)
  else Some k.

Definition _EventReadyFifoLowLevel (k : KERNEL) (pevent pvMsgBoxMessage : Z) (ppringList : PRING)
    : option (KERNEL * Z) :=
  ptcb ← _EventQGetTcbFifo k ppringList;
  k ← _DelTCBFromEventFifo k ptcb pevent ppringList;
  let k := upd_wait ptcb (set_TCB_pvMsgBoxMessage pvMsgBoxMessage) k in
  k ← stop_delay k ptcb;
  Some (k, ptcb).

Definition _EventReadyPriorityLowLevel (k : KERNEL) (pevent pvMsgBoxMessage : Z) (ppringList : PRING)
    : option (KERNEL * Z) :=
  ptcb ← _EventQGetTcbPriority k ppringList;
  k ← _DelTCBFromEventPriority k ptcb pevent ppringList;
  let k := upd_wait ptcb (set_TCB_pvMsgBoxMessage pvMsgBoxMessage) k in
  k ← stop_delay k ptcb;
  Some (k, ptcb).

Definition _EventReadyHighLevel (k : KERNEL) (ptcb usWaitType ucSchedActivate : Z) : option KERNEL :=
  let k := upd_wait ptcb (set_TCB_peventPtr None) k in
  w ← K_wait k !! ptcb;
  if negb (TCB_ucWaitTimeout w =? 0) then
    Some (upd_wait ptcb (set_TCB_ucWaitTimeout LW_WAIT_TIME_CLEAR) k)
  else
    st ← status k ptcb;
    let k := set_status ptcb (Z.ldiff st usWaitType) k in
    ready_if k ptcb ucSchedActivate.

Definition SchedSetPrio (k : KERNEL) (ptcb ucPriority : Z) : option KERNEL :=
  s ← _SchedSetPrio (K_sched k) ptcb ucPriority; Some (set_sched s k).

Definition _EventPrioTryBoost (k : KERNEL) (pevent ptcbCur : Z) : option KERNEL :=
  e ← K_event k !! pevent;
  ptcbOwner ← EVENT_pvTcbOwn e;
  w ← K_wait k !! ptcbOwner;
  if negb (TCB_iDeleteProcStatus w =? 0) then Some k
  else
    pc ← prio k ptcbCur;
    po ← prio k ptcbOwner;
    if LW_PRIO_IS_HIGH pc po then
      if has_option (EVENT_ulOption e) LW_OPTION_INHERIT_PRIORITY then SchedSetPrio k ptcbOwner pc
      else if LW_PRIO_IS_HIGH (EVENT_ucCeilingPriority e) po
           then SchedSetPrio k ptcbOwner (EVENT_ucCeilingPriority e)
           else Some k
    else Some k.

Definition _EventPrioTryResume (k : KERNEL) (pevent ptcbCur : Z) : option KERNEL :=
  e ← K_event k !! pevent;
  let ucPriorityOld := wrap 8 (EVENT_ulMaxCounter e) in
  p ← prio k ptcbCur;
  if negb (p =? ucPriorityOld) then SchedSetPrio k ptcbCur ucPriorityOld else Some k.

Definition _EventUnQueue (k : KERNEL) (ptcb : Z) : option KERNEL :=
  w ← K_wait k !! ptcb;
  pevent ← TCB_peventPtr w;
  e ← K_event k !! pevent;
  k ← (if has_option (EVENT_ulOption e) LW_OPTION_WAIT_PRIORITY
       then _DelTCBFromEventPriority k ptcb pevent (TCB_ppringPriorityQueue w)
       else _DelTCBFromEventFifo k ptcb pevent (_EVENT_FIFO_Q_PTR pevent (TCB_iPendQ w)));
  Some (upd_wait ptcb (set_TCB_peventPtr None) k).

(** ** The blocks every service repeats *)

(** The current thread starts to wait in queue [iQ] of [pevent]: from
    [ptcbCur->TCB_iPendQ = ...] to [_EventWaitPriority] or [_EventWaitFifo]. *)
Definition event_pend (k : KERNEL) (ptcbCur pevent iQ usWaitType ulTimeout : Z) : option KERNEL :=
  let k := upd_wait ptcbCur (set_TCB_iPendQ iQ) k in
  st ← status k ptcbCur;
  let k := set_status ptcbCur (Z.lor st usWaitType) k in
  let k := upd_wait ptcbCur (set_TCB_ucWaitTimeout LW_WAIT_TIME_CLEAR) k in
  let k := set_TCB_ulDelay ptcbCur (if ulTimeout =? LW_OPTION_WAIT_INFINITE then 0 else ulTimeout) k in
  e ← K_event k !! pevent;
  if has_option (EVENT_ulOption e) LW_OPTION_WAIT_PRIORITY then
    ucPriority ← prio k ptcbCur;
    let ppringList := _EVENT_PRIORITY_Q_PTR pevent iQ (_EVENT_INDEX_Q_PRIORITY ucPriority) in
    let k := upd_wait ptcbCur (set_TCB_ppringPriorityQueue ppringList) k in
    _EventWaitPriority k ptcbCur pevent ppringList
  else _EventWaitFifo k ptcbCur pevent (_EVENT_FIFO_Q_PTR pevent iQ).

(** The thread to wake is taken out of queue [iQ] of [pevent]. *)
Definition event_take (k : KERNEL) (pevent iQ pvMsgBoxMessage : Z) : option (KERNEL * Z) :=
  e ← K_event k !! pevent;
  if has_option (EVENT_ulOption e) LW_OPTION_WAIT_PRIORITY
  then _EventReadyPriorityLowLevel k pevent pvMsgBoxMessage (_EVENT_DEL_Q_PRIORITY k pevent iQ)
  else _EventReadyFifoLowLevel k pevent pvMsgBoxMessage (_EVENT_DEL_Q_FIFO pevent iQ).

(** The wake-up of one thread in one go. *)
Definition event_ready (k : KERNEL) (pevent iQ pvMsgBoxMessage usWaitType ucSchedActivate : Z)
    : option (KERNEL * Z) :=
  '(k, ptcb) ← event_take k pevent iQ pvMsgBoxMessage;
  k ← _EventReadyHighLevel k ptcb usWaitType ucSchedActivate;
  Some (k, ptcb).

(** ** _EventSetUnQueue.c *)

Definition set_EVENTSET_plineWaitList (l : list Z) (e : LW_CLASS_EVENTSET) : LW_CLASS_EVENTSET :=
  mkEventSet (EVENTSET_ucType e) l (EVENTSET_ulEventSets e) (EVENTSET_ulOption e).

(** [pesn] is named by its thread. *)
Definition _EventSetUnQueue (k : KERNEL) (pesn : Z) : option KERNEL :=
  n ← K_esn k !! pesn;
  e ← K_es k !! EVENTSETNODE_pesEventSet n;
  if bool_decide (pesn ∈ EVENTSET_plineWaitList e) then
    let k := upd_es (EVENTSETNODE_pesEventSet n)
               (set_EVENTSET_plineWaitList (remove_node pesn (EVENTSET_plineWaitList e))) k in
    Some (upd_wait pesn (set_TCB_pesnPtr None) k)
  else None.

(** ** _TimeTick.c: _ThreadTick *)

(** An event or event set wait is given up.  (Waits on a user word, the vutex,
    are not in the state.) *)
Definition unpend (k : KERNEL) (ptcb : Z) : option KERNEL :=
  w ← K_wait k !! ptcb;
  match TCB_peventPtr w with
  | Some _ => _EventUnQueue k ptcb
  | None =>
    match TCB_pesnPtr w with
    | Some pesn => _EventSetUnQueue k pesn
    | None => Some k
    end
  end.

Definition tick_expired (k : KERNEL) (ptcb : Z) : option KERNEL :=
  k ← __DEL_FROM_WAKEUP_LINE k ptcb;
  st ← status k ptcb;
  k ← (if has_option st LW_THREAD_STATUS_PEND_ANY then
         let k := set_status ptcb (Z.ldiff st LW_THREAD_STATUS_PEND_ANY) k in
         let k := upd_wait ptcb (set_TCB_ucWaitTimeout LW_WAIT_TIME_OUT) k in
         unpend k ptcb
       else Some (upd_wait ptcb (set_TCB_ucWaitTimeout LW_WAIT_TIME_CLEAR) k));
  ready_if k ptcb LW_SCHED_ACT_OTHER.

Definition thread_tick_handler : handler KERNEL := fun w m k ptcb =>
  k ← tick_expired (set_delay w m k) ptcb;
  Some (K_wuDelay k, K_wun k, k).

(** Result: also the threads whose delay expired. *)
Definition _ThreadTick (k : KERNEL) : option (KERNEL * list Z) :=
  '(w, m, k, fired) ←
    __WAKEUP_PASS (length (WU_line (K_wuDelay k))) thread_tick_handler (K_wuDelay k) (K_wun k) k 1;
  Some (set_delay w m k, fired).
