(* ===== verification/EventSpec.v ===== *)
(** * The invariant of the waiting services

    Every thread is ready or waits in exactly the place its control block names;
    the wait rings, their lengths, the delay line and the scheduler's tables agree.
    The operations of the file Event are total under the invariant, keep it, and
    transform the wait queues, seen as the lists of their threads in wake-up order. *)

From S2P Require Import Prelude Lists Bitmap Sched SchedSpec Object Wakeup Kernel Event.

(** ** Lists *)

Lemma concat_update_perm {A B} `{EqDecision A} (f g : A -> list B) (x : B) b l :
  NoDup l -> b ∈ l -> g b ≡ₚ x :: f b -> (forall c, c <> b -> g c = f c) ->
  concat (g <$> l) ≡ₚ x :: concat (f <$> l).
Proof.
  intros Hnd Hb Hg Hne. induction l as [|c l IH]; [by apply not_elem_of_nil in Hb|].
  apply NoDup_cons in Hnd as [Hc Hnd]. cbn [fmap list_fmap concat].
  destruct (decide (c = b)) as [->|Hcb].
  - rewrite Hg. simpl. constructor. apply Permutation_app_head. apply reflexive_eq.
    f_equal. apply list_fmap_ext. intros i y Hy. apply Hne. intros ->. apply Hc. by eapply list_elem_of_lookup_2.
  - rewrite (Hne c Hcb). apply elem_of_cons in Hb as [->|Hb]; [done|].
    rewrite (IH Hnd Hb). symmetry. apply Permutation_middle.
Qed.

Lemma elem_of_concat_fmap {A B} (f : A -> list B) (x : B) l :
  x ∈ concat (f <$> l) <-> exists a, a ∈ l /\ x ∈ f a.
Proof.
  induction l as [|a l IH]; cbn [fmap list_fmap concat].
  - split; [by intros ?%not_elem_of_nil|by intros (? & ?%not_elem_of_nil & _)].
  - rewrite elem_of_app, IH. split.
    + intros [Hx|(b & Hb & Hx)]; [exists a; split; [left|done]|exists b; split; [by right|done]].
    + intros (b & Hb & Hx). apply elem_of_cons in Hb as [->|Hb]; [by left|right; eauto].
Qed.

Lemma NoDup_concat_fmap {A B} (f : A -> list B) l :
  NoDup l -> (forall a, a ∈ l -> NoDup (f a)) ->
  (forall a b x, a ∈ l -> b ∈ l -> x ∈ f a -> x ∈ f b -> a = b) -> NoDup (concat (f <$> l)).
Proof.
  intros Hnd Hf Hd. induction l as [|a l IH]; [constructor|]. apply NoDup_cons in Hnd as [Ha Hnd].
  cbn [fmap list_fmap concat]. apply NoDup_app. split; [apply Hf; left|]. split.
  - intros x Hx (b & Hb & Hxb)%elem_of_concat_fmap. apply Ha.
    rewrite (Hd a b x); [done|left|by right|done..].
  - apply IH; [done| |]; intros; [apply Hf; by right|]. eapply Hd; [by right..|done|done].
Qed.

Lemma remove_node_snoc d l : d ∉ l -> remove_node d (l ++ [d]) = l.
Proof. intros H. rewrite (remove_node_app d l []) by done. apply app_nil_r. Qed.

Lemma remove_node_reverse d l : NoDup l -> remove_node d (reverse l) = reverse (remove_node d l).
Proof.
  intros Hnd. destruct (decide (d ∈ l)) as [Hd|Hd].
  - apply list_elem_of_split in Hd as (l1 & l2 & ->). apply NoDup_app in Hnd as (_ & Hdis & Hnd).
    assert (H1 : d ∉ l1) by (intros H; apply (Hdis d H); left).
    apply NoDup_cons in Hnd as [H2 _]. rewrite remove_node_app by done.
    rewrite !reverse_app, reverse_cons, <-app_assoc.
    change ([d] ++ reverse l1) with (d :: reverse l1). rewrite remove_node_app; [done|by rewrite elem_of_reverse].
  - rewrite !remove_node_notin; [done|done|by rewrite elem_of_reverse].
Qed.

Lemma remove_node_app_l d l1 l2 : d ∈ l1 -> remove_node d (l1 ++ l2) = remove_node d l1 ++ l2.
Proof.
  induction l1 as [|x l1 IH]; [by intros ?%not_elem_of_nil|]. intros H. cbn [app remove_node].
  destruct (Z.eqb_spec x d) as [->|Hne]; [done|]. cbn [app]. f_equal. apply IH.
  apply elem_of_cons in H as [->|H]; [done|exact H].
Qed.

Lemma remove_node_app_r d l1 l2 : d ∉ l1 -> remove_node d (l1 ++ l2) = l1 ++ remove_node d l2.
Proof.
  intros H. induction l1 as [|x l1 IH]; [done|]. apply not_elem_of_cons in H as [Hne H].
  cbn [app remove_node]. rewrite (proj2 (Z.eqb_neq x d)) by congruence. cbn [app]. f_equal. by apply IH.
Qed.

Lemma remove_node_concat (f g : Z -> list Z) d b l :
  NoDup l -> b ∈ l -> d ∈ f b -> (forall c, c ∈ l -> c <> b -> d ∉ f c) ->
  g b = remove_node d (f b) -> (forall c, c <> b -> g c = f c) ->
  concat (g <$> l) = remove_node d (concat (f <$> l)).
Proof.
  intros Hnd Hb Hd Hnot Hg Hne. induction l as [|c l IH]; [by apply not_elem_of_nil in Hb|].
  apply NoDup_cons in Hnd as [Hc Hnd]. cbn [fmap list_fmap concat].
  destruct (decide (c = b)) as [->|Hcb].
  - rewrite Hg, remove_node_app_l by done. f_equal. f_equal. apply list_fmap_ext.
    intros i y Hy. apply Hne. intros ->. apply Hc. by eapply list_elem_of_lookup_2.
  - rewrite remove_node_app_r by (apply Hnot; [left|done]). rewrite (Hne c Hcb). f_equal.
    apply elem_of_cons in Hb as [->|Hb]; [done|]. apply IH; [done..|].
    intros c' Hc'. apply Hnot. by right.
Qed.

(** ** Status bits *)

(** The bits of an event or event set wait. *)
Definition WAIT_BITS : Z := 0x000e.

Lemma has_option_spec x o : has_option x o = true <-> Z.land x o <> 0.
Proof. unfold has_option. rewrite negb_true_iff, Z.eqb_neq. done. Qed.

Lemma has_option_false x o : has_option x o = false <-> Z.land x o = 0.
Proof. unfold has_option. rewrite negb_false_iff, Z.eqb_eq. done. Qed.

Lemma land_ldiff a b c : Z.land (Z.ldiff a b) c = Z.land a (Z.ldiff c b).
Proof.
  apply Z.bits_inj'. intros i Hi. rewrite !Z.land_spec, !Z.ldiff_spec.
  destruct (Z.testbit a i), (Z.testbit b i), (Z.testbit c i); done.
Qed.

Lemma land_sub a b c : Z.land a b = c -> forall d, Z.land b d = d -> Z.land a d = Z.land c d.
Proof. intros <- d Hd. by rewrite <-Z.land_assoc, Hd. Qed.

Lemma land_nonzero a b : Z.land a b <> 0 -> a <> 0.
Proof. intros H ->. by rewrite Z.land_0_l in H. Qed.

Lemma delay_set st : has_option (Z.lor st LW_THREAD_STATUS_DELAY) LW_THREAD_STATUS_DELAY = true /\
  Z.land (Z.lor st LW_THREAD_STATUS_DELAY) WAIT_BITS = Z.land st WAIT_BITS.
Proof.
  split.
  - apply has_option_spec. intros E.
    assert (Z.testbit (Z.land (Z.lor st LW_THREAD_STATUS_DELAY) LW_THREAD_STATUS_DELAY) 0 = true).
    { rewrite Z.land_spec, Z.lor_spec. by destruct (Z.testbit st 0). }
    rewrite E in H. done.
  - rewrite Z.land_lor_distr_l. change (Z.land LW_THREAD_STATUS_DELAY WAIT_BITS) with 0. apply Z.lor_0_r.
Qed.

Lemma delay_clear st : has_option (Z.ldiff st LW_THREAD_STATUS_DELAY) LW_THREAD_STATUS_DELAY = false /\
  Z.land (Z.ldiff st LW_THREAD_STATUS_DELAY) WAIT_BITS = Z.land st WAIT_BITS.
Proof.
  split; [apply has_option_false|]; rewrite land_ldiff; [|done].
  change (Z.ldiff _ _) with 0. apply Z.land_0_r.
Qed.

(** Clearing wait bits leaves the delay bit. *)
Lemma wait_clear st b : Z.land b LW_THREAD_STATUS_DELAY = 0 ->
  has_option (Z.ldiff st b) LW_THREAD_STATUS_DELAY = has_option st LW_THREAD_STATUS_DELAY.
Proof.
  intros Hb. unfold has_option. rewrite land_ldiff. do 3 f_equal.
  apply Z.bits_inj'. intros i Hi. rewrite Z.ldiff_spec.
  assert (Z.testbit (Z.land b LW_THREAD_STATUS_DELAY) i = false) as E by (rewrite Hb; apply Z.bits_0).
  rewrite Z.land_spec in E. destruct (Z.testbit b i), (Z.testbit LW_THREAD_STATUS_DELAY i); done.
Qed.

Lemma wait_set st b : Z.land b LW_THREAD_STATUS_DELAY = 0 ->
  has_option (Z.lor st b) LW_THREAD_STATUS_DELAY = has_option st LW_THREAD_STATUS_DELAY.
Proof. intros Hb. unfold has_option. by rewrite Z.land_lor_distr_l, Hb, Z.lor_0_r. Qed.

(** ** The invariant *)

Definition eopt (k : KERNEL) (e : Z) : Z := default 0 (EVENT_ulOption <$> K_event k !! e).
Definition is_prio (k : KERNEL) (e : Z) : bool := has_option (eopt k e) LW_OPTION_WAIT_PRIORITY.

(** Where the control block of a thread says that it waits. *)
Definition place (k : KERNEL) (w : WAIT) : option PRING :=
  e ← TCB_peventPtr w;
  Some (if is_prio k e then TCB_ppringPriorityQueue w else (e, TCB_iPendQ w, 0)).
Definition wait_at (k : KERNEL) (t : Z) : option PRING := w ← K_wait k !! t; place k w.

Definition buckets : list Z := [0; 1; 2; 3; 4; 5; 6; 7].

(** A wait queue as the list of its threads in wake-up order. *)
Definition wview (k : KERNEL) (e iq : Z) : list Z :=
  if is_prio k e then concat ((fun b => wring k (e, iq, b)) <$> buckets)
  else reverse (wring k (e, iq, 0)).

Section Invariant.
Variable idle : Z -> Z.
(** The status bit of a wait on each event. *)
Variable B : Z -> Z.
(** The wait bits a thread still has although its wait has been ended: a wake-up
    between [_EventReady*LowLevel] and [_EventReadyHighLevel]. *)
Variable D : Z -> Z.

(** A wait place belongs to the event and the queue the thread names. *)
Definition place_ok (k : KERNEL) (w : WAIT) : Prop :=
  match TCB_peventPtr w with
  | None => True
  | Some e => is_Some (K_event k !! e) /\ (TCB_iPendQ w = 0 \/ TCB_iPendQ w = 1) /\
      (B e = LW_THREAD_STATUS_SEM \/ B e = LW_THREAD_STATUS_MSGQUEUE) /\
      TCB_ucWaitTimeout w = LW_WAIT_TIME_CLEAR /\ TCB_pesnPtr w = None /\
      (is_prio k e = true -> exists b, b ∈ buckets /\ TCB_ppringPriorityQueue w = (e, TCB_iPendQ w, b))
  end.

(** The wait bits of the status of a thread. *)
Definition wait_bits (w : WAIT) : Z :=
  match TCB_peventPtr w, TCB_pesnPtr w with
  | Some e, _ => B e
  | None, Some _ => LW_THREAD_STATUS_EVENTSET
  | None, None => 0
  end.

(** The status tells of a wait exactly when there is one. *)
Definition status_ok (k : KERNEL) (t : Z) (w : WAIT) (st : Z) : Prop :=
  Z.land st WAIT_BITS = Z.lor (wait_bits w) (D t) /\
  (has_option st LW_THREAD_STATUS_DELAY = true <-> t ∈ WU_line (K_wuDelay k)).

(** An event set wait: the node is in the list of its event set. *)
Definition esn_ok (k : KERNEL) (t : Z) (w : WAIT) : Prop :=
  match TCB_pesnPtr w with
  | None => forall e E, K_es k !! e = Some E -> t ∉ EVENTSET_plineWaitList E
  | Some n => n = t /\ exists N E, K_esn k !! t = Some N /\
      K_es k !! EVENTSETNODE_pesEventSet N = Some E /\ t ∈ EVENTSET_plineWaitList E /\
      forall e' E', K_es k !! e' = Some E' -> t ∈ EVENTSET_plineWaitList E' -> e' = EVENTSETNODE_pesEventSet N
  end.

Record thread_ok (k : KERNEL) (t : Z) (w : WAIT) : Prop := {
  th_status : exists p st, sview (K_sched k) t = Some (p, st) /\ status_ok k t w st;
  th_place : place_ok k w;
  th_esn : esn_ok k t w;
  th_wun : is_Some (K_wun k !! t)
}.

(** The wait rings against the control blocks. *)
Record rings_ok (k : KERNEL) : Prop := {
  ro_ring : forall p t, t ∈ wring k p <-> wait_at k t = Some p;
  ro_nodup : forall p, NoDup (wring k p);
  ro_num : forall e iq, _EventWaitNum k iq e = Z.of_nat (length (wview k e iq))
}.

(** Everything but the order of the delay line. *)
Record kern_ok (k : KERNEL) : Prop := {
  ko_sched : sys_inv idle (K_sched k);
  ko_dom : forall t, is_Some (K_wait k !! t) <-> is_Some (tcbs (K_sched k) !! t);
  ko_size : Z.of_nat (size (K_wait k)) < 2 ^ 16;
  ko_line : forall t, t ∈ WU_line (K_wuDelay k) -> is_Some (K_wait k !! t);
  ko_thread : forall t w, K_wait k !! t = Some w -> thread_ok k t w;
  ko_rings : rings_ok k;
  ko_es : forall e E, K_es k !! e = Some E -> NoDup (EVENTSET_plineWaitList E) /\
    forall t, t ∈ EVENTSET_plineWaitList E -> is_Some (K_wait k !! t)
}.

End Invariant.

Definition delay_ok (k : KERNEL) : Prop :=
  exists q, line_queue (WU_line (K_wuDelay k)) (K_wun k) q.

(** The invariant between operations: no wake-up is under way. *)
Definition kern_inv (idle B : Z -> Z) (k : KERNEL) : Prop := kern_ok idle B (fun _ => 0) k /\ delay_ok k.

(** ** Views of the rings *)

Lemma buckets_NoDup : NoDup buckets.
Proof. decide_now. Qed.

Lemma wring_set p l k q : wring (set_wring p l k) q = if decide (q = p) then l else wring k q.
Proof.
  unfold wring, set_wring. simpl. case_decide as E.
  - subst. by rewrite lookup_insert_eq.
  - by rewrite lookup_insert_ne.
Qed.

Lemma num_set q n k iq e :
  _EventWaitNum (set_num q n k) iq e = if decide ((e, iq) = q) then n else _EventWaitNum k iq e.
Proof.
  unfold _EventWaitNum, set_num. simpl. case_decide as E.
  - subst. by rewrite lookup_insert_eq.
  - by rewrite lookup_insert_ne.
Qed.

(** One ring gains [x]. *)
Lemma wview_grow k k' e iq b x :
  is_prio k' e = is_prio k e -> b ∈ buckets -> (is_prio k e = false -> b = 0) ->
  wring k' (e, iq, b) ≡ₚ x :: wring k (e, iq, b) ->
  (forall p, p <> (e, iq, b) -> wring k' p = wring k p) ->
  wview k' e iq ≡ₚ x :: wview k e iq.
Proof.
  intros Hp Hb Hf Hperm Hne. unfold wview. rewrite Hp. destruct (is_prio k e).
  - apply (concat_update_perm (fun b => wring k (e, iq, b)) _ x b); [apply buckets_NoDup|done|done|].
    intros c Hc. apply Hne. congruence.
  - specialize (Hf eq_refl) as ->. by rewrite !reverse_Permutation.
Qed.

Lemma wview_frame k k' e iq :
  is_prio k' e = is_prio k e -> (forall b, wring k' (e, iq, b) = wring k (e, iq, b)) ->
  wview k' e iq = wview k e iq.
Proof.
  intros Hp Hr. unfold wview. rewrite Hp, Hr. destruct (is_prio k e); [|done].
  f_equal. apply list_fmap_ext. intros i c _. apply Hr.
Qed.

Section Views.
Variable idle : Z -> Z.
Variable B D : Z -> Z.

Lemma wait_at_bucket k t e iq b : kern_ok idle B D k -> wait_at k t = Some (e, iq, b) ->
  b ∈ buckets /\ (is_prio k e = false -> b = 0) /\ (iq = 0 \/ iq = 1) /\ is_Some (K_event k !! e) /\
  exists w, K_wait k !! t = Some w /\ TCB_peventPtr w = Some e /\ TCB_iPendQ w = iq /\
    (is_prio k e = true -> TCB_ppringPriorityQueue w = (e, iq, b)).
Proof.
  intros Hk. unfold wait_at, place. destruct (K_wait k !! t) as [w|] eqn:Ew; [|done]. cbn [mbind option_bind].
  pose proof (th_place B D k t w (ko_thread idle B D k Hk t w Ew)) as Hp. unfold place_ok in Hp.
  destruct (TCB_peventPtr w) as [e'|] eqn:Ee; [|done]. cbn [mbind option_bind].
  destruct Hp as (He & Hq & _ & _ & _ & Hpr). destruct (is_prio k e') eqn:Epr.
  - destruct (Hpr eq_refl) as (b' & Hb' & Hpq). rewrite Hpq. intros [= <- <- <-].
    splits; [done|congruence|done|done|]. exists w. splits; try done.
  - intros [= <- <- <-]. splits; [decide_now|done|done|done|]. exists w. splits; try done. congruence.
Qed.

Lemma elem_of_wview k e iq t : kern_ok idle B D k ->
  t ∈ wview k e iq <-> exists b, wait_at k t = Some (e, iq, b).
Proof.
  intros Hk. pose proof (ro_ring k (ko_rings idle B D k Hk)) as Hr. unfold wview.
  destruct (is_prio k e) eqn:Ep.
  - rewrite elem_of_concat_fmap. split.
    + intros (b & _ & Ht). exists b. by apply Hr.
    + intros (b & Hw). exists b. split; [by apply (wait_at_bucket k t e iq b)|by apply Hr].
  - rewrite elem_of_reverse, Hr. split; [by eexists|]. intros (b & Hw).
    destruct (wait_at_bucket k t e iq b Hk Hw) as (_ & Hb & _). by rewrite <-Hb.
Qed.

Lemma wview_NoDup k e iq : kern_ok idle B D k -> NoDup (wview k e iq).
Proof.
  intros Hk. pose proof (ko_rings idle B D k Hk) as [Hr Hnd _]. unfold wview. destruct (is_prio k e).
  - apply NoDup_concat_fmap; [apply buckets_NoDup|intros; apply Hnd|].
    intros a b x _ _ Ha%Hr Hb%Hr. congruence.
  - by rewrite reverse_Permutation.
Qed.

Lemma wview_waiting k e iq t : kern_ok idle B D k -> t ∈ wview k e iq -> is_Some (K_wait k !! t).
Proof.
  intros Hk (b & Hw)%elem_of_wview; [|done]. unfold wait_at in Hw.
  destruct (K_wait k !! t); [by eexists|done].
Qed.

(** A queue never holds 65536 threads. *)
Lemma wview_room k e iq t : kern_ok idle B D k -> is_Some (K_wait k !! t) -> t ∉ wview k e iq ->
  Z.of_nat (length (wview k e iq)) + 1 < 2 ^ 16.
Proof.
  intros Hk Ht Hn. pose proof (ko_size idle B D k Hk) as Hs.
  assert (Hnd : NoDup (t :: wview k e iq)) by (constructor; [done|by apply wview_NoDup]).
  assert (Hle : (size (list_to_set (t :: wview k e iq) : gset Z) <= size (dom (K_wait k)))%nat).
  { apply subseteq_size. intros u Hu. apply elem_of_list_to_set in Hu. apply elem_of_dom.
    apply elem_of_cons in Hu as [->|Hu]; [done|by eapply wview_waiting]. }
  rewrite size_list_to_set in Hle by done. rewrite size_dom in Hle. simpl in Hle. lia.
Qed.

Lemma wview_room' k e iq : kern_ok idle B D k -> Z.of_nat (length (wview k e iq)) < 2 ^ 16.
Proof.
  intros Hk. pose proof (ko_size idle B D k Hk) as Hs.
  assert (Hle : (size (list_to_set (wview k e iq) : gset Z) <= size (dom (K_wait k)))%nat).
  { apply subseteq_size. intros u Hu. apply elem_of_list_to_set in Hu. apply elem_of_dom.
    by eapply wview_waiting. }
  rewrite size_list_to_set in Hle by (by apply wview_NoDup). rewrite size_dom in Hle. lia.
Qed.

(** The rings after thread [t] has entered ring [(e, iq, b)]. *)
Lemma rings_add k k' t e iq b :
  kern_ok idle B D k -> is_Some (K_wait k !! t) -> wait_at k t = None ->
  (forall e, is_prio k' e = is_prio k e) -> b ∈ buckets -> (is_prio k e = false -> b = 0) ->
  wring k' (e, iq, b) ≡ₚ t :: wring k (e, iq, b) ->
  (forall p, p <> (e, iq, b) -> wring k' p = wring k p) ->
  (forall e' iq', _EventWaitNum k' iq' e' =
     if decide ((e', iq') = (e, iq)) then wrap 16 (_EventWaitNum k iq e + 1) else _EventWaitNum k iq' e') ->
  wait_at k' t = Some (e, iq, b) -> (forall u, u <> t -> wait_at k' u = wait_at k u) ->
  rings_ok k'.
Proof.
  intros Hk Hd Hn Hp Hb Hb0 Hperm Hne Hnum Ht Hu. pose proof (ko_rings idle B D k Hk) as [Hr Hnd Hnm].
  assert (Htn : forall p, t ∉ wring k p) by (intros p H%Hr; congruence).
  assert (Hperm' : forall p, wring k' p ≡ₚ (if decide (p = (e, iq, b)) then [t] else []) ++ wring k p).
  { intros p. case_decide as E; [subst; exact Hperm|by rewrite Hne]. }
  split.
  - intros p u. rewrite Hperm', elem_of_app, Hr. destruct (decide (u = t)) as [->|Hut].
    + rewrite Ht, Hn. case_decide as E; [subst|]; split.
      * done.
      * intros _. left. left.
      * intros [?%not_elem_of_nil|?]; done.
      * intros [= <-]. done.
    + rewrite (Hu u Hut). case_decide; [rewrite list_elem_of_singleton|rewrite elem_of_nil]; naive_solver.
  - intros p. rewrite Hperm'. apply NoDup_app. split; [case_decide; [apply NoDup_singleton|constructor]|].
    split; [|apply Hnd]. intros x Hx. case_decide; [|by apply not_elem_of_nil in Hx].
    apply list_elem_of_singleton in Hx as ->. apply Htn.
  - intros e' iq'. rewrite Hnum. case_decide as E.
    + injection E as -> ->. rewrite (wview_grow k k' e iq b t); try done.
      assert (t ∉ wview k e iq).
      { intros (b' & Hw)%elem_of_wview; [|done]. congruence. }
      rewrite Hnm. pose proof (wview_room k e iq t Hk Hd H). rewrite wrap_small; simpl; lia.
    + rewrite (wview_frame k k' e' iq'); [apply Hnm|done|]. intros c. apply Hne. intros [= -> -> _]. done.
Qed.

(** The rings after thread [t] has left its ring. *)
Lemma rings_del k k' t e iq b :
  kern_ok idle B D k -> wait_at k t = Some (e, iq, b) ->
  (forall e, is_prio k' e = is_prio k e) ->
  wring k (e, iq, b) ≡ₚ t :: wring k' (e, iq, b) ->
  (forall p, p <> (e, iq, b) -> wring k' p = wring k p) ->
  (forall e' iq', _EventWaitNum k' iq' e' =
     if decide ((e', iq') = (e, iq)) then wrap 16 (_EventWaitNum k iq e + -1) else _EventWaitNum k iq' e') ->
  wait_at k' t = None -> (forall u, u <> t -> wait_at k' u = wait_at k u) ->
  rings_ok k'.
Proof.
  intros Hk Hw Hp Hperm Hne Hnum Ht Hu. pose proof (ko_rings idle B D k Hk) as [Hr Hnd Hnm].
  destruct (wait_at_bucket k t e iq b Hk Hw) as (Hb & Hb0 & _).
  assert (Hperm' : forall p, wring k p ≡ₚ (if decide (p = (e, iq, b)) then [t] else []) ++ wring k' p).
  { intros p. case_decide as E; [subst; exact Hperm|by rewrite Hne]. }
  assert (Htn : forall p, t ∉ wring k' p).
  { intros p Hin. assert (Hp' : t ∈ wring k p) by (rewrite Hperm', elem_of_app; by right).
    apply Hr in Hp'. rewrite Hw in Hp'. injection Hp' as <-. specialize (Hnd (e, iq, b)).
    rewrite Hperm in Hnd. by apply NoDup_cons in Hnd as [? _]. }
  split.
  - intros p u. destruct (decide (u = t)) as [->|Hut].
    + rewrite Ht. split; [by intros ?%Htn|done].
    + rewrite (Hu u Hut), <-Hr, Hperm', elem_of_app.
      case_decide; [rewrite list_elem_of_singleton|rewrite elem_of_nil]; naive_solver.
  - intros p. specialize (Hnd p). rewrite Hperm' in Hnd. by apply NoDup_app in Hnd as (_ & _ & ?).
  - intros e' iq'. rewrite Hnum. case_decide as E.
    + injection E as -> ->.
      assert (Hv : wview k e iq ≡ₚ t :: wview k' e iq).
      { apply (wview_grow k' k e iq b t); try done.
        - by rewrite Hp.
        - intros p Hne'. by rewrite Hne. }
      rewrite Hnm, Hv. pose proof (wview_room' k e iq Hk) as Hrm. rewrite Hv in Hrm. simpl in *.
      rewrite wrap_small; lia.
    + rewrite (wview_frame k k' e' iq'); [apply Hnm|done|]. intros c. apply Hne. intros [= -> -> _]. done.
Qed.

End Views.

(** ** One thread changes *)

(** The rest of the state is as before: the options and the existence of the
    events, the event sets, the other threads. *)
Definition same_events (k k' : KERNEL) : Prop :=
  (forall e, eopt k' e = eopt k e) /\ forall e, is_Some (K_event k' !! e) <-> is_Some (K_event k !! e).
Definition others (k k' : KERNEL) (t : Z) : Prop := forall u, u <> t ->
  K_wait k' !! u = K_wait k !! u /\ sview (K_sched k') u = sview (K_sched k) u /\
  (u ∈ WU_line (K_wuDelay k') <-> u ∈ WU_line (K_wuDelay k)).

Lemma same_events_prio k k' e : same_events k k' -> is_prio k' e = is_prio k e.
Proof. intros [H _]. unfold is_prio. by rewrite H. Qed.

Lemma place_same k k' w : same_events k k' -> place k' w = place k w.
Proof.
  intros H. unfold place. destruct (TCB_peventPtr w) as [e|]; [|done]. cbn [mbind option_bind].
  by rewrite (same_events_prio k k').
Qed.

Lemma place_ok_same B k k' w : same_events k k' -> place_ok B k w -> place_ok B k' w.
Proof.
  intros H. unfold place_ok. destruct (TCB_peventPtr w) as [e|]; [|done].
  rewrite (same_events_prio k k') by done. destruct H as [_ H]. by rewrite H.
Qed.

Lemma wait_at_other k k' t u : same_events k k' -> others k k' t -> u <> t -> wait_at k' u = wait_at k u.
Proof.
  intros He Ho Hu. unfold wait_at. destruct (Ho u Hu) as (-> & _).
  destruct (K_wait k !! u) as [w|]; [|done]. cbn [mbind option_bind]. by apply place_same.
Qed.

Lemma size_alter {A} (f : A -> A) t (m : gmap Z A) : size (alter f t m) = size m.
Proof. rewrite <-!size_dom. by rewrite dom_alter_L. Qed.

Lemma kern_ok_step idle B D D' k k' t w' :
  kern_ok idle B D k -> same_events k k' -> others k k' t ->
  sys_inv idle (K_sched k') -> size (K_wait k') = size (K_wait k) ->
  K_wait k' !! t = Some w' -> is_Some (K_wait k !! t) -> is_Some (sview (K_sched k) t) ->
  same_dom (K_wun k) (K_wun k') ->
  (forall u w, u <> t -> K_wait k !! u = Some w -> esn_ok k u w -> esn_ok k' u w) ->
  (forall e E, K_es k' !! e = Some E -> NoDup (EVENTSET_plineWaitList E) /\
    forall u, u ∈ EVENTSET_plineWaitList E -> is_Some (K_wait k' !! u)) ->
  rings_ok k' -> thread_ok B D' k' t w' -> (forall u, u <> t -> D' u = D u) ->
  kern_ok idle B D' k'.
Proof.
  intros Hk He Ho Hs Hsz Hw' Hw Hst Hdom Hesn Hes Hr Ht HD.
  assert (Hdw : forall u, is_Some (K_wait k' !! u) <-> is_Some (K_wait k !! u)).
  { intros u. destruct (decide (u = t)) as [->|Hu]; [rewrite Hw'; by split|]. by destruct (Ho u Hu) as (-> & _). }
  split; try done.
  - intros u. rewrite Hdw, (ko_dom idle B D k Hk). destruct (decide (u = t)) as [->|Hu].
    + destruct (th_status _ _ _ _ _ Ht) as (p & st & Hv & _). unfold sview in *.
      destruct (tcbs (K_sched k') !! t), (tcbs (K_sched k) !! t); try done; by destruct Hst.
    + destruct (Ho u Hu) as (_ & E & _). unfold sview in E.
      destruct (tcbs (K_sched k') !! u), (tcbs (K_sched k) !! u); done.
  - rewrite Hsz. apply Hk.
  - intros u Hu. rewrite Hdw. destruct (decide (u = t)) as [->|Hne]; [done|].
    apply (ko_line idle B D k Hk). by apply (Ho u Hne).
  - intros u w Hwu. destruct (decide (u = t)) as [->|Hne]; [congruence|].
    destruct (Ho u Hne) as (Ew & Ev & El). rewrite Ew in Hwu.
    pose proof (ko_thread idle B D k Hk u w Hwu) as [(p & st & H1 & H2) H3 H4 H5]. split.
    + exists p, st. rewrite Ev. split; [done|]. unfold status_ok in *. by rewrite (HD u Hne), El.
    + by apply (place_ok_same B k).
    + by apply Hesn.
    + by apply Hdom.
Qed.

(** A thread that is not ready is no idle thread. *)
Lemma waiting_not_idle idle s t p st : sys_inv idle s -> sview s t = Some (p, st) -> st <> 0 -> not_idle idle s t.
Proof.
  intros Hi Hv Hst i Hid ->. destruct (si_idle idle s Hi i Hid) as (T & HT & _ & _ & Hr).
  destruct (sview_some s (idle i) p st Hv) as (T' & HT' & _ & Es). rewrite HT in HT'. injection HT' as <-.
  unfold __LW_THREAD_IS_READY in Hr. apply Z.eqb_eq in Hr. apply Hst; rewrite <-Es; exact Hr.
Qed.

Lemma q_remove_notin x q : x ∉ q.*1 -> q_remove x q = q.
Proof.
  induction q as [|[y d] q IH]; [done|]. cbn [fmap list_fmap fst]. intros [Hne Hn]%not_elem_of_cons.
  cbn [q_remove]. rewrite (proj2 (Z.eqb_neq y x)) by congruence. f_equal. by apply IH.
Qed.

Lemma line_queue_other l m m' q : line_queue l m q -> (forall x, x ∈ l -> m' !! x = m !! x) -> line_queue l m' q.
Proof.
  intros (El & Hn & Hd & Hb) H. split; [done|]. split; [done|]. split; [|done].
  eapply deltas_ext; [|done]. intros x Hx. apply H. by rewrite El.
Qed.

Section Steps.
Variable idle : Z -> Z.

(** What a step changes: the scheduler's view of [t], the delay line. *)
Record sched_step (k : KERNEL) (s' : SCHED) (w' : LW_CLASS_WAKEUP) (m' : nodes) (t p st' : Z)
    (upd : queue -> queue) : Prop := {
  ss_inv : sys_inv idle s';
  ss_chg : schg (K_sched k) s' t (p, st');
  ss_line : forall u, u <> t -> u ∈ WU_line w' <-> u ∈ WU_line (K_wuDelay k);
  ss_dom : same_dom (K_wun k) m';
  ss_queue : forall q, line_queue (WU_line (K_wuDelay k)) (K_wun k) q -> line_queue (WU_line w') m' (upd q)
}.

Lemma start_delay_spec k t p st n :
  sys_inv idle (K_sched k) -> delay_ok k -> sview (K_sched k) t = Some (p, st) -> st <> 0 ->
  has_option st LW_THREAD_STATUS_DELAY = false -> t ∉ WU_line (K_wuDelay k) ->
  K_wun k !! t = Some n -> 0 <= WUN_ulCounter n <= ULONG_MAX ->
  exists s' w' m' st', start_delay k t = Some (set_delay w' m' (set_sched s' k)) /\
    sched_step k s' w' m' t p st'
      (fun q => if WUN_ulCounter n =? 0 then q else q_insert t (WUN_ulCounter n) q) /\
    Z.land st' WAIT_BITS = Z.land st WAIT_BITS /\ st' <> 0 /\
    (has_option st' LW_THREAD_STATUS_DELAY = true <-> t ∈ WU_line w').
Proof.
  intros Hi [q0 Hq0] Hv Hst Hd Ht Hn Hc. unfold start_delay. rewrite Hn. cbn [mbind option_bind].
  destruct (Z.eqb_spec (WUN_ulCounter n) 0) as [E0|E0]; cbn [negb].
  { exists (K_sched k), (K_wuDelay k), (K_wun k), st. splits; try done.
    - by destruct k.
    - split; try done. split; [done|]. intros u. case_decide; [by subst|done].
    - rewrite Hd. split; [done|]. by intros ?%Ht. }
  unfold __ADD_TO_WAKEUP_LINE, status. destruct (sview_some _ _ _ _ Hv) as (T & HT & Ep & Es).
  rewrite HT. cbn [fmap option_fmap option_map mbind option_bind]. rewrite Es.
  destruct (delay_set st) as [Hb1 Hb2].
  assert (Hst' : Z.lor st LW_THREAD_STATUS_DELAY <> 0) by (intros E; rewrite E in Hb1; done).
  destruct (sched_status idle (K_sched k) t p st (Z.lor st LW_THREAD_STATUS_DELAY)) as [Hi' Hch]; try done.
  { by eapply waiting_not_idle. }
  assert (Hspec : forall q, line_queue (WU_line (K_wuDelay k)) (K_wun k) q ->
    exists m', _WakeupAdd (K_wuDelay k) (K_wun k) t false 0
      = Some (set_line (q_insert t (WUN_ulCounter n) q).*1 (K_wuDelay k), m', false) /\
    line_queue (q_insert t (WUN_ulCounter n) q).*1 m' (q_insert t (WUN_ulCounter n) q)).
  { intros q Hq. destruct (add_spec (K_wuDelay k) (K_wun k) q t n false 0 Hq eq_refl Ht Hn Hc) as (m' & E & H & _).
    by exists m'. }
  destruct (Hspec q0 Hq0) as (m' & E & Hq').
  cbn [set_status set_sched K_wuDelay K_wun]. rewrite E. cbn [mbind option_bind].
  eexists _, _, m', _. split; [reflexivity|]. split; [split; try done|splits; try done].
  - intros u Hu. cbn [set_line WU_line]. rewrite q_insert_perm. destruct Hq0 as (El & _). rewrite El.
    cbn [fmap list_fmap fst]. rewrite elem_of_cons. naive_solver.
  - by eapply add_dom.
  - intros q Hq. destruct (Hspec q Hq) as (m2 & E2 & Hq2). rewrite E in E2. injection E2 as El ->. cbn [set_line WU_line]. by rewrite El.
  - cbn [set_line WU_line]. rewrite q_insert_perm. cbn [fmap list_fmap fst]. rewrite Hb1.
    split; [left|done].
Qed.

Lemma stop_delay_spec k t p st n :
  sys_inv idle (K_sched k) -> delay_ok k -> sview (K_sched k) t = Some (p, st) ->
  Z.land st WAIT_BITS <> 0 -> K_wun k !! t = Some n ->
  (has_option st LW_THREAD_STATUS_DELAY = true <-> t ∈ WU_line (K_wuDelay k)) ->
  exists s' w' m' st', stop_delay k t = Some (set_delay w' m' (set_sched s' k)) /\
    sched_step k s' w' m' t p st' (q_remove t) /\
    Z.land st' WAIT_BITS = Z.land st WAIT_BITS /\ has_option st' LW_THREAD_STATUS_DELAY = false /\
    t ∉ WU_line w'.
Proof.
  intros Hi [q0 Hq0] Hv Hb Hn Hd. unfold stop_delay, status.
  destruct (sview_some _ _ _ _ Hv) as (T & HT & Ep & Es). rewrite HT.
  cbn [fmap option_fmap option_map mbind option_bind]. rewrite Es.
  destruct (has_option st LW_THREAD_STATUS_DELAY) eqn:Eh.
  2:{ assert (Htl : t ∉ WU_line (K_wuDelay k)) by (intros H%Hd; done).
      exists (K_sched k), (K_wuDelay k), (K_wun k), st. splits; try done.
      - by destruct k.
      - split; try done.
        + split; [done|]. intros u. case_decide; [by subst|done].
        + intros q Hq. rewrite q_remove_notin; [done|]. destruct Hq as (<- & _). done. }
  assert (Htl : t ∈ WU_line (K_wuDelay k)) by (by apply Hd).
  unfold __DEL_FROM_WAKEUP_LINE, status. rewrite HT. cbn [fmap option_fmap option_map mbind option_bind].
  rewrite Es. destruct (delay_clear st) as [Hb1 Hb2].
  assert (Hst' : Z.ldiff st LW_THREAD_STATUS_DELAY <> 0).
  { apply (land_nonzero _ WAIT_BITS). by rewrite Hb2. }
  assert (Hst : st <> 0) by (by apply (land_nonzero _ WAIT_BITS)).
  destruct (sched_status idle (K_sched k) t p st (Z.ldiff st LW_THREAD_STATUS_DELAY)) as [Hi' Hch]; try done.
  { by eapply waiting_not_idle. }
  destruct (del_spec (K_wuDelay k) (K_wun k) q0 t false 0 Hq0 eq_refl Htl) as (m' & E & Hq' & _).
  cbn [set_status set_sched K_wuDelay K_wun]. rewrite E. cbn [mbind option_bind].
  set (w' := set_line _ _) in *.
  assert (El : WU_line w' = remove_node t (WU_line (K_wuDelay k))).
  { unfold w'. cbn [set_line WU_line]. pose proof Hq0 as (El & Hnd & _). rewrite El. apply q_remove_fst. by rewrite <-El. }
  assert (Hnd : NoDup (WU_line (K_wuDelay k))) by apply Hq0.
  assert (Htn : t ∉ WU_line w').
  { rewrite El. intros H%elem_of_remove_node; [|done]. by destruct H. }
  eexists _, w', _, _. split; [reflexivity|]. split; [split; try done|splits; try done].
  - intros u Hu. rewrite El, elem_of_remove_node by done. naive_solver.
  - eapply same_dom_trans; [by eapply del_dom|apply same_dom_counter].
  - intros q Hq. destruct (del_spec (K_wuDelay k) (K_wun k) q t false 0 Hq eq_refl Htl) as (m2 & E2 & Hq2 & _).
    rewrite E in E2. injection E2 as E2 <-.
    assert (Elq : (q_remove t q).*1 = WU_line w').
    { rewrite El. destruct Hq as (Elq & Hndq & _). rewrite Elq. apply q_remove_fst. by rewrite <-Elq. }
    rewrite <-Elq. eapply line_queue_other; [exact Hq2|]. intros x Hx. rewrite Elq in Hx.
    cbn [set_TCB_ulDelay set_delay K_wun]. rewrite lookup_counter, decide_False; [done|]. by intros ->.
Qed.
End Steps.

(** ** Waking up *)

(** One thread's control block was written. *)
Lemma lookup_upd_wait k t f u :
  K_wait (upd_wait t f k) !! u = if decide (u = t) then f <$> K_wait k !! u else K_wait k !! u.
Proof. simpl. case_decide; [subst; apply lookup_alter_eq|by apply lookup_alter_ne]. Qed.

Lemma others_trans k1 k2 k3 t : others k1 k2 t -> others k2 k3 t -> others k1 k3 t.
Proof.
  intros H1 H2 u Hu. destruct (H1 u Hu) as (A1 & B1 & C1), (H2 u Hu) as (A2 & B2 & C2).
  splits; [congruence..|tauto].
Qed.

Lemma ready_if_gen idle k s0 t p st st' a :
  sys_inv idle s0 -> sview s0 t = Some (p, st) -> st <> 0 ->
  K_sched k = upd_tcb t (set_TCB_usStatus st') s0 ->
  exists s', ready_if k t a = Some (set_sched s' k) /\ sys_inv idle s' /\ schg s0 s' t (p, st').
Proof.
  intros Hi Hv Hst Ek. pose proof (waiting_not_idle idle _ t p st Hi Hv Hst) as Hid. unfold ready_if.
  destruct (sview_some _ _ _ _ Hv) as (T0 & HT0 & Ep & Es). rewrite Ek.
  destruct (decide (st' = 0)) as [->|Hst'].
  - destruct (sched_wake idle s0 t p st a Hi Hv Hst) as (T & s' & HT & HS & E & Hi' & Hch).
    rewrite HT. cbn [mbind option_bind]. unfold __LW_THREAD_IS_READY. rewrite HS.
    change (0 =? LW_THREAD_STATUS_RDY) with true. cbv iota. rewrite E. cbn [mbind option_bind].
    by exists s'.
  - destruct (sched_status idle s0 t p st st') as [Hi' Hch]; try done.
    rewrite lookup_upd_tcb, decide_True, HT0 by done. cbn [fmap option_fmap option_map mbind option_bind].
    unfold __LW_THREAD_IS_READY. cbn [set_TCB_usStatus TCB_usStatus].
    change LW_THREAD_STATUS_RDY with 0. rewrite (proj2 (Z.eqb_neq st' 0)) by done.
    exists (K_sched k). split; [by destruct k|]. rewrite Ek. by split.
Qed.

Lemma ready_if_spec idle k t p st st' a :
  sys_inv idle (K_sched k) -> sview (K_sched k) t = Some (p, st) -> st <> 0 ->
  exists s', ready_if (set_status t st' k) t a = Some (set_sched s' k) /\
    sys_inv idle s' /\ schg (K_sched k) s' t (p, st').
Proof.
  intros Hi Hv Hst.
  destruct (ready_if_gen idle (set_status t st' k) (K_sched k) t p st st' a) as (s' & E & H); try done.
  by exists s'.
Qed.

(** The fields that a wait leaves alone. *)
Definition keeps (w w' : WAIT) : Prop :=
  TCB_ulThreadSafeCounter w' = TCB_ulThreadSafeCounter w /\
  TCB_iDeleteProcStatus w' = TCB_iDeleteProcStatus w /\ TCB_ulEventSets w' = TCB_ulEventSets w.

(** The parts of the state a wake-up or a block of one thread leaves alone. *)
Record frame_of (k k' : KERNEL) (t : Z) : Prop := {
  fr_others : others k k' t;
  fr_event : K_event k' = K_event k;
  fr_es : K_es k' = K_es k;
  fr_esn : K_esn k' = K_esn k;
  fr_resrc : K_resrcEvent k' = K_resrcEvent k;
  fr_resrces : K_resrcEventSet k' = K_resrcEventSet k;
  fr_max : LW_CFG_MAX_EVENTS k' = LW_CFG_MAX_EVENTS k;
  fr_maxes : LW_CFG_MAX_EVENTSETS k' = LW_CFG_MAX_EVENTSETS k;
  fr_prio : fst <$> sview (K_sched k') t = fst <$> sview (K_sched k) t;
  fr_size : size (K_wait k') = size (K_wait k);
  fr_dom : same_dom (K_wun k) (K_wun k')
}.

Lemma frame_of_trans k1 k2 k3 t : frame_of k1 k2 t -> frame_of k2 k3 t -> frame_of k1 k3 t.
Proof.
  intros [] []. split; try congruence.
  - by eapply others_trans.
  - by eapply same_dom_trans.
Qed.

Lemma frame_same_events k k' t : frame_of k k' t -> same_events k k'.
Proof. intros []. split; intros e; [unfold eopt|]; by rewrite fr_event0. Qed.

(** A ghost for one wake-up under way. *)
Definition under_way (t b : Z) : Z -> Z := fun u => if decide (u = t) then b else 0.

(** The state after [_EventReady*LowLevel], seen with the wait already ended. *)
Definition ended (t : Z) (k : KERNEL) : KERNEL := upd_wait t (set_TCB_peventPtr None) k.

Lemma high_level_spec idle B k t b a :
  kern_ok idle B (under_way t b) (ended t k) -> delay_ok k ->
  b <> 0 -> Z.land b WAIT_BITS = b ->
  (exists w, K_wait k !! t = Some w /\ TCB_ucWaitTimeout w = LW_WAIT_TIME_CLEAR /\ TCB_pesnPtr w = None) ->
  exists k', _EventReadyHighLevel k t b a = Some k' /\ kern_inv idle B k' /\ frame_of k k' t /\
    K_wait k' = K_wait (ended t k) /\ K_wlQ k' = K_wlQ k /\ K_usNum k' = K_usNum k /\
    K_wuDelay k' = K_wuDelay k /\ K_wun k' = K_wun k.
Proof.
  intros Hk Hdel Hb Hbb (w & Hw & Hto & Hes). unfold _EventReadyHighLevel. fold (ended t k).
  assert (Hw1 : K_wait (ended t k) !! t = Some (set_TCB_peventPtr None w)).
  { unfold ended. by rewrite lookup_upd_wait, decide_True, Hw. }
  rewrite Hw1. cbn [mbind option_bind]. cbn [TCB_ucWaitTimeout set_TCB_peventPtr]. rewrite Hto.
  change (negb (LW_WAIT_TIME_CLEAR =? 0)) with false. cbv iota.
  pose proof (ko_thread idle B _ _ Hk t _ Hw1) as [(p & st & Hv & Hb1 & Hd1) Hpl Hen Hwn].
  assert (Ebits : Z.land st WAIT_BITS = b).
  { rewrite Hb1. unfold wait_bits, under_way. cbn [TCB_peventPtr set_TCB_peventPtr TCB_pesnPtr].
    rewrite Hes, decide_True by done. apply Z.lor_0_l. }
  assert (Hst : st <> 0) by (apply (land_nonzero _ WAIT_BITS); congruence).
  unfold status. destruct (sview_some _ _ _ _ Hv) as (T & HT & Ep & Es). rewrite HT.
  cbn [fmap option_fmap option_map mbind option_bind]. rewrite Es.
  destruct (ready_if_spec idle (ended t k) t p st (Z.ldiff st b) a) as (s' & E & Hi' & Hch);
    [apply Hk|done|done|]. rewrite E.
  exists (set_sched s' (ended t k)). split; [done|].
  assert (Hfr : frame_of (ended t k) (set_sched s' (ended t k)) t).
  { split; try done.
    - intros u Hu. splits; [done| |done]. destruct Hch as [_ Hch]. cbn [set_sched K_sched]. by rewrite (Hch u), decide_False.
    - destruct Hch as [_ Hch]. cbn [set_sched K_sched]. by rewrite (Hch t), decide_True, Hv. }
  assert (Hfr0 : frame_of k (ended t k) t).
  { split; try done; [|by apply size_alter]. intros u Hu. splits; try done. unfold ended.
    by rewrite lookup_upd_wait, decide_False. }
  split; [|split; [by eapply frame_of_trans|by splits]]. split; [|exact Hdel].
  apply (kern_ok_step idle B (under_way t b) _ (ended t k) _ t (set_TCB_peventPtr None w) Hk); try done.
  - apply Hfr.
  - intros e E' HE. apply (ko_es idle B _ _ Hk e E' HE).
  - destruct (ko_rings idle B _ _ Hk) as [R1 R2 R3]. split; [exact R1|exact R2|exact R3].
  - split; [|exact Hpl|exact Hen|exact Hwn]. exists p, (Z.ldiff st b). split.
    + destruct Hch as [_ Hch]. cbn [set_sched K_sched]. by rewrite (Hch t), decide_True.
    + split.
      * unfold wait_bits. cbn [TCB_peventPtr set_TCB_peventPtr TCB_pesnPtr]. rewrite Hes.
        rewrite <-Ebits. apply Z.bits_inj'. intros i Hi.
        rewrite Z.land_spec, Z.ldiff_spec, Z.land_spec, Z.bits_0.
        destruct (Z.testbit st i), (Z.testbit WAIT_BITS i); done.
      * rewrite wait_clear; [exact Hd1|].
        rewrite <-Hbb, <-Z.land_assoc. change (Z.land WAIT_BITS LW_THREAD_STATUS_DELAY) with 0. apply Z.land_0_r.
  - intros u Hu. unfold under_way. by rewrite decide_False.
Qed.

(** ** Leaving a wait ring *)

(** The state after [_DelTCBFromEvent*]. *)
Definition unlinked (k : KERNEL) (t e iq b : Z) : KERNEL :=
  set_num (e, iq) (wrap 16 (_EventWaitNum k iq e + -1))
    (set_wring (e, iq, b) (remove_node t (wring k (e, iq, b))) k).

Lemma del_tcb idle B D k t e iq b : kern_ok idle B D k -> wait_at k t = Some (e, iq, b) ->
  _DelTCBFromEventFifo k t e (e, iq, b) = Some (unlinked k t e iq b).
Proof.
  intros Hk Hw. destruct (wait_at_bucket idle B D k t e iq b Hk Hw) as (_ & _ & _ & _ & w & Ew & _ & Eq & _).
  unfold _DelTCBFromEventFifo, wring_del.
  rewrite bool_decide_eq_true_2 by (by apply (ro_ring k (ko_rings _ _ _ k Hk))).
  cbn [mbind option_bind]. unfold num_add. cbn [set_wring K_wait]. rewrite Ew.
  cbn [mbind option_bind]. by rewrite Eq.
Qed.

Lemma _DelTCBFromEventPriority_eq k t e p : _DelTCBFromEventPriority k t e p = _DelTCBFromEventFifo k t e p.
Proof. done. Qed.

Lemma unlinked_ring k t e iq b p :
  wring (unlinked k t e iq b) p = if decide (p = (e, iq, b)) then remove_node t (wring k (e, iq, b)) else wring k p.
Proof. apply (wring_set (e, iq, b)). Qed.

(** The rings of a state that differs from the unlinked one in the control
    block of the thread only, its wait ended. *)
Lemma unlinked_rings idle B D k k' t e iq b :
  kern_ok idle B D k -> wait_at k t = Some (e, iq, b) -> same_events k k' -> others k k' t ->
  K_wlQ k' = K_wlQ (unlinked k t e iq b) -> K_usNum k' = K_usNum (unlinked k t e iq b) ->
  wait_at k' t = None -> rings_ok k'.
Proof.
  intros Hk Hw He Ho Hl Hn Ht.
  assert (Hr : forall p, wring k' p = wring (unlinked k t e iq b) p) by (intros p; unfold wring; by rewrite Hl).
  apply (rings_del idle B D k k' t e iq b); try done.
  - intros e'. by apply same_events_prio.
  - rewrite Hr, unlinked_ring, decide_True by done. apply remove_node_perm.
    by apply (ro_ring k (ko_rings _ _ _ k Hk)).
  - intros p Hp. by rewrite Hr, unlinked_ring, decide_False.
  - intros e' iq'. unfold _EventWaitNum at 1. rewrite Hn.
    change (_EventWaitNum (unlinked k t e iq b) iq' e' = if decide ((e', iq') = (e, iq))
      then wrap 16 (_EventWaitNum k iq e + -1) else _EventWaitNum k iq' e').
    unfold unlinked. by rewrite num_set.
  - intros u Hu. by apply (wait_at_other k k' t).
Qed.

(** The view of the queue without the thread. *)
Lemma unlinked_view idle B D k k' t e iq b :
  kern_ok idle B D k -> wait_at k t = Some (e, iq, b) -> (forall e, is_prio k' e = is_prio k e) ->
  K_wlQ k' = K_wlQ (unlinked k t e iq b) ->
  forall e' iq', wview k' e' iq' =
    if decide ((e', iq') = (e, iq)) then remove_node t (wview k e iq) else wview k e' iq'.
Proof.
  intros Hk Hw Hp Hl.
  assert (Hr : forall p, wring k' p = wring (unlinked k t e iq b) p) by (intros p; unfold wring; by rewrite Hl).
  intros e' iq'. pose proof (ko_rings _ _ _ k Hk) as [R1 R2 _].
  destruct (wait_at_bucket idle B D k t e iq b Hk Hw) as (Hb & Hb0 & _).
  case_decide as E.
  - injection E as -> ->. unfold wview. rewrite Hp. destruct (is_prio k e).
    + apply (remove_node_concat _ _ t b); try done.
      * apply buckets_NoDup.
      * by apply R1.
      * intros c _ Hc H%R1. congruence.
      * by rewrite Hr, unlinked_ring, decide_True.
      * intros c Hc. rewrite Hr, unlinked_ring, decide_False; [done|congruence].
    + specialize (Hb0 eq_refl) as ->. rewrite remove_node_reverse by done.
      by rewrite Hr, unlinked_ring, decide_True.
  - apply wview_frame; [done|]. intros c. rewrite Hr, unlinked_ring, decide_False; [done|].
    intros [= -> -> _]. done.
Qed.

(** The ring a wake-up takes the thread from holds the head of the view. *)
Lemma del_q_scan_spec k e iq t tl :
  is_prio k e = true -> wview k e iq = t :: tl ->
  exists b l, _EVENT_DEL_Q_PRIORITY k e iq = (e, iq, b) /\ wring k (e, iq, b) = t :: l.
Proof.
  intros Hp. unfold wview. rewrite Hp. unfold _EVENT_DEL_Q_PRIORITY.
  cbn [buckets fmap list_fmap concat]. change (Z.to_nat __EVENT_Q_SIZE) with 8%nat. cbn [del_q_scan].
  change (0 + 1) with 1. change (1 + 1) with 2. change (2 + 1) with 3. change (3 + 1) with 4.
  change (4 + 1) with 5. change (5 + 1) with 6. change (6 + 1) with 7. change (7 + 1) with 8.
  repeat match goal with
  | |- context [wring k (e, iq, ?b)] =>
    let E := fresh "E" in destruct (wring k (e, iq, b)) as [|x l] eqn:E;
    [|intros H; injection H as -> _; exists b, l; by split]
  end. done.
Qed.

Lemma last_reverse_head {A} (l : list A) : last l = head (reverse l).
Proof.
  induction l as [|x l IH] using rev_ind; [done|]. by rewrite last_snoc, reverse_app.
Qed.

(** The thread a wake-up picks, and the ring it leaves. *)
Lemma pick_spec idle B D k e iq t tl :
  kern_ok idle B D k -> wview k e iq = t :: tl ->
  exists b, wait_at k t = Some (e, iq, b) /\
    (is_prio k e = true -> _EVENT_DEL_Q_PRIORITY k e iq = (e, iq, b) /\
       _EventQGetTcbPriority k (e, iq, b) = Some t) /\
    (is_prio k e = false -> b = 0 /\ _EventQGetTcbFifo k (e, iq, b) = Some t).
Proof.
  intros Hk Hv. destruct (is_prio k e) eqn:Hp.
  - destruct (del_q_scan_spec k e iq t tl Hp Hv) as (b & l & E1 & E2). exists b. splits; try done.
    + apply (ro_ring k (ko_rings _ _ _ k Hk)). rewrite E2. left.
    + intros _. split; [done|]. unfold _EventQGetTcbPriority. by rewrite E2.
  - unfold wview in Hv. rewrite Hp in Hv. exists 0. splits; try done.
    + apply (ro_ring k (ko_rings _ _ _ k Hk)). rewrite <-elem_of_reverse, Hv. left.
    + intros _. split; [done|]. unfold _EventQGetTcbFifo. by rewrite last_reverse_head, Hv.
Qed.

(** Both low-level wake-ups, once the thread is picked. *)
Definition low_level (k : KERNEL) (t e msg : Z) (p : PRING) : option (KERNEL * Z) :=
  k ← _DelTCBFromEventFifo k t e p;
  let k := upd_wait t (set_TCB_pvMsgBoxMessage msg) k in
  k ← stop_delay k t;
  Some (k, t).

Lemma low_level_spec idle B k t e iq b msg :
  kern_inv idle B k -> wait_at k t = Some (e, iq, b) ->
  exists k', low_level k t e msg (e, iq, b) = Some (k', t) /\
    kern_ok idle B (under_way t (B e)) (ended t k') /\ delay_ok k' /\ frame_of k k' t /\
    K_wait k' = alter (set_TCB_pvMsgBoxMessage msg) t (K_wait k) /\
    K_wlQ k' = K_wlQ (unlinked k t e iq b) /\ K_usNum k' = K_usNum (unlinked k t e iq b) /\
    t ∉ WU_line (K_wuDelay k') /\
    (forall q, line_queue (WU_line (K_wuDelay k)) (K_wun k) q ->
       line_queue (WU_line (K_wuDelay k')) (K_wun k') (q_remove t q)).
Proof.
  intros [Hk Hdel] Hw. unfold low_level. rewrite (del_tcb idle B _ k t e iq b Hk Hw). cbn [mbind option_bind].
  destruct (wait_at_bucket idle B _ k t e iq b Hk Hw) as (Hb & Hb0 & Hiq & He & w & Ew & Ee & Eq & Epr).
  set (k2 := upd_wait t (set_TCB_pvMsgBoxMessage msg) (unlinked k t e iq b)).
  pose proof (ko_thread idle B _ k Hk t w Ew) as [(p & st & Hv & Hbits & Hdl) Hpl Hen [n Hn]].
  unfold place_ok in Hpl. rewrite Ee in Hpl. destruct Hpl as (_ & _ & HB & Hto & Hes & _).
  assert (Ebits : Z.land st WAIT_BITS = B e).
  { rewrite Hbits. unfold wait_bits. rewrite Ee. apply Z.lor_0_r. }
  assert (HB0 : B e <> 0) by (by destruct HB as [-> | ->]).
  destruct (stop_delay_spec idle k2 t p st n) as (s' & w' & m' & st' & E & Hss & Hb' & Hd' & Hl'); try done.
  { apply Hk. }
  { by rewrite Ebits. }
  rewrite E. cbn [mbind option_bind]. destruct Hss as [Si Sc Sl Sd Sq].
  set (k' := set_delay w' m' (set_sched s' k2)). exists k'. split; [done|].
  assert (Hfr : frame_of k k' t).
  { split; try done; [| |by apply size_alter].
    - intros u Hu. splits; [|by destruct Sc as [_ Sc]; cbn [k' set_delay set_sched K_sched]; rewrite (Sc u), decide_False|by apply Sl].
      unfold k', k2. cbn [set_delay set_sched K_wait]. by rewrite lookup_upd_wait, decide_False.
    - destruct Sc as [_ Sc]. cbn [k' set_delay set_sched K_sched]. rewrite (Sc t), decide_True by done. by rewrite Hv. }
  assert (Hdel' : delay_ok k') by (destruct Hdel as [q Hq]; exists (q_remove t q); by apply Sq).
  split; [|splits; try done].
  apply (kern_ok_step idle B (fun _ => 0) _ k _ t
    (set_TCB_peventPtr None (set_TCB_pvMsgBoxMessage msg w)) Hk); try done.
  - intros u Hu. destruct (fr_others _ _ _ Hfr u Hu) as (A1 & A2 & A3). splits; [|done|done].
    unfold ended. by rewrite lookup_upd_wait, decide_False.
  - unfold ended. cbn [upd_wait K_wait]. rewrite size_alter. apply Hfr.
  - unfold ended, k', k2. rewrite lookup_upd_wait, decide_True by done.
    cbn [set_delay set_sched K_wait]. rewrite lookup_upd_wait, decide_True by done.
    cbn [unlinked set_num set_wring K_wait]. by rewrite Ew.
  - intros e' E' HE. destruct (ko_es idle B _ k Hk e' E' HE) as [H1 H2]. split; [done|]. intros u Hu.
    unfold ended, k', k2. rewrite lookup_upd_wait. cbn [set_delay set_sched K_wait]. rewrite lookup_upd_wait.
    cbn [unlinked set_num set_wring K_wait]. destruct (H2 u Hu) as [wu ->]. by case_decide.
  - apply (unlinked_rings idle B _ k _ t e iq b Hk Hw); try done.
    + intros u Hu. destruct (fr_others _ _ _ Hfr u Hu) as (A1 & A2 & A3). splits; [|done|done].
      unfold ended. by rewrite lookup_upd_wait, decide_False.
    + unfold wait_at, ended, k', k2. rewrite lookup_upd_wait, decide_True by done.
      cbn [set_delay set_sched K_wait]. rewrite lookup_upd_wait, decide_True by done.
      cbn [unlinked set_num set_wring K_wait]. by rewrite Ew.
  - split; [| |done|by apply Sd; eexists].
    + exists p, st'. split.
      { destruct Sc as [_ Sc]. cbn [ended upd_wait k' set_delay set_sched K_sched]. by rewrite (Sc t), decide_True. }
      split.
      * unfold wait_bits, under_way. cbn [TCB_peventPtr set_TCB_peventPtr TCB_pesnPtr set_TCB_pvMsgBoxMessage].
        rewrite Hes, decide_True, Hb', Ebits by done. done.
      * rewrite Hd'. split; [done|]. by intros ?%Hl'.
    + done.
  - intros u Hu. unfold under_way. by rewrite decide_False.
Qed.

(** What has become of a thread that was woken from queue [(e, iq)]. *)
Record woken (k k' : KERNEL) (t e iq msg : Z) : Prop := {
  wk_frame : frame_of k k' t;
  wk_view : forall e' iq', wview k' e' iq' =
    if decide ((e', iq') = (e, iq)) then tail (wview k e iq) else wview k e' iq';
  wk_wait : exists w, K_wait k !! t = Some w /\ TCB_peventPtr w = Some e /\ TCB_iPendQ w = iq /\
    TCB_ucWaitTimeout w = LW_WAIT_TIME_CLEAR /\ TCB_pesnPtr w = None /\
    K_wait k' !! t = Some (set_TCB_pvMsgBoxMessage msg w);
  wk_line : t ∉ WU_line (K_wuDelay k');
  wk_queue : forall q, line_queue (WU_line (K_wuDelay k)) (K_wun k) q ->
    line_queue (WU_line (K_wuDelay k')) (K_wun k') (q_remove t q)
}.

(** The wake-up of a waiting thread. When a queue has waiters, the thread
    at the head of its wake-up order is taken out of the ring and off the delay line
    and receives the message; all other queues and all other threads are
    untouched. *)
Lemma event_take_spec idle B k e iq E t tl msg :
  kern_inv idle B k -> K_event k !! e = Some E -> wview k e iq = t :: tl ->
  exists k', event_take k e iq msg = Some (k', t) /\
    kern_ok idle B (under_way t (B e)) (ended t k') /\ delay_ok k' /\ woken k k' t e iq msg.
Proof.
  intros Hk HE Hv. unfold event_take. rewrite HE. cbn [mbind option_bind].
  destruct (pick_spec idle B _ k e iq t tl (proj1 Hk) Hv) as (b & Hw & Hp1 & Hp0).
  destruct (low_level_spec idle B k t e iq b msg Hk Hw) as (k' & El & Hk' & Hdel & Hfr & Hwt & Hwl & Hnum & Hln & Hq).
  exists k'. split; [|split; [done|split; [done|split; try done]]].
  - rewrite <-El. unfold low_level. assert (Ep : is_prio k e = has_option (EVENT_ulOption E) LW_OPTION_WAIT_PRIORITY).
    { unfold is_prio, eopt. by rewrite HE. }
    rewrite <-Ep. destruct (is_prio k e).
    + destruct (Hp1 eq_refl) as [-> Hg]. unfold _EventReadyPriorityLowLevel. by rewrite Hg.
    + destruct (Hp0 eq_refl) as [-> Hg]. unfold _EventReadyFifoLowLevel, _EVENT_DEL_Q_FIFO. by rewrite Hg.
  - intros e' iq'. rewrite (unlinked_view idle B _ k k' t e iq b (proj1 Hk) Hw).
    + case_decide; [|done]. rewrite Hv. simpl. by rewrite Z.eqb_refl.
    + intros e0. apply same_events_prio. by eapply frame_same_events.
    + done.
  - destruct (wait_at_bucket idle B _ k t e iq b (proj1 Hk) Hw) as (_ & _ & _ & _ & w & Ew & Ee & Eq & _).
    pose proof (th_place _ _ _ _ _ (ko_thread idle B _ k (proj1 Hk) t w Ew)) as Hpl.
    unfold place_ok in Hpl. rewrite Ee in Hpl. destruct Hpl as (_ & _ & _ & Hto & Hes & _).
    exists w. splits; try done. rewrite Hwt. by rewrite lookup_alter_eq, Ew.
Qed.

(** A frame that also keeps the wait rings. *)
Lemma wview_same k k' : K_wlQ k' = K_wlQ k -> same_events k k' -> forall e iq, wview k' e iq = wview k e iq.
Proof.
  intros Hl He e iq. apply wview_frame; [by apply same_events_prio|]. intros b. unfold wring. by rewrite Hl.
Qed.

(** Finishing a wake-up: the thread loses its wait bits. *)
Lemma high_level_woken idle B k k1 k2 t e iq msg a :
  kern_inv idle B k -> is_Some (K_event k !! e) -> woken k k1 t e iq msg ->
  kern_ok idle B (under_way t (B e)) (ended t k2) -> delay_ok k2 ->
  K_wait k2 = K_wait k1 -> 
  exists k', _EventReadyHighLevel k2 t (B e) a = Some k' /\ kern_inv idle B k' /\ frame_of k2 k' t /\
    K_wait k' = K_wait (ended t k2) /\ K_wlQ k' = K_wlQ k2 /\
    K_wuDelay k' = K_wuDelay k2 /\ K_wun k' = K_wun k2.
Proof.
  intros Hk HE Hwk Hk2 Hd2 Ew. destruct (wk_wait _ _ _ _ _ _ Hwk) as (w & H1 & H2 & H3 & H4 & H5 & H6).
  pose proof (th_place _ _ _ _ _ (ko_thread idle B _ k (proj1 Hk) t w H1)) as Hpl.
  unfold place_ok in Hpl. rewrite H2 in Hpl. destruct Hpl as (_ & _ & HB & _).
  destruct (high_level_spec idle B k2 t (B e) a Hk2 Hd2) as (k' & E & H & Hf & A1 & A2 & A3 & A4 & A5).
  - by destruct HB as [-> | ->].
  - by destruct HB as [-> | ->].
  - rewrite Ew, H6. eexists. split; [done|]. by split.
  - exists k'. by splits.
Qed.

(** The wake-up of a waiting thread, complete: it also leaves the event and
    becomes ready. *)
Lemma event_ready_spec idle B k e iq E t tl msg a :
  kern_inv idle B k -> K_event k !! e = Some E -> wview k e iq = t :: tl ->
  exists k', event_ready k e iq msg (B e) a = Some (k', t) /\ kern_inv idle B k' /\
    frame_of k k' t /\
    (forall e' iq', wview k' e' iq' = if decide ((e', iq') = (e, iq)) then tl else wview k e' iq') /\
    (exists w, K_wait k !! t = Some w /\
       K_wait k' !! t = Some (set_TCB_peventPtr None (set_TCB_pvMsgBoxMessage msg w)) /\ TCB_peventPtr w = Some e) /\
    t ∉ WU_line (K_wuDelay k') /\
    (forall q, line_queue (WU_line (K_wuDelay k)) (K_wun k) q -> line_queue (WU_line (K_wuDelay k')) (K_wun k') (q_remove t q)).
Proof.
  intros Hk HE Hv. unfold event_ready.
  destruct (event_take_spec idle B k e iq E t tl msg Hk HE Hv) as (k1 & E1 & Hk1 & Hd1 & Hwk).
  rewrite E1. cbn [mbind option_bind].
  destruct (high_level_woken idle B k k1 k1 t e iq msg a Hk) as (k' & E2 & Hk' & Hfr & A1 & A2 & A3 & A4); try done.
  rewrite E2. cbn [mbind option_bind]. exists k'. splits; try done.
  - eapply frame_of_trans; [apply Hwk|done].
  - intros e' iq'. rewrite (wview_same k1 k'); [|done|by eapply frame_same_events].
    rewrite (wk_view _ _ _ _ _ _ Hwk). case_decide; [|done]. by rewrite Hv.
  - destruct (wk_wait _ _ _ _ _ _ Hwk) as (w & H1 & He & _ & _ & _ & H6). exists w. split; [done|]. split; [|done].
    rewrite A1. unfold ended. by rewrite lookup_upd_wait, decide_True, H6.
  - rewrite A3. apply Hwk.
  - intros q Hq. rewrite A3, A4. by apply (wk_queue _ _ _ _ _ _ Hwk).
Qed.

(** ** Entering a wait ring *)

Definition kprio (k : KERNEL) (t : Z) : Z := default 0 (fst <$> sview (K_sched k) t).

Lemma prio_sview k t : prio k t = fst <$> sview (K_sched k) t.
Proof. unfold prio, sview. by destruct (tcbs (K_sched k) !! t). Qed.

(** Insertion before the first less urgent thread. *)
Fixpoint prio_insert (P : Z -> Z) (t : Z) (l : list Z) : list Z :=
  match l with [] => [t] | x :: l' => if P t <? P x then t :: l else x :: prio_insert P t l' end.

Lemma prio_insert_perm P t l : prio_insert P t l ≡ₚ t :: l.
Proof.
  induction l as [|x l IH]; [done|]. simpl. destruct (P t <? P x); [done|]. rewrite IH. apply Permutation_swap.
Qed.

Lemma prio_insert_app P t l1 l2 : (forall x, x ∈ l1 -> P x <= P t) ->
  prio_insert P t (l1 ++ l2) = l1 ++ prio_insert P t l2.
Proof.
  induction l1 as [|x l1 IH]; intros H; [done|]. simpl.
  rewrite (proj2 (Z.ltb_ge _ _)) by (apply H; left). f_equal. apply IH. intros y Hy. apply H. by right.
Qed.

Lemma prio_insert_app_r P t l1 l2 : (forall x, x ∈ l2 -> P t < P x) ->
  prio_insert P t (l1 ++ l2) = prio_insert P t l1 ++ l2.
Proof.
  intros H. induction l1 as [|x l1 IH]; simpl.
  - destruct l2 as [|y l2]; [done|]. simpl. rewrite (proj2 (Z.ltb_lt _ _)); [done|]. apply H. left.
  - destruct (P t <? P x); [done|]. by rewrite IH.
Qed.

Lemma prio_insert_ext P P' t l : (forall x, x ∈ t :: l -> P x = P' x) -> prio_insert P t l = prio_insert P' t l.
Proof.
  induction l as [|x l IH]; intros H; [done|]. simpl. rewrite (H t), (H x) by (by left || (right; left)).
  destruct (P' t <? P' x); [done|]. f_equal. apply IH. intros y Hy. apply H.
  apply elem_of_cons in Hy as [->|Hy]; [left|right; by right].
Qed.

(** The queue's threads wait in the ring of their priority. *)
Definition aligned (k : KERNEL) (e iq : Z) : Prop :=
  forall b x, x ∈ wring k (e, iq, b) -> Z.shiftr (kprio k x) __EVENT_Q_SHIFT = b.

Lemma shiftr_mono a b : Z.shiftr a 5 < Z.shiftr b 5 -> a < b.
Proof. rewrite !Z.shiftr_div_pow2 by lia. intros H. destruct (Z.le_gt_cases b a); [|done].
  pose proof (Z.div_le_mono b a (2 ^ 5)). lia. Qed.

(** Membership in a literal list. *)
#[local] Ltac in_list :=
  let c := fresh in let H := fresh in intros c H;
  repeat (apply elem_of_cons in H as [->|H]; [lia|]); by apply not_elem_of_nil in H.

(** Inserting in one ring inserts in the whole queue. *)
Lemma concat_insert P t b (f g : Z -> list Z) :
  b ∈ buckets -> Z.shiftr (P t) 5 = b -> (forall c x, x ∈ f c -> Z.shiftr (P x) 5 = c) ->
  g b = prio_insert P t (f b) -> (forall c, c <> b -> g c = f c) ->
  concat (g <$> buckets) = prio_insert P t (concat (f <$> buckets)).
Proof.
  intros Hb Ht Hf Hg Hne.
  assert (Hs : exists l1 l2, buckets = l1 ++ b :: l2 /\ (forall c, c ∈ l1 -> c < b) /\ (forall c, c ∈ l2 -> b < c)).
  { unfold buckets in *.
    repeat (apply elem_of_cons in Hb as [->|Hb]; [|try by apply not_elem_of_nil in Hb]).
    - exists [], [1; 2; 3; 4; 5; 6; 7]. splits; [done|in_list..].
    - exists [0], [2; 3; 4; 5; 6; 7]. splits; [done|in_list..].
    - exists [0; 1], [3; 4; 5; 6; 7]. splits; [done|in_list..].
    - exists [0; 1; 2], [4; 5; 6; 7]. splits; [done|in_list..].
    - exists [0; 1; 2; 3], [5; 6; 7]. splits; [done|in_list..].
    - exists [0; 1; 2; 3; 4], [6; 7]. splits; [done|in_list..].
    - exists [0; 1; 2; 3; 4; 5], [7]. splits; [done|in_list..].
    - exists [0; 1; 2; 3; 4; 5; 6], []. splits; [done|in_list..]. }
  destruct Hs as (l1 & l2 & -> & H1 & H2). rewrite !fmap_app, !concat_app, !fmap_cons. simpl.
  rewrite prio_insert_app, prio_insert_app_r, Hg.
  - f_equal; [|f_equal]; f_equal; apply list_fmap_ext; intros i c Hc; apply Hne;
      apply list_elem_of_lookup_2 in Hc; [specialize (H1 c Hc)|specialize (H2 c Hc)]; lia.
  - intros x (c & Hc & Hx)%elem_of_concat_fmap. apply shiftr_mono. rewrite Ht, (Hf c x Hx). auto.
  - intros x (c & Hc & Hx)%elem_of_concat_fmap.
    assert (P x < P t); [|lia]. apply shiftr_mono. rewrite Ht, (Hf c x Hx). auto.
Qed.

Lemma prio_scan_spec k t p l : (forall x, x ∈ t :: l -> prio k x = Some (kprio k x)) -> p = kprio k t ->
  prio_scan k t p l = Some (prio_insert (kprio k) t l).
Proof.
  intros H ->. induction l as [|x l IH]; [done|]. cbn [prio_scan prio_insert].
  rewrite (H x) by (right; left). cbn [mbind option_bind]. unfold LW_PRIO_IS_HIGH.
  destruct (kprio k t <? kprio k x); [done|]. rewrite IH; [done|].
  intros y Hy. apply H. apply elem_of_cons in Hy as [->|Hy]; [left|right; by right].
Qed.

(** The state after [_AddTCBToEvent*]. *)
Definition linkedq (k : KERNEL) (t e iq b : Z) (l : list Z) : KERNEL :=
  set_num (e, iq) (wrap 16 (_EventWaitNum k iq e + 1)) (set_wring (e, iq, b) l k).

Lemma add_fifo k t e iq b w : K_wait k !! t = Some w -> TCB_iPendQ w = iq ->
  _AddTCBToEventFifo k t e (e, iq, b) = Some (linkedq k t e iq b (t :: wring k (e, iq, b))).
Proof.
  intros Hw Hq. unfold _AddTCBToEventFifo, num_add. cbn [set_wring K_wait]. rewrite Hw.
  cbn [mbind option_bind]. by rewrite Hq.
Qed.

Lemma add_priority k t e iq b w : K_wait k !! t = Some w -> TCB_iPendQ w = iq ->
  (forall x, x ∈ t :: wring k (e, iq, b) -> prio k x = Some (kprio k x)) ->
  _AddTCBToEventPriority k t e (e, iq, b)
    = Some (linkedq k t e iq b (prio_insert (kprio k) t (wring k (e, iq, b)))).
Proof.
  intros Hw Hq Hp. unfold _AddTCBToEventPriority, num_add. rewrite (Hp t) by left.
  cbn [mbind option_bind]. destruct (wring k (e, iq, b)) as [|h l] eqn:El.
  - cbn [mbind option_bind set_wring K_wait]. rewrite Hw. cbn [mbind option_bind]. by rewrite Hq.
  - rewrite (Hp h) by (right; left). cbn [mbind option_bind prio_insert]. unfold LW_PRIO_IS_HIGH.
    destruct (kprio k t <? kprio k h) eqn:Elt; cbn [mbind option_bind].
    + cbn [set_wring K_wait]. rewrite Hw. cbn [mbind option_bind]. by rewrite Hq.
    + rewrite (prio_scan_spec k t _ l); [|intros x Hx; apply Hp; apply elem_of_cons in Hx as [->|Hx];
        [left|right; by right]|done]. cbn [mbind option_bind].
      cbn [set_wring K_wait]. rewrite Hw. cbn [mbind option_bind]. by rewrite Hq.
Qed.

(** What has become of the current thread when it waits in queue [(e, iq)],
    for [n] ticks at most (0: for ever). *)
Record parked (k k' : KERNEL) (t e iq n : Z) : Prop := {
  pk_frame : frame_of k k' t;
  pk_perm : wview k' e iq ≡ₚ t :: wview k e iq;
  pk_fifo : is_prio k e = false -> wview k' e iq = wview k e iq ++ [t];
  pk_prio : is_prio k e = true -> aligned k e iq -> wview k' e iq = prio_insert (kprio k) t (wview k e iq);
  pk_aligned : is_prio k e = true -> aligned k e iq -> aligned k' e iq;
  pk_other : forall e' iq', (e', iq') <> (e, iq) -> wview k' e' iq' = wview k e' iq';
  pk_wait : exists w w', K_wait k !! t = Some w /\ K_wait k' !! t = Some w' /\
    TCB_peventPtr w' = Some e /\ TCB_iPendQ w' = iq /\ TCB_ucIsEventDelete w' = LW_EVENT_EXIST /\
    TCB_ucWaitTimeout w' = LW_WAIT_TIME_CLEAR /\ keeps w w';
  pk_queue : forall q, line_queue (WU_line (K_wuDelay k)) (K_wun k) q ->
    line_queue (WU_line (K_wuDelay k')) (K_wun k') (if n =? 0 then q else q_insert t n q)
}.

(** The current thread, about to wait: its control block is filled in. *)
Definition prepared (k : KERNEL) (t us n : Z) (g : WAIT -> WAIT) : KERNEL :=
  set_delay (K_wuDelay k) (set_counter t n (K_wun k)) (set_status t us (upd_wait t g k)).

Definition go_wait (k : KERNEL) (t e : Z) (add : KERNEL -> option KERNEL) : option KERNEL :=
  k ← unready (upd_wait t (set_TCB_peventPtr (Some e)) k) t;
  k ← add k;
  k ← start_delay k t;
  Some (upd_wait t (set_TCB_ucIsEventDelete LW_EVENT_EXIST) k).

Lemma kprio_view k k' x : sview (K_sched k') x = sview (K_sched k) x -> kprio k' x = kprio k x.
Proof. unfold kprio. by intros ->. Qed.

Lemma frame_kprio k k' t x : frame_of k k' t -> kprio k' x = kprio k x.
Proof.
  intros H. destruct (decide (x = t)) as [->|Hx].
  - unfold kprio. by rewrite (fr_prio _ _ _ H).
  - apply kprio_view. by apply (fr_others _ _ _ H).
Qed.

Lemma running_free idle B D k t w p : kern_ok idle B D k -> K_wait k !! t = Some w ->
  sview (K_sched k) t = Some (p, 0) -> D t = 0 ->
  TCB_peventPtr w = None /\ TCB_pesnPtr w = None /\ t ∉ WU_line (K_wuDelay k) /\ wait_at k t = None.
Proof.
  intros Hk Hw Hv HD. pose proof (ko_thread idle B D k Hk t w Hw) as [(p' & st & Hv' & Hb & Hd) Hpl _ _].
  rewrite Hv in Hv'. injection Hv' as <- <-. rewrite Z.land_0_l, HD, Z.lor_0_r in Hb.
  unfold wait_bits in Hb. unfold place_ok in Hpl.
  destruct (TCB_peventPtr w) as [e|] eqn:Ee.
  { destruct Hpl as (_ & _ & [HB|HB] & _); rewrite HB in Hb; done. }
  destruct (TCB_pesnPtr w); [done|]. splits; try done.
  - intros H%Hd. done.
  - unfold wait_at. rewrite Hw. cbn [mbind option_bind]. unfold place. by rewrite Ee.
Qed.

Section Park.
Context (idle B : Z -> Z) (k : KERNEL) (t e iq b us n p : Z) (w : WAIT) (g : WAIT -> WAIT) (l : list Z)
  (add : KERNEL -> option KERNEL).
Context (Hk : kern_inv idle B k) (Hv : sview (K_sched k) t = Some (p, 0)) (Hid : not_idle idle (K_sched k) t)
  (Hw : K_wait k !! t = Some w) (He : is_Some (K_event k !! e)) (Hiq : iq = 0 \/ iq = 1)
  (HB : B e = us) (Hus : us = LW_THREAD_STATUS_SEM \/ us = LW_THREAD_STATUS_MSGQUEUE)
  (Hn : 0 <= n <= ULONG_MAX) (Hb : b ∈ buckets)
  (Hb0 : is_prio k e = false -> b = 0).
Context (Hgq : TCB_iPendQ (g w) = iq) (Hgt : TCB_ucWaitTimeout (g w) = LW_WAIT_TIME_CLEAR)
  (Hgn : TCB_pesnPtr (g w) = TCB_pesnPtr w) (Hgk : keeps w (g w))
  (Hgp : is_prio k e = true -> TCB_ppringPriorityQueue (g w) = (e, iq, b)).
Context (Hl : l ≡ₚ t :: wring k (e, iq, b))
  (Hadd : forall k3, K_wait k3 !! t = Some (set_TCB_peventPtr (Some e) (g w)) -> K_wlQ k3 = K_wlQ k ->
     (forall x, fst <$> sview (K_sched k3) x = fst <$> sview (K_sched k) x) ->
     add k3 = Some (linkedq k3 t e iq b l)).
Context (Hlf : is_prio k e = false -> l = t :: wring k (e, iq, b))
  (Hlp : is_prio k e = true -> l = prio_insert (kprio k) t (wring k (e, iq, b)) /\
     (aligned k e iq -> Z.shiftr (kprio k t) __EVENT_Q_SHIFT = b)).

Lemma go_wait_spec : exists k', go_wait (prepared k t us n g) t e add = Some k' /\
  kern_inv idle B k' /\ parked k k' t e iq n.
Proof using All.
  destruct Hk as [Hok [q0 Hq0]]. clear Hk.
  destruct (running_free idle B _ k t w p Hok Hw Hv eq_refl) as (Epe & Epn & Htl & Hwa).
  pose proof (ko_thread idle B _ k Hok t w Hw) as [_ _ Hesn [nd Hnd]].
  assert (Hus0 : us <> 0) by (by destruct Hus as [-> | ->]).
  assert (Husd : has_option us LW_THREAD_STATUS_DELAY = false) by (by destruct Hus as [-> | ->]).
  assert (Husb : Z.land us WAIT_BITS = us) by (by destruct Hus as [-> | ->]).
  unfold go_wait.
  (* the thread leaves the ready ring *)
  destruct (sched_block idle (K_sched k) t p us (ko_sched _ _ _ _ Hok) Hv Hus0 Hid)
    as (T & s1 & HT & Edel & Hi1 & Hc1).
  assert (Eun : unready (upd_wait t (set_TCB_peventPtr (Some e)) (prepared k t us n g)) t
    = Some (set_sched s1 (upd_wait t (set_TCB_peventPtr (Some e)) (prepared k t us n g)))).
  { unfold unready. cbn [upd_wait prepared set_delay set_status set_sched K_sched].
    rewrite lookup_upd_tcb, decide_True, HT by done. cbn [fmap option_fmap option_map mbind option_bind].
    change (_GetPcb (set_TCB_usStatus us T)) with (_GetPcb T). by rewrite Edel. }
  rewrite Eun. cbn [mbind option_bind].
  set (k3 := set_sched s1 _).
  assert (Hw3 : K_wait k3 !! t = Some (set_TCB_peventPtr (Some e) (g w))).
  { change (K_wait k3) with (K_wait (upd_wait t (set_TCB_peventPtr (Some e)) (prepared k t us n g))).
    rewrite lookup_upd_wait, decide_True by done.
    cbn [prepared set_delay set_status set_sched K_wait]. by rewrite lookup_upd_wait, decide_True, Hw. }
  assert (Hsv3 : forall x, sview (K_sched k3) x = if decide (x = t) then Some (p, us) else sview (K_sched k) x).
  { intros x. destruct Hc1 as [_ Hc1]. apply Hc1. }
  (* it enters the wait ring *)
  rewrite (Hadd k3 Hw3 eq_refl).
  2:{ intros x. rewrite Hsv3. case_decide; [subst; by rewrite Hv|done]. }
  cbn [mbind option_bind]. set (k4 := linkedq k3 t e iq b l).
  (* the delay starts *)
  assert (Hdq : forall q, line_queue (WU_line (K_wuDelay k)) (K_wun k) q ->
    line_queue (WU_line (K_wuDelay k4)) (K_wun k4) q).
  { intros q Hq. eapply line_queue_other; [exact Hq|]. intros x Hx.
    cbn [k4 k3 linkedq set_num set_wring set_sched upd_wait prepared set_delay set_status K_wun].
    rewrite lookup_counter, decide_False; [done|]. by intros ->. }
  assert (Hn4 : K_wun k4 !! t = Some (mkWun (WUN_bInQ nd) n)).
  { cbn [k4 k3 linkedq set_num set_wring set_sched upd_wait prepared set_delay set_status K_wun].
    by rewrite lookup_counter, decide_True, Hnd. }
  destruct (start_delay_spec idle k4 t p us (mkWun (WUN_bInQ nd) n)) as (s5 & w5 & m5 & st5 & E5 & Hs5 & Hb5 & Hz5 & Hd5);
    try done.
  { exists q0. by apply Hdq. }
  { change (K_sched k4) with (K_sched k3). by rewrite Hsv3, decide_True. }
  rewrite E5. cbn [mbind option_bind]. destruct Hs5 as [Si Sc Sl Sd Sq].
  set (k5 := set_delay w5 m5 (set_sched s5 k4)).
  set (k' := upd_wait t (set_TCB_ucIsEventDelete LW_EVENT_EXIST) k5). exists k'. split; [done|].
  set (w' := set_TCB_ucIsEventDelete LW_EVENT_EXIST (set_TCB_peventPtr (Some e) (g w))).
  assert (Hw' : K_wait k' !! t = Some w').
  { unfold k'. rewrite lookup_upd_wait, decide_True by done. change (K_wait k5) with (K_wait k3). by rewrite Hw3. }
  assert (Hwo : forall u, u <> t -> K_wait k' !! u = K_wait k !! u).
  { intros u Hu. unfold k'. rewrite lookup_upd_wait, decide_False by done.
    change (K_wait k5) with (K_wait (upd_wait t (set_TCB_peventPtr (Some e)) (prepared k t us n g))).
    rewrite lookup_upd_wait, decide_False by done. cbn [prepared set_delay set_status set_sched K_wait].
    by rewrite lookup_upd_wait, decide_False. }
  assert (Hdom : same_dom (K_wun k) m5).
  { eapply same_dom_trans; [|exact Sd]. apply same_dom_counter. }
  assert (Hfr : frame_of k k' t).
  { split; try done.
    - intros u Hu. splits; [by apply Hwo| |by apply Sl]. cbn [k' k5 upd_wait set_delay set_sched K_sched].
      destruct Sc as [_ Sc]. rewrite Sc, decide_False by done. change (K_sched k4) with (K_sched k3).
      by rewrite Hsv3, decide_False.
    - cbn [k' k5 upd_wait set_delay set_sched K_sched]. destruct Sc as [_ Sc]. by rewrite Sc, decide_True, Hv.
    - cbn. by rewrite !size_alter. }
  assert (He' : same_events k k') by (by eapply frame_same_events).
  assert (Hring : forall q, wring k' q = if decide (q = (e, iq, b)) then l else wring k q).
  { intros q. apply (wring_set (e, iq, b) l k q). }
  assert (Hgrow : forall q, q <> (e, iq, b) -> wring k' q = wring k q).
  { intros q Hq. by rewrite Hring, decide_False. }
  assert (Hwt : wait_at k' t = Some (e, iq, b)).
  { unfold wait_at. rewrite Hw'. cbn [mbind option_bind]. rewrite (place_same k k' w' He').
    unfold place. cbn [w' TCB_peventPtr set_TCB_ucIsEventDelete set_TCB_peventPtr mbind option_bind
      TCB_ppringPriorityQueue TCB_iPendQ]. rewrite Hgq. destruct (is_prio k e); [by rewrite Hgp|].
    by rewrite Hb0. }
  split; [split|].
  - apply (kern_ok_step idle B _ _ k k' t w' Hok He'); try done.
    + apply Hfr.
    + apply Hfr.
    + intros e' E' HE. destruct (ko_es idle B _ k Hok e' E' HE) as [H1 H2]. split; [done|]. intros u Hu.
      destruct (decide (u = t)) as [->|Hut]; [by rewrite Hw'|]. rewrite Hwo by done. by apply H2.
    + apply (rings_add idle B _ k k' t e iq b Hok); try done.
      * by rewrite Hring, decide_True.
      * intros e' iq'. change (_EventWaitNum k' iq' e') with
          (_EventWaitNum (set_num (e, iq) (wrap 16 (_EventWaitNum k iq e + 1)) k) iq' e'). apply num_set.
      * intros u Hu. by apply (wait_at_other k k' t); [|apply Hfr|].
    + split.
      * exists p, st5. cbn [k' k5 upd_wait set_delay set_sched K_sched]. destruct Sc as [_ Sc].
        rewrite Sc, decide_True by done. split; [done|]. split; [|exact Hd5].
        rewrite Hb5, Husb. unfold wait_bits. cbn [w' TCB_peventPtr set_TCB_ucIsEventDelete set_TCB_peventPtr].
        by rewrite HB, Z.lor_0_r.
      * unfold place_ok. cbn [w' TCB_peventPtr set_TCB_ucIsEventDelete set_TCB_peventPtr TCB_iPendQ
          TCB_ucWaitTimeout TCB_pesnPtr TCB_ppringPriorityQueue].
        rewrite Hgq, Hgt, Hgn, (same_events_prio k k') by done. splits; try done.
        { by rewrite HB. }
        { intros Hp. exists b. split; [done|by apply Hgp]. }
      * unfold esn_ok in *. cbn [w' TCB_pesnPtr set_TCB_ucIsEventDelete set_TCB_peventPtr].
        rewrite Hgn, Epn. by rewrite Epn in Hesn.
      * apply Hdom. by eexists.
  - eexists. apply Sq, Hdq, Hq0.
  - split; try done.
    + apply (wview_grow k k' e iq b t); try done.
      * by rewrite Hring, decide_True.
    + intros Hp. unfold wview. rewrite (same_events_prio k k') by done. rewrite Hp. specialize (Hb0 Hp) as Eb.
      rewrite Hring, decide_True by (by rewrite Eb). rewrite (Hlf Hp), Eb. by rewrite reverse_cons.
    + intros Hp Ha. unfold wview. rewrite (same_events_prio k k') by done. rewrite Hp.
      destruct (Hlp Hp) as [El Ebk]. apply (concat_insert (kprio k) t b (fun b => wring k (e, iq, b))); try done.
      * by apply Ebk.
      * by rewrite Hring, decide_True.
      * intros c Hc. apply Hgrow. congruence.
    + intros Hp Ha c x. rewrite Hring, (frame_kprio k k' t x Hfr). case_decide as Ec.
      * injection Ec as ->. rewrite Hl, elem_of_cons. intros [->|Hx]; [by apply (Hlp Hp)|by apply Ha].
      * apply Ha.
    + intros e' iq' Hne. apply wview_frame; [by apply same_events_prio|]. intros c. apply Hgrow. congruence.
    + exists w, w'. splits; try done; apply Hgk.
    + intros q Hq. specialize (Sq q (Hdq q Hq)). exact Sq.
Qed.
End Park.

Lemma _EventWaitFifo_eq k t e p : _EventWaitFifo k t e p = go_wait k t e (fun k => _AddTCBToEventFifo k t e p).
Proof. done. Qed.
Lemma _EventWaitPriority_eq k t e p :
  _EventWaitPriority k t e p = go_wait k t e (fun k => _AddTCBToEventPriority k t e p).
Proof. done. Qed.

(** The ticks a wait may last. *)
Definition wait_ticks (ulTimeout : Z) : Z := if ulTimeout =? LW_OPTION_WAIT_INFINITE then 0 else ulTimeout.

Lemma prio_bucket p : prio_ok p -> _EVENT_INDEX_Q_PRIORITY p = Z.shiftr p 5 /\ _EVENT_INDEX_Q_PRIORITY p ∈ buckets.
Proof.
  intros [H1 H2]. unfold _EVENT_INDEX_Q_PRIORITY, __EVENT_Q_SHIFT.
  assert (Hr : 0 <= Z.shiftr p 5 <= 7).
  { rewrite Z.shiftr_div_pow2 by lia. change (2 ^ 5) with 32. split; [apply Z.div_pos; lia|].
    assert (p / 32 < 8); [apply Z.div_lt_upper_bound; lia|lia]. }
  rewrite wrap_small by lia. split; [done|].
  assert (Z.shiftr p 5 = 0 \/ Z.shiftr p 5 = 1 \/ Z.shiftr p 5 = 2 \/ Z.shiftr p 5 = 3 \/ Z.shiftr p 5 = 4 \/
    Z.shiftr p 5 = 5 \/ Z.shiftr p 5 = 6 \/ Z.shiftr p 5 = 7) as H by lia.
  destruct H as [->|[->|[->|[->|[->|[->|[->| ->]]]]]]]; decide_now.
Qed.

(** The wait of the current thread. *)
Lemma event_pend_spec idle B k t e iq us tmo p :
  kern_inv idle B k -> sview (K_sched k) t = Some (p, 0) -> not_idle idle (K_sched k) t ->
  is_Some (K_event k !! e) -> iq = 0 \/ iq = 1 -> B e = us ->
  us = LW_THREAD_STATUS_SEM \/ us = LW_THREAD_STATUS_MSGQUEUE -> 0 <= tmo <= ULONG_MAX ->
  exists k', event_pend k t e iq us tmo = Some k' /\ kern_inv idle B k' /\ parked k k' t e iq (wait_ticks tmo).
Proof.
  intros Hk Hv Hid [E HE] Hiq HB Hus Htmo.
  destruct (sview_some _ _ _ _ Hv) as (T & HT & Ep & Es).
  destruct (proj2 (ko_dom idle B _ k (proj1 Hk) t)) as [w Hw]; [by eexists|].
  assert (Hp : prio_ok p) by (rewrite <-Ep; by apply (sw_tcb _ (si_wf _ _ (ko_sched _ _ _ _ (proj1 Hk))) t T HT)).
  assert (Hn : 0 <= wait_ticks tmo <= ULONG_MAX).
  { unfold wait_ticks, ULONG_MAX in *. destruct (tmo =? _); lia. }
  assert (Eis : is_prio k e = has_option (EVENT_ulOption E) LW_OPTION_WAIT_PRIORITY) by (unfold is_prio, eopt; by rewrite HE).
  assert (Ekp : kprio k t = p) by (unfold kprio; by rewrite Hv).
  set (g0 := fun w => set_TCB_ucWaitTimeout LW_WAIT_TIME_CLEAR (set_TCB_iPendQ iq w)).
  assert (Eprep : set_TCB_ulDelay t (wait_ticks tmo) (upd_wait t (set_TCB_ucWaitTimeout LW_WAIT_TIME_CLEAR)
      (set_status t us (upd_wait t (set_TCB_iPendQ iq) k))) = prepared k t us (wait_ticks tmo) g0).
  { unfold prepared, set_TCB_ulDelay, set_status, upd_wait, set_sched, set_delay. cbn. f_equal.
    by rewrite alter_alter_eq. }
  unfold event_pend, status. cbn [upd_wait K_sched]. rewrite HT.
  cbn [fmap option_fmap option_map mbind option_bind]. rewrite Es, Z.lor_0_l.
  fold (wait_ticks tmo). rewrite Eprep. cbn [prepared set_delay set_status set_sched upd_wait K_event].
  rewrite HE. cbn [mbind option_bind]. rewrite <-Eis. destruct (is_prio k e) eqn:Epr.
  - unfold prio. cbn [prepared set_delay set_status set_sched upd_wait K_sched].
    rewrite lookup_upd_tcb, decide_True, HT by done.
    cbn [fmap option_fmap option_map mbind option_bind set_TCB_usStatus TCB_ucPriority]. rewrite Ep.
    destruct (prio_bucket p Hp) as [Eb Hb]. set (b := _EVENT_INDEX_Q_PRIORITY p) in *.
    set (g := fun w => set_TCB_ppringPriorityQueue (e, iq, b) (g0 w)).
    assert (Eprep' : upd_wait t (set_TCB_ppringPriorityQueue (_EVENT_PRIORITY_Q_PTR e iq b))
      (prepared k t us (wait_ticks tmo) g0) = prepared k t us (wait_ticks tmo) g).
    { unfold prepared, set_status, upd_wait, set_sched, set_delay. cbn. f_equal. by rewrite alter_alter_eq. }
    rewrite Eprep', _EventWaitPriority_eq.
    apply (go_wait_spec idle B k t e iq b us (wait_ticks tmo) p w g
      (prio_insert (kprio k) t (wring k (e, iq, b)))); try done.
    + congruence.
    + apply prio_insert_perm.
    + intros k3 Hw3 Hl3 Hs3.
      assert (Hring3 : wring k3 (e, iq, b) = wring k (e, iq, b)) by (unfold wring; by rewrite Hl3).
      assert (Hkp : forall x, kprio k3 x = kprio k x) by (intros x; unfold kprio; by rewrite Hs3).
      unfold _EVENT_PRIORITY_Q_PTR. erewrite (add_priority k3 t e iq b); [|exact Hw3|done|].
      * rewrite Hring3. do 2 f_equal. apply prio_insert_ext. intros x _. apply Hkp.
      * intros x Hx. rewrite prio_sview, Hs3, Hkp. unfold kprio. rewrite Hring3 in Hx.
        assert (is_Some (sview (K_sched k) x)) as [v Hvx]; [|by rewrite Hvx].
        apply elem_of_cons in Hx as [->|Hx]; [by eexists|].
        apply (ro_ring k (ko_rings _ _ _ _ (proj1 Hk))) in Hx. unfold wait_at in Hx.
        destruct (K_wait k !! x) as [wx|] eqn:Ex; [|done].
        destruct (th_status _ _ _ _ _ (ko_thread idle B _ k (proj1 Hk) x wx Ex)) as (px & sx & Hvx & _).
        by eexists.
    + congruence.
    + intros _. split; [done|]. intros _. by rewrite Ekp.
  - rewrite _EventWaitFifo_eq.
    apply (go_wait_spec idle B k t e iq 0 us (wait_ticks tmo) p w g0 (t :: wring k (e, iq, 0))); try done.
    + decide_now.
    + congruence.
    + intros k3 Hw3 Hl3 Hs3.
      assert (Hring3 : wring k3 (e, iq, 0) = wring k (e, iq, 0)) by (unfold wring; by rewrite Hl3).
      unfold _EVENT_FIFO_Q_PTR. erewrite (add_fifo k3 t e iq 0); [|exact Hw3|done]. by rewrite Hring3.
    + congruence.
Qed.

(** ** Field writes that keep the invariant *)

Lemma others_sched k s' t v : schg (K_sched k) s' t v -> others k (set_sched s' k) t.
Proof. intros [_ H] u Hu. splits; [done| |done]. cbn [set_sched K_sched]. by rewrite H, decide_False. Qed.

Lemma set_prio_spec idle B D k t p st q :
  kern_ok idle B D k -> sview (K_sched k) t = Some (p, st) -> prio_ok q ->
  exists s', SchedSetPrio k t q = Some (set_sched s' k) /\ kern_ok idle B D (set_sched s' k) /\
    schg (K_sched k) s' t (q, st).
Proof.
  intros Hk Hv Hq. destruct (sched_prio idle (K_sched k) t p q st (ko_sched _ _ _ _ Hk) Hv Hq) as (s' & E & Hi & Hc).
  exists s'. unfold SchedSetPrio. rewrite E. split; [done|]. split; [|done].
  destruct (sview_some _ _ _ _ Hv) as (T & HT & _).
  destruct (proj2 (ko_dom idle B D k Hk t)) as [w Hw]; [by eexists|].
  pose proof (ko_thread idle B D k Hk t w Hw) as [(p' & st' & Hv' & Hst) H2 H3 H4].
  rewrite Hv in Hv'. injection Hv' as <- <-.
  apply (kern_ok_step idle B D D k _ t w Hk); try done.
  - by eapply others_sched.
  - apply Hk.
  - destruct (ko_rings _ _ _ _ Hk) as [R1 R2 R3]. split; [exact R1|exact R2|exact R3].
  - split; try done. exists q, st. destruct Hc as [_ Hc]. cbn [set_sched K_sched].
    by rewrite Hc, decide_True.
Qed.

Lemma upd_event_same k e f : (forall E, K_event k !! e = Some E -> EVENT_ulOption (f E) = EVENT_ulOption E) ->
  same_events k (upd_event e f k).
Proof.
  intros Hf. split; intros e'; unfold eopt; cbn [upd_event K_event].
  - destruct (decide (e' = e)) as [->|Hne]; [|by rewrite lookup_alter_ne]. rewrite lookup_alter_eq.
    destruct (K_event k !! e); [|done]. simpl. by apply Hf.
  - destruct (decide (e' = e)) as [->|Hne]; [|by rewrite lookup_alter_ne].
    by rewrite lookup_alter_eq, fmap_is_Some.
Qed.

(** The invariant depends on the events through their options only. *)
Lemma kern_ok_events idle B D k k' :
  kern_ok idle B D k -> same_events k k' -> K_sched k' = K_sched k -> K_wait k' = K_wait k ->
  K_wlQ k' = K_wlQ k -> K_usNum k' = K_usNum k -> K_wuDelay k' = K_wuDelay k -> K_wun k' = K_wun k ->
  K_es k' = K_es k -> K_esn k' = K_esn k -> kern_ok idle B D k'.
Proof.
  intros Hk He E1 E2 E3 E4 E5 E6 E7 E8. pose proof Hk as [K1 K2 K3 K4 K5 K6 K7].
  split; rewrite ?E1, ?E2, ?E5, ?E7; try done.
  - intros t w Hw. destruct (K5 t w Hw) as [(p & st & H1 & H2) H3 H4 H5]. split.
    + exists p, st. unfold status_ok in *. by rewrite E1, E5.
    + by apply (place_ok_same B k).
    + unfold esn_ok in *. by rewrite E7, E8.
    + by rewrite E6.
  - destruct K6 as [R1 R2 R3].
    assert (Hr : forall p, wring k' p = wring k p) by (intros p; unfold wring; by rewrite E3). split.
    + intros p t. rewrite Hr, R1. unfold wait_at. rewrite E2.
      destruct (K_wait k !! t) as [w|]; [|done]. cbn [mbind option_bind]. by rewrite (place_same k k').
    + intros p. rewrite Hr. apply R2.
    + intros e iq. unfold _EventWaitNum. rewrite E4. rewrite (wview_same k k' E3 He). apply R3.
Qed.

Lemma kern_inv_event idle B k e f : (forall E, K_event k !! e = Some E -> EVENT_ulOption (f E) = EVENT_ulOption E) ->
  kern_inv idle B k -> kern_inv idle B (upd_event e f k).
Proof.
  intros Hf [Hk Hd]. split; [|exact Hd]. apply (kern_ok_events idle B _ k); try done. by apply upd_event_same.
Qed.

(** Fields of a control block that the wait does not depend on. *)
Definition harmless_wait (f : WAIT -> WAIT) : Prop := forall w,
  TCB_iPendQ (f w) = TCB_iPendQ w /\ TCB_ucWaitTimeout (f w) = TCB_ucWaitTimeout w /\
  TCB_peventPtr (f w) = TCB_peventPtr w /\ TCB_ppringPriorityQueue (f w) = TCB_ppringPriorityQueue w /\
  TCB_pesnPtr (f w) = TCB_pesnPtr w.

Lemma upd_wait_id k t f : K_wait k !! t = None -> upd_wait t f k = k.
Proof.
  intros H. unfold upd_wait. destruct k. simpl in *. f_equal. apply map_eq. intros i.
  destruct (decide (i = t)) as [->|]; [by rewrite lookup_alter_eq, H|by rewrite lookup_alter_ne].
Qed.

Lemma kern_ok_wait idle B D k t f : harmless_wait f -> kern_ok idle B D k -> kern_ok idle B D (upd_wait t f k).
Proof.
  intros Hf Hk. destruct (K_wait k !! t) as [w|] eqn:Hw; [|by rewrite upd_wait_id].
  destruct (Hf w) as (F1 & F2 & F3 & F4 & F5).
  assert (Hw' : K_wait (upd_wait t f k) !! t = Some (f w)) by (by rewrite lookup_upd_wait, decide_True, Hw).
  assert (Ho : others k (upd_wait t f k) t).
  { intros u Hu. by rewrite lookup_upd_wait, decide_False. }
  assert (Epl : forall k0, place k0 (f w) = place k0 w) by (intros k0; unfold place; by rewrite F1, F3, F4).
  pose proof (ko_thread idle B D k Hk t w Hw) as [(p & st & Hv & Hst) Hpl Hen Hwn].
  apply (kern_ok_step idle B D D k _ t (f w) Hk); try done.
  - apply Hk.
  - cbn. apply size_alter.
  - intros e E HE. destruct (ko_es idle B D k Hk e E HE) as [H1 H2]. split; [done|]. intros u Hu.
    destruct (decide (u = t)) as [->|Hu']; [by rewrite Hw'|]. destruct (Ho u Hu') as (-> & _). by apply H2.
  - destruct (ko_rings _ _ _ _ Hk) as [R1 R2 R3]. split; [|exact R2|exact R3].
    intros q u. change (wring (upd_wait t f k) q) with (wring k q). rewrite R1.
    destruct (decide (u = t)) as [->|Hu].
    + unfold wait_at. rewrite Hw, Hw'. cbn [mbind option_bind]. by rewrite Epl.
    + unfold wait_at. by rewrite lookup_upd_wait, decide_False.
  - split; [|unfold place_ok in *; rewrite F1, F2, F3, F4, F5; exact Hpl|unfold esn_ok in *; rewrite F5; exact Hen|exact Hwn].
    exists p, st. split; [exact Hv|]. unfold status_ok, wait_bits in *. by rewrite F3, F5.
Qed.

Lemma kern_inv_wait idle B k t f : harmless_wait f -> kern_inv idle B k -> kern_inv idle B (upd_wait t f k).
Proof. intros Hf [Hk Hd]. split; [by apply kern_ok_wait|exact Hd]. Qed.

(** ** A control block nobody waits on is rewritten *)

Lemma wait_at_none idle B D k e t w : kern_ok idle B D k -> wview k e 0 = [] -> wview k e 1 = [] ->
  K_wait k !! t = Some w -> TCB_peventPtr w <> Some e.
Proof.
  intros Hk H0 H1 Hw He. pose proof (th_place _ _ _ _ _ (ko_thread idle B D k Hk t w Hw)) as Hpl.
  unfold place_ok in Hpl. rewrite He in Hpl. destruct Hpl as (_ & Hiq & _ & _ & _ & Hpr).
  assert (exists b, wait_at k t = Some (e, TCB_iPendQ w, b)) as Hb.
  { unfold wait_at. rewrite Hw. cbn [mbind option_bind]. unfold place. rewrite He. cbn [mbind option_bind].
    destruct (is_prio k e) eqn:Ep; [|by eexists]. destruct (Hpr eq_refl) as (b & _ & ->). by exists b. }
  apply (elem_of_wview idle B D) in Hb; [|done].
  destruct Hiq as [Eq|Eq]; rewrite Eq in Hb; [rewrite H0 in Hb|rewrite H1 in Hb]; by apply not_elem_of_nil in Hb.
Qed.

Lemma fresh_ring idle B D k e iq b : kern_ok idle B D k -> wview k e 0 = [] -> wview k e 1 = [] ->
  wring k (e, iq, b) = [].
Proof.
  intros Hk H0 H1. destruct (wring k (e, iq, b)) as [|t l] eqn:E; [done|].
  assert (Hin : t ∈ wring k (e, iq, b)) by (rewrite E; left).
  apply (ro_ring k (ko_rings _ _ _ _ Hk)) in Hin.
  destruct (wait_at_bucket idle B D k t e iq b Hk Hin) as (_ & _ & _ & _ & w & Hw & He & _).
  by destruct (wait_at_none idle B D k e t w Hk H0 H1 Hw).
Qed.

Lemma kern_ok_fresh idle B D k k' e :
  kern_ok idle B D k -> wview k e 0 = [] -> wview k e 1 = [] ->
  (forall e', e' <> e -> eopt k' e' = eopt k e') -> (forall e', is_Some (K_event k' !! e') <-> is_Some (K_event k !! e')) ->
  K_sched k' = K_sched k -> K_wait k' = K_wait k -> K_wuDelay k' = K_wuDelay k -> K_wun k' = K_wun k ->
  K_es k' = K_es k -> K_esn k' = K_esn k ->
  (forall p, wring k' p = wring k p) -> (forall iq e', _EventWaitNum k' iq e' = _EventWaitNum k iq e') ->
  kern_ok idle B D k' /\ forall e' iq, wview k' e' iq = wview k e' iq.
Proof.
  intros Hk H0 H1 Ho Hd E1 E2 E3 E4 E5 E6 Hr Hn. pose proof Hk as [K1 K2 K3 K4 K5 K6 K7].
  assert (Hpr : forall e', e' <> e -> is_prio k' e' = is_prio k e') by (intros e' He; unfold is_prio; by rewrite Ho).
  assert (Hne : forall t w e', K_wait k !! t = Some w -> TCB_peventPtr w = Some e' -> e' <> e).
  { intros t w e' Hw He ->. by apply (wait_at_none idle B D k e t w Hk H0 H1 Hw). }
  assert (Hpl : forall t w, K_wait k !! t = Some w -> place k' w = place k w).
  { intros t w Hw. unfold place. destruct (TCB_peventPtr w) as [e'|] eqn:He; [|done]. cbn [mbind option_bind].
    by rewrite Hpr by (by apply (Hne t w)). }
  assert (Hv : forall e' iq, wview k' e' iq = wview k e' iq).
  { intros e' iq. destruct (decide (e' = e)) as [->|He].
    - assert (Hz : forall k0, (forall b, wring k0 (e, iq, b) = []) -> wview k0 e iq = []).
      { intros k0 Hz. unfold wview. destruct (is_prio k0 e); [|by rewrite Hz].
        cbn [buckets fmap list_fmap concat]. by rewrite !Hz. }
      rewrite !Hz; [done| |]; intros b; rewrite ?Hr; by apply (fresh_ring idle B D).
    - apply wview_frame; [by apply Hpr|]. intros b. apply Hr. }
  split; [|exact Hv]. split; rewrite ?E1, ?E2, ?E3, ?E5; try done.
  - intros t w Hw. destruct (K5 t w Hw) as [(p & st & G1 & G2) G3 G4 G5]. split.
    + exists p, st. unfold status_ok in *. by rewrite E1, E3.
    + unfold place_ok in *. destruct (TCB_peventPtr w) as [e'|] eqn:He; [|done].
      rewrite Hpr by (by apply (Hne t w)). by rewrite Hd.
    + unfold esn_ok in *. by rewrite E5, E6.
    + by rewrite E4.
  - destruct K6 as [R1 R2 R3]. split.
    + intros p t. rewrite Hr, R1. unfold wait_at. rewrite E2. destruct (K_wait k !! t) as [w|] eqn:Hw; [|done].
      cbn [mbind option_bind]. by rewrite (Hpl t w Hw).
    + intros p. rewrite Hr. apply R2.
    + intros e' iq. by rewrite Hn, Hv, R3.
Qed.

(** ** The lists of the event sets *)

(** A thread has left the list of its event set. *)
Lemma es_left idle B D k k' t w N E :
  kern_ok idle B D k -> K_wait k !! t = Some w -> TCB_pesnPtr w = Some t -> K_esn k !! t = Some N ->
  K_es k !! EVENTSETNODE_pesEventSet N = Some E ->
  K_es k' = alter (set_EVENTSET_plineWaitList (remove_node t (EVENTSET_plineWaitList E)))
              (EVENTSETNODE_pesEventSet N) (K_es k) ->
  K_esn k' = K_esn k ->
  (forall u wu, u <> t -> esn_ok k u wu -> esn_ok k' u wu) /\
  (forall e1 E1, K_es k' !! e1 = Some E1 -> t ∉ EVENTSET_plineWaitList E1) /\
  (forall e1 E1, K_es k' !! e1 = Some E1 -> NoDup (EVENTSET_plineWaitList E1) /\
     forall u, u ∈ EVENTSET_plineWaitList E1 -> is_Some (K_wait k !! u)).
Proof.
  intros Hk Hw Hes HN HE Ees Een. pose proof (ko_thread idle B D k Hk t w Hw) as [_ _ Hen _].
  unfold esn_ok in Hen. rewrite Hes in Hen. destruct Hen as (_ & N0 & E0 & HN0 & HE0 & Hin & Huniq).
  rewrite HN in HN0. injection HN0 as <-. rewrite HE in HE0. injection HE0 as <-.
  set (l := remove_node t (EVENTSET_plineWaitList E)) in *.
  assert (HND : NoDup (EVENTSET_plineWaitList E)) by (by eapply (ko_es _ _ _ _ Hk)).
  assert (Hl : forall u, u ∈ l <-> u <> t /\ u ∈ EVENTSET_plineWaitList E).
  { intros u. unfold l. rewrite elem_of_remove_node by done. tauto. }
  assert (Hees : forall e' E', K_es k' !! e' = Some E' -> exists E0, K_es k !! e' = Some E0 /\
      EVENTSET_plineWaitList E' = if decide (e' = EVENTSETNODE_pesEventSet N) then l else EVENTSET_plineWaitList E0).
  { intros e' E'. rewrite Ees. case_decide as Ee.
    - subst e'. rewrite lookup_alter_eq, HE. intros [= <-]. by exists E.
    - rewrite lookup_alter_ne by done. intros HE'. by exists E'. }
  splits.
  - intros u wu Hu. unfold esn_ok. destruct (TCB_pesnPtr wu) as [n|].
    + intros (-> & N' & E' & HN' & HE' & Hin' & Huniq'). split; [done|]. rewrite Een.
      destruct (decide (EVENTSETNODE_pesEventSet N' = EVENTSETNODE_pesEventSet N)) as [Eq|Eq].
      * exists N', (set_EVENTSET_plineWaitList l E). splits; [done| | |].
        -- by rewrite Ees, Eq, lookup_alter_eq, HE.
        -- simpl. apply Hl. split; [done|]. rewrite Eq, HE in HE'. by injection HE' as <-.
        -- intros e1 E1 HE1 Hin1. destruct (Hees e1 E1 HE1) as (E0 & HE0 & El). rewrite El in Hin1.
           case_decide as Ec; [congruence|]. by apply (Huniq' e1 E0).
      * exists N', E'. splits; [done| |done|].
        -- by rewrite Ees, lookup_alter_ne.
        -- intros e1 E1 HE1 Hin1. destruct (Hees e1 E1 HE1) as (E0 & HE0 & El). rewrite El in Hin1.
           case_decide as Ec; [|by apply (Huniq' e1 E0)]. subst e1. apply Hl in Hin1 as [_ Hin1].
           apply (Huniq' _ E HE) in Hin1. done.
    + intros Hno e1 E1 HE1 Hin1. destruct (Hees e1 E1 HE1) as (E0 & HE0 & El). rewrite El in Hin1.
      case_decide as Ec; [|by apply (Hno e1 E0 HE0)]. subst e1. apply Hl in Hin1 as [_ Hin1]. by apply (Hno _ E HE).
  - intros e1 E1 HE1 Hin1. destruct (Hees e1 E1 HE1) as (E0 & HE0 & El). rewrite El in Hin1.
    case_decide as Ec; [by apply Hl in Hin1 as [? _]|]. apply Ec. by apply (Huniq e1 E0).
  - intros e1 E1 HE1. destruct (Hees e1 E1 HE1) as (E0 & HE0 & El). rewrite El.
    destruct (ko_es _ _ _ _ Hk e1 E0 HE0) as [H1 H2]. case_decide as Ec; [|done]. split.
    + by apply remove_node_NoDup.
    + intros u [_ Hu]%Hl. by apply (ko_es _ _ _ _ Hk _ E HE).
Qed.

(** A thread that waits nowhere has joined the list of an event set. *)
Lemma es_joined idle B D k k' t w N E :
  kern_ok idle B D k -> K_wait k !! t = Some w -> TCB_pesnPtr w = None ->
  K_es k !! EVENTSETNODE_pesEventSet N = Some E ->
  K_es k' = alter (set_EVENTSET_plineWaitList (t :: EVENTSET_plineWaitList E))
              (EVENTSETNODE_pesEventSet N) (K_es k) ->
  K_esn k' = <[t := N]> (K_esn k) ->
  (forall u wu, u <> t -> esn_ok k u wu -> esn_ok k' u wu) /\
  (forall w', TCB_pesnPtr w' = Some t -> esn_ok k' t w') /\
  (forall e1 E1, K_es k' !! e1 = Some E1 -> NoDup (EVENTSET_plineWaitList E1) /\
     forall u, u ∈ EVENTSET_plineWaitList E1 -> is_Some (K_wait k !! u)).
Proof.
  intros Hk Hw Hes HE Ees Een. pose proof (ko_thread idle B D k Hk t w Hw) as [_ _ Hen _].
  unfold esn_ok in Hen. rewrite Hes in Hen.
  assert (Hees : forall e' E', K_es k' !! e' = Some E' -> exists E0, K_es k !! e' = Some E0 /\
      EVENTSET_plineWaitList E' = if decide (e' = EVENTSETNODE_pesEventSet N) then t :: EVENTSET_plineWaitList E0
                                  else EVENTSET_plineWaitList E0).
  { intros e' E'. rewrite Ees. case_decide as Ee.
    - subst e'. rewrite lookup_alter_eq, HE. intros [= <-]. by exists E.
    - rewrite lookup_alter_ne by done. intros HE'. by exists E'. }
  splits.
  - intros u wu Hu. unfold esn_ok. destruct (TCB_pesnPtr wu) as [n|].
    + intros (-> & N' & E' & HN' & HE' & Hin' & Huniq'). split; [done|]. rewrite Een, lookup_insert_ne by done.
      exists N', (if decide (EVENTSETNODE_pesEventSet N' = EVENTSETNODE_pesEventSet N)
                  then set_EVENTSET_plineWaitList (t :: EVENTSET_plineWaitList E) E' else E'). splits; [done| | |].
      * rewrite Ees. case_decide as Eq; [by rewrite Eq, lookup_alter_eq, <-Eq, HE'|by rewrite lookup_alter_ne].
      * case_decide as Eq; [|done]. simpl. rewrite Eq, HE in HE'. injection HE' as <-. by right.
      * intros e1 E1 HE1 Hin1. destruct (Hees e1 E1 HE1) as (E0 & HE0 & El). rewrite El in Hin1.
        apply (Huniq' e1 E0 HE0). case_decide; [|done]. apply elem_of_cons in Hin1 as [?|?]; done.
    + intros Hno e1 E1 HE1 Hin1. destruct (Hees e1 E1 HE1) as (E0 & HE0 & El). rewrite El in Hin1.
      apply (Hno e1 E0 HE0). case_decide; [|done]. apply elem_of_cons in Hin1 as [?|?]; done.
  - intros w' Hw'. unfold esn_ok. rewrite Hw'. split; [done|].
    exists N, (set_EVENTSET_plineWaitList (t :: EVENTSET_plineWaitList E) E). rewrite Een, Ees, lookup_insert_eq.
    splits; [done|by rewrite lookup_alter_eq, HE|simpl; left|].
    intros e1 E1 HE1 Hin1. rewrite <-Ees in HE1. destruct (Hees e1 E1 HE1) as (E0 & HE0 & El). rewrite El in Hin1.
    case_decide as Ec; [done|]. by destruct (Hen e1 E0 HE0).
  - intros e1 E1 HE1. destruct (Hees e1 E1 HE1) as (E0 & HE0 & El). rewrite El.
    destruct (ko_es _ _ _ _ Hk e1 E0 HE0) as [H1 H2]. case_decide as Ec; [|done]. split.
    + constructor; [by apply (Hen e1)|done].
    + intros u [->|Hu]%elem_of_cons; [by eexists|by apply H2].
Qed.
