(* ===== verification/Boot.v ===== *)
(** * A small system

    A kernel with two CPUs, seven threads, four event control blocks and two
    event sets, in which nothing waits: the concrete state the examples of the
    files Tick, SemSpec and EventSet start from, with the proof that it is consistent. *)

From S2P Require Import Prelude Lists Bitmap Sched SchedSpec Object Wakeup Kernel Event EventSpec.

(** Scheduler steps that leave the wait bits of the status alone. *)
Definition same_bits (v v' : Z * Z) : Prop :=
  Z.land (snd v') WAIT_BITS = Z.land (snd v) WAIT_BITS /\
  has_option (snd v') LW_THREAD_STATUS_DELAY = has_option (snd v) LW_THREAD_STATUS_DELAY.

Lemma kern_ok_sched idle B D k s' :
  kern_ok idle B D k -> sys_inv idle s' ->
  (forall t, match sview (K_sched k) t, sview s' t with
             | Some v, Some v' => same_bits v v' | None, None => True | _, _ => False end) ->
  kern_ok idle B D (set_sched s' k).
Proof.
  intros Hk Hs Hv. pose proof Hk as [K1 K2 K3 K4 K5 K6 K7]. split; try done.
  - intros t. cbn [set_sched K_wait K_sched]. rewrite K2. specialize (Hv t). unfold sview in Hv.
    destruct (tcbs (K_sched k) !! t), (tcbs s' !! t); simpl in Hv; try done; by split; eexists.
  - intros t w Hw. destruct (K5 t w Hw) as [(p & st & H1 & H2) H3 H4 H5]. split; try done.
    cbn [set_sched K_sched]. specialize (Hv t). rewrite H1 in Hv. destruct (sview s' t) as [[p' st']|]; [|done].
    exists p', st'. split; [done|]. destruct Hv as [E1 E2]. simpl in E1, E2. unfold status_ok in *.
    cbn [set_sched K_wuDelay]. by rewrite E1, E2.
  - destruct K6 as [R1 R2 R3]. split; [exact R1|exact R2|exact R3].
Qed.

Definition wait0 : WAIT := mkWait 0 LW_WAIT_TIME_CLEAR None (0, 0, 0) 0 0 0 0 None 0.
Definition event0 : LW_CLASS_EVENT := mkEvent LW_TYPE_EVENT_UNUSED None 0 0 0 0 0 0.
Definition eventset0 : LW_CLASS_EVENTSET := mkEventSet 0 [] 0 0.
Definition all_threads : list Z := [0; 1; 10; 11; 12; 20; 21].

(** All threads but the idle ones are suspended (status 0x80). *)
Definition boot : KERNEL := mkKern (sched_at 0x80)
  (list_to_map ((fun t => (t, wait0)) <$> all_threads))
  (list_to_map ((fun e => (e, event0)) <$> [0; 1; 2; 3])) ∅ ∅
  (mkWu [] None 0 false) (list_to_map ((fun t => (t, mkWun false 0)) <$> all_threads))
  (mkResrc [0; 1; 2; 3] 0 0)
  (list_to_map ((fun e => (e, eventset0)) <$> [0; 1])) ∅ (mkResrc [0; 1] 0 0) 4 2.

Lemma boot_map {A} (x : A) t v :
  (list_to_map ((fun t => (t, x)) <$> all_threads) : gmap Z A) !! t = Some v <-> t ∈ all_threads /\ v = x.
Proof.
  rewrite <-elem_of_list_to_map.
  - rewrite list_elem_of_fmap. split; [intros (y & [= -> ->] & H); done|intros [H ->]; by eexists].
  - rewrite <-list_fmap_compose. rewrite list_fmap_id. decide_now.
Qed.

Lemma boot_tcb t : is_Some (tcbs (sched_at 0x80) !! t) <-> t ∈ all_threads.
Proof.
  unfold sched_at, all_threads. cbn [tcbs]. rewrite !lookup_insert_is_Some, !elem_of_cons, elem_of_nil.
  rewrite lookup_empty. split; [|intros; naive_solver]. intros H.
  repeat destruct H as [<-|[_ H]]; try tauto. by destruct H.
Qed.

Lemma boot_status t p st : sview (sched_at 0x80) t = Some (p, st) -> st = 0 \/ st = 0x80.
Proof.
  unfold sview. destruct (tcbs (sched_at 0x80) !! t) as [T|] eqn:E; [|done]. intros [= _ <-]. cbn [sched_at tcbs] in E.
  repeat (apply lookup_insert_Some in E as [[<- <-]|[_ E]]; [simpl; auto|]). by apply lookup_empty_Some in E.
Qed.

Lemma boot_wait t w : K_wait boot !! t = Some w <-> t ∈ all_threads /\ w = wait0.
Proof. apply boot_map. Qed.

Lemma boot_es e E : K_es boot !! e = Some E -> E = eventset0.
Proof.
  intros H. simpl in H. repeat (apply lookup_insert_Some in H as [[_ <-]|[_ H]]; [done|]).
  by apply lookup_empty_Some in H.
Qed.

Lemma boot_ring p : wring boot p = [].
Proof. unfold wring. simpl. by rewrite lookup_empty. Qed.

Lemma boot_inv B : kern_inv id B boot.
Proof.
  split; [|by exists []; unfold line_queue; splits; [done|constructor|done|by intros ? ? ?%not_elem_of_nil]].
  assert (Hat : forall t, wait_at boot t = None).
  { intros t. unfold wait_at. destruct (K_wait boot !! t) as [w|] eqn:E; [|done]. by apply boot_wait in E as [_ ->]. }
  split.
  - by apply sched_at_inv.
  - intros t. rewrite boot_tcb. split.
    + intros [w [H _]%boot_wait]. done.
    + intros H. exists wait0. by apply boot_wait.
  - by vm_compute.
  - by intros t ?%not_elem_of_nil.
  - intros t w [Ht ->]%boot_wait. split.
    + assert (is_Some (tcbs (K_sched boot) !! t)) as [T HT] by (by apply boot_tcb).
      exists (TCB_ucPriority T), (TCB_usStatus T).
      assert (Hv : sview (K_sched boot) t = Some (TCB_ucPriority T, TCB_usStatus T)) by (unfold sview; by rewrite HT).
      split; [done|]. destruct (boot_status t _ _ Hv) as [-> | ->]; (split; [done|]); (split; [done|by intros ?%not_elem_of_nil]).
    + done.
    + intros e E ->%boot_es. apply not_elem_of_nil.
    + exists (mkWun false 0). by apply boot_map.
  - split.
    + intros p t. by rewrite boot_ring, Hat, elem_of_nil.
    + intros p. rewrite boot_ring. constructor.
    + intros e iq. unfold _EventWaitNum, wview. simpl. rewrite lookup_empty.
      destruct (is_prio boot e); rewrite !boot_ring; done.
  - intros e E ->%boot_es. simpl. split; [constructor|]. by intros t ?%not_elem_of_nil.
Qed.

(** Threads 20, 10 and 21 are resumed; 20 runs on CPU 1, 10 on CPU 0. *)
Definition demo_sched : SCHED :=
  default (sched_at 0x80) (exec_all (sched_at 0x80) [EvWake 20; EvUpdate 1; EvSchedule 1; EvWake 10; EvUpdate 0; EvSchedule 0; EvWake 21]).
Definition demo_kernel : KERNEL := set_sched demo_sched boot.

Lemma demo_sched_inv : sys_inv id demo_sched.
Proof.
  apply exec_all_inv; [by apply sched_at_inv|]. repeat run_event. exact I.
Qed.

Definition demo_thread (t : Z) (T : TCB) : bool :=
  bool_decide (t ∈ all_threads) && (Z.land (TCB_usStatus T) WAIT_BITS =? 0)
  && negb (has_option (TCB_usStatus T) LW_THREAD_STATUS_DELAY).

Lemma demo_view t v : sview demo_sched t = Some v -> t ∈ all_threads /\ same_bits (0, 0) v.
Proof.
  unfold sview. destruct (tcbs demo_sched !! t) as [T|] eqn:E; [|done]. intros [= <-].
  assert (H : Forall (fun p => demo_thread p.1 p.2 = true) (map_to_list (tcbs demo_sched)))
    by (vm_compute; repeat constructor).
  rewrite Forall_forall in H. specialize (H (t, T)). rewrite elem_of_map_to_list in H. specialize (H E).
  unfold demo_thread in H. zbool. split; [by eapply bool_decide_eq_true_1|]. by split.
Qed.

Lemma demo_inv B : kern_inv id B demo_kernel.
Proof.
  destruct (boot_inv B) as [Hk Hd]. split; [|exact Hd]. apply kern_ok_sched; [exact Hk|exact demo_sched_inv|].
  intros t. destruct (sview (K_sched boot) t) as [[p st]|] eqn:E1, (sview demo_sched t) as [v|] eqn:E2.
  - destruct (demo_view t v E2) as [_ [H1 H2]]. pose proof (boot_status t p st E1) as Hst.
    clear E1 E2. destruct Hst as [-> | ->]; (split; [rewrite H1|rewrite H2]; reflexivity).
  - assert (H : is_Some (tcbs (sched_at 0x80) !! t)).
    { clear E2. unfold sview in E1. cbn [boot K_sched] in E1.
      destruct (tcbs (sched_at 0x80) !! t); [by eexists|discriminate E1]. }
    apply boot_tcb in H. unfold sview in E2. unfold all_threads in H.
    repeat (apply elem_of_cons in H as [->|H]; [vm_compute in E2; discriminate E2|]). by apply not_elem_of_nil in H.
  - destruct (demo_view t v E2) as [H%boot_tcb _]. destruct H as [T HT]. unfold sview in E1.
    cbn [boot K_sched] in E1. rewrite HT in E1. discriminate E1.
  - exact I.
Qed.
