(* ===== verification/TickSpec.v ===== *)
(** * The tick of the waiting threads

    [_ThreadTick] (file Event) ends exactly the waits whose time has come: each such
    thread leaves its wait queue with the time-out mark and becomes ready; all other
    waits, queues and remaining times are as the wake-up line (file Wakeup) says. *)

From S2P Require Import Prelude Lists Bitmap Sched SchedSpec Object Wakeup Kernel Event EventSpec Boot.

(** ** One expired thread *)

(** The control block of a thread whose delay expired. *)
Definition expire (pending : bool) (w : WAIT) : WAIT :=
  if pending
  then set_TCB_pesnPtr None (set_TCB_peventPtr None (set_TCB_ucWaitTimeout LW_WAIT_TIME_OUT w))
  else set_TCB_ucWaitTimeout LW_WAIT_TIME_CLEAR w.

Definition pending (st : Z) : bool := has_option st LW_THREAD_STATUS_PEND_ANY.

(** What has become of the thread. *)
Record timed_out (k k' : KERNEL) (t : Z) : Prop := {
  ot_others : forall u, u <> t -> K_wait k' !! u = K_wait k !! u /\ sview (K_sched k') u = sview (K_sched k) u;
  ot_event : K_event k' = K_event k;
  ot_resrc : K_resrcEvent k' = K_resrcEvent k;
  ot_max : LW_CFG_MAX_EVENTS k' = LW_CFG_MAX_EVENTS k;
  ot_view : forall e iq, wview k' e iq = remove_node t (wview k e iq);
  ot_self : exists w p st st', K_wait k !! t = Some w /\ sview (K_sched k) t = Some (p, st) /\
    sview (K_sched k') t = Some (p, st') /\ has_option st' LW_THREAD_STATUS_DELAY = false /\
    Z.land st' WAIT_BITS = 0 /\ K_wait k' !! t = Some (expire (pending st) w) /\
    (Z.ldiff st (Z.lor LW_THREAD_STATUS_DELAY LW_THREAD_STATUS_PEND_ANY) = 0 -> st' = 0)
}.

Lemma set_status_twice t a b k : set_status t b (set_status t a k) = set_status t b k.
Proof.
  unfold set_status, set_sched, upd_tcb. cbn. f_equal. f_equal. by rewrite alter_alter_eq.
Qed.

(** The status bits an expired thread has left. *)
Definition expired_status (st : Z) : Z :=
  let st := Z.ldiff st LW_THREAD_STATUS_DELAY in
  if has_option st LW_THREAD_STATUS_PEND_ANY then Z.ldiff st LW_THREAD_STATUS_PEND_ANY else st.

Lemma expired_status_bits st :
  has_option (expired_status st) LW_THREAD_STATUS_DELAY = false /\ Z.land (expired_status st) WAIT_BITS = 0.
Proof.
  unfold expired_status. destruct (has_option (Z.ldiff st LW_THREAD_STATUS_DELAY) LW_THREAD_STATUS_PEND_ANY) eqn:E.
  - split.
    + apply has_option_false. rewrite !land_ldiff. change (Z.ldiff _ _) with 0. apply Z.land_0_r.
    + rewrite !land_ldiff. change (Z.ldiff (Z.ldiff WAIT_BITS LW_THREAD_STATUS_PEND_ANY) LW_THREAD_STATUS_DELAY) with 0.
      apply Z.land_0_r.
  - destruct (delay_clear st) as [H1 H2]. split; [done|]. rewrite H2.
    apply has_option_false in E. rewrite land_ldiff in E.
    change (Z.ldiff LW_THREAD_STATUS_PEND_ANY LW_THREAD_STATUS_DELAY) with LW_THREAD_STATUS_PEND_ANY in E.
    rewrite (land_sub _ _ _ E); [done|by vm_compute].
Qed.

Lemma pending_delay st : has_option (Z.ldiff st LW_THREAD_STATUS_DELAY) LW_THREAD_STATUS_PEND_ANY = pending st.
Proof. unfold pending, has_option. by rewrite land_ldiff. Qed.

Lemma pending_wait st : Z.land st WAIT_BITS <> 0 -> pending st = true.
Proof.
  intros H. unfold pending. apply has_option_spec. intros E. apply H.
  rewrite (land_sub _ _ _ E); [done|by vm_compute].
Qed.

Lemma expired_status_ready st :
  Z.ldiff st (Z.lor LW_THREAD_STATUS_DELAY LW_THREAD_STATUS_PEND_ANY) = 0 -> expired_status st = 0.
Proof.
  intros H. unfold expired_status. rewrite pending_delay. destruct (pending st) eqn:E.
  - rewrite Z.ldiff_ldiff_l. exact H.
  - unfold pending in E. apply has_option_false in E. apply Z.bits_inj'. intros i Hi.
    assert (H1 : Z.testbit (Z.ldiff st (Z.lor LW_THREAD_STATUS_DELAY LW_THREAD_STATUS_PEND_ANY)) i = false)
      by (rewrite H; apply Z.bits_0).
    assert (H2 : Z.testbit (Z.land st LW_THREAD_STATUS_PEND_ANY) i = false) by (rewrite E; apply Z.bits_0).
    rewrite Z.ldiff_spec, Z.lor_spec in H1. rewrite Z.land_spec in H2. rewrite Z.ldiff_spec, Z.bits_0.
    destruct (Z.testbit st i), (Z.testbit LW_THREAD_STATUS_DELAY i), (Z.testbit LW_THREAD_STATUS_PEND_ANY i); done.
Qed.

(** The state before [unpend]: off the delay line, status and mark written. *)
Definition overdue (k : KERNEL) (t st : Z) (w2 : LW_CLASS_WAKEUP) (m2 : nodes) : KERNEL :=
  upd_wait t (set_TCB_ucWaitTimeout (if pending st then LW_WAIT_TIME_OUT else LW_WAIT_TIME_CLEAR))
    (set_delay w2 m2 (set_status t (expired_status st) k)).

Lemma tick_expired_eq k t p st w2 m2 : sview (K_sched k) t = Some (p, st) ->
  _WakeupDel (K_wuDelay k) (K_wun k) t false 0 = Some (w2, m2) ->
  tick_expired k t = (k1 ← (if pending st then unpend (overdue k t st w2 m2) t else Some (overdue k t st w2 m2));
                      ready_if k1 t LW_SCHED_ACT_OTHER).
Proof.
  intros Hv E. unfold tick_expired, __DEL_FROM_WAKEUP_LINE, status.
  destruct (sview_some _ _ _ _ Hv) as (T & HT & Ep & Es). rewrite HT. cbn [fmap option_fmap option_map mbind option_bind].
  rewrite Es. cbn [set_status set_sched K_wuDelay K_wun]. rewrite E. cbn [mbind option_bind].
  cbn [set_delay set_status set_sched K_sched]. rewrite lookup_upd_tcb, decide_True, HT by done.
  cbn [fmap option_fmap option_map mbind option_bind set_TCB_usStatus TCB_usStatus].
  unfold overdue, expired_status. rewrite pending_delay.
  destruct (pending st); [|done].
  unfold set_status, set_sched, upd_tcb, set_delay, upd_wait. cbn. by rewrite alter_alter_eq.
Qed.

(** What giving up the wait leaves; [f] is the change of the control block. *)
Record given_up (f : WAIT -> WAIT) (k k2 : KERNEL) (t st : Z) (w2 : LW_CLASS_WAKEUP) (m2 : nodes) : Prop := {
  gu_sched : K_sched k2 = upd_tcb t (set_TCB_usStatus (expired_status st)) (K_sched k);
  gu_delay : K_wuDelay k2 = w2;
  gu_wun : K_wun k2 = m2;
  gu_event : K_event k2 = K_event k;
  gu_resrc : K_resrcEvent k2 = K_resrcEvent k;
  gu_max : LW_CFG_MAX_EVENTS k2 = LW_CFG_MAX_EVENTS k;
  gu_wait : K_wait k2 = alter f t (K_wait k);
  gu_rings : rings_ok k2;
  gu_view : forall e iq, wview k2 e iq = remove_node t (wview k e iq);
  gu_esn : forall u w, u <> t -> K_wait k !! u = Some w -> esn_ok k u w -> esn_ok k2 u w;
  gu_self : forall e E, K_es k2 !! e = Some E -> t ∉ EVENTSET_plineWaitList E;
  gu_es : forall e E, K_es k2 !! e = Some E -> NoDup (EVENTSET_plineWaitList E) /\
    forall u, u ∈ EVENTSET_plineWaitList E -> is_Some (K_wait k !! u)
}.

Section Expire.
Context (idle B : Z -> Z) (k : KERNEL) (t p st : Z) (w : WAIT) (w2 : LW_CLASS_WAKEUP) (m2 : nodes).
Context (Hk : kern_ok idle B (fun _ => 0) k) (Hw : K_wait k !! t = Some w)
  (Hv : sview (K_sched k) t = Some (p, st)).

Let k1 := overdue k t st w2 m2.

Lemma wait_expired : K_wait k1 !! t = Some (set_TCB_ucWaitTimeout
  (if pending st then LW_WAIT_TIME_OUT else LW_WAIT_TIME_CLEAR) w).
Proof. unfold k1, overdue. rewrite lookup_upd_wait, decide_True by done. cbn [set_delay set_status set_sched K_wait]. by rewrite Hw. Qed.

Lemma wait_bits_status : Z.land st WAIT_BITS = wait_bits B w.
Proof.
  destruct (th_status _ _ _ _ _ (ko_thread idle B _ k Hk t w Hw)) as (p' & st' & Hv' & Hb & _).
  rewrite Hv in Hv'. injection Hv' as <- <-. rewrite Hb. apply Z.lor_0_r.
Qed.

(** A waiting thread is in its ring and nowhere else. *)
Lemma view_nowhere : TCB_peventPtr w = None -> forall e iq, remove_node t (wview k e iq) = wview k e iq.
Proof.
  intros Hn e iq. apply remove_node_notin. intros (b & Hwa)%(elem_of_wview idle B (fun _ => 0)); [|done].
  unfold wait_at in Hwa. rewrite Hw in Hwa. cbn [mbind option_bind] in Hwa. unfold place in Hwa. by rewrite Hn in Hwa.
Qed.

(** The wait queue is left. *)
Lemma unqueue_spec e : TCB_peventPtr w = Some e -> pending st = true ->
  exists k2, unpend k1 t = Some k2 /\ given_up (expire (pending st)) k k2 t st w2 m2.
Proof.
  intros He Hp. pose proof (ko_thread idle B _ k Hk t w Hw) as [_ Hpl Hen _].
  unfold place_ok in Hpl. rewrite He in Hpl. destruct Hpl as ([E HE] & Hiq & HB & Hto & Hes & Hpr).
  assert (exists b, wait_at k t = Some (e, TCB_iPendQ w, b)) as [b Hwa].
  { unfold wait_at. rewrite Hw. cbn [mbind option_bind]. unfold place. rewrite He. cbn [mbind option_bind].
    destruct (is_prio k e) eqn:Ep; [|by eexists]. destruct (Hpr eq_refl) as (b & _ & ->). by exists b. }
  set (iq := TCB_iPendQ w) in *.
  destruct (wait_at_bucket idle B _ k t e iq b Hk Hwa) as (_ & Hb0 & _ & _ & w' & Ew' & _ & _ & Epq).
  rewrite Hw in Ew'. injection Ew' as <-.
  set (k2 := upd_wait t (set_TCB_peventPtr None) (unlinked k1 t e iq b)).
  assert (Hdel : _DelTCBFromEventFifo k1 t e (e, iq, b) = Some (unlinked k1 t e iq b)).
  { unfold _DelTCBFromEventFifo, wring_del. change (wring k1 (e, iq, b)) with (wring k (e, iq, b)).
    rewrite bool_decide_eq_true_2 by (by apply (ro_ring k (ko_rings _ _ _ k Hk))).
    cbn [mbind option_bind]. unfold num_add. cbn [set_wring K_wait]. by rewrite wait_expired. }
  exists k2. split.
  - unfold unpend. rewrite wait_expired. cbn [mbind option_bind TCB_peventPtr set_TCB_ucWaitTimeout]. rewrite He.
    unfold _EventUnQueue. rewrite wait_expired. cbn [mbind option_bind TCB_peventPtr set_TCB_ucWaitTimeout]. rewrite He.
    cbn [mbind option_bind]. change (K_event k1) with (K_event k). rewrite HE. cbn [mbind option_bind].
    assert (Ep : is_prio k e = has_option (EVENT_ulOption E) LW_OPTION_WAIT_PRIORITY) by (unfold is_prio, eopt; by rewrite HE).
    rewrite <-Ep. cbn [TCB_ppringPriorityQueue TCB_iPendQ set_TCB_ucWaitTimeout]. destruct (is_prio k e).
    + rewrite Epq by done. rewrite _DelTCBFromEventPriority_eq, Hdel. done.
    + unfold _EVENT_FIFO_Q_PTR. fold iq. rewrite Hb0 in Hdel by done. rewrite Hdel. unfold k2. by rewrite Hb0.
  - assert (Ewait : K_wait k2 = alter (expire (pending st)) t (K_wait k)).
    { unfold k2, k1, overdue. cbn [upd_wait unlinked set_num set_wring set_delay set_status set_sched K_wait].
      rewrite alter_alter_eq. apply map_eq. intros u. destruct (decide (u = t)) as [->|Hu]; [|by rewrite !lookup_alter_ne].
      rewrite !lookup_alter_eq, Hw. simpl. f_equal. unfold expire. rewrite Hp. destruct w. simpl in *. by rewrite Hes. }
    assert (Hse : same_events k k2) by done.
    assert (Hwaits : forall u, u <> t -> wait_at k2 u = wait_at k u).
    { intros u Hu. unfold wait_at. rewrite Ewait, lookup_alter_ne by done.
      destruct (K_wait k !! u); [|done]. cbn [mbind option_bind]. by apply place_same. }
    split; try done.
    + apply (rings_del idle B (fun _ => 0) k k2 t e iq b Hk Hwa); try done.
      * change (wring k2 (e, iq, b)) with (wring (unlinked k t e iq b) (e, iq, b)).
        rewrite unlinked_ring, decide_True by done. apply remove_node_perm. by apply (ro_ring k (ko_rings _ _ _ k Hk)).
      * intros q Hq. change (wring k2 q) with (wring (unlinked k t e iq b) q). by rewrite unlinked_ring, decide_False.
      * intros e' iq'. change (_EventWaitNum k2 iq' e') with (_EventWaitNum (unlinked k t e iq b) iq' e').
        unfold unlinked. by rewrite num_set.
      * unfold wait_at. by rewrite Ewait, lookup_alter_eq, Hw, Hp.
    + intros e' iq'. rewrite (unlinked_view idle B _ k k2 t e iq b Hk Hwa) by done. case_decide as Eq; [by injection Eq as -> ->|].
      symmetry. apply remove_node_notin. intros (b' & Hb')%(elem_of_wview idle B (fun _ => 0)); [|done]. congruence.
    + intros e' E' HE'. unfold esn_ok in Hen. rewrite Hes in Hen. by apply (Hen e').
    + apply (ko_es _ _ _ _ Hk).
Qed.

(** The event set is left. *)
Lemma unqueue_es_spec n : TCB_peventPtr w = None -> TCB_pesnPtr w = Some n -> pending st = true ->
  exists k2, unpend k1 t = Some k2 /\ given_up (expire (pending st)) k k2 t st w2 m2.
Proof.
  intros He Hes Hp. pose proof (ko_thread idle B _ k Hk t w Hw) as [_ _ Hen _].
  unfold esn_ok in Hen. rewrite Hes in Hen. destruct Hen as (-> & N & E & HN & HE & Hin & Huniq).
  set (l := remove_node t (EVENTSET_plineWaitList E)).
  set (k2 := upd_wait t (set_TCB_pesnPtr None) (upd_es (EVENTSETNODE_pesEventSet N) (set_EVENTSET_plineWaitList l) k1)).
  destruct (es_left idle B _ k k2 t w N E Hk Hw Hes HN HE eq_refl eq_refl) as (L1 & L2 & L3).
  exists k2. split.
  - unfold unpend. rewrite wait_expired. cbn [mbind option_bind TCB_peventPtr TCB_pesnPtr set_TCB_ucWaitTimeout]. rewrite He, Hes.
    unfold _EventSetUnQueue. change (K_esn k1) with (K_esn k). rewrite HN. cbn [mbind option_bind].
    change (K_es k1) with (K_es k). rewrite HE. cbn [mbind option_bind]. by rewrite bool_decide_eq_true_2.
  - assert (Ewait : K_wait k2 = alter (expire (pending st)) t (K_wait k)).
    { unfold k2, k1, overdue. cbn [upd_wait upd_es set_delay set_status set_sched K_wait].
      rewrite alter_alter_eq. apply map_eq. intros u. destruct (decide (u = t)) as [->|Hu]; [|by rewrite !lookup_alter_ne].
      rewrite !lookup_alter_eq, Hw. simpl. f_equal. unfold expire. rewrite Hp. destruct w. simpl in *. by rewrite He. }
    split; try done.
    + destruct (ko_rings _ _ _ _ Hk) as [R1 R2 R3]. split; [|exact R2|exact R3].
      intros q u. change (wring k2 q) with (wring k q). rewrite R1. unfold wait_at. rewrite Ewait.
      destruct (decide (u = t)) as [->|Hu]; [|by rewrite lookup_alter_ne]. rewrite lookup_alter_eq, Hw, Hp. cbn [fmap option_fmap option_map mbind option_bind].
      unfold place. by rewrite He.
    + intros e iq. by rewrite view_nowhere.
    + intros u wu Hu _. by apply L1.
Qed.
End Expire.

Section Tick.
Context (idle B : Z -> Z).

Lemma give_up_spec k t p st w w2 m2 :
  kern_ok idle B (fun _ => 0) k -> K_wait k !! t = Some w -> sview (K_sched k) t = Some (p, st) ->
  exists k2, (if pending st then unpend (overdue k t st w2 m2) t else Some (overdue k t st w2 m2)) = Some k2 /\
    given_up (expire (pending st)) k k2 t st w2 m2.
Proof.
  intros Hk Hw Hv. pose proof (ko_thread idle B _ k Hk t w Hw) as [_ Hpl Hen _].
  pose proof (wait_bits_status idle B k t p st w Hk Hw Hv) as Hbits.
  destruct (TCB_peventPtr w) as [e|] eqn:He.
  { assert (Hp : pending st = true).
    { apply pending_wait. rewrite Hbits. unfold wait_bits. rewrite He. unfold place_ok in Hpl. rewrite He in Hpl.
      destruct Hpl as (_ & _ & [-> | ->] & _); done. }
    pose proof (unqueue_spec idle B k t st w w2 m2 Hk Hw e He Hp) as H. rewrite Hp in H |- *. exact H. }
  destruct (TCB_pesnPtr w) as [n|] eqn:Hes.
  { assert (Hp : pending st = true).
    { apply pending_wait. rewrite Hbits. unfold wait_bits. by rewrite He, Hes. }
    pose proof (unqueue_es_spec idle B k t st w w2 m2 Hk Hw n He Hes Hp) as H. rewrite Hp in H |- *. exact H. }
  exists (overdue k t st w2 m2). split.
  - destruct (pending st) eqn:Hp; [|done]. unfold unpend.
    rewrite (wait_expired k t st w w2 m2 Hw). cbn [mbind option_bind TCB_peventPtr TCB_pesnPtr set_TCB_ucWaitTimeout].
    by rewrite He, Hes.
  - assert (Ew : K_wait (overdue k t st w2 m2) = alter (expire (pending st)) t (K_wait k)).
    { unfold overdue. cbn [upd_wait set_delay set_status set_sched K_wait].
      apply map_eq. intros u. destruct (decide (u = t)) as [->|Hu]; [|by rewrite !lookup_alter_ne].
      rewrite !lookup_alter_eq, Hw. simpl. f_equal. unfold expire. destruct (pending st); [|done].
      destruct w. simpl in *. by rewrite He, Hes. }
    split; try done.
    + destruct (ko_rings _ _ _ _ Hk) as [R1 R2 R3]. split; [|exact R2|exact R3].
      intros q u. change (wring (overdue k t st w2 m2) q) with (wring k q). rewrite R1. unfold wait_at. rewrite Ew.
      destruct (decide (u = t)) as [->|Hu]; [|by rewrite lookup_alter_ne].
      rewrite lookup_alter_eq, Hw. cbn [fmap option_fmap option_map mbind option_bind].
      unfold place, expire. by destruct (pending st); simpl; rewrite He.
    + intros e iq. by rewrite (view_nowhere idle B k t w Hk Hw He).
    + unfold esn_ok in Hen. by rewrite Hes in Hen.
    + apply (ko_es _ _ _ _ Hk).
Qed.

(** The wait is over, and the thread enters the ready tables when nothing else holds it. *)
Record wait_over (f : WAIT -> WAIT) (k k' : KERNEL) (t p st : Z) (w2 : LW_CLASS_WAKEUP) (m2 : nodes) : Prop := {
  wo_kern : kern_ok idle B (fun _ => 0) k';
  wo_delay : K_wuDelay k' = w2;
  wo_wun : K_wun k' = m2;
  wo_others : forall u, u <> t -> K_wait k' !! u = K_wait k !! u /\ sview (K_sched k') u = sview (K_sched k) u;
  wo_same : K_event k' = K_event k /\ K_resrcEvent k' = K_resrcEvent k /\ LW_CFG_MAX_EVENTS k' = LW_CFG_MAX_EVENTS k;
  wo_view : forall e iq, wview k' e iq = remove_node t (wview k e iq);
  wo_wait' : K_wait k' !! t = f <$> K_wait k !! t;
  wo_status : sview (K_sched k') t = Some (p, expired_status st)
}.

Lemma given_up_ready f k k2 t p st w w2 m2 x :
  kern_ok idle B (fun _ => 0) k -> NoDup (WU_line (K_wuDelay k)) -> K_wait k !! t = Some w -> sview (K_sched k) t = Some (p, st) -> st <> 0 ->
  WU_line w2 = remove_node t (WU_line (K_wuDelay k)) -> same_dom (K_wun k) m2 -> given_up f k k2 t st w2 m2 ->
  TCB_peventPtr (f w) = None -> TCB_pesnPtr (f w) = None ->
  exists k', ready_if k2 t x = Some k' /\ wait_over f k k' t p st w2 m2.
Proof.
  intros Hk Hnd Hw Hv Hst Eline Hdom [G1 G2 G3 G4 G5 G6 G7 G8 G9 G10 G11 G12] Hf1 Hf2.
  pose proof (ko_thread idle B _ k Hk t w Hw) as [_ _ _ Hwn].
  destruct (ready_if_gen idle k2 (K_sched k) t p st (expired_status st) x) as (s' & E & Hi & Hc);
    [apply Hk|done|done|done|].
  destruct (expired_status_bits st) as [Hx1 Hx2].
  assert (Hnt : t ∉ WU_line w2) by (rewrite Eline; rewrite elem_of_remove_node by done; tauto).
  assert (Hself : K_wait k2 !! t = Some (f w)) by (rewrite G7, lookup_alter_eq, Hw; done).
  assert (Hvt : sview s' t = Some (p, expired_status st)) by (destruct Hc as [_ Hc]; by rewrite Hc, decide_True).
  rewrite E. exists (set_sched s' k2). split; [done|]. split; try done.
  - assert (Ho : others k (set_sched s' k2) t).
    { intros u Hu. cbn [set_sched K_wait K_sched K_wuDelay]. rewrite G7, lookup_alter_ne by done. splits; [done| |].
      - destruct Hc as [_ Hc]. by rewrite Hc, decide_False.
      - rewrite G2, Eline, elem_of_remove_node by done. tauto. }
    assert (Hse : same_events k (set_sched s' k2)).
    { split; intros e; [unfold eopt|]; cbn [set_sched K_event]; by rewrite G4. }
    apply (kern_ok_step idle B (fun _ => 0) _ k _ t (f w) Hk); try done.
    + cbn [set_sched K_wait]. rewrite G7. apply size_alter.
    + cbn [set_sched K_wun]. by rewrite G3.
    + intros e E' HE'. destruct (G12 e E' HE') as [H1 H2]. split; [done|]. intros u Hu. cbn [set_sched K_wait].
      rewrite G7. destruct (decide (u = t)) as [->|Hut]; [by rewrite lookup_alter_eq, Hw|rewrite lookup_alter_ne by done; by apply H2].
    + destruct G8 as [R1 R2 R3]. split; [exact R1|exact R2|exact R3].
    + split.
      * exists p, (expired_status st). split; [done|]. unfold status_ok, wait_bits. rewrite Hf1, Hf2, Hx2. split; [done|].
        cbn [set_sched K_wuDelay]. rewrite Hx1, G2. by split.
      * unfold place_ok. by rewrite Hf1.
      * unfold esn_ok. rewrite Hf2. apply G11.
      * cbn [set_sched K_wun]. rewrite G3. by apply Hdom.
  - intros u Hu. cbn [set_sched K_wait K_sched]. rewrite G7, lookup_alter_ne by done. split; [done|].
    destruct Hc as [_ Hc]. by rewrite Hc, decide_False.
  - cbn [set_sched K_wait]. by rewrite Hself, Hw.
Qed.

(** A thread that is not pending is in no queue. *)
Lemma not_pending k t p st w : kern_ok idle B (fun _ => 0) k -> K_wait k !! t = Some w -> sview (K_sched k) t = Some (p, st) ->
  pending st = false -> TCB_peventPtr w = None /\ TCB_pesnPtr w = None.
Proof.
  intros Hk Hw Hv Hp. pose proof (wait_bits_status idle B k t p st w Hk Hw Hv) as Hb.
  assert (Hz : wait_bits B w = 0).
  { rewrite <-Hb. destruct (decide (Z.land st WAIT_BITS = 0)); [done|]. by rewrite pending_wait in Hp. }
  pose proof (th_place _ _ _ _ _ (ko_thread idle B _ k Hk t w Hw)) as Hpl. unfold place_ok in Hpl. unfold wait_bits in Hz.
  destruct (TCB_peventPtr w) as [e|]; [destruct Hpl as (_ & _ & [HB|HB] & _); rewrite HB in Hz; done|].
  by destruct (TCB_pesnPtr w).
Qed.

Lemma tick_expired_spec k t w2 m2 :
  kern_ok idle B (fun _ => 0) k -> NoDup (WU_line (K_wuDelay k)) -> t ∈ WU_line (K_wuDelay k) ->
  _WakeupDel (K_wuDelay k) (K_wun k) t false 0 = Some (w2, m2) ->
  WU_line w2 = remove_node t (WU_line (K_wuDelay k)) ->
  exists k', tick_expired k t = Some k' /\ kern_ok idle B (fun _ => 0) k' /\
    K_wuDelay k' = w2 /\ K_wun k' = m2 /\ timed_out k k' t.
Proof.
  intros Hk Hnd Ht Edel Eline. destruct (ko_line idle B _ k Hk t Ht) as [w Hw].
  pose proof (ko_thread idle B _ k Hk t w Hw) as [(p & st & Hv & Hb & Hd) _ _ _].
  assert (Hst : st <> 0) by (intros ->; by apply Hd in Ht).
  rewrite (tick_expired_eq k t p st w2 m2 Hv Edel).
  destruct (give_up_spec k t p st w w2 m2 Hk Hw Hv) as (k2 & E2 & Hg). rewrite E2. cbn [mbind option_bind].
  assert (Hnone : TCB_peventPtr (expire (pending st) w) = None /\ TCB_pesnPtr (expire (pending st) w) = None).
  { unfold expire. destruct (pending st) eqn:Hp; [done|]. by apply (not_pending k t p st w). }
  destruct (given_up_ready (expire (pending st)) k k2 t p st w w2 m2 LW_SCHED_ACT_OTHER) as (k' & E & [V1 V2 V3 V4 (V5 & V6 & V7) V8 V9 V10]);
    try done; [by eapply del_dom|apply Hnone|apply Hnone|]. rewrite E. exists k'. splits; try done.
  split; try done. rewrite Hw in V9. exists w, p, st, (expired_status st). destruct (expired_status_bits st) as [Hx1 Hx2].
  splits; try done. apply expired_status_ready.
Qed.
End Tick.

(** ** A tick *)

Lemma remove_node_filter t l : NoDup l -> remove_node t l = filter (fun u => u <> t) l.
Proof.
  induction l as [|x l IH]; intros Hnd; [done|]. apply NoDup_cons in Hnd as [Hx Hnd]. cbn [remove_node].
  destruct (Z.eqb_spec x t) as [->|Hne].
  - rewrite filter_cons_False by (intros H; by apply H). rewrite <-IH by done. by rewrite remove_node_notin.
  - rewrite filter_cons_True by done. by rewrite IH.
Qed.

Lemma filter_all (P : Z -> Prop) `{forall x, Decision (P x)} (l : list Z) : (forall x, x ∈ l -> P x) -> filter P l = l.
Proof.
  induction l as [|x l IH]; intros Hl; [done|]. rewrite filter_cons_True by (apply Hl; left).
  f_equal. apply IH. intros y Hy. apply Hl. by right.
Qed.

(** What a tick that ends the delays of the threads [l] changes. *)
Record ticked (k k' : KERNEL) (l : list Z) : Prop := {
  tk_others : forall u, u ∉ l -> K_wait k' !! u = K_wait k !! u /\ sview (K_sched k') u = sview (K_sched k) u;
  tk_event : K_event k' = K_event k;
  tk_resrc : K_resrcEvent k' = K_resrcEvent k;
  tk_max : LW_CFG_MAX_EVENTS k' = LW_CFG_MAX_EVENTS k;
  tk_view : forall e iq, wview k' e iq = filter (fun u => u ∉ l) (wview k e iq);
  tk_self : forall t, t ∈ l -> exists w p st st', K_wait k !! t = Some w /\
    sview (K_sched k) t = Some (p, st) /\ sview (K_sched k') t = Some (p, st') /\
    has_option st' LW_THREAD_STATUS_DELAY = false /\ Z.land st' WAIT_BITS = 0 /\
    K_wait k' !! t = Some (expire (pending st) w) /\
    (Z.ldiff st (Z.lor LW_THREAD_STATUS_DELAY LW_THREAD_STATUS_PEND_ANY) = 0 -> st' = 0)
}.

Lemma ticked_refl k : ticked k k [].
Proof.
  split; try done; [|by intros t ?%not_elem_of_nil].
  intros e iq. symmetry. apply filter_all. intros u _. apply not_elem_of_nil.
Qed.

Lemma ticked_step idle B k k1 k2 l t : kern_ok idle B (fun _ => 0) k ->
  ticked k k1 l -> timed_out k1 k2 t -> t ∉ l -> ticked k k2 (l ++ [t]).
Proof.
  intros Hk [T1 T2 T3 T4 T5 T6] [O1 O2 O3 O4 O5 O6] Ht.
  split; try congruence.
  - intros u Hu. rewrite elem_of_app, list_elem_of_singleton in Hu.
    destruct (T1 u) as [A1 B1]; [tauto|]. destruct (O1 u) as [A2 B2]; [tauto|]. split; congruence.
  - intros e iq. rewrite O5, T5. pose proof (wview_NoDup idle B _ k e iq Hk) as Hnd.
    rewrite remove_node_filter by (by apply NoDup_filter). rewrite list_filter_filter.
    apply list_filter_iff. intros u. rewrite elem_of_app, list_elem_of_singleton. tauto.
  - intros u [Hu|Hu%list_elem_of_singleton]%elem_of_app.
    + destruct (T6 u Hu) as (w & p & st & st' & H1 & H2 & H3 & H4 & H5 & H6 & H7).
      destruct (O1 u) as [A B']; [by intros ->|]. exists w, p, st, st'. splits; try done; congruence.
    + subst u. destruct O6 as (w & p & st & st' & H1 & H2 & H3 & H4 & H5 & H6 & H7).
      destruct (T1 t Ht) as [A B']. exists w, p, st, st'. splits; try done; congruence.
Qed.

Lemma kern_ok_delay idle B D k w m : kern_ok idle B D k -> WU_line w = WU_line (K_wuDelay k) ->
  same_dom (K_wun k) m -> kern_ok idle B D (set_delay w m k).
Proof.
  intros Hk Hl Hm. pose proof Hk as [K1 K2 K3 K4 K5 K6 K7]. split; try done.
  - intros t. cbn [set_delay K_wuDelay]. rewrite Hl. apply K4.
  - intros t wt Hw. destruct (K5 t wt Hw) as [(p & st & H1 & H2 & H3) H4 H5 H6]. split; try done.
    + exists p, st. split; [done|]. split; [done|]. cbn [set_delay K_wuDelay]. by rewrite Hl.
    + by apply Hm.
  - destruct K6 as [R1 R2 R3]. split; [exact R1|exact R2|exact R3].
Qed.

Lemma set_delay_twice w m w' m' k : set_delay w' m' (set_delay w m k) = set_delay w' m' k.
Proof. done. Qed.

Lemma thread_tick_spec idle B k q :
  kern_ok idle B (fun _ => 0) k -> line_queue (WU_line (K_wuDelay k)) (K_wun k) q ->
  exists k', _ThreadTick k = Some (k', q_expired 1 q) /\ kern_ok idle B (fun _ => 0) k' /\
    line_queue (WU_line (K_wuDelay k')) (K_wun k') (q_shift 1 (q_rest 1 q)) /\ ticked k k' (q_expired 1 q).
Proof.
  intros Hk Hq. pose proof Hq as (El & Hnd & _).
  set (P := fun l w m a => kern_ok idle B (fun _ => 0) (set_delay w m a) /\ NoDup (WU_line w) /\
    (forall t, t ∈ l -> t ∉ WU_line w) /\ ticked k a l).
  destruct (removing_pass P thread_tick_handler) with (fuel := length (WU_line (K_wuDelay k))) (l := @nil Z)
    (w := set_op (head (WU_line (K_wuDelay k))) (K_wuDelay k)) (m := K_wun k) (a := k) (q := q) (c := 1)
    as (w' & m' & k' & E & H1 & H2 & _ & _ & (H3 & _ & _ & H4)).
  - intros l w m a o (A1 & A2 & A3 & A4). split; [|by splits].
    change (set_delay (set_op o w) m a) with (set_delay (set_op o w) m (set_delay w m a)).
    by apply kern_ok_delay.
  - intros l w m m' a (A1 & A2 & A3 & A4) Hm. split; [|by splits].
    change (set_delay w m' a) with (set_delay w m' (set_delay w m a)). by apply kern_ok_delay.
  - intros l w m a x w2 m2 (A1 & A2 & A3 & A4) Hx Ed Hl2.
    destruct (tick_expired_spec idle B (set_delay w m a) x w2 m2 A1 A2 Hx Ed Hl2) as (a' & E & B1 & <- & <- & B2).
    exists a'. unfold thread_tick_handler. rewrite E. cbn [mbind option_bind]. split; [done|]. split.
    + by destruct a'.
    + rewrite Hl2. splits.
      * by apply remove_node_NoDup.
      * intros t Ht. rewrite elem_of_remove_node by done. intros [Ht1 Ht2].
        apply elem_of_app in Ht as [Ht|Ht%list_elem_of_singleton]; [by apply (A3 t)|done].
      * apply (ticked_step idle B k a a' l x Hk A4); [|by intros ?%A3].
        destruct B2. by split.
  - done.
  - done.
  - rewrite El. by rewrite length_fmap.
  - lia.
  - split; [|splits; [done|by intros t ?%not_elem_of_nil|apply ticked_refl]].
    by apply kern_ok_delay.
  - unfold _ThreadTick, __WAKEUP_PASS. rewrite E. cbn [mbind option_bind].
    exists (set_delay w' m' k'). splits; try done. destruct H4. by split.
Qed.

(** What becomes of a thread whose time is over: out of its wait, without wait and
    delay bits, ready if nothing else holds it, told that it timed out if it
    was waiting. *)
Definition released (k k' : KERNEL) (t : Z) : Prop :=
  forall w p st, K_wait k !! t = Some w -> sview (K_sched k) t = Some (p, st) ->
    exists w' st', K_wait k' !! t = Some w' /\ sview (K_sched k') t = Some (p, st') /\
      TCB_peventPtr w' = None /\ TCB_pesnPtr w' = None /\ Z.land st' WAIT_BITS = 0 /\
      has_option st' LW_THREAD_STATUS_DELAY = false /\
      (Z.ldiff st (Z.lor LW_THREAD_STATUS_DELAY LW_THREAD_STATUS_PEND_ANY) = 0 -> st' = 0) /\
      (is_Some (TCB_peventPtr w) \/ is_Some (TCB_pesnPtr w) -> TCB_ucWaitTimeout w' = LW_WAIT_TIME_OUT).

(** C34: a tick.  Exactly the threads whose remaining time is one tick are released, in
    the order of the delay line: each leaves its wait queue, loses its wait
    bits and the delay bit (and is ready if nothing else holds it), and, when it
    was waiting, finds the time-out mark.  The other queue entries keep their order, all
    other threads and all events are untouched, the other delays are one tick
    shorter, and the state stays consistent. *)
Theorem _ThreadTick_spec idle B k q :
  kern_inv idle B k -> line_queue (WU_line (K_wuDelay k)) (K_wun k) q ->
  exists k', _ThreadTick k = Some (k', q_expired 1 q) /\ kern_inv idle B k' /\
    line_queue (WU_line (K_wuDelay k')) (K_wun k') (q_shift 1 (q_rest 1 q)) /\
    K_event k' = K_event k /\
    (forall e iq, wview k' e iq = filter (fun t => t ∉ q_expired 1 q) (wview k e iq)) /\
    (forall u, u ∉ q_expired 1 q -> K_wait k' !! u = K_wait k !! u /\ sview (K_sched k') u = sview (K_sched k) u) /\
    (forall t, t ∈ q_expired 1 q -> released k k' t).
Proof.
  intros [Hk Hd] Hq. destruct (thread_tick_spec idle B k q Hk Hq) as (k' & E & Hk' & Hq' & Ht).
  exists k'. destruct Ht as [T1 T2 T3 T4 T5 T6]. splits; try done.
  - split; [done|by eexists].
  - intros t Hin w p st Hw Hv. destruct (T6 t Hin) as (w0 & p0 & st0 & st' & H1 & H2 & H3 & H4 & H5 & H6 & H7).
    rewrite Hw in H1. injection H1 as <-. rewrite Hv in H2. injection H2 as <- <-.
    exists (expire (pending st) w), st'.
    unfold expire. destruct (pending st) eqn:Hp; simpl; [by splits|].
    destruct (not_pending idle B k t p st w Hk Hw Hv Hp) as [-> ->]. splits; try done. by intros [[? ?]|[? ?]].
Qed.

(** Thread 20 waits for event 0, one tick at most. *)
Definition demo_timed : KERNEL := default demo_kernel (event_pend demo_kernel 20 0 0 LW_THREAD_STATUS_SEM 1).

Lemma demo_timed_inv : kern_inv id (fun _ => LW_THREAD_STATUS_SEM) demo_timed.
Proof.
  destruct (event_pend_spec id (fun _ => LW_THREAD_STATUS_SEM) demo_kernel 20 0 0 LW_THREAD_STATUS_SEM 1 50)
    as (k' & E & H & _).
  - apply demo_inv.
  - by vm_compute.
  - intros i Hi. assert (E : LW_NCPUS (K_sched demo_kernel) = 2) by (by vm_compute).
    unfold cpu_id in Hi. unfold id. lia.
  - by eexists.
  - by left.
  - done.
  - by left.
  - done.
  - unfold demo_timed. by rewrite E.
Qed.

Lemma _ThreadTick_spec_witness :
  kern_inv id (fun _ => LW_THREAD_STATUS_SEM) demo_timed /\
  line_queue (WU_line (K_wuDelay demo_timed)) (K_wun demo_timed) [(20, 1)] /\
  wview demo_timed 0 0 = [20] /\
  exists k', _ThreadTick demo_timed = Some (k', [20]) /\ kern_inv id (fun _ => LW_THREAD_STATUS_SEM) k' /\
    wview k' 0 0 = [].
Proof.
  assert (Hq : line_queue (WU_line (K_wuDelay demo_timed)) (K_wun demo_timed) [(20, 1)]).
  { split; [by vm_compute|]. split; [vm_compute; decide_now|]. split.
    - vm_compute. by splits.
    - intros x d Hx. apply list_elem_of_singleton in Hx as [= -> ->]. unfold ULONG_MAX. lia. }
  split; [exact demo_timed_inv|]. split; [exact Hq|]. split; [by vm_compute|].
  destruct (_ThreadTick_spec id (fun _ => LW_THREAD_STATUS_SEM) demo_timed [(20, 1)] demo_timed_inv Hq)
    as (k' & E & Hk' & _ & _ & Hv & _).
  exists k'. split; [exact E|]. split; [exact Hk'|]. rewrite Hv. assert (wview demo_timed 0 0 = [20]) as -> by (by vm_compute).
  reflexivity.
Defined.
