(* ===== verification/Semaphore.v ===== *)
(** * Counting and binary semaphores: kernel/interface/SemaphoreC*.c and SemaphoreB*.c

    Every call is a transformation of the kernel state with the kernel locked;
    its last component is the error code it returns.  A call that waits ends
    with [Wait]: the thread is blocked and the rest of the call, run when the thread
    is scheduled again, is a definition of its own ([_resume]).  [None] is an
    undefined access.  The errno variable, hooks and the monitor are not in
    the state. *)

From S2P Require Import Prelude Lists Bitmap Sched SchedSpec Object Wakeup Kernel Event.

(** ** k_error.h, errno.h, mp_cfg.h *)

Definition ERROR_NONE : Z := 0.
Definition EINTR : Z := 4.
Definition EDEADLK : Z := 35.
Definition ERROR_KERNEL_PNAME_TOO_LONG : Z := 302.
Definition ERROR_KERNEL_HANDLE_NULL : Z := 303.
Definition ERROR_KERNEL_IN_ISR : Z := 304.
Definition ERROR_THREAD_PRIORITY_WRONG : Z := 505.
Definition ERROR_THREAD_WAIT_TIMEOUT : Z := 506.
Definition ERROR_EVENT_MAX_COUNTER_NULL : Z := 1500.
Definition ERROR_EVENT_INIT_COUNTER : Z := 1501.
Definition ERROR_EVENT_NULL : Z := 1502.
Definition ERROR_EVENT_FULL : Z := 1503.
Definition ERROR_EVENT_TYPE : Z := 1504.
Definition ERROR_EVENT_WAS_DELETED : Z := 1505.
Definition ERROR_EVENT_NOT_OWN : Z := 1506.

Definition LW_SIGNAL_EINTR : Z := 1.
Definition LW_CFG_OBJECT_NAME_SIZE : Z := 32.
Definition LW_CFG_PROCESSOR_NUMBER : Z := 1.
Definition LW_TRUE : Z := 1.
Definition LW_FALSE : Z := 0.
Definition LW_NULL : Z := 0.

(** Who calls: the current thread, the interrupt nesting of its CPU and
    whether the system is running. *)
Record CALL := mkCall {
  LW_TCB_GET_CUR : Z;
  LW_CPU_GET_CUR_NESTING : Z;
  LW_SYS_STATUS_IS_RUNNING : bool
}.

(** The outcome of a call that may wait; a waiting one keeps the options
    of its event. *)
Inductive PEND := Return (ulError : Z) | Wait (ulEventOption : Z).

(** ** inlObjectCheck.h *)

Definition _Object_Name_Invalid (pcName : option (list Z)) : bool :=
  match pcName with
  | None => false
  | Some s => LW_CFG_OBJECT_NAME_SIZE <=? Z.min (Z.of_nat (length s)) LW_CFG_OBJECT_NAME_SIZE
  end.
Definition _Event_Index_Invalid (k : KERNEL) (usIndex : Z) : bool := LW_CFG_MAX_EVENTS k <=? usIndex.
Definition _Event_Type_Invalid (k : KERNEL) (usIndex ucType : Z) : option bool :=
  E ← K_event k !! usIndex; Some (negb (EVENT_ucType E =? ucType)).

(** The argument checks every service starts with. *)
Definition event_check (k : KERNEL) (ulId ucClass ucType : Z) : option Z :=
  if negb (_ObjectClassOK ulId ucClass) then Some ERROR_KERNEL_HANDLE_NULL
  else if _Event_Index_Invalid k (_ObjectGetIndex ulId) then Some ERROR_KERNEL_HANDLE_NULL
  else b ← _Event_Type_Invalid k (_ObjectGetIndex ulId) ucType;
       Some (if (b : bool) then ERROR_EVENT_TYPE else ERROR_NONE).

(** ** Creation *)

(** The loop that empties the rings of both queues. *)
Fixpoint init_rings (n : nat) (k : KERNEL) (pevent i : Z) : KERNEL :=
  match n with
  | O => k
  | S n => init_rings n (set_wring (pevent, 1, i) [] (set_wring (pevent, 0, i) [] k)) pevent (i + 1)
  end.

(** Fields, lengths and rings of a new control block. *)
Definition event_init (k : KERNEL) (pevent : Z) (f : LW_CLASS_EVENT -> LW_CLASS_EVENT) : KERNEL :=
  let k := upd_event pevent f k in
  let k := set_num (pevent, 1) 0 (set_num (pevent, 0) 0 k) in
  init_rings (Z.to_nat __EVENT_Q_SIZE) k pevent 0.

(** Result of a creation: the handle, [LW_OBJECT_HANDLE_INVALID] on failure, and the error
    code. *)
Definition event_create (k : KERNEL) (ucClass : Z) (pcName : option (list Z))
    (f : LW_CLASS_EVENT -> LW_CLASS_EVENT) : option (KERNEL * Z * Z) :=
  if _Object_Name_Invalid pcName then Some (k, LW_OBJECT_HANDLE_INVALID, ERROR_KERNEL_PNAME_TOO_LONG)
  else match _Allocate_Event_Object (K_resrcEvent k) with
       | None => Some (k, LW_OBJECT_HANDLE_INVALID, ERROR_EVENT_FULL)
       | Some (r, pevent) =>
         Some (event_init (set_resrc r k) pevent f,
               _MakeObjectId ucClass LW_CFG_PROCESSOR_NUMBER pevent, ERROR_NONE)
       end.

Definition sem_fields (ucType ulCounter ulMaxCounter ulOption : Z) (E : LW_CLASS_EVENT) : LW_CLASS_EVENT :=
  mkEvent ucType None ulCounter ulMaxCounter (EVENT_iStatus E) ulOption (EVENT_ucCeilingPriority E) LW_NULL.

Definition API_SemaphoreCCreate (k : KERNEL) (c : CALL) (pcName : option (list Z))
    (ulInitCounter ulMaxCounter ulOption : Z) : option (KERNEL * Z * Z) :=
  if negb (LW_CPU_GET_CUR_NESTING c =? 0) then Some (k, LW_OBJECT_HANDLE_INVALID, ERROR_KERNEL_IN_ISR)
  else if ulMaxCounter =? 0 then Some (k, LW_OBJECT_HANDLE_INVALID, ERROR_EVENT_MAX_COUNTER_NULL)
  else if ulMaxCounter <? ulInitCounter then Some (k, LW_OBJECT_HANDLE_INVALID, ERROR_EVENT_INIT_COUNTER)
  else event_create k _OBJECT_SEM_C pcName (sem_fields LW_TYPE_EVENT_SEMC ulInitCounter ulMaxCounter ulOption).

Definition API_SemaphoreBCreate (k : KERNEL) (c : CALL) (pcName : option (list Z))
    (bInitValue ulOption : Z) : option (KERNEL * Z * Z) :=
  if negb (LW_CPU_GET_CUR_NESTING c =? 0) then Some (k, LW_OBJECT_HANDLE_INVALID, ERROR_KERNEL_IN_ISR)
  else event_create k _OBJECT_SEM_B pcName (sem_fields LW_TYPE_EVENT_SEMB bInitValue LW_TRUE ulOption).

(** ** Waiting *)

(** signalLib.c. [ulKernelTime] is the time now. *)
Definition _sigTimeoutRecalc (ulKernelTime ulOrgKernelTime ulOrgTimeout : Z) : Z :=
  if ulOrgTimeout =? LW_OPTION_WAIT_INFINITE then ulOrgTimeout
  else
    let ulTimeRun := if ulOrgKernelTime <=? ulKernelTime then ulKernelTime - ulOrgKernelTime
                     else wrap 64 (ulKernelTime + (ULONG_MAX - ulOrgKernelTime) + 1) in
    if ulOrgTimeout <=? ulTimeRun then 0 else ulOrgTimeout - ulTimeRun.

(** A call from [__wait_again] on: [take] is how the event gives a unit. *)
Definition sem_wait_again (ucClass ucType : Z) (take : LW_CLASS_EVENT -> LW_CLASS_EVENT)
    (k : KERNEL) (ptcbCur ulId ulTimeout : Z) : option (KERNEL * PEND) :=
  let pevent := _ObjectGetIndex ulId in
  err ← event_check k ulId ucClass ucType;
  if negb (err =? ERROR_NONE) then Some (k, Return err)
  else
    E ← K_event k !! pevent;
    if negb (EVENT_ulCounter E =? 0) then Some (upd_event pevent take k, Return ERROR_NONE)
    else if ulTimeout =? LW_OPTION_NOT_WAIT then Some (k, Return ERROR_THREAD_WAIT_TIMEOUT)
    else k ← event_pend k ptcbCur pevent EVENT_SEM_Q LW_THREAD_STATUS_SEM ulTimeout;
         Some (k, Wait (EVENT_ulOption E)).

(** What a woken call returns, and whether it waits again: [iSchedRet] is the
    result of the scheduling point. *)
Definition pend_resume (again : KERNEL -> Z -> option (KERNEL * PEND)) (k : KERNEL)
    (ptcbCur ulKernelTime ulTimeSave ulTimeout ulEventOption iSchedRet : Z) : option (KERNEL * PEND) :=
  if negb (iSchedRet =? 0) then
    if (iSchedRet =? LW_SIGNAL_EINTR) && has_option ulEventOption LW_OPTION_SIGNAL_INTER
    then Some (k, Return EINTR)
    else
      let ulTimeout := _sigTimeoutRecalc ulKernelTime ulTimeSave ulTimeout in
      if ulTimeout =? LW_OPTION_NOT_WAIT then Some (k, Return ERROR_THREAD_WAIT_TIMEOUT)
      else again k ulTimeout
  else
    w ← K_wait k !! ptcbCur;
    Some (k, Return (if TCB_ucWaitTimeout w =? LW_WAIT_TIME_OUT then ERROR_THREAD_WAIT_TIMEOUT
                     else if TCB_ucIsEventDelete w =? LW_EVENT_EXIST then ERROR_NONE
                     else ERROR_EVENT_WAS_DELETED)).

(** [EVENT_ulCounter--] and [EVENT_ulCounter = LW_FALSE]. *)
Definition semc_take (E : LW_CLASS_EVENT) : LW_CLASS_EVENT := set_EVENT_ulCounter (EVENT_ulCounter E -64 1) E.
Definition semb_take (E : LW_CLASS_EVENT) : LW_CLASS_EVENT := set_EVENT_ulCounter LW_FALSE E.

Definition API_SemaphoreCPend (k : KERNEL) (c : CALL) (ulId ulTimeout : Z) : option (KERNEL * PEND) :=
  if negb (LW_CPU_GET_CUR_NESTING c =? 0) then Some (k, Return ERROR_KERNEL_IN_ISR)
  else sem_wait_again _OBJECT_SEM_C LW_TYPE_EVENT_SEMC semc_take k (LW_TCB_GET_CUR c) ulId ulTimeout.
Definition API_SemaphoreCPend_resume (k : KERNEL) (ptcbCur ulId ulKernelTime ulTimeSave ulTimeout
    ulEventOption iSchedRet : Z) : option (KERNEL * PEND) :=
  pend_resume (fun k => sem_wait_again _OBJECT_SEM_C LW_TYPE_EVENT_SEMC semc_take k ptcbCur ulId)
    k ptcbCur ulKernelTime ulTimeSave ulTimeout ulEventOption iSchedRet.

Definition API_SemaphoreBPend (k : KERNEL) (c : CALL) (ulId ulTimeout : Z) : option (KERNEL * PEND) :=
  if negb (LW_CPU_GET_CUR_NESTING c =? 0) then Some (k, Return ERROR_KERNEL_IN_ISR)
  else sem_wait_again _OBJECT_SEM_B LW_TYPE_EVENT_SEMB semb_take k (LW_TCB_GET_CUR c) ulId ulTimeout.
Definition API_SemaphoreBPend_resume (k : KERNEL) (ptcbCur ulId ulKernelTime ulTimeSave ulTimeout
    ulEventOption iSchedRet : Z) : option (KERNEL * PEND) :=
  pend_resume (fun k => sem_wait_again _OBJECT_SEM_B LW_TYPE_EVENT_SEMB semb_take k ptcbCur ulId)
    k ptcbCur ulKernelTime ulTimeSave ulTimeout ulEventOption iSchedRet.

(** The [PendEx] calls also store a message in [*ppvMsgPtr]: the one of the
    event when they need not wait, the one the poster gave the thread when they were
    woken. *)
Definition pend_msg (k : KERNEL) (ulId : Z) (res : KERNEL * PEND) : option (KERNEL * PEND * option Z) :=
  match res.2 with
  | Return e => if e =? ERROR_NONE then E ← K_event k !! _ObjectGetIndex ulId; Some (res, Some (EVENT_pvPtr E))
                else Some (res, None)
  | Wait _ => Some (res, None)
  end.
Definition API_SemaphoreBPendEx (k : KERNEL) (c : CALL) (ulId ulTimeout : Z)
    : option (KERNEL * PEND * option Z) :=
  res ← API_SemaphoreBPend k c ulId ulTimeout; pend_msg k ulId res.
Definition API_SemaphoreBPendEx_resume (k : KERNEL) (ptcbCur ulId ulKernelTime ulTimeSave ulTimeout
    ulEventOption iSchedRet : Z) : option (KERNEL * PEND * option Z) :=
  res ← API_SemaphoreBPend_resume k ptcbCur ulId ulKernelTime ulTimeSave ulTimeout ulEventOption iSchedRet;
  if negb (iSchedRet =? 0) then pend_msg k ulId res
  else
    match res.2 with
    | Return e => if e =? ERROR_NONE then w ← K_wait k !! ptcbCur; Some (res, Some (TCB_pvMsgBoxMessage w))
                  else Some (res, None)
    | Wait _ => Some (res, None)
    end.

Definition API_SemaphoreCTryPend (k : KERNEL) (ulId : Z) : option (KERNEL * Z) :=
  let pevent := _ObjectGetIndex ulId in
  err ← event_check k ulId _OBJECT_SEM_C LW_TYPE_EVENT_SEMC;
  if negb (err =? ERROR_NONE) then Some (k, err)
  else
    E ← K_event k !! pevent;
    if negb (EVENT_ulCounter E =? 0) then Some (upd_event pevent semc_take k, ERROR_NONE)
    else Some (k, ERROR_THREAD_WAIT_TIMEOUT).

Definition API_SemaphoreBTryPend (k : KERNEL) (ulId : Z) : option (KERNEL * Z) :=
  let pevent := _ObjectGetIndex ulId in
  err ← event_check k ulId _OBJECT_SEM_B LW_TYPE_EVENT_SEMB;
  if negb (err =? ERROR_NONE) then Some (k, err)
  else
    E ← K_event k !! pevent;
    if negb (EVENT_ulCounter E =? 0) then Some (upd_event pevent semb_take k, ERROR_NONE)
    else Some (k, ERROR_THREAD_WAIT_TIMEOUT).

(** ** Posting *)

(** One unit is given: to a waiting thread, or to the event if [give] has
    room for it.  Result: also the thread that got it. *)
Definition sem_give (give : LW_CLASS_EVENT -> option LW_CLASS_EVENT) (k : KERNEL) (pevent pvMsgPtr ucSchedActivate : Z)
    : option (KERNEL * Z * option Z) :=
  if negb (_EventWaitNum k EVENT_SEM_Q pevent =? 0) then
    '(k, ptcb) ← event_ready k pevent EVENT_SEM_Q pvMsgPtr LW_THREAD_STATUS_SEM ucSchedActivate;
    Some (k, ERROR_NONE, Some ptcb)
  else
    E ← K_event k !! pevent;
    match give E with
    | Some E => Some (upd_event pevent (fun _ => E) k, ERROR_NONE, None)
    | None => Some (k, ERROR_EVENT_FULL, None)
    end.

Definition semc_give (E : LW_CLASS_EVENT) : option LW_CLASS_EVENT :=
  if EVENT_ulCounter E <? EVENT_ulMaxCounter E then Some (set_EVENT_ulCounter (EVENT_ulCounter E +64 1) E) else None.
Definition semb_give (E : LW_CLASS_EVENT) : option LW_CLASS_EVENT :=
  if EVENT_ulCounter E =? LW_FALSE then Some (set_EVENT_ulCounter LW_TRUE E) else None.
Definition semb_give_msg (pvMsgPtr : Z) (E : LW_CLASS_EVENT) : option LW_CLASS_EVENT :=
  E ← semb_give E; Some (set_EVENT_pvPtr pvMsgPtr E).

Definition sem_post (ucClass ucType : Z) (give : LW_CLASS_EVENT -> option LW_CLASS_EVENT) (k : KERNEL)
    (ulId pvMsgPtr : Z) : option (KERNEL * Z * option Z) :=
  err ← event_check k ulId ucClass ucType;
  if negb (err =? ERROR_NONE) then Some (k, err, None)
  else sem_give give k (_ObjectGetIndex ulId) pvMsgPtr LW_SCHED_ACT_INTERRUPT.

Definition API_SemaphoreCPost (k : KERNEL) (ulId : Z) : option (KERNEL * Z) :=
  '(k, err, _) ← sem_post _OBJECT_SEM_C LW_TYPE_EVENT_SEMC semc_give k ulId LW_NULL; Some (k, err).
Definition API_SemaphoreBPost (k : KERNEL) (ulId : Z) : option (KERNEL * Z) :=
  '(k, err, _) ← sem_post _OBJECT_SEM_B LW_TYPE_EVENT_SEMB semb_give k ulId LW_NULL; Some (k, err).
Definition API_SemaphoreBPostEx (k : KERNEL) (ulId pvMsgPtr : Z) : option (KERNEL * Z) :=
  '(k, err, _) ← sem_post _OBJECT_SEM_B LW_TYPE_EVENT_SEMB (semb_give_msg pvMsgPtr) k ulId pvMsgPtr; Some (k, err).

(** [*pulId]: the thread that was woken, or [LW_OBJECT_HANDLE_INVALID]. *)
Definition API_SemaphoreBPost2 (k : KERNEL) (ulId : Z) : option (KERNEL * Z * Z) :=
  '(k, err, t) ← sem_post _OBJECT_SEM_B LW_TYPE_EVENT_SEMB semb_give k ulId LW_NULL;
  Some (k, err, default LW_OBJECT_HANDLE_INVALID t).
Definition API_SemaphoreBPostEx2 (k : KERNEL) (ulId pvMsgPtr : Z) : option (KERNEL * Z * Z) :=
  '(k, err, t) ← sem_post _OBJECT_SEM_B LW_TYPE_EVENT_SEMB (semb_give_msg pvMsgPtr) k ulId pvMsgPtr;
  Some (k, err, default LW_OBJECT_HANDLE_INVALID t).

(** The loop of the releases. *)
Fixpoint sem_release (give : LW_CLASS_EVENT -> option LW_CLASS_EVENT) (n : nat) (k : KERNEL) (pevent : Z)
    : option (KERNEL * Z) :=
  match n with
  | O => Some (k, ERROR_NONE)
  | S n =>
    '(k, err, _) ← sem_give give k pevent LW_NULL LW_SCHED_ACT_OTHER;
    if err =? ERROR_NONE then sem_release give n k pevent else Some (k, err)
  end.

(** Result: the error code and the previous counter, when it was read. *)
Definition sem_release_call (ucClass ucType : Z) (give : LW_CLASS_EVENT -> option LW_CLASS_EVENT) (k : KERNEL)
    (ulId ulReleaseCounter : Z) : option (KERNEL * Z * option Z) :=
  if ulReleaseCounter =? 0 then Some (k, ERROR_EVENT_NULL, None)
  else
    let pevent := _ObjectGetIndex ulId in
    err ← event_check k ulId ucClass ucType;
    if negb (err =? ERROR_NONE) then Some (k, err, None)
    else
      E ← K_event k !! pevent;
      '(k, err) ← sem_release give (Z.to_nat ulReleaseCounter) k pevent;
      Some (k, err, Some (EVENT_ulCounter E)).

Definition API_SemaphoreCRelease : KERNEL -> Z -> Z -> option (KERNEL * Z * option Z) :=
  sem_release_call _OBJECT_SEM_C LW_TYPE_EVENT_SEMC semc_give.
Definition API_SemaphoreBRelease : KERNEL -> Z -> Z -> option (KERNEL * Z * option Z) :=
  sem_release_call _OBJECT_SEM_B LW_TYPE_EVENT_SEMB semb_give.

(** ** Flush, clear, delete *)

(** [while (_EventWaitNum(iQ, pevent))]: [none left] is seen within [n]
    turns. *)
Fixpoint flush_loop (usWaitType : Z) (n : nat) (k : KERNEL) (pevent iQ : Z) : option KERNEL :=
  match n with
  | O => None
  | S n =>
    if _EventWaitNum k iQ pevent =? 0 then Some k
    else
      '(k, _) ← event_ready k pevent iQ LW_NULL usWaitType LW_SCHED_ACT_OTHER;
      flush_loop usWaitType n k pevent iQ
  end.

Definition sem_flush (ucClass ucType : Z) (k : KERNEL) (ulId : Z) : option (KERNEL * Z * option Z) :=
  let pevent := _ObjectGetIndex ulId in
  err ← event_check k ulId ucClass ucType;
  if negb (err =? ERROR_NONE) then Some (k, err, None)
  else
    let n := _EventWaitNum k EVENT_SEM_Q pevent in
    k ← flush_loop LW_THREAD_STATUS_SEM (S (Z.to_nat n)) k pevent EVENT_SEM_Q;
    Some (k, ERROR_NONE, Some n).

(** Result: also [*pulThreadUnblockNum], when it is written. *)
Definition API_SemaphoreCFlush : KERNEL -> Z -> option (KERNEL * Z * option Z) :=
  sem_flush _OBJECT_SEM_C LW_TYPE_EVENT_SEMC.
Definition API_SemaphoreBFlush : KERNEL -> Z -> option (KERNEL * Z * option Z) :=
  sem_flush _OBJECT_SEM_B LW_TYPE_EVENT_SEMB.

Definition sem_clear (ucClass ucType : Z) (k : KERNEL) (ulId : Z) : option (KERNEL * Z) :=
  err ← event_check k ulId ucClass ucType;
  if negb (err =? ERROR_NONE) then Some (k, err)
  else Some (upd_event (_ObjectGetIndex ulId) (set_EVENT_ulCounter 0) k, ERROR_NONE).

Definition API_SemaphoreCClear : KERNEL -> Z -> option (KERNEL * Z) :=
  sem_clear _OBJECT_SEM_C LW_TYPE_EVENT_SEMC.
Definition API_SemaphoreBClear : KERNEL -> Z -> option (KERNEL * Z) :=
  sem_clear _OBJECT_SEM_B LW_TYPE_EVENT_SEMB.

(** The loop of the deletions: the woken threads learn that the event is
    gone. *)
Fixpoint delete_loop (usWaitType : Z) (n : nat) (k : KERNEL) (pevent iQ : Z) : option KERNEL :=
  match n with
  | O => None
  | S n =>
    if _EventWaitNum k iQ pevent =? 0 then Some k
    else
      '(k, ptcb) ← event_take k pevent iQ LW_NULL;
      let k := upd_wait ptcb (set_TCB_ucIsEventDelete LW_EVENT_DELETE) k in
      k ← _EventReadyHighLevel k ptcb usWaitType LW_SCHED_ACT_OTHER;
      delete_loop usWaitType n k pevent iQ
  end.

Definition delete_waiters (usWaitType : Z) (k : KERNEL) (pevent iQ : Z) : option KERNEL :=
  delete_loop usWaitType (S (Z.to_nat (_EventWaitNum k iQ pevent))) k pevent iQ.

(** Result: the error code and the handle the caller is left with ([_ObjectCloseId]). *)
Definition sem_delete (ucClass ucType : Z) (k : KERNEL) (c : CALL) (ulId : Z) : option (KERNEL * Z * Z) :=
  if negb (LW_CPU_GET_CUR_NESTING c =? 0) then Some (k, ERROR_KERNEL_IN_ISR, ulId)
  else
    let pevent := _ObjectGetIndex ulId in
    err ← event_check k ulId ucClass ucType;
    if negb (err =? ERROR_NONE) then Some (k, err, ulId)
    else
      let k := upd_event pevent (set_EVENT_ucType LW_TYPE_EVENT_UNUSED) k in
      k ← delete_waiters LW_THREAD_STATUS_SEM k pevent EVENT_SEM_Q;
      let k := upd_event pevent (set_EVENT_pvTcbOwn None) k in
      Some (set_resrc (_Free_Event_Object (K_resrcEvent k) pevent) k, ERROR_NONE, LW_OBJECT_HANDLE_INVALID).

Definition API_SemaphoreCDelete : KERNEL -> CALL -> Z -> option (KERNEL * Z * Z) :=
  sem_delete _OBJECT_SEM_C LW_TYPE_EVENT_SEMC.
Definition API_SemaphoreBDelete : KERNEL -> CALL -> Z -> option (KERNEL * Z * Z) :=
  sem_delete _OBJECT_SEM_B LW_TYPE_EVENT_SEMB.

(** ** Status: the error code and what is read of the event *)

Definition API_SemaphoreCStatusEx (k : KERNEL) (ulId : Z) : option (Z * option (Z * Z * Z * Z)) :=
  let pevent := _ObjectGetIndex ulId in
  err ← event_check k ulId _OBJECT_SEM_C LW_TYPE_EVENT_SEMC;
  if negb (err =? ERROR_NONE) then Some (err, None)
  else E ← K_event k !! pevent;
       Some (ERROR_NONE, Some (EVENT_ulCounter E, EVENT_ulOption E, _EventWaitNum k EVENT_SEM_Q pevent,
                               EVENT_ulMaxCounter E)).
Definition API_SemaphoreCStatus (k : KERNEL) (ulId : Z) : option (Z * option (Z * Z * Z)) :=
  let pevent := _ObjectGetIndex ulId in
  err ← event_check k ulId _OBJECT_SEM_C LW_TYPE_EVENT_SEMC;
  if negb (err =? ERROR_NONE) then Some (err, None)
  else E ← K_event k !! pevent;
       Some (ERROR_NONE, Some (EVENT_ulCounter E, EVENT_ulOption E, _EventWaitNum k EVENT_SEM_Q pevent)).
Definition API_SemaphoreBStatus (k : KERNEL) (ulId : Z) : option (Z * option (Z * Z * Z)) :=
  let pevent := _ObjectGetIndex ulId in
  err ← event_check k ulId _OBJECT_SEM_B LW_TYPE_EVENT_SEMB;
  if negb (err =? ERROR_NONE) then Some (err, None)
  else E ← K_event k !! pevent;
       Some (ERROR_NONE, Some (EVENT_ulCounter E, EVENT_ulOption E, _EventWaitNum k EVENT_SEM_Q pevent)).
