(* ===== verification/Mutex.v ===== *)
(** * Mutexes and read-write semaphores: kernel/interface/SemaphoreM*.c,
    SemaphoreRW*.c, and the safe mode of kernel/core/_ThreadSafeLib.c

    As in the file Semaphore.  Threads are neither deleted nor restarted in
    this model: leaving the safe mode only counts down, and the owner of a mutex is
    always in the thread table. *)

From S2P Require Import Prelude Lists Bitmap Sched SchedSpec Object Wakeup Kernel Event Semaphore.

Definition LW_PRIO_LOWEST : Z := 255.
Definition EVENT_RW_STATUS_R : Z := 0.
Definition EVENT_RW_STATUS_W : Z := 1.

(** ** _ThreadSafeLib.c *)

Definition _ThreadSafeInKern (k : KERNEL) (ptcbDes : Z) : KERNEL :=
  upd_wait ptcbDes (fun w => set_TCB_ulThreadSafeCounter (TCB_ulThreadSafeCounter w +64 1) w) k.

Definition _ThreadUnsafeInternalEx (k : KERNEL) (ptcbDes : Z) : option KERNEL :=
  w ← K_wait k !! ptcbDes;
  if negb (TCB_ulThreadSafeCounter w =? 0)
  then Some (upd_wait ptcbDes (set_TCB_ulThreadSafeCounter (TCB_ulThreadSafeCounter w -64 1)) k)
  else Some k.

(** [if (pevent->EVENT_ulOption & LW_OPTION_DELETE_SAFE)] around the two. *)
Definition safe_enter (k : KERNEL) (ulOption ptcb : Z) : KERNEL :=
  if has_option ulOption LW_OPTION_DELETE_SAFE then _ThreadSafeInKern k ptcb else k.
Definition safe_leave (k : KERNEL) (ulOption ptcb : Z) : option KERNEL :=
  if has_option ulOption LW_OPTION_DELETE_SAFE then _ThreadUnsafeInternalEx k ptcb else Some k.

(** ** Mutexes *)

(** inlPriorityCheck.h *)
Definition _PriorityCheck (ucPriority : Z) : bool := LW_PRIO_LOWEST <=? ucPriority.

Definition mutex_fields (ucCeilingPriority ulOption : Z) (E : LW_CLASS_EVENT) : LW_CLASS_EVENT :=
  mkEvent LW_TYPE_EVENT_MUTEX None LW_TRUE LW_PRIO_LOWEST (EVENT_iStatus E) ulOption ucCeilingPriority LW_NULL.

Definition API_SemaphoreMCreate (k : KERNEL) (c : CALL) (pcName : option (list Z))
    (ucCeilingPriority ulOption : Z) : option (KERNEL * Z * Z) :=
  if negb (LW_CPU_GET_CUR_NESTING c =? 0) then Some (k, LW_OBJECT_HANDLE_INVALID, ERROR_KERNEL_IN_ISR)
  else if _PriorityCheck ucCeilingPriority then Some (k, LW_OBJECT_HANDLE_INVALID, ERROR_THREAD_PRIORITY_WRONG)
  else event_create k _OBJECT_SEM_M pcName (mutex_fields ucCeilingPriority ulOption).

(** The mutex changes hands: counter, saved priority, owner. *)
Definition mutex_own (ulCounter ulMaxCounter : Z) (own : option Z) (E : LW_CLASS_EVENT) : LW_CLASS_EVENT :=
  set_EVENT_pvTcbOwn own (set_EVENT_ulMaxCounter ulMaxCounter (set_EVENT_ulCounter ulCounter E)).

(** The call from [__wait_again] on. *)
Definition mutex_wait_again (running : bool) (k : KERNEL) (ptcbCur ulId ulTimeout : Z) : option (KERNEL * PEND) :=
  let pevent := _ObjectGetIndex ulId in
  if negb (_ObjectClassOK ulId _OBJECT_SEM_M) then Some (k, Return ERROR_KERNEL_HANDLE_NULL)
  else if _Event_Index_Invalid k pevent then Some (k, Return ERROR_KERNEL_HANDLE_NULL)
  else if negb running then Some (k, Return ERROR_NONE)
  else
    bad ← _Event_Type_Invalid k pevent LW_TYPE_EVENT_MUTEX;
    if (bad : bool) then Some (k, Return ERROR_EVENT_TYPE)
    else
      E ← K_event k !! pevent;
      if negb (EVENT_ulCounter E =? 0) then
        ucPriority ← prio k ptcbCur;
        let k := upd_event pevent (mutex_own LW_FALSE ucPriority (Some ptcbCur)) k in
        Some (safe_enter k (EVENT_ulOption E) ptcbCur, Return ERROR_NONE)
      else if negb (has_option (EVENT_ulOption E) LW_OPTION_NORMAL)
              && bool_decide (EVENT_pvTcbOwn E = Some ptcbCur) then
        if has_option (EVENT_ulOption E) LW_OPTION_ERRORCHECK then Some (k, Return EDEADLK)
        else Some (upd_event pevent (set_EVENT_pvPtr (EVENT_pvPtr E +64 1)) k, Return ERROR_NONE)
      else if ulTimeout =? LW_OPTION_NOT_WAIT then Some (k, Return ERROR_THREAD_WAIT_TIMEOUT)
      else
        k ← _EventPrioTryBoost k pevent ptcbCur;
        k ← event_pend k ptcbCur pevent EVENT_SEM_Q LW_THREAD_STATUS_SEM ulTimeout;
        Some (k, Wait (EVENT_ulOption E)).

Definition API_SemaphoreMPend (k : KERNEL) (c : CALL) (ulId ulTimeout : Z) : option (KERNEL * PEND) :=
  if negb (LW_CPU_GET_CUR_NESTING c =? 0) then Some (k, Return ERROR_KERNEL_IN_ISR)
  else mutex_wait_again (LW_SYS_STATUS_IS_RUNNING c) k (LW_TCB_GET_CUR c) ulId ulTimeout.
Definition API_SemaphoreMPend_resume (k : KERNEL) (ptcbCur ulId ulKernelTime ulTimeSave ulTimeout
    ulEventOption iSchedRet : Z) : option (KERNEL * PEND) :=
  pend_resume (fun k => mutex_wait_again true k ptcbCur ulId)
    k ptcbCur ulKernelTime ulTimeSave ulTimeout ulEventOption iSchedRet.

(** The owner gives the mutex up: the last block of [API_SemaphoreMPost]. *)
Definition mutex_release (k : KERNEL) (ptcbCur pevent : Z) (E : LW_CLASS_EVENT) : option (KERNEL * Z) :=
  if negb (_EventWaitNum k EVENT_SEM_Q pevent =? 0) then
    '(k, ptcb) ← event_take k pevent EVENT_SEM_Q LW_NULL;
    k ← _EventPrioTryResume k pevent ptcbCur;
    ucPriority ← prio k ptcb;
    let k := upd_event pevent (fun E => set_EVENT_pvTcbOwn (Some ptcb) (set_EVENT_ulMaxCounter ucPriority E)) k in
    k ← _EventReadyHighLevel k ptcb LW_THREAD_STATUS_SEM LW_SCHED_ACT_INTERRUPT;
    let k := safe_enter k (EVENT_ulOption E) ptcb in
    k ← safe_leave k (EVENT_ulOption E) ptcbCur;
    Some (k, ERROR_NONE)
  else if EVENT_ulCounter E =? LW_FALSE then
    let k := upd_event pevent (mutex_own LW_TRUE LW_PRIO_LOWEST None) k in
    k ← safe_leave k (EVENT_ulOption E) ptcbCur;
    Some (k, ERROR_NONE)
  else Some (k, ERROR_EVENT_FULL).

Definition API_SemaphoreMPost (k : KERNEL) (c : CALL) (ulId : Z) : option (KERNEL * Z) :=
  let pevent := _ObjectGetIndex ulId in
  let ptcbCur := LW_TCB_GET_CUR c in
  if negb (LW_CPU_GET_CUR_NESTING c =? 0) then Some (k, ERROR_KERNEL_IN_ISR)
  else if negb (_ObjectClassOK ulId _OBJECT_SEM_M) then Some (k, ERROR_KERNEL_HANDLE_NULL)
  else if _Event_Index_Invalid k pevent then Some (k, ERROR_KERNEL_HANDLE_NULL)
  else if negb (LW_SYS_STATUS_IS_RUNNING c) then Some (k, ERROR_NONE)
  else
    bad ← _Event_Type_Invalid k pevent LW_TYPE_EVENT_MUTEX;
    if (bad : bool) then Some (k, ERROR_EVENT_TYPE)
    else
      E ← K_event k !! pevent;
      if negb (bool_decide (EVENT_pvTcbOwn E = Some ptcbCur)) then Some (k, ERROR_EVENT_NOT_OWN)
      else if negb (EVENT_pvPtr E =? 0)
           then Some (upd_event pevent (set_EVENT_pvPtr (EVENT_pvPtr E -64 1)) k, ERROR_NONE)
      else mutex_release k ptcbCur pevent E.

(** The owner at deletion gets its priority back, and leaves the safe mode. *)
Definition API_SemaphoreMDelete (k : KERNEL) (c : CALL) (ulId : Z) : option (KERNEL * Z * Z) :=
  if negb (LW_CPU_GET_CUR_NESTING c =? 0) then Some (k, ERROR_KERNEL_IN_ISR, ulId)
  else
    let pevent := _ObjectGetIndex ulId in
    err ← event_check k ulId _OBJECT_SEM_M LW_TYPE_EVENT_MUTEX;
    if negb (err =? ERROR_NONE) then Some (k, err, ulId)
    else
      let k := upd_event pevent (set_EVENT_ucType LW_TYPE_EVENT_UNUSED) k in
      k ← delete_waiters LW_THREAD_STATUS_SEM k pevent EVENT_SEM_Q;
      E ← K_event k !! pevent;
      let k := upd_event pevent (set_EVENT_pvTcbOwn None) k in
      k ← match EVENT_pvTcbOwn E with
          | None => Some k
          | Some ptcb =>
            p ← prio k ptcb;
            let ucPriority := wrap 8 (EVENT_ulMaxCounter E) in
            if negb (ucPriority =? p) then SchedSetPrio k ptcb ucPriority else Some k
          end;
      let k := set_resrc (_Free_Event_Object (K_resrcEvent k) pevent) k in
      k ← match EVENT_pvTcbOwn E with
          | None => Some k
          | Some ptcb => safe_leave k (EVENT_ulOption E) ptcb
          end;
      Some (k, ERROR_NONE, LW_OBJECT_HANDLE_INVALID).

Definition API_SemaphoreMStatus (k : KERNEL) (ulId : Z) : option (Z * option (Z * Z * Z)) :=
  let pevent := _ObjectGetIndex ulId in
  err ← event_check k ulId _OBJECT_SEM_M LW_TYPE_EVENT_MUTEX;
  if negb (err =? ERROR_NONE) then Some (err, None)
  else E ← K_event k !! pevent;
       Some (ERROR_NONE, Some (EVENT_ulCounter E, EVENT_ulOption E, _EventWaitNum k EVENT_SEM_Q pevent)).

(** ** Read-write semaphores *)

Definition rw_fields (ulOption : Z) (E : LW_CLASS_EVENT) : LW_CLASS_EVENT :=
  mkEvent LW_TYPE_EVENT_SEMRW None 0 0 EVENT_RW_STATUS_R ulOption (EVENT_ucCeilingPriority E) LW_NULL.

Definition API_SemaphoreRWCreate (k : KERNEL) (c : CALL) (pcName : option (list Z)) (ulOption : Z)
    : option (KERNEL * Z * Z) :=
  if negb (LW_CPU_GET_CUR_NESTING c =? 0) then Some (k, LW_OBJECT_HANDLE_INVALID, ERROR_KERNEL_IN_ISR)
  else event_create k _OBJECT_SEM_RW pcName (rw_fields ulOption).

Definition rw_count (d : Z) (E : LW_CLASS_EVENT) : LW_CLASS_EVENT :=
  set_EVENT_ulCounter (wrap 64 (EVENT_ulCounter E + d)) E.
Definition rw_mode (own : option Z) (iStatus : Z) (E : LW_CLASS_EVENT) : LW_CLASS_EVENT :=
  set_EVENT_iStatus iStatus (set_EVENT_pvTcbOwn own E).

Definition rwr_wait_again (running : bool) (k : KERNEL) (ptcbCur ulId ulTimeout : Z) : option (KERNEL * PEND) :=
  let pevent := _ObjectGetIndex ulId in
  if negb (_ObjectClassOK ulId _OBJECT_SEM_RW) then Some (k, Return ERROR_KERNEL_HANDLE_NULL)
  else if _Event_Index_Invalid k pevent then Some (k, Return ERROR_KERNEL_HANDLE_NULL)
  else if negb running then Some (k, Return ERROR_NONE)
  else
    bad ← _Event_Type_Invalid k pevent LW_TYPE_EVENT_SEMRW;
    if (bad : bool) then Some (k, Return ERROR_EVENT_TYPE)
    else
      E ← K_event k !! pevent;
      if (EVENT_iStatus E =? EVENT_RW_STATUS_R) && (_EventWaitNum k EVENT_RW_Q_W pevent =? 0) then
        let k := upd_event pevent (rw_count 1) k in
        Some (safe_enter k (EVENT_ulOption E) ptcbCur, Return ERROR_NONE)
      else if ulTimeout =? LW_OPTION_NOT_WAIT then Some (k, Return ERROR_THREAD_WAIT_TIMEOUT)
      else
        k ← event_pend k ptcbCur pevent EVENT_RW_Q_R LW_THREAD_STATUS_SEM ulTimeout;
        Some (k, Wait (EVENT_ulOption E)).

Definition rww_wait_again (running : bool) (k : KERNEL) (ptcbCur ulId ulTimeout : Z) : option (KERNEL * PEND) :=
  let pevent := _ObjectGetIndex ulId in
  if negb (_ObjectClassOK ulId _OBJECT_SEM_RW) then Some (k, Return ERROR_KERNEL_HANDLE_NULL)
  else if _Event_Index_Invalid k pevent then Some (k, Return ERROR_KERNEL_HANDLE_NULL)
  else if negb running then Some (k, Return ERROR_NONE)
  else
    bad ← _Event_Type_Invalid k pevent LW_TYPE_EVENT_SEMRW;
    if (bad : bool) then Some (k, Return ERROR_EVENT_TYPE)
    else
      E ← K_event k !! pevent;
      if EVENT_ulCounter E =? 0 then
        let k := upd_event pevent (fun E => rw_mode (Some ptcbCur) EVENT_RW_STATUS_W (rw_count 1 E)) k in
        Some (safe_enter k (EVENT_ulOption E) ptcbCur, Return ERROR_NONE)
      else if bool_decide (EVENT_pvTcbOwn E = Some ptcbCur) then
        Some (upd_event pevent (set_EVENT_pvPtr (EVENT_pvPtr E +64 1)) k, Return ERROR_NONE)
      else if ulTimeout =? LW_OPTION_NOT_WAIT then Some (k, Return ERROR_THREAD_WAIT_TIMEOUT)
      else
        k ← event_pend k ptcbCur pevent EVENT_RW_Q_W LW_THREAD_STATUS_SEM ulTimeout;
        Some (k, Wait (EVENT_ulOption E)).

Definition API_SemaphoreRWPendR (k : KERNEL) (c : CALL) (ulId ulTimeout : Z) : option (KERNEL * PEND) :=
  if negb (LW_CPU_GET_CUR_NESTING c =? 0) then Some (k, Return ERROR_KERNEL_IN_ISR)
  else rwr_wait_again (LW_SYS_STATUS_IS_RUNNING c) k (LW_TCB_GET_CUR c) ulId ulTimeout.
Definition API_SemaphoreRWPendR_resume (k : KERNEL) (ptcbCur ulId ulKernelTime ulTimeSave ulTimeout
    ulEventOption iSchedRet : Z) : option (KERNEL * PEND) :=
  pend_resume (fun k => rwr_wait_again true k ptcbCur ulId)
    k ptcbCur ulKernelTime ulTimeSave ulTimeout ulEventOption iSchedRet.
Definition API_SemaphoreRWPendW (k : KERNEL) (c : CALL) (ulId ulTimeout : Z) : option (KERNEL * PEND) :=
  if negb (LW_CPU_GET_CUR_NESTING c =? 0) then Some (k, Return ERROR_KERNEL_IN_ISR)
  else rww_wait_again (LW_SYS_STATUS_IS_RUNNING c) k (LW_TCB_GET_CUR c) ulId ulTimeout.
Definition API_SemaphoreRWPendW_resume (k : KERNEL) (ptcbCur ulId ulKernelTime ulTimeSave ulTimeout
    ulEventOption iSchedRet : Z) : option (KERNEL * PEND) :=
  pend_resume (fun k => rww_wait_again true k ptcbCur ulId)
    k ptcbCur ulKernelTime ulTimeSave ulTimeout ulEventOption iSchedRet.

(** The loop that admits all waiting readers. *)
Fixpoint readers_loop (n : nat) (k : KERNEL) (pevent ulOption : Z) : option KERNEL :=
  match n with
  | O => None
  | S n =>
    if _EventWaitNum k EVENT_RW_Q_R pevent =? 0 then Some k
    else
      '(k, ptcb) ← event_take k pevent EVENT_RW_Q_R LW_NULL;
      let k := upd_event pevent (rw_count 1) k in
      k ← _EventReadyHighLevel k ptcb LW_THREAD_STATUS_SEM LW_SCHED_ACT_OTHER;
      readers_loop n (safe_enter k ulOption ptcb) pevent ulOption
  end.

(** [__release_pend]: the semaphore goes to the first writer, or to all
    readers, or becomes free. *)
Definition rw_release (k : KERNEL) (ptcbCur pevent : Z) (E : LW_CLASS_EVENT) (bIgnWrite : bool)
    : option (KERNEL * Z) :=
  if negb (_EventWaitNum k EVENT_RW_Q_W pevent =? 0) && negb bIgnWrite then
    '(k, ptcb) ← event_ready k pevent EVENT_RW_Q_W LW_NULL LW_THREAD_STATUS_SEM LW_SCHED_ACT_INTERRUPT;
    let k := upd_event pevent (rw_mode (Some ptcb) EVENT_RW_STATUS_W) k in
    let k := safe_enter k (EVENT_ulOption E) ptcb in
    k ← safe_leave k (EVENT_ulOption E) ptcbCur;
    Some (k, ERROR_NONE)
  else if negb (_EventWaitNum k EVENT_RW_Q_R pevent =? 0) then
    let k := upd_event pevent (rw_count (-1)) k in
    k ← readers_loop (S (Z.to_nat (_EventWaitNum k EVENT_RW_Q_R pevent))) k pevent (EVENT_ulOption E);
    let k := upd_event pevent (rw_mode None EVENT_RW_STATUS_R) k in
    k ← safe_leave k (EVENT_ulOption E) ptcbCur;
    Some (k, ERROR_NONE)
  else
    let k := upd_event pevent (fun E => rw_mode None EVENT_RW_STATUS_R (rw_count (-1) E)) k in
    k ← safe_leave k (EVENT_ulOption E) ptcbCur;
    Some (k, ERROR_NONE).

Definition API_SemaphoreRWPost (k : KERNEL) (c : CALL) (ulId : Z) : option (KERNEL * Z) :=
  let pevent := _ObjectGetIndex ulId in
  let ptcbCur := LW_TCB_GET_CUR c in
  if negb (LW_CPU_GET_CUR_NESTING c =? 0) then Some (k, ERROR_KERNEL_IN_ISR)
  else if negb (_ObjectClassOK ulId _OBJECT_SEM_RW) then Some (k, ERROR_KERNEL_HANDLE_NULL)
  else if _Event_Index_Invalid k pevent then Some (k, ERROR_KERNEL_HANDLE_NULL)
  else if negb (LW_SYS_STATUS_IS_RUNNING c) then Some (k, ERROR_NONE)
  else
    bad ← _Event_Type_Invalid k pevent LW_TYPE_EVENT_SEMRW;
    if (bad : bool) then Some (k, ERROR_EVENT_TYPE)
    else
      E ← K_event k !! pevent;
      if EVENT_ulCounter E =? 0 then Some (k, ERROR_EVENT_NOT_OWN)
      else if EVENT_iStatus E =? EVENT_RW_STATUS_R then
        if 1 <? EVENT_ulCounter E then
          let k := upd_event pevent (rw_count (-1)) k in
          k ← safe_leave k (EVENT_ulOption E) ptcbCur;
          Some (k, ERROR_NONE)
        else
          let bIgnWrite := negb (has_option (EVENT_ulOption E) LW_OPTION_RW_PREFER_WRITER)
                           && negb (_EventWaitNum k EVENT_RW_Q_R pevent =? 0) in
          rw_release k ptcbCur pevent E bIgnWrite
      else if negb (bool_decide (EVENT_pvTcbOwn E = Some ptcbCur)) then Some (k, ERROR_EVENT_NOT_OWN)
      else if negb (EVENT_pvPtr E =? 0)
           then Some (upd_event pevent (set_EVENT_pvPtr (EVENT_pvPtr E -64 1)) k, ERROR_NONE)
      else rw_release k ptcbCur pevent E false.

Definition API_SemaphoreRWDelete (k : KERNEL) (c : CALL) (ulId : Z) : option (KERNEL * Z * Z) :=
  if negb (LW_CPU_GET_CUR_NESTING c =? 0) then Some (k, ERROR_KERNEL_IN_ISR, ulId)
  else
    let pevent := _ObjectGetIndex ulId in
    err ← event_check k ulId _OBJECT_SEM_RW LW_TYPE_EVENT_SEMRW;
    if negb (err =? ERROR_NONE) then Some (k, err, ulId)
    else
      let k := upd_event pevent (set_EVENT_ucType LW_TYPE_EVENT_UNUSED) k in
      k ← delete_waiters LW_THREAD_STATUS_SEM k pevent EVENT_RW_Q_R;
      k ← delete_waiters LW_THREAD_STATUS_SEM k pevent EVENT_RW_Q_W;
      E ← K_event k !! pevent;
      let k := upd_event pevent (set_EVENT_pvTcbOwn None) k in
      let k := set_resrc (_Free_Event_Object (K_resrcEvent k) pevent) k in
      k ← match EVENT_pvTcbOwn E with
          | None => Some k
          | Some ptcb => safe_leave k (EVENT_ulOption E) ptcb
          end;
      Some (k, ERROR_NONE, LW_OBJECT_HANDLE_INVALID).

Definition API_SemaphoreRWStatus (k : KERNEL) (ulId : Z) : option (Z * option (Z * Z * Z * Z * Z)) :=
  let pevent := _ObjectGetIndex ulId in
  err ← event_check k ulId _OBJECT_SEM_RW LW_TYPE_EVENT_SEMRW;
  if negb (err =? ERROR_NONE) then Some (err, None)
  else
    E ← K_event k !! pevent;
    owner ← (if EVENT_iStatus E =? EVENT_RW_STATUS_W then EVENT_pvTcbOwn E else Some 0);
    Some (ERROR_NONE, Some (EVENT_ulCounter E, _EventWaitNum k EVENT_RW_Q_R pevent,
                            _EventWaitNum k EVENT_RW_Q_W pevent, EVENT_ulOption E, owner)).

(** ** SemaphorePend.c, SemaphorePost.c, SemaphoreDelete.c, SemaphoreFlush.c *)

Definition API_SemaphorePend (k : KERNEL) (c : CALL) (ulId ulTimeout : Z) : option (KERNEL * PEND) :=
  let cls := _ObjectGetClass ulId in
  if cls =? _OBJECT_SEM_B then API_SemaphoreBPend k c ulId ulTimeout
  else if cls =? _OBJECT_SEM_C then API_SemaphoreCPend k c ulId ulTimeout
  else if cls =? _OBJECT_SEM_M then API_SemaphoreMPend k c ulId ulTimeout
  else Some (k, Return ERROR_KERNEL_HANDLE_NULL).

Definition API_SemaphorePost (k : KERNEL) (c : CALL) (ulId : Z) : option (KERNEL * Z) :=
  let cls := _ObjectGetClass ulId in
  if cls =? _OBJECT_SEM_B then API_SemaphoreBPost k ulId
  else if cls =? _OBJECT_SEM_C then API_SemaphoreCPost k ulId
  else if cls =? _OBJECT_SEM_M then API_SemaphoreMPost k c ulId
  else if cls =? _OBJECT_SEM_RW then API_SemaphoreRWPost k c ulId
  else Some (k, ERROR_KERNEL_HANDLE_NULL).

Definition API_SemaphoreDelete (k : KERNEL) (c : CALL) (ulId : Z) : option (KERNEL * Z * Z) :=
  let cls := _ObjectGetClass ulId in
  if cls =? _OBJECT_SEM_B then API_SemaphoreBDelete k c ulId
  else if cls =? _OBJECT_SEM_C then API_SemaphoreCDelete k c ulId
  else if cls =? _OBJECT_SEM_M then API_SemaphoreMDelete k c ulId
  else if cls =? _OBJECT_SEM_RW then API_SemaphoreRWDelete k c ulId
  else Some (k, ERROR_KERNEL_HANDLE_NULL, ulId).

Definition API_SemaphoreFlush (k : KERNEL) (ulId : Z) : option (KERNEL * Z * option Z) :=
  let cls := _ObjectGetClass ulId in
  if cls =? _OBJECT_SEM_B then API_SemaphoreBFlush k ulId
  else if cls =? _OBJECT_SEM_C then API_SemaphoreCFlush k ulId
  else Some (k, ERROR_KERNEL_HANDLE_NULL, None).

(** ** SemaphorePostPend.c: the post and the wait in one kernel lock *)

Definition post_pend (wait_again : KERNEL -> Z -> Z -> Z -> option (KERNEL * PEND)) (k : KERNEL) (c : CALL)
    (ulIdPost ulId ulTimeout : Z) : option (KERNEL * PEND) :=
  let cls := _ObjectGetClass ulIdPost in
  if negb (LW_CPU_GET_CUR_NESTING c =? 0) then Some (k, Return ERROR_KERNEL_IN_ISR)
  else if negb (cls =? _OBJECT_SEM_B) && negb (cls =? _OBJECT_SEM_C) && negb (cls =? _OBJECT_SEM_M)
       then Some (k, Return ERROR_KERNEL_HANDLE_NULL)
  else if _Event_Index_Invalid k (_ObjectGetIndex ulIdPost) then Some (k, Return ERROR_KERNEL_HANDLE_NULL)
  else
    '(k, ulError) ← API_SemaphorePost k c ulIdPost;
    if negb (ulError =? 0) then Some (k, Return ulError)
    else wait_again k (LW_TCB_GET_CUR c) ulId ulTimeout.

Definition API_SemaphorePostBPend : KERNEL -> CALL -> Z -> Z -> Z -> option (KERNEL * PEND) :=
  post_pend (sem_wait_again _OBJECT_SEM_B LW_TYPE_EVENT_SEMB semb_take).
Definition API_SemaphorePostCPend : KERNEL -> CALL -> Z -> Z -> Z -> option (KERNEL * PEND) :=
  post_pend (sem_wait_again _OBJECT_SEM_C LW_TYPE_EVENT_SEMC semc_take).
