(* ===== verification/SemSpec.v ===== *)
(** * Semaphores keep their promises

    The invariant of the semaphores over the waiting kernel (file EventSpec), and
    the building blocks of the services against it: waking one waiter, all
    waiters, waiting, creating and deleting. *)

From S2P Require Import Prelude Lists Bitmap Sched SchedSpec Object Wakeup Kernel Event EventSpec Boot TickSpec Semaphore Mutex.

(** ** The invariant *)

(** Every event of this part of the system is waited for with the semaphore bit. *)
Definition SEMB : Z -> Z := fun _ => LW_THREAD_STATUS_SEM.

Definition alive (k : KERNEL) (t : Z) : Prop := is_Some (K_wait k !! t).

(** A counting or binary semaphore: units are there or threads wait, never both. *)
Definition sem_ok (E : LW_CLASS_EVENT) (q0 q1 : list Z) : Prop :=
  0 <= EVENT_ulCounter E <= EVENT_ulMaxCounter E /\ EVENT_ulMaxCounter E <= ULONG_MAX /\
  (0 < EVENT_ulCounter E -> q0 = []) /\ q1 = [].

(** A mutex is free, without owner and waiters, or has an owner whose old
    priority it keeps. *)
Definition mutex_ok (k : KERNEL) (E : LW_CLASS_EVENT) (q0 q1 : list Z) : Prop :=
  prio_ok (EVENT_ucCeilingPriority E) /\ q1 = [] /\
  ((EVENT_ulCounter E = LW_TRUE /\ EVENT_pvTcbOwn E = None /\ EVENT_pvPtr E = 0 /\ q0 = []) \/
   (EVENT_ulCounter E = LW_FALSE /\ prio_ok (EVENT_ulMaxCounter E) /\ 0 <= EVENT_pvPtr E <= ULONG_MAX /\
    exists t, EVENT_pvTcbOwn E = Some t /\ alive k t)).

(** A read-write semaphore is shared by [EVENT_ulCounter] readers or owned by one
    writer; when it is free nobody waits. *)
Definition rw_ok (k : KERNEL) (E : LW_CLASS_EVENT) (q0 q1 : list Z) : Prop :=
  0 <= EVENT_ulCounter E <= ULONG_MAX /\
  ((EVENT_iStatus E = EVENT_RW_STATUS_R /\ EVENT_pvTcbOwn E = None /\ EVENT_pvPtr E = 0 /\
    (EVENT_ulCounter E = 0 -> q0 = [] /\ q1 = [])) \/
   (EVENT_iStatus E = EVENT_RW_STATUS_W /\ EVENT_ulCounter E = 1 /\ 0 <= EVENT_pvPtr E <= ULONG_MAX /\
    exists t, EVENT_pvTcbOwn E = Some t /\ alive k t)).

Inductive ev_ok (k : KERNEL) (E : LW_CLASS_EVENT) (q0 q1 : list Z) : Prop :=
| ev_unused : EVENT_ucType E = LW_TYPE_EVENT_UNUSED -> q0 = [] -> q1 = [] -> ev_ok k E q0 q1
| ev_semc : EVENT_ucType E = LW_TYPE_EVENT_SEMC -> sem_ok E q0 q1 -> ev_ok k E q0 q1
| ev_semb : EVENT_ucType E = LW_TYPE_EVENT_SEMB -> sem_ok E q0 q1 -> EVENT_ulMaxCounter E = 1 -> ev_ok k E q0 q1
| ev_mutex : EVENT_ucType E = LW_TYPE_EVENT_MUTEX -> mutex_ok k E q0 q1 -> ev_ok k E q0 q1
| ev_semrw : EVENT_ucType E = LW_TYPE_EVENT_SEMRW -> rw_ok k E q0 q1 -> ev_ok k E q0 q1.

(** The pool holds exactly the unused control blocks. *)
Record pool_ok (k : KERNEL) : Prop := {
  po_nodup : NoDup (RESRC_free (K_resrcEvent k));
  po_free : forall e, e ∈ RESRC_free (K_resrcEvent k) <->
    exists E, K_event k !! e = Some E /\ EVENT_ucType E = LW_TYPE_EVENT_UNUSED;
  po_dom : forall e, is_Some (K_event k !! e) <-> 0 <= e < LW_CFG_MAX_EVENTS k;
  po_max : 0 <= LW_CFG_MAX_EVENTS k <= 2 ^ 16;
  po_used : RESRC_uiUsed (K_resrcEvent k) = LW_CFG_MAX_EVENTS k - Z.of_nat (length (RESRC_free (K_resrcEvent k)))
}.

(** A waiting thread has not been told of a deletion. *)
Definition mark_ok (k : KERNEL) : Prop := forall t w,
  K_wait k !! t = Some w -> is_Some (TCB_peventPtr w) -> TCB_ucIsEventDelete w = LW_EVENT_EXIST.

Record sem_inv (idle : Z -> Z) (k : KERNEL) : Prop := {
  sv_kern : kern_inv idle SEMB k;
  sv_ev : forall e E, K_event k !! e = Some E -> ev_ok k E (wview k e 0) (wview k e 1);
  sv_pool : pool_ok k;
  sv_mark : mark_ok k
}.

(** ** Steps that concern one event *)

(** Thread [t] waits for no event and is in the delay line for [d] more ticks: it sleeps. *)
Definition sleeps (k : KERNEL) (t d : Z) : Prop :=
  (exists w, K_wait k !! t = Some w /\ TCB_peventPtr w = None) /\
  exists q, line_queue (WU_line (K_wuDelay k)) (K_wun k) q /\ (t, d) ∈ q.

(** A step after which the sleeping threads [P] still sleep, for as long. *)
Lemma sleeps_keep k k' t d : K_wuDelay k' = K_wuDelay k -> K_wun k' = K_wun k ->
  (forall w, K_wait k !! t = Some w -> exists w', K_wait k' !! t = Some w' /\ TCB_peventPtr w' = TCB_peventPtr w) ->
  sleeps k t d -> sleeps k' t d.
Proof.
  intros E1 E2 Hw [(w & H1 & H2) Hq]. destruct (Hw w H1) as (w' & H3 & H4). split; [exists w'; by rewrite H4|]. by rewrite E1, E2.
Qed.

Lemma sleeps_queue k k' t d u (f : queue -> queue) : u <> t -> (forall x, x <> u -> K_wait k' !! x = K_wait k !! x) ->
  (forall q, line_queue (WU_line (K_wuDelay k)) (K_wun k) q -> line_queue (WU_line (K_wuDelay k')) (K_wun k') (f q)) ->
  (forall q, (t, d) ∈ q -> (t, d) ∈ f q) -> sleeps k t d -> sleeps k' t d.
Proof.
  intros Hu Hw Hq Hf [(w & H1 & H2) (q & H3 & H4)]. split; [exists w; by rewrite Hw|]. exists (f q). split; [by apply Hq|by apply Hf].
Qed.

Lemma q_remove_other u q t d : u <> t -> (t, d) ∈ q -> (t, d) ∈ q_remove u q.
Proof.
  intros Hu. induction q as [|[y e] q IH]; [done|]. cbn [q_remove]. intros [[= -> ->]|Hin]%elem_of_cons.
  - rewrite (proj2 (Z.eqb_neq y u)) by done. left.
  - destruct (y =? u); [done|]. right. by apply IH.
Qed.

Record touches (k k' : KERNEL) (e : Z) : Prop := {
  tc_event : forall e', e' <> e -> K_event k' !! e' = K_event k !! e';
  tc_view : forall e' iq, e' <> e -> wview k' e' iq = wview k e' iq;
  tc_dom : forall t, alive k' t <-> alive k t;
  tc_resrc : K_resrcEvent k' = K_resrcEvent k;
  tc_max : LW_CFG_MAX_EVENTS k' = LW_CFG_MAX_EVENTS k;
  tc_es : K_es k' = K_es k;
  tc_esn : K_esn k' = K_esn k;
  tc_mark : mark_ok k -> mark_ok k';
  tc_sleep : forall t d, sleeps k t d -> sleeps k' t d
}.

Lemma touches_refl k e : touches k k e.
Proof. by split. Qed.

Lemma touches_trans k1 k2 k3 e : touches k1 k2 e -> touches k2 k3 e -> touches k1 k3 e.
Proof.
  intros [A1 A2 A3 A4 A5 A6 A7 A8 A9] [B1 B2 B3 B4 B5 B6 B7 B8 B9]. split; try congruence.
  - intros e' He. by rewrite B1, A1.
  - intros e' iq He. by rewrite B2, A2.
  - intros t. by rewrite B3, A3.
  - auto.
  - auto.
Qed.

#[export] Instance touches_preorder e : PreOrder (fun k k' => touches k k' e).
Proof. split; [intros k; apply touches_refl|intros k1 k2 k3; apply touches_trans]. Qed.

(** The event itself keeps its control block but for the fields [f] writes. *)
Lemma touches_upd k e f : touches k (upd_event e f k) e.
Proof.
  split; try done.
  - intros e' He. cbn [upd_event K_event]. by rewrite lookup_alter_ne.
  - intros e' iq He. apply wview_frame; [|done]. unfold is_prio, eopt. cbn [upd_event K_event].
    by rewrite lookup_alter_ne.
Qed.

Lemma wview_upd k e f e' iq : (forall E, K_event k !! e = Some E -> EVENT_ulOption (f E) = EVENT_ulOption E) ->
  wview (upd_event e f k) e' iq = wview k e' iq.
Proof. intros Hf. apply wview_same; [done|]. by apply upd_event_same. Qed.

Lemma lookup_upd e f k E : K_event k !! e = Some E -> K_event (upd_event e f k) !! e = Some (f E).
Proof. intros H. cbn [upd_event K_event]. by rewrite lookup_alter_eq, H. Qed.

(** Writes of the control block of a thread. *)
Lemma touches_wait k t f e : (forall w, TCB_peventPtr (f w) = TCB_peventPtr w) ->
  (forall w, K_wait k !! t = Some w -> is_Some (TCB_peventPtr w) -> TCB_ucIsEventDelete (f w) = TCB_ucIsEventDelete w) ->
  touches k (upd_wait t f k) e.
Proof.
  intros Hp Hd. split; try done.
  - intros u. unfold alive. rewrite lookup_upd_wait. case_decide; [by rewrite fmap_is_Some|done].
  - intros Hm u w. rewrite lookup_upd_wait. case_decide as Eu; [|apply Hm]. intros (w0 & Hw0 & ->)%fmap_Some.
    rewrite Hp. intros Hs. subst u. rewrite (Hd w0 Hw0 Hs). by apply (Hm t).
  - intros u d. apply sleeps_keep; [done|done|]. intros w Hw. rewrite lookup_upd_wait, Hw. case_decide; [|by exists w].
    exists (f w). split; [done|apply Hp].
Qed.

Lemma alive_touches k k' e t : touches k k' e -> alive k' t <-> alive k t.
Proof. intros H. apply H. Qed.

Lemma ev_ok_alive k k' E q0 q1 : (forall t, alive k t -> alive k' t) -> ev_ok k E q0 q1 -> ev_ok k' E q0 q1.
Proof.
  intros Ha [H1 H2 H3|H1 H2|H1 H2 H3|H1 H2|H1 H2].
  - by apply ev_unused.
  - by apply ev_semc.
  - by apply ev_semb.
  - apply ev_mutex; [done|]. destruct H2 as (A & B' & H). split; [done|]. split; [done|].
    destruct H as [H|(C & D & F & t & Ht1 & Ht2)]; [by left|right].
    split; [done|]. split; [done|]. split; [done|]. exists t. split; [done|]. by apply Ha.
  - apply ev_semrw; [done|]. destruct H2 as (A & H). split; [done|].
    destruct H as [H|(B' & C & D & t & Ht1 & Ht2)]; [by left|right].
    split; [done|]. split; [done|]. split; [done|]. exists t. split; [done|]. by apply Ha.
Qed.

Lemma ev_ok_touches k k' e E q0 q1 : touches k k' e -> ev_ok k E q0 q1 -> ev_ok k' E q0 q1.
Proof. intros Ht. apply ev_ok_alive. intros t. apply Ht. Qed.

(** The free list holds no more than all control blocks. *)
Lemma pool_length k : pool_ok k -> Z.of_nat (length (RESRC_free (K_resrcEvent k))) <= Z.max 0 (LW_CFG_MAX_EVENTS k).
Proof.
  intros [P1 P2 P3 P4 P5].
  assert (Hs : RESRC_free (K_resrcEvent k) ⊆+ seqZ 0 (LW_CFG_MAX_EVENTS k)).
  { apply NoDup_submseteq; [done|]. intros e He%P2. destruct He as (E & HE & _). apply elem_of_seqZ.
    rewrite Z.add_0_l. apply P3. by eexists. }
  apply submseteq_length in Hs. rewrite length_seqZ in Hs. lia.
Qed.

(** The step lemma of the invariant: only the event [e] has to be looked at. *)
Lemma sem_inv_step idle k k' e E E' :
  sem_inv idle k -> kern_inv idle SEMB k' -> touches k k' e ->
  K_event k !! e = Some E -> K_event k' !! e = Some E' ->
  ev_ok k' E' (wview k' e 0) (wview k' e 1) ->
  (EVENT_ucType E' = LW_TYPE_EVENT_UNUSED <-> EVENT_ucType E = LW_TYPE_EVENT_UNUSED) ->
  sem_inv idle k'.
Proof.
  intros [S1 S2 S3 S4] Hk Ht HE HE' Hok Hty. split; [done| | |by apply Ht].
  - intros e' E0 H0. destruct (decide (e' = e)) as [->|Hne]; [congruence|].
    rewrite (tc_event _ _ _ Ht) in H0 by done. rewrite !(tc_view _ _ _ Ht) by done.
    apply (ev_ok_touches k k' e); [done|]. by apply S2.
  - destruct S3 as [P1 P2 P3 P4 P5]. rewrite <-(tc_resrc _ _ _ Ht) in *. rewrite <-(tc_max _ _ _ Ht) in *.
    split; try done.
    + intros e'. rewrite P2. destruct (decide (e' = e)) as [->|Hne]; [|by rewrite (tc_event _ _ _ Ht)].
      split; [intros (E0 & H1 & H2); exists E'; rewrite HE in H1; injection H1 as <-; split; [done|by apply Hty]|].
      intros (E0 & H1 & H2). exists E. rewrite HE' in H1. injection H1 as <-. split; [done|]. by apply Hty.
    + intros e'. rewrite <-P3. destruct (decide (e' = e)) as [->|Hne]; [|by rewrite (tc_event _ _ _ Ht)].
      by rewrite HE, HE'; split; intros; eexists.
Qed.

(** ** One waiter is woken *)

Lemma high_upd_event k t b a e f :
  _EventReadyHighLevel (upd_event e f k) t b a = (k' ← _EventReadyHighLevel k t b a; Some (upd_event e f k')).
Proof.
  unfold _EventReadyHighLevel, ready_if, status. cbn [upd_event upd_wait K_wait K_sched].
  destruct (alter (set_TCB_peventPtr None) t (K_wait k) !! t) as [w|]; [|done]. cbn [mbind option_bind].
  destruct (negb (TCB_ucWaitTimeout w =? 0)); [done|].
  destruct (tcbs (K_sched k) !! t) as [T|]; [|done]. cbn [fmap option_fmap option_map mbind option_bind].
  cbn [set_status set_sched upd_wait upd_event K_sched]. match goal with |- context [tcbs ?s !! t] => destruct (tcbs s !! t) as [T'|] end; [|done].
  cbn [mbind option_bind]. destruct (__LW_THREAD_IS_READY T'); [|done].
  match goal with |- context [__ADD_TO_READY_RING ?s ?u ?p] => by destruct (__ADD_TO_READY_RING s u p) end.
Qed.

Definition mark (d : Z) (t : Z) (k : KERNEL) : KERNEL := upd_wait t (set_TCB_ucIsEventDelete d) k.

Lemma high_mark k t b a d :
  _EventReadyHighLevel (mark d t k) t b a = (k' ← _EventReadyHighLevel k t b a; Some (mark d t k')).
Proof.
  unfold _EventReadyHighLevel, ready_if, status, mark.
  assert (E : upd_wait t (set_TCB_peventPtr None) (upd_wait t (set_TCB_ucIsEventDelete d) k)
    = upd_wait t (set_TCB_ucIsEventDelete d) (upd_wait t (set_TCB_peventPtr None) k)).
  { unfold upd_wait. cbn. f_equal. by rewrite !alter_alter_eq. }
  rewrite E. set (k1 := upd_wait t (set_TCB_peventPtr None) k).
  rewrite lookup_upd_wait, decide_True by done. destruct (K_wait k1 !! t) as [w|]; [|done].
  cbn [fmap option_fmap option_map mbind option_bind TCB_ucWaitTimeout set_TCB_ucIsEventDelete].
  destruct (negb (TCB_ucWaitTimeout w =? 0)).
  - cbn [mbind option_bind]. f_equal. unfold upd_wait. cbn. f_equal. by rewrite !alter_alter_eq.
  - cbn [upd_wait K_sched]. destruct (tcbs (K_sched k1) !! t) as [T|]; [|done].
    cbn [fmap option_fmap option_map mbind option_bind].
    cbn [set_status set_sched upd_wait K_sched]. match goal with |- context [tcbs ?s !! t] => destruct (tcbs s !! t) as [T'|] end; [|done].
    cbn [mbind option_bind]. destruct (__LW_THREAD_IS_READY T'); [|done].
    match goal with |- context [__ADD_TO_READY_RING ?s ?u ?p] => by destruct (__ADD_TO_READY_RING s u p) end.
Qed.

(** A wake-up with something written between its two halves. *)
Lemma take_high_eq (g : Z -> KERNEL -> KERNEL) k e iq msg b a :
  (forall k1 t, _EventReadyHighLevel (g t k1) t b a = (k' ← _EventReadyHighLevel k1 t b a; Some (g t k'))) ->
  forall A (f : KERNEL -> Z -> option A),
  ('(k1, t) ← event_take k e iq msg; k' ← _EventReadyHighLevel (g t k1) t b a; f k' t) =
  ('(k', t) ← event_ready k e iq msg b a; f (g t k') t).
Proof.
  intros H A f. unfold event_ready. destruct (event_take k e iq msg) as [[k1 t]|]; [|done]. cbn [mbind option_bind].
  rewrite H. by destruct (_EventReadyHighLevel k1 t b a).
Qed.

(** The three loops that wake a whole queue: after each wake-up the event is
    rewritten by [f] and the thread by [h]. *)
Fixpoint wake_loop (b : Z) (f : LW_CLASS_EVENT -> LW_CLASS_EVENT) (h : WAIT -> WAIT) (n : nat) (k : KERNEL) (e iq : Z)
    : option KERNEL :=
  match n with
  | O => None
  | S n =>
    if _EventWaitNum k iq e =? 0 then Some k
    else
      '(k, t) ← event_ready k e iq LW_NULL b LW_SCHED_ACT_OTHER;
      wake_loop b f h n (upd_wait t h (upd_event e f k)) e iq
  end.

Lemma upd_wait_same k t : upd_wait t (fun w => w) k = k.
Proof. unfold upd_wait. destruct k. simpl. f_equal. by rewrite alter_id. Qed.
Lemma upd_event_id k e : upd_event e (fun E => E) k = k.
Proof. unfold upd_event. destruct k. simpl. f_equal. by rewrite alter_id. Qed.

Lemma flush_loop_eq b n k e iq : flush_loop b n k e iq = wake_loop b (fun E => E) (fun w => w) n k e iq.
Proof.
  revert k. induction n as [|n IH]; intros k; [done|]. cbn [flush_loop wake_loop].
  destruct (_EventWaitNum k iq e =? 0); [done|].
  destruct (event_ready k e iq _ _ _) as [[k1 t]|]; [|done]. cbn [mbind option_bind].
  by rewrite upd_event_id, upd_wait_same.
Qed.

Lemma delete_loop_eq b n k e iq :
  delete_loop b n k e iq = wake_loop b (fun E => E) (set_TCB_ucIsEventDelete LW_EVENT_DELETE) n k e iq.
Proof.
  revert k. induction n as [|n IH]; intros k; [done|]. cbn [delete_loop wake_loop].
  destruct (_EventWaitNum k iq e =? 0); [done|].
  pose proof (take_high_eq (mark LW_EVENT_DELETE) k e iq LW_NULL b LW_SCHED_ACT_OTHER
    (fun k1 t => high_mark k1 t _ _ _) _ (fun k _ => delete_loop b n k e iq)) as Eq.
  unfold mark in Eq. rewrite Eq. destruct (event_ready k e iq _ _ _) as [[k1 t]|]; [|done].
  cbn [mbind option_bind]. by rewrite upd_event_id.
Qed.

(** Entering the safe mode as a rewriting of the control block. *)
Definition safe_wait (opt : Z) (w : WAIT) : WAIT :=
  if has_option opt LW_OPTION_DELETE_SAFE then set_TCB_ulThreadSafeCounter (TCB_ulThreadSafeCounter w +64 1) w else w.

Lemma safe_enter_eq k opt t : safe_enter k opt t = upd_wait t (safe_wait opt) k.
Proof.
  unfold safe_enter, safe_wait. destruct (has_option opt LW_OPTION_DELETE_SAFE); [done|].
  by rewrite upd_wait_same.
Qed.

Lemma readers_loop_eq n k e opt :
  readers_loop n k e opt = wake_loop LW_THREAD_STATUS_SEM (rw_count 1) (safe_wait opt) n k e EVENT_RW_Q_R.
Proof.
  revert k. induction n as [|n IH]; intros k; [done|]. cbn [readers_loop wake_loop].
  destruct (_EventWaitNum k EVENT_RW_Q_R e =? 0); [done|].
  pose proof (take_high_eq (fun _ => upd_event e (rw_count 1)) k e EVENT_RW_Q_R LW_NULL LW_THREAD_STATUS_SEM
    LW_SCHED_ACT_OTHER (fun k1 t => high_upd_event k1 t _ _ _ _) _
    (fun k t => readers_loop n (safe_enter k opt t) e opt)) as Eq.
  rewrite Eq. destruct (event_ready k e EVENT_RW_Q_R _ _ _) as [[k1 t]|]; [|done].
  cbn [mbind option_bind]. by rewrite IH, safe_enter_eq.
Qed.

(** The control block of a woken thread. *)
Definition wake_wait (msg : Z) (w : WAIT) : WAIT := set_TCB_peventPtr None (set_TCB_pvMsgBoxMessage msg w).

(** What waking the threads [l], each rewritten by [h], changes of the threads. *)
Record woke (k k' : KERNEL) (l : list Z) (h : WAIT -> WAIT) : Prop := {
  wo_wait : forall u, K_wait k' !! u = if decide (u ∈ l) then h <$> K_wait k !! u else K_wait k !! u;
  wo_line : forall u, u ∈ WU_line (K_wuDelay k') <-> u ∈ WU_line (K_wuDelay k) /\ u ∉ l;
  wo_sview : forall u, u ∉ l -> sview (K_sched k') u = sview (K_sched k) u;
  wo_prio : forall u, prio k' u = prio k u
}.

Lemma woke_refl k h : woke k k [] h.
Proof.
  split; try done; intros u.
  - split; [|tauto]. intros H. split; [done|apply not_elem_of_nil].
Qed.

Lemma woke_app k1 k2 k3 l1 l2 h : (forall u, u ∈ l1 -> u ∉ l2) -> woke k1 k2 l1 h -> woke k2 k3 l2 h ->
  woke k1 k3 (l1 ++ l2) h.
Proof.
  intros Ht [A1 A2 A3 A4] [B1 B2 B3 B4]. split.
  - intros u. rewrite B1, A1. destruct (decide (u ∈ l1)) as [Hu|Hu].
    + rewrite decide_False by (by apply Ht). rewrite decide_True; [done|]. apply elem_of_app. by left.
    + destruct (decide (u ∈ l2)) as [Hu2|Hu2].
      * rewrite decide_True; [done|]. apply elem_of_app. by right.
      * rewrite decide_False; [done|]. by intros [?|?]%elem_of_app.
  - intros u. rewrite B2, A2, elem_of_app. tauto.
  - intros u Hu. rewrite elem_of_app in Hu. rewrite B3 by tauto. apply A3. tauto.
  - intros u. by rewrite B4.
Qed.

Section Services.
Context (idle B : Z -> Z).
Abbreviation kinv := (kern_inv idle B).

Lemma waitnum k e iq : kinv k -> (_EventWaitNum k iq e =? 0) = bool_decide (wview k e iq = []).
Proof.
  intros [Hk _]. rewrite (ro_num k (ko_rings _ _ _ _ Hk)). destruct (wview k e iq) as [|t tl].
  - done.
  - rewrite bool_decide_eq_false_2 by done. apply Z.eqb_neq. simpl. lia.
Qed.

Lemma waitnum_length k e iq : kinv k -> _EventWaitNum k iq e = Z.of_nat (length (wview k e iq)).
Proof. intros [Hk _]. apply (ro_num k (ko_rings _ _ _ _ Hk)). Qed.

Lemma alive_sview k t : kinv k -> alive k t <-> is_Some (sview (K_sched k) t).
Proof. intros [Hk _]. unfold alive, sview. rewrite (ko_dom _ _ _ _ Hk). by rewrite fmap_is_Some. Qed.

Lemma frame_touches k k' t e : kinv k -> kinv k' -> frame_of k k' t ->
  (forall e' iq, e' <> e -> wview k' e' iq = wview k e' iq) ->
  (forall w', K_wait k' !! t = Some w' -> is_Some (TCB_peventPtr w') -> TCB_ucIsEventDelete w' = LW_EVENT_EXIST) ->
  (forall u d, sleeps k u d -> sleeps k' u d) ->
  touches k k' e.
Proof.
  intros Hk Hk' Hf Hv Hm Hsl. pose proof Hf as [Ho He Hes Hesn Hr Hres Hmx Hmxs Hp _ _]. split; try done.
  - intros e' _. by rewrite He.
  - intros u. rewrite !alive_sview by done. destruct (decide (u = t)) as [->|Hu].
    + destruct (sview (K_sched k') t), (sview (K_sched k) t); [by split; eexists|done|done|done].
    + by destruct (Ho u Hu) as (_ & -> & _).
  - intros Hm0 u w Hw. destruct (decide (u = t)) as [->|Hu]; [by apply Hm|].
    destruct (Ho u Hu) as (E & _). rewrite E in Hw. by apply (Hm0 u).
Qed.

Lemma frame_prio k k' t u : frame_of k k' t -> prio k' u = prio k u.
Proof.
  intros Hf. rewrite !prio_sview. destruct (decide (u = t)) as [->|Hu]; [apply Hf|].
  by destruct (fr_others _ _ _ Hf u Hu) as (_ & -> & _).
Qed.

(** A thread in the delay line has the bit of a delay. *)
Lemma sleeping_delay D k t p st q d : kern_ok idle B D k -> sview (K_sched k) t = Some (p, st) ->
  line_queue (WU_line (K_wuDelay k)) (K_wun k) q -> (t, d) ∈ q -> has_option st LW_THREAD_STATUS_DELAY = true.
Proof.
  intros Hk Hv Hq Hin. assert (Hl : t ∈ WU_line (K_wuDelay k)).
  { rewrite (proj1 Hq). apply list_elem_of_fmap. by exists (t, d). }
  destruct (ko_line _ _ _ _ Hk t Hl) as [w Hw]. destruct (ko_thread _ _ _ _ Hk t w Hw) as [(p0 & st0 & Hv0 & _ & Hd) _ _ _].
  rewrite Hv in Hv0. injection Hv0 as <- <-. by apply Hd.
Qed.

(** The wake-up of the head of a queue. *)
Lemma ready_spec k e E iq t tl msg a : kinv k -> K_event k !! e = Some E -> wview k e iq = t :: tl ->
  exists k', event_ready k e iq msg (B e) a = Some (k', t) /\ kinv k' /\ touches k k' e /\
    K_event k' = K_event k /\ (forall iq', wview k' e iq' = if decide (iq' = iq) then tl else wview k e iq') /\
    woke k k' [t] (wake_wait msg).
Proof.
  intros Hk HE Hv.
  destruct (event_ready_spec idle B k e iq E t tl msg a Hk HE Hv) as (k' & Er & Hk' & Hf & Hvw & (w & Hw & Hw' & Hwe) & Hl & Hq).
  exists k'. split; [done|]. split; [done|]. split; [|split; [apply Hf|split; [|split]]].
  - apply (frame_touches k k' t); try done.
    + intros e' iq' He. rewrite Hvw, decide_False; [done|]. by intros [= -> ->].
    + intros w'. rewrite Hw'. intros [= <-]. by intros [? ?].
    + intros u d Hs. assert (Hut : t <> u) by (intros ->; destruct Hs as [(w0 & Hw0 & H0) _]; congruence).
      apply (sleeps_queue k k' u d t (q_remove t)); [done| |done|by intros; apply q_remove_other|done].
      intros x Hx. by destruct (fr_others _ _ _ Hf x Hx) as (-> & _).
  - intros iq'. rewrite Hvw. case_decide as E1; [injection E1 as ->; by rewrite decide_True|].
    rewrite decide_False; [done|]. by intros ->.
  - intros u. destruct (decide (u = t)) as [->|Hu].
    + rewrite decide_True by left. by rewrite Hw, Hw'.
    + rewrite decide_False by (by rewrite list_elem_of_singleton). by apply (fr_others _ _ _ Hf).
  - intros u. rewrite list_elem_of_singleton. destruct (decide (u = t)) as [->|Hu]; [tauto|].
    destruct (fr_others _ _ _ Hf u Hu) as (_ & _ & ->). tauto.
  - intros u [Hu _]%not_elem_of_cons. by apply (fr_others _ _ _ Hf).
  - intros u. by apply (frame_prio k k' t).
Qed.

(** Waking everybody comes to an end. *)
Lemma wake_loop_spec f h e iq : (forall E, EVENT_ulOption (f E) = EVENT_ulOption E) -> harmless_wait h ->
  forall n k E, kinv k -> K_event k !! e = Some E -> (length (wview k e iq) < n)%nat ->
  exists k', wake_loop (B e) f h n k e iq = Some k' /\ kinv k' /\ touches k k' e /\
    K_event k' !! e = Some (Nat.iter (length (wview k e iq)) f E) /\
    (forall iq', wview k' e iq' = if decide (iq' = iq) then [] else wview k e iq') /\
    woke k k' (wview k e iq) (fun w => h (wake_wait LW_NULL w)).
Proof.
  intros Hf Hh n. induction n as [|n IH]; intros k E Hk HE Hn; [lia|]. cbn [wake_loop].
  rewrite waitnum by done. destruct (wview k e iq) as [|t tl] eqn:Ev.
  { rewrite bool_decide_eq_true_2 by done. exists k. split; [done|]. split; [done|]. split; [apply touches_refl|].
    split; [done|]. split; [|apply woke_refl]. intros iq'. by case_decide; subst. }
  rewrite bool_decide_eq_false_2 by done.
  destruct (ready_spec k e E iq t tl LW_NULL LW_SCHED_ACT_OTHER Hk HE Ev) as (k1 & E1 & Hk1 & Ht1 & He1 & Hv1 & Hw1).
  rewrite E1. cbn [mbind option_bind]. set (k2 := upd_wait t h (upd_event e f k1)).
  assert (Hpt : forall w, K_wait k1 !! t = Some w -> TCB_peventPtr w = None).
  { intros w. rewrite (wo_wait _ _ _ _ Hw1), decide_True by left. destruct (K_wait k !! t); [|done]. by intros [= <-]. }
  assert (Hk2 : kinv k2) by (apply kern_inv_wait; [done|]; apply kern_inv_event; [intros; apply Hf|done]).
  assert (Ht2 : touches k1 k2 e).
  { eapply touches_trans; [apply touches_upd|]. apply touches_wait; [by intros w; destruct (Hh w) as (_ & _ & -> & _)|].
    intros w Hw. rewrite Hpt by done. by intros [? ?]. }
  assert (Hv2 : forall e' iq', wview k2 e' iq' = wview k1 e' iq') by (intros; apply wview_upd; intros; apply Hf).
  assert (Hw2 : woke k k2 [t] (fun w => h (wake_wait LW_NULL w))).
  { destruct Hw1 as [W1 W2 W3 W4]. split; [|done|done|done]. intros u. unfold k2. rewrite lookup_upd_wait. cbn [upd_event K_wait].
    rewrite W1. destruct (decide (u = t)) as [->|Hu].
    - destruct (decide (t ∈ [t])) as [_|Hnin]; [by destruct (K_wait k !! t)|]. destruct Hnin. left.
    - by rewrite !decide_False by (by rewrite list_elem_of_singleton). }
  assert (Etl : wview k2 e iq = tl) by (by rewrite Hv2, Hv1, decide_True).
  destruct (IH k2 (f E) Hk2) as (k' & E' & Hk' & Ht' & He' & Hv' & Hw').
  { apply (lookup_upd e f k1 E). by rewrite He1. }
  { rewrite Etl. simpl in Hn. lia. }
  exists k'. rewrite Etl in *. split; [done|]. split; [done|]. split; [|split; [|split]].
  - eapply touches_trans; [exact Ht1|]. by eapply touches_trans.
  - rewrite He'. simpl length. by rewrite Nat.iter_succ_r.
  - intros iq'. rewrite Hv'. case_decide; [done|]. rewrite Hv2, Hv1, decide_False by done. done.
  - apply (woke_app k k2 k' [t] tl); [|done|done]. intros u ->%list_elem_of_singleton.
    pose proof (wview_NoDup idle B _ k e iq (proj1 Hk)) as Hnd. rewrite Ev in Hnd. by apply NoDup_cons in Hnd as [? _].
Qed.
(** ** The current thread waits *)

(** [t] is a running thread of the system, not an idle one. *)
Definition runs (k : KERNEL) (t : Z) : Prop :=
  (exists p, sview (K_sched k) t = Some (p, 0)) /\ not_idle idle (K_sched k) t.

Lemma pend_spec k t e E iq tmo : kinv k -> runs k t -> K_event k !! e = Some E -> iq = 0 \/ iq = 1 ->
  0 <= tmo <= ULONG_MAX -> B e = LW_THREAD_STATUS_SEM \/ B e = LW_THREAD_STATUS_MSGQUEUE ->
  exists k', event_pend k t e iq (B e) tmo = Some k' /\ kinv k' /\ touches k k' e /\
    K_event k' = K_event k /\ parked k k' t e iq (wait_ticks tmo) /\
    (forall iq', iq' <> iq -> wview k' e iq' = wview k e iq').
Proof.
  intros Hk [[p Hv] Hid] HE Hiq Htmo Hb.
  destruct (event_pend_spec idle B k t e iq (B e) tmo p) as (k' & E1 & Hk' & Hp); try done.
  exists k'. split; [done|]. split; [done|]. split; [|split; [apply (fr_event _ _ _ (pk_frame _ _ _ _ _ _ Hp))|split; [done|]]].
  - apply (frame_touches k k' t); try done; [apply Hp| | |].
    + intros e' iq' He. apply (pk_other _ _ _ _ _ _ Hp). by intros [= -> ->].
    + intros w' Hw' _. destruct (pk_wait _ _ _ _ _ _ Hp) as (w & w2 & _ & Hw2 & _ & _ & Hd & _).
      rewrite Hw2 in Hw'. by injection Hw' as <-.
    + intros u d Hs. assert (Hut : t <> u).
      { intros ->. destruct Hs as [_ (q & Hq & Hin)]. by assert (has_option 0 LW_THREAD_STATUS_DELAY = true) by (by apply (sleeping_delay (fun _ => 0) k u p 0 q d (proj1 Hk) Hv Hq Hin)). }
      apply (sleeps_queue k k' u d t (fun q => if wait_ticks tmo =? 0 then q else q_insert t (wait_ticks tmo) q)); [done| |apply Hp| |done].
      * intros x Hx. by destruct (fr_others _ _ _ (pk_frame _ _ _ _ _ _ Hp) x Hx) as (-> & _).
      * intros q Hin. destruct (_ =? 0); [done|]. rewrite q_insert_perm. by right.
  - intros iq' Hne. apply (pk_other _ _ _ _ _ _ Hp). by intros [= ->].
Qed.

End Services.

Section Checks.
Context (idle : Z -> Z).

(** ** The checks *)

Lemma event_check_spec k ulId cls ty : sem_inv idle k ->
  exists err, event_check k ulId cls ty = Some err /\
    (err = ERROR_NONE \/ err = ERROR_KERNEL_HANDLE_NULL \/ err = ERROR_EVENT_TYPE) /\
    (err = ERROR_NONE <-> _ObjectClassOK ulId cls = true /\
       exists E, K_event k !! _ObjectGetIndex ulId = Some E /\ EVENT_ucType E = ty).
Proof.
  intros [_ _ [_ _ Hd _ _] _]. unfold event_check. destruct (_ObjectClassOK ulId cls); cbn [negb].
  - unfold _Event_Index_Invalid.
    assert (Hr : 0 <= _ObjectGetIndex ulId) by (apply wrap_range; lia).
    destruct (Z.leb_spec (LW_CFG_MAX_EVENTS k) (_ObjectGetIndex ulId)) as [Hle|Hlt].
    + eexists. split; [done|]. split; [auto|]. split; [done|]. intros [_ (E & HE & _)].
      assert (0 <= _ObjectGetIndex ulId < LW_CFG_MAX_EVENTS k) by (apply Hd; by eexists). lia.
    + assert (is_Some (K_event k !! _ObjectGetIndex ulId)) as [E HE] by (by apply Hd).
      unfold _Event_Type_Invalid. rewrite HE. cbn [mbind option_bind].
      destruct (Z.eqb_spec (EVENT_ucType E) ty) as [Ety|Hne]; cbn [negb].
      * eexists. split; [done|]. split; [auto|]. split; [|done]. intros _. split; [done|]. by exists E.
      * eexists. split; [done|]. split; [auto|]. split; [done|]. intros [_ (E' & HE' & Ht)]. by injection HE' as <-.
  - eexists. split; [done|]. split; [auto|]. split; [done|]. by intros [? _].
Qed.

Lemma event_check_ok k ulId cls ty E : sem_inv idle k -> _ObjectClassOK ulId cls = true ->
  K_event k !! _ObjectGetIndex ulId = Some E -> EVENT_ucType E = ty -> event_check k ulId cls ty = Some ERROR_NONE.
Proof.
  intros Hi Hc HE Ht. destruct (event_check_spec k ulId cls ty Hi) as (err & E1 & _ & H). rewrite E1. f_equal.
  apply H. split; [done|]. by exists E.
Qed.
End Checks.
