(* ===== verification/LifeSpec.v ===== *)
(** * Creation and deletion of semaphores

    A creation takes a free control block and leaves a semaphore nobody waits on; a
    deletion wakes every waiter with the deletion mark and returns the control
    block.  Both keep the invariant of the file SemSpec. *)

From S2P Require Import Prelude Lists Bitmap Sched SchedSpec Object Wakeup Kernel Event EventSpec Boot TickSpec Semaphore Mutex SemSpec.

(** ** Emptying the rings *)

Definition with_wlQ (q : gmap PRING (list Z)) (k : KERNEL) : KERNEL :=
  mkKern (K_sched k) (K_wait k) (K_event k) q (K_usNum k) (K_wuDelay k) (K_wun k) (K_resrcEvent k)
    (K_es k) (K_esn k) (K_resrcEventSet k) (LW_CFG_MAX_EVENTS k) (LW_CFG_MAX_EVENTSETS k).

Lemma init_rings_spec n k e i : (forall iq b, wring k (e, iq, b) = []) ->
  exists q, init_rings n k e i = with_wlQ q k /\ forall p, wring (with_wlQ q k) p = wring k p.
Proof.
  revert k i. induction n as [|n IH]; intros k i He; cbn [init_rings].
  { exists (K_wlQ k). by destruct k. }
  assert (Hs : forall k0 iq b, (forall iq b, wring k0 (e, iq, b) = []) ->
    forall p, wring (set_wring (e, iq, b) [] k0) p = wring k0 p).
  { intros k0 iq b H0 p. rewrite wring_set. case_decide; [subst; by rewrite H0|done]. }
  set (k1 := set_wring (e, 0, i) [] k). assert (H1 : forall p, wring k1 p = wring k p) by (by apply Hs).
  set (k2 := set_wring (e, 1, i) [] k1). assert (H2 : forall p, wring k2 p = wring k1 p) by (apply Hs; intros; by rewrite H1).
  destruct (IH k2 (i + 1)) as (q & E & Hq); [intros; by rewrite H2, H1|].
  exists q. split; [by rewrite E|]. intros p. change (wring (with_wlQ q k) p) with (wring (with_wlQ q k2) p).
  by rewrite Hq, H2, H1.
Qed.

(** ** The pool of control blocks *)

(** One is taken and becomes an event. *)
Lemma pool_ok_alloc k k' r e l E f : pool_ok k -> RESRC_free (K_resrcEvent k) = e :: l ->
  resrc_allocate (K_resrcEvent k) = Some (r, e) -> K_event k !! e = Some E ->
  EVENT_ucType (f E) <> LW_TYPE_EVENT_UNUSED -> K_event k' = alter f e (K_event k) -> K_resrcEvent k' = r ->
  LW_CFG_MAX_EVENTS k' = LW_CFG_MAX_EVENTS k -> pool_ok k'.
Proof.
  intros HP Hf Ha HE Hty B2 B7 B8. pose proof HP as [P1 P2 P3 P4 P5].
  unfold resrc_allocate in Ha. rewrite Hf in *. injection Ha as Er. rewrite <-Er in B7. clear Er.
  apply NoDup_cons in P1 as [Q1 Q2]. split; rewrite ?B7, ?B8; try done.
  - intros e'. rewrite B2. cbn [RESRC_free]. destruct (decide (e' = e)) as [->|Hne].
    + split; [by intros ?%Q1|]. intros (E0 & H0 & H1). rewrite lookup_alter_eq, HE in H0. injection H0 as <-. done.
    + rewrite lookup_alter_ne by done. rewrite <-P2, elem_of_cons. tauto.
  - intros e'. rewrite <-P3, B2. destruct (decide (e' = e)) as [->|Hne]; [|by rewrite lookup_alter_ne].
    by rewrite lookup_alter_eq, fmap_is_Some.
  - cbn [RESRC_uiUsed RESRC_free]. rewrite P5. cbn [length].
    pose proof (pool_length k HP) as Hl. rewrite Hf in Hl. cbn [length] in Hl.
    assert (0 <= e < LW_CFG_MAX_EVENTS k) by (apply P3; by eexists).
    rewrite wrap_small; lia.
Qed.

(** The control block goes back to the tail of the pool. *)
Definition freed (k : KERNEL) (e : Z) : KERNEL := set_resrc (_Free_Event_Object (K_resrcEvent k) e) k.

Lemma pool_ok_freed k k2 e E E2 : pool_ok k -> K_event k !! e = Some E -> EVENT_ucType E <> LW_TYPE_EVENT_UNUSED ->
  touches k k2 e -> K_event k2 !! e = Some E2 -> EVENT_ucType E2 = LW_TYPE_EVENT_UNUSED -> pool_ok (freed k2 e).
Proof.
  intros HP HE Hty Ht HE2 Et2. pose proof HP as [P1 P2 P3 P4 P5].
  assert (Hnin : e ∉ RESRC_free (K_resrcEvent k)).
  { intros (E0 & H0 & H1)%P2. rewrite HE in H0. injection H0 as <-. done. }
  pose proof (tc_resrc _ _ _ Ht) as Er. pose proof (tc_max _ _ _ Ht) as Em.
  unfold freed, _Free_Event_Object, resrc_free. split; cbn [set_resrc K_resrcEvent K_event LW_CFG_MAX_EVENTS RESRC_free RESRC_uiUsed]; rewrite ?Er, ?Em; try done.
  - apply NoDup_app. split; [done|]. split; [by intros x Hx ->%list_elem_of_singleton|apply NoDup_singleton].
  - intros e'. rewrite elem_of_app, list_elem_of_singleton. destruct (decide (e' = e)) as [->|Hne].
    + split; [intros _; by exists E2|by right].
    + rewrite (tc_event _ _ _ Ht), <-P2 by done. tauto.
  - intros e'. rewrite <-P3. destruct (decide (e' = e)) as [->|Hne]; [|by rewrite (tc_event _ _ _ Ht)].
    rewrite HE, HE2. by split; intros; eexists.
  - rewrite length_app, P5. cbn [length]. pose proof (pool_length k HP) as Hl.
    assert (0 <= e < LW_CFG_MAX_EVENTS k) by (apply P3; by eexists).
    assert (Z.of_nat (length (RESRC_free (K_resrcEvent k))) < LW_CFG_MAX_EVENTS k); [|rewrite wrap_small; lia].
    pose proof (pool_room (LW_CFG_MAX_EVENTS k) (e :: RESRC_free (K_resrcEvent k))) as Hr. cbn [length] in Hr.
    assert (Hr' : Z.of_nat (S (length (RESRC_free (K_resrcEvent k)))) <= Z.max 0 (LW_CFG_MAX_EVENTS k)); [|lia].
    apply Hr; [by apply NoDup_cons|]. intros x [->|Hx]%elem_of_cons; [done|].
    apply P3. apply P2 in Hx as (E0 & H0 & _). by eexists.
Qed.

(** ** Events of any kind *)

(** The control block of a thread that is told of the deletion. *)
Definition told (w : WAIT) : WAIT := set_TCB_ucIsEventDelete LW_EVENT_DELETE (wake_wait LW_NULL w).

(** What a deletion does to a thread that waited ([b]) or not. *)
Definition gone (b : Prop) (w w' : WAIT) : Prop :=
  (b -> TCB_peventPtr w' = None /\ TCB_ucIsEventDelete w' = LW_EVENT_DELETE /\ TCB_ucWaitTimeout w' = LW_WAIT_TIME_CLEAR) /\
  (~ b -> TCB_peventPtr w' = TCB_peventPtr w /\ TCB_ucIsEventDelete w' = TCB_ucIsEventDelete w /\
          TCB_ucWaitTimeout w' = TCB_ucWaitTimeout w).

Definition all_told (k k' : KERNEL) (e : Z) : Prop := forall t w, K_wait k !! t = Some w ->
  exists w', K_wait k' !! t = Some w' /\ gone (t ∈ wview k e 0 \/ t ∈ wview k e 1) w w'.

(** The event [e] is gone: its control block is the last free one, nobody waits for
    it, and those who did were told. *)
Record deleted (k k' : KERNEL) (e : Z) : Prop := {
  de_event : exists E, K_event k' !! e = Some E /\ EVENT_ucType E = LW_TYPE_EVENT_UNUSED /\ EVENT_pvTcbOwn E = None;
  de_other : forall e', e' <> e -> K_event k' !! e' = K_event k !! e';
  de_view : forall e' iq, e' <> e -> wview k' e' iq = wview k e' iq;
  de_empty : wview k' e 0 = [] /\ wview k' e 1 = [];
  de_pool : RESRC_free (K_resrcEvent k') = RESRC_free (K_resrcEvent k) ++ [e];
  de_told : all_told k k' e;
  de_sleep : forall t d, sleeps k t d -> sleeps k' t d
}.

Lemma iter_id {A} (n : nat) (x : A) : Nat.iter n (fun y => y) x = x.
Proof. induction n as [|n IH]; [done|]. simpl. exact IH. Qed.

Lemma init_rings_resrc n r k e i : init_rings n (set_resrc r k) e i = set_resrc r (init_rings n k e i).
Proof. revert k i. induction n as [|n IH]; intros k i; [done|]. cbn [init_rings]. by rewrite <-IH. Qed.

Section Event.
Context (idle B : Z -> Z).
Abbreviation kinv := (kern_inv idle B).

(** An unused control block becomes an event. *)
Lemma event_init_kern k e E f : kinv k -> K_event k !! e = Some E -> wview k e 0 = [] -> wview k e 1 = [] ->
  kinv (event_init k e f) /\ K_event (event_init k e f) = alter f e (K_event k) /\
  (forall e' iq, wview (event_init k e f) e' iq = wview k e' iq) /\
  K_wait (event_init k e f) = K_wait k /\ K_resrcEvent (event_init k e f) = K_resrcEvent k /\
  LW_CFG_MAX_EVENTS (event_init k e f) = LW_CFG_MAX_EVENTS k.
Proof.
  intros [Hk Hd] HE H0 H1. unfold event_init.
  set (k1 := set_num (e, 1) 0 (set_num (e, 0) 0 (upd_event e f k))).
  assert (Hr : forall iq b, wring k1 (e, iq, b) = []) by (intros; apply (fresh_ring idle B _ k e iq b Hk H0 H1)).
  destruct (init_rings_spec (Z.to_nat __EVENT_Q_SIZE) k1 e 0 Hr) as (q & Eq & Hq). rewrite Eq.
  destruct (kern_ok_fresh idle B (fun _ => 0) k (with_wlQ q k1) e Hk H0 H1) as [Hk' Hv']; try done.
  - intros e' He'. unfold eopt. cbn. by rewrite lookup_alter_ne.
  - intros e'. cbn. destruct (decide (e' = e)) as [->|He']; [|by rewrite lookup_alter_ne].
    by rewrite lookup_alter_eq, fmap_is_Some.
  - intros iq e'. change (_EventWaitNum (with_wlQ q k1) iq e') with (_EventWaitNum k1 iq e').
    unfold k1. rewrite !num_set. change (_EventWaitNum (upd_event e f k) iq e') with (_EventWaitNum k iq e').
    rewrite (ro_num k (ko_rings _ _ _ _ Hk)). case_decide as Ea; [injection Ea as -> ->; by rewrite H1|].
    case_decide as Eb; [injection Eb as -> ->; by rewrite H0|]. done.
Qed.

Lemma kern_inv_resrc k r : kinv k -> kinv (set_resrc r k).
Proof. intros [Hk Hd]. split; [|exact Hd]. by apply (kern_ok_events idle B _ k). Qed.

(** The same with the pool it was taken from. *)
Lemma event_init_spec k e E f r : kinv k -> K_event k !! e = Some E -> wview k e 0 = [] -> wview k e 1 = [] ->
  let k' := event_init (set_resrc r k) e f in
  kinv k' /\ K_event k' = alter f e (K_event k) /\ (forall e' iq, wview k' e' iq = wview k e' iq) /\
  K_wait k' = K_wait k /\ K_resrcEvent k' = r /\ LW_CFG_MAX_EVENTS k' = LW_CFG_MAX_EVENTS k.
Proof.
  intros Hk HE H0 H1. destruct (event_init_kern k e E f Hk HE H0 H1) as (A1 & A2 & A3 & A6 & A7 & A8).
  assert (Ei : event_init (set_resrc r k) e f = set_resrc r (event_init k e f)) by (unfold event_init; by rewrite <-init_rings_resrc).
  rewrite Ei. clear Ei. generalize dependent (event_init k e f). intros k' A1 A2 A3 A6 A7 A8.
  split; [by apply kern_inv_resrc|]. by splits.
Qed.

Lemma delete_waiters_spec k e E iq : kinv k -> K_event k !! e = Some E ->
  exists k', delete_waiters (B e) k e iq = Some k' /\ kinv k' /\ touches k k' e /\ K_event k' !! e = Some E /\
    (forall iq', wview k' e iq' = if decide (iq' = iq) then [] else wview k e iq') /\
    woke k k' (wview k e iq) told.
Proof.
  intros Hk HE. unfold delete_waiters. rewrite delete_loop_eq, (waitnum_length idle B), Nat2Z.id by done.
  destruct (wake_loop_spec idle B (fun E => E) (set_TCB_ucIsEventDelete LW_EVENT_DELETE) e iq (fun _ => eq_refl))
    with (n := S (length (wview k e iq))) (k := k) (E := E) as (k' & E1 & H1 & H2 & H3 & H4 & H5); try done.
  { lia. }
  exists k'. rewrite iter_id in H3. by splits.
Qed.

Lemma touches_resrc_wview k r e iq : wview (set_resrc r k) e iq = wview k e iq.
Proof. done. Qed.

Lemma woke_told k k' e : kinv k -> woke k k' (wview k e 0 ++ wview k e 1) told -> all_told k k' e.
Proof.
  intros Hk Hw t w Ht. pose proof (wo_wait _ _ _ _ Hw t) as E. rewrite Ht in E. simpl in E.
  destruct (decide (t ∈ wview k e 0 ++ wview k e 1)) as [Hin|Hin].
  - exists (told w). split; [done|]. rewrite elem_of_app in Hin. split; [|tauto]. intros _.
    split; [done|]. split; [done|].
    assert (Hp : exists iq b, wait_at k t = Some (e, iq, b)).
    { destruct Hin as [H|H]; apply (elem_of_wview idle B _ k e _ t (proj1 Hk)) in H as [b Hb]; by eexists _, b. }
    destruct Hp as (iq & b & Hb). destruct (wait_at_bucket idle B _ k t e iq b (proj1 Hk) Hb) as (_ & _ & _ & _ & w0 & E0 & Ee & _).
    rewrite Ht in E0. injection E0 as <-.
    pose proof (th_place _ _ _ _ _ (ko_thread _ _ _ _ (proj1 Hk) t w Ht)) as Hpl. unfold place_ok in Hpl. rewrite Ee in Hpl.
    apply Hpl.
  - exists w. split; [done|]. rewrite elem_of_app in Hin. by split.
Qed.

(** Deletion begins: the type is cleared and the first queue is woken. *)
Lemma dying_spec k e E : kinv k -> K_event k !! e = Some E ->
  exists k2, delete_waiters (B e) (upd_event e (set_EVENT_ucType LW_TYPE_EVENT_UNUSED) k) e 0 = Some k2 /\ kinv k2 /\
    touches k k2 e /\ K_event k2 !! e = Some (set_EVENT_ucType LW_TYPE_EVENT_UNUSED E) /\
    (forall iq, wview k2 e iq = if decide (iq = 0) then [] else wview k e iq) /\
    woke k k2 (wview k e 0) told.
Proof.
  intros Hk HE. set (k1 := upd_event e _ k).
  assert (Hk1 : kinv k1) by (by apply kern_inv_event). pose proof (lookup_upd e (set_EVENT_ucType LW_TYPE_EVENT_UNUSED) k E HE) as HE1.
  assert (Hv : forall iq, wview k1 e iq = wview k e iq) by (intros; by apply wview_upd).
  destruct (delete_waiters_spec k1 e _ 0 Hk1 HE1) as (k2 & E2 & Hk2 & Ht2 & HE2 & Hv2 & Hw2).
  exists k2. rewrite Hv in Hw2. split; [done|]. split; [done|].
  split; [eapply touches_trans; [apply touches_upd|done]|]. split; [done|]. split; [intros iq; by rewrite Hv2, Hv|].
  destruct Hw2. by split.
Qed.

(** Deletion goes on: the second queue is woken too. *)
Lemma dying_both k k1 e E1 : kinv k -> kinv k1 -> K_event k1 !! e = Some E1 -> touches k k1 e ->
  (forall iq, wview k1 e iq = if decide (iq = 0) then [] else wview k e iq) -> woke k k1 (wview k e 0) told ->
  exists k2, delete_waiters (B e) k1 e 1 = Some k2 /\ kinv k2 /\ touches k k2 e /\ K_event k2 !! e = Some E1 /\
    wview k2 e 0 = [] /\ wview k2 e 1 = [] /\ all_told k k2 e.
Proof.
  intros Hk Hk1 HE1 Ht1 Hv1 Hw1.
  destruct (delete_waiters_spec k1 e _ 1 Hk1 HE1) as (k2 & E2 & Hk2 & Ht2 & HE2 & Hv2 & Hw2).
  exists k2. split; [done|]. split; [done|]. split; [by eapply touches_trans|]. split; [done|].
  split; [by rewrite Hv2, Hv1|]. split; [by rewrite Hv2|]. apply (woke_told k k2 e Hk).
  rewrite Hv1 in Hw2. apply (woke_app k k1 k2); try done.
  intros u H0 H1. apply (elem_of_wview idle B _ k e _ u (proj1 Hk)) in H0 as [b0 H0], H1 as [b1 H1]. congruence.
Qed.

(** Clearing the owner. *)
Lemma disown_spec k k2 e E2 : kinv k2 -> touches k k2 e -> K_event k2 !! e = Some E2 ->
  let k3 := upd_event e (set_EVENT_pvTcbOwn None) k2 in
  kinv k3 /\ touches k k3 e /\ K_event k3 !! e = Some (set_EVENT_pvTcbOwn None E2) /\
  forall iq, wview k3 e iq = wview k2 e iq.
Proof.
  intros Hk2 Ht HE2 k3. split; [by apply kern_inv_event|]. split; [eapply touches_trans; [done|apply touches_upd]|].
  split; [by apply lookup_upd|]. intros iq. by apply wview_upd.
Qed.
End Event.

(** ** Semaphores *)

Section Life.
Context (idle : Z -> Z).
Abbreviation kinv := (kern_inv idle SEMB).

(** *** Creation *)

Lemma create_spec k cls name f e l E : sem_inv idle k -> _Object_Name_Invalid name = false ->
  RESRC_free (K_resrcEvent k) = e :: l -> K_event k !! e = Some E ->
  EVENT_ucType (f E) <> LW_TYPE_EVENT_UNUSED -> ev_ok k (f E) [] [] ->
  exists k', event_create k cls name f = Some (k', _MakeObjectId cls LW_CFG_PROCESSOR_NUMBER e, ERROR_NONE) /\
    sem_inv idle k' /\ K_event k' = alter f e (K_event k) /\ (forall e' iq, wview k' e' iq = wview k e' iq) /\
    wview k' e 0 = [] /\ K_wait k' = K_wait k /\ RESRC_free (K_resrcEvent k') = l.
Proof.
  intros Hi Hn Hf HE Hty Hok. unfold event_create. rewrite Hn. pose proof (sv_pool _ _ Hi) as HP.
  assert (Et : EVENT_ucType E = LW_TYPE_EVENT_UNUSED).
  { destruct (proj1 (po_free _ HP e)) as (E0 & H0 & H1); [rewrite Hf; left|]. rewrite HE in H0. by injection H0 as <-. }
  assert (Hv : wview k e 0 = [] /\ wview k e 1 = []).
  { destruct (sv_ev _ _ Hi e E HE) as [? ? ?|H ?|H ? ?|H ?|H ?]; try done; by rewrite Et in H. }
  destruct Hv as [B4 B5]. unfold _Allocate_Event_Object. destruct (resrc_allocate (K_resrcEvent k)) as [[r e']|] eqn:Ea;
    pose proof Ea as Ea'; unfold resrc_allocate in Ea'; rewrite Hf in Ea'; [|done]. injection Ea' as Er <-.
  destruct (event_init_spec idle SEMB k e E f r (sv_kern _ _ Hi) HE B4 B5) as (B1 & B2 & B3 & B6 & B7 & B8).
  generalize dependent (event_init (set_resrc r k) e f). intros k' B1 B2 B3 B6 B7 B8.
  exists k'. split; [done|]. split; [|splits; try done; [by rewrite B3|by rewrite B7, <-Er]].
  split; [done| | |].
  - intros e' E' HE'. rewrite !B3. rewrite B2 in HE'. destruct (decide (e' = e)) as [->|Hne].
    + rewrite lookup_alter_eq, HE in HE'. injection HE' as <-. rewrite B4, B5.
      apply (ev_ok_alive k); [|done]. intros t. unfold alive. by rewrite B6.
    + rewrite lookup_alter_ne in HE' by done. apply (ev_ok_alive k); [|by apply (sv_ev _ _ Hi)].
      intros t. unfold alive. by rewrite B6.
  - by eapply pool_ok_alloc.
  - intros t w. rewrite B6. apply (sv_mark _ _ Hi).
Qed.

(** *** Deletion *)

Lemma freed_spec k k2 e E E2 : sem_inv idle k -> K_event k !! e = Some E ->
  EVENT_ucType E <> LW_TYPE_EVENT_UNUSED -> kinv k2 -> touches k k2 e -> K_event k2 !! e = Some E2 ->
  EVENT_ucType E2 = LW_TYPE_EVENT_UNUSED -> wview k2 e 0 = [] -> wview k2 e 1 = [] ->
  sem_inv idle (freed k2 e).
Proof.
  intros Hi HE Hty Hk2 Ht HE2 Et2 Hv0 Hv1. split.
  - by apply kern_inv_resrc.
  - intros e' E' HE'. unfold freed in *. rewrite !touches_resrc_wview. cbn [set_resrc K_event] in HE'.
    destruct (decide (e' = e)) as [->|Hne].
    + rewrite HE2 in HE'. injection HE' as <-. by apply ev_unused.
    + rewrite (tc_event _ _ _ Ht) in HE' by done. rewrite !(tc_view _ _ _ Ht) by done.
      apply (ev_ok_alive k); [|by apply (sv_ev _ _ Hi)]. intros t. apply (tc_dom _ _ _ Ht).
  - eapply pool_ok_freed; [apply (sv_pool _ _ Hi)|done..].
  - by apply (tc_mark _ _ _ Ht), Hi.
Qed.

(** Deletion ends: the control block goes back. *)
Lemma deleted_intro k k2 e E E2 : sem_inv idle k -> K_event k !! e = Some E -> EVENT_ucType E <> LW_TYPE_EVENT_UNUSED ->
  kinv k2 -> touches k k2 e -> K_event k2 !! e = Some E2 -> EVENT_ucType E2 = LW_TYPE_EVENT_UNUSED ->
  EVENT_pvTcbOwn E2 = None -> wview k2 e 0 = [] -> wview k2 e 1 = [] -> all_told k k2 e ->
  sem_inv idle (freed k2 e) /\ deleted k (freed k2 e) e.
Proof.
  intros Hi HE Hty Hk2 Ht HE2 Et2 Eo2 H0 H1 Hd. split; [by eapply freed_spec|]. split.
  - by exists E2.
  - intros e' He. apply (tc_event _ _ _ Ht e' He).
  - intros e' iq He. apply (tc_view _ _ _ Ht e' iq He).
  - done.
  - cbn. by rewrite (tc_resrc _ _ _ Ht).
  - exact Hd.
  - exact (tc_sleep _ _ _ Ht).
Qed.

Lemma sem_delete_spec k c cls ty ulId E : sem_inv idle k -> LW_CPU_GET_CUR_NESTING c = 0 ->
  _ObjectClassOK ulId cls = true -> K_event k !! _ObjectGetIndex ulId = Some E -> EVENT_ucType E = ty ->
  ty = LW_TYPE_EVENT_SEMC \/ ty = LW_TYPE_EVENT_SEMB ->
  exists k', sem_delete cls ty k c ulId = Some (k', ERROR_NONE, LW_OBJECT_HANDLE_INVALID) /\
    sem_inv idle k' /\ deleted k k' (_ObjectGetIndex ulId).
Proof.
  intros Hi Hc Hcl HE Et Hty. unfold sem_delete. rewrite Hc. change (negb (0 =? 0)) with false. cbv iota.
  rewrite (event_check_ok idle k ulId cls ty E Hi Hcl HE Et). cbn [mbind option_bind].
  change (negb (ERROR_NONE =? ERROR_NONE)) with false. cbv iota. set (e := _ObjectGetIndex ulId) in *.
  assert (Hq1 : wview k e 1 = []).
  { destruct (sv_ev _ _ Hi e E HE) as [? ? ?|_ (_ & _ & _ & H)|_ (_ & _ & _ & H) _|H _|H _]; try done;
      rewrite Et in H; destruct Hty as [Hx|Hx]; rewrite Hx in H; done. }
  destruct (dying_spec idle SEMB k e E (sv_kern _ _ Hi) HE) as (k2 & E2 & Hk2 & Ht2 & HE2 & Hv2 & Hw2).
  unfold SEMB in E2.
  change EVENT_SEM_Q with 0. rewrite E2. cbn [mbind option_bind].
  destruct (disown_spec idle SEMB k k2 e _ Hk2 Ht2 HE2) as (Hk3 & Ht3 & HE3 & Hv3).
  assert (Hty' : EVENT_ucType E <> LW_TYPE_EVENT_UNUSED) by (rewrite Et; by destruct Hty as [-> | ->]).
  destruct (deleted_intro k _ e E _ Hi HE Hty' Hk3 Ht3 HE3) as [H1 H2]; try done.
  - by rewrite Hv3, Hv2.
  - by rewrite Hv3, Hv2.
  - apply (woke_told idle SEMB k k2 e (sv_kern _ _ Hi)). by rewrite Hq1, app_nil_r.
  - by eexists.
Qed.

(** *** The four creations *)

Inductive CREATE :=
| CreateC (pcName : option (list Z)) (ulInitCounter ulMaxCounter ulOption : Z)
| CreateB (pcName : option (list Z)) (bInitValue ulOption : Z)
| CreateM (pcName : option (list Z)) (ucCeilingPriority ulOption : Z)
| CreateRW (pcName : option (list Z)) (ulOption : Z).

Definition create_call (k : KERNEL) (c : CALL) (r : CREATE) : option (KERNEL * Z * Z) :=
  match r with
  | CreateC n i m o => API_SemaphoreCCreate k c n i m o
  | CreateB n i o => API_SemaphoreBCreate k c n i o
  | CreateM n p o => API_SemaphoreMCreate k c n p o
  | CreateRW n o => API_SemaphoreRWCreate k c n o
  end.

(** The arguments are of their C types. *)
Definition create_legal (r : CREATE) : Prop :=
  match r with
  | CreateC _ i m _ => 0 <= i /\ 0 <= m <= ULONG_MAX
  | CreateB _ i _ => i = LW_FALSE \/ i = LW_TRUE
  | CreateM _ p _ => 0 <= p <= 255
  | CreateRW _ _ => True
  end.

(** What the request is refused for before a control block is looked for. *)
Definition create_refused (c : CALL) (r : CREATE) : Z :=
  if negb (LW_CPU_GET_CUR_NESTING c =? 0) then ERROR_KERNEL_IN_ISR
  else
    let named n := if _Object_Name_Invalid n then ERROR_KERNEL_PNAME_TOO_LONG else ERROR_NONE in
    match r with
    | CreateC n i m _ =>
      if m =? 0 then ERROR_EVENT_MAX_COUNTER_NULL else if m <? i then ERROR_EVENT_INIT_COUNTER else named n
    | CreateB n _ _ => named n
    | CreateM n p _ => if LW_PRIO_LOWEST <=? p then ERROR_THREAD_PRIORITY_WRONG else named n
    | CreateRW n _ => named n
    end.

Definition create_class (r : CREATE) : Z :=
  match r with
  | CreateC _ _ _ _ => _OBJECT_SEM_C | CreateB _ _ _ => _OBJECT_SEM_B
  | CreateM _ _ _ => _OBJECT_SEM_M | CreateRW _ _ => _OBJECT_SEM_RW
  end.
Definition create_fields (r : CREATE) : LW_CLASS_EVENT -> LW_CLASS_EVENT :=
  match r with
  | CreateC _ i m o => sem_fields LW_TYPE_EVENT_SEMC i m o
  | CreateB _ i o => sem_fields LW_TYPE_EVENT_SEMB i LW_TRUE o
  | CreateM _ p o => mutex_fields p o
  | CreateRW _ o => rw_fields o
  end.
Definition create_name (r : CREATE) : option (list Z) :=
  match r with CreateC n _ _ _ => n | CreateB n _ _ => n | CreateM n _ _ => n | CreateRW n _ => n end.

Lemma create_call_eq k c r : create_call k c r =
  if create_refused c r =? ERROR_NONE then event_create k (create_class r) (create_name r) (create_fields r)
  else Some (k, LW_OBJECT_HANDLE_INVALID, create_refused c r).
Proof.
  unfold create_call, create_refused.
  destruct r as [n i m o|n i o|n p o|n o]; unfold API_SemaphoreCCreate, API_SemaphoreBCreate, API_SemaphoreMCreate,
    API_SemaphoreRWCreate, _PriorityCheck; destruct (negb (LW_CPU_GET_CUR_NESTING c =? 0)); try done; simpl.
  - destruct (m =? 0); [done|]. destruct (m <? i); [done|]. unfold event_create. by destruct (_Object_Name_Invalid n).
  - unfold event_create. by destruct (_Object_Name_Invalid n).
  - destruct (LW_PRIO_LOWEST <=? p); [done|]. unfold event_create. by destruct (_Object_Name_Invalid n).
  - unfold event_create. by destruct (_Object_Name_Invalid n).
Qed.

Lemma create_accepted c r : create_refused c r = ERROR_NONE -> create_legal r ->
  _Object_Name_Invalid (create_name r) = false /\
  forall k E, EVENT_ucType (create_fields r E) <> LW_TYPE_EVENT_UNUSED /\ ev_ok k (create_fields r E) [] [].
Proof.
  unfold create_refused. destruct (negb (LW_CPU_GET_CUR_NESTING c =? 0)); [done|].
  destruct r as [n i m o|n i o|n p o|n o]; simpl.
  - destruct (Z.eqb_spec m 0); [done|]. destruct (Z.ltb_spec m i); [done|].
    destruct (_Object_Name_Invalid n); [done|]. intros _ [H1 H2]. split; [done|]. intros k E. split; [done|].
    apply ev_semc; [done|]. split; [simpl; lia|]. split; [simpl; lia|by split].
  - destruct (_Object_Name_Invalid n); [done|]. intros _ Hi. split; [done|]. intros k E. split; [done|].
    apply ev_semb; [done| |done]. split; [simpl; unfold LW_FALSE, LW_TRUE in *; lia|]. by split.
  - destruct (Z.leb_spec LW_PRIO_LOWEST p) as [|Hp]; [done|]. destruct (_Object_Name_Invalid n); [done|].
    intros _ H. split; [done|]. intros k E. split; [done|]. apply ev_mutex; [done|].
    split; [unfold prio_ok; simpl; unfold LW_PRIO_LOWEST in Hp; lia|]. split; [done|]. left. by split.
  - destruct (_Object_Name_Invalid n); [done|]. intros _ _. split; [done|]. intros k E. split; [done|].
    apply ev_semrw; [done|]. split; [done|]. left. by split.
Qed.

(** The outcome of a creation. *)
Definition create_result (k : KERNEL) (c : CALL) (r : CREATE) : Z :=
  if create_refused c r =? ERROR_NONE
  then match RESRC_free (K_resrcEvent k) with [] => ERROR_EVENT_FULL | _ :: _ => ERROR_NONE end
  else create_refused c r.

(** [k'] is [k] with the control block [e] made a semaphore. *)
Record created (k k' : KERNEL) (r : CREATE) (e : Z) : Prop := {
  cr_pool : RESRC_free (K_resrcEvent k) = e :: RESRC_free (K_resrcEvent k');
  cr_event : K_event k' = alter (create_fields r) e (K_event k);
  cr_view : forall e' iq, wview k' e' iq = wview k e' iq;
  cr_empty : wview k' e 0 = [];
  cr_wait : K_wait k' = K_wait k
}.

Lemma create_class_range r : 0 <= create_class r < 64.
Proof. by destruct r. Qed.

Lemma create_any k c r : sem_inv idle k -> create_legal r ->
  exists k' id, create_call k c r = Some (k', id, create_result k c r) /\ sem_inv idle k' /\ K_wait k' = K_wait k /\
    (create_result k c r <> ERROR_NONE -> k' = k /\ id = LW_OBJECT_HANDLE_INVALID) /\
    (create_result k c r = ERROR_NONE -> exists e, 0 <= e < 2 ^ 16 /\ created k k' r e /\
       id = _MakeObjectId (create_class r) LW_CFG_PROCESSOR_NUMBER e).
Proof.
  intros Hi Hl. rewrite create_call_eq. unfold create_result.
  destruct (Z.eqb_spec (create_refused c r) ERROR_NONE) as [Er|Er]; [|by exists k, LW_OBJECT_HANDLE_INVALID].
  destruct (create_accepted c r Er Hl) as [Hn Hf].
  destruct (RESRC_free (K_resrcEvent k)) as [|e l] eqn:Ef.
  { exists k, LW_OBJECT_HANDLE_INVALID. split; [|by split]. unfold event_create, _Allocate_Event_Object, resrc_allocate.
    by rewrite Hn, Ef. }
  destruct (proj1 (po_free _ (sv_pool _ _ Hi) e)) as (E & HE & Et); [rewrite Ef; left|].
  assert (He : 0 <= e < LW_CFG_MAX_EVENTS k) by (apply (po_dom _ (sv_pool _ _ Hi)); by eexists).
  pose proof (po_max _ (sv_pool _ _ Hi)) as Hm. destruct (Hf k E) as [H1 H2].
  destruct (create_spec k (create_class r) (create_name r) (create_fields r) e l E Hi Hn Ef HE H1 H2)
    as (k' & E1 & Hi' & Hev & Hv & Hv0 & Hw & Hfr).
  exists k', (_MakeObjectId (create_class r) LW_CFG_PROCESSOR_NUMBER e). split; [exact E1|]. split; [done|].
  split; [done|]. split; [done|]. intros _. exists e. split; [lia|]. split; [|done]. split; try done. by rewrite Hfr.
Qed.

(** A creation is refused with the error code of the first failing check, fails with
    ERROR_EVENT_FULL when no control block is free, leaving the kernel as it was
    in both cases, and otherwise turns the first free control block into a semaphore
    with the given fields and no waiter, whose handle passes the class
    check and names the control block; the invariant is kept. *)
Theorem API_SemaphoreCreate_spec k c r : sem_inv idle k -> create_legal r ->
  exists k' id, create_call k c r = Some (k', id, create_result k c r) /\ sem_inv idle k' /\
    (create_result k c r <> ERROR_NONE -> k' = k /\ id = LW_OBJECT_HANDLE_INVALID) /\
    (create_result k c r = ERROR_NONE ->
       _ObjectGetClass id = create_class r /\ created k k' r (_ObjectGetIndex id)).
Proof.
  intros Hi Hl. destruct (create_any k c r Hi Hl) as (k' & id & E & Hi' & _ & H1 & H2).
  exists k', id. split; [done|]. split; [done|]. split; [done|]. intros Hr.
  destruct (H2 Hr) as (e & He & Hc & ->). split; [apply make_id_class; [apply create_class_range|done|lia]|].
  by rewrite make_id_index by lia.
Qed.
End Life.

(** ** The small system with one semaphore of each kind *)

Lemma demo_kernel_inv : sem_inv id demo_kernel.
Proof.
  assert (Hw : forall e iq, wview demo_kernel e iq = []).
  { intros e iq. unfold wview. change (wring demo_kernel) with (wring boot).
    destruct (is_prio demo_kernel e); [|by rewrite boot_ring]. cbn [buckets fmap list_fmap concat]. by rewrite !boot_ring. }
  assert (He : forall e E, K_event demo_kernel !! e = Some E -> E = event0 /\ 0 <= e < 4).
  { intros e E H. cbn [demo_kernel set_sched boot K_event fmap list_fmap list_to_map foldr fst snd] in H.
    repeat (apply lookup_insert_Some in H as [[<- <-]|[_ H]]; [split; [done|lia]|]). by apply lookup_empty_Some in H. }
  split; [apply demo_inv| | |].
  - intros e E H. destruct (He e E H) as [-> _]. rewrite !Hw. by apply ev_unused.
  - assert (Hd : forall e, is_Some (K_event demo_kernel !! e) <-> 0 <= e < 4).
    { intros e. split; [by intros [E HE]; apply (He e E)|]. intros H.
      assert (Hc : e = 0 \/ e = 1 \/ e = 2 \/ e = 3) by lia.
      by destruct Hc as [->|[->|[->| ->]]]; exists event0. }
    split; [decide_now| |exact Hd|done|done]. intros e.
    change (RESRC_free (K_resrcEvent demo_kernel)) with [0; 1; 2; 3]. split.
    + intros Hin. assert (H : 0 <= e < 4).
      { repeat (apply elem_of_cons in Hin as [->|Hin]; [lia|]). by apply not_elem_of_nil in Hin. }
      apply Hd in H as [E HE]. exists E. split; [done|]. by destruct (He e E HE) as [-> _].
    + intros (E & HE & _). destruct (He e E HE) as [_ H].
      assert (Hc : e = 0 \/ e = 1 \/ e = 2 \/ e = 3) by lia.
      by destruct Hc as [->|[->|[->| ->]]]; decide_now.
  - intros t w Hw'. apply boot_wait in Hw' as [_ ->]. by intros [? ?].
Qed.

(** A call by thread [t], not from an interrupt, with the system running. *)
Definition call (t : Z) : CALL := mkCall t 0 true.

Definition create_all (k : KERNEL) (rs : list CREATE) : option KERNEL :=
  foldl (fun k r => k ← k; '(k, _, _) ← create_call k (call 20) r; Some k) (Some k) rs.

Lemma create_all_inv idle rs : forall k k', sem_inv idle k -> Forall create_legal rs -> create_all k rs = Some k' ->
  sem_inv idle k' /\ K_wait k' = K_wait k.
Proof.
  unfold create_all. induction rs as [|r rs IH]; intros k k' Hi Hl; cbn [foldl].
  { by intros [= <-]. }
  apply Forall_cons in Hl as [Hr Hl]. cbn [mbind option_bind].
  destruct (create_any idle k (call 20) r Hi Hr) as (k1 & id1 & -> & Hi1 & Hw1 & _).
  cbn [mbind option_bind]. intros H. rewrite <-Hw1. by apply IH.
Qed.

(** Event 0: a FIFO counting semaphore with one unit; 1: a binary semaphore with priority
    order, taken; 2: a mutex with priority inheritance; 3: a read-write semaphore. *)
Definition demo_requests : list CREATE :=
  [CreateC None 1 2 0; CreateB None 0 LW_OPTION_WAIT_PRIORITY;
   CreateM None 30 (Z.lor LW_OPTION_INHERIT_PRIORITY LW_OPTION_DELETE_SAFE); CreateRW None 0].
Definition demo_sys : KERNEL := default demo_kernel (create_all demo_kernel demo_requests).

Definition semc_id : Z := _MakeObjectId _OBJECT_SEM_C LW_CFG_PROCESSOR_NUMBER 0.
Definition semb_id : Z := _MakeObjectId _OBJECT_SEM_B LW_CFG_PROCESSOR_NUMBER 1.
Definition semm_id : Z := _MakeObjectId _OBJECT_SEM_M LW_CFG_PROCESSOR_NUMBER 2.
Definition semrw_id : Z := _MakeObjectId _OBJECT_SEM_RW LW_CFG_PROCESSOR_NUMBER 3.

Lemma demo_sys_created : create_all demo_kernel demo_requests = Some demo_sys.
Proof.
  unfold demo_sys. destruct (create_all demo_kernel demo_requests) as [k|] eqn:E; [done|].
  exfalso. assert (H : is_Some (create_all demo_kernel demo_requests)) by (vm_compute; by eexists).
  rewrite E in H. by destruct H.
Qed.

Lemma demo_sys_inv : sem_inv id demo_sys.
Proof.
  apply (create_all_inv id demo_requests demo_kernel demo_sys); [apply demo_kernel_inv| |exact demo_sys_created].
  repeat constructor; simpl; unfold ULONG_MAX; lia.
Qed.

Lemma API_SemaphoreCreate_spec_witness :
  (sem_inv id demo_kernel /\ create_legal (CreateC None 1 2 0)) /\
  exists k', create_call demo_kernel (call 20) (CreateC None 1 2 0) = Some (k', semc_id, ERROR_NONE) /\ sem_inv id k' /\
    created demo_kernel k' (CreateC None 1 2 0) 0.
Proof.
  assert (Hl : create_legal (CreateC None 1 2 0)) by (simpl; unfold ULONG_MAX; lia).
  split; [split; [exact demo_kernel_inv|exact Hl]|].
  destruct (API_SemaphoreCreate_spec id demo_kernel (call 20) (CreateC None 1 2 0) demo_kernel_inv Hl)
    as (k' & i & E & Hi & _ & H).
  assert (Er : create_result demo_kernel (call 20) (CreateC None 1 2 0) = ERROR_NONE) by (by vm_compute).
  rewrite Er in E. destruct (H Er) as [_ Hc].
  assert (Ei : i = semc_id).
  { assert (Ei : (fun r => snd (fst r)) <$> create_call demo_kernel (call 20) (CreateC None 1 2 0) = Some semc_id) by (by vm_compute).
    rewrite E in Ei. by injection Ei. }
  rewrite Ei in *. exists k'. split; [exact E|]. split; [exact Hi|exact Hc].
Defined.
