(* ===== verification/SemRefine.v ===== *)
(** * Counting and binary semaphores refine an abstract semaphore

    An abstract semaphore is a count, its maximum and the threads that wait, in the
    order they will be served.  The services of the file Semaphore, run on a
    kernel state that satisfies the invariant, do on their event exactly the
    abstract step and keep the invariant; all other events are untouched. *)

From S2P Require Import Prelude Lists Bitmap Sched SchedSpec Object Wakeup Kernel Event EventSpec Boot TickSpec Semaphore Mutex SemSpec LifeSpec.

(** ** The abstract semaphore *)

Record SEM := mkSem { s_count : Z; s_max : Z; s_wait : list Z }.

Inductive SEM_OP :=
| SPend (t ulTimeout : Z)
| STryPend
| SPost
| SRelease (n : Z)
| SFlush
| SClear.

(** A unit is given: result, threads served. *)
Definition give_abs (s : SEM) : SEM * Z * list Z :=
  match s_wait s with
  | t :: l => (mkSem (s_count s) (s_max s) l, ERROR_NONE, [t])
  | [] => if s_count s <? s_max s then (mkSem (s_count s + 1) (s_max s) [], ERROR_NONE, [])
          else (s, ERROR_EVENT_FULL, [])
  end.

(** [n] units are given, until there is no room. *)
Fixpoint release_abs (n : nat) (s : SEM) : SEM * Z * list Z :=
  match n with
  | O => (s, ERROR_NONE, [])
  | S n =>
    let '(s, r, l) := give_abs s in
    if r =? ERROR_NONE then let '(s, r, l') := release_abs n s in (s, r, l ++ l') else (s, r, l)
  end.

(** The call waits. *)
Definition WAITING : Z := -1.

(** One operation: the state after it, the result, and the threads it serves;
    [enq t l l']: thread [t] joins the queue [l]. *)
Inductive sem_step (enq : Z -> list Z -> list Z -> Prop) (s : SEM) : SEM_OP -> SEM -> Z -> list Z -> Prop :=
| st_take t tmo : 0 < s_count s ->
    sem_step enq s (SPend t tmo) (mkSem (s_count s - 1) (s_max s) (s_wait s)) ERROR_NONE []
| st_poll t : s_count s = 0 -> sem_step enq s (SPend t LW_OPTION_NOT_WAIT) s ERROR_THREAD_WAIT_TIMEOUT []
| st_wait t tmo l : s_count s = 0 -> tmo <> LW_OPTION_NOT_WAIT -> enq t (s_wait s) l ->
    sem_step enq s (SPend t tmo) (mkSem 0 (s_max s) l) WAITING []
| st_try : 0 < s_count s -> sem_step enq s STryPend (mkSem (s_count s - 1) (s_max s) (s_wait s)) ERROR_NONE []
| st_try_fail : s_count s = 0 -> sem_step enq s STryPend s ERROR_THREAD_WAIT_TIMEOUT []
| st_post s' r l : give_abs s = (s', r, l) -> sem_step enq s SPost s' r l
| st_release n s' r l : n <> 0 -> release_abs (Z.to_nat n) s = (s', r, l) -> sem_step enq s (SRelease n) s' r l
| st_release0 : sem_step enq s (SRelease 0) s ERROR_EVENT_NULL []
| st_flush : sem_step enq s SFlush (mkSem (s_count s) (s_max s) []) ERROR_NONE (s_wait s)
| st_clear : sem_step enq s SClear (mkSem 0 (s_max s) (s_wait s)) ERROR_NONE [].

(** ** The concrete one *)

Definition is_sem (E : LW_CLASS_EVENT) : bool :=
  (EVENT_ucType E =? LW_TYPE_EVENT_SEMC) || (EVENT_ucType E =? LW_TYPE_EVENT_SEMB).
Definition sem_of (k : KERNEL) (e : Z) : option SEM :=
  E ← K_event k !! e; if is_sem E then Some (mkSem (EVENT_ulCounter E) (EVENT_ulMaxCounter E) (wview k e 0)) else None.

(** How a thread joins the queue of the event. *)
Definition joins (k : KERNEL) (e : Z) (t : Z) (l l' : list Z) : Prop :=
  l' ≡ₚ t :: l /\ (is_prio k e = false -> l' = l ++ [t]) /\
  (is_prio k e = true -> aligned k e 0 -> l' = prio_insert (kprio k) t l).

Definition pend_code (r : PEND) : Z := match r with Return e => e | Wait _ => WAITING end.

Definition semc_call (k : KERNEL) (ulId : Z) (o : SEM_OP) : option (KERNEL * Z) :=
  match o with
  | SPend t tmo => '(k, r) ← API_SemaphoreCPend k (call t) ulId tmo; Some (k, pend_code r)
  | STryPend => API_SemaphoreCTryPend k ulId
  | SPost => API_SemaphoreCPost k ulId
  | SRelease n => '(k, r, _) ← API_SemaphoreCRelease k ulId n; Some (k, r)
  | SFlush => '(k, r, _) ← API_SemaphoreCFlush k ulId; Some (k, r)
  | SClear => API_SemaphoreCClear k ulId
  end.

Definition semb_call (k : KERNEL) (ulId : Z) (o : SEM_OP) : option (KERNEL * Z) :=
  match o with
  | SPend t tmo => '(k, r) ← API_SemaphoreBPend k (call t) ulId tmo; Some (k, pend_code r)
  | STryPend => API_SemaphoreBTryPend k ulId
  | SPost => API_SemaphoreBPost k ulId
  | SRelease n => '(k, r, _) ← API_SemaphoreBRelease k ulId n; Some (k, r)
  | SFlush => '(k, r, _) ← API_SemaphoreBFlush k ulId; Some (k, r)
  | SClear => API_SemaphoreBClear k ulId
  end.

(** The arguments are of their C types, and the caller runs. *)
Definition legal (idle : Z -> Z) (k : KERNEL) (o : SEM_OP) : Prop :=
  match o with
  | SPend t tmo => runs idle k t /\ 0 <= tmo <= ULONG_MAX
  | SRelease n => 0 <= n <= ULONG_MAX
  | _ => True
  end.

(** What the threads see of an operation. *)
Definition effect (k k' : KERNEL) (e : Z) (o : SEM_OP) (r : Z) (l : list Z) : Prop :=
  match o with
  | SPend t tmo => if r =? WAITING then parked k k' t e 0 (wait_ticks tmo) else woke k k' l (wake_wait LW_NULL)
  | _ => woke k k' l (wake_wait LW_NULL)
  end.

(** ** Both kinds at once *)

Section Kind.
Context (idle : Z -> Z) (cls ty : Z) (take : LW_CLASS_EVENT -> LW_CLASS_EVENT)
  (give : LW_CLASS_EVENT -> option LW_CLASS_EVENT).
Context (Hty : ty = LW_TYPE_EVENT_SEMC \/ ty = LW_TYPE_EVENT_SEMB).

Definition kind_ok (E : LW_CLASS_EVENT) : Prop :=
  0 <= EVENT_ulCounter E <= EVENT_ulMaxCounter E /\ EVENT_ulMaxCounter E <= ULONG_MAX /\
  (ty = LW_TYPE_EVENT_SEMB -> EVENT_ulMaxCounter E = 1).

Context (Htake : forall E, kind_ok E -> 0 < EVENT_ulCounter E -> take E = set_EVENT_ulCounter (EVENT_ulCounter E - 1) E).
Context (Hgive : forall E, kind_ok E ->
  match give E with
  | Some E' => EVENT_ulCounter E < EVENT_ulMaxCounter E /\
      exists v, E' = set_EVENT_pvPtr v (set_EVENT_ulCounter (EVENT_ulCounter E + 1) E)
  | None => EVENT_ulCounter E = EVENT_ulMaxCounter E
  end).

Definition kind_call (k : KERNEL) (ulId : Z) (o : SEM_OP) : option (KERNEL * Z) :=
  match o with
  | SPend t tmo => '(k, r) ← sem_wait_again cls ty take k t ulId tmo; Some (k, pend_code r)
  | STryPend =>
    let pevent := _ObjectGetIndex ulId in
    err ← event_check k ulId cls ty;
    if negb (err =? ERROR_NONE) then Some (k, err)
    else E ← K_event k !! pevent;
         if negb (EVENT_ulCounter E =? 0) then Some (upd_event pevent take k, ERROR_NONE)
         else Some (k, ERROR_THREAD_WAIT_TIMEOUT)
  | SPost => '(k, r, _) ← sem_post cls ty give k ulId LW_NULL; Some (k, r)
  | SRelease n => '(k, r, _) ← sem_release_call cls ty give k ulId n; Some (k, r)
  | SFlush => '(k, r, _) ← sem_flush cls ty k ulId; Some (k, r)
  | SClear => sem_clear cls ty k ulId
  end.

Lemma kind_sem k e E : sem_inv idle k -> K_event k !! e = Some E -> EVENT_ucType E = ty ->
  kind_ok E /\ sem_ok E (wview k e 0) (wview k e 1).
Proof.
  intros Hi HE Et. pose proof (sv_ev _ _ Hi e E HE) as [H1 _ _|H1 H2|H1 H2 H3|H1 _|H1 _];
    rewrite Et in H1; try (destruct Hty as [H|H]; rewrite H in H1; done).
  - split; [|done]. destruct H2 as (A & B & _). split; [done|]. split; [done|]. rewrite H1. done.
  - split; [|done]. destruct H2 as (A & B & _). by split.
Qed.

Lemma sem_of_eq k e E : K_event k !! e = Some E -> EVENT_ucType E = ty ->
  sem_of k e = Some (mkSem (EVENT_ulCounter E) (EVENT_ulMaxCounter E) (wview k e 0)).
Proof.
  intros H Et. unfold sem_of. rewrite H. cbn [mbind option_bind]. unfold is_sem. rewrite Et.
  by destruct Hty as [-> | ->].
Qed.

(** The count changes, and nothing else does. *)
Lemma kind_upd k e E f E' : sem_inv idle k -> K_event k !! e = Some E -> EVENT_ucType E = ty ->
  f E = E' -> EVENT_ulOption E' = EVENT_ulOption E -> EVENT_ucType E' = ty ->
  kind_ok E' -> sem_ok E' (wview k e 0) (wview k e 1) ->
  sem_inv idle (upd_event e f k) /\ touches k (upd_event e f k) e /\
  sem_of (upd_event e f k) e = Some (mkSem (EVENT_ulCounter E') (EVENT_ulMaxCounter E') (wview k e 0)) /\
  woke k (upd_event e f k) [] (wake_wait LW_NULL).
Proof.
  intros Hi HE Et Ef Eo Et' Hk' Hs'. pose proof (touches_upd k e f) as Ht.
  assert (Hf : forall E0, K_event k !! e = Some E0 -> EVENT_ulOption (f E0) = EVENT_ulOption E0).
  { intros E0 H0. rewrite HE in H0. injection H0 as <-. by rewrite Ef. }
  assert (HE' : K_event (upd_event e f k) !! e = Some E') by (by rewrite (lookup_upd e f k E), Ef).
  split; [|split; [done|split]].
  - apply (sem_inv_step idle k _ e E E' Hi); try done.
    + apply kern_inv_event; [done|apply Hi].
    + rewrite !wview_upd by done. destruct Hty as [H|H]; rewrite H in *.
      * by apply ev_semc.
      * apply ev_semb; [done|done|]. by apply Hk'.
    + by rewrite Et, Et'.
  - rewrite (sem_of_eq _ e E' HE' Et'). by rewrite wview_upd.
  - split; try done. intros u. split; [|tauto]. intros H. split; [done|apply not_elem_of_nil].
Qed.

(** The queue changes, and nothing else does. *)
Lemma kind_queue k k' e E : sem_inv idle k -> K_event k !! e = Some E -> EVENT_ucType E = ty ->
  kern_inv idle SEMB k' -> touches k k' e -> K_event k' !! e = Some E -> wview k' e 1 = wview k e 1 ->
  (0 < EVENT_ulCounter E -> wview k' e 0 = []) -> sem_inv idle k'.
Proof.
  intros Hi HE Et Hk' Ht HE' H1 H0. destruct (kind_sem k e E Hi HE Et) as [[A B] (C & D & _ & F)].
  apply (sem_inv_step idle k k' e E E Hi Hk' Ht HE HE'); [|done]. rewrite H1, F.
  assert (Hs : sem_ok E (wview k' e 0) []) by (by split).
  destruct Hty as [H|H]; rewrite H in *; [by apply ev_semc|apply ev_semb; [done|done|]].
  by apply B.
Qed.

(** What one operation establishes. *)
Definition refines (k : KERNEL) (e : Z) (s : SEM) (o : SEM_OP) (res : option (KERNEL * Z)) : Prop :=
  exists k' s' r l, res = Some (k', r) /\ sem_inv idle k' /\ touches k k' e /\ sem_of k' e = Some s' /\
    sem_step (joins k e) s o s' r l /\ effect k k' e o r l.

(** One unit is given. *)
Lemma give_spec k e E msg a : sem_inv idle k -> K_event k !! e = Some E -> EVENT_ucType E = ty ->
  let s := mkSem (EVENT_ulCounter E) (EVENT_ulMaxCounter E) (wview k e 0) in
  exists k' r o s' l E', sem_give give k e msg a = Some (k', r, o) /\ sem_inv idle k' /\ touches k k' e /\
    K_event k' !! e = Some E' /\ EVENT_ucType E' = ty /\
    sem_of k' e = Some s' /\ give_abs s = (s', r, l) /\ woke k k' l (wake_wait msg) /\ o = head l.
Proof.
  intros Hi HE Et s. destruct (kind_sem k e E Hi HE Et) as [HK HS]. pose proof HS as (Hc & Hm & Hq & Hq1).
  unfold sem_give. change EVENT_SEM_Q with 0. rewrite (waitnum idle SEMB) by apply Hi.
  unfold give_abs. subst s. cbn [s_wait s_count s_max]. destruct (wview k e 0) as [|t tl] eqn:Ev.
  - rewrite bool_decide_eq_true_2 by done. cbn [negb]. rewrite HE. cbn [mbind option_bind].
    pose proof (Hgive E HK) as Hg. destruct (give E) as [E'|].
    + destruct Hg as [Hlt [v ->]]. rewrite (proj2 (Z.ltb_lt _ _)) by done.
      set (E' := set_EVENT_pvPtr v _).
      assert (HK' : kind_ok E') by (destruct HK as (A & B & C); split; [simpl; lia|by split]).
      assert (HS' : sem_ok E' (wview k e 0) (wview k e 1)).
      { rewrite Ev. split; [simpl; lia|]. split; [done|]. by split. }
      pose proof (lookup_upd e (fun _ => E') k E HE) as HE'.
      destruct (kind_upd k e E (fun _ => E') E' Hi HE Et) as (A & B & C & D); try done.
      eexists _, ERROR_NONE, None, _, [], E'. split; [done|]. split; [done|]. split; [done|].
      split; [done|]. split; [done|]. split; [exact C|]. rewrite Ev. split; [done|]. split; [|done].
      destruct D as [D1 D2 D3 D4]. by split.
    + rewrite (proj2 (Z.ltb_ge _ _)) by lia. eexists k, ERROR_EVENT_FULL, None, _, [], E.
      split; [done|]. split; [done|]. split; [apply touches_refl|]. split; [done|]. split; [done|].
      split; [by apply sem_of_eq|]. rewrite Ev. split; [done|]. split; [apply woke_refl|done].
  - rewrite bool_decide_eq_false_2 by done. cbn [negb].
    destruct (ready_spec idle SEMB k e E 0 t tl msg a (sv_kern _ _ Hi) HE Ev) as (k' & E1 & Hk' & Ht & He' & Hv & Hw).
    unfold SEMB in E1. rewrite E1. cbn [mbind option_bind].
    assert (HE' : K_event k' !! e = Some E) by (by rewrite He').
    assert (Hv0 : wview k' e 0 = tl) by (by rewrite Hv).
    exists k', ERROR_NONE, (Some t). eexists _, [t], E. split; [done|]. split; [|split; [done|]].
    + apply (kind_queue k k' e E Hi HE Et Hk' Ht HE'); [by rewrite Hv|]. intros H. by apply Hq in H.
    + split; [done|]. split; [done|]. split; [by apply sem_of_eq|]. rewrite Hv0. split; [done|]. by split.
Qed.

Lemma give_abs_wait s s' r l : give_abs s = (s', r, l) -> s_wait s = l ++ s_wait s'.
Proof.
  unfold give_abs. destruct (s_wait s) as [|t tl] eqn:E.
  - destruct (s_count s <? s_max s); intros [= <- _ <-]; [done|]. by rewrite E.
  - by intros [= <- _ <-].
Qed.

Lemma release_abs_wait n s s' r l : release_abs n s = (s', r, l) -> s_wait s = l ++ s_wait s'.
Proof.
  revert s s' r l. induction n as [|n IH]; intros s s' r l; cbn [release_abs]; [by intros [= <- _ <-]|].
  destruct (give_abs s) as [[s1 r1] l1] eqn:E1. apply give_abs_wait in E1. rewrite E1.
  destruct (r1 =? ERROR_NONE); [|by intros [= <- _ <-]].
  destruct (release_abs n s1) as [[s2 r2] l2] eqn:E2. apply IH in E2. rewrite E2.
  intros [= <- _ <-]. apply app_assoc.
Qed.

Lemma release_spec n k e E : sem_inv idle k -> K_event k !! e = Some E -> EVENT_ucType E = ty ->
  let s := mkSem (EVENT_ulCounter E) (EVENT_ulMaxCounter E) (wview k e 0) in
  exists k' r s' l, sem_release give n k e = Some (k', r) /\ sem_inv idle k' /\ touches k k' e /\
    sem_of k' e = Some s' /\ release_abs n s = (s', r, l) /\ woke k k' l (wake_wait LW_NULL).
Proof.
  revert k E. induction n as [|n IH]; intros k E Hi HE Et s; cbn [sem_release release_abs].
  { exists k, ERROR_NONE, s, []. split; [done|]. split; [done|]. split; [apply touches_refl|].
    split; [by apply sem_of_eq|]. split; [done|apply woke_refl]. }
  destruct (give_spec k e E LW_NULL LW_SCHED_ACT_OTHER Hi HE Et) as
    (k1 & r1 & o & s1 & l1 & E1 & -> & Hi1 & Ht1 & HE1 & Et1 & Hs1 & Ha1 & Hw1 & _).
  cbn [mbind option_bind]. subst s. rewrite Ha1. destruct (r1 =? ERROR_NONE).
  - destruct (IH k1 E1 Hi1 HE1 Et1) as (k2 & r2 & s2 & l2 & -> & Hi2 & Ht2 & Hs2 & Ha2 & Hw2).
    rewrite (sem_of_eq k1 e E1 HE1 Et1) in Hs1. injection Hs1 as <-. rewrite Ha2.
    exists k2, r2, s2, (l1 ++ l2). split; [done|]. split; [done|]. split; [by eapply touches_trans|].
    split; [done|]. split; [done|]. apply (woke_app k k1 k2); [|done|done].
    pose proof (wview_NoDup idle SEMB _ k e 0 (proj1 (sv_kern _ _ Hi))) as Hnd.
    apply give_abs_wait in Ha1. apply release_abs_wait in Ha2. simpl in Ha1, Ha2. rewrite Ha1, Ha2 in Hnd.
    intros u H1 H2. apply NoDup_app in Hnd as (_ & Hd & _). apply (Hd u H1). apply elem_of_app. by left.
  - exists k1, r1, s1, l1. by splits.
Qed.

(** ** The refinement *)

Lemma kind_refines k ulId E o : sem_inv idle k -> _ObjectClassOK ulId cls = true ->
  K_event k !! _ObjectGetIndex ulId = Some E -> EVENT_ucType E = ty -> legal idle k o ->
  refines k (_ObjectGetIndex ulId)
    (mkSem (EVENT_ulCounter E) (EVENT_ulMaxCounter E) (wview k (_ObjectGetIndex ulId) 0)) o (kind_call k ulId o).
Proof.
  intros Hi Hcls HE Et Hleg. set (e := _ObjectGetIndex ulId) in *.
  pose proof (event_check_ok idle k ulId cls ty E Hi Hcls HE Et) as Hchk.
  destruct (kind_sem k e E Hi HE Et) as [HK HS]. pose proof HS as (Hc & Hm & Hq & Hq1).
  set (s := mkSem _ _ _).
  assert (Hsame : sem_of k e = Some s) by (by apply sem_of_eq).
  assert (Hbit : forall c, 0 < c <= ULONG_MAX -> negb (c =? 0) = true) by (intros c H; apply negb_true_iff, Z.eqb_neq; lia).
  assert (Htk : 0 < EVENT_ulCounter E -> sem_inv idle (upd_event e take k) /\ touches k (upd_event e take k) e /\
      sem_of (upd_event e take k) e = Some (mkSem (EVENT_ulCounter E - 1) (EVENT_ulMaxCounter E) (wview k e 0)) /\
      woke k (upd_event e take k) [] (wake_wait LW_NULL)).
  { intros Hp. apply (kind_upd k e E take (set_EVENT_ulCounter (EVENT_ulCounter E - 1) E)); try done.
    - by apply Htake.
    - destruct HK as (A & B & C). split; [simpl; lia|by split].
    - split; [simpl; lia|]. split; [done|]. split; [|done]. intros _. by apply Hq. }
  destruct o as [t tmo| | |n| |]; unfold kind_call, legal in *.
  - destruct Hleg as [Hr Htmo]. unfold sem_wait_again. fold e. rewrite Hchk. cbn [mbind option_bind].
    change (negb (ERROR_NONE =? ERROR_NONE)) with false. cbv iota. rewrite HE. cbn [mbind option_bind].
    destruct (Z.eqb_spec (EVENT_ulCounter E) 0) as [E0|Hne]; cbn [negb].
    + destruct (Z.eqb_spec tmo LW_OPTION_NOT_WAIT) as [->|Hnw].
      * cbn [mbind option_bind pend_code]. exists k, s, ERROR_THREAD_WAIT_TIMEOUT, [].
        split; [done|]. split; [done|]. split; [apply touches_refl|]. split; [done|].
        split; [by apply st_poll|]. apply woke_refl.
      * destruct (pend_spec idle SEMB k t e E 0 tmo (sv_kern _ _ Hi) Hr HE) as (k' & E1 & Hk' & Ht & He' & Hp & Hv); [by left|done|by left|]. unfold SEMB in E1.
        change EVENT_SEM_Q with 0. rewrite E1. cbn [mbind option_bind pend_code].
        assert (HE' : K_event k' !! e = Some E) by (by rewrite He').
        exists k', (mkSem 0 (EVENT_ulMaxCounter E) (wview k' e 0)), WAITING, []. split; [done|]. split; [|split; [done|]].
        -- apply (kind_queue k k' e E Hi HE Et Hk' Ht HE'); [by apply Hv|lia].
        -- split; [rewrite (sem_of_eq k' e E HE' Et), E0; done|]. split; [|done].
           apply st_wait; [done|done|]. split; [apply Hp|]. split; [by apply (pk_fifo _ _ _ _ _ _ Hp)|].
           by apply (pk_prio _ _ _ _ _ _ Hp).
    + destruct Htk as (A & B & C & D); [lia|]. cbn [mbind option_bind pend_code].
      eexists _, _, ERROR_NONE, []. split; [done|]. split; [done|]. split; [done|]. split; [done|].
      split; [apply st_take; simpl; lia|done].
  - rewrite Hchk. cbn [mbind option_bind]. change (negb (ERROR_NONE =? ERROR_NONE)) with false. cbv iota.
    fold e. rewrite HE. cbn [mbind option_bind]. destruct (Z.eqb_spec (EVENT_ulCounter E) 0) as [E0|Hne]; cbn [negb].
    + exists k, s, ERROR_THREAD_WAIT_TIMEOUT, [].
      split; [done|]. split; [done|]. split; [apply touches_refl|]. split; [done|].
      split; [by apply st_try_fail|]. apply woke_refl.
    + destruct Htk as (A & B & C & D); [lia|].
      eexists _, _, ERROR_NONE, []. split; [done|]. split; [done|]. split; [done|]. split; [done|].
      split; [apply st_try; simpl; lia|done].
  - unfold sem_post. rewrite Hchk. cbn [mbind option_bind]. change (negb (ERROR_NONE =? ERROR_NONE)) with false. cbv iota.
    fold e. destruct (give_spec k e E LW_NULL LW_SCHED_ACT_INTERRUPT Hi HE Et) as
      (k1 & r1 & o & s1 & l1 & E1 & -> & Hi1 & Ht1 & HE1 & Et1 & Hs1 & Ha1 & Hw1 & _).
    cbn [mbind option_bind]. exists k1, s1, r1, l1. split; [done|]. split; [done|]. split; [done|]. split; [done|].
    split; [by apply st_post|done].
  - unfold sem_release_call. destruct (Z.eqb_spec n 0) as [->|Hn].
    { cbn [mbind option_bind]. exists k, s, ERROR_EVENT_NULL, []. split; [done|]. split; [done|].
      split; [apply touches_refl|]. split; [done|]. split; [apply st_release0|apply woke_refl]. }
    rewrite Hchk. cbn [mbind option_bind]. change (negb (ERROR_NONE =? ERROR_NONE)) with false. cbv iota.
    fold e. rewrite HE. cbn [mbind option_bind].
    destruct (release_spec (Z.to_nat n) k e E Hi HE Et) as (k1 & r1 & s1 & l1 & -> & Hi1 & Ht1 & Hs1 & Ha1 & Hw1).
    cbn [mbind option_bind]. exists k1, s1, r1, l1. split; [done|]. split; [done|]. split; [done|]. split; [done|].
    split; [by apply st_release|done].
  - unfold sem_flush. rewrite Hchk. cbn [mbind option_bind]. change (negb (ERROR_NONE =? ERROR_NONE)) with false. cbv iota.
    fold e. change EVENT_SEM_Q with 0. rewrite flush_loop_eq.
    destruct (wake_loop_spec idle SEMB (fun E => E) (fun w => w) e 0 (fun _ => eq_refl)) with
      (n := S (Z.to_nat (_EventWaitNum k 0 e))) (k := k) (E := E) as (k' & E1 & Hk' & Ht & He' & Hv & Hw).
    + by intros w.
    + apply Hi.
    + done.
    + rewrite (waitnum_length idle SEMB) by apply Hi. lia.
    + unfold SEMB in E1. rewrite E1. cbn [mbind option_bind].
      assert (HE' : K_event k' !! e = Some E).
      { rewrite He'. f_equal. generalize (length (wview k e 0)). intros m. induction m as [|m IHm]; [done|]. by simpl. }
      exists k', (mkSem (EVENT_ulCounter E) (EVENT_ulMaxCounter E) []), ERROR_NONE, (wview k e 0).
      assert (Hv0 : wview k' e 0 = []) by (by rewrite Hv).
      split; [done|]. split; [|split; [done|]].
      * apply (kind_queue k k' e E Hi HE Et Hk' Ht HE'); [by rewrite Hv|done].
      * split; [rewrite (sem_of_eq k' e E HE' Et), Hv0; done|]. split; [apply st_flush|done].
  - unfold sem_clear. rewrite Hchk. cbn [mbind option_bind]. change (negb (ERROR_NONE =? ERROR_NONE)) with false. cbv iota.
    fold e. destruct (kind_upd k e E (set_EVENT_ulCounter 0) (set_EVENT_ulCounter 0 E) Hi HE Et) as (A & B & C & D); try done.
    + destruct HK as (K1 & K2 & K3). split; [simpl; lia|by split].
    + split; [simpl; lia|]. split; [done|]. split; [simpl; lia|done].
    + eexists _, _, ERROR_NONE, []. split; [done|]. split; [done|]. split; [done|]. split; [done|].
      split; [apply st_clear|done].
Qed.
End Kind.

(** ** The two kinds *)

Lemma semc_kind k ulId o : semc_call k ulId o = kind_call _OBJECT_SEM_C LW_TYPE_EVENT_SEMC semc_take semc_give k ulId o.
Proof. destruct o; done. Qed.
Lemma semb_kind k ulId o : semb_call k ulId o = kind_call _OBJECT_SEM_B LW_TYPE_EVENT_SEMB semb_take semb_give k ulId o.
Proof. destruct o; done. Qed.

Lemma semc_take_ok E : kind_ok LW_TYPE_EVENT_SEMC E -> 0 < EVENT_ulCounter E ->
  semc_take E = set_EVENT_ulCounter (EVENT_ulCounter E - 1) E.
Proof. intros (H1 & H2 & _) Hp. unfold semc_take. rewrite wrap64_small; [done|lia]. Qed.
Lemma semb_take_ok E : kind_ok LW_TYPE_EVENT_SEMB E -> 0 < EVENT_ulCounter E ->
  semb_take E = set_EVENT_ulCounter (EVENT_ulCounter E - 1) E.
Proof.
  intros (H1 & H2 & H3) Hp. specialize (H3 eq_refl). unfold semb_take. f_equal. unfold LW_FALSE. lia.
Qed.

Definition gives (give : LW_CLASS_EVENT -> option LW_CLASS_EVENT) (E : LW_CLASS_EVENT) : Prop :=
  match give E with
  | Some E' => EVENT_ulCounter E < EVENT_ulMaxCounter E /\
      exists v, E' = set_EVENT_pvPtr v (set_EVENT_ulCounter (EVENT_ulCounter E + 1) E)
  | None => EVENT_ulCounter E = EVENT_ulMaxCounter E
  end.

Lemma set_same_ptr E : set_EVENT_pvPtr (EVENT_pvPtr E) E = E.
Proof. by destruct E. Qed.

Lemma semc_give_ok E : kind_ok LW_TYPE_EVENT_SEMC E -> gives semc_give E.
Proof.
  intros (H1 & H2 & _). unfold gives, semc_give. destruct (Z.ltb_spec (EVENT_ulCounter E) (EVENT_ulMaxCounter E)); [|lia].
  split; [done|]. exists (EVENT_pvPtr E). rewrite wrap64_small by lia. by destruct E.
Qed.

Lemma semb_give_ok E : kind_ok LW_TYPE_EVENT_SEMB E -> gives semb_give E.
Proof.
  intros (H1 & H2 & H3). specialize (H3 eq_refl). unfold gives, semb_give, LW_FALSE, LW_TRUE.
  destruct (Z.eqb_spec (EVENT_ulCounter E) 0) as [E0|]; [|lia]. rewrite E0.
  split; [lia|]. exists (EVENT_pvPtr E). by destruct E.
Qed.

Lemma semb_give_msg_ok m E : kind_ok LW_TYPE_EVENT_SEMB E -> gives (semb_give_msg m) E.
Proof.
  intros HK. pose proof (semb_give_ok E HK) as H. unfold gives, semb_give_msg in *.
  destruct (semb_give E) as [E'|]; [|done]. cbn [mbind option_bind]. destruct H as [H [v ->]].
  split; [done|]. by exists m.
Qed.

(** C18: the services of the counting semaphores refine the abstract semaphore.
    On a consistent kernel and a handle of a counting semaphore, every legal call
    runs to an end without an undefined access, does exactly the abstract step on its
    event (count, maximum, queue in wake-up order, result, threads served),
    has exactly the effect of that step on the threads, touches no other event,
    and keeps the invariant. *)
Theorem csem_refines idle k ulId E o :
  sem_inv idle k -> _ObjectClassOK ulId _OBJECT_SEM_C = true ->
  K_event k !! _ObjectGetIndex ulId = Some E -> EVENT_ucType E = LW_TYPE_EVENT_SEMC -> legal idle k o ->
  refines idle k (_ObjectGetIndex ulId)
    (mkSem (EVENT_ulCounter E) (EVENT_ulMaxCounter E) (wview k (_ObjectGetIndex ulId) 0)) o (semc_call k ulId o).
Proof.
  intros Hi Hc HE Ht Hl. rewrite semc_kind. apply kind_refines; try done.
  - by left.
  - apply semc_take_ok.
  - apply semc_give_ok.
Qed.

(** The services of the binary semaphores refine the abstract semaphore of
    maximum one, in the same sense. *)
Theorem bsem_refines idle k ulId E o :
  sem_inv idle k -> _ObjectClassOK ulId _OBJECT_SEM_B = true ->
  K_event k !! _ObjectGetIndex ulId = Some E -> EVENT_ucType E = LW_TYPE_EVENT_SEMB -> legal idle k o ->
  EVENT_ulMaxCounter E = 1 /\
  refines idle k (_ObjectGetIndex ulId)
    (mkSem (EVENT_ulCounter E) 1 (wview k (_ObjectGetIndex ulId) 0)) o (semb_call k ulId o).
Proof.
  intros Hi Hc HE Ht Hl. destruct (kind_sem idle LW_TYPE_EVENT_SEMB) with (k := k) (e := _ObjectGetIndex ulId) (E := E)
    as [(_ & _ & Hm) _]; try done; [by right|]. specialize (Hm eq_refl). split; [done|]. rewrite semb_kind, <-Hm.
  apply kind_refines; try done.
  - by right.
  - apply semb_take_ok.
  - apply semb_give_ok.
Qed.

(** Thread 20 runs in the small system. *)
Lemma demo_runs k : K_sched k = K_sched demo_kernel -> runs id k 20 /\ runs id k 10.
Proof.
  intros E. unfold runs, not_idle, cpu_id. rewrite E.
  assert (E2 : LW_NCPUS (K_sched demo_kernel) = 2) by (by vm_compute). rewrite E2. unfold id.
  split; (split; [|intros i Hi; lia]).
  - exists 50. by vm_compute.
  - eexists. by vm_compute.
Qed.

Lemma csem_refines_witness :
  (sem_inv id demo_sys /\ legal id demo_sys (SPend 20 LW_OPTION_WAIT_INFINITE)) /\
  exists E, K_event demo_sys !! 0 = Some E /\
    refines id demo_sys 0 (mkSem 1 2 []) (SPend 20 LW_OPTION_WAIT_INFINITE)
      (semc_call demo_sys semc_id (SPend 20 LW_OPTION_WAIT_INFINITE)).
Proof.
  assert (Hr : runs id demo_sys 20) by (apply demo_runs; by vm_compute).
  assert (Hl : legal id demo_sys (SPend 20 LW_OPTION_WAIT_INFINITE)) by (split; [exact Hr|by vm_compute]).
  split; [split; [exact demo_sys_inv|exact Hl]|].
  assert (Ex : K_event demo_sys !! 0 = Some (mkEvent LW_TYPE_EVENT_SEMC None 1 2 0 0 0 0)) by (by vm_compute).
  eexists. split; [exact Ex|].
  assert (Ew : wview demo_sys 0 0 = []) by (by vm_compute).
  pose proof (csem_refines id demo_sys semc_id _ (SPend 20 LW_OPTION_WAIT_INFINITE) demo_sys_inv eq_refl Ex eq_refl Hl) as H.
  change (_ObjectGetIndex semc_id) with 0 in H. rewrite Ew in H. exact H.
Defined.

Lemma bsem_refines_witness :
  (sem_inv id demo_sys /\ legal id demo_sys SPost) /\
  exists E, K_event demo_sys !! 1 = Some E /\
    refines id demo_sys 1 (mkSem 0 1 []) SPost (semb_call demo_sys semb_id SPost).
Proof.
  split; [split; [exact demo_sys_inv|exact I]|].
  assert (Ex : K_event demo_sys !! 1 = Some (mkEvent LW_TYPE_EVENT_SEMB None 0 1 0 LW_OPTION_WAIT_PRIORITY 0 0)) by (by vm_compute).
  eexists. split; [exact Ex|].
  assert (Ew : wview demo_sys 1 0 = []) by (by vm_compute).
  destruct (bsem_refines id demo_sys semb_id _ SPost demo_sys_inv eq_refl Ex eq_refl I) as [_ H].
  change (_ObjectGetIndex semb_id) with 1 in H. rewrite Ew in H. exact H.
Defined.
