(* ===== verification/MutexSpec.v ===== *)
(** * Mutexes keep their promises

    The priority changes of a mutex, its services against an abstract mutex
    (owner, depth, saved priority and waiting threads), priority inheritance and ceiling, the
    safe mode of the owner, and the deletion of a mutex. *)

From S2P Require Import Prelude Lists Bitmap Sched SchedSpec Object Wakeup Kernel Event EventSpec Boot TickSpec Semaphore Mutex SemSpec LifeSpec SemRefine.

Section Prio.
Context (idle : Z -> Z).
Abbreviation kinv := (kern_inv idle SEMB).

(** ** Priority changes *)

Lemma alive_prio k t : kinv k -> alive k t ->
  exists p st, sview (K_sched k) t = Some (p, st) /\ prio k t = Some p /\ prio_ok p.
Proof.
  intros Hk Ha. pose proof Ha as [[p st] Hv]%(alive_sview idle SEMB); [|done].
  exists p, st. split; [done|]. split; [by rewrite prio_sview, Hv|].
  destruct (sview_some _ _ _ _ Hv) as (T & HT & <- & _).
  by destruct (sw_tcb _ (si_wf _ _ (ko_sched _ _ _ _ (proj1 Hk))) t T HT) as [? _].
Qed.

(** Only the priority of [t] has changed, to [q]. *)
Definition prio_changed (k : KERNEL) (s' : SCHED) (t q : Z) : Prop :=
  LW_NCPUS s' = LW_NCPUS (K_sched k) /\
  forall u, sview s' u = match sview (K_sched k) u with
                         | Some (p, st) => if decide (u = t) then Some (q, st) else Some (p, st)
                         | None => None
                         end.

Lemma prio_changed_same k t p : prio k t = Some p -> prio_changed k (K_sched k) t p.
Proof.
  intros Hp. split; [done|]. intros u. destruct (sview (K_sched k) u) as [[p' st]|] eqn:E; [|done]. case_decide as Eu; [|done]. subst.
  rewrite prio_sview, E in Hp. by injection Hp as ->.
Qed.

Lemma prio_changed_prio k s' t q u : prio_changed k s' t q ->
  prio (set_sched s' k) u = if decide (u = t) then (fun _ => q) <$> prio k u else prio k u.
Proof.
  intros [_ H]. rewrite !prio_sview. cbn [set_sched K_sched]. rewrite (H u).
  destruct (sview (K_sched k) u) as [[p st]|]; by case_decide.
Qed.

Lemma set_prio_gen D k t p st q : kern_ok idle SEMB D k -> sview (K_sched k) t = Some (p, st) -> prio_ok q ->
  exists s', SchedSetPrio k t q = Some (set_sched s' k) /\ kern_ok idle SEMB D (set_sched s' k) /\ prio_changed k s' t q.
Proof.
  intros Hk Hv Hq. destruct (set_prio_spec idle SEMB D k t p st q Hk Hv Hq) as (s' & E & H1 & H0 & H2).
  exists s'. split; [done|]. split; [done|]. split; [done|]. intros u. rewrite H2. case_decide as Eu; [subst; by rewrite Hv|].
  by destruct (sview (K_sched k) u) as [[? ?]|].
Qed.

Lemma set_sched_same k : set_sched (K_sched k) k = k.
Proof. by destruct k. Qed.

(** The steps of a scheduler that keeps the threads. *)
Lemma touches_sched k s' t q e : prio_changed k s' t q -> touches k (set_sched s' k) e.
Proof. intros H. by split. Qed.

Lemma wview_sched k s' e iq : wview (set_sched s' k) e iq = wview k e iq.
Proof. done. Qed.

(** *** Boosting the owner *)

(** The priority the owner gets when a thread of priority [pc] waits. *)
Definition boosted (E : LW_CLASS_EVENT) (pc po : Z) : Z :=
  if pc <? po then
    if has_option (EVENT_ulOption E) LW_OPTION_INHERIT_PRIORITY then pc
    else if EVENT_ucCeilingPriority E <? po then EVENT_ucCeilingPriority E else po
  else po.

Lemma boost_spec k e E o t : kinv k -> K_event k !! e = Some E -> EVENT_pvTcbOwn E = Some o ->
  prio_ok (EVENT_ucCeilingPriority E) -> alive k o -> alive k t ->
  exists s' wo po pc, _EventPrioTryBoost k e t = Some (set_sched s' k) /\ kinv (set_sched s' k) /\
    K_wait k !! o = Some wo /\ prio k o = Some po /\ prio k t = Some pc /\
    prio_changed k s' o (if TCB_iDeleteProcStatus wo =? 0 then boosted E pc po else po).
Proof.
  intros Hk HE Ho Hc Hao Hat. destruct (alive_prio k o Hk Hao) as (po & so & Hvo & Hpo & Hpok).
  destruct (alive_prio k t Hk Hat) as (pc & sc & Hvc & Hpc & Hpck). destruct Hao as [wo Hwo].
  unfold _EventPrioTryBoost. rewrite HE. cbn [mbind option_bind]. rewrite Ho. cbn [mbind option_bind].
  rewrite Hwo. cbn [mbind option_bind].
  assert (Hno : exists s', Some k = Some (set_sched s' k) /\ kinv (set_sched s' k) /\ prio_changed k s' o po).
  { exists (K_sched k). rewrite set_sched_same. split; [done|]. split; [done|]. by apply prio_changed_same. }
  assert (Hset : forall q, prio_ok q -> exists s', SchedSetPrio k o q = Some (set_sched s' k) /\
     kinv (set_sched s' k) /\ prio_changed k s' o q).
  { intros q Hq. destruct (set_prio_gen (fun _ => 0) k o po so q (proj1 Hk) Hvo Hq) as (s' & E1 & H1 & H2).
    exists s'. split; [done|]. split; [|done]. split; [done|]. exact (proj2 Hk). }
  cut (exists s', (if negb (TCB_iDeleteProcStatus wo =? 0) then Some k
    else pc ← prio k t; po ← prio k o;
         if LW_PRIO_IS_HIGH pc po
         then if has_option (EVENT_ulOption E) LW_OPTION_INHERIT_PRIORITY then SchedSetPrio k o pc
              else if LW_PRIO_IS_HIGH (EVENT_ucCeilingPriority E) po
                   then SchedSetPrio k o (EVENT_ucCeilingPriority E) else Some k
         else Some k) = Some (set_sched s' k) /\ kinv (set_sched s' k) /\
    prio_changed k s' o (if TCB_iDeleteProcStatus wo =? 0 then boosted E pc po else po)).
  { intros (s' & H1 & H2 & H3). exists s', wo, po, pc. by splits. }
  destruct (TCB_iDeleteProcStatus wo =? 0); cbn [negb]; [|exact Hno].
  rewrite Hpc, Hpo. cbn [mbind option_bind]. unfold boosted, LW_PRIO_IS_HIGH.
  destruct (pc <? po); [|exact Hno].
  destruct (has_option _ _); [by apply Hset|]. destruct (EVENT_ucCeilingPriority E <? po); [by apply Hset|exact Hno].
Qed.

(** *** Taking the boost back *)

Lemma resume_spec D k e E t p st : kern_ok idle SEMB D k -> K_event k !! e = Some E ->
  sview (K_sched k) t = Some (p, st) -> prio_ok (EVENT_ulMaxCounter E) ->
  exists s', _EventPrioTryResume k e t = Some (set_sched s' k) /\ kern_ok idle SEMB D (set_sched s' k) /\
    prio_changed k s' t (EVENT_ulMaxCounter E).
Proof.
  intros Hk HE Hv Hm. unfold _EventPrioTryResume. rewrite HE. cbn [mbind option_bind].
  assert (Hp : prio k t = Some p) by (by rewrite prio_sview, Hv). rewrite Hp. cbn [mbind option_bind].
  rewrite wrap_small by exact Hm. destruct (Z.eqb_spec p (EVENT_ulMaxCounter E)) as [<-|Hne]; cbn [negb].
  - exists (K_sched k). rewrite set_sched_same. split; [done|]. split; [done|]. by apply prio_changed_same.
  - by apply (set_prio_gen D k t p st).
Qed.

(** The priority changes do not see a wait that is being ended. *)
Lemma resume_ended t k e c s' : _EventPrioTryResume (ended t k) e c = Some (set_sched s' (ended t k)) ->
  _EventPrioTryResume k e c = Some (set_sched s' k).
Proof.
  unfold _EventPrioTryResume, SchedSetPrio, prio. cbn [ended upd_wait K_event K_sched].
  destruct (K_event k !! e) as [E|]; [|done]. cbn [mbind option_bind].
  destruct (TCB_ucPriority <$> tcbs (K_sched k) !! c) as [p|]; [|done]. cbn [mbind option_bind].
  destruct (negb _).
  - destruct (_SchedSetPrio _ _ _) as [s|]; [|done]. cbn [mbind option_bind]. intros [= ->]. done.
  - intros [= <-]. by rewrite set_sched_same.
Qed.

(** ** The safe mode *)

Definition unsafe_wait (opt : Z) (w : WAIT) : WAIT :=
  if has_option opt LW_OPTION_DELETE_SAFE && negb (TCB_ulThreadSafeCounter w =? 0)
  then set_TCB_ulThreadSafeCounter (TCB_ulThreadSafeCounter w -64 1) w else w.

Lemma safe_leave_eq k opt t : alive k t -> safe_leave k opt t = Some (upd_wait t (unsafe_wait opt) k).
Proof.
  intros [w Hw]. unfold safe_leave, unsafe_wait, _ThreadUnsafeInternalEx.
  destruct (has_option opt LW_OPTION_DELETE_SAFE); cbn [andb]; [|by rewrite upd_wait_same].
  rewrite Hw. cbn [mbind option_bind].
  assert (Hx : forall f g, f w = g w -> upd_wait t f k = upd_wait t g k).
  { intros f g Hfg. unfold upd_wait. f_equal. apply map_eq. intros u. destruct (decide (u = t)) as [->|Hu].
    - by rewrite !lookup_alter_eq, Hw; simpl; rewrite Hfg.
    - by rewrite !lookup_alter_ne. }
  destruct (TCB_ulThreadSafeCounter w =? 0) eqn:E; cbn [negb].
  - f_equal. transitivity (upd_wait t (fun w => w) k); [by rewrite upd_wait_same|]. apply Hx. by rewrite E.
  - f_equal. apply Hx. by rewrite E.
Qed.

Lemma safe_harmless opt : harmless_wait (safe_wait opt).
Proof. intros w. unfold safe_wait. by destruct (has_option _ _). Qed.
Lemma unsafe_harmless opt : harmless_wait (unsafe_wait opt).
Proof. intros w. unfold unsafe_wait. by destruct (_ && _). Qed.
Lemma safe_mark opt w : TCB_ucIsEventDelete (safe_wait opt w) = TCB_ucIsEventDelete w.
Proof. unfold safe_wait. by destruct (has_option _ _). Qed.
Lemma unsafe_mark opt w : TCB_ucIsEventDelete (unsafe_wait opt w) = TCB_ucIsEventDelete w.
Proof. unfold unsafe_wait. by destruct (_ && _). Qed.

(** Writing a control block in a harmless way. *)
Lemma wait_step k t f e : harmless_wait f -> (forall w, TCB_ucIsEventDelete (f w) = TCB_ucIsEventDelete w) -> kinv k ->
  kinv (upd_wait t f k) /\ touches k (upd_wait t f k) e.
Proof.
  intros Hf Hd Hk. split; [by apply kern_inv_wait|]. apply touches_wait; [|by intros]. intros w. apply Hf.
Qed.

Lemma touches_alive k k' e t : touches k k' e -> alive k t -> alive k' t.
Proof. intros H. by rewrite (tc_dom _ _ _ H). Qed.
End Prio.

(** ** The abstract mutex: owner and depth, the priority saved for the owner, threads that wait *)

Record MTX := mkMtx { m_own : option (Z * Z); m_save : Z; m_wait : list Z }.

Inductive MTX_OP := MLock (t ulTimeout : Z) | MUnlock (t : Z).

(** [t] cannot lock again: it is not the owner, or recursion is turned off. *)
Definition excluded (opt t u : Z) : Prop := u <> t \/ has_option opt LW_OPTION_NORMAL = true.

(** State, result and the thread the mutex is handed to; [pr] are the priorities of the threads. *)
Inductive mtx_step (pr : Z -> option Z) (opt : Z) (m : MTX) : MTX_OP -> MTX -> Z -> option Z -> Prop :=
| mt_take t tmo p : m_own m = None -> pr t = Some p ->
    mtx_step pr opt m (MLock t tmo) (mkMtx (Some (t, 0)) p (m_wait m)) ERROR_NONE None
| mt_again t tmo d : m_own m = Some (t, d) -> has_option opt LW_OPTION_NORMAL = false ->
    has_option opt LW_OPTION_ERRORCHECK = false ->
    mtx_step pr opt m (MLock t tmo) (mkMtx (Some (t, d +64 1)) (m_save m) (m_wait m)) ERROR_NONE None
| mt_deadlock t tmo d : m_own m = Some (t, d) -> has_option opt LW_OPTION_NORMAL = false ->
    has_option opt LW_OPTION_ERRORCHECK = true -> mtx_step pr opt m (MLock t tmo) m EDEADLK None
| mt_poll t u d : m_own m = Some (u, d) -> excluded opt t u ->
    mtx_step pr opt m (MLock t LW_OPTION_NOT_WAIT) m ERROR_THREAD_WAIT_TIMEOUT None
| mt_wait t tmo u d l : m_own m = Some (u, d) -> excluded opt t u -> tmo <> LW_OPTION_NOT_WAIT -> l ≡ₚ t :: m_wait m ->
    mtx_step pr opt m (MLock t tmo) (mkMtx (m_own m) (m_save m) l) WAITING None
| mt_other t : (forall d, m_own m <> Some (t, d)) -> mtx_step pr opt m (MUnlock t) m ERROR_EVENT_NOT_OWN None
| mt_less t d : m_own m = Some (t, d) -> d <> 0 ->
    mtx_step pr opt m (MUnlock t) (mkMtx (Some (t, d - 1)) (m_save m) (m_wait m)) ERROR_NONE None
| mt_hand t u l p : m_own m = Some (t, 0) -> m_wait m = u :: l -> pr u = Some p ->
    mtx_step pr opt m (MUnlock t) (mkMtx (Some (u, 0)) p l) ERROR_NONE (Some u)
| mt_free t : m_own m = Some (t, 0) -> m_wait m = [] ->
    mtx_step pr opt m (MUnlock t) (mkMtx None LW_PRIO_LOWEST []) ERROR_NONE None.

Definition mtx_abs (k : KERNEL) (e : Z) (E : LW_CLASS_EVENT) : MTX :=
  mkMtx ((fun o => (o, EVENT_pvPtr E)) <$> EVENT_pvTcbOwn E) (EVENT_ulMaxCounter E) (wview k e 0).
Definition mtx_of (k : KERNEL) (e : Z) : option MTX :=
  E ← K_event k !! e; if EVENT_ucType E =? LW_TYPE_EVENT_MUTEX then Some (mtx_abs k e E) else None.

Definition mutex_call (k : KERNEL) (ulId : Z) (o : MTX_OP) : option (KERNEL * Z) :=
  match o with
  | MLock t tmo => '(k, r) ← API_SemaphoreMPend k (call t) ulId tmo; Some (k, pend_code r)
  | MUnlock t => API_SemaphoreMPost k (call t) ulId
  end.

Definition mtx_legal (idle : Z -> Z) (k : KERNEL) (o : MTX_OP) : Prop :=
  match o with
  | MLock t tmo => runs idle k t /\ 0 <= tmo <= ULONG_MAX
  | MUnlock t => runs idle k t
  end.

(** What a thread [t] that waits does to the owner's priority. *)
Definition boosts (k : KERNEL) (s' : SCHED) (E : LW_CLASS_EVENT) (t : Z) : Prop :=
  exists o wo po pc, EVENT_pvTcbOwn E = Some o /\ K_wait k !! o = Some wo /\ prio k o = Some po /\ prio k t = Some pc /\
    prio_changed k s' o (if TCB_iDeleteProcStatus wo =? 0 then boosted E pc po else po).

(** The thread that becomes the owner enters the safe mode, and the one that no longer is
    leaves it, if the mutex has the option; nobody else does. *)
Definition owner (m : MTX) : option Z := fst <$> m_own m.
Definition safety (opt : Z) (m m' : MTX) (x : Z) (w : WAIT) : WAIT :=
  if decide (owner m' = owner m) then w
  else if decide (owner m' = Some x) then safe_wait opt w
  else if decide (owner m = Some x) then unsafe_wait opt w else w.

(** The owner who hands the mutex over. *)
Definition demoted (o : MTX_OP) (got : option Z) : option Z :=
  match o, got with MUnlock t, Some _ => Some t | _, _ => None end.

(** What an operation does to priorities and threads.  A call that waits raises the owner and
    parks its thread; any other changes control blocks only as the change of the owner and the
    wake-up of the thread that gets the mutex ask for, and priorities only in that
    an owner who hands the mutex over has its saved priority again. *)
Definition mtx_effect (k k' : KERNEL) (e : Z) (E : LW_CLASS_EVENT) (o : MTX_OP) (m' : MTX) (r : Z) (got : option Z) : Prop :=
  match o, r =? WAITING with
  | MLock t tmo, true => exists s', boosts k s' E t /\ parked (set_sched s' k) k' t e 0 (wait_ticks tmo)
  | MUnlock _, true => False
  | _, false =>
    (forall x, K_wait k' !! x = (fun w => safety (EVENT_ulOption E) (mtx_abs k e E) m' x
       (if decide (got = Some x) then wake_wait LW_NULL w else w)) <$> K_wait k !! x) /\
    (forall x, prio k' x = if decide (demoted o got = Some x) then Some (m_save (mtx_abs k e E)) else prio k x) /\
    (got = None -> K_sched k' = K_sched k)
  end.

(** A call that leaves the owner and the threads alone. *)
Lemma effect_same k k' e E o m' r : r <> WAITING -> owner m' = owner (mtx_abs k e E) -> K_wait k' = K_wait k -> K_sched k' = K_sched k ->
  mtx_effect k k' e E o m' r None.
Proof.
  intros Hr Ho Hw Hs. unfold mtx_effect. rewrite (proj2 (Z.eqb_neq _ _) Hr).
  assert (H : (forall x, K_wait k' !! x = (fun w => safety (EVENT_ulOption E) (mtx_abs k e E) m' x
       (if decide (None = Some x) then wake_wait LW_NULL w else w)) <$> K_wait k !! x) /\
    (forall x, prio k' x = if decide (demoted o None = Some x) then Some (m_save (mtx_abs k e E)) else prio k x) /\
    (@None Z = None -> K_sched k' = K_sched k)).
  { split; [|split; [|done]].
    - intros x. rewrite Hw. destruct (K_wait k !! x) as [w|]; [|done]. cbn [fmap option_fmap option_map]. f_equal.
      rewrite decide_False by done. unfold safety. by rewrite decide_True.
    - intros x. unfold prio. rewrite Hs, decide_False; [done|]. by destruct o. }
  by destruct o.
Qed.

(** The owner changes, and one control block with it. *)
Lemma effect_owner k k' e E o m' r t f : r <> WAITING -> owner m' <> owner (mtx_abs k e E) ->
  K_wait k' = alter f t (K_wait k) -> K_sched k' = K_sched k ->
  (forall x w, safety (EVENT_ulOption E) (mtx_abs k e E) m' x w = if decide (x = t) then f w else w) ->
  mtx_effect k k' e E o m' r None.
Proof.
  intros Hr Ho Hw Hs Hf. unfold mtx_effect. rewrite (proj2 (Z.eqb_neq _ _) Hr).
  assert (H : (forall x, K_wait k' !! x = (fun w => safety (EVENT_ulOption E) (mtx_abs k e E) m' x
       (if decide (None = Some x) then wake_wait LW_NULL w else w)) <$> K_wait k !! x) /\
    (forall x, prio k' x = if decide (demoted o None = Some x) then Some (m_save (mtx_abs k e E)) else prio k x) /\
    (@None Z = None -> K_sched k' = K_sched k)).
  { split; [|split; [|done]].
    - intros x. rewrite Hw. destruct (decide (x = t)) as [->|Hx]; [rewrite lookup_alter_eq|rewrite lookup_alter_ne by done].
      + destruct (K_wait k !! t) as [w|]; [|done]. cbn [fmap option_fmap option_map]. f_equal.
        rewrite decide_False by done. by rewrite Hf, decide_True.
      + destruct (K_wait k !! x) as [w|]; [|done]. cbn [fmap option_fmap option_map]. f_equal.
        rewrite decide_False by done. by rewrite Hf, decide_False.
    - intros x. unfold prio. rewrite Hs, decide_False; [done|]. by destruct o. }
  by destruct o.
Qed.

Section Refine.
Context (idle : Z -> Z).
Abbreviation kinv := (kern_inv idle SEMB).

(** ** Shared facts *)

Lemma handle_ok k ulId ty E : sem_inv idle k -> K_event k !! _ObjectGetIndex ulId = Some E -> EVENT_ucType E = ty ->
  _Event_Index_Invalid k (_ObjectGetIndex ulId) = false /\ _Event_Type_Invalid k (_ObjectGetIndex ulId) ty = Some false.
Proof.
  intros Hi HE Ht. unfold _Event_Index_Invalid, _Event_Type_Invalid. rewrite HE. cbn [mbind option_bind].
  rewrite Ht, Z.eqb_refl. split; [|done]. apply Z.leb_gt. apply (po_dom _ (sv_pool _ _ Hi)). by eexists.
Qed.

Lemma runs_alive k t : kinv k -> runs idle k t -> alive k t.
Proof. intros Hk [[p Hv] _]. apply (alive_sview idle SEMB); [done|]. rewrite Hv. by eexists. Qed.

(** A running thread waits for nothing. *)
Lemma runs_free k t w : kinv k -> runs idle k t -> K_wait k !! t = Some w -> TCB_peventPtr w = None.
Proof.
  intros Hk [[p Hv] _] Hw.
  destruct (th_status _ _ _ _ _ (ko_thread _ _ _ _ (proj1 Hk) t w Hw)) as (p' & st & Hv' & Hb & _).
  rewrite Hv in Hv'. injection Hv' as <- <-. unfold wait_bits in Hb. destruct (TCB_peventPtr w); [|done].
  by rewrite Z.lor_0_r in Hb.
Qed.

Lemma runs_not_waiting k t e iq : kinv k -> runs idle k t -> t ∉ wview k e iq.
Proof.
  intros Hk Hr (b & Hw)%(elem_of_wview idle SEMB _ k e iq t (proj1 Hk)).
  destruct (wait_at_bucket idle SEMB _ k t e iq b (proj1 Hk) Hw) as (_ & _ & _ & _ & w & Ew & Ee & _).
  by rewrite (runs_free k t w Hk Hr Ew) in Ee.
Qed.

Lemma wview_wait k f t e iq : wview (upd_wait t f k) e iq = wview k e iq.
Proof. done. Qed.

(** A field of the event is rewritten. *)
Lemma field_step k e E f : sem_inv idle k -> K_event k !! e = Some E ->
  EVENT_ulOption (f E) = EVENT_ulOption E ->
  (EVENT_ucType (f E) = LW_TYPE_EVENT_UNUSED <-> EVENT_ucType E = LW_TYPE_EVENT_UNUSED) ->
  ev_ok k (f E) (wview k e 0) (wview k e 1) ->
  sem_inv idle (upd_event e f k) /\ touches k (upd_event e f k) e /\ K_event (upd_event e f k) !! e = Some (f E) /\
  forall iq, wview (upd_event e f k) e iq = wview k e iq.
Proof.
  intros Hi HE Ho Ht Hok.
  assert (Hf : forall E0, K_event k !! e = Some E0 -> EVENT_ulOption (f E0) = EVENT_ulOption E0).
  { intros E0 H0. rewrite HE in H0. by injection H0 as <-. }
  pose proof (lookup_upd e f k E HE) as HE'. pose proof (touches_upd k e f) as Htc.
  assert (Hv : forall iq, wview (upd_event e f k) e iq = wview k e iq) by (intros; by apply wview_upd).
  split; [|by split]. apply (sem_inv_step idle k _ e E (f E) Hi); try done.
  - apply kern_inv_event; [done|apply Hi].
  - rewrite !Hv. by apply (ev_ok_touches k _ e).
Qed.

(** A control block is rewritten in a harmless way. *)
Lemma wait_keep k t f e : harmless_wait f -> (forall w, TCB_ucIsEventDelete (f w) = TCB_ucIsEventDelete w) ->
  is_Some (K_event k !! e) -> sem_inv idle k -> sem_inv idle (upd_wait t f k) /\ touches k (upd_wait t f k) e.
Proof.
  intros Hf Hd [E HE] Hi. destruct (wait_step idle k t f e Hf Hd (sv_kern _ _ Hi)) as [H1 H2]. split; [|done].
  apply (sem_inv_step idle k _ e E E Hi H1 H2 HE HE); [|done].
  apply (ev_ok_touches k _ e); [done|]. by apply (sv_ev _ _ Hi).
Qed.

(** ** Handing a mutex over *)

Definition handed (u pu : Z) (E : LW_CLASS_EVENT) : LW_CLASS_EVENT :=
  set_EVENT_pvTcbOwn (Some u) (set_EVENT_ulMaxCounter pu E).

Lemma handoff_high k t e E u l : kinv k -> K_event k !! e = Some E -> wview k e 0 = u :: l -> alive k t -> t <> u ->
  prio_ok (EVENT_ulMaxCounter E) ->
  exists k1 s' k3 pu, event_take k e 0 LW_NULL = Some (k1, u) /\
    _EventPrioTryResume k1 e t = Some (set_sched s' k1) /\ prio (set_sched s' k1) u = Some pu /\ prio k u = Some pu /\
    _EventReadyHighLevel (upd_event e (handed u pu) (set_sched s' k1)) u LW_THREAD_STATUS_SEM LW_SCHED_ACT_INTERRUPT = Some k3 /\
    kinv k3 /\ touches k k3 e /\ K_event k3 !! e = Some (handed u pu E) /\
    (forall iq, wview k3 e iq = if decide (iq = 0) then l else wview k e iq) /\
    (forall x, prio k3 x = if decide (x = t) then Some (EVENT_ulMaxCounter E) else prio k x) /\
    (forall x, K_wait k3 !! x = if decide (x = u) then wake_wait LW_NULL <$> K_wait k !! x else K_wait k !! x).
Proof.
  intros Hk HE Hv Ht Htu Hm.
  destruct (event_take_spec idle SEMB k e 0 E u l LW_NULL Hk HE Hv) as (k1 & E1 & Hk1 & Hd1 & Hwk).
  pose proof (wk_frame _ _ _ _ _ _ Hwk) as Hf1. destruct (wk_wait _ _ _ _ _ _ Hwk) as (w & Hw & Hwe & _ & _ & _ & Hw1).
  assert (HE1 : K_event k1 !! e = Some E) by (by rewrite (fr_event _ _ _ Hf1)).
  destruct (alive_prio idle k t Hk Ht) as (p & st & Hvt & Hpt & _).
  assert (Hvt1 : sview (K_sched (ended u k1)) t = Some (p, st)).
  { destruct (fr_others _ _ _ Hf1 t Htu) as (_ & H & _). by rewrite <-Hvt. }
  destruct (resume_spec idle _ (ended u k1) e E t p st Hk1 HE1 Hvt1 Hm) as (s' & E2 & Hk2 & Hpc).
  apply resume_ended in E2.
  assert (Hau : alive k u) by (by eexists). destruct (alive_prio idle k u Hk Hau) as (pu & su & Hvu & Hpu & _).
  assert (Hp2 : forall x, prio (set_sched s' k1) x = if decide (x = t) then Some (EVENT_ulMaxCounter E) else prio k x).
  { intros x. change (prio (set_sched s' k1) x) with (prio (set_sched s' (ended u k1)) x).
    rewrite (prio_changed_prio _ _ _ _ x Hpc). change (prio (ended u k1) x) with (prio k1 x).
    rewrite (frame_prio k k1 u x Hf1). case_decide; [subst; by rewrite Hpt|done]. }
  assert (Hpu2 : prio (set_sched s' k1) u = Some pu) by (rewrite Hp2, decide_False; done).
  set (k2 := upd_event e (handed u pu) (set_sched s' k1)).
  assert (Hk2' : kern_ok idle SEMB (under_way u (SEMB e)) (ended u k2)).
  { apply (kern_ok_events idle SEMB _ (set_sched s' (ended u k1)) (ended u k2) Hk2); try done.
    by apply (upd_event_same (set_sched s' (ended u k1)) e (handed u pu)). }
  destruct (high_level_woken idle SEMB k k1 k2 u e 0 LW_NULL LW_SCHED_ACT_INTERRUPT Hk) as (k3 & E3 & Hk3 & Hf3 & Hw3 & Hl3 & Hu3 & Hn3);
    [by eexists|done|done|done|done|].
  assert (Hwait : forall x, K_wait k3 !! x = if decide (x = u) then wake_wait LW_NULL <$> K_wait k !! x else K_wait k !! x).
  { intros x. rewrite Hw3. unfold ended. rewrite lookup_upd_wait. cbn [k2 upd_event set_sched K_wait]. case_decide as Ex.
    - subst. by rewrite Hw1, Hw.
    - by destruct (fr_others _ _ _ Hf1 x Ex) as (-> & _). }
  assert (Hview : forall e' iq, wview k3 e' iq = wview k1 e' iq).
  { intros e' iq. rewrite (wview_same k2 k3); [|done|by eapply frame_same_events]. unfold k2. by rewrite wview_upd. }
  exists k1, s', k3, pu. split; [done|]. split; [done|]. split; [done|]. split; [done|]. split; [exact E3|].
  split; [done|]. split; [|split; [|split; [|split; [|done]]]].
  - split.
    + intros e' He'. rewrite (fr_event _ _ _ Hf3). cbn [k2 upd_event set_sched K_event].
      by rewrite lookup_alter_ne, (fr_event _ _ _ Hf1).
    + intros e' iq He'. rewrite Hview, (wk_view _ _ _ _ _ _ Hwk), decide_False; [done|congruence].
    + intros x. unfold alive. rewrite Hwait. case_decide; [by rewrite fmap_is_Some|done].
    + rewrite (fr_resrc _ _ _ Hf3). apply (fr_resrc _ _ _ Hf1).
    + rewrite (fr_max _ _ _ Hf3). apply (fr_max _ _ _ Hf1).
    + rewrite (fr_es _ _ _ Hf3). apply (fr_es _ _ _ Hf1).
    + rewrite (fr_esn _ _ _ Hf3). apply (fr_esn _ _ _ Hf1).
    + intros Hmk x wx. rewrite Hwait. case_decide; [|apply Hmk].
      subst. rewrite Hw. intros [= <-]. by intros [? ?].
    + intros y d Hs. assert (Huy : u <> y) by (intros <-; destruct Hs as [(w0 & Hw0 & H0) _]; congruence).
      apply (sleeps_queue k k3 y d u (q_remove u)); [done| | |by intros; apply q_remove_other|done].
      * intros x Hx. by rewrite Hwait, decide_False.
      * intros q Hq. rewrite Hu3, Hn3. by apply (wk_queue _ _ _ _ _ _ Hwk).
  - rewrite (fr_event _ _ _ Hf3). apply (lookup_upd e (handed u pu) (set_sched s' k1) E HE1).
  - intros iq. rewrite Hview, (wk_view _ _ _ _ _ _ Hwk). destruct (decide (iq = 0)) as [->|Hq].
    + rewrite decide_True by done. by rewrite Hv.
    + rewrite decide_False; [done|congruence].
  - intros x. rewrite (frame_prio k2 k3 u x Hf3). apply Hp2.
Qed.

(** ** The refinement *)

Lemma mutex_ev k e E : sem_inv idle k -> K_event k !! e = Some E -> EVENT_ucType E = LW_TYPE_EVENT_MUTEX ->
  mutex_ok k E (wview k e 0) (wview k e 1).
Proof.
  intros Hi HE Et. destruct (sv_ev _ _ Hi e E HE) as [H _ _|H _|H _ _|H H2|H _]; [| | |exact H2|]; by rewrite Et in H.
Qed.

Lemma mutex_keep k k' e E E' : sem_inv idle k -> K_event k !! e = Some E -> EVENT_ucType E = LW_TYPE_EVENT_MUTEX ->
  kinv k' -> touches k k' e -> K_event k' !! e = Some E' -> EVENT_ucType E' = LW_TYPE_EVENT_MUTEX ->
  mutex_ok k' E' (wview k' e 0) (wview k' e 1) -> sem_inv idle k'.
Proof.
  intros Hi HE Et Hk' Ht HE' Et' Hok. apply (sem_inv_step idle k k' e E E' Hi Hk' Ht HE HE').
  - by apply ev_mutex.
  - by rewrite Et, Et'.
Qed.

Lemma mtx_of_eq k e E : K_event k !! e = Some E -> EVENT_ucType E = LW_TYPE_EVENT_MUTEX -> mtx_of k e = Some (mtx_abs k e E).
Proof. intros H Ht. unfold mtx_of. rewrite H. cbn [mbind option_bind]. by rewrite Ht. Qed.

(** The event of a mutex, or the safe mode of a thread, changes. *)
Lemma mutex_upd k e E f : sem_inv idle k -> K_event k !! e = Some E -> EVENT_ucType E = LW_TYPE_EVENT_MUTEX ->
  EVENT_ulOption (f E) = EVENT_ulOption E -> EVENT_ucType (f E) = LW_TYPE_EVENT_MUTEX ->
  mutex_ok k (f E) (wview k e 0) (wview k e 1) ->
  sem_inv idle (upd_event e f k) /\ touches k (upd_event e f k) e /\
  mtx_of (upd_event e f k) e = Some (mkMtx ((fun o => (o, EVENT_pvPtr (f E))) <$> EVENT_pvTcbOwn (f E)) (EVENT_ulMaxCounter (f E)) (wview k e 0)).
Proof.
  intros Hi HE Et Ho Et' Hok. destruct (field_step k e E f Hi HE Ho) as (H1 & H2 & H3 & H4).
  - by rewrite Et, Et'.
  - by apply ev_mutex.
  - split; [done|]. split; [done|]. rewrite (mtx_of_eq _ e _ H3 Et'). unfold mtx_abs. by rewrite H4.
Qed.

Lemma mutex_safe k t f e m : harmless_wait f -> (forall w, TCB_ucIsEventDelete (f w) = TCB_ucIsEventDelete w) ->
  sem_inv idle k -> mtx_of k e = Some m ->
  sem_inv idle (upd_wait t f k) /\ touches k (upd_wait t f k) e /\ mtx_of (upd_wait t f k) e = Some m.
Proof.
  intros Hf Hd Hi Hm. assert (HE : is_Some (K_event k !! e)).
  { unfold mtx_of in Hm. destruct (K_event k !! e); [by eexists|done]. }
  by destruct (wait_keep k t f e Hf Hd HE Hi) as [H1 H2].
Qed.

Definition mtx_refines (k : KERNEL) (e : Z) (E : LW_CLASS_EVENT) (o : MTX_OP) (res : option (KERNEL * Z)) : Prop :=
  exists k' m' r got, res = Some (k', r) /\ sem_inv idle k' /\ touches k k' e /\ mtx_of k' e = Some m' /\
    mtx_step (prio k) (EVENT_ulOption E) (mtx_abs k e E) o m' r got /\ mtx_effect k k' e E o m' r got.

Lemma lock_refines k ulId E t tmo : sem_inv idle k -> _ObjectClassOK ulId _OBJECT_SEM_M = true ->
  K_event k !! _ObjectGetIndex ulId = Some E -> EVENT_ucType E = LW_TYPE_EVENT_MUTEX ->
  runs idle k t -> 0 <= tmo <= ULONG_MAX ->
  mtx_refines k (_ObjectGetIndex ulId) E (MLock t tmo) (mutex_call k ulId (MLock t tmo)).
Proof.
  intros Hi Hc HE Et Hr Htmo. destruct (handle_ok k ulId _ E Hi HE Et) as [Hx Hy].
  pose proof (runs_alive k t (sv_kern _ _ Hi) Hr) as Hal. set (e := _ObjectGetIndex ulId) in *.
  destruct (mutex_ev k e E Hi HE Et) as (Hceil & Hq1 & Hst).
  unfold mutex_call, API_SemaphoreMPend, call, mutex_wait_again. cbn [LW_CPU_GET_CUR_NESTING LW_SYS_STATUS_IS_RUNNING LW_TCB_GET_CUR].
  change (negb (0 =? 0)) with false. cbv iota. fold e. rewrite Hc, Hx. cbn [negb]. cbv iota.
  rewrite Hy. cbn [mbind option_bind]. rewrite HE. cbn [mbind option_bind].
  pose proof (mtx_of_eq k e E HE Et) as Hsame.
  destruct Hst as [(Ec & Eo & Ep & Eq)|(Ec & Hm & Hp & u & Eo & Hau)]; rewrite Ec.
  - change (negb (LW_TRUE =? 0)) with true. cbv iota.
    destruct (alive_prio idle k t (sv_kern _ _ Hi) Hal) as (p & st & Hv & Hpt & Hpok). rewrite Hpt. cbn [mbind option_bind].
    destruct (mutex_upd k e E (mutex_own LW_FALSE p (Some t)) Hi HE Et) as (H1 & H2 & H3); try done.
    { split; [done|]. split; [done|]. right. split; [done|]. split; [done|]. simpl. rewrite Ep.
      split; [unfold ULONG_MAX; lia|]. by exists t. }
    rewrite safe_enter_eq.
    destruct (mutex_safe _ t (safe_wait (EVENT_ulOption E)) e _ (safe_harmless _) (safe_mark _) H1 H3) as (H4 & H5 & H6).
    eexists _, _, ERROR_NONE, None. split; [done|]. split; [exact H4|]. split; [by eapply touches_trans|].
    split; [exact H6|]. split; [simpl; rewrite Ep; apply mt_take; [simpl; by rewrite Eo|done]|].
    apply (effect_owner k _ e E _ _ _ t (safe_wait (EVENT_ulOption E))); try done; [unfold owner; simpl; by rewrite Eo|].
    intros x w. unfold safety, owner, mtx_abs. rewrite Eo. by repeat case_decide; simplify_eq/=.
  - change (negb (LW_FALSE =? 0)) with false. cbv iota. rewrite Eo.
    assert (Ham : m_own (mtx_abs k e E) = Some (u, EVENT_pvPtr E)) by (simpl; by rewrite Eo).
    assert (Hok : mutex_ok k E (wview k e 0) (wview k e 1)).
    { split; [done|]. split; [done|]. right. split; [done|]. split; [done|]. split; [done|]. by exists u. }
    destruct (negb (has_option (EVENT_ulOption E) LW_OPTION_NORMAL) && bool_decide (Some u = Some t)) eqn:Eg.
    + apply andb_true_iff in Eg as [Eg1%negb_true_iff Eg2%bool_decide_eq_true_1]. injection Eg2 as ->.
      destruct (has_option (EVENT_ulOption E) LW_OPTION_ERRORCHECK) eqn:Eerr.
      * exists k, (mtx_abs k e E), EDEADLK, None. split; [done|]. split; [done|]. split; [apply touches_refl|].
        split; [done|]. split; [by apply (mt_deadlock _ _ _ t tmo (EVENT_pvPtr E))|by apply effect_same].
      * destruct (mutex_upd k e E (set_EVENT_pvPtr (EVENT_pvPtr E +64 1)) Hi HE Et) as (H1 & H2 & H3); try done.
        { split; [done|]. split; [done|]. right. split; [done|]. split; [done|].
          split; [simpl; pose proof (wrap_range 64 (EVENT_pvPtr E + 1)); unfold ULONG_MAX; lia|]. by exists t. }
        eexists _, _, ERROR_NONE, None. split; [done|]. split; [exact H1|]. split; [done|]. split; [exact H3|].
        split; [simpl; rewrite Eo; simpl; by apply mt_again|].
        apply effect_same; try done. unfold owner. simpl. by rewrite Eo.
    + assert (Hexc : excluded (EVENT_ulOption E) t u).
      { unfold excluded. destruct (decide (u = t)) as [->|Hne]; [right|by left].
        rewrite bool_decide_eq_true_2 in Eg by done. by destruct (has_option _ _). }
      destruct (Z.eqb_spec tmo LW_OPTION_NOT_WAIT) as [->|Hnw].
      { exists k, (mtx_abs k e E), ERROR_THREAD_WAIT_TIMEOUT, None. split; [done|]. split; [done|].
        split; [apply touches_refl|]. split; [done|].
        split; [by apply (mt_poll _ _ _ t u (EVENT_pvPtr E))|by apply effect_same]. }
      destruct (boost_spec idle k e E u t (sv_kern _ _ Hi) HE Eo Hceil Hau Hal)
        as (s' & wo & po & pc & E1 & Hk1 & Hwo & Hpo & Hpc & Hch).
      rewrite E1. cbn [mbind option_bind].
      assert (Hr1 : runs idle (set_sched s' k) t).
      { destruct Hr as [[p Hv] Hid]. destruct Hch as [Hn Hch]. split.
        - cbn [set_sched K_sched]. rewrite (Hch t), Hv. destruct (decide (t = u)); eexists; reflexivity.
        - intros i Hci. apply Hid. unfold cpu_id in *. cbn [set_sched K_sched] in Hci. by rewrite Hn in Hci. }
      destruct (pend_spec idle SEMB (set_sched s' k) t e E 0 tmo Hk1 Hr1 HE) as (k' & E2 & Hk' & Ht2 & He' & Hpk & Hv); [by left|done|by left|]. unfold SEMB in E2.
      change EVENT_SEM_Q with 0. rewrite E2. cbn [mbind option_bind].
      assert (HE' : K_event k' !! e = Some E) by (by rewrite He').
      assert (Ht : touches k k' e) by (eapply touches_trans; [by eapply touches_sched|exact Ht2]).
      exists k', (mtx_abs k' e E), WAITING, None. split; [done|]. split; [|split; [done|split; [by apply mtx_of_eq|split]]].
      * apply (mutex_keep k k' e E E Hi HE Et Hk' Ht HE' Et). rewrite (Hv 1) by done. rewrite wview_sched.
        split; [done|]. split; [done|]. right. split; [done|]. split; [done|]. split; [done|].
        exists u. split; [done|]. by apply (touches_alive k k' e).
      * assert (Emt : mtx_abs k' e E = mkMtx (m_own (mtx_abs k e E)) (m_save (mtx_abs k e E)) (wview k' e 0)) by done. rewrite Emt.
        apply (mt_wait _ _ _ t tmo u (EVENT_pvPtr E)); try done. apply Hpk.
      * exists s'. split; [|done]. by exists u, wo, po, pc.
Qed.

Lemma mutex_hand k e E t u l : sem_inv idle k -> K_event k !! e = Some E -> EVENT_ucType E = LW_TYPE_EVENT_MUTEX ->
  EVENT_pvTcbOwn E = Some t -> EVENT_pvPtr E = 0 -> wview k e 0 = u :: l -> runs idle k t ->
  mtx_refines k e E (MUnlock t) (mutex_release k t e E).
Proof.
  intros Hi HE Et Eo Ep Ev Hr. pose proof (sv_kern _ _ Hi) as Hk. pose proof (runs_alive k t Hk Hr) as Hal.
  assert (Htu : t <> u) by (intros ->; apply (runs_not_waiting k u e 0 Hk Hr); rewrite Ev; left).
  assert (Hau : alive k u) by (apply (wview_waiting idle SEMB _ k e 0 u (proj1 Hk)); rewrite Ev; left).
  destruct (mutex_ev k e E Hi HE Et) as (Hceil & Hq1 & [(_ & _ & _ & Hq)|(Ec & Hm & Hp & _)]); [by rewrite Ev in Hq|].
  destruct (handoff_high k t e E u l Hk HE Ev Hal Htu Hm)
    as (k1 & s' & k3 & pu & E1 & E2 & Hpu1 & Hpu & E3 & Hk3 & Ht3 & He3 & Hv3 & Hp3 & Hw3).
  unfold mutex_release. change EVENT_SEM_Q with 0. rewrite (waitnum idle SEMB), bool_decide_eq_false_2 by (try done; by rewrite Ev).
  cbn [negb]. cbv iota. rewrite E1. cbn [mbind option_bind]. rewrite E2. cbn [mbind option_bind].
  rewrite Hpu1. cbn [mbind option_bind]. unfold handed in E3. rewrite E3. cbn [mbind option_bind].
  destruct (alive_prio idle k u Hk Hau) as (pu' & su & _ & Hpu' & Hpuok). rewrite Hpu in Hpu'. injection Hpu' as <-.
  assert (Hi3 : sem_inv idle k3).
  { apply (mutex_keep k k3 e E (handed u pu E) Hi HE Et Hk3 Ht3 He3 Et). rewrite !Hv3.
    destruct (decide (0 = 0)) as [_|]; [|done]. destruct (decide (1 = 0)); [done|].
    split; [done|]. split; [done|]. right. split; [done|]. split; [done|]. split; [done|].
    exists u. split; [done|]. by apply (touches_alive k k3 e). }
  assert (Hm3 : mtx_of k3 e = Some (mkMtx (Some (u, 0)) pu l)).
  { rewrite (mtx_of_eq k3 e _ He3) by done. unfold mtx_abs. rewrite Hv3, decide_True by done. simpl. by rewrite Ep. }
  rewrite safe_enter_eq.
  destruct (mutex_safe k3 u (safe_wait (EVENT_ulOption E)) e _ (safe_harmless _) (safe_mark _) Hi3 Hm3) as (Hi4 & Ht4 & Hm4).
  set (k4 := upd_wait u _ k3) in *.
  assert (Ht34 : touches k k4 e) by (by eapply touches_trans).
  rewrite safe_leave_eq by (by apply (touches_alive k k4 e)). cbn [mbind option_bind].
  destruct (mutex_safe k4 t (unsafe_wait (EVENT_ulOption E)) e _ (unsafe_harmless _) (unsafe_mark _) Hi4 Hm4) as (Hi5 & Ht5 & Hm5).
  eexists _, _, ERROR_NONE, (Some u). split; [done|]. split; [exact Hi5|]. split; [by eapply touches_trans|].
  split; [exact Hm5|]. split; [by apply mt_hand; [simpl; rewrite Eo, <-Ep| |]|].
  split; [|split; [|done]]; intros x.
  - assert (Hs : forall w, safety (EVENT_ulOption E) (mtx_abs k e E) (mkMtx (Some (u, 0)) pu l) x w =
        if decide (x = u) then safe_wait (EVENT_ulOption E) w else if decide (x = t) then unsafe_wait (EVENT_ulOption E) w else w).
    { intros w. unfold safety, owner, mtx_abs. rewrite Eo. by repeat case_decide; simplify_eq/=. }
    unfold k4. rewrite !lookup_upd_wait, Hw3. destruct (K_wait k !! x) as [w|]; [|by repeat case_decide].
    cbn [fmap option_fmap option_map]. rewrite Hs. by repeat case_decide; simplify_eq/=.
  - change (prio k3 x = if decide (Some t = Some x) then Some (EVENT_ulMaxCounter E) else prio k x). rewrite Hp3.
    destruct (decide (x = t)) as [->|Hx]; [by rewrite decide_True|by rewrite decide_False by congruence].
Qed.

Lemma unlock_refines k ulId E t : sem_inv idle k -> _ObjectClassOK ulId _OBJECT_SEM_M = true ->
  K_event k !! _ObjectGetIndex ulId = Some E -> EVENT_ucType E = LW_TYPE_EVENT_MUTEX -> runs idle k t ->
  mtx_refines k (_ObjectGetIndex ulId) E (MUnlock t) (mutex_call k ulId (MUnlock t)).
Proof.
  intros Hi Hc HE Et Hr. destruct (handle_ok k ulId _ E Hi HE Et) as [Hx Hy].
  pose proof (runs_alive k t (sv_kern _ _ Hi) Hr) as Hal. set (e := _ObjectGetIndex ulId) in *.
  destruct (mutex_ev k e E Hi HE Et) as (Hceil & Hq1 & Hst).
  unfold mutex_call, API_SemaphoreMPost, call. cbn [LW_CPU_GET_CUR_NESTING LW_SYS_STATUS_IS_RUNNING LW_TCB_GET_CUR].
  change (negb (0 =? 0)) with false. cbv iota. fold e. rewrite Hc, Hx. cbn [negb]. cbv iota.
  rewrite Hy. cbn [mbind option_bind]. rewrite HE. cbn [mbind option_bind].
  pose proof (mtx_of_eq k e E HE Et) as Hsame.
  destruct (decide (EVENT_pvTcbOwn E = Some t)) as [Eo|Eo].
  2: { rewrite bool_decide_eq_false_2 by done. cbn [negb]. exists k, (mtx_abs k e E), ERROR_EVENT_NOT_OWN, None.
       split; [done|]. split; [done|]. split; [apply touches_refl|]. split; [done|]. split; [|by apply effect_same].
       apply mt_other. intros d Hd. apply Eo. simpl in Hd. destruct (EVENT_pvTcbOwn E); [|done]. by injection Hd as ->. }
  rewrite bool_decide_eq_true_2 by done. cbn [negb].
  destruct Hst as [(_ & Eo' & _)|(Ec & Hm & Hp & Hown)]; [by rewrite Eo in Eo'|].
  destruct (Z.eqb_spec (EVENT_pvPtr E) 0) as [Ep|Ep]; cbn [negb].
  - destruct (wview k e 0) as [|u l] eqn:Ev; [|by apply (mutex_hand k e E t u l)].
    unfold mutex_release. change EVENT_SEM_Q with 0. rewrite (waitnum idle SEMB) by apply Hi.
    rewrite bool_decide_eq_true_2 by done. cbn [negb]. rewrite Ec. change (LW_FALSE =? LW_FALSE) with true. cbv iota.
    destruct (mutex_upd k e E (mutex_own LW_TRUE LW_PRIO_LOWEST None) Hi HE Et) as (H1 & H2 & H3); try done.
    { rewrite Ev. split; [done|]. split; [done|]. left. by split. }
    rewrite safe_leave_eq by (by apply (touches_alive k _ e)). cbn [mbind option_bind].
    destruct (mutex_safe _ t (unsafe_wait (EVENT_ulOption E)) e _ (unsafe_harmless _) (unsafe_mark _) H1 H3) as (H4 & H5 & H6).
    eexists _, _, ERROR_NONE, None. split; [done|]. split; [exact H4|]. split; [by eapply touches_trans|].
    split; [exact H6|]. rewrite Ev. split; [by apply mt_free; simpl; [rewrite Eo, <-Ep|]|].
    apply (effect_owner k _ e E _ _ _ t (unsafe_wait (EVENT_ulOption E))); try done; [unfold owner; simpl; by rewrite Eo|].
    intros x w. unfold safety, owner, mtx_abs. rewrite Eo. by repeat case_decide; simplify_eq/=.
  - destruct (mutex_upd k e E (set_EVENT_pvPtr (EVENT_pvPtr E -64 1)) Hi HE Et) as (H1 & H2 & H3); try done.
    { split; [done|]. split; [done|]. right. split; [done|]. split; [done|].
      split; [simpl; pose proof (wrap_range 64 (EVENT_pvPtr E - 1)); unfold ULONG_MAX; lia|done]. }
    eexists _, _, ERROR_NONE, None. split; [done|]. split; [exact H1|]. split; [done|]. split; [exact H3|]. split.
    + simpl. rewrite Eo. simpl. rewrite wrap64_small by lia. apply mt_less; [simpl; by rewrite Eo|done].
    + apply effect_same; try done. unfold owner. simpl. by rewrite Eo.
Qed.

(** C19: locking and unlocking refine the abstract mutex.  On a consistent kernel
    every call of a running thread ends without an undefined access and does
    exactly the abstract step: a free mutex is taken and the priority of the new owner saved, its
    owner locks again (or learns of the deadlock), others poll or wait; only the owner unlocks,
    level by level, and the last level hands the mutex to the head of the queue, whose wait is
    ended and whose priority is saved, or frees it.  A waiting call raises the priority of the
    owner as the options say and nobody else's, and parks its thread; a hand-over gives the old
    owner its saved priority back; everything else keeps all priorities.  Of a mutex that is safe
    for deletion the new owner counts one more safe level and the old owner one less; otherwise no
    control block changes but for the wake-up.  No other event is touched and the invariant is
    kept. *)
Theorem mutex_refines k ulId E o : sem_inv idle k -> _ObjectClassOK ulId _OBJECT_SEM_M = true ->
  K_event k !! _ObjectGetIndex ulId = Some E -> EVENT_ucType E = LW_TYPE_EVENT_MUTEX -> mtx_legal idle k o ->
  mtx_refines k (_ObjectGetIndex ulId) E o (mutex_call k ulId o).
Proof.
  intros Hi Hc HE Et Hl. destruct o as [t tmo|t].
  - destruct Hl as [Hr Htmo]. by apply lock_refines.
  - by apply unlock_refines.
Qed.
(** ** Deletion *)

(** Leaving the safe mode at the end of a deletion. *)
Lemma deleted_safe k k' e t opt : sem_inv idle k' -> deleted k k' e ->
  sem_inv idle (upd_wait t (unsafe_wait opt) k') /\ deleted k (upd_wait t (unsafe_wait opt) k') e.
Proof.
  intros Hi [(E & HE & D1 & D2) D3 D4 D5 D6 D7 D8].
  destruct (wait_keep k' t (unsafe_wait opt) e (unsafe_harmless opt) (unsafe_mark opt) ltac:(by eexists) Hi) as [H1 H2].
  split; [done|]. split; try done.
  - by exists E.
  - intros u w Hw. destruct (D7 u w Hw) as (w' & Hw' & G1 & G2).
    destruct (unsafe_harmless opt w') as (_ & U1 & U2 & _). pose proof (unsafe_mark opt w') as U3.
    exists (if decide (u = t) then unsafe_wait opt w' else w'). rewrite lookup_upd_wait, Hw'.
    destruct (decide (u = t)); (split; [done|]).
    + split; intros H; [rewrite U1, U2, U3; by apply G1|rewrite U1, U2, U3; by apply G2].
    + by split.
  - intros u d Hs. by apply (tc_sleep _ _ _ H2), D8.
Qed.

Lemma API_SemaphoreMDelete_ok k c ulId E : sem_inv idle k -> LW_CPU_GET_CUR_NESTING c = 0 ->
  _ObjectClassOK ulId _OBJECT_SEM_M = true -> K_event k !! _ObjectGetIndex ulId = Some E ->
  EVENT_ucType E = LW_TYPE_EVENT_MUTEX ->
  exists k', API_SemaphoreMDelete k c ulId = Some (k', ERROR_NONE, LW_OBJECT_HANDLE_INVALID) /\
    sem_inv idle k' /\ deleted k k' (_ObjectGetIndex ulId) /\
    forall o, EVENT_pvTcbOwn E = Some o -> prio k' o = Some (EVENT_ulMaxCounter E).
Proof.
  intros Hi Hc Hcl HE Et. unfold API_SemaphoreMDelete. rewrite Hc. change (negb (0 =? 0)) with false. cbv iota.
  rewrite (event_check_ok idle k ulId _ _ E Hi Hcl HE Et). cbn [mbind option_bind].
  change (negb (ERROR_NONE =? ERROR_NONE)) with false. cbv iota. set (e := _ObjectGetIndex ulId) in *.
  destruct (mutex_ev k e E Hi HE Et) as (_ & Hq1 & Hst). pose proof (sv_kern _ _ Hi) as Hk.
  destruct (dying_spec idle SEMB k e E Hk HE) as (k2 & E2 & Hk2 & Ht2 & HE2 & Hv2 & Hw2). unfold SEMB in E2.
  change EVENT_SEM_Q with 0. rewrite E2. cbn [mbind option_bind]. rewrite HE2. cbn [mbind option_bind].
  cbn [set_EVENT_ucType EVENT_pvTcbOwn EVENT_ulOption EVENT_ulMaxCounter].
  destruct (disown_spec idle SEMB k k2 e _ Hk2 Ht2 HE2) as (Hk3 & Ht3 & HE3 & Hv3). set (k3 := upd_event e _ k2) in *.
  assert (Hty : EVENT_ucType E <> LW_TYPE_EVENT_UNUSED) by (by rewrite Et).
  assert (Htold : all_told k k3 e) by (apply (woke_told idle SEMB k k2 e Hk); by rewrite Hq1, app_nil_r).
  assert (H30 : wview k3 e 0 = [] /\ wview k3 e 1 = []) by (by rewrite !Hv3, !Hv2).
  destruct Hst as [(_ & Eo & _)|(_ & Hm & _ & o & Eo & Hao)]; rewrite Eo; cbn [mbind option_bind].
  - destruct (deleted_intro idle k k3 e E _ Hi HE Hty Hk3 Ht3 HE3) as [H1 H2]; try done; [by apply H30|by apply H30|].
    exists (freed k3 e). by split.
  - destruct (alive_prio idle k3 o Hk3) as (p & st & Hv & Hpo & _); [by apply (touches_alive k k3 e)|].
    rewrite Hpo. cbn [mbind option_bind]. rewrite wrap_small by exact Hm.
    assert (Hset : exists s', (if negb (EVENT_ulMaxCounter E =? p) then SchedSetPrio k3 o (EVENT_ulMaxCounter E) else Some k3)
        = Some (set_sched s' k3) /\ kinv (set_sched s' k3) /\ prio_changed k3 s' o (EVENT_ulMaxCounter E)).
    { destruct (Z.eqb_spec (EVENT_ulMaxCounter E) p) as [Ep|Ep]; cbn [negb].
      - exists (K_sched k3). rewrite set_sched_same. split; [done|]. split; [done|]. apply prio_changed_same. by rewrite Ep.
      - destruct (set_prio_gen idle (fun _ => 0) k3 o p st (EVENT_ulMaxCounter E) (proj1 Hk3) Hv Hm) as (s' & X1 & X2 & X3).
        exists s'. split; [done|]. split; [|done]. split; [done|]. exact (proj2 Hk3). }
    destruct Hset as (s' & Es & Hk4 & Hpc). rewrite Es. cbn [mbind option_bind].
    assert (Ht4 : touches k (set_sched s' k3) e) by (eapply touches_trans; [exact Ht3|by eapply touches_sched]).
    destruct (deleted_intro idle k (set_sched s' k3) e E _ Hi HE Hty Hk4 Ht4 HE3) as [H1 H2]; try done; [by apply H30|by apply H30|].
    change (set_resrc _ (set_sched s' k3)) with (freed (set_sched s' k3) e).
    rewrite safe_leave_eq. 2: { apply (touches_alive k (set_sched s' k3) e) in Hao; [|done]. exact Hao. }
    cbn [mbind option_bind].
    destruct (deleted_safe k _ e o (EVENT_ulOption E) H1 H2) as [H5 H6].
    eexists. split; [done|]. split; [exact H5|]. split; [exact H6|]. intros o' [= <-].
    change (prio (set_sched s' k3) o = Some (EVENT_ulMaxCounter E)).
    by rewrite (prio_changed_prio _ _ _ _ o Hpc), decide_True, Hpo.
Qed.
End Refine.

Lemma mutex_refines_witness :
  (sem_inv id demo_sys /\ mtx_legal id demo_sys (MLock 20 LW_OPTION_WAIT_INFINITE)) /\
  exists E, K_event demo_sys !! 2 = Some E /\
    mtx_refines id demo_sys 2 E (MLock 20 LW_OPTION_WAIT_INFINITE)
      (mutex_call demo_sys semm_id (MLock 20 LW_OPTION_WAIT_INFINITE)).
Proof.
  assert (Hl : mtx_legal id demo_sys (MLock 20 LW_OPTION_WAIT_INFINITE)).
  { split; [|by vm_compute]. apply demo_runs. by vm_compute. }
  split; [split; [exact demo_sys_inv|exact Hl]|].
  assert (Ex : K_event demo_sys !! 2 = Some (mkEvent LW_TYPE_EVENT_MUTEX None 1 255 0 0xa0000 30 0)) by (by vm_compute).
  eexists. split; [exact Ex|].
  exact (mutex_refines id demo_sys semm_id _ (MLock 20 LW_OPTION_WAIT_INFINITE) demo_sys_inv eq_refl Ex eq_refl Hl).
Defined.

(** A boost that is never taken back: thread 10 (priority 100) owns the mutex, thread
    20 (priority 50) waits for at most one tick and raises it, the tick ends the wait, and when 10
    unlocks, nobody waits any more and [_EventPrioTryResume] is not called: it keeps the
    priority of thread 20. *)
Definition boost_scenario : option KERNEL :=
  '(k, _) ← mutex_call demo_sys semm_id (MLock 10 LW_OPTION_WAIT_INFINITE);
  '(k, _) ← mutex_call k semm_id (MLock 20 1);
  '(k, _) ← _ThreadTick k;
  '(k, r) ← mutex_call k semm_id (MUnlock 10);
  if r =? ERROR_NONE then Some k else None.

Lemma boost_survives_timeout : exists k, boost_scenario = Some k /\ mtx_of k 2 = Some (mkMtx None LW_PRIO_LOWEST []) /\
  prio demo_sys 10 = Some 100 /\ prio demo_sys 20 = Some 50 /\ prio k 10 = Some 50.
Proof.
  assert (H : match boost_scenario with
              | Some k => bool_decide (prio k 10 = Some 50) && bool_decide (m_own <$> mtx_of k 2 = Some None)
                          && bool_decide (m_wait <$> mtx_of k 2 = Some []) && bool_decide (m_save <$> mtx_of k 2 = Some LW_PRIO_LOWEST)
              | None => false end = true) by (by vm_compute).
  destruct boost_scenario as [k|]; [|discriminate H]. exists k. split; [reflexivity|].
  apply andb_true_iff in H as [[[H1 H2]%andb_true_iff H3]%andb_true_iff H4].
  apply bool_decide_eq_true_1 in H1, H2, H3, H4. split; [|split; [by vm_compute|split; [by vm_compute|exact H1]]].
  destruct (mtx_of k 2) as [[o p l]|]; [|discriminate H2]. simpl in H2, H3, H4. by injection H2 as ->; injection H3 as ->; injection H4 as ->.
Qed.
