(* ===== verification/RwSpec.v ===== *)
(** * Read-write semaphores keep their promises

    The services of a read-write semaphore against an abstract one (readers or one
    writer with its depth, and the two queues), the safe mode of those inside, and its deletion. *)

From S2P Require Import Prelude Lists Bitmap Sched SchedSpec Object Wakeup Kernel Event EventSpec Boot TickSpec Semaphore Mutex SemSpec LifeSpec SemRefine MutexSpec.

(** ** The abstract read-write semaphore *)

Record RWS := mkRw { r_count : Z; r_writer : option (Z * Z); r_rq : list Z; r_wq : list Z }.

Inductive RW_OP := RdLock (t ulTimeout : Z) | WrLock (t ulTimeout : Z) | RwUnlock (t : Z).

(** A reader has to wait: a writer is in or waits. *)
Definition rd_busy (s : RWS) : Prop := r_writer s <> None \/ r_wq s <> [].
(** Writer [t] has to wait: readers or another writer are in. *)
Definition wr_busy (s : RWS) (t : Z) : Prop :=
  (r_writer s = None /\ r_count s <> 0) \/ exists u d, r_writer s = Some (u, d) /\ u <> t.
(** [t] unlocks as the last one in. *)
Definition last_out (s : RWS) (t : Z) : Prop :=
  r_writer s = Some (t, 0) \/ (r_writer s = None /\ r_count s = 1).

(** State, result and the threads let in; [pref]: writers are preferred. *)
Inductive rw_step (pref : bool) (s : RWS) : RW_OP -> RWS -> Z -> list Z -> Prop :=
| rw_read t tmo : r_writer s = None -> r_wq s = [] ->
    rw_step pref s (RdLock t tmo) (mkRw (r_count s + 1) None (r_rq s) []) ERROR_NONE []
| rw_rpoll t : rd_busy s -> rw_step pref s (RdLock t LW_OPTION_NOT_WAIT) s ERROR_THREAD_WAIT_TIMEOUT []
| rw_rwait t tmo l : rd_busy s -> tmo <> LW_OPTION_NOT_WAIT -> l ≡ₚ t :: r_rq s ->
    rw_step pref s (RdLock t tmo) (mkRw (r_count s) (r_writer s) l (r_wq s)) WAITING []
| rw_write t tmo : r_writer s = None -> r_count s = 0 ->
    rw_step pref s (WrLock t tmo) (mkRw 0 (Some (t, 0)) (r_rq s) (r_wq s)) ERROR_NONE []
| rw_again t tmo d : r_writer s = Some (t, d) ->
    rw_step pref s (WrLock t tmo) (mkRw (r_count s) (Some (t, d +64 1)) (r_rq s) (r_wq s)) ERROR_NONE []
| rw_wpoll t : wr_busy s t -> rw_step pref s (WrLock t LW_OPTION_NOT_WAIT) s ERROR_THREAD_WAIT_TIMEOUT []
| rw_wwait t tmo l : wr_busy s t -> tmo <> LW_OPTION_NOT_WAIT -> l ≡ₚ t :: r_wq s ->
    rw_step pref s (WrLock t tmo) (mkRw (r_count s) (r_writer s) (r_rq s) l) WAITING []
| rw_bad t : (r_writer s = None /\ r_count s = 0) \/ (exists u d, r_writer s = Some (u, d) /\ u <> t) ->
    rw_step pref s (RwUnlock t) s ERROR_EVENT_NOT_OWN []
| rw_less t d : r_writer s = Some (t, d) -> d <> 0 ->
    rw_step pref s (RwUnlock t) (mkRw (r_count s) (Some (t, d - 1)) (r_rq s) (r_wq s)) ERROR_NONE []
| rw_leave t : r_writer s = None -> 1 < r_count s ->
    rw_step pref s (RwUnlock t) (mkRw (r_count s - 1) None (r_rq s) (r_wq s)) ERROR_NONE []
| rw_to_writer t u l : last_out s t -> r_wq s = u :: l -> (r_writer s <> None \/ pref = true \/ r_rq s = []) ->
    rw_step pref s (RwUnlock t) (mkRw 0 (Some (u, 0)) (r_rq s) l) ERROR_NONE [u]
| rw_to_readers t : last_out s t -> r_rq s <> [] -> (r_wq s = [] \/ (r_writer s = None /\ pref = false)) ->
    rw_step pref s (RwUnlock t) (mkRw (Z.of_nat (length (r_rq s))) None [] (r_wq s)) ERROR_NONE (r_rq s)
| rw_to_free t : last_out s t -> r_rq s = [] -> r_wq s = [] ->
    rw_step pref s (RwUnlock t) (mkRw 0 None [] []) ERROR_NONE [].

Definition rw_writer (E : LW_CLASS_EVENT) : option (Z * Z) := (fun o => (o, EVENT_pvPtr E)) <$> EVENT_pvTcbOwn E.
Definition rw_abs (k : KERNEL) (e : Z) (E : LW_CLASS_EVENT) : RWS :=
  mkRw (if EVENT_iStatus E =? EVENT_RW_STATUS_W then 0 else EVENT_ulCounter E) (rw_writer E) (wview k e 0) (wview k e 1).
Definition rw_of (k : KERNEL) (e : Z) : option RWS :=
  E ← K_event k !! e; if EVENT_ucType E =? LW_TYPE_EVENT_SEMRW then Some (rw_abs k e E) else None.
Definition rw_pref (E : LW_CLASS_EVENT) : bool := has_option (EVENT_ulOption E) LW_OPTION_RW_PREFER_WRITER.

Definition rw_call (k : KERNEL) (ulId : Z) (o : RW_OP) : option (KERNEL * Z) :=
  match o with
  | RdLock t tmo => '(k, r) ← API_SemaphoreRWPendR k (call t) ulId tmo; Some (k, pend_code r)
  | WrLock t tmo => '(k, r) ← API_SemaphoreRWPendW k (call t) ulId tmo; Some (k, pend_code r)
  | RwUnlock t => API_SemaphoreRWPost k (call t) ulId
  end.

(** The caller runs, the arguments are of their C types, and the count of readers does
    not overflow 64 bits. *)
Definition rw_legal (idle : Z -> Z) (k : KERNEL) (E : LW_CLASS_EVENT) (o : RW_OP) : Prop :=
  match o with
  | RdLock t tmo => runs idle k t /\ 0 <= tmo <= ULONG_MAX /\ EVENT_ulCounter E < ULONG_MAX
  | WrLock t tmo => runs idle k t /\ 0 <= tmo <= ULONG_MAX
  | RwUnlock t => runs idle k t
  end.

(** What a call that does not wait makes of the control block of [x], from the state [s] to [s']
    with the result [r], letting in the threads [l]: who gets in enters the safe mode, the admitted
    after a wait that ends, and who gets out leaves it, if the semaphore has the option. *)
Definition rw_thread (opt : Z) (s s' : RWS) (o : RW_OP) (r : Z) (l : list Z) (x : Z) (w : WAIT) : WAIT :=
  if decide (x ∈ l) then safe_wait opt (wake_wait LW_NULL w)
  else match o with
       | RdLock t _ => if decide (x = t /\ r = ERROR_NONE) then safe_wait opt w else w
       | WrLock t _ => if decide (x = t /\ r = ERROR_NONE /\ r_writer s = None) then safe_wait opt w else w
       | RwUnlock t => if decide (x = t /\ r = ERROR_NONE /\ fst <$> r_writer s' <> Some t) then unsafe_wait opt w else w
       end.

(** What the threads see: the caller waits in its queue, or the control blocks change as above;
    no priority changes. *)
Definition rw_effect (k k' : KERNEL) (e : Z) (E : LW_CLASS_EVENT) (o : RW_OP) (s' : RWS) (r : Z) (l : list Z) : Prop :=
  (forall x, prio k' x = prio k x) /\
  (r <> WAITING -> forall x, K_wait k' !! x = rw_thread (EVENT_ulOption E) (rw_abs k e E) s' o r l x <$> K_wait k !! x) /\
  (r = WAITING -> match o with
   | RdLock t tmo => parked k k' t e 0 (wait_ticks tmo)
   | WrLock t tmo => parked k k' t e 1 (wait_ticks tmo)
   | RwUnlock t => False
   end).

Section Rw.
Context (idle : Z -> Z).
Abbreviation kinv := (kern_inv idle SEMB).

Definition rw_refine (k : KERNEL) (e : Z) (E : LW_CLASS_EVENT) (o : RW_OP) (res : option (KERNEL * Z)) : Prop :=
  exists k' s' r l, res = Some (k', r) /\ sem_inv idle k' /\ touches k k' e /\ rw_of k' e = Some s' /\
    rw_step (rw_pref E) (rw_abs k e E) o s' r l /\ rw_effect k k' e E o s' r l.

Lemma rw_ev k e E : sem_inv idle k -> K_event k !! e = Some E -> EVENT_ucType E = LW_TYPE_EVENT_SEMRW ->
  rw_ok k E (wview k e 0) (wview k e 1).
Proof.
  intros Hi HE Et. destruct (sv_ev _ _ Hi e E HE) as [H _ _|H _|H _ _|H _|H H2]; [| | | |exact H2]; by rewrite Et in H.
Qed.

Lemma rw_of_eq k e E : K_event k !! e = Some E -> EVENT_ucType E = LW_TYPE_EVENT_SEMRW -> rw_of k e = Some (rw_abs k e E).
Proof. intros H Ht. unfold rw_of. rewrite H. cbn [mbind option_bind]. by rewrite Ht. Qed.

Ltac rw_threads :=
  unfold rw_thread; repeat case_decide; simplify_eq/=; destruct_and?; try done;
  try (match goal with H : _ ∈ [] |- _ => by apply not_elem_of_nil in H end); try (exfalso; naive_solver).

(** A call that changes no control block, and one that changes that of [t]. *)
Lemma rw_effect_same k k' e E o s' r : r <> WAITING -> K_wait k' = K_wait k -> (forall x, prio k' x = prio k x) ->
  (forall x w, rw_thread (EVENT_ulOption E) (rw_abs k e E) s' o r [] x w = w) -> rw_effect k k' e E o s' r [].
Proof.
  intros Hr Hw Hp Hf. split; [done|]. split; [|done]. intros _ x. rewrite Hw. destruct (K_wait k !! x) as [w|]; [|done].
  cbn [fmap option_fmap option_map]. by rewrite Hf.
Qed.

Lemma rw_effect_one k k' e E o s' r t f : r <> WAITING -> K_wait k' = alter f t (K_wait k) -> (forall x, prio k' x = prio k x) ->
  (forall x w, rw_thread (EVENT_ulOption E) (rw_abs k e E) s' o r [] x w = if decide (x = t) then f w else w) ->
  rw_effect k k' e E o s' r [].
Proof.
  intros Hr Hw Hp Hf. split; [done|]. split; [|done]. intros _ x. rewrite Hw. destruct (decide (x = t)) as [->|Hx].
  - rewrite lookup_alter_eq. destruct (K_wait k !! t) as [w|]; [|done]. cbn [fmap option_fmap option_map]. by rewrite Hf, decide_True.
  - rewrite lookup_alter_ne by done. destruct (K_wait k !! x) as [w|]; [|done]. cbn [fmap option_fmap option_map]. by rewrite Hf, decide_False.
Qed.

Lemma rw_keep k k' e E E' : sem_inv idle k -> K_event k !! e = Some E -> EVENT_ucType E = LW_TYPE_EVENT_SEMRW ->
  kinv k' -> touches k k' e -> K_event k' !! e = Some E' -> EVENT_ucType E' = LW_TYPE_EVENT_SEMRW ->
  rw_ok k' E' (wview k' e 0) (wview k' e 1) -> sem_inv idle k'.
Proof.
  intros Hi HE Et Hk' Ht HE' Et' Hok. apply (sem_inv_step idle k k' e E E' Hi Hk' Ht HE HE').
  - by apply ev_semrw.
  - by rewrite Et, Et'.
Qed.

Lemma rw_upd k e E f : sem_inv idle k -> K_event k !! e = Some E -> EVENT_ucType E = LW_TYPE_EVENT_SEMRW ->
  EVENT_ulOption (f E) = EVENT_ulOption E -> EVENT_ucType (f E) = LW_TYPE_EVENT_SEMRW ->
  rw_ok k (f E) (wview k e 0) (wview k e 1) ->
  sem_inv idle (upd_event e f k) /\ touches k (upd_event e f k) e /\ rw_of (upd_event e f k) e = Some (rw_abs k e (f E)).
Proof.
  intros Hi HE Et Ho Et' Hok. destruct (field_step idle k e E f Hi HE Ho) as (H1 & H2 & H3 & H4).
  - by rewrite Et, Et'.
  - by apply ev_semrw.
  - split; [done|]. split; [done|]. rewrite (rw_of_eq _ e _ H3 Et'). unfold rw_abs. by rewrite !H4.
Qed.

Lemma rw_safe k t f e s : harmless_wait f -> (forall w, TCB_ucIsEventDelete (f w) = TCB_ucIsEventDelete w) ->
  sem_inv idle k -> rw_of k e = Some s ->
  sem_inv idle (upd_wait t f k) /\ touches k (upd_wait t f k) e /\ rw_of (upd_wait t f k) e = Some s.
Proof.
  intros Hf Hd Hi Hm. assert (HE : is_Some (K_event k !! e)).
  { unfold rw_of in Hm. destruct (K_event k !! e); [by eexists|done]. }
  by destruct (wait_keep idle k t f e Hf Hd HE Hi) as [H1 H2].
Qed.

(** ** Locking *)

(** The caller waits in queue [iq]. *)
Lemma rw_park k e E t iq tmo : sem_inv idle k -> K_event k !! e = Some E -> EVENT_ucType E = LW_TYPE_EVENT_SEMRW ->
  runs idle k t -> 0 <= tmo <= ULONG_MAX -> iq = 0 \/ iq = 1 -> EVENT_ulCounter E <> 0 ->
  exists k', event_pend k t e iq LW_THREAD_STATUS_SEM tmo = Some k' /\ sem_inv idle k' /\ touches k k' e /\
    parked k k' t e iq (wait_ticks tmo) /\ (forall x, prio k' x = prio k x) /\
    exists l, l ≡ₚ t :: wview k e iq /\ rw_of k' e = Some (mkRw (r_count (rw_abs k e E)) (rw_writer E)
      (if decide (iq = 0) then l else wview k e 0) (if decide (iq = 1) then l else wview k e 1)).
Proof.
  intros Hi HE Et Hr Htmo Hiq Hc.
  destruct (pend_spec idle SEMB k t e E iq tmo (sv_kern _ _ Hi) Hr HE Hiq Htmo (or_introl eq_refl)) as (k' & E1 & Hk' & Ht & He' & Hp & Hv). unfold SEMB in E1.
  assert (HE' : K_event k' !! e = Some E) by (by rewrite He').
  destruct (rw_ev k e E Hi HE Et) as (Hcr & Hst).
  exists k'. split; [done|]. split; [|split; [done|split; [done|split]]].
  - apply (rw_keep k k' e E E Hi HE Et Hk' Ht HE' Et). split; [done|].
    destruct Hst as [(H1 & H2 & H3 & _)|(H1 & H2 & H3 & u & H4 & H5)]; [left|right].
    + split; [done|]. split; [done|]. by split.
    + split; [done|]. split; [done|]. split; [done|]. exists u. split; [done|]. by apply (touches_alive k k' e).
  - intros x. apply (frame_prio k k' t). apply Hp.
  - exists (wview k' e iq). split; [apply Hp|]. rewrite (rw_of_eq k' e E HE' Et). unfold rw_abs. f_equal.
    assert (Hx : forall j, wview k' e j = if decide (iq = j) then wview k' e iq else wview k e j).
    { intros j. case_decide as Ej; [by subst|]. apply Hv. congruence. }
    by rewrite (Hx 0), (Hx 1).
Qed.

Lemma rdlock_refines k ulId E t tmo : sem_inv idle k -> _ObjectClassOK ulId _OBJECT_SEM_RW = true ->
  K_event k !! _ObjectGetIndex ulId = Some E -> EVENT_ucType E = LW_TYPE_EVENT_SEMRW ->
  rw_legal idle k E (RdLock t tmo) ->
  rw_refine k (_ObjectGetIndex ulId) E (RdLock t tmo) (rw_call k ulId (RdLock t tmo)).
Proof.
  intros Hi Hc HE Et (Hr & Htmo & Hov). destruct (handle_ok idle k ulId _ E Hi HE Et) as [Hx Hy].
  set (e := _ObjectGetIndex ulId) in *. destruct (rw_ev k e E Hi HE Et) as (Hcr & Hst).
  unfold rw_call, API_SemaphoreRWPendR, call, rwr_wait_again. cbn [LW_CPU_GET_CUR_NESTING LW_SYS_STATUS_IS_RUNNING LW_TCB_GET_CUR].
  change (negb (0 =? 0)) with false. cbv iota. fold e. rewrite Hc, Hx. cbn [negb]. cbv iota.
  rewrite Hy. cbn [mbind option_bind]. rewrite HE. cbn [mbind option_bind].
  change EVENT_RW_Q_W with 1. change EVENT_RW_Q_R with 0. rewrite (waitnum idle SEMB) by apply Hi.
  pose proof (rw_of_eq k e E HE Et) as Hsame.
  destruct ((EVENT_iStatus E =? EVENT_RW_STATUS_R) && bool_decide (wview k e 1 = [])) eqn:Eg.
  - apply andb_true_iff in Eg as [Es%Z.eqb_eq Eq%bool_decide_eq_true_1].
    destruct Hst as [(_ & Eo & Ep & Hq)|(H1 & _)]; [|by rewrite Es in H1].
    destruct (rw_upd k e E (rw_count 1) Hi HE Et) as (H1 & H2 & H3); try done.
    { unfold rw_ok. simpl. rewrite wrap64_small by lia. split; [lia|]. left.
      split; [done|]. split; [done|]. split; [done|]. intros ?. lia. }
    rewrite safe_enter_eq.
    destruct (rw_safe _ t (safe_wait (EVENT_ulOption E)) e _ (safe_harmless _) (safe_mark _) H1 H3) as (H4 & H5 & H6).
    eexists _, _, ERROR_NONE, []. split; [done|]. split; [exact H4|]. split; [by eapply touches_trans|].
    split; [exact H6|]. split; [|by apply (rw_effect_one k _ e E _ _ _ t (safe_wait (EVENT_ulOption E))); [| | |intros x w; rw_threads]]. unfold rw_abs at 2. simpl. rewrite Es. simpl.
    rewrite wrap64_small by lia. unfold rw_writer. simpl. rewrite Eo, Eq. simpl.
    replace (EVENT_ulCounter E) with (r_count (rw_abs k e E)) by (simpl; by rewrite Es).
    apply (rw_read (rw_pref E) (rw_abs k e E) t tmo); simpl; [unfold rw_writer; by rewrite Eo|done].
  - assert (Hb : rd_busy (rw_abs k e E)).
    { unfold rd_busy, rw_writer. simpl. destruct Hst as [(Es & Eo & _)|(_ & _ & _ & u & Eo & _)].
      - right. intros Eq. by rewrite Es, bool_decide_eq_true_2 in Eg.
      - left. unfold rw_writer. by rewrite Eo. }
    destruct (Z.eqb_spec tmo LW_OPTION_NOT_WAIT) as [->|Hnw].
    { exists k, (rw_abs k e E), ERROR_THREAD_WAIT_TIMEOUT, []. split; [done|]. split; [done|]. split; [apply touches_refl|].
      split; [done|]. split; [by apply rw_rpoll|by apply rw_effect_same; [| | |intros x w; rw_threads]]. }
    assert (Hcn : EVENT_ulCounter E <> 0).
    { intros E0. destruct Hst as [(_ & Eo & _ & Hq)|(_ & H2 & _)]; [|by rewrite H2 in E0].
      destruct (Hq E0) as [_ Hq1]. destruct Hb as [Hb|Hb]; [|done]. apply Hb. simpl. unfold rw_writer. by rewrite Eo. }
    destruct (rw_park k e E t 0 tmo Hi HE Et Hr Htmo ltac:(by left) Hcn) as (k' & E1 & Hi' & Ht & Hp & Hpr & l & Hl & Hs').
    rewrite E1. cbn [mbind option_bind].
    eexists k', _, WAITING, []. split; [done|]. split; [done|]. split; [done|]. split; [exact Hs'|].
    split; [|by split]. by apply (rw_rwait (rw_pref E) (rw_abs k e E) t tmo l).
Qed.

Lemma wrlock_refines k ulId E t tmo : sem_inv idle k -> _ObjectClassOK ulId _OBJECT_SEM_RW = true ->
  K_event k !! _ObjectGetIndex ulId = Some E -> EVENT_ucType E = LW_TYPE_EVENT_SEMRW ->
  rw_legal idle k E (WrLock t tmo) ->
  rw_refine k (_ObjectGetIndex ulId) E (WrLock t tmo) (rw_call k ulId (WrLock t tmo)).
Proof.
  intros Hi Hc HE Et (Hr & Htmo). destruct (handle_ok idle k ulId _ E Hi HE Et) as [Hx Hy].
  pose proof (runs_alive idle k t (sv_kern _ _ Hi) Hr) as Hal.
  set (e := _ObjectGetIndex ulId) in *. destruct (rw_ev k e E Hi HE Et) as (Hcr & Hst).
  unfold rw_call, API_SemaphoreRWPendW, call, rww_wait_again. cbn [LW_CPU_GET_CUR_NESTING LW_SYS_STATUS_IS_RUNNING LW_TCB_GET_CUR].
  change (negb (0 =? 0)) with false. cbv iota. fold e. rewrite Hc, Hx. cbn [negb]. cbv iota.
  rewrite Hy. cbn [mbind option_bind]. rewrite HE. cbn [mbind option_bind].
  change EVENT_RW_Q_W with 1. pose proof (rw_of_eq k e E HE Et) as Hsame.
  destruct (Z.eqb_spec (EVENT_ulCounter E) 0) as [E0|E0].
  - destruct Hst as [(Es & Eo & Ep & Hq)|(_ & H2 & _)]; [|by rewrite H2 in E0].
    destruct (rw_upd k e E (fun E => rw_mode (Some t) EVENT_RW_STATUS_W (rw_count 1 E)) Hi HE Et) as (H1 & H2 & H3); try done.
    { unfold rw_ok. simpl. rewrite E0. split; [by vm_compute|]. right. split; [done|]. split; [done|].
      split; [rewrite Ep; by vm_compute|]. by exists t. }
    rewrite safe_enter_eq.
    destruct (rw_safe _ t (safe_wait (EVENT_ulOption E)) e _ (safe_harmless _) (safe_mark _) H1 H3) as (H4 & H5 & H6).
    eexists _, _, ERROR_NONE, []. split; [done|]. split; [exact H4|]. split; [by eapply touches_trans|].
    split; [exact H6|].
    assert (Hrw : r_writer (rw_abs k e E) = None) by (simpl; unfold rw_writer; by rewrite Eo).
    split; [|by apply (rw_effect_one k _ e E _ _ _ t (safe_wait (EVENT_ulOption E))); [| | |intros x w; rw_threads]]. unfold rw_abs at 2. simpl. unfold rw_writer. simpl. rewrite Ep.
    apply (rw_write (rw_pref E) (rw_abs k e E) t tmo); simpl; [unfold rw_writer; by rewrite Eo|by rewrite Es].
  - destruct (decide (EVENT_pvTcbOwn E = Some t)) as [Eo|Eo].
    + rewrite bool_decide_eq_true_2 by done.
      destruct Hst as [(_ & Eo' & _)|(Es & E1 & Hp & Hown)]; [by rewrite Eo in Eo'|].
      destruct (rw_upd k e E (set_EVENT_pvPtr (EVENT_pvPtr E +64 1)) Hi HE Et) as (H1 & H2 & H3); try done.
      { split; [done|]. right. split; [done|]. split; [done|].
        split; [simpl; pose proof (wrap_range 64 (EVENT_pvPtr E + 1)); unfold ULONG_MAX; lia|done]. }
      eexists _, _, ERROR_NONE, []. split; [done|]. split; [exact H1|]. split; [done|]. split; [exact H3|].
      assert (Hrw : r_writer (rw_abs k e E) <> None) by (simpl; unfold rw_writer; by rewrite Eo).
      split; [|by apply rw_effect_same; [| | |intros x w; rw_threads]]. unfold rw_abs at 2. simpl. rewrite Es. simpl. unfold rw_writer. simpl. rewrite Eo. simpl.
      pose proof (rw_again (rw_pref E) (rw_abs k e E) t tmo (EVENT_pvPtr E)) as Hstep.
      assert (Ec0 : r_count (rw_abs k e E) = 0) by (simpl; by rewrite Es). rewrite Ec0 in Hstep.
      apply Hstep. simpl. unfold rw_writer. by rewrite Eo.
    + rewrite bool_decide_eq_false_2 by done.
      assert (Hb : wr_busy (rw_abs k e E) t).
      { unfold wr_busy. simpl. unfold rw_writer. destruct Hst as [(Es & Eo' & _)|(_ & _ & _ & u & Eo' & _)].
        - left. by rewrite Es, Eo'.
        - right. rewrite Eo'. exists u, (EVENT_pvPtr E). split; [done|]. intros ->. done. }
      destruct (Z.eqb_spec tmo LW_OPTION_NOT_WAIT) as [->|Hnw].
      { exists k, (rw_abs k e E), ERROR_THREAD_WAIT_TIMEOUT, []. split; [done|]. split; [done|]. split; [apply touches_refl|].
        split; [done|]. split; [by apply rw_wpoll|by apply rw_effect_same; [| | |intros x w; rw_threads]]. }
      destruct (rw_park k e E t 1 tmo Hi HE Et Hr Htmo ltac:(by right) E0) as (k' & E1 & Hi' & Ht & Hp & Hpr & l & Hl & Hs').
      rewrite E1. cbn [mbind option_bind].
      eexists k', _, WAITING, []. split; [done|]. split; [done|]. split; [done|]. split; [exact Hs'|].
      split; [|by split]. by apply (rw_wwait (rw_pref E) (rw_abs k e E) t tmo l).
Qed.

(** ** Unlocking *)

Lemma iter_count n E : 0 <= EVENT_ulCounter E -> EVENT_ulCounter E + Z.of_nat n <= ULONG_MAX ->
  Nat.iter n (rw_count 1) E = set_EVENT_ulCounter (EVENT_ulCounter E + Z.of_nat n) E.
Proof.
  intros H0. induction n as [|n IH]; intros Hn.
  - rewrite Z.add_0_r. by destruct E.
  - change (Nat.iter (S n) (rw_count 1) E) with (rw_count 1 (Nat.iter n (rw_count 1) E)). rewrite IH by lia. unfold rw_count. simpl. rewrite wrap64_small by lia. unfold set_EVENT_ulCounter. simpl. f_equal. lia.
Qed.

Lemma nobody_in k x opt : K_wait k !! x = (fun w => if decide (x ∈ []) then safe_wait opt (wake_wait LW_NULL w) else w) <$> K_wait k !! x.
Proof. destruct (K_wait k !! x) as [w|]; [|done]. cbn [fmap option_fmap option_map]. by rewrite decide_False by apply not_elem_of_nil. Qed.

(** The end of every unlocking: the caller leaves the safe mode. *)
Lemma rw_leave_safe k k1 e E t s l : runs idle k t -> sem_inv idle k -> sem_inv idle k1 -> touches k k1 e ->
  rw_of k1 e = Some s -> rw_step (rw_pref E) (rw_abs k e E) (RwUnlock t) s ERROR_NONE l ->
  (forall x, prio k1 x = prio k x) -> t ∉ l -> fst <$> r_writer s <> Some t ->
  (forall x, K_wait k1 !! x = (fun w => if decide (x ∈ l) then safe_wait (EVENT_ulOption E) (wake_wait LW_NULL w) else w) <$> K_wait k !! x) ->
  rw_refine k e E (RwUnlock t) (k2 ← safe_leave k1 (EVENT_ulOption E) t; Some (k2, ERROR_NONE)).
Proof.
  intros Hr Hi Hi1 Ht Hs Hst Hp Htl Hws Hw. pose proof (runs_alive idle k t (sv_kern _ _ Hi) Hr) as Hal.
  rewrite safe_leave_eq by (by apply (touches_alive k k1 e)). cbn [mbind option_bind].
  destruct (rw_safe k1 t (unsafe_wait (EVENT_ulOption E)) e s (unsafe_harmless _) (unsafe_mark _) Hi1 Hs) as (H1 & H2 & H3).
  eexists _, s, ERROR_NONE, l. split; [done|]. split; [exact H1|]. split; [by eapply touches_trans|]. split; [done|].
  split; [done|]. split; [done|]. split; [|done]. intros _ x. rewrite lookup_upd_wait, Hw.
  destruct (K_wait k !! x) as [w|]; [|by case_decide]. unfold rw_thread. cbn [fmap option_fmap option_map].
  destruct (decide (x = t)) as [->|Hx]; cbn [fmap option_fmap option_map].
  - rewrite !(decide_False (P := t ∈ l)) by done. by rewrite decide_True.
  - case_decide; [done|]. rewrite decide_False; [done|]. naive_solver.
Qed.

Lemma release_to_writer k e E t u l ign : sem_inv idle k -> K_event k !! e = Some E ->
  EVENT_ucType E = LW_TYPE_EVENT_SEMRW -> runs idle k t -> EVENT_ulCounter E = 1 -> EVENT_pvPtr E = 0 ->
  wview k e 1 = u :: l -> ign = false -> last_out (rw_abs k e E) t ->
  (r_writer (rw_abs k e E) <> None \/ rw_pref E = true \/ r_rq (rw_abs k e E) = []) ->
  rw_refine k e E (RwUnlock t) (rw_release k t e E ign).
Proof.
  intros Hi HE Et Hr Hc Hp Ev -> Hlo Hpref. pose proof (sv_kern _ _ Hi) as Hk.
  assert (Htu : t <> u) by (intros ->; apply (runs_not_waiting idle k u e 1 Hk Hr); rewrite Ev; left).
  unfold rw_release. change EVENT_RW_Q_W with 1. rewrite (waitnum idle SEMB), bool_decide_eq_false_2 by (try done; by rewrite Ev).
  cbn [negb andb]. cbv iota.
  destruct (ready_spec idle SEMB k e E 1 u l LW_NULL LW_SCHED_ACT_INTERRUPT Hk HE Ev) as (k1 & E1 & Hk1 & Ht1 & He1 & Hv1 & Hw1). unfold SEMB in E1.
  rewrite E1. cbn [mbind option_bind].
  assert (HE1 : K_event k1 !! e = Some E) by (by rewrite He1).
  set (k2 := upd_event e (rw_mode (Some u) EVENT_RW_STATUS_W) k1).
  assert (HE2 : K_event k2 !! e = Some (rw_mode (Some u) EVENT_RW_STATUS_W E)) by (by apply lookup_upd).
  assert (Hk2 : kinv k2) by (by apply kern_inv_event).
  assert (Ht2 : touches k k2 e) by (eapply touches_trans; [exact Ht1|apply touches_upd]).
  assert (Hv2 : forall iq, wview k2 e iq = if decide (iq = 1) then l else wview k e iq) by (intros; unfold k2; by rewrite wview_upd).
  assert (Hau : alive k u) by (apply (wview_waiting idle SEMB _ k e 1 u (proj1 Hk)); rewrite Ev; left).
  assert (Hi2 : sem_inv idle k2).
  { apply (rw_keep k k2 e E _ Hi HE Et Hk2 Ht2 HE2 Et). unfold rw_ok. simpl. rewrite Hc, Hp.
    split; [by vm_compute|]. right. split; [done|]. split; [done|]. split; [by vm_compute|].
    exists u. split; [done|]. by apply (touches_alive k k2 e). }
  assert (Hs2 : rw_of k2 e = Some (mkRw 0 (Some (u, 0)) (wview k e 0) l)).
  { rewrite (rw_of_eq k2 e _ HE2 Et). unfold rw_abs, rw_writer. rewrite !Hv2. simpl. by rewrite Hp. }
  rewrite safe_enter_eq.
  destruct (rw_safe k2 u (safe_wait (EVENT_ulOption E)) e _ (safe_harmless _) (safe_mark _) Hi2 Hs2) as (Hi3 & Ht3 & Hs3).
  apply (rw_leave_safe k _ e E t (mkRw 0 (Some (u, 0)) (wview k e 0) l) [u] Hr Hi Hi3);
    [by eapply touches_trans|exact Hs3|by apply rw_to_writer| |by intros ?%list_elem_of_singleton|simpl; congruence|].
  - intros x. exact (wo_prio _ _ _ _ Hw1 x).
  - intros x. rewrite lookup_upd_wait. change (K_wait k2 !! x) with (K_wait k1 !! x). rewrite (wo_wait _ _ _ _ Hw1).
    case_decide as Hx; [subst x|]; case_decide as Hin; simpl;
      try (rewrite list_elem_of_singleton in Hin; congruence); destruct (K_wait k !! _) as [w|]; try done; simpl.
Qed.

Lemma release_to_readers k e E t ign : sem_inv idle k -> K_event k !! e = Some E ->
  EVENT_ucType E = LW_TYPE_EVENT_SEMRW -> runs idle k t -> EVENT_ulCounter E = 1 -> EVENT_pvPtr E = 0 ->
  wview k e 0 <> [] -> (wview k e 1 = [] \/ ign = true) -> last_out (rw_abs k e E) t ->
  (r_wq (rw_abs k e E) = [] \/ (r_writer (rw_abs k e E) = None /\ rw_pref E = false)) ->
  rw_refine k e E (RwUnlock t) (rw_release k t e E ign).
Proof.
  intros Hi HE Et Hr Hc Hp Ev Hign Hlo Hpref. pose proof (sv_kern _ _ Hi) as Hk.
  unfold rw_release. change EVENT_RW_Q_W with 1. change EVENT_RW_Q_R with 0. rewrite !(waitnum idle SEMB) by done.
  assert (Eg : negb (bool_decide (wview k e 1 = [])) && negb ign = false).
  { destruct Hign as [-> | ->]; [by rewrite bool_decide_eq_true_2|by rewrite andb_false_r]. }
  rewrite Eg, bool_decide_eq_false_2 by done. cbn [negb]. cbv iota.
  set (k1 := upd_event e (rw_count (-1)) k).
  assert (HE1 : K_event k1 !! e = Some (rw_count (-1) E)) by (by apply lookup_upd).
  assert (Hv1 : forall iq, wview k1 e iq = wview k e iq) by (intros; by apply wview_upd).
  assert (Hk1 : kinv k1) by (by apply kern_inv_event).
  change EVENT_RW_Q_R with 0. rewrite readers_loop_eq, (waitnum_length idle SEMB), Nat2Z.id, Hv1 by done. change EVENT_RW_Q_R with 0.
  destruct (wake_loop_spec idle SEMB (rw_count 1) (safe_wait (EVENT_ulOption E)) e 0 (fun _ => eq_refl) (safe_harmless _))
    with (n := S (length (wview k e 0))) (k := k1) (E := rw_count (-1) E) as (k2 & E2 & Hk2 & Ht2 & HE2 & Hv2 & Hw2);
    [done|done|rewrite Hv1; lia|]. unfold SEMB in E2. rewrite Hv1 in *. rewrite E2. cbn [mbind option_bind].
  pose proof (wview_room' idle SEMB _ k e 0 (proj1 Hk)) as Hroom.
  assert (Ec1 : EVENT_ulCounter (rw_count (-1) E) = 0) by (simpl; by rewrite Hc).
  rewrite iter_count, Ec1 in HE2 by (unfold ULONG_MAX; lia).
  set (k3 := upd_event e (rw_mode None EVENT_RW_STATUS_R) k2).
  assert (HE3 : K_event k3 !! e = Some (rw_mode None EVENT_RW_STATUS_R
     (set_EVENT_ulCounter (0 + Z.of_nat (length (wview k e 0))) (rw_count (-1) E)))) by (by apply lookup_upd).
  assert (Hk3 : kinv k3) by (by apply kern_inv_event).
  assert (Ht3 : touches k k3 e).
  { eapply touches_trans; [apply (touches_upd k e (rw_count (-1)))|]. eapply touches_trans; [exact Ht2|apply touches_upd]. }
  assert (Hv3 : forall iq, wview k3 e iq = if decide (iq = 0) then [] else wview k e iq).
  { intros iq. unfold k3. rewrite wview_upd by done. by rewrite Hv2, Hv1. }
  assert (Hi3 : sem_inv idle k3).
  { apply (rw_keep k k3 e E _ Hi HE Et Hk3 Ht3 HE3 Et). rewrite !Hv3. unfold rw_ok. simpl.
    split; [unfold ULONG_MAX; lia|]. left. split; [done|]. split; [done|]. split; [done|].
    intros E0. destruct (wview k e 0); [done|]. simpl in E0. lia. }
  assert (Hs3 : rw_of k3 e = Some (mkRw (Z.of_nat (length (wview k e 0))) None [] (wview k e 1))).
  { rewrite (rw_of_eq k3 e _ HE3 Et). unfold rw_abs. by rewrite !Hv3. }
  apply (rw_leave_safe k k3 e E t _ (wview k e 0) Hr Hi Hi3 Ht3 Hs3); [by apply rw_to_readers| | |done|].
  - intros x. exact (wo_prio _ _ _ _ Hw2 x).
  - by apply (runs_not_waiting idle k t e 0 Hk Hr).
  - intros x. change (K_wait k3 !! x) with (K_wait k2 !! x). rewrite (wo_wait _ _ _ _ Hw2).
    change (K_wait k1 !! x) with (K_wait k !! x).
    destruct (K_wait k !! x) as [w|]; cbn [fmap option_fmap option_map]; by repeat case_decide.
Qed.

Lemma release_to_free k e E t ign : sem_inv idle k -> K_event k !! e = Some E ->
  EVENT_ucType E = LW_TYPE_EVENT_SEMRW -> runs idle k t -> EVENT_ulCounter E = 1 -> EVENT_pvPtr E = 0 ->
  wview k e 0 = [] -> wview k e 1 = [] -> last_out (rw_abs k e E) t ->
  rw_refine k e E (RwUnlock t) (rw_release k t e E ign).
Proof.
  intros Hi HE Et Hr Hc Hp E0 E1 Hlo. pose proof (sv_kern _ _ Hi) as Hk.
  unfold rw_release. change EVENT_RW_Q_W with 1. change EVENT_RW_Q_R with 0. rewrite !(waitnum idle SEMB), E0, E1 by done.
  rewrite !bool_decide_eq_true_2 by done. cbn [negb andb]. cbv iota.
  destruct (rw_upd k e E (fun E => rw_mode None EVENT_RW_STATUS_R (rw_count (-1) E)) Hi HE Et) as (H1 & H2 & H3); try done.
  { rewrite E0, E1. unfold rw_ok. simpl. rewrite Hc. split; [by vm_compute|]. left. by split. }
  apply (rw_leave_safe k _ e E t _ [] Hr Hi H1 H2 H3); [|done|by apply not_elem_of_nil|done|intros x; exact (nobody_in k x (EVENT_ulOption E))].
  unfold rw_abs at 2. simpl. rewrite Hc, E0, E1. by apply rw_to_free.
Qed.

Lemma rw_release_refines k e E t ign : sem_inv idle k -> K_event k !! e = Some E ->
  EVENT_ucType E = LW_TYPE_EVENT_SEMRW -> runs idle k t -> EVENT_ulCounter E = 1 -> EVENT_pvPtr E = 0 ->
  last_out (rw_abs k e E) t ->
  ign = bool_decide (EVENT_pvTcbOwn E = None) && negb (rw_pref E) && bool_decide (wview k e 0 <> []) ->
  rw_refine k e E (RwUnlock t) (rw_release k t e E ign).
Proof.
  intros Hi HE Et Hr Hc Hp Hlo Hign.
  assert (Hw : r_writer (rw_abs k e E) = None <-> EVENT_pvTcbOwn E = None).
  { simpl. unfold rw_writer. by destruct (EVENT_pvTcbOwn E). }
  destruct (decide (wview k e 1 = [])) as [E1|E1].
  - destruct (decide (wview k e 0 = [])) as [E0|E0]; [by apply release_to_free|].
    apply release_to_readers; try done; by left.
  - destruct ign eqn:Ei.
    + symmetry in Hign. apply andb_true_iff in Hign as [[H1%bool_decide_eq_true_1 H2%negb_true_iff]%andb_true_iff H3%bool_decide_eq_true_1].
      apply release_to_readers; try done; [by right|]. right. split; [by apply Hw|done].
    + destruct (wview k e 1) as [|u l] eqn:Ev; [done|]. apply (release_to_writer k e E t u l); try done.
      destruct (decide (EVENT_pvTcbOwn E = None)) as [Ho|Ho]; [|left; by rewrite Hw]. right.
      destruct (rw_pref E); [by left|right]. simpl. rewrite (bool_decide_eq_true_2 (_ = None)) in Hign by done.
      cbn [andb negb] in Hign. symmetry in Hign. apply bool_decide_eq_false_1 in Hign. by apply dec_stable.
Qed.

Lemma rwunlock_refines k ulId E t : sem_inv idle k -> _ObjectClassOK ulId _OBJECT_SEM_RW = true ->
  K_event k !! _ObjectGetIndex ulId = Some E -> EVENT_ucType E = LW_TYPE_EVENT_SEMRW -> runs idle k t ->
  rw_refine k (_ObjectGetIndex ulId) E (RwUnlock t) (rw_call k ulId (RwUnlock t)).
Proof.
  intros Hi Hc HE Et Hr. destruct (handle_ok idle k ulId _ E Hi HE Et) as [Hx Hy].
  set (e := _ObjectGetIndex ulId) in *. destruct (rw_ev k e E Hi HE Et) as (Hcr & Hst).
  unfold rw_call, API_SemaphoreRWPost, call. cbn [LW_CPU_GET_CUR_NESTING LW_SYS_STATUS_IS_RUNNING LW_TCB_GET_CUR].
  change (negb (0 =? 0)) with false. cbv iota. fold e. rewrite Hc, Hx. cbn [negb]. cbv iota.
  rewrite Hy. cbn [mbind option_bind]. rewrite HE. cbn [mbind option_bind].
  change EVENT_RW_Q_R with 0. rewrite (waitnum idle SEMB) by apply Hi. pose proof (rw_of_eq k e E HE Et) as Hsame.
  assert (Hbad : rw_step (rw_pref E) (rw_abs k e E) (RwUnlock t) (rw_abs k e E) ERROR_EVENT_NOT_OWN [] ->
    rw_refine k e E (RwUnlock t) (Some (k, ERROR_EVENT_NOT_OWN))).
  { intros H. exists k, (rw_abs k e E), ERROR_EVENT_NOT_OWN, []. split; [done|]. split; [done|]. split; [apply touches_refl|].
    split; [done|]. split; [done|]. apply rw_effect_same; [done|done|done|intros x w; rw_threads]. }
  destruct Hst as [(Es & Eo & Ep & Hq)|(Es & E1 & Hp & u & Eo & Hau)].
  - assert (Hw : rw_writer E = None) by (unfold rw_writer; by rewrite Eo).
    destruct (Z.eqb_spec (EVENT_ulCounter E) 0) as [E0|E0].
    { apply Hbad. apply rw_bad. left. simpl. by rewrite Es. }
    rewrite Es. change (EVENT_RW_STATUS_R =? EVENT_RW_STATUS_R) with true. cbv iota.
    destruct (Z.ltb_spec 1 (EVENT_ulCounter E)) as [Hgt|Hle].
    + destruct (rw_upd k e E (rw_count (-1)) Hi HE Et) as (H1 & H2 & H3); try done.
      { unfold rw_ok. simpl. rewrite wrap64_small by lia. split; [lia|]. left. split; [done|]. split; [done|]. split; [done|]. lia. }
      apply (rw_leave_safe k _ e E t _ [] Hr Hi H1 H2 H3);
        [|done|by apply not_elem_of_nil|by simpl; unfold rw_writer; simpl; rewrite Eo|intros x; exact (nobody_in k x (EVENT_ulOption E))].
      unfold rw_abs at 2. simpl. rewrite Es. simpl. rewrite wrap64_small by lia. unfold rw_writer at 1. simpl. rewrite Eo. simpl.
      pose proof (rw_leave (rw_pref E) (rw_abs k e E) t) as Hstep. simpl in Hstep. rewrite Es in Hstep. by apply Hstep.
    + apply (rw_release_refines k e E t); try done; [lia| |].
      * right. simpl. rewrite Es. split; [done|]. simpl. lia.
      * rewrite Eo. unfold rw_pref. rewrite (bool_decide_eq_true_2 (None = None)) by done. cbn [andb]. f_equal.
        destruct (decide (wview k e 0 = [])) as [->|Hne]; [done|]. by rewrite bool_decide_eq_false_2, bool_decide_eq_true_2.
  - rewrite E1. change (1 =? 0) with false. cbv iota. rewrite Es. change (EVENT_RW_STATUS_W =? EVENT_RW_STATUS_R) with false. cbv iota.
    assert (Hw : rw_writer E = Some (u, EVENT_pvPtr E)) by (unfold rw_writer; by rewrite Eo). rewrite Eo.
    destruct (decide (u = t)) as [->|Hne].
    2: { rewrite bool_decide_eq_false_2 by congruence. cbn [negb]. apply Hbad, rw_bad. right. by exists u, (EVENT_pvPtr E). }
    rewrite bool_decide_eq_true_2 by done. cbn [negb].
    destruct (Z.eqb_spec (EVENT_pvPtr E) 0) as [Ep|Ep]; cbn [negb].
    + apply (rw_release_refines k e E t); try done.
      * left. simpl. by rewrite Hw, Ep.
      * by rewrite Eo.
    + destruct (rw_upd k e E (set_EVENT_pvPtr (EVENT_pvPtr E -64 1)) Hi HE Et) as (H1 & H2 & H3); try done.
      { split; [done|]. right. split; [done|]. split; [done|].
        split; [simpl; pose proof (wrap_range 64 (EVENT_pvPtr E - 1)); unfold ULONG_MAX; lia|by exists t]. }
      eexists _, _, ERROR_NONE, []. split; [done|]. split; [exact H1|]. split; [done|]. split; [exact H3|].
      split; [|apply rw_effect_same; [done|done|done|]].
      2: { assert (Hws : fst <$> rw_writer (set_EVENT_pvPtr (EVENT_pvPtr E -64 1) E) = Some t) by (unfold rw_writer; simpl; by rewrite Eo).
           intros x w. rw_threads. }
      unfold rw_abs at 2. simpl. rewrite Es. simpl. unfold rw_writer. simpl. rewrite Eo. simpl. rewrite wrap64_small by lia.
      pose proof (rw_less (rw_pref E) (rw_abs k e E) t (EVENT_pvPtr E) Hw Ep) as Hstep.
      simpl in Hstep. rewrite Es in Hstep. exact Hstep.
Qed.

(** ** Deletion *)

Lemma API_SemaphoreRWDelete_ok k c ulId E : sem_inv idle k -> LW_CPU_GET_CUR_NESTING c = 0 ->
  _ObjectClassOK ulId _OBJECT_SEM_RW = true -> K_event k !! _ObjectGetIndex ulId = Some E ->
  EVENT_ucType E = LW_TYPE_EVENT_SEMRW ->
  exists k', API_SemaphoreRWDelete k c ulId = Some (k', ERROR_NONE, LW_OBJECT_HANDLE_INVALID) /\
    sem_inv idle k' /\ deleted k k' (_ObjectGetIndex ulId).
Proof.
  intros Hi Hc Hcl HE Et. unfold API_SemaphoreRWDelete. rewrite Hc. change (negb (0 =? 0)) with false. cbv iota.
  rewrite (event_check_ok idle k ulId _ _ E Hi Hcl HE Et). cbn [mbind option_bind].
  change (negb (ERROR_NONE =? ERROR_NONE)) with false. cbv iota. set (e := _ObjectGetIndex ulId) in *.
  destruct (rw_ev k e E Hi HE Et) as (_ & Hst). pose proof (sv_kern _ _ Hi) as Hk.
  destruct (dying_spec idle SEMB k e E Hk HE) as (k1 & E1 & Hk1 & Ht1 & HE1 & Hv1 & Hw1).
  unfold SEMB in E1. change EVENT_RW_Q_R with 0. change EVENT_RW_Q_W with 1. rewrite E1. cbn [mbind option_bind].
  destruct (dying_both idle SEMB k k1 e _ Hk Hk1 HE1 Ht1 Hv1 Hw1) as (k2 & E2 & Hk2 & Ht12 & HE2 & Hv20 & Hv21 & Htold2).
  unfold SEMB in E2. rewrite E2. cbn [mbind option_bind]. rewrite HE2. cbn [mbind option_bind].
  cbn [set_EVENT_ucType EVENT_pvTcbOwn EVENT_ulOption].
  destruct (disown_spec idle SEMB k k2 e _ Hk2 Ht12 HE2) as (Hk3 & Ht3 & HE3 & Hv3). set (k3 := upd_event e _ k2) in *.
  assert (Hty : EVENT_ucType E <> LW_TYPE_EVENT_UNUSED) by (by rewrite Et).
  assert (Htold : all_told k k3 e) by done.
  assert (H30 : wview k3 e 0 = [] /\ wview k3 e 1 = []) by (by rewrite !Hv3).
  destruct (deleted_intro idle k k3 e E _ Hi HE Hty Hk3 Ht3 HE3) as [H1 H2]; try done; [by apply H30|by apply H30|].
  change (set_resrc _ k3) with (freed k3 e).
  destruct Hst as [(_ & Eo & _)|(_ & _ & _ & o & Eo & Hao)]; rewrite Eo; cbn [mbind option_bind].
  - exists (freed k3 e). by split.
  - rewrite safe_leave_eq. 2: { apply (touches_alive k k3 e) in Hao; [|done]. exact Hao. }
    cbn [mbind option_bind]. destruct (deleted_safe idle k _ e o (EVENT_ulOption E) H1 H2) as [H5 H6].
    by eexists.
Qed.

(** C23: read and write locking and unlocking refine the abstract read-write semaphore.
    On a consistent kernel every call of a running thread ends without an undefined
    access and does exactly the abstract step: readers enter together unless a
    writer is in or waits, a writer enters alone, the writer locks again level by
    level, everybody else polls or waits in the queue of the readers or of the
    writers; only the writer unlocks its lock; the last one out admits the first
    writer or all waiting readers, as the option says, or frees it.  Who gets in counts one more
    safe level and who gets out one less, if the semaphore is safe for deletion; the waits of the
    admitted threads end, no other control block and nobody's priority changes, no other event is
    touched, and the invariant is kept. *)
Theorem rw_refines k ulId E o : sem_inv idle k -> _ObjectClassOK ulId _OBJECT_SEM_RW = true ->
  K_event k !! _ObjectGetIndex ulId = Some E -> EVENT_ucType E = LW_TYPE_EVENT_SEMRW -> rw_legal idle k E o ->
  rw_refine k (_ObjectGetIndex ulId) E o (rw_call k ulId o).
Proof.
  intros Hi Hc HE Et Hl. destruct o as [t tmo|t tmo|t].
  - by apply rdlock_refines.
  - by apply wrlock_refines.
  - by apply rwunlock_refines.
Qed.
End Rw.

Lemma rw_refines_witness :
  exists E, (sem_inv id demo_sys /\ rw_legal id demo_sys E (WrLock 20 LW_OPTION_WAIT_INFINITE)) /\
    K_event demo_sys !! 3 = Some E /\
    rw_refine id demo_sys 3 E (WrLock 20 LW_OPTION_WAIT_INFINITE) (rw_call demo_sys semrw_id (WrLock 20 LW_OPTION_WAIT_INFINITE)).
Proof.
  assert (Ex : K_event demo_sys !! 3 = Some (mkEvent LW_TYPE_EVENT_SEMRW None 0 0 0 0 0 0)) by (by vm_compute).
  eexists.
  assert (Hl : rw_legal id demo_sys (mkEvent LW_TYPE_EVENT_SEMRW None 0 0 0 0 0 0) (WrLock 20 LW_OPTION_WAIT_INFINITE)).
  { split; [|by vm_compute]. apply demo_runs. by vm_compute. }
  split; [split; [exact demo_sys_inv|exact Hl]|]. split; [exact Ex|].
  exact (rw_refines id demo_sys semrw_id _ (WrLock 20 LW_OPTION_WAIT_INFINITE) demo_sys_inv eq_refl Ex eq_refl Hl).
Defined.

