(* ===== verification/System.v ===== *)
(** * The system as a whole

    All services of the semaphores, the tick of the thread timer and the scheduler run
    against one kernel state, in any order and with any handle.  The file shows that no
    sequence of legal calls reaches an undefined access or breaks the invariant, why
    threads wait, and what a waiting call returns after each kind of step. *)

From S2P Require Import Prelude Lists Bitmap Sched SchedSpec Object Wakeup Kernel Event EventSpec Boot TickSpec Semaphore Mutex SemSpec LifeSpec SemRefine MutexSpec RwSpec.

(** ** Scheduler steps that change no thread *)

Section Quiet.
Context (idle : Z -> Z).

(** A reselection, a yield, a tick of the time slices, a scheduling point. *)
Definition quiet (e : event) : Prop :=
  match e with EvUpdate _ | EvYield _ | EvTick | EvSchedule _ => True | _ => False end.

Lemma update_quiet s i s' : sys_inv idle s -> cpu_id s i -> exec s (EvUpdate i) = Some s' -> same_attrs s s'.
Proof.
  intros Hi Hid E. destruct (exec_update idle s i Hi Hid) as (s1 & c & E1 & _ & _ & (c' & t & T & Hok & _)).
  rewrite E1 in E. injection E as <-. apply (proj1 (proj2 Hok)).
Qed.

Lemma ticks_quiet ids s s' : sched_ticks ids s = Some s' -> same_attrs s s'.
Proof.
  revert s. induction ids as [|i ids IH]; intros s; cbn [sched_ticks]; [intros [= <-]; apply same_attrs_refl|].
  unfold sched_tick1. destruct (cpus s !! i) as [c|]; [|done]. cbn [mbind option_bind].
  destruct (CPU_bActive c); cbn [mbind option_bind]; [|apply IH].
  destruct (tcbs s !! CPU_ptcbTCBCur c) as [T|]; [|done]. cbn [mbind option_bind].
  destruct (TCB_ucSchedPolicy T =? LW_OPTION_SCHED_RR); cbn [mbind option_bind]; [|apply IH].
  destruct (TCB_usSchedCounter T =? 0); cbn [mbind option_bind]; intros H; apply IH in H; (eapply same_attrs_trans; [|exact H]).
  - by split.
  - by apply same_attrs_upd_tcb.
Qed.

Lemma exec_quiet s e s' : sys_inv idle s -> event_ok idle s e -> quiet e -> exec s e = Some s' -> same_attrs s s'.
Proof.
  intros Hi Hok Hq E. destruct e as [t|t st|t p|i|t| |i]; try done.
  - by apply (update_quiet s i).
  - simpl in E. unfold _SchedYield in E. destruct (tcbs s !! t) as [T|]; [|done]. cbn [mbind option_bind] in E.
    destruct (cpus s !! TCB_ulCPUId T) as [c|]; [|done]. cbn [mbind option_bind] in E.
    destruct (CPU_ptcbTCBCur c =? t); injection E as <-; [|apply same_attrs_refl].
    eapply same_attrs_trans; [by apply (same_attrs_upd_tcb s t (set_TCB_usSchedCounter 0))|by split].
  - by apply ticks_quiet in E.
  - simpl in E, Hok. unfold _Schedule, _SchedGetCand in E.
    destruct (cpus s !! i) as [c|] eqn:Hc; [|done]. cbn [mbind option_bind] in E.
    destruct (__COULD_SCHED s i 1) as [b|]; [|done]. cbn [mbind option_bind] in E.
    destruct (negb b); cbn [mbind option_bind fst snd] in E.
    { rewrite Z.eqb_refl in E. injection E as <-. apply same_attrs_refl. }
    assert (Hu : forall s1, (if CAND_bNeedRotate c then _CandTableUpdate s i else Some s) = Some s1 -> same_attrs s s1).
    { intros s1. destruct (CAND_bNeedRotate c); [by apply update_quiet|intros [= <-]; apply same_attrs_refl]. }
    destruct (if CAND_bNeedRotate c then _CandTableUpdate s i else Some s) as [s1|]; [|done]. cbn [mbind option_bind] in E.
    specialize (Hu s1 eq_refl). destruct (cpus s1 !! i) as [c1|]; [|done]. cbn [mbind option_bind fst snd] in E.
    destruct (CAND_ptcbCand c1) as [t|]; [|done]. cbn [mbind option_bind] in E.
    destruct (t =? CPU_ptcbTCBCur c); injection E as <-; [done|].
    eapply same_attrs_trans; [exact Hu|by split].
Qed.

Lemma sched_step_safe k e : sem_inv idle k -> event_ok idle (K_sched k) e -> quiet e ->
  exists s', exec (K_sched k) e = Some s' /\ sem_inv idle (set_sched s' k).
Proof.
  intros Hi Hok Hq. pose proof (sv_kern _ _ Hi) as [Hk Hd].
  destruct (exec_ok idle (K_sched k) e (ko_sched _ _ _ _ Hk) Hok) as (s' & E & Hs').
  pose proof (exec_quiet _ _ _ (ko_sched _ _ _ _ Hk) Hok Hq E) as Ha. exists s'. split; [done|].
  split.
  - split; [|exact Hd]. apply kern_ok_sched; [done|done|]. intros t.
    rewrite (same_attrs_sview _ _ t Ha). destruct (sview (K_sched k) t); [by split|done].
  - intros e0 E0 HE0. apply (ev_ok_alive k); [by intros|]. by apply (sv_ev _ _ Hi).
  - destruct (sv_pool _ _ Hi) as [P1 P2 P3 P4 P5]. by split.
  - apply (sv_mark _ _ Hi).
Qed.
End Quiet.

Section Safe.
Context (idle : Z -> Z).

(** ** The tick *)

Lemma filter_nil_id {A} (P : A -> Prop) `{!forall x, Decision (P x)} (l : list A) : l = [] -> filter P l = [].
Proof. by intros ->. Qed.

(** Fewer threads wait. *)
Lemma ev_ok_fewer k k' E q0 q1 q0' q1' : (forall t, alive k t -> alive k' t) -> (q0 = [] -> q0' = []) -> (q1 = [] -> q1' = []) ->
  ev_ok k E q0 q1 -> ev_ok k' E q0' q1'.
Proof.
  intros Ha H0 H1 Hok. apply (ev_ok_alive k k'); [done|]. destruct Hok as [A1 A2 A3|A1 A2|A1 A2 A3|A1 A2|A1 A2].
  - apply ev_unused; auto.
  - apply ev_semc; [done|]. destruct A2 as (B1 & B2 & B3 & B4). split; [done|]. split; [done|]. split; auto.
  - apply ev_semb; [done| |done]. destruct A2 as (B1 & B2 & B3 & B4). split; [done|]. split; [done|]. split; auto.
  - apply ev_mutex; [done|]. destruct A2 as (B1 & B2 & B3). split; [done|]. split; [auto|].
    destruct B3 as [(C1 & C2 & C3 & C4)|B3]; [left|by right]. split; [done|]. split; [done|]. split; auto.
  - apply ev_semrw; [done|]. destruct A2 as (B1 & B2). split; [done|].
    destruct B2 as [(C1 & C2 & C3 & C4)|B2]; [left|by right]. split; [done|]. split; [done|]. split; [done|].
    intros Hc. destruct (C4 Hc). split; auto.
Qed.

(** A thread whose time is over was told nothing else. *)
Lemma tick_mark B k k' q : kern_ok idle B (fun _ => 0) k -> ticked k k' (q_expired 1 q) -> mark_ok k -> mark_ok k'.
Proof.
  intros Hk [T1 T2 T3 T4 T5 T6] Hm t w Hw Hs. destruct (decide (t ∈ q_expired 1 q)) as [Hin|Hin].
  - destruct (T6 t Hin) as (w0 & p & st & st' & Hw0 & Hv & _ & _ & _ & Hw' & _). rewrite Hw' in Hw. injection Hw as <-.
    unfold expire in Hs |- *. destruct (pending st) eqn:Hp; simpl in Hs |- *; [by destruct Hs|].
    destruct Hs as [e He].
    pose proof (wait_bits_status idle B k t p st w0 Hk Hw0 Hv) as Hb. unfold wait_bits in Hb. rewrite He in Hb.
    pose proof (th_place _ _ _ _ _ (ko_thread _ _ _ _ Hk t w0 Hw0)) as Hpl. unfold place_ok in Hpl. rewrite He in Hpl.
    exfalso. rewrite (pending_wait st) in Hp; [done|]. rewrite Hb. by destruct Hpl as (_ & _ & [-> | ->] & _).
  - destruct (T1 t Hin) as [Ew _]. rewrite Ew in Hw. by apply (Hm t).
Qed.

Lemma tick_safe k : sem_inv idle k -> exists k' l, _ThreadTick k = Some (k', l) /\ sem_inv idle k'.
Proof.
  intros Hi. pose proof (sv_kern _ _ Hi) as [Hk [q Hq]].
  destruct (thread_tick_spec idle SEMB k q Hk Hq) as (k' & E & Hk' & Hq' & [T1 T2 T3 T4 T5 T6]).
  exists k', (q_expired 1 q). split; [done|].
  assert (Hal : forall t, alive k t -> alive k' t).
  { intros t [w Hw]. unfold alive. destruct (decide (t ∈ q_expired 1 q)) as [Hin|Hin].
    - destruct (T6 t Hin) as (w0 & p & st & st' & _ & _ & _ & _ & _ & -> & _). by eexists.
    - destruct (T1 t Hin) as [-> _]. by eexists. }
  split.
  - split; [done|by eexists].
  - intros e E0 HE. rewrite T2 in HE. rewrite !T5.
    apply (ev_ok_fewer k k' E0 (wview k e 0) (wview k e 1)); [done|by apply filter_nil_id|by apply filter_nil_id|].
    by apply (sv_ev _ _ Hi).
  - destruct (sv_pool _ _ Hi) as [P1 P2 P3 P4 P5]. split; rewrite ?T3, ?T4; try done; by rewrite T2.
  - apply (tick_mark SEMB k k' q); [done|by split|apply Hi].
Qed.

(** ** What a step does to the threads that wait *)

(** What the call of a thread with this control block returns when it has waited. *)
Definition wait_code (w : WAIT) : Z :=
  if TCB_ucWaitTimeout w =? LW_WAIT_TIME_OUT then ERROR_THREAD_WAIT_TIMEOUT
  else if TCB_ucIsEventDelete w =? LW_EVENT_EXIST then ERROR_NONE else ERROR_EVENT_WAS_DELETED.

(** Where readers wait, a writer is in or waits. *)
Definition readers_justified (k : KERNEL) : Prop := forall e E, K_event k !! e = Some E ->
  EVENT_ucType E = LW_TYPE_EVENT_SEMRW -> wview k e 0 <> [] -> rd_busy (rw_abs k e E).

(** A step that times nobody out and tells nobody of a deletion, leaves no reader to wait for
    nothing, and disturbs no sleep. *)
Record moved (k k' : KERNEL) : Prop := {
  mv_code : forall t w, K_wait k !! t = Some w -> wait_code w = ERROR_NONE ->
    exists w', K_wait k' !! t = Some w' /\ wait_code w' = ERROR_NONE;
  mv_just : readers_justified k -> readers_justified k';
  mv_sleep : forall t d, sleeps k t d -> sleeps k' t d
}.

Lemma moved_refl k : moved k k.
Proof. split; [by eauto|done|done]. Qed.

Lemma code_safe opt w : wait_code (safe_wait opt w) = wait_code w.
Proof. unfold safe_wait. by destruct (has_option _ _). Qed.
Lemma code_unsafe opt w : wait_code (unsafe_wait opt w) = wait_code w.
Proof. unfold unsafe_wait. by destruct (_ && _). Qed.

(** A step on the event [e]. *)
Lemma moved_intro k k' e : touches k k' e ->
  (forall t w, K_wait k !! t = Some w -> wait_code w = ERROR_NONE -> exists w', K_wait k' !! t = Some w' /\ wait_code w' = ERROR_NONE) ->
  (readers_justified k -> forall E', K_event k' !! e = Some E' -> EVENT_ucType E' = LW_TYPE_EVENT_SEMRW -> wview k' e 0 <> [] ->
     rd_busy (rw_abs k' e E')) -> moved k k'.
Proof.
  intros Ht Hc He. split; [done| |apply Ht]. intros Hj e' E' HE' Et Hq. destruct (decide (e' = e)) as [->|Hne]; [by apply He|].
  rewrite (tc_event _ _ _ Ht) in HE' by done. unfold rw_abs. rewrite !(tc_view _ _ _ Ht) in * by done. by apply Hj.
Qed.

Lemma woke_code k k' l msg : woke k k' l (wake_wait msg) -> forall t w, K_wait k !! t = Some w -> wait_code w = ERROR_NONE ->
  exists w', K_wait k' !! t = Some w' /\ wait_code w' = ERROR_NONE.
Proof.
  intros Hw t w Hl Hc. rewrite (wo_wait _ _ _ _ Hw), Hl. case_decide; [|by exists w].
  by exists (wake_wait msg w).
Qed.

Lemma parked_code k k' t e iq n : parked k k' t e iq n -> forall u w, K_wait k !! u = Some w -> wait_code w = ERROR_NONE ->
  exists w', K_wait k' !! u = Some w' /\ wait_code w' = ERROR_NONE.
Proof.
  intros Hp u w Hw Hc. destruct (decide (u = t)) as [->|Hu].
  - destruct (pk_wait _ _ _ _ _ _ Hp) as (w0 & w' & _ & Hw' & _ & _ & H1 & H2 & _). exists w'. split; [done|].
    unfold wait_code. by rewrite H1, H2.
  - destruct (fr_others _ _ _ (pk_frame _ _ _ _ _ _ Hp) u Hu) as (-> & _). by exists w.
Qed.

(** The abstract steps. *)
Lemma sem_moved k k' e s' : touches k k' e -> sem_of k' e = Some s' ->
  (forall t w, K_wait k !! t = Some w -> wait_code w = ERROR_NONE -> exists w', K_wait k' !! t = Some w' /\ wait_code w' = ERROR_NONE) ->
  moved k k'.
Proof.
  intros Ht Hs Hc. apply (moved_intro k k' e Ht Hc). intros _ E' HE' Et. exfalso. unfold sem_of in Hs. rewrite HE' in Hs.
  cbn [mbind option_bind] in Hs. unfold is_sem in Hs. by rewrite Et in Hs.
Qed.

Lemma mutex_moved k k' e E o m' r got : touches k k' e -> mtx_of k' e = Some m' -> mtx_effect k k' e E o m' r got -> moved k k'.
Proof.
  intros Ht Hm Heff. apply (moved_intro k k' e Ht).
  - intros t w Hw Hc. unfold mtx_effect in Heff.
    assert (H : (forall x, K_wait k' !! x = (fun w => safety (EVENT_ulOption E) (mtx_abs k e E) m' x
       (if decide (got = Some x) then wake_wait LW_NULL w else w)) <$> K_wait k !! x) ->
       exists w', K_wait k' !! t = Some w' /\ wait_code w' = ERROR_NONE).
    { intros H. rewrite H, Hw. eexists. split; [done|]. unfold safety. by repeat case_decide; rewrite ?code_safe, ?code_unsafe. }
    destruct o as [u tmo|u], (r =? WAITING); try (by apply H, Heff); [|done].
    destruct Heff as (s' & _ & Hp). by apply (parked_code _ _ _ _ _ _ Hp t w).
  - intros _ E' HE' Et. exfalso. unfold mtx_of in Hm. rewrite HE' in Hm. cbn [mbind option_bind] in Hm. by rewrite Et in Hm.
Qed.

Lemma rw_step_just pref s o s' r l : rw_step pref s o s' r l -> (r_rq s <> [] -> rd_busy s) -> r_rq s' <> [] -> rd_busy s'.
Proof.
  unfold rd_busy. destruct 1 as [| | | | | |t tmo l _ _ Hl| | | | | |]; simpl; try naive_solver.
  intros _ _. right. intros ->. by apply Permutation_nil_cons in Hl.
Qed.

Lemma rw_moved k k' e E o s' r l : K_event k !! e = Some E -> EVENT_ucType E = LW_TYPE_EVENT_SEMRW -> touches k k' e ->
  rw_of k' e = Some s' -> rw_step (rw_pref E) (rw_abs k e E) o s' r l -> rw_effect k k' e E o s' r l -> moved k k'.
Proof.
  intros HE Et Ht Hs Hst (_ & Hn & Hp). apply (moved_intro k k' e Ht).
  - intros t w Hw Hc. destruct (decide (r = WAITING)) as [Hr|Hr].
    + specialize (Hp Hr). destruct o; [by eapply parked_code|by eapply parked_code|done].
    + rewrite (Hn Hr), Hw. eexists. split; [done|]. unfold rw_thread.
      destruct o; repeat case_decide; by rewrite ?code_safe, ?code_unsafe.
  - intros Hj E' HE' Et' Hq. unfold rw_of in Hs. rewrite HE' in Hs. cbn [mbind option_bind] in Hs. rewrite Et' in Hs.
    injection Hs as <-. apply (rw_step_just _ _ _ _ _ _ Hst); [|done]. intros Hq0. by apply (Hj e E HE Et).
Qed.

(** ** Every service, with any handle *)

Definition safe {A} (k : KERNEL) (res : option (KERNEL * A)) : Prop :=
  exists k' r, res = Some (k', r) /\ sem_inv idle k' /\ moved k k'.

Lemma safe_same {A} k (r : A) : sem_inv idle k -> safe k (Some (k, r)).
Proof. intros H. exists k, r. split; [done|]. split; [done|apply moved_refl]. Qed.

(** Either the checks refuse the handle, or it is a handle of a living event of the type. *)
Lemma check_cases k ulId cls ty : sem_inv idle k ->
  (exists err, event_check k ulId cls ty = Some err /\ (err =? ERROR_NONE) = false) \/
  (event_check k ulId cls ty = Some ERROR_NONE /\ _ObjectClassOK ulId cls = true /\
   exists E, K_event k !! _ObjectGetIndex ulId = Some E /\ EVENT_ucType E = ty).
Proof.
  intros Hi. destruct (event_check_spec idle k ulId cls ty Hi) as (err & E & _ & H).
  destruct (decide (err = ERROR_NONE)) as [->|Hne].
  - right. split; [done|]. by apply H.
  - left. exists err. split; [done|]. by apply Z.eqb_neq.
Qed.

Section Kind.
Context (cls ty : Z) (take : LW_CLASS_EVENT -> LW_CLASS_EVENT) (give : LW_CLASS_EVENT -> option LW_CLASS_EVENT).
Context (Hty : ty = LW_TYPE_EVENT_SEMC \/ ty = LW_TYPE_EVENT_SEMB).
Context (Htake : forall E, kind_ok ty E -> 0 < EVENT_ulCounter E -> take E = set_EVENT_ulCounter (EVENT_ulCounter E - 1) E).
Context (Hgive : forall E, kind_ok ty E -> gives give E).

Lemma kind_safe k ulId o : sem_inv idle k -> legal idle k o -> safe k (kind_call cls ty take give k ulId o).
Proof.
  intros Hi Hl. destruct (check_cases k ulId cls ty Hi) as [(err & Ec & Ee)|(_ & Hc & E & HE & Et)].
  - destruct o as [t tmo| | |n| |]; unfold kind_call, sem_wait_again, sem_post, sem_release_call, sem_flush, sem_clear;
      [| | |destruct (n =? 0)| |]; rewrite ?Ec; cbn [mbind option_bind]; rewrite ?Ee; cbn [negb]; by apply safe_same.
  - destruct (kind_refines idle cls ty take give Hty Htake Hgive k ulId E o Hi Hc HE Et Hl)
      as (k' & s' & r & l & E1 & Hi' & Ht & Hs & _ & Heff). exists k', r. split; [done|]. split; [done|].
    apply (sem_moved k k' _ s' Ht Hs). unfold effect in Heff.
    destruct o; try destruct (r =? WAITING); first [by eapply woke_code|by eapply parked_code].
Qed.

Lemma kind_post_safe (give' : LW_CLASS_EVENT -> option LW_CLASS_EVENT) k ulId msg :
  (forall E, kind_ok ty E -> gives give' E) -> sem_inv idle k ->
  safe k ('(k, r, _) ← sem_post cls ty give' k ulId msg; Some (k, r)).
Proof.
  intros Hg Hi. unfold sem_post. destruct (check_cases k ulId cls ty Hi) as [(err & Ec & Ee)|(Ec & Hc & E & HE & Et)]; rewrite Ec; cbn [mbind option_bind].
  - rewrite Ee. cbn [negb mbind option_bind]. by apply safe_same.
  - change (negb (ERROR_NONE =? ERROR_NONE)) with false. cbv iota.
    destruct (give_spec idle ty give' Hty Hg k _ E msg LW_SCHED_ACT_INTERRUPT Hi HE Et)
      as (k1 & r1 & o & s1 & l1 & E1 & -> & Hi1 & Ht1 & _ & _ & Hs1 & _ & Hw1 & _). cbn [mbind option_bind].
    exists k1, r1. split; [done|]. split; [done|]. apply (sem_moved k k1 _ s1 Ht1 Hs1). by eapply woke_code.
Qed.
End Kind.

Lemma semc_safe k ulId o : sem_inv idle k -> legal idle k o -> safe k (semc_call k ulId o).
Proof. rewrite semc_kind. apply kind_safe; [by left|apply semc_take_ok|apply semc_give_ok]. Qed.
Lemma semb_safe k ulId o : sem_inv idle k -> legal idle k o -> safe k (semb_call k ulId o).
Proof. rewrite semb_kind. apply kind_safe; [by right|apply semb_take_ok|apply semb_give_ok]. Qed.

(** The checks of the mutexes and read-write semaphores, which are in another order. *)
Lemma handle_cases k ulId cls ty : sem_inv idle k ->
  _ObjectClassOK ulId cls = false \/
  (_ObjectClassOK ulId cls = true /\ _Event_Index_Invalid k (_ObjectGetIndex ulId) = true) \/
  (_ObjectClassOK ulId cls = true /\ _Event_Index_Invalid k (_ObjectGetIndex ulId) = false /\
   _Event_Type_Invalid k (_ObjectGetIndex ulId) ty = Some true) \/
  (_ObjectClassOK ulId cls = true /\ exists E, K_event k !! _ObjectGetIndex ulId = Some E /\ EVENT_ucType E = ty).
Proof.
  intros Hi. destruct (_ObjectClassOK ulId cls); [right|by left].
  destruct (_Event_Index_Invalid k (_ObjectGetIndex ulId)) eqn:Ex; [by left|right].
  assert (Hr : 0 <= _ObjectGetIndex ulId) by (apply wrap_range; lia). unfold _Event_Index_Invalid in Ex. apply Z.leb_gt in Ex.
  assert (is_Some (K_event k !! _ObjectGetIndex ulId)) as [E HE] by (by apply (po_dom _ (sv_pool _ _ Hi))).
  unfold _Event_Type_Invalid. rewrite HE. cbn [mbind option_bind].
  destruct (Z.eqb_spec (EVENT_ucType E) ty) as [Et|Et]; cbn [negb]; [right|by left].
  split; [done|]. by exists E.
Qed.

Ltac refused H := rewrite ?(proj1 H), ?(proj2 H); cbn [negb mbind option_bind].

Lemma mutex_safe_call k ulId o : sem_inv idle k -> mtx_legal idle k o -> safe k (mutex_call k ulId o).
Proof.
  intros Hi Hl.
  destruct (handle_cases k ulId _OBJECT_SEM_M LW_TYPE_EVENT_MUTEX Hi) as [H1|[[H1 H2]|[(H1 & H2 & H3)|(H1 & E & HE & Et)]]].
  4: { destruct o as [t tmo|t].
       - destruct Hl as [Hr Htmo]. destruct (lock_refines idle k ulId E t tmo Hi H1 HE Et Hr Htmo) as (k' & m & r & g & -> & Hi' & Ht & Hm & _ & Heff).
         exists k', r. split; [done|]. split; [done|by eapply mutex_moved].
       - destruct (unlock_refines idle k ulId E t Hi H1 HE Et Hl) as (k' & m & r & g & -> & Hi' & Ht & Hm & _ & Heff).
         exists k', r. split; [done|]. split; [done|by eapply mutex_moved]. }
  all: destruct o as [t tmo|t]; unfold mutex_call, API_SemaphoreMPend, API_SemaphoreMPost, mutex_wait_again, call;
    cbn [LW_CPU_GET_CUR_NESTING LW_SYS_STATUS_IS_RUNNING LW_TCB_GET_CUR]; change (negb (0 =? 0)) with false; cbv iota;
    rewrite H1, ?H2; cbn [negb mbind option_bind]; rewrite ?H3; cbn [mbind option_bind]; by apply safe_same.
Qed.

Definition rw_legal' (k : KERNEL) (ulId : Z) (o : RW_OP) : Prop :=
  forall E, K_event k !! _ObjectGetIndex ulId = Some E -> rw_legal idle k E o.

Lemma rw_safe_call k ulId o : sem_inv idle k -> rw_legal' k ulId o -> safe k (rw_call k ulId o).
Proof.
  intros Hi Hl.
  destruct (handle_cases k ulId _OBJECT_SEM_RW LW_TYPE_EVENT_SEMRW Hi) as [H1|[[H1 H2]|[(H1 & H2 & H3)|(H1 & E & HE & Et)]]].
  4: { specialize (Hl E HE). destruct o as [t tmo|t tmo|t].
       - destruct (rdlock_refines idle k ulId E t tmo Hi H1 HE Et Hl) as (k' & m & r & g & -> & Hi' & Ht & Hs & Hst & Heff).
         exists k', r. split; [done|]. split; [done|by eapply rw_moved].
       - destruct (wrlock_refines idle k ulId E t tmo Hi H1 HE Et Hl) as (k' & m & r & g & -> & Hi' & Ht & Hs & Hst & Heff).
         exists k', r. split; [done|]. split; [done|by eapply rw_moved].
       - destruct (rwunlock_refines idle k ulId E t Hi H1 HE Et Hl) as (k' & m & r & g & -> & Hi' & Ht & Hs & Hst & Heff).
         exists k', r. split; [done|]. split; [done|by eapply rw_moved]. }
  all: destruct o as [t tmo|t tmo|t]; unfold rw_call, API_SemaphoreRWPendR, API_SemaphoreRWPendW, API_SemaphoreRWPost,
    rwr_wait_again, rww_wait_again, call;
    cbn [LW_CPU_GET_CUR_NESTING LW_SYS_STATUS_IS_RUNNING LW_TCB_GET_CUR]; change (negb (0 =? 0)) with false; cbv iota;
    rewrite H1, ?H2; cbn [negb mbind option_bind]; rewrite ?H3; cbn [mbind option_bind]; by apply safe_same.
Qed.

(** Deletion through the common entry: it is refused and changes nothing, or the event is gone. *)
Definition dropped (k : KERNEL) (ulId : Z) (res : option (KERNEL * Z * Z)) : Prop :=
  exists k' r i, res = Some (k', r, i) /\ sem_inv idle k' /\ (k' = k \/ deleted k k' (_ObjectGetIndex ulId)).

Lemma dropped_same k ulId r i : sem_inv idle k -> dropped k ulId (Some (k, r, i)).
Proof. intros H. exists k, r, i. split; [done|]. split; [done|by left]. Qed.

Lemma delete_safe k c ulId : sem_inv idle k -> dropped k ulId (API_SemaphoreDelete k c ulId).
Proof.
  intros Hi. unfold API_SemaphoreDelete.
  assert (Hisr : LW_CPU_GET_CUR_NESTING c = 0 \/ negb (LW_CPU_GET_CUR_NESTING c =? 0) = true).
  { destruct (Z.eqb_spec (LW_CPU_GET_CUR_NESTING c) 0); [by left|by right]. }
  assert (Hok : forall k' r i, sem_inv idle k' -> deleted k k' (_ObjectGetIndex ulId) -> dropped k ulId (Some (k', r, i))).
  { intros k' r i H1 H2. exists k', r, i. split; [done|]. split; [done|by right]. }
  assert (Hsem : forall cls ty, ty = LW_TYPE_EVENT_SEMC \/ ty = LW_TYPE_EVENT_SEMB -> dropped k ulId (sem_delete cls ty k c ulId)).
  { intros cls ty Hty. destruct Hisr as [Hn|Hn]; [|unfold sem_delete; rewrite Hn; by apply dropped_same].
    destruct (check_cases k ulId cls ty Hi) as [(err & Ec & Ee)|(_ & Hc & E & HE & Et)].
    - unfold sem_delete. rewrite Hn, Ec. change (negb (0 =? 0)) with false. cbn [mbind option_bind]. rewrite Ee. by apply dropped_same.
    - destruct (sem_delete_spec idle k c cls ty ulId E Hi Hn Hc HE Et Hty) as (k' & -> & Hi' & Hd). by apply Hok. }
  destruct (_ObjectGetClass ulId =? _OBJECT_SEM_B); [apply Hsem; by right|].
  destruct (_ObjectGetClass ulId =? _OBJECT_SEM_C); [apply Hsem; by left|].
  destruct (_ObjectGetClass ulId =? _OBJECT_SEM_M).
  { destruct Hisr as [Hn|Hn]; [|unfold API_SemaphoreMDelete; rewrite Hn; by apply dropped_same].
    destruct (check_cases k ulId _OBJECT_SEM_M LW_TYPE_EVENT_MUTEX Hi) as [(err & Ec & Ee)|(_ & Hc & E & HE & Et)].
    - unfold API_SemaphoreMDelete. rewrite Hn, Ec. change (negb (0 =? 0)) with false. cbn [mbind option_bind]. rewrite Ee. by apply dropped_same.
    - destruct (API_SemaphoreMDelete_ok idle k c ulId E Hi Hn Hc HE Et) as (k' & -> & Hi' & Hd & _). by apply Hok. }
  destruct (_ObjectGetClass ulId =? _OBJECT_SEM_RW); [|by apply dropped_same].
  destruct Hisr as [Hn|Hn]; [|unfold API_SemaphoreRWDelete; rewrite Hn; by apply dropped_same].
  destruct (check_cases k ulId _OBJECT_SEM_RW LW_TYPE_EVENT_SEMRW Hi) as [(err & Ec & Ee)|(_ & Hc & E & HE & Et)].
  - unfold API_SemaphoreRWDelete. rewrite Hn, Ec. change (negb (0 =? 0)) with false. cbn [mbind option_bind]. rewrite Ee. by apply dropped_same.
  - destruct (API_SemaphoreRWDelete_ok idle k c ulId E Hi Hn Hc HE Et) as (k' & -> & Hi' & Hd). by apply Hok.
Qed.

Lemma deleted_just k k' e : deleted k k' e -> readers_justified k -> readers_justified k'.
Proof.
  intros Hd Hj e' E HE Et Hq. destruct (decide (e' = e)) as [->|Hne]; [by destruct Hq; apply (de_empty _ _ _ Hd)|].
  rewrite (de_other _ _ _ Hd) in HE by done. unfold rw_abs. rewrite !(de_view _ _ _ Hd) in * by done. by apply Hj.
Qed.

(** A creation leaves the threads and their time alone. *)
Lemma create_keeps k c r k' i x : create_call k c r = Some (k', i, x) ->
  K_wait k' = K_wait k /\ K_wuDelay k' = K_wuDelay k /\ K_wun k' = K_wun k.
Proof.
  rewrite create_call_eq. destruct (create_refused c r =? ERROR_NONE); [|by intros [= <- _ _]].
  unfold event_create. destruct (_Object_Name_Invalid (create_name r)); [by intros [= <- _ _]|].
  unfold _Allocate_Event_Object. destruct (resrc_allocate (K_resrcEvent k)) as [[s e]|]; by intros [= <- _ _].
Qed.

Lemma create_moved k c r k' i x : sem_inv idle k -> create_legal r -> create_call k c r = Some (k', i, x) -> moved k k'.
Proof.
  intros Hi Hl E. destruct (create_keeps k c r k' i x E) as (E1 & E2 & E3). split.
  - intros t w Hw Hc. exists w. by rewrite E1.
  - destruct (create_any idle k c r Hi Hl) as (k1 & i1 & E' & _ & _ & H1 & H2). rewrite E in E'. injection E' as <- <- _.
    destruct (decide (create_result k c r = ERROR_NONE)) as [Hr|Hr]; [|by destruct (H1 Hr) as [-> _]].
    destruct (H2 Hr) as (e & _ & [_ C1 C2 C3 _] & _). intros Hj e' E0 HE Et Hq.
    destruct (decide (e' = e)) as [->|Hne]; [done|]. rewrite C1, lookup_alter_ne in HE by done.
    unfold rw_abs. rewrite !C2 in *. by apply Hj.
  - intros t d. apply sleeps_keep; [done|done|]. intros w Hw. exists w. by rewrite E1.
Qed.

(** A call goes on when its thread runs again. *)
Lemma recalc_range now save tmo : 0 <= now <= ULONG_MAX -> 0 <= save <= ULONG_MAX -> 0 <= tmo <= ULONG_MAX ->
  0 <= _sigTimeoutRecalc now save tmo <= ULONG_MAX.
Proof.
  intros Hn Hs Ht. unfold _sigTimeoutRecalc. destruct (tmo =? LW_OPTION_WAIT_INFINITE); [done|].
  assert (Hr : 0 <= wrap 64 (now + (ULONG_MAX - save) + 1)) by (apply wrap_range; lia).
  destruct (Z.leb_spec save now).
  - destruct (Z.leb_spec tmo (now - save)); unfold ULONG_MAX in *; lia.
  - destruct (Z.leb_spec tmo (wrap 64 (now + (ULONG_MAX - save) + 1))); unfold ULONG_MAX in *; lia.
Qed.

Lemma resume_safe again k t now save tmo opt ret : sem_inv idle k -> alive k t ->
  (forall tmo', 0 <= tmo' <= ULONG_MAX -> safe k (again k tmo')) ->
  0 <= now <= ULONG_MAX -> 0 <= save <= ULONG_MAX -> 0 <= tmo <= ULONG_MAX ->
  safe k (pend_resume again k t now save tmo opt ret).
Proof.
  intros Hi [w Hw] Ha Hn Hs Ht. unfold pend_resume. destruct (negb (ret =? 0)).
  - destruct ((ret =? LW_SIGNAL_EINTR) && has_option opt LW_OPTION_SIGNAL_INTER); [by apply safe_same|].
    destruct (_sigTimeoutRecalc now save tmo =? LW_OPTION_NOT_WAIT); [by apply safe_same|].
    apply Ha. by apply recalc_range.
  - rewrite Hw. cbn [mbind option_bind]. by apply safe_same.
Qed.
End Safe.

(** ** The system *)

Inductive RESUME := ResC | ResB | ResM | ResRd | ResWr.

Inductive SYS :=
| SysSched (e : event)
| SysTick
| SysCreate (c : CALL) (r : CREATE)
| SysSemC (ulId : Z) (o : SEM_OP)
| SysSemB (ulId : Z) (o : SEM_OP)
| SysPostEx (ulId pvMsgPtr : Z)
| SysMutex (ulId : Z) (o : MTX_OP)
| SysRw (ulId : Z) (o : RW_OP)
| SysDelete (c : CALL) (ulId : Z)
| SysResume (q : RESUME) (t ulId ulKernelTime ulTimeSave ulTimeout ulEventOption iSchedRet : Z).

Definition resume_call (q : RESUME) : KERNEL -> Z -> Z -> Z -> Z -> Z -> Z -> Z -> option (KERNEL * PEND) :=
  match q with
  | ResC => API_SemaphoreCPend_resume
  | ResB => API_SemaphoreBPend_resume
  | ResM => API_SemaphoreMPend_resume
  | ResRd => API_SemaphoreRWPendR_resume
  | ResWr => API_SemaphoreRWPendW_resume
  end.

Definition sys_exec (k : KERNEL) (op : SYS) : option KERNEL :=
  match op with
  | SysSched e => s ← exec (K_sched k) e; Some (set_sched s k)
  | SysTick => fst <$> _ThreadTick k
  | SysCreate c r => '(k, _, _) ← create_call k c r; Some k
  | SysSemC i o => fst <$> semc_call k i o
  | SysSemB i o => fst <$> semb_call k i o
  | SysPostEx i m => fst <$> API_SemaphoreBPostEx k i m
  | SysMutex i o => fst <$> mutex_call k i o
  | SysRw i o => fst <$> rw_call k i o
  | SysDelete c i => '(k, _, _) ← API_SemaphoreDelete k c i; Some k
  | SysResume q t i now save tmo opt ret => fst <$> resume_call q k t i now save tmo opt ret
  end.

(** The callers run, the arguments have their C types, the scheduler steps are of CPUs
    and threads that exist, and the readers of one lock do not overflow 64 bits.
    Nothing is asked of the handles. *)
Definition sys_legal (idle : Z -> Z) (k : KERNEL) (op : SYS) : Prop :=
  match op with
  | SysSched e => event_ok idle (K_sched k) e /\ quiet e
  | SysTick | SysDelete _ _ | SysPostEx _ _ => True
  | SysCreate _ r => create_legal r
  | SysSemC _ o | SysSemB _ o => legal idle k o
  | SysMutex _ o => mtx_legal idle k o
  | SysRw i o => rw_legal' idle k i o
  | SysResume q t i now save tmo _ _ => runs idle k t /\ 0 <= now <= ULONG_MAX /\ 0 <= save <= ULONG_MAX /\
      0 <= tmo <= ULONG_MAX /\ forall E, K_event k !! _ObjectGetIndex i = Some E -> EVENT_ulCounter E < ULONG_MAX
  end.

(** All states of all runs from [k0]. *)
Inductive reachable (idle : Z -> Z) (k0 : KERNEL) : KERNEL -> Prop :=
| reach_init : reachable idle k0 k0
| reach_step k op k' : reachable idle k0 k -> sys_legal idle k op -> sys_exec k op = Some k' -> reachable idle k0 k'.

(** The runs in which no tick ends the wait of the last writer queued for a read-write semaphore. *)
Inductive patient (idle : Z -> Z) (k0 : KERNEL) : KERNEL -> Prop :=
| patient_init : patient idle k0 k0
| patient_step k op k' : patient idle k0 k -> sys_legal idle k op -> sys_exec k op = Some k' ->
    (op = SysTick -> forall e, wview k' e 1 = [] -> wview k e 1 = []) -> patient idle k0 k'.

Section System.
Context (idle : Z -> Z).

Lemma safe_fst {A} k (res : option (KERNEL * A)) : safe idle k res ->
  exists k', fst <$> res = Some k' /\ sem_inv idle k' /\ moved k k'.
Proof. intros (k' & r & -> & H). by exists k'. Qed.

(** The part of a call behind the interrupt check. *)
Lemma again_safe q k t ulId tmo : sem_inv idle k -> runs idle k t -> 0 <= tmo <= ULONG_MAX ->
  (forall E, K_event k !! _ObjectGetIndex ulId = Some E -> EVENT_ulCounter E < ULONG_MAX) ->
  safe idle k (match q with
        | ResC => sem_wait_again _OBJECT_SEM_C LW_TYPE_EVENT_SEMC semc_take k t ulId tmo
        | ResB => sem_wait_again _OBJECT_SEM_B LW_TYPE_EVENT_SEMB semb_take k t ulId tmo
        | ResM => mutex_wait_again true k t ulId tmo
        | ResRd => rwr_wait_again true k t ulId tmo
        | ResWr => rww_wait_again true k t ulId tmo
        end).
Proof.
  intros Hi Hr Ht Ho.
  assert (Hs : forall res, safe idle k ('(k, r) ← res; Some (k, pend_code r)) -> safe idle k (res : option (KERNEL * PEND))).
  { intros [[k1 r1]|] (k' & r & E & H); [|done]. cbn [mbind option_bind] in E. injection E as -> _. by exists k', r1. }
  destruct q; apply Hs.
  - by apply (semc_safe idle k ulId (SPend t tmo)).
  - by apply (semb_safe idle k ulId (SPend t tmo)).
  - by apply (mutex_safe_call idle k ulId (MLock t tmo)).
  - apply (rw_safe_call idle k ulId (RdLock t tmo)); [done|]. intros E HE. split; [done|]. split; [done|by apply Ho].
  - by apply (rw_safe_call idle k ulId (WrLock t tmo)).
Qed.

(** What each step does: a tick times threads out, a deletion may end the waits for one event, and
    all others only move on. *)
Definition passed (op : SYS) (k k' : KERNEL) : Prop :=
  match op with
  | SysTick => exists q, line_queue (WU_line (K_wuDelay k)) (K_wun k) q /\ ticked k k' (q_expired 1 q) /\
      line_queue (WU_line (K_wuDelay k')) (K_wun k') (q_shift 1 (q_rest 1 q))
  | SysDelete _ i => k' = k \/ deleted k k' (_ObjectGetIndex i)
  | _ => moved k k'
  end.

Lemma sys_step k op : sem_inv idle k -> sys_legal idle k op -> exists k', sys_exec k op = Some k' /\ sem_inv idle k' /\ passed op k k'.
Proof.
  intros Hi Hl. destruct op as [e| |c r|i o|i o|i m|i o|i o|c i|q t i now save tmo opt ret]; cbn [sys_exec sys_legal passed] in *.
  - destruct Hl as [Hok Hq]. destruct (sched_step_safe idle k e Hi Hok Hq) as (s' & -> & H). exists (set_sched s' k).
    split; [done|]. split; [done|]. split; [by eauto|done|done].
  - destruct (sv_kern _ _ Hi) as [Hk [q Hq]]. destruct (thread_tick_spec idle SEMB k q Hk Hq) as (k' & E & _ & Hq' & Ht).
    destruct (tick_safe idle k Hi) as (k2 & l2 & E2 & Hi'). rewrite E in E2. injection E2 as <- <-. rewrite E.
    exists k'. split; [done|]. split; [done|]. by exists q.
  - destruct (create_any idle k c r Hi Hl) as (k' & i & E & H & _). rewrite E. exists k'. split; [done|]. split; [done|].
    by eapply create_moved.
  - by apply safe_fst, semc_safe.
  - by apply safe_fst, semb_safe.
  - apply safe_fst. apply (kind_post_safe idle _OBJECT_SEM_B LW_TYPE_EVENT_SEMB ltac:(by right)); [apply semb_give_msg_ok|done].
  - by apply safe_fst, mutex_safe_call.
  - by apply safe_fst, rw_safe_call.
  - destruct (delete_safe idle k c i Hi) as (k' & r & x & -> & H). by exists k'.
  - destruct Hl as (Hr & Hn & Hs & Ht & Ho). apply safe_fst.
    pose proof (runs_alive idle k t (sv_kern _ _ Hi) Hr) as Ha.
    destruct q; apply (resume_safe idle); try done; intros tmo' Ht'.
    + by apply (again_safe ResC).
    + by apply (again_safe ResB).
    + by apply (again_safe ResM).
    + by apply (again_safe ResRd).
    + by apply (again_safe ResWr).
Qed.

Lemma sys_step_safe k op : sem_inv idle k -> sys_legal idle k op -> exists k', sys_exec k op = Some k' /\ sem_inv idle k'.
Proof. intros Hi Hl. destruct (sys_step k op Hi Hl) as (k' & E & H & _). by exists k'. Qed.

Lemma reachable_inv k0 k : sem_inv idle k0 -> reachable idle k0 k -> sem_inv idle k.
Proof.
  intros Hi H. induction H as [|k op k' _ IH Hl E]; [done|].
  destruct (sys_step_safe k op IH Hl) as (k1 & E1 & H1). rewrite E in E1. by injection E1 as ->.
Qed.

(** C5: the whole system is safe.  From a consistent kernel, under any interleaving of
    creations, deletions, pends, posts, releases, flushes, clears, locks and unlocks of
    all four kinds, with valid, stale or invented handles, of calls that go on after a
    wait, of ticks and of scheduler steps, every reachable state is consistent and
    every further legal step is defined. *)
Theorem system_safe k0 k : sem_inv idle k0 -> reachable idle k0 k ->
  sem_inv idle k /\ forall op, sys_legal idle k op -> is_Some (sys_exec k op).
Proof.
  intros H0 Hr. pose proof (reachable_inv k0 k H0 Hr) as Hi. split; [done|].
  intros op Hl. destruct (sys_step_safe k op Hi Hl) as (k' & -> & _). by eexists.
Qed.

(** In a patient run readers wait only where a writer is in or waits. *)
Lemma step_justified k op k' : sem_inv idle k -> sys_legal idle k op -> sys_exec k op = Some k' ->
  (op = SysTick -> forall e, wview k' e 1 = [] -> wview k e 1 = []) -> readers_justified k -> readers_justified k'.
Proof.
  intros Hi Hl E Hp Hj. destruct (sys_step k op Hi Hl) as (k1 & E1 & _ & H). rewrite E in E1. injection E1 as <-.
  destruct op; cbn [passed] in H; try by apply (mv_just _ _ H).
  - destruct H as (q & _ & [_ T2 _ _ T5 _] & _). intros e E0 HE Et Hq. rewrite T2 in HE.
    assert (H0 : wview k e 0 <> []) by (intros H0; apply Hq; by rewrite T5, H0).
    destruct (Hj e E0 HE Et H0) as [Hw|Hw]; [by left|right]. simpl in *. intros H1. by apply Hw, Hp.
  - destruct H as [-> |H]; [done|by apply (deleted_just _ _ _ H)].
Qed.

Lemma patient_justified k0 k : sem_inv idle k0 -> patient idle k0 k -> readers_justified k0 -> sem_inv idle k /\ readers_justified k.
Proof.
  intros H0 Hp Hj. induction Hp as [|k op k' _ IH Hl E Hq]; [done|]. destruct IH as [Hi Hk].
  split; [|by apply (step_justified k op k')]. destruct (sys_step k op Hi Hl) as (k1 & E1 & H1 & _). rewrite E in E1. by injection E1 as ->.
Qed.

(** A read-write semaphore that readers are in, or a living writer. *)
Definition held (k : KERNEL) (s : RWS) : Prop :=
  (r_writer s = None /\ r_count s <> 0) \/ exists o d, r_writer s = Some (o, d) /\ alive k o.

(** What the threads in the queues of [E] wait for is not there. *)
Definition unavailable (k : KERNEL) (e : Z) (E : LW_CLASS_EVENT) : Prop :=
  (EVENT_ucType E = LW_TYPE_EVENT_SEMC \/ EVENT_ucType E = LW_TYPE_EVENT_SEMB) /\ EVENT_ulCounter E = 0 \/
  EVENT_ucType E = LW_TYPE_EVENT_MUTEX /\ (exists o, EVENT_pvTcbOwn E = Some o /\ alive k o) \/
  EVENT_ucType E = LW_TYPE_EVENT_SEMRW /\ held k (rw_abs k e E).

Lemma waited_unavailable k e E : sem_inv idle k -> K_event k !! e = Some E -> wview k e 0 <> [] \/ wview k e 1 <> [] ->
  unavailable k e E.
Proof.
  intros Hi HE Hne. destruct (sv_ev _ _ Hi e E HE) as [_ A0 A1|A1 A2|A1 A2 _|A1 A2|A1 A2].
  - by destruct Hne.
  - left. split; [by left|]. destruct A2 as (B1 & _ & B3 & B4). destruct (decide (0 < EVENT_ulCounter E)); [|lia].
    destruct Hne as [Hne|Hne]; [|done]. by destruct Hne; apply B3.
  - left. split; [by right|]. destruct A2 as (B1 & _ & B3 & B4). destruct (decide (0 < EVENT_ulCounter E)); [|lia].
    destruct Hne as [Hne|Hne]; [|done]. by destruct Hne; apply B3.
  - right. left. split; [done|]. destruct A2 as (_ & B1 & [(_ & _ & _ & B2)|(_ & _ & _ & B2)]); [|done].
    by destruct Hne.
  - right. right. split; [done|]. unfold held, rw_abs, rw_writer. simpl.
    destruct A2 as (_ & [(B1 & B2 & _ & B3)|(_ & _ & _ & o & B2 & B3)]); rewrite B2.
    + left. split; [done|]. rewrite B1. simpl. intros Hc. destruct (B3 Hc). by destruct Hne.
    + right. by exists o, (EVENT_pvPtr E).
Qed.

(** C15: no thread waits without reason.  In every reachable state a thread in a wait
    queue of an event is blocked, in this queue only, has not been told of a
    deletion or a time-out, and what it waits for is not there: the event is a
    semaphore without units, a mutex with a living owner, or a read-write semaphore
    that readers or a living writer hold; deleted events have empty queues.  A reader, whom
    other readers do not keep out, waits only while a writer is in or waits itself, as long as no
    tick has ended the wait of the last queued writer (see [reader_left_waiting] for what happens then). *)
Theorem waits_have_reason k0 k t e iq : sem_inv idle k0 -> reachable idle k0 k -> t ∈ wview k e iq ->
  exists E w p st, K_event k !! e = Some E /\ unavailable k e E /\ K_wait k !! t = Some w /\
    TCB_peventPtr w = Some e /\ TCB_iPendQ w = iq /\ TCB_ucIsEventDelete w = LW_EVENT_EXIST /\
    TCB_ucWaitTimeout w = LW_WAIT_TIME_CLEAR /\ sview (K_sched k) t = Some (p, st) /\ st <> 0 /\
    (forall e' iq', t ∈ wview k e' iq' -> e' = e /\ iq' = iq) /\
    (EVENT_ucType E = LW_TYPE_EVENT_SEMRW -> iq = 0 -> patient idle k0 k -> readers_justified k0 -> rd_busy (rw_abs k e E)).
Proof.
  intros H0 Hr Hin. pose proof (reachable_inv k0 k H0 Hr) as Hi. pose proof (sv_kern _ _ Hi) as [Hk _].
  pose proof Hin as Hin'. apply (elem_of_wview idle SEMB _ k e iq t Hk) in Hin' as [b Hb].
  destruct (wait_at_bucket idle SEMB _ k t e iq b Hk Hb) as (_ & _ & Hiq & [E HE] & w & Hw & Hwe & Hwq & _).
  pose proof (ko_thread _ _ _ _ Hk t w Hw) as [(p & st & Hv & Hst & _) Hpl _ _].
  unfold place_ok in Hpl. rewrite Hwe in Hpl. unfold wait_bits in Hst. rewrite Hwe in Hst.
  assert (Hne : wview k e iq <> []) by (intros Hn; rewrite Hn in Hin; by apply not_elem_of_nil in Hin).
  exists E, w, p, st. split; [done|]. split; [|split; [done|split; [done|split; [done|split; [|split; [|split; [done|split; [|split]]]]]]]].
  - apply waited_unavailable; [done|done|]. by destruct Hiq as [-> | ->]; [left|right].
  - apply (sv_mark _ _ Hi t w Hw). by rewrite Hwe.
  - apply Hpl.
  - intros ->. by rewrite Z.lor_0_r in Hst.
  - intros e' iq' (b' & Hb')%(elem_of_wview idle SEMB _ k e' iq' t Hk). rewrite Hb in Hb'. by injection Hb' as -> -> _.
  - intros Et -> Hp Hj. by apply (proj2 (patient_justified k0 k H0 Hp Hj) e E HE Et).
Qed.

(** The pool of control blocks is exact in every reachable state: the free list has no
    duplicates and holds exactly the control blocks of type unused, every
    control block has one of the five types, and the usage counter is the number of the
    living events. *)
Theorem pool_exact k0 k : sem_inv idle k0 -> reachable idle k0 k ->
  NoDup (RESRC_free (K_resrcEvent k)) /\
  (forall e E, K_event k !! e = Some E -> (e ∈ RESRC_free (K_resrcEvent k) <-> EVENT_ucType E = LW_TYPE_EVENT_UNUSED) /\
     EVENT_ucType E ∈ [LW_TYPE_EVENT_UNUSED; LW_TYPE_EVENT_SEMC; LW_TYPE_EVENT_SEMB; LW_TYPE_EVENT_MUTEX; LW_TYPE_EVENT_SEMRW]) /\
  RESRC_uiUsed (K_resrcEvent k) =
    Z.of_nat (size (filter (fun p => EVENT_ucType p.2 <> LW_TYPE_EVENT_UNUSED) (K_event k))).
Proof.
  intros H0 Hr. pose proof (reachable_inv k0 k H0 Hr) as Hi. pose proof (sv_pool _ _ Hi) as HP. pose proof HP as [P1 P2 P3 P4 P5].
  assert (Hty : forall e E, K_event k !! e = Some E -> (e ∈ RESRC_free (K_resrcEvent k) <-> EVENT_ucType E = LW_TYPE_EVENT_UNUSED)).
  { intros e E HE. rewrite P2. split; [intros (E' & HE' & Ht); rewrite HE in HE'; by injection HE' as <-|by exists E]. }
  split; [done|]. split.
  - intros e E HE. split; [by apply Hty|].
    destruct (sv_ev _ _ Hi e E HE) as [-> _ _| -> _| -> _ _| -> _| -> _]; decide_now.
  - set (U := filter (fun p => EVENT_ucType p.2 <> LW_TYPE_EVENT_UNUSED) (K_event k)).
    assert (Hd : size (dom (K_event k)) = Z.to_nat (LW_CFG_MAX_EVENTS k)).
    { assert (Ed : dom (K_event k) = list_to_set (seqZ 0 (LW_CFG_MAX_EVENTS k)) :> gset Z).
      { apply set_eq. intros e. rewrite elem_of_dom, P3, elem_of_list_to_set, elem_of_seqZ. lia. }
      rewrite Ed, size_list_to_set by apply NoDup_seqZ. apply length_seqZ. }
    assert (Hs : size (dom (K_event k)) = (size (dom U) + length (RESRC_free (K_resrcEvent k)))%nat).
    { rewrite <-(size_list_to_set (C := gset Z) (RESRC_free (K_resrcEvent k)) P1).
      rewrite <-size_union; [f_equal; apply set_eq|].
      - intros e. rewrite elem_of_union, elem_of_list_to_set, !elem_of_dom. split.
        + intros [E HE]. destruct (decide (EVENT_ucType E = LW_TYPE_EVENT_UNUSED)) as [Ht|Ht].
          * right. by apply (Hty e E HE).
          * left. exists E. unfold U. by apply map_lookup_filter_Some.
        + intros [[E [HE _]%map_lookup_filter_Some]|Hin]; [by eexists|]. apply P2 in Hin as (E & HE & _). by eexists.
      - intros e [E [HE Ht]%map_lookup_filter_Some]%elem_of_dom Hin%elem_of_list_to_set. simpl in Ht. by apply Ht, (Hty e E HE). }
    rewrite !size_dom in Hs. rewrite size_dom in Hd. pose proof (pool_length k HP) as Hl. rewrite P5.
    lia.
Qed.
(** C39: no counter of an event ever wraps.  In every reachable state the units of a
    semaphore are between 0 and its maximum (1 for a binary one), a mutex counter is a
    boolean and its saved priority a priority, every counter fits in 64 bits, and
    the 16-bit length of a wait queue is the true number of its threads. *)
Theorem counters_bounded k0 k e E : sem_inv idle k0 -> reachable idle k0 k -> K_event k !! e = Some E ->
  (EVENT_ucType E = LW_TYPE_EVENT_SEMC -> 0 <= EVENT_ulCounter E <= EVENT_ulMaxCounter E /\ EVENT_ulMaxCounter E <= ULONG_MAX) /\
  (EVENT_ucType E = LW_TYPE_EVENT_SEMB -> 0 <= EVENT_ulCounter E <= 1) /\
  (EVENT_ucType E = LW_TYPE_EVENT_MUTEX -> (EVENT_ulCounter E = LW_FALSE \/ EVENT_ulCounter E = LW_TRUE) /\
     0 <= EVENT_pvPtr E <= ULONG_MAX /\ (EVENT_ulCounter E = LW_FALSE -> prio_ok (EVENT_ulMaxCounter E))) /\
  (EVENT_ucType E = LW_TYPE_EVENT_SEMRW -> 0 <= EVENT_ulCounter E <= ULONG_MAX) /\
  forall iq, _EventWaitNum k iq e = Z.of_nat (length (wview k e iq)) /\ _EventWaitNum k iq e < 2 ^ 16.
Proof.
  intros H0 Hr HE. pose proof (reachable_inv k0 k H0 Hr) as Hi. pose proof (sv_kern _ _ Hi) as Hk.
  assert (Hq : forall iq, _EventWaitNum k iq e = Z.of_nat (length (wview k e iq)) /\ _EventWaitNum k iq e < 2 ^ 16).
  { intros iq. rewrite (waitnum_length idle SEMB) by done. split; [done|]. apply (wview_room' idle SEMB (fun _ => 0)), Hk. }
  destruct (sv_ev _ _ Hi e E HE) as [Et _ _|Et H|Et H Hm|Et H|Et H]; rewrite Et; splits; try done.
  - intros _. destruct H as (A & B & _). by split.
  - intros _. destruct H as (A & _). by rewrite Hm in A.
  - intros _. destruct H as (_ & _ & [(A & _ & B & _)|(A & B & C & _)]).
    + split; [by right|]. rewrite B. split; [by vm_compute|]. by rewrite A.
    + split; [by left|]. by split.
  - intros _. apply H.
Qed.

(** C40: the loops over a wait queue end.  The loops that wake all waiters of a queue (flush,
    deletion, admission of all readers) run to an end in as many turns as the queue has
    threads, and leave the queue empty. *)
Theorem queue_loops_terminate k e E iq n opt : kern_inv idle SEMB k -> K_event k !! e = Some E ->
  (length (wview k e iq) < n)%nat ->
  (exists k', flush_loop LW_THREAD_STATUS_SEM n k e iq = Some k' /\ kern_inv idle SEMB k' /\ wview k' e iq = []) /\
  (exists k', delete_loop LW_THREAD_STATUS_SEM n k e iq = Some k' /\ kern_inv idle SEMB k' /\ wview k' e iq = []) /\
  (iq = EVENT_RW_Q_R -> exists k', readers_loop n k e opt = Some k' /\ kern_inv idle SEMB k' /\ wview k' e iq = []).
Proof.
  intros Hk HE Hn.
  assert (Hl : forall f h, (forall E0, EVENT_ulOption (f E0) = EVENT_ulOption E0) -> harmless_wait h ->
    exists k', wake_loop LW_THREAD_STATUS_SEM f h n k e iq = Some k' /\ kern_inv idle SEMB k' /\ wview k' e iq = []).
  { intros f h Hf Hh. destruct (wake_loop_spec idle SEMB f h e iq Hf Hh n k E Hk HE Hn) as (k' & H1 & H2 & _ & _ & H3 & _).
    exists k'. split; [done|]. split; [done|]. by rewrite H3, decide_True. }
  split; [|split].
  - rewrite flush_loop_eq. by apply Hl.
  - rewrite delete_loop_eq. by apply Hl.
  - intros ->. rewrite readers_loop_eq. apply Hl; [done|apply safe_harmless].
Qed.

(** ** How a wait ends *)

(** A handle of a living semaphore. *)
Definition live_handle (k : KERNEL) (ulId : Z) (E : LW_CLASS_EVENT) : Prop :=
  K_event k !! _ObjectGetIndex ulId = Some E /\
  (_ObjectGetClass ulId = _OBJECT_SEM_C /\ EVENT_ucType E = LW_TYPE_EVENT_SEMC \/
   _ObjectGetClass ulId = _OBJECT_SEM_B /\ EVENT_ucType E = LW_TYPE_EVENT_SEMB \/
   _ObjectGetClass ulId = _OBJECT_SEM_M /\ EVENT_ucType E = LW_TYPE_EVENT_MUTEX \/
   _ObjectGetClass ulId = _OBJECT_SEM_RW /\ EVENT_ucType E = LW_TYPE_EVENT_SEMRW).

Lemma class_ok ulId c : _ObjectGetClass ulId = c -> _ObjectClassOK ulId c = true.
Proof. intros H. change (_ObjectClassOK ulId c) with (_ObjectGetClass ulId =? c). by apply Z.eqb_eq. Qed.

Lemma delete_ok k c ulId E : sem_inv idle k -> LW_CPU_GET_CUR_NESTING c = 0 -> live_handle k ulId E ->
  exists k', API_SemaphoreDelete k c ulId = Some (k', ERROR_NONE, LW_OBJECT_HANDLE_INVALID) /\
    sem_inv idle k' /\ deleted k k' (_ObjectGetIndex ulId).
Proof.
  intros Hi Hn [HE Hc]. unfold API_SemaphoreDelete. destruct Hc as [[Ec Et]|[[Ec Et]|[[Ec Et]|[Ec Et]]]]; rewrite Ec.
  - apply (sem_delete_spec idle k c _OBJECT_SEM_C _ ulId E); try done; [by apply class_ok|by left].
  - apply (sem_delete_spec idle k c _OBJECT_SEM_B _ ulId E); try done; [by apply class_ok|by right].
  - destruct (API_SemaphoreMDelete_ok idle k c ulId E Hi Hn) as (k' & H1 & H2 & H3 & _); try done; [by apply class_ok|by exists k'].
  - apply (API_SemaphoreRWDelete_ok idle k c ulId E); try done. by apply class_ok.
Qed.

(** Waking in state [k'] a thread whose control block is [w]. *)
Lemma resume_result q k' t w ulId now save tmo opt : K_wait k' !! t = Some w ->
  resume_call q k' t ulId now save tmo opt 0 = Some (k', Return
    (if TCB_ucWaitTimeout w =? LW_WAIT_TIME_OUT then ERROR_THREAD_WAIT_TIMEOUT
     else if TCB_ucIsEventDelete w =? LW_EVENT_EXIST then ERROR_NONE else ERROR_EVENT_WAS_DELETED)).
Proof.
  intros Hw. destruct q; cbn [resume_call];
    unfold API_SemaphoreCPend_resume, API_SemaphoreBPend_resume, API_SemaphoreMPend_resume, API_SemaphoreRWPendR_resume,
      API_SemaphoreRWPendW_resume, pend_resume; change (negb (0 =? 0)) with false; cbv iota; by rewrite Hw.
Qed.

(** Deleting a living semaphore of any kind succeeds and clears the caller's
    handle; its control block becomes the last free one, nobody waits for it any
    more, every thread that did will return ERROR_EVENT_WAS_DELETED from its call, and the
    old handle is refused with ERROR_EVENT_TYPE from then on; all other events and their
    queues are untouched and the invariant is kept. *)
Theorem API_SemaphoreDelete_spec k c ulId E : sem_inv idle k -> LW_CPU_GET_CUR_NESTING c = 0 -> live_handle k ulId E ->
  exists k', API_SemaphoreDelete k c ulId = Some (k', ERROR_NONE, LW_OBJECT_HANDLE_INVALID) /\
    sem_inv idle k' /\ deleted k k' (_ObjectGetIndex ulId) /\
    (forall t q now save tmo opt, t ∈ wview k (_ObjectGetIndex ulId) 0 \/ t ∈ wview k (_ObjectGetIndex ulId) 1 ->
       resume_call q k' t ulId now save tmo opt 0 = Some (k', Return ERROR_EVENT_WAS_DELETED)) /\
    forall t, API_SemaphorePost k' (call t) ulId = Some (k', ERROR_EVENT_TYPE).
Proof.
  intros Hi Hn Hl. destruct (delete_ok k c ulId E Hi Hn Hl) as (k' & E1 & Hi' & Hd).
  exists k'. split; [done|]. split; [done|]. split; [done|]. set (e := _ObjectGetIndex ulId) in *. split.
  - intros t q now save tmo opt Ht.
    assert (is_Some (K_wait k !! t)) as [w Hw].
    { destruct Ht as [Ht|Ht]; by apply (wview_waiting idle SEMB _ k e _ t (proj1 (sv_kern _ _ Hi))) in Ht. }
    destruct (de_told _ _ _ Hd t w Hw) as (w' & Hw' & [Hg _]). destruct (Hg Ht) as (_ & G1 & G2).
    rewrite (resume_result q k' t w' ulId now save tmo opt Hw'). by rewrite G1, G2.
  - intros t. destruct (de_event _ _ _ Hd) as (E' & HE' & Et' & _).
    assert (Hx : _Event_Index_Invalid k' e = false).
    { unfold _Event_Index_Invalid. apply Z.leb_gt. apply (po_dom _ (sv_pool _ _ Hi')). by eexists. }
    assert (Hy : forall ty, ty <> LW_TYPE_EVENT_UNUSED -> _Event_Type_Invalid k' e ty = Some true).
    { intros ty Hne. unfold _Event_Type_Invalid. rewrite HE'. cbn [mbind option_bind]. rewrite Et'.
      by rewrite (proj2 (Z.eqb_neq _ _)). }
    unfold API_SemaphorePost. destruct Hl as [_ Hc]. destruct Hc as [[Ec _]|[[Ec _]|[[Ec _]|[Ec _]]]]; rewrite Ec;
      pose proof (class_ok _ _ Ec) as Hcl.
    + unfold API_SemaphoreCPost, sem_post, event_check. fold e. by rewrite Hcl, Hx, Hy.
    + unfold API_SemaphoreBPost, sem_post, event_check. fold e. by rewrite Hcl, Hx, Hy.
    + unfold API_SemaphoreMPost, call. cbn [LW_CPU_GET_CUR_NESTING LW_SYS_STATUS_IS_RUNNING LW_TCB_GET_CUR].
      fold e. by rewrite Hcl, Hx, Hy.
    + unfold API_SemaphoreRWPost, call. cbn [LW_CPU_GET_CUR_NESTING LW_SYS_STATUS_IS_RUNNING LW_TCB_GET_CUR].
      fold e. by rewrite Hcl, Hx, Hy.
Qed.

(** What a waiting call returns when the step [op] has ended the wait. *)
Definition outcome (op : SYS) : Z :=
  match op with SysTick => ERROR_THREAD_WAIT_TIMEOUT | SysDelete _ _ => ERROR_EVENT_WAS_DELETED | _ => ERROR_NONE end.

(** C35: a wait ends for the right reason.  Whatever legal step takes a thread out of a wait queue of a
    semaphore of any kind, the call it waits in returns, when it runs again, ERROR_THREAD_WAIT_TIMEOUT
    if the step is a tick, ERROR_EVENT_WAS_DELETED if it deletes the event, and ERROR_NONE
    otherwise: a post, a release or a flush of a counting or binary semaphore, the hand-over of a
    mutex, or the admission of readers or a writer. *)
Theorem wait_outcomes k op k' t e iq q ulId now save tmo opt : sem_inv idle k -> sys_legal idle k op -> sys_exec k op = Some k' ->
  t ∈ wview k e iq -> t ∉ wview k' e iq ->
  resume_call q k' t ulId now save tmo opt 0 = Some (k', Return (outcome op)).
Proof.
  intros Hi Hl E Hin Hout. destruct (sys_step k op Hi Hl) as (k1 & E1 & _ & H). rewrite E in E1. injection E1 as <-.
  pose proof (sv_kern _ _ Hi) as [Hk _].
  pose proof Hin as Hin'. apply (elem_of_wview idle SEMB _ k e iq t Hk) in Hin' as [b Hb].
  destruct (wait_at_bucket idle SEMB _ k t e iq b Hk Hb) as (_ & _ & Hiq & _ & w & Hw & Hwe & _).
  pose proof (ko_thread _ _ _ _ Hk t w Hw) as [(p & st & Hv & Hst & _) Hpl _ _].
  unfold place_ok in Hpl. rewrite Hwe in Hpl. destruct Hpl as (_ & _ & _ & Hto & _).
  pose proof (sv_mark _ _ Hi t w Hw ltac:(by rewrite Hwe)) as Hmk.
  assert (Hm : moved k k' -> resume_call q k' t ulId now save tmo opt 0 = Some (k', Return ERROR_NONE)).
  { intros [Hc _ _]. destruct (Hc t w Hw) as (w' & Hw' & Hr); [unfold wait_code; by rewrite Hto, Hmk|].
    rewrite (resume_result q k' t w' ulId now save tmo opt Hw'). unfold wait_code in Hr. by rewrite Hr. }
  destruct op; cbn [passed outcome] in *; try by apply Hm.
  - destruct H as (qd & _ & [_ _ _ _ T5 T6] & _). rewrite T5, list_elem_of_filter in Hout.
    destruct (decide (t ∈ q_expired 1 qd)) as [Hx|Hx]; [|by destruct Hout].
    destruct (T6 t Hx) as (w0 & p0 & st0 & st' & Hw0 & Hv0 & _ & _ & _ & Hw' & _).
    rewrite Hw in Hw0. injection Hw0 as <-. rewrite Hv in Hv0. injection Hv0 as <- <-.
    rewrite (resume_result q k' t _ ulId now save tmo opt Hw').
    rewrite (pending_wait st); [done|]. rewrite Hst. unfold wait_bits. by rewrite Hwe.
  - destruct H as [-> |Hd]; [done|]. destruct (decide (e = _ObjectGetIndex ulId0)) as [->|Hne].
    + destruct (de_told _ _ _ Hd t w Hw) as (w' & Hw' & [Hg _]).
      destruct Hg as (_ & G1 & G2); [by destruct Hiq as [-> | ->]; [left|right]|].
      rewrite (resume_result q k' t w' ulId now save tmo opt Hw'). by rewrite G1, G2.
    + by rewrite (de_view _ _ _ Hd) in Hout.
Qed.
End System.

(** ** A run of the small system *)

(** Thread 20 takes the last unit of the counting semaphore, then waits for another one,
    for one tick. *)
Definition demo_taken : KERNEL := default demo_sys (sys_exec demo_sys (SysSemC semc_id (SPend 20 LW_OPTION_WAIT_INFINITE))).
Definition demo_wait : KERNEL := default demo_taken (sys_exec demo_taken (SysSemC semc_id (SPend 20 1))).

Lemma demo_step k op : sem_inv id k -> sys_legal id k op -> reachable id demo_sys k ->
  sys_exec k op = Some (default k (sys_exec k op)) /\ reachable id demo_sys (default k (sys_exec k op)).
Proof.
  intros Hi Hl Hr. destruct (sys_step_safe id k op Hi Hl) as (k' & E & _). rewrite E. split; [done|].
  by apply (reach_step id demo_sys k op k').
Qed.

Lemma demo_runs20 k : sview (K_sched k) 20 = Some (50, 0) -> LW_NCPUS (K_sched k) = 2 -> runs id k 20.
Proof. intros H1 H2. split; [by exists 50|]. intros i Hi. unfold cpu_id in Hi. unfold id. lia. Qed.

Lemma demo_taken_reachable : reachable id demo_sys demo_taken.
Proof.
  apply (demo_step demo_sys (SysSemC semc_id (SPend 20 LW_OPTION_WAIT_INFINITE)) demo_sys_inv); [|apply reach_init].
  split; [apply demo_runs20; by vm_compute|by vm_compute].
Qed.

Lemma demo_wait_reachable : reachable id demo_sys demo_wait.
Proof.
  apply (demo_step demo_taken (SysSemC semc_id (SPend 20 1))); [by apply (reachable_inv id demo_sys), demo_taken_reachable; apply demo_sys_inv| |apply demo_taken_reachable].
  split; [apply demo_runs20; by vm_compute|by vm_compute].
Qed.

Lemma demo_waits : 20 ∈ wview demo_wait 0 0.
Proof. assert (E : wview demo_wait 0 0 = [20]) by (by vm_compute). rewrite E. left. Qed.

Lemma system_safe_witness :
  (sem_inv id demo_sys /\ reachable id demo_sys demo_wait) /\
  sem_inv id demo_wait /\ is_Some (sys_exec demo_wait SysTick).
Proof.
  split; [split; [exact demo_sys_inv|exact demo_wait_reachable]|].
  destruct (system_safe id demo_sys demo_wait demo_sys_inv demo_wait_reachable) as [H1 H2].
  split; [exact H1|]. exact (H2 SysTick I).
Defined.

(** ** A reader-writer lock and a mutex of the small system *)

Definition next (k : KERNEL) (op : SYS) : KERNEL := default k (sys_exec k op).

Lemma patient_reachable idle k0 k : patient idle k0 k -> reachable idle k0 k.
Proof. induction 1 as [|k op k' _ IH Hl E _]; [apply reach_init|by apply (reach_step idle k0 k op k')]. Qed.

Lemma next_ok k op : sem_inv id k -> sys_legal id k op -> sys_exec k op = Some (next k op) /\ sem_inv id (next k op).
Proof. intros Hi Hl. unfold next. by destruct (sys_step_safe id k op Hi Hl) as (k' & -> & H). Qed.

Lemma next_patient k op : patient id demo_sys k -> sys_legal id k op -> op <> SysTick -> patient id demo_sys (next k op).
Proof.
  intros Hp Hl Ht. pose proof (reachable_inv id demo_sys k demo_sys_inv (patient_reachable id demo_sys k Hp)) as Hi.
  destruct (next_ok k op Hi Hl) as [E _]. by apply (patient_step id demo_sys k op).
Qed.

Lemma demo_runs_at k t p : sview (K_sched k) t = Some (p, 0) -> LW_NCPUS (K_sched k) = 2 -> 2 <= t -> runs id k t.
Proof. intros H1 H2 Ht. split; [by exists p|]. intros i Hi. unfold cpu_id in Hi. unfold id. lia. Qed.

(** Thread 10 reads, thread 20 waits to write for one tick, thread 21 waits to read. *)
Definition demo_rd1 : KERNEL := next demo_sys (SysRw semrw_id (RdLock 10 LW_OPTION_WAIT_INFINITE)).
Definition demo_rd2 : KERNEL := next demo_rd1 (SysRw semrw_id (WrLock 20 1)).
Definition demo_rd3 : KERNEL := next demo_rd2 (SysRw semrw_id (RdLock 21 LW_OPTION_WAIT_INFINITE)).

Ltac demo_legal p :=
  let E := fresh in let H := fresh in intros E H; vm_compute in H; injection H as <-;
  split; [apply (demo_runs_at _ _ p); [by vm_compute|by vm_compute|lia]|split; by vm_compute].

Lemma demo_rd_patient : patient id demo_sys demo_rd3.
Proof.
  assert (H1 : patient id demo_sys demo_rd1) by (apply next_patient; [apply patient_init|demo_legal 100|done]).
  assert (H2 : patient id demo_sys demo_rd2).
  { apply next_patient; [exact H1| |done]. intros E H. split; [apply (demo_runs_at _ _ 50); [by vm_compute|by vm_compute|lia]|by vm_compute]. }
  apply next_patient; [exact H2|demo_legal 200|done].
Qed.

Lemma demo_rd_inv : sem_inv id demo_rd3.
Proof. exact (reachable_inv id demo_sys _ demo_sys_inv (patient_reachable _ _ _ demo_rd_patient)). Qed.

Lemma demo_justified : readers_justified demo_sys.
Proof.
  intros e E _ _ H. exfalso. apply H. destruct (wview demo_sys e 0) as [|t l] eqn:Ev; [done|].
  assert (Ht : t ∈ wview demo_sys e 0) by (rewrite Ev; left). pose proof (sv_kern _ _ demo_sys_inv) as [Hk _].
  apply (elem_of_wview id SEMB _ demo_sys e 0 t Hk) in Ht as [b Hb].
  destruct (wait_at_bucket id SEMB _ demo_sys t e 0 b Hk Hb) as (_ & _ & _ & _ & w & Hw & Hwe & _).
  assert (Ha : map_Forall (fun _ w => TCB_peventPtr w = None) (K_wait demo_sys)) by (apply (bool_decide_unpack _); by vm_compute).
  by rewrite (Ha t w Hw) in Hwe.
Qed.

Lemma waits_have_reason_witness :
  (sem_inv id demo_sys /\ reachable id demo_sys demo_rd3 /\ 21 ∈ wview demo_rd3 3 0) /\
  exists E, K_event demo_rd3 !! 3 = Some E /\ unavailable demo_rd3 3 E /\ rd_busy (rw_abs demo_rd3 3 E).
Proof.
  assert (Ev : wview demo_rd3 3 0 = [21]) by (by vm_compute).
  assert (Hin : 21 ∈ wview demo_rd3 3 0) by (rewrite Ev; left).
  split; [split; [exact demo_sys_inv|split; [exact (patient_reachable _ _ _ demo_rd_patient)|exact Hin]]|].
  destruct (waits_have_reason id demo_sys demo_rd3 21 3 0 demo_sys_inv (patient_reachable _ _ _ demo_rd_patient) Hin)
    as (E & w & p & st & H1 & H2 & _ & _ & _ & _ & _ & _ & _ & _ & H3).
  exists E. split; [exact H1|]. split; [exact H2|]. apply H3; [|reflexivity|exact demo_rd_patient|exact demo_justified].
  assert (Ht : EVENT_ucType <$> K_event demo_rd3 !! 3 = Some LW_TYPE_EVENT_SEMRW) by (by vm_compute).
  rewrite H1 in Ht. by injection Ht.
Defined.

(** A reader left waiting: the tick ends the wait of the writer 20, nobody lets the reader 21 in, and
    it stays in the queue although the lock is held by a reader only and no writer waits: a new read
    lock, of thread 20, succeeds at once. *)
Definition demo_rd4 : KERNEL := next demo_rd3 SysTick.

Lemma reader_left_waiting : reachable id demo_sys demo_rd4 /\ wview demo_rd4 3 0 = [21] /\ wview demo_rd4 3 1 = [] /\
  exists E k', K_event demo_rd4 !! 3 = Some E /\ ~ rd_busy (rw_abs demo_rd4 3 E) /\
    rw_call demo_rd4 semrw_id (RdLock 20 LW_OPTION_NOT_WAIT) = Some (k', ERROR_NONE) /\ wview k' 3 0 = [21].
Proof.
  split; [|split; [by vm_compute|split; [by vm_compute|]]].
  - apply (reach_step id demo_sys demo_rd3 SysTick); [exact (patient_reachable _ _ _ demo_rd_patient)|done|].
    apply (next_ok demo_rd3 SysTick demo_rd_inv I).
  - assert (Ex : K_event demo_rd4 !! 3 = Some (mkEvent LW_TYPE_EVENT_SEMRW None 1 0 0 0 0 0)) by (by vm_compute).
    assert (H : match rw_call demo_rd4 semrw_id (RdLock 20 LW_OPTION_NOT_WAIT) with
                | Some (k', r) => (r =? ERROR_NONE) && bool_decide (wview k' 3 0 = [21]) | None => false end = true) by (by vm_compute).
    destruct (rw_call _ _ _) as [[k' r]|]; [|discriminate H]. apply andb_true_iff in H as [->%Z.eqb_eq Hq%bool_decide_eq_true_1].
    eexists _, k'. split; [exact Ex|]. split; [|by split]. assert (Ew : wview demo_rd4 3 1 = []) by (by vm_compute).
    intros [Hb|Hb]; apply Hb; [done|exact Ew].
Qed.

(** Thread 10 owns the mutex and thread 20 waits for it. *)
Definition demo_mx1 : KERNEL := next demo_sys (SysMutex semm_id (MLock 10 LW_OPTION_WAIT_INFINITE)).
Definition demo_mx2 : KERNEL := next demo_mx1 (SysMutex semm_id (MLock 20 LW_OPTION_WAIT_INFINITE)).

Lemma demo_mx_inv : sem_inv id demo_mx2.
Proof.
  assert (H1 : sem_inv id demo_mx1).
  { apply next_ok; [exact demo_sys_inv|]. split; [apply (demo_runs_at _ _ 100); [by vm_compute|by vm_compute|lia]|by vm_compute]. }
  apply next_ok; [exact H1|]. split; [apply (demo_runs_at _ _ 50); [by vm_compute|by vm_compute|lia]|by vm_compute].
Qed.

Lemma demo_wait_inv : sem_inv id demo_wait.
Proof. apply (reachable_inv id demo_sys); [apply demo_sys_inv|apply demo_wait_reachable]. Qed.

Lemma API_SemaphoreDelete_spec_witness :
  (exists E, sem_inv id demo_wait /\ LW_CPU_GET_CUR_NESTING (call 10) = 0 /\ live_handle demo_wait semc_id E) /\
  exists k', API_SemaphoreDelete demo_wait (call 10) semc_id = Some (k', ERROR_NONE, LW_OBJECT_HANDLE_INVALID) /\
    deleted demo_wait k' 0 /\
    resume_call ResC k' 20 semc_id 0 0 1 0 0 = Some (k', Return ERROR_EVENT_WAS_DELETED).
Proof.
  assert (Hl : live_handle demo_wait semc_id (mkEvent LW_TYPE_EVENT_SEMC None 0 2 0 0 0 0)).
  { split; [by vm_compute|left; split; by vm_compute]. }
  split; [eexists; split; [exact demo_wait_inv|split; [reflexivity|exact Hl]]|].
  destruct (API_SemaphoreDelete_spec id demo_wait (call 10) semc_id _ demo_wait_inv eq_refl Hl) as (k' & E & _ & Hd & Hr & _).
  exists k'. split; [exact E|]. split; [exact Hd|].
  apply (Hr 20 ResC 0 0 1 0). left. exact demo_waits.
Defined.

Definition demo_unlock : SYS := SysRw semrw_id (RwUnlock 10).
Definition demo_hand : SYS := SysMutex semm_id (MUnlock 10).

(** The tick that ends the wait of the writer 20, the read unlock that lets the reader 21 in, and
    the hand-over of the mutex. *)
Lemma wait_outcomes_witness :
  (20 ∈ wview demo_rd3 3 1 /\ 20 ∉ wview (next demo_rd3 SysTick) 3 1 /\
   21 ∈ wview demo_rd3 3 0 /\ 21 ∉ wview (next demo_rd3 demo_unlock) 3 0 /\ 20 ∈ wview demo_mx2 2 0 /\ 20 ∉ wview (next demo_mx2 demo_hand) 2 0) /\
  resume_call ResWr (next demo_rd3 SysTick) 20 semrw_id 1 0 1 0 0 = Some (next demo_rd3 SysTick, Return ERROR_THREAD_WAIT_TIMEOUT) /\
  resume_call ResRd (next demo_rd3 demo_unlock) 21 semrw_id 1 0 1 0 0 = Some (next demo_rd3 demo_unlock, Return ERROR_NONE) /\
  resume_call ResM (next demo_mx2 demo_hand) 20 semm_id 1 0 1 0 0 = Some (next demo_mx2 demo_hand, Return ERROR_NONE).
Proof.
  assert (Ht : 20 ∈ wview demo_rd3 3 1 /\ 20 ∉ wview (next demo_rd3 SysTick) 3 1 /\
   21 ∈ wview demo_rd3 3 0 /\ 21 ∉ wview (next demo_rd3 demo_unlock) 3 0 /\ 20 ∈ wview demo_mx2 2 0 /\ 20 ∉ wview (next demo_mx2 demo_hand) 2 0).
  { assert (E1 : wview demo_rd3 3 1 = [20]) by (by vm_compute). assert (E2 : wview (next demo_rd3 SysTick) 3 1 = []) by (by vm_compute).
    assert (E6 : wview demo_rd3 3 0 = [21]) by (by vm_compute). assert (E3 : wview (next demo_rd3 demo_unlock) 3 0 = []) by (by vm_compute). assert (E4 : wview demo_mx2 2 0 = [20]) by (by vm_compute).
    assert (E5 : wview (next demo_mx2 demo_hand) 2 0 = []) by (by vm_compute).
    rewrite E1, E2, E3, E4, E5, E6. split; [left|]. split; [apply not_elem_of_nil|]. split; [left|]. split; [apply not_elem_of_nil|]. split; [left|apply not_elem_of_nil]. }
  split; [exact Ht|]. destruct Ht as (A1 & A2 & A6 & A3 & A4 & A5).
  assert (L1 : sys_legal id demo_rd3 demo_unlock).
  { intros E _. apply (demo_runs_at _ _ 100); [by vm_compute|by vm_compute|lia]. }
  assert (L2 : sys_legal id demo_mx2 demo_hand) by (apply (demo_runs_at _ _ 50); [by vm_compute|by vm_compute|lia]).
  split; [|split].
  - exact (wait_outcomes id demo_rd3 SysTick _ 20 3 1 ResWr semrw_id 1 0 1 0 demo_rd_inv I (proj1 (next_ok demo_rd3 SysTick demo_rd_inv I)) A1 A2).
  - exact (wait_outcomes id demo_rd3 demo_unlock _ 21 3 0 ResRd semrw_id 1 0 1 0 demo_rd_inv L1 (proj1 (next_ok demo_rd3 demo_unlock demo_rd_inv L1)) A6 A3).
  - exact (wait_outcomes id demo_mx2 demo_hand _ 20 2 0 ResM semm_id 1 0 1 0 demo_mx_inv L2 (proj1 (next_ok demo_mx2 demo_hand demo_mx_inv L2)) A4 A5).
Defined.

Lemma pool_exact_witness :
  (sem_inv id demo_sys /\ reachable id demo_sys demo_wait) /\ NoDup (RESRC_free (K_resrcEvent demo_wait)).
Proof.
  split; [split; [exact demo_sys_inv|exact demo_wait_reachable]|].
  exact (proj1 (pool_exact id demo_sys demo_wait demo_sys_inv demo_wait_reachable)).
Defined.

Lemma counters_bounded_witness :
  (sem_inv id demo_sys /\ reachable id demo_sys demo_wait /\ is_Some (K_event demo_wait !! 0)) /\
  _EventWaitNum demo_wait 0 0 = 1.
Proof.
  assert (Ex : K_event demo_wait !! 0 = Some (mkEvent LW_TYPE_EVENT_SEMC None 0 2 0 0 0 0)) by (by vm_compute).
  split; [split; [exact demo_sys_inv|split; [exact demo_wait_reachable|by eexists]]|].
  destruct (counters_bounded id demo_sys demo_wait 0 _ demo_sys_inv demo_wait_reachable Ex) as (_ & _ & _ & _ & H).
  destruct (H 0) as [-> _]. assert (Ew : wview demo_wait 0 0 = [20]) by (by vm_compute). rewrite Ew. reflexivity.
Defined.

Lemma queue_loops_terminate_witness :
  (kern_inv id SEMB demo_wait /\ is_Some (K_event demo_wait !! 0) /\ (length (wview demo_wait 0 0) < 2)%nat) /\
  exists k', delete_loop LW_THREAD_STATUS_SEM 2 demo_wait 0 0 = Some k' /\ wview k' 0 0 = [].
Proof.
  assert (Ex : K_event demo_wait !! 0 = Some (mkEvent LW_TYPE_EVENT_SEMC None 0 2 0 0 0 0)) by (by vm_compute).
  assert (Ew : wview demo_wait 0 0 = [20]) by (by vm_compute).
  assert (Hn : (length (wview demo_wait 0 0) < 2)%nat) by (rewrite Ew; simpl; lia).
  split; [split; [exact (sv_kern _ _ demo_wait_inv)|split; [by eexists|exact Hn]]|].
  destruct (queue_loops_terminate id demo_wait 0 _ 0 2 0 (sv_kern _ _ demo_wait_inv) Ex Hn) as (_ & (k' & H1 & _ & H2) & _).
  exists k'. split; [exact H1|exact H2].
Defined.
