(* ===== verification/Errors.v ===== *)
(** * Calls that fail

    A service of the semaphores that returns an error code has changed nothing,
    whatever the state, the handle and the caller are. *)

From S2P Require Import Prelude Lists Bitmap Sched SchedSpec Object Wakeup Kernel Event EventSpec Boot TickSpec Semaphore Mutex SemSpec LifeSpec SemRefine MutexSpec RwSpec System.














