(* ===== verification/EventSet.v ===== *)
(** * Event sets: kernel/interface/EventSet*.c, kernel/core/_EventSetBlock.c and
    _EventSetReady.c

    A set of 64 flags that threads wait on, for all or any of some flags to be set or
    clear.  As in the file Semaphore every call is a transformation of the kernel
    state with the kernel locked, and a call that waits is split at its scheduling
    point.  The list of waiting nodes names the threads; a loop over it visits
    the nodes it had when the loop began, because unlinking a node leaves its own successor
    field alone (lemma [_List_Line_Del_next] of the file Lists). *)

From S2P Require Import Prelude Lists Bitmap Sched SchedSpec Object Wakeup Kernel Event Semaphore.

(** ** k_option.h, k_error.h *)

Definition LW_TYPE_EVENT_EVENTSET : Z := 5.
Definition LW_OPTION_EVENTSET_WAIT_CLR_ALL : Z := 0.
Definition LW_OPTION_EVENTSET_WAIT_CLR_ANY : Z := 1.
Definition LW_OPTION_EVENTSET_WAIT_SET_ALL : Z := 2.
Definition LW_OPTION_EVENTSET_WAIT_SET_ANY : Z := 3.
Definition LW_OPTION_EVENTSET_RETURN_ALL : Z := 0x40.
Definition LW_OPTION_EVENTSET_RESET : Z := 0x80.
Definition LW_OPTION_EVENTSET_RESET_ALL : Z := 0x100.
Definition LW_OPTION_EVENTSET_SET : Z := 1.
Definition LW_OPTION_EVENTSET_CLR : Z := 0.
Definition ERROR_EVENTSET_FULL : Z := 2001.
Definition ERROR_EVENTSET_TYPE : Z := 2002.
Definition ERROR_EVENTSET_WAIT_TYPE : Z := 2003.
Definition ERROR_EVENTSET_WAS_DELETED : Z := 2004.
Definition ERROR_EVENTSET_OPTION : Z := 2005.

Definition set_EVENTSET_ulEventSets (v : Z) (e : LW_CLASS_EVENTSET) : LW_CLASS_EVENTSET :=
  mkEventSet (EVENTSET_ucType e) (EVENTSET_plineWaitList e) v (EVENTSET_ulOption e).
Definition set_EVENTSET_ucType (v : Z) (e : LW_CLASS_EVENTSET) : LW_CLASS_EVENTSET :=
  mkEventSet v (EVENTSET_plineWaitList e) (EVENTSET_ulEventSets e) (EVENTSET_ulOption e).

(** ** inlObjectCheck.h *)

Definition _EventSet_Index_Invalid (k : KERNEL) (usIndex : Z) : bool := LW_CFG_MAX_EVENTSETS k <=? usIndex.
Definition _EventSet_Type_Invalid (k : KERNEL) (usIndex ucType : Z) : option bool :=
  E ← K_es k !! usIndex; Some (negb (EVENTSET_ucType E =? ucType)).

Definition eventset_check (k : KERNEL) (ulId : Z) : option Z :=
  if negb (_ObjectClassOK ulId _OBJECT_EVENT_SET) then Some ERROR_KERNEL_HANDLE_NULL
  else if _EventSet_Index_Invalid k (_ObjectGetIndex ulId) then Some ERROR_KERNEL_HANDLE_NULL
  else b ← _EventSet_Type_Invalid k (_ObjectGetIndex ulId) LW_TYPE_EVENT_EVENTSET;
       Some (if (b : bool) then ERROR_EVENTSET_TYPE else ERROR_NONE).

(** ** _EventSetBlock.c and _EventSetReady.c *)

(** The current thread waits; its node [pesn] goes to the head of the list. *)
Definition _EventSetBlock (k : KERNEL) (ptcbCur pes ulEvents ucWaitType ulWaitTime : Z) : option KERNEL :=
  st ← status k ptcbCur;
  let k := set_status ptcbCur (Z.lor st LW_THREAD_STATUS_EVENTSET) k in
  let k := upd_wait ptcbCur (set_TCB_ucWaitTimeout LW_WAIT_TIME_CLEAR) k in
  let k := upd_wait ptcbCur (set_TCB_ucIsEventDelete LW_EVENT_EXIST) k in
  let k := set_TCB_ulDelay ptcbCur ulWaitTime k in
  k ← (if negb (ulWaitTime =? 0) then __ADD_TO_WAKEUP_LINE k ptcbCur else Some k);
  let k := upd_wait ptcbCur (set_TCB_pesnPtr (Some ptcbCur)) k in
  let k := set_esn ptcbCur (mkEsn pes ulEvents ucWaitType) k in
  e ← K_es k !! pes;
  let k := upd_es pes (set_EVENTSET_plineWaitList (ptcbCur :: EVENTSET_plineWaitList e)) k in
  unready k ptcbCur.

(** What both wake-ups do after their first line. *)
Definition esn_ready (k : KERNEL) (ptcb ulEventSets : Z) : option KERNEL :=
  st ← status k ptcb;
  k ← (if has_option st LW_THREAD_STATUS_DELAY then __DEL_FROM_WAKEUP_LINE k ptcb else Some k);
  let k := set_TCB_ulDelay ptcb 0 k in
  let k := upd_wait ptcb (set_TCB_ulEventSets ulEventSets) k in
  st ← status k ptcb;
  let k := set_status ptcb (Z.ldiff st LW_THREAD_STATUS_EVENTSET) k in
  k ← ready_if k ptcb LW_SCHED_ACT_INTERRUPT;
  _EventSetUnQueue k ptcb.

Definition _EventSetDeleteReady (k : KERNEL) (pesn : Z) : option KERNEL :=
  esn_ready (upd_wait pesn (set_TCB_ucIsEventDelete LW_EVENT_DELETE) k) pesn 0.
Definition _EventSetThreadReady (k : KERNEL) (pesn ulEventsReady : Z) : option KERNEL :=
  esn_ready k pesn ulEventsReady.

(** ** The four kinds of wait *)

(** Is the wait over, and the flags that end it; [None]: no kind of wait. *)
Definition es_match (ucWaitType ulEvent ulEventSets : Z) : option (bool * Z) :=
  let set := Z.land ulEvent ulEventSets in
  let clr := Z.ldiff ulEvent ulEventSets in
  if ucWaitType =? LW_OPTION_EVENTSET_WAIT_SET_ALL then Some (ulEvent =? set, set)
  else if ucWaitType =? LW_OPTION_EVENTSET_WAIT_SET_ANY then Some (negb (set =? 0), set)
  else if ucWaitType =? LW_OPTION_EVENTSET_WAIT_CLR_ALL then Some (ulEvent =? clr, clr)
  else if ucWaitType =? LW_OPTION_EVENTSET_WAIT_CLR_ANY then Some (negb (clr =? 0), clr)
  else None.

Definition wait_set (ucWaitType : Z) : bool :=
  (ucWaitType =? LW_OPTION_EVENTSET_WAIT_SET_ALL) || (ucWaitType =? LW_OPTION_EVENTSET_WAIT_SET_ANY).
Definition wait_clr (ucWaitType : Z) : bool :=
  (ucWaitType =? LW_OPTION_EVENTSET_WAIT_CLR_ALL) || (ucWaitType =? LW_OPTION_EVENTSET_WAIT_CLR_ANY).

(** The flags after the reset a successful wait asks for. *)
Definition es_reset (ucWaitType ulOption ulEventRdy ulEventSets : Z) : Z :=
  if has_option ulOption LW_OPTION_EVENTSET_RESET then
    if wait_set ucWaitType then Z.ldiff ulEventSets ulEventRdy
    else if wait_clr ucWaitType then Z.lor ulEventSets ulEventRdy else ulEventSets
  else if has_option ulOption LW_OPTION_EVENTSET_RESET_ALL then
    if wait_set ucWaitType then 0
    else if wait_clr ucWaitType then ULONG_MAX else ulEventSets
  else ulEventSets.

(** [__EVENTSET_SAVE_RET]: what goes to [*pulEvent]. *)
Definition es_return (ulOption ulEventRdy ulEventSets : Z) : Z :=
  if has_option ulOption LW_OPTION_EVENTSET_RETURN_ALL then ulEventSets else ulEventRdy.

(** [(UINT8)(ulOption & 0x0F)]. *)
Definition wait_type (ulOption : Z) : Z := Z.land ulOption 0x0F.

(** A get whose flags are there. *)
Definition es_take (k : KERNEL) (ptcbCur pes ulOption ulEventRdy ulEventSets : Z) : KERNEL :=
  let k := upd_es pes (set_EVENTSET_ulEventSets (es_reset (wait_type ulOption) ulOption ulEventRdy ulEventSets)) k in
  upd_wait ptcbCur (set_TCB_ulEventSets ulEventRdy) k.

(** ** The calls *)

(** Result: the handle and the error code. *)
Definition API_EventSetCreate (k : KERNEL) (c : CALL) (pcName : option (list Z)) (ulInitEvent ulOption : Z)
    : option (KERNEL * Z * Z) :=
  if negb (LW_CPU_GET_CUR_NESTING c =? 0) then Some (k, LW_OBJECT_HANDLE_INVALID, ERROR_KERNEL_IN_ISR)
  else if _Object_Name_Invalid pcName then Some (k, LW_OBJECT_HANDLE_INVALID, ERROR_KERNEL_PNAME_TOO_LONG)
  else match _Allocate_EventSet_Object (K_resrcEventSet k) with
       | None => Some (k, LW_OBJECT_HANDLE_INVALID, ERROR_EVENTSET_FULL)
       | Some (r, pes) =>
         Some (upd_es pes (fun _ => mkEventSet LW_TYPE_EVENT_EVENTSET [] ulInitEvent ulOption) (set_resrces r k),
               _MakeObjectId _OBJECT_EVENT_SET LW_CFG_PROCESSOR_NUMBER pes, ERROR_NONE)
       end.

(** Result: also the value for [*pulEvent], when it is written. *)
Definition API_EventSetTryGetEx (k : KERNEL) (c : CALL) (ulId ulEvent ulOption : Z)
    : option (KERNEL * Z * option Z) :=
  let pes := _ObjectGetIndex ulId in
  err ← eventset_check k ulId;
  if negb (err =? ERROR_NONE) then Some (k, err, None)
  else
    E ← K_es k !! pes;
    match es_match (wait_type ulOption) ulEvent (EVENTSET_ulEventSets E) with
    | None => Some (k, ERROR_EVENTSET_WAIT_TYPE, None)
    | Some (true, ulEventRdy) =>
      Some (es_take k (LW_TCB_GET_CUR c) pes ulOption ulEventRdy (EVENTSET_ulEventSets E), ERROR_NONE,
            Some (es_return ulOption ulEventRdy (EVENTSET_ulEventSets E)))
    | Some (false, _) => Some (k, ERROR_THREAD_WAIT_TIMEOUT, None)
    end.
Definition API_EventSetTryGet (k : KERNEL) (c : CALL) (ulId ulEvent ulOption : Z) : option (KERNEL * Z) :=
  '(k, err, _) ← API_EventSetTryGetEx k c ulId ulEvent ulOption; Some (k, err).

(** [API_EventSetGetEx] from [__wait_again] on. *)
Definition es_wait_again (k : KERNEL) (ptcbCur ulId ulEvent ulOption ulTimeout : Z)
    : option (KERNEL * PEND * option Z) :=
  let pes := _ObjectGetIndex ulId in
  let ulWaitTime := if ulTimeout =? LW_OPTION_WAIT_INFINITE then 0 else ulTimeout in
  err ← eventset_check k ulId;
  if negb (err =? ERROR_NONE) then Some (k, Return err, None)
  else
    E ← K_es k !! pes;
    match es_match (wait_type ulOption) ulEvent (EVENTSET_ulEventSets E) with
    | None => Some (k, Return ERROR_EVENTSET_WAIT_TYPE, None)
    | Some (true, ulEventRdy) =>
      Some (es_take k ptcbCur pes ulOption ulEventRdy (EVENTSET_ulEventSets E), Return ERROR_NONE,
            Some (es_return ulOption ulEventRdy (EVENTSET_ulEventSets E)))
    | Some (false, _) =>
      if ulTimeout =? LW_OPTION_NOT_WAIT then Some (k, Return ERROR_THREAD_WAIT_TIMEOUT, None)
      else k ← _EventSetBlock k ptcbCur pes ulEvent (wait_type ulOption) ulWaitTime;
           Some (k, Wait (EVENTSET_ulOption E), None)
    end.

Definition API_EventSetGetEx (k : KERNEL) (c : CALL) (ulId ulEvent ulOption ulTimeout : Z)
    : option (KERNEL * PEND * option Z) :=
  if negb (LW_CPU_GET_CUR_NESTING c =? 0) then Some (k, Return ERROR_KERNEL_IN_ISR, None)
  else es_wait_again k (LW_TCB_GET_CUR c) ulId ulEvent ulOption ulTimeout.

(** The rest of the call, when the thread runs again.  The flags are read and
    reset through [pes] as it was before the wait. *)
Definition API_EventSetGetEx_resume (k : KERNEL) (ptcbCur ulId ulEvent ulOption ulKernelTime ulTimeSave ulTimeout
    ulEventSetOption iSchedRet : Z) : option (KERNEL * PEND * option Z) :=
  if negb (iSchedRet =? 0) then
    if (iSchedRet =? LW_SIGNAL_EINTR) && has_option ulEventSetOption LW_OPTION_SIGNAL_INTER
    then Some (k, Return EINTR, None)
    else
      let ulTimeout := _sigTimeoutRecalc ulKernelTime ulTimeSave ulTimeout in
      if ulTimeout =? LW_OPTION_NOT_WAIT then Some (k, Return ERROR_THREAD_WAIT_TIMEOUT, None)
      else es_wait_again k ptcbCur ulId ulEvent ulOption ulTimeout
  else
    w ← K_wait k !! ptcbCur;
    if TCB_ucWaitTimeout w =? LW_WAIT_TIME_OUT then Some (k, Return ERROR_THREAD_WAIT_TIMEOUT, None)
    else
      let ulEventRdy := TCB_ulEventSets w in
      if TCB_ucIsEventDelete w =? LW_EVENT_EXIST then
        let pes := _ObjectGetIndex ulId in
        E ← K_es k !! pes;
        Some (upd_es pes (set_EVENTSET_ulEventSets
                (es_reset (wait_type ulOption) ulOption ulEventRdy (EVENTSET_ulEventSets E))) k,
              Return ERROR_NONE, Some (es_return ulOption ulEventRdy (EVENTSET_ulEventSets E)))
      else Some (k, Return ERROR_EVENTSET_WAS_DELETED, None).

Definition API_EventSetGet (k : KERNEL) (c : CALL) (ulId ulEvent ulOption ulTimeout : Z) : option (KERNEL * PEND) :=
  '(k, r, _) ← API_EventSetGetEx k c ulId ulEvent ulOption ulTimeout; Some (k, r).

(** The loop of [API_EventSetSet]: every waiting node whose wait is over is
    woken. *)
Fixpoint es_wake (l : list Z) (k : KERNEL) (pes : Z) : option KERNEL :=
  match l with
  | [] => Some k
  | pesn :: l =>
    n ← K_esn k !! pesn;
    E ← K_es k !! pes;
    k ← match es_match (EVENTSETNODE_ucWaitType n) (EVENTSETNODE_ulEventSets n) (EVENTSET_ulEventSets E) with
        | Some (true, ulEventRdy) => _EventSetThreadReady k pesn ulEventRdy
        | _ => Some k
        end;
    es_wake l k pes
  end.

Definition API_EventSetSet (k : KERNEL) (ulId ulEvent ulOption : Z) : option (KERNEL * Z) :=
  let pes := _ObjectGetIndex ulId in
  err ← eventset_check k ulId;
  if negb (err =? ERROR_NONE) then Some (k, err)
  else
    E ← K_es k !! pes;
    match (if ulOption =? LW_OPTION_EVENTSET_CLR then Some (Z.ldiff (EVENTSET_ulEventSets E) ulEvent)
           else if ulOption =? LW_OPTION_EVENTSET_SET then Some (Z.lor (EVENTSET_ulEventSets E) ulEvent)
           else None) with
    | None => Some (k, ERROR_EVENTSET_OPTION)
    | Some v =>
      k ← es_wake (EVENTSET_plineWaitList E) (upd_es pes (set_EVENTSET_ulEventSets v) k) pes;
      Some (k, ERROR_NONE)
    end.

(** The loop of [API_EventSetDelete]. *)
Fixpoint es_delete_loop (l : list Z) (k : KERNEL) : option KERNEL :=
  match l with
  | [] => Some k
  | pesn :: l => k ← _EventSetDeleteReady k pesn; es_delete_loop l k
  end.

(** Result: the error code and the handle the caller is left with. *)
Definition API_EventSetDelete (k : KERNEL) (c : CALL) (ulId : Z) : option (KERNEL * Z * Z) :=
  if negb (LW_CPU_GET_CUR_NESTING c =? 0) then Some (k, ERROR_KERNEL_IN_ISR, ulId)
  else
    let pes := _ObjectGetIndex ulId in
    err ← eventset_check k ulId;
    if negb (err =? ERROR_NONE) then Some (k, err, ulId)
    else
      E ← K_es k !! pes;
      k ← es_delete_loop (EVENTSET_plineWaitList E) k;
      let k := upd_es pes (set_EVENTSET_ucType LW_TYPE_EVENT_UNUSED) k in
      let k := upd_es pes (set_EVENTSET_plineWaitList []) k in
      Some (set_resrces (_Free_EventSet_Object (K_resrcEventSet k) pes) k, ERROR_NONE, LW_OBJECT_HANDLE_INVALID).

(** Result: the error code, [*pulEvent] and [*pulOption]. *)
Definition API_EventSetStatus (k : KERNEL) (ulId : Z) : option (Z * option (Z * Z)) :=
  err ← eventset_check k ulId;
  if negb (err =? ERROR_NONE) then Some (err, None)
  else E ← K_es k !! _ObjectGetIndex ulId; Some (ERROR_NONE, Some (EVENTSET_ulEventSets E, 0)).
