(* ===== verification/EventSetSpec.v ===== *)
(** * Event sets keep their promises

    The invariant of the event sets over the waiting kernel (file EventSpec), what
    blocking on a set and waking from one change, and the services of the
    file EventSet against an abstract set of flags with its waiting threads. *)

From S2P Require Import Prelude Lists Bitmap Sched SchedSpec Object Wakeup Kernel Event EventSpec Boot TickSpec Semaphore Mutex SemSpec LifeSpec SemRefine EventSet.

(** ** The four kinds of wait, flag by flag *)

Definition valid_type (ty : Z) : Prop := 0 <= ty <= 3.

(** The wait is over. *)
Definition over (ty ev flags : Z) : Prop :=
  if ty =? LW_OPTION_EVENTSET_WAIT_SET_ALL then forall i, Z.testbit ev i = true -> Z.testbit flags i = true
  else if ty =? LW_OPTION_EVENTSET_WAIT_SET_ANY then exists i, Z.testbit ev i = true /\ Z.testbit flags i = true
  else if ty =? LW_OPTION_EVENTSET_WAIT_CLR_ALL then forall i, Z.testbit ev i = true -> Z.testbit flags i = false
  else exists i, Z.testbit ev i = true /\ Z.testbit flags i = false.

(** A wait for flags that are set (the kinds 2 and 3), or clear (0 and 1). *)
Definition for_set (ty : Z) : bool := 2 <=? ty.

(** The flags that end it. *)
Definition hits (ty ev flags : Z) : Z := if for_set ty then Z.land ev flags else Z.ldiff ev flags.

(** What a successful wait with the flags [h] makes of the flags, one by one: the option to reset
    takes back the flags of [h], the option to reset all takes back every flag, and without
    either nothing changes; a flag that was waited for as set is cleared, one
    that was waited for as clear is set. *)
Definition flag_after (ty opt h flags i : Z) : bool :=
  if has_option opt LW_OPTION_EVENTSET_RESET && Z.testbit h i then negb (for_set ty)
  else if negb (has_option opt LW_OPTION_EVENTSET_RESET) && has_option opt LW_OPTION_EVENTSET_RESET_ALL then negb (for_set ty)
  else Z.testbit flags i.
Definition resets (ty opt h flags flags' : Z) : Prop :=
  0 <= flags' <= ULONG_MAX /\ forall i, 0 <= i < 64 -> Z.testbit flags' i = flag_after ty opt h flags i.

Lemma wait_set_for ty : valid_type ty -> wait_set ty = for_set ty /\ wait_clr ty = negb (for_set ty).
Proof.
  unfold valid_type. intros H. assert (Hc : ty = 0 \/ ty = 1 \/ ty = 2 \/ ty = 3) by lia.
  by destruct Hc as [->|[->|[->| ->]]].
Qed.

Lemma nonzero_bit x : x <> 0 <-> exists i, Z.testbit x i = true.
Proof.
  split.
  - intros Hx. destruct (decide (0 <= x)) as [Hp|Hn].
    + exists (Z.log2 x). apply Z.bit_log2. lia.
    + exists (Z.log2 (Z.pred (- x)) + 1). apply Z.bits_above_log2_neg; lia.
  - intros [i Hi] ->. by rewrite Z.bits_0 in Hi.
Qed.

Lemma eqb_bits a b : (a =? b) = true <-> forall i, Z.testbit a i = Z.testbit b i.
Proof. rewrite Z.eqb_eq. split; [by intros ->|apply Z.bits_inj]. Qed.

Lemma es_match_spec ty ev flags : valid_type ty ->
  exists b, es_match ty ev flags = Some (b, hits ty ev flags) /\ (b = true <-> over ty ev flags).
Proof.
  intros Ht. unfold valid_type in Ht.
  assert (Hc : ty = 0 \/ ty = 1 \/ ty = 2 \/ ty = 3) by lia.
  assert (Hl : forall (f : Z -> Z -> Z) (g : bool -> bool), (forall i, Z.testbit (f ev flags) i = Z.testbit ev i && g (Z.testbit flags i)) ->
    ((ev =? f ev flags) = true <-> forall i, Z.testbit ev i = true -> g (Z.testbit flags i) = true) /\
    (negb (f ev flags =? 0) = true <-> exists i, Z.testbit ev i = true /\ g (Z.testbit flags i) = true)).
  { intros f g Hf. split.
    - rewrite eqb_bits. split; intros H i; specialize (H i); rewrite Hf in *.
      + intros Hi. rewrite Hi in H. by simpl in H.
      + destruct (Z.testbit ev i); [by rewrite H|done].
    - rewrite negb_true_iff, Z.eqb_neq, nonzero_bit. split; intros [i H]; exists i; rewrite Hf in *.
      + by apply andb_true_iff in H.
      + by apply andb_true_iff. }
  destruct (Hl Z.land (fun b => b) (Z.land_spec ev flags)) as [L1 L2].
  destruct (Hl Z.ldiff negb (Z.ldiff_spec ev flags)) as [D1 D2].
  destruct Hc as [->|[->|[->| ->]]]; (eexists; split; [reflexivity|]); unfold over; cbn [Z.eqb].
  - setoid_rewrite negb_true_iff in D1. exact D1.
  - setoid_rewrite negb_true_iff in D2 at 2. exact D2.
  - exact L1.
  - exact L2.
Qed.

(** ** Waking from an event set *)

(** The threads [f] names have left event set [e] with the flags it gives, their
    control blocks rewritten by [g]; nothing else has changed. *)
Record es_served (g : WAIT -> WAIT) (k k' : KERNEL) (e : Z) (f : Z -> option Z) : Prop := {
  sd_wait : forall u, K_wait k' !! u = match f u with
    | Some v => (fun w => set_TCB_pesnPtr None (set_TCB_ulEventSets v (g w))) <$> K_wait k !! u
    | None => K_wait k !! u end;
  sd_list : K_es k' = alter (fun E => set_EVENTSET_plineWaitList (filter (fun u => f u = None) (EVENTSET_plineWaitList E)) E) e (K_es k);
  sd_esn : K_esn k' = K_esn k;
  sd_line : forall u, u ∈ WU_line (K_wuDelay k') <-> u ∈ WU_line (K_wuDelay k) /\ f u = None;
  sd_sview : forall u, f u = None -> sview (K_sched k') u = sview (K_sched k) u;
  sd_prio : forall u, prio k' u = prio k u;
  sd_event : K_event k' = K_event k;
  sd_wlQ : K_wlQ k' = K_wlQ k;
  sd_resrc : K_resrcEvent k' = K_resrcEvent k;
  sd_resrces : K_resrcEventSet k' = K_resrcEventSet k;
  sd_max : LW_CFG_MAX_EVENTS k' = LW_CFG_MAX_EVENTS k;
  sd_maxes : LW_CFG_MAX_EVENTSETS k' = LW_CFG_MAX_EVENTSETS k
}.

Definition only (t v : Z) : Z -> option Z := fun u => if decide (u = t) then Some v else None.

Lemma filter_true {A} (P : A -> Prop) {HP : forall x, Decision (P x)} (l : list A) : (forall x, x ∈ l -> P x) -> filter P l = l.
Proof.
  induction l as [|x l IH]; [done|]. intros H. rewrite filter_cons, decide_True by (apply H; left).
  f_equal. apply IH. intros y Hy. apply H. by right.
Qed.

Lemma filter_only t v l : NoDup l -> filter (fun u => only t v u = None) l = remove_node t l.
Proof.
  intros Hn. induction l as [|x l IH]; [done|]. apply NoDup_cons in Hn as [Hx Hn]. rewrite filter_cons. simpl.
  assert (Ho : forall y, only t v y = None <-> y <> t) by (intros y; unfold only; by case_decide).
  destruct (decide (x = t)) as [->|Hne].
  - rewrite Z.eqb_refl, decide_False by (rewrite Ho; tauto). apply filter_true. intros y Hy. apply Ho. by intros ->.
  - rewrite (proj2 (Z.eqb_neq x t)), decide_True by (done || by apply Ho). f_equal. by apply IH.
Qed.

Lemma es_alter_id k e (h : list Z -> list Z) : (forall E, K_es k !! e = Some E -> h (EVENTSET_plineWaitList E) = EVENTSET_plineWaitList E) ->
  alter (fun E => set_EVENTSET_plineWaitList (h (EVENTSET_plineWaitList E)) E) e (K_es k) = K_es k.
Proof.
  intros H. apply map_eq. intros e'. destruct (decide (e' = e)) as [->|]; [|by rewrite lookup_alter_ne].
  rewrite lookup_alter_eq. destruct (K_es k !! e) as [E|] eqn:HE; [|done]. simpl. rewrite H by done. by destruct E.
Qed.

Lemma es_served_refl g k e : es_served g k k e (fun _ => None).
Proof.
  split; try done.
  - rewrite (es_alter_id k e (filter (fun _ => None = None))); [done|]. intros E _. by apply filter_true.
  - tauto.
Qed.

Lemma es_served_trans g k1 k2 k3 e f1 f2 : (forall u, is_Some (f1 u) -> f2 u = None) ->
  es_served g k1 k2 e f1 -> es_served g k2 k3 e f2 ->
  es_served g k1 k3 e (fun u => match f1 u with Some v => Some v | None => f2 u end).
Proof.
  intros Hd [A1 A2 A3 A4 A5 A6 A7 A8 A9 A10 A11 A12] [B1 B2 B3 B4 B5 B6 B7 B8 B9 B10 B11 B12]. split; try congruence.
  - intros u. rewrite B1, A1. destruct (f1 u) as [v|] eqn:E; [|done]. by rewrite (Hd u) by (by eexists).
  - rewrite B2, A2, alter_alter_eq. apply map_eq. intros e'. destruct (decide (e' = e)) as [->|]; [|by rewrite !lookup_alter_ne].
    rewrite !lookup_alter_eq. destruct (K_es k1 !! e) as [E|]; [|done].
    cbn. unfold set_EVENTSET_plineWaitList. cbn. do 2 f_equal. rewrite list_filter_filter. apply list_filter_iff. intros u. destruct (f1 u); naive_solver.
  - intros u. rewrite B4, A4. destruct (f1 u); naive_solver.
  - intros u. destruct (f1 u) eqn:E; [done|]. intros Hu. rewrite B5, A5; done.
Qed.

Section Wake.
Context (idle B : Z -> Z).
Abbreviation kinv := (kern_inv idle B).

(** A thread in the list of an event set waits there and nowhere else. *)
Lemma es_waiter k e E t : kinv k -> K_es k !! e = Some E -> t ∈ EVENTSET_plineWaitList E ->
  exists w N p st, K_wait k !! t = Some w /\ TCB_peventPtr w = None /\ TCB_pesnPtr w = Some t /\
    K_esn k !! t = Some N /\ EVENTSETNODE_pesEventSet N = e /\
    sview (K_sched k) t = Some (p, st) /\ Z.land st WAIT_BITS = LW_THREAD_STATUS_EVENTSET /\
    (has_option st LW_THREAD_STATUS_DELAY = true <-> t ∈ WU_line (K_wuDelay k)) /\ is_Some (K_wun k !! t).
Proof.
  intros [Hk _] HE Hin. destruct (proj2 (ko_es _ _ _ _ Hk e E HE) t Hin) as [w Hw].
  pose proof (ko_thread _ _ _ _ Hk t w Hw) as [(p & st & Hv & Hb & Hd) Hpl Hen Hwn].
  unfold esn_ok in Hen. destruct (TCB_pesnPtr w) as [n|] eqn:Hes; [|by destruct (Hen e E HE)].
  destruct Hen as (-> & N & E' & HN & HE' & _ & Hu). specialize (Hu e E HE Hin).
  unfold place_ok in Hpl. destruct (TCB_peventPtr w) as [e0|] eqn:He.
  { destruct Hpl as (_ & _ & _ & _ & Hn & _). congruence. }
  exists w, N, p, st. splits; try done. rewrite Hb. unfold wait_bits. rewrite He, Hes. apply Z.lor_0_r.
Qed.

Lemma set_delay_0_stop k t k1 : stop_delay k t = Some k1 ->
  (st ← status k t;
   k ← (if has_option st LW_THREAD_STATUS_DELAY then __DEL_FROM_WAKEUP_LINE k t else Some k);
   Some (set_TCB_ulDelay t 0 k)) = Some (set_TCB_ulDelay t 0 k1).
Proof.
  unfold stop_delay. destruct (status k t) as [st|]; [|done]. cbn [mbind option_bind].
  destruct (has_option st LW_THREAD_STATUS_DELAY).
  - destruct (__DEL_FROM_WAKEUP_LINE k t) as [k2|]; [|done]. cbn [mbind option_bind]. intros [= <-].
    unfold set_TCB_ulDelay, set_delay, set_counter. cbn. by rewrite alter_alter_eq.
  - by intros [= <-].
Qed.

(** One wake-up. *)
Lemma esn_ready_spec g k t v e E : kinv k -> harmless_wait g -> K_es k !! e = Some E -> t ∈ EVENTSET_plineWaitList E ->
  exists k', esn_ready (upd_wait t g k) t v = Some k' /\ kinv k' /\ es_served g k k' e (only t v).
Proof.
  intros Hk0 Hg HE Hin.
  destruct (es_waiter k e E t Hk0 HE Hin) as (w & N & p & st & Hw & Hpe & Hes & HN & Ene & Hv & Hbits & Hdl & [nd Hnd]).
  pose proof (kern_inv_wait idle B k t g Hg Hk0) as Hk1.
  set (k1 := upd_wait t g k) in *. destruct Hk0 as [Hok [q0 Hq0]].
  destruct (stop_delay_spec idle k1 t p st nd) as (s' & w' & m' & st' & Est & [Si Sc Sl Sd Sq] & Hb' & Hd' & Hnl); try done;
    [apply Hk1|by exists q0|by rewrite Hbits|].
  unfold esn_ready. apply set_delay_0_stop in Est.
  destruct (status k1 t) as [st0|]; [|done]. cbn [mbind option_bind] in Est |- *.
  destruct (if has_option st0 LW_THREAD_STATUS_DELAY then _ else _) as [ka|]; [|done].
  cbn [mbind option_bind] in Est |- *. apply (inj Some) in Est. rewrite Est. clear Est ka.
  set (k2 := set_TCB_ulDelay t 0 _). set (k3 := upd_wait t (set_TCB_ulEventSets v) k2).
  assert (Hst' : st' <> 0) by (apply (land_nonzero _ WAIT_BITS); by rewrite Hb', Hbits).
  assert (Hvt : sview s' t = Some (p, st')) by (destruct Sc as [_ Sc]; by rewrite Sc, decide_True).
  unfold status at 1. change (K_sched k3) with s'. destruct (sview_some _ _ _ _ Hvt) as (T & HT & _ & ET).
  rewrite HT. cbn [fmap option_fmap option_map mbind option_bind]. rewrite ET.
  set (st2 := Z.ldiff st' LW_THREAD_STATUS_EVENTSET).
  destruct (ready_if_gen idle (set_status t st2 k3) s' t p st' st2 LW_SCHED_ACT_INTERRUPT Si Hvt Hst' eq_refl)
    as (s2 & -> & Hi2 & Hc2).
  cbn [mbind option_bind]. set (k4 := set_sched s2 (set_status t st2 k3)).
  unfold _EventSetUnQueue. change (K_esn k4) with (K_esn k). rewrite HN. cbn [mbind option_bind].
  change (K_es k4) with (K_es k). rewrite Ene, HE. cbn [mbind option_bind].
  rewrite bool_decide_eq_true_2 by done. set (l := remove_node t (EVENTSET_plineWaitList E)).
  set (k' := upd_wait t (set_TCB_pesnPtr None) _). exists k'. split; [done|].
  set (h := fun w => set_TCB_pesnPtr None (set_TCB_ulEventSets v (g w))).
  assert (Ewait : K_wait k' = alter h t (K_wait k)).
  { unfold k', k4, k3, k2, k1. cbn. rewrite !alter_alter_eq. done. }
  assert (Ees : K_es k' = alter (set_EVENTSET_plineWaitList l) e (K_es k)) by done.
  assert (Hwo : forall u, u <> t -> K_wait k' !! u = K_wait k !! u) by (intros u Hu; by rewrite Ewait, lookup_alter_ne).
  assert (Hv' : forall u, sview (K_sched k') u = if decide (u = t) then Some (p, st2) else sview (K_sched k) u).
  { intros u. change (K_sched k') with s2. destruct Hc2 as [_ Hc2], Sc as [_ Sc]. rewrite Hc2.
    case_decide; [done|]. by rewrite Sc, decide_False. }
  assert (Hln : forall u, u ∈ WU_line (K_wuDelay k') <-> u ∈ WU_line (K_wuDelay k) /\ u <> t).
  { intros u. change (WU_line (K_wuDelay k')) with (WU_line w'). destruct (decide (u = t)) as [->|Hu]; [tauto|].
    rewrite Sl by done. tauto. }
  rewrite <-Ene in HE. destruct (es_left idle B _ k k' t w N E Hok Hw Hes HN HE) as (L1 & L2 & L3); [by rewrite Ene|done|].
  rewrite Ene in HE.
  assert (Hq' : forall q, line_queue (WU_line (K_wuDelay k)) (K_wun k) q ->
    line_queue (WU_line (K_wuDelay k')) (K_wun k') (q_remove t q)).
  { intros q Hq. eapply line_queue_other; [by apply Sq|]. intros x Hx. change (K_wun k') with (set_counter t 0 m').
    rewrite lookup_counter, decide_False; [done|]. by intros ->. }
  split; [split; [|by exists (q_remove t q0); apply Hq']|].
  - assert (Hwt : K_wait k' !! t = Some (h w)) by (by rewrite Ewait, lookup_alter_eq, Hw).
    assert (Hpl : TCB_peventPtr (h w) = None) by (destruct (Hg w) as (_ & _ & Ep & _); cbn; congruence).
    apply (kern_ok_step idle B (fun _ => 0) _ k k' t (h w) Hok); try done.
    + intros u Hu. rewrite Hwo, Hv', decide_False, Hln by done. tauto.
    + rewrite Ewait. apply size_alter.
    + eapply same_dom_trans; [exact Sd|apply same_dom_counter].
    + intros u wu Hu _ Hen. by apply L1.
    + intros e1 E1 HE1. destruct (L3 e1 E1 HE1) as [H1 H2]. split; [done|]. intros u Hu. rewrite Ewait.
      destruct (decide (u = t)) as [->|Hut]; [by rewrite lookup_alter_eq, Hw|rewrite lookup_alter_ne by done; by apply H2].
    + destruct (ko_rings _ _ _ _ Hok) as [R1 R2 R3]. split; [|exact R2|exact R3].
      intros q u. change (wring k' q) with (wring k q). rewrite R1. unfold wait_at. destruct (decide (u = t)) as [->|Hu]; [|by rewrite Hwo].
      rewrite Hwt, Hw. cbn [mbind option_bind]. unfold place. by rewrite Hpe, Hpl.
    + split.
      * exists p, st2. rewrite Hv', decide_True by done. split; [done|]. split.
        -- unfold st2. rewrite land_ldiff. unfold wait_bits. rewrite Hpl. change (TCB_pesnPtr (h w)) with (@None Z).
           change (Z.ldiff WAIT_BITS LW_THREAD_STATUS_EVENTSET) with 6. simpl.
           change 6 with (Z.land WAIT_BITS 6). by rewrite Z.land_assoc, Hb', Hbits.
        -- unfold st2. rewrite wait_clear, Hd' by done. rewrite Hln. split; [done|tauto].
      * unfold place_ok. by rewrite Hpl.
      * unfold esn_ok. exact L2.
      * change (K_wun k') with (set_counter t 0 m'). apply same_dom_counter, Sd. by eexists.
  - split; try done.
    + intros u. rewrite Ewait. unfold only. case_decide as Hu; [subst; by rewrite lookup_alter_eq|by rewrite lookup_alter_ne].
    + rewrite Ees. apply map_eq. intros e'. destruct (decide (e' = e)) as [->|]; [|by rewrite !lookup_alter_ne].
      rewrite !lookup_alter_eq, HE. simpl. rewrite filter_only; [done|]. by apply (ko_es _ _ _ _ Hok e E).
    + intros u. rewrite Hln. unfold only. case_decide; naive_solver.
    + intros u. unfold only. case_decide as Hu; [done|]. intros _. by rewrite Hv', decide_False.
    + intros u. rewrite !prio_sview, Hv'. case_decide as Hu; [subst; by rewrite Hv|done].
Qed.

(** ** Waiting on an event set *)

(** What has become of the current thread when it waits on event set [e] for the
    flags [ev], for [n] ticks at most (0: for ever). *)
Record es_parked (k k' : KERNEL) (t e ev ty n : Z) : Prop := {
  ep_wait : exists w w', K_wait k !! t = Some w /\ K_wait k' !! t = Some w' /\ keeps w w' /\
    TCB_pesnPtr w' = Some t /\ TCB_ucIsEventDelete w' = LW_EVENT_EXIST /\ TCB_ucWaitTimeout w' = LW_WAIT_TIME_CLEAR;
  ep_others : others k k' t;
  ep_list : K_es k' = alter (fun E => set_EVENTSET_plineWaitList (t :: EVENTSET_plineWaitList E) E) e (K_es k);
  ep_esn : K_esn k' = <[t := mkEsn e ev ty]> (K_esn k);
  ep_prio : forall u, prio k' u = prio k u;
  ep_event : K_event k' = K_event k;
  ep_wlQ : K_wlQ k' = K_wlQ k;
  ep_resrc : K_resrcEvent k' = K_resrcEvent k;
  ep_resrces : K_resrcEventSet k' = K_resrcEventSet k;
  ep_max : LW_CFG_MAX_EVENTS k' = LW_CFG_MAX_EVENTS k;
  ep_maxes : LW_CFG_MAX_EVENTSETS k' = LW_CFG_MAX_EVENTSETS k;
  ep_queue : forall q, line_queue (WU_line (K_wuDelay k)) (K_wun k) q ->
    line_queue (WU_line (K_wuDelay k')) (K_wun k') (if n =? 0 then q else q_insert t n q)
}.

(** The delay of a thread with status [st] starts. *)
Lemma arm_spec k t n q0 : line_queue (WU_line (K_wuDelay k)) (K_wun k) q0 -> t ∉ WU_line (K_wuDelay k) ->
  is_Some (K_wun k !! t) -> 0 <= n <= ULONG_MAX -> status k t = Some LW_THREAD_STATUS_EVENTSET ->
  exists w' m' st', let k0 := set_TCB_ulDelay t n k in
    (if negb (n =? 0) then __ADD_TO_WAKEUP_LINE k0 t else Some k0) = Some (set_delay w' m' (set_status t st' k)) /\
    (st' = LW_THREAD_STATUS_EVENTSET /\ n = 0 \/ st' = Z.lor LW_THREAD_STATUS_EVENTSET LW_THREAD_STATUS_DELAY /\ n <> 0) /\
    same_dom (K_wun k) m' /\
    (forall u, u ∈ WU_line w' <-> u ∈ WU_line (K_wuDelay k) \/ (u = t /\ n <> 0)) /\
    (forall q, line_queue (WU_line (K_wuDelay k)) (K_wun k) q ->
       line_queue (WU_line w') m' (if n =? 0 then q else q_insert t n q)).
Proof.
  intros Hq0 Ht [nd Hnd] Hn Hst. set (m := set_counter t n (K_wun k)).
  assert (Hlq : forall q, line_queue (WU_line (K_wuDelay k)) (K_wun k) q -> line_queue (WU_line (K_wuDelay k)) m q).
  { intros q Hq. eapply line_queue_other; [exact Hq|]. intros x Hx. unfold m.
    rewrite lookup_counter, decide_False; [done|]. by intros ->. }
  unfold status in Hst. destruct (tcbs (K_sched k) !! t) as [T|] eqn:HT; [|done]. injection Hst as HS.
  destruct (Z.eqb_spec n 0) as [->|Hn0]; cbn [negb].
  - exists (K_wuDelay k), m, LW_THREAD_STATUS_EVENTSET. split; [|split; [by left|split; [apply same_dom_counter|split; [tauto|exact Hlq]]]].
    f_equal. unfold set_TCB_ulDelay, set_status, set_delay, set_sched, upd_tcb. cbn. f_equal.
    destruct (K_sched k) as [c tc n1 g]. cbn in *. f_equal. symmetry. apply map_eq. intros u.
    destruct (decide (u = t)) as [->|]; [|by rewrite lookup_alter_ne]. rewrite lookup_alter_eq, HT. simpl.
    f_equal. destruct T. unfold set_TCB_usStatus. simpl in *. congruence.
  - assert (Hmn : m !! t = Some (mkWun (WUN_bInQ nd) n)) by (unfold m; by rewrite lookup_counter, decide_True, Hnd).
    assert (Hadd : forall q, line_queue (WU_line (K_wuDelay k)) (K_wun k) q -> exists m',
      _WakeupAdd (K_wuDelay k) m t false 0 = Some (set_line (q_insert t n q).*1 (K_wuDelay k), m', false) /\
      line_queue (q_insert t n q).*1 m' (q_insert t n q)).
    { intros q Hq. destruct (add_spec (K_wuDelay k) m q t _ false 0 (Hlq q Hq) eq_refl Ht Hmn) as (m' & E & H & _); [done|].
      by exists m'. }
    destruct (Hadd q0 Hq0) as (m' & E & Hq').
    exists (set_line (q_insert t n q0).*1 (K_wuDelay k)), m', (Z.lor LW_THREAD_STATUS_EVENTSET LW_THREAD_STATUS_DELAY).
    split; [|split; [by right|split; [|split]]].
    + unfold __ADD_TO_WAKEUP_LINE, status. cbn [set_TCB_ulDelay set_delay K_sched]. rewrite HT.
      cbn [fmap option_fmap option_map mbind option_bind]. rewrite HS.
      cbn [set_status set_sched set_TCB_ulDelay set_delay K_wuDelay K_wun]. fold m. rewrite E. done.
    + eapply same_dom_trans; [apply (same_dom_counter t n)|]. by eapply add_dom.
    + intros u. cbn [set_line WU_line]. rewrite q_insert_perm. destruct Hq0 as (-> & _).
      cbn [fmap list_fmap fst]. rewrite elem_of_cons. tauto.
    + intros q Hq. destruct (Hadd q Hq) as (m2 & E2 & H2). rewrite E in E2. injection E2 as El <-.
      cbn [set_line WU_line]. by rewrite El.
Qed.

Lemma block_spec k t e E ev ty n : kinv k -> runs idle k t -> K_es k !! e = Some E -> 0 <= n <= ULONG_MAX ->
  exists k', _EventSetBlock k t e ev ty n = Some k' /\ kinv k' /\ es_parked k k' t e ev ty n.
Proof.
  intros [Hok [q0 Hq0]] [[p Hv] Hid] HE Hn.
  destruct (proj2 (ko_dom idle B _ k Hok t)) as [w Hw].
  { unfold sview in Hv. by destruct (tcbs (K_sched k) !! t). }
  destruct (running_free idle B _ k t w p Hok Hw Hv eq_refl) as (Epe & Epn & Htl & Hwa).
  pose proof (ko_thread idle B _ k Hok t w Hw) as [_ _ Hesn Hnd].
  destruct (sview_some _ _ _ _ Hv) as (T & HT & Ep & Es).
  unfold _EventSetBlock, status at 1. rewrite HT. cbn [fmap option_fmap option_map mbind option_bind].
  rewrite Es, Z.lor_0_l.
  set (g := fun w => set_TCB_ucIsEventDelete LW_EVENT_EXIST (set_TCB_ucWaitTimeout LW_WAIT_TIME_CLEAR w)).
  set (k1 := upd_wait t (set_TCB_ucIsEventDelete _) _).
  destruct (arm_spec k1 t n q0) as (w' & m' & st' & Ea & Hst' & Hdom & Hln & Hq'); try done.
  { unfold status. cbn [k1 upd_wait set_status set_sched K_sched]. by rewrite lookup_upd_tcb, decide_True, HT. }
  cbv zeta in Ea. rewrite Ea. cbn [mbind option_bind].
  set (k2 := set_esn t (mkEsn e ev ty) _). change (K_es k2) with (K_es k). rewrite HE. cbn [mbind option_bind].
  set (k3 := upd_es e _ k2).
  assert (Hst0 : st' <> 0) by (by destruct Hst' as [[-> _]|[-> _]]).
  destruct (sched_block idle (K_sched k) t p st' (ko_sched _ _ _ _ Hok) Hv Hst0 Hid) as (T0 & s1 & HT0 & Edel & Hi1 & Hc1).
  rewrite HT in HT0. injection HT0 as <-.
  assert (Ek3 : K_sched k3 = upd_tcb t (set_TCB_usStatus st') (K_sched k)).
  { unfold k3, k2, k1. cbn. unfold upd_tcb. cbn. by rewrite alter_alter_eq. }
  assert (Eun : unready k3 t = Some (set_sched s1 k3)).
  { unfold unready. rewrite Ek3, lookup_upd_tcb, decide_True, HT by done. cbn [fmap option_fmap option_map mbind option_bind].
    change (_GetPcb (set_TCB_usStatus st' T)) with (_GetPcb T). by rewrite Edel. }
  exists (set_sched s1 k3). split; [exact Eun|]. set (k' := set_sched s1 k3).
  set (h := fun w => set_TCB_pesnPtr (Some t) (g w)).
  assert (Ewait : K_wait k' = alter h t (K_wait k)) by (unfold k', k3, k2, k1; cbn; by rewrite !alter_alter_eq).
  assert (Hwt : K_wait k' !! t = Some (h w)) by (by rewrite Ewait, lookup_alter_eq, Hw).
  assert (Hwo : forall u, u <> t -> K_wait k' !! u = K_wait k !! u) by (intros u Hu; by rewrite Ewait, lookup_alter_ne).
  assert (Hv' : forall u, sview (K_sched k') u = if decide (u = t) then Some (p, st') else sview (K_sched k) u).
  { intros u. destruct Hc1 as [_ Hc1]. apply Hc1. }
  assert (Hlu : forall u, u ∈ WU_line (K_wuDelay k') <-> u ∈ WU_line (K_wuDelay k) \/ (u = t /\ n <> 0)) by exact Hln.
  assert (Ho : others k k' t).
  { intros u Hu. rewrite Hwo, Hv', decide_False, Hlu by done. splits; [done|done|]. naive_solver. }
  destruct (es_joined idle B _ k k' t w (mkEsn e ev ty) E Hok Hw Epn HE eq_refl eq_refl) as (L1 & L2 & L3).
  split; [split; [|by eexists; apply Hq']|].
  - apply (kern_ok_step idle B (fun _ => 0) _ k k' t (h w) Hok); try done.
    + rewrite Ewait. apply size_alter.
    + intros u wu Hu _ Hen. by apply L1.
    + intros e1 E1 HE1. destruct (L3 e1 E1 HE1) as [H1 H2]. split; [done|]. intros u Hu. rewrite Ewait.
      destruct (decide (u = t)) as [->|Hut]; [by rewrite lookup_alter_eq, Hw|rewrite lookup_alter_ne by done; by apply H2].
    + destruct (ko_rings _ _ _ _ Hok) as [R1 R2 R3]. split; [|exact R2|exact R3].
      intros q u. change (wring k' q) with (wring k q). rewrite R1. unfold wait_at. destruct (decide (u = t)) as [->|Hu]; [|by rewrite Hwo].
      rewrite Hwt, Hw. cbn [mbind option_bind]. unfold place.
      change (TCB_peventPtr (h w)) with (TCB_peventPtr w). by rewrite Epe.
    + split.
      * exists p, st'. rewrite Hv', decide_True by done. split; [done|]. unfold status_ok, wait_bits.
        change (TCB_peventPtr (h w)) with (TCB_peventPtr w). rewrite Epe. change (TCB_pesnPtr (h w)) with (Some t). rewrite Hlu.
        destruct Hst' as [[-> Hn0]|[-> Hn0]]; (split; [done|]); [split; [done|by intros [?|[_ ?]]]|split; [by right|done]].
      * unfold place_ok. change (TCB_peventPtr (h w)) with (TCB_peventPtr w). by rewrite Epe.
      * by apply L2.
      * apply Hdom. exact Hnd.
  - split; try done.
    + by exists w, (h w).
    + cbn [k' k3 k2 k1 set_sched upd_es set_esn upd_wait set_delay set_status K_es].
      apply map_eq. intros e'. destruct (decide (e' = e)) as [->|]; [|by rewrite !lookup_alter_ne].
      by rewrite !lookup_alter_eq, HE.
    + intros u. rewrite !prio_sview, Hv'. case_decide as Hu; [subst; by rewrite Hv|done].
Qed.
End Wake.

(** ** The invariant of the event sets *)

Definition es_unused (k : KERNEL) (e : Z) : Prop :=
  exists E, K_es k !! e = Some E /\ EVENTSET_ucType E = LW_TYPE_EVENT_UNUSED.

Definition es_ok (E : LW_CLASS_EVENTSET) : Prop :=
  (EVENTSET_ucType E = LW_TYPE_EVENT_UNUSED /\ EVENTSET_plineWaitList E = []) \/
  (EVENTSET_ucType E = LW_TYPE_EVENT_EVENTSET /\ 0 <= EVENTSET_ulEventSets E <= ULONG_MAX).

(** A thread that waits on an event set has a sound node and has been told nothing yet. *)
Definition node_ok (k : KERNEL) (t : Z) (w : WAIT) : Prop := is_Some (TCB_pesnPtr w) ->
  TCB_ucIsEventDelete w = LW_EVENT_EXIST /\ TCB_ucWaitTimeout w = LW_WAIT_TIME_CLEAR /\
  exists N, K_esn k !! t = Some N /\ valid_type (EVENTSETNODE_ucWaitType N).

Record es_inv (idle B : Z -> Z) (k : KERNEL) : Prop := {
  ei_kern : kern_inv idle B k;
  ei_es : forall e E, K_es k !! e = Some E -> es_ok E;
  ei_node : forall t w, K_wait k !! t = Some w -> node_ok k t w;
  ei_pool : pool_inv (K_resrcEventSet k) (LW_CFG_MAX_EVENTSETS k) (es_unused k);
  ei_dom : forall e, is_Some (K_es k !! e) <-> 0 <= e < LW_CFG_MAX_EVENTSETS k
}.

(** ** The abstract event set *)

(** The flags, and the waiting threads with the kind of wait and the flags they
    wait for, the latest first. *)
Record ES := mkES { es_flags : Z; es_waits : list (Z * (Z * Z)) }.

Inductive ES_OP :=
| EGet (t ev opt ulTimeout : Z)
| ETryGet (t ev opt : Z)
| ESet (ev opt : Z).

Definition nobody : Z -> option Z := fun _ => None.

(** [f] serves exactly the threads whose wait the flags end, with those flags. *)
Definition serves (flags : Z) (l : list (Z * (Z * Z))) (f : Z -> option Z) : Prop :=
  forall t v, f t = Some v <-> exists ty ev, (t, (ty, ev)) ∈ l /\ over ty ev flags /\ v = hits ty ev flags.

(** One operation: the state after it, the result, the value handed out, and the
    threads it serves. *)
Inductive es_step (s : ES) : ES_OP -> ES -> Z -> option Z -> (Z -> option Z) -> Prop :=
| es_take_now t ev opt tmo : let ty := wait_type opt in let h := hits ty ev (es_flags s) in
    valid_type ty -> over ty ev (es_flags s) -> forall flags, resets ty opt h (es_flags s) flags ->
    es_step s (EGet t ev opt tmo) (mkES flags (es_waits s)) ERROR_NONE
      (Some (if has_option opt LW_OPTION_EVENTSET_RETURN_ALL then es_flags s else h)) nobody
| es_no_kind t ev opt tmo : ~ valid_type (wait_type opt) ->
    es_step s (EGet t ev opt tmo) s ERROR_EVENTSET_WAIT_TYPE None nobody
| es_poll t ev opt : valid_type (wait_type opt) -> ~ over (wait_type opt) ev (es_flags s) ->
    es_step s (EGet t ev opt LW_OPTION_NOT_WAIT) s ERROR_THREAD_WAIT_TIMEOUT None nobody
| es_block t ev opt tmo : valid_type (wait_type opt) -> ~ over (wait_type opt) ev (es_flags s) ->
    tmo <> LW_OPTION_NOT_WAIT ->
    es_step s (EGet t ev opt tmo) (mkES (es_flags s) ((t, (wait_type opt, ev)) :: es_waits s)) WAITING None nobody
| es_try t ev opt s' r v : es_step s (EGet t ev opt LW_OPTION_NOT_WAIT) s' r v nobody ->
    es_step s (ETryGet t ev opt) s' r v nobody
| es_set ev f : let flags := Z.lor (es_flags s) ev in serves flags (es_waits s) f ->
    es_step s (ESet ev LW_OPTION_EVENTSET_SET) (mkES flags (filter (fun x => f x.1 = None) (es_waits s))) ERROR_NONE None f
| es_clr ev f : let flags := Z.ldiff (es_flags s) ev in serves flags (es_waits s) f ->
    es_step s (ESet ev LW_OPTION_EVENTSET_CLR) (mkES flags (filter (fun x => f x.1 = None) (es_waits s))) ERROR_NONE None f
| es_no_option ev opt : opt <> LW_OPTION_EVENTSET_SET -> opt <> LW_OPTION_EVENTSET_CLR ->
    es_step s (ESet ev opt) s ERROR_EVENTSET_OPTION None nobody.

(** *** The concrete one *)

Definition node (k : KERNEL) (t : Z) : Z * Z :=
  match K_esn k !! t with Some N => (EVENTSETNODE_ucWaitType N, EVENTSETNODE_ulEventSets N) | None => (0, 0) end.
Definition es_of (k : KERNEL) (e : Z) : option ES :=
  E ← K_es k !! e; Some (mkES (EVENTSET_ulEventSets E) ((fun t => (t, node k t)) <$> EVENTSET_plineWaitList E)).

Definition es_call (k : KERNEL) (ulId : Z) (o : ES_OP) : option (KERNEL * Z * option Z) :=
  match o with
  | EGet t ev opt tmo => '(k, r, v) ← API_EventSetGetEx k (call t) ulId ev opt tmo; Some (k, pend_code r, v)
  | ETryGet t ev opt => API_EventSetTryGetEx k (call t) ulId ev opt
  | ESet ev opt => '(k, r) ← API_EventSetSet k ulId ev opt; Some (k, r, None)
  end.

Definition es_legal (idle : Z -> Z) (k : KERNEL) (o : ES_OP) : Prop :=
  match o with
  | EGet t ev opt tmo => runs idle k t /\ 0 <= ev <= ULONG_MAX /\ 0 <= tmo <= ULONG_MAX
  | ETryGet t ev opt => runs idle k t /\ 0 <= ev <= ULONG_MAX
  | ESet ev opt => 0 <= ev <= ULONG_MAX
  end.

(** What the threads see. *)
Definition es_effect (k k' : KERNEL) (e : Z) (o : ES_OP) (r : Z) (f : Z -> option Z) : Prop :=
  match o with
  | EGet t ev opt tmo =>
    if r =? WAITING then es_parked k k' t e ev (wait_type opt) (wait_ticks tmo)
    else K_sched k' = K_sched k /\ forall u, u <> t -> K_wait k' !! u = K_wait k !! u
  | ETryGet t ev opt => K_sched k' = K_sched k /\ forall u, u <> t -> K_wait k' !! u = K_wait k !! u
  | ESet ev opt =>
    (forall u v, f u = Some v -> exists w w', K_wait k !! u = Some w /\ K_wait k' !! u = Some w' /\
       TCB_pesnPtr w = Some u /\ TCB_pesnPtr w' = None /\ TCB_ulEventSets w' = v /\
       TCB_ucIsEventDelete w' = LW_EVENT_EXIST /\ TCB_ucWaitTimeout w' = LW_WAIT_TIME_CLEAR /\ u ∉ WU_line (K_wuDelay k')) /\
    (forall u, f u = None -> K_wait k' !! u = K_wait k !! u /\ sview (K_sched k') u = sview (K_sched k) u)
  end.

Section Services.
Context (idle B : Z -> Z).
Abbreviation kinv := (kern_inv idle B).

(** Writing the flags of an event set. *)
Lemma kern_inv_es k e f :
  (forall E, K_es k !! e = Some E -> EVENTSET_plineWaitList (f E) = EVENTSET_plineWaitList E) ->
  kinv k -> kinv (upd_es e f k).
Proof.
  intros Hf [Hk Hd]. split; [|exact Hd]. pose proof Hk as [K1 K2 K3 K4 K5 K6 K7].
  assert (He : forall e1 E1, K_es (upd_es e f k) !! e1 = Some E1 -> exists E0, K_es k !! e1 = Some E0 /\
    EVENTSET_plineWaitList E1 = EVENTSET_plineWaitList E0).
  { intros e1 E1. cbn [upd_es K_es]. destruct (decide (e1 = e)) as [->|]; [|rewrite lookup_alter_ne by done; by eexists].
    rewrite lookup_alter_eq. destruct (K_es k !! e) as [E0|]; [|done]. intros [= <-]. exists E0. by split; [|apply Hf]. }
  split; try done.
  - intros t w Hw. destruct (K5 t w Hw) as [H1 H2 H3 H4]. split; try done. unfold esn_ok in *.
    destruct (TCB_pesnPtr w) as [n|].
    + destruct H3 as (-> & N & E & HN & HE & Hin & Hu). split; [done|].
      exists N, (if decide (EVENTSETNODE_pesEventSet N = e) then f E else E). splits; [done| | |].
      * cbn [upd_es K_es]. case_decide as Ee; [by rewrite Ee, lookup_alter_eq, <-Ee, HE|by rewrite lookup_alter_ne].
      * case_decide; [|done]. rewrite Hf; [done|congruence].
      * intros e1 E1 HE1 Hin1. destruct (He e1 E1 HE1) as (E0 & HE0 & El). rewrite El in Hin1. by apply (Hu e1 E0).
    + intros e1 E1 HE1. destruct (He e1 E1 HE1) as (E0 & HE0 & ->). by apply (H3 e1).
  - destruct K6 as [R1 R2 R3]. by split.
  - intros e1 E1 HE1. destruct (He e1 E1 HE1) as (E0 & HE0 & ->). by apply (K7 e1).
Qed.

(** The step lemma of the invariant: one event set is written by [f]. *)
Lemma es_inv_step k k' e E f : es_inv idle B k -> kinv k' -> K_es k !! e = Some E ->
  K_es k' = alter f e (K_es k) -> EVENTSET_ucType (f E) = EVENTSET_ucType E -> es_ok (f E) ->
  K_resrcEventSet k' = K_resrcEventSet k -> LW_CFG_MAX_EVENTSETS k' = LW_CFG_MAX_EVENTSETS k ->
  (forall t w, K_wait k' !! t = Some w -> node_ok k' t w) -> es_inv idle B k'.
Proof.
  intros [I1 I2 I3 I4 I5] Hk' HE Ees Ety Hok Er Em Hn.
  assert (Hl : forall e1 E1, K_es k' !! e1 = Some E1 -> exists E0, K_es k !! e1 = Some E0 /\
    EVENTSET_ucType E1 = EVENTSET_ucType E0 /\ es_ok E1).
  { intros e1 E1. rewrite Ees. destruct (decide (e1 = e)) as [->|].
    - rewrite lookup_alter_eq, HE. intros [= <-]. by exists E.
    - rewrite lookup_alter_ne by done. intros HE1. exists E1. splits; [done|done|by apply (I2 e1)]. }
  assert (Hs : forall e1, is_Some (K_es k' !! e1) <-> is_Some (K_es k !! e1)).
  { intros e1. rewrite Ees. destruct (decide (e1 = e)) as [->|]; [by rewrite lookup_alter_eq, fmap_is_Some|by rewrite lookup_alter_ne]. }
  split; [done| |done| |].
  - intros e1 E1 HE1. by destruct (Hl e1 E1 HE1) as (_ & _ & _ & H).
  - rewrite Er, Em. apply (pool_inv_ext _ _ (es_unused k)); [|done]. intros e1. unfold es_unused. split.
    + intros (E0 & HE0 & Hu). destruct (proj2 (Hs e1)) as [E1 HE1]; [by eexists|]. exists E1. split; [done|].
      destruct (Hl e1 E1 HE1) as (E0' & HE0' & Et & _). congruence.
    + intros (E1 & HE1 & Hu). destruct (Hl e1 E1 HE1) as (E0 & HE0 & Et & _). exists E0. split; [done|]. congruence.
  - intros e1. by rewrite Hs, Em.
Qed.

(** The nodes after some threads were served. *)
Lemma node_ok_served g k k' e f : es_served g k k' e f -> (forall t w, K_wait k !! t = Some w -> node_ok k t w) ->
  forall t w, K_wait k' !! t = Some w -> node_ok k' t w.
Proof.
  intros Hs Hn t w. rewrite (sd_wait _ _ _ _ _ Hs). unfold node_ok. destruct (f t) as [v|].
  - destruct (K_wait k !! t) as [w0|]; [|done]. intros [= <-]. by intros [? ?].
  - intros Hw. rewrite (sd_esn _ _ _ _ _ Hs). by apply Hn.
Qed.

(** The loop of a set. *)
Lemma es_wake_spec e l : forall k E, kinv k -> K_es k !! e = Some E -> NoDup l ->
  (forall t, t ∈ l -> t ∈ EVENTSET_plineWaitList E /\ valid_type (node k t).1) ->
  exists k' f, es_wake l k e = Some k' /\ kinv k' /\ es_served (fun w => w) k k' e f /\
    forall t v, f t = Some v <-> t ∈ l /\ over (node k t).1 (node k t).2 (EVENTSET_ulEventSets E) /\
      v = hits (node k t).1 (node k t).2 (EVENTSET_ulEventSets E).
Proof.
  induction l as [|t l IH]; intros k E Hk HE Hnd Hl.
  { exists k, nobody. split; [done|]. split; [done|]. split; [apply es_served_refl|]. intros t v.
    split; [done|]. by intros [?%not_elem_of_nil _]. }
  apply NoDup_cons in Hnd as [Ht Hnd]. destruct (Hl t) as [Hin Hty]; [left|].
  destruct (es_waiter idle B k e E t Hk HE Hin) as (w & N & p & st & Hw & _ & Hes & HN & Ene & _).
  assert (Enode : node k t = (EVENTSETNODE_ucWaitType N, EVENTSETNODE_ulEventSets N)) by (unfold node; by rewrite HN).
  cbn [es_wake]. rewrite HN, HE. cbn [mbind option_bind]. rewrite Enode in Hty. simpl in Hty.
  set (flags := EVENTSET_ulEventSets E) in *.
  destruct (es_match_spec _ (EVENTSETNODE_ulEventSets N) flags Hty) as (b & Em & Hb). rewrite Em.
  set (h := hits _ _ _) in *. destruct b.
  - assert (Hg : harmless_wait (fun w => w)) by (by intros ?).
    destruct (esn_ready_spec idle B (fun w => w) k t h e E Hk Hg HE Hin) as (k1 & E1 & Hk1 & Hs1).
    rewrite upd_wait_same in E1. unfold _EventSetThreadReady. rewrite E1. cbn [mbind option_bind].
    pose proof (sd_list _ _ _ _ _ Hs1) as El1.
    set (E' := set_EVENTSET_plineWaitList (filter (fun u => only t h u = None) (EVENTSET_plineWaitList E)) E).
    assert (HE1 : K_es k1 !! e = Some E') by (by rewrite El1, lookup_alter_eq, HE).
    assert (Hnk : forall u, node k1 u = node k u) by (intros u; unfold node; by rewrite (sd_esn _ _ _ _ _ Hs1)).
    destruct (IH k1 E' Hk1 HE1 Hnd) as (k' & f & E2 & Hk' & Hs' & Hf).
    { intros u Hu. rewrite Hnk. destruct (Hl u) as [H1 H2]; [by right|]. split; [|done]. cbn.
      apply list_elem_of_filter. split; [|done]. unfold only. rewrite decide_False; [done|]. by intros ->. }
    exists k', (fun u => match only t h u with Some v => Some v | None => f u end). split; [done|]. split; [done|]. split.
    + eapply es_served_trans; [|exact Hs1|exact Hs']. intros u. unfold only. case_decide as Hu; [|by intros [? ?]].
      intros _. subst u. destruct (f t) as [v|] eqn:Ef; [|done]. by apply Hf in Ef as [? _].
    + intros u v. unfold only. case_decide as Hu.
      * subst u. rewrite Enode. cbn [fst snd]. rewrite <-Hb. fold h. split; [intros [= <-]; by split; [left|]|by intros (_ & _ & ->)].
      * rewrite Hf, Hnk, elem_of_cons. change (EVENTSET_ulEventSets E') with flags. naive_solver.
  - cbn [mbind option_bind]. destruct (IH k E Hk HE Hnd) as (k' & f & E2 & Hk' & Hs' & Hf).
    { intros u Hu. apply Hl. by right. }
    exists k', f. split; [done|]. split; [done|]. split; [done|]. intros u v. rewrite Hf, elem_of_cons. fold flags.
    split; [naive_solver|]. intros ([->|Hu] & Ho & Ev); [|done]. exfalso. rewrite Enode in Ho. cbn [fst snd] in Ho.
    apply Hb in Ho. done.
Qed.

(** The loop of a deletion. *)
Lemma es_delete_loop_spec e l : forall k E, kinv k -> K_es k !! e = Some E -> NoDup l ->
  (forall t, t ∈ l -> t ∈ EVENTSET_plineWaitList E) ->
  exists k' f, es_delete_loop l k = Some k' /\ kinv k' /\
    es_served (set_TCB_ucIsEventDelete LW_EVENT_DELETE) k k' e f /\
    forall t v, f t = Some v <-> t ∈ l /\ v = 0.
Proof.
  induction l as [|t l IH]; intros k E Hk HE Hnd Hl.
  { exists k, nobody. split; [done|]. split; [done|]. split; [apply es_served_refl|]. intros t v.
    split; [done|]. by intros [?%not_elem_of_nil _]. }
  apply NoDup_cons in Hnd as [Ht Hnd]. pose proof (Hl t ltac:(left)) as Hin. cbn [es_delete_loop].
  destruct (esn_ready_spec idle B (set_TCB_ucIsEventDelete LW_EVENT_DELETE) k t 0 e E Hk) as (k1 & E1 & Hk1 & Hs1); [done..|].
  unfold _EventSetDeleteReady. rewrite E1. cbn [mbind option_bind].
  pose proof (sd_list _ _ _ _ _ Hs1) as El1.
  set (E' := set_EVENTSET_plineWaitList (filter (fun u => only t 0 u = None) (EVENTSET_plineWaitList E)) E).
  assert (HE1 : K_es k1 !! e = Some E') by (by rewrite El1, lookup_alter_eq, HE).
  destruct (IH k1 E' Hk1 HE1 Hnd) as (k' & f & E2 & Hk' & Hs' & Hf).
  { intros u Hu. cbn. apply list_elem_of_filter. split; [|by apply Hl; right].
    unfold only. rewrite decide_False; [done|]. by intros ->. }
  exists k', (fun u => match only t 0 u with Some v => Some v | None => f u end). split; [done|]. split; [done|]. split.
  - eapply es_served_trans; [|exact Hs1|exact Hs']. intros u. unfold only. case_decide as Hu; [|by intros [? ?]].
    intros _. subst u. destruct (f t) as [v|] eqn:Ef; [|done]. by apply Hf in Ef as [? _].
  - intros u v. unfold only. rewrite elem_of_cons. case_decide as Hu; [subst; naive_solver|]. rewrite Hf. naive_solver.
Qed.

Lemma eventset_check_ok k ulId E : es_inv idle B k -> _ObjectClassOK ulId _OBJECT_EVENT_SET = true ->
  K_es k !! _ObjectGetIndex ulId = Some E -> EVENTSET_ucType E = LW_TYPE_EVENT_EVENTSET ->
  eventset_check k ulId = Some ERROR_NONE.
Proof.
  intros Hi Hc HE Ht. unfold eventset_check, _EventSet_Index_Invalid, _EventSet_Type_Invalid. rewrite Hc, HE.
  assert (Hr : 0 <= _ObjectGetIndex ulId < LW_CFG_MAX_EVENTSETS k) by (apply (ei_dom _ _ _ Hi); by eexists).
  destruct (Z.leb_spec (LW_CFG_MAX_EVENTSETS k) (_ObjectGetIndex ulId)); [lia|]. cbn [negb mbind option_bind].
  by rewrite Ht.
Qed.

Lemma hits_bounds ty ev flags : 0 <= ev -> 0 <= hits ty ev flags.
Proof. intros H. unfold hits. destruct (for_set ty); [apply Z.land_nonneg|apply Z.ldiff_nonneg]; auto. Qed.

Lemma ulong_bits x : 0 <= x -> (x <= ULONG_MAX <-> forall i, 64 <= i -> Z.testbit x i = false).
Proof.
  intros Hx. unfold ULONG_MAX. split.
  - intros H i Hi. by apply (testbit_high x 64); lia.
  - intros H. destruct (decide (x = 0)) as [->|]; [lia|].
    assert (Z.log2 x < 64); [|assert (x < 2 ^ 64) by (apply Z.log2_lt_pow2; lia); lia].
    destruct (decide (64 <= Z.log2 x)) as [Hl|]; [|lia]. specialize (H _ Hl). by rewrite Z.bit_log2 in H by lia.
Qed.

Lemma flags_lor a b : 0 <= a <= ULONG_MAX -> 0 <= b <= ULONG_MAX -> 0 <= Z.lor a b <= ULONG_MAX.
Proof.
  intros [H1 H2] [H3 H4]. assert (0 <= Z.lor a b) by (apply Z.lor_nonneg; auto). split; [done|].
  apply ulong_bits; [done|]. intros i Hi. rewrite Z.lor_spec.
  rewrite (proj1 (ulong_bits a H1) H2 i Hi). by apply (ulong_bits b H3).
Qed.

Lemma flags_ldiff a b : 0 <= a <= ULONG_MAX -> 0 <= Z.ldiff a b <= ULONG_MAX.
Proof.
  intros [H1 H2]. assert (0 <= Z.ldiff a b) by (apply Z.ldiff_nonneg; auto). split; [done|].
  apply ulong_bits; [done|]. intros i Hi. rewrite Z.ldiff_spec. by rewrite (proj1 (ulong_bits a H1) H2 i Hi).
Qed.

Lemma hits_range ty ev flags : 0 <= ev <= ULONG_MAX -> 0 <= hits ty ev flags <= ULONG_MAX.
Proof.
  intros [H1 H2]. split; [by apply hits_bounds|]. apply ulong_bits; [by apply hits_bounds|]. intros i Hi.
  unfold hits. destruct (for_set ty); rewrite ?Z.land_spec, ?Z.ldiff_spec; by rewrite (proj1 (ulong_bits ev H1) H2 i Hi).
Qed.

Lemma es_reset_range ty opt h flags : 0 <= h <= ULONG_MAX -> 0 <= flags <= ULONG_MAX ->
  0 <= es_reset ty opt h flags <= ULONG_MAX.
Proof.
  intros Hh Hf. unfold es_reset. repeat case_if; try done; [by apply flags_ldiff|by apply flags_lor].
Qed.

Lemma es_reset_resets ty opt h flags : valid_type ty -> 0 <= h <= ULONG_MAX -> 0 <= flags <= ULONG_MAX ->
  resets ty opt h flags (es_reset ty opt h flags).
Proof.
  intros Hv Hh Hf. split; [by apply es_reset_range|]. intros i Hi. destruct (wait_set_for ty Hv) as [W1 W2].
  unfold es_reset, flag_after. rewrite W1, W2. destruct (has_option opt LW_OPTION_EVENTSET_RESET); cbn [negb andb].
  - destruct (for_set ty); cbn [negb]; rewrite ?Z.ldiff_spec, ?Z.lor_spec; destruct (Z.testbit h i); by rewrite ?andb_true_r, ?andb_false_r, ?orb_true_r, ?orb_false_r.
  - destruct (has_option opt LW_OPTION_EVENTSET_RESET_ALL); [|done]. destruct (for_set ty); cbn [negb]; [apply Z.bits_0|].
    change ULONG_MAX with (Z.ones 64). apply Z.ones_spec_low. lia.
Qed.

(** The immediate success of a get. *)
Lemma es_take_spec k t e E opt h : es_inv idle B k -> K_es k !! e = Some E ->
  EVENTSET_ucType E = LW_TYPE_EVENT_EVENTSET -> 0 <= h <= ULONG_MAX ->
  let k' := es_take k t e opt h (EVENTSET_ulEventSets E) in
  es_inv idle B k' /\ es_of k' e = Some (mkES (es_reset (wait_type opt) opt h (EVENTSET_ulEventSets E))
    ((fun t => (t, node k t)) <$> EVENTSET_plineWaitList E)) /\
  K_sched k' = K_sched k /\ (forall u, u <> t -> K_wait k' !! u = K_wait k !! u) /\
  (forall e', e' <> e -> K_es k' !! e' = K_es k !! e') /\ K_event k' = K_event k.
Proof.
  intros Hi HE Hty Hh k'. set (f := set_EVENTSET_ulEventSets (es_reset (wait_type opt) opt h (EVENTSET_ulEventSets E))).
  assert (Hok : 0 <= EVENTSET_ulEventSets E <= ULONG_MAX).
  { destruct (ei_es _ _ _ Hi e E HE) as [[Hu _]|[_ ?]]; [by rewrite Hty in Hu|done]. }
  split; [|split; [|split; [done|split; [|split; [|done]]]]].
  - apply (es_inv_step k k' e E f Hi); try done.
    + apply kern_inv_wait; [by intros ?|]. by apply kern_inv_es, Hi.
    + right. split; [done|]. by apply es_reset_range.
    + intros u w. change (K_wait k') with (alter (set_TCB_ulEventSets h) t (K_wait k)).
      destruct (decide (u = t)) as [->|Hu]; [rewrite lookup_alter_eq|rewrite lookup_alter_ne by done; apply (ei_node _ _ _ Hi)].
      destruct (K_wait k !! t) as [w0|] eqn:Hw; [|done]. intros [= <-]. apply (ei_node _ _ _ Hi t w0 Hw).
  - unfold es_of. change (K_es k') with (alter f e (K_es k)). by rewrite lookup_alter_eq, HE.
  - intros u Hu. change (K_wait k') with (alter (set_TCB_ulEventSets h) t (K_wait k)). by rewrite lookup_alter_ne.
  - intros e' He'. change (K_es k') with (alter f e (K_es k)). by rewrite lookup_alter_ne.
Qed.

Lemma wait_type_range opt : 0 <= wait_type opt.
Proof. apply Z.land_nonneg. right. lia. Qed.

Lemma es_match_bad ty ev flags : ~ valid_type ty -> es_match ty ev flags = None.
Proof.
  intros H. unfold es_match, LW_OPTION_EVENTSET_WAIT_SET_ALL, LW_OPTION_EVENTSET_WAIT_SET_ANY,
    LW_OPTION_EVENTSET_WAIT_CLR_ALL, LW_OPTION_EVENTSET_WAIT_CLR_ANY, valid_type in *.
  rewrite !(proj2 (Z.eqb_neq ty _)); [done|lia..].
Qed.

Definition es_refines_at (k : KERNEL) (e : Z) (s : ES) (o : ES_OP) (res : option (KERNEL * Z * option Z)) : Prop :=
  exists k' s' r v f, res = Some (k', r, v) /\ es_inv idle B k' /\ es_of k' e = Some s' /\ es_step s o s' r v f /\
    es_effect k k' e o r f /\ (forall e', e' <> e -> K_es k' !! e' = K_es k !! e') /\ K_event k' = K_event k.

(** A get that is through, or fails, at once: with or without time-out. *)
Lemma es_now k t e E ev opt (tmo : Z) : es_inv idle B k -> K_es k !! e = Some E ->
  EVENTSET_ucType E = LW_TYPE_EVENT_EVENTSET -> 0 <= ev <= ULONG_MAX ->
  let s := mkES (EVENTSET_ulEventSets E) ((fun t => (t, node k t)) <$> EVENTSET_plineWaitList E) in
  match es_match (wait_type opt) ev (EVENTSET_ulEventSets E) with
  | None => es_refines_at k e s (EGet t ev opt tmo) (Some (k, ERROR_EVENTSET_WAIT_TYPE, None))
  | Some (true, h) => es_refines_at k e s (EGet t ev opt tmo)
      (Some (es_take k t e opt h (EVENTSET_ulEventSets E), ERROR_NONE, Some (es_return opt h (EVENTSET_ulEventSets E))))
  | Some (false, _) => valid_type (wait_type opt) /\ ~ over (wait_type opt) ev (EVENTSET_ulEventSets E)
  end.
Proof.
  intros Hi HE Hty Hev s. assert (Hs : es_of k e = Some s) by (unfold es_of; by rewrite HE).
  destruct (decide (0 <= wait_type opt <= 3)) as [Hv|Hv].
  - destruct (es_match_spec (wait_type opt) ev (EVENTSET_ulEventSets E) Hv) as (b & Em & Hb). rewrite Em.
    destruct b; [|split; [done|]; by intros ?%Hb].
    destruct (es_take_spec k t e E opt (hits (wait_type opt) ev (EVENTSET_ulEventSets E)) Hi HE Hty)
      as (H1 & H2 & H3 & H4 & H5 & H6); [by apply hits_range|].
    eexists _, _, _, _, nobody. split; [done|]. split; [done|]. split; [exact H2|]. splits; try done.
    apply (es_take_now s); [done|by apply Hb|]. apply es_reset_resets; [done|by apply hits_range|].
    destruct (ei_es _ _ _ Hi e E HE) as [[Hu _]|[_ ?]]; [by rewrite Hty in Hu|done].
  - rewrite (es_match_bad _ _ _ Hv). exists k, s, ERROR_EVENTSET_WAIT_TYPE, None, nobody. splits; try done.
    by apply es_no_kind.
Qed.

Lemma get_refines k t ulId E ev opt tmo : es_inv idle B k -> _ObjectClassOK ulId _OBJECT_EVENT_SET = true ->
  let e := _ObjectGetIndex ulId in K_es k !! e = Some E -> EVENTSET_ucType E = LW_TYPE_EVENT_EVENTSET ->
  es_legal idle k (EGet t ev opt tmo) ->
  es_refines_at k e (mkES (EVENTSET_ulEventSets E) ((fun t => (t, node k t)) <$> EVENTSET_plineWaitList E))
    (EGet t ev opt tmo) ('(k, r, v) ← es_wait_again k t ulId ev opt tmo; Some (k, pend_code r, v)).
Proof.
  intros Hi Hc e HE Hty (Hrun & Hev & Htmo). unfold es_wait_again. fold e.
  rewrite (eventset_check_ok k ulId E Hi Hc HE Hty). cbn [mbind option_bind Z.eqb negb]. rewrite HE. cbn [mbind option_bind].
  pose proof (es_now k t e E ev opt tmo Hi HE Hty Hev) as Hnow. cbv zeta in Hnow.
  destruct (es_match _ _ _) as [[[|] h]|]; [exact Hnow| |exact Hnow]. destruct Hnow as [Hv Hno].
  set (s := mkES _ _). assert (Hs : es_of k e = Some s) by (unfold es_of; by rewrite HE).
  destruct (Z.eqb_spec tmo LW_OPTION_NOT_WAIT) as [->|Hn0].
  { exists k, s, ERROR_THREAD_WAIT_TIMEOUT, None, nobody. splits; try done. by apply es_poll. }
  change (if tmo =? LW_OPTION_WAIT_INFINITE then 0 else tmo) with (wait_ticks tmo).
  destruct (block_spec idle B k t e E ev (wait_type opt) (wait_ticks tmo) (ei_kern _ _ _ Hi) Hrun HE) as (k' & -> & Hk' & Hp).
  { unfold wait_ticks, ULONG_MAX in *. destruct (tmo =? _); lia. }
  cbn [mbind option_bind pend_code]. pose proof Hp as [(w & w' & P0 & P1 & P2 & P3 & P4 & P5) Po Pl Pn _ Pe _ _ Pr _ Pm _].
  exists k', (mkES (es_flags s) ((t, (wait_type opt, ev)) :: es_waits s)), WAITING, None, nobody.
  assert (Hnt : t ∉ EVENTSET_plineWaitList E).
  { intros Hin. destruct (es_waiter idle B k e E t (ei_kern _ _ _ Hi) HE Hin) as (w0 & N & p & st & _ & _ & _ & _ & _ & Hv0 & Hb & _).
    destruct Hrun as [[p0 Hr] _]. rewrite Hr in Hv0. injection Hv0 as <- <-. done. }
  split; [done|]. split; [|split; [|split; [by apply es_block|split; [exact Hp|split; [|done]]]]].
  - apply (es_inv_step k k' e E (fun E => set_EVENTSET_plineWaitList (t :: EVENTSET_plineWaitList E) E) Hi); try done.
    + destruct (ei_es _ _ _ Hi e E HE) as [[Hu _]|[_ ?]]; [by rewrite Hty in Hu|by right].
    + intros u wu Hu. destruct (decide (u = t)) as [->|Hut].
      * intros _. rewrite P1 in Hu. injection Hu as <-. splits; [done|done|].
        exists (mkEsn e ev (wait_type opt)). rewrite Pn, lookup_insert_eq. split; [done|exact Hv].
      * destruct (Po u Hut) as (Eu & _). rewrite Eu in Hu. unfold node_ok. rewrite Pn, lookup_insert_ne by done.
        by apply (ei_node _ _ _ Hi).
  - unfold es_of. rewrite Pl, lookup_alter_eq, HE. cbn [fmap option_fmap option_map mbind option_bind]. do 2 f_equal.
    cbn [EVENTSET_plineWaitList set_EVENTSET_plineWaitList fmap list_fmap]. unfold node at 1. rewrite Pn, lookup_insert_eq. f_equal.
    apply list_fmap_ext. intros i u Hu. unfold node. rewrite Pn, lookup_insert_ne; [done|].
    intros <-. apply Hnt. by eapply list_elem_of_lookup_2.
  - intros e' He. by rewrite Pl, lookup_alter_ne.
Qed.

Lemma filter_waits {A} (g : Z -> A) (f : Z -> option Z) (l : list Z) :
  filter (fun x : Z * A => f x.1 = None) ((fun t => (t, g t)) <$> l) = (fun t => (t, g t)) <$> filter (fun t => f t = None) l.
Proof.
  induction l as [|t l IH]; [done|]. rewrite fmap_cons, !filter_cons. cbn [fst]. case_decide; [by rewrite IH, fmap_cons|done].
Qed.

Lemma set_refines k e E flags : es_inv idle B k -> K_es k !! e = Some E -> EVENTSET_ucType E = LW_TYPE_EVENT_EVENTSET ->
  0 <= flags <= ULONG_MAX ->
  let waits := (fun t => (t, node k t)) <$> EVENTSET_plineWaitList E in
  exists k' f, es_wake (EVENTSET_plineWaitList E) (upd_es e (set_EVENTSET_ulEventSets flags) k) e = Some k' /\
    es_inv idle B k' /\ serves flags waits f /\
    es_of k' e = Some (mkES flags (filter (fun x => f x.1 = None) waits)) /\
    (forall ev opt, es_effect k k' e (ESet ev opt) ERROR_NONE f) /\
    (forall e', e' <> e -> K_es k' !! e' = K_es k !! e') /\ K_event k' = K_event k.
Proof.
  intros Hi HE Hty Hfl waits. set (k0 := upd_es e (set_EVENTSET_ulEventSets flags) k).
  set (E0 := set_EVENTSET_ulEventSets flags E).
  assert (HE0 : K_es k0 !! e = Some E0) by (unfold k0; cbn [upd_es K_es]; by rewrite lookup_alter_eq, HE).
  assert (Hk0 : kinv k0) by (by apply kern_inv_es, Hi).
  destruct (es_wake_spec e (EVENTSET_plineWaitList E) k0 E0 Hk0 HE0) as (k' & f & Ew & Hk' & Hs & Hf).
  { by apply (ko_es _ _ _ _ (proj1 (ei_kern _ _ _ Hi)) e E). }
  { intros t Ht. split; [done|].
    destruct (es_waiter idle B k e E t (ei_kern _ _ _ Hi) HE Ht) as (w & N & _ & _ & Hw & _ & Hes & HN & _).
    destruct (ei_node _ _ _ Hi t w Hw) as (_ & _ & N' & HN' & Hv); [by rewrite Hes; eexists|].
    unfold node. change (K_esn k0) with (K_esn k). by rewrite HN'. }
  assert (Hsv : serves flags waits f).
  { intros t v. rewrite Hf. change (node k0 t) with (node k t). change (EVENTSET_ulEventSets E0) with flags. split.
    - intros (Hin & Ho & Ev). exists (node k t).1, (node k t).2. splits; try done. apply list_elem_of_fmap. exists t.
      split; [|done]. by destruct (node k t).
    - intros (ty & ev & (u & Eu & Hin)%list_elem_of_fmap & Ho & Ev). injection Eu as -> En. by rewrite <-En. }
  exists k', f. split; [exact Ew|]. split; [|split; [exact Hsv|split; [|split; [|split]]]].
  - apply (es_inv_step k k' e E (fun E => set_EVENTSET_plineWaitList (filter (fun u => f u = None) (EVENTSET_plineWaitList E))
      (set_EVENTSET_ulEventSets flags E)) Hi); try done.
    + rewrite (sd_list _ _ _ _ _ Hs). unfold k0. cbn [upd_es K_es]. rewrite alter_alter_eq. done.
    + by right.
    + by rewrite (sd_resrces _ _ _ _ _ Hs).
    + by rewrite (sd_maxes _ _ _ _ _ Hs).
    + apply (node_ok_served (fun w => w) k0 k' e f Hs). exact (ei_node _ _ _ Hi).
  - unfold es_of. rewrite (sd_list _ _ _ _ _ Hs), lookup_alter_eq, HE0. cbn [fmap option_fmap option_map mbind option_bind].
    do 2 f_equal. unfold waits. rewrite filter_waits. apply list_fmap_ext. intros i u _. unfold node. by rewrite (sd_esn _ _ _ _ _ Hs).
  - intros ev0 opt0. split.
    + intros u v Hu. apply Hsv in Hu as Hin. destruct Hin as (ty & ev & (u' & Eu & Hin)%list_elem_of_fmap & _).
      injection Eu as Eu _. subst u'.
      destruct (es_waiter idle B k e E u (ei_kern _ _ _ Hi) HE Hin) as (w & N & _ & _ & Hw & _ & Hes & _).
      destruct (ei_node _ _ _ Hi u w Hw) as (H1 & H2 & _); [by rewrite Hes; eexists|].
      exists w, (set_TCB_pesnPtr None (set_TCB_ulEventSets v w)). splits; try done.
      * rewrite (sd_wait _ _ _ _ _ Hs), Hu. change (K_wait k0) with (K_wait k). by rewrite Hw.
      * rewrite (sd_line _ _ _ _ _ Hs). intros [_ Hn]. congruence.
    + intros u Hu. rewrite (sd_wait _ _ _ _ _ Hs), Hu, (sd_sview _ _ _ _ _ Hs) by done. done.
  - intros e' He. rewrite (sd_list _ _ _ _ _ Hs), lookup_alter_ne by done. unfold k0. cbn [upd_es K_es]. by rewrite lookup_alter_ne.
  - by rewrite (sd_event _ _ _ _ _ Hs).
Qed.
End Services.
