(* ===== verification/EventSetLife.v ===== *)
(** * The life of an event set

    The services of a living event set against the abstract one, its creation and
    deletion, what ends a wait, and runs of a small system. *)

From S2P Require Import Prelude Lists Bitmap Sched SchedSpec Object Wakeup Kernel Event EventSpec Boot TickSpec Semaphore Mutex SemSpec LifeSpec SemRefine EventSet EventSetSpec.

(** C30: Every call on a living event set does exactly one step of an abstract set of
    flags with its waiting threads: a get succeeds at once exactly when its flags, all or any
    of them, are set or clear as asked, hands out the flags and resets as its options say,
    and otherwise fails or waits; a set or clear serves exactly the threads whose wait the new
    flags end, each with the flags that ended it, and leaves the others in their
    order; the invariant is kept and no other event or event set is touched. *)
Theorem eventset_refines idle B k ulId E o :
  es_inv idle B k -> _ObjectClassOK ulId _OBJECT_EVENT_SET = true ->
  K_es k !! _ObjectGetIndex ulId = Some E -> EVENTSET_ucType E = LW_TYPE_EVENT_EVENTSET -> es_legal idle k o ->
  exists s, es_of k (_ObjectGetIndex ulId) = Some s /\
    es_refines_at idle B k (_ObjectGetIndex ulId) s o (es_call k ulId o).
Proof.
  intros Hi Hc HE Hty Hl. set (e := _ObjectGetIndex ulId) in *.
  exists (mkES (EVENTSET_ulEventSets E) ((fun t => (t, node k t)) <$> EVENTSET_plineWaitList E)).
  split; [unfold es_of; by rewrite HE|]. destruct o as [t ev opt tmo|t ev opt|ev opt]; cbn [es_call].
  - unfold API_EventSetGetEx. cbn [call LW_CPU_GET_CUR_NESTING LW_TCB_GET_CUR Z.eqb negb]. by eapply get_refines.
  - unfold API_EventSetTryGetEx. fold e. rewrite (eventset_check_ok idle B k ulId E Hi Hc HE Hty).
    cbn [mbind option_bind Z.eqb negb call LW_TCB_GET_CUR]. rewrite HE. cbn [mbind option_bind].
    pose proof (es_now idle B k t e E ev opt LW_OPTION_NOT_WAIT Hi HE Hty (proj2 Hl)) as Hnow. cbv zeta in Hnow.
    set (s := mkES _ _) in *.
    assert (Hlift : forall res, es_refines_at idle B k e s (EGet t ev opt LW_OPTION_NOT_WAIT) (Some res) -> res.1.2 <> WAITING ->
      es_refines_at idle B k e s (ETryGet t ev opt) (Some res)).
    { intros res (k' & s' & r & v & f & [= ->] & H1 & H2 & H3 & H4 & H5 & H6) Hr. exists k', s', r, v, f. splits; try done.
      - inversion H3; subst; by apply es_try.
      - cbn [fst snd] in Hr. unfold es_effect in H4. by rewrite (proj2 (Z.eqb_neq r WAITING)) in H4. }
    destruct (es_match _ _ _) as [[[|] h]|]; [by apply Hlift| |by apply Hlift]. destruct Hnow as [Hv Hno].
    apply Hlift; [|done]. exists k, s, ERROR_THREAD_WAIT_TIMEOUT, None, nobody. splits; try done.
    + unfold es_of. by rewrite HE.
    + by apply es_poll.
  - unfold API_EventSetSet. fold e. rewrite (eventset_check_ok idle B k ulId E Hi Hc HE Hty).
    cbn [mbind option_bind Z.eqb negb]. rewrite HE. cbn [mbind option_bind].
    assert (Hfl : 0 <= EVENTSET_ulEventSets E <= ULONG_MAX).
    { destruct (ei_es _ _ _ Hi e E HE) as [[Hu _]|[_ ?]]; [by rewrite Hty in Hu|done]. }
    destruct (Z.eqb_spec opt LW_OPTION_EVENTSET_CLR) as [->|Hn1]; [|destruct (Z.eqb_spec opt LW_OPTION_EVENTSET_SET) as [->|Hn2]].
    + destruct (set_refines idle B k e E (Z.ldiff (EVENTSET_ulEventSets E) ev) Hi HE Hty (flags_ldiff _ _ Hfl))
        as (k' & f & -> & H1 & H2 & H3 & H4 & H5 & H6). eexists _, _, _, _, f. split; [done|]. splits; try done. by apply es_clr.
    + destruct (set_refines idle B k e E (Z.lor (EVENTSET_ulEventSets E) ev) Hi HE Hty (flags_lor _ _ Hfl Hl))
        as (k' & f & -> & H1 & H2 & H3 & H4 & H5 & H6). eexists _, _, _, _, f. split; [done|]. splits; try done. by apply es_set.
    + eexists k, _, _, _, nobody. split; [done|]. split; [done|]. split; [unfold es_of; by rewrite HE|].
      split; [by apply es_no_option|]. by splits.
Qed.

(** ** Creation and deletion *)

Section Life.
Context (idle B : Z -> Z).

Lemma es_created k c name init opt e l : es_inv idle B k -> LW_CPU_GET_CUR_NESTING c = 0 ->
  _Object_Name_Invalid name = false -> 0 <= init <= ULONG_MAX -> RESRC_free (K_resrcEventSet k) = e :: l ->
  exists k', API_EventSetCreate k c name init opt
      = Some (k', _MakeObjectId _OBJECT_EVENT_SET LW_CFG_PROCESSOR_NUMBER e, ERROR_NONE) /\
    es_inv idle B k' /\ 0 <= e < 2 ^ 16 /\ K_es k' !! e = Some (mkEventSet LW_TYPE_EVENT_EVENTSET [] init opt) /\
    (forall e', e' <> e -> K_es k' !! e' = K_es k !! e') /\ K_wait k' = K_wait k /\ K_sched k' = K_sched k /\
    K_event k' = K_event k.
Proof.
  intros Hi Hc Hn Hinit Hf. unfold API_EventSetCreate. rewrite Hc, Hn. cbn [Z.eqb negb].
  destruct (pool_alloc _ _ _ e l (ei_pool _ _ _ Hi) Hf) as (r' & Ea & _ & Hp). unfold _Allocate_EventSet_Object. rewrite Ea.
  set (F := mkEventSet LW_TYPE_EVENT_EVENTSET [] init opt). set (k' := upd_es e (fun _ => F) (set_resrces r' k)).
  exists k'. split; [done|].
  pose proof (ei_pool _ _ _ Hi) as (_ & P2 & P3 & P4 & _).
  assert (Hu : es_unused k e) by (apply P2; rewrite Hf; left). pose proof Hu as (E & HE & Hty).
  assert (Hnil : EVENTSET_plineWaitList E = []).
  { destruct (ei_es _ _ _ Hi e E HE) as [[_ ?]|[Ht _]]; [done|by rewrite Hty in Ht]. }
  assert (Hk' : kern_inv idle B k').
  { apply kern_inv_es; [intros E0 HE0; change (K_es (set_resrces r' k)) with (K_es k) in HE0;
      rewrite HE in HE0; injection HE0 as <-; by rewrite Hnil|].
    destruct (ei_kern _ _ _ Hi) as [Hk Hd]. split; [|exact Hd]. by apply (kern_ok_events idle B _ k). }
  assert (Hes : forall e', K_es k' !! e' = if decide (e' = e) then Some F else K_es k !! e').
  { intros e'. unfold k'. cbn [upd_es set_resrces K_es]. case_decide as He; [subst; by rewrite lookup_alter_eq, HE|by rewrite lookup_alter_ne]. }
  split; [|splits; try done; [apply P3 in Hu; lia|apply P3 in Hu; lia|by rewrite Hes, decide_True|intros e' He; by rewrite Hes, decide_False]].
  split; [done| | | |].
  - intros e' E'. rewrite Hes. case_decide; [|apply (ei_es _ _ _ Hi)]. intros [= <-]. by right.
  - exact (ei_node _ _ _ Hi).
  - apply (pool_inv_ext _ _ (fun x => es_unused k x /\ x <> e)); [|exact Hp]. intros x. unfold es_unused. rewrite Hes.
    case_decide as Hx; [subst|by split; [intros [? _]|]]. split; [by intros [_ ?]|]. by intros (E0 & [= <-] & ?).
  - intros e'. rewrite Hes. change (LW_CFG_MAX_EVENTSETS k') with (LW_CFG_MAX_EVENTSETS k).
    case_decide as He; [|apply (ei_dom _ _ _ Hi)]. subst. rewrite <-(ei_dom _ _ _ Hi). split; intros _; by eexists.
Qed.

(** What a deletion leaves: an unused control block, and threads that know. *)
Record es_deleted (k k' : KERNEL) (e : Z) (l : list Z) : Prop := {
  dl_unused : exists E, K_es k' !! e = Some E /\ EVENTSET_ucType E = LW_TYPE_EVENT_UNUSED /\ EVENTSET_plineWaitList E = [];
  dl_free : RESRC_free (K_resrcEventSet k') = RESRC_free (K_resrcEventSet k) ++ [e];
  dl_others : forall e', e' <> e -> K_es k' !! e' = K_es k !! e';
  dl_told : forall t, t ∈ l -> exists w w', K_wait k !! t = Some w /\ K_wait k' !! t = Some w' /\
    TCB_pesnPtr w' = None /\ TCB_ucIsEventDelete w' = LW_EVENT_DELETE /\ TCB_ucWaitTimeout w' = LW_WAIT_TIME_CLEAR /\
    t ∉ WU_line (K_wuDelay k');
  dl_rest : forall t, t ∉ l -> K_wait k' !! t = K_wait k !! t /\ sview (K_sched k') t = sview (K_sched k) t
}.

Lemma es_delete_spec k c ulId E : es_inv idle B k -> LW_CPU_GET_CUR_NESTING c = 0 ->
  _ObjectClassOK ulId _OBJECT_EVENT_SET = true -> K_es k !! _ObjectGetIndex ulId = Some E ->
  EVENTSET_ucType E = LW_TYPE_EVENT_EVENTSET ->
  exists k', API_EventSetDelete k c ulId = Some (k', ERROR_NONE, LW_OBJECT_HANDLE_INVALID) /\ es_inv idle B k' /\
    es_deleted k k' (_ObjectGetIndex ulId) (EVENTSET_plineWaitList E).
Proof.
  intros Hi Hc Hcl HE Hty. unfold API_EventSetDelete. rewrite Hc. cbn [Z.eqb negb]. set (e := _ObjectGetIndex ulId) in *.
  rewrite (eventset_check_ok idle B k ulId E Hi Hcl HE Hty). cbn [mbind option_bind Z.eqb negb]. fold e. rewrite HE.
  cbn [mbind option_bind]. set (l := EVENTSET_plineWaitList E).
  assert (Hl : NoDup l) by (by apply (ko_es _ _ _ _ (proj1 (ei_kern _ _ _ Hi)) e E)).
  destruct (es_delete_loop_spec idle B e l k E (ei_kern _ _ _ Hi) HE Hl (fun _ H => H)) as (k1 & f & E1 & Hk1 & Hs & Hf).
  rewrite E1. cbn [mbind option_bind].
  assert (Hfl : forall t, f t = if decide (t ∈ l) then Some 0 else None).
  { intros t. case_decide as Ht; [by apply Hf|]. destruct (f t) as [v|] eqn:Ef; [|done]. by apply Hf in Ef as [? _]. }
  set (E' := mkEventSet LW_TYPE_EVENT_UNUSED [] (EVENTSET_ulEventSets E) (EVENTSET_ulOption E)).
  assert (HE1 : K_es k1 !! e = Some (set_EVENTSET_plineWaitList [] E)).
  { rewrite (sd_list _ _ _ _ _ Hs), lookup_alter_eq, HE. simpl. do 2 f_equal.
    assert (H : forall t, t ∈ filter (fun u => f u = None) l -> False).
    { intros t [Ht Hin]%list_elem_of_filter. rewrite Hfl, decide_True in Ht by done. done. }
    fold l. destruct (filter _ l) as [|x l']; [done|]. destruct (H x). left. }
  set (k2 := upd_es e (set_EVENTSET_plineWaitList []) (upd_es e (set_EVENTSET_ucType LW_TYPE_EVENT_UNUSED) k1)).
  assert (Hes : forall e', K_es k2 !! e' = if decide (e' = e) then Some E' else K_es k !! e').
  { intros e'. unfold k2. cbn [upd_es K_es]. case_decide as He; [subst e'; by rewrite !lookup_alter_eq, HE1|].
    rewrite !lookup_alter_ne by done. by rewrite (sd_list _ _ _ _ _ Hs), lookup_alter_ne. }
  assert (Hk2 : kern_inv idle B k2).
  { apply kern_inv_es; [|by apply kern_inv_es; [intros ? ?|]]. cbn [upd_es K_es]. intros E0. rewrite lookup_alter_eq, HE1.
    by intros [= <-]. }
  set (k' := set_resrces _ _). exists k'. split; [done|].
  assert (Hu : ~ es_unused k e) by (intros (E0 & H0 & H1); rewrite HE in H0; injection H0 as <-; by rewrite Hty in H1).
  assert (He : 0 <= e < LW_CFG_MAX_EVENTSETS k) by (apply (ei_dom _ _ _ Hi); by eexists).
  split; [split|split].
  - destruct Hk2 as [H2 Hd2]. split; [|exact Hd2]. by apply (kern_ok_events idle B _ k2).
  - intros e' E0. change (K_es k') with (K_es k2). rewrite Hes. case_decide; [|apply (ei_es _ _ _ Hi)]. intros [= <-]. by left.
  - exact (node_ok_served _ _ _ _ _ Hs (ei_node _ _ _ Hi)).
  - change (LW_CFG_MAX_EVENTSETS k') with (LW_CFG_MAX_EVENTSETS k1). rewrite (sd_maxes _ _ _ _ _ Hs).
    change (K_resrcEventSet k') with (resrc_free (K_resrcEventSet k1) e). rewrite (sd_resrces _ _ _ _ _ Hs).
    apply (pool_inv_ext _ _ (fun x => es_unused k x \/ x = e)); [|by apply pool_free; [apply (ei_pool _ _ _ Hi)|..]].
    intros x. unfold es_unused. change (K_es k') with (K_es k2). rewrite Hes. case_decide as Hx; [|naive_solver].
    split; [intros _; by exists E'|by right].
  - intros e'. change (K_es k') with (K_es k2). rewrite Hes. change (LW_CFG_MAX_EVENTSETS k') with (LW_CFG_MAX_EVENTSETS k1).
    rewrite (sd_maxes _ _ _ _ _ Hs). case_decide as Hx; [|apply (ei_dom _ _ _ Hi)]. subst. split; [done|]. intros _. by eexists.
  - exists E'. change (K_es k') with (K_es k2). by rewrite Hes, decide_True.
  - change (K_resrcEventSet k') with (resrc_free (K_resrcEventSet k1) e). by rewrite (sd_resrces _ _ _ _ _ Hs).
  - intros e' Hx. change (K_es k') with (K_es k2). by rewrite Hes, decide_False.
  - intros t Ht. destruct (es_waiter idle B k e E t (ei_kern _ _ _ Hi) HE Ht) as (w & N & _ & _ & Hw & _ & Hesn & _).
    destruct (ei_node _ _ _ Hi t w Hw) as (_ & H2 & _); [by rewrite Hesn; eexists|].
    eexists w, _. split; [done|]. split.
    + change (K_wait k') with (K_wait k1). by rewrite (sd_wait _ _ _ _ _ Hs), Hfl, decide_True, Hw.
    + splits; try done. change (K_wuDelay k') with (K_wuDelay k1). rewrite (sd_line _ _ _ _ _ Hs), Hfl, decide_True by done. by intros [_ ?].
  - intros t Ht. change (K_wait k') with (K_wait k1). change (K_sched k') with (K_sched k1).
    rewrite (sd_wait _ _ _ _ _ Hs), Hfl, decide_False by done. split; [done|]. apply (sd_sview _ _ _ _ _ Hs). by rewrite Hfl, decide_False.
Qed.

(** *** The rest of a get *)

Lemma es_resume_eq k t w ulId ev opt now save tmo eopt : K_wait k !! t = Some w ->
  API_EventSetGetEx_resume k t ulId ev opt now save tmo eopt 0 =
    if TCB_ucWaitTimeout w =? LW_WAIT_TIME_OUT then Some (k, Return ERROR_THREAD_WAIT_TIMEOUT, None)
    else if TCB_ucIsEventDelete w =? LW_EVENT_EXIST then
      E ← K_es k !! _ObjectGetIndex ulId;
      Some (upd_es (_ObjectGetIndex ulId) (set_EVENTSET_ulEventSets
              (es_reset (wait_type opt) opt (TCB_ulEventSets w) (EVENTSET_ulEventSets E))) k,
            Return ERROR_NONE, Some (es_return opt (TCB_ulEventSets w) (EVENTSET_ulEventSets E)))
    else Some (k, Return ERROR_EVENTSET_WAS_DELETED, None).
Proof. intros Hw. unfold API_EventSetGetEx_resume. cbn [Z.eqb negb]. by rewrite Hw. Qed.

(** A wait on an event set ends for the right reason.  A thread that waits returns
    ERROR_THREAD_WAIT_TIMEOUT when a tick ends its delay, ERROR_EVENTSET_WAS_DELETED when the set is
    deleted, and, when a set or clear ends its wait, ERROR_NONE with exactly the flags that ended
    it (or all flags, if it asked for them), resetting the flags as it asked. *)
Theorem eventset_wait_outcomes k t ulId E ev opt now save tmo eopt :
  es_inv idle B k -> _ObjectClassOK ulId _OBJECT_EVENT_SET = true ->
  let e := _ObjectGetIndex ulId in let ty := wait_type opt in
  K_es k !! e = Some E -> EVENTSET_ucType E = LW_TYPE_EVENT_EVENTSET -> t ∈ EVENTSET_plineWaitList E -> node k t = (ty, ev) ->
  let rest k' := API_EventSetGetEx_resume k' t ulId ev opt now save tmo eopt 0 in
  (forall k' l, _ThreadTick k = Some (k', l) -> t ∈ l -> rest k' = Some (k', Return ERROR_THREAD_WAIT_TIMEOUT, None)) /\
  (forall c k', LW_CPU_GET_CUR_NESTING c = 0 -> API_EventSetDelete k c ulId = Some (k', ERROR_NONE, LW_OBJECT_HANDLE_INVALID) ->
     rest k' = Some (k', Return ERROR_EVENTSET_WAS_DELETED, None)) /\
  (forall flag o k', 0 <= flag <= ULONG_MAX -> o = LW_OPTION_EVENTSET_SET \/ o = LW_OPTION_EVENTSET_CLR ->
     API_EventSetSet k ulId flag o = Some (k', ERROR_NONE) ->
     exists E', K_es k' !! e = Some E' /\
       let flags := EVENTSET_ulEventSets E' in
       EVENTSET_ulEventSets E' = (if o =? LW_OPTION_EVENTSET_SET then Z.lor (EVENTSET_ulEventSets E) flag
                                  else Z.ldiff (EVENTSET_ulEventSets E) flag) /\
       (over ty ev flags -> rest k' = Some (upd_es e (set_EVENTSET_ulEventSets (es_reset ty opt (hits ty ev flags) flags)) k',
          Return ERROR_NONE, Some (es_return opt (hits ty ev flags) flags))) /\
       (~ over ty ev flags -> t ∈ EVENTSET_plineWaitList E')).
Proof.
  intros Hi Hc e ty HE Hty Hin Hnode rest.
  destruct (es_waiter idle B k e E t (ei_kern _ _ _ Hi) HE Hin) as (w & N & p & st & Hw & Hpe & Hes & HN & _ & Hv & Hst & _).
  split; [|split].
  - intros k' l Et Ht. destruct (ei_kern _ _ _ Hi) as [Hk [qd Hqd]].
    destruct (thread_tick_spec idle B k qd Hk Hqd) as (k1 & E1 & _ & _ & T). rewrite E1 in Et. injection Et as <- <-.
    destruct (tk_self _ _ _ T t Ht) as (w0 & p0 & st0 & st' & Hw0 & Hv0 & _ & _ & _ & Hw' & _).
    rewrite Hw in Hw0. injection Hw0 as <-. rewrite Hv in Hv0. injection Hv0 as <- <-.
    unfold rest. rewrite (es_resume_eq _ _ _ _ _ _ _ _ _ _ Hw').
    rewrite pending_wait by (by rewrite Hst). done.
  - intros c k' Hn Ed. destruct (es_delete_spec k c ulId E Hi Hn Hc HE Hty) as (k1 & E1 & _ & Hd).
    rewrite E1 in Ed. injection Ed as <-. destruct (dl_told _ _ _ _ Hd t Hin) as (w0 & w' & _ & Hw' & _ & H2 & H3 & _).
    unfold rest. rewrite (es_resume_eq _ _ _ _ _ _ _ _ _ _ Hw'). by rewrite H2, H3.
  - intros flag o k' Hfl Ho Eset.
    assert (Hef : 0 <= EVENTSET_ulEventSets E <= ULONG_MAX).
    { destruct (ei_es _ _ _ Hi e E HE) as [[Hu _]|[_ ?]]; [by rewrite Hty in Hu|done]. }
    set (v := if o =? LW_OPTION_EVENTSET_SET then Z.lor (EVENTSET_ulEventSets E) flag else Z.ldiff (EVENTSET_ulEventSets E) flag).
    assert (Hv' : 0 <= v <= ULONG_MAX) by (unfold v; case_if; [by apply flags_lor|by apply flags_ldiff]).
    destruct (set_refines idle B k e E v Hi HE Hty Hv') as (k1 & f & Ew & _ & Hsv & Hof & Heff & _).
    assert (Ek : k1 = k').
    { unfold API_EventSetSet in Eset. rewrite (eventset_check_ok idle B k ulId E Hi Hc HE Hty) in Eset.
      cbn [mbind option_bind Z.eqb negb] in Eset. fold e in Eset. rewrite HE in Eset. cbn [mbind option_bind] in Eset.
      destruct Ho as [-> | ->].
      - change (LW_OPTION_EVENTSET_SET =? LW_OPTION_EVENTSET_CLR) with false in Eset.
        change (LW_OPTION_EVENTSET_SET =? LW_OPTION_EVENTSET_SET) with true in Eset. cbv iota in Eset.
        change (Z.lor (EVENTSET_ulEventSets E) flag) with v in Eset. rewrite Ew in Eset. by injection Eset.
      - change (LW_OPTION_EVENTSET_CLR =? LW_OPTION_EVENTSET_CLR) with true in Eset. cbv iota in Eset.
        change (Z.ldiff (EVENTSET_ulEventSets E) flag) with v in Eset. rewrite Ew in Eset. by injection Eset. }
    subst k1. unfold es_of in Hof. destruct (K_es k' !! e) as [E'|] eqn:HE'; [|done].
    cbn [mbind option_bind] in Hof. injection Hof as Hfv Hwt. exists E'. split; [done|]. cbv zeta. rewrite Hfv. split; [done|].
    assert (Hmem : (t, (ty, ev)) ∈ (fun t => (t, node k t)) <$> EVENTSET_plineWaitList E).
    { apply list_elem_of_fmap. exists t. by rewrite Hnode. }
    split.
    + intros Hov. assert (Hft : f t = Some (hits ty ev v)) by (apply Hsv; by exists ty, ev).
      destruct (proj1 (Heff 0 0) t _ Hft) as (w0 & w' & _ & Hw' & _ & _ & H1 & H2 & H3 & _).
      unfold rest. rewrite (es_resume_eq _ _ _ _ _ _ _ _ _ _ Hw'). fold e ty. rewrite H2, H3, H1, HE'. cbn [mbind option_bind]. by rewrite Hfv.
    + intros Hno. assert (Hft : f t = None).
      { destruct (f t) as [x|] eqn:Ef; [|done]. apply Hsv in Ef as (ty0 & ev0 & (u & Eu & _)%list_elem_of_fmap & Hov & _).
        injection Eu as <- En. rewrite Hnode in En. injection En as -> ->. done. }
      assert (Hx : (t, (ty, ev)) ∈ filter (fun x : Z * (Z * Z) => f x.1 = None) ((fun t => (t, node k t)) <$> EVENTSET_plineWaitList E))
        by (by apply list_elem_of_filter).
      rewrite <-Hwt in Hx. apply list_elem_of_fmap in Hx as (u & Eu & Hu). by injection Eu as ->.
Qed.
End Life.

(** ** Runs of the small system *)

Lemma demo_es_inv : es_inv id SEMB demo_kernel.
Proof.
  assert (He : forall e E, K_es demo_kernel !! e = Some E -> E = eventset0 /\ (e = 0 \/ e = 1)).
  { intros e E H. cbn [demo_kernel set_sched boot K_es fmap list_fmap list_to_map foldr fst snd] in H.
    repeat (apply lookup_insert_Some in H as [[<- <-]|[_ H]]; [split; [done|tauto]|]). by apply lookup_empty_Some in H. }
  assert (Hd : forall e, e = 0 \/ e = 1 -> K_es demo_kernel !! e = Some eventset0) by (by intros e [-> | ->]).
  split; [apply demo_inv| | | |].
  - intros e E H. destruct (He e E H) as [-> _]. by left.
  - intros t w Hw. apply boot_wait in Hw as [_ ->]. by intros [? ?].
  - split; [decide_now|]. change (RESRC_free (K_resrcEventSet demo_kernel)) with [0; 1].
    change (LW_CFG_MAX_EVENTSETS demo_kernel) with 2.
    assert (Hu : forall e, es_unused demo_kernel e <-> e = 0 \/ e = 1).
    { intros e. split; [intros (E & H & _); by apply (He e E)|]. intros H. exists eventset0. by rewrite (Hd e H). }
    split; [|split; [|done]]; intros e; rewrite Hu; [|lia]. rewrite !elem_of_cons, elem_of_nil. tauto.
  - intros e. change (LW_CFG_MAX_EVENTSETS demo_kernel) with 2. split; [intros [E H]; destruct (He e E H); lia|].
    intros H. rewrite Hd by lia. by eexists.
Qed.

Definition es_id : Z := _MakeObjectId _OBJECT_EVENT_SET LW_CFG_PROCESSOR_NUMBER 0.
Definition es_demo : KERNEL :=
  match API_EventSetCreate demo_kernel (call 20) None 0 0 with Some (k, _, _) => k | None => demo_kernel end.

Lemma es_index : _ObjectGetIndex es_id = 0.
Proof. by vm_compute. Qed.

Lemma es_class : _ObjectClassOK es_id _OBJECT_EVENT_SET = true.
Proof. by vm_compute. Qed.

Lemma es_demo_spec : es_inv id SEMB es_demo /\ K_es es_demo !! _ObjectGetIndex es_id = Some (mkEventSet LW_TYPE_EVENT_EVENTSET [] 0 0) /\
  K_sched es_demo = K_sched demo_kernel.
Proof.
  destruct (es_created id SEMB demo_kernel (call 20) None 0 0 0 [1] demo_es_inv eq_refl eq_refl) as (k' & E & Hi & _ & HE & _ & _ & Hs & _);
    [done|reflexivity|]. unfold es_demo. rewrite E, es_index. splits; [exact Hi|exact HE|exact Hs].
Qed.

(** Thread 20 waits for flag 0 to be set, to reset it, for one tick. *)
Definition es_get : ES_OP := EGet 20 1 (Z.lor LW_OPTION_EVENTSET_WAIT_SET_ANY LW_OPTION_EVENTSET_RESET) 1.
Definition es_wait : KERNEL := match es_call es_demo es_id es_get with Some (k, _, _) => k | None => es_demo end.

Lemma es_get_legal : es_legal id es_demo es_get.
Proof.
  split; [|by vm_compute]. apply demo_runs. apply es_demo_spec.
Qed.

Lemma eventset_refines_witness :
  (es_inv id SEMB es_demo /\ es_legal id es_demo es_get) /\
  exists s, es_of es_demo (_ObjectGetIndex es_id) = Some s /\
    es_refines_at id SEMB es_demo (_ObjectGetIndex es_id) s es_get (es_call es_demo es_id es_get).
Proof.
  split; [split; [apply es_demo_spec|exact es_get_legal]|].
  exact (eventset_refines id SEMB es_demo es_id (mkEventSet LW_TYPE_EVENT_EVENTSET [] 0 0) es_get
    (proj1 es_demo_spec) es_class (proj1 (proj2 es_demo_spec)) eq_refl es_get_legal).
Defined.

Lemma es_wait_spec : es_inv id SEMB es_wait /\ node es_wait 20 = (LW_OPTION_EVENTSET_WAIT_SET_ANY, 1) /\
  K_es es_wait !! _ObjectGetIndex es_id = Some (mkEventSet LW_TYPE_EVENT_EVENTSET [20] 0 0).
Proof.
  destruct (get_refines id SEMB es_demo 20 es_id _ 1 (Z.lor LW_OPTION_EVENTSET_WAIT_SET_ANY LW_OPTION_EVENTSET_RESET) 1
    (proj1 es_demo_spec) es_class (proj1 (proj2 es_demo_spec)) eq_refl es_get_legal) as (k' & s' & r & v & f & E & Hi & _).
  split; [|split; by vm_compute]. unfold es_wait. change (es_call es_demo es_id es_get = Some (k', r, v)) in E. by rewrite E.
Qed.

Lemma eventset_wait_outcomes_witness :
  (es_inv id SEMB es_wait /\ K_es es_wait !! _ObjectGetIndex es_id = Some (mkEventSet LW_TYPE_EVENT_EVENTSET [20] 0 0)) /\
  exists k', API_EventSetSet es_wait es_id 5 LW_OPTION_EVENTSET_SET = Some (k', ERROR_NONE) /\
    exists k2, API_EventSetGetEx_resume k' 20 es_id 1 (Z.lor LW_OPTION_EVENTSET_WAIT_SET_ANY LW_OPTION_EVENTSET_RESET) 0 0 1 0 0
      = Some (k2, Return ERROR_NONE, Some 1) /\ es_flags <$> es_of k2 0 = Some 4.
Proof.
  split; [split; apply es_wait_spec|].
  destruct (API_EventSetSet es_wait es_id 5 LW_OPTION_EVENTSET_SET) as [[k' r]|] eqn:E.
  2:{ exfalso. assert (H : is_Some (API_EventSetSet es_wait es_id 5 LW_OPTION_EVENTSET_SET)) by (vm_compute; by eexists).
      rewrite E in H. by destruct H. }
  assert (Hr : (fun x => x.2) <$> API_EventSetSet es_wait es_id 5 LW_OPTION_EVENTSET_SET = Some ERROR_NONE) by (by vm_compute).
  rewrite E in Hr. injection Hr as ->. exists k'. split; [reflexivity|].
  destruct (eventset_wait_outcomes id SEMB es_wait 20 es_id (mkEventSet LW_TYPE_EVENT_EVENTSET [20] 0 0) 1
    (Z.lor LW_OPTION_EVENTSET_WAIT_SET_ANY LW_OPTION_EVENTSET_RESET) 0 0 1 0 (proj1 es_wait_spec) es_class
    (proj2 (proj2 es_wait_spec)) eq_refl ltac:(left) (proj1 (proj2 es_wait_spec))) as (_ & _ & H).
  destruct (H 5 LW_OPTION_EVENTSET_SET k') as (E' & HE' & Hf & Ho & _);
    [unfold ULONG_MAX; lia|left; reflexivity|exact E|]. clear E H.
  change (EVENTSET_ulEventSets E' = 5) in Hf. rewrite Hf in Ho. eexists. split; [apply Ho; exists 0; split; reflexivity|].
  rewrite es_index in HE' |- *. unfold es_of. cbn [upd_es K_es]. rewrite lookup_alter_eq, HE'. vm_compute. reflexivity.
Defined.

(** ** Two runs that surprise *)

(** A get that resets flags does not look for threads that wait for them to be
    clear: thread 20 waits for flag 0 to be clear, thread 10 takes and resets it, and 20 goes on waiting. *)
Definition reset_run : option (KERNEL * Z) :=
  '(k, _) ← API_EventSetSet es_demo es_id 1 LW_OPTION_EVENTSET_SET;
  '(k, _, _) ← API_EventSetGetEx k (call 20) es_id 1 LW_OPTION_EVENTSET_WAIT_CLR_ALL LW_OPTION_WAIT_INFINITE;
  '(k, r, _) ← API_EventSetTryGetEx k (call 10) es_id 1 (Z.lor LW_OPTION_EVENTSET_WAIT_SET_ALL LW_OPTION_EVENTSET_RESET);
  Some (k, r).

Lemma reset_wakes_nobody :
  (fun r => (r.2, es_of r.1 0)) <$> reset_run
  = Some (ERROR_NONE, Some (mkES 0 [(20, (LW_OPTION_EVENTSET_WAIT_CLR_ALL, 1))])) /\
  over LW_OPTION_EVENTSET_WAIT_CLR_ALL 1 0.
Proof. split; [by vm_compute|]. intros i _. apply Z.bits_0. Qed.

(** A woken get resets the flags of whatever set has its control block when it runs
    again: after the set of thread 20 is deleted and its control block reused, 20 takes flag 0
    from the new set. *)
Definition stale_run : option (KERNEL * PEND) :=
  '(k, _) ← API_EventSetSet es_wait es_id 1 LW_OPTION_EVENTSET_SET;
  '(k, _, _) ← API_EventSetDelete k (call 10) es_id;
  '(k, _, _) ← API_EventSetCreate k (call 10) None 0 0;
  '(k, i, _) ← API_EventSetCreate k (call 10) None 3 0;
  '(k, r, _) ← API_EventSetGetEx_resume k 20 es_id 1 (Z.lor LW_OPTION_EVENTSET_WAIT_SET_ANY LW_OPTION_EVENTSET_RESET) 0 0 1 0 0;
  if i =? es_id then Some (k, r) else None.

Lemma stale_reset : (fun r => (r.2, es_flags <$> es_of r.1 0)) <$> stale_run = Some (Return ERROR_NONE, Some 2).
Proof. by vm_compute. Qed.
