(* ===== verification/Heap.v ===== *)
(** * The heap: kernel/core/_HeapLib.c

    A heap is a chain of segments, each a header of 48 bytes followed by its data; the
    free ones are also in a ring, which is searched first-fit.  The headers are kept by
    the address of the segment, the chain and the ring as the lists they denote
    (file Lists); of the rest of the memory the model has the words the
    heap reads back: the magic word of a header and the word before an aligned
    pointer.  [None] is an access to a header that does not exist or to a word the heap
    has not written.  [ulLockErr] is what taking the lock of the heap returns; trace hooks,
    debug messages and the monitor are not in the state. *)

From S2P Require Import Prelude Lists.

(** ** memory_cfg.h, k_const.h, k_typemacro.h *)

(** LW_CFG_HEAP_ALIGNMENT and LW_CFG_HEAP_SEG_MIN_SIZE are [2 ^ 4]. *)
Definition LW_CFG_HEAP_ALIGNMENT_SHIFT : Z := 4.
Definition LW_CFG_HEAP_SEG_MIN_SIZE : Z := 16.
(** [ROUND_UP(sizeof(LW_CLASS_SEGMENT), LW_CFG_HEAP_ALIGNMENT)]: two links of two
    pointers, the size and the magic word. *)
Definition __SEGMENT_BLOCK_SIZE_ALIGN : Z := 48.
Definition SEGMENT_stMagic_offset : Z := 40.
Definition LW_SEG_MAGIC_REAL : Z := 0xffffffff.
Definition __HEAP_SEGMENT_MARK_FLAG : Z := 0xA5A54321.
Definition EFAULT : Z := 14.
Definition HEAP_NULL : Z := 0.
Definition HEAP_OK : Z := 0.

(** [LW_CLASS_HEAP], the chain [SEGMENT_lineManage] from the first segment on,
    the sizes in the headers, and the words. *)
Record HEAP := mkHeap {
  HEAP_pringFreeSegment : list Z;
  HEAP_pvStartAddress : Z;
  HEAP_stTotalByteSize : Z;
  HEAP_ulSegmentCounter : Z;
  HEAP_stUsedByteSize : Z;
  HEAP_stFreeByteSize : Z;
  HEAP_stMaxUsedByteSize : Z;
  SEGMENT_lineManage : list Z;
  SEGMENT_stByteSize : gmap Z Z;
  HEAP_words : gmap Z Z
}.

(** *** Field writes *)

Definition set_ring (v : list Z) (h : HEAP) : HEAP :=
  mkHeap v (HEAP_pvStartAddress h) (HEAP_stTotalByteSize h) (HEAP_ulSegmentCounter h) (HEAP_stUsedByteSize h)
    (HEAP_stFreeByteSize h) (HEAP_stMaxUsedByteSize h) (SEGMENT_lineManage h) (SEGMENT_stByteSize h) (HEAP_words h).
Definition set_chain (v : list Z) (h : HEAP) : HEAP :=
  mkHeap (HEAP_pringFreeSegment h) (HEAP_pvStartAddress h) (HEAP_stTotalByteSize h) (HEAP_ulSegmentCounter h)
    (HEAP_stUsedByteSize h) (HEAP_stFreeByteSize h) (HEAP_stMaxUsedByteSize h) v (SEGMENT_stByteSize h) (HEAP_words h).
Definition set_sizes (v : gmap Z Z) (h : HEAP) : HEAP :=
  mkHeap (HEAP_pringFreeSegment h) (HEAP_pvStartAddress h) (HEAP_stTotalByteSize h) (HEAP_ulSegmentCounter h)
    (HEAP_stUsedByteSize h) (HEAP_stFreeByteSize h) (HEAP_stMaxUsedByteSize h) (SEGMENT_lineManage h) v (HEAP_words h).
Definition set_word (a v : Z) (h : HEAP) : HEAP :=
  mkHeap (HEAP_pringFreeSegment h) (HEAP_pvStartAddress h) (HEAP_stTotalByteSize h) (HEAP_ulSegmentCounter h)
    (HEAP_stUsedByteSize h) (HEAP_stFreeByteSize h) (HEAP_stMaxUsedByteSize h) (SEGMENT_lineManage h)
    (SEGMENT_stByteSize h) (<[a := v]> (HEAP_words h)).
(** Segment counter, used and free bytes move by the given amounts. *)
Definition account (segs used free : Z) (h : HEAP) : HEAP :=
  mkHeap (HEAP_pringFreeSegment h) (HEAP_pvStartAddress h) (HEAP_stTotalByteSize h)
    (wrap 64 (HEAP_ulSegmentCounter h + segs)) (wrap 64 (HEAP_stUsedByteSize h + used))
    (wrap 64 (HEAP_stFreeByteSize h + free)) (HEAP_stMaxUsedByteSize h) (SEGMENT_lineManage h)
    (SEGMENT_stByteSize h) (HEAP_words h).
Definition set_total (v : Z) (h : HEAP) : HEAP :=
  mkHeap (HEAP_pringFreeSegment h) (HEAP_pvStartAddress h) v (HEAP_ulSegmentCounter h)
    (HEAP_stUsedByteSize h) (HEAP_stFreeByteSize h) (HEAP_stMaxUsedByteSize h) (SEGMENT_lineManage h)
    (SEGMENT_stByteSize h) (HEAP_words h).

Definition __HEAP_UPDATA_MAX_USED (h : HEAP) : HEAP :=
  mkHeap (HEAP_pringFreeSegment h) (HEAP_pvStartAddress h) (HEAP_stTotalByteSize h) (HEAP_ulSegmentCounter h)
    (HEAP_stUsedByteSize h) (HEAP_stFreeByteSize h)
    (if HEAP_stMaxUsedByteSize h <? HEAP_stUsedByteSize h then HEAP_stUsedByteSize h else HEAP_stMaxUsedByteSize h)
    (SEGMENT_lineManage h) (SEGMENT_stByteSize h) (HEAP_words h).

(** ** The macros *)

(** [_List_Line_Add_Tail] with a header that points at [x]: behind [x]. *)
Fixpoint insert_after (x y : Z) (l : list Z) : list Z :=
  match l with
  | [] => []
  | z :: l => if z =? x then z :: y :: l else z :: insert_after x y l
  end.

Definition __HEAP_SEGMENT_IS_USED (h : HEAP) (psegment : Z) : bool :=
  negb (bool_decide (psegment ∈ HEAP_pringFreeSegment h)).
Definition __HEAP_SEGMENT_IS_REAL (h : HEAP) (psegment : Z) : option bool :=
  v ← HEAP_words h !! (psegment +64 SEGMENT_stMagic_offset); Some (v =? LW_SEG_MAGIC_REAL).
Definition __HEAP_SEGMENT_DATA_PTR (psegment : Z) : Z := psegment +64 __SEGMENT_BLOCK_SIZE_ALIGN.
Definition __HEAP_SEGMENT_SEG_PTR (pvData : Z) : Z := pvData -64 __SEGMENT_BLOCK_SIZE_ALIGN.
Definition __HEAP_SEGMENT_NEXT_PTR (h : HEAP) (psegment : Z) : option Z :=
  n ← SEGMENT_stByteSize h !! psegment; Some (__HEAP_SEGMENT_DATA_PTR psegment +64 n).

(** The last segment of the chain goes to the end of the ring, the others to its head. *)
Definition __HEAP_ADD_NEW_SEG_TO_FREELIST (psegment : Z) (h : HEAP) : HEAP :=
  match list_next psegment (SEGMENT_lineManage h) with
  | Some _ => set_ring (psegment :: HEAP_pringFreeSegment h) h
  | None => set_ring (HEAP_pringFreeSegment h ++ [psegment]) h
  end.

Definition ring_del (psegment : Z) (h : HEAP) : HEAP :=
  set_ring (remove_node psegment (HEAP_pringFreeSegment h)) h.

(** Size and magic word of a new header. *)
Definition new_segment (psegment stByteSize : Z) (h : HEAP) : HEAP :=
  set_word (psegment +64 SEGMENT_stMagic_offset) LW_SEG_MAGIC_REAL
    (set_sizes (<[psegment := stByteSize]> (SEGMENT_stByteSize h)) h).

Definition set_size (psegment stByteSize : Z) (h : HEAP) : HEAP :=
  set_sizes (<[psegment := stByteSize]> (SEGMENT_stByteSize h)) h.

(** A header disappears into the data of its left neighbour; its words stay. *)
Definition line_del (psegment : Z) (h : HEAP) : HEAP :=
  set_sizes (delete psegment (SEGMENT_stByteSize h)) (set_chain (remove_node psegment (SEGMENT_lineManage h)) h).

(** [_K_bHeapCrossBorderEn] is [bCross]. *)
Definition __heap_crossbord_size (bCross : bool) (stSize : Z) : Z :=
  if bCross then stSize +64 8 else stSize.
Definition __heap_crossbord_mark (bCross : bool) (h : HEAP) (psegment : Z) : option HEAP :=
  if bCross then
    n ← SEGMENT_stByteSize h !! psegment;
    Some (set_word (__HEAP_SEGMENT_DATA_PTR psegment +64 (n -64 8)) __HEAP_SEGMENT_MARK_FLAG h)
  else Some h.

(** ** Construction *)

Definition _HeapCtorEx (pvStartAddress stByteSize : Z) : HEAP :=
  let ulStartAlign := ROUND_UP pvStartAddress LW_CFG_HEAP_ALIGNMENT_SHIFT in
  let stByteSize := if pvStartAddress <? ulStartAlign then stByteSize -64 (ulStartAlign -64 pvStartAddress) else stByteSize in
  let stByteSize := ROUND_DOWN stByteSize LW_CFG_HEAP_ALIGNMENT_SHIFT in
  mkHeap [ulStartAlign] ulStartAlign stByteSize 1 __SEGMENT_BLOCK_SIZE_ALIGN (stByteSize -64 __SEGMENT_BLOCK_SIZE_ALIGN)
    __SEGMENT_BLOCK_SIZE_ALIGN [ulStartAlign] {[ulStartAlign := stByteSize -64 __SEGMENT_BLOCK_SIZE_ALIGN]}
    {[ulStartAlign +64 SEGMENT_stMagic_offset := LW_SEG_MAGIC_REAL]}.

(** The loop of [_HeapAddMemory]: overlap is found, or the last segment. *)
Fixpoint add_scan (h : HEAP) (l : list Z) (ulStart ulEnd : Z) : option (option Z) :=
  match l with
  | [] => None
  | [x] => Some (Some x)
  | x :: l =>
    n ← SEGMENT_stByteSize h !! x;
    let ulSeg := __HEAP_SEGMENT_DATA_PTR x in
    if (ulSeg <=? ulStart) && (ulStart <? ulSeg +64 n) then Some None
    else if (ulSeg <=? ulEnd) && (ulEnd <? ulSeg +64 n) then Some None
    else add_scan h l ulStart ulEnd
  end.

Definition _HeapAddMemory (h : HEAP) (pvMemory stSize ulLockErr : Z) : option (HEAP * Z) :=
  let ulStartAlign := ROUND_UP pvMemory LW_CFG_HEAP_ALIGNMENT_SHIFT in
  let stSize := if pvMemory <? ulStartAlign then stSize -64 (ulStartAlign -64 pvMemory) else stSize in
  let stSize := ROUND_DOWN stSize LW_CFG_HEAP_ALIGNMENT_SHIFT in
  let ulEnd := (ulStartAlign +64 stSize) -64 1 in
  if negb (ulLockErr =? 0) then Some (h, ulLockErr)
  else
    r ← add_scan h (SEGMENT_lineManage h) ulStartAlign ulEnd;
    match r with
    | None => Some (h, EFAULT)
    | Some psegmentLast =>
      let h := new_segment ulStartAlign (stSize -64 __SEGMENT_BLOCK_SIZE_ALIGN) h in
      let h := set_chain (insert_after psegmentLast ulStartAlign (SEGMENT_lineManage h)) h in
      let h := __HEAP_ADD_NEW_SEG_TO_FREELIST ulStartAlign h in
      let h := set_total (HEAP_stTotalByteSize h +64 stSize) h in
      Some (account 1 __SEGMENT_BLOCK_SIZE_ALIGN (stSize -64 __SEGMENT_BLOCK_SIZE_ALIGN) h, HEAP_OK)
    end.

(** ** Reports *)

Fixpoint ring_max (h : HEAP) (l : list Z) (stMax : Z) : option Z :=
  match l with
  | [] => Some stMax
  | x :: l => n ← SEGMENT_stByteSize h !! x; ring_max h l (if stMax <? n then n else stMax)
  end.
Definition _HeapGetMax (h : HEAP) (ulLockErr : Z) : option Z :=
  if negb (ulLockErr =? 0) then Some 0 else ring_max h (HEAP_pringFreeSegment h) 0.

Definition _HeapGetInfo (h : HEAP) (iMaxCounter ulLockErr : Z) : list Z :=
  if negb (ulLockErr =? 0) then [] else take (Z.to_nat iMaxCounter) (SEGMENT_lineManage h).

(** [_HeapDtor] answers whether the heap is gone. *)
Definition _HeapDtor (h : HEAP) (bIsCheckUsed : bool) (ulLockErr : Z) : HEAP * bool :=
  if negb (ulLockErr =? 0) then (h, false)
  else if bIsCheckUsed && existsb (__HEAP_SEGMENT_IS_USED h) (SEGMENT_lineManage h) then (h, false)
  else (set_total 0 (account 0 0 (- HEAP_stFreeByteSize h) h), true).

(** The loop of [_HeapVerify]: the first segment that has the address, if it
    is used. *)
Fixpoint verify_scan (h : HEAP) (l : list Z) (pv : Z) : option (option Z) :=
  match l with
  | [] => Some None
  | x :: l =>
    n ← SEGMENT_stByteSize h !! x;
    if (x <? pv) && (pv <=? __HEAP_SEGMENT_DATA_PTR x +64 n)
    then Some (if __HEAP_SEGMENT_IS_USED h x then Some x else None)
    else verify_scan h l pv
  end.
Definition _HeapVerify (h : HEAP) (pv : Z) : option (option Z) :=
  if (pv <? HEAP_pvStartAddress h) || (HEAP_pvStartAddress h +64 HEAP_stTotalByteSize h <=? pv) then Some None
  else verify_scan h (SEGMENT_lineManage h) pv.

(** ** Allocation *)

(** The rest of a segment that was taken from the ring is split off when it is
    large enough. *)
Definition heap_split (h : HEAP) (psegment stSize : Z) : option HEAP :=
  n ← SEGMENT_stByteSize h !! psegment;
  if __SEGMENT_BLOCK_SIZE_ALIGN + LW_CFG_HEAP_SEG_MIN_SIZE <? n -64 stSize then
    let stNewSegSize := n -64 stSize in
    let h := set_size psegment stSize h in
    let psegmentNew := __HEAP_SEGMENT_DATA_PTR psegment +64 stSize in
    let h := new_segment psegmentNew (stNewSegSize -64 __SEGMENT_BLOCK_SIZE_ALIGN) h in
    let h := set_chain (insert_after psegment psegmentNew (SEGMENT_lineManage h)) h in
    let h := __HEAP_ADD_NEW_SEG_TO_FREELIST psegmentNew h in
    Some (account 1 (stSize +64 __SEGMENT_BLOCK_SIZE_ALIGN) (- (stSize +64 __SEGMENT_BLOCK_SIZE_ALIGN)) h)
  else Some (account 0 n (- n) h).

(** The first segment of the ring with the room it needs. *)
Fixpoint first_fit (h : HEAP) (need : Z -> Z) (l : list Z) : option (option Z) :=
  match l with
  | [] => Some None
  | x :: l =>
    n ← SEGMENT_stByteSize h !! x;
    if need x <=? n then Some (Some x) else first_fit h need l
  end.

Definition _HeapAllocate (h : HEAP) (bCross : bool) (stByteSize ulLockErr : Z) : option (HEAP * Z) :=
  let stByteSize := __heap_crossbord_size bCross stByteSize in
  let stSize := ROUND_UP stByteSize 4 in
  if HEAP_stFreeByteSize h <? stSize then Some (h, HEAP_NULL)
  else if negb (ulLockErr =? 0) then Some (h, HEAP_NULL)
  else
    r ← first_fit h (fun _ => stSize) (HEAP_pringFreeSegment h);
    match r with
    | None => Some (h, HEAP_NULL)
    | Some psegment =>
      h ← heap_split (ring_del psegment h) psegment stSize;
      let h := __HEAP_UPDATA_MAX_USED h in
      h ← __heap_crossbord_mark bCross h psegment;
      Some (h, __HEAP_SEGMENT_DATA_PTR psegment)
    end.

(** [_HeapZallocate] also clears the first [stByteSize] bytes: result: the pointer,
    and the range cleared. *)
Definition _HeapZallocate (h : HEAP) (bCross : bool) (stByteSize ulLockErr : Z) : option (HEAP * Z * option (Z * Z)) :=
  '(h, pvMem) ← _HeapAllocate h bCross stByteSize ulLockErr;
  Some (h, pvMem, if negb (pvMem =? HEAP_NULL) then Some (pvMem, stByteSize) else None).

(** The aligned address in a segment and its distance from the data. *)
Definition align_in (psegment ulAlignMask : Z) : Z * Z :=
  let d := __HEAP_SEGMENT_DATA_PTR psegment in
  if Z.land d ulAlignMask =? 0 then (d, 0)
  else let pcAlign := Z.lor d ulAlignMask +64 1 in (pcAlign, pcAlign -64 d).

(** The displacement has room for a segment of its own: the left part stays free. *)
Definition align_split (h : HEAP) (bCross : bool) (psegment n stSize stAddedSize pcAlign : Z) : option (HEAP * Z) :=
  let psegmentNew := (__HEAP_SEGMENT_DATA_PTR psegment +64 stAddedSize) -64 __SEGMENT_BLOCK_SIZE_ALIGN in
  let h := new_segment psegmentNew (n -64 stAddedSize) h in
  let h := set_chain (insert_after psegment psegmentNew (SEGMENT_lineManage h)) h in
  let h := __HEAP_ADD_NEW_SEG_TO_FREELIST psegmentNew h in
  let h := set_size psegment (stAddedSize -64 __SEGMENT_BLOCK_SIZE_ALIGN) h in
  let h := account 1 __SEGMENT_BLOCK_SIZE_ALIGN (- __SEGMENT_BLOCK_SIZE_ALIGN) h in
  h ← heap_split (ring_del psegmentNew h) psegmentNew stSize;
  let h := __HEAP_UPDATA_MAX_USED h in
  h ← __heap_crossbord_mark bCross h psegmentNew;
  Some (h, pcAlign).

(** It has not: the word before the pointer tells the segment. *)
Definition align_here (h : HEAP) (bCross : bool) (psegment stSize stAddedSize pcAlign : Z) : option (HEAP * Z) :=
  h ← heap_split (ring_del psegment h) psegment (stSize +64 stAddedSize);
  let h := if negb (stAddedSize =? 0) then set_word (pcAlign -64 8) psegment h else h in
  let h := __HEAP_UPDATA_MAX_USED h in
  h ← __heap_crossbord_mark bCross h psegment;
  Some (h, pcAlign).

Definition _HeapAllocateAlign (h : HEAP) (bCross : bool) (stByteSize stAlign ulLockErr : Z) : option (HEAP * Z) :=
  let ulAlignMask := stAlign -64 1 in
  let stByteSize := __heap_crossbord_size bCross stByteSize in
  let stSize := ROUND_UP stByteSize 4 in
  if HEAP_stFreeByteSize h <? stSize then Some (h, HEAP_NULL)
  else if negb (ulLockErr =? 0) then Some (h, HEAP_NULL)
  else
    r ← first_fit h (fun x => stSize +64 (align_in x ulAlignMask).2) (HEAP_pringFreeSegment h);
    match r with
    | None => Some (h, HEAP_NULL)
    | Some psegment =>
      let (pcAlign, stAddedSize) := align_in psegment ulAlignMask in
      n ← SEGMENT_stByteSize h !! psegment;
      if __SEGMENT_BLOCK_SIZE_ALIGN + LW_CFG_HEAP_SEG_MIN_SIZE <=? stAddedSize
      then align_split h bCross psegment n stSize stAddedSize pcAlign
      else align_here h bCross psegment stSize stAddedSize pcAlign
    end.

(** ** Release *)

(** The segment of a pointer, from the words before it; [None]: not a used one. *)
Definition segment_of (h : HEAP) (pv : Z) : option (option Z) :=
  let p := __HEAP_SEGMENT_SEG_PTR pv in
  real ← __HEAP_SEGMENT_IS_REAL h p;
  psegment ← (if (real : bool) then Some p else HEAP_words h !! (pv -64 8));
  real ← __HEAP_SEGMENT_IS_REAL h psegment;
  if negb real || negb (__HEAP_SEGMENT_IS_USED h psegment) then Some None else Some (Some psegment).

Definition find_segment (h : HEAP) (bIsNeedVerify : bool) (pv : Z) : option (option Z) :=
  if bIsNeedVerify then _HeapVerify h pv else segment_of h pv.

(** The merge with the left neighbour: the segment that has the data then, and
    whether there was a merge. *)
Definition merge_left (h : HEAP) (psegment n : Z) : option (HEAP * Z * bool) :=
  match list_prev psegment (SEGMENT_lineManage h) with
  | None => Some (h, psegment, false)
  | Some psegmentLeft =>
    e ← __HEAP_SEGMENT_NEXT_PTR h psegmentLeft;
    if __HEAP_SEGMENT_IS_USED h psegmentLeft || negb (e =? psegment) then Some (h, psegment, false)
    else
      m ← SEGMENT_stByteSize h !! psegmentLeft;
      let plineRight := list_next psegment (SEGMENT_lineManage h) in
      let h := set_size psegmentLeft (m +64 (n +64 __SEGMENT_BLOCK_SIZE_ALIGN)) h in
      let h := line_del psegment h in
      let h := account (-1) (- (__SEGMENT_BLOCK_SIZE_ALIGN +64 n)) (__SEGMENT_BLOCK_SIZE_ALIGN +64 n) h in
      let h := match plineRight with
               | None => __HEAP_ADD_NEW_SEG_TO_FREELIST psegmentLeft (ring_del psegmentLeft h)
               | Some _ => h
               end in
      Some (h, psegmentLeft, true)
  end.

(** The rest, from [__merge_right] on; [plineRight] is the right neighbour
    the freed segment had, [n] its size. *)
Definition merge_right (h : HEAP) (psegment n : Z) (bIsMergeOk : bool) (plineRight : option Z) : option HEAP :=
  let fail := if bIsMergeOk then h else account 0 (- n) n (__HEAP_ADD_NEW_SEG_TO_FREELIST psegment h) in
  match plineRight with
  | None => Some fail
  | Some psegmentRight =>
    e ← __HEAP_SEGMENT_NEXT_PTR h psegment;
    if __HEAP_SEGMENT_IS_USED h psegmentRight || negb (e =? psegmentRight) then Some fail
    else
      m ← SEGMENT_stByteSize h !! psegment;
      r ← SEGMENT_stByteSize h !! psegmentRight;
      let h := set_size psegment (m +64 (r +64 __SEGMENT_BLOCK_SIZE_ALIGN)) h in
      let h := line_del psegmentRight (ring_del psegmentRight h) in
      let h := account (-1) 0 0 h in
      if bIsMergeOk then
        let h := match list_next psegment (SEGMENT_lineManage h) with
                 | None => __HEAP_ADD_NEW_SEG_TO_FREELIST psegment (ring_del psegment h)
                 | Some _ => h
                 end in
        Some (account 0 (- __SEGMENT_BLOCK_SIZE_ALIGN) __SEGMENT_BLOCK_SIZE_ALIGN h)
      else
        Some (account 0 (- (__SEGMENT_BLOCK_SIZE_ALIGN +64 n)) (__SEGMENT_BLOCK_SIZE_ALIGN +64 n)
                (__HEAP_ADD_NEW_SEG_TO_FREELIST psegment h))
  end.

Definition heap_release (h : HEAP) (psegment : Z) : option HEAP :=
  n ← SEGMENT_stByteSize h !! psegment;
  let plineRight := list_next psegment (SEGMENT_lineManage h) in
  '(h, psegment, bIsMergeOk) ← merge_left h psegment n;
  merge_right h psegment n bIsMergeOk plineRight.

(** Result: NULL when the memory is free now, the pointer otherwise. *)
Definition _HeapFree (h : HEAP) (pv : Z) (bIsNeedVerify : bool) (ulLockErr : Z) : option (HEAP * Z) :=
  if pv =? HEAP_NULL then Some (h, pv)
  else if negb (ulLockErr =? 0) then Some (h, pv)
  else
    r ← find_segment h bIsNeedVerify pv;
    match r with
    | None => Some (h, pv)
    | Some psegment => h ← heap_release h psegment; Some (h, HEAP_NULL)
    end.

(** ** Reallocation *)

(** [__split_segment]: a segment larger than needed gives the rest back. *)
Definition realloc_split (h : HEAP) (bCross : bool) (psegment stSize ulLockErr : Z) : option HEAP :=
  n ← SEGMENT_stByteSize h !! psegment;
  let stNewSegSize := n -64 stSize in
  if stNewSegSize <? __SEGMENT_BLOCK_SIZE_ALIGN + LW_CFG_HEAP_SEG_MIN_SIZE then
    __heap_crossbord_mark bCross (__HEAP_UPDATA_MAX_USED h) psegment
  else
    let h := set_size psegment stSize h in
    let psegmentNew := __HEAP_SEGMENT_DATA_PTR psegment +64 stSize in
    let h := new_segment psegmentNew (stNewSegSize -64 __SEGMENT_BLOCK_SIZE_ALIGN) h in
    let h := set_chain (insert_after psegment psegmentNew (SEGMENT_lineManage h)) h in
    let h := account 1 0 0 h in
    h ← __heap_crossbord_mark bCross h psegmentNew;
    '(h, _) ← _HeapFree h (__HEAP_SEGMENT_DATA_PTR psegmentNew) false ulLockErr;
    __heap_crossbord_mark bCross (__HEAP_UPDATA_MAX_USED h) psegment.

(** The move to another segment: also the copy, as destination, source and
    length; [(UINT)] cuts the length to 32 bits. *)
Definition realloc_move (h : HEAP) (bCross : bool) (psegment stSize ulLockErr : Z) : option (HEAP * Z * option (Z * Z * Z)) :=
  '(h, pvNew) ← _HeapAllocate h bCross stSize ulLockErr;
  if negb (pvNew =? HEAP_NULL) then
    n ← SEGMENT_stByteSize h !! psegment;
    '(h, _) ← _HeapFree h (__HEAP_SEGMENT_DATA_PTR psegment) false ulLockErr;
    Some (__HEAP_UPDATA_MAX_USED h, pvNew, Some (pvNew, __HEAP_SEGMENT_DATA_PTR psegment, wrap 32 n))
  else Some (__HEAP_UPDATA_MAX_USED h, pvNew, None).

(** A segment that is too small takes its right neighbour in, or moves. *)
Definition realloc_larger (h : HEAP) (bCross : bool) (pv psegment n stSize ulLockErr : Z) : option (HEAP * Z * option (Z * Z * Z)) :=
  match list_next psegment (SEGMENT_lineManage h) with
  | None => realloc_move h bCross psegment stSize ulLockErr
  | Some psegmentRight =>
    e ← __HEAP_SEGMENT_NEXT_PTR h psegment;
    r ← SEGMENT_stByteSize h !! psegmentRight;
    if negb (__HEAP_SEGMENT_IS_USED h psegmentRight) && (e =? psegmentRight)
       && (stSize -64 n <=? r +64 __SEGMENT_BLOCK_SIZE_ALIGN) then
      let h := line_del psegmentRight (ring_del psegmentRight h) in
      let h := set_size psegment (n +64 (r +64 __SEGMENT_BLOCK_SIZE_ALIGN)) h in
      let h := account (-1) r (- r) h in
      h ← realloc_split h bCross psegment stSize ulLockErr;
      Some (h, pv, None)
    else realloc_move h bCross psegment stSize ulLockErr
  end.

Definition _HeapRealloc (h : HEAP) (bCross : bool) (pv stNewByteSize : Z) (bIsNeedVerify : bool) (ulLockErr : Z)
    : option (HEAP * Z * option (Z * Z * Z)) :=
  if stNewByteSize =? 0 then
    if negb (pv =? HEAP_NULL) then '(h, p) ← _HeapFree h pv bIsNeedVerify ulLockErr; Some (h, p, None)
    else Some (h, HEAP_NULL, None)
  else if pv =? HEAP_NULL then '(h, p) ← _HeapAllocate h bCross stNewByteSize ulLockErr; Some (h, p, None)
  else
    let stSize := ROUND_UP (__heap_crossbord_size bCross stNewByteSize) 4 in
    if negb (ulLockErr =? 0) then Some (h, HEAP_NULL, None)
    else
      r ← find_segment h bIsNeedVerify pv;
      match r with
      | None => Some (h, HEAP_NULL, None)
      | Some psegment =>
        n ← SEGMENT_stByteSize h !! psegment;
        if negb (pv =? __HEAP_SEGMENT_DATA_PTR psegment) then Some (h, HEAP_NULL, None)
        else if stSize =? n then Some (h, pv, None)
        else if n <? stSize then
          realloc_larger h bCross pv psegment n stSize ulLockErr
        else
          h ← realloc_split h bCross psegment stSize ulLockErr;
          Some (h, pv, None)
      end.
