(* ===== verification/HeapSpec.v ===== *)
(** * The heap keeps its promises

    A heap in a consistent state denotes a list of blocks, each with its address, its
    size and whether it is free.  Splitting, merging, allocation, release and
    reallocation are shown to be steps on that list that keep it consistent. *)

From S2P Require Import Prelude Lists Heap.

(** ** Blocks *)

Record BLOCK := mkB { b_at : Z; b_size : Z; b_free : bool }.

(** The first byte behind a block; the memory of a heap is in the lower half
    of the address space. *)
Definition b_end (b : BLOCK) : Z := b_at b + 48 + b_size b.
Definition HEAP_TOP : Z := 2 ^ 63.

Definition block_ok (b : BLOCK) : Prop :=
  0 < b_at b /\ 0 <= b_size b /\ b_end b <= HEAP_TOP /\ b_at b mod 16 = 0 /\ b_size b mod 16 = 0.
Definition apart (b c : BLOCK) : Prop := b_end b <= b_at c \/ b_end c <= b_at b.

Fixpoint all_apart (bs : list BLOCK) : Prop :=
  match bs with [] => True | b :: bs => (forall c, c ∈ bs -> apart b c) /\ all_apart bs end.

Definition sumz (f : BLOCK -> Z) (bs : list BLOCK) : Z := foldr (fun b z => f b + z) 0 bs.
Definition total_of : list BLOCK -> Z := sumz (fun b => 48 + b_size b).
Definition free_of : list BLOCK -> Z := sumz (fun b => if b_free b then b_size b else 0).

Lemma sumz_app f l1 l2 : sumz f (l1 ++ l2) = sumz f l1 + sumz f l2.
Proof. induction l1 as [|b l1 IH]; [done|]. unfold sumz in *. cbn [foldr app]. lia. Qed.

Lemma sumz_nonneg f bs : (forall b, b ∈ bs -> 0 <= f b) -> 0 <= sumz f bs.
Proof.
  induction bs as [|b bs IH]; [done|]. intros H. unfold sumz in *. cbn [foldr].
  assert (0 <= f b) by (apply H; left). assert (0 <= foldr (fun b z => f b + z) 0 bs); [|lia].
  apply IH. intros c Hc. apply H. by right.
Qed.

Lemma sumz_bound f bs : Forall block_ok bs -> (forall b, block_ok b -> 0 <= f b <= 48 + b_size b) ->
  0 <= sumz f bs <= total_of bs.
Proof.
  intros Hok Hf. unfold total_of. induction Hok as [|b bs Hb Hok IH]; [done|]. unfold sumz in *. cbn [foldr].
  specialize (Hf b Hb). lia.
Qed.

Lemma apart_sym b c : apart b c -> apart c b.
Proof. unfold apart. tauto. Qed.

Lemma all_apart_app l1 l2 : all_apart (l1 ++ l2) <->
  all_apart l1 /\ all_apart l2 /\ forall b c, b ∈ l1 -> c ∈ l2 -> apart b c.
Proof.
  induction l1 as [|x l1 IH]; cbn [all_apart app].
  - split; [intros H; splits; [done|done|by intros ? ? ?%not_elem_of_nil]|tauto].
  - rewrite IH. setoid_rewrite elem_of_app. split.
    + intros (H1 & H2 & H3 & H4). splits; [by auto|done|done|].
      intros b c [->|Hb]%elem_of_cons Hc; auto.
    + intros ((H1 & H2) & H3 & H4). splits; [|done|done|].
      * intros c [Hc|Hc]; [auto|]. apply H4; [left|done].
      * intros b c Hb Hc. apply H4; [by right|done].
Qed.

Lemma all_apart_in bs b c : all_apart bs -> b ∈ bs -> c ∈ bs -> b = c \/ apart b c.
Proof.
  induction bs as [|x bs IH]; [by intros _ ?%not_elem_of_nil|]. cbn [all_apart]. intros [H1 H2].
  intros [->|Hb]%elem_of_cons [->|Hc]%elem_of_cons; [by left|right; auto| |auto].
  right. apply apart_sym. auto.
Qed.

(** Two blocks at one address are the same. *)
Lemma at_unique bs b c : Forall block_ok bs -> all_apart bs -> b ∈ bs -> c ∈ bs -> b_at b = b_at c -> b = c.
Proof.
  intros Hok Ha Hb Hc E. destruct (all_apart_in bs b c Ha Hb Hc) as [|Hx]; [done|].
  rewrite Forall_forall in Hok. destruct (Hok b Hb) as (? & ? & _), (Hok c Hc) as (? & ? & _).
  unfold apart, b_end in *. lia.
Qed.

(** ** What a heap denotes *)

Record heap_rep (h : HEAP) (bs : list BLOCK) : Prop := {
  hr_line : SEGMENT_lineManage h = b_at <$> bs;
  hr_sizes : forall s n, SEGMENT_stByteSize h !! s = Some n <-> exists f, mkB s n f ∈ bs;
  hr_ring : forall s, s ∈ HEAP_pringFreeSegment h <-> exists n, mkB s n true ∈ bs;
  hr_ring_nodup : NoDup (HEAP_pringFreeSegment h);
  hr_magic : forall b, b ∈ bs -> HEAP_words h !! (b_at b + 40) = Some LW_SEG_MAGIC_REAL;
  hr_ok : Forall block_ok bs;
  hr_apart : all_apart bs;
  hr_start : head (b_at <$> bs) = Some (HEAP_pvStartAddress h);
  hr_count : HEAP_ulSegmentCounter h = Z.of_nat (length bs);
  hr_total : HEAP_stTotalByteSize h = total_of bs;
  hr_free : HEAP_stFreeByteSize h = free_of bs;
  hr_used : HEAP_stUsedByteSize h = total_of bs - free_of bs;
  hr_bound : total_of bs <= HEAP_TOP
}.

Definition word_kept (h h' : HEAP) (b : BLOCK) : Prop :=
  forall a, b_at b + 48 <= a < b_end b -> HEAP_words h' !! a = HEAP_words h !! a.

Lemma block_bounds b : block_ok b -> 0 < b_at b /\ 0 <= b_size b /\ b_at b + 48 + b_size b <= 2 ^ 63.
Proof. intros (? & ? & H & _). unfold b_end, HEAP_TOP in H. done. Qed.

Lemma rep_block h bs b : heap_rep h bs -> b ∈ bs -> block_ok b.
Proof. intros H Hb. pose proof (hr_ok _ _ H) as Hf. rewrite Forall_forall in Hf. auto. Qed.

Lemma rep_size h bs s n f : heap_rep h bs -> mkB s n f ∈ bs -> SEGMENT_stByteSize h !! s = Some n.
Proof. intros H Hb. apply (hr_sizes _ _ H). by exists f. Qed.

Lemma rep_free h bs s n f : heap_rep h bs -> mkB s n f ∈ bs -> (s ∈ HEAP_pringFreeSegment h <-> f = true).
Proof.
  intros H Hb. rewrite (hr_ring _ _ H). split.
  - intros [m Hm]. assert (E : mkB s n f = mkB s m true); [|by injection E].
    by eapply at_unique; [apply (hr_ok _ _ H)|apply (hr_apart _ _ H)|..].
  - intros ->. by exists n.
Qed.

Lemma rep_used h bs s n f : heap_rep h bs -> mkB s n f ∈ bs -> __HEAP_SEGMENT_IS_USED h s = negb f.
Proof.
  intros H Hb. unfold __HEAP_SEGMENT_IS_USED. f_equal. pose proof (rep_free h bs s n f H Hb) as Hf.
  destruct f; [by apply bool_decide_eq_true_2, Hf|]. apply bool_decide_eq_false_2. by intros ?%Hf.
Qed.

(** ** The chain *)

Lemma insert_after_mid s y l1 l2 : s ∉ l1 -> insert_after s y (l1 ++ s :: l2) = l1 ++ s :: y :: l2.
Proof.
  induction l1 as [|x l1 IH]; cbn [app insert_after]; [by rewrite Z.eqb_refl|].
  intros [Hne Hn]%not_elem_of_cons. rewrite (proj2 (Z.eqb_neq x s)) by congruence. by rewrite IH.
Qed.

Lemma add_free_ring s h : HEAP_pringFreeSegment (__HEAP_ADD_NEW_SEG_TO_FREELIST s h) ≡ₚ s :: HEAP_pringFreeSegment h.
Proof.
  unfold __HEAP_ADD_NEW_SEG_TO_FREELIST. destruct (list_next s (SEGMENT_lineManage h)); [done|].
  cbn [set_ring HEAP_pringFreeSegment]. by rewrite Permutation_app_comm.
Qed.

Lemma add_free_eq s h : exists r, r ≡ₚ s :: HEAP_pringFreeSegment h /\ __HEAP_ADD_NEW_SEG_TO_FREELIST s h = set_ring r h.
Proof.
  exists (HEAP_pringFreeSegment (__HEAP_ADD_NEW_SEG_TO_FREELIST s h)). split; [apply add_free_ring|].
  unfold __HEAP_ADD_NEW_SEG_TO_FREELIST. by destruct (list_next s (SEGMENT_lineManage h)).
Qed.

(** ** Replacing blocks

    The middle of the list is replaced; what the heap must satisfy. *)

Section Replace.
Context (h h' : HEAP) (l1 old new l2 : list BLOCK).
Context (Hr : heap_rep h (l1 ++ old ++ l2)).

Lemma replace_other b : b ∈ l1 ++ l2 -> b ∈ l1 ++ old ++ l2.
Proof. rewrite !elem_of_app. tauto. Qed.

(** A block outside the middle is at another address than a block of the middle. *)
Lemma outside_at b o : b ∈ l1 ++ l2 -> o ∈ old -> b_at b <> b_at o.
Proof.
  intros Hb Ho E. assert (Ha : apart b o).
  { pose proof (hr_apart _ _ Hr) as (_ & (_ & _ & H2)%all_apart_app & H1)%all_apart_app.
    apply elem_of_app in Hb as [Hb|Hb].
    - apply H1; [done|]. apply elem_of_app. by left.
    - apply apart_sym. by apply H2. }
  assert (block_ok b) as (? & ? & _) by (by eapply rep_block, replace_other).
  assert (block_ok o) as (? & ? & _) by (eapply rep_block; [done|]; rewrite !elem_of_app; tauto).
  unfold apart, b_end in *. lia.
Qed.

Lemma rep_replace (dc du df : Z) :
  SEGMENT_lineManage h' = b_at <$> (l1 ++ new ++ l2) ->
  (forall s n, SEGMENT_stByteSize h' !! s = Some n <->
     (exists f, mkB s n f ∈ new) \/ ((forall o, o ∈ old -> b_at o <> s) /\ SEGMENT_stByteSize h !! s = Some n)) ->
  (forall s, s ∈ HEAP_pringFreeSegment h' <->
     (exists n, mkB s n true ∈ new) \/ ((forall o, o ∈ old -> b_at o <> s) /\ s ∈ HEAP_pringFreeSegment h)) ->
  NoDup (HEAP_pringFreeSegment h') ->
  (forall b, b ∈ new -> HEAP_words h' !! (b_at b + 40) = Some LW_SEG_MAGIC_REAL) ->
  (forall b, b ∈ l1 ++ l2 -> HEAP_words h' !! (b_at b + 40) = HEAP_words h !! (b_at b + 40)) ->
  Forall block_ok new -> all_apart new ->
  (forall b c, b ∈ new -> block_ok c -> (forall o, o ∈ old -> apart o c) -> apart b c) ->
  head (b_at <$> new) = head (b_at <$> old) -> old <> [] ->
  HEAP_pvStartAddress h' = HEAP_pvStartAddress h -> HEAP_stTotalByteSize h' = HEAP_stTotalByteSize h ->
  HEAP_ulSegmentCounter h' = wrap 64 (HEAP_ulSegmentCounter h + dc) ->
  HEAP_stUsedByteSize h' = wrap 64 (HEAP_stUsedByteSize h + du) ->
  HEAP_stFreeByteSize h' = wrap 64 (HEAP_stFreeByteSize h + df) ->
  dc = Z.of_nat (length new) - Z.of_nat (length old) -> total_of new = total_of old ->
  df = free_of new - free_of old -> du = - df ->
  heap_rep h' (l1 ++ new ++ l2).
Proof.
  intros Hline Hsz Hring Hnd Hmg Hmo Hok Hap Hfit Hhd Hne Hst Htot Hcnt Hus Hfr Edc Etot Edf Edu.
  pose proof Hr as [R1 R2 R3 R4 R5 R6 R7 R8 R9 R10 R11 R12 R13].
  assert (Hout : forall b, b ∈ l1 ++ l2 -> forall o, o ∈ old -> b_at o <> b_at b).
  { intros b Hb o Ho E. by apply (outside_at b o). }
  assert (Hsplit : forall b, b ∈ l1 ++ new ++ l2 <-> b ∈ new \/ b ∈ l1 ++ l2) by (intros b; rewrite !elem_of_app; tauto).
  assert (Hold : forall b, b ∈ l1 ++ old ++ l2 <-> b ∈ old \/ b ∈ l1 ++ l2) by (intros b; rewrite !elem_of_app; tauto).
  assert (Htn : total_of (l1 ++ new ++ l2) = total_of (l1 ++ old ++ l2)).
  { unfold total_of in *. rewrite !sumz_app. lia. }
  assert (Hok' : Forall block_ok (l1 ++ new ++ l2)).
  { rewrite !Forall_app in *. tauto. }
  assert (Hap' : all_apart (l1 ++ new ++ l2)).
  { apply all_apart_app in R7 as (A1 & A2 & A3). apply all_apart_app in A2 as (B1 & B2 & B3).
    rewrite Forall_forall in R6. apply all_apart_app. split; [done|]. split.
    - apply all_apart_app. split; [done|]. split; [done|]. intros b c Hb Hc. apply Hfit; [done| |by intros; apply B3].
      apply R6. rewrite !elem_of_app. tauto.
    - intros b c Hb Hc. apply elem_of_app in Hc as [Hc|Hc].
      + apply apart_sym. apply Hfit; [done| |].
        * apply R6. rewrite !elem_of_app. tauto.
        * intros o Ho. apply apart_sym, A3; [done|]. apply elem_of_app. by left.
      + apply A3; [done|]. apply elem_of_app. by right. }
  pose proof (fun f => sumz_bound f _ Hok') as Hb0.
  assert (Hfree : 0 <= free_of (l1 ++ new ++ l2) <= total_of (l1 ++ new ++ l2)).
  { apply Hb0. intros b (? & ? & _). destruct (b_free b); lia. }
  assert (Hlen : Z.of_nat (length (l1 ++ new ++ l2)) <= total_of (l1 ++ new ++ l2)).
  { assert (E : Z.of_nat (length (l1 ++ new ++ l2)) = sumz (fun _ => 1) (l1 ++ new ++ l2)).
    { clear. induction (l1 ++ new ++ l2) as [|b l IH]; [done|]. unfold sumz in *. cbn [length foldr]. lia. }
    rewrite E. apply Hb0. intros b (? & ? & _). lia. }
  assert (Htop : total_of (l1 ++ new ++ l2) <= 2 ^ 63) by (by rewrite Htn).
  assert (Ef : free_of (l1 ++ new ++ l2) = free_of (l1 ++ old ++ l2) + df).
  { unfold free_of in *. rewrite !sumz_app. lia. }
  split; try done.
  - intros s n. rewrite Hsz, R2. split.
    + intros [[f Hf]|[Hno [f Hf]]].
      * exists f. apply Hsplit. by left.
      * exists f. apply Hsplit. right. apply Hold in Hf as [Ho|Ho]; [|done]. by destruct (Hno _ Ho).
    + intros [f [Hf|Hf]%Hsplit]; [left; by exists f|]. right. split; [intros o Ho; by apply (Hout _ Hf)|].
      exists f. by apply Hold; right.
  - intros s. rewrite Hring, R3. split.
    + intros [[f Hf]|[Hno [f Hf]]].
      * exists f. apply Hsplit. by left.
      * exists f. apply Hsplit. right. apply Hold in Hf as [Ho|Ho]; [|done]. by destruct (Hno _ Ho).
    + intros [f [Hf|Hf]%Hsplit]; [left; by exists f|]. right. split; [intros o Ho; by apply (Hout _ Hf)|].
      exists f. by apply Hold; right.
  - intros b [Hb|Hb]%Hsplit; [by apply Hmg|]. rewrite Hmo by done. apply R5, Hold. by right.
  - rewrite Hst, <-R8, !fmap_app. destruct l1; [|done]. cbn [fmap list_fmap app].
    destruct old as [|o old']; [done|]. destruct new as [|x new']; [done|]. cbn in Hhd |- *. by injection Hhd as ->.
  - rewrite Hcnt, R9, Edc. rewrite !length_app, !Nat2Z.inj_add in *. rewrite wrap_small; lia.
  - by rewrite Htot, R10, Htn.
  - rewrite Hfr, R11, <-Ef. rewrite wrap_small; lia.
  - rewrite Hus, R12, Htn, Ef, Edu. rewrite wrap_small; lia.
Qed.

(** The same with the tables computed from the two lists. *)
Definition put_sizes (bs : list BLOCK) (m : gmap Z Z) : gmap Z Z := foldr (fun b => <[b_at b := b_size b]>) m bs.
Definition drop_sizes (bs : list BLOCK) (m : gmap Z Z) : gmap Z Z := foldr (fun b => delete (b_at b)) m bs.
Definition frees (bs : list BLOCK) : list Z := b_at <$> filter (fun b => b_free b = true) bs.
Definition drop_ring (bs : list BLOCK) (r : list Z) : list Z := foldr (fun b => remove_node (b_at b)) r bs.

Lemma put_sizes_spec bs m s n : Forall block_ok bs -> all_apart bs ->
  put_sizes bs m !! s = Some n <-> (exists f, mkB s n f ∈ bs) \/ ((forall b, b ∈ bs -> b_at b <> s) /\ m !! s = Some n).
Proof.
  induction bs as [|b bs IH]; intros Hok Ha; cbn [put_sizes foldr].
  - setoid_rewrite elem_of_nil. naive_solver.
  - pose proof (fun c => at_unique _ b c Hok Ha) as Hu. apply Forall_cons in Hok as [Hb Hok]. destruct Ha as [Ha1 Ha2].
    fold (put_sizes bs m). setoid_rewrite elem_of_cons. destruct (decide (s = b_at b)) as [->|Hne].
    + rewrite lookup_insert_eq. split.
      * intros [= <-]. left. exists (b_free b). left. by destruct b.
      * intros [[f [<-|Hf]]|[Hn _]]; [done| |by destruct (Hn b); [left|]].
        rewrite (Hu (mkB (b_at b) n f)); [done|left|by right|done].
    + rewrite lookup_insert_ne, IH by congruence || done. split.
      * intros [[f Hf]|[Hn E]]; [left; exists f; by right|]. right. split; [|done].
        intros c [->|Hc]; [congruence|auto].
      * intros [[f [<-|Hf]]|[Hn E]]; [done|left; by exists f|]. right. split; [|done]. auto.
Qed.

Lemma drop_sizes_spec bs m s n :
  drop_sizes bs m !! s = Some n <-> (forall b, b ∈ bs -> b_at b <> s) /\ m !! s = Some n.
Proof.
  induction bs as [|b bs IH]; cbn [drop_sizes foldr]; [setoid_rewrite elem_of_nil; naive_solver|].
  fold (drop_sizes bs m). setoid_rewrite elem_of_cons. rewrite lookup_delete_Some, IH. naive_solver.
Qed.

Lemma drop_ring_spec bs r : NoDup r ->
  NoDup (drop_ring bs r) /\ forall s, s ∈ drop_ring bs r <-> (forall b, b ∈ bs -> b_at b <> s) /\ s ∈ r.
Proof.
  intros Hn. induction bs as [|b bs [IH1 IH2]]; cbn [drop_ring foldr].
  - split; [done|]. setoid_rewrite elem_of_nil. naive_solver.
  - fold (drop_ring bs r). split; [by apply remove_node_NoDup|]. intros s.
    rewrite elem_of_remove_node by done. setoid_rewrite elem_of_cons. rewrite IH2. naive_solver.
Qed.

Lemma elem_of_frees bs s : s ∈ frees bs <-> exists n, mkB s n true ∈ bs.
Proof.
  unfold frees. rewrite list_elem_of_fmap. setoid_rewrite list_elem_of_filter. split.
  - intros (b & -> & Hf & Hb). exists (b_size b). by destruct b; cbn in *; subst.
  - intros [n Hn]. by exists (mkB s n true).
Qed.

Lemma frees_NoDup bs : Forall block_ok bs -> all_apart bs -> NoDup (frees bs).
Proof.
  unfold frees. induction bs as [|b bs IH]; [constructor|]. intros Hok Ha.
  pose proof (fun c => at_unique _ b c Hok Ha) as Hu. apply Forall_cons in Hok as [Hb Hok]. destruct Ha as [Ha1 Ha2].
  rewrite filter_cons. destruct (decide (b_free b = true)); [|by apply IH]. cbn. constructor; [|by apply IH].
  intros (c & E & [_ Hc]%list_elem_of_filter)%list_elem_of_fmap. assert (b = c) as -> by (apply Hu; [left|by right|done]).
  specialize (Ha1 c Hc). destruct Hb as (? & ? & _). unfold apart, b_end in Ha1. lia.
Qed.

Lemma rep_replace_eq (dc df : Z) :
  SEGMENT_lineManage h' = b_at <$> (l1 ++ new ++ l2) ->
  SEGMENT_stByteSize h' = put_sizes new (drop_sizes old (SEGMENT_stByteSize h)) ->
  HEAP_pringFreeSegment h' ≡ₚ frees new ++ drop_ring old (HEAP_pringFreeSegment h) ->
  (forall b, b ∈ new -> HEAP_words h' !! (b_at b + 40) = Some LW_SEG_MAGIC_REAL) ->
  (forall a, (forall o, o ∈ old -> ~ b_at o <= a < b_end o) -> HEAP_words h' !! a = HEAP_words h !! a) ->
  Forall block_ok new -> all_apart new ->
  (forall b c, b ∈ new -> block_ok c -> (forall o, o ∈ old -> apart o c) -> apart b c) ->
  head (b_at <$> new) = head (b_at <$> old) -> old <> [] ->
  HEAP_pvStartAddress h' = HEAP_pvStartAddress h -> HEAP_stTotalByteSize h' = HEAP_stTotalByteSize h ->
  HEAP_ulSegmentCounter h' = wrap 64 (HEAP_ulSegmentCounter h + dc) ->
  HEAP_stUsedByteSize h' = wrap 64 (HEAP_stUsedByteSize h - df) ->
  HEAP_stFreeByteSize h' = wrap 64 (HEAP_stFreeByteSize h + df) ->
  dc = Z.of_nat (length new) - Z.of_nat (length old) -> total_of new = total_of old ->
  df = free_of new - free_of old ->
  heap_rep h' (l1 ++ new ++ l2).
Proof.
  intros Hline Hsz Hring Hmg Hmo Hok Hap Hfit Hhd Hne Hst Htot Hcnt Hus Hfr Edc Etot Edf.
  assert (Hout : forall b c, b ∈ new -> c ∈ l1 ++ l2 -> apart b c).
  { intros b c Hb Hc. pose proof (hr_apart _ _ Hr) as (_ & (_ & _ & H2)%all_apart_app & H1)%all_apart_app.
    apply Hfit; [done|by eapply rep_block, replace_other|]. intros o Ho. apply elem_of_app in Hc as [Hc|Hc].
    - apply apart_sym, H1; [done|]. apply elem_of_app. by left.
    - by apply H2. }
  assert (Hoff : forall b c, b ∈ new -> c ∈ l1 ++ l2 -> b_at b <> b_at c).
  { intros b c Hb Hc E. specialize (Hout _ _ Hb Hc). rewrite Forall_forall in Hok.
    destruct (Hok b Hb) as (? & ? & _). pose proof (rep_block _ _ _ Hr (replace_other _ Hc)) as (? & ? & _).
    unfold apart, b_end in Hout. lia. }
  assert (Hwhere : forall s n f, (forall o, o ∈ old -> b_at o <> s) -> mkB s n f ∈ l1 ++ old ++ l2 -> mkB s n f ∈ l1 ++ l2).
  { intros s n f Ho. rewrite !elem_of_app. intros [?|[Hx|?]]; [tauto| |tauto]. by destruct (Ho _ Hx). }
  pose proof (drop_ring_spec old _ (hr_ring_nodup _ _ Hr)) as [Hdn Hdr].
  eapply (rep_replace dc (- df) df); try done.
  - intros s n. rewrite Hsz, put_sizes_spec, drop_sizes_spec by done. split; [tauto|].
    intros [?|[Ho Hs]]; [by left|]. right. split; [|done]. intros b Hb E.
    pose proof Hs as [f Hf%Hwhere]%(hr_sizes _ _ Hr); [|done]. by apply (Hoff b _ Hb Hf).
  - intros s. rewrite Hring, elem_of_app, elem_of_frees, Hdr. done.
  - rewrite Hring. apply NoDup_app. split; [by apply frees_NoDup|]. split; [|done].
    intros s [n Hn]%elem_of_frees [Ho [m Hm%Hwhere]%(hr_ring _ _ Hr)]%Hdr; [|done]. by apply (Hoff _ _ Hn Hm).
  - intros c Hc. apply Hmo. intros o Ho. pose proof (hr_apart _ _ Hr) as (_ & (_ & _ & H2)%all_apart_app & H1)%all_apart_app.
    assert (apart o c) as Ha.
    { apply elem_of_app in Hc as [Hc|Hc]; [apply apart_sym, H1; [done|]; apply elem_of_app; by left|by apply H2]. }
    pose proof (rep_block _ _ _ Hr (replace_other _ Hc)) as (? & ? & _). unfold apart, b_end in Ha |- *. lia.
Qed.
End Replace.

(** Only the words in the data of the block may change. *)
Definition words_but (s n : Z) (h h' : HEAP) : Prop :=
  forall a, ~ (s + 48 <= a < s + 48 + n) -> HEAP_words h' !! a = HEAP_words h !! a.

(** What the steps leave alone. *)
Definition same_heap (h h' : HEAP) : Prop :=
  HEAP_pvStartAddress h' = HEAP_pvStartAddress h /\ HEAP_stTotalByteSize h' = HEAP_stTotalByteSize h.

(** The counters moved by so much. *)
Definition moved (dc df : Z) (h h' : HEAP) : Prop :=
  HEAP_ulSegmentCounter h' = wrap 64 (HEAP_ulSegmentCounter h + dc) /\
  HEAP_stUsedByteSize h' = wrap 64 (HEAP_stUsedByteSize h - df) /\
  HEAP_stFreeByteSize h' = wrap 64 (HEAP_stFreeByteSize h + df).

Lemma wrap_wrap_add w x y : wrap w (wrap w x + y) = wrap w (x + y).
Proof. apply Zplus_mod_idemp_l. Qed.

Ltac moved := unfold moved; cbn; splits; rewrite ?wrap_wrap_add; first [reflexivity | f_equal; lia].

(** ** One block changes *)

Section Single.
Context (h : HEAP) (l1 : list BLOCK) (s n : Z) (f : bool) (l2 : list BLOCK).
Context (Hr : heap_rep h (l1 ++ [mkB s n f] ++ l2)).

Lemma one_in : mkB s n f ∈ l1 ++ [mkB s n f] ++ l2.
Proof. rewrite !elem_of_app. right. left. left. Qed.

Lemma one_bounds : 0 < s /\ 0 <= n /\ s + 48 + n <= 2 ^ 63 /\ s mod 16 = 0 /\ n mod 16 = 0.
Proof. exact (rep_block _ _ _ Hr one_in). Qed.

Lemma one_size : SEGMENT_stByteSize h !! s = Some n.
Proof. exact (rep_size _ _ _ _ _ Hr one_in). Qed.

Lemma one_line : SEGMENT_lineManage h = (b_at <$> l1) ++ s :: (b_at <$> l2).
Proof. by rewrite (hr_line _ _ Hr), !fmap_app. Qed.

Lemma one_notin_l : s ∉ b_at <$> l1.
Proof.
  intros [b [E Hb]]%list_elem_of_fmap. eapply (outside_at _ _ _ _ Hr b (mkB s n f)); [|left|by symmetry].
  apply elem_of_app. by left.
Qed.

Lemma one_notin_r : s ∉ b_at <$> l2.
Proof.
  intros [b [E Hb]]%list_elem_of_fmap. eapply (outside_at _ _ _ _ Hr b (mkB s n f)); [|left|by symmetry].
  apply elem_of_app. by right.
Qed.

Lemma one_fresh x : s < x < s + 48 + n -> SEGMENT_stByteSize h !! x = None /\ x ∉ HEAP_pringFreeSegment h.
Proof.
  intros Hx.
  assert (Hb : forall b, b ∈ l1 ++ [mkB s n f] ++ l2 -> b_at b <> x).
  { intros b Hb E. pose proof (rep_block _ _ _ Hr Hb) as (? & ? & _).
    destruct (all_apart_in _ _ _ (hr_apart _ _ Hr) Hb one_in) as [->|Ha]; [cbn in *; lia|].
    unfold apart, b_end in Ha. cbn in Ha. lia. }
  split.
  - destruct (SEGMENT_stByteSize h !! x) as [m|] eqn:E; [|done]. apply (hr_sizes _ _ Hr) in E as [g Hg]. by destruct (Hb _ Hg).
  - intros [m Hm]%(hr_ring _ _ Hr). by destruct (Hb _ Hm).
Qed.

(** Its flag alone. *)
Lemma rep_flag g h' :
  SEGMENT_lineManage h' = SEGMENT_lineManage h -> SEGMENT_stByteSize h' = SEGMENT_stByteSize h ->
  HEAP_pringFreeSegment h' ≡ₚ frees [mkB s n g] ++ remove_node s (HEAP_pringFreeSegment h) ->
  HEAP_words h' = HEAP_words h -> same_heap h h' -> moved 0 ((if g then n else 0) - (if f then n else 0)) h h' ->
  heap_rep h' (l1 ++ [mkB s n g] ++ l2).
Proof.
  intros Hl Hs Hg Hw [? ?] (? & ? & ?).
  eapply (rep_replace_eq h _ l1 [mkB s n f] [mkB s n g] l2 Hr 0 ((if g then n else 0) - (if f then n else 0))).
  all: try done; try (cbn; lia).
  - by rewrite Hl, (hr_line _ _ Hr), !fmap_app.
  - cbn. rewrite insert_delete_eq, insert_id; [done|apply one_size].
  - intros b ->%list_elem_of_singleton. rewrite Hw. apply (hr_magic _ _ Hr _ one_in).
  - intros. by rewrite Hw.
  - constructor; [exact (rep_block _ _ _ Hr one_in)|done].
  - cbn. by setoid_rewrite elem_of_nil.
  - intros b c ->%list_elem_of_singleton _ Ha. apply (Ha (mkB s n f)). left.
Qed.

(** It is cut in two, [st] bytes for the left one. *)
Lemma rep_split st f1 f2 h' (x := s + 48 + st) :
  0 <= st -> st + 48 <= n -> st mod 16 = 0 ->
  SEGMENT_lineManage h' = insert_after s x (SEGMENT_lineManage h) ->
  SEGMENT_stByteSize h' = <[x := n - st - 48]> (<[s := st]> (SEGMENT_stByteSize h)) ->
  HEAP_pringFreeSegment h' ≡ₚ frees [mkB s st f1; mkB x (n - st - 48) f2] ++ remove_node s (HEAP_pringFreeSegment h) ->
  HEAP_words h' = <[x + 40 := LW_SEG_MAGIC_REAL]> (HEAP_words h) -> same_heap h h' ->
  moved 1 ((if f1 then st else 0) + (if f2 then n - st - 48 else 0) - (if f then n else 0)) h h' ->
  heap_rep h' (l1 ++ [mkB s st f1; mkB x (n - st - 48) f2] ++ l2).
Proof.
  intros Hst Hn Hm Hl Hs Hg Hw [? ?] (? & ? & ?). pose proof one_bounds as (? & ? & ? & ? & ?).
  eapply (rep_replace_eq h _ l1 [mkB s n f] [mkB s st f1; mkB x (n - st - 48) f2] l2 Hr 1
    ((if f1 then st else 0) + (if f2 then n - st - 48 else 0) - (if f then n else 0))).
  all: try done; try (cbn; lia).
  - rewrite Hl, one_line, !fmap_app. cbn. by rewrite insert_after_mid by apply one_notin_l.
  - rewrite Hs. cbn. apply map_eq. intros k. destruct (decide (k = s)), (decide (k = x)); simplify_map_eq; by try lia.
  - rewrite Hw. intros b [->| ->%list_elem_of_singleton]%elem_of_cons; cbn; [|by rewrite lookup_insert_eq].
    rewrite lookup_insert_ne by lia. apply (hr_magic _ _ Hr _ one_in).
  - intros a Ha. rewrite Hw. apply lookup_insert_ne. specialize (Ha _ (list_elem_of_here _ _)). unfold b_end in Ha. cbn in Ha. lia.
  - repeat constructor; unfold b_end, HEAP_TOP; cbn; try lia. all: Z.div_mod_to_equations; lia.
  - cbn; splits; [|by setoid_rewrite elem_of_nil|done]. intros c ->%list_elem_of_singleton. unfold apart, b_end. cbn. lia.
  - intros b c Hb (? & ? & ?) Ha. specialize (Ha _ (list_elem_of_here _ _)). unfold apart, b_end in *. cbn in *.
    apply elem_of_cons in Hb as [->| ->%list_elem_of_singleton]; cbn; lia.
Qed.
End Single.

(** ** Two blocks become one *)

Section Join.
Context (h : HEAP) (l1 : list BLOCK) (s n : Z) (f : bool) (r : Z) (g : bool) (l2 : list BLOCK).
Context (Hr : heap_rep h (l1 ++ [mkB s n f; mkB (s + 48 + n) r g] ++ l2)).

Lemma rep_join (k : bool) h' :
  SEGMENT_lineManage h' = remove_node (s + 48 + n) (SEGMENT_lineManage h) ->
  SEGMENT_stByteSize h' = <[s := n + r + 48]> (delete (s + 48 + n) (SEGMENT_stByteSize h)) ->
  HEAP_pringFreeSegment h' ≡ₚ (if k then [s] else []) ++ remove_node s (remove_node (s + 48 + n) (HEAP_pringFreeSegment h)) ->
  HEAP_words h' = HEAP_words h -> same_heap h h' ->
  moved (-1) ((if k then n + r + 48 else 0) - (if f then n else 0) - (if g then r else 0)) h h' ->
  heap_rep h' (l1 ++ [mkB s (n + r + 48) k] ++ l2).
Proof.
  intros Hl Hs Hg Hw [? ?] (? & ? & ?).
  assert (Hin : mkB s n f ∈ l1 ++ [mkB s n f; mkB (s + 48 + n) r g] ++ l2) by (rewrite !elem_of_app; right; left; left).
  assert (Hin' : mkB (s + 48 + n) r g ∈ l1 ++ [mkB s n f; mkB (s + 48 + n) r g] ++ l2) by (rewrite !elem_of_app; right; left; right; left).
  pose proof (rep_block _ _ _ Hr Hin) as (B1 & B2 & B3 & B4 & B5). pose proof (rep_block _ _ _ Hr Hin') as (C1 & C2 & C3 & C4 & C5).
  unfold b_end, HEAP_TOP in *. cbn in B1, B2, B3, B4, B5, C1, C2, C3, C4, C5.
  eapply (rep_replace_eq h _ l1 _ [mkB s (n + r + 48) k] l2 Hr (-1)
    ((if k then n + r + 48 else 0) - (if f then n else 0) - (if g then r else 0))).
  all: try done; try (cbn; lia).
  - rewrite Hl, (hr_line _ _ Hr), !fmap_app. cbn. rewrite (cons_middle s), app_assoc, remove_node_app; [by rewrite <-app_assoc|].
    rewrite elem_of_app, list_elem_of_singleton. intros [Hx|Hx]; [|lia].
    apply list_elem_of_fmap in Hx as (b & E & Hb). eapply (outside_at _ _ _ _ Hr b (mkB (s + 48 + n) r g)); [|right; left|by symmetry].
    apply elem_of_app. by left.
  - rewrite Hs. cbn. apply map_eq. intros j. destruct (decide (j = s)), (decide (j = s + 48 + n)); simplify_map_eq; by try lia.
  - rewrite Hg. by destruct k.
  - intros b ->%list_elem_of_singleton. rewrite Hw. apply (hr_magic _ _ Hr _ Hin).
  - intros. by rewrite Hw.
  - repeat constructor; unfold b_end, HEAP_TOP; cbn; try lia. Z.div_mod_to_equations; lia.
  - cbn. by setoid_rewrite elem_of_nil.
  - intros b c ->%list_elem_of_singleton (? & ? & ?) Ha. pose proof (Ha _ (list_elem_of_here _ _)) as Ha1.
    specialize (Ha (mkB (s + 48 + n) r g) ltac:(right; left)). unfold apart, b_end in *. cbn in *. lia.
Qed.
End Join.

(** ** Taking a free block *)

(** What a block of [n] bytes becomes when [st] of them are allocated. *)
Definition taken (s n st : Z) : list BLOCK :=
  if 64 <? n - st then [mkB s st false; mkB (s + 48 + st) (n - st - 48) true] else [mkB s n false].
Definition taken_size (n st : Z) : Z := if 64 <? n - st then st else n.

Lemma heap_split_spec h l1 s n l2 st : heap_rep h (l1 ++ [mkB s n true] ++ l2) -> 0 <= st <= n -> st mod 16 = 0 ->
  exists h', heap_split (ring_del s h) s st = Some h' /\ heap_rep h' (l1 ++ taken s n st ++ l2) /\
    words_but s n h h' /\ HEAP_stMaxUsedByteSize h' = HEAP_stMaxUsedByteSize h.
Proof.
  intros Hr Hst Hm. pose proof (one_bounds _ _ _ _ _ _ Hr) as (? & ? & ? & ? & ?).
  unfold heap_split, taken. cbn [ring_del set_ring SEGMENT_stByteSize SEGMENT_lineManage].
  rewrite (one_size _ _ _ _ _ _ Hr). cbn [mbind option_bind].
  unfold __SEGMENT_BLOCK_SIZE_ALIGN, LW_CFG_HEAP_SEG_MIN_SIZE. rewrite (wrap_small 64 (n - st)) by lia.
  change (48 + 16) with 64. destruct (64 <? n - st) eqn:Hc; zbool.
  - set (x := s + 48 + st). cbn zeta. unfold new_segment, __HEAP_SEGMENT_DATA_PTR, __SEGMENT_BLOCK_SIZE_ALIGN, SEGMENT_stMagic_offset.
    rewrite (wrap_small 64 (s + 48)), (wrap_small 64 (s + 48 + st)), (wrap_small 64 (n - st - 48)), (wrap_small 64 (s + 48 + st + 40)) by lia.
    rewrite (wrap_small 64 (st + 48)) by lia. fold x.
    edestruct add_free_eq as (r & Er & ->). cbn in Er. eexists. split; [reflexivity|]. split; [|split; [|done]].
    + apply (rep_split _ _ _ _ _ _ Hr); try done; try lia. moved.
    + intros a Ha. cbn. apply lookup_insert_ne. lia.
  - eexists. split; [reflexivity|]. split; [|split; [by intros ? _|done]].
    apply (rep_flag _ _ _ _ _ _ Hr); try done. moved.
Qed.

Lemma rep_max h bs : heap_rep h bs -> heap_rep (__HEAP_UPDATA_MAX_USED h) bs.
Proof. intros []. by split. Qed.

(** A write into the data of a block. *)
Lemma rep_word h bs b a v : heap_rep h bs -> b ∈ bs -> b_at b + 48 <= a < b_end b -> heap_rep (set_word a v h) bs.
Proof.
  intros Hr Hb Ha. assert (Hx : forall c, c ∈ bs -> b_at c + 40 <> a).
  { intros c Hc E. pose proof (rep_block _ _ _ Hr Hc) as (? & ? & _).
    destruct (all_apart_in _ _ _ (hr_apart _ _ Hr) Hb Hc) as [->|Hp]; [lia|]. unfold apart, b_end in *. lia. }
  destruct Hr. split; try done. intros c Hc. cbn. rewrite lookup_insert_ne by (by apply not_eq_sym, Hx). auto.
Qed.

Lemma rep_ext h bs bs' : heap_rep h bs -> bs = bs' -> heap_rep h bs'.
Proof. by intros ? <-. Qed.

(** The block that is in use after [heap_split]. *)
Lemma taken_in s n st : exists n', mkB s n' false ∈ taken s n st /\ n' = taken_size n st.
Proof. unfold taken, taken_size. destruct (64 <? n - st); eexists; split; [left|done|left|done]. Qed.

Lemma mark_spec h bs bCross s n : heap_rep h bs -> mkB s n false ∈ bs -> (bCross = true -> 8 <= n) ->
  exists h', __heap_crossbord_mark bCross h s = Some h' /\ heap_rep h' bs /\
    forall a, (bCross = true -> a <> s + 48 + n - 8) -> HEAP_words h' !! a = HEAP_words h !! a.
Proof.
  intros Hr Hb H8. pose proof (rep_block _ _ _ Hr Hb) as (? & ? & H3 & _). unfold b_end, HEAP_TOP in H3. cbn in *.
  unfold __heap_crossbord_mark. destruct bCross; [|exists h; by split].
  rewrite (rep_size _ _ _ _ _ Hr Hb). cbn [mbind option_bind]. specialize (H8 eq_refl).
  unfold __HEAP_SEGMENT_DATA_PTR, __SEGMENT_BLOCK_SIZE_ALIGN.
  rewrite (wrap_small 64 (n - 8)), (wrap_small 64 (s + 48)), (wrap_small 64 (s + 48 + (n - 8))) by lia.
  eexists. split; [reflexivity|]. split.
  - eapply rep_word; [done|exact Hb|]. unfold b_end. cbn. lia.
  - intros a Ha. apply lookup_insert_ne. specialize (Ha eq_refl). lia.
Qed.

(** The bytes really taken for a request. *)
Definition request (bCross : bool) (sz : Z) : Z := ROUND_UP (__heap_crossbord_size bCross sz) 4.

Definition legal_size (sz : Z) : Prop := 0 <= sz <= ULONG_MAX - 23.

Lemma request_spec bCross sz : legal_size sz -> let st := request bCross sz in
  sz <= st <= sz + 23 /\ st mod 16 = 0 /\ (bCross = true -> sz + 8 <= st).
Proof.
  intros Hl. unfold legal_size, ULONG_MAX in Hl. unfold request, __heap_crossbord_size.
  assert (H : forall x, 0 <= x <= ULONG_MAX - 15 -> x <= ROUND_UP x 4 <= x + 15 /\ ROUND_UP x 4 mod 16 = 0).
  { intros x Hx. unfold ULONG_MAX in Hx. destruct (ROUND_UP_spec x 4) as [Hr Hm]; [lia|lia|unfold ULONG_MAX; lia|]. split; [lia|done]. }
  destruct bCross; cbn zeta.
  - rewrite wrap_small by lia. destruct (H (sz + 8)) as [? ?]; [unfold ULONG_MAX; lia|]. splits; [lia|lia|done|lia].
  - destruct (H sz) as [? ?]; [unfold ULONG_MAX; lia|]. splits; [lia|lia|done|done].
Qed.

(** First fit finds a block with room if there is one. *)
Lemma first_fit_spec h need l : (forall s, s ∈ l -> is_Some (SEGMENT_stByteSize h !! s)) ->
  exists r, first_fit h need l = Some r /\
  match r with
  | Some s => s ∈ l /\ exists n, SEGMENT_stByteSize h !! s = Some n /\ need s <= n
  | None => forall s n, s ∈ l -> SEGMENT_stByteSize h !! s = Some n -> n < need s
  end.
Proof.
  induction l as [|x l IH]; intros Hl; cbn [first_fit].
  - exists None. split; [done|]. by intros ? ? ?%not_elem_of_nil.
  - destruct (Hl x (list_elem_of_here _ _)) as [n En]. rewrite En. cbn [mbind option_bind].
    destruct (need x <=? n) eqn:Hc; zbool.
    + exists (Some x). split; [done|]. split; [left|by exists n].
    + destruct IH as (r & -> & Hr); [intros; apply Hl; by right|]. exists r. split; [done|].
      destruct r as [s|]; [destruct Hr as [? ?]; split; [by right|done]|].
      intros s m [->|Hs]%elem_of_cons Em; [congruence|eauto].
Qed.

(** On a heap, it is a free block that fits, or none fits. *)
Lemma fit_spec h bs need : heap_rep h bs -> exists r, first_fit h need (HEAP_pringFreeSegment h) = Some r /\
  match r with
  | Some s => exists l1 n l2, bs = l1 ++ [mkB s n true] ++ l2 /\ need s <= n
  | None => forall b, b ∈ bs -> b_free b = true -> b_size b < need (b_at b)
  end.
Proof.
  intros Hr. destruct (first_fit_spec h need (HEAP_pringFreeSegment h)) as (r & -> & Hf).
  { intros s [n Hn]%(hr_ring _ _ Hr). exists n. by eapply rep_size. }
  exists r. split; [done|]. destruct r as [s|].
  - destruct Hf as (Hs & n & En & Hn). apply (hr_ring _ _ Hr) in Hs as [m Hm].
    pose proof (rep_size _ _ _ _ _ Hr Hm) as Em. rewrite En in Em. injection Em as <-.
    apply list_elem_of_split in Hm as (l1 & l2 & ->). by exists l1, n, l2.
  - intros b Hb Hfb. apply Hf.
    + apply (hr_ring _ _ Hr). exists (b_size b). by destruct b; cbn in *; subst.
    + apply (rep_size _ _ _ _ (b_free b) Hr). by destruct b.
Qed.

Lemma free_at_most h bs b : heap_rep h bs -> b ∈ bs -> b_free b = true -> b_size b <= HEAP_stFreeByteSize h.
Proof.
  intros Hr (l1 & l2 & ->)%list_elem_of_split Hf. rewrite (hr_free _ _ Hr). unfold free_of.
  assert (Hp : forall l, (forall c, c ∈ l -> c ∈ l1 ++ b :: l2) -> 0 <= sumz (fun b => if b_free b then b_size b else 0) l).
  { intros l Hl. apply sumz_nonneg. intros c Hc. pose proof (rep_block _ _ _ Hr (Hl c Hc)) as (? & ? & _). destruct (b_free c); lia. }
  rewrite sumz_app. unfold sumz at 2. cbn [foldr]. rewrite Hf. fold (sumz (fun b => if b_free b then b_size b else 0) l2).
  assert (0 <= sumz (fun b => if b_free b then b_size b else 0) l1) by (apply Hp; intros; apply elem_of_app; by left).
  assert (0 <= sumz (fun b => if b_free b then b_size b else 0) l2) by (apply Hp; intros; apply elem_of_app; right; by right).
  lia.
Qed.

(** *** Allocation: NULL when no free block is large enough, else the data of one *)
Lemma allocate_spec h bs bCross sz : heap_rep h bs -> legal_size sz ->
  exists h' p, _HeapAllocate h bCross sz 0 = Some (h', p) /\
    ((p = HEAP_NULL /\ h' = h /\ forall b, b ∈ bs -> b_free b = true -> b_size b < request bCross sz) \/
     exists l1 s n l2, bs = l1 ++ [mkB s n true] ++ l2 /\ request bCross sz <= n /\ p = s + 48 /\
       heap_rep h' (l1 ++ taken s n (request bCross sz) ++ l2) /\ words_but s n h h').
Proof.
  intros Hr Hsz. destruct (request_spec bCross sz Hsz) as (R1 & R2 & R3). unfold legal_size in Hsz.
  unfold _HeapAllocate. fold (request bCross sz). set (st := request bCross sz) in *.
  destruct (HEAP_stFreeByteSize h <? st) eqn:Hc; zbool.
  { exists h, HEAP_NULL. split; [done|]. left. splits; [done|done|]. intros b Hb Hf. pose proof (free_at_most _ _ _ Hr Hb Hf). lia. }
  cbn [Z.eqb negb].
  destruct (fit_spec h bs (fun _ => st) Hr) as (r & -> & Hf). cbn [mbind option_bind]. destruct r as [s|].
  - destruct Hf as (l1 & n & l2 & -> & Hn).
    destruct (heap_split_spec _ _ _ _ _ st Hr) as (h1 & -> & Hr1 & Hw1 & _); [lia|done|]. cbn [mbind option_bind].
    pose proof (one_bounds _ _ _ _ _ _ Hr) as (? & ? & ? & _).
    destruct (taken_in s n st) as (n' & Hin & En').
    assert (n' <= n /\ st <= n') as [? ?] by (unfold taken_size in En'; destruct (64 <? n - st); lia).
    destruct (mark_spec (__HEAP_UPDATA_MAX_USED h1) (l1 ++ taken s n st ++ l2) bCross s n') as (h2 & -> & Hr2 & Hw2);
      [by apply rep_max|rewrite !elem_of_app; tauto|intros E; specialize (R3 E); lia|]. cbn [mbind option_bind].
    exists h2, (s + 48). split; [unfold __HEAP_SEGMENT_DATA_PTR, __SEGMENT_BLOCK_SIZE_ALIGN; by rewrite wrap_small by lia|]. right.
    exists l1, s, n, l2. splits; [done|done|done|done|]. intros a Ha. rewrite Hw2 by (intros E; specialize (R3 E); lia). cbn. by apply Hw1.
  - exists h, HEAP_NULL. split; [done|]. by left.
Qed.

(** ** Release *)

(** [p] belongs to the used block at [s]: its data, or an aligned pointer in
    it with the address of the segment before it. *)
Definition owns (h : HEAP) (bs : list BLOCK) (p s : Z) : Prop :=
  exists n, mkB s n false ∈ bs /\
    (p = s + 48 \/ (s + 64 <= p <= s + 48 + n /\ HEAP_words h !! (p - 8) = Some s)).

Lemma is_real_spec h bs b : heap_rep h bs -> b ∈ bs -> __HEAP_SEGMENT_IS_REAL h (b_at b) = Some true.
Proof.
  intros Hr Hb. pose proof (rep_block _ _ _ Hr Hb) as (? & ? & H3 & _). unfold b_end, HEAP_TOP in H3.
  unfold __HEAP_SEGMENT_IS_REAL, SEGMENT_stMagic_offset. rewrite wrap_small by lia.
  by rewrite (hr_magic _ _ Hr _ Hb).
Qed.

Lemma segment_of_spec h bs p s : heap_rep h bs -> owns h bs p s -> segment_of h p = Some (Some s).
Proof.
  intros Hr (n & Hb & Hp). pose proof (rep_block _ _ _ Hr Hb) as (H1 & H2 & H3 & H4 & _). unfold b_end, HEAP_TOP in H3.
  cbn in H1, H2, H3, H4. unfold segment_of, __HEAP_SEGMENT_SEG_PTR, __SEGMENT_BLOCK_SIZE_ALIGN.
  pose proof (is_real_spec _ _ _ Hr Hb) as Hreal. pose proof (rep_used _ _ _ _ _ Hr Hb) as Hu. cbn in Hreal.
  destruct Hp as [->|[Hp Hw]].
  - replace (s + 48 - 48) with s by lia. rewrite (wrap_small 64 s) by lia. rewrite Hreal. cbn [mbind option_bind].
    rewrite Hreal. cbn [mbind option_bind]. by rewrite Hu.
  - rewrite (wrap_small 64 (p - 48)), (wrap_small 64 (p - 8)) by lia.
    assert (__HEAP_SEGMENT_IS_REAL h (p - 48) = Some (s =? LW_SEG_MAGIC_REAL)) as ->.
    { unfold __HEAP_SEGMENT_IS_REAL, SEGMENT_stMagic_offset. rewrite wrap_small by lia.
      replace (p - 48 + 40) with (p - 8) by lia. by rewrite Hw. }
    cbn [mbind option_bind]. rewrite Hw.
    destruct (s =? LW_SEG_MAGIC_REAL) eqn:E; zbool; [subst s; discriminate|].
    cbn [mbind option_bind]. rewrite Hreal. cbn [mbind option_bind]. by rewrite Hu.
Qed.

(** What the list becomes: the block is free, one with the neighbours that touch it
    and are free. *)
Definition grow_left (l1 : list BLOCK) (b : BLOCK) : list BLOCK * BLOCK :=
  match reverse l1 with
  | x :: r => if b_free x && (b_end x =? b_at b) then (reverse r, mkB (b_at x) (b_size x + b_size b + 48) true) else (l1, b)
  | [] => (l1, b)
  end.
Definition grow_right (b : BLOCK) (l2 : list BLOCK) : BLOCK * list BLOCK :=
  match l2 with
  | x :: r => if b_free x && (b_end b =? b_at x) then (mkB (b_at b) (b_size b + b_size x + 48) true, r) else (b, l2)
  | [] => (b, l2)
  end.
Definition freed (l1 : list BLOCK) (b : BLOCK) (l2 : list BLOCK) : list BLOCK :=
  let '(l1, b) := grow_left l1 b in let '(b, l2) := grow_right b l2 in l1 ++ [mkB (b_at b) (b_size b) true] ++ l2.

Lemma release_refresh s h : s ∈ HEAP_pringFreeSegment h -> NoDup (HEAP_pringFreeSegment h) ->
  HEAP_pringFreeSegment (__HEAP_ADD_NEW_SEG_TO_FREELIST s (ring_del s h)) ≡ₚ HEAP_pringFreeSegment h.
Proof. intros Hs Hn. rewrite add_free_ring. cbn. symmetry. by apply remove_node_perm. Qed.

Lemma next_ptr_spec h bs b : heap_rep h bs -> b ∈ bs -> __HEAP_SEGMENT_NEXT_PTR h (b_at b) = Some (b_end b).
Proof.
  intros Hr Hb. pose proof (rep_block _ _ _ Hr Hb) as (? & ? & H3 & _). unfold b_end, HEAP_TOP in *.
  unfold __HEAP_SEGMENT_NEXT_PTR, __HEAP_SEGMENT_DATA_PTR, __SEGMENT_BLOCK_SIZE_ALIGN.
  rewrite (rep_size h bs (b_at b) (b_size b) (b_free b) Hr) by (by destruct b). cbn [mbind option_bind].
  rewrite (wrap_small 64 (b_at b + 48)), wrap_small by lia. done.
Qed.

(** Whether a neighbour is merged. *)
Lemma merge_test h bs b x : heap_rep h bs -> b ∈ bs ->
  __HEAP_SEGMENT_IS_USED h (b_at b) || negb (b_end b =? x) = negb (b_free b && (b_end b =? x)).
Proof. intros Hr Hb. rewrite (rep_used h bs (b_at b) (b_size b) (b_free b) Hr) by (by destruct b). by destruct (b_free b), (b_end b =? x). Qed.

(** Putting a free block to its place in the ring keeps the ring. *)
Lemma refresh_spec (c : option Z) h s : s ∈ HEAP_pringFreeSegment h -> NoDup (HEAP_pringFreeSegment h) ->
  exists r, r ≡ₚ HEAP_pringFreeSegment h /\
    match c with None => __HEAP_ADD_NEW_SEG_TO_FREELIST s (ring_del s h) | Some _ => h end = set_ring r h.
Proof.
  intros Hs Hn. destruct c; [exists (HEAP_pringFreeSegment h); by destruct h|].
  edestruct add_free_eq as (q & Eq & ->). exists q. split; [|done]. rewrite Eq. cbn. symmetry. by apply remove_node_perm.
Qed.

Lemma merge_left_spec h l1 s n l2 : heap_rep h (l1 ++ [mkB s n false] ++ l2) ->
  exists h' l1' b, grow_left l1 (mkB s n false) = (l1', b) /\ merge_left h s n = Some (h', b_at b, b_free b) /\
    heap_rep h' (l1' ++ [b] ++ l2) /\ HEAP_words h' = HEAP_words h /\ (b_free b = false -> b_size b = n).
Proof.
  intros Hr. unfold merge_left. rewrite (one_line _ _ _ _ _ _ Hr).
  rewrite list_prev_mid by apply (one_notin_r _ _ _ _ _ _ Hr). unfold grow_left. destruct l1 as [|x l1 _] using rev_ind.
  { exists h, [], (mkB s n false). by splits. }
  rewrite fmap_app, reverse_snoc. cbn [fmap list_fmap]. rewrite last_snoc. cbn [b_at].
  assert (Hx : x ∈ (l1 ++ [x]) ++ [mkB s n false] ++ l2) by (rewrite !elem_of_app; left; right; left).
  rewrite (next_ptr_spec _ _ _ Hr Hx). cbn [mbind option_bind]. rewrite (merge_test _ _ _ s Hr Hx).
  destruct (b_free x && (b_end x =? s)) eqn:Hm; cbn [negb]; [|exists h, (l1 ++ [x]), (mkB s n false); by splits].
  zbool. destruct x as [a m f]. cbn [b_free b_at b_size] in *. subst f. unfold b_end in *. cbn [b_at b_size] in *. subst s.
  rewrite (rep_size _ _ _ _ _ Hr Hx), reverse_involutive. cbn [mbind option_bind].
  pose proof (rep_block _ _ _ Hr Hx) as (B1 & B2 & B3 & _). pose proof (one_bounds _ _ _ _ _ _ Hr) as (C1 & C2 & C3 & _).
  unfold b_end, HEAP_TOP in *. cbn in B1, B2, B3. unfold __SEGMENT_BLOCK_SIZE_ALIGN.
  rewrite (wrap_small 64 (n + 48)), (wrap_small 64 (m + (n + 48))) by lia.
  assert (Hi : a ∈ HEAP_pringFreeSegment h) by (by apply (rep_free _ _ _ _ _ Hr Hx)).
  assert (Ho : a + 48 + m ∉ HEAP_pringFreeSegment h).
  { intros Hx'%(rep_free _ _ _ _ _ Hr (one_in _ _ _ _ _)). done. }
  match goal with |- context [match ?c with _ => _ end] => set (p := c) end.
  rewrite (wrap_small 64 (48 + n)) by lia.
  match goal with |- context [Some (match p with Some _ => ?x | None => _ end, _, _)] => set (h2 := x) end.
  destruct (refresh_spec p h2 a) as (r & Er & ->); [exact Hi|apply (hr_ring_nodup _ _ Hr)|].
  rewrite <-app_assoc in Hr. cbn [app] in Hr.
  eexists _, l1, (mkB a (m + n + 48) true). split; [done|]. split; [done|]. split; [|done].
  apply (rep_join _ _ _ _ _ _ _ _ Hr); try done; cbn.
  - replace (m + (n + 48)) with (m + n + 48) by lia. apply map_eq. intros j.
    destruct (decide (j = a)), (decide (j = a + 48 + m)); simplify_map_eq; by try lia.
  - rewrite Er. cbn. rewrite (remove_node_notin (a + 48 + m)) by done. by apply remove_node_perm.
  - moved.
Qed.

Lemma merge_right_spec h l1 b l2 n : heap_rep h (l1 ++ [b] ++ l2) -> (b_free b = false -> b_size b = n) ->
  exists h' b' l2', grow_right b l2 = (b', l2') /\ merge_right h (b_at b) n (b_free b) (head (b_at <$> l2)) = Some h' /\
    heap_rep h' (l1 ++ [mkB (b_at b') (b_size b') true] ++ l2') /\ HEAP_words h' = HEAP_words h.
Proof.
  intros Hr Hn. destruct b as [s n' f]. cbn [b_free b_size b_at] in *. pose proof (one_bounds _ _ _ _ _ _ Hr) as (B1 & B2 & B3 & _).
  assert (Hfail : exists h', (if f then h else account 0 (- n) n (__HEAP_ADD_NEW_SEG_TO_FREELIST s h)) = h' /\
    heap_rep h' (l1 ++ [mkB s n' true] ++ l2) /\ HEAP_words h' = HEAP_words h).
  { destruct f; [by exists h|]. rewrite <-Hn by done. edestruct add_free_eq as (r & Er & ->). eexists. split; [reflexivity|].
    split; [|done]. apply (rep_flag _ _ _ _ _ _ Hr); try done; cbn; [|moved]. rewrite Er, remove_node_notin; [done|].
    intros Hx%(rep_free _ _ _ _ _ Hr (one_in _ _ _ _ _)). done. }
  unfold merge_right, grow_right. destruct l2 as [|x l2]; cbn [head fmap list_fmap].
  { destruct Hfail as (h' & -> & Hr' & Hw). by exists h', (mkB s n' f), []. }
  assert (Hx : x ∈ l1 ++ [mkB s n' f] ++ x :: l2) by (rewrite !elem_of_app; right; right; left).
  pose proof (next_ptr_spec _ _ _ Hr (one_in _ _ _ _ _)) as En. cbn [b_at] in En. rewrite En. cbn [mbind option_bind].
  rewrite (rep_used h _ (b_at x) (b_size x) (b_free x) Hr) by (by destruct x).
  rewrite <-negb_andb. destruct (b_free x && (b_end (mkB s n' f) =? b_at x)) eqn:Hm; cbn [negb].
  2: { destruct Hfail as (h' & -> & Hr' & Hw). by exists h', (mkB s n' f), (x :: l2). }
  zbool. destruct x as [c r g]. cbn [b_free b_at b_size] in *. subst g. unfold b_end in *. cbn [b_at b_size] in *. subst c.
  rewrite (rep_size _ _ _ _ _ Hr (one_in _ _ _ _ _)), (rep_size _ _ _ _ _ Hr Hx). cbn [mbind option_bind].
  pose proof (rep_block _ _ _ Hr Hx) as (C1 & C2 & C3 & _). unfold b_end, HEAP_TOP in C3. cbn in C1, C2, C3.
  unfold __SEGMENT_BLOCK_SIZE_ALIGN. rewrite (wrap_small 64 (r + 48)), (wrap_small 64 (n' + (r + 48))) by lia.
  pose proof (rep_free _ _ _ _ _ Hr Hx) as Hc. pose proof (rep_free _ _ _ _ _ Hr (one_in _ _ _ _ _)) as Hs.
  pose proof (hr_ring_nodup _ _ Hr) as Hnd. change (?a ++ [?b] ++ ?c :: ?d) with (a ++ [b; c] ++ d) in Hr.
  set (h1 := account (-1) 0 0 _). cbn zeta.
  assert (Hd : delete (s + 48 + n') (<[s:=n' + (r + 48)]> (SEGMENT_stByteSize h)) = <[s:=n' + r + 48]> (delete (s + 48 + n') (SEGMENT_stByteSize h))).
  { rewrite delete_insert_ne by lia. f_equal. lia. }
  destruct f.
  - destruct (refresh_spec (list_next s (SEGMENT_lineManage h1)) h1 s) as (q & Eq & ->).
    { cbn. apply elem_of_remove_node; [done|]. split; [by apply Hs|lia]. }
    { by apply remove_node_NoDup. }
    eexists _, (mkB s (n' + r + 48) true), l2. split; [done|]. split; [reflexivity|]. split; [|done].
    apply (rep_join _ _ _ _ _ _ _ _ Hr); try done; cbn; [|moved].
    rewrite Eq. cbn. apply remove_node_perm, elem_of_remove_node; [done|]. split; [by apply Hs|lia].
  - edestruct add_free_eq as (q & Eq & ->).
    eexists _, (mkB s (n' + r + 48) true), l2. split; [done|]. split; [reflexivity|]. split; [|done].
    rewrite <-Hn by done. rewrite (wrap_small 64 (48 + n')) by lia.
    apply (rep_join _ _ _ _ _ _ _ _ Hr); try done; cbn; [|moved].
    rewrite Eq. cbn. rewrite (remove_node_notin s); [done|]. intros [?%Hs _]%elem_of_remove_node; done.
Qed.

(** *** Release: the block is free, merged with free neighbours *)
Lemma heap_release_spec h l1 s n l2 : heap_rep h (l1 ++ [mkB s n false] ++ l2) ->
  exists h', heap_release h s = Some h' /\ heap_rep h' (freed l1 (mkB s n false) l2) /\ HEAP_words h' = HEAP_words h.
Proof.
  intros Hr. unfold heap_release, freed. rewrite (one_size _ _ _ _ _ _ Hr). cbn [mbind option_bind].
  destruct (merge_left_spec _ _ _ _ _ Hr) as (h1 & l1' & b & -> & -> & Hr1 & Hw1 & Hn). cbn [mbind option_bind].
  rewrite (one_line _ _ _ _ _ _ Hr), list_next_mid by apply (one_notin_l _ _ _ _ _ _ Hr).
  destruct (merge_right_spec _ _ _ _ n Hr1 Hn) as (h2 & b' & l2' & -> & -> & Hr2 & Hw2).
  exists h2. splits; [done|done|]. by rewrite Hw2.
Qed.

Lemma free_spec h l1 s n l2 p : let bs := l1 ++ [mkB s n false] ++ l2 in
  heap_rep h bs -> owns h bs p s ->
  exists h', _HeapFree h p false 0 = Some (h', HEAP_NULL) /\ heap_rep h' (freed l1 (mkB s n false) l2) /\ HEAP_words h' = HEAP_words h.
Proof.
  intros bs Hr Ho. unfold _HeapFree, find_segment. rewrite (segment_of_spec _ _ _ _ Hr Ho).
  assert (p <> 0) as Hp.
  { destruct Ho as (m & Hm & Hp). pose proof (rep_block _ _ _ Hr Hm) as (B1 & B2 & _). cbn in B1, B2. lia. }
  unfold HEAP_NULL at 1. rewrite (proj2 (Z.eqb_neq p 0)) by done. cbn [Z.eqb negb mbind option_bind].
  destruct (heap_release_spec _ _ _ _ _ Hr) as (h' & -> & Hr' & Hw). by exists h'.
Qed.

(** ** Aligned allocation *)

Lemma align_in_spec s k : 0 < s -> s + 48 <= 2 ^ 63 -> s mod 16 = 0 -> 0 <= k <= 62 ->
  let '(p, d) := align_in s (2 ^ k - 1) in
  p = s + 48 + d /\ 0 <= d < 2 ^ k /\ d mod 16 = 0 /\ p mod 2 ^ k = 0.
Proof.
  intros Hs Ht Hm Hk. unfold align_in, __HEAP_SEGMENT_DATA_PTR, __SEGMENT_BLOCK_SIZE_ALIGN. rewrite wrap_small by lia.
  assert (0 < 2 ^ k) by (apply Z.pow_pos_nonneg; lia). assert (2 ^ k <= 2 ^ 62) by (apply Z.pow_le_mono_r; lia).
  replace (2 ^ k - 1) with (Z.ones k) by (rewrite Z.ones_equiv; lia). rewrite Z.land_ones by lia.
  set (d := s + 48) in *. pose proof (Z.div_mod d (2 ^ k) ltac:(lia)) as Hdm. pose proof (Z.mod_pos_bound d (2 ^ k) ltac:(lia)).
  destruct (d mod 2 ^ k =? 0) eqn:Hc; zbool.
  { splits; [lia|lia|lia|done|done]. }
  rewrite lor_ones_div by lia. replace ((d / 2 ^ k + 1) * 2 ^ k) with (d - d mod 2 ^ k + 2 ^ k) by lia.
  rewrite (wrap_small 64 (d - _ + _)) by lia. rewrite wrap_small by lia.
  assert (Hp : (d - d mod 2 ^ k + 2 ^ k) mod 2 ^ k = 0).
  { replace (d - d mod 2 ^ k + 2 ^ k) with ((d / 2 ^ k + 1) * 2 ^ k) by lia. apply Z.mod_mul. lia. }
  assert (H4 : 4 <= k).
  { destruct (decide (4 <= k)); [done|]. destruct Hc. assert (Hd : (2 ^ k | d)); [|by apply Z.mod_divide; [lia|]].
    exists (2 ^ (4 - k) * (d / 16)). rewrite <-Z.mul_assoc, (Z.mul_comm (d / 16)), Z.mul_assoc, <-Z.pow_add_r by lia.
    replace (4 - k + k) with 4 by lia. pose proof (Z.div_mod d 16 ltac:(lia)).
    assert (d mod 16 = 0) by (unfold d; Z.div_mod_to_equations; lia). change (2 ^ 4) with 16. lia. }
  splits; [lia|lia|lia| |done].
  assert (Hd : (16 | d - d mod 2 ^ k + 2 ^ k - d)); [|by apply Z.mod_divide in Hd].
  apply Z.divide_sub_r; [|apply Z.mod_divide; [lia|unfold d; Z.div_mod_to_equations; lia]].
  transitivity (2 ^ k); [|by apply Z.mod_divide; [lia|]]. exists (2 ^ (k - 4)). change 16 with (2 ^ 4). rewrite <-Z.pow_add_r by lia. f_equal. lia.
Qed.


Lemma left_split h l1 s n l2 d : heap_rep h (l1 ++ [mkB s n true] ++ l2) -> 64 <= d <= n -> d mod 16 = 0 ->
  exists r, r ≡ₚ s + d :: HEAP_pringFreeSegment h /\
    let h1 := new_segment (s + d) (n - d) h in
    let h2 := set_chain (insert_after s (s + d) (SEGMENT_lineManage h1)) h1 in
    __HEAP_ADD_NEW_SEG_TO_FREELIST (s + d) h2 = set_ring r h2 /\
    let h3 := account 1 48 (- (48)) (set_size s (d - 48) (set_ring r h2)) in
    heap_rep h3 ((l1 ++ [mkB s (d - 48) true]) ++ [mkB (s + d) (n - d) true] ++ l2) /\ words_but s n h h3.
Proof.
  intros Hr Hd Hm. pose proof (one_bounds _ _ _ _ _ _ Hr) as (B1 & B2 & B3 & B4 & B5). cbn zeta.
  edestruct add_free_eq as (r & Er & ->). exists r. split; [done|]. split; [done|].
  unfold new_segment, SEGMENT_stMagic_offset. rewrite (wrap_small 64 (s + d + 40)) by lia. split.
  - rewrite <-app_assoc. pose proof (rep_split _ _ _ _ _ _ Hr (d - 48) true true) as Hx. cbn zeta in Hx.
    replace (s + 48 + (d - 48)) with (s + d) in Hx by lia. replace (n - (d - 48) - 48) with (n - d) in Hx by lia.
    apply Hx; try done; try lia; cbn; [Z.div_mod_to_equations; lia|apply insert_insert_ne; lia| |moved].
    etrans; [exact Er|]. etrans; [apply perm_skip, (remove_node_perm s)|apply perm_swap].
    by apply (rep_free _ _ _ _ _ Hr (one_in _ _ _ _ _)).
  - intros a Ha. cbn. apply lookup_insert_ne. lia.
Qed.

(** What a block becomes when [st] bytes are allocated [d] bytes from its data. *)
Definition aligned (s n st d : Z) : list BLOCK :=
  if 64 <=? d then mkB s (d - 48) true :: taken (s + d) (n - d) st else taken s n (st + d).

(** *** Aligned allocation *)

Section Align.
Context (h : HEAP) (l1 : list BLOCK) (s n : Z) (l2 : list BLOCK) (bCross : bool) (st d : Z).
Context (Hr : heap_rep h (l1 ++ [mkB s n true] ++ l2)) (Hn : st + d <= n) (R2 : st mod 16 = 0).
Context (Hst : 0 <= st) (R3 : bCross = true -> 8 <= st) (Hd : 0 <= d) (Hd2 : d mod 16 = 0).

(** The block that has the pointer, afterwards. *)
Definition aligned_to (h' : HEAP) (p s' n' : Z) : Prop :=
  let bs' := l1 ++ aligned s n st d ++ l2 in
  heap_rep h' bs' /\ words_but s n h h' /\ owns h' bs' p s' /\ mkB s' n' false ∈ aligned s n st d /\ p + st <= s' + 48 + n'.

Lemma align_split_spec : 64 <= d ->
  exists h', align_split h bCross s n st d (s + 48 + d) = Some (h', s + 48 + d) /\ exists s' n', aligned_to h' (s + 48 + d) s' n'.
Proof.
  intros H64. pose proof (one_bounds _ _ _ _ _ _ Hr) as (B1 & B2 & B3 & B4 & B5).
  assert (Ea : aligned s n st d = mkB s (d - 48) true :: taken (s + d) (n - d) st) by (unfold aligned; by rewrite (proj2 (Z.leb_le 64 d))).
  unfold align_split, __HEAP_SEGMENT_DATA_PTR, __SEGMENT_BLOCK_SIZE_ALIGN. rewrite (wrap_small 64 (s + 48)), (wrap_small 64 (s + 48 + d)) by lia.
  replace (s + 48 + d - 48) with (s + d) by lia.
  rewrite (wrap_small 64 (s + d)), (wrap_small 64 (n - d)), (wrap_small 64 (d - 48)) by lia.
  destruct (left_split _ _ _ _ _ d Hr) as (r & Er & -> & Hr1 & Hw1); [lia|done|]. cbn zeta in Hr1, Hw1 |- *.
  set (h1 := account 1 48 (- (48)) _) in *.
  destruct (heap_split_spec _ _ _ _ _ st Hr1) as (h2 & -> & Hr2 & Hw2 & _); [lia|done|]. cbn [mbind option_bind].
  destruct (taken_in (s + d) (n - d) st) as (n' & Hin & En').
  assert (n' <= n - d /\ st <= n') as [? ?] by (unfold taken_size in En'; destruct (64 <? n - d - st); lia).
  assert (Hin' : mkB (s + d) n' false ∈ (l1 ++ [mkB s (d - 48) true]) ++ taken (s + d) (n - d) st ++ l2) by (rewrite !elem_of_app; tauto).
  destruct (mark_spec (__HEAP_UPDATA_MAX_USED h2) _ bCross (s + d) n' (rep_max _ _ Hr2) Hin') as (h3 & -> & Hr3 & Hw3);
    [intros E; specialize (R3 E); lia|]. cbn [mbind option_bind].
  exists h3. split; [done|]. rewrite <-app_assoc in Hr3, Hin'. cbn [app] in Hr3, Hin'.
  exists (s + d), n'. unfold aligned_to. cbn zeta. rewrite Ea. splits; [exact Hr3| | |by right|lia].
  - intros a Ha. rewrite Hw3 by (intros E; specialize (R3 E); lia). cbn. rewrite Hw2 by lia. by apply Hw1.
  - exists n'. split; [exact Hin'|]. left. lia.
Qed.

Lemma align_here_spec : d < 64 ->
  exists h', align_here h bCross s st d (s + 48 + d) = Some (h', s + 48 + d) /\ exists s' n', aligned_to h' (s + 48 + d) s' n'.
Proof.
  intros H64. pose proof (one_bounds _ _ _ _ _ _ Hr) as (B1 & B2 & B3 & B4 & B5).
  assert (Ea : aligned s n st d = taken s n (st + d)) by (unfold aligned; by rewrite (proj2 (Z.leb_gt 64 d))).
  unfold align_here. rewrite (wrap_small 64 (st + d)) by lia.
  destruct (heap_split_spec _ _ _ _ _ (st + d) Hr) as (h2 & -> & Hr2 & Hw2 & _); [lia|Z.div_mod_to_equations; lia|].
  cbn [mbind option_bind]. destruct (taken_in s n (st + d)) as (n' & Hin & En').
  assert (n' <= n /\ st + d <= n') as [? ?] by (unfold taken_size in En'; destruct (64 <? n - (st + d)); lia).
  assert (Hin' : mkB s n' false ∈ l1 ++ taken s n (st + d) ++ l2) by (rewrite !elem_of_app; tauto).
  rewrite (wrap_small 64 (s + 48 + d - 8)) by lia.
  set (h3 := if negb (d =? 0) then _ else h2).
  assert (H3 : heap_rep h3 (l1 ++ taken s n (st + d) ++ l2) /\ words_but s n h2 h3 /\
    (d = 0 \/ HEAP_words h3 !! (s + 48 + d - 8) = Some s)).
  { unfold h3. destruct (d =? 0) eqn:E0; zbool; cbn [negb]; [by splits; [|by intros ? ?|left]|].
    assert (16 <= d) by (Z.div_mod_to_equations; lia). splits.
    - eapply rep_word; [done|exact Hin'|]. unfold b_end. cbn. lia.
    - intros a Ha. cbn. apply lookup_insert_ne. lia.
    - right. cbn. by rewrite lookup_insert_eq. }
  destruct H3 as (Hr3 & Hw3 & Hp).
  destruct (mark_spec (__HEAP_UPDATA_MAX_USED h3) _ bCross s n' (rep_max _ _ Hr3) Hin') as (h4 & E4 & Hr4 & Hw4);
    [intros E; specialize (R3 E); lia|]. rewrite E4. cbn [mbind option_bind].
  exists h4. split; [done|].
  exists s, n'. unfold aligned_to. cbn zeta. rewrite Ea. splits; [done| | |done|lia].
  - intros a Ha. rewrite Hw4 by (intros E; specialize (R3 E); lia). cbn. rewrite Hw3 by done. by apply Hw2.
  - exists n'. split; [done|]. destruct Hp as [->|Hp]; [left; lia|].
    destruct (decide (d = 0)) as [->|Hd0]; [left; lia|]. right. split; [Z.div_mod_to_equations; lia|].
    rewrite Hw4 by (intros E; specialize (R3 E); lia). exact Hp.
Qed.
End Align.

Lemma allocate_align_spec h bs bCross sz k : heap_rep h bs -> legal_size sz -> 0 <= k <= 62 ->
  exists h' p, _HeapAllocateAlign h bCross sz (2 ^ k) 0 = Some (h', p) /\
    ((p = HEAP_NULL /\ h' = h /\ forall b, b ∈ bs -> b_free b = true -> b_size b < request bCross sz + 2 ^ k) \/
     exists l1 s n l2 d s' n', bs = l1 ++ [mkB s n true] ++ l2 /\ p = s + 48 + d /\ p mod 2 ^ k = 0 /\
       aligned_to h l1 s n l2 (request bCross sz) d h' p s' n').
Proof.
  intros Hr Hsz Hk. destruct (request_spec bCross sz Hsz) as (R1 & R2 & R3). unfold legal_size in Hsz.
  unfold _HeapAllocateAlign. fold (request bCross sz). set (st := request bCross sz) in *.
  assert (0 < 2 ^ k) by (apply Z.pow_pos_nonneg; lia). assert (2 ^ k <= 2 ^ 62) by (apply Z.pow_le_mono_r; lia).
  destruct (HEAP_stFreeByteSize h <? st) eqn:Hc; zbool.
  { exists h, HEAP_NULL. split; [done|]. left. splits; [done|done|]. intros b Hb Hf. pose proof (free_at_most _ _ _ Hr Hb Hf). lia. }
  cbn [Z.eqb negb]. rewrite (wrap_small 64 (2 ^ k - 1)) by lia.
  destruct (fit_spec h bs (fun x => st +64 (align_in x (2 ^ k - 1)).2) Hr) as (r & -> & Hf). cbn [mbind option_bind].
  assert (Hst : st <= 2 ^ 63).
  { rewrite (hr_free _ _ Hr) in Hc. pose proof (hr_bound _ _ Hr) as Hb. unfold HEAP_TOP in Hb.
    destruct (sumz_bound (fun b => if b_free b then b_size b else 0) bs (hr_ok _ _ Hr)) as [_ Hx];
      [intros b (? & ? & _); destruct (b_free b); lia|]. unfold free_of in Hc. lia. }
  destruct r as [s|].
  2: { exists h, HEAP_NULL. split; [done|]. left. splits; [done|done|]. intros b Hb Hfb. specialize (Hf b Hb Hfb).
    pose proof (rep_block _ _ _ Hr Hb) as (B1 & B2 & B3 & B4 & _). unfold b_end, HEAP_TOP in B3.
    pose proof (align_in_spec (b_at b) k) as Ha. destruct (align_in (b_at b) (2 ^ k - 1)) as [p d].
    destruct Ha as (_ & Hd & _); [done|lia|done|done|]. cbn in Hf. rewrite wrap_small in Hf; lia. }
  destruct Hf as (l1 & n & l2 & -> & Hn). pose proof (one_bounds _ _ _ _ _ _ Hr) as (B1 & B2 & B3 & B4 & B5).
  pose proof (align_in_spec s k) as Ha. destruct (align_in s (2 ^ k - 1)) as [p d] eqn:Ep. cbn [snd] in Hn.
  destruct Ha as (-> & Hd1 & Hd2 & Hal); [done|lia|done|done|]. rewrite wrap_small in Hn by lia.
  rewrite (one_size _ _ _ _ _ _ Hr). cbn [mbind option_bind].
  unfold __SEGMENT_BLOCK_SIZE_ALIGN, LW_CFG_HEAP_SEG_MIN_SIZE. change (48 + 16) with 64.
  destruct (64 <=? d) eqn:H64; zbool.
  - destruct (align_split_spec h l1 s n l2 bCross st d Hr) as (h' & E & s' & n' & Ha); try done; try (intros Ec; specialize (R3 Ec)); try lia.
    exists h', (s + 48 + d). split; [exact E|]. right. by exists l1, s, n, l2, d, s', n'.
  - destruct (align_here_spec h l1 s n l2 bCross st d Hr) as (h' & E & s' & n' & Ha); try done; try (intros Ec; specialize (R3 Ec)); try lia.
    exists h', (s + 48 + d). split; [exact E|]. right. by exists l1, s, n, l2, d, s', n'.
Qed.
