(* ===== verification/HeapLife.v ===== *)
(** * The life of a heap

    What an operation of the heap leaves alone, reallocation, and runs: whatever the
    order of requests and releases, the heap stays consistent, live pointers have
    memory of their own, and releasing everything gives the first block back. *)

From S2P Require Import Prelude Lists Heap HeapSpec.

(** ** What an operation leaves alone *)

(** Used blocks other than the one at [s] keep their place, their size and their words. *)
Definition heap_frame (h : HEAP) (bs : list BLOCK) (h' : HEAP) (bs' : list BLOCK) (s : Z) : Prop :=
  forall b, b ∈ bs -> b_free b = false -> b_at b <> s -> b ∈ bs' /\
    forall a, b_at b + 48 <= a < b_end b -> HEAP_words h' !! a = HEAP_words h !! a.

Lemma heap_frame_trans h1 bs1 h2 bs2 h3 bs3 s : heap_frame h1 bs1 h2 bs2 s -> heap_frame h2 bs2 h3 bs3 s -> heap_frame h1 bs1 h3 bs3 s.
Proof.
  intros H1 H2 b Hb Hf Hs. destruct (H1 b Hb Hf Hs) as [Hb2 Hw2]. destruct (H2 b Hb2 Hf Hs) as [Hb3 Hw3].
  split; [done|]. intros a Ha. by rewrite Hw3, Hw2.
Qed.

Lemma owns_frame h bs h' bs' s p t : heap_rep h bs -> heap_frame h bs h' bs' s -> owns h bs p t -> t <> s -> owns h' bs' p t.
Proof.
  intros Hr Hf (n & Hb & Hp) Ht. destruct (Hf _ Hb) as [Hb' Hw]; [done|done|]. exists n. split; [done|].
  destruct Hp as [->|[Hp E]]; [by left|]. right. split; [done|]. rewrite Hw; [done|]. unfold b_end. cbn. lia.
Qed.

(** The used blocks of a list. *)
Definition used (bs : list BLOCK) : list Z := b_at <$> filter (fun b => b_free b = false) bs.

Lemma used_app l1 l2 : used (l1 ++ l2) = used l1 ++ used l2.
Proof. unfold used. by rewrite filter_app, fmap_app. Qed.

Lemma used_one b : used [b] = if b_free b then [] else [b_at b].
Proof. unfold used. rewrite filter_cons, filter_nil. by destruct (b_free b). Qed.

Lemma used_cons b l : used (b :: l) = (if b_free b then [] else [b_at b]) ++ used l.
Proof. change (b :: l) with ([b] ++ l). by rewrite used_app, used_one. Qed.

Lemma elem_of_used bs s : s ∈ used bs <-> exists n, mkB s n false ∈ bs.
Proof.
  unfold used. rewrite list_elem_of_fmap. setoid_rewrite list_elem_of_filter. split.
  - intros (b & -> & Hf & Hb). exists (b_size b). by destruct b; cbn in *; subst.
  - intros [n Hn]. by exists (mkB s n false).
Qed.

Lemma used_taken s n st : used (taken s n st) = [s].
Proof. unfold taken. by destruct (64 <? n - st). Qed.

(** Words change in the block at [s] only, and the others are still there. *)
Lemma heap_frame_words h bs h' bs' s n f : heap_rep h bs -> mkB s n f ∈ bs -> words_but s n h h' ->
  (forall b, b ∈ bs -> b_free b = false -> b_at b <> s -> b ∈ bs') -> heap_frame h bs h' bs' s.
Proof.
  intros Hr Hs Hw Hin b Hb Hf Hne. split; [by apply Hin|]. intros a Ha. apply Hw. intros Hx.
  destruct (all_apart_in _ _ _ (hr_apart _ _ Hr) Hb Hs) as [->|Hp]; [done|].
  unfold apart, b_end in *. cbn in *. lia.
Qed.

Lemma in_others l1 s n f l2 b : b ∈ l1 ++ [mkB s n f] ++ l2 -> b_at b <> s -> b ∈ l1 ++ l2.
Proof. rewrite !elem_of_app, list_elem_of_singleton. intros [?|[->|?]] ?; [by left|done|by right]. Qed.

Lemma used_aligned s n st d : exists t, used (aligned s n st d) = [t].
Proof.
  unfold aligned. destruct (64 <=? d); [|exists s; apply used_taken].
  exists (s + d). by rewrite used_cons, used_taken.
Qed.

Lemma heap_frame_replace h h' l1 s n f new l2 : heap_rep h (l1 ++ [mkB s n f] ++ l2) -> words_but s n h h' ->
  heap_frame h (l1 ++ [mkB s n f] ++ l2) h' (l1 ++ new ++ l2) s.
Proof.
  intros Hr Hw. eapply heap_frame_words; [done|apply one_in|done|]. intros b Hb _ Hs%(in_others _ _ _ _ _ _ Hb).
  rewrite !elem_of_app in *. tauto.
Qed.

Lemma grow_left_spec l1 b : let '(l1', b') := grow_left l1 b in
  (l1' = l1 /\ b' = b) \/
  exists x, l1 = l1' ++ [x] /\ b_free x = true /\ b_end x = b_at b /\ b' = mkB (b_at x) (b_size x + b_size b + 48) true.
Proof.
  unfold grow_left. destruct (reverse l1) as [|x r] eqn:E; [by left|].
  destruct (b_free x && (b_end x =? b_at b)) eqn:Hc; [|by left]. zbool. right. exists x. splits; [|done|done|done].
  rewrite <-(reverse_involutive l1), E. by rewrite reverse_cons.
Qed.

Lemma grow_right_spec b l2 : let '(b', l2') := grow_right b l2 in
  (l2' = l2 /\ b' = b) \/
  exists x, l2 = x :: l2' /\ b_free x = true /\ b_end b = b_at x /\ b' = mkB (b_at b) (b_size b + b_size x + 48) true.
Proof.
  unfold grow_right. destruct l2 as [|x r]; [by left|].
  destruct (b_free x && (b_end b =? b_at x)) eqn:Hc; [|by left]. zbool. right. by exists x.
Qed.

(** A released block takes free neighbours only. *)
Lemma freed_parts l1 b l2 : exists x1 x2 l1' l2' c, freed l1 b l2 = l1' ++ [c] ++ l2' /\ l1 = l1' ++ x1 /\ l2 = x2 ++ l2' /\
  used x1 = [] /\ used x2 = [] /\ b_free c = true.
Proof.
  unfold freed. pose proof (grow_left_spec l1 b) as H1. destruct (grow_left l1 b) as [l1' b'].
  pose proof (grow_right_spec b' l2) as H2. destruct (grow_right b' l2) as [b'' l2'].
  destruct H1 as [[-> ->]|(x & -> & Hx & _)], H2 as [[-> ->]|(y & -> & Hy & _)].
  - exists [], [], l1, l2. eexists. splits; [done|by rewrite app_nil_r|done|done|done|done].
  - exists [], [y], l1, l2'. eexists. splits; [done|by rewrite app_nil_r|done|done|by rewrite used_one, Hy|done].
  - exists [x], [], l1', l2. eexists. splits; [done|done|done|by rewrite used_one, Hx|done|done].
  - exists [x], [y], l1', l2'. eexists. splits; [done|done|done|by rewrite used_one, Hx|by rewrite used_one, Hy|done].
Qed.

Lemma used_freed l1 b l2 : used (freed l1 b l2) = used (l1 ++ l2).
Proof.
  destruct (freed_parts l1 b l2) as (x1 & x2 & l1' & l2' & c & -> & -> & -> & H1 & H2 & Hc).
  rewrite !used_app, used_one, Hc, H1, H2. by rewrite app_nil_r.
Qed.

Lemma in_freed l1 b l2 c : c ∈ l1 ++ l2 -> b_free c = false -> c ∈ freed l1 b l2.
Proof.
  destruct (freed_parts l1 b l2) as (x1 & x2 & l1' & l2' & y & -> & -> & -> & H1 & H2 & _). intros Hc Hf.
  assert (Hn : forall x, used x = [] -> c ∉ x).
  { intros x Hx Hin. assert (Hu : b_at c ∈ used x); [|rewrite Hx in Hu; by apply not_elem_of_nil in Hu].
    apply elem_of_used. exists (b_size c). by destruct c; cbn in *; subst. }
  specialize (Hn x1 H1) as N1. specialize (Hn x2 H2) as N2. rewrite !elem_of_app in *. tauto.
Qed.

Lemma heap_frame_freed h h' l1 s n l2 : HEAP_words h' = HEAP_words h ->
  heap_frame h (l1 ++ [mkB s n false] ++ l2) h' (freed l1 (mkB s n false) l2) s.
Proof.
  intros Hw b Hb Hf Hs%(in_others _ _ _ _ _ _ Hb). split; [by apply in_freed|intros; by rewrite Hw].
Qed.

(** ** Blocks that tile the memory *)

(** From [a] to [e] without a gap, and no two free blocks side by side. *)
Fixpoint tiles (a : Z) (bs : list BLOCK) (e : Z) : Prop :=
  match bs with [] => a = e | b :: bs => b_at b = a /\ tiles (b_end b) bs e end.
Fixpoint coal (p : bool) (bs : list BLOCK) : Prop :=
  match bs with [] => True | b :: bs => p && b_free b = false /\ coal (b_free b) bs end.
Definition tiled (a : Z) (bs : list BLOCK) (e : Z) : Prop := tiles a bs e /\ coal false bs.

Definition last_free (p : bool) (bs : list BLOCK) : bool := foldl (fun _ b => b_free b) p bs.

Lemma tiles_app a l1 l2 e : tiles a (l1 ++ l2) e <-> exists m, tiles a l1 m /\ tiles m l2 e.
Proof.
  revert a. induction l1 as [|b l1 IH]; intros a; cbn [tiles app]; [naive_solver|]. rewrite IH. naive_solver.
Qed.

Lemma coal_app p l1 l2 : coal p (l1 ++ l2) <-> coal p l1 /\ coal (last_free p l1) l2.
Proof.
  revert p. induction l1 as [|b l1 IH]; intros p; cbn [coal app last_free foldl]; [tauto|].
  rewrite IH. unfold last_free. tauto.
Qed.

Lemma coal_any p l : coal p l -> coal false l.
Proof. destruct l; cbn [coal]; [done|]. tauto. Qed.

Lemma last_free_snoc p l b : last_free p (l ++ [b]) = b_free b.
Proof. unfold last_free. by rewrite foldl_app. Qed.

(** One block is replaced by blocks that tile it. *)
Lemma tiled_replace a l1 b new l2 e : tiled a (l1 ++ [b] ++ l2) e ->
  (forall m m', tiles m [b] m' -> tiles m new m') ->
  (forall p, p && b_free b = false -> coal p new) ->
  (forall p, last_free p new = true -> b_free b = true) ->
  tiled a (l1 ++ new ++ l2) e.
Proof.
  intros [(m & H1 & (m' & H2 & H3)%tiles_app)%tiles_app Hc] Ht Hn Hl. split.
  - apply tiles_app. exists m. split; [done|]. apply tiles_app. exists m'. auto.
  - rewrite !coal_app in *. destruct Hc as (C1 & [C2 _] & C3). splits; [done|by apply Hn|].
    destruct (last_free _ new) eqn:E; [|by eapply coal_any]. specialize (Hl _ E). cbn in C3. by rewrite Hl in C3.
Qed.

Lemma tiled_taken a l1 s n st l2 e : tiled a (l1 ++ [mkB s n true] ++ l2) e ->
  tiled a (l1 ++ taken s n st ++ l2) e.
Proof.
  intros H. apply (tiled_replace _ _ _ _ _ _ H); unfold taken, b_end; destruct (64 <? n - st); cbn; try done; try tauto.
  - unfold b_end. cbn. intros m m' [-> Hm]. splits; lia.
  - intros p. by destruct p.
  - intros p. by destruct p.
Qed.

Lemma tiled_aligned a l1 s n st d l2 e : tiled a (l1 ++ [mkB s n true] ++ l2) e ->
  tiled a (l1 ++ aligned s n st d ++ l2) e.
Proof.
  intros H. unfold aligned. destruct (64 <=? d); [|by apply tiled_taken].
  apply (tiled_replace _ _ _ _ _ _ H); unfold taken, b_end; destruct (64 <? n - d - st); cbn; try done; try tauto.
  - unfold b_end. cbn. intros m m' [-> Hm]. splits; lia.
  - unfold b_end. cbn. intros m m' [-> Hm]. splits; lia.
Qed.

Lemma grow_left_tiled a l1 b m : tiles a (l1 ++ [b]) m -> coal false l1 ->
  let '(l1', b') := grow_left l1 b in tiles a (l1' ++ [b']) m /\ coal false l1' /\ last_free false l1' = false.
Proof.
  intros Ht Hc. unfold grow_left. destruct l1 as [|x l _] using rev_ind; [done|]. rewrite reverse_snoc.
  apply coal_app in Hc as [Hc [Hx _]]. apply tiles_app in Ht as (m1 & (m2 & H1 & [E1 E2])%tiles_app & [E3 E4]). cbn in E2, E4.
  rewrite E3, <-E2, Z.eqb_refl, andb_true_r. destruct (b_free x) eqn:Hf.
  - rewrite reverse_involutive. rewrite andb_true_r in Hx. splits; [|done|done]. apply tiles_app. exists m2. split; [done|].
    unfold b_end in *. cbn. unfold b_end. cbn. lia.
  - splits; [|apply coal_app; split; [done|cbn; by rewrite Hf, andb_comm]|by rewrite last_free_snoc].
    apply tiles_app. exists m1. split; [apply tiles_app; exists m2; by splits|]. by splits.
Qed.

Lemma grow_right_tiled b l2 m e : tiles m (b :: l2) e -> coal false l2 ->
  let '(b', l2') := grow_right b l2 in tiles m (mkB (b_at b') (b_size b') true :: l2') e /\ coal true l2'.
Proof.
  intros [<- Ht] Hc. unfold grow_right. destruct l2 as [|x l]; [by splits|].
  destruct Ht as [E Ht]. rewrite E, Z.eqb_refl, andb_true_r. cbn [coal] in Hc. destruct (b_free x) eqn:Hf.
  - cbn in *. splits; [done| |tauto]. unfold b_end in *. cbn. replace (b_at b + 48 + (b_size b + b_size x + 48)) with (b_at x + 48 + b_size x) by lia. done.
  - cbn [tiles coal b_at b_size]. rewrite Hf. splits; try done; tauto.
Qed.

Lemma tiled_freed a l1 b l2 e : tiles a (l1 ++ [b] ++ l2) e -> coal false l1 -> coal false l2 ->
  tiled a (freed l1 b l2) e.
Proof.
  rewrite app_assoc. intros (m & H1 & H2)%tiles_app C1 C2. unfold freed.
  pose proof (grow_left_tiled _ _ _ _ H1 C1) as Hl. destruct (grow_left l1 b) as [l1' b']. destruct Hl as (T1 & Cl & Hlast).
  apply tiles_app in T1 as (m' & T1 & T2). assert (T3 : tiles m' (b' :: l2) e).
  { apply (tiles_app m' [b'] l2 e). by exists m. }
  pose proof (grow_right_tiled _ _ _ _ T3 C2) as Hr. destruct (grow_right b' l2) as [b2 l2']. destruct Hr as [T4 Cr].
  split; [apply tiles_app; by exists m'|]. apply coal_app. split; [done|]. rewrite Hlast. cbn. by splits.
Qed.

Lemma coal_split p l1 b l2 : coal p (l1 ++ [b] ++ l2) -> coal p l1 /\ coal false l2.
Proof. rewrite !coal_app. intros (H1 & _ & H2). split; [done|]. by eapply coal_any. Qed.

(** ** Reallocation *)

(** A used block of [n] bytes of which [st] are still needed. *)
Definition resized (l1 : list BLOCK) (s n st : Z) (l2 : list BLOCK) : list BLOCK :=
  if n - st <? 64 then l1 ++ [mkB s n false] ++ l2
  else freed (l1 ++ [mkB s st false]) (mkB (s + 48 + st) (n - st - 48) false) l2.

Lemma tiled_resized a l1 s n st l2 e : tiled a (l1 ++ [mkB s n false] ++ l2) e -> tiled a (resized l1 s n st l2) e.
Proof.
  intros H. unfold resized. destruct (n - st <? 64) eqn:Hc; [done|]. destruct H as [Ht [C1 C2]%coal_split].
  apply tiled_freed; [|apply coal_app; split; [done|cbn [coal b_free]; by rewrite andb_comm]|done].
  rewrite <-app_assoc. apply tiles_app in Ht as (m & H1 & [E H2]). apply tiles_app. exists m. split; [done|].
  cbn in E. subst m. cbn. splits; [done|done|]. unfold b_end in *. cbn in *. by replace (s + 48 + st + 48 + (n - st - 48)) with (s + 48 + n) by lia.
Qed.

Lemma tiled_join a l1 s n r l2 e : tiled a (l1 ++ [mkB s n false; mkB (s + 48 + n) r true] ++ l2) e ->
  tiled a (l1 ++ [mkB s (n + r + 48) false] ++ l2) e.
Proof.
  intros [(m & H1 & (m' & H2 & H3)%tiles_app)%tiles_app Hc]. split.
  - apply tiles_app. exists m. split; [done|]. apply tiles_app. exists m'. split; [|done]. unfold b_end in *. cbn in *. unfold b_end in *. cbn in *. lia.
  - rewrite !coal_app in *. destruct Hc as (C1 & C2 & C3). splits; [done|cbn [coal b_free]; by rewrite andb_comm|by eapply coal_any].
Qed.

Lemma used_resized l1 s n st l2 : used (resized l1 s n st l2) = used (l1 ++ [mkB s n false] ++ l2).
Proof. unfold resized. destruct (n - st <? 64); [done|]. rewrite used_freed, !used_app. by rewrite <-app_assoc. Qed.

Lemma in_resized l1 s n st l2 : exists n', mkB s n' false ∈ resized l1 s n st l2 /\ n' = (if n - st <? 64 then n else st).
Proof.
  unfold resized. eexists. split; [|reflexivity]. destruct (n - st <? 64); [rewrite !elem_of_app; right; left; left|].
  apply in_freed; [|done]. rewrite !elem_of_app. left. right. left.
Qed.

Definition mark_room (bCross : bool) : Z := if bCross then 8 else 0.

(** The first [m] bytes of the block are what they were. *)
Definition data_kept (s m : Z) (h h' : HEAP) : Prop :=
  forall a, s + 48 <= a < s + 48 + m -> HEAP_words h' !! a = HEAP_words h !! a.

Lemma realloc_split_spec h l1 s n l2 bCross st : let bs := l1 ++ [mkB s n false] ++ l2 in
  heap_rep h bs -> 0 <= st <= n -> st mod 16 = 0 -> mark_room bCross <= st ->
  let bs' := resized l1 s n st l2 in
  exists h', realloc_split h bCross s st 0 = Some h' /\ heap_rep h' bs' /\
    heap_frame h bs h' bs' s /\ data_kept s (st - mark_room bCross) h h'.
Proof.
  intros bs Hr Hst Hm Hx bs'. unfold realloc_split. pose proof (one_bounds _ _ _ _ _ _ Hr) as (B1 & B2 & B3 & B4 & B5).
  rewrite (one_size _ _ _ _ _ _ Hr). cbn [mbind option_bind].
  unfold __SEGMENT_BLOCK_SIZE_ALIGN, LW_CFG_HEAP_SEG_MIN_SIZE. rewrite (wrap_small 64 (n - st)) by lia. change (48 + 16) with 64.
  destruct (in_resized l1 s n st l2) as (n' & Hin & En). fold bs' in Hin.
  unfold bs', resized in *. destruct (n - st <? 64) eqn:Hc; zbool.
  - subst n'. destruct (mark_spec (__HEAP_UPDATA_MAX_USED h) bs bCross s n (rep_max _ _ Hr) Hin) as (h1 & -> & Hr1 & Hw1).
    { intros ->. cbn in Hx. lia. }
    exists h1. splits; [done|done| |].
    + eapply heap_frame_words; [done|exact Hin| |done]. intros a Ha. apply Hw1. intros ->. cbn in Hx. lia.
    + intros a Ha. apply Hw1. intros ->. cbn in Ha. lia.
  - subst n'. set (x := s + 48 + st). cbn zeta. unfold new_segment, __HEAP_SEGMENT_DATA_PTR, __SEGMENT_BLOCK_SIZE_ALIGN, SEGMENT_stMagic_offset.
    rewrite (wrap_small 64 (s + 48)), (wrap_small 64 (s + 48 + st)), (wrap_small 64 (n - st - 48)), (wrap_small 64 (s + 48 + st + 40)) by lia.
    fold x. rewrite (wrap_small 64 (x + 48)) by lia.
    set (h1 := account 1 0 0 _).
    assert (Hr1 : heap_rep h1 (l1 ++ [mkB s st false; mkB x (n - st - 48) false] ++ l2)).
    { apply (rep_split _ _ _ _ _ _ Hr); try done; try lia.
      rewrite (remove_node_notin s); [done|]. by intros ?%(rep_free _ _ _ _ _ Hr (one_in _ _ _ _ _)). }
    change ([mkB s st false; mkB x (n - st - 48) false] ++ l2) with ([mkB s st false] ++ [mkB x (n - st - 48) false] ++ l2) in Hr1.
    rewrite app_assoc in Hr1.
    destruct (mark_spec h1 _ bCross x (n - st - 48) Hr1 (one_in _ _ _ _ _)) as (h2 & -> & Hr2 & Hw2); [lia|]. cbn [mbind option_bind].
    destruct (free_spec _ _ _ _ _ (x + 48) Hr2) as (h3 & -> & Hr3 & Hw3).
    { exists (n - st - 48). split; [apply one_in|by left]. }
    cbn [mbind option_bind].
    destruct (mark_spec (__HEAP_UPDATA_MAX_USED h3) _ bCross s st (rep_max _ _ Hr3) Hin) as (h4 & -> & Hr4 & Hw4).
    { intros ->. cbn in Hx. lia. }
    exists h4. splits; [done|done| |].
    + eapply heap_frame_words; [done|apply one_in| |].
      * intros a Ha. rewrite Hw4 by (intros ->; cbn in Hx; lia). cbn. rewrite Hw3, Hw2 by lia. cbn. apply lookup_insert_ne. lia.
      * intros b Hb Hf Hs%(in_others _ _ _ _ _ _ Hb). apply in_freed; [|done]. rewrite !elem_of_app in *. tauto.
    + intros a Ha. rewrite Hw4 by (intros ->; cbn in Ha; lia). cbn. rewrite Hw3, Hw2 by (intros ->; cbn in Ha; lia).
      cbn. apply lookup_insert_ne. destruct bCross; cbn in *; lia.
Qed.

Lemma in_taken_others l1 s n new l2 b : b ∈ l1 ++ [mkB s n true] ++ l2 -> b_free b = false -> b ∈ l1 ++ new ++ l2.
Proof. rewrite !elem_of_app, list_elem_of_singleton. intros [?|[->|?]] ?; [by left|done|by right; right]. Qed.

Definition same_tiling (bs bs' : list BLOCK) : Prop := forall a e, tiled a bs e -> tiled a bs' e.

(** What a move to a larger block does: [None] for the copy when there is no block. *)
Definition moved_to (h : HEAP) (bs : list BLOCK) (s n st : Z) (h' : HEAP) (q : Z) (cp : option (Z * Z * Z)) : Prop :=
  (q = HEAP_NULL /\ cp = None /\ heap_rep h' bs /\ HEAP_words h' = HEAP_words h) \/
  exists bs' t n', q = t + 48 /\ cp = Some (q, s + 48, wrap 32 n) /\ heap_rep h' bs' /\ mkB t n' false ∈ bs' /\ st <= n' /\
    heap_frame h bs h' bs' s /\ data_kept s n h h' /\ s :: used bs' ≡ₚ t :: used bs /\ same_tiling bs bs'.

Lemma realloc_move_spec h bs s n bCross st : heap_rep h bs -> mkB s n false ∈ bs -> legal_size st ->
  exists h' q cp, realloc_move h bCross s st 0 = Some (h', q, cp) /\ moved_to h bs s n st h' q cp.
Proof.
  intros Hr Hb Hl. unfold realloc_move. destruct (request_spec bCross st Hl) as (R1 & _).
  destruct (allocate_spec h bs bCross st Hr Hl) as (h1 & q & -> & Hq). cbn [mbind option_bind].
  destruct Hq as [(-> & -> & _)|(l1 & t & m & l2 & -> & Hm & -> & Hr1 & Hw1)].
  { exists (__HEAP_UPDATA_MAX_USED h), HEAP_NULL, None. split; [done|]. left. splits; [done|done|by apply rep_max|done]. }
  pose proof (one_bounds _ _ _ _ _ _ Hr) as (B1 & B2 & B3 & _). unfold HEAP_NULL. rewrite (proj2 (Z.eqb_neq (t + 48) 0)) by lia. cbn [negb].
  assert (Hne : s <> t).
  { intros ->. assert (E : mkB t n false = mkB t m true); [|done].
    by eapply at_unique; [apply (hr_ok _ _ Hr)|apply (hr_apart _ _ Hr)|done|apply one_in|]. }
  set (bs1 := l1 ++ taken t m (request bCross st) ++ l2) in *.
  assert (Hb1 : mkB s n false ∈ bs1) by (by apply (in_taken_others _ _ _ _ _ _ Hb)).
  rewrite (rep_size _ _ _ _ _ Hr1 Hb1). cbn [mbind option_bind].
  pose proof (rep_block _ _ _ Hr Hb) as (C1 & C2 & C3 & _). unfold b_end, HEAP_TOP in C3. cbn in C1, C2, C3.
  unfold __HEAP_SEGMENT_DATA_PTR, __SEGMENT_BLOCK_SIZE_ALIGN. rewrite (wrap_small 64 (s + 48)) by lia.
  assert (Hf1 : heap_frame h (l1 ++ [mkB t m true] ++ l2) h1 bs1 t) by (by apply heap_frame_replace).
  assert (Hsp : exists k1 k2, bs1 = k1 ++ [mkB s n false] ++ k2) by (apply list_elem_of_split in Hb1 as (k1 & k2 & ->); by exists k1, k2).
  destruct Hsp as (k1 & k2 & Ek). rewrite Ek in *.
  destruct (free_spec h1 k1 s n k2 (s + 48) Hr1) as (h2 & -> & Hr2 & Hw2); [exists n; split; [apply one_in|by left]|].
  cbn [mbind option_bind].
  destruct (taken_in t m (request bCross st)) as (n' & Hin & En').
  assert (Ht : mkB t n' false ∈ k1 ++ k2).
  { apply (in_others k1 s n false k2); [|done]. rewrite <-Ek. unfold bs1. rewrite !elem_of_app. tauto. }
  eexists _, _, _. split; [reflexivity|]. right. exists (freed k1 (mkB s n false) k2), t, n'.
  splits; [done|done|by apply rep_max|by apply in_freed| | | | |].
  - unfold taken_size in En'. destruct (64 <? m - request bCross st); lia.
  - intros b Hbb Hf Hs. destruct (Hf1 b Hbb Hf) as [Hin1 Hww]; [|split].
    + intros E. assert (Hx : b = mkB t m true); [|by subst b].
      by eapply at_unique; [apply (hr_ok _ _ Hr)|apply (hr_apart _ _ Hr)|done|apply one_in|].
    + apply in_freed; [|done]. by apply (in_others _ _ _ _ _ _ Hin1).
    + intros a Ha. cbn. rewrite Hw2. by apply Hww.
  - intros a Ha. cbn. rewrite Hw2. apply (Hf1 _ Hb); [done|done|]. unfold b_end. cbn. lia.
  - rewrite used_freed. transitivity (used bs1).
    + rewrite Ek, !used_app. cbn. by rewrite Permutation_middle.
    + unfold bs1. rewrite !used_app, used_taken, used_one. cbn. by rewrite Permutation_middle.
  - intros a e Ht1. apply (tiled_taken _ _ _ _ (request bCross st)) in Ht1. fold bs1 in Ht1. rewrite Ek in Ht1.
    destruct Ht1 as [T [C4 C5]%coal_split]. by apply tiled_freed.
Qed.

(** What [_HeapRealloc] does with the pointer [p] of the block at [s]: it fails and
    changes nothing, resizes the block, or moves it. *)
Definition resized_to (h : HEAP) (bs : list BLOCK) (s m n : Z) (h' : HEAP) (q : Z) (cp : option (Z * Z * Z)) : Prop :=
  exists bs' n', q = s + 48 /\ cp = None /\ heap_rep h' bs' /\ mkB s n' false ∈ bs' /\ n <= n' /\
    heap_frame h bs h' bs' s /\ data_kept s m h h' /\ used bs' ≡ₚ used bs /\ same_tiling bs bs'.

Lemma realloc_split_to h l1 s n l2 bCross st : let bs := l1 ++ [mkB s n false] ++ l2 in
  heap_rep h bs -> 0 <= st <= n -> st mod 16 = 0 -> mark_room bCross <= st ->
  exists h', realloc_split h bCross s st 0 = Some h' /\ resized_to h bs s (st - mark_room bCross) st h' (s + 48) None.
Proof.
  intros bs Hr Hst Hm Hx. destruct (realloc_split_spec _ _ _ _ _ _ _ Hr Hst Hm Hx) as (h' & -> & Hr' & Hf & Hd).
  exists h'. split; [done|]. destruct (in_resized l1 s n st l2) as (n' & Hin & En').
  exists (resized l1 s n st l2), n'. splits; [done|done|done|done| |done|done|by rewrite used_resized|].
  - destruct (n - st <? 64); lia.
  - intros a e Ht. by apply tiled_resized.
Qed.

(** The right neighbour is taken in. *)
Lemma realloc_grow h l1 s n r l2 bCross st : let bs := l1 ++ [mkB s n false; mkB (s + 48 + n) r true] ++ l2 in
  heap_rep h bs -> n <= st <= n + r + 48 -> st mod 16 = 0 -> mark_room bCross <= st ->
  exists h', realloc_split (account (-1) r (- r) (set_size s (n +64 (r +64 48)) (line_del (s + 48 + n) (ring_del (s + 48 + n) h)))) bCross s st 0 = Some h' /\
    resized_to h bs s (Z.min n (st - mark_room bCross)) st h' (s + 48) None.
Proof.
  intros bs Hr Hst Hm Hx.
  assert (Hin : mkB s n false ∈ bs) by (unfold bs; rewrite !elem_of_app; right; left; left).
  assert (Hin' : mkB (s + 48 + n) r true ∈ bs) by (unfold bs; rewrite !elem_of_app; right; left; right; left).
  pose proof (rep_block _ _ _ Hr Hin) as (B1 & B2 & B3 & _). pose proof (rep_block _ _ _ Hr Hin') as (C1 & C2 & C3 & _).
  unfold b_end, HEAP_TOP in *. cbn in B1, B2, B3, C1, C2, C3. rewrite (wrap_small 64 (r + 48)), (wrap_small 64 (n + (r + 48))) by lia.
  set (h1 := account (-1) r (- r) _).
  assert (Hr1 : heap_rep h1 (l1 ++ [mkB s (n + r + 48) false] ++ l2)).
  { apply (rep_join _ _ _ _ _ _ _ _ Hr); try done; [| |moved].
    - cbn. f_equal. lia.
    - cbn. rewrite (remove_node_notin s); [done|]. rewrite elem_of_remove_node by apply (hr_ring_nodup _ _ Hr).
      intros [Hs _]. by apply (rep_free _ _ _ _ _ Hr Hin) in Hs. }
  destruct (realloc_split_to _ _ _ _ _ bCross st Hr1) as (h' & -> & bs' & n' & ? & ? & Hr' & Hin1 & Hn' & Hf & Hd & Hu & Ht); [lia|done|done|].
  exists h'. split; [done|]. exists bs', n'. splits; [done|done|done|done|done| | | |].
  - intros b Hb Hbf Hs. assert (Hb1 : b ∈ l1 ++ [mkB s (n + r + 48) false] ++ l2).
    { unfold bs in Hb. rewrite !elem_of_app, elem_of_cons, list_elem_of_singleton in Hb. rewrite !elem_of_app.
      destruct Hb as [?|[[->| ->]|?]]; [by left|done|done|by right; right]. }
    destruct (Hf b Hb1 Hbf Hs) as [? Hw]. split; [done|]. intros a Ha. by rewrite Hw.
  - intros a Ha. rewrite Hd by lia. done.
  - rewrite Hu. unfold bs. by rewrite !used_app.
  - intros a e Hte. by apply Ht, tiled_join.
Qed.

(** A larger size: the right neighbour is taken in, or the block moves. *)
Lemma realloc_larger_spec h l1 s n l2 bCross st m : let bs := l1 ++ [mkB s n false] ++ l2 in
  heap_rep h bs -> n < st -> legal_size st -> st mod 16 = 0 -> mark_room bCross <= st -> m <= st - mark_room bCross ->
  exists h' q cp, realloc_larger h bCross (s + 48) s n st 0 = Some (h', q, cp) /\
    (resized_to h bs s (Z.min n m) st h' q cp \/ moved_to h bs s n st h' q cp).
Proof.
  cbn zeta. intros Hr Hlt Hl R2 Hx1 Hx2. unfold realloc_larger, __SEGMENT_BLOCK_SIZE_ALIGN.
  pose proof (one_bounds _ _ _ _ _ _ Hr) as (B1 & B2 & B3 & B4 & B5). unfold legal_size, ULONG_MAX in Hl.
  assert (Hmove : exists h' q cp, realloc_move h bCross s st 0 = Some (h', q, cp) /\ moved_to h (l1 ++ [mkB s n false] ++ l2) s n st h' q cp).
  { apply realloc_move_spec; [done|apply one_in|unfold legal_size, ULONG_MAX; lia]. }
  rewrite (one_line _ _ _ _ _ _ Hr), list_next_mid by apply (one_notin_l _ _ _ _ _ _ Hr).
  destruct l2 as [|x l2]; cbn [fmap list_fmap head].
  { destruct Hmove as (h' & q & cp & -> & Hq). eexists _, _, _. split; [reflexivity|]. auto. }
  assert (Hx : x ∈ l1 ++ [mkB s n false] ++ x :: l2) by (rewrite !elem_of_app; right; right; left).
  pose proof (next_ptr_spec _ _ _ Hr (one_in _ _ _ _ _)) as En. cbn [b_at] in En. rewrite En. cbn [mbind option_bind].
  rewrite (rep_size _ _ (b_at x) (b_size x) (b_free x) Hr) by (by destruct x). cbn [mbind option_bind].
  rewrite (rep_used h _ (b_at x) (b_size x) (b_free x) Hr), negb_involutive by (by destruct x).
  pose proof (rep_block _ _ _ Hr Hx) as (C1 & C2 & C3 & _). unfold b_end, HEAP_TOP in C3.
  rewrite (wrap_small 64 (b_size x + 48)) by lia. rewrite (wrap_small 64 (st - n)) by lia.
  destruct (b_free x && (b_end (mkB s n false) =? b_at x) && (st - n <=? b_size x + 48)) eqn:Hc; zbool.
  - destruct x as [c r f]. cbn [b_at b_free b_size] in *. subst f. unfold b_end in *. cbn [b_at b_size] in *. subst c.
    change (?a ++ [?b] ++ ?c :: ?d) with (a ++ [b; c] ++ d) in *.
    destruct (realloc_grow _ _ _ _ _ _ bCross st Hr) as (h' & E & bs' & n' & Hq); [lia|done|lia|].
    rewrite (wrap_small 64 (r + 48)) in E by lia. rewrite E. cbn [mbind option_bind].
    exists h', (s + 48), None. split; [done|]. left. exists bs', n'.
    destruct Hq as (? & ? & ? & ? & ? & ? & Hd & ? & ?). splits; try done. intros a Ha. apply Hd. lia.
  - destruct Hmove as (h' & q & cp & -> & Hq). eexists _, _, _. split; [reflexivity|]. auto.
Qed.

(** *** Reallocation *)
Lemma realloc_spec h bs bCross sz p s n : heap_rep h bs -> mkB s n false ∈ bs -> owns h bs p s -> 0 < sz <= ULONG_MAX - 46 ->
  exists h' q cp, _HeapRealloc h bCross p sz false 0 = Some (h', q, cp) /\
    (p <> s + 48 /\ q = HEAP_NULL /\ h' = h /\ cp = None \/
     p = s + 48 /\ (resized_to h bs s (Z.min n sz) (request bCross sz) h' q cp \/ moved_to h bs s n (request bCross sz) h' q cp)).
Proof.
  intros Hr Hb Ho Hsz. unfold ULONG_MAX in Hsz.
  assert (Hl : legal_size sz) by (unfold legal_size, ULONG_MAX; lia).
  destruct (request_spec bCross sz Hl) as (R1 & R2 & R3). set (st := request bCross sz) in *.
  assert (Hroom : mark_room bCross <= st /\ sz <= st - mark_room bCross).
  { unfold mark_room. destruct bCross; [specialize (R3 eq_refl)|]; lia. }
  pose proof (rep_block _ _ _ Hr Hb) as (B1 & B2 & B3 & _). unfold b_end, HEAP_TOP in B3. cbn in B1, B2, B3.
  unfold _HeapRealloc. rewrite (proj2 (Z.eqb_neq sz 0)) by lia.
  assert (Hp : 0 < p).
  { destruct Ho as (m & Hm & Hp). lia. }
  unfold HEAP_NULL at 1. rewrite (proj2 (Z.eqb_neq p 0)) by lia. fold (request bCross sz). fold st.
  cbn [Z.eqb negb]. unfold find_segment. rewrite (segment_of_spec _ _ _ _ Hr Ho). cbn [mbind option_bind].
  rewrite (rep_size _ _ _ _ _ Hr Hb). cbn [mbind option_bind].
  unfold __HEAP_SEGMENT_DATA_PTR, __SEGMENT_BLOCK_SIZE_ALIGN. rewrite (wrap_small 64 (s + 48)) by lia.
  destruct (p =? s + 48) eqn:Ep; zbool; cbn [negb].
  2: { exists h, HEAP_NULL, None. split; [done|]. by left. }
  subst p. apply list_elem_of_split in Hb as (l1 & l2 & ->). change (mkB s n false :: l2) with ([mkB s n false] ++ l2) in *.
  destruct (st =? n) eqn:Es; zbool.
  { exists h, (s + 48), None. split; [done|]. right. split; [done|]. left. exists (l1 ++ [mkB s n false] ++ l2), n.
    splits; [done|done|done|apply one_in|lia|by intros b|done|done|by intros ? ?]. }
  destruct (n <? st) eqn:Hlt; zbool.
  - destruct (realloc_larger_spec h l1 s n l2 bCross st sz Hr) as (h' & q & cp & E & Hq); try done; [unfold legal_size, ULONG_MAX; lia|lia|lia|].
    exists h', q, cp. split; [exact E|]. by right.
  - destruct (realloc_split_to _ _ _ _ _ bCross st Hr) as (h' & -> & bs' & n' & Hq); [lia|done|lia|]. cbn [mbind option_bind].
    exists h', (s + 48), None. split; [done|]. right. split; [done|]. left. exists bs', n'.
    destruct Hq as (? & ? & ? & ? & ? & ? & Hd & ? & ?). splits; try done. intros a Ha. apply Hd. lia.
Qed.
