(* ===== verification/HeapRun.v ===== *)
(** * Runs of a heap

    Requests, releases, reallocations and writes of the program in any order: the
    heap never reads a header that is not there, the live pointers own the used blocks
    one to one, and a heap nobody uses is one free block again. *)

From S2P Require Import Prelude Lists Heap HeapSpec HeapLife.

(** ** Operations *)

(** The program holds the pointers of a list; it names one by its index. *)
Inductive HOP :=
  | OpAlloc (sz : Z)
  | OpAlign (sz k : Z)
  | OpFree (i : nat)
  | OpRealloc (i : nat) (sz : Z)
  | OpWrite (i : nat) (a v : Z).

Definition held (p : Z) (live : list Z) : list Z := if p =? HEAP_NULL then live else p :: live.

Definition heap_op (bCross : bool) (st : HEAP * list Z) (o : HOP) : option (HEAP * list Z) :=
  let (h, live) := st in
  match o with
  | OpAlloc sz => '(h, p) ← _HeapAllocate h bCross sz 0; Some (h, held p live)
  | OpAlign sz k => '(h, p) ← _HeapAllocateAlign h bCross sz (2 ^ k) 0; Some (h, held p live)
  | OpFree i =>
    p ← live !! i;
    '(h, r) ← _HeapFree h p false 0; Some (h, if r =? HEAP_NULL then delete i live else live)
  | OpRealloc i sz =>
    p ← live !! i;
    '(h, q, _) ← _HeapRealloc h bCross p sz false 0;
    Some (h, if q =? HEAP_NULL then live else q :: delete i live)
  | OpWrite i a v => Some (set_word a v h, live)
  end.

Fixpoint heap_run (bCross : bool) (st : HEAP * list Z) (ops : list HOP) : option (HEAP * list Z) :=
  match ops with [] => Some st | o :: ops => st ← heap_op bCross st o; heap_run bCross st ops end.

(** Sizes that do not wrap, alignments up to [2 ^ 62], indices of held pointers,
    and writes from a held pointer on, up to the end of its block. *)
Definition legal_write (h : HEAP) (p x : Z) : bool :=
  match segment_of h p with
  | Some (Some s) => match SEGMENT_stByteSize h !! s with Some n => (p <=? x) && (x <? s + 48 + n) | None => false end
  | _ => false
  end.
Definition legal_op (st : HEAP * list Z) (o : HOP) : bool :=
  let (h, live) := st in
  match o with
  | OpAlloc sz => (0 <=? sz) && (sz <=? ULONG_MAX - 23)
  | OpAlign sz k => (0 <=? sz) && (sz <=? ULONG_MAX - 23) && (0 <=? k) && (k <=? 62)
  | OpFree i => bool_decide (is_Some (live !! i))
  | OpRealloc i sz => bool_decide (is_Some (live !! i)) && (0 <? sz) && (sz <=? ULONG_MAX - 46)
  | OpWrite i a v => match live !! i with Some p => legal_write h p a | None => false end
  end.
Fixpoint legal_run (bCross : bool) (st : HEAP * list Z) (ops : list HOP) : bool :=
  match ops with
  | [] => true
  | o :: ops => legal_op st o && match heap_op bCross st o with Some st' => legal_run bCross st' ops | None => true end
  end.

(** ** The invariant *)

(** The blocks tile the memory from [a] to [e], and the held pointers own the used
    ones, each its own. *)
Record heap_ok (a e : Z) (st : HEAP * list Z) (bs : list BLOCK) (segs : list Z) : Prop := {
  ok_rep : heap_rep st.1 bs;
  ok_tiled : tiled a bs e;
  ok_owns : Forall2 (owns st.1 bs) st.2 segs;
  ok_used : segs ≡ₚ used bs
}.

Lemma used_NoDup bs : Forall block_ok bs -> all_apart bs -> NoDup (used bs).
Proof.
  intros Hok Ha. unfold used. apply NoDup_fmap_2_strong.
  - intros b c [_ Hb]%list_elem_of_filter [_ Hc]%list_elem_of_filter E. by eapply at_unique.
  - apply NoDup_filter. induction bs as [|b bs IH]; constructor; [|apply IH; [by inversion Hok|apply Ha]].
    intros Hb. destruct Ha as [Ha _]. specialize (Ha b Hb). apply Forall_cons in Hok as [(? & ? & _) _].
    unfold apart, b_end in Ha. lia.
Qed.

Section Ok.
Context (a e : Z) (h : HEAP) (live : list Z) (bs : list BLOCK) (segs : list Z).
Context (Hok : heap_ok a e (h, live) bs segs).

Lemma segs_NoDup : NoDup segs.
Proof. rewrite (ok_used _ _ _ _ _ Hok). apply used_NoDup; [apply (hr_ok h)|apply (hr_apart h)]; apply Hok. Qed.

Lemma seg_used t : t ∈ segs -> exists n, mkB t n false ∈ bs.
Proof. rewrite (ok_used _ _ _ _ _ Hok). apply elem_of_used. Qed.

Lemma seg_not_free t s n : t ∈ segs -> mkB s n true ∈ bs -> t <> s.
Proof.
  intros [m Hm]%seg_used Hs ->. assert (E : mkB s m false = mkB s n true); [|done].
  eapply at_unique; [apply (hr_ok h); apply Hok|apply (hr_apart h); apply Hok|done..].
Qed.

(** A pointer of the list and its block. *)
Lemma held_owns i p : live !! i = Some p -> exists s n, segs !! i = Some s /\ owns h bs p s /\ mkB s n false ∈ bs.
Proof.
  intros Hp. destruct (Forall2_lookup_l _ _ _ _ _ (ok_owns _ _ _ _ _ Hok) Hp) as (s & Hs & Ho).
  destruct (seg_used s) as [n Hn]; [by eapply list_elem_of_lookup_2|]. by exists s, n.
Qed.

(** The pointers still own their blocks after a step that concerns [s] only. *)
Lemma owns_step h' bs' s live' segs' : heap_frame h bs h' bs' s -> s ∉ segs' -> Forall2 (owns h bs) live' segs' ->
  Forall2 (owns h' bs') live' segs'.
Proof.
  intros Hf Hs Ho. induction Ho as [|p t live' segs' Hp _ IH]; constructor.
  - eapply owns_frame; [apply Hok|done|done|]. intros ->. apply Hs. left.
  - apply IH. intros ?. apply Hs. by right.
Qed.

(** Nothing has changed but the words of the heap's own marks. *)
Lemma ok_same h' : heap_rep h' bs -> HEAP_words h' = HEAP_words h -> heap_ok a e (h', live) bs segs.
Proof.
  intros Hr Hw. destruct Hok as [H1 H2 H3 H4]. split; [done|done| |done]. cbn in *. eapply Forall2_impl; [exact H3|].
  intros p t (n & Hn & Hp). exists n. split; [done|]. by rewrite Hw.
Qed.

(** A block is taken: [p] is a new pointer, its block [t] comes from the free block [s]. *)
Lemma ok_taken h' l1 s n l2 new p t : bs = l1 ++ [mkB s n true] ++ l2 -> let bs' := l1 ++ new ++ l2 in
  heap_rep h' bs' -> words_but s n h h' -> tiled a bs' e -> owns h' bs' p t -> used new = [t] ->
  heap_ok a e (h', p :: live) bs' (t :: segs).
Proof.
  intros E bs' Hr Hw Ht Hp Hu. split; [done|done| |]; cbn.
  - constructor; [done|]. eapply owns_step; [|intros Hs|apply Hok].
    + rewrite E. apply (heap_frame_replace h h' l1 s n true new l2); [|done]. rewrite <-E. apply Hok.
    + eapply (seg_not_free s s n Hs); [|done]. rewrite E. apply one_in.
  - rewrite (ok_used _ _ _ _ _ Hok), E. unfold bs'. rewrite !used_app, Hu, used_one. cbn. by rewrite Permutation_middle.
Qed.
End Ok.

Lemma ok_alloc a e h live bs segs bCross sz : heap_ok a e (h, live) bs segs -> legal_size sz ->
  exists h' p bs' segs', _HeapAllocate h bCross sz 0 = Some (h', p) /\ heap_ok a e (h', held p live) bs' segs'.
Proof.
  intros Hok Hsz. destruct (allocate_spec h bs bCross sz (ok_rep _ _ _ _ _ Hok) Hsz) as (h' & p & -> & Hp).
  exists h', p. destruct Hp as [(-> & -> & _)|(l1 & s & n & l2 & E & Hn & -> & Hr & Hw)].
  { exists bs, segs. split; [done|exact Hok]. }
  assert (B1 : 0 < s) by (eapply (rep_block h bs (mkB s n true)); [apply Hok|rewrite E; apply one_in]).
  unfold held, HEAP_NULL. rewrite (proj2 (Z.eqb_neq (s + 48) 0)) by lia.
  exists (l1 ++ taken s n (request bCross sz) ++ l2), (s :: segs). split; [done|].
  eapply ok_taken; [done|exact E|done|done| | |apply used_taken].
  - apply tiled_taken. rewrite <-E. apply Hok.
  - destruct (taken_in s n (request bCross sz)) as (n' & Hin & _). exists n'. split; [|by left].
    rewrite !elem_of_app. tauto.
Qed.

Lemma ok_align a e h live bs segs bCross sz k : heap_ok a e (h, live) bs segs -> legal_size sz -> 0 <= k <= 62 ->
  exists h' p bs' segs', _HeapAllocateAlign h bCross sz (2 ^ k) 0 = Some (h', p) /\ heap_ok a e (h', held p live) bs' segs'.
Proof.
  intros Hok Hsz Hk. destruct (allocate_align_spec h bs bCross sz k (ok_rep _ _ _ _ _ Hok) Hsz Hk) as (h' & p & -> & Hp).
  exists h', p. destruct Hp as [(-> & -> & _)|(l1 & s & n & l2 & d & t & m & E & -> & _ & Hr & Hw & Ho & Hin & _)].
  { exists bs, segs. split; [done|exact Hok]. }
  assert (Hp : 0 < s + 48 + d).
  { destruct Ho as (m' & Hm & Hp). pose proof (rep_block _ _ _ Hr Hm) as (B1 & _). cbn in B1. lia. }
  unfold held, HEAP_NULL. rewrite (proj2 (Z.eqb_neq (s + 48 + d) 0)) by lia.
  eexists _, (t :: segs). split; [done|]. eapply ok_taken; [done|exact E|done|done| |done|].
  - apply tiled_aligned. rewrite <-E. apply Hok.
  - destruct (used_aligned s n (request bCross sz) d) as [x Hx]. rewrite Hx.
    assert (Ht : t ∈ used (aligned s n (request bCross sz) d)) by (apply elem_of_used; by exists m).
    rewrite Hx in Ht. by apply list_elem_of_singleton in Ht as ->.
Qed.

(** A pointer leaves the list. *)
Lemma segs_delete a e h live bs segs i s : heap_ok a e (h, live) bs segs -> segs !! i = Some s ->
  s ∉ delete i segs /\ used bs ≡ₚ s :: delete i segs.
Proof.
  intros Hok Hs. pose proof (delete_Permutation _ _ _ Hs) as Hp. split; [|by rewrite <-(ok_used _ _ _ _ _ Hok)].
  pose proof (segs_NoDup _ _ _ _ _ _ Hok) as Hn. rewrite Hp in Hn. by inversion Hn.
Qed.

Lemma ok_free a e h live bs segs i p : heap_ok a e (h, live) bs segs -> live !! i = Some p ->
  exists h' bs' segs', _HeapFree h p false 0 = Some (h', HEAP_NULL) /\ heap_ok a e (h', delete i live) bs' segs'.
Proof.
  intros Hok Hp. destruct (held_owns _ _ _ _ _ _ Hok _ _ Hp) as (s & n & Hs & Ho & Hb).
  destruct (segs_delete _ _ _ _ _ _ _ _ Hok Hs) as [Hn Hu].
  apply list_elem_of_split in Hb as (l1 & l2 & E). change (mkB s n false :: l2) with ([mkB s n false] ++ l2) in E.
  pose proof (ok_rep _ _ _ _ _ Hok) as Hr. pose proof (ok_tiled _ _ _ _ _ Hok) as Ht. cbn [fst] in Hr. rewrite E in Hr, Ht, Ho.
  destruct (free_spec _ _ _ _ _ _ Hr Ho) as (h' & -> & Hr' & Hw). destruct Ht as [T [C1 C2]%coal_split].
  exists h', (freed l1 (mkB s n false) l2), (delete i segs). split; [done|]. split; cbn.
  - exact Hr'.
  - by apply tiled_freed.
  - eapply owns_step; [exact Hok| |exact Hn|apply Forall2_delete, Hok]. rewrite E. by apply heap_frame_freed.
  - rewrite used_freed. apply (Permutation_cons_inv (a := s)). rewrite <-Hu, E, !used_app. cbn. by rewrite Permutation_middle.
Qed.

Lemma ok_realloc a e h live bs segs bCross i p sz : heap_ok a e (h, live) bs segs -> live !! i = Some p -> 0 < sz <= ULONG_MAX - 46 ->
  exists h' q cp bs' segs', _HeapRealloc h bCross p sz false 0 = Some (h', q, cp) /\
    heap_ok a e (h', if q =? HEAP_NULL then live else q :: delete i live) bs' segs'.
Proof.
  intros Hok Hp Hsz. destruct (held_owns _ _ _ _ _ _ Hok _ _ Hp) as (s & n & Hs & Ho & Hb).
  destruct (segs_delete _ _ _ _ _ _ _ _ Hok Hs) as [Hn Hu]. pose proof (ok_rep _ _ _ _ _ Hok) as Hr. cbn [fst] in Hr.
  destruct (realloc_spec h bs bCross sz p s n Hr Hb Ho Hsz) as (h' & q & cp & -> & Hq).
  assert (Hnew : forall bs' t n', heap_rep h' bs' -> mkB t n' false ∈ bs' -> heap_frame h bs h' bs' s ->
    s :: used bs' ≡ₚ t :: used bs -> same_tiling bs bs' -> q = t + 48 ->
    heap_ok a e (h', if q =? HEAP_NULL then live else q :: delete i live) bs' (t :: delete i segs)).
  { intros bs' t n' Hr' Hin Hf Hu' Ht ->. pose proof (rep_block _ _ _ Hr' Hin) as (B1 & _). cbn in B1.
    unfold HEAP_NULL. rewrite (proj2 (Z.eqb_neq (t + 48) 0)) by lia. split; cbn.
    - exact Hr'.
    - by apply Ht, Hok.
    - constructor; [exists n'; split; [done|by left]|]. eapply owns_step; [exact Hok|exact Hf|exact Hn|apply Forall2_delete, Hok].
    - apply (Permutation_cons_inv (a := s)). rewrite Hu', Hu. constructor. }
  destruct Hq as [(_ & -> & -> & ->)|[-> [(bs' & n' & ? & ? & ? & ? & ? & ? & ? & Hu' & ?)|[(-> & -> & Hr' & Hw)|(bs' & t & n' & ? & ? & ? & ? & ? & ? & ? & Hu' & ?)]]]].
  - by exists h, HEAP_NULL, None, bs, segs.
  - exists h', q, cp, bs', (s :: delete i segs). split; [done|]. eapply Hnew; try done. by rewrite Hu'.
  - exists h', HEAP_NULL, None, bs, segs. split; [done|]. by eapply ok_same.
  - exists h', q, cp, bs', (t :: delete i segs). split; [done|]. by eapply Hnew.
Qed.

Lemma ok_write a e h live bs segs x v p s n : heap_ok a e (h, live) bs segs -> p ∈ live ->
  segment_of h p = Some (Some s) -> SEGMENT_stByteSize h !! s = Some n -> p <= x < s + 48 + n ->
  heap_ok a e (set_word x v h, live) bs segs.
Proof.
  intros Hok [i Hp]%list_elem_of_lookup Hs Hn Hx. destruct (held_owns _ _ _ _ _ _ Hok _ _ Hp) as (t & m & Ht & Ho & Hb).
  pose proof (ok_rep _ _ _ _ _ Hok) as Hr. cbn [fst] in Hr. rewrite (segment_of_spec _ _ _ _ Hr Ho) in Hs. injection Hs as <-.
  rewrite (rep_size _ _ _ _ _ Hr Hb) in Hn. injection Hn as ->.
  pose proof (rep_block _ _ _ Hr Hb) as (B1 & B2 & B3 & _). cbn in B1, B2.
  assert (Hpt : t + 48 <= p) by (destruct Ho as (? & _ & [?|[? _]]); lia).
  split; cbn; [|apply Hok| |apply Hok].
  - eapply rep_word; [exact Hr|exact Hb|]. unfold b_end. cbn. lia.
  - pose proof (ok_owns _ _ _ _ _ Hok) as H2. cbn in H2. apply Forall2_same_length_lookup in H2 as [Hl H2].
    apply Forall2_same_length_lookup. split; [done|]. intros j q u Hq Hu. specialize (H2 j q u Hq Hu).
    destruct (decide (u = t)) as [->|Hne].
    + assert (i = j) as <- by (eapply NoDup_lookup; [by eapply segs_NoDup|done|done]).
      rewrite Hp in Hq. injection Hq as <-. destruct H2 as (m & Hm & Hpp). exists m. split; [done|].
      destruct Hpp as [?|[? Hww]]; [by left|]. right. split; [done|]. cbn. by rewrite lookup_insert_ne by lia.
    + eapply owns_frame; [exact Hr| |exact H2|exact Hne]. eapply heap_frame_words; [done|exact Hb| |done].
      intros y Hy. cbn. apply lookup_insert_ne. lia.
Qed.

Lemma heap_op_ok a e st bs segs bCross o : heap_ok a e st bs segs -> legal_op st o = true ->
  exists st' bs' segs', heap_op bCross st o = Some st' /\ heap_ok a e st' bs' segs'.
Proof.
  destruct st as [h live]. intros Hok Hl. destruct o as [sz|sz k|i|i sz|i x v]; cbn [heap_op legal_op] in *; zbool.
  - destruct (ok_alloc _ _ _ _ _ _ bCross sz Hok) as (h' & p & bs' & segs' & -> & Hok'); [by split|]. by exists (h', held p live), bs', segs'.
  - destruct (ok_align _ _ _ _ _ _ bCross sz k Hok) as (h' & p & bs' & segs' & -> & Hok'); [by split|done|].
    by exists (h', held p live), bs', segs'.
  - apply bool_decide_eq_true in Hl as [p Hp]. rewrite Hp. cbn [mbind option_bind].
    destruct (ok_free _ _ _ _ _ _ _ _ Hok Hp) as (h' & bs' & segs' & -> & Hok'). by exists (h', delete i live), bs', segs'.
  - match goal with H : bool_decide _ = true |- _ => apply bool_decide_eq_true in H as [p Hp] end.
    rewrite Hp. cbn [mbind option_bind].
    destruct (ok_realloc _ _ _ _ _ _ bCross _ _ sz Hok Hp) as (h' & q & cp & bs' & segs' & -> & Hok'); [done|]. by eexists _, bs', segs'.
  - destruct (live !! i) as [p|] eqn:Hp; [|done]. unfold legal_write in Hl.
    destruct (segment_of h p) as [[s|]|] eqn:Hs; [|done|done]. destruct (SEGMENT_stByteSize h !! s) as [n|] eqn:Hn; [|done]. zbool.
    exists (set_word x v h, live), bs, segs. split; [done|].
    eapply ok_write; [exact Hok|by eapply list_elem_of_lookup_2|exact Hs|exact Hn|done].
Qed.

Lemma heap_run_ok a e st bs segs bCross ops : heap_ok a e st bs segs -> legal_run bCross st ops = true ->
  exists st' bs' segs', heap_run bCross st ops = Some st' /\ heap_ok a e st' bs' segs'.
Proof.
  revert st bs segs. induction ops as [|o ops IH]; intros st bs segs Hok Hl; cbn [heap_run legal_run] in *; [by exists st, bs, segs|].
  zbool. destruct (heap_op_ok _ _ _ _ _ bCross o Hok) as (st' & bs' & segs' & E & Hok'); [done|].
  rewrite E in *. cbn [mbind option_bind]. by eapply IH.
Qed.

(** ** A new heap *)

(** The memory has room for a header after alignment, and is in the lower half. *)
Definition legal_memory (pv sz : Z) : Prop := 0 < pv /\ 79 <= sz /\ pv + sz <= HEAP_TOP.

Definition heap_start (pv : Z) : Z := ROUND_UP pv 4.
Definition heap_bytes (pv sz : Z) : Z := ROUND_DOWN (pv + sz - heap_start pv) 4.

Lemma heap_ctor_spec pv sz : legal_memory pv sz ->
  let a := heap_start pv in let n := heap_bytes pv sz in
  pv <= a < pv + 16 /\ sz - 31 < n <= pv + sz - a /\
  HEAP_stTotalByteSize (_HeapCtorEx pv sz) = n /\
  heap_rep (_HeapCtorEx pv sz) [mkB a (n - 48) true].
Proof.
  intros (H1 & H2 & H3). unfold HEAP_TOP in H3. cbn zeta.
  destruct (ROUND_UP_spec pv 4) as [Ha Ham]; [lia|lia|unfold ULONG_MAX; lia|].
  fold (heap_start pv) in Ha, Ham. change (2 ^ 4) with 16 in Ha, Ham.
  destruct (ROUND_DOWN_spec (pv + sz - heap_start pv) 4) as (Hn & Hn0 & Hnm); [lia|unfold ULONG_MAX; lia|].
  fold (heap_bytes pv sz) in Hn, Hn0, Hnm. change (2 ^ 4) with 16 in Hn, Hnm.
  unfold _HeapCtorEx, LW_CFG_HEAP_ALIGNMENT_SHIFT. fold (heap_start pv). set (a := heap_start pv) in *.
  assert (Esz : (if pv <? a then sz -64 (a -64 pv) else sz) = pv + sz - a).
  { destruct (pv <? a) eqn:Hc; zbool; [rewrite (wrap_small 64 (a - pv)), wrap_small; lia|lia]. }
  rewrite Esz. set (n := heap_bytes pv sz) in *. change (ROUND_DOWN (pv + sz - a) 4) with n.
  unfold __SEGMENT_BLOCK_SIZE_ALIGN, SEGMENT_stMagic_offset. rewrite (wrap_small 64 (n - 48)), (wrap_small 64 (a + 40)) by lia.
  splits; [lia|lia|lia|lia|done|]. split; cbn; try done.
  - intros s m. rewrite lookup_singleton_Some. setoid_rewrite list_elem_of_singleton. split.
    + intros [<- <-]. by exists true.
    + by intros [f [= -> -> _]].
  - intros s. rewrite list_elem_of_singleton. setoid_rewrite list_elem_of_singleton. split.
    + intros ->. by exists (n - 48).
    + by intros [m [= -> _]].
  - apply NoDup_singleton.
  - intros b ->%list_elem_of_singleton. by rewrite lookup_singleton_eq.
  - constructor; [|constructor]. unfold block_ok, b_end, HEAP_TOP. cbn. splits; [lia|lia|lia|done|]. Z.div_mod_to_equations; lia.
  - split; [|done]. by intros c ?%not_elem_of_nil.
  - lia.
  - lia.
  - lia.
  - unfold HEAP_TOP. lia.
Qed.

Lemma heap_ctor_ok pv sz : legal_memory pv sz ->
  heap_ok (heap_start pv) (heap_start pv + heap_bytes pv sz) (_HeapCtorEx pv sz, []) [mkB (heap_start pv) (heap_bytes pv sz - 48) true] [].
Proof.
  intros H. destruct (heap_ctor_spec pv sz H) as (_ & _ & _ & Hr). split; cbn; [done| |done|done].
  split; [|done]. cbn. unfold b_end. cbn. splits; [done|lia].
Qed.

(** When nothing is used the list is one block. *)
Lemma unused_one a e bs h : heap_rep h bs -> tiled a bs e -> used bs = [] -> bs = [mkB a (e - a - 48) true].
Proof.
  intros Hr [Ht Hc] Hu. assert (Hf : forall b, b ∈ bs -> b_free b = true).
  { intros b Hb. destruct (b_free b) eqn:E; [done|]. assert (Hx : b_at b ∈ used bs); [|rewrite Hu in Hx; by apply not_elem_of_nil in Hx].
    apply elem_of_used. exists (b_size b). by destruct b; cbn in *; subst. }
  pose proof (hr_start _ _ Hr) as Hs. destruct bs as [|b bs]; [done|].
  assert (Hb : b_free b = true) by (apply Hf; left). destruct bs as [|c bs].
  - destruct Ht as [<- Ht]. cbn in Ht. unfold b_end in Ht. destruct b as [s n f]. cbn in *. subst. do 2 f_equal; lia.
  - assert (Hcf : b_free c = true) by (apply Hf; right; left). cbn in Hc. rewrite Hb, Hcf in Hc. by destruct Hc as [_ [? _]].
Qed.

(** ** What holds in every run *)

(** The memory of a held pointer: up to the end of its block. *)
Definition region_end (h : HEAP) (p : Z) : option Z :=
  match segment_of h p with Some (Some s) => __HEAP_SEGMENT_NEXT_PTR h s | _ => None end.

Lemma ok_regions a e h live bs segs i j p q : heap_ok a e (h, live) bs segs -> live !! i = Some p -> live !! j = Some q -> i <> j ->
  exists x y, region_end h p = Some x /\ region_end h q = Some y /\ p <= x /\ q <= y /\ (x <= q \/ y <= p).
Proof.
  intros Hok Hp Hq Hij. destruct (held_owns _ _ _ _ _ _ Hok _ _ Hp) as (s & n & Hs & Ho & Hb).
  destruct (held_owns _ _ _ _ _ _ Hok _ _ Hq) as (t & m & Ht & Ho' & Hb').
  pose proof (ok_rep _ _ _ _ _ Hok) as Hr. cbn [fst] in Hr. unfold region_end.
  rewrite (segment_of_spec _ _ _ _ Hr Ho), (segment_of_spec _ _ _ _ Hr Ho').
  pose proof (next_ptr_spec _ _ _ Hr Hb) as En. pose proof (next_ptr_spec _ _ _ Hr Hb') as En'. cbn [b_at] in En, En'.
  exists (s + 48 + n), (t + 48 + m). split; [exact En|]. split; [exact En'|].
  assert (Hne : s <> t).
  { intros ->. apply Hij. eapply NoDup_lookup; [by eapply segs_NoDup|done|done]. }
  destruct (all_apart_in _ _ _ (hr_apart _ _ Hr) Hb Hb') as [[= -> ->]|Ha]; [done|].
  assert (Hin : forall p s n, owns h bs p s -> mkB s n false ∈ bs -> s + 48 <= p <= s + 48 + n).
  { intros p' s' n' (n2 & H2 & Hx) H1. pose proof (rep_size _ _ _ _ _ Hr H1) as E1. rewrite (rep_size _ _ _ _ _ Hr H2) in E1.
    injection E1 as ->. pose proof (rep_block _ _ _ Hr H1) as (_ & B2 & _). cbn in B2. lia. }
  pose proof (Hin _ _ _ Ho Hb). pose proof (Hin _ _ _ Ho' Hb').
  pose proof (rep_block _ _ _ Hr Hb) as (_ & B2 & _). pose proof (rep_block _ _ _ Hr Hb') as (_ & C2 & _).
  unfold apart, b_end in Ha. cbn in *. lia.
Qed.

(** C7: whatever legal requests, aligned requests, releases, reallocations and writes into
    held memory follow each other on a new heap: no operation reads a header that does not exist,
    the pointers held have memory of their own, pairwise disjoint, and the heap denotes blocks that
    tile its memory, free ones never side by side, of which exactly the blocks of the
    held pointers are in use, with free and used bytes summing up to the total. *)
Theorem heap_run_safe pv sz bCross ops : legal_memory pv sz -> legal_run bCross (_HeapCtorEx pv sz, []) ops = true ->
  exists h live bs segs, heap_run bCross (_HeapCtorEx pv sz, []) ops = Some (h, live) /\
    heap_ok (heap_start pv) (heap_start pv + heap_bytes pv sz) (h, live) bs segs /\
    HEAP_stUsedByteSize h + HEAP_stFreeByteSize h = HEAP_stTotalByteSize h /\
    forall i j p q, live !! i = Some p -> live !! j = Some q -> i <> j ->
      exists x y, region_end h p = Some x /\ region_end h q = Some y /\ p <= x /\ q <= y /\ (x <= q \/ y <= p).
Proof.
  intros Hm Hl. destruct (heap_run_ok _ _ _ _ _ _ _ (heap_ctor_ok _ _ Hm) Hl) as ([h live] & bs & segs & -> & Hok).
  exists h, live, bs, segs. split; [done|]. split; [done|]. pose proof (ok_rep _ _ _ _ _ Hok) as Hr. cbn [fst] in Hr. split.
  - rewrite (hr_used _ _ Hr), (hr_free _ _ Hr), (hr_total _ _ Hr). lia.
  - intros i j p q Hp Hq Hij. by eapply ok_regions.
Qed.

(** A run with everything in it; the memory starts at an odd address. *)
Definition demo_ops : list HOP :=
  [OpAlloc 10; OpAlign 100 7; OpAlloc 50; OpWrite 1 1200 7; OpRealloc 0 200; OpAlign 20 5; OpFree 2; OpRealloc 1 20].
Definition demo_free : list HOP := demo_ops ++ [OpFree 1; OpFree 0; OpFree 0].

Lemma heap_run_safe_witness :
  let h0 := _HeapCtorEx 1001 2000 in
  (legal_memory 1001 2000 /\ legal_run true (h0, []) demo_ops = true) /\
  exists h live, heap_run true (h0, []) demo_ops = Some (h, live) /\ length live = 3%nat /\
    HEAP_stUsedByteSize h + HEAP_stFreeByteSize h = HEAP_stTotalByteSize h.
Proof.
  cbn zeta. assert (Hm : legal_memory 1001 2000) by (unfold legal_memory, HEAP_TOP; lia).
  assert (Hl : legal_run true (_HeapCtorEx 1001 2000, []) demo_ops = true) by (vm_compute; reflexivity).
  split; [by split|]. destruct (heap_run_safe 1001 2000 true demo_ops Hm Hl) as (h & live & _ & _ & E & _ & Hu & _).
  exists h, live. split; [exact E|]. split; [|exact Hu].
  assert (H : (fun st => length st.2) <$> heap_run true (_HeapCtorEx 1001 2000, []) demo_ops = Some 3%nat) by (vm_compute; reflexivity).
  rewrite E in H. by injection H.
Defined.

(** C9: when everything has been released, in whatever order, the heap has the chain, the
    ring, the headers and the counters it had when it was made: no byte is lost and
    nothing stays fragmented. *)
Theorem heap_returns pv sz bCross ops h : legal_memory pv sz -> legal_run bCross (_HeapCtorEx pv sz, []) ops = true ->
  heap_run bCross (_HeapCtorEx pv sz, []) ops = Some (h, []) ->
  let h0 := _HeapCtorEx pv sz in
  SEGMENT_lineManage h = SEGMENT_lineManage h0 /\ HEAP_pringFreeSegment h = HEAP_pringFreeSegment h0 /\
  SEGMENT_stByteSize h = SEGMENT_stByteSize h0 /\ HEAP_ulSegmentCounter h = HEAP_ulSegmentCounter h0 /\
  HEAP_stTotalByteSize h = HEAP_stTotalByteSize h0 /\ HEAP_stUsedByteSize h = HEAP_stUsedByteSize h0 /\
  HEAP_stFreeByteSize h = HEAP_stFreeByteSize h0.
Proof.
  intros Hm Hl E. destruct (heap_run_ok _ _ _ _ _ _ _ (heap_ctor_ok _ _ Hm) Hl) as (st & bs & segs & E' & Hok).
  rewrite E in E'. injection E' as <-. destruct (heap_ctor_spec pv sz Hm) as (_ & _ & _ & Hr0).
  pose proof (ok_rep _ _ _ _ _ Hok) as Hr. pose proof (ok_owns _ _ _ _ _ Hok) as Ho. cbn [fst snd] in Hr, Ho.
  apply Forall2_nil_inv_l in Ho as ->.
  assert (Hb : bs = [mkB (heap_start pv) (heap_bytes pv sz - 48) true]).
  { rewrite (unused_one _ _ _ _ Hr (ok_tiled _ _ _ _ _ Hok)); [do 2 f_equal; lia|].
    symmetry. apply Permutation_nil_l, (ok_used _ _ _ _ _ Hok). }
  subst bs. cbn zeta. rewrite (hr_line _ _ Hr), (hr_count _ _ Hr), (hr_total _ _ Hr), (hr_used _ _ Hr), (hr_free _ _ Hr).
  rewrite (hr_line _ _ Hr0), (hr_count _ _ Hr0), (hr_total _ _ Hr0), (hr_used _ _ Hr0), (hr_free _ _ Hr0). splits; try done.
  - assert (Hone : forall (r : list Z) s, NoDup r -> (forall t, t ∈ r <-> t = s) -> r = [s]).
    { intros r s Hn Ht. apply Permutation_singleton_r, NoDup_Permutation; [done|apply NoDup_singleton|].
      intros t. by rewrite Ht, list_elem_of_singleton. }
    apply (Hone _ (heap_start pv)); [apply (hr_ring_nodup _ _ Hr)|]. intros t. rewrite (hr_ring _ _ Hr).
    setoid_rewrite list_elem_of_singleton. split; [by intros [n [= -> _]]|]. intros ->. by eexists.
  - apply map_eq. intros s. apply option_eq. intros n. by rewrite (hr_sizes _ _ Hr), (hr_sizes _ _ Hr0).
Qed.

Lemma heap_returns_witness :
  (legal_memory 1001 2000 /\ legal_run true (_HeapCtorEx 1001 2000, []) demo_free = true) /\
  exists h, heap_run true (_HeapCtorEx 1001 2000, []) demo_free = Some (h, []) /\ SEGMENT_lineManage h = [1008].
Proof.
  assert (Hm : legal_memory 1001 2000) by (unfold legal_memory, HEAP_TOP; lia).
  assert (Hl : legal_run true (_HeapCtorEx 1001 2000, []) demo_free = true) by (vm_compute; reflexivity).
  split; [by split|]. destruct (heap_run true (_HeapCtorEx 1001 2000, []) demo_free) as [[h live]|] eqn:E.
  - assert (H : (fun st => st.2) <$> heap_run true (_HeapCtorEx 1001 2000, []) demo_free = Some []) by (vm_compute; reflexivity).
    rewrite E in H. injection H as ->. exists h. split; [reflexivity|].
    destruct (heap_returns 1001 2000 true demo_free h Hm Hl E) as [Hx _]. rewrite Hx. vm_compute. reflexivity.
  - exfalso. assert (H : is_Some (heap_run true (_HeapCtorEx 1001 2000, []) demo_free)) by (vm_compute; by eexists).
    rewrite E in H. by destruct H.
Defined.

(** ** What each call does *)

(** C36: [_HeapAllocate] answers NULL, and changes nothing, exactly when no free block
    has the bytes rounded up; else the pointer is aligned and the start of the data of a block
    that was part of a free one, large enough and with at most 64 bytes more than requested,
    and every other used block is what it was.  [_HeapZallocate] is the same and
    clears what was asked for. *)
Theorem heap_allocates h bs bCross sz : heap_rep h bs -> legal_size sz ->
  exists h' p, _HeapAllocate h bCross sz 0 = Some (h', p) /\
    _HeapZallocate h bCross sz 0 = Some (h', p, if p =? HEAP_NULL then None else Some (p, sz)) /\
    (p = HEAP_NULL <-> forall b, b ∈ bs -> b_free b = true -> b_size b < request bCross sz) /\
    (p = HEAP_NULL -> h' = h) /\
    (p <> HEAP_NULL -> exists bs' s n, p = s + 48 /\ p mod 16 = 0 /\ heap_rep h' bs' /\ mkB s n false ∈ bs' /\
       sz <= n <= request bCross sz + 64 /\ heap_frame h bs h' bs' s /\ used bs' ≡ₚ s :: used bs).
Proof.
  intros Hr Hsz. destruct (request_spec bCross sz Hsz) as (R1 & _).
  destruct (allocate_spec h bs bCross sz Hr Hsz) as (h' & p & E & Hp). exists h', p. split; [done|].
  split; [unfold _HeapZallocate; rewrite E; cbn [mbind option_bind]; by destruct (p =? HEAP_NULL)|].
  destruct Hp as [(-> & -> & Hn)|(l1 & s & n & l2 & -> & Hn & -> & Hr' & Hw)].
  { split; [by split|]. split; [done|]. by intros []. }
  pose proof (one_bounds _ _ _ _ _ _ Hr) as (B1 & B2 & B3 & B4 & _). split; [split; [unfold HEAP_NULL; lia|]|split; [unfold HEAP_NULL; lia|intros _]].
  { intros Hno. specialize (Hno _ (one_in _ _ _ _ _) eq_refl). cbn in Hno. lia. }
  destruct (taken_in s n (request bCross sz)) as (n' & Hin & En'). eexists _, s, n'. split; [done|]. split; [Z.div_mod_to_equations; lia|].
  split; [exact Hr'|]. split; [rewrite !elem_of_app; tauto|]. split; [|split; [by apply heap_frame_replace|]].
  - unfold taken_size in En'. destruct (64 <? n - request bCross sz) eqn:?; zbool; lia.
  - rewrite !used_app, used_taken, used_one. cbn. by rewrite Permutation_middle.
Qed.

(** [_HeapAllocateAlign] with an alignment [2 ^ k] answers NULL, and changes
    nothing, only when no free block has room for the request and the largest
    displacement; else the pointer has the alignment, the block it
    belongs to has the requested bytes behind it, a release will find that block, and every other
    used block is what it was. *)
Theorem heap_aligns h bs bCross sz k : heap_rep h bs -> legal_size sz -> 0 <= k <= 62 ->
  exists h' p, _HeapAllocateAlign h bCross sz (2 ^ k) 0 = Some (h', p) /\
    (p = HEAP_NULL -> h' = h /\ forall b, b ∈ bs -> b_free b = true -> b_size b < request bCross sz + 2 ^ k) /\
    (p <> HEAP_NULL -> exists bs' s n, p mod 2 ^ k = 0 /\ heap_rep h' bs' /\ mkB s n false ∈ bs' /\
       s + 48 <= p /\ p + sz <= s + 48 + n /\ segment_of h' p = Some (Some s) /\
       used bs' ≡ₚ s :: used bs /\ forall b, b ∈ bs -> b_free b = false -> b ∈ bs').
Proof.
  intros Hr Hsz Hk. destruct (request_spec bCross sz Hsz) as (R1 & _).
  destruct (allocate_align_spec h bs bCross sz k Hr Hsz Hk) as (h' & p & -> & Hp). exists h', p. split; [done|].
  destruct Hp as [(-> & -> & Hn)|(l1 & s & n & l2 & d & t & m & -> & -> & Hal & Hr' & Hw & Ho & Hin & Hroom)].
  { split; [done|]. by intros []. }
  assert (Hin' : mkB t m false ∈ l1 ++ aligned s n (request bCross sz) d ++ l2) by (rewrite !elem_of_app; tauto).
  pose proof (rep_block _ _ _ Hr' Hin') as (B1 & B2 & _). cbn in B1, B2.
  assert (Hp : t + 48 <= s + 48 + d) by (destruct Ho as (? & _ & [?|[? _]]); lia).
  split; [unfold HEAP_NULL; lia|]. intros _. eexists _, t, m. split; [done|]. split; [exact Hr'|]. split; [done|].
  split; [done|]. split; [lia|]. split; [by eapply segment_of_spec|]. split.
  - destruct (used_aligned s n (request bCross sz) d) as [x Hx].
    assert (Ht : t ∈ used (aligned s n (request bCross sz) d)) by (apply elem_of_used; by exists m).
    rewrite Hx in Ht. apply list_elem_of_singleton in Ht as ->. rewrite !used_app, Hx, used_one. cbn. by rewrite Permutation_middle.
  - intros b Hb Hf. by apply (in_taken_others _ _ _ _ _ _ Hb).
Qed.

(** [_HeapFree] on a pointer that owns a used block succeeds: the block is
    free and one with the neighbours that touch it and are free, the heap stays consistent, every
    other used block and every word is what it was, and nothing else is freed. *)
Theorem heap_frees h bs p s n : heap_rep h bs -> owns h bs p s -> mkB s n false ∈ bs ->
  exists h' l1 l2, bs = l1 ++ [mkB s n false] ++ l2 /\ _HeapFree h p false 0 = Some (h', HEAP_NULL) /\
    let bs' := freed l1 (mkB s n false) l2 in
    heap_rep h' bs' /\ HEAP_words h' = HEAP_words h /\ used bs ≡ₚ s :: used bs' /\
    forall b, b ∈ bs -> b_free b = false -> b_at b <> s -> b ∈ bs'.
Proof.
  intros Hr Ho (l1 & l2 & ->)%list_elem_of_split. change (mkB s n false :: l2) with ([mkB s n false] ++ l2) in *.
  destruct (free_spec _ _ _ _ _ _ Hr Ho) as (h' & -> & Hr' & Hw). exists h', l1, l2. split; [done|]. split; [done|].
  split; [done|]. split; [done|]. split.
  - rewrite used_freed, !used_app, used_one. cbn. by rewrite Permutation_middle.
  - intros b Hb Hf Hs%(in_others _ _ _ _ _ _ Hb). by apply in_freed.
Qed.

Lemma verify_scan_spec h bs l pv : heap_rep h bs -> (forall s, s ∈ l -> exists n f, mkB s n f ∈ bs) ->
  exists r, verify_scan h l pv = Some r /\
    forall s, r = Some s -> exists n, mkB s n false ∈ bs /\ s < pv <= s + 48 + n.
Proof.
  intros Hr. induction l as [|s l IH]; intros Hl; cbn [verify_scan]; [by exists None|].
  destruct (Hl s) as (n & f & Hb); [left|]. rewrite (rep_size _ _ _ _ _ Hr Hb). cbn [mbind option_bind].
  pose proof (rep_block _ _ _ Hr Hb) as (B1 & B2 & B3 & _). unfold b_end, HEAP_TOP in B3. cbn in B1, B2, B3.
  unfold __HEAP_SEGMENT_DATA_PTR, __SEGMENT_BLOCK_SIZE_ALIGN. rewrite (wrap_small 64 (s + 48)), wrap_small by lia.
  destruct ((s <? pv) && (pv <=? s + 48 + n)) eqn:Hc; zbool.
  - rewrite (rep_used _ _ _ _ _ Hr Hb). destruct f; cbn [negb]; eexists; (split; [done|]); [done|].
    intros ? [= <-]. exists n. by split.
  - apply IH. intros t Ht. apply Hl. by right.
Qed.

Lemma verify_spec h bs pv : heap_rep h bs -> exists r, _HeapVerify h pv = Some r /\
  forall s, r = Some s -> exists n, mkB s n false ∈ bs /\ s < pv <= s + 48 + n.
Proof.
  intros Hr. unfold _HeapVerify. destruct (_ || _); [by exists None|]. apply (verify_scan_spec _ bs); [done|].
  intros s. rewrite (hr_line _ _ Hr). intros ([t n f] & -> & Hb)%list_elem_of_fmap. by exists n, f.
Qed.

(** [_HeapFree] hands the pointer back and changes nothing when it is NULL, when
    the lock of the heap cannot be taken, when it is the data of a block that is free already,
    and, asked to verify, when no used block has the address. *)
Theorem heap_rejects h bs p bVerify ulLockErr : heap_rep h bs ->
  p = HEAP_NULL \/ ulLockErr <> 0 \/
  bVerify = false /\ (exists s n, mkB s n true ∈ bs /\ p = s + 48) \/
  bVerify = true /\ (forall s n, mkB s n false ∈ bs -> ~ s < p <= s + 48 + n) ->
  _HeapFree h p bVerify ulLockErr = Some (h, p).
Proof.
  intros Hr Hc. unfold _HeapFree. destruct (p =? HEAP_NULL) eqn:E0; [done|]. destruct (ulLockErr =? 0) eqn:E1; [|done].
  zbool. cbn [negb]. destruct Hc as [?|[?|[[-> (s & n & Hb & ->)]|[-> Hn]]]]; [done|done| |].
  - unfold find_segment, segment_of, __HEAP_SEGMENT_SEG_PTR, __SEGMENT_BLOCK_SIZE_ALIGN.
    pose proof (rep_block _ _ _ Hr Hb) as (B1 & B2 & B3 & _). unfold b_end, HEAP_TOP in B3. cbn in B1, B2, B3.
    replace (s + 48 - 48) with s by lia. rewrite (wrap_small 64 s) by lia.
    pose proof (is_real_spec _ _ _ Hr Hb) as Hreal. cbn in Hreal. rewrite Hreal. cbn [mbind option_bind].
    rewrite Hreal. cbn [mbind option_bind]. by rewrite (rep_used _ _ _ _ _ Hr Hb).
  - unfold find_segment. destruct (verify_spec _ _ p Hr) as (r & -> & Hs). cbn [mbind option_bind].
    destruct r as [s|]; [|done]. destruct (Hs s eq_refl) as (n & Hb & Hx). by destruct (Hn s n Hb).
Qed.

(** [_HeapRealloc] of the data of a used block answers NULL and leaves every block
    and word as it was, or keeps the pointer, with room for the new size and the first
    bytes of the data unchanged, or moves to a free block with room and copies the old
    data, whose length is cut to 32 bits, before it releases the old block; other used blocks are what they
    were.  A pointer inside a block is refused. *)
Theorem heap_reallocates h bs bCross sz p s n : heap_rep h bs -> mkB s n false ∈ bs -> owns h bs p s -> 0 < sz <= ULONG_MAX - 46 ->
  exists h' q cp, _HeapRealloc h bCross p sz false 0 = Some (h', q, cp) /\
    (p <> s + 48 -> q = HEAP_NULL /\ h' = h) /\
    (q = HEAP_NULL -> cp = None /\ heap_rep h' bs /\ HEAP_words h' = HEAP_words h) /\
    (q <> HEAP_NULL -> exists bs' t n', q = t + 48 /\ heap_rep h' bs' /\ mkB t n' false ∈ bs' /\ sz <= n' /\
       heap_frame h bs h' bs' s /\ data_kept s (Z.min n sz) h h' /\
       (q = p /\ cp = None /\ used bs' ≡ₚ used bs \/
        cp = Some (q, p, wrap 32 n) /\ s :: used bs' ≡ₚ t :: used bs)).
Proof.
  intros Hr Hb Ho Hsz. assert (Hl : legal_size sz) by (unfold legal_size; lia). destruct (request_spec bCross sz Hl) as (R1 & _).
  destruct (realloc_spec h bs bCross sz p s n Hr Hb Ho Hsz) as (h' & q & cp & -> & Hq). exists h', q, cp. split; [done|].
  assert (Hnz : forall bs' t n', heap_rep h' bs' -> mkB t n' false ∈ bs' -> q = t + 48 -> q <> HEAP_NULL).
  { intros bs' t n' Hr' Hin ->. pose proof (rep_block _ _ _ Hr' Hin) as (B1 & _). cbn in B1. unfold HEAP_NULL. lia. }
  destruct Hq as [(Hp & -> & -> & ->)|[-> [Hq|[(-> & -> & Hr' & Hw)|Hq]]]].
  - split; [done|]. split; [done|]. by intros [].
  - destruct Hq as (bs' & n' & Eq & -> & Hr' & Hin & Hn' & Hf & Hd & Hu & _). split; [done|]. split; [intros E; by destruct (Hnz _ _ _ Hr' Hin Eq)|].
    intros _. exists bs', s, n'. splits; [done|done|done|lia|done|done|]. left. by splits.
  - split; [done|]. split; [done|]. by intros [].
  - destruct Hq as (bs' & t & n' & Eq & -> & Hr' & Hin & Hn' & Hf & Hd & Hu & _). split; [done|]. split; [intros E; by destruct (Hnz _ _ _ Hr' Hin Eq)|].
    intros _. exists bs', t, n'. splits; [done|done|done|lia|done| |by right]. intros a Ha. apply Hd. lia.
Qed.

(** ** The heap of the run, for the witnesses *)

Lemma demo_memory : legal_memory 1001 2000.
Proof. unfold legal_memory, HEAP_TOP. lia. Qed.

Lemma demo_new : exists bs, heap_rep (_HeapCtorEx 1001 2000) bs.
Proof. eexists. apply (heap_ctor_spec _ _ demo_memory). Qed.

Lemma demo_heap : exists h bs s n, fst <$> heap_run true (_HeapCtorEx 1001 2000, []) demo_ops = Some h /\
  heap_rep h bs /\ owns h bs 1312 s /\ mkB s n false ∈ bs.
Proof.
  destruct (heap_run_ok _ _ _ _ _ true demo_ops (heap_ctor_ok _ _ demo_memory)) as ([h live] & bs & segs & E & Hok); [vm_compute; reflexivity|].
  assert (Hl : (fun st => st.2 !! 0%nat) <$> heap_run true (_HeapCtorEx 1001 2000, []) demo_ops = Some (Some 1312)) by (vm_compute; reflexivity).
  rewrite E in Hl. injection Hl as Hl. destruct (held_owns _ _ _ _ _ _ Hok _ _ Hl) as (s & n & _ & Ho & Hb).
  exists h, bs, s, n. rewrite E. split; [reflexivity|]. split; [apply Hok|by split].
Qed.

Lemma heap_allocates_witness : exists bs, (heap_rep (_HeapCtorEx 1001 2000) bs /\ legal_size 100) /\
  exists h' p, _HeapAllocate (_HeapCtorEx 1001 2000) true 100 0 = Some (h', p) /\
    (p <> HEAP_NULL -> p mod 16 = 0).
Proof.
  destruct demo_new as [bs Hr]. exists bs. assert (Hs : legal_size 100) by (unfold legal_size, ULONG_MAX; lia). split; [by split|].
  destruct (heap_allocates _ bs true 100 Hr Hs) as (h' & p & E & _ & _ & _ & H). exists h', p. split; [exact E|].
  intros Hp. destruct (H Hp) as (? & ? & ? & _ & Hm & _). exact Hm.
Defined.

Lemma heap_aligns_witness : exists bs, (heap_rep (_HeapCtorEx 1001 2000) bs /\ legal_size 100 /\ 0 <= 7 <= 62) /\
  exists h' p, _HeapAllocateAlign (_HeapCtorEx 1001 2000) true 100 (2 ^ 7) 0 = Some (h', p) /\
    (p <> HEAP_NULL -> p mod 2 ^ 7 = 0).
Proof.
  destruct demo_new as [bs Hr]. exists bs. assert (Hs : legal_size 100) by (unfold legal_size, ULONG_MAX; lia).
  split; [split; [exact Hr|split; [exact Hs|lia]]|].
  destruct (heap_aligns _ bs true 100 7 Hr Hs) as (h' & p & E & _ & H); [lia|]. exists h', p. split; [exact E|].
  intros Hp. destruct (H Hp) as (? & ? & ? & Hm & _). exact Hm.
Defined.

Lemma heap_frees_witness : exists h bs s n, fst <$> heap_run true (_HeapCtorEx 1001 2000, []) demo_ops = Some h /\
  (heap_rep h bs /\ owns h bs 1312 s /\ mkB s n false ∈ bs) /\ exists h', _HeapFree h 1312 false 0 = Some (h', HEAP_NULL).
Proof.
  destruct demo_heap as (h & bs & s & n & E & Hr & Ho & Hb). exists h, bs, s, n. split; [exact E|]. split; [exact (conj Hr (conj Ho Hb))|].
  destruct (heap_frees h bs 1312 s n Hr Ho Hb) as (h' & _ & _ & _ & Hx & _). exists h'. exact Hx.
Defined.

Lemma heap_rejects_witness : exists bs, (heap_rep (_HeapCtorEx 1001 2000) bs /\ exists s n, mkB s n true ∈ bs /\ 1056 = s + 48) /\
  _HeapFree (_HeapCtorEx 1001 2000) 1056 false 0 = Some (_HeapCtorEx 1001 2000, 1056).
Proof.
  assert (Hs : heap_start 1001 = 1008) by (vm_compute; reflexivity).
  destruct (heap_ctor_spec _ _ demo_memory) as (_ & _ & _ & Hr). set (bs := [mkB _ _ true]) in Hr.
  assert (Hb : exists s n, mkB s n true ∈ bs /\ 1056 = s + 48).
  { eexists _, _. split; [left|]. rewrite Hs. reflexivity. }
  exists bs. split; [exact (conj Hr Hb)|]. apply (heap_rejects _ bs 1056 false 0 Hr). right. right. left. split; [reflexivity|exact Hb].
Defined.

Lemma heap_reallocates_witness : exists h bs s n, fst <$> heap_run true (_HeapCtorEx 1001 2000, []) demo_ops = Some h /\
  (heap_rep h bs /\ mkB s n false ∈ bs /\ owns h bs 1312 s /\ 0 < 500 <= ULONG_MAX - 46) /\
  exists h' q cp, _HeapRealloc h true 1312 500 false 0 = Some (h', q, cp).
Proof.
  destruct demo_heap as (h & bs & s & n & E & Hr & Ho & Hb). exists h, bs, s, n. split; [exact E|].
  assert (Hs : 0 < 500 <= ULONG_MAX - 46) by (unfold ULONG_MAX; clear; lia). split; [exact (conj Hr (conj Hb (conj Ho Hs)))|].
  destruct (heap_reallocates h bs true 500 1312 s n Hr Hb Ho Hs) as (h' & q & cp & Hx & _). exists h', q, cp. exact Hx.
Defined.

(** ** Runs that surprise *)

(** The rounding of a size near [2 ^ 64] wraps: the caller gets a block of no bytes. *)
Lemma huge_request : (fun r => (r.2, SEGMENT_stByteSize r.1 !! 1008)) <$> _HeapAllocate (_HeapCtorEx 1008 2000) false (2 ^ 64 - 1) 0
  = Some (1056, Some 0).
Proof. vm_compute. reflexivity. Qed.

(** The memory of a heap can be added to it a second time: the loop never compares with the last segment. *)
Lemma added_twice : (fun r => (r.2, HEAP_stTotalByteSize r.1, SEGMENT_lineManage r.1)) <$> _HeapAddMemory (_HeapCtorEx 1008 2000) 1104 500 0
  = Some (HEAP_OK, 2496, [1008; 1104]).
Proof. vm_compute. reflexivity. Qed.

(** A pointer into memory that was added is not found when [_HeapFree] is
    asked to verify it: the range is the total size counted from the first segment. *)
Lemma added_unverified :
  ('(h, _) ← _HeapAddMemory (_HeapCtorEx 1008 208) 100000 2000 0;
   '(h, p) ← _HeapAllocate h false 1000 0;
   '(_, r) ← _HeapFree h p true 0; Some (p, r)) = Some (100048, 100048).
Proof. vm_compute. reflexivity. Qed.

(** A block that is released twice after it was merged into its left neighbour is only found free
    as long as no one else has the memory: its header still says that it is real. *)
Lemma released_twice :
  ('(h, p) ← _HeapAllocate (_HeapCtorEx 1008 2000) false 100 0;
   '(h, q) ← _HeapAllocate h false 100 0;
   '(h, _) ← _HeapFree h p false 0;
   '(h, _) ← _HeapFree h q false 0;
   Some (p, q, _HeapFree h q false 0)) = Some (1056, 1216, None).
Proof. vm_compute. reflexivity. Qed.
