(* ===== verification/MsgQueue.v ===== *)
(** * Message queues: kernel/core/_MsgQueueLib.c and kernel/interface/MsgQueue*.c

    A message queue is an event with a store of messages: nodes carved out of one
    block of the kernel heap, free or in one of eight lists by urgency.  The
    state holds the kernel of the file Kernel, the queues, what a receiver leaves
    in its control block, and the memory of the callers the services read and write.

    One definition is one stretch with the kernel locked.  A sender that has to
    start over ([goto __re_send]) after it let the scheduler run ends with
    [SAgain]; the next stretch is the same call again.  [None] is an undefined access. *)

From S2P Require Import Prelude Lists Bitmap Sched SchedSpec Object Wakeup Kernel Event Semaphore.

(** ** k_error.h, k_option.h, k_class.h *)

Definition E2BIG : Z := 7.
Definition ERROR_KERNEL_LOW_MEMORY : Z := 308.
Definition ERROR_MSGQUEUE_MAX_COUNTER_NULL : Z := 2500.
Definition ERROR_MSGQUEUE_MAX_LEN_NULL : Z := 2501.
Definition ERROR_MSGQUEUE_FULL : Z := 2502.
Definition ERROR_MSGQUEUE_TYPE : Z := 2504.
Definition ERROR_MSGQUEUE_WAS_DELETED : Z := 2505.
Definition ERROR_MSGQUEUE_MSG_NULL : Z := 2506.
Definition ERROR_MSGQUEUE_MSG_LEN : Z := 2507.
Definition ERROR_MSGQUEUE_OPTION : Z := 2508.

Definition LW_OPTION_DEFAULT : Z := 0.
Definition LW_OPTION_NOERROR : Z := 0x00400000.
Definition LW_OPTION_URGENT : Z := 0x00000001.
Definition LW_OPTION_BROADCAST : Z := 0x00000002.

Definition EVENT_MSG_Q_PRIO : Z := 8.
Definition EVENT_MSG_Q_PRIO_LOW : Z := 7.

(** ** Data *)

(** A node of the buffer: the recorded length and the bytes behind the header, as far
    as they were ever written. *)
Record LW_CLASS_MSGNODE := mkMsgNode { MSGNODE_stMsgLen : Z; MSGNODE_data : list Z }.

(** [sizeof(LW_CLASS_MSGNODE)] and [ROUND_UP(..., sizeof(size_t))] with 64-bit words. *)
Definition sizeof_MSGNODE : Z := 16.
Definition align_msg (n : Z) : Z := ROUND_UP n 3.

(** [LW_CLASS_MSGQUEUE]: the header and tail pointers of urgency [i] denote the
    [i]-th list of node addresses (file Lists), the free header another.  The
    nodes are those of the block [MSGQUEUE_pvBuffer], by address. *)
Record LW_CLASS_MSGQUEUE := mkMsgQueue {
  MSGQUEUE_pmonoFree : list Z;
  MSGQUEUE_pmono : gmap Z (list Z);
  MSGQUEUE_uiMap : Z;
  MSGQUEUE_pvBuffer : Z;
  MSGQUEUE_stMaxBytes : Z;
  MSGQUEUE_node : gmap Z LW_CLASS_MSGNODE
}.

(** What a receiver that waits leaves in its control block. *)
Record RECV := mkRecv {
  TCB_pstMsgByteSize : Z;
  TCB_stMaxByteSize : Z;
  TCB_pvMsgQueueMessage : Z;
  TCB_ulRecvOption : Z
}.

(** The kernel; the queue objects [_K_msgqueueBuffer] and their pool; the receiver
    fields by thread; the callers' variables of type [size_t] and message buffers
    by address; and the blocks of the kernel heap with their sizes. *)
Record MQ := mkMQ {
  MQ_k : KERNEL;
  MQ_queue : gmap Z LW_CLASS_MSGQUEUE;
  MQ_resrc : RESRC;
  MQ_recv : gmap Z RECV;
  MQ_size : gmap Z Z;
  MQ_mem : gmap Z (list Z);
  MQ_heap : gmap Z Z
}.

Definition set_k (k : KERNEL) (M : MQ) : MQ :=
  mkMQ k (MQ_queue M) (MQ_resrc M) (MQ_recv M) (MQ_size M) (MQ_mem M) (MQ_heap M).
Definition set_queue (p : Z) (q : LW_CLASS_MSGQUEUE) (M : MQ) : MQ :=
  mkMQ (MQ_k M) (<[p := q]> (MQ_queue M)) (MQ_resrc M) (MQ_recv M) (MQ_size M) (MQ_mem M) (MQ_heap M).
Definition set_mresrc (r : RESRC) (M : MQ) : MQ :=
  mkMQ (MQ_k M) (MQ_queue M) r (MQ_recv M) (MQ_size M) (MQ_mem M) (MQ_heap M).
Definition set_recv (t : Z) (r : RECV) (M : MQ) : MQ :=
  mkMQ (MQ_k M) (MQ_queue M) (MQ_resrc M) (<[t := r]> (MQ_recv M)) (MQ_size M) (MQ_mem M) (MQ_heap M).
Definition set_size (p n : Z) (M : MQ) : MQ :=
  mkMQ (MQ_k M) (MQ_queue M) (MQ_resrc M) (MQ_recv M) (<[p := n]> (MQ_size M)) (MQ_mem M) (MQ_heap M).
Definition set_mem (p : Z) (b : list Z) (M : MQ) : MQ :=
  mkMQ (MQ_k M) (MQ_queue M) (MQ_resrc M) (MQ_recv M) (MQ_size M) (<[p := b]> (MQ_mem M)) (MQ_heap M).
Definition set_heap (h : gmap Z Z) (M : MQ) : MQ :=
  mkMQ (MQ_k M) (MQ_queue M) (MQ_resrc M) (MQ_recv M) (MQ_size M) (MQ_mem M) h.
Definition set_TCB_stMaxByteSize (v : Z) (r : RECV) : RECV :=
  mkRecv (TCB_pstMsgByteSize r) v (TCB_pvMsgQueueMessage r) (TCB_ulRecvOption r).
Definition set_TCB_ulRecvOption (v : Z) (r : RECV) : RECV :=
  mkRecv (TCB_pstMsgByteSize r) (TCB_stMaxByteSize r) (TCB_pvMsgQueueMessage r) v.

(** [lib_memcpy]: [n] bytes of [src] over the start of [dst]; the bytes read must
    be there. *)
Definition lib_memcpy (dst src : list Z) (n : Z) : option (list Z) :=
  if n <=? Z.of_nat (length src) then Some (take (Z.to_nat n) src ++ drop (Z.to_nat n) dst) else None.

(** The access to [n] bytes at [a] is inside the heap block at [b]. *)
Definition in_block (h : gmap Z Z) (b a n : Z) : bool :=
  match h !! b with Some s => (b <=? a) && (a + n <=? b + s) | None => false end.

(** ** _MsgQueueLib.c *)

(** The loop of [_MsgQueueClear]: every node is put on the free list, where its
    link is written. *)
Fixpoint clear_nodes (h : gmap Z Z) (pvBuffer stMaxByteAlign : Z) (n : nat) (pmsgnode : Z) (free : list Z)
    : option (list Z) :=
  match n with
  | O => Some free
  | S n =>
    if in_block h pvBuffer pmsgnode 8
    then clear_nodes h pvBuffer stMaxByteAlign n (pmsgnode +64 sizeof_MSGNODE +64 stMaxByteAlign) (pmsgnode :: free)
    else None
  end.

Definition empty_lists : gmap Z (list Z) :=
  list_to_map ((fun i => (i, [])) <$> seqZ 0 EVENT_MSG_Q_PRIO).

Definition _MsgQueueClear (h : gmap Z Z) (q : LW_CLASS_MSGQUEUE) (ulMsgTotal : Z) : option LW_CLASS_MSGQUEUE :=
  free ← clear_nodes h (MSGQUEUE_pvBuffer q) (align_msg (MSGQUEUE_stMaxBytes q)) (Z.to_nat ulMsgTotal)
           (MSGQUEUE_pvBuffer q) [];
  Some (mkMsgQueue free empty_lists 0 (MSGQUEUE_pvBuffer q) (MSGQUEUE_stMaxBytes q) (MSGQUEUE_node q)).

(** The most urgent message: its list, its node and the rest of the list. *)
Definition msg_head (q : LW_CLASS_MSGQUEUE) : option (Z * Z * list Z) :=
  let iQ := archFindLsb (MSGQUEUE_uiMap q) - 1 in
  match MSGQUEUE_pmono q !! iQ with
  | Some (n :: l) => Some (iQ, n, l)
  | _ => None
  end.

(** Result: the queue, [*pstMsgLen] and the buffer of the caller. *)
Definition _MsgQueueGet (h : gmap Z Z) (q : LW_CLASS_MSGQUEUE) (pvMsgBuffer : list Z) (stMaxByteSize : Z)
    : option (LW_CLASS_MSGQUEUE * Z * list Z) :=
  '(iQ, pmsgnode, l) ← msg_head q;
  let uiMap := match l with [] => Z.ldiff (MSGQUEUE_uiMap q) (Z.shiftl 1 iQ) | _ => MSGQUEUE_uiMap q end in
  node ← MSGQUEUE_node q !! pmsgnode;
  let stMsgLen := if stMaxByteSize <? MSGNODE_stMsgLen node then stMaxByteSize else MSGNODE_stMsgLen node in
  if in_block h (MSGQUEUE_pvBuffer q) pmsgnode (sizeof_MSGNODE + stMsgLen) then
    pvMsgBuffer ← lib_memcpy pvMsgBuffer (MSGNODE_data node) stMsgLen;
    Some (mkMsgQueue (pmsgnode :: MSGQUEUE_pmonoFree q) (<[iQ := l]> (MSGQUEUE_pmono q)) uiMap
            (MSGQUEUE_pvBuffer q) (MSGQUEUE_stMaxBytes q) (MSGQUEUE_node q), stMsgLen, pvMsgBuffer)
  else None.

Definition node_data (q : LW_CLASS_MSGQUEUE) (pmsgnode : Z) : list Z :=
  match MSGQUEUE_node q !! pmsgnode with Some n => MSGNODE_data n | None => [] end.

(** A message longer than the space behind a node would run into the next one. *)
Definition _MsgQueuePut (h : gmap Z Z) (q : LW_CLASS_MSGQUEUE) (pvMsgBuffer : list Z) (stMsgLen uiPrio : Z)
    : option LW_CLASS_MSGQUEUE :=
  match MSGQUEUE_pmonoFree q with
  | [] => None
  | pmsgnode :: free =>
    if in_block h (MSGQUEUE_pvBuffer q) pmsgnode (sizeof_MSGNODE + stMsgLen) &&
       (stMsgLen <=? align_msg (MSGQUEUE_stMaxBytes q)) then
      data ← lib_memcpy (node_data q pmsgnode) pvMsgBuffer stMsgLen;
      l ← MSGQUEUE_pmono q !! uiPrio;
      let uiMap := match l with [] => Z.lor (MSGQUEUE_uiMap q) (Z.shiftl 1 uiPrio) | _ => MSGQUEUE_uiMap q end in
      Some (mkMsgQueue free (<[uiPrio := l ++ [pmsgnode]]> (MSGQUEUE_pmono q)) uiMap (MSGQUEUE_pvBuffer q)
              (MSGQUEUE_stMaxBytes q) (<[pmsgnode := mkMsgNode stMsgLen data]> (MSGQUEUE_node q)))
    else None
  end.

Definition _MsgQueueMsgLen (q : LW_CLASS_MSGQUEUE) : option Z :=
  '(_, pmsgnode, _) ← msg_head q;
  node ← MSGQUEUE_node q !! pmsgnode;
  Some (MSGNODE_stMsgLen node).

(** ** listMsgQueue.c *)

Definition _Allocate_MsgQueue_Object : RESRC -> option (RESRC * Z) := resrc_allocate.
Definition _Free_MsgQueue_Object : RESRC -> Z -> RESRC := resrc_free.

(** ** Access to a queue *)

Definition mem_at (M : MQ) (p : Z) : list Z := default [] (MQ_mem M !! p).
(** The fields of a thread that never received are zero. *)
Definition recv_at (M : MQ) (t : Z) : RECV := default (mkRecv 0 0 0 0) (MQ_recv M !! t).

(** [(PLW_CLASS_MSGQUEUE)pevent->EVENT_pvPtr]. *)
Definition queue_at (M : MQ) (pevent : Z) : option (Z * LW_CLASS_MSGQUEUE) :=
  E ← K_event (MQ_k M) !! pevent;
  q ← MQ_queue M !! EVENT_pvPtr E;
  Some (EVENT_pvPtr E, q).

(** The checks of the handle. *)
Definition msg_check (M : MQ) (ulId : Z) : option Z :=
  if negb (_ObjectClassOK ulId _OBJECT_MSGQUEUE) then Some ERROR_KERNEL_HANDLE_NULL
  else if _Event_Index_Invalid (MQ_k M) (_ObjectGetIndex ulId) then Some ERROR_KERNEL_HANDLE_NULL
  else b ← _Event_Type_Invalid (MQ_k M) (_ObjectGetIndex ulId) LW_TYPE_EVENT_MSGQUEUE;
       Some (if (b : bool) then ERROR_MSGQUEUE_TYPE else ERROR_NONE).

(** ** Sending *)

(** How a stretch of a send ends. *)
Inductive SEND := SReturn (ulError : Z) | SWait (ulEventOption : Z) | SAgain.

(** The first waiting receiver is woken; it gets the message if it has room or
    asked for a truncated one.  Result: [bSendOk]. *)
Definition msg_give (M : MQ) (pevent : Z) (pvMsgBuffer : list Z) (stMsgLen ucSchedActivate : Z)
    : option (MQ * bool) :=
  '(k, ptcb) ← event_take (MQ_k M) pevent EVENT_MSG_Q_R LW_NULL;
  let R := recv_at M ptcb in
  '(M, bSendOk) ←
    (if (TCB_stMaxByteSize R <? stMsgLen) && negb (has_option (TCB_ulRecvOption R) LW_OPTION_NOERROR) then
       Some (set_recv ptcb (set_TCB_stMaxByteSize 0 R) (set_size (TCB_pstMsgByteSize R) 0 M), false)
     else
       let stRealLen := if stMsgLen <? TCB_stMaxByteSize R then stMsgLen else TCB_stMaxByteSize R in
       b ← lib_memcpy (mem_at M (TCB_pvMsgQueueMessage R)) pvMsgBuffer stRealLen;
       Some (set_mem (TCB_pvMsgQueueMessage R) b (set_size (TCB_pstMsgByteSize R) stRealLen M), true));
  k ← _EventReadyHighLevel k ptcb LW_THREAD_STATUS_MSGQUEUE ucSchedActivate;
  Some (set_k k M, bSendOk).

(** [EVENT_ulCounter++] and [_MsgQueuePut]. *)
Definition msg_store (M : MQ) (pevent : Z) (pvMsgBuffer : list Z) (stMsgLen uiPrio : Z) : option MQ :=
  '(p, q) ← queue_at M pevent;
  q ← _MsgQueuePut (MQ_heap M) q pvMsgBuffer stMsgLen uiPrio;
  Some (set_queue p q (set_k (upd_event pevent (fun E => set_EVENT_ulCounter (EVENT_ulCounter E +64 1) E) (MQ_k M)) M)).

(** A message for which nobody waits is stored, or the sender waits for room. *)
Definition msg_queue (M : MQ) (c : CALL) (pevent : Z) (pvMsgBuffer : list Z) (stMsgLen uiPrio ulTimeout : Z)
    : option (MQ * SEND) :=
  E ← K_event (MQ_k M) !! pevent;
  if EVENT_ulCounter E <? EVENT_ulMaxCounter E then
    M ← msg_store M pevent pvMsgBuffer stMsgLen uiPrio; Some (M, SReturn ERROR_NONE)
  else if (ulTimeout =? LW_OPTION_NOT_WAIT) || negb (LW_CPU_GET_CUR_NESTING c =? 0)
  then Some (M, SReturn ERROR_MSGQUEUE_FULL)
  else
    k ← event_pend (MQ_k M) (LW_TCB_GET_CUR c) pevent EVENT_MSG_Q_S LW_THREAD_STATUS_MSGQUEUE ulTimeout;
    Some (set_k k M, SWait (EVENT_ulOption E)).

(** The checks of a send: the message, the handle and, with the kernel locked, the length. *)
Definition send_check (M : MQ) (ulId : Z) (pvMsgBuffer : option (list Z)) (stMsgLen : Z) : option Z :=
  match pvMsgBuffer with
  | None => Some ERROR_MSGQUEUE_MSG_NULL
  | Some _ =>
    if stMsgLen =? 0 then Some ERROR_MSGQUEUE_MSG_LEN
    else
      err ← msg_check M ulId;
      if negb (err =? ERROR_NONE) then Some err
      else
        '(_, q) ← queue_at M (_ObjectGetIndex ulId);
        Some (if MSGQUEUE_stMaxBytes q <? stMsgLen then ERROR_MSGQUEUE_MSG_LEN else ERROR_NONE)
  end.

(** Given to a receiver: the call is over, or starts again when the receiver had no
    room. *)
Definition give_or (M : MQ) (pevent : Z) (pvMsgBuffer : list Z) (stMsgLen : Z) (other : option (MQ * SEND))
    : option (MQ * SEND) :=
  if negb (_EventWaitNum (MQ_k M) EVENT_MSG_Q_R pevent =? 0) then
    '(M, bSendOk) ← msg_give M pevent pvMsgBuffer stMsgLen LW_SCHED_ACT_INTERRUPT;
    Some (M, if (bSendOk : bool) then SReturn ERROR_NONE else SAgain)
  else other.

Definition API_MsgQueueSend2 (M : MQ) (c : CALL) (ulId : Z) (pvMsgBuffer : option (list Z)) (stMsgLen ulTimeout : Z)
    : option (MQ * SEND) :=
  err ← send_check M ulId pvMsgBuffer stMsgLen;
  if negb (err =? ERROR_NONE) then Some (M, SReturn err)
  else
    let pevent := _ObjectGetIndex ulId in
    let buffer := default [] pvMsgBuffer in
    give_or M pevent buffer stMsgLen (msg_queue M c pevent buffer stMsgLen EVENT_MSG_Q_PRIO_LOW ulTimeout).

Definition API_MsgQueueSend (M : MQ) (c : CALL) (ulId : Z) (pvMsgBuffer : option (list Z)) (stMsgLen : Z)
    : option (MQ * SEND) :=
  API_MsgQueueSend2 M c ulId pvMsgBuffer stMsgLen LW_OPTION_NOT_WAIT.

(** Every waiting receiver gets the message. *)
Fixpoint broadcast_loop (n : nat) (M : MQ) (pevent : Z) (pvMsgBuffer : list Z) (stMsgLen : Z) : option MQ :=
  match n with
  | O => None
  | S n =>
    if _EventWaitNum (MQ_k M) EVENT_MSG_Q_R pevent =? 0 then Some M
    else
      '(M, _) ← msg_give M pevent pvMsgBuffer stMsgLen LW_SCHED_ACT_OTHER;
      broadcast_loop n M pevent pvMsgBuffer stMsgLen
  end.

Definition wait_fuel (M : MQ) (iQ pevent : Z) : nat := S (Z.to_nat (_EventWaitNum (MQ_k M) iQ pevent)).

Definition API_MsgQueueSendEx2 (M : MQ) (c : CALL) (ulId : Z) (pvMsgBuffer : option (list Z))
    (stMsgLen ulTimeout ulOption : Z) : option (MQ * SEND) :=
  if ulOption =? LW_OPTION_DEFAULT then API_MsgQueueSend2 M c ulId pvMsgBuffer stMsgLen ulTimeout
  else
    err ← send_check M ulId pvMsgBuffer stMsgLen;
    if negb (err =? ERROR_NONE) then Some (M, SReturn err)
    else
      let pevent := _ObjectGetIndex ulId in
      let buffer := default [] pvMsgBuffer in
      if has_option ulOption LW_OPTION_URGENT then
        give_or M pevent buffer stMsgLen
          (let uiPrio := Z.land (Z.shiftr ulOption 4) 0xf in
           if EVENT_MSG_Q_PRIO_LOW <? uiPrio then Some (M, SReturn ERROR_MSGQUEUE_OPTION)
           else msg_queue M c pevent buffer stMsgLen uiPrio ulTimeout)
      else if has_option ulOption LW_OPTION_BROADCAST then
        M ← broadcast_loop (wait_fuel M EVENT_MSG_Q_R pevent) M pevent buffer stMsgLen;
        Some (M, SReturn ERROR_NONE)
      else Some (M, SReturn ERROR_MSGQUEUE_OPTION).

Definition API_MsgQueueSendEx (M : MQ) (c : CALL) (ulId : Z) (pvMsgBuffer : option (list Z)) (stMsgLen ulOption : Z)
    : option (MQ * SEND) :=
  API_MsgQueueSendEx2 M c ulId pvMsgBuffer stMsgLen LW_OPTION_NOT_WAIT ulOption.

(** The rest of a send that waited: [again] is the call from [__re_send] on, with the
    timeout it is given. *)
Definition send_resume (again : Z -> option (MQ * SEND)) (M : MQ)
    (ptcbCur ulKernelTime ulTimeSave ulTimeout ulEventOption iSchedRet : Z) : option (MQ * SEND) :=
  if negb (iSchedRet =? 0) then
    if (iSchedRet =? LW_SIGNAL_EINTR) && has_option ulEventOption LW_OPTION_SIGNAL_INTER
    then Some (M, SReturn EINTR)
    else
      let ulTimeout := _sigTimeoutRecalc ulKernelTime ulTimeSave ulTimeout in
      if ulTimeout =? LW_OPTION_NOT_WAIT then Some (M, SReturn ERROR_THREAD_WAIT_TIMEOUT)
      else again ulTimeout
  else
    w ← K_wait (MQ_k M) !! ptcbCur;
    if TCB_ucWaitTimeout w =? LW_WAIT_TIME_OUT then Some (M, SReturn ERROR_THREAD_WAIT_TIMEOUT)
    else if TCB_ucIsEventDelete w =? LW_EVENT_EXIST then again ulTimeout
    else Some (M, SReturn ERROR_MSGQUEUE_WAS_DELETED).

Definition API_MsgQueueSend2_resume (M : MQ) (c : CALL) (ulId : Z) (pvMsgBuffer : option (list Z))
    (stMsgLen ulKernelTime ulTimeSave ulTimeout ulEventOption iSchedRet : Z) : option (MQ * SEND) :=
  send_resume (API_MsgQueueSend2 M c ulId pvMsgBuffer stMsgLen) M (LW_TCB_GET_CUR c) ulKernelTime ulTimeSave
    ulTimeout ulEventOption iSchedRet.

Definition API_MsgQueueSendEx2_resume (M : MQ) (c : CALL) (ulId : Z) (pvMsgBuffer : option (list Z))
    (stMsgLen ulOption ulKernelTime ulTimeSave ulTimeout ulEventOption iSchedRet : Z) : option (MQ * SEND) :=
  send_resume (fun ulTimeout => API_MsgQueueSendEx2 M c ulId pvMsgBuffer stMsgLen ulTimeout ulOption) M
    (LW_TCB_GET_CUR c) ulKernelTime ulTimeSave ulTimeout ulEventOption iSchedRet.

(** ** Receiving *)

(** The checks of a receive; [bEmptyBuffer] is the condition on the buffer. *)
Definition recv_check (M : MQ) (ulId : Z) (bEmptyBuffer : bool) : option Z :=
  if bEmptyBuffer then Some ERROR_MSGQUEUE_MSG_NULL else msg_check M ulId.

(** [EVENT_ulCounter--] and [_MsgQueueGet] into the caller's buffer, and one waiting
    sender may try again. *)
Definition msg_take (M : MQ) (pevent pvMsgBuffer stMaxByteSize pstMsgLen : Z) : option MQ :=
  let k := upd_event pevent (fun E => set_EVENT_ulCounter (EVENT_ulCounter E -64 1) E) (MQ_k M) in
  '(p, q) ← queue_at M pevent;
  '(q, n, b) ← _MsgQueueGet (MQ_heap M) q (mem_at M pvMsgBuffer) stMaxByteSize;
  let M := set_mem pvMsgBuffer b (set_size pstMsgLen n (set_queue p q (set_k k M))) in
  if negb (_EventWaitNum (MQ_k M) EVENT_MSG_Q_S pevent =? 0) then
    '(k, _) ← event_ready (MQ_k M) pevent EVENT_MSG_Q_S LW_NULL LW_THREAD_STATUS_MSGQUEUE LW_SCHED_ACT_INTERRUPT;
    Some (set_k k M)
  else Some M.

(** There is no message: the caller gives up or waits, with its buffer in its control block. *)
Definition msg_wait (M : MQ) (ptcbCur pevent pvMsgBuffer stMaxByteSize pstMsgLen ulTimeout : Z)
    : option (MQ * PEND) :=
  E ← K_event (MQ_k M) !! pevent;
  if ulTimeout =? LW_OPTION_NOT_WAIT then Some (M, Return ERROR_THREAD_WAIT_TIMEOUT)
  else
    let M := set_recv ptcbCur (mkRecv pstMsgLen stMaxByteSize pvMsgBuffer (TCB_ulRecvOption (recv_at M ptcbCur))) M in
    k ← event_pend (MQ_k M) ptcbCur pevent EVENT_MSG_Q_R LW_THREAD_STATUS_MSGQUEUE ulTimeout;
    Some (set_k k M, Wait (EVENT_ulOption E)).

(** [pvMsgBuffer] and [pstMsgLen] are addresses, the latter that of a local variable when
    the caller passes none; [truncate] is that a message too long for the
    buffer is accepted. *)
Definition recv_again (ulRecvOption : Z) (truncate : bool) (M : MQ) (ptcbCur ulId pvMsgBuffer stMaxByteSize
    pstMsgLen ulTimeout : Z) : option (MQ * PEND) :=
  err ← recv_check M ulId ((pvMsgBuffer =? LW_NULL) || (stMaxByteSize =? 0));
  if negb (err =? ERROR_NONE) then Some (M, Return err)
  else
    let pevent := _ObjectGetIndex ulId in
    let M := set_recv ptcbCur (set_TCB_ulRecvOption ulRecvOption (recv_at M ptcbCur)) M in
    E ← K_event (MQ_k M) !! pevent;
    if negb (EVENT_ulCounter E =? 0) then
      '(_, q) ← queue_at M pevent;
      toobig ← (if truncate then Some false
                else n ← _MsgQueueMsgLen q; Some ((stMaxByteSize <? n) && negb (has_option ulRecvOption LW_OPTION_NOERROR)));
      if (toobig : bool) then Some (M, Return E2BIG)
      else M ← msg_take M pevent pvMsgBuffer stMaxByteSize pstMsgLen; Some (M, Return ERROR_NONE)
    else msg_wait M ptcbCur pevent pvMsgBuffer stMaxByteSize pstMsgLen ulTimeout.

Definition API_MsgQueueReceive (M : MQ) (c : CALL) (ulId pvMsgBuffer stMaxByteSize pstMsgLen ulTimeout : Z)
    : option (MQ * PEND) :=
  if negb (LW_CPU_GET_CUR_NESTING c =? 0) then Some (M, Return ERROR_KERNEL_IN_ISR)
  else recv_again LW_OPTION_NOERROR true M (LW_TCB_GET_CUR c) ulId pvMsgBuffer stMaxByteSize pstMsgLen ulTimeout.

Definition API_MsgQueueReceiveEx (M : MQ) (c : CALL) (ulId pvMsgBuffer stMaxByteSize pstMsgLen ulTimeout ulOption : Z)
    : option (MQ * PEND) :=
  if negb (LW_CPU_GET_CUR_NESTING c =? 0) then Some (M, Return ERROR_KERNEL_IN_ISR)
  else recv_again ulOption false M (LW_TCB_GET_CUR c) ulId pvMsgBuffer stMaxByteSize pstMsgLen ulTimeout.

(** The rest of a receive that waited; [ok] is what it returns when the wait ended well. *)
Definition recv_resume (again : Z -> option (MQ * PEND)) (ok : Z) (M : MQ)
    (ptcbCur ulKernelTime ulTimeSave ulTimeout ulEventOption iSchedRet : Z) : option (MQ * PEND) :=
  if negb (iSchedRet =? 0) then
    if (iSchedRet =? LW_SIGNAL_EINTR) && has_option ulEventOption LW_OPTION_SIGNAL_INTER
    then Some (M, Return EINTR)
    else
      let ulTimeout := _sigTimeoutRecalc ulKernelTime ulTimeSave ulTimeout in
      if ulTimeout =? LW_OPTION_NOT_WAIT then Some (M, Return ERROR_THREAD_WAIT_TIMEOUT)
      else again ulTimeout
  else
    w ← K_wait (MQ_k M) !! ptcbCur;
    Some (M, Return (if TCB_ucWaitTimeout w =? LW_WAIT_TIME_OUT then ERROR_THREAD_WAIT_TIMEOUT
                     else if TCB_ucIsEventDelete w =? LW_EVENT_EXIST then ok
                     else ERROR_MSGQUEUE_WAS_DELETED)).

Definition API_MsgQueueReceive_resume (M : MQ) (ptcbCur ulId pvMsgBuffer stMaxByteSize pstMsgLen ulKernelTime
    ulTimeSave ulTimeout ulEventOption iSchedRet : Z) : option (MQ * PEND) :=
  recv_resume (recv_again LW_OPTION_NOERROR true M ptcbCur ulId pvMsgBuffer stMaxByteSize pstMsgLen) ERROR_NONE M
    ptcbCur ulKernelTime ulTimeSave ulTimeout ulEventOption iSchedRet.

Definition API_MsgQueueReceiveEx_resume (M : MQ) (ptcbCur ulId pvMsgBuffer stMaxByteSize pstMsgLen ulOption
    ulKernelTime ulTimeSave ulTimeout ulEventOption iSchedRet : Z) : option (MQ * PEND) :=
  recv_resume (recv_again ulOption false M ptcbCur ulId pvMsgBuffer stMaxByteSize pstMsgLen)
    (if (default 0 (MQ_size M !! pstMsgLen) =? 0) && (TCB_stMaxByteSize (recv_at M ptcbCur) =? 0)
     then E2BIG else ERROR_NONE)
    M ptcbCur ulKernelTime ulTimeSave ulTimeout ulEventOption iSchedRet.

Definition API_MsgQueueTryReceive (M : MQ) (ulId pvMsgBuffer stMaxByteSize pstMsgLen : Z) : option (MQ * Z) :=
  err ← recv_check M ulId (pvMsgBuffer =? LW_NULL);
  if negb (err =? ERROR_NONE) then Some (M, err)
  else
    let pevent := _ObjectGetIndex ulId in
    E ← K_event (MQ_k M) !! pevent;
    if negb (EVENT_ulCounter E =? 0) then
      M ← msg_take M pevent pvMsgBuffer stMaxByteSize pstMsgLen; Some (M, ERROR_NONE)
    else Some (M, ERROR_THREAD_WAIT_TIMEOUT).

(** ** Clear and flush *)

Definition API_MsgQueueClear (M : MQ) (ulId : Z) : option (MQ * Z) :=
  err ← msg_check M ulId;
  if negb (err =? ERROR_NONE) then Some (M, err)
  else
    let pevent := _ObjectGetIndex ulId in
    E ← K_event (MQ_k M) !! pevent;
    '(p, q) ← queue_at M pevent;
    q ← _MsgQueueClear (MQ_heap M) q (EVENT_ulMaxCounter E);
    let M := set_queue p q (set_k (upd_event pevent (set_EVENT_ulCounter 0) (MQ_k M)) M) in
    k ← flush_loop LW_THREAD_STATUS_MSGQUEUE (wait_fuel M EVENT_MSG_Q_S pevent) (MQ_k M) pevent EVENT_MSG_Q_S;
    Some (set_k k M, ERROR_NONE).

(** Result: also [*pulThreadUnblockNum], when it is written. *)
Definition API_MsgQueueFlushSend (M : MQ) (ulId : Z) : option (MQ * Z * option Z) :=
  err ← msg_check M ulId;
  if negb (err =? ERROR_NONE) then Some (M, err, None)
  else
    let pevent := _ObjectGetIndex ulId in
    k ← flush_loop LW_THREAD_STATUS_MSGQUEUE (wait_fuel M EVENT_MSG_Q_S pevent) (MQ_k M) pevent EVENT_MSG_Q_S;
    Some (set_k k M, ERROR_NONE, Some (_EventWaitNum (MQ_k M) EVENT_MSG_Q_S pevent)).

(** The woken receivers see an empty message. *)
Fixpoint flush_recv_loop (n : nat) (M : MQ) (pevent : Z) : option MQ :=
  match n with
  | O => None
  | S n =>
    if _EventWaitNum (MQ_k M) EVENT_MSG_Q_R pevent =? 0 then Some M
    else
      '(k, ptcb) ← event_take (MQ_k M) pevent EVENT_MSG_Q_R LW_NULL;
      let M := set_size (TCB_pstMsgByteSize (recv_at M ptcb)) 0 M in
      k ← _EventReadyHighLevel k ptcb LW_THREAD_STATUS_MSGQUEUE LW_SCHED_ACT_OTHER;
      flush_recv_loop n (set_k k M) pevent
  end.

Definition API_MsgQueueFlushReceive (M : MQ) (ulId : Z) : option (MQ * Z * option Z) :=
  err ← msg_check M ulId;
  if negb (err =? ERROR_NONE) then Some (M, err, None)
  else
    let pevent := _ObjectGetIndex ulId in
    M' ← flush_recv_loop (wait_fuel M EVENT_MSG_Q_R pevent) M pevent;
    Some (M', ERROR_NONE, Some (_EventWaitNum (MQ_k M) EVENT_MSG_Q_R pevent)).

Definition API_MsgQueueFlush (M : MQ) (ulId : Z) : option (MQ * Z * option Z) :=
  '(M, ulError, ulSend) ← API_MsgQueueFlushSend M ulId;
  if negb (ulError =? ERROR_NONE) then Some (M, ulError, None)
  else
    '(M, ulError, ulReceive) ← API_MsgQueueFlushReceive M ulId;
    if negb (ulError =? ERROR_NONE) then Some (M, ulError, None)
    else Some (M, ERROR_NONE, Some (default 0 ulSend +64 default 0 ulReceive)).

(** ** Creation and deletion *)

Definition msgqueue_fields (ulMaxMsgCounter ulOption pmsgqueue : Z) (E : LW_CLASS_EVENT) : LW_CLASS_EVENT :=
  mkEvent LW_TYPE_EVENT_MSGQUEUE None 0 ulMaxMsgCounter (EVENT_iStatus E) ulOption
    (EVENT_ucCeilingPriority E) pmsgqueue.

(** The size of the buffer of a queue. *)
Definition msgqueue_bytes (ulMaxMsgCounter stMaxMsgByteSize : Z) : Z :=
  wrap 64 (ulMaxMsgCounter * (align_msg stMaxMsgByteSize +64 sizeof_MSGNODE)).

Definition set_MSGQUEUE_buffer (pvBuffer stMaxBytes : Z) (q : LW_CLASS_MSGQUEUE) : LW_CLASS_MSGQUEUE :=
  mkMsgQueue (MSGQUEUE_pmonoFree q) (MSGQUEUE_pmono q) (MSGQUEUE_uiMap q) pvBuffer stMaxBytes ∅.

(** [kheap n] is the address [__KHEAP_ALLOC(n)] returns, [None] for NULL.  The bytes of
    a new block are those of no node yet. *)
Definition API_MsgQueueCreate (kheap : Z -> option Z) (M : MQ) (c : CALL) (pcName : option (list Z))
    (ulMaxMsgCounter stMaxMsgByteSize ulOption : Z) : option (MQ * Z * Z) :=
  if negb (LW_CPU_GET_CUR_NESTING c =? 0) then Some (M, LW_OBJECT_HANDLE_INVALID, ERROR_KERNEL_IN_ISR)
  else if ulMaxMsgCounter =? 0 then Some (M, LW_OBJECT_HANDLE_INVALID, ERROR_MSGQUEUE_MAX_COUNTER_NULL)
  else if stMaxMsgByteSize =? 0 then Some (M, LW_OBJECT_HANDLE_INVALID, ERROR_MSGQUEUE_MAX_LEN_NULL)
  else if _Object_Name_Invalid pcName then Some (M, LW_OBJECT_HANDLE_INVALID, ERROR_KERNEL_PNAME_TOO_LONG)
  else match _Allocate_MsgQueue_Object (MQ_resrc M) with
  | None => Some (M, LW_OBJECT_HANDLE_INVALID, ERROR_MSGQUEUE_FULL)
  | Some (r, pmsgqueue) =>
    let M := set_mresrc r M in
    match _Allocate_Event_Object (K_resrcEvent (MQ_k M)) with
    | None => Some (set_mresrc (_Free_MsgQueue_Object r pmsgqueue) M, LW_OBJECT_HANDLE_INVALID, ERROR_KERNEL_LOW_MEMORY)
    | Some (re, pevent) =>
      let M := set_k (set_resrc re (MQ_k M)) M in
      let stHeapAllocateByteSize := msgqueue_bytes ulMaxMsgCounter stMaxMsgByteSize in
      match kheap stHeapAllocateByteSize with
      | None =>
        Some (set_k (set_resrc (_Free_Event_Object re pevent) (MQ_k M)) (set_mresrc (_Free_MsgQueue_Object r pmsgqueue) M),
              LW_OBJECT_HANDLE_INVALID, ERROR_KERNEL_LOW_MEMORY)
      | Some pvMemAllocate =>
        let M := set_heap (<[pvMemAllocate := stHeapAllocateByteSize]> (MQ_heap M)) M in
        q ← MQ_queue M !! pmsgqueue;
        q ← _MsgQueueClear (MQ_heap M) (set_MSGQUEUE_buffer pvMemAllocate stMaxMsgByteSize q) ulMaxMsgCounter;
        let M := set_queue pmsgqueue q M in
        Some (set_k (event_init (MQ_k M) pevent (msgqueue_fields ulMaxMsgCounter ulOption pmsgqueue)) M,
              _MakeObjectId _OBJECT_MSGQUEUE LW_CFG_PROCESSOR_NUMBER pevent, ERROR_NONE)
      end
    end
  end.

(** Result: the error code and the handle the caller is left with. *)
Definition API_MsgQueueDelete (M : MQ) (c : CALL) (ulId : Z) : option (MQ * Z * Z) :=
  if negb (LW_CPU_GET_CUR_NESTING c =? 0) then Some (M, ERROR_KERNEL_IN_ISR, ulId)
  else
    err ← msg_check M ulId;
    if negb (err =? ERROR_NONE) then Some (M, err, ulId)
    else
      let pevent := _ObjectGetIndex ulId in
      let k := upd_event pevent (set_EVENT_ucType LW_TYPE_EVENT_UNUSED) (MQ_k M) in
      k ← delete_waiters LW_THREAD_STATUS_MSGQUEUE k pevent EVENT_MSG_Q_R;
      k ← delete_waiters LW_THREAD_STATUS_MSGQUEUE k pevent EVENT_MSG_Q_S;
      let k := upd_event pevent (set_EVENT_pvTcbOwn None) k in
      let M := set_k k M in
      '(p, q) ← queue_at M pevent;
      let pvFreeLowAddr := MSGQUEUE_pvBuffer q in
      let M := set_k (set_resrc (_Free_Event_Object (K_resrcEvent k) pevent) k) M in
      let M := set_mresrc (_Free_MsgQueue_Object (MQ_resrc M) p) M in
      _ ← MQ_heap M !! pvFreeLowAddr;
      Some (set_heap (delete pvFreeLowAddr (MQ_heap M)) M, ERROR_NONE, LW_OBJECT_HANDLE_INVALID).

(** ** Status: capacity, messages, length of the next one, options, waiting threads and
    the maximal length *)

Definition API_MsgQueueStatusEx (M : MQ) (ulId : Z) : option (Z * option (Z * Z * Z * Z * Z * Z)) :=
  let pevent := _ObjectGetIndex ulId in
  err ← msg_check M ulId;
  if negb (err =? ERROR_NONE) then Some (err, None)
  else
    E ← K_event (MQ_k M) !! pevent;
    '(_, q) ← queue_at M pevent;
    n ← (if negb (EVENT_ulCounter E =? 0) then _MsgQueueMsgLen q else Some 0);
    Some (ERROR_NONE, Some (EVENT_ulMaxCounter E, EVENT_ulCounter E, n, EVENT_ulOption E,
      _EventWaitNum (MQ_k M) EVENT_MSG_Q_R pevent +64 _EventWaitNum (MQ_k M) EVENT_MSG_Q_S pevent,
      MSGQUEUE_stMaxBytes q)).

Definition API_MsgQueueStatus (M : MQ) (ulId : Z) : option (Z * option (Z * Z * Z * Z * Z)) :=
  let pevent := _ObjectGetIndex ulId in
  err ← msg_check M ulId;
  if negb (err =? ERROR_NONE) then Some (err, None)
  else
    E ← K_event (MQ_k M) !! pevent;
    '(_, q) ← queue_at M pevent;
    n ← (if negb (EVENT_ulCounter E =? 0) then _MsgQueueMsgLen q else Some 0);
    Some (ERROR_NONE, Some (EVENT_ulMaxCounter E, EVENT_ulCounter E, n, EVENT_ulOption E,
      _EventWaitNum (MQ_k M) EVENT_MSG_Q_R pevent +64 _EventWaitNum (MQ_k M) EVENT_MSG_Q_S pevent)).
