(* ===== verification/MsgStore.v ===== *)
(** * The message store refines a list of messages

    The nodes, lists and bitmap of a message queue (file MsgQueue) hold a list of
    messages sorted by urgency, in the order of arrival within one urgency.
    Putting inserts, getting takes the head, and every node is free or queued. *)

From S2P Require Import Prelude Lists Bitmap Kernel MsgQueue.

(** ** Families of lists indexed by urgency *)

Section Family.
Context {A : Type}.
Implicit Types f g : Z -> list A.

Definition flat (f : Z -> list A) (a : Z) (n : nat) : list A := mjoin (f <$> seqZ a (Z.of_nat n)).

Lemma flat_O f a : flat f a 0 = [].
Proof. done. Qed.
Lemma flat_S f a n : flat f a (S n) = f a ++ flat f (a + 1) n.
Proof.
  unfold flat. rewrite seqZ_cons by lia.
  replace (Z.succ a) with (a + 1) by lia. by replace (Z.pred (Z.of_nat (S n))) with (Z.of_nat n) by lia.
Qed.

Lemma flat_ext f g a n : (forall i, a <= i < a + Z.of_nat n -> f i = g i) -> flat f a n = flat g a n.
Proof.
  revert a. induction n as [|n IH]; intros a H; [done|]. rewrite !flat_S, H by lia. f_equal.
  apply IH. intros i Hi. apply H. lia.
Qed.

Lemma elem_of_flat f a n x : x ∈ flat f a n <-> exists i, a <= i < a + Z.of_nat n /\ x ∈ f i.
Proof.
  revert a. induction n as [|n IH]; intros a.
  - split; [intros H; by apply not_elem_of_nil in H|]. intros (i & Hi & _). lia.
  - rewrite flat_S, elem_of_app, IH. split.
    + intros [H|(i & Hi & H)]; [exists a|exists i]; (split; [lia|done]).
    + intros (i & Hi & H). destruct (decide (i = a)) as [->|Hne]; [by left|]. right. exists i. split; [lia|done].
Qed.

(** One member gains an element. *)
Lemma flat_perm f g a n p x : a <= p < a + Z.of_nat n -> (forall i, i <> p -> g i = f i) -> g p ≡ₚ x :: f p ->
  flat g a n ≡ₚ x :: flat f a n.
Proof.
  intros Hp Ho Hg. revert a Hp. induction n as [|n IH]; intros a Hp; [lia|]. rewrite !flat_S.
  destruct (decide (a = p)) as [->|Hne].
  - rewrite Hg. cbn. f_equiv. f_equiv. rewrite (flat_ext g f); [done|]. intros i Hi. apply Ho. lia.
  - rewrite Ho by done. rewrite IH by lia. symmetry. apply Permutation_middle.
Qed.

(** The first member that is not empty gives the head. *)
Lemma flat_head f g a n p x l : a <= p < a + Z.of_nat n -> (forall i, a <= i < p -> f i = []) -> f p = x :: l ->
  (forall i, i <> p -> g i = f i) -> g p = l -> flat f a n = x :: flat g a n.
Proof.
  intros Hp He Hf Ho Hg. revert a Hp He. induction n as [|n IH]; intros a Hp He; [lia|]. rewrite !flat_S.
  destruct (decide (a = p)) as [->|Hne].
  - rewrite Hf, Hg. cbn. do 2 f_equal. apply flat_ext. intros i Hi. symmetry. apply Ho. lia.
  - rewrite (Ho a) by done. rewrite (He a) by lia. cbn. apply IH; [lia|]. intros i Hi. apply He. lia.
Qed.
End Family.

Lemma flat_fmap {A B} (h : Z -> A -> B) (f : Z -> list A) a n :
  length (flat (fun i => h i <$> f i) a n) = length (flat f a n).
Proof. revert a. induction n as [|n IH]; intros a; [done|]. by rewrite !flat_S, !length_app, length_fmap, IH. Qed.

(** ** The abstract list *)

(** A message: its urgency, 0 the highest, and its bytes. *)
Abbreviation MSG := (Z * list Z)%type.

(** A message goes behind those at least as urgent. *)
Fixpoint msg_insert (p : Z) (m : list Z) (l : list MSG) : list MSG :=
  match l with
  | [] => [(p, m)]
  | x :: l' => if p <? x.1 then (p, m) :: l else x :: msg_insert p m l'
  end.

Lemma insert_skip p m l1 l2 : (forall x, x ∈ l1 -> x.1 <= p) -> msg_insert p m (l1 ++ l2) = l1 ++ msg_insert p m l2.
Proof.
  induction l1 as [|x l1 IH]; intros H; [done|]. cbn. rewrite (proj2 (Z.ltb_ge _ _)) by (apply H; left).
  f_equal. apply IH. intros y Hy. apply H. by right.
Qed.

Lemma insert_stop p m l : (forall x, x ∈ l -> p < x.1) -> msg_insert p m l = (p, m) :: l.
Proof. destruct l as [|x l]; intros H; [done|]. cbn. by rewrite (proj2 (Z.ltb_lt _ _)) by (apply H; left). Qed.

Lemma length_insert p m l : length (msg_insert p m l) = S (length l).
Proof. induction l as [|x l IH]; [done|]. cbn. destruct (p <? x.1); [done|]. cbn. by rewrite IH. Qed.

(** Members of the family carry their own index. *)
Lemma flat_insert (f g : Z -> list MSG) a n p m : a <= p < a + Z.of_nat n -> (forall i x, x ∈ f i -> x.1 = i) ->
  (forall i, i <> p -> g i = f i) -> g p = f p ++ [(p, m)] -> flat g a n = msg_insert p m (flat f a n).
Proof.
  intros Hp Hi Ho Hg. revert a Hp. induction n as [|n IH]; intros a Hp; [lia|]. rewrite !flat_S.
  rewrite insert_skip by (intros x Hx%Hi; lia). destruct (decide (a = p)) as [->|Hne].
  - rewrite Hg, insert_stop, <-app_assoc.
    + cbn. do 2 f_equal. apply flat_ext. intros i Hr. apply Ho. lia.
    + intros x (i & Hr & Hx)%elem_of_flat. apply Hi in Hx. lia.
  - rewrite Ho by done. f_equal. apply IH. lia.
Qed.

(** ** The store *)

Definition lists (q : LW_CLASS_MSGQUEUE) (i : Z) : list Z := default [] (MSGQUEUE_pmono q !! i).
Definition queued (q : LW_CLASS_MSGQUEUE) : list Z := flat (lists q) 0 8.

(** The bytes of the message in a node. *)
Definition node_msg (q : LW_CLASS_MSGQUEUE) (n : Z) : list Z :=
  match MSGQUEUE_node q !! n with
  | Some d => take (Z.to_nat (MSGNODE_stMsgLen d)) (MSGNODE_data d)
  | None => []
  end.
Definition urgent (q : LW_CLASS_MSGQUEUE) (i : Z) : list MSG := (fun n => (i, node_msg q n)) <$> lists q i.

(** The list of messages of a queue. *)
Definition msgs (q : LW_CLASS_MSGQUEUE) : list MSG := flat (urgent q) 0 8.

(** The addresses of the nodes of a buffer, and the room one takes. *)
Definition node_room (q : LW_CLASS_MSGQUEUE) : Z := sizeof_MSGNODE + align_msg (MSGQUEUE_stMaxBytes q).
Definition node_at (q : LW_CLASS_MSGQUEUE) (i : Z) : Z := MSGQUEUE_pvBuffer q + i * node_room q.
Definition buffer_nodes (q : LW_CLASS_MSGQUEUE) (max : Z) : list Z := node_at q <$> seqZ 0 max.

Record store_ok (h : gmap Z Z) (q : LW_CLASS_MSGQUEUE) (max : Z) : Prop := {
  so_max : 0 < max;
  so_bytes : 0 < MSGQUEUE_stMaxBytes q <= align_msg (MSGQUEUE_stMaxBytes q);
  so_block : exists s, h !! MSGQUEUE_pvBuffer q = Some s /\ max * node_room q <= s;
  so_addr : 0 <= MSGQUEUE_pvBuffer q /\ MSGQUEUE_pvBuffer q + max * node_room q <= 2 ^ 64;
  so_nodes : MSGQUEUE_pmonoFree q ++ queued q ≡ₚ buffer_nodes q max;
  so_lists : forall i, is_Some (MSGQUEUE_pmono q !! i) <-> 0 <= i < 8;
  so_map : 0 <= MSGQUEUE_uiMap q < 2 ^ 8;
  so_bits : forall i, 0 <= i < 8 -> Z.testbit (MSGQUEUE_uiMap q) i = negb (bool_decide (lists q i = []));
  so_data : forall n, n ∈ queued q -> exists d, MSGQUEUE_node q !! n = Some d /\
    0 < MSGNODE_stMsgLen d <= MSGQUEUE_stMaxBytes q /\ MSGNODE_stMsgLen d <= Z.of_nat (length (MSGNODE_data d))
}.

Lemma length_msgs q : length (msgs q) = length (queued q).
Proof. apply flat_fmap. Qed.

Lemma node_room_pos h q max : store_ok h q max -> 16 < node_room q.
Proof. intros H. pose proof (so_bytes _ _ _ H). unfold node_room, sizeof_MSGNODE. lia. Qed.

Lemma buffer_NoDup h q max : store_ok h q max -> NoDup (buffer_nodes q max).
Proof.
  intros H. pose proof (node_room_pos _ _ _ H). apply NoDup_fmap_2_strong; [|apply NoDup_seqZ].
  intros i j _ _ E. unfold node_at in E. nia.
Qed.

Lemma store_NoDup h q max : store_ok h q max -> NoDup (MSGQUEUE_pmonoFree q ++ queued q).
Proof. intros H. rewrite (so_nodes _ _ _ H). by eapply buffer_NoDup. Qed.

(** A node is where the block is. *)
Lemma node_in_block h q max n len : store_ok h q max -> n ∈ buffer_nodes q max ->
  0 <= len <= align_msg (MSGQUEUE_stMaxBytes q) -> in_block h (MSGQUEUE_pvBuffer q) n (sizeof_MSGNODE + len) = true.
Proof.
  intros H (i & -> & Hi%elem_of_seqZ)%list_elem_of_fmap Hl. destruct (so_block _ _ _ H) as (s & E & Hs).
  unfold in_block. rewrite E. pose proof (node_room_pos _ _ _ H). unfold node_at.
  assert (i * node_room q + node_room q <= max * node_room q) by nia.
  unfold node_room in *. apply andb_true_iff. split; apply Z.leb_le; nia.
Qed.

Lemma node_of_queue h q max n : store_ok h q max -> n ∈ queued q -> n ∈ buffer_nodes q max.
Proof. intros H Hn. rewrite <-(so_nodes _ _ _ H). apply elem_of_app. by right. Qed.
Lemma node_of_free h q max n : store_ok h q max -> n ∈ MSGQUEUE_pmonoFree q -> n ∈ buffer_nodes q max.
Proof. intros H Hn. rewrite <-(so_nodes _ _ _ H). apply elem_of_app. by left. Qed.

Lemma length_nodes h q max : store_ok h q max ->
  Z.of_nat (length (MSGQUEUE_pmonoFree q)) + Z.of_nat (length (msgs q)) = max.
Proof.
  intros H. pose proof (so_max _ _ _ H). pose proof (so_nodes _ _ _ H) as E%Permutation_length.
  rewrite length_app in E. unfold buffer_nodes in E. rewrite length_fmap, length_seqZ in E. rewrite length_msgs. lia.
Qed.

Lemma lists_lookup h q max i : store_ok h q max -> 0 <= i < 8 -> MSGQUEUE_pmono q !! i = Some (lists q i).
Proof. intros H Hi. apply (so_lists _ _ _ H) in Hi as [l E]. unfold lists. by rewrite E. Qed.

(** ** Copies *)

Lemma memcpy_spec dst src n : 0 <= n <= Z.of_nat (length src) ->
  lib_memcpy dst src n = Some (take (Z.to_nat n) src ++ drop (Z.to_nat n) dst).
Proof. intros H. unfold lib_memcpy. by rewrite (proj2 (Z.leb_le _ _)) by lia. Qed.

(** ** The bitmap *)

Lemma bit_one i j : 0 <= i -> 0 <= j -> Z.testbit (Z.shiftl 1 i) j = bool_decide (j = i).
Proof.
  intros Hi Hj. rewrite Z.shiftl_1_l, Z.pow2_bits_eqb by lia. destruct (Z.eqb_spec i j) as [->|Hne].
  - by rewrite bool_decide_eq_true_2.
  - rewrite bool_decide_eq_false_2; [done|lia].
Qed.

Lemma small_testbit x n : 0 <= n -> 0 <= x -> (forall i, n <= i -> Z.testbit x i = false) -> 0 <= x < 2 ^ n.
Proof.
  intros Hn Hx H. split; [done|]. destruct (Z.lt_ge_cases x (2 ^ n)) as [|Hge]; [done|]. exfalso.
  assert (Hp : 0 < x) by (pose proof (Z.pow_pos_nonneg 2 n); lia).
  assert (Hl : n <= Z.log2 x) by (apply Z.log2_le_pow2; lia). specialize (H _ Hl).
  rewrite Z.bit_log2 in H by done. done.
Qed.

Lemma map_set m i : 0 <= i < 8 -> 0 <= m < 2 ^ 8 -> 0 <= Z.lor m (Z.shiftl 1 i) < 2 ^ 8.
Proof.
  intros Hi Hm. apply small_testbit; [lia|apply Z.lor_nonneg; split; [lia|]; apply Z.shiftl_nonneg; lia|].
  intros j Hj. rewrite Z.lor_spec, bit_one, bool_decide_eq_false_2, orb_false_r by lia.
  destruct (decide (m = 0)) as [->|]; [apply Z.bits_0|]. apply Z.bits_above_log2; [lia|].
  assert (Z.log2 m < 8); [|lia]. apply Z.log2_lt_pow2; lia.
Qed.

Lemma map_clear m i : 0 <= m < 2 ^ 8 -> 0 <= Z.ldiff m (Z.shiftl 1 i) < 2 ^ 8.
Proof.
  intros Hm. apply small_testbit; [lia|apply Z.ldiff_nonneg; left; lia|].
  intros j Hj. rewrite Z.ldiff_spec. 
  destruct (decide (m = 0)) as [->|]; [by rewrite Z.bits_0|]. rewrite Z.bits_above_log2; [done|lia|].
  assert (Z.log2 m < 8); [|lia]. apply Z.log2_lt_pow2; lia.
Qed.

(** ** Clearing *)

Lemma clear_nodes_spec h b al s n i free : h !! b = Some s -> 0 <= b -> 0 <= al -> 0 <= i ->
  (i + Z.of_nat n) * (16 + al) <= s -> b + (i + Z.of_nat n) * (16 + al) <= 2 ^ 64 ->
  exists free', clear_nodes h b al n (wrap 64 (b + i * (16 + al))) free = Some free' /\
    free' ≡ₚ ((fun j => b + j * (16 + al)) <$> seqZ i (Z.of_nat n)) ++ free.
Proof.
  intros Hb H0 Hal. revert i free. induction n as [|n IH]; intros i free Hi Hs Ha; cbn [clear_nodes].
  { by exists free. }
  assert (Hm : i * (16 + al) + (16 + al) <= (i + Z.of_nat (S n)) * (16 + al)) by nia.
  assert (Hm0 : 0 <= i * (16 + al)) by nia.
  rewrite (wrap_small 64 (b + i * (16 + al))) by lia. unfold in_block. rewrite Hb.
  rewrite (proj2 (Z.leb_le b _)), (proj2 (Z.leb_le (_ + 8) _)) by lia. cbn [andb].
  assert (En : b + i * (16 + al) +64 sizeof_MSGNODE +64 al = wrap 64 (b + (i + 1) * (16 + al))).
  { unfold wrap, sizeof_MSGNODE. rewrite Zplus_mod_idemp_l. f_equal. lia. }
  rewrite En. destruct (IH (i + 1) ((b + i * (16 + al)) :: free)) as (free' & E & Hf).
  { lia. }
  { by replace (i + 1 + Z.of_nat n) with (i + Z.of_nat (S n)) by lia. }
  { by replace (i + 1 + Z.of_nat n) with (i + Z.of_nat (S n)) by lia. }
  exists free'. split; [done|]. rewrite Hf, (seqZ_cons i (Z.of_nat (S n))) by lia. cbn.
  replace (Z.succ i) with (i + 1) by lia. replace (Z.pred (Z.of_nat (S n))) with (Z.of_nat n) by lia.
  symmetry. apply Permutation_middle.
Qed.

Lemma empty_lookup i : empty_lists !! i = if decide (0 <= i < 8) then Some [] else None.
Proof.
  unfold empty_lists. case_decide as Hi.
  - apply elem_of_list_to_map_1.
    + rewrite <-list_fmap_compose. cbn. rewrite list_fmap_id. apply NoDup_seqZ.
    + apply list_elem_of_fmap. exists i. split; [done|]. by apply elem_of_seqZ.
  - apply not_elem_of_list_to_map_1. intros ([j l] & -> & (j' & [= -> ->] & Hj%elem_of_seqZ)%list_elem_of_fmap)%list_elem_of_fmap.
    cbn in Hi. unfold EVENT_MSG_Q_PRIO in Hj. lia.
Qed.

Lemma clear_spec h q max : 0 < max -> 0 < MSGQUEUE_stMaxBytes q <= align_msg (MSGQUEUE_stMaxBytes q) ->
  (exists s, h !! MSGQUEUE_pvBuffer q = Some s /\ max * node_room q <= s) ->
  0 <= MSGQUEUE_pvBuffer q /\ MSGQUEUE_pvBuffer q + max * node_room q <= 2 ^ 64 ->
  exists q', _MsgQueueClear h q max = Some q' /\ store_ok h q' max /\ msgs q' = [] /\
    MSGQUEUE_pvBuffer q' = MSGQUEUE_pvBuffer q /\ MSGQUEUE_stMaxBytes q' = MSGQUEUE_stMaxBytes q.
Proof.
  intros Hmax Hb (s & Hs & Hle) [H0 Ha]. unfold _MsgQueueClear.
  destruct (clear_nodes_spec h (MSGQUEUE_pvBuffer q) (align_msg (MSGQUEUE_stMaxBytes q)) s (Z.to_nat max) 0 [])
    as (free & E & Hf); try done; try lia.
  { unfold node_room, sizeof_MSGNODE in Hle. lia. }
  { unfold node_room, sizeof_MSGNODE in Ha. lia. }
  pose proof (node_room q) as _. assert (Hr : node_room q = 16 + align_msg (MSGQUEUE_stMaxBytes q)) by done.
  rewrite Z.mul_0_l, Z.add_0_r, wrap_small in E by nia. rewrite E. cbn [mbind option_bind].
  set (q' := mkMsgQueue _ _ _ _ _ _). assert (Hl : forall i, lists q' i = []).
  { intros i. unfold lists. cbn. rewrite empty_lookup. by case_decide. }
  assert (Hq : queued q' = []).
  { unfold queued. rewrite (flat_ext _ (fun _ => [])); [done|]. intros. apply Hl. }
  exists q'. split; [done|]. split; [|split; [|done]].
  - split; try done.
    + by exists s.
    + rewrite Hq, app_nil_r. cbn [MSGQUEUE_pmonoFree q']. rewrite Hf, app_nil_r, Z2Nat.id by lia. done.
    + intros i. cbn [MSGQUEUE_pmono q']. rewrite empty_lookup. case_decide; [by split; [|eexists]|].
      split; [by intros [? ?]|done].
    + intros i Hi. cbn [MSGQUEUE_uiMap q']. by rewrite Z.bits_0, Hl.
    + intros n. rewrite Hq. by intros ?%not_elem_of_nil.
  - apply nil_length_inv. by rewrite length_msgs, Hq.
Qed.

(** ** Putting *)

Lemma urgent_index q i x : x ∈ urgent q i -> x.1 = i.
Proof. by intros (y & -> & _)%list_elem_of_fmap. Qed.

Lemma lists_outside h q max i : store_ok h q max -> ~ (0 <= i < 8) -> lists q i = [].
Proof.
  intros H Hi. unfold lists. destruct (MSGQUEUE_pmono q !! i) eqn:E; [|done].
  exfalso. apply Hi, (so_lists _ _ _ H). by eexists.
Qed.

(** Writing a node that is not queued changes no message. *)
Lemma urgent_frame h q q' max i n d : store_ok h q max -> n ∉ queued q -> MSGQUEUE_node q' = <[n := d]> (MSGQUEUE_node q) ->
  (fun m => (i, node_msg q' m)) <$> lists q i = urgent q i.
Proof.
  intros H Hn E. apply list_fmap_ext. intros j y Hy. f_equal. unfold node_msg. rewrite E.
  rewrite lookup_insert_ne; [done|]. intros ->. apply Hn, elem_of_flat. exists i.
  destruct (decide (0 <= i < 8)) as [Hr|Hr]; [|by rewrite (lists_outside h q max) in Hy].
  split; [lia|]. by eapply list_elem_of_lookup_2.
Qed.

(** The bitmap after one list has grown. *)
Lemma put_bits h q max p i : store_ok h q max -> 0 <= p < 8 -> 0 <= i < 8 ->
  Z.testbit (match lists q p with [] => Z.lor (MSGQUEUE_uiMap q) (Z.shiftl 1 p) | _ => MSGQUEUE_uiMap q end) i
  = bool_decide (i = p) || negb (bool_decide (lists q i = [])).
Proof.
  intros H Hp Hi. pose proof (so_bits _ _ _ H i Hi) as Hb. rewrite <-Hb. destruct (lists q p) eqn:E.
  - by rewrite Z.lor_spec, bit_one, orb_comm by lia.
  - destruct (decide (i = p)) as [->|Hne]; [|by rewrite bool_decide_eq_false_2].
    rewrite Hb, E, (bool_decide_eq_true_2 (p = p)) by done. done.
Qed.

Section Put.
Context (h : gmap Z Z) (q : LW_CLASS_MSGQUEUE) (max p n : Z) (free : list Z) (d : LW_CLASS_MSGNODE).
Context (Hok : store_ok h q max) (Hp : 0 <= p < 8) (Hfree : MSGQUEUE_pmonoFree q = n :: free).
Context (Hd : 0 < MSGNODE_stMsgLen d <= MSGQUEUE_stMaxBytes q /\ MSGNODE_stMsgLen d <= Z.of_nat (length (MSGNODE_data d))).

(** The queue with node [n], holding [d], at the end of list [p]. *)
Definition put_result : LW_CLASS_MSGQUEUE :=
  mkMsgQueue free (<[p := lists q p ++ [n]]> (MSGQUEUE_pmono q))
    (match lists q p with [] => Z.lor (MSGQUEUE_uiMap q) (Z.shiftl 1 p) | _ => MSGQUEUE_uiMap q end)
    (MSGQUEUE_pvBuffer q) (MSGQUEUE_stMaxBytes q) (<[n := d]> (MSGQUEUE_node q)).

Lemma put_lists i : lists put_result i = if decide (i = p) then lists q p ++ [n] else lists q i.
Proof. unfold lists. cbn [put_result MSGQUEUE_pmono]. rewrite lookup_insert. by repeat case_decide; subst. Qed.

Lemma put_fresh : n ∉ queued q.
Proof.
  pose proof (store_NoDup _ _ _ Hok) as Hnd. rewrite Hfree in Hnd. apply NoDup_cons in Hnd as [Hn _].
  intros Hq. apply Hn, elem_of_app. by right.
Qed.

Lemma put_queued : queued put_result ≡ₚ n :: queued q.
Proof.
  apply (flat_perm (lists q) (lists put_result) 0 8 p n); [lia| |].
  - intros i Hi. by rewrite put_lists, decide_False.
  - rewrite put_lists, decide_True by done. by rewrite Permutation_app_comm.
Qed.

Lemma put_ok : store_ok h put_result max.
Proof.
  split; try apply Hok.
  - cbn [MSGQUEUE_pmonoFree put_result]. rewrite put_queued, <-Permutation_middle.
    pose proof (so_nodes _ _ _ Hok) as E. by rewrite Hfree in E.
  - intros i. cbn [MSGQUEUE_pmono put_result]. rewrite lookup_insert_is_Some', (so_lists _ _ _ Hok). split; [|tauto].
    by intros [<-|?].
  - cbn [MSGQUEUE_uiMap put_result]. destruct (lists q p); [|apply Hok]. apply map_set; [done|apply Hok].
  - intros i Hi. cbn [MSGQUEUE_uiMap put_result]. rewrite (put_bits h q max), put_lists by done. case_decide as Ei.
    + rewrite bool_decide_eq_true_2 by done. symmetry. apply negb_true_iff, bool_decide_eq_false_2. by destruct (lists q p).
    + by rewrite bool_decide_eq_false_2.
  - intros m. rewrite put_queued, elem_of_cons. cbn [MSGQUEUE_node put_result MSGQUEUE_stMaxBytes]. intros [->|Hm].
    + exists d. by rewrite lookup_insert_eq.
    + destruct (so_data _ _ _ Hok m Hm) as (d' & E & Hd'). exists d'. split; [|done].
      rewrite lookup_insert_ne; [done|]. intros Em. apply put_fresh. by rewrite Em.
Qed.

Lemma put_msgs : msgs put_result = msg_insert p (take (Z.to_nat (MSGNODE_stMsgLen d)) (MSGNODE_data d)) (msgs q).
Proof.
  pose proof put_fresh as Hn. apply flat_insert; [lia|apply urgent_index| |].
  - intros i Hi. unfold urgent at 1. rewrite put_lists, decide_False by done. by eapply (urgent_frame h).
  - unfold urgent at 1. rewrite put_lists, decide_True, fmap_app by done. f_equal; [by eapply (urgent_frame h)|].
    cbn. unfold node_msg. cbn [MSGQUEUE_node put_result]. by rewrite lookup_insert_eq.
Qed.
End Put.

Lemma put_spec h q max buf len p : store_ok h q max -> Z.of_nat (length (msgs q)) < max ->
  0 < len <= MSGQUEUE_stMaxBytes q -> len <= Z.of_nat (length buf) -> 0 <= p < 8 ->
  exists q', _MsgQueuePut h q buf len p = Some q' /\ store_ok h q' max /\
    msgs q' = msg_insert p (take (Z.to_nat len) buf) (msgs q) /\
    MSGQUEUE_pvBuffer q' = MSGQUEUE_pvBuffer q /\ MSGQUEUE_stMaxBytes q' = MSGQUEUE_stMaxBytes q.
Proof.
  intros Hok Hroom Hlen Hbuf Hp. pose proof (length_nodes h q max Hok) as Hln. unfold _MsgQueuePut.
  pose proof (so_bytes _ _ _ Hok) as Hbytes.
  destruct (MSGQUEUE_pmonoFree q) as [|n free] eqn:Ef; [simpl in Hln; lia|].
  assert (Hn : n ∈ buffer_nodes q max) by (eapply node_of_free; [done|rewrite Ef; left]).
  rewrite (node_in_block h q max n len Hok Hn) by lia.
  rewrite (proj2 (Z.leb_le _ _)) by lia. cbn [andb]. rewrite memcpy_spec by lia. cbn [mbind option_bind].
  rewrite (lists_lookup h q max p Hok Hp). cbn [mbind option_bind].
  set (d := mkMsgNode _ _). exists (put_result q p n free d).
  split; [done|]. split; [|split; [|done]].
  - apply put_ok; try done. split; [done|]. cbn. rewrite length_app, length_take. lia.
  - rewrite (put_msgs h q max) by done. f_equal. cbn.
    rewrite take_app_le by (rewrite length_take; lia). by rewrite take_take, Nat.min_id.
Qed.

(** ** Getting *)

(** The lowest bit names the list of the first message. *)
Lemma head_spec h q max : store_ok h q max -> msgs q <> [] ->
  exists p n l, msg_head q = Some (p, n, l) /\ 0 <= p < 8 /\ lists q p = n :: l /\
    (forall i, 0 <= i < p -> lists q i = []).
Proof.
  intros Hok Hne. pose proof (so_map _ _ _ Hok) as Hm. unfold msg_head.
  destruct (archFindLsb_spec (MSGQUEUE_uiMap q)) as [[E0 _]|(p & -> & Hp & Hb & Hl)]; [lia| |].
  - destruct Hne. apply nil_length_inv. rewrite length_msgs. unfold queued.
    rewrite (flat_ext _ (fun _ => [])); [done|]. intros i Hi. pose proof (so_bits _ _ _ Hok i Hi) as Hbit.
    rewrite E0, Z.bits_0 in Hbit. symmetry in Hbit. by apply negb_false_iff, bool_decide_eq_true in Hbit.
  - replace (p + 1 - 1) with p by lia.
    assert (Hp8 : p < 8).
    { destruct (Z.lt_ge_cases p 8); [done|]. rewrite Z.bits_above_log2 in Hb; [done|lia|].
      assert (Z.log2 (MSGQUEUE_uiMap q) < 8); [|lia]. destruct (decide (MSGQUEUE_uiMap q = 0)) as [E|]; [by rewrite E|].
      apply Z.log2_lt_pow2; lia. }
    rewrite (lists_lookup h q max p Hok) by lia. pose proof (so_bits _ _ _ Hok p ltac:(lia)) as Hbit. rewrite Hb in Hbit.
    destruct (lists q p) as [|n l] eqn:El; [done|]. exists p, n, l. splits; try done; [lia|].
    intros i Hi. pose proof (so_bits _ _ _ Hok i ltac:(lia)) as Hbi. rewrite Hl in Hbi by lia.
    symmetry in Hbi. by apply negb_false_iff, bool_decide_eq_true in Hbi.
Qed.

Section Get.
Context (h : gmap Z Z) (q : LW_CLASS_MSGQUEUE) (max p n : Z) (l : list Z).
Context (Hok : store_ok h q max) (Hp : 0 <= p < 8) (Hhd : lists q p = n :: l)
  (Hlow : forall i, 0 <= i < p -> lists q i = []).

(** The queue without node [n], the head of list [p]. *)
Definition get_result : LW_CLASS_MSGQUEUE :=
  mkMsgQueue (n :: MSGQUEUE_pmonoFree q) (<[p := l]> (MSGQUEUE_pmono q))
    (match l with [] => Z.ldiff (MSGQUEUE_uiMap q) (Z.shiftl 1 p) | _ => MSGQUEUE_uiMap q end)
    (MSGQUEUE_pvBuffer q) (MSGQUEUE_stMaxBytes q) (MSGQUEUE_node q).

Lemma get_lists i : lists get_result i = if decide (i = p) then l else lists q i.
Proof. unfold lists. cbn [get_result MSGQUEUE_pmono]. rewrite lookup_insert. by repeat case_decide; subst. Qed.

Lemma get_queued : queued q ≡ₚ n :: queued get_result.
Proof.
  apply (flat_perm (lists get_result) (lists q) 0 8 p n); [lia| |].
  - intros i Hi. by rewrite get_lists, decide_False.
  - by rewrite get_lists, decide_True, Hhd.
Qed.

Lemma get_ok : store_ok h get_result max.
Proof.
  split; try apply Hok.
  - cbn [MSGQUEUE_pmonoFree get_result]. rewrite <-app_comm_cons, Permutation_middle, <-get_queued.
    apply (so_nodes _ _ _ Hok).
  - intros i. cbn [MSGQUEUE_pmono get_result]. rewrite lookup_insert_is_Some', (so_lists _ _ _ Hok). split; [|tauto].
    by intros [<-|?].
  - cbn [MSGQUEUE_uiMap get_result]. destruct l; [|apply Hok]. apply map_clear, Hok.
  - intros i Hi. cbn [MSGQUEUE_uiMap get_result]. rewrite get_lists. pose proof (so_bits _ _ _ Hok i Hi) as Hb.
    destruct l as [|x l'].
    + rewrite Z.ldiff_spec, bit_one, Hb by lia. case_decide as Ei; [rewrite (bool_decide_eq_true_2 (i = p)) by done; apply andb_false_r|].
      by rewrite (bool_decide_eq_false_2 (i = p)), andb_true_r.
    + rewrite Hb. case_decide as Ei; [by rewrite Ei, Hhd|done].
  - intros m Hm. apply (so_data _ _ _ Hok). rewrite get_queued. by right.
Qed.

Lemma get_msgs : msgs q = (p, node_msg q n) :: msgs get_result.
Proof.
  apply (flat_head (urgent q) (urgent get_result) 0 8 p _ ((fun x => (p, node_msg q x)) <$> l)); [lia| | | |].
  - intros i Hi. unfold urgent. by rewrite Hlow.
  - unfold urgent. by rewrite Hhd.
  - intros i Hi. unfold urgent. by rewrite get_lists, decide_False.
  - unfold urgent. by rewrite get_lists, decide_True.
Qed.
End Get.

(** The length of a message is what its node records. *)
Lemma node_len h q max n : store_ok h q max -> n ∈ queued q -> exists d, MSGQUEUE_node q !! n = Some d /\
  node_msg q n = take (Z.to_nat (MSGNODE_stMsgLen d)) (MSGNODE_data d) /\
  Z.of_nat (length (node_msg q n)) = MSGNODE_stMsgLen d /\
  0 < MSGNODE_stMsgLen d <= MSGQUEUE_stMaxBytes q /\ MSGNODE_stMsgLen d <= Z.of_nat (length (MSGNODE_data d)).
Proof.
  intros Hok Hn. destruct (so_data _ _ _ Hok n Hn) as (d & E & Hd & Hl). exists d. unfold node_msg. rewrite E.
  splits; try done; try lia. rewrite length_take. lia.
Qed.

Lemma get_spec h q max dst room p m ms : store_ok h q max -> msgs q = (p, m) :: ms -> 0 <= room ->
  exists q', _MsgQueueGet h q dst room
      = Some (q', Z.min room (Z.of_nat (length m)), take (Z.to_nat room) m ++ drop (Z.to_nat (Z.min room (Z.of_nat (length m)))) dst) /\
    store_ok h q' max /\ msgs q' = ms /\
    MSGQUEUE_pvBuffer q' = MSGQUEUE_pvBuffer q /\ MSGQUEUE_stMaxBytes q' = MSGQUEUE_stMaxBytes q.
Proof.
  intros Hok Em Hroom. destruct (head_spec h q max Hok) as (p' & n & l & E & Hp & Hhd & Hlow); [by rewrite Em|].
  pose proof (get_msgs q p' n l Hp Hhd Hlow) as Eg. rewrite Em in Eg. injection Eg as <- Enm Ems.
  assert (Hn : n ∈ queued q) by (rewrite (get_queued q p n l Hp Hhd Hlow); left).
  destruct (node_len h q max n Hok Hn) as (d & Ed & Ent & Hln & Hd & Hdata). rewrite <-Enm in *.
  unfold _MsgQueueGet. rewrite E. cbn [mbind option_bind]. rewrite Ed. cbn [mbind option_bind].
  pose proof (so_bytes _ _ _ Hok) as Hb.
  assert (Emin : (if room <? MSGNODE_stMsgLen d then room else MSGNODE_stMsgLen d) = Z.min room (Z.of_nat (length m))).
  { destruct (Z.ltb_spec room (MSGNODE_stMsgLen d)); lia. }
  rewrite Emin. rewrite (node_in_block h q max n _ Hok (node_of_queue h q max n Hok Hn)) by lia.
  rewrite memcpy_spec by lia. cbn [mbind option_bind]. eexists. split; [do 2 f_equal|].
  - f_equal. rewrite Ent at 2. rewrite take_take. f_equal. lia.
  - split; [by eapply (get_ok h q max)|]. done.
Qed.

Lemma len_spec h q max p m ms : store_ok h q max -> msgs q = (p, m) :: ms ->
  _MsgQueueMsgLen q = Some (Z.of_nat (length m)) /\ 0 < Z.of_nat (length m) <= MSGQUEUE_stMaxBytes q /\ 0 <= p < 8.
Proof.
  intros Hok Em. destruct (head_spec h q max Hok) as (p' & n & l & E & Hp & Hhd & Hlow); [by rewrite Em|].
  pose proof (get_msgs q p' n l Hp Hhd Hlow) as Eg. rewrite Em in Eg. injection Eg as <- Enm _.
  assert (Hn : n ∈ queued q) by (rewrite (get_queued q p n l Hp Hhd Hlow); left).
  destruct (node_len h q max n Hok Hn) as (d & Ed & Ent & Hln & Hd & Hdata). rewrite <-Enm in *.
  unfold _MsgQueueMsgLen. rewrite E. cbn [mbind option_bind]. rewrite Ed. cbn [mbind option_bind].
  rewrite Hln. split; [done|]. lia.
Qed.

(** ** Putting and getting many messages *)

Definition put_all (h : gmap Z Z) (q : LW_CLASS_MSGQUEUE) (ms : list MSG) : option LW_CLASS_MSGQUEUE :=
  foldl (fun q x => q ← q; _MsgQueuePut h q x.2 (Z.of_nat (length x.2)) x.1) (Some q) ms.

Fixpoint get_all (h : gmap Z Z) (n : nat) (q : LW_CLASS_MSGQUEUE) (room : Z) : option (LW_CLASS_MSGQUEUE * list (list Z)) :=
  match n with
  | O => Some (q, [])
  | S n =>
    '(q, _, m) ← _MsgQueueGet h q [] room;
    '(q, ms) ← get_all h n q room;
    Some (q, m :: ms)
  end.

(** The messages of one urgency after another, each in the order given. *)
Definition by_urgency (ms : list MSG) : list MSG := flat (fun p => filter (fun x => x.1 = p) ms) 0 8.

Definition fits (n : Z) (x : MSG) : Prop := 0 <= x.1 < 8 /\ 0 < Z.of_nat (length x.2) <= n.

Lemma by_urgency_snoc ms p m : 0 <= p < 8 -> by_urgency (ms ++ [(p, m)]) = msg_insert p m (by_urgency ms).
Proof.
  intros Hp. apply (flat_insert _ _ 0 8 p m); [lia| | |].
  - intros i x [H _]%list_elem_of_filter. done.
  - intros i Hi. rewrite filter_app, filter_cons_False, filter_nil, app_nil_r by (cbn; lia). done.
  - rewrite filter_app. f_equal. by rewrite filter_cons_True.
Qed.

Lemma length_by_urgency ms : Forall (fun x : MSG => 0 <= x.1 < 8) ms -> length (by_urgency ms) = length ms.
Proof.
  induction ms as [|[p m] ms IH] using rev_ind; [done|]. rewrite Forall_app, Forall_singleton. intros [H1 H2].
  by rewrite by_urgency_snoc, length_insert, IH, length_app, Nat.add_comm.
Qed.

Lemma put_all_spec h q max ms : store_ok h q max -> msgs q = [] -> Z.of_nat (length ms) <= max ->
  Forall (fits (MSGQUEUE_stMaxBytes q)) ms ->
  exists q', put_all h q ms = Some q' /\ store_ok h q' max /\ msgs q' = by_urgency ms /\ MSGQUEUE_stMaxBytes q' = MSGQUEUE_stMaxBytes q.
Proof.
  intros Hok Em. induction ms as [|[p m] ms IH] using rev_ind; intros Hlen Hf; [by exists q|].
  rewrite length_app in Hlen. cbn [length] in Hlen. apply Forall_app in Hf as [Hf [[Hp Hm] _]%Forall_cons]. cbn [fst snd] in *.
  destruct IH as (q1 & E1 & Hok1 & Em1 & Ey1); [lia|done|]. unfold put_all in *. rewrite foldl_app, E1. cbn [foldl mbind option_bind fst snd].
  destruct (put_spec h q1 max m (Z.of_nat (length m)) p Hok1) as (q2 & E2 & Hok2 & Em2 & _ & Ey2).
  - rewrite Em1, length_by_urgency by (eapply Forall_impl; [exact Hf|by intros x []]). lia.
  - by rewrite Ey1.
  - lia.
  - done.
  - exists q2. split; [done|]. split; [done|]. rewrite Em2, Em1, take_ge by lia. split; [by rewrite by_urgency_snoc|congruence].
Qed.

Lemma get_all_spec h max room : forall ms q, store_ok h q max -> msgs q = ms -> MSGQUEUE_stMaxBytes q <= room ->
  exists q', get_all h (length ms) q room = Some (q', snd <$> ms) /\ store_ok h q' max /\ msgs q' = [].
Proof.
  induction ms as [|[p m] ms IH]; intros q Hok Em Hr; [by exists q|].
  destruct (len_spec h q max p m ms Hok Em) as (_ & Hm & _).
  destruct (get_spec h q max [] room p m ms Hok Em) as (q1 & E1 & Hok1 & Em1 & _ & Ey1); [lia|].
  destruct (IH q1 Hok1 Em1) as (q2 & E2 & H2); [lia|]. exists q2. split; [|done].
  cbn [get_all length]. rewrite E1. cbn [mbind option_bind]. rewrite E2. cbn [mbind option_bind]. cbn [fmap list_fmap snd].
  rewrite drop_nil, app_nil_r, take_ge by lia. done.
Qed.

(** C32: the eight lists and the bitmap of a message queue are a stable sort by
    urgency.  Messages put into an empty store and taken out again come back unchanged, the
    more urgent first and those of one urgency in the order of their arrival, and leave
    the store empty. *)
Theorem store_sorts h q max ms : store_ok h q max -> msgs q = [] -> Z.of_nat (length ms) <= max ->
  Forall (fits (MSGQUEUE_stMaxBytes q)) ms ->
  exists q1 q2, put_all h q ms = Some q1 /\
    get_all h (length ms) q1 (MSGQUEUE_stMaxBytes q) = Some (q2, snd <$> by_urgency ms) /\ store_ok h q2 max /\ msgs q2 = [].
Proof.
  intros Hok Em Hl Hf. destruct (put_all_spec h q max ms Hok Em Hl Hf) as (q1 & E1 & Hok1 & Em1 & Ey1).
  destruct (get_all_spec h max (MSGQUEUE_stMaxBytes q) (by_urgency ms) q1 Hok1 Em1) as (q2 & E2 & H2); [lia|].
  rewrite length_by_urgency in E2 by (eapply Forall_impl; [exact Hf|by intros x []]). by exists q1, q2.
Qed.

(** Four messages of three urgencies. *)
Definition demo_store : gmap Z Z * LW_CLASS_MSGQUEUE := ({[4096 := 96]}, mkMsgQueue [] ∅ 0 4096 8 ∅).
Definition demo_msgs : list MSG := [(7, [1]); (0, [2; 3]); (7, [4]); (3, [5])].

Lemma store_sorts_witness : exists q, (store_ok demo_store.1 q 4 /\ msgs q = [] /\ Forall (fits (MSGQUEUE_stMaxBytes q)) demo_msgs) /\
  exists q1 q2, put_all demo_store.1 q demo_msgs = Some q1 /\
    get_all demo_store.1 4 q1 8 = Some (q2, [[2; 3]; [5]; [1]; [4]]) /\ store_ok demo_store.1 q2 4 /\ msgs q2 = [].
Proof.
  destruct (clear_spec demo_store.1 demo_store.2 4) as (q & E & Hok & Em & _ & Ey); [lia| | | |].
  - by vm_compute.
  - exists 96. split; [done|by vm_compute].
  - by vm_compute.
  - assert (Hf : Forall (fits (MSGQUEUE_stMaxBytes q)) demo_msgs).
    { rewrite Ey. unfold demo_msgs. repeat (constructor; [split; cbn; lia|]). constructor. }
    exists q. split; [exact (conj Hok (conj Em Hf))|].
    destruct (store_sorts demo_store.1 q 4 demo_msgs Hok Em) as (q1 & q2 & H1 & H2 & H3); [cbn; lia|exact Hf|].
    rewrite Ey in H2. exists q1, q2. exact (conj H1 (conj H2 H3)).
Defined.
