(* ===== verification/MsgQueueSpec.v ===== *)
(** * Message queues refine an abstract queue

    An abstract message queue is a list of messages sorted by urgency, its capacity, and
    the receivers and senders that wait, in the order they will be served.  The
    services of the file MsgQueue, run on a state that satisfies the invariant, do on
    their queue the abstract step and keep the invariant of all queues. *)

From S2P Require Import Prelude Lists Bitmap Sched SchedSpec Object Wakeup Kernel Event EventSpec TickSpec Semaphore Mutex SemSpec LifeSpec SemRefine MsgQueue MsgStore.

(** The checks have passed. *)
Ltac pass := cbn [mbind option_bind]; change (negb (ERROR_NONE =? ERROR_NONE)) with false; cbv iota zeta.

(** ** The abstract queue *)

Record QUEUE := mkQueue {
  q_max : Z;
  q_bytes : Z;
  q_msgs : list MSG;
  q_readers : list Z;
  q_senders : list Z
}.

(** What the calls read and write of the callers: variables, buffers, receiver fields. *)
Record USER := mkUser { u_size : gmap Z Z; u_mem : gmap Z (list Z); u_recv : gmap Z RECV }.

Definition u_recv_at (u : USER) (t : Z) : RECV := default (mkRecv 0 0 0 0) (u_recv u !! t).

(** A message of which [room] bytes fit is written to the caller. *)
Definition write_msg (u : USER) (pstMsgLen pvMsgBuffer room : Z) (m : list Z) : USER :=
  let n := Z.min room (Z.of_nat (length m)) in
  mkUser (<[pstMsgLen := n]> (u_size u))
    (<[pvMsgBuffer := take (Z.to_nat room) m ++ drop (Z.to_nat n) (default [] (u_mem u !! pvMsgBuffer))]> (u_mem u))
    (u_recv u).

(** The message is too long for a buffer of [room] bytes, and truncation was not allowed. *)
Definition too_long (option room : Z) (m : list Z) : bool :=
  (room <? Z.of_nat (length m)) && negb (has_option option LW_OPTION_NOERROR).

(** A waiting receiver gets a message: true, or is refused: false. *)
Definition deliver (u : USER) (t : Z) (m : list Z) : USER * bool :=
  let R := u_recv_at u t in
  if too_long (TCB_ulRecvOption R) (TCB_stMaxByteSize R) m then
    (mkUser (<[TCB_pstMsgByteSize R := 0]> (u_size u)) (u_mem u) (<[t := set_TCB_stMaxByteSize 0 R]> (u_recv u)), false)
  else (write_msg u (TCB_pstMsgByteSize R) (TCB_pvMsgQueueMessage R) (TCB_stMaxByteSize R) m, true).

Definition set_option (u : USER) (t ulOption : Z) : USER :=
  mkUser (u_size u) (u_mem u) (<[t := set_TCB_ulRecvOption ulOption (u_recv_at u t)]> (u_recv u)).
Definition set_receiver (u : USER) (t : Z) (R : RECV) : USER := mkUser (u_size u) (u_mem u) (<[t := R]> (u_recv u)).
Definition no_message (u : USER) (t : Z) : USER :=
  mkUser (<[TCB_pstMsgByteSize (u_recv_at u t) := 0]> (u_size u)) (u_mem u) (u_recv u).

(** ** The abstract operations *)

(** The message of a send is the first [stMsgLen] bytes of its buffer. *)
Inductive MSG_OP :=
| MSend (c : CALL) (pvMsgBuffer : option (list Z)) (stMsgLen ulTimeout : Z)
| MSendEx (c : CALL) (pvMsgBuffer : option (list Z)) (stMsgLen ulTimeout ulOption : Z)
| MRecv (t pvMsgBuffer stMaxByteSize pstMsgLen ulTimeout : Z)
| MRecvEx (t pvMsgBuffer stMaxByteSize pstMsgLen ulTimeout ulOption : Z)
| MTryRecv (pvMsgBuffer stMaxByteSize pstMsgLen : Z)
| MClear
| MFlushSend
| MFlushRecv.

Definition message (pvMsgBuffer : option (list Z)) (stMsgLen : Z) : list Z :=
  take (Z.to_nat stMsgLen) (default [] pvMsgBuffer).

(** What a call is refused for, [ERROR_NONE] when it is not. *)
Definition send_refused (q : QUEUE) (pvMsgBuffer : option (list Z)) (stMsgLen : Z) : Z :=
  match pvMsgBuffer with
  | None => ERROR_MSGQUEUE_MSG_NULL
  | Some _ => if (stMsgLen =? 0) || (q_bytes q <? stMsgLen) then ERROR_MSGQUEUE_MSG_LEN else ERROR_NONE
  end.
Definition recv_refused (pvMsgBuffer stMaxByteSize : Z) : Z :=
  if (pvMsgBuffer =? LW_NULL) || (stMaxByteSize =? 0) then ERROR_MSGQUEUE_MSG_NULL else ERROR_NONE.

(** The urgency in the options of a send. *)
Definition option_prio (ulOption : Z) : Z := Z.land (Z.shiftr ulOption 4) 0xf.

(** The call starts over after it let others run. *)
Definition AGAIN : Z := -2.

Definition with_msgs (q : QUEUE) (l : list MSG) : QUEUE := mkQueue (q_max q) (q_bytes q) l (q_readers q) (q_senders q).
Definition with_readers (q : QUEUE) (l : list Z) : QUEUE := mkQueue (q_max q) (q_bytes q) (q_msgs q) l (q_senders q).
Definition with_senders (q : QUEUE) (l : list Z) : QUEUE := mkQueue (q_max q) (q_bytes q) (q_msgs q) (q_readers q) l.

(** A message is sent with urgency [p]. *)
Inductive send_step (enq : Z -> list Z -> list Z -> Prop) (q : QUEUE) (u : USER) (c : CALL) (m : list Z) (p tmo : Z)
    : QUEUE -> USER -> Z -> list Z -> Prop :=
| ss_give t l u' ok : q_readers q = t :: l -> deliver u t m = (u', ok) ->
    send_step enq q u c m p tmo (with_readers q l) u' (if ok then ERROR_NONE else AGAIN) [t]
| ss_store : q_readers q = [] -> Z.of_nat (length (q_msgs q)) < q_max q ->
    send_step enq q u c m p tmo (with_msgs q (msg_insert p m (q_msgs q))) u ERROR_NONE []
| ss_full : q_readers q = [] -> Z.of_nat (length (q_msgs q)) = q_max q ->
    tmo = LW_OPTION_NOT_WAIT \/ LW_CPU_GET_CUR_NESTING c <> 0 ->
    send_step enq q u c m p tmo q u ERROR_MSGQUEUE_FULL []
| ss_wait l : q_readers q = [] -> Z.of_nat (length (q_msgs q)) = q_max q -> tmo <> LW_OPTION_NOT_WAIT ->
    LW_CPU_GET_CUR_NESTING c = 0 -> enq (LW_TCB_GET_CUR c) (q_senders q) l ->
    send_step enq q u c m p tmo (with_senders q l) u WAITING [].

(** The first message is taken into a buffer and the first sender may try again. *)
Inductive take_step (q : QUEUE) (u : USER) (pvMsgBuffer room pstMsgLen : Z) : QUEUE -> USER -> list Z -> Prop :=
| ts_take p m ms : q_msgs q = (p, m) :: ms ->
    take_step q u pvMsgBuffer room pstMsgLen (with_senders (with_msgs q ms) (tail (q_senders q)))
      (write_msg u pstMsgLen pvMsgBuffer room m) (take 1 (q_senders q)).

(** A receive by thread [t], with its option already recorded in [u]. *)
Inductive recv_step (enq : Z -> list Z -> list Z -> Prop) (q : QUEUE) (u : USER) (t pvMsgBuffer room pstMsgLen opt tmo : Z)
    : QUEUE -> USER -> Z -> list Z -> Prop :=
| rs_take q' u' l p m ms : q_msgs q = (p, m) :: ms -> too_long opt room m = false ->
    take_step q u pvMsgBuffer room pstMsgLen q' u' l ->
    recv_step enq q u t pvMsgBuffer room pstMsgLen opt tmo q' u' ERROR_NONE l
| rs_long p m ms : q_msgs q = (p, m) :: ms -> too_long opt room m = true ->
    recv_step enq q u t pvMsgBuffer room pstMsgLen opt tmo q u E2BIG []
| rs_poll : q_msgs q = [] -> tmo = LW_OPTION_NOT_WAIT ->
    recv_step enq q u t pvMsgBuffer room pstMsgLen opt tmo q u ERROR_THREAD_WAIT_TIMEOUT []
| rs_wait l : q_msgs q = [] -> tmo <> LW_OPTION_NOT_WAIT -> enq t (q_readers q) l ->
    recv_step enq q u t pvMsgBuffer room pstMsgLen opt tmo (with_readers q l)
      (set_receiver u t (mkRecv pstMsgLen room pvMsgBuffer opt)) WAITING [].

(** A send with options, not refused. *)
Inductive sendex_step (enq : Z -> list Z -> list Z -> Prop) (q : QUEUE) (u : USER) (c : CALL) (m : list Z) (tmo opt : Z)
    : QUEUE -> USER -> Z -> list Z -> Prop :=
| se_default q' u' r l : opt = LW_OPTION_DEFAULT -> send_step enq q u c m EVENT_MSG_Q_PRIO_LOW tmo q' u' r l ->
    sendex_step enq q u c m tmo opt q' u' r l
| se_urgent q' u' r l : has_option opt LW_OPTION_URGENT = true ->
    option_prio opt <= EVENT_MSG_Q_PRIO_LOW \/ q_readers q <> [] ->
    send_step enq q u c m (option_prio opt) tmo q' u' r l -> sendex_step enq q u c m tmo opt q' u' r l
| se_prio : has_option opt LW_OPTION_URGENT = true -> EVENT_MSG_Q_PRIO_LOW < option_prio opt -> q_readers q = [] ->
    sendex_step enq q u c m tmo opt q u ERROR_MSGQUEUE_OPTION []
| se_broadcast : has_option opt LW_OPTION_URGENT = false -> has_option opt LW_OPTION_BROADCAST = true ->
    sendex_step enq q u c m tmo opt (with_readers q []) (fold_left (fun u t => (deliver u t m).1) (q_readers q) u)
      ERROR_NONE (q_readers q)
| se_option : opt <> LW_OPTION_DEFAULT -> has_option opt LW_OPTION_URGENT = false ->
    has_option opt LW_OPTION_BROADCAST = false -> sendex_step enq q u c m tmo opt q u ERROR_MSGQUEUE_OPTION [].

(** One call; [enqR] and [enqS]: how a thread joins the receivers and the senders. *)
Inductive mq_step (enqR enqS : Z -> list Z -> list Z -> Prop) (q : QUEUE) (u : USER)
    : MSG_OP -> QUEUE -> USER -> Z -> list Z -> Prop :=
| ms_send c b n tmo q' u' r l : send_refused q b n = ERROR_NONE ->
    send_step enqS q u c (message b n) EVENT_MSG_Q_PRIO_LOW tmo q' u' r l ->
    mq_step enqR enqS q u (MSend c b n tmo) q' u' r l
| ms_send_refused c b n tmo : send_refused q b n <> ERROR_NONE ->
    mq_step enqR enqS q u (MSend c b n tmo) q u (send_refused q b n) []
| ms_sendex c b n tmo opt q' u' r l : send_refused q b n = ERROR_NONE ->
    sendex_step enqS q u c (message b n) tmo opt q' u' r l ->
    mq_step enqR enqS q u (MSendEx c b n tmo opt) q' u' r l
| ms_sendex_refused c b n tmo opt : send_refused q b n <> ERROR_NONE ->
    mq_step enqR enqS q u (MSendEx c b n tmo opt) q u (send_refused q b n) []
| ms_recv t b n p tmo q' u' r l : recv_refused b n = ERROR_NONE ->
    recv_step enqR q (set_option u t LW_OPTION_NOERROR) t b n p LW_OPTION_NOERROR tmo q' u' r l ->
    mq_step enqR enqS q u (MRecv t b n p tmo) q' u' r l
| ms_recv_refused t b n p tmo : recv_refused b n <> ERROR_NONE ->
    mq_step enqR enqS q u (MRecv t b n p tmo) q u (recv_refused b n) []
| ms_recvex t b n p tmo opt q' u' r l : recv_refused b n = ERROR_NONE ->
    recv_step enqR q (set_option u t opt) t b n p opt tmo q' u' r l ->
    mq_step enqR enqS q u (MRecvEx t b n p tmo opt) q' u' r l
| ms_recvex_refused t b n p tmo opt : recv_refused b n <> ERROR_NONE ->
    mq_step enqR enqS q u (MRecvEx t b n p tmo opt) q u (recv_refused b n) []
| ms_try b n p q' u' l : b <> LW_NULL -> take_step q u b n p q' u' l ->
    mq_step enqR enqS q u (MTryRecv b n p) q' u' ERROR_NONE l
| ms_try_empty b n p : b <> LW_NULL -> q_msgs q = [] ->
    mq_step enqR enqS q u (MTryRecv b n p) q u ERROR_THREAD_WAIT_TIMEOUT []
| ms_try_refused n p : mq_step enqR enqS q u (MTryRecv LW_NULL n p) q u ERROR_MSGQUEUE_MSG_NULL []
| ms_clear : mq_step enqR enqS q u MClear (with_senders (with_msgs q []) []) u ERROR_NONE (q_senders q)
| ms_flush_send : mq_step enqR enqS q u MFlushSend (with_senders q []) u ERROR_NONE (q_senders q)
| ms_flush_recv : mq_step enqR enqS q u MFlushRecv (with_readers q []) (fold_left no_message (q_readers q) u)
    ERROR_NONE (q_readers q).

(** ** The concrete queue *)

Definition queue_of (M : MQ) (e : Z) : option QUEUE :=
  E ← K_event (MQ_k M) !! e;
  q ← MQ_queue M !! EVENT_pvPtr E;
  Some (mkQueue (EVENT_ulMaxCounter E) (MSGQUEUE_stMaxBytes q) (msgs q) (wview (MQ_k M) e EVENT_MSG_Q_R)
          (wview (MQ_k M) e EVENT_MSG_Q_S)).
Definition user_of (M : MQ) : USER := mkUser (MQ_size M) (MQ_mem M) (MQ_recv M).

(** How a thread joins queue [iq] of the event. *)
Definition joins_at (k : KERNEL) (e iq t : Z) (l l' : list Z) : Prop :=
  l' ≡ₚ t :: l /\ (is_prio k e = false -> l' = l ++ [t]) /\
  (is_prio k e = true -> aligned k e iq -> l' = prio_insert (kprio k) t l).

Definition send_code (r : SEND) : Z := match r with SReturn e => e | SWait _ => WAITING | SAgain => AGAIN end.

Definition msg_call (M : MQ) (ulId : Z) (o : MSG_OP) : option (MQ * Z) :=
  match o with
  | MSend c b n tmo => '(M, r) ← API_MsgQueueSend2 M c ulId b n tmo; Some (M, send_code r)
  | MSendEx c b n tmo opt => '(M, r) ← API_MsgQueueSendEx2 M c ulId b n tmo opt; Some (M, send_code r)
  | MRecv t b n p tmo => '(M, r) ← API_MsgQueueReceive M (call t) ulId b n p tmo; Some (M, pend_code r)
  | MRecvEx t b n p tmo opt => '(M, r) ← API_MsgQueueReceiveEx M (call t) ulId b n p tmo opt; Some (M, pend_code r)
  | MTryRecv b n p => API_MsgQueueTryReceive M ulId b n p
  | MClear => API_MsgQueueClear M ulId
  | MFlushSend => '(M, r, _) ← API_MsgQueueFlushSend M ulId; Some (M, r)
  | MFlushRecv => '(M, r, _) ← API_MsgQueueFlushReceive M ulId; Some (M, r)
  end.

(** The message of a send is there, sizes are not negative, and a caller that may
    wait is a running thread. *)
Definition msg_legal (idle : Z -> Z) (M : MQ) (o : MSG_OP) : Prop :=
  let sends c (b : option (list Z)) n tmo :=
    0 <= n <= Z.of_nat (length (default [] b)) /\ 0 <= tmo <= ULONG_MAX /\
    (LW_CPU_GET_CUR_NESTING c = 0 -> runs idle (MQ_k M) (LW_TCB_GET_CUR c)) in
  match o with
  | MSend c b n tmo => sends c b n tmo
  | MSendEx c b n tmo opt => sends c b n tmo
  | MRecv t b n p tmo | MRecvEx t b n p tmo _ => 0 <= n /\ 0 <= tmo <= ULONG_MAX /\ runs idle (MQ_k M) t
  | MTryRecv b n p => 0 <= n
  | _ => True
  end.

(** ** The invariant *)

(** The store, the counter and the waiting threads of one queue agree. *)
Record queue_ok (M : MQ) (E : LW_CLASS_EVENT) (readers : list Z) : Prop := {
  qo_store : exists q, MQ_queue M !! EVENT_pvPtr E = Some q /\ store_ok (MQ_heap M) q (EVENT_ulMaxCounter E) /\
    EVENT_ulCounter E = Z.of_nat (length (msgs q));
  qo_max : EVENT_ulMaxCounter E <= ULONG_MAX;
  qo_readers : 0 < EVENT_ulCounter E -> readers = []
}.

Definition is_queue (k : KERNEL) (e : Z) (E : LW_CLASS_EVENT) : Prop :=
  K_event k !! e = Some E /\ EVENT_ucType E = LW_TYPE_EVENT_MSGQUEUE.

(** The buffer of the queue object at [p]. *)
Definition buffer_of (M : MQ) (p : Z) : option Z := MSGQUEUE_pvBuffer <$> MQ_queue M !! p.

Record mq_inv (idle B : Z -> Z) (n : Z) (M : MQ) : Prop := {
  mi_kern : kern_inv idle B (MQ_k M);
  mi_pool : pool_ok (MQ_k M);
  mi_mark : mark_ok (MQ_k M);
  mi_bit : forall e E, is_queue (MQ_k M) e E -> B e = LW_THREAD_STATUS_MSGQUEUE;
  mi_queue : forall e E, is_queue (MQ_k M) e E -> queue_ok M E (wview (MQ_k M) e 0);
  mi_unused : forall e E, K_event (MQ_k M) !! e = Some E -> EVENT_ucType E = LW_TYPE_EVENT_UNUSED ->
    wview (MQ_k M) e 0 = [] /\ wview (MQ_k M) e 1 = [];
  mi_apart : forall e1 e2 E1 E2, is_queue (MQ_k M) e1 E1 -> is_queue (MQ_k M) e2 E2 -> e1 <> e2 ->
    EVENT_pvPtr E1 <> EVENT_pvPtr E2 /\ buffer_of M (EVENT_pvPtr E1) <> buffer_of M (EVENT_pvPtr E2);
  mi_objects : pool_inv (MQ_resrc M) n (fun p => 0 <= p < n /\ forall e E, is_queue (MQ_k M) e E -> EVENT_pvPtr E <> p);
  mi_dom : forall p, is_Some (MQ_queue M !! p) <-> 0 <= p < n;
  mi_recv : forall t R, MQ_recv M !! t = Some R -> 0 <= TCB_stMaxByteSize R
}.

(** ** Steps that concern one queue *)

Section Inv.
Context (idle B : Z -> Z) (N : Z).
Abbreviation kinv := (kern_inv idle B).
Abbreviation inv := (mq_inv idle B N).

(** What a step on the queue of [e], whose object is [p], leaves of the other queues. *)
Record own_step (M M' : MQ) (e p : Z) : Prop := {
  os_touch : touches (MQ_k M) (MQ_k M') e;
  os_queue : forall p', p' <> p -> MQ_queue M' !! p' = MQ_queue M !! p';
  os_buffer : buffer_of M' p = buffer_of M p;
  os_resrc : MQ_resrc M' = MQ_resrc M;
  os_heap : MQ_heap M' = MQ_heap M
}.

Lemma own_refl M e p : own_step M M e p.
Proof. by split; try apply touches_refl. Qed.

Lemma own_trans M1 M2 M3 e p : own_step M1 M2 e p -> own_step M2 M3 e p -> own_step M1 M3 e p.
Proof.
  intros [A1 A2 A3 A4 A5] [B1 B2 B3 B4 B5]. split; try congruence.
  - by eapply touches_trans.
  - intros p' Hp. by rewrite B2, A2.
Qed.

Lemma own_k M k' e p : touches (MQ_k M) k' e -> own_step M (set_k k' M) e p.
Proof. by split. Qed.

Lemma buffer_of_own M M' e p p' : own_step M M' e p -> buffer_of M' p' = buffer_of M p'.
Proof.
  intros H. destruct (decide (p' = p)) as [->|Hne]; [apply (os_buffer _ _ _ _ H)|].
  unfold buffer_of. by rewrite (os_queue _ _ _ _ H).
Qed.

Lemma is_queue_other M M' e p e' E : own_step M M' e p -> e' <> e -> is_queue (MQ_k M') e' E <-> is_queue (MQ_k M) e' E.
Proof. intros H He. unfold is_queue. by rewrite (tc_event _ _ _ (os_touch _ _ _ _ H)). Qed.

Lemma queue_ok_frame M M' E l : MQ_queue M' !! EVENT_pvPtr E = MQ_queue M !! EVENT_pvPtr E -> MQ_heap M' = MQ_heap M ->
  queue_ok M E l -> queue_ok M' E l.
Proof. intros Hq Hh [(q & H1 & H2 & H3) H4 H5]. split; try done. exists q. by rewrite Hq, Hh. Qed.

Lemma pool_ok_step k k' e E E' : touches k k' e -> K_event k !! e = Some E -> K_event k' !! e = Some E' ->
  (EVENT_ucType E' = LW_TYPE_EVENT_UNUSED <-> EVENT_ucType E = LW_TYPE_EVENT_UNUSED) -> pool_ok k -> pool_ok k'.
Proof.
  intros Ht HE HE' Hty [P1 P2 P3 P4 P5]. rewrite <-(tc_resrc _ _ _ Ht) in *. rewrite <-(tc_max _ _ _ Ht) in *.
  split; try done.
  - intros e'. rewrite P2. destruct (decide (e' = e)) as [->|Hne]; [|by rewrite (tc_event _ _ _ Ht)].
    split; intros (E0 & H1 & H2); [exists E'|exists E]; (split; [done|]); apply Hty; congruence.
  - intros e'. rewrite <-P3. destruct (decide (e' = e)) as [->|Hne]; [|by rewrite (tc_event _ _ _ Ht)].
    by rewrite HE, HE'; split; intros; eexists.
Qed.

(** Only the queue of [e] has to be looked at. *)
Lemma mq_inv_step M M' e E E' : inv M -> is_queue (MQ_k M) e E -> kinv (MQ_k M') -> own_step M M' e (EVENT_pvPtr E) ->
  is_queue (MQ_k M') e E' -> EVENT_pvPtr E' = EVENT_pvPtr E -> queue_ok M' E' (wview (MQ_k M') e 0) ->
  (forall t R, MQ_recv M' !! t = Some R -> 0 <= TCB_stMaxByteSize R) -> inv M'.
Proof.
  intros Hi Hq Hk Ho Hq' Ep Hok Hr. pose proof (os_touch _ _ _ _ Ho) as Ht.
  assert (Hcase : forall e' E0, is_queue (MQ_k M') e' E0 -> exists E1, is_queue (MQ_k M) e' E1 /\
      EVENT_pvPtr E1 = EVENT_pvPtr E0 /\ (e' = e \/ E1 = E0)).
  { intros e' E0 H0. destruct (decide (e' = e)) as [->|Hne]; [|exists E0; rewrite (is_queue_other M M' e _) in H0 by done; auto].
    exists E. split; [done|]. split; [|auto]. destruct H0 as [H0 _], Hq' as [H1 _]. congruence. }
  split; try done.
  - eapply (pool_ok_step _ _ e E E' Ht); [apply Hq|apply Hq'| |apply Hi].
    destruct Hq as [_ ->], Hq' as [_ ->]. done.
  - apply (tc_mark _ _ _ Ht), Hi.
  - intros e' E0 H0. destruct (Hcase e' E0 H0) as (E1 & H1 & _). by apply (mi_bit _ _ _ _ Hi e' E1).
  - intros e' E0 H0. destruct (decide (e' = e)) as [->|Hne].
    + destruct H0 as [H0 _], Hq' as [H1 _]. rewrite H1 in H0. by injection H0 as <-.
    + rewrite (is_queue_other M M' e _) in H0 by done. rewrite (tc_view _ _ _ Ht) by done.
      apply (queue_ok_frame M); [|apply Ho|by apply Hi]. apply (os_queue _ _ _ _ Ho).
      by apply (mi_apart _ _ _ _ Hi e' e).
  - intros e' E0 H0 Hu. destruct (decide (e' = e)) as [->|Hne].
    + destruct Hq' as [H1 H2]. rewrite H1 in H0. injection H0 as <-. by rewrite H2 in Hu.
    + rewrite (tc_event _ _ _ Ht) in H0 by done. rewrite !(tc_view _ _ _ Ht) by done. by eapply (mi_unused _ _ _ _ Hi).
  - intros e1 e2 E1 E2 H1 H2 Hne. destruct (Hcase e1 E1 H1) as (F1 & G1 & <- & _), (Hcase e2 E2 H2) as (F2 & G2 & <- & _).
    rewrite !(buffer_of_own M M' e _ _ Ho). by apply (mi_apart _ _ _ _ Hi e1 e2).
  - rewrite (os_resrc _ _ _ _ Ho). eapply pool_inv_ext; [|apply Hi]. intros p. cbn. f_equiv. split; intros H e' E0 H0.
    + destruct (Hcase e' E0 H0) as (E1 & H1 & <- & _). by apply (H e').
    + destruct (decide (e' = e)) as [->|Hne].
      * destruct H0 as [H0 _], Hq as [H1 _]. rewrite H1 in H0. injection H0 as <-. rewrite <-Ep. by apply (H e).
      * apply (H e'). by rewrite (is_queue_other M M' e (EVENT_pvPtr E)).
  - intros p. rewrite <-(mi_dom _ _ _ _ Hi p). destruct (decide (p = EVENT_pvPtr E)) as [->|Hne].
    + pose proof (os_buffer _ _ _ _ Ho) as Eb. unfold buffer_of in Eb.
      destruct (MQ_queue M' !! _), (MQ_queue M !! _); try done; by split; intros; eexists.
    + by rewrite (os_queue _ _ _ _ Ho).
Qed.
End Inv.

(** ** The services *)

Section Services.
Context (idle B : Z -> Z) (N : Z).
Abbreviation kinv := (kern_inv idle B).
Abbreviation inv := (mq_inv idle B N).

(** The abstract queue of an event, its control block and its store at hand. *)
Definition abs (M : MQ) (e : Z) (E : LW_CLASS_EVENT) (q : LW_CLASS_MSGQUEUE) : QUEUE :=
  mkQueue (EVENT_ulMaxCounter E) (MSGQUEUE_stMaxBytes q) (msgs q) (wview (MQ_k M) e 0) (wview (MQ_k M) e 1).

Lemma queue_inv M e E : inv M -> is_queue (MQ_k M) e E -> exists q, MQ_queue M !! EVENT_pvPtr E = Some q /\
  store_ok (MQ_heap M) q (EVENT_ulMaxCounter E) /\ EVENT_ulCounter E = Z.of_nat (length (msgs q)) /\
  Z.of_nat (length (msgs q)) <= EVENT_ulMaxCounter E <= ULONG_MAX /\
  (msgs q <> [] -> wview (MQ_k M) e 0 = []) /\ queue_of M e = Some (abs M e E q).
Proof.
  intros Hi [HE Ht]. destruct (mi_queue _ _ _ _ Hi e E (conj HE Ht)) as [(q & Hq & Hs & Hc) Hm Hr].
  exists q. split; [done|]. split; [done|]. split; [done|]. pose proof (length_nodes _ _ _ Hs).
  split; [lia|]. split; [|unfold queue_of; by rewrite HE; cbn [mbind option_bind]; rewrite Hq].
  intros Hne. apply Hr. rewrite Hc. destruct (msgs q); [done|]. cbn. lia.
Qed.

Lemma queue_of_eq M e E q : K_event (MQ_k M) !! e = Some E -> MQ_queue M !! EVENT_pvPtr E = Some q ->
  queue_of M e = Some (abs M e E q).
Proof. intros HE Hq. unfold queue_of. rewrite HE. cbn [mbind option_bind]. by rewrite Hq. Qed.

Lemma queue_at_eq M e E q : K_event (MQ_k M) !! e = Some E -> MQ_queue M !! EVENT_pvPtr E = Some q ->
  queue_at M e = Some (EVENT_pvPtr E, q).
Proof. intros HE Hq. unfold queue_at. rewrite HE. cbn [mbind option_bind]. by rewrite Hq. Qed.

(** The wake-up of the head of a queue, in its two halves. *)
Lemma ready_halves M e E iq t tl a : inv M -> is_queue (MQ_k M) e E -> wview (MQ_k M) e iq = t :: tl ->
  exists k1 k', event_take (MQ_k M) e iq LW_NULL = Some (k1, t) /\
    _EventReadyHighLevel k1 t LW_THREAD_STATUS_MSGQUEUE a = Some k' /\
    event_ready (MQ_k M) e iq LW_NULL LW_THREAD_STATUS_MSGQUEUE a = Some (k', t) /\
    kinv k' /\ touches (MQ_k M) k' e /\ K_event k' = K_event (MQ_k M) /\
    (forall iq', wview k' e iq' = if decide (iq' = iq) then tl else wview (MQ_k M) e iq') /\
    woke (MQ_k M) k' [t] (wake_wait LW_NULL).
Proof.
  intros Hi [HE Ht] Hv.
  destruct (ready_spec idle B (MQ_k M) e E iq t tl LW_NULL a (mi_kern _ _ _ _ Hi) HE Hv) as (k' & Er & Hk & Hs & He & Hw & Hwo).
  rewrite (mi_bit _ _ _ _ Hi e E (conj HE Ht)) in Er. pose proof Er as Er'. unfold event_ready in Er'.
  destruct (event_take (MQ_k M) e iq LW_NULL) as [[k1 t1]|]; [|done]. cbn [mbind option_bind] in Er'.
  destruct (_EventReadyHighLevel k1 t1 _ a) as [k2|] eqn:E2; [|done]. cbn [mbind option_bind] in Er'.
  injection Er' as -> ->. exists k1, k'. by splits.
Qed.

(** The scheduler's part and the caller's memory change, the queue does not. *)
Lemma inv_user M M' e E : inv M -> is_queue (MQ_k M) e E -> kinv (MQ_k M') -> touches (MQ_k M) (MQ_k M') e ->
  K_event (MQ_k M') = K_event (MQ_k M) -> MQ_queue M' = MQ_queue M -> MQ_resrc M' = MQ_resrc M -> MQ_heap M' = MQ_heap M ->
  (0 < EVENT_ulCounter E -> wview (MQ_k M') e 0 = []) ->
  (forall t R, MQ_recv M' !! t = Some R -> 0 <= TCB_stMaxByteSize R) ->
  inv M' /\ own_step M M' e (EVENT_pvPtr E) /\ is_queue (MQ_k M') e E.
Proof.
  intros Hi Hq Hk Ht He Hqu Hres Hh Hr Hrecv.
  assert (Ho : own_step M M' e (EVENT_pvPtr E)) by (split; try done; [by intros; rewrite Hqu|by unfold buffer_of; rewrite Hqu]).
  assert (Hq' : is_queue (MQ_k M') e E) by (destruct Hq; split; [by rewrite He|done]).
  split; [|done]. apply (mq_inv_step idle B N M M' e E E); try done.
  destruct (mi_queue _ _ _ _ Hi e E Hq) as [(q & H1 & H2 & H3) H4 H5]. split; [|done|done].
  exists q. by rewrite Hqu, Hh.
Qed.

(** *** A message is given to a receiver *)

Lemma recv_user M t : recv_at M t = u_recv_at (user_of M) t.
Proof. done. Qed.

Lemma recv_range M t : inv M -> 0 <= TCB_stMaxByteSize (recv_at M t).
Proof.
  intros Hi. unfold recv_at. destruct (MQ_recv M !! t) as [R|] eqn:E; [|done]. by apply (mi_recv _ _ _ _ Hi t).
Qed.

Lemma msg_give_spec M e E buf len t tl a : inv M -> is_queue (MQ_k M) e E -> wview (MQ_k M) e 0 = t :: tl ->
  0 <= len <= Z.of_nat (length buf) ->
  exists M' ok, msg_give M e buf len a = Some (M', ok) /\ inv M' /\ own_step M M' e (EVENT_pvPtr E) /\
    is_queue (MQ_k M') e E /\ MQ_queue M' = MQ_queue M /\
    (forall iq, wview (MQ_k M') e iq = if decide (iq = 0) then tl else wview (MQ_k M) e iq) /\
    deliver (user_of M) t (take (Z.to_nat len) buf) = (user_of M', ok) /\
    woke (MQ_k M) (MQ_k M') [t] (wake_wait LW_NULL).
Proof.
  intros Hi Hq Hv Hlen. destruct (ready_halves M e E 0 t tl a Hi Hq Hv) as (k1 & k' & E1 & E2 & _ & Hk & Ht & He & Hw & Hwo).
  pose proof (recv_range M t Hi) as HR.
  assert (Hln : Z.of_nat (length (take (Z.to_nat len) buf)) = len) by (rewrite length_take; lia).
  assert (Hc : 0 < EVENT_ulCounter E -> wview k' e 0 = []).
  { intros Hc. apply (qo_readers _ _ _ (mi_queue _ _ _ _ Hi e E Hq)) in Hc. by rewrite Hv in Hc. }
  unfold msg_give, deliver, too_long. change EVENT_MSG_Q_R with 0. rewrite E1, <-recv_user, Hln. cbn [mbind option_bind].
  destruct ((TCB_stMaxByteSize (recv_at M t) <? len) && negb (has_option _ LW_OPTION_NOERROR)) eqn:Eb.
  - rewrite E2. cbn [mbind option_bind]. eexists _, false. split; [done|].
    match goal with |- inv ?M' /\ _ => destruct (inv_user M M' e E Hi Hq Hk Ht He) as (A & C & D); try done end.
    intros u R. cbn. rewrite lookup_insert_Some. intros [[<- <-]|[_ H]]; [done|by apply (mi_recv _ _ _ _ Hi u)].
  - assert (Emin : (if len <? TCB_stMaxByteSize (recv_at M t) then len else TCB_stMaxByteSize (recv_at M t))
      = Z.min (TCB_stMaxByteSize (recv_at M t)) len) by (destruct (Z.ltb_spec len (TCB_stMaxByteSize (recv_at M t))); lia).
    rewrite Emin, memcpy_spec by lia. cbn [mbind option_bind]. rewrite E2. cbn [mbind option_bind]. eexists _, true. split; [done|].
    match goal with |- inv ?M' /\ _ => destruct (inv_user M M' e E Hi Hq Hk Ht He) as (A & C & D); try done end.
    { apply Hi. }
    splits; try done. unfold write_msg. rewrite Hln, take_take. unfold user_of. cbn. do 5 f_equal. lia.
Qed.
(** *** A message is stored *)

(** The queue object and the counter change. *)
Lemma inv_object M M' e E E' q q' : inv M -> is_queue (MQ_k M) e E -> MQ_queue M !! EVENT_pvPtr E = Some q ->
  kinv (MQ_k M') -> touches (MQ_k M) (MQ_k M') e -> is_queue (MQ_k M') e E' ->
  EVENT_pvPtr E' = EVENT_pvPtr E -> EVENT_ulMaxCounter E' = EVENT_ulMaxCounter E ->
  MQ_queue M' = <[EVENT_pvPtr E := q']> (MQ_queue M) -> MQ_resrc M' = MQ_resrc M -> MQ_heap M' = MQ_heap M ->
  MQ_recv M' = MQ_recv M -> MSGQUEUE_pvBuffer q' = MSGQUEUE_pvBuffer q ->
  store_ok (MQ_heap M) q' (EVENT_ulMaxCounter E) -> EVENT_ulCounter E' = Z.of_nat (length (msgs q')) ->
  (0 < EVENT_ulCounter E' -> wview (MQ_k M') e 0 = []) ->
  inv M' /\ own_step M M' e (EVENT_pvPtr E) /\ queue_of M' e = Some (abs M' e E' q').
Proof.
  intros Hi Hq HqM Hk Ht Hq' Ep Em Equ Eres Eh Erecv Ebuf Hs Hc Hr.
  assert (Ho : own_step M M' e (EVENT_pvPtr E)).
  { split; try done.
    - intros p' Hp. by rewrite Equ, lookup_insert_ne.
    - unfold buffer_of. rewrite Equ, lookup_insert_eq, HqM. cbn. by rewrite Ebuf. }
  assert (HqM' : MQ_queue M' !! EVENT_pvPtr E' = Some q') by (by rewrite Ep, Equ, lookup_insert_eq).
  split; [|split; [done|by apply queue_of_eq; [apply Hq'|]]]. apply (mq_inv_step idle B N M M' e E E'); try done.
  - split; [|rewrite Em; apply (qo_max _ _ _ (mi_queue _ _ _ _ Hi e E Hq))|done]. exists q'. by rewrite HqM', Eh, Em.
  - rewrite Erecv. apply Hi.
Qed.

Lemma is_queue_upd k e f E : is_queue k e E -> EVENT_ucType (f E) = EVENT_ucType E -> is_queue (upd_event e f k) e (f E).
Proof. intros [H1 H2] Hf. split; [by apply lookup_upd|]. by rewrite Hf. Qed.

(** The counter changes. *)
Lemma count_step M e c : inv M ->
  kinv (upd_event e (fun E => set_EVENT_ulCounter (c E) E) (MQ_k M)) /\
  touches (MQ_k M) (upd_event e (fun E => set_EVENT_ulCounter (c E) E) (MQ_k M)) e /\
  forall e' iq, wview (upd_event e (fun E => set_EVENT_ulCounter (c E) E) (MQ_k M)) e' iq = wview (MQ_k M) e' iq.
Proof.
  intros Hi. split; [apply kern_inv_event; [done|apply Hi]|]. split; [apply touches_upd|].
  intros e' iq. by apply wview_upd.
Qed.

Lemma woke_upd k e f : woke k (upd_event e f k) [] (wake_wait LW_NULL).
Proof. destruct (woke_refl k (wake_wait LW_NULL)) as [H1 H2 H3 H4]. by split. Qed.

Lemma store_spec M e E q buf len p : inv M -> is_queue (MQ_k M) e E -> MQ_queue M !! EVENT_pvPtr E = Some q ->
  store_ok (MQ_heap M) q (EVENT_ulMaxCounter E) -> wview (MQ_k M) e 0 = [] ->
  Z.of_nat (length (msgs q)) < EVENT_ulMaxCounter E -> 0 < len <= MSGQUEUE_stMaxBytes q ->
  len <= Z.of_nat (length buf) -> 0 <= p < 8 ->
  exists M', msg_store M e buf len p = Some M' /\ inv M' /\ own_step M M' e (EVENT_pvPtr E) /\ user_of M' = user_of M /\
    queue_of M' e = Some (with_msgs (abs M e E q) (msg_insert p (take (Z.to_nat len) buf) (msgs q))) /\
    woke (MQ_k M) (MQ_k M') [] (wake_wait LW_NULL).
Proof.
  intros Hi Hq HqM Hs Hrd Hroom Hlen Hbuf Hp. destruct (queue_inv M e E Hi Hq) as (q0 & Hq0 & _ & Hc & Hmax & _).
  rewrite HqM in Hq0. injection Hq0 as <-.
  unfold msg_store. rewrite (queue_at_eq M e E q (proj1 Hq) HqM). cbn [mbind option_bind].
  destruct (put_spec _ q _ buf len p Hs Hroom Hlen Hbuf Hp) as (q' & Eput & Hs' & Em & Eb & Ey). rewrite Eput. cbn [mbind option_bind].
  destruct (count_step M e (fun E => EVENT_ulCounter E +64 1) Hi) as (Hk & Ht & Hv).
  eexists. split; [done|]. match goal with |- inv ?X /\ _ => set (M' := X) end.
  destruct (inv_object M M' e E (set_EVENT_ulCounter (EVENT_ulCounter E +64 1) E) q q') as (A & C & D); try done.
  - by apply (is_queue_upd _ e (fun E => set_EVENT_ulCounter (EVENT_ulCounter E +64 1) E)).
  - cbn [set_EVENT_ulCounter EVENT_ulCounter]. rewrite wrap64_small by lia. rewrite Em, length_insert. lia.
  - intros _. cbn [M' set_queue set_k MQ_k]. by rewrite Hv.
  - split; [done|]. split; [done|]. split; [done|]. split; [|apply woke_upd]. rewrite D. f_equal.
    unfold abs, with_msgs. cbn [M' set_queue set_k MQ_k q_max q_bytes q_readers q_senders]. by rewrite !Hv, Em, Ey.
Qed.

(** *** A thread waits *)

Lemma pend_queue M t e E q iq tmo : inv M -> is_queue (MQ_k M) e E -> MQ_queue M !! EVENT_pvPtr E = Some q ->
  runs idle (MQ_k M) t -> iq = 0 \/ iq = 1 -> 0 <= tmo <= ULONG_MAX -> (iq = 0 -> EVENT_ulCounter E = 0) ->
  exists k', event_pend (MQ_k M) t e iq LW_THREAD_STATUS_MSGQUEUE tmo = Some k' /\ inv (set_k k' M) /\
    own_step M (set_k k' M) e (EVENT_pvPtr E) /\ parked (MQ_k M) k' t e iq (wait_ticks tmo) /\
    queue_of (set_k k' M) e = Some (abs (set_k k' M) e E q) /\ joins_at (MQ_k M) e iq t (wview (MQ_k M) e iq) (wview k' e iq) /\
    (forall iq', iq' <> iq -> wview k' e iq' = wview (MQ_k M) e iq').
Proof.
  intros Hi Hq HqM Hr Hiq Htmo Hc.
  destruct (pend_spec idle B (MQ_k M) t e E iq tmo (mi_kern _ _ _ _ Hi) Hr (proj1 Hq) Hiq Htmo) as (k' & Ep & Hk & Ht & He & Hp & Hv).
  { right. by apply (mi_bit _ _ _ _ Hi e E). }
  rewrite (mi_bit _ _ _ _ Hi e E Hq) in Ep. exists k'. split; [done|].
  destruct (inv_user M (set_k k' M) e E Hi Hq) as (A & C & D); try done.
  - intros Hpos. destruct Hiq as [-> | ->]; [by rewrite Hc in Hpos|]. cbn [set_k MQ_k]. rewrite Hv by done.
    by apply (qo_readers _ _ _ (mi_queue _ _ _ _ Hi e E Hq)).
  - apply Hi.
  - split; [done|]. split; [done|]. split; [done|]. split; [apply queue_of_eq; [by apply D|done]|]. split; [|done].
    split; [apply Hp|]. split; [apply (pk_fifo _ _ _ _ _ _ Hp)|apply (pk_prio _ _ _ _ _ _ Hp)].
Qed.
(** *** Sends *)

(** What a call establishes: the step [S] of the abstract queue, the invariant, the
    other queues, and what the threads see; [eff] when the call waits. *)
Definition refined (M : MQ) (e : Z) (E : LW_CLASS_EVENT) (S : QUEUE -> USER -> Z -> list Z -> Prop)
    (eff : KERNEL -> Prop) (res : option (MQ * Z)) : Prop :=
  exists M' s' r l, res = Some (M', r) /\ inv M' /\ own_step M M' e (EVENT_pvPtr E) /\ queue_of M' e = Some s' /\
    S s' (user_of M') r l /\ (if r =? WAITING then eff (MQ_k M') else woke (MQ_k M) (MQ_k M') l (wake_wait LW_NULL)).

Lemma refined_same M e E q S eff r : inv M -> is_queue (MQ_k M) e E -> MQ_queue M !! EVENT_pvPtr E = Some q ->
  (r =? WAITING) = false -> S (abs M e E q) (user_of M) r [] -> refined M e E S eff (Some (M, r)).
Proof.
  intros Hi Hq HqM Hr Hs. exists M, (abs M e E q), r, []. split; [done|]. split; [done|]. split; [apply own_refl|].
  split; [by apply queue_of_eq; [apply Hq|]|]. split; [done|]. rewrite Hr. apply woke_refl.
Qed.

Lemma refined_mono M e E (S S' : QUEUE -> USER -> Z -> list Z -> Prop) (eff eff' : KERNEL -> Prop) res :
  (forall s u r l, S s u r l -> S' s u r l) -> (forall k, eff k -> eff' k) -> refined M e E S eff res -> refined M e E S' eff' res.
Proof.
  intros HS He (M' & s' & r & l & H1 & H2 & H3 & H4 & H5 & H6). exists M', s', r, l.
  split; [done|]. split; [done|]. split; [done|]. split; [done|]. split; [by apply HS|].
  destruct (r =? WAITING); [by apply He|done].
Qed.

Section Send.
Context (M : MQ) (e : Z) (E : LW_CLASS_EVENT) (q : LW_CLASS_MSGQUEUE) (c : CALL) (buf : list Z) (len tmo : Z).
Context (Hi : inv M) (Hq : is_queue (MQ_k M) e E) (HqM : MQ_queue M !! EVENT_pvPtr E = Some q).
Context (Hlen : 0 < len <= MSGQUEUE_stMaxBytes q) (Hbuf : len <= Z.of_nat (length buf)) (Htmo : 0 <= tmo <= ULONG_MAX).
Context (Hcall : LW_CPU_GET_CUR_NESTING c = 0 -> runs idle (MQ_k M) (LW_TCB_GET_CUR c)).

Definition joins_senders : Z -> list Z -> list Z -> Prop := joins_at (MQ_k M) e 1.
Definition sender_parked (k' : KERNEL) : Prop := parked (MQ_k M) k' (LW_TCB_GET_CUR c) e 1 (wait_ticks tmo).

Lemma give_or_spec p other : (wview (MQ_k M) e 0 = [] ->
    refined M e E (send_step joins_senders (abs M e E q) (user_of M) c (take (Z.to_nat len) buf) p tmo) sender_parked
      ('(M, r) ← other; Some (M, send_code r))) ->
  refined M e E (send_step joins_senders (abs M e E q) (user_of M) c (take (Z.to_nat len) buf) p tmo) sender_parked
    ('(M, r) ← give_or M e buf len other; Some (M, send_code r)).
Proof.
  intros Ho. unfold give_or. change EVENT_MSG_Q_R with 0. rewrite (waitnum idle B) by apply Hi.
  destruct (wview (MQ_k M) e 0) as [|t tl] eqn:Ev.
  - rewrite bool_decide_eq_true_2 by done. by apply Ho.
  - rewrite bool_decide_eq_false_2 by done. cbn [negb].
    destruct (msg_give_spec M e E buf len t tl LW_SCHED_ACT_INTERRUPT Hi Hq Ev) as (M' & ok & -> & A & C & D & F & G & H & I); [lia|].
    cbn [mbind option_bind]. exists M', (with_readers (abs M e E q) tl), (if ok then ERROR_NONE else AGAIN), [t].
    split; [by destruct ok|]. split; [done|]. split; [done|]. split; [|split; [|by destruct ok]].
    + rewrite (queue_of_eq M' e E q); [|apply D|by rewrite F]. f_equal. unfold abs, with_readers. cbn [q_max q_bytes q_msgs q_senders].
      by rewrite !G.
    + by apply ss_give.
Qed.

Lemma queue_spec p : 0 <= p < 8 -> wview (MQ_k M) e 0 = [] ->
  refined M e E (send_step joins_senders (abs M e E q) (user_of M) c (take (Z.to_nat len) buf) p tmo) sender_parked
    ('(M, r) ← msg_queue M c e buf len p tmo; Some (M, send_code r)).
Proof.
  intros Hp Hrd. destruct (queue_inv M e E Hi Hq) as (q0 & Hq0 & Hs & Hc & Hmax & _ & _).
  rewrite HqM in Hq0. injection Hq0 as <-.
  unfold msg_queue. rewrite (proj1 Hq). cbn [mbind option_bind].
  destruct (Z.ltb_spec (EVENT_ulCounter E) (EVENT_ulMaxCounter E)) as [Hlt|Hge].
  - destruct (store_spec M e E q buf len p Hi Hq HqM Hs Hrd) as (M' & -> & A & C & D & F & G); try done; [lia|].
    cbn [mbind option_bind]. eexists M', _, ERROR_NONE, []. split; [done|]. split; [done|]. split; [done|]. split; [exact F|].
    split; [|done]. rewrite D. apply ss_store; [done|]. cbn. lia.
  - assert (Efull : Z.of_nat (length (q_msgs (abs M e E q))) = q_max (abs M e E q)) by (cbn; lia).
    destruct ((tmo =? LW_OPTION_NOT_WAIT) || negb (LW_CPU_GET_CUR_NESTING c =? 0)) eqn:Eb; cbn [mbind option_bind].
    + eapply (refined_same _ _ _ q); try done. apply ss_full; [done|done|].
      apply orb_true_iff in Eb as [Eb|Eb]; [left; by apply Z.eqb_eq|right; by apply Z.eqb_neq, negb_true_iff].
    + apply orb_false_iff in Eb as [E1 E2]. apply negb_false_iff, Z.eqb_eq in E2. apply Z.eqb_neq in E1.
      change EVENT_MSG_Q_S with 1. destruct (pend_queue M (LW_TCB_GET_CUR c) e E q 1 tmo Hi Hq HqM (Hcall E2)) as (k' & -> & A & C & D & F & G & H); [by right|done|done|].
      cbn [mbind option_bind send_code]. eexists (set_k k' M), _, WAITING, []. split; [done|]. split; [done|]. split; [done|].
      split; [exact F|]. split; [|exact D].
      assert (Ea : abs (set_k k' M) e E q = with_senders (abs M e E q) (wview k' e 1)).
      { unfold abs, with_senders. cbn [set_k MQ_k q_max q_bytes q_msgs q_readers]. by rewrite H. }
      rewrite Ea. by apply ss_wait.
Qed.

Lemma send_spec p : 0 <= p < 8 ->
  refined M e E (send_step joins_senders (abs M e E q) (user_of M) c (take (Z.to_nat len) buf) p tmo) sender_parked
    ('(M, r) ← give_or M e buf len (msg_queue M c e buf len p tmo); Some (M, send_code r)).
Proof. intros Hp. apply give_or_spec. by apply queue_spec. Qed.
End Send.
(** *** Loops over the waiting threads *)

(** The threads [l] of queue [iq] were served, [rest] is left, and the callers' memory is [u]. *)
Record served (M M' : MQ) (e iq : Z) (E : LW_CLASS_EVENT) (l rest : list Z) (u : USER) : Prop := {
  sd_inv : inv M';
  sd_own : own_step M M' e (EVENT_pvPtr E);
  sd_is : is_queue (MQ_k M') e E;
  sd_queue : MQ_queue M' = MQ_queue M;
  sd_view : forall iq', wview (MQ_k M') e iq' = if decide (iq' = iq) then rest else wview (MQ_k M) e iq';
  sd_user : user_of M' = u;
  sd_woke : woke (MQ_k M) (MQ_k M') l (wake_wait LW_NULL)
}.

Lemma served_none M e iq E : inv M -> is_queue (MQ_k M) e E -> wview (MQ_k M) e iq = [] ->
  served M M e iq E [] [] (user_of M).
Proof.
  intros Hi Hq Hv. split; try done; [|apply woke_refl].
  intros iq'. case_decide as Ei; [by rewrite Ei|done].
Qed.

Lemma served_app M1 M2 M3 e iq E l1 l2 u2 u3 : served M1 M2 e iq E l1 l2 u2 -> served M2 M3 e iq E l2 [] u3 ->
  NoDup (l1 ++ l2) -> served M1 M3 e iq E (l1 ++ l2) [] u3.
Proof.
  intros [A1 A2 A3 A4 A5 A6 A7] [B1 B2 B3 B4 B5 B6 B7] Hnd. split; try done.
  - by eapply own_trans.
  - by rewrite B4.
  - intros iq'. rewrite B5, A5. by case_decide.
  - eapply woke_app; [|done|done]. intros v H1 H2. apply NoDup_app in Hnd as (_ & Hd & _). by apply (Hd v).
Qed.

(** A loop [lp] whose body [body] serves the first thread, with the effect [f] on memory. *)
Lemma loop_spec (lp : nat -> MQ -> option MQ) (body : MQ -> option MQ) (f : USER -> Z -> USER) e iq E :
  (forall n M, lp (S n) M = if _EventWaitNum (MQ_k M) iq e =? 0 then Some M else M' ← body M; lp n M') ->
  (forall M t tl, inv M -> is_queue (MQ_k M) e E -> wview (MQ_k M) e iq = t :: tl ->
    exists M', body M = Some M' /\ served M M' e iq E [t] tl (f (user_of M) t)) ->
  forall n M, inv M -> is_queue (MQ_k M) e E -> (length (wview (MQ_k M) e iq) < n)%nat ->
  exists M', lp n M = Some M' /\
    served M M' e iq E (wview (MQ_k M) e iq) [] (fold_left f (wview (MQ_k M) e iq) (user_of M)).
Proof.
  intros Heq Hstep n. induction n as [|n IH]; intros M Hi Hq Hn; [lia|]. rewrite Heq, (waitnum idle B) by apply Hi.
  destruct (wview (MQ_k M) e iq) as [|t tl] eqn:Ev.
  - rewrite bool_decide_eq_true_2 by done. exists M. split; [done|]. by apply served_none.
  - rewrite bool_decide_eq_false_2 by done. destruct (Hstep M t tl Hi Hq Ev) as (M1 & -> & H1). cbn [mbind option_bind].
    assert (Etl : wview (MQ_k M1) e iq = tl) by (by rewrite (sd_view _ _ _ _ _ _ _ _ H1), decide_True).
    destruct (IH M1) as (M' & -> & H2); [apply H1|apply H1|rewrite Etl; cbn in Hn; lia|].
    exists M'. split; [done|]. rewrite Etl in H2. cbn [fold_left]. rewrite <-(sd_user _ _ _ _ _ _ _ _ H1).
    apply (served_app M M1 M' e iq E [t] tl (user_of M1)); [|done|].
    + by rewrite (sd_user _ _ _ _ _ _ _ _ H1) in *.
    + change ([t] ++ tl) with (t :: tl). rewrite <-Ev. eapply (wview_NoDup idle B). apply Hi.
Qed.

Lemma wait_fuel_enough M e iq : inv M -> (length (wview (MQ_k M) e iq) < wait_fuel M iq e)%nat.
Proof. intros Hi. unfold wait_fuel. rewrite (waitnum_length idle B) by apply Hi. lia. Qed.

Lemma served_queue M M' e iq E l rest u q : served M M' e iq E l rest u -> MQ_queue M !! EVENT_pvPtr E = Some q ->
  queue_of M' e = Some (abs M' e E q).
Proof. intros H Hq. apply queue_of_eq; [apply (sd_is _ _ _ _ _ _ _ _ H)|]. by rewrite (sd_queue _ _ _ _ _ _ _ _ H). Qed.

(** Served to the end: the queue without its waiting threads. *)
Lemma served_refined M M' e E iq q S eff u s' : served M M' e iq E (wview (MQ_k M) e iq) [] u ->
  MQ_queue M !! EVENT_pvPtr E = Some q -> abs M' e E q = s' -> S s' u ERROR_NONE (wview (MQ_k M) e iq) ->
  refined M e E S eff (Some (M', ERROR_NONE)).
Proof.
  intros H Hq Es HS. exists M', s', ERROR_NONE, (wview (MQ_k M) e iq). split; [done|].
  split; [apply H|]. split; [apply H|]. split; [by rewrite <-Es; eapply served_queue|]. split; [|apply H].
  by rewrite (sd_user _ _ _ _ _ _ _ _ H).
Qed.

Lemma abs_readers M M' e E q l u : served M M' e 0 E l [] u -> abs M' e E q = with_readers (abs M e E q) [].
Proof. intros H. unfold abs, with_readers. cbn [q_max q_bytes q_msgs q_senders]. by rewrite !(sd_view _ _ _ _ _ _ _ _ H). Qed.
Lemma abs_senders M M' e E q l u : served M M' e 1 E l [] u -> abs M' e E q = with_senders (abs M e E q) [].
Proof. intros H. unfold abs, with_senders. cbn [q_max q_bytes q_msgs q_readers]. by rewrite !(sd_view _ _ _ _ _ _ _ _ H). Qed.

Lemma broadcast_spec M e E buf len : inv M -> is_queue (MQ_k M) e E -> 0 <= len <= Z.of_nat (length buf) ->
  exists M', broadcast_loop (wait_fuel M 0 e) M e buf len = Some M' /\
    served M M' e 0 E (wview (MQ_k M) e 0) []
      (fold_left (fun u t => (deliver u t (take (Z.to_nat len) buf)).1) (wview (MQ_k M) e 0) (user_of M)).
Proof.
  intros Hi Hq Hlen.
  destruct (loop_spec (fun n M => broadcast_loop n M e buf len) (fun M => '(M', _) ← msg_give M e buf len LW_SCHED_ACT_OTHER; Some M')
    (fun u t => (deliver u t (take (Z.to_nat len) buf)).1) e 0 E) with (n := wait_fuel M 0 e) (M := M) as (M' & H1 & H2); try done.
  - intros n M0. cbn [broadcast_loop]. change EVENT_MSG_Q_R with 0. destruct (_EventWaitNum (MQ_k M0) 0 e =? 0); [done|].
    by destruct (msg_give M0 e buf len LW_SCHED_ACT_OTHER) as [[M1 b]|].
  - intros M0 t tl Hi0 Hq0 Hv0. destruct (msg_give_spec M0 e E buf len t tl LW_SCHED_ACT_OTHER Hi0 Hq0 Hv0 Hlen)
      as (M1 & ok & -> & A & C & D & F & G & H & I). cbn [mbind option_bind]. exists M1. split; [done|]. split; try done. by rewrite H.
  - by apply wait_fuel_enough.
  - by exists M'.
Qed.

(** Waking one thread of a queue and writing the caller's memory. *)
Lemma wake_served M e E iq t tl a (g : MQ -> MQ) : inv M -> is_queue (MQ_k M) e E -> wview (MQ_k M) e iq = t :: tl ->
  (forall M, MQ_k (g M) = MQ_k M /\ MQ_queue (g M) = MQ_queue M /\ MQ_resrc (g M) = MQ_resrc M /\
    MQ_recv (g M) = MQ_recv M /\ MQ_heap (g M) = MQ_heap M) ->
  forall k', kinv k' -> touches (MQ_k M) k' e -> K_event k' = K_event (MQ_k M) ->
  (forall iq', wview k' e iq' = if decide (iq' = iq) then tl else wview (MQ_k M) e iq') ->
  woke (MQ_k M) k' [t] (wake_wait LW_NULL) -> a = user_of (g M) ->
  served M (set_k k' (g M)) e iq E [t] tl a.
Proof.
  intros Hi Hq Hv Hg k' Hk Ht He Hw Hwo ->. destruct (Hg M) as (G1 & G2 & G3 & G4 & G5).
  destruct (inv_user M (set_k k' (g M)) e E Hi Hq) as (A & C & D); try done.
  - intros Hc. apply (qo_readers _ _ _ (mi_queue _ _ _ _ Hi e E Hq)) in Hc. cbn [set_k MQ_k]. rewrite Hw.
    case_decide as Ei; [|done]. rewrite <-Ei, Hc in Hv. done.
  - cbn [set_k MQ_recv]. rewrite G4. apply Hi.
Qed.
(** *** Flush and clear *)

Lemma flush_recv_spec M e E : inv M -> is_queue (MQ_k M) e E ->
  exists M', flush_recv_loop (wait_fuel M 0 e) M e = Some M' /\
    served M M' e 0 E (wview (MQ_k M) e 0) [] (fold_left no_message (wview (MQ_k M) e 0) (user_of M)).
Proof.
  intros Hi Hq.
  set (body := fun M => '(k, t) ← event_take (MQ_k M) e 0 LW_NULL;
    k ← _EventReadyHighLevel k t LW_THREAD_STATUS_MSGQUEUE LW_SCHED_ACT_OTHER;
    Some (set_k k (set_size (TCB_pstMsgByteSize (recv_at M t)) 0 M))).
  destruct (loop_spec (fun n M => flush_recv_loop n M e) body no_message e 0 E)
    with (n := wait_fuel M 0 e) (M := M) as (M' & H1 & H2); try done.
  - intros n M0. cbn [flush_recv_loop]. change EVENT_MSG_Q_R with 0. destruct (_EventWaitNum (MQ_k M0) 0 e =? 0); [done|].
    unfold body. destruct (event_take (MQ_k M0) e 0 LW_NULL) as [[k t]|]; [|done]. cbn [mbind option_bind].
    by destruct (_EventReadyHighLevel k t _ _).
  - intros M0 t tl Hi0 Hq0 Hv0.
    destruct (ready_halves M0 e E 0 t tl LW_SCHED_ACT_OTHER Hi0 Hq0 Hv0) as (k1 & k' & E1 & E2 & _ & Hk & Ht & He & Hw & Hwo).
    unfold body. rewrite E1. cbn [mbind option_bind]. rewrite E2. cbn [mbind option_bind]. eexists. split; [done|].
    by apply (wake_served M0 e E 0 t tl _ (set_size (TCB_pstMsgByteSize (recv_at M0 t)) 0)).
  - by apply wait_fuel_enough.
  - by exists M'.
Qed.

Lemma flush_send_spec M e E : inv M -> is_queue (MQ_k M) e E ->
  exists k', flush_loop LW_THREAD_STATUS_MSGQUEUE (wait_fuel M 1 e) (MQ_k M) e 1 = Some k' /\
    served M (set_k k' M) e 1 E (wview (MQ_k M) e 1) [] (user_of M).
Proof.
  intros Hi Hq. rewrite flush_loop_eq.
  destruct (wake_loop_spec idle B (fun E => E) (fun w => w) e 1 (fun _ => eq_refl)) with
    (n := wait_fuel M 1 e) (k := MQ_k M) (E := E) as (k' & E1 & Hk & Ht & He & Hv & Hw).
  - by intros w.
  - apply Hi.
  - apply Hq.
  - by apply wait_fuel_enough.
  - rewrite (mi_bit _ _ _ _ Hi e E Hq) in E1. exists k'. split; [done|]. rewrite iter_id in He.
    assert (HeM : K_event k' = K_event (MQ_k M)).
    { apply map_eq. intros e'. destruct (decide (e' = e)) as [->|Hne]; [by rewrite He, (proj1 Hq)|].
      by apply (tc_event _ _ _ Ht). }
    destruct (inv_user M (set_k k' M) e E Hi Hq) as (A & C & D); try done; [|apply Hi].
    intros Hc. apply (qo_readers _ _ _ (mi_queue _ _ _ _ Hi e E Hq)) in Hc. cbn [set_k MQ_k]. by rewrite Hv.
Qed.

(** A store and counter rewritten, then all senders woken. *)
Lemma clear_refined M e E q eff : inv M -> is_queue (MQ_k M) e E -> MQ_queue M !! EVENT_pvPtr E = Some q ->
  store_ok (MQ_heap M) q (EVENT_ulMaxCounter E) ->
  refined M e E (fun s u r l => s = with_senders (with_msgs (abs M e E q) []) [] /\ u = user_of M /\ r = ERROR_NONE /\ l = wview (MQ_k M) e 1)
    eff
    (q ← _MsgQueueClear (MQ_heap M) q (EVENT_ulMaxCounter E);
     let M := set_queue (EVENT_pvPtr E) q (set_k (upd_event e (set_EVENT_ulCounter 0) (MQ_k M)) M) in
     k ← flush_loop LW_THREAD_STATUS_MSGQUEUE (wait_fuel M EVENT_MSG_Q_S e) (MQ_k M) e EVENT_MSG_Q_S;
     Some (set_k k M, ERROR_NONE)).
Proof.
  intros Hi Hq HqM Hs.
  destruct (clear_spec (MQ_heap M) q (EVENT_ulMaxCounter E)) as (q' & -> & Hs' & Em & Eb & Ey); try apply Hs.
  cbn [mbind option_bind]. set (M1 := set_queue _ _ _).
  destruct (count_step M e (fun _ => 0) Hi) as (Hk & Ht & Hv).
  destruct (inv_object M M1 e E (set_EVENT_ulCounter 0 E) q q') as (A & C & D); try done.
  - by apply (is_queue_upd _ e (set_EVENT_ulCounter 0)).
  - cbn [set_EVENT_ulCounter EVENT_ulCounter]. by rewrite Em.
  - assert (Hq1 : is_queue (MQ_k M1) e (set_EVENT_ulCounter 0 E)) by (by apply (is_queue_upd _ e (set_EVENT_ulCounter 0))).
    destruct (flush_send_spec M1 e _ A Hq1) as (k' & E1 & Hsv). change EVENT_MSG_Q_S with 1. rewrite E1. cbn [mbind option_bind].
    assert (Ev : wview (MQ_k M1) e 1 = wview (MQ_k M) e 1) by apply Hv. rewrite Ev in Hsv.
    exists (set_k k' M1), (with_senders (with_msgs (abs M e E q) []) []), ERROR_NONE, (wview (MQ_k M) e 1).
    split; [done|]. split; [apply Hsv|]. split; [eapply own_trans; [exact C|]; apply Hsv|]. split; [|split; [done|]].
    + rewrite (served_queue _ _ _ _ _ _ _ _ q' Hsv) by apply lookup_insert_eq. f_equal.
      rewrite (abs_senders _ _ _ _ _ _ _ Hsv). unfold abs, with_senders, with_msgs. cbn [q_max q_bytes q_msgs q_readers].
      rewrite Em, Ey. f_equal. apply Hv.
    + destruct (sd_woke _ _ _ _ _ _ _ _ Hsv) as [W1 W2 W3 W4]. by split.
Qed.

(** *** A message is taken *)

Lemma take_spec M e E q b room pl p m ms : inv M -> is_queue (MQ_k M) e E -> MQ_queue M !! EVENT_pvPtr E = Some q ->
  store_ok (MQ_heap M) q (EVENT_ulMaxCounter E) -> msgs q = (p, m) :: ms -> 0 <= room ->
  exists M' s' l, msg_take M e b room pl = Some M' /\ inv M' /\ own_step M M' e (EVENT_pvPtr E) /\ queue_of M' e = Some s' /\
    take_step (abs M e E q) (user_of M) b room pl s' (user_of M') l /\ woke (MQ_k M) (MQ_k M') l (wake_wait LW_NULL).
Proof.
  intros Hi Hq HqM Hs Em Hroom. destruct (queue_inv M e E Hi Hq) as (q0 & Hq0 & _ & Hc & Hmax & Hrd & _).
  rewrite HqM in Hq0. injection Hq0 as <-. rewrite Em in Hc, Hmax. cbn [length] in Hc, Hmax.
  unfold msg_take. rewrite (queue_at_eq M e E q (proj1 Hq) HqM). cbn [mbind option_bind].
  destruct (get_spec _ q _ (mem_at M b) room p m ms Hs Em Hroom) as (q' & -> & Hs' & Em' & Eb & Ey). cbn [mbind option_bind].
  set (M1 := set_mem _ _ _). set (E1 := set_EVENT_ulCounter (EVENT_ulCounter E -64 1) E).
  destruct (count_step M e (fun E => EVENT_ulCounter E -64 1) Hi) as (Hk & Ht & Hv).
  assert (Hv1 : forall iq, wview (MQ_k M1) e iq = wview (MQ_k M) e iq) by (intros; apply Hv).
  assert (Hq1 : is_queue (MQ_k M1) e E1) by (by apply (is_queue_upd _ e (fun E => set_EVENT_ulCounter (EVENT_ulCounter E -64 1) E))).
  destruct (inv_object M M1 e E E1 q q') as (A & C & D); try done.
  - cbn [E1 set_EVENT_ulCounter EVENT_ulCounter]. rewrite wrap64_small by lia. rewrite Em'. lia.
  - intros _. rewrite Hv1. apply Hrd. by rewrite Em.
  - assert (Hu : user_of M1 = write_msg (user_of M) pl b room m) by done.
    assert (Hw1 : woke (MQ_k M) (MQ_k M1) [] (wake_wait LW_NULL)) by apply woke_upd.
    assert (Ea : abs M1 e E1 q' = with_msgs (abs M e E q) ms).
    { unfold abs, with_msgs. cbn [q_max q_bytes q_readers q_senders]. by rewrite !Hv1, Em', Ey. }
    pose proof (ts_take (abs M e E q) (user_of M) b room pl p m ms Em) as Hstep.
    change EVENT_MSG_Q_S with 1. rewrite (waitnum idle B) by apply A. rewrite Hv1.
    change (q_senders (abs M e E q)) with (wview (MQ_k M) e 1) in Hstep.
    destruct (wview (MQ_k M) e 1) as [|t tl] eqn:Ev.
    + rewrite bool_decide_eq_true_2 by done. exists M1, (with_msgs (abs M e E q) ms), []. split; [done|]. split; [done|].
      split; [done|]. split; [by rewrite D, Ea|]. split; [|done]. rewrite Hu.
      assert (Eq : with_senders (with_msgs (abs M e E q) ms) (tail []) = with_msgs (abs M e E q) ms) by (unfold with_senders, with_msgs; cbn; by rewrite Ev).
      by rewrite Eq in Hstep.
    + rewrite bool_decide_eq_false_2 by done. cbn [negb]. rewrite <-Hv1 in Ev.
      destruct (ready_halves M1 e E1 1 t tl LW_SCHED_ACT_INTERRUPT A Hq1 Ev) as (k1 & k' & _ & _ & -> & Hk' & Ht' & He' & Hw' & Hwo').
      cbn [mbind option_bind]. pose proof (wake_served M1 e E1 1 t tl (user_of M1) (fun M => M) A Hq1 Ev ltac:(by splits) k' Hk' Ht' He' Hw' Hwo' eq_refl) as Hsv.
      exists (set_k k' M1), (with_senders (with_msgs (abs M e E q) ms) tl), [t]. split; [done|]. split; [apply Hsv|].
      split; [eapply own_trans; [exact C|apply Hsv]|]. split; [|split; [by rewrite (sd_user _ _ _ _ _ _ _ _ Hsv), Hu|]].
      * rewrite (served_queue _ _ _ _ _ _ _ _ q' Hsv) by apply lookup_insert_eq. f_equal. rewrite <-Ea.
        unfold abs, with_senders. cbn [q_max q_bytes q_msgs q_readers]. by rewrite !(sd_view _ _ _ _ _ _ _ _ Hsv).
      * destruct (sd_woke _ _ _ _ _ _ _ _ Hsv) as [W1 W2 W3 W4]. by split.
Qed.
(** *** Receives *)

Definition joins_readers (M : MQ) (e : Z) : Z -> list Z -> list Z -> Prop := joins_at (MQ_k M) e 0.

(** Writing the receiver fields of a thread. *)
Lemma inv_recv M e E t R : inv M -> is_queue (MQ_k M) e E -> 0 <= TCB_stMaxByteSize R ->
  inv (set_recv t R M) /\ own_step M (set_recv t R M) e (EVENT_pvPtr E).
Proof.
  intros Hi Hq HR. destruct (inv_user M (set_recv t R M) e E Hi Hq) as (A & C & _); try done.
  - apply Hi.
  - apply (qo_readers _ _ _ (mi_queue _ _ _ _ Hi e E Hq)).
  - intros u R'. cbn. rewrite lookup_insert_Some. intros [[_ <-]|[_ H]]; [done|by apply (mi_recv _ _ _ _ Hi u)].
Qed.

Section Recv.
Context (M : MQ) (e : Z) (E : LW_CLASS_EVENT) (q : LW_CLASS_MSGQUEUE) (t b room pl tmo opt : Z).
Context (Hi : inv M) (Hq : is_queue (MQ_k M) e E) (HqM : MQ_queue M !! EVENT_pvPtr E = Some q).
Context (Hroom : 0 <= room) (Htmo : 0 <= tmo <= ULONG_MAX) (Hcall : runs idle (MQ_k M) t).
Context (Hopt : TCB_ulRecvOption (recv_at M t) = opt).

Definition reader_parked (k' : KERNEL) : Prop := parked (MQ_k M) k' t e 0 (wait_ticks tmo).

(** There is no message. *)
Lemma wait_spec : msgs q = [] ->
  refined M e E (recv_step (joins_readers M e) (abs M e E q) (user_of M) t b room pl opt tmo) reader_parked
    ('(M, r) ← msg_wait M t e b room pl tmo; Some (M, pend_code r)).
Proof.
  intros Em. unfold msg_wait. rewrite (proj1 Hq). cbn [mbind option_bind].
  destruct (Z.eqb_spec tmo LW_OPTION_NOT_WAIT) as [E0|Hne]; cbn [mbind option_bind].
  - eapply (refined_same _ _ _ q); try done. by apply rs_poll.
  - rewrite Hopt. destruct (inv_recv M e E t (mkRecv pl room b opt) Hi Hq) as [A C]; [done|].
    set (M1 := set_recv t _ M) in *. change EVENT_MSG_Q_R with 0.
    destruct (queue_inv M e E Hi Hq) as (q0 & Hq0 & _ & Hc & _). rewrite HqM in Hq0. injection Hq0 as <-.
    destruct (pend_queue M1 t e E q 0 tmo A Hq HqM Hcall) as (k' & -> & A' & C' & D & F & G & H); [by left|done|by rewrite Hc, Em|].
    cbn [mbind option_bind pend_code]. exists (set_k k' M1), (with_readers (abs M e E q) (wview k' e 0)), WAITING, [].
    split; [done|]. split; [done|]. split; [by eapply own_trans|]. split; [|split; [by apply rs_wait|exact D]].
    rewrite F. f_equal. unfold abs, with_readers. cbn [set_k MQ_k q_max q_bytes q_msgs q_senders]. by rewrite (H 1).
Qed.

(** From the counter on. *)
Lemma recv_body_spec truncate : (truncate = true -> has_option opt LW_OPTION_NOERROR = true) ->
  refined M e E (recv_step (joins_readers M e) (abs M e E q) (user_of M) t b room pl opt tmo) reader_parked
    ('(M, r) ←
      (if negb (EVENT_ulCounter E =? 0) then
         '(_, q) ← queue_at M e;
         toobig ← (if truncate : bool then Some false
                   else n ← _MsgQueueMsgLen q; Some ((room <? n) && negb (has_option opt LW_OPTION_NOERROR)));
         if (toobig : bool) then Some (M, Return E2BIG)
         else M ← msg_take M e b room pl; Some (M, Return ERROR_NONE)
       else msg_wait M t e b room pl tmo);
     Some (M, pend_code r)).
Proof.
  intros Htr. destruct (queue_inv M e E Hi Hq) as (q0 & Hq0 & Hs & Hc & _). rewrite HqM in Hq0. injection Hq0 as <-.
  destruct (msgs q) as [|[p m] ms] eqn:Em.
  { rewrite Hc. change (negb (Z.of_nat (length (@nil MSG)) =? 0)) with false. cbv iota. by apply wait_spec. }
  assert (Hne : negb (EVENT_ulCounter E =? 0) = true) by (rewrite Hc; apply negb_true_iff, Z.eqb_neq; cbn; lia).
  rewrite Hne, (queue_at_eq M e E q (proj1 Hq) HqM). cbn [mbind option_bind].
  destruct (len_spec _ q _ p m ms Hs Em) as (El & _).
  assert (Etb : (if truncate then Some false
      else n ← _MsgQueueMsgLen q; Some ((room <? n) && negb (has_option opt LW_OPTION_NOERROR))) = Some (too_long opt room m)).
  { unfold too_long. destruct truncate; [by rewrite Htr, andb_false_r|]. by rewrite El. }
  rewrite Etb. cbn [mbind option_bind]. destruct (too_long opt room m) eqn:Etl; cbn [mbind option_bind pend_code].
  - eapply (refined_same _ _ _ q); try done. by eapply rs_long.
  - destruct (take_spec M e E q b room pl p m ms Hi Hq HqM Hs Em Hroom) as (M' & s' & l & -> & A & C & D & F & G).
    cbn [mbind option_bind pend_code]. exists M', s', ERROR_NONE, l. split; [done|]. split; [done|]. split; [done|].
    split; [done|]. split; [by eapply rs_take|done].
Qed.
End Recv.

(** ** The refinement *)

(** What the threads see of a call that waits. *)
Definition waits (M : MQ) (e : Z) (o : MSG_OP) (k' : KERNEL) : Prop :=
  match o with
  | MSend c _ _ tmo | MSendEx c _ _ tmo _ => parked (MQ_k M) k' (LW_TCB_GET_CUR c) e 1 (wait_ticks tmo)
  | MRecv t _ _ _ tmo | MRecvEx t _ _ _ tmo _ => parked (MQ_k M) k' t e 0 (wait_ticks tmo)
  | _ => False
  end.

Definition msg_refined (M : MQ) (e : Z) (E : LW_CLASS_EVENT) (q : LW_CLASS_MSGQUEUE) (o : MSG_OP) : option (MQ * Z) -> Prop :=
  refined M e E (mq_step (joins_at (MQ_k M) e 0) (joins_at (MQ_k M) e 1) (abs M e E q) (user_of M) o) (waits M e o).

Lemma msg_check_ok M ulId E : inv M -> _ObjectClassOK ulId _OBJECT_MSGQUEUE = true ->
  is_queue (MQ_k M) (_ObjectGetIndex ulId) E -> msg_check M ulId = Some ERROR_NONE.
Proof.
  intros Hi Hc [HE Ht]. unfold msg_check, _Event_Index_Invalid, _Event_Type_Invalid. rewrite Hc. cbn [negb].
  assert (Hr : 0 <= _ObjectGetIndex ulId < LW_CFG_MAX_EVENTS (MQ_k M)).
  { apply (po_dom _ (mi_pool _ _ _ _ Hi)). by eexists. }
  rewrite (proj2 (Z.leb_gt _ _)) by lia. rewrite HE. cbn [mbind option_bind]. by rewrite Ht.
Qed.

Lemma send_check_spec M ulId E q b n : inv M -> _ObjectClassOK ulId _OBJECT_MSGQUEUE = true ->
  is_queue (MQ_k M) (_ObjectGetIndex ulId) E -> MQ_queue M !! EVENT_pvPtr E = Some q ->
  send_check M ulId b n = Some (send_refused (abs M (_ObjectGetIndex ulId) E q) b n).
Proof.
  intros Hi Hc Hq HqM. unfold send_check, send_refused. destruct b as [l|]; [|done]. destruct (n =? 0); [done|].
  rewrite (msg_check_ok M ulId E Hi Hc Hq). cbn [mbind option_bind negb]. change (negb (ERROR_NONE =? ERROR_NONE)) with false. cbv iota.
  by rewrite (queue_at_eq M _ E q (proj1 Hq) HqM).
Qed.

Section Call.
Context (M : MQ) (ulId : Z) (E : LW_CLASS_EVENT) (q : LW_CLASS_MSGQUEUE).
Context (Hi : inv M) (Hc : _ObjectClassOK ulId _OBJECT_MSGQUEUE = true).
Context (Hq : is_queue (MQ_k M) (_ObjectGetIndex ulId) E) (HqM : MQ_queue M !! EVENT_pvPtr E = Some q).
Abbreviation e := (_ObjectGetIndex ulId).
Abbreviation s := (abs M (_ObjectGetIndex ulId) E q).

Lemma store_here : store_ok (MQ_heap M) q (EVENT_ulMaxCounter E).
Proof. destruct (queue_inv M e E Hi Hq) as (q0 & Hq0 & Hs & _). rewrite HqM in Hq0. by injection Hq0 as <-. Qed.

(** A send that is refused, and one that is not. *)
Lemma send_cases b n : 0 <= n <= Z.of_nat (length (default [] b)) ->
  (send_refused s b n <> ERROR_NONE /\ (send_refused s b n =? ERROR_NONE) = false /\ (send_refused s b n =? WAITING) = false) \/
  (send_refused s b n = ERROR_NONE /\ 0 < n <= MSGQUEUE_stMaxBytes q /\ n <= Z.of_nat (length (default [] b))).
Proof.
  intros Hn. unfold send_refused. destruct b as [l|]; [|by left]. cbn [default q_bytes abs] in *.
  destruct (Z.eqb_spec n 0) as [->|Hne]; [by left|]. cbn [orb].
  destruct (Z.ltb_spec (MSGQUEUE_stMaxBytes q) n); [by left|]. right. cbn in Hn. split; [done|]. cbn. lia.
Qed.

Lemma send_refines c b n tmo : msg_legal idle M (MSend c b n tmo) ->
  msg_refined M e E q (MSend c b n tmo) (msg_call M ulId (MSend c b n tmo)).
Proof.
  intros (Hn & Htmo & Hrun). unfold msg_call, API_MsgQueueSend2.
  rewrite (send_check_spec M ulId E q b n Hi Hc Hq HqM). cbn [mbind option_bind].
  destruct (send_cases b n Hn) as [(H1 & H2 & H3)|(H1 & H2 & H3)].
  - rewrite H2. cbn [negb mbind option_bind send_code]. eapply (refined_same _ _ _ q); try done. by apply ms_send_refused.
  - rewrite H1. pass.
    eapply refined_mono; [| |by apply (send_spec M e E q c (default [] b) n tmo Hi Hq HqM H2 H3 Htmo Hrun EVENT_MSG_Q_PRIO_LOW)].
    + intros s' u r l Hs. by apply ms_send.
    + done.
Qed.

Lemma sendex_refines c b n tmo opt : msg_legal idle M (MSendEx c b n tmo opt) ->
  msg_refined M e E q (MSendEx c b n tmo opt) (msg_call M ulId (MSendEx c b n tmo opt)).
Proof.
  intros Hl. pose proof Hl as (Hn & Htmo & Hrun). unfold msg_call, API_MsgQueueSendEx2.
  destruct (Z.eqb_spec opt LW_OPTION_DEFAULT) as [Eo|Hne].
  { eapply refined_mono; [| |by apply (send_refines c b n tmo)]; [|done].
    intros s' u r l Hs. inversion Hs; subst; [by apply ms_sendex, se_default|by apply ms_sendex_refused]. }
  rewrite (send_check_spec M ulId E q b n Hi Hc Hq HqM). cbn [mbind option_bind].
  destruct (send_cases b n Hn) as [(H1 & H2 & H3)|(H1 & H2 & H3)].
  { rewrite H2. cbn [negb mbind option_bind send_code]. eapply (refined_same _ _ _ q); try done. by apply ms_sendex_refused. }
  rewrite H1. pass. fold (option_prio opt).
  destruct (has_option opt LW_OPTION_URGENT) eqn:Eu; [|destruct (has_option opt LW_OPTION_BROADCAST) eqn:Eb].
  - pose proof (Z.land_nonneg (Z.shiftr opt 4) 0xf) as Hp0. fold (option_prio opt) in Hp0.
    destruct (Z.ltb_spec EVENT_MSG_Q_PRIO_LOW (option_prio opt)) as [Hbig|Hok].
    + destruct (wview (MQ_k M) e 0) as [|t tl] eqn:Ev.
      * unfold give_or. change EVENT_MSG_Q_R with 0. rewrite (waitnum idle B), Ev by apply Hi. cbn [negb mbind option_bind send_code].
        eapply (refined_same _ _ _ q); try done. apply ms_sendex; [done|]. by apply se_prio.
      * eapply refined_mono; [| |apply (give_or_spec M e E q c (default [] b) n tmo Hi Hq HqM H2 H3 (option_prio opt)); by rewrite Ev].
        -- intros s' u r l Hs. apply ms_sendex; [done|]. apply se_urgent; [done| |done]. right. cbn. by rewrite Ev.
        -- done.
    + eapply refined_mono; [| |apply (send_spec M e E q c (default [] b) n tmo Hi Hq HqM H2 H3 Htmo Hrun (option_prio opt));
        unfold EVENT_MSG_Q_PRIO_LOW in Hok; lia].
      * intros s' u r l Hs. apply ms_sendex; [done|]. apply se_urgent; [done|by left|done].
      * done.
  - destruct (broadcast_spec M e E (default [] b) n Hi Hq) as (M' & E1 & Hsv); [lia|]. change EVENT_MSG_Q_R with 0. rewrite E1.
    cbn [mbind option_bind send_code]. eapply (served_refined M M' e E 0 q); [exact Hsv|done|by apply (abs_readers _ _ _ _ _ _ _ Hsv)|].
    apply ms_sendex; [done|]. by apply se_broadcast.
  - cbn [mbind option_bind send_code]. eapply (refined_same _ _ _ q); try done. apply ms_sendex; [done|]. by apply se_option.
Qed.

(** A receive of either kind, behind its checks. *)
Lemma recv_again_spec t b room pl tmo opt truncate : 0 <= room -> 0 <= tmo <= ULONG_MAX -> runs idle (MQ_k M) t ->
  (truncate = true -> has_option opt LW_OPTION_NOERROR = true) ->
  refined M e E (fun s' u' r l =>
      (recv_refused b room <> ERROR_NONE /\ s' = s /\ u' = user_of M /\ r = recv_refused b room /\ l = []) \/
      (recv_refused b room = ERROR_NONE /\
       recv_step (joins_at (MQ_k M) e 0) s (set_option (user_of M) t opt) t b room pl opt tmo s' u' r l))
    (fun k' => parked (MQ_k M) k' t e 0 (wait_ticks tmo))
    ('(M, r) ← recv_again opt truncate M t ulId b room pl tmo; Some (M, pend_code r)).
Proof.
  intros Hroom Htmo Hrun Htr. unfold recv_again, recv_check, recv_refused. 
  destruct ((b =? LW_NULL) || (room =? 0)).
  { cbn [mbind option_bind pend_code]. eapply (refined_same _ _ _ q); try done. by left. }
  rewrite (msg_check_ok M ulId E Hi Hc Hq). pass.
  destruct (inv_recv M e E t (set_TCB_ulRecvOption opt (recv_at M t)) Hi Hq) as [A C]; [by apply recv_range|].
  set (M1 := set_recv t _ M) in *.
  assert (Hopt : TCB_ulRecvOption (recv_at M1 t) = opt) by (unfold recv_at; cbn; by rewrite lookup_insert_eq).
  change (K_event (MQ_k M1)) with (K_event (MQ_k M)). rewrite (proj1 Hq). cbn [mbind option_bind].
  destruct (recv_body_spec M1 e E q t b room pl tmo opt A Hq HqM Hroom Htmo Hrun Hopt truncate Htr)
    as (M' & s' & r & l & -> & A' & C' & D & F & G).
  exists M', s', r, l. split; [done|]. split; [done|]. split; [by eapply own_trans|]. split; [done|]. split; [by right|done].
Qed.

Lemma recv_refines t b room pl tmo : msg_legal idle M (MRecv t b room pl tmo) ->
  msg_refined M e E q (MRecv t b room pl tmo) (msg_call M ulId (MRecv t b room pl tmo)).
Proof.
  intros (Hroom & Htmo & Hrun). unfold msg_call, API_MsgQueueReceive, call. cbn [LW_CPU_GET_CUR_NESTING LW_TCB_GET_CUR].
  change (negb (0 =? 0)) with false. cbv iota.
  eapply refined_mono; [| |by apply (recv_again_spec t b room pl tmo LW_OPTION_NOERROR true)]; [|done].
  intros s' u r l [(H1 & -> & -> & -> & ->)|[H1 H2]]; [by apply ms_recv_refused|by apply ms_recv].
Qed.

Lemma recvex_refines t b room pl tmo opt : msg_legal idle M (MRecvEx t b room pl tmo opt) ->
  msg_refined M e E q (MRecvEx t b room pl tmo opt) (msg_call M ulId (MRecvEx t b room pl tmo opt)).
Proof.
  intros (Hroom & Htmo & Hrun). unfold msg_call, API_MsgQueueReceiveEx, call. cbn [LW_CPU_GET_CUR_NESTING LW_TCB_GET_CUR].
  change (negb (0 =? 0)) with false. cbv iota.
  eapply refined_mono; [| |by apply (recv_again_spec t b room pl tmo opt false)]; [|done].
  intros s' u r l [(H1 & -> & -> & -> & ->)|[H1 H2]]; [by apply ms_recvex_refused|by apply ms_recvex].
Qed.

Lemma try_refines b room pl : 0 <= room ->
  msg_refined M e E q (MTryRecv b room pl) (msg_call M ulId (MTryRecv b room pl)).
Proof.
  intros Hroom. unfold msg_call, API_MsgQueueTryReceive, recv_check.
  destruct (Z.eqb_spec b LW_NULL) as [->|Hne].
  { cbn [mbind option_bind]. eapply (refined_same _ _ _ q); try done. by apply ms_try_refused. }
  rewrite (msg_check_ok M ulId E Hi Hc Hq). pass.
  rewrite (proj1 Hq). cbn [mbind option_bind].
  destruct (queue_inv M e E Hi Hq) as (q0 & Hq0 & Hs & Hcount & _). rewrite HqM in Hq0. injection Hq0 as <-.
  destruct (msgs q) as [|[p m] ms] eqn:Em.
  - rewrite Hcount. cbn [length]. change (negb (Z.of_nat 0 =? 0)) with false. cbv iota.
    eapply (refined_same _ _ _ q); try done. by apply ms_try_empty.
  - assert (Hnz : negb (EVENT_ulCounter E =? 0) = true) by (rewrite Hcount; apply negb_true_iff, Z.eqb_neq; cbn; lia).
    rewrite Hnz. destruct (take_spec M e E q b room pl p m ms Hi Hq HqM Hs Em Hroom) as (M' & s' & l & -> & A & C & D & F & G).
    cbn [mbind option_bind]. exists M', s', ERROR_NONE, l. split; [done|]. split; [done|]. split; [done|].
    split; [done|]. split; [by apply ms_try|done].
Qed.
Lemma flush_send_refines : msg_refined M e E q MFlushSend (msg_call M ulId MFlushSend).
Proof.
  unfold msg_call, API_MsgQueueFlushSend. rewrite (msg_check_ok M ulId E Hi Hc Hq). pass.
  destruct (flush_send_spec M e E Hi Hq) as (k' & E1 & Hsv). change EVENT_MSG_Q_S with 1. rewrite E1. cbn [mbind option_bind].
  eapply (served_refined M _ e E 1 q); [exact Hsv|done|by apply (abs_senders _ _ _ _ _ _ _ Hsv)|]. apply ms_flush_send.
Qed.

Lemma flush_recv_refines : msg_refined M e E q MFlushRecv (msg_call M ulId MFlushRecv).
Proof.
  unfold msg_call, API_MsgQueueFlushReceive. rewrite (msg_check_ok M ulId E Hi Hc Hq). pass.
  destruct (flush_recv_spec M e E Hi Hq) as (M' & E1 & Hsv). change EVENT_MSG_Q_R with 0. rewrite E1. cbn [mbind option_bind].
  eapply (served_refined M _ e E 0 q); [exact Hsv|done|by apply (abs_readers _ _ _ _ _ _ _ Hsv)|]. apply ms_flush_recv.
Qed.

Lemma clear_refines : msg_refined M e E q MClear (msg_call M ulId MClear).
Proof.
  unfold msg_call, API_MsgQueueClear. rewrite (msg_check_ok M ulId E Hi Hc Hq). pass.
  rewrite (proj1 Hq). cbn [mbind option_bind]. rewrite (queue_at_eq M e E q (proj1 Hq) HqM). cbn [mbind option_bind].
  eapply refined_mono; [| |apply (clear_refined M e E q (waits M e MClear) Hi Hq HqM store_here)]; [|done].
  intros s' u r l (-> & -> & -> & ->). apply ms_clear.
Qed.

Lemma call_refines o : msg_legal idle M o -> msg_refined M e E q o (msg_call M ulId o).
Proof.
  destruct o; intros Hl.
  - by apply send_refines.
  - by apply sendex_refines.
  - by apply recv_refines.
  - by apply recvex_refines.
  - by apply try_refines.
  - apply clear_refines.
  - apply flush_send_refines.
  - apply flush_recv_refines.
Qed.
End Call.
End Services.
