(* ===== verification/MsgQueueLife.v ===== *)
(** * Creation and deletion of message queues

    A creation takes a queue object, a control block and a block of the kernel heap, and
    leaves an empty queue; a deletion tells every waiting thread and gives all three
    back.  Both keep the invariant of the file MsgQueueSpec. *)

From S2P Require Import Prelude Lists Bitmap Sched SchedSpec Object Wakeup Kernel Event EventSpec TickSpec Semaphore Mutex SemSpec LifeSpec SemRefine MsgQueue MsgStore MsgQueueSpec.

(** ** The pools *)

Definition unused_event (k : KERNEL) (e : Z) : Prop := exists E, K_event k !! e = Some E /\ EVENT_ucType E = LW_TYPE_EVENT_UNUSED.

Lemma pool_ok_inv k : pool_ok k <-> pool_inv (K_resrcEvent k) (LW_CFG_MAX_EVENTS k) (unused_event k) /\
  forall e, is_Some (K_event k !! e) <-> 0 <= e < LW_CFG_MAX_EVENTS k.
Proof.
  split.
  - intros [P1 P2 P3 P4 P5]. split; [|done]. split; [done|]. split; [done|]. split; [|done].
    intros e (E & HE & _). apply P3. by eexists.
  - intros [(P1 & P2 & P3 & P4 & P5) Hd]. by split.
Qed.

(** Taken and given back. *)
Lemma pool_bounce r n (P : Z -> Prop) x l : pool_inv r n P -> RESRC_free r = x :: l ->
  exists r', resrc_allocate r = Some (r', x) /\ pool_inv (resrc_free r' x) n P.
Proof.
  intros Hp Hf. destruct (pool_alloc r n P x l Hp Hf) as (r' & Ea & _ & Hp'). exists r'. split; [done|].
  assert (Hx : P x) by (apply (proj1 (proj2 Hp)); rewrite Hf; left).
  eapply pool_inv_ext; [|apply (pool_free r' n _ x Hp')].
  - intros y. cbn. destruct (decide (y = x)) as [->|]; tauto.
  - by apply (proj1 (proj2 (proj2 Hp))).
  - tauto.
Qed.

Lemma alloc_none r : resrc_allocate r = None <-> RESRC_free r = [].
Proof. unfold resrc_allocate. by destruct (RESRC_free r). Qed.

Lemma alloc_some r r' x : resrc_allocate r = Some (r', x) -> exists l, RESRC_free r = x :: l.
Proof. unfold resrc_allocate. destruct (RESRC_free r) as [|y l]; [done|]. intros [= _ <-]. by exists l. Qed.

Lemma store_ok_heap h h' q max : h' !! MSGQUEUE_pvBuffer q = h !! MSGQUEUE_pvBuffer q -> store_ok h q max -> store_ok h' q max.
Proof. intros Hh [H1 H2 H3 H4 H5 H6 H7 H8 H9]. split; try done. by rewrite Hh. Qed.

Section Life.
Context (idle B : Z -> Z) (N : Z).
Abbreviation kinv := (kern_inv idle B).
Abbreviation inv := (mq_inv idle B N).

Definition unused_object (M : MQ) (p : Z) : Prop := 0 <= p < N /\ forall e E, is_queue (MQ_k M) e E -> EVENT_pvPtr E <> p.

(** Only the pools change. *)
Lemma inv_pools M r k' : inv M -> pool_inv r N (unused_object M) -> kinv k' -> pool_ok k' ->
  K_event k' = K_event (MQ_k M) -> K_wait k' = K_wait (MQ_k M) ->
  (forall e iq, wview k' e iq = wview (MQ_k M) e iq) -> inv (set_k k' (set_mresrc r M)).
Proof.
  intros [I1 I2 I3 I4 I5 I6 I7 I8 I9 I10] Hr Hk Hp He Hw Hv.
  assert (Hq : forall e E, is_queue k' e E <-> is_queue (MQ_k M) e E) by (intros; unfold is_queue; by rewrite He).
  split; cbn [set_k set_mresrc MQ_k MQ_queue MQ_resrc MQ_recv]; try done.
  - intros t w. rewrite Hw. by apply I3.
  - intros e E H%Hq. by apply (I4 e E).
  - intros e E H%Hq. rewrite Hv. apply (queue_ok_frame M); [done|done|]. by apply I5.
  - intros e E. rewrite He, !Hv. by apply I6.
  - intros e1 e2 E1 E2 H1%Hq H2%Hq Hne. by apply (I7 e1 e2).
  - eapply pool_inv_ext; [|exact Hr]. intros p. unfold unused_object. f_equiv. by split; intros H e E H1%Hq; apply (H e).
Qed.

Lemma inv_bounce M l x r : inv M -> RESRC_free (MQ_resrc M) = x :: l -> resrc_allocate (MQ_resrc M) = Some (r, x) ->
  pool_inv (resrc_free r x) N (unused_object M).
Proof.
  intros Hi Hf Ha. destruct (pool_bounce _ _ _ x l (mi_objects _ _ _ _ Hi) Hf) as (r' & Ea & Hp).
  rewrite Ha in Ea. by injection Ea as <-.
Qed.

(** ** Creation *)

(** What a request is refused for before an object is looked for. *)
Definition msg_create_refused (c : CALL) (pcName : option (list Z)) (ulMaxMsgCounter stMaxMsgByteSize : Z) : Z :=
  if negb (LW_CPU_GET_CUR_NESTING c =? 0) then ERROR_KERNEL_IN_ISR
  else if ulMaxMsgCounter =? 0 then ERROR_MSGQUEUE_MAX_COUNTER_NULL
  else if stMaxMsgByteSize =? 0 then ERROR_MSGQUEUE_MAX_LEN_NULL
  else if _Object_Name_Invalid pcName then ERROR_KERNEL_PNAME_TOO_LONG
  else ERROR_NONE.

(** The arguments are of their C types and the size of the buffer does not overflow. *)
Definition msg_create_legal (ulMaxMsgCounter stMaxMsgByteSize : Z) : Prop :=
  0 <= ulMaxMsgCounter <= ULONG_MAX /\ 0 <= stMaxMsgByteSize <= ULONG_MAX - 23 /\
  ulMaxMsgCounter * (align_msg stMaxMsgByteSize + sizeof_MSGNODE) <= ULONG_MAX.

(** The kernel heap gives blocks of the asked size, inside the address space and at
    addresses it did not give before. *)
Definition heap_gives (M : MQ) (kheap : Z -> option Z) : Prop := forall n a, kheap n = Some a ->
  0 <= a /\ a + n <= 2 ^ 64 /\ MQ_heap M !! a = None.

Lemma align_msg_spec n : 0 <= n <= ULONG_MAX - 23 -> n <= align_msg n <= n + 7.
Proof. intros Hn. unfold align_msg. pose proof (ROUND_UP_spec n 3) as H. unfold ULONG_MAX in *. lia. Qed.

Lemma msgqueue_bytes_eq max bytes : 0 < max -> msg_create_legal max bytes ->
  msgqueue_bytes max bytes = max * (align_msg bytes + sizeof_MSGNODE).
Proof.
  intros Hm (H1 & H2 & H3). pose proof (align_msg_spec bytes H2) as Ha. unfold msgqueue_bytes, sizeof_MSGNODE, ULONG_MAX in *.
  rewrite (wrap_small 64 (_ + 16)) by lia. apply wrap_small. nia.
Qed.

(** The store of a new queue. *)
Lemma new_store M a max bytes q0 : 0 < max -> 0 < bytes -> msg_create_legal max bytes -> 0 <= a ->
  a + msgqueue_bytes max bytes <= 2 ^ 64 ->
  let h := <[a := msgqueue_bytes max bytes]> (MQ_heap M) in
  exists q, _MsgQueueClear h (set_MSGQUEUE_buffer a bytes q0) max = Some q /\ store_ok h q max /\ msgs q = [] /\
    MSGQUEUE_pvBuffer q = a /\ MSGQUEUE_stMaxBytes q = bytes.
Proof.
  intros Hm Hb Hl Ha Hend h. pose proof (msgqueue_bytes_eq max bytes Hm Hl) as Hsz. destruct Hl as (_ & Hb2 & _).
  pose proof (align_msg_spec bytes Hb2) as Hal.
  destruct (clear_spec h (set_MSGQUEUE_buffer a bytes q0) max Hm) as (q & E & Hs & Em & Eb & Ey).
  - cbn. lia.
  - eexists. split; [apply lookup_insert_eq|]. rewrite Hsz. unfold node_room. cbn. lia.
  - unfold node_room. cbn. lia.
  - exists q. by splits.
Qed.

(** An object, a control block and a heap block become a queue. *)
Definition created (M : MQ) (r : RESRC) (p : Z) (re : RESRC) (e a max bytes opt : Z) (q : LW_CLASS_MSGQUEUE) : MQ :=
  mkMQ (event_init (set_resrc re (MQ_k M)) e (msgqueue_fields max opt p)) (<[p := q]> (MQ_queue M)) r (MQ_recv M)
    (MQ_size M) (MQ_mem M) (<[a := msgqueue_bytes max bytes]> (MQ_heap M)).

Section Created.
Context (M : MQ) (r : RESRC) (p : Z) (re : RESRC) (e a max bytes opt : Z) (q : LW_CLASS_MSGQUEUE) (l le : list Z).
Context (Hi : inv M) (Hmax : 0 < max <= ULONG_MAX).
Context (Hr : resrc_allocate (MQ_resrc M) = Some (r, p)) (Hre : resrc_allocate (K_resrcEvent (MQ_k M)) = Some (re, e)).
Context (Hl : RESRC_free (MQ_resrc M) = p :: l) (Hle : RESRC_free (K_resrcEvent (MQ_k M)) = e :: le).
Context (HB : B e = LW_THREAD_STATUS_MSGQUEUE) (Hfresh : MQ_heap M !! a = None).
Context (Hs : store_ok (<[a := msgqueue_bytes max bytes]> (MQ_heap M)) q max) (Em : msgs q = []) (Ea : MSGQUEUE_pvBuffer q = a).
Abbreviation M' := (created M r p re e a max bytes opt q).

Lemma created_kern : exists E, K_event (MQ_k M) !! e = Some E /\ EVENT_ucType E = LW_TYPE_EVENT_UNUSED /\
  kinv (MQ_k M') /\ pool_ok (MQ_k M') /\ K_wait (MQ_k M') = K_wait (MQ_k M) /\
  K_event (MQ_k M') = alter (msgqueue_fields max opt p) e (K_event (MQ_k M)) /\
  (forall e' iq, wview (MQ_k M') e' iq = wview (MQ_k M) e' iq) /\ wview (MQ_k M) e 0 = [] /\ wview (MQ_k M) e 1 = [].
Proof.
  pose proof (mi_pool _ _ _ _ Hi) as HP.
  destruct (proj1 (po_free _ HP e)) as (E & HE & Et); [rewrite Hle; left|].
  destruct (mi_unused _ _ _ _ Hi e E HE Et) as [H0 H1].
  destruct (event_init_spec idle B (MQ_k M) e E (msgqueue_fields max opt p) re (mi_kern _ _ _ _ Hi) HE H0 H1)
    as (B1 & B2 & B3 & B4 & B5 & B6). cbn [created MQ_k].
  generalize dependent (event_init (set_resrc re (MQ_k M)) e (msgqueue_fields max opt p)). intros k' B1 B2 B3 B4 B5 B6.
  exists E. splits; try done. by apply (pool_ok_alloc (MQ_k M) k' re e le E (msgqueue_fields max opt p)).
Qed.

(** The queues after it: the new one and the old ones. *)
Lemma created_is E0 e' : is_queue (MQ_k M') e' E0 -> (e' = e /\ EVENT_pvPtr E0 = p /\ EVENT_ulMaxCounter E0 = max /\ EVENT_ulCounter E0 = 0) \/
  (e' <> e /\ is_queue (MQ_k M) e' E0 /\ EVENT_pvPtr E0 <> p).
Proof.
  destruct created_kern as (E & HE & Et & _ & _ & _ & He & _). intros [H0 Ht]. rewrite He in H0.
  destruct (decide (e' = e)) as [->|Hne].
  - rewrite lookup_alter_eq, HE in H0. injection H0 as <-. by left.
  - right. rewrite lookup_alter_ne in H0 by done. split; [done|]. split; [done|].
    assert (Hu : unused_object M p) by (apply (proj1 (proj2 (mi_objects _ _ _ _ Hi))); rewrite Hl; left).
    by apply (proj2 Hu e' E0).
Qed.

Lemma created_old e' E0 : e' <> e -> is_queue (MQ_k M) e' E0 -> is_queue (MQ_k M') e' E0.
Proof.
  destruct created_kern as (E & HE & Et & _ & _ & _ & He & _). intros Hne [H0 Ht]. split; [|done].
  by rewrite He, lookup_alter_ne.
Qed.

(** The buffer of an old queue is not the new block. *)
Lemma old_buffer e' E0 : is_queue (MQ_k M) e' E0 -> exists q0, MQ_queue M !! EVENT_pvPtr E0 = Some q0 /\
  store_ok (MQ_heap M) q0 (EVENT_ulMaxCounter E0) /\ MSGQUEUE_pvBuffer q0 <> a.
Proof.
  intros H. destruct (mi_queue _ _ _ _ Hi e' E0 H) as [(q0 & H1 & H2 & _) _ _]. exists q0. split; [done|]. split; [done|].
  intros Eq. destruct (so_block _ _ _ H2) as (s & Hs0 & _). rewrite Eq in Hs0. congruence.
Qed.

Lemma created_inv : inv M'.
Proof.
  destruct created_kern as (E & HE & Et & Hk & Hp & Hw & He & Hv & H0 & H1). split; try done.
  - intros t w. rewrite Hw. apply (mi_mark _ _ _ _ Hi).
  - intros e' E0 [(-> & _)|(_ & H & _)]%created_is; [done|by apply (mi_bit _ _ _ _ Hi e' E0)].
  - intros e' E0 [(-> & Ep & Emx & Ec)|(Hne & H & Hnp)]%created_is; rewrite Hv.
    + split; [|lia|lia]. exists q. cbn [created MQ_queue MQ_heap]. by rewrite Ep, lookup_insert_eq, Emx, Ec, Em.
    + destruct (old_buffer e' E0 H) as (q0 & Hq0 & Hs0 & Hb0).
      destruct (mi_queue _ _ _ _ Hi e' E0 H) as [(q1 & G1 & G2 & G3) G4 G5]. rewrite Hq0 in G1. injection G1 as <-.
      split; [|done|done]. exists q0. cbn [created MQ_queue MQ_heap]. rewrite lookup_insert_ne by done. split; [done|]. split; [|done].
      apply (store_ok_heap (MQ_heap M)); [by rewrite lookup_insert_ne|done].
  - intros e' E0 HE0 Hu. rewrite !Hv. rewrite He in HE0. destruct (decide (e' = e)) as [->|Hne]; [done|].
    rewrite lookup_alter_ne in HE0 by done. by apply (mi_unused _ _ _ _ Hi e' E0).
  - assert (Hx : forall e0 E0, is_queue (MQ_k M) e0 E0 -> EVENT_pvPtr E0 <> p -> EVENT_pvPtr E0 <> p /\ buffer_of M' (EVENT_pvPtr E0) <> buffer_of M' p).
    { intros e0 E0 H Hnp. split; [done|]. destruct (old_buffer e0 E0 H) as (q0 & Hq0 & _ & Hb0). unfold buffer_of. cbn [created MQ_queue].
      rewrite lookup_insert_ne, lookup_insert_eq, Hq0 by done. cbn. rewrite Ea. congruence. }
    intros e1 e2 E1 E2 [(-> & Ep1 & _)|(N1 & Q1 & P1)]%created_is [(-> & Ep2 & _)|(N2 & Q2 & P2)]%created_is Hne.
    + done.
    + rewrite Ep1. destruct (Hx e2 E2 Q2 P2). split; by apply not_eq_sym.
    + rewrite Ep2. by apply (Hx e1 E1).
    + unfold buffer_of. cbn [created MQ_queue]. rewrite !lookup_insert_ne by done. by apply (mi_apart _ _ _ _ Hi e1 e2).
  - destruct (pool_alloc _ _ _ p l (mi_objects _ _ _ _ Hi) Hl) as (r' & Ea' & _ & Hpi). rewrite Hr in Ea'. injection Ea' as <-.
    eapply pool_inv_ext; [|exact Hpi]. intros x. cbn. split.
    + intros [[Hx1 Hx2] Hne]. split; [done|]. intros e' E0 [(-> & Ep & _)|(_ & H & _)]%created_is; [congruence|by apply (Hx2 e')].
    + intros [Hx1 Hx2].
      assert (Hnew : is_queue (MQ_k M') e (msgqueue_fields max opt p E)) by (split; [by rewrite He, lookup_alter_eq, HE|done]).
      pose proof (Hx2 e _ Hnew) as Hpx. cbn in Hpx. split; [split; [done|]|congruence].
      intros e' E0 H. apply (Hx2 e'). apply created_old; [|done]. intros ->. destruct H as [H H']. rewrite HE in H.
      injection H as <-. by rewrite Et in H'.
  - intros x. cbn [created MQ_queue]. rewrite lookup_insert_is_Some', (mi_dom _ _ _ _ Hi). split; [|tauto].
    intros [<-|?]; [|done]. apply (proj1 (proj2 (proj2 (mi_objects _ _ _ _ Hi)))).
    apply (proj1 (proj2 (mi_objects _ _ _ _ Hi))). rewrite Hl. left.
  - apply (mi_recv _ _ _ _ Hi).
Qed.
End Created.
(** The bytes of the buffer of a queue: per message its bytes, rounded up to words of 8, and
    the 16 of its node. *)
Definition buffer_size (max bytes : Z) : Z := max * ((bytes + 7) / 8 * 8 + 16).

Lemma buffer_size_eq max bytes : 0 <= bytes <= ULONG_MAX - 23 -> max * (align_msg bytes + sizeof_MSGNODE) = buffer_size max bytes.
Proof.
  intros Hb. unfold buffer_size, align_msg, ROUND_UP, sizeof_MSGNODE. change (2 ^ 3 - 1) with 7.
  rewrite wrap64_small, ldiff_ones_div by lia. done.
Qed.

(** What a creation can end with, and when: refused for its arguments; no queue object is free; one is, but no
    control block is, or the kernel heap does not give the buffer, and all goes back to the pools; or a new, empty queue
    with the options asked for, in the first free control block and the first free object, its
    buffer where the heap gave it. *)
Inductive create_end (kheap : Z -> option Z) (M : MQ) (max bytes opt : Z) (refused : Z) : MQ -> Z -> Z -> Prop :=
| ce_refused : refused <> ERROR_NONE -> create_end kheap M max bytes opt refused M LW_OBJECT_HANDLE_INVALID refused
| ce_object : refused = ERROR_NONE -> RESRC_free (MQ_resrc M) = [] ->
    create_end kheap M max bytes opt refused M LW_OBJECT_HANDLE_INVALID ERROR_MSGQUEUE_FULL
| ce_memory M' : refused = ERROR_NONE -> RESRC_free (MQ_resrc M) <> [] ->
    RESRC_free (K_resrcEvent (MQ_k M)) = [] \/ kheap (buffer_size max bytes) = None ->
    RESRC_free (MQ_resrc M') ≡ₚ RESRC_free (MQ_resrc M) ->
    RESRC_free (K_resrcEvent (MQ_k M')) ≡ₚ RESRC_free (K_resrcEvent (MQ_k M)) ->
    (forall e, queue_of M' e = queue_of M e) ->
    MQ_heap M' = MQ_heap M -> user_of M' = user_of M -> K_event (MQ_k M') = K_event (MQ_k M) ->
    create_end kheap M max bytes opt refused M' LW_OBJECT_HANDLE_INVALID ERROR_KERNEL_LOW_MEMORY
| ce_created M' e E : refused = ERROR_NONE ->
    RESRC_free (MQ_resrc M) = EVENT_pvPtr E :: RESRC_free (MQ_resrc M') ->
    RESRC_free (K_resrcEvent (MQ_k M)) = e :: RESRC_free (K_resrcEvent (MQ_k M')) ->
    is_queue (MQ_k M') e E -> EVENT_ulOption E = opt -> EVENT_ulCounter E = 0 ->
    queue_of M' e = Some (mkQueue max bytes [] [] []) ->
    (forall e' E', e' <> e -> is_queue (MQ_k M) e' E' -> queue_of M' e' = queue_of M e') ->
    (exists a, kheap (buffer_size max bytes) = Some a /\ MQ_heap M' = <[a := buffer_size max bytes]> (MQ_heap M)) ->
    user_of M' = user_of M ->
    (forall e', e' <> e -> K_event (MQ_k M') !! e' = K_event (MQ_k M) !! e') ->
    create_end kheap M max bytes opt refused M' (_MakeObjectId _OBJECT_MSGQUEUE LW_CFG_PROCESSOR_NUMBER e) ERROR_NONE.

Lemma bounce_perm r r' x : resrc_allocate r = Some (r', x) -> RESRC_free (resrc_free r' x) ≡ₚ RESRC_free r.
Proof.
  unfold resrc_allocate. destruct (RESRC_free r) as [|y l] eqn:E; [done|]. intros [= <- <-]. unfold resrc_free. cbn.
  by rewrite Permutation_app_comm.
Qed.

Lemma alloc_rest r r' x l : resrc_allocate r = Some (r', x) -> RESRC_free r = x :: l -> RESRC_free r' = l.
Proof. unfold resrc_allocate. intros H E. rewrite E in H. by injection H as <-. Qed.

Lemma queue_of_pools M k' r e : K_event k' = K_event (MQ_k M) -> (forall iq, wview k' e iq = wview (MQ_k M) e iq) ->
  queue_of (set_k k' (set_mresrc r M)) e = queue_of M e.
Proof. intros He Hv. unfold queue_of. cbn [set_k set_mresrc MQ_k MQ_queue]. by rewrite He, !Hv. Qed.

Lemma created_end kheap M r p re e a max bytes opt q l le : inv M -> 0 < max <= ULONG_MAX ->
  resrc_allocate (MQ_resrc M) = Some (r, p) -> resrc_allocate (K_resrcEvent (MQ_k M)) = Some (re, e) ->
  RESRC_free (MQ_resrc M) = p :: l -> RESRC_free (K_resrcEvent (MQ_k M)) = e :: le -> msgs q = [] ->
  MSGQUEUE_stMaxBytes q = bytes -> msgqueue_bytes max bytes = buffer_size max bytes -> kheap (msgqueue_bytes max bytes) = Some a ->
  create_end kheap M max bytes opt ERROR_NONE (created M r p re e a max bytes opt q)
    (_MakeObjectId _OBJECT_MSGQUEUE LW_CFG_PROCESSOR_NUMBER e) ERROR_NONE.
Proof.
  intros Hi Hmax Hr Hre Hl Hle Em Ey Hsz Ha.
  destruct (created_kern M r p re e a max bytes opt q le Hi Hre Hle) as (E & HE & Et & _ & _ & _ & He & Hv & H0 & H1).
  assert (Hnew : K_event (MQ_k (created M r p re e a max bytes opt q)) !! e = Some (msgqueue_fields max opt p E)) by (by rewrite He, lookup_alter_eq, HE).
  assert (Hfe : RESRC_free (K_resrcEvent (MQ_k (created M r p re e a max bytes opt q))) = le).
  { rewrite <-(alloc_rest _ re e le Hre Hle). cbn [created MQ_k]. set (f := msgqueue_fields max opt p).
    assert (Ei : event_init (set_resrc re (MQ_k M)) e f = set_resrc re (event_init (MQ_k M) e f)) by (unfold event_init; by rewrite <-init_rings_resrc).
    by rewrite Ei. }
  eapply (ce_created _ _ _ _ _ _ _ e _); try done.
  - cbn [created MQ_resrc]. by rewrite (alloc_rest _ r p l Hr Hl).
  - by rewrite Hfe.
  - rewrite (queue_of_eq _ e _ q Hnew) by apply lookup_insert_eq. unfold abs. by rewrite !Hv, H0, H1, Em, Ey.
  - intros e' E' Hne H. unfold queue_of. rewrite He, lookup_alter_ne, !Hv by done. rewrite (proj1 H). cbn [mbind option_bind created MQ_queue].
    assert (Hu : unused_object M p) by (apply (proj1 (proj2 (mi_objects _ _ _ _ Hi))); rewrite Hl; left).
    rewrite lookup_insert_ne; [done|]. apply not_eq_sym. by apply (proj2 Hu e' E').
  - exists a. rewrite <-Hsz. split; [exact Ha|done].
  - intros e' Hne. by rewrite He, lookup_alter_ne.
Qed.

Lemma msg_create_spec kheap M c name max bytes opt : inv M -> msg_create_legal max bytes -> heap_gives M kheap ->
  (forall e, unused_event (MQ_k M) e -> B e = LW_THREAD_STATUS_MSGQUEUE) ->
  exists M' id r, API_MsgQueueCreate kheap M c name max bytes opt = Some (M', id, r) /\ inv M' /\
    create_end kheap M max bytes opt (msg_create_refused c name max bytes) M' id r.
Proof.
  intros Hi Hleg Hheap HB. unfold API_MsgQueueCreate, msg_create_refused.
  destruct (negb (LW_CPU_GET_CUR_NESTING c =? 0)); [by eexists _, _, _; split; [done|split; [done|by apply ce_refused]]|].
  destruct (Z.eqb_spec max 0) as [|Hm]; [by eexists _, _, _; split; [done|split; [done|by apply ce_refused]]|].
  destruct (Z.eqb_spec bytes 0) as [|Hb]; [by eexists _, _, _; split; [done|split; [done|by apply ce_refused]]|].
  destruct (_Object_Name_Invalid name); [by eexists _, _, _; split; [done|split; [done|by apply ce_refused]]|].
  unfold _Allocate_MsgQueue_Object, _Free_MsgQueue_Object, _Allocate_Event_Object, _Free_Event_Object.
  destruct (resrc_allocate (MQ_resrc M)) as [[r p]|] eqn:Hr.
  2: { apply alloc_none in Hr. eexists _, _, _. split; [done|]. split; [done|]. by apply ce_object. }
  destruct (alloc_some _ _ _ Hr) as [l Hl]. pose proof (inv_bounce M l p r Hi Hl Hr) as Hback.
  cbn [set_mresrc MQ_k]. destruct (resrc_allocate (K_resrcEvent (MQ_k M))) as [[re e]|] eqn:Hre.
  2: { eexists _, _, _. split; [done|].
       pose proof (inv_pools M (resrc_free r p) (MQ_k M) Hi Hback (mi_kern _ _ _ _ Hi) (mi_pool _ _ _ _ Hi) eq_refl eq_refl (fun _ _ => eq_refl)) as Hi'.
       split; [exact Hi'|]. apply ce_memory; try done; [by rewrite Hl|left; by apply alloc_none|cbn; by apply bounce_perm]. }
  destruct (alloc_some _ _ _ Hre) as [le Hle].
  assert (Hsz : msgqueue_bytes max bytes = buffer_size max bytes).
  { destruct Hleg as (L1 & L2 & L3). rewrite msgqueue_bytes_eq by (done || lia). by apply buffer_size_eq. }
  destruct Hleg as (L1 & L2 & L3). destruct (kheap (msgqueue_bytes max bytes)) as [a|] eqn:Ea.
  - destruct (Hheap _ _ Ea) as (Ha & Hend & Hfresh). cbn [set_k set_mresrc set_heap MQ_queue MQ_heap].
    assert (Hp : 0 <= p < N).
    { apply (proj1 (proj2 (proj2 (mi_objects _ _ _ _ Hi)))), (proj1 (proj2 (mi_objects _ _ _ _ Hi))). rewrite Hl. left. }
    apply (mi_dom _ _ _ _ Hi) in Hp as [q0 Hq0]. rewrite Hq0. cbn [mbind option_bind].
    destruct (new_store M a max bytes q0) as (q & -> & Hs & Em & Eb & Ey); [lia|lia|done|done|done|]. cbn [mbind option_bind].
    assert (HBe : B e = LW_THREAD_STATUS_MSGQUEUE).
    { apply HB, (po_free _ (mi_pool _ _ _ _ Hi)). rewrite Hle. left. }
    assert (Hmax : 0 < max <= ULONG_MAX) by lia.
    exists (created M r p re e a max bytes opt q). eexists _, _. split; [done|].
    split; [by apply (created_inv M r p re e a max bytes opt q l le)|].
    by apply (created_end kheap M r p re e a max bytes opt q l le).
  - eexists _, _, _. split; [done|]. cbn [set_k set_mresrc MQ_k].
    assert (Hpk : pool_ok (set_resrc (resrc_free re e) (MQ_k M))).
    { apply pool_ok_inv. pose proof (proj1 (pool_ok_inv (MQ_k M)) (mi_pool _ _ _ _ Hi)) as [Hpi Hd]. split; [|done].
      destruct (pool_bounce _ _ _ e le Hpi Hle) as (re' & Ea' & Hpi'). rewrite Hre in Ea'. by injection Ea' as <-. }
    pose proof (inv_pools M (resrc_free r p) (set_resrc (resrc_free re e) (MQ_k M)) Hi Hback
      (kern_inv_resrc idle B _ _ (mi_kern _ _ _ _ Hi)) Hpk eq_refl eq_refl (fun _ _ => eq_refl)) as Hi'.
    split; [exact Hi'|]. apply ce_memory; try done; [by rewrite Hl|right; by rewrite <-Hsz|cbn; by apply bounce_perm|cbn; by apply bounce_perm].
Qed.
(** ** Deletion *)

(** The state after the queue of [e], object [p] with its buffer at [b], is gone; [k3] is the
    kernel with all its threads told. *)
Definition dropped (M : MQ) (k3 : KERNEL) (e p b : Z) : MQ :=
  mkMQ (freed k3 e) (MQ_queue M) (resrc_free (MQ_resrc M) p) (MQ_recv M) (MQ_size M) (MQ_mem M) (delete b (MQ_heap M)).

Section Dropped.
Context (M : MQ) (k3 : KERNEL) (e : Z) (E E3 : LW_CLASS_EVENT) (q : LW_CLASS_MSGQUEUE).
Context (Hi : inv M) (Hq : is_queue (MQ_k M) e E) (HqM : MQ_queue M !! EVENT_pvPtr E = Some q).
Context (Hk3 : kinv k3) (Ht3 : touches (MQ_k M) k3 e) (HE3 : K_event k3 !! e = Some E3).
Context (Et3 : EVENT_ucType E3 = LW_TYPE_EVENT_UNUSED) (Hv0 : wview k3 e 0 = []) (Hv1 : wview k3 e 1 = []).
Abbreviation M' := (dropped M k3 e (EVENT_pvPtr E) (MSGQUEUE_pvBuffer q)).

Lemma dropped_is e' E' : is_queue (MQ_k M') e' E' <-> e' <> e /\ is_queue (MQ_k M) e' E'.
Proof.
  unfold is_queue. change (K_event (MQ_k M')) with (K_event k3). destruct (decide (e' = e)) as [->|Hne].
  - split; [|tauto]. intros [H0 H1]. rewrite HE3 in H0. injection H0 as <-. by rewrite Et3 in H1.
  - rewrite (tc_event _ _ _ Ht3) by done. tauto.
Qed.

Lemma dropped_store e' E' : e' <> e -> is_queue (MQ_k M) e' E' -> queue_ok M E' (wview (MQ_k M) e' 0) ->
  queue_ok M' E' (wview (MQ_k M) e' 0).
Proof.
  intros Hne H [(q0 & H1 & H2 & H3) H4 H5]. split; [|done|done]. exists q0. split; [done|]. split; [|done].
  apply (store_ok_heap (MQ_heap M)); [|done]. cbn [dropped MQ_heap]. rewrite lookup_delete_ne; [done|].
  destruct (mi_apart _ _ _ _ Hi e' e E' E H Hq Hne) as [_ Hb]. unfold buffer_of in Hb. rewrite H1, HqM in Hb. cbn in Hb. congruence.
Qed.

Lemma dropped_inv : inv M'.
Proof.
  assert (Hty : EVENT_ucType E <> LW_TYPE_EVENT_UNUSED) by (by rewrite (proj2 Hq)).
  split; cbn [dropped MQ_k MQ_recv MQ_queue].
  - by apply kern_inv_resrc.
  - eapply (pool_ok_freed (MQ_k M)); [apply (mi_pool _ _ _ _ Hi)|apply Hq|done..].
  - apply (tc_mark _ _ _ Ht3), (mi_mark _ _ _ _ Hi).
  - intros e' E' [Hne H]%dropped_is. by apply (mi_bit _ _ _ _ Hi e' E').
  - intros e' E' [Hne H]%dropped_is. unfold freed. rewrite touches_resrc_wview, (tc_view _ _ _ Ht3) by done.
    apply dropped_store; [done|done|]. by apply (mi_queue _ _ _ _ Hi).
  - intros e' E' H Hu. unfold freed. rewrite !touches_resrc_wview. destruct (decide (e' = e)) as [->|Hne]; [done|].
    rewrite !(tc_view _ _ _ Ht3) by done. apply (mi_unused _ _ _ _ Hi e' E'); [|done].
    rewrite <-(tc_event _ _ _ Ht3); done.
  - intros e1 e2 E1 E2 [N1 Q1]%dropped_is [N2 Q2]%dropped_is Hne. by apply (mi_apart _ _ _ _ Hi e1 e2).
  - assert (Hp : 0 <= EVENT_pvPtr E < N) by (apply (mi_dom _ _ _ _ Hi); by eexists).
    eapply pool_inv_ext; [|apply (pool_free _ _ _ (EVENT_pvPtr E) (mi_objects _ _ _ _ Hi) Hp)].
    + intros x. cbn. split.
      * intros [[Hx1 Hx2]| ->]; (split; [done|]); intros e' E' [Hne H]%dropped_is; [by apply (Hx2 e')|].
        by apply (mi_apart _ _ _ _ Hi e' e).
      * intros [Hx1 Hx2]. destruct (decide (x = EVENT_pvPtr E)) as [->|Hne]; [by right|left]. split; [done|].
        intros e' E' H. destruct (decide (e' = e)) as [->|He]; [|by apply (Hx2 e'), dropped_is].
        destruct H as [H _], Hq as [H' _]. rewrite H' in H. injection H as <-. congruence.
    + intros [_ H]. by apply (H e E Hq).
  - apply (mi_dom _ _ _ _ Hi).
  - apply (mi_recv _ _ _ _ Hi).
Qed.
End Dropped.

Lemma delete_spec M c ulId E q : inv M -> LW_CPU_GET_CUR_NESTING c = 0 ->
  _ObjectClassOK ulId _OBJECT_MSGQUEUE = true -> is_queue (MQ_k M) (_ObjectGetIndex ulId) E ->
  MQ_queue M !! EVENT_pvPtr E = Some q ->
  exists M', API_MsgQueueDelete M c ulId = Some (M', ERROR_NONE, LW_OBJECT_HANDLE_INVALID) /\ inv M' /\
    deleted (MQ_k M) (MQ_k M') (_ObjectGetIndex ulId) /\ MQ_heap M' = delete (MSGQUEUE_pvBuffer q) (MQ_heap M) /\
    RESRC_free (MQ_resrc M') = RESRC_free (MQ_resrc M) ++ [EVENT_pvPtr E] /\ user_of M' = user_of M /\
    (forall e' E', e' <> _ObjectGetIndex ulId -> is_queue (MQ_k M) e' E' -> queue_of M' e' = queue_of M e').
Proof.
  intros Hi Hc Hcl Hq HqM. unfold API_MsgQueueDelete. rewrite Hc, (msg_check_ok idle B N M ulId E Hi Hcl Hq).
  change (negb (0 =? 0)) with false. cbv iota. pass. set (e := _ObjectGetIndex ulId) in *.
  pose proof (mi_kern _ _ _ _ Hi) as Hk. pose proof (mi_bit _ _ _ _ Hi e E Hq) as Hb.
  destruct (dying_spec idle B (MQ_k M) e E Hk (proj1 Hq)) as (k1 & E1 & Hk1 & Ht1 & HE1 & Hv1 & Hw1).
  destruct (dying_both idle B (MQ_k M) k1 e _ Hk Hk1 HE1 Ht1 Hv1 Hw1) as (k2 & E2 & Hk2 & Ht2 & HE2 & H0 & H1 & Htold).
  rewrite Hb in E1, E2. change EVENT_MSG_Q_R with 0. change EVENT_MSG_Q_S with 1. rewrite E1. cbn [mbind option_bind].
  rewrite E2. cbn [mbind option_bind].
  destruct (disown_spec idle B (MQ_k M) k2 e _ Hk2 Ht2 HE2) as (Hk3 & Ht3 & HE3 & Hv3). set (k3 := upd_event e _ k2) in *.
  rewrite (queue_at_eq (set_k k3 M) e _ q HE3 HqM). cbn [mbind option_bind set_k set_mresrc set_heap MQ_heap MQ_resrc].
  destruct (store_here idle B N M ulId E q Hi Hq HqM) as [_ _ (sz & Hsz & _) _ _ _ _ _ _].
  rewrite Hsz. cbn [mbind option_bind]. exists (dropped M k3 e (EVENT_pvPtr E) (MSGQUEUE_pvBuffer q)). split; [done|].
  split; [by eapply (dropped_inv M k3 e E _ q Hi Hq HqM Hk3 Ht3 HE3); rewrite ?Hv3|]. split; [|splits; try done].
  - split; try done.
    + eexists. by split; [exact HE3|].
    + intros e' He'. by apply (tc_event _ _ _ Ht3).
    + intros e' iq He'. by apply (tc_view _ _ _ Ht3).
    + cbn [dropped MQ_k]. unfold freed. by rewrite !touches_resrc_wview, !Hv3.
    + cbn. by rewrite (tc_resrc _ _ _ Ht2).
    + exact (tc_sleep _ _ _ Ht3).
  - intros e' E' Hne H. unfold queue_of. cbn [dropped MQ_k MQ_queue freed set_resrc K_event].
    change (K_event (freed k3 e)) with (K_event k3). unfold freed. rewrite !touches_resrc_wview.
    by rewrite (tc_event _ _ _ Ht3), !(tc_view _ _ _ Ht3).
Qed.
End Life.
