(* ===== verification/MsgQueueRun.v ===== *)
(** * Systems of message queues

    Every service of the message queues, with any handle, in any order and among ticks and
    scheduler steps, is safe; the refinement of the file MsgQueueSpec, the round trip of
    a message and the limits of what the queues promise. *)

From S2P Require Import Prelude Lists Bitmap Sched SchedSpec Object Wakeup Kernel Event EventSpec Boot TickSpec Semaphore Mutex SemSpec LifeSpec SemRefine MutexSpec RwSpec System MsgQueue MsgStore MsgQueueSpec MsgQueueLife.

(** ** Everything that can happen *)

Inductive MSYS :=
| MsCall (ulId : Z) (o : MSG_OP)
| MsFlush (ulId : Z)
| MsCreate (kheap : Z -> option Z) (c : CALL) (pcName : option (list Z)) (ulMaxMsgCounter stMaxMsgByteSize ulOption : Z)
| MsDelete (c : CALL) (ulId : Z)
| MsSendResume (c : CALL) (ulId : Z) (b : option (list Z)) (n ulOption ulKernelTime ulTimeSave ulTimeout ulEventOption iSchedRet : Z)
| MsRecvResume (t ulId b n p ulKernelTime ulTimeSave ulTimeout ulEventOption iSchedRet : Z)
| MsRecvExResume (t ulId b n p ulOption ulKernelTime ulTimeSave ulTimeout ulEventOption iSchedRet : Z)
| MsTick
| MsSched (e : event).

Definition msys_exec (M : MQ) (op : MSYS) : option MQ :=
  match op with
  | MsCall i o => fst <$> msg_call M i o
  | MsFlush i => '(M, _, _) ← API_MsgQueueFlush M i; Some M
  | MsCreate h c s n b o => '(M, _, _) ← API_MsgQueueCreate h M c s n b o; Some M
  | MsDelete c i => '(M, _, _) ← API_MsgQueueDelete M c i; Some M
  | MsSendResume c i b n o now save tmo opt ret => fst <$> API_MsgQueueSendEx2_resume M c i b n o now save tmo opt ret
  | MsRecvResume t i b n p now save tmo opt ret => fst <$> API_MsgQueueReceive_resume M t i b n p now save tmo opt ret
  | MsRecvExResume t i b n p o now save tmo opt ret =>
      fst <$> API_MsgQueueReceiveEx_resume M t i b n p o now save tmo opt ret
  | MsTick => '(k, _) ← _ThreadTick (MQ_k M); Some (set_k k M)
  | MsSched e => s ← exec (K_sched (MQ_k M)) e; Some (set_k (set_sched s (MQ_k M)) M)
  end.

Definition times_ok (now save tmo : Z) : Prop := 0 <= now <= ULONG_MAX /\ 0 <= save <= ULONG_MAX /\ 0 <= tmo <= ULONG_MAX.

(** The callers run, the messages are there, the arguments have their C types, the
    buffers' sizes do not overflow and the heap gives fresh blocks.  Nothing is asked
    of the handles. *)
Definition msys_legal (idle : Z -> Z) (M : MQ) (op : MSYS) : Prop :=
  match op with
  | MsCall _ o => msg_legal idle M o
  | MsFlush _ | MsDelete _ _ | MsTick => True
  | MsCreate h _ _ n b _ => msg_create_legal n b /\ heap_gives M h
  | MsSendResume c _ b n _ now save tmo _ _ =>
      0 <= n <= Z.of_nat (length (default [] b)) /\ times_ok now save tmo /\ runs idle (MQ_k M) (LW_TCB_GET_CUR c)
  | MsRecvResume t _ _ n _ now save tmo _ _ | MsRecvExResume t _ _ n _ _ now save tmo _ _ =>
      0 <= n /\ times_ok now save tmo /\ runs idle (MQ_k M) t
  | MsSched e => event_ok idle (K_sched (MQ_k M)) e /\ quiet e
  end.

Inductive msys_reachable (idle : Z -> Z) (M0 : MQ) : MQ -> Prop :=
| mreach_init : msys_reachable idle M0 M0
| mreach_step M op M' : msys_reachable idle M0 M -> msys_legal idle M op -> msys_exec M op = Some M' ->
    msys_reachable idle M0 M'.

(** Every event of this part of the system is waited for with the message queue bit. *)
Definition MSGB : Z -> Z := fun _ => LW_THREAD_STATUS_MSGQUEUE.

Section Safe.
Context (idle : Z -> Z) (N : Z).
Abbreviation inv := (mq_inv idle MSGB N).

Definition msafe {A} (res : option (MQ * A)) : Prop := exists M' r, res = Some (M', r) /\ inv M'.

Lemma msafe_same {A} M (r : A) : inv M -> msafe (Some (M, r)).
Proof. intros H. by exists M, r. Qed.

Lemma msafe_fst {A} (res : option (MQ * A)) : msafe res -> exists M', fst <$> res = Some M' /\ inv M'.
Proof. intros (M' & r & -> & H). by exists M'. Qed.

Lemma msafe_bind {A B} (res : option (MQ * A)) (f : A -> B) : msafe res -> msafe ('(M, r) ← res; Some (M, f r)).
Proof. intros (M' & r & -> & H). by exists M', (f r). Qed.

(** The handle is refused, or is one of a living queue. *)
Lemma msg_check_cases M ulId : inv M ->
  (exists err, msg_check M ulId = Some err /\ (err =? ERROR_NONE) = false) \/
  (_ObjectClassOK ulId _OBJECT_MSGQUEUE = true /\ exists E q, is_queue (MQ_k M) (_ObjectGetIndex ulId) E /\
     MQ_queue M !! EVENT_pvPtr E = Some q).
Proof.
  intros Hi. unfold msg_check. destruct (_ObjectClassOK ulId _OBJECT_MSGQUEUE); cbn [negb]; [|left; by eexists].
  unfold _Event_Index_Invalid. assert (Hr : 0 <= _ObjectGetIndex ulId) by (apply wrap_range; lia).
  destruct (Z.leb_spec (LW_CFG_MAX_EVENTS (MQ_k M)) (_ObjectGetIndex ulId)); [left; by eexists|].
  assert (is_Some (K_event (MQ_k M) !! _ObjectGetIndex ulId)) as [E HE] by (by apply (po_dom _ (mi_pool _ _ _ _ Hi))).
  unfold _Event_Type_Invalid. rewrite HE. cbn [mbind option_bind].
  destruct (Z.eqb_spec (EVENT_ucType E) LW_TYPE_EVENT_MSGQUEUE) as [Et|Et]; cbn [negb]; [|left; by eexists].
  right. split; [done|]. assert (Hq : is_queue (MQ_k M) (_ObjectGetIndex ulId) E) by done.
  destruct (queue_inv idle MSGB N M _ E Hi Hq) as (q & Hq' & _). by exists E, q.
Qed.

(** A refused handle changes nothing. *)
Lemma call_refused M ulId o err : msg_check M ulId = Some err -> (err =? ERROR_NONE) = false ->
  exists r, msg_call M ulId o = Some (M, r).
Proof.
  intros Ec Ee.
  assert (Hs : forall b n, exists err', send_check M ulId b n = Some err' /\ (err' =? ERROR_NONE) = false).
  { intros b n. unfold send_check. destruct b as [l|]; [|by eexists]. destruct (n =? 0); [by eexists|].
    rewrite Ec. cbn [mbind option_bind]. rewrite Ee. by exists err. }
  assert (Hr : forall b, exists err', recv_check M ulId b = Some err' /\ (err' =? ERROR_NONE) = false).
  { intros b. unfold recv_check. destruct b; [by eexists|by exists err]. }
  assert (Hs2 : forall c b n tmo, exists r, API_MsgQueueSend2 M c ulId b n tmo = Some (M, r)).
  { intros c b n tmo. unfold API_MsgQueueSend2. destruct (Hs b n) as (e' & -> & E'). cbn [mbind option_bind]. rewrite E'. by eexists. }
  destruct o as [c b n tmo|c b n tmo opt|t b n p tmo|t b n p tmo opt|b n p| | |]; unfold msg_call, API_MsgQueueReceive,
    API_MsgQueueReceiveEx, API_MsgQueueTryReceive, API_MsgQueueClear, API_MsgQueueFlushSend, API_MsgQueueFlushReceive, recv_again, call;
    cbn [LW_CPU_GET_CUR_NESTING LW_TCB_GET_CUR]; change (negb (0 =? 0)) with false; cbv iota.
  - destruct (Hs2 c b n tmo) as [r ->]. by eexists.
  - unfold API_MsgQueueSendEx2. destruct (opt =? LW_OPTION_DEFAULT); [destruct (Hs2 c b n tmo) as [r ->]; by eexists|].
    destruct (Hs b n) as (e' & -> & E'). cbn [mbind option_bind]. rewrite E'. by eexists.
  - destruct (Hr ((b =? LW_NULL) || (n =? 0))) as (e' & -> & E'). cbn [mbind option_bind]. rewrite E'. by eexists.
  - destruct (Hr ((b =? LW_NULL) || (n =? 0))) as (e' & -> & E'). cbn [mbind option_bind]. rewrite E'. by eexists.
  - destruct (Hr (b =? LW_NULL)) as (e' & -> & E'). cbn [mbind option_bind]. rewrite E'. by eexists.
  - rewrite Ec. cbn [mbind option_bind]. rewrite Ee. by eexists.
  - rewrite Ec. cbn [mbind option_bind]. rewrite Ee. by eexists.
  - rewrite Ec. cbn [mbind option_bind]. rewrite Ee. by eexists.
Qed.

Lemma call_safe M ulId o : inv M -> msg_legal idle M o -> msafe (msg_call M ulId o).
Proof.
  intros Hi Hl. destruct (msg_check_cases M ulId Hi) as [(err & Ec & Ee)|(Hc & E & q & Hq & HqM)].
  - destruct (call_refused M ulId o err Ec Ee) as [r ->]. by apply msafe_same.
  - destruct (call_refines idle MSGB N M ulId E q Hi Hc Hq HqM o Hl) as (M' & s' & r & l & -> & Hi' & _). by exists M', r.
Qed.

(** *** The other operations *)

Lemma flush_safe M ulId : inv M -> exists M', msys_exec M (MsFlush ulId) = Some M' /\ inv M'.
Proof.
  intros Hi. cbn [msys_exec]. unfold API_MsgQueueFlush.
  destruct (call_safe M ulId MFlushSend Hi I) as (M1 & r1 & E1 & Hi1). cbn [msg_call] in E1.
  destruct (API_MsgQueueFlushSend M ulId) as [[[M1' r1'] n1]|]; [|done]. cbn [mbind option_bind] in *. injection E1 as -> ->.
  destruct (negb (r1 =? ERROR_NONE)); [by exists M1|].
  destruct (call_safe M1 ulId MFlushRecv Hi1 I) as (M2 & r2 & E2 & Hi2). cbn [msg_call] in E2.
  destruct (API_MsgQueueFlushReceive M1 ulId) as [[[M2' r2'] n2]|]; [|done]. cbn [mbind option_bind] in *. injection E2 as -> ->.
  destruct (negb (r2 =? ERROR_NONE)); by exists M2.
Qed.

Lemma create_safe M h c name n b opt : inv M -> msg_create_legal n b -> heap_gives M h ->
  exists M', msys_exec M (MsCreate h c name n b opt) = Some M' /\ inv M'.
Proof.
  intros Hi Hl Hh. destruct (msg_create_spec idle MSGB N h M c name n b opt Hi Hl Hh) as (M' & i & r & E & Hi' & _); [done|].
  exists M'. cbn [msys_exec]. by rewrite E.
Qed.

Lemma mdelete_safe M c ulId : inv M -> exists M', msys_exec M (MsDelete c ulId) = Some M' /\ inv M'.
Proof.
  intros Hi. cbn [msys_exec]. destruct (Z.eqb_spec (LW_CPU_GET_CUR_NESTING c) 0) as [Hn|Hn].
  2: { unfold API_MsgQueueDelete. rewrite (proj2 (Z.eqb_neq _ _) Hn). by exists M. }
  destruct (msg_check_cases M ulId Hi) as [(err & Ec & Ee)|(Hc & E & q & Hq & HqM)].
  - unfold API_MsgQueueDelete. rewrite Hn, Ec. change (negb (0 =? 0)) with false. cbn [mbind option_bind]. rewrite Ee. by exists M.
  - destruct (delete_spec idle MSGB N M c ulId E q Hi Hn Hc Hq HqM) as (M' & -> & Hi' & _). by exists M'.
Qed.

Lemma set_k_id M : set_k (MQ_k M) M = M.
Proof. by destruct M. Qed.

(** The kernel moves on and leaves the queues alone. *)
Lemma inv_kernel M k' : inv M -> kern_inv idle MSGB k' -> K_event k' = K_event (MQ_k M) ->
  K_resrcEvent k' = K_resrcEvent (MQ_k M) -> LW_CFG_MAX_EVENTS k' = LW_CFG_MAX_EVENTS (MQ_k M) -> mark_ok k' ->
  (forall e iq, wview (MQ_k M) e iq = [] -> wview k' e iq = []) -> inv (set_k k' M).
Proof.
  intros [I1 I2 I3 I4 I5 I6 I7 I8 I9 I10] Hk He Hr Hm Hmk Hv.
  assert (Hq : forall e E, is_queue k' e E <-> is_queue (MQ_k M) e E) by (intros; unfold is_queue; by rewrite He).
  split; cbn [set_k MQ_k MQ_queue MQ_resrc MQ_recv]; try done.
  - destruct I2 as [P1 P2 P3 P4 P5]. split; rewrite ?Hr, ?Hm; try done; by rewrite He.
  - intros e E H%Hq. destruct (I5 e E H) as [H1 H2 H3]. split; [done|done|]. intros Hc. by apply Hv, H3.
  - intros e E. rewrite He. intros HE Hu. destruct (I6 e E HE Hu). split; by apply Hv.
  - intros e1 e2 E1 E2 H1%Hq H2%Hq. by apply I7.
  - eapply pool_inv_ext; [|exact I8]. intros p. cbn. f_equiv. by split; intros H e E H1%Hq; apply (H e).
Qed.

Lemma mtick_safe M : inv M -> exists M', msys_exec M MsTick = Some M' /\ inv M'.
Proof.
  intros Hi. pose proof (mi_kern _ _ _ _ Hi) as [Hk [q Hq]].
  destruct (thread_tick_spec idle MSGB (MQ_k M) q Hk Hq) as (k' & E & Hk' & Hq' & Ht). cbn [msys_exec]. rewrite E. cbn [mbind option_bind].
  exists (set_k k' M). split; [done|]. apply inv_kernel; try done; try apply Ht.
  - split; [done|by eexists].
  - eapply (tick_mark idle MSGB); [exact Hk|exact Ht|apply Hi].
  - intros e iq H0. rewrite (tk_view _ _ _ Ht), H0. done.
Qed.

Lemma msched_safe M e : inv M -> event_ok idle (K_sched (MQ_k M)) e -> quiet e ->
  exists M', msys_exec M (MsSched e) = Some M' /\ inv M'.
Proof.
  intros Hi Hok Hqt. pose proof (mi_kern _ _ _ _ Hi) as [Hk Hd].
  destruct (exec_ok idle (K_sched (MQ_k M)) e (ko_sched _ _ _ _ Hk) Hok) as (s' & E & Hs').
  pose proof (exec_quiet idle _ _ _ (ko_sched _ _ _ _ Hk) Hok Hqt E) as Ha. cbn [msys_exec]. rewrite E. cbn [mbind option_bind].
  exists (set_k (set_sched s' (MQ_k M)) M). split; [done|]. apply inv_kernel; try done.
  - split; [|exact Hd]. apply kern_ok_sched; [done|done|]. intros t.
    rewrite (same_attrs_sview _ _ t Ha). destruct (sview (K_sched (MQ_k M)) t); [by split|done].
  - apply Hi.
Qed.
Lemma runs_wait M t : inv M -> runs idle (MQ_k M) t -> is_Some (K_wait (MQ_k M) !! t).
Proof. intros Hi [[p Hv] _]. apply (alive_sview idle MSGB); [apply Hi|]. by rewrite Hv. Qed.

Lemma send_resume_safe again M t now save tmo opt ret : inv M -> is_Some (K_wait (MQ_k M) !! t) ->
  (forall tmo', 0 <= tmo' <= ULONG_MAX -> msafe (again tmo')) -> times_ok now save tmo ->
  msafe (send_resume again M t now save tmo opt ret).
Proof.
  intros Hi [w Hw] Ha (Hn & Hs & Ht). unfold send_resume. destruct (negb (ret =? 0)).
  - destruct (_ && _); [by apply msafe_same|]. destruct (_ =? _); [by apply msafe_same|]. by apply Ha, recalc_range.
  - rewrite Hw. cbn [mbind option_bind]. destruct (_ =? _); [by apply msafe_same|].
    destruct (_ =? _); [by apply Ha|by apply msafe_same].
Qed.

Lemma recv_resume_safe again ok M t now save tmo opt ret : inv M -> is_Some (K_wait (MQ_k M) !! t) ->
  (forall tmo', 0 <= tmo' <= ULONG_MAX -> msafe (again tmo')) -> times_ok now save tmo ->
  msafe (recv_resume again ok M t now save tmo opt ret).
Proof.
  intros Hi [w Hw] Ha (Hn & Hs & Ht). unfold recv_resume. destruct (negb (ret =? 0)).
  - destruct (_ && _); [by apply msafe_same|]. destruct (_ =? _); [by apply msafe_same|]. by apply Ha, recalc_range.
  - rewrite Hw. by apply msafe_same.
Qed.

Lemma msafe_of_call {A} (res : option (MQ * A)) (f : A -> Z) : msafe ('(M, r) ← res; Some (M, f r)) -> msafe res.
Proof. intros (M' & r & E & H). destruct res as [[M1 r1]|]; [|done]. cbn [mbind option_bind] in E. injection E as -> _. by exists M', r1. Qed.

Lemma msys_step_safe M op : inv M -> msys_legal idle M op -> exists M', msys_exec M op = Some M' /\ inv M'.
Proof.
  intros Hi Hl. destruct op as [i o|i|h c s n b o|c i|c i b n o now save tmo opt ret|t i b n p now save tmo opt ret
    |t i b n p o now save tmo opt ret| |e]; cbn [msys_legal] in Hl.
  - by apply msafe_fst, call_safe.
  - by apply flush_safe.
  - destruct Hl. by apply create_safe.
  - by apply mdelete_safe.
  - destruct Hl as (Hn & Ht & Hr). apply msafe_fst, send_resume_safe; [done|by apply runs_wait| |done].
    intros tmo' Ht'. apply (msafe_of_call _ send_code), (call_safe M i (MSendEx c b n tmo' o) Hi). by splits.
  - destruct Hl as (Hn & Ht & Hr). apply msafe_fst, recv_resume_safe; [done|by apply runs_wait| |done].
    intros tmo' Ht'. apply (msafe_of_call _ pend_code), (call_safe M i (MRecv t b n p tmo') Hi). by splits.
  - destruct Hl as (Hn & Ht & Hr). apply msafe_fst, recv_resume_safe; [done|by apply runs_wait| |done].
    intros tmo' Ht'. apply (msafe_of_call _ pend_code), (call_safe M i (MRecvEx t b n p tmo' o) Hi). by splits.
  - by apply mtick_safe.
  - destruct Hl. by apply msched_safe.
Qed.

Lemma msys_inv M0 M : inv M0 -> msys_reachable idle M0 M -> inv M.
Proof.
  intros H0 H. induction H as [|M op M' _ IH Hl E]; [done|].
  destruct (msys_step_safe M op IH Hl) as (M1 & E1 & H1). rewrite E in E1. by injection E1 as ->.
Qed.
End Safe.

(** ** What holds of every run *)

(** C17: a system of message queues is safe.  From a consistent state, under any
    interleaving of creations, deletions, sends, receives, flushes and clears with valid,
    stale or invented handles, of calls that go on after a wait, of ticks and of
    scheduler steps, every reachable state is consistent and every further legal step
    is defined; in every reachable state each queue holds as many messages as its
    counter says, at most its capacity, each no longer than its limit, and a receiver
    waits only at an empty queue. *)
Theorem msys_safe idle N M0 M : mq_inv idle MSGB N M0 -> msys_reachable idle M0 M ->
  mq_inv idle MSGB N M /\ (forall op, msys_legal idle M op -> is_Some (msys_exec M op)) /\
  forall e E, is_queue (MQ_k M) e E -> exists s, queue_of M e = Some s /\
    EVENT_ulCounter E = Z.of_nat (length (q_msgs s)) /\ Z.of_nat (length (q_msgs s)) <= q_max s /\
    (forall p m, head (q_msgs s) = Some (p, m) -> 0 <= p < 8 /\ 0 < Z.of_nat (length m) <= q_bytes s) /\
    (q_readers s <> [] -> q_msgs s = []).
Proof.
  intros H0 Hr. pose proof (msys_inv idle N M0 M H0 Hr) as Hi. split; [done|]. split.
  - intros op Hl. destruct (msys_step_safe idle N M op Hi Hl) as (M' & -> & _). by eexists.
  - intros e E Hq. destruct (queue_inv idle MSGB N M e E Hi Hq) as (q & HqM & Hs & Hc & Hm & Hrd & Eq).
    exists (abs M e E q). split; [done|]. split; [done|]. split; [apply Hm|]. split.
    + cbn. intros p m Hh. destruct (msgs q) as [|x ms] eqn:Em; [done|]. injection Hh as ->.
      destruct (len_spec _ q _ p m ms Hs Em) as (_ & H1 & H2). done.
    + cbn. intros Hne. destruct (msgs q); [done|]. by destruct Hne, Hrd.
Qed.

(** C16: message queues refine an abstract queue of messages sorted by urgency.  On
    the handle of a queue every send (plain, urgent or broadcast), receive (blocking,
    with options or polling), flush and clear does the abstract step: it
    delivers to the first receiver, stores behind the messages at least as urgent,
    takes the most urgent and oldest message and lets the first sender try again, or
    waits, with the result, the threads woken and the bytes, lengths and
    marks written for the callers it prescribes; no other queue changes. *)
Theorem msg_refines idle B N M ulId E o : mq_inv idle B N M -> _ObjectClassOK ulId _OBJECT_MSGQUEUE = true ->
  is_queue (MQ_k M) (_ObjectGetIndex ulId) E -> msg_legal idle M o ->
  let e := _ObjectGetIndex ulId in let k := MQ_k M in
  exists M' s s' r l, msg_call M ulId o = Some (M', r) /\ mq_inv idle B N M' /\ queue_of M e = Some s /\
    queue_of M' e = Some s' /\ mq_step (joins_at k e 0) (joins_at k e 1) s (user_of M) o s' (user_of M') r l /\
    (if r =? WAITING then waits M e o (MQ_k M') else woke k (MQ_k M') l (wake_wait LW_NULL)) /\
    touches k (MQ_k M') e /\ (forall e' E', e' <> e -> is_queue k e' E' -> queue_of M' e' = queue_of M e').
Proof.
  intros Hi Hc Hq Hl e k. destruct (queue_inv idle B N M e E Hi Hq) as (q & HqM & _ & _ & _ & _ & Eq).
  destruct (call_refines idle B N M ulId E q Hi Hc Hq HqM o Hl) as (M' & s' & r & l & H1 & H2 & H3 & H4 & H5 & H6).
  exists M', (abs M e E q), s', r, l. split; [done|]. split; [done|]. split; [done|]. split; [done|]. split; [done|].
  split; [done|]. split; [apply H3|]. intros e' E' Hne H. unfold queue_of.
  rewrite (tc_event _ _ _ (os_touch _ _ _ _ H3)), !(tc_view _ _ _ (os_touch _ _ _ _ H3)) by done.
  rewrite (proj1 H : K_event (MQ_k M) !! e' = _). cbn [mbind option_bind]. rewrite (os_queue _ _ _ _ H3); [done|]. by apply (mi_apart _ _ _ _ Hi e' e).
Qed.

(** C33: the life of a message queue.  A creation is refused with the code of its first wrong
    argument; else it fails exactly when no queue object or no control block is free or the kernel heap does not give the
    buffer for all its messages, with nothing changed but the order of the pools; and else it makes an
    empty queue of the asked capacity, message size and options under a handle of the message queue class, in the first
    free control block and object; a deletion by a thread makes exactly the waiting threads return that the queue was
    deleted, whatever they do with their timeouts, and gives the control block,
    the object and the buffer back. *)
Theorem msg_life idle B N M : mq_inv idle B N M ->
  (forall kheap c name max bytes opt, msg_create_legal max bytes -> heap_gives M kheap ->
    (forall e, unused_event (MQ_k M) e -> B e = LW_THREAD_STATUS_MSGQUEUE) ->
    exists M' id r, API_MsgQueueCreate kheap M c name max bytes opt = Some (M', id, r) /\ mq_inv idle B N M' /\
      create_end kheap M max bytes opt (msg_create_refused c name max bytes) M' id r) /\
  (forall c ulId E q, LW_CPU_GET_CUR_NESTING c = 0 -> _ObjectClassOK ulId _OBJECT_MSGQUEUE = true ->
    is_queue (MQ_k M) (_ObjectGetIndex ulId) E -> MQ_queue M !! EVENT_pvPtr E = Some q ->
    exists M', API_MsgQueueDelete M c ulId = Some (M', ERROR_NONE, LW_OBJECT_HANDLE_INVALID) /\ mq_inv idle B N M' /\
      deleted (MQ_k M) (MQ_k M') (_ObjectGetIndex ulId) /\ MQ_heap M' = delete (MSGQUEUE_pvBuffer q) (MQ_heap M) /\
      RESRC_free (MQ_resrc M') = RESRC_free (MQ_resrc M) ++ [EVENT_pvPtr E] /\ user_of M' = user_of M /\
      (forall t b n p now save tmo eopt, t ∈ wview (MQ_k M) (_ObjectGetIndex ulId) 0 ->
        API_MsgQueueReceive_resume M' t ulId b n p now save tmo eopt 0 = Some (M', Return ERROR_MSGQUEUE_WAS_DELETED)) /\
      (forall t b n now save tmo eopt nest, t ∈ wview (MQ_k M) (_ObjectGetIndex ulId) 1 ->
        API_MsgQueueSend2_resume M' (mkCall t nest true) ulId b n now save tmo eopt 0 = Some (M', SReturn ERROR_MSGQUEUE_WAS_DELETED))).
Proof.
  intros Hi. split; [intros; by apply msg_create_spec|]. intros c ulId E q Hn Hc Hq HqM.
  destruct (delete_spec idle B N M c ulId E q Hi Hn Hc Hq HqM) as (M' & E1 & Hi' & Hd & Hh & Hp & Hu & _).
  exists M'. split; [done|]. split; [done|]. split; [done|]. split; [done|]. split; [done|]. split; [done|].
  assert (Hw : forall t, t ∈ wview (MQ_k M) (_ObjectGetIndex ulId) 0 \/ t ∈ wview (MQ_k M) (_ObjectGetIndex ulId) 1 ->
    exists w', K_wait (MQ_k M') !! t = Some w' /\ TCB_ucIsEventDelete w' = LW_EVENT_DELETE /\ TCB_ucWaitTimeout w' = LW_WAIT_TIME_CLEAR).
  { intros t Ht. assert (is_Some (K_wait (MQ_k M) !! t)) as [w Hwt].
    { destruct (mi_kern _ _ _ _ Hi) as [Hk _]. 
      assert (exists iq b, wait_at (MQ_k M) t = Some (_ObjectGetIndex ulId, iq, b)) as (iq & b & Hb).
      { destruct Ht as [Ht|Ht]; apply (elem_of_wview idle B _ _ _ _ t Hk) in Ht as [b Hb]; by eexists _, b. }
      destruct (wait_at_bucket idle B _ _ t _ iq b Hk Hb) as (_ & _ & _ & _ & w & Hw & _). by exists w. }
    destruct (de_told _ _ _ Hd t w Hwt) as (w' & Hw' & Hg & _). destruct (Hg Ht) as (_ & H1 & H2). by exists w'. }
  split.
  - intros t b n p now save tmo eopt Ht. destruct (Hw t (or_introl Ht)) as (w' & Hw' & H1 & H2).
    unfold API_MsgQueueReceive_resume, recv_resume. change (negb (0 =? 0)) with false. cbv iota. rewrite Hw'.
    cbn [mbind option_bind]. by rewrite H1, H2.
  - intros t b n now save tmo eopt nest Ht. destruct (Hw t (or_intror Ht)) as (w' & Hw' & H1 & H2).
    unfold API_MsgQueueSend2_resume, send_resume. cbn [LW_TCB_GET_CUR]. change (negb (0 =? 0)) with false. cbv iota. rewrite Hw'.
    cbn [mbind option_bind]. by rewrite H1, H2.
Qed.

(** ** A small system *)

(** Two queue objects, none in use; the heap gives one block. *)
Definition demo_mq0 : MQ :=
  mkMQ demo_kernel (list_to_map [(0, mkMsgQueue [] ∅ 0 0 0 ∅); (1, mkMsgQueue [] ∅ 0 0 0 ∅)]) (mkResrc [0; 1] 0 0) ∅ ∅ ∅ ∅.
Definition demo_heap_at (n : Z) : option Z := if n <=? 4096 then Some 4096 else None.

Lemma no_queues_inv k : kern_inv id MSGB k -> pool_ok k -> mark_ok k ->
  (forall e E, K_event k !! e = Some E -> E = event0 /\ wview k e 0 = [] /\ wview k e 1 = []) ->
  mq_inv id MSGB 2 (mkMQ k (list_to_map [(0, mkMsgQueue [] ∅ 0 0 0 ∅); (1, mkMsgQueue [] ∅ 0 0 0 ∅)]) (mkResrc [0; 1] 0 0) ∅ ∅ ∅ ∅).
Proof.
  intros Hk Hp Hm He.
  assert (Hq : forall e E, ~ is_queue k e E) by (intros e E [H Ht]; by destruct (He e E H) as [-> _]).
  split; cbn [MQ_k MQ_queue MQ_resrc MQ_recv]; try done.
  - intros e E H. by destruct (Hq e E H).
  - intros e E H _. by apply (He e E).
  - intros e1 e2 E1 E2 H. by destruct (Hq e1 E1 H).
  - split; [decide_now|]. split; [|split; [by intros p [H _]|split; [lia|done]]]. intros p. split.
    + intros Hin. split; [|intros e E H; by destruct (Hq e E H)].
      repeat (apply elem_of_cons in Hin as [->|Hin]; [lia|]). by apply not_elem_of_nil in Hin.
    + intros [H _]. assert (Hc : p = 0 \/ p = 1) by lia. destruct Hc as [->| ->]; decide_now.
  - intros p. split.
    + intros [q H]. cbn [list_to_map foldr fst snd] in H.
      repeat (apply lookup_insert_Some in H as [[<- _]|[_ H]]; [lia|]). by apply lookup_empty_Some in H.
    + intros H. assert (Hc : p = 0 \/ p = 1) by lia. destruct Hc as [->| ->]; eexists; reflexivity.
Qed.

Lemma demo_mq0_inv : mq_inv id MSGB 2 demo_mq0.
Proof.
  apply no_queues_inv; [apply demo_inv|apply demo_kernel_inv|apply demo_kernel_inv|]. intros e E H.
  cbn [demo_kernel set_sched boot K_event fmap list_fmap list_to_map foldr fst snd] in H.
  repeat (apply lookup_insert_Some in H as [[<- <-]|[_ H]]; [split; [done|split; by vm_compute]|]). by apply lookup_empty_Some in H.
Qed.

(** A queue for one message of at most eight bytes. *)
Definition demo_create : MSYS := MsCreate demo_heap_at (call 20) None 1 8 0.
Definition mq_id : Z := _MakeObjectId _OBJECT_MSGQUEUE LW_CFG_PROCESSOR_NUMBER 0.

(** Runs of legal sends and receives, computed. *)
Definition demo_ready (M : MQ) (t : Z) : bool :=
  bool_decide ((snd <$> sview (K_sched (MQ_k M)) t) = Some 0) && (LW_NCPUS (K_sched (MQ_k M)) =? 2) && (2 <=? t).
Definition in_word (n : Z) : bool := (0 <=? n) && (n <=? ULONG_MAX).
Definition demo_legal (M : MQ) (op : MSYS) : bool :=
  match op with
  | MsCall _ (MSend c b n tmo) | MsCall _ (MSendEx c b n tmo _) =>
      in_word n && (n <=? Z.of_nat (length (default [] b))) && in_word tmo && demo_ready M (LW_TCB_GET_CUR c)
  | MsCall _ (MRecv t _ n _ tmo) => in_word n && in_word tmo && demo_ready M t
  | MsSendResume c _ b n _ now save tmo _ _ =>
      in_word n && (n <=? Z.of_nat (length (default [] b))) && in_word now && in_word save && in_word tmo
      && demo_ready M (LW_TCB_GET_CUR c)
  | MsDelete _ _ => true
  | _ => false
  end.
Fixpoint demo_run (M : MQ) (ops : list MSYS) : option MQ :=
  match ops with
  | [] => Some M
  | op :: ops => if demo_legal M op then M ← msys_exec M op; demo_run M ops else None
  end.

Lemma demo_ready_runs M t : demo_ready M t = true -> runs id (MQ_k M) t.
Proof.
  unfold demo_ready, runs, not_idle, cpu_id, id. intros H. zbool. apply bool_decide_eq_true in H.
  destruct (sview (K_sched (MQ_k M)) t) as [[p st]|]; [|done]. injection H as ->. split; [by exists p|]. lia.
Qed.

Lemma in_word_range n : in_word n = true -> 0 <= n <= ULONG_MAX.
Proof. unfold in_word. intros H. zbool. lia. Qed.

Lemma demo_legal_ok M op : demo_legal M op = true -> msys_legal id M op.
Proof.
  destruct op as [i [c b n tmo|c b n tmo opt|t b n p tmo| | | | |]| | | |c i b n o now save tmo opt ret| | | |];
    cbn [demo_legal msys_legal msg_legal]; try done; intros H; zbool;
    repeat match goal with H : in_word _ = true |- _ => apply in_word_range in H end;
    unfold times_ok; splits; try lia; intros; by apply demo_ready_runs.
Qed.

Lemma demo_run_reachable M0 ops : forall M M', msys_reachable id M0 M -> demo_run M ops = Some M' -> msys_reachable id M0 M'.
Proof.
  induction ops as [|op ops IH]; intros M M' Hr; cbn [demo_run]; [by intros [= <-]|].
  destruct (demo_legal M op) eqn:El; [|done]. destruct (msys_exec M op) as [M1|] eqn:E; [|done]. cbn [mbind option_bind].
  apply IH. eapply mreach_step; [exact Hr|by apply demo_legal_ok|exact E].
Qed.

Definition demo_mq : MQ := default demo_mq0 (msys_exec demo_mq0 demo_create).

Lemma demo_heap_gives M : MQ_heap M = ∅ -> heap_gives M demo_heap_at.
Proof.
  intros Hh n a. unfold demo_heap_at. destruct (Z.leb_spec n 4096); [|done]. intros [= <-]. rewrite Hh.
  split; [lia|]. split; [lia|apply lookup_empty].
Qed.

Lemma demo_create_legal : msys_legal id demo_mq0 demo_create.
Proof. split; [split; [unfold ULONG_MAX; lia|split; [unfold ULONG_MAX; lia|by vm_compute]]|by apply demo_heap_gives]. Qed.

Lemma demo_mq_inv : mq_inv id MSGB 2 demo_mq.
Proof.
  destruct (msys_step_safe id 2 demo_mq0 demo_create demo_mq0_inv demo_create_legal) as (M & E & Hi).
  unfold demo_mq. by rewrite E.
Qed.

(** The queue is full, and 10 and 20 wait to send. *)
Definition hello : option (list Z) := Some [104; 105].
Definition demo_senders : list MSYS :=
  [MsCall mq_id (MSend (call 10) hello 2 LW_OPTION_WAIT_INFINITE);
   MsCall mq_id (MSend (call 10) hello 2 LW_OPTION_WAIT_INFINITE);
   MsCall mq_id (MSend (call 20) hello 2 LW_OPTION_WAIT_INFINITE)].
Definition demo_full : MQ := default demo_mq (demo_run demo_mq demo_senders).

Lemma demo_full_reachable : msys_reachable id demo_mq demo_full.
Proof.
  apply (demo_run_reachable demo_mq demo_senders demo_mq); [apply mreach_init|]. unfold demo_full.
  destruct (demo_run demo_mq demo_senders) eqn:E; [done|]. exfalso.
  assert (H : is_Some (demo_run demo_mq demo_senders)) by (vm_compute; by eexists). rewrite E in H. by destruct H.
Qed.

Lemma msys_safe_witness :
  (mq_inv id MSGB 2 demo_mq /\ msys_reachable id demo_mq demo_full) /\
  queue_of demo_full 0 = Some (mkQueue 1 8 [(7, [104; 105])] [] [10; 20]) /\
  mq_inv id MSGB 2 demo_full /\ is_Some (msys_exec demo_full (MsDelete (call 21) mq_id)).
Proof.
  split; [exact (conj demo_mq_inv demo_full_reachable)|]. split; [by vm_compute|].
  destruct (msys_safe id 2 demo_mq demo_full demo_mq_inv demo_full_reachable) as (H1 & H2 & _).
  exact (conj H1 (H2 (MsDelete (call 21) mq_id) I)).
Defined.

Lemma demo_full_inv : mq_inv id MSGB 2 demo_full.
Proof. exact (msys_inv id 2 demo_mq demo_full demo_mq_inv demo_full_reachable). Qed.

Lemma msg_refines_witness :
  exists E, (mq_inv id MSGB 2 demo_full /\ is_queue (MQ_k demo_full) 0 E /\
    msg_legal id demo_full (MRecv 21 8192 8 9000 LW_OPTION_WAIT_INFINITE)) /\
  exists M' s s' r l, msg_call demo_full mq_id (MRecv 21 8192 8 9000 LW_OPTION_WAIT_INFINITE) = Some (M', r) /\
    queue_of demo_full 0 = Some s /\ queue_of M' 0 = Some s' /\
    mq_step (joins_at (MQ_k demo_full) 0 0) (joins_at (MQ_k demo_full) 0 1) s (user_of demo_full)
      (MRecv 21 8192 8 9000 LW_OPTION_WAIT_INFINITE) s' (user_of M') r l.
Proof.
  assert (Hl : msg_legal id demo_full (MRecv 21 8192 8 9000 LW_OPTION_WAIT_INFINITE)).
  { apply (demo_legal_ok demo_full (MsCall mq_id (MRecv 21 8192 8 9000 LW_OPTION_WAIT_INFINITE))). by vm_compute. }
  assert (Hq : is_queue (MQ_k demo_full) 0 (mkEvent LW_TYPE_EVENT_MSGQUEUE None 1 1 0 0 0 0)) by (split; by vm_compute).
  eexists. split; [exact (conj demo_full_inv (conj Hq Hl))|].
  destruct (msg_refines id MSGB 2 demo_full mq_id _ (MRecv 21 8192 8 9000 LW_OPTION_WAIT_INFINITE) demo_full_inv eq_refl Hq Hl)
    as (M' & s & s' & r & l & H1 & _ & H2 & H3 & H4 & _).
  exists M', s, s', r, l. exact (conj H1 (conj H2 (conj H3 H4))).
Defined.

Lemma msg_life_witness :
  exists E q, (mq_inv id MSGB 2 demo_full /\ is_queue (MQ_k demo_full) 0 E /\ MQ_queue demo_full !! EVENT_pvPtr E = Some q) /\
  (exists M', API_MsgQueueDelete demo_full (call 21) mq_id = Some (M', ERROR_NONE, LW_OBJECT_HANDLE_INVALID) /\
    deleted (MQ_k demo_full) (MQ_k M') 0 /\ MQ_heap M' = delete (MSGQUEUE_pvBuffer q) (MQ_heap demo_full)) /\
  exists M' i, API_MsgQueueCreate demo_heap_at demo_mq0 (call 20) None 2 9 LW_OPTION_WAIT_PRIORITY = Some (M', i, ERROR_NONE) /\
    create_end demo_heap_at demo_mq0 2 9 LW_OPTION_WAIT_PRIORITY ERROR_NONE M' i ERROR_NONE.
Proof.
  assert (Hq : is_queue (MQ_k demo_full) 0 (mkEvent LW_TYPE_EVENT_MSGQUEUE None 1 1 0 0 0 0)) by (split; by vm_compute).
  destruct (MQ_queue demo_full !! 0) as [q|] eqn:HqM; [|exfalso].
  - eexists _, q. split; [exact (conj demo_full_inv (conj Hq HqM))|].
    destruct (proj2 (msg_life id MSGB 2 demo_full demo_full_inv) (call 21) mq_id _ q eq_refl eq_refl Hq HqM)
      as (M' & H1 & _ & H2 & H3 & _).
    split; [exists M'; exact (conj H1 (conj H2 H3))|].
    destruct (proj1 (msg_life id MSGB 2 demo_mq0 demo_mq0_inv) demo_heap_at (call 20) None 2 9 LW_OPTION_WAIT_PRIORITY)
      as (M2 & i & r & E & _ & H); [split; [unfold ULONG_MAX; lia|split; [unfold ULONG_MAX; lia|by vm_compute]]|by apply demo_heap_gives|done|].
    assert (Hr : (fun x => x.2) <$> API_MsgQueueCreate demo_heap_at demo_mq0 (call 20) None 2 9 LW_OPTION_WAIT_PRIORITY = Some ERROR_NONE) by (by vm_compute).
    rewrite E in Hr. injection Hr as ->. exists M2, i. split; [exact E|exact H].
  - destruct (proj2 (mi_dom _ _ _ _ demo_full_inv 0)) as [q H]; [lia|]. rewrite HqM in H. discriminate.
Defined.

(** A sender and a receiver can wait for each other for ever.  With room for one
    message, senders 10 and 20 waiting and the receiver 21: each receive wakes one sender, but
    only a message taken out of the store does, and 10 hands its message to 21 past
    the store; so 21 waits at an empty queue while 20 waits for room in it. *)
Theorem sender_stranded : exists M, msys_reachable id demo_mq M /\
  queue_of M 0 = Some (mkQueue 1 8 [] [21] [20]) /\
  sview (K_sched (MQ_k M)) 20 = Some (50, LW_THREAD_STATUS_MSGQUEUE) /\
  sview (K_sched (MQ_k M)) 21 = Some (200, LW_THREAD_STATUS_MSGQUEUE).
Proof.
  set (receive := MsCall mq_id (MRecv 21 8192 8 9000 LW_OPTION_WAIT_INFINITE)).
  set (ops := demo_senders ++ [receive; receive; MsSendResume (call 10) mq_id hello 2 0 0 0 LW_OPTION_WAIT_INFINITE 0 0; receive]).
  assert (H : exists M, demo_run demo_mq ops = Some M) by (vm_compute; by eexists). destruct H as [M E].
  exists M. split; [by apply (demo_run_reachable demo_mq ops demo_mq); [apply mreach_init|]|].
  assert (Hc : (fun M => (queue_of M 0, sview (K_sched (MQ_k M)) 20, sview (K_sched (MQ_k M)) 21)) <$> demo_run demo_mq ops =
    Some (Some (mkQueue 1 8 [] [21] [20]), Some (50, LW_THREAD_STATUS_MSGQUEUE), Some (200, LW_THREAD_STATUS_MSGQUEUE)))
    by (by vm_compute).
  rewrite E in Hc. cbn [fmap option_fmap option_map] in Hc. injection Hc as H1 H2 H3. exact (conj H1 (conj H2 H3)).
Qed.
