(* ===== verification/JobQueue.v ===== *)
(** * Job queues: kernel/core/_JobQueue.c and the deferred interrupt jobs of InterDefer.c

    A ring of jobs (a function and its arguments) that any context fills and a thread
    empties, which sleeps on a binary semaphore meanwhile.  The spin lock of the queue makes a
    few sections of each function atomic; [job_step] is one such section, so that the
    functions interleave where the C lets them.  The semaphore is known by the class
    [SEMAPHORE]; the kernel is its instance. *)

From S2P Require Import Prelude Lists Bitmap Sched SchedSpec Object Wakeup Kernel Event EventSpec Boot TickSpec Semaphore Mutex SemSpec LifeSpec SemRefine.

(** ** k_jobqueue.h *)

Definition ENOSPC : Z := 28.
Definition EINVAL : Z := 22.

(** A job; [JOBM_pvArg] has [LW_JOB_ARGS] elements. *)
Record LW_JOB_MSG := mkJob { JOBM_pfuncFunc : Z; JOBM_pvArg : list Z }.

#[export] Instance LW_JOB_MSG_eq_dec : EqDecision LW_JOB_MSG.
Proof. solve_decision. Defined.

(** [JOBQ_pjobmsgQueue] is the array; the counters are UINTs. *)
Record LW_JOB_QUEUE := mkJobQueue {
  JOBQ_pjobmsgQueue : list LW_JOB_MSG;
  JOBQ_uiIn : Z;
  JOBQ_uiOut : Z;
  JOBQ_uiCnt : Z;
  JOBQ_uiSize : Z;
  JOBQ_ulLost : Z;
  JOBQ_ulSync : Z
}.

(** ** What the queue asks of the semaphore *)

(** Post, clear and wait for a unit (by thread, handle, time-out; [WAITING] when the thread sleeps);
    [bs_resume] is what the wait of a thread that slept returns, [None] while it sleeps. *)
Class SEMAPHORE (S : Type) := {
  bs_post : S -> Z -> option (S * Z);
  bs_clear : S -> Z -> option (S * Z);
  bs_pend : S -> Z -> Z -> Z -> option (S * Z);
  bs_resume : S -> Z -> option Z
}.

(** The end of [API_SemaphoreBPend] in a thread whose wait is over (no signal). *)
Definition kernel_resume (k : KERNEL) (t : Z) : option Z :=
  w ← K_wait k !! t;
  match TCB_peventPtr w with
  | Some _ => None
  | None => '(_, r) ← API_SemaphoreBPend_resume k t 0 0 0 0 0 0; Some (pend_code r)
  end.

#[export] Instance kernel_semaphore : SEMAPHORE KERNEL := {
  bs_post := API_SemaphoreBPost;
  bs_clear := API_SemaphoreBClear;
  bs_pend := fun k t h tmo => '(k, r) ← API_SemaphoreBPend k (call t) h tmo; Some (k, pend_code r);
  bs_resume := kernel_resume
}.

(** ** The sections under the lock *)

Definition with_ring (a : list LW_JOB_MSG) (i o c : Z) (q : LW_JOB_QUEUE) : LW_JOB_QUEUE :=
  mkJobQueue a i o c (JOBQ_uiSize q) (JOBQ_ulLost q) (JOBQ_ulSync q).
Definition with_lost (n : Z) (q : LW_JOB_QUEUE) : LW_JOB_QUEUE :=
  mkJobQueue (JOBQ_pjobmsgQueue q) (JOBQ_uiIn q) (JOBQ_uiOut q) (JOBQ_uiCnt q) (JOBQ_uiSize q) n (JOBQ_ulSync q).
Definition with_sync (h : Z) (q : LW_JOB_QUEUE) : LW_JOB_QUEUE :=
  mkJobQueue (JOBQ_pjobmsgQueue q) (JOBQ_uiIn q) (JOBQ_uiOut q) (JOBQ_uiCnt q) (JOBQ_uiSize q) (JOBQ_ulLost q) h.

(** [if (i == uiSize - 1) i = 0; else i++;] *)
Definition ring_succ (size i : Z) : Z := if i =? wrap 32 (size - 1) then 0 else wrap 32 (i + 1).

Definition add_locked (m : LW_JOB_MSG) (q : LW_JOB_QUEUE) : option (LW_JOB_QUEUE * Z) :=
  if JOBQ_uiCnt q =? JOBQ_uiSize q then Some (with_lost (JOBQ_ulLost q +64 1) q, ENOSPC)
  else
    _ ← JOBQ_pjobmsgQueue q !! Z.to_nat (JOBQ_uiIn q);
    Some (with_ring (<[Z.to_nat (JOBQ_uiIn q) := m]> (JOBQ_pjobmsgQueue q)) (ring_succ (JOBQ_uiSize q) (JOBQ_uiIn q))
            (JOBQ_uiOut q) (wrap 32 (JOBQ_uiCnt q + 1)) q, ERROR_NONE).

Definition take_locked (q : LW_JOB_QUEUE) : option (LW_JOB_QUEUE * LW_JOB_MSG) :=
  m ← JOBQ_pjobmsgQueue q !! Z.to_nat (JOBQ_uiOut q);
  Some (with_ring (JOBQ_pjobmsgQueue q) (JOBQ_uiIn q) (ring_succ (JOBQ_uiSize q) (JOBQ_uiOut q))
          (wrap 32 (JOBQ_uiCnt q - 1)) q, m).

Definition flush_locked (q : LW_JOB_QUEUE) : LW_JOB_QUEUE := with_ring (JOBQ_pjobmsgQueue q) 0 0 0 q.

(** The switch of [_jobQueueDel]: the function (any, for NULL) and the first [uiMatchArgNum] arguments
    agree; there is no case beyond [LW_JOB_ARGS]. *)
Definition LW_JOB_ARGS : Z := 6.
Definition job_match (uiMatchArgNum : Z) (pat m : LW_JOB_MSG) : bool :=
  (uiMatchArgNum <=? LW_JOB_ARGS) &&
  ((JOBM_pfuncFunc m =? JOBM_pfuncFunc pat) || (JOBM_pfuncFunc pat =? LW_NULL)) &&
  bool_decide (take (Z.to_nat uiMatchArgNum) (JOBM_pvArg m) = take (Z.to_nat uiMatchArgNum) (JOBM_pvArg pat)).
Definition job_void (m : LW_JOB_MSG) : LW_JOB_MSG := mkJob LW_NULL (JOBM_pvArg m).

(** The loop over the [n] jobs that are left from [i] on. *)
Fixpoint del_loop (n : nat) (uiMatchArgNum : Z) (pat : LW_JOB_MSG) (size i : Z) (a : list LW_JOB_MSG) : option (list LW_JOB_MSG) :=
  match n with
  | O => Some a
  | S n =>
    m ← a !! Z.to_nat i;
    let a := if job_match uiMatchArgNum pat m then <[Z.to_nat i := job_void m]> a else a in
    del_loop n uiMatchArgNum pat size (if i + 1 >? wrap 32 (size - 1) then 0 else i + 1) a
  end.

Definition del_locked (uiMatchArgNum : Z) (pat : LW_JOB_MSG) (q : LW_JOB_QUEUE) : option LW_JOB_QUEUE :=
  a ← del_loop (Z.to_nat (JOBQ_uiCnt q)) uiMatchArgNum pat (JOBQ_uiSize q) (JOBQ_uiOut q) (JOBQ_pjobmsgQueue q);
  Some (with_ring a (JOBQ_uiIn q) (JOBQ_uiOut q) (JOBQ_uiCnt q) q).

(** ** Creation *)

(** [pjobmsg]: the memory of the array, [ulSync]: the answer of [API_SemaphoreBCreate]. *)
Definition job_queue_init (pjobmsg : list LW_JOB_MSG) (uiQueueSize ulSync : Z) : LW_JOB_QUEUE :=
  mkJobQueue pjobmsg 0 0 0 uiQueueSize 0 ulSync.

Section Functions.
Context {S : Type} `{!SEMAPHORE S}.
(** [API_SemaphoreBCreate("job_sync", LW_FALSE, LW_OPTION_OBJECT_GLOBAL)] and [API_SemaphoreBDelete]. *)
Context (create : S -> option (S * Z)) (delete : S -> Z -> option (S * Z)).

(** [mem]: the answer of the kernel heap for queue and array.  Result: [None] inside is NULL. *)
Definition _jobQueueCreate (s : S) (mem : option (list LW_JOB_MSG)) (uiQueueSize : Z) (bNonBlock : bool)
    : option (S * option LW_JOB_QUEUE) :=
  match mem with
  | None => Some (s, None)
  | Some a =>
    if bNonBlock then Some (s, Some (job_queue_init a uiQueueSize LW_OBJECT_HANDLE_INVALID))
    else
      '(s, h) ← create s;
      Some (s, if h =? LW_OBJECT_HANDLE_INVALID then None else Some (job_queue_init a uiQueueSize h))
  end.

(** [q]: what the memory held before; a queue that does not block keeps its [JOBQ_ulSync].  [err]: errno. *)
Definition _jobQueueInit (s : S) (q : LW_JOB_QUEUE) (pjobmsg : list LW_JOB_MSG) (uiQueueSize err : Z) (bNonBlock : bool)
    : option (S * LW_JOB_QUEUE * Z) :=
  if bNonBlock then Some (s, job_queue_init pjobmsg uiQueueSize (JOBQ_ulSync q), ERROR_NONE)
  else
    '(s, h) ← create s;
    Some (s, job_queue_init pjobmsg uiQueueSize h, if h =? LW_OBJECT_HANDLE_INVALID then err else ERROR_NONE).

(** [delete] also gives the handle that the caller is left with. *)
Definition _jobQueueFinit (s : S) (q : LW_JOB_QUEUE) : option (S * LW_JOB_QUEUE) :=
  if negb (JOBQ_ulSync q =? 0) then '(s, h) ← delete s (JOBQ_ulSync q); Some (s, with_sync h q) else Some (s, q).
(** The queue's memory is given back. *)
Definition _jobQueueDelete (s : S) (q : LW_JOB_QUEUE) : option S := '(s, _) ← _jobQueueFinit s q; Some s.

(** ** Complete functions *)

Definition _jobQueueFlush (s : S) (q : LW_JOB_QUEUE) : option (S * LW_JOB_QUEUE) :=
  s ← (if negb (JOBQ_ulSync q =? 0) then '(s, _) ← bs_clear s (JOBQ_ulSync q); Some s else Some s);
  Some (s, flush_locked q).

Definition _jobQueueAdd (s : S) (q : LW_JOB_QUEUE) (m : LW_JOB_MSG) : option (S * LW_JOB_QUEUE * Z) :=
  '(q, r) ← add_locked m q;
  if negb (r =? ERROR_NONE) then Some (s, q, r)
  else
    s ← (if negb (JOBQ_ulSync q =? 0) then '(s, _) ← bs_post s (JOBQ_ulSync q); Some s else Some s);
    Some (s, q, ERROR_NONE).

Definition _jobQueueDel (q : LW_JOB_QUEUE) (uiMatchArgNum : Z) (pat : LW_JOB_MSG) : option LW_JOB_QUEUE :=
  del_locked uiMatchArgNum pat q.
Definition _jobQueueLost (q : LW_JOB_QUEUE) : Z := JOBQ_ulLost q.

(** ** One section at a time *)

(** Where a context is in a function of the queue, and between two of them (with the last result). *)
Inductive JOB_PC :=
| JIdle (r : Z)
| JAdd (m : LW_JOB_MSG)
| JPost
| JFlush
| JReset
| JDel (uiMatchArgNum : Z) (pat : LW_JOB_MSG)
| JExec (ulTimeout : Z)
| JWait (ulTimeout : Z)
| JCheck (ulTimeout : Z)
| JRun (m : LW_JOB_MSG)
| JNext.

(** From the start of the drain loop: the next job, or the end. *)
Definition drain_step (q : LW_JOB_QUEUE) : option (LW_JOB_QUEUE * JOB_PC) :=
  if JOBQ_uiCnt q =? 0 then Some (q, JIdle ERROR_NONE)
  else '(q, m) ← take_locked q; Some (q, JRun m).

(** The section of context [t] at a place, and the place after it. *)
Definition job_step (s : S) (q : LW_JOB_QUEUE) (t : Z) (pc : JOB_PC) : option (S * LW_JOB_QUEUE * JOB_PC) :=
  let h := JOBQ_ulSync q in
  match pc with
  | JIdle r => Some (s, q, JIdle r)
  | JAdd m =>
    '(q, r) ← add_locked m q;
    Some (s, q, if (r =? ERROR_NONE) && negb (h =? 0) then JPost else JIdle r)
  | JPost => '(s, _) ← bs_post s h; Some (s, q, JIdle ERROR_NONE)
  | JFlush => if negb (h =? 0) then '(s, _) ← bs_clear s h; Some (s, q, JReset) else Some (s, flush_locked q, JIdle ERROR_NONE)
  | JReset => Some (s, flush_locked q, JIdle ERROR_NONE)
  | JDel n pat => q ← del_locked n pat q; Some (s, q, JIdle ERROR_NONE)
  | JExec tmo =>
    if negb (h =? 0) then
      '(s, r) ← bs_pend s t h tmo;
      Some (s, q, if r =? WAITING then JWait tmo else if r =? ERROR_NONE then JCheck tmo else JIdle ERROR_THREAD_WAIT_TIMEOUT)
    else '(q, pc) ← drain_step q; Some (s, q, pc)
  | JWait tmo =>
    Some (s, q, match bs_resume s t with
                | None => JWait tmo
                | Some r => if r =? ERROR_NONE then JCheck tmo else JIdle ERROR_THREAD_WAIT_TIMEOUT
                end)
  | JCheck tmo =>
    if negb (JOBQ_uiCnt q =? 0) then '(q, m) ← take_locked q; Some (s, q, JRun m)
    else Some (s, q, JExec tmo)
  | JRun m => Some (s, q, JNext)
  | JNext => '(q, pc) ← drain_step q; Some (s, q, pc)
  end.

(** ** InterDefer.c *)

(** The queues of the processors; NULL is [None]. *)
Definition API_InterDeferGet (jobqs : list LW_JOB_QUEUE) (LW_NCPUS ulCPUId : Z) : option (option LW_JOB_QUEUE) :=
  if ulCPUId >=? LW_NCPUS then Some None else q ← jobqs !! Z.to_nat ulCPUId; Some (Some q).

Definition API_InterDeferJobAddEx (s : S) (pjobq : option LW_JOB_QUEUE) (m : LW_JOB_MSG)
    : option (S * option LW_JOB_QUEUE * Z) :=
  match pjobq with
  | None => Some (s, None, EINVAL)
  | Some q => '(s, q, r) ← _jobQueueAdd s q m; Some (s, Some q, r)
  end.
Definition API_InterDeferJobAdd (s : S) (pjobq : option LW_JOB_QUEUE) (pfunc pvArg : Z)
    : option (S * option LW_JOB_QUEUE * Z) :=
  API_InterDeferJobAddEx s pjobq (mkJob pfunc [pvArg; LW_NULL; LW_NULL; LW_NULL; LW_NULL; LW_NULL]).

Definition API_InterDeferJobDelete (pjobq : option LW_JOB_QUEUE) (bMatchArg : bool) (pfunc pvArg : Z)
    : option (option LW_JOB_QUEUE * Z) :=
  match pjobq with
  | None => Some (None, EINVAL)
  | Some q =>
    q ← _jobQueueDel q (if bMatchArg then 1 else 0) (mkJob pfunc [pvArg; LW_NULL; LW_NULL; LW_NULL; LW_NULL; LW_NULL]);
    Some (Some q, ERROR_NONE)
  end.
End Functions.

(** [ids]: the threads that run deferred jobs; 1 is an interrupt, 2 one of these threads. *)
Definition API_InterDeferContext (c : CALL) (ids : list Z) : Z :=
  if negb (LW_CPU_GET_CUR_NESTING c =? 0) then 1
  else if existsb (Z.eqb (LW_TCB_GET_CUR c)) ids then 2 else 0.
