(* ===== verification/JobSync.v ===== *)
(** * Job queues: the contract of their semaphore

    What the job queues rely on, as a class, and the proof that the binary semaphores of
    the kernel keep it. *)

From S2P Require Import Prelude Lists Bitmap Sched SchedSpec Object Wakeup Kernel Event EventSpec Boot TickSpec Semaphore Mutex SemSpec LifeSpec SemRefine JobQueue.

(** ** The contract *)

(** [bs_is s h m]: the handle [h] denotes a binary semaphore whose state is [m]; [bs_runs s t]: thread
    [t] runs, so that it can wait. *)
Class SEMAPHORE_OK (S : Type) `{!SEMAPHORE S} := {
  bs_is : S -> Z -> SEM -> Prop;
  bs_runs : S -> Z -> Prop;
  bs_shape s h m : bs_is s h m ->
    s_max m = 1 /\ 0 <= s_count m <= 1 /\ (0 < s_count m -> s_wait m = []) /\
    forall t, t ∈ s_wait m -> bs_resume s t = None;
  bs_post_ok s h m : bs_is s h m -> exists s' m' r l, bs_post s h = Some (s', r) /\ bs_is s' h m' /\
    give_abs m = (m', r, l) /\
    forall t, bs_resume s' t = if decide (t ∈ l) then Some ERROR_NONE else bs_resume s t;
  bs_clear_ok s h m : bs_is s h m -> exists s' r, bs_clear s h = Some (s', r) /\
    bs_is s' h (mkSem 0 (s_max m) (s_wait m)) /\ forall t, bs_resume s' t = bs_resume s t;
  bs_pend_ok s h m t tmo : bs_is s h m -> bs_runs s t -> 0 <= tmo <= ULONG_MAX ->
    exists s' m' r, bs_pend s t h tmo = Some (s', r) /\ bs_is s' h m' /\
      (forall u, u <> t -> bs_resume s' u = bs_resume s u) /\
      ((r = ERROR_NONE /\ s_count m = 1 /\ m' = mkSem 0 1 []) \/
       (r = ERROR_THREAD_WAIT_TIMEOUT /\ s_count m = 0 /\ m' = m /\ bs_resume s' t = bs_resume s t) \/
       (r = WAITING /\ s_count m = 0 /\ s_count m' = 0 /\ s_wait m' ≡ₚ t :: s_wait m))
}.

(** ** The kernel keeps it *)

Section Kernel.
Context (idle : Z -> Z).

Record kernel_is (k : KERNEL) (h : Z) (m : SEM) : Prop := {
  ki_inv : sem_inv idle k;
  ki_class : _ObjectClassOK h _OBJECT_SEM_B = true;
  ki_event : exists E, K_event k !! _ObjectGetIndex h = Some E /\ EVENT_ucType E = LW_TYPE_EVENT_SEMB /\
    m = mkSem (EVENT_ulCounter E) (EVENT_ulMaxCounter E) (wview k (_ObjectGetIndex h) 0)
}.

Abbreviation Hty := (or_intror eq_refl : LW_TYPE_EVENT_SEMB = LW_TYPE_EVENT_SEMC \/ LW_TYPE_EVENT_SEMB = LW_TYPE_EVENT_SEMB).

Lemma waiter_place k t e : sem_inv idle k -> t ∈ wview k e 0 -> exists w, K_wait k !! t = Some w /\ TCB_peventPtr w = Some e /\
  TCB_ucWaitTimeout w = LW_WAIT_TIME_CLEAR /\ TCB_ucIsEventDelete w = LW_EVENT_EXIST.
Proof.
  intros Hi Ht. pose proof (proj1 (sv_kern _ _ Hi)) as Hk. apply (elem_of_wview idle SEMB (fun _ => 0) k e 0 t Hk) in Ht as [b Hb].
  destruct (wait_at_bucket idle SEMB _ k t e 0 b Hk Hb) as (_ & _ & _ & _ & w & Hw & Hp & _). exists w. split; [done|]. split; [done|].
  pose proof (th_place _ _ _ _ _ (ko_thread _ _ _ _ Hk t w Hw)) as Hpl. unfold place_ok in Hpl. rewrite Hp in Hpl.
  split; [by apply Hpl|]. apply (sv_mark _ _ Hi t w Hw). by rewrite Hp.
Qed.

Lemma kernel_shape k h m : kernel_is k h m ->
  s_max m = 1 /\ 0 <= s_count m <= 1 /\ (0 < s_count m -> s_wait m = []) /\
  forall t, t ∈ s_wait m -> kernel_resume k t = None.
Proof.
  intros [Hi Hc (E & HE & Ht & ->)]. cbn [s_max s_count s_wait].
  destruct (kind_sem idle _ Hty k _ E Hi HE Ht) as [(H1 & H2 & H3) (_ & _ & H4 & _)]. specialize (H3 eq_refl).
  split; [done|]. split; [lia|]. split; [done|]. intros t Hin.
  destruct (waiter_place k t _ Hi Hin) as (w & Hw & Hp & _). unfold kernel_resume. by rewrite Hw; cbn; rewrite Hp.
Qed.

Lemma resume_same k k' t : K_wait k' !! t = K_wait k !! t -> kernel_resume k' t = kernel_resume k t.
Proof. intros E. unfold kernel_resume, API_SemaphoreBPend_resume, pend_resume. rewrite E. cbn. by destruct (K_wait k !! t). Qed.

Lemma resume_woke k k' e l : sem_inv idle k -> (forall t, t ∈ l -> t ∈ wview k e 0) -> woke k k' l (wake_wait LW_NULL) ->
  forall t, kernel_resume k' t = if decide (t ∈ l) then Some ERROR_NONE else kernel_resume k t.
Proof.
  intros Hi Hl Hw t. pose proof (wo_wait _ _ _ _ Hw t) as Ht. case_decide as Hin; [|by apply resume_same].
  destruct (waiter_place k t e Hi (Hl t Hin)) as (w & E & _ & H1 & H2). rewrite E in Ht. cbn in Ht.
  unfold kernel_resume, API_SemaphoreBPend_resume, pend_resume. rewrite Ht. cbn. by rewrite H1, H2.
Qed.

Lemma kernel_post k h m : kernel_is k h m -> exists k' m' r l, API_SemaphoreBPost k h = Some (k', r) /\ kernel_is k' h m' /\
  give_abs m = (m', r, l) /\ forall t, kernel_resume k' t = if decide (t ∈ l) then Some ERROR_NONE else kernel_resume k t.
Proof.
  intros [Hi Hc (E & HE & Ht & ->)]. unfold API_SemaphoreBPost, sem_post.
  rewrite (event_check_ok idle k h _ _ E Hi Hc HE Ht). cbn [mbind option_bind]. change (negb (ERROR_NONE =? ERROR_NONE)) with false. cbv iota.
  destruct (give_spec idle _ semb_give Hty semb_give_ok k _ E LW_NULL LW_SCHED_ACT_INTERRUPT Hi HE Ht) as
    (k' & r & o & s' & l & E' & -> & Hi' & _ & HE' & Ht' & Hs & Hg & Hw & _).
  cbn [mbind option_bind]. exists k', s', r, l. split; [done|]. split; [|split; [exact Hg|]].
  - split; [done|done|]. exists E'. split; [done|]. split; [done|]. rewrite (sem_of_eq _ Hty k' _ E' HE' Ht') in Hs. by injection Hs.
  - apply (resume_woke k k' (_ObjectGetIndex h) l Hi); [|done]. apply give_abs_wait in Hg. cbn [s_wait] in Hg.
    intros t Hin. rewrite Hg. apply elem_of_app. by left.
Qed.

(** The counter is set. *)
Lemma kernel_set k h E n : kernel_is k h (mkSem (EVENT_ulCounter E) (EVENT_ulMaxCounter E) (wview k (_ObjectGetIndex h) 0)) ->
  K_event k !! _ObjectGetIndex h = Some E -> EVENT_ucType E = LW_TYPE_EVENT_SEMB -> 0 <= n <= EVENT_ulCounter E ->
  let k' := upd_event (_ObjectGetIndex h) (set_EVENT_ulCounter n) k in
  kernel_is k' h (mkSem n (EVENT_ulMaxCounter E) (wview k (_ObjectGetIndex h) 0)) /\ forall t, kernel_resume k' t = kernel_resume k t.
Proof.
  intros Hk HE Ht Hn k'. destruct Hk as [Hi Hc _]. destruct (kind_sem idle _ Hty k _ E Hi HE Ht) as [(K1 & K2 & K3) (S1 & S2 & S3 & S4)].
  destruct (kind_upd idle _ Hty k (_ObjectGetIndex h) E (set_EVENT_ulCounter n) (set_EVENT_ulCounter n E) Hi HE Ht) as (A & _); try done.
  - split; [simpl; lia|]. by split.
  - split; [simpl; lia|]. split; [done|]. split; [|done]. simpl. intros H. apply S3. lia.
  - split; [|intros t; by apply resume_same]. split; [done|done|]. exists (set_EVENT_ulCounter n E).
    pose proof (lookup_upd (_ObjectGetIndex h) (set_EVENT_ulCounter n) k E HE) as HE'. split; [exact HE'|]. split; [done|].
    unfold k'. by rewrite wview_upd.
Qed.

Lemma kernel_clear k h m : kernel_is k h m -> exists k' r, API_SemaphoreBClear k h = Some (k', r) /\
  kernel_is k' h (mkSem 0 (s_max m) (s_wait m)) /\ forall t, kernel_resume k' t = kernel_resume k t.
Proof.
  intros Hk. pose proof Hk as [Hi Hc (E & HE & Ht & ->)]. unfold API_SemaphoreBClear, sem_clear.
  rewrite (event_check_ok idle k h _ _ E Hi Hc HE Ht). cbn [mbind option_bind]. change (negb (ERROR_NONE =? ERROR_NONE)) with false. cbv iota.
  eexists _, _. split; [done|]. apply kernel_set; [done|done|done|]. destruct (kind_sem idle _ Hty k _ E Hi HE Ht) as [(K1 & _) _]. lia.
Qed.

Lemma kernel_pend k h m t tmo : kernel_is k h m -> runs idle k t -> 0 <= tmo <= ULONG_MAX ->
  exists k' m' r, ('(k, r) ← API_SemaphoreBPend k (call t) h tmo; Some (k, pend_code r)) = Some (k', r) /\ kernel_is k' h m' /\
    (forall u, u <> t -> kernel_resume k' u = kernel_resume k u) /\
    ((r = ERROR_NONE /\ s_count m = 1 /\ m' = mkSem 0 1 []) \/
     (r = ERROR_THREAD_WAIT_TIMEOUT /\ s_count m = 0 /\ m' = m /\ kernel_resume k' t = kernel_resume k t) \/
     (r = WAITING /\ s_count m = 0 /\ s_count m' = 0 /\ s_wait m' ≡ₚ t :: s_wait m)).
Proof.
  intros Hk Hr Htmo. pose proof (kernel_shape k h m Hk) as (Sm & Sc & Sw & _). pose proof Hk as [Hi Hc (E & HE & Ht & ->)].
  cbn [s_max s_count s_wait] in *. unfold API_SemaphoreBPend, sem_wait_again. cbn [call LW_CPU_GET_CUR_NESTING LW_TCB_GET_CUR Z.eqb negb].
  rewrite (event_check_ok idle k h _ _ E Hi Hc HE Ht). cbn [mbind option_bind]. change (negb (ERROR_NONE =? ERROR_NONE)) with false. cbv iota.
  rewrite HE. cbn [mbind option_bind]. destruct (Z.eqb_spec (EVENT_ulCounter E) 0) as [E0|Hne]; cbn [negb].
  - destruct (Z.eqb_spec tmo LW_OPTION_NOT_WAIT) as [->|Hnw].
    + cbn. eexists _, _, _. split; [done|]. split; [exact Hk|]. split; [done|]. right. left. by split.
    + destruct (pend_spec idle SEMB k t (_ObjectGetIndex h) E 0 tmo (sv_kern _ _ Hi) Hr HE) as (k' & E1 & Hk' & Hto & He' & Hp & Hv); [by left|done|by left|].
      unfold SEMB in E1. change EVENT_SEM_Q with 0. rewrite E1. cbn [mbind option_bind pend_code].
      assert (HE' : K_event k' !! _ObjectGetIndex h = Some E) by (by rewrite He').
      eexists k', _, _. split; [done|]. split; [|split].
      * split; [|done|exists E; split; [exact HE'|]; split; [exact Ht|reflexivity]].
        apply (kind_queue idle _ Hty k k' _ E Hi HE Ht Hk' Hto HE'); [by apply Hv|lia].
      * intros u Hu. apply resume_same. apply (fr_others _ _ _ (pk_frame _ _ _ _ _ _ Hp) u Hu).
      * right. right. cbn. rewrite E0. do 3 (split; [done|]). apply (pk_perm _ _ _ _ _ _ Hp).
  - eexists (upd_event (_ObjectGetIndex h) semb_take k), _, ERROR_NONE. split; [done|].
    destruct (kernel_set k h E 0 Hk HE Ht ltac:(lia)) as [A B]. split; [|split; [intros u _; apply B|left; split; [done|]]].
    + change (set_EVENT_ulCounter 0) with semb_take in A. exact A.
    + split; [lia|]. f_equal; [done|]. apply Sw. lia.
Qed.
End Kernel.

(** The class is inhabited by the kernel, for each choice of its idle threads. *)
Definition kernel_semaphore_ok (idle : Z -> Z) : SEMAPHORE_OK KERNEL := {|
  bs_is := kernel_is idle;
  bs_runs := runs idle;
  bs_shape := kernel_shape idle;
  bs_post_ok := kernel_post idle;
  bs_clear_ok := kernel_clear idle;
  bs_pend_ok := kernel_pend idle
|}.
