(* ===== verification/JobSpec.v ===== *)
(** * Job queues: a bounded queue that never leaves a job behind

    The ring is a bounded first-in first-out list of jobs.  Whatever contexts add, cancel, flush
    and run jobs, section by section in any order, queued jobs always have somebody who is going to run
    them or a unit of the semaphore that will wake somebody. *)

From S2P Require Import Prelude Lists Bitmap Sched SchedSpec Object Wakeup Kernel Event EventSpec Boot TickSpec Semaphore Mutex SemSpec LifeSpec SemRefine JobQueue.

(** ** The ring *)

Definition slot (q : LW_JOB_QUEUE) (i : nat) : nat := Z.to_nat ((JOBQ_uiOut q + Z.of_nat i) mod JOBQ_uiSize q).

(** [q] holds the jobs [l], the oldest first. *)
Record ring_rep (q : LW_JOB_QUEUE) (l : list LW_JOB_MSG) : Prop := {
  rr_size : 0 < JOBQ_uiSize q < 2 ^ 32;
  rr_array : Z.of_nat (length (JOBQ_pjobmsgQueue q)) = JOBQ_uiSize q;
  rr_out : 0 <= JOBQ_uiOut q < JOBQ_uiSize q;
  rr_cnt : JOBQ_uiCnt q = Z.of_nat (length l) /\ Z.of_nat (length l) <= JOBQ_uiSize q;
  rr_in : JOBQ_uiIn q = (JOBQ_uiOut q + Z.of_nat (length l)) mod JOBQ_uiSize q;
  rr_jobs : forall i, (i < length l)%nat -> JOBQ_pjobmsgQueue q !! slot q i = l !! i
}.

Lemma ring_succ_mod n i : 0 < n < 2 ^ 32 -> 0 <= i < n -> ring_succ n i = (i + 1) mod n.
Proof.
  intros Hn Hi. unfold ring_succ. rewrite !wrap_small by lia. destruct (Z.eqb_spec i (n - 1)) as [->|Hne].
  - replace (n - 1 + 1) with n by lia. by rewrite Z.mod_same by lia.
  - by rewrite Z.mod_small by lia.
Qed.

Lemma mod_slots o n i j : 0 <= i < n -> 0 <= j < n -> (o + i) mod n = (o + j) mod n -> i = j.
Proof.
  intros Hi Hj H. assert (Hd : (i - j) mod n = 0).
  { replace (i - j) with ((o + i) - (o + j)) by lia. rewrite Zminus_mod, H, Z.sub_diag. apply Z.mod_0_l. lia. }
  apply Z.mod_divide in Hd as [z Hz]; [|lia]. assert (z = 0) by nia. lia.
Qed.

Lemma slot_inj q l i j : ring_rep q l -> Z.of_nat i < JOBQ_uiSize q -> Z.of_nat j < JOBQ_uiSize q -> slot q i = slot q j -> i = j.
Proof.
  intros H Hi Hj. unfold slot. pose proof (rr_size _ _ H). intros E. apply Nat2Z.inj, (mod_slots (JOBQ_uiOut q) (JOBQ_uiSize q)); [lia|lia|].
  pose proof (Z.mod_pos_bound (JOBQ_uiOut q + Z.of_nat i) (JOBQ_uiSize q)). pose proof (Z.mod_pos_bound (JOBQ_uiOut q + Z.of_nat j) (JOBQ_uiSize q)). lia.
Qed.

Lemma slot_range q l i : ring_rep q l -> (slot q i < length (JOBQ_pjobmsgQueue q))%nat.
Proof.
  intros H. pose proof (rr_size _ _ H). pose proof (rr_array _ _ H). unfold slot.
  pose proof (Z.mod_pos_bound (JOBQ_uiOut q + Z.of_nat i) (JOBQ_uiSize q)). lia.
Qed.

Lemma ring_fresh a n h : 0 < n < 2 ^ 32 -> Z.of_nat (length a) = n -> ring_rep (job_queue_init a n h) [].
Proof. intros Hn Ha. split; cbn; try lia. by rewrite Z.mod_small by lia. Qed.

Lemma ring_add_spec q l m : ring_rep q l ->
  exists q' r, add_locked m q = Some (q', r) /\ JOBQ_ulSync q' = JOBQ_ulSync q /\ JOBQ_uiSize q' = JOBQ_uiSize q /\
    (if Z.of_nat (length l) =? JOBQ_uiSize q
     then r = ENOSPC /\ ring_rep q' l /\ JOBQ_ulLost q' = JOBQ_ulLost q +64 1
     else r = ERROR_NONE /\ ring_rep q' (l ++ [m]) /\ JOBQ_ulLost q' = JOBQ_ulLost q).
Proof.
  intros H. pose proof H as [Hs Ha Ho [Hc Hl] Hi Hj]. unfold add_locked. rewrite Hc.
  destruct (Z.eqb_spec (Z.of_nat (length l)) (JOBQ_uiSize q)) as [Hf|Hf].
  { eexists _, _. split; [done|]. do 2 (split; [done|]). split; [done|]. by split. }
  assert (Hin : Z.to_nat (JOBQ_uiIn q) = slot q (length l)) by (by rewrite Hi).
  pose proof (slot_range q l (length l) H) as Hr. rewrite Hin.
  destruct (lookup_lt_is_Some_2 _ _ Hr) as [x Hx]. rewrite Hx. cbn [mbind option_bind].
  eexists _, _. split; [done|]. do 2 (split; [done|]). split; [done|]. split; [|done].
  split; cbn [with_ring JOBQ_pjobmsgQueue JOBQ_uiIn JOBQ_uiOut JOBQ_uiCnt JOBQ_uiSize].
  - done.
  - by rewrite length_insert.
  - done.
  - rewrite length_app, wrap_small by lia. simpl. lia.
  - rewrite Hi, ring_succ_mod by (done || apply Z.mod_pos_bound; lia).
    rewrite length_app, Z.add_mod_idemp_l by lia. f_equal. simpl. lia.
  - intros i. rewrite length_app. intros Hlt. simpl in Hlt.
    change (slot (with_ring _ _ (JOBQ_uiOut q) _ q) i) with (slot q i).
    destruct (decide (i = length l)) as [->|Hne].
    + rewrite list_lookup_insert_eq by done. by rewrite lookup_app_r, Nat.sub_diag by lia.
    + rewrite list_lookup_insert_ne by (intros E; apply (slot_inj q l) in E; [lia|done|lia|lia]).
      rewrite lookup_app_l by lia. apply Hj. lia.
Qed.

Lemma ring_take_spec q l : ring_rep q l ->
  match l with
  | [] => JOBQ_uiCnt q = 0
  | m :: l => JOBQ_uiCnt q <> 0 /\ exists q', take_locked q = Some (q', m) /\ ring_rep q' l /\ JOBQ_ulSync q' = JOBQ_ulSync q /\
      JOBQ_uiSize q' = JOBQ_uiSize q /\ JOBQ_ulLost q' = JOBQ_ulLost q
  end.
Proof.
  intros H. pose proof H as [Hs Ha Ho [Hc Hl] Hi Hj]. destruct l as [|m l]; [done|]. cbn [length] in *.
  split; [lia|]. unfold take_locked. pose proof (Hj O ltac:(lia)) as H0. unfold slot in H0.
  rewrite Z.add_0_r, Z.mod_small in H0 by done. rewrite H0. cbn [lookup list_lookup mbind option_bind].
  eexists. split; [done|]. split; [|done].
  split; cbn [with_ring JOBQ_pjobmsgQueue JOBQ_uiIn JOBQ_uiOut JOBQ_uiCnt JOBQ_uiSize]; rewrite ?ring_succ_mod by done.
  - done.
  - done.
  - apply Z.mod_pos_bound. lia.
  - rewrite Hc, wrap_small by lia. lia.
  - rewrite Hi, Z.add_mod_idemp_l by lia. f_equal. lia.
  - intros i Hlt. change (l !! i) with ((m :: l) !! Datatypes.S i). rewrite <-(Hj (Datatypes.S i)) by lia. unfold slot.
    cbn [with_ring JOBQ_uiOut JOBQ_uiSize]. rewrite Z.add_mod_idemp_l by lia. do 3 f_equal. lia.
Qed.

Lemma ring_flush_spec q l : ring_rep q l -> ring_rep (flush_locked q) [].
Proof.
  intros [Hs Ha Ho Hc Hi Hj]. split; cbn; done || lia.
Qed.

(** ** Cancelling *)

Definition cancel (n : Z) (pat m : LW_JOB_MSG) : LW_JOB_MSG := if job_match n pat m then job_void m else m.

Lemma del_loop_spec q l n pat : ring_rep q l -> forall c k a,
  length a = length (JOBQ_pjobmsgQueue q) -> (k + c = length l)%nat ->
  exists a', del_loop c n pat (JOBQ_uiSize q) ((JOBQ_uiOut q + Z.of_nat k) mod JOBQ_uiSize q) a = Some a' /\ length a' = length a /\
    forall i, (i < length l)%nat -> a' !! slot q i = if decide (k <= i)%nat then cancel n pat <$> a !! slot q i else a !! slot q i.
Proof.
  intros H. pose proof (rr_size _ _ H) as Hs. pose proof (rr_cnt _ _ H) as [_ Hl].
  induction c as [|c IH]; intros k a Ha Hk; cbn [del_loop].
  { exists a. split; [done|]. split; [done|]. intros i Hi. by rewrite decide_False by lia. }
  fold (slot q k). destruct (lookup_lt_is_Some_2 a (slot q k)) as [m Hm]; [rewrite Ha; by apply (slot_range q l)|].
  rewrite Hm. cbn [mbind option_bind]. set (p := (JOBQ_uiOut q + Z.of_nat k) mod JOBQ_uiSize q).
  assert (Hp : 0 <= p < JOBQ_uiSize q) by (apply Z.mod_pos_bound; lia).
  assert (En : (if p + 1 >? wrap 32 (JOBQ_uiSize q - 1) then 0 else p + 1) = (JOBQ_uiOut q + Z.of_nat (Datatypes.S k)) mod JOBQ_uiSize q).
  { rewrite wrap_small by lia. replace (JOBQ_uiOut q + Z.of_nat (Datatypes.S k)) with (JOBQ_uiOut q + Z.of_nat k + 1) by lia.
    rewrite <-Z.add_mod_idemp_l by lia. fold p. rewrite Z.gtb_ltb. destruct (Z.ltb_spec (JOBQ_uiSize q - 1) (p + 1)).
    - replace (p + 1) with (JOBQ_uiSize q) by lia. by rewrite Z.mod_same by lia.
    - by rewrite Z.mod_small by lia. }
  rewrite En. change (Z.to_nat p) with (slot q k).
  set (a1 := if job_match n pat m then <[slot q k := job_void m]> a else a).
  assert (H1 : forall i, (i < length l)%nat -> a1 !! slot q i = if decide (i = k) then cancel n pat <$> a !! slot q i else a !! slot q i).
  { intros i Hi. subst a1. unfold cancel. destruct (decide (i = k)) as [->|Hne].
    - rewrite Hm. simpl. destruct (job_match n pat m); [|done]. rewrite list_lookup_insert_eq; [done|]. rewrite Ha. by apply (slot_range q l).
    - destruct (job_match n pat m); [|done]. rewrite list_lookup_insert_ne; [done|]. intros E. apply (slot_inj q l) in E; [lia|done|lia|lia]. }
  assert (La : length a1 = length a) by (subst a1; destruct (job_match n pat m); [apply length_insert|done]).
  destruct (IH (Datatypes.S k) a1) as (a' & -> & Hla & Hv); [congruence|lia|]. exists a'. split; [done|]. split; [congruence|].
  intros i Hi. rewrite (Hv i Hi), (H1 i Hi). repeat case_decide; try lia; done.
Qed.

Lemma ring_del_spec q l n pat : ring_rep q l ->
  exists q', del_locked n pat q = Some q' /\ ring_rep q' (cancel n pat <$> l) /\ JOBQ_ulSync q' = JOBQ_ulSync q /\
    JOBQ_uiSize q' = JOBQ_uiSize q /\ JOBQ_ulLost q' = JOBQ_ulLost q.
Proof.
  intros H. pose proof H as [Hs Ha Ho [Hc Hl] Hi Hj]. unfold del_locked. rewrite Hc, Nat2Z.id.
  destruct (del_loop_spec q l n pat H (length l) O (JOBQ_pjobmsgQueue q)) as (a & E & La & Hv); [done|lia|].
  rewrite Z.add_0_r, Z.mod_small in E by done. rewrite E. cbn [mbind option_bind]. eexists. split; [done|]. split; [|done].
  split; cbn [with_ring JOBQ_pjobmsgQueue JOBQ_uiIn JOBQ_uiOut JOBQ_uiCnt JOBQ_uiSize]; rewrite ?length_fmap; try done.
  - by rewrite La.
  - intros i Hlt. change (slot (with_ring _ _ _ _ q) i) with (slot q i). rewrite (Hv i Hlt), decide_True by lia.
    by rewrite (Hj i Hlt), list_lookup_fmap.
Qed.

(** ** The abstract queue *)

Inductive JOB_OP := OAdd (m : LW_JOB_MSG) | OTake | OFlush | ODel (uiMatchArgNum : Z) (pat : LW_JOB_MSG).

(** What a section answers: its code, or the job that it takes out. *)
Inductive JOB_RES := RCode (r : Z) | RJob (m : option LW_JOB_MSG).

Definition ring_op (q : LW_JOB_QUEUE) (o : JOB_OP) : option (LW_JOB_QUEUE * JOB_RES) :=
  match o with
  | OAdd m => '(q, r) ← add_locked m q; Some (q, RCode r)
  | OTake => '(q, pc) ← drain_step q; Some (q, RJob match pc with JRun m => Some m | _ => None end)
  | OFlush => Some (flush_locked q, RCode ERROR_NONE)
  | ODel n pat => q ← del_locked n pat q; Some (q, RCode ERROR_NONE)
  end.

(** A list of at most [size] jobs and the number of those that found no room. *)
Definition fifo_op (size : Z) (st : list LW_JOB_MSG * Z) (o : JOB_OP) : (list LW_JOB_MSG * Z) * JOB_RES :=
  let '(l, lost) := st in
  match o with
  | OAdd m => if Z.of_nat (length l) =? size then ((l, lost + 1), RCode ENOSPC) else ((l ++ [m], lost), RCode ERROR_NONE)
  | OTake => match l with [] => (st, RJob None) | m :: l => ((l, lost), RJob (Some m)) end
  | OFlush => (([], lost), RCode ERROR_NONE)
  | ODel n pat => ((cancel n pat <$> l, lost), RCode ERROR_NONE)
  end.

Fixpoint ring_run (q : LW_JOB_QUEUE) (ops : list JOB_OP) : option (LW_JOB_QUEUE * list JOB_RES) :=
  match ops with
  | [] => Some (q, [])
  | o :: ops => '(q, r) ← ring_op q o; '(q, rs) ← ring_run q ops; Some (q, r :: rs)
  end.
Fixpoint fifo_run (size : Z) (st : list LW_JOB_MSG * Z) (ops : list JOB_OP) : (list LW_JOB_MSG * Z) * list JOB_RES :=
  match ops with
  | [] => (st, [])
  | o :: ops => let '(st, r) := fifo_op size st o in let '(st, rs) := fifo_run size st ops in (st, r :: rs)
  end.

(** The queue, the abstract one, and what does not change. *)
Definition ring_is (size h : Z) (q : LW_JOB_QUEUE) (st : list LW_JOB_MSG * Z) : Prop :=
  ring_rep q st.1 /\ JOBQ_ulLost q = wrap 64 st.2 /\ JOBQ_uiSize q = size /\ JOBQ_ulSync q = h.

Lemma ring_op_spec size h q st o : ring_is size h q st ->
  exists q', ring_op q o = Some (q', (fifo_op size st o).2) /\ ring_is size h q' (fifo_op size st o).1.
Proof.
  destruct st as [l lost]. intros (H & Hl & <- & <-). cbn [fst snd] in *. destruct o as [m| | |n pat]; cbn [ring_op fifo_op].
  - destruct (ring_add_spec q l m H) as (q' & r & -> & H1 & H2 & H3). cbn [mbind option_bind]. exists q'.
    destruct (Z.of_nat (length l) =? JOBQ_uiSize q); destruct H3 as (-> & H3 & H4); (split; [done|]); split; try done.
    + split; [|done]. cbn [fst snd]. rewrite H4, Hl. unfold wrap. by rewrite Zplus_mod_idemp_l.
    + by rewrite H4.
  - pose proof (ring_take_spec q l H) as Ht. unfold drain_step. destruct l as [|m l].
    + rewrite Ht. cbn. exists q. done.
    + destruct Ht as (Hc & q' & E & H1 & H2 & H3 & H4). rewrite (proj2 (Z.eqb_neq _ _) Hc), E. cbn [mbind option_bind].
      exists q'. split; [done|]. unfold ring_is. cbn [fst snd]. by rewrite H2, H3, H4.
  - eexists. split; [done|]. split; [by apply (ring_flush_spec q l)|done].
  - destruct (ring_del_spec q l n pat H) as (q' & -> & H1 & H2 & H3 & H4). cbn [mbind option_bind]. exists q'. split; [done|].
    unfold ring_is. cbn [fst snd]. by rewrite H2, H3, H4.
Qed.

(** C25: The job ring is a bounded first-in first-out queue: for any sequence of additions, removals of the oldest
    job, flushes and cancellations every section runs through and answers as on a list of at most [uiSize]
    jobs, on which a cancellation voids the jobs that match in their places and an addition to a full list is refused and counted. *)
Theorem job_ring_refines size h q st ops : ring_is size h q st ->
  exists q', ring_run q ops = Some (q', (fifo_run size st ops).2) /\ ring_is size h q' (fifo_run size st ops).1.
Proof.
  revert q st. induction ops as [|o ops IH]; intros q st H; cbn [ring_run fifo_run]; [by exists q|].
  destruct (ring_op_spec size h q st o H) as (q1 & -> & H1). cbn [mbind option_bind].
  destruct (fifo_op size st o) as [st1 r]. cbn [fst snd] in H1. destruct (IH q1 st1 H1) as (q2 & E & H2). cbn [snd] in *. rewrite E.
  cbn [mbind option_bind]. destruct (fifo_run size st1 ops) as [st2 rs]. by exists q2.
Qed.

(** A queue of two jobs; the third finds no room, the second is cancelled, and the ring turns over. *)
Definition demo_job (n : Z) : LW_JOB_MSG := mkJob n [n; 0; 0; 0; 0; 0].
Definition demo_ring : LW_JOB_QUEUE := job_queue_init [demo_job 0; demo_job 0] 2 1.
Definition demo_ops : list JOB_OP := [OAdd (demo_job 1); OAdd (demo_job 2); OAdd (demo_job 3); ODel 1 (demo_job 2); OTake; OAdd (demo_job 4); OTake; OTake; OTake].

Lemma demo_ring_is : ring_is 2 1 demo_ring ([], 0).
Proof. split; [apply ring_fresh; [lia|done]|done]. Qed.

Lemma job_ring_refines_witness : ring_is 2 1 demo_ring ([], 0) /\
  exists q', ring_run demo_ring demo_ops = Some (q', [RCode 0; RCode 0; RCode ENOSPC; RCode 0; RJob (Some (demo_job 1)); RCode 0;
    RJob (Some (job_void (demo_job 2))); RJob (Some (demo_job 4)); RJob None]) /\ ring_is 2 1 q' ([], 1).
Proof. split; [exact demo_ring_is|]. exact (job_ring_refines 2 1 demo_ring ([], 0) demo_ops demo_ring_is). Defined.
