(* ===== verification/JobRun.v ===== *)
(** * Job queues in use: no job is left behind

    Any number of contexts work on a queue, one section at a time in any order, while the rest of
    the kernel runs between their sections. *)

From S2P Require Import Prelude Lists Bitmap Sched SchedSpec Object Wakeup Kernel Event EventSpec Boot TickSpec Semaphore Mutex SemSpec LifeSpec SemRefine MutexSpec RwSpec System JobQueue JobSync JobSpec.

Section System.
Context {S : Type} `{!SEMAPHORE S} `{!SEMAPHORE_OK S}.

(** The semaphore's world, the queue, where each context is, and the jobs whose functions were called. *)
Record JSYS := mkJsys { js_s : S; js_q : LW_JOB_QUEUE; js_pc : gmap Z JOB_PC; js_ran : list LW_JOB_MSG }.

(** The entries of the functions. *)
Definition entry (pc : JOB_PC) : Prop :=
  match pc with
  | JAdd _ | JFlush | JDel _ _ => True
  | JExec tmo => 0 <= tmo <= ULONG_MAX
  | _ => False
  end.

(** What runs when a context leaves the place: a job's function, unless it was cancelled. *)
Definition runs_job (pc : JOB_PC) : list LW_JOB_MSG :=
  match pc with JRun m => if JOBM_pfuncFunc m =? LW_NULL then [] else [m] | _ => [] end.

(** The rest of the kernel: it gives no units of the semaphore and takes none; a thread may leave its queue (a
    time-out); an answer that a context of the queue waits to read stays. *)
Definition elsewhere (h : Z) (pcs : gmap Z JOB_PC) (s s' : S) : Prop := forall m, bs_is s h m ->
  exists m', bs_is s' h m' /\ s_count m' = s_count m /\ (forall t, t ∈ s_wait m' -> t ∈ s_wait m) /\
    forall t tmo r, pcs !! t = Some (JWait tmo) -> bs_resume s t = Some r -> bs_resume s' t = Some r.

Inductive jsys_step (y : JSYS) : JSYS -> Prop :=
| jst_call t pc : (js_pc y !! t = None \/ exists r, js_pc y !! t = Some (JIdle r)) -> entry pc ->
    jsys_step y (mkJsys (js_s y) (js_q y) (<[t := pc]> (js_pc y)) (js_ran y))
| jst_move t pc s' q' pc' : js_pc y !! t = Some pc -> (forall tmo, pc = JExec tmo -> bs_runs (js_s y) t) ->
    job_step (js_s y) (js_q y) t pc = Some (s', q', pc') ->
    jsys_step y (mkJsys s' q' (<[t := pc']> (js_pc y)) (js_ran y ++ runs_job pc))
| jst_other s' : elsewhere (JOBQ_ulSync (js_q y)) (js_pc y) (js_s y) s' ->
    jsys_step y (mkJsys s' (js_q y) (js_pc y) (js_ran y)).

(** A context that is bound to post, to drain the queue or to empty it. *)
Definition attends (s : S) (t : Z) (pc : JOB_PC) : Prop :=
  match pc with
  | JPost | JReset | JCheck _ | JRun _ | JNext => True
  | JWait _ => bs_resume s t = Some ERROR_NONE
  | _ => False
  end.
Definition attended (y : JSYS) : Prop := exists t pc, js_pc y !! t = Some pc /\ attends (js_s y) t pc.

Record jinv (h : Z) (y : JSYS) : Prop := {
  ji_ring : exists l, ring_rep (js_q y) l;
  ji_sync : JOBQ_ulSync (js_q y) = h;
  ji_exec : forall t pc, js_pc y !! t = Some pc -> match pc with JExec tmo | JWait tmo | JCheck tmo => 0 <= tmo <= ULONG_MAX | _ => True end;
  ji_sem : exists m, bs_is (js_s y) h m /\ (forall t, t ∈ s_wait m -> exists tmo, js_pc y !! t = Some (JWait tmo)) /\
    (JOBQ_uiCnt (js_q y) <> 0 -> s_count m = 1 \/ attended y)
}.

(** ** The invariant is kept *)

(** What a move of [t] from [pc] has to establish. *)
Record moved (h : Z) (y : JSYS) (t : Z) (pc : JOB_PC) (s' : S) (q' : LW_JOB_QUEUE) (pc' : JOB_PC) : Prop := {
  mv_ring : exists l, ring_rep q' l;
  mv_sync : JOBQ_ulSync q' = h;
  mv_exec : match pc' with JExec tmo | JWait tmo | JCheck tmo => 0 <= tmo <= ULONG_MAX | _ => True end;
  mv_sem : exists m', bs_is s' h m' /\ (forall u, u ∈ s_wait m' -> exists tmo, <[t := pc']> (js_pc y) !! u = Some (JWait tmo)) /\
    (JOBQ_uiCnt q' <> 0 -> s_count m' = 1 \/ (exists u pcu, <[t := pc']> (js_pc y) !! u = Some pcu /\ attends s' u pcu))
}.

Lemma attended_now s' t pc' (pcs : gmap Z JOB_PC) : attends s' t pc' -> exists u pcu, <[t := pc']> pcs !! u = Some pcu /\ attends s' u pcu.
Proof. intros H. exists t, pc'. by rewrite lookup_insert_eq. Qed.

(** Nobody else stops attending. *)
Lemma attended_still y t pc s' pc' : js_pc y !! t = Some pc -> ~ attends (js_s y) t pc ->
  (forall u, u <> t -> bs_resume (js_s y) u = Some ERROR_NONE -> bs_resume s' u = Some ERROR_NONE) ->
  attended y -> exists u pcu, <[t := pc']> (js_pc y) !! u = Some pcu /\ attends s' u pcu.
Proof.
  intros Hpc Hn Hk (u & pcu & Hu & Ha). assert (u <> t) by (intros ->; rewrite Hpc in Hu; injection Hu as ->; done).
  exists u, pcu. rewrite lookup_insert_ne by done. split; [done|]. destruct pcu; try done. by apply Hk.
Qed.

Lemma wait_still y t pc pc' m : js_pc y !! t = Some pc -> (forall u, u ∈ s_wait m -> exists tmo, js_pc y !! u = Some (JWait tmo)) ->
  (forall tmo, pc = JWait tmo -> t ∉ s_wait m) -> forall u, u ∈ s_wait m -> exists tmo, <[t := pc']> (js_pc y) !! u = Some (JWait tmo).
Proof.
  intros Hpc Hw Hn u Hu. destruct (Hw u Hu) as [tmo E]. exists tmo. rewrite lookup_insert_ne; [done|].
  intros <-. rewrite Hpc in E. injection E as ->. by apply (Hn tmo).
Qed.

(** A move that only takes the context on. *)
Lemma moved_same h y t pc pc' q' : jinv h y -> js_pc y !! t = Some pc -> (exists l, ring_rep q' l) -> JOBQ_ulSync q' = h ->
  match pc' with JExec tmo | JWait tmo | JCheck tmo => 0 <= tmo <= ULONG_MAX | _ => True end ->
  (forall tmo m, pc = JWait tmo -> bs_is (js_s y) h m -> t ∉ s_wait m) ->
  (JOBQ_uiCnt q' <> 0 -> attends (js_s y) t pc' \/ (JOBQ_uiCnt (js_q y) <> 0 /\ ~ attends (js_s y) t pc)) ->
  moved h y t pc (js_s y) q' pc'.
Proof.
  intros [_ _ _ (m & Hm & Hw & Hc)] Hpc Hr Hs He Hn Ha. split; [done|done|done|]. exists m. split; [done|]. split.
  - apply (wait_still y t pc); [done|done|]. intros tmo E. by apply (Hn tmo m).
  - intros Hne. destruct (Ha Hne) as [Hat|[Hne' Hna]]; [right; by apply attended_now|].
    destruct (Hc Hne') as [?|Hat]; [by left|right]. by apply (attended_still y t pc).
Qed.

Lemma post_moved h y t : jinv h y -> js_pc y !! t = Some JPost ->
  exists s' r, bs_post (js_s y) h = Some (s', r) /\ moved h y t JPost s' (js_q y) (JIdle ERROR_NONE).
Proof.
  intros [Hr Hs _ (m & Hm & Hw & _)] Hpc. destruct (bs_post_ok _ _ _ Hm) as (s' & m' & r & l & E & Hm' & Hg & Hres).
  exists s', r. split; [done|]. split; [done|done|done|]. exists m'. split; [done|].
  pose proof (give_abs_wait _ _ _ _ Hg) as Hl. split.
  - apply (wait_still y t JPost); [done| |done]. intros u Hu. apply Hw. rewrite Hl. apply elem_of_app. by right.
  - intros _. destruct (bs_shape _ _ _ Hm) as (Sm & Sc & _). unfold give_abs in Hg. destruct (s_wait m) as [|u w] eqn:Ew.
    + left. destruct (Z.ltb_spec (s_count m) (s_max m)); injection Hg as <- _ _; cbn [s_count]; lia.
    + right. injection Hg as <- _ <-. destruct (Hw u) as [tmo Hu]; [left|]. exists u, (JWait tmo). split.
      * rewrite lookup_insert_ne; [done|]. intros <-. by rewrite Hpc in Hu.
      * cbn [attends]. rewrite Hres, decide_True; [done|left].
Qed.

Lemma clear_moved h y t : jinv h y -> js_pc y !! t = Some JFlush ->
  exists s' r, bs_clear (js_s y) h = Some (s', r) /\ moved h y t JFlush s' (js_q y) JReset.
Proof.
  intros [Hr Hs _ (m & Hm & Hw & _)] Hpc. destruct (bs_clear_ok _ _ _ Hm) as (s' & r & E & Hm' & Hres).
  exists s', r. split; [done|]. split; [done|done|done|]. eexists. split; [exact Hm'|]. split.
  - by apply (wait_still y t JFlush).
  - intros _. right. by apply attended_now.
Qed.

Lemma exec_moved h y t tmo : jinv h y -> js_pc y !! t = Some (JExec tmo) -> bs_runs (js_s y) t ->
  exists s' r, bs_pend (js_s y) t h tmo = Some (s', r) /\
    moved h y t (JExec tmo) s' (js_q y) (if r =? WAITING then JWait tmo else if r =? ERROR_NONE then JCheck tmo else JIdle ERROR_THREAD_WAIT_TIMEOUT).
Proof.
  intros [Hr Hs He (m & Hm & Hw & Hc)] Hpc Hrun. pose proof (He t _ Hpc) as Htmo. cbn in Htmo.
  destruct (bs_pend_ok _ _ _ t tmo Hm Hrun Htmo) as (s' & m' & r & E & Hm' & Hres & Hcase).
  assert (Hk : forall u, u <> t -> bs_resume (js_s y) u = Some ERROR_NONE -> bs_resume s' u = Some ERROR_NONE) by (intros u Hu; by rewrite Hres).
  exists s', r. split; [done|]. destruct Hcase as [(-> & Hc1 & ->)|[(-> & Hc0 & -> & _)|(-> & Hc0 & Hc0' & Hp)]]; cbn.
  - split; [done|done|done|]. eexists. split; [exact Hm'|]. split; [intros u Hu; by apply not_elem_of_nil in Hu|].
    intros _. right. by apply attended_now.
  - split; [done|done|done|]. exists m. split; [done|]. split; [by apply (wait_still y t (JExec tmo))|].
    intros Hne. destruct (Hc Hne) as [?|Ha]; [lia|right]. by apply (attended_still y t (JExec tmo) s' _ Hpc (fun F => F) Hk).
  - split; [done|done|done|]. exists m'. split; [done|]. split.
    + intros u. rewrite Hp. intros [->|Hu]%elem_of_cons; [exists tmo; by rewrite lookup_insert_eq|].
      by apply (wait_still y t (JExec tmo) _ m).
    + intros Hne. destruct (Hc Hne) as [?|Ha]; [lia|right]. by apply (attended_still y t (JExec tmo) s' _ Hpc (fun F => F) Hk).
Qed.

Lemma cnt_length q l : ring_rep q l -> JOBQ_uiCnt q = Z.of_nat (length l).
Proof. intros H. apply H. Qed.

Lemma add_moved h y t m : jinv h y -> h <> 0 -> js_pc y !! t = Some (JAdd m) ->
  exists q' r, add_locked m (js_q y) = Some (q', r) /\
    moved h y t (JAdd m) (js_s y) q' (if (r =? ERROR_NONE) && negb (h =? 0) then JPost else JIdle r).
Proof.
  intros Hi Hh Hpc. pose proof Hi as [[l Hl] Hs _ _]. destruct (ring_add_spec _ l m Hl) as (q' & r & E & H1 & _ & H3).
  exists q', r. split; [done|]. assert (Hr : exists l', ring_rep q' l' /\ (r = ENOSPC -> l' = l)).
  { destruct (_ =? _); destruct H3 as (-> & H3 & _); [by exists l|by exists (l ++ [m])]. }
  destruct Hr as (l' & Hr' & Hll). assert (Hrc : r = ERROR_NONE \/ r = ENOSPC) by (destruct (_ =? _); [right|left]; apply H3).
  apply moved_same; [done|done|by exists l'|congruence| |done|].
  - by destruct Hrc as [-> | ->]; cbn; destruct (h =? 0).
  - intros Hne. rewrite (proj2 (Z.eqb_neq h 0) Hh). destruct Hrc as [-> | ->]; cbn; [by left|right]. split; [|by intros []].
    by rewrite (cnt_length _ l Hl), <-(Hll eq_refl), <-(cnt_length _ _ Hr').
Qed.

(** The check for a job under the lock. *)
Lemma take_moved h y t pc pc0 : jinv h y -> js_pc y !! t = Some pc -> (forall tmo, pc <> JWait tmo) ->
  match pc0 with JExec tmo | JWait tmo | JCheck tmo => 0 <= tmo <= ULONG_MAX | _ => True end ->
  (JOBQ_uiCnt (js_q y) = 0 /\ moved h y t pc (js_s y) (js_q y) pc0) \/
  (JOBQ_uiCnt (js_q y) <> 0 /\ exists q' m, take_locked (js_q y) = Some (q', m) /\ moved h y t pc (js_s y) q' (JRun m)).
Proof.
  intros Hi Hpc Hn He. pose proof Hi as [[l Hl] Hs _ _]. pose proof (ring_take_spec _ l Hl) as Ht. destruct l as [|m l].
  - left. split; [done|]. apply moved_same; try done; [by exists []|by intros tmo m ?%Hn].
  - right. destruct Ht as (Hc & q' & E & H1 & H2 & _). split; [done|]. exists q', m. split; [done|].
    apply moved_same; try done; [by exists l|congruence|by intros tmo m' ?%Hn|by left].
Qed.

Lemma move_spec h y t pc : jinv h y -> h <> 0 -> js_pc y !! t = Some pc -> (forall tmo, pc = JExec tmo -> bs_runs (js_s y) t) ->
  exists s' q' pc', job_step (js_s y) (js_q y) t pc = Some (s', q', pc') /\ moved h y t pc s' q' pc'.
Proof.
  intros Hi Hh Hpc Hrun. pose proof Hi as [[l Hl] Hs He (m0 & Hm & Hw & Hc)]. pose proof (proj2 (Z.eqb_neq h 0) Hh) as Hh0.
  destruct pc as [r|m| | | |n pat|tmo|tmo|tmo|m|]; cbn [job_step]; rewrite ?Hs, ?Hh0; cbn [negb andb].
  - eexists _, _, _. split; [done|]. apply moved_same; try done; [by exists l|]. intros H. right. by split; [|intros []].
  - destruct (add_moved h y t m Hi Hh Hpc) as (q' & r & -> & H). rewrite Hh0 in H. eexists _, _, _. split; [done|exact H].
  - destruct (post_moved h y t Hi Hpc) as (s' & r & -> & H). eexists _, _, _. split; [done|exact H].
  - destruct (clear_moved h y t Hi Hpc) as (s' & r & -> & H). eexists _, _, _. split; [done|exact H].
  - eexists _, _, _. split; [done|]. apply moved_same; try done. by exists []; apply (ring_flush_spec _ l).
  - destruct (ring_del_spec _ l n pat Hl) as (q' & -> & H1 & H2 & _). eexists _, _, _. split; [done|].
    apply moved_same; try done; [by eexists|congruence|]. intros H. right. split; [|by intros []].
    by rewrite (cnt_length _ _ Hl); rewrite (cnt_length _ _ H1), length_fmap in H.
  - destruct (exec_moved h y t tmo Hi Hpc (Hrun _ eq_refl)) as (s' & r & -> & H). eexists _, _, _. split; [done|exact H].
  - pose proof (He t _ Hpc) as Htmo. eexists _, _, _. split; [done|].
    destruct (bs_resume (js_s y) t) as [r|] eqn:Er; [destruct (Z.eqb_spec r ERROR_NONE) as [->|Hne]|].
    + apply moved_same; try done; [by exists l| |by left]. intros tmo' m' _ Hm' Hin. apply (bs_shape _ _ _ Hm') in Hin. congruence.
    + apply moved_same; try done; [by exists l| |].
      * intros tmo' m' _ Hm' Hin. apply (bs_shape _ _ _ Hm') in Hin. congruence.
      * intros H. right. split; [done|]. cbn. congruence.
    + split; [by exists l|done|done|]. exists m0. split; [done|]. rewrite insert_id by done. by split.
  - pose proof (He t _ Hpc) as Htmo. destruct (take_moved h y t _ (JExec tmo) Hi Hpc ltac:(done) Htmo) as [[Hz H]|(Hnz & q' & m & E & H)].
    + rewrite Hz. eexists _, _, _. split; [done|exact H].
    + rewrite (proj2 (Z.eqb_neq _ _) Hnz), E. eexists _, _, _. split; [done|exact H].
  - eexists _, _, _. split; [done|]. apply moved_same; try done; [by exists l|by left].
  - unfold drain_step. destruct (take_moved h y t _ (JIdle ERROR_NONE) Hi Hpc ltac:(done) I) as [[Hz H]|(Hnz & q' & m & E & H)].
    + rewrite Hz. eexists _, _, _. split; [done|exact H].
    + rewrite (proj2 (Z.eqb_neq _ _) Hnz), E. eexists _, _, _. split; [done|exact H].
Qed.

Lemma jinv_step h y y' : h <> 0 -> jinv h y -> jsys_step y y' -> jinv h y'.
Proof.
  intros Hh Hi Hst. destruct Hst as [t pc Hidle He|t pc s' q' pc' Hpc Hrun E|s' Hel].
  - destruct Hi as [Hr Hs Hx (m & Hm & Hw & Hc)]. split; cbn [js_s js_q js_pc]; [done|done| |].
    + intros u pcu. destruct (decide (u = t)) as [->|Hne]; [rewrite lookup_insert_eq; intros [= <-]; by destruct pc|].
      rewrite lookup_insert_ne by done. apply Hx.
    + exists m. split; [done|]. split.
      * intros u Hu. destruct (Hw u Hu) as [tmo E]. exists tmo. rewrite lookup_insert_ne; [done|]. intros <-.
        destruct Hidle as [Hn|[r Hn]]; by rewrite Hn in E.
      * intros Hne. destruct (Hc Hne) as [?|(u & pcu & Hu & Ha)]; [by left|right]. exists u, pcu. cbn [js_s js_pc].
        rewrite lookup_insert_ne; [done|]. intros <-. destruct Hidle as [Hn|[r Hn]]; rewrite Hn in Hu; [done|]. by injection Hu as <-.
  - destruct (move_spec h y t pc Hi Hh Hpc Hrun) as (s1 & q1 & pc1 & E1 & [Hr Hs Hx Hm]). rewrite E in E1. injection E1 as <- <- <-.
    split; cbn [js_s js_q js_pc]; [done|done| |exact Hm]. intros u pcu.
    destruct (decide (u = t)) as [->|Hne]; [rewrite lookup_insert_eq; by intros [= <-]|].
    rewrite lookup_insert_ne by done. apply (ji_exec _ _ Hi).
  - destruct Hi as [Hr Hs Hx (m & Hm & Hw & Hc)]. split; cbn [js_s js_q js_pc]; [done|done|done|].
    rewrite Hs in Hel. destruct (Hel m Hm) as (m' & Hm' & Hcnt & Hsub & Hres). exists m'. split; [done|]. split; [by intros u Hu%Hsub%Hw|].
    intros Hne. destruct (Hc Hne) as [?|(u & pcu & Hu & Ha)]; [left; lia|right]. exists u, pcu. cbn [js_s js_pc]. split; [done|].
    destruct pcu; try done. by apply (Hres _ _ _ Hu).
Qed.

(** A queue that holds no job and on whose semaphore nobody waits. *)
Definition jstart (h : Z) (y : JSYS) : Prop :=
  h <> 0 /\ ring_rep (js_q y) [] /\ JOBQ_ulSync (js_q y) = h /\ js_pc y = ∅ /\ exists m, bs_is (js_s y) h m /\ s_wait m = [].

Lemma jinv_start h y : jstart h y -> jinv h y.
Proof.
  intros (_ & Hr & Hs & Hp & m & Hm & Hw). split; [by exists []|done|by rewrite Hp|]. exists m. split; [done|].
  rewrite Hw. split; [by intros t Ht%not_elem_of_nil|]. by rewrite (cnt_length _ _ Hr).
Qed.

Lemma jinv_reach h y y' : jstart h y -> rtc jsys_step y y' -> jinv h y'.
Proof.
  intros H0 Hr. assert (Hh : h <> 0) by apply H0. apply jinv_start in H0.
  induction Hr as [y|y y1 y2 Hst _ IH]; [done|]. by apply IH, (jinv_step h y y1).
Qed.

(** C13: Queued jobs are never left behind.  However many contexts (threads and interrupts) add, cancel, flush and run
    jobs of a queue, section by section in any order and with the rest of the kernel in between: no section
    makes an undefined access, and whenever jobs are queued, the semaphore has its unit, so that the next to pend runs
    them, or some context is bound to come to them (an adder about to post, a
    flusher about to empty the queue, an executor that is awake or has been woken). *)
Theorem jobs_not_stranded h y0 y : jstart h y0 -> rtc jsys_step y0 y ->
  (forall t pc, js_pc y !! t = Some pc -> (forall tmo, pc = JExec tmo -> bs_runs (js_s y) t) ->
     is_Some (job_step (js_s y) (js_q y) t pc)) /\
  (JOBQ_uiCnt (js_q y) <> 0 -> (exists m, bs_is (js_s y) h m /\ s_count m = 1) \/ attended y).
Proof.
  intros H0 Hr. pose proof (jinv_reach h y0 y H0 Hr) as Hi. split.
  - intros t pc Hpc Hrun. destruct (move_spec h y t pc Hi (proj1 H0) Hpc Hrun) as (s' & q' & pc' & -> & _). done.
  - intros Hne. destruct (ji_sem _ _ Hi) as (m & Hm & _ & Hc). destruct (Hc Hne) as [?|?]; [left; by exists m|by right].
Qed.
End System.

(** ** The rest of the kernel *)

(** What the services do to other events, and what the tick does, is [elsewhere]: time-outs included. *)
Section Elsewhere.
Context (idle : Z -> Z) (h : Z) (pcs : gmap Z JOB_PC).
Abbreviation elsewhere := (elsewhere (SEMAPHORE_OK0 := kernel_semaphore_ok idle) h pcs).

Lemma service_elsewhere k k' e l f : sem_inv idle k' -> touches k k' e -> e <> _ObjectGetIndex h -> woke k k' l f ->
  (forall t tmo, pcs !! t = Some (JWait tmo) -> t ∉ l) -> elsewhere k k'.
Proof.
  intros Hi' Ht He Hw Hl m [Hi Hc (E & HE & Ety & ->)]. eexists. split; [|split; [reflexivity|split; [by intros t Hin|]]].
  - split; [done|done|]. exists E. rewrite (tc_event _ _ _ Ht), (tc_view _ _ _ Ht) by done. done.
  - intros t tmo r Hpc Hr. change (kernel_resume k' t = Some r). rewrite <-Hr. apply resume_same.
    by rewrite (wo_wait _ _ _ _ Hw), decide_False by (by apply (Hl t tmo)).
Qed.

Lemma tick_elsewhere k k' l : sem_inv idle k -> _ThreadTick k = Some (k', l) ->
  (forall t tmo r, pcs !! t = Some (JWait tmo) -> kernel_resume k t = Some r -> t ∉ WU_line (K_wuDelay k)) -> elsewhere k k'.
Proof.
  intros Hi E Hes m [_ Hc (Ev & HE & Ety & ->)]. pose proof (sv_kern _ _ Hi) as [Hk [q Hq]].
  destruct (tick_safe idle k Hi) as (k1 & l1 & E1 & Hi'). rewrite E in E1. injection E1 as <- <-.
  destruct (thread_tick_spec idle SEMB k q Hk Hq) as (k1 & E1 & _ & _ & T). rewrite E in E1. injection E1 as <- ->.
  eexists. split; [|split; [|split]].
  - split; [done|done|]. exists Ev. rewrite (tk_event _ _ _ T). split; [done|]. split; [done|reflexivity].
  - done.
  - cbn [s_wait]. rewrite (tk_view _ _ _ T). intros t Hin. by apply list_elem_of_filter in Hin as [_ ?].
  - intros t tmo r Hpc Hr. change (kernel_resume k' t = Some r). change (kernel_resume k t = Some r) in Hr. rewrite <-Hr. apply resume_same.
    apply (tk_others _ _ _ T). intros Hin. apply (Hes t tmo r Hpc Hr). destruct Hq as [-> _]. by apply q_expired_in in Hin.
Qed.
End Elsewhere.

(** ** A run on the kernel *)

(** Thread 20 waits for jobs on the binary semaphore of the small system; an interrupt adds one and posts. *)
Definition jcall (t : Z) (pc : JOB_PC) (y : JSYS (S:=KERNEL)) : JSYS := mkJsys (js_s y) (js_q y) (<[t := pc]> (js_pc y)) (js_ran y).
Definition jmove (t : Z) (y : JSYS (S:=KERNEL)) : JSYS :=
  match js_pc y !! t with
  | Some pc =>
    match job_step (js_s y) (js_q y) t pc with
    | Some (s', q', pc') => mkJsys s' q' (<[t := pc']> (js_pc y)) (js_ran y ++ runs_job pc)
    | None => y
    end
  | None => y
  end.

#[local] Existing Instance kernel_semaphore_ok.

Lemma jmove_step idle t pc y : js_pc y !! t = Some pc -> (forall tmo, pc = JExec tmo -> runs idle (js_s y) t) ->
  bool_decide (is_Some (job_step (js_s y) (js_q y) t pc)) = true ->
  jsys_step (SEMAPHORE_OK0 := kernel_semaphore_ok idle) y (jmove t y).
Proof.
  intros Hpc Hrun Hs%bool_decide_eq_true. unfold jmove. rewrite Hpc. destruct Hs as [[[s' q'] pc'] E]. rewrite E.
  by apply (jst_move (SEMAPHORE_OK0 := kernel_semaphore_ok idle) y t pc).
Qed.

Definition demo_jsys : JSYS := mkJsys demo_sys (job_queue_init [demo_job 0; demo_job 0] 2 semb_id) ∅ [].
Definition demo_jwait : JSYS := jmove 20 (jcall 20 (JExec LW_OPTION_WAIT_INFINITE) demo_jsys).
Definition demo_jadded : JSYS := jmove 30 (jcall 30 (JAdd (demo_job 7)) demo_jwait).
Definition demo_jposted : JSYS := jmove 30 demo_jadded.

Lemma demo_jstart : jstart (SEMAPHORE_OK0 := kernel_semaphore_ok id) semb_id demo_jsys.
Proof.
  split; [done|]. split; [apply ring_fresh; [lia|done]|]. do 2 (split; [done|]).
  exists (mkSem 0 1 []). split; [|done]. split; [exact demo_sys_inv|done|].
  assert (Ex : K_event demo_sys !! 1 = Some (mkEvent LW_TYPE_EVENT_SEMB None 0 1 0 LW_OPTION_WAIT_PRIORITY 0 0)) by (by vm_compute).
  assert (Ew : wview demo_sys 1 0 = []) by (by vm_compute). change (_ObjectGetIndex semb_id) with 1.
  eexists. split; [exact Ex|]. split; [done|]. exact (f_equal (mkSem 0 1) (eq_sym Ew)).
Qed.

Lemma demo_jreach : rtc (jsys_step (SEMAPHORE_OK0 := kernel_semaphore_ok id)) demo_jsys demo_jposted.
Proof.
  apply rtc_l with (jcall 20 (JExec LW_OPTION_WAIT_INFINITE) demo_jsys); [apply jst_call; [by left|done]|].
  apply rtc_l with demo_jwait.
  { apply (jmove_step id 20 (JExec LW_OPTION_WAIT_INFINITE)); [done| |by vm_compute]. intros _ _. change (runs id demo_sys 20). split; [by exists 50; vm_compute|].
    intros i Hi. assert (En : LW_NCPUS (K_sched demo_sys) = 2) by (by vm_compute). unfold cpu_id in Hi. unfold id. lia. }
  apply rtc_l with (jcall 30 (JAdd (demo_job 7)) demo_jwait); [apply jst_call; [left; by vm_compute|done]|].
  apply rtc_l with demo_jadded; [apply (jmove_step id 30 (JAdd (demo_job 7))); [by vm_compute|done|by vm_compute]|].
  apply rtc_once, (jmove_step id 30 JPost); [by vm_compute|done|by vm_compute].
Qed.

Lemma jobs_not_stranded_witness :
  (jstart (SEMAPHORE_OK0 := kernel_semaphore_ok id) semb_id demo_jsys /\ JOBQ_uiCnt (js_q demo_jposted) = 1 /\
   js_pc demo_jposted !! 20 = Some (JWait LW_OPTION_WAIT_INFINITE)) /\
  ((exists m, kernel_is id (js_s demo_jposted) semb_id m /\ s_count m = 1) \/ attended demo_jposted).
Proof.
  split; [split; [exact demo_jstart|split; by vm_compute]|].
  apply (jobs_not_stranded (SEMAPHORE_OK0 := kernel_semaphore_ok id) semb_id demo_jsys demo_jposted demo_jstart demo_jreach).
  by vm_compute.
Defined.
