(* ===== verification/WorkQueue.v ===== *)
(** * Work queues: kernel/interface/WorkQueue.c

    A work queue hands jobs to a thread of its own: a plain one is a job queue, a delayed one keeps
    its jobs on a wake-up line, which the thread scans once in a while and whenever a job is
    inserted.  A mutex protects the delayed queue; it is released while a job runs, so
    that the rounds of a scan interleave with the other operations. *)

From S2P Require Import Prelude Lists Object Wakeup Kernel Event Semaphore JobQueue JobSpec.

Definition ENOMEM : Z := 12.
Definition ENXIO : Z := 6.

(** ** Delayed queues *)

(** [DWQ_wun] and [DWQ_job] are the nodes: their wake-up nodes, and the function and arguments they carry;
    [DWQ_pmonoPool] the free ones.  [DWQ_ulScanPeriod] is how long the thread sleeps at most. *)
Record LW_WORK_DQUEUE := mkDq {
  DWQ_wakeup : LW_CLASS_WAKEUP;
  DWQ_wun : nodes;
  DWQ_job : gmap Z LW_JOB_MSG;
  DWQ_pmonoPool : list Z;
  DWQ_uiCount : Z;
  DWQ_u64Time : Z;
  DWQ_ulScanPeriod : Z
}.

Definition dq_set (w : LW_CLASS_WAKEUP) (m : nodes) (j : gmap Z LW_JOB_MSG) (pool : list Z) (n : Z) (d : LW_WORK_DQUEUE) : LW_WORK_DQUEUE :=
  mkDq w m j pool n (DWQ_u64Time d) (DWQ_ulScanPeriod d).
Definition dq_op (o : option Z) (d : LW_WORK_DQUEUE) : LW_WORK_DQUEUE :=
  dq_set (set_op o (DWQ_wakeup d)) (DWQ_wun d) (DWQ_job d) (DWQ_pmonoPool d) (DWQ_uiCount d) d.
Definition dq_time (t : Z) (d : LW_WORK_DQUEUE) : LW_WORK_DQUEUE :=
  mkDq (DWQ_wakeup d) (DWQ_wun d) (DWQ_job d) (DWQ_pmonoPool d) (DWQ_uiCount d) t (DWQ_ulScanPeriod d).

(** The loop that frees the nodes of the array; [m] and [j]: what their memory holds. *)
Fixpoint free_nodes (l pool : list Z) : list Z := match l with [] => pool | x :: l => free_nodes l (x :: pool) end.

(** The queue is zeroed memory; [ns] are the nodes of [DWQ_pwdnPool]. *)
Definition __wqDCreate (ns : list Z) (m : nodes) (j : gmap Z LW_JOB_MSG) (ulScanPeriod now : Z) : LW_WORK_DQUEUE :=
  mkDq (mkWu [] None 0 false) m j (free_nodes ns []) 0 now ulScanPeriod.

(** [__wqDInsert] under the lock. *)
Definition __wqDInsert (d : LW_WORK_DQUEUE) (ulDelay : Z) (job : LW_JOB_MSG) : option (LW_WORK_DQUEUE * Z) :=
  match DWQ_pmonoPool d with
  | [] => Some (d, ENOSPC)
  | pwdn :: pool =>
    '(w, m, _) ← _WakeupAdd (DWQ_wakeup d) (set_counter pwdn ulDelay (DWQ_wun d)) pwdn false 0;
    Some (dq_set w m (<[pwdn := job]> (DWQ_job d)) pool (wrap 32 (DWQ_uiCount d + 1)) d, ERROR_NONE)
  end.

(** The line is unlinked node by node, past [_WakeupDel]: the pointer of a running scan stays. *)
Definition __wqDFlush (d : LW_WORK_DQUEUE) : LW_WORK_DQUEUE :=
  dq_set (set_line [] (DWQ_wakeup d)) (DWQ_wun d) (DWQ_job d) (free_nodes (WU_line (DWQ_wakeup d)) (DWQ_pmonoPool d)) 0 d.

Definition __wqDStatus (d : LW_WORK_DQUEUE) : Z := DWQ_uiCount d.

(** The start of a scan: the time since the last one, [ulCounter], and the first node. *)
Definition dq_scan (d : LW_WORK_DQUEUE) (u64Now : Z) : LW_WORK_DQUEUE * Z :=
  (dq_op (head (WU_line (DWQ_wakeup d))) (dq_time u64Now d), wrap 64 (u64Now - DWQ_u64Time d)).

(** One round, from the lock to the unlock before the job runs: [None] inside when the scan is over, else what is
    left of [ulCounter] and the job.  A node that is not in the line any more (it was flushed) has stale
    pointers; taking it out is an undefined access. *)
Definition dq_round (d : LW_WORK_DQUEUE) (ulCounter : Z) : option (LW_WORK_DQUEUE * option (Z * LW_JOB_MSG)) :=
  match WU_plineOp (DWQ_wakeup d) with
  | None => Some (d, None)
  | Some pwun =>
    n ← DWQ_wun d !! pwun;
    let w := set_op (next_of pwun (WU_line (DWQ_wakeup d))) (DWQ_wakeup d) in
    if WUN_ulCounter n >? ulCounter
    then Some (dq_set w (set_counter pwun (WUN_ulCounter n - ulCounter) (DWQ_wun d)) (DWQ_job d) (DWQ_pmonoPool d) (DWQ_uiCount d) d, None)
    else if bool_decide (pwun ∈ WU_line w) then
      '(w, m) ← _WakeupDel w (set_counter pwun 0 (DWQ_wun d)) pwun false 0;
      job ← DWQ_job d !! pwun;
      Some (dq_set w m (DWQ_job d) (pwun :: DWQ_pmonoPool d) (wrap 32 (DWQ_uiCount d - 1)) d, Some (ulCounter - WUN_ulCounter n, job))
    else None
  end.


(** ** Both kinds *)

Inductive WORK_KIND := LW_WQ_TYPE_S (SWQ_pjobQ : LW_JOB_QUEUE) | LW_WQ_TYPE_D (d : LW_WORK_DQUEUE).
Record LW_WORK_QUEUE := mkWq { WQ_q : WORK_KIND; WQ_ulTask : Z; WQ_bDelReq : bool }.

Definition wq_set (q : WORK_KIND) (pwq : LW_WORK_QUEUE) : LW_WORK_QUEUE := mkWq q (WQ_ulTask pwq) (WQ_bDelReq pwq).

(** [mem]: there is memory for the control block; [created]: what [__wqSCreate] or [__wqDCreate] has made; [ulTask]: the
    answer of [API_ThreadCreate].  NULL is [None]; what was made is taken back then. *)
Definition API_WorkQueueCreate (uiQSize : Z) (bDelayEn : bool) (ulScanPeriod : Z) (mem : bool) (created : option WORK_KIND) (ulTask : Z)
    : option LW_WORK_QUEUE :=
  if (uiQSize =? 0) || (bDelayEn && (ulScanPeriod =? 0)) then None
  else if negb mem then None
  else
    q ← created;
    if ulTask =? Object.LW_OBJECT_HANDLE_INVALID then None else Some (mkWq q ulTask false).

Section Api.
Context {S : Type} `{!SEMAPHORE S}.

(** [NULL] is [None]; the job's arguments are [pvArg0] to [pvArg5]. *)
Definition API_WorkQueueInsert (s : S) (pvWQ : option LW_WORK_QUEUE) (ulDelay : Z) (job : LW_JOB_MSG)
    : option (S * option LW_WORK_QUEUE * Z) :=
  match pvWQ with
  | None => Some (s, None, EINVAL)
  | Some pwq =>
    match WQ_q pwq with
    | LW_WQ_TYPE_S q => '(s, q, r) ← _jobQueueAdd s q job; Some (s, Some (wq_set (LW_WQ_TYPE_S q) pwq), r)
    | LW_WQ_TYPE_D d => '(d, r) ← __wqDInsert d ulDelay job; Some (s, Some (wq_set (LW_WQ_TYPE_D d) pwq), r)
    end
  end.

Definition API_WorkQueueFlush (s : S) (pvWQ : option LW_WORK_QUEUE) : option (S * option LW_WORK_QUEUE * Z) :=
  match pvWQ with
  | None => Some (s, None, EINVAL)
  | Some pwq =>
    match WQ_q pwq with
    | LW_WQ_TYPE_S q => '(s, q) ← _jobQueueFlush s q; Some (s, Some (wq_set (LW_WQ_TYPE_S q) pwq), ERROR_NONE)
    | LW_WQ_TYPE_D d => Some (s, Some (wq_set (LW_WQ_TYPE_D (__wqDFlush d)) pwq), ERROR_NONE)
    end
  end.

(** [want]: [puiCount] is not NULL.  Result: also [*puiCount]. *)
Definition API_WorkQueueStatus (pvWQ : option LW_WORK_QUEUE) (want : bool) : Z * option Z :=
  match pvWQ with
  | Some pwq =>
    if want then
      (ERROR_NONE, Some match WQ_q pwq with LW_WQ_TYPE_S q => JOBQ_uiCnt q | LW_WQ_TYPE_D d => __wqDStatus d end)
    else (EINVAL, None)
  | None => (EINVAL, None)
  end.

(** The first part of a deletion, until it waits for the thread: a flush and a job that does nothing, so
    that the thread wakes up and sees the request. *)
Definition API_WorkQueueDelete_request (s : S) (pvWQ : option LW_WORK_QUEUE) : option (S * option LW_WORK_QUEUE * Z) :=
  match pvWQ with
  | None => Some (s, None, EINVAL)
  | Some pwq =>
    if WQ_bDelReq pwq then Some (s, Some pwq, EINVAL)
    else
      let pwq := Some (mkWq (WQ_q pwq) (WQ_ulTask pwq) true) in
      '(s, pwq, _) ← API_WorkQueueFlush s pwq;
      '(s, pwq, _) ← API_WorkQueueInsert s pwq 0 (mkJob LW_NULL [0; 0; 0; 0; 0; 0]);
      Some (s, pwq, ERROR_NONE)
  end.
End Api.

(** ** Consistent queues *)

(** The jobs on the line, soonest first. *)
Definition queued (d : LW_WORK_DQUEUE) : list LW_JOB_MSG := omap (fun x => DWQ_job d !! x) (WU_line (DWQ_wakeup d)).

(** [q]: the nodes on the line with the times they still have to wait; [ns]: all nodes; [busy]: a scan is under way. *)
Record dq_rep (ns : list Z) (busy : bool) (d : LW_WORK_DQUEUE) (q : queue) : Prop := {
  dr_line : line_queue (WU_line (DWQ_wakeup d)) (DWQ_wun d) q;
  dr_func : WU_pfuncWakeup (DWQ_wakeup d) = false;
  dr_nodes : NoDup ns /\ DWQ_pmonoPool d ++ WU_line (DWQ_wakeup d) ≡ₚ ns /\ Z.of_nat (length ns) < 2 ^ 32;
  dr_mem : forall x, x ∈ ns -> is_Some (DWQ_wun d !! x);
  dr_job : forall x, x ∈ WU_line (DWQ_wakeup d) -> is_Some (DWQ_job d !! x);
  dr_count : DWQ_uiCount d = Z.of_nat (length q);
  dr_op : busy = true -> forall x, WU_plineOp (DWQ_wakeup d) = Some x -> x ∈ WU_line (DWQ_wakeup d)
}.

Lemma free_nodes_perm l pool : free_nodes l pool ≡ₚ l ++ pool.
Proof. revert pool. induction l as [|x l IH]; intros pool; [done|]. cbn. rewrite IH. symmetry. apply Permutation_middle. Qed.

Lemma rep_length ns b d q : dq_rep ns b d q -> (length (DWQ_pmonoPool d) + length q = length ns)%nat.
Proof. intros H. destruct (dr_nodes _ _ _ _ H) as (_ & Hp & _). rewrite <-Hp, length_app, (proj1 (dr_line _ _ _ _ H)), length_fmap. lia. Qed.

Lemma create_rep ns m j per now : NoDup ns -> Z.of_nat (length ns) < 2 ^ 32 -> (forall x, x ∈ ns -> is_Some (m !! x)) ->
  dq_rep ns false (__wqDCreate ns m j per now) [].
Proof.
  intros Hnd Hl Hm. split; cbn; try done.
  - apply empty_queue.
  - split; [done|]. split; [|done]. by rewrite app_nil_r, free_nodes_perm, app_nil_r.
  - intros x Hx. by apply not_elem_of_nil in Hx.
Qed.

Lemma queued_frame d (x : Z) j (l : list Z) : x ∉ l -> omap (fun y => <[x := j]> (DWQ_job d) !! y) l = omap (fun y => DWQ_job d !! y) l.
Proof.
  induction l as [|y l IH]; [done|]. intros [Hxy Hx]%not_elem_of_cons. cbn. rewrite lookup_insert_ne by done. by rewrite IH.
Qed.

Lemma q_insert_length x c q : length (q_insert x c q) = S (length q).
Proof. induction q as [|[y e] q IH]; [done|]. cbn. destruct (e <=? c); cbn; [by rewrite IH|done]. Qed.

Lemma insert_rep ns b d q c job : dq_rep ns b d q -> 0 <= c <= ULONG_MAX ->
  match DWQ_pmonoPool d with
  | [] => length q = length ns /\ __wqDInsert d c job = Some (d, ENOSPC)
  | x :: _ => (x ∉ q.*1) /\ (length q < length ns)%nat /\
      exists d', __wqDInsert d c job = Some (d', ERROR_NONE) /\ dq_rep ns b d' (q_insert x c q) /\
        DWQ_job d' = <[x := job]> (DWQ_job d) /\ DWQ_u64Time d' = DWQ_u64Time d
  end.
Proof.
  intros H Hc. pose proof (rep_length _ _ _ _ H) as Hlen. pose proof H as [Hq Hf (Hnd & Hp & Hl) Hm Hj Hn Ho]. pose proof Hq as (El & _).
  unfold __wqDInsert. destruct (DWQ_pmonoPool d) as [|x pool] eqn:Epool; [cbn in Hlen; by split; [lia|]|].
  assert (Hx : x ∉ WU_line (DWQ_wakeup d)).
  { rewrite <-Hp in Hnd. apply NoDup_app in Hnd as (_ & Hd & _). apply Hd. left. }
  assert (Hxn : x ∈ ns) by (rewrite <-Hp; left). destruct (Hm x Hxn) as [n0 Hn0].
  split; [by rewrite <-El|]. split; [cbn in Hlen; lia|].
  assert (Hq1 : line_queue (WU_line (DWQ_wakeup d)) (set_counter x c (DWQ_wun d)) q).
  { destruct Hq as (E1 & E2 & E3 & E4). split; [done|]. split; [done|]. split; [|done]. eapply deltas_ext; [|exact E3].
    intros y Hy. rewrite lookup_counter, decide_False; [done|]. intros ->. by rewrite El in Hx. }
  assert (Hx1 : set_counter x c (DWQ_wun d) !! x = Some (mkWun (WUN_bInQ n0) c)) by (by rewrite lookup_counter, decide_True, Hn0).
  destruct (Wakeup.add_spec (DWQ_wakeup d) _ q x _ false 0 Hq1 eq_refl Hx Hx1 Hc) as (m' & E & Hq' & Hfr).
  cbn [WUN_ulCounter] in *. rewrite E. cbn [mbind option_bind]. eexists. split; [done|]. split; [|done].
  assert (Hperm : (q_insert x c q).*1 ≡ₚ x :: WU_line (DWQ_wakeup d)) by (by rewrite q_insert_fst, El).
  split; cbn [dq_set set_line DWQ_wakeup DWQ_wun DWQ_job DWQ_pmonoPool DWQ_uiCount WU_line WU_plineOp WU_pfuncWakeup].
  - done.
  - done.
  - split; [done|]. split; [|done]. rewrite Hperm, <-Hp. cbn. by rewrite <-Permutation_middle.
  - intros y Hy. apply (add_dom _ _ _ _ _ _ _ _ E), same_dom_counter. by apply Hm.
  - intros y. rewrite Hperm. intros [->|Hy]%elem_of_cons; [by rewrite lookup_insert_eq; eexists|].
    rewrite lookup_insert_ne by (intros ->; done). by apply Hj.
  - cbn in Hlen. rewrite Hn, q_insert_length, wrap_small; lia.
  - intros Hb y Hy. rewrite Hperm. right. by apply Ho.
Qed.

Lemma flush_rep ns d q : dq_rep ns false d q -> dq_rep ns false (__wqDFlush d) [].
Proof.
  intros [Hq Hf (Hnd & Hp & Hl) Hm Hj Hn Ho]. split; cbn; try done.
  - apply empty_queue.
  - split; [done|]. split; [|done]. rewrite app_nil_r, free_nodes_perm, <-Hp. apply Permutation_app_comm.
  - intros x Hx. by apply not_elem_of_nil in Hx.
Qed.

(** ** A round of a scan, whatever happened since the last one *)

(** A counter on the line gets smaller. *)
Lemma deltas_dec base q m x n c : deltas base q m -> NoDup q.*1 -> x ∈ q.*1 -> m !! x = Some n -> 0 <= c <= WUN_ulCounter n ->
  exists q', q'.*1 = q.*1 /\ deltas base q' (set_counter x (WUN_ulCounter n - c) m) /\
    (forall y e, (y, e) ∈ q' -> exists e', (y, e') ∈ q /\ e <= e').
Proof.
  revert base. induction q as [|[y e] q IH]; intros base; [by intros _ _ ?%not_elem_of_nil|].
  cbn [fmap list_fmap fst]. intros (Hb & Hy & Hd) [Hyq Hnd]%NoDup_cons Hx Hn Hc. destruct (decide (x = y)) as [->|Hne].
  - rewrite Hy in Hn. injection Hn as <-. cbn [WUN_ulCounter] in *. exists ((y, e - c) :: q_shift c q). split; [|split].
    + cbn. f_equal. apply q_shift_fst.
    + cbn. split; [lia|]. split; [rewrite lookup_counter, decide_True, Hy by done; cbn; do 2 f_equal; lia|].
      apply deltas_shift. eapply deltas_ext; [|exact Hd]. intros z Hz. rewrite lookup_counter, decide_False; [done|]. by intros ->.
    + intros z f [[= -> ->]|Hz]%elem_of_cons; [exists e; split; [left|lia]|].
      apply list_elem_of_fmap in Hz as ([z' f'] & [= -> ->] & Hz). exists f'. split; [by right|cbn; lia].
  - apply elem_of_cons in Hx as [?|Hx]; [done|]. destruct (IH e Hd Hnd Hx Hn Hc) as (q' & E & Hd' & Hle).
    exists ((y, e) :: q'). split; [cbn; by rewrite E|]. split.
    + cbn. split; [done|]. split; [|exact Hd']. rewrite lookup_counter, decide_False; [done|]. by intros ->.
    + intros z f [[= -> ->]|Hz]%elem_of_cons; [exists e; split; [left|done]|]. destruct (Hle z f Hz) as (f' & Hf & Hl).
      exists f'. split; [by right|done].
Qed.

Lemma line_dec l m q x n c : line_queue l m q -> x ∈ l -> m !! x = Some n -> 0 <= c <= WUN_ulCounter n ->
  exists q', q'.*1 = q.*1 /\ line_queue l (set_counter x (WUN_ulCounter n - c) m) q'.
Proof.
  intros (-> & Hnd & Hd & Hb) Hx Hn Hc. destruct (deltas_dec 0 q m x n c Hd Hnd Hx Hn Hc) as (q' & E & Hd' & Hle).
  exists q'. split; [done|]. split; [done|]. split; [done|]. split; [done|].
  intros y e Hy. destruct (Hle y e Hy) as (e' & He & Hl). specialize (Hb y e' He). lia.
Qed.

Lemma deltas_counter base q m x n : deltas base q m -> x ∈ q.*1 -> m !! x = Some n -> 0 <= WUN_ulCounter n.
Proof.
  revert base. induction q as [|[y e] q IH]; intros base; [by intros _ ?%not_elem_of_nil|].
  cbn [fmap list_fmap fst]. intros (Hb & Hy & Hd) [->|Hx]%elem_of_cons Hn; [|by apply (IH e)]. rewrite Hy in Hn. injection Hn as <-. cbn. lia.
Qed.

Lemma next_of_in x l y : next_of x l = Some y -> y ∈ l.
Proof.
  induction l as [|z l IH]; [done|]. cbn. destruct (z =? x); [|by intros H%IH; right].
  destruct l as [|u l]; [done|]. intros [= ->]. right. left.
Qed.

Lemma next_of_ne x l y : NoDup l -> next_of x l = Some y -> y <> x.
Proof.
  induction l as [|z l IH]; [done|]. intros [Hz Hnd]%NoDup_cons. cbn. destruct (Z.eqb_spec z x) as [->|_]; [|by apply IH].
  destruct l as [|u l]; [done|]. intros [= ->] ->. apply Hz. left.
Qed.

Lemma omap_remove_node (f : Z -> option LW_JOB_MSG) (x : Z) (l : list Z) j : x ∈ l -> f x = Some j -> omap f l ≡ₚ j :: omap f (remove_node x l).
Proof.
  induction l as [|y l IH]; [by intros ?%not_elem_of_nil|]. intros Hx Hj. cbn. destruct (Z.eqb_spec y x) as [->|Hne]; [by rewrite Hj|].
  apply elem_of_cons in Hx as [?|Hx]; [done|]. cbn. destruct (f y); [rewrite (IH Hx Hj); apply Permutation_swap|exact (IH Hx Hj)].
Qed.

(** A round either ends the scan or takes one job out of the queue. *)
Lemma round_rep ns d q c : dq_rep ns true d q -> 0 <= c ->
  (exists d' q', dq_round d c = Some (d', None) /\ dq_rep ns true d' q' /\ queued d' = queued d) \/
  (exists d' q' c' j, dq_round d c = Some (d', Some (c', j)) /\ dq_rep ns true d' q' /\ 0 <= c' <= c /\ queued d ≡ₚ j :: queued d').
Proof.
  intros H Hc. pose proof H as [Hq Hf (Hnd & Hp & Hl) Hm Hj Hn Ho]. specialize (Ho eq_refl). unfold dq_round.
  destruct (WU_plineOp (DWQ_wakeup d)) as [x|] eqn:Eop; [|left; exists d, q; by split; [|split]].
  specialize (Ho x eq_refl). assert (Hxn : x ∈ ns) by (rewrite <-Hp; apply elem_of_app; by right).
  destruct (Hm x Hxn) as [n En]. rewrite En. cbn [mbind option_bind].
  pose proof Hq as (El & Hndl & Hd & _). pose proof Ho as Hxq. rewrite El in Hxq.
  pose proof (deltas_counter 0 q _ x n Hd Hxq En) as Hn0. set (w := set_op _ _).
  assert (Hop : forall y, next_of x (WU_line (DWQ_wakeup d)) = Some y -> y ∈ WU_line (DWQ_wakeup d)) by (intros y; apply next_of_in).
  destruct (Z.gtb_spec (WUN_ulCounter n) c) as [Hgt|Hle].
  - left. destruct (line_dec _ _ q x n c Hq Ho En ltac:(lia)) as (q' & Eq & Hq'). eexists _, q'. split; [done|]. split; [|done].
    split; cbn [dq_set DWQ_wakeup DWQ_wun DWQ_job DWQ_pmonoPool DWQ_uiCount w set_op WU_line WU_plineOp WU_pfuncWakeup]; try done.
    + intros y Hy. apply same_dom_counter. by apply Hm.
    + by rewrite <-(length_fmap fst q'), Eq, length_fmap.
  - right. rewrite bool_decide_eq_true_2 by done. destruct (line_dec _ _ q x n (WUN_ulCounter n) Hq Ho En ltac:(lia)) as (q1 & Eq & Hq1).
    rewrite Z.sub_diag in Hq1. change (WU_line (DWQ_wakeup d)) with (WU_line w) in Hq1, Ho.
    destruct (Wakeup.del_spec w _ q1 x false 0 Hq1 eq_refl Ho) as (m2 & E2 & Hq2 & _ & _). rewrite E2. cbn [mbind option_bind].
    rewrite bool_decide_eq_false_2 by (cbn [w set_op WU_plineOp]; intros E; by apply next_of_ne in E).
    destruct (Hj x Ho) as [j Ej]. rewrite Ej. cbn [mbind option_bind].
    assert (Hrem : (q_remove x q1).*1 = remove_node x (WU_line (DWQ_wakeup d))) by (rewrite q_remove_fst by (by rewrite Eq, <-El); by rewrite Eq, <-El).
    assert (Hperm : x :: remove_node x (WU_line (DWQ_wakeup d)) ≡ₚ WU_line (DWQ_wakeup d)) by (symmetry; by apply remove_node_perm).
    assert (Hlq : length q = S (length (q_remove x q1))).
    { rewrite <-(length_fmap fst q), <-(length_fmap fst (q_remove x q1)), Hrem, <-El. symmetry. apply (Permutation_length Hperm). }
    eexists _, (q_remove x q1), _, j. split; [done|]. split; [|split; [lia|]].
    + split; cbn [dq_set set_line DWQ_wakeup DWQ_wun DWQ_job DWQ_pmonoPool DWQ_uiCount w set_op WU_line WU_plineOp WU_pfuncWakeup].
      * exact Hq2.
      * done.
      * split; [done|]. split; [|done]. rewrite Hrem, <-Hp. cbn. rewrite Permutation_middle. f_equiv. exact Hperm.
      * intros y Hy. apply (del_dom _ _ _ _ _ _ _ E2), same_dom_counter. by apply Hm.
      * intros y. rewrite Hrem. intros Hy. apply Hj. rewrite <-Hperm. by right.
      * rewrite Hn, wrap_small; rewrite Hlq; [lia|]. pose proof (rep_length _ _ _ _ H). lia.
      * intros _ y Hy. rewrite Hrem. apply elem_of_remove_node; [done|]. split; [by apply Hop|by apply next_of_ne in Hy].
    + unfold queued. cbn [dq_set set_line DWQ_wakeup DWQ_job WU_line]. rewrite Hrem. by apply omap_remove_node.
Qed.

Lemma scan_rep ns b d q now : dq_rep ns b d q -> dq_rep ns true (dq_scan d now).1 q /\ 0 <= (dq_scan d now).2 /\ queued (dq_scan d now).1 = queued d.
Proof.
  intros [Hq Hf Hns Hm Hj Hn Ho]. split; [|split; [apply wrap_range; lia|done]]. split; cbn; try done.
  intros _ x Hx. destruct (WU_line (DWQ_wakeup d)) as [|y l]; [done|]. injection Hx as ->. left.
Qed.

Lemma insert_queued ns b d q c job x pool d' : dq_rep ns b d q -> DWQ_pmonoPool d = x :: pool -> dq_rep ns b d' (q_insert x c q) ->
  DWQ_job d' = <[x := job]> (DWQ_job d) -> queued d' ≡ₚ job :: queued d.
Proof.
  intros H Ep H' Ej. unfold queued. rewrite Ej, (proj1 (dr_line _ _ _ _ H)), (proj1 (dr_line _ _ _ _ H')), q_insert_fst.
  cbn. rewrite lookup_insert_eq. f_equiv. rewrite queued_frame; [done|].
  destruct (dr_nodes _ _ _ _ H) as (Hnd & Hp & _). rewrite Ep, <-Hp in Hnd || rewrite <-Hp, Ep in Hnd. apply NoDup_app in Hnd as (_ & Hd & _).
  rewrite <-(proj1 (dr_line _ _ _ _ H)). apply Hd. left.
Qed.

(** ** Operations in any order *)

(** [DRound] is the next round of the scan that is under way; a job runs between two rounds. *)
Inductive DQ_OP := DInsert (ulDelay : Z) (job : LW_JOB_MSG) | DFlush | DScan (u64Now : Z) | DRound.

(** The queue, what is left of the time of the scan, and the jobs accepted, taken to be run, and flushed. *)
Record DQS := mkDqs { ds_q : LW_WORK_DQUEUE; ds_left : option Z; ds_in : list LW_JOB_MSG; ds_out : list LW_JOB_MSG; ds_flushed : list LW_JOB_MSG }.

Definition dqs_exec (s : DQS) (o : DQ_OP) : option DQS :=
  match o with
  | DInsert c j =>
    '(d, r) ← __wqDInsert (ds_q s) c j;
    Some (mkDqs d (ds_left s) (if r =? ERROR_NONE then ds_in s ++ [j] else ds_in s) (ds_out s) (ds_flushed s))
  | DFlush => Some (mkDqs (__wqDFlush (ds_q s)) (ds_left s) (ds_in s) (ds_out s) (ds_flushed s ++ queued (ds_q s)))
  | DScan now =>
    match ds_left s with
    | Some _ => Some s
    | None => let '(d, c) := dq_scan (ds_q s) now in Some (mkDqs d (Some c) (ds_in s) (ds_out s) (ds_flushed s))
    end
  | DRound =>
    match ds_left s with
    | None => Some s
    | Some c =>
      '(d, r) ← dq_round (ds_q s) c;
      Some match r with
           | None => mkDqs d None (ds_in s) (ds_out s) (ds_flushed s)
           | Some (c, j) => mkDqs d (Some c) (ds_in s) (ds_out s ++ [j]) (ds_flushed s)
           end
    end
  end.

Fixpoint dqs_run (s : DQS) (os : list DQ_OP) : option DQS :=
  match os with [] => Some s | o :: os => s ← dqs_exec s o; dqs_run s os end.

(** Delays are ULONGs; a flush does not meet a scan that is under way. *)
Fixpoint dqs_legal (s : DQS) (os : list DQ_OP) : Prop :=
  match os with
  | [] => True
  | o :: os =>
    match o with DInsert c _ => 0 <= c <= ULONG_MAX | DFlush => ds_left s = None | _ => True end /\
    match dqs_exec s o with Some s => dqs_legal s os | None => True end
  end.

Record dqs_ok (ns : list Z) (s : DQS) : Prop := {
  do_rep : exists q, dq_rep ns (bool_decide (is_Some (ds_left s))) (ds_q s) q;
  do_left : forall c, ds_left s = Some c -> 0 <= c;
  do_jobs : ds_in s ≡ₚ ds_out s ++ ds_flushed s ++ queued (ds_q s)
}.

Lemma dqs_step ns s o : dqs_ok ns s ->
  match o with DInsert c _ => 0 <= c <= ULONG_MAX | DFlush => ds_left s = None | _ => True end ->
  exists s', dqs_exec s o = Some s' /\ dqs_ok ns s'.
Proof.
  intros [[q H] Hl Hj] Hok. destruct o as [c j| |now|]; cbn [dqs_exec].
  - pose proof (insert_rep ns _ _ q c j H Hok) as Hi. destruct (DWQ_pmonoPool (ds_q s)) as [|x pool] eqn:Ep.
    + destruct Hi as [_ ->]. cbn. eexists. split; [done|]. split; [by exists q|done|done].
    + destruct Hi as (_ & _ & d' & -> & H' & Ej & _). cbn. eexists. split; [done|]. split; [by eexists|done|].
      pose proof (insert_queued ns _ _ q c j x pool d' H Ep H' Ej) as Hp. cbn [ds_in ds_out ds_flushed ds_q]. change (ERROR_NONE =? ERROR_NONE) with true. cbv iota.
      etransitivity; [apply Permutation_app_tail, Hj|]. rewrite Hp, <-!app_assoc. do 2 f_equiv. symmetry. apply Permutation_cons_append.
  - rewrite Hok in H. eexists. split; [done|]. split; [exists []; cbn; rewrite Hok; by apply (flush_rep ns _ q)|done|].
    cbn [ds_in ds_out ds_flushed ds_q]. change (queued (__wqDFlush (ds_q s))) with (@nil LW_JOB_MSG). by rewrite app_nil_r.
  - destruct (ds_left s) as [c|] eqn:El.
    + eexists. split; [done|]. split; [exists q; by rewrite El|by rewrite El|done].
    + destruct (scan_rep ns _ _ q now H) as (H1 & H2 & H3). destruct (dq_scan (ds_q s) now) as [d c]. cbn [fst snd] in *.
      eexists. split; [done|]. split; [by exists q|by intros ? [= <-]|]. cbn. by rewrite H3.
  - destruct (ds_left s) as [c|] eqn:El; [|eexists; split; [done|]; split; [exists q; by rewrite El|by rewrite El|done]].
    destruct (round_rep ns _ q c H (Hl c eq_refl)) as [(d' & q' & -> & H1 & H2)|(d' & q' & c' & j & -> & H1 & H2 & H3)];
      cbn [mbind option_bind]; eexists; (split; [done|]).
    + split; cbn [ds_q ds_left ds_in ds_out ds_flushed]; [|done|by rewrite H2]. exists q'. destruct H1; by split.
    + split; cbn [ds_q ds_left ds_in ds_out ds_flushed]; [by exists q'|intros ? [= <-]; lia|].
      rewrite Hj, H3, <-app_assoc. f_equiv. cbn. by rewrite Permutation_middle.
Qed.

(** C28: A delayed work queue loses and duplicates no job.  From an empty queue, in any order of insertions, scans,
    single rounds of a scan with anything between them, and flushes between scans: nothing is an undefined
    access; every node is free or carries one queued job; the counter is the number of queued jobs; and every
    accepted job has been taken to be run once, was flushed, or is still queued. *)
Theorem work_jobs_safe ns m j per now os : NoDup ns -> Z.of_nat (length ns) < 2 ^ 32 -> (forall x, x ∈ ns -> is_Some (m !! x)) ->
  let s0 := mkDqs (__wqDCreate ns m j per now) None [] [] [] in dqs_legal s0 os ->
  exists s, dqs_run s0 os = Some s /\ DWQ_pmonoPool (ds_q s) ++ WU_line (DWQ_wakeup (ds_q s)) ≡ₚ ns /\
    __wqDStatus (ds_q s) = Z.of_nat (length (queued (ds_q s))) /\ ds_in s ≡ₚ ds_out s ++ ds_flushed s ++ queued (ds_q s).
Proof.
  intros Hnd Hl Hm s0 Hleg. assert (H0 : dqs_ok ns s0) by (split; [by exists []; apply create_rep|done|done]).
  revert Hleg H0. generalize s0. clear s0. induction os as [|o os IH]; intros s Hleg H0; cbn [dqs_run].
  - exists s. destruct H0 as [[q H] _ Hj]. split; [done|]. split; [apply H|]. split; [|done]. unfold __wqDStatus, queued.
    rewrite (dr_count _ _ _ _ H). pose proof (dr_job _ _ _ _ H) as Hd. pose proof (proj1 (dr_line _ _ _ _ H)) as El.
    rewrite <-(length_fmap fst q), <-El. f_equal. clear -Hd. induction (WU_line (DWQ_wakeup (ds_q s))) as [|x l IH]; [done|].
    cbn. destruct (Hd x ltac:(left)) as [y ->]. cbn. f_equal. apply IH. intros z Hz. apply Hd. by right.
  - destruct Hleg as [Ho Hleg]. destruct (dqs_step ns s o H0 Ho) as (s' & E & H'). rewrite E in Hleg |- *. by apply IH.
Qed.

(** ** Times *)




(** The abstract queue: jobs by the time they still have to wait, seen from the last scan, and the time of that scan. *)
Abbreviation tqueue := (list (LW_JOB_MSG * Z)).












(** ** Examples *)

(** Three nodes; the job with delay 20 that comes at time 5, half way between two scans, is run at 20. *)
Definition demo_wun : nodes := <[1 := mkWun false 0]> (<[2 := mkWun false 0]> (<[3 := mkWun false 0]> ∅)).
Definition demo_dq : LW_WORK_DQUEUE := __wqDCreate [1; 2; 3] demo_wun ∅ 10 0.

Lemma demo_nodes_ok : NoDup [1; 2; 3] /\ forall x, x ∈ [1; 2; 3] -> is_Some (demo_wun !! x).
Proof.
  split; [decide_now|]. intros x Hx. repeat (apply elem_of_cons in Hx as [->|Hx]; [by eexists|]). by apply not_elem_of_nil in Hx.
Qed.



(** A job that comes while another one runs. *)
Definition demo_dops : list DQ_OP := [DInsert 3 (demo_job 1); DInsert 9 (demo_job 2); DScan 10; DRound; DInsert 5 (demo_job 3); DRound; DRound; DFlush].

Lemma work_jobs_safe_witness : dqs_legal (mkDqs demo_dq None [] [] []) demo_dops /\
  exists s, dqs_run (mkDqs demo_dq None [] [] []) demo_dops = Some s /\ DWQ_pmonoPool (ds_q s) ++ WU_line (DWQ_wakeup (ds_q s)) ≡ₚ [1; 2; 3] /\
    __wqDStatus (ds_q s) = Z.of_nat (length (queued (ds_q s))) /\ ds_in s ≡ₚ ds_out s ++ ds_flushed s ++ queued (ds_q s).
Proof.
  assert (H : dqs_legal (mkDqs demo_dq None [] [] []) demo_dops) by (vm_compute; repeat split; intros; discriminate).
  split; [exact H|]. exact (work_jobs_safe [1; 2; 3] demo_wun ∅ 10 0 demo_dops (proj1 demo_nodes_ok) eq_refl (proj2 demo_nodes_ok) H).
Defined.

(** An insertion while a job runs can make a later job run early: the job of time 20 runs in the scan at 10, because
    what is left of the scan's time is taken off a counter that has become relative to the new job. *)
Lemma runs_early : (ds_out <$> dqs_run (mkDqs demo_dq None [] [] [])
    [DInsert 3 (demo_job 1); DInsert 20 (demo_job 2); DScan 10; DRound; DInsert 12 (demo_job 3); DRound]) = Some [demo_job 1; demo_job 2].
Proof. by vm_compute. Qed.

(** A flush while a job runs leaves the scan at a node that is free. *)
Lemma flush_in_scan : dqs_run (mkDqs demo_dq None [] [] [])
    [DInsert 3 (demo_job 1); DInsert 5 (demo_job 2); DScan 10; DRound; DFlush; DRound] = None.
Proof. by vm_compute. Qed.
