(* ===== verification/RbTree.v ===== *)
(** * Red-black trees: kernel/tree/treeRb.c and the inlines of treeOp.h

    The trees at the level of their pointers: a store maps the address of a node to
    its parent, children and colour, and an operation returns [None] where the C dereferences
    NULL or memory that holds no node.  Loops take fuel; the entry points give one more
    than the number of nodes. *)

From S2P Require Import Prelude Lists.

(** ** Data *)

Definition LW_TREE_RB_RED : Z := 0.
Definition LW_TREE_RB_BLACK : Z := 1.

Record LW_TREE_RB_NODE := mkRbn {
  TRBN_ptrbnParent : ptr;
  TRBN_ptrbnLeft : ptr;
  TRBN_ptrbnRight : ptr;
  TRBN_iColor : Z
}.

#[export] Instance LW_TREE_RB_NODE_eq_dec : EqDecision LW_TREE_RB_NODE.
Proof. solve_decision. Defined.

(** The nodes, and the root [TRBR_ptrbnNode] of the tree that is worked on. *)
Record RB := mkRb { RB_node : gmap ptr LW_TREE_RB_NODE; TRBR_ptrbnNode : ptr }.

Definition rb_load (p : ptr) (s : RB) : option LW_TREE_RB_NODE := if p =? NULL then None else RB_node s !! p.
Definition rb_store (p : ptr) (f : LW_TREE_RB_NODE -> LW_TREE_RB_NODE) (s : RB) : option RB :=
  n ← rb_load p s; Some (mkRb (<[p := f n]> (RB_node s)) (TRBR_ptrbnNode s)).

Definition get_parent (p : ptr) (s : RB) : option ptr := TRBN_ptrbnParent <$> rb_load p s.
Definition get_left (p : ptr) (s : RB) : option ptr := TRBN_ptrbnLeft <$> rb_load p s.
Definition get_right (p : ptr) (s : RB) : option ptr := TRBN_ptrbnRight <$> rb_load p s.
Definition get_color (p : ptr) (s : RB) : option Z := TRBN_iColor <$> rb_load p s.

Definition with_parent (v : ptr) (n : LW_TREE_RB_NODE) : LW_TREE_RB_NODE :=
  mkRbn v (TRBN_ptrbnLeft n) (TRBN_ptrbnRight n) (TRBN_iColor n).
Definition with_left (v : ptr) (n : LW_TREE_RB_NODE) : LW_TREE_RB_NODE :=
  mkRbn (TRBN_ptrbnParent n) v (TRBN_ptrbnRight n) (TRBN_iColor n).
Definition with_right (v : ptr) (n : LW_TREE_RB_NODE) : LW_TREE_RB_NODE :=
  mkRbn (TRBN_ptrbnParent n) (TRBN_ptrbnLeft n) v (TRBN_iColor n).
Definition with_color (v : Z) (n : LW_TREE_RB_NODE) : LW_TREE_RB_NODE :=
  mkRbn (TRBN_ptrbnParent n) (TRBN_ptrbnLeft n) (TRBN_ptrbnRight n) v.

Definition set_parent (p v : ptr) : RB -> option RB := rb_store p (with_parent v).
Definition set_left (p v : ptr) : RB -> option RB := rb_store p (with_left v).
Definition set_right (p v : ptr) : RB -> option RB := rb_store p (with_right v).
Definition set_color (p : ptr) (v : Z) : RB -> option RB := rb_store p (with_color v).
Definition set_root (p : ptr) (s : RB) : RB := mkRb (RB_node s) p.

(** [if (p) p->TRBN_ptrbnParent = v] and [if (p) p->TRBN_iColor = v]. *)
Definition set_parent_if (p v : ptr) (s : RB) : option RB := if p =? NULL then Some s else set_parent p v s.
Definition set_color_if (p : ptr) (v : Z) (s : RB) : option RB := if p =? NULL then Some s else set_color p v s.

(** [!p || p->TRBN_iColor == LW_TREE_RB_BLACK] *)
Definition is_black (p : ptr) (s : RB) : option bool :=
  if p =? NULL then Some true else c ← get_color p s; Some (c =? LW_TREE_RB_BLACK).

(** [p && p->TRBN_iColor == LW_TREE_RB_RED] *)
Definition is_red (p : ptr) (s : RB) : option bool :=
  if p =? NULL then Some false else c ← get_color p s; Some (c =? LW_TREE_RB_RED).

(** ** Rotations *)

(** [if (p) { the child link of [p] that holds [old] } else { the root } = v]: the link is the
    right one unless the left one holds [old], or the other way round. *)
Definition replace_child (p old v : ptr) (s : RB) : option RB :=
  if negb (p =? NULL) then
    l ← get_left p s;
    if l =? old then set_left p v s else set_right p v s
  else Some (set_root v s).
Definition replace_child_right (p old v : ptr) (s : RB) : option RB :=
  if negb (p =? NULL) then
    r ← get_right p s;
    if r =? old then set_right p v s else set_left p v s
  else Some (set_root v s).

Definition __tree_rb_rotate_left (ptrbn : ptr) (s : RB) : option RB :=
  ptrbnRight ← get_right ptrbn s;
  l ← get_left ptrbnRight s;
  s ← set_right ptrbn l s;
  s ← set_parent_if l ptrbn s;
  s ← set_left ptrbnRight ptrbn s;
  p ← get_parent ptrbn s;
  s ← set_parent ptrbnRight p s;
  s ← replace_child p ptrbn ptrbnRight s;
  set_parent ptrbn ptrbnRight s.

Definition __tree_rb_rotate_right (ptrbn : ptr) (s : RB) : option RB :=
  ptrbnLeft ← get_left ptrbn s;
  r ← get_right ptrbnLeft s;
  s ← set_left ptrbn r s;
  s ← set_parent_if r ptrbn s;
  s ← set_right ptrbnLeft ptrbn s;
  p ← get_parent ptrbn s;
  s ← set_parent ptrbnLeft p s;
  s ← replace_child_right p ptrbn ptrbnLeft s;
  set_parent ptrbn ptrbnLeft s.

(** ** Insertion *)

(** A link of a tree: the root or a child pointer ([pptrbnLink]). *)
Inductive LINK := LRoot | LLeftOf (p : ptr) | LRightOf (p : ptr).

Definition get_link (k : LINK) (s : RB) : option ptr :=
  match k with LRoot => Some (TRBR_ptrbnNode s) | LLeftOf p => get_left p s | LRightOf p => get_right p s end.
Definition set_link (k : LINK) (v : ptr) (s : RB) : option RB :=
  match k with LRoot => Some (set_root v s) | LLeftOf p => set_left p v s | LRightOf p => set_right p v s end.

Definition _tree_rb_link_node (ptrbn ptrbnParent : ptr) (pptrbnLink : LINK) (s : RB) : option RB :=
  s ← set_parent ptrbn ptrbnParent s;
  s ← set_color ptrbn LW_TREE_RB_RED s;
  s ← set_right ptrbn NULL s;
  s ← set_left ptrbn NULL s;
  set_link pptrbnLink ptrbn s.

(** One side of the loop of [_Tree_Rb_Insert_Color], the parent being the left child of the
    grandparent.  Result: the node the loop goes on with. *)
Definition insert_step (get_other : ptr -> RB -> option ptr) (rotate rotate_back : ptr -> RB -> option RB)
    (ptrbn ptrbnParent ptrbnGparent : ptr) (s : RB) : option (RB * ptr) :=
  ptrbnUncle ← get_other ptrbnGparent s;
  red ← is_red ptrbnUncle s;
  if (red : bool) then
    s ← set_color ptrbnUncle LW_TREE_RB_BLACK s;
    s ← set_color ptrbnParent LW_TREE_RB_BLACK s;
    s ← set_color ptrbnGparent LW_TREE_RB_RED s;
    Some (s, ptrbnGparent)
  else
    inner ← get_other ptrbnParent s;
    '(s, ptrbn, ptrbnParent) ←
      (if inner =? ptrbn then s ← rotate ptrbnParent s; Some (s, ptrbnParent, ptrbn)
       else Some (s, ptrbn, ptrbnParent));
    s ← set_color ptrbnParent LW_TREE_RB_BLACK s;
    s ← set_color ptrbnGparent LW_TREE_RB_RED s;
    s ← rotate_back ptrbnGparent s;
    Some (s, ptrbn).

Fixpoint insert_loop (fuel : nat) (ptrbn : ptr) (s : RB) : option RB :=
  match fuel with
  | O => None
  | S fuel =>
    ptrbnParent ← get_parent ptrbn s;
    red ← is_red ptrbnParent s;
    if (red : bool) then
      ptrbnGparent ← get_parent ptrbnParent s;
      l ← get_left ptrbnGparent s;
      '(s, ptrbn) ←
        (if ptrbnParent =? l
         then insert_step get_right __tree_rb_rotate_left __tree_rb_rotate_right ptrbn ptrbnParent ptrbnGparent s
         else insert_step get_left __tree_rb_rotate_right __tree_rb_rotate_left ptrbn ptrbnParent ptrbnGparent s);
      insert_loop fuel ptrbn s
    else Some s
  end.

Definition rb_fuel (s : RB) : nat := S (size (RB_node s)).

Definition _Tree_Rb_Insert_Color (ptrbn : ptr) (s : RB) : option RB :=
  s ← insert_loop (rb_fuel s) ptrbn s;
  set_color (TRBR_ptrbnNode s) LW_TREE_RB_BLACK s.

(** ** Deletion *)

(** One side of the loop of [__tree_rb_erase_color], the child it looks at being the one
    of [ptrbnParent] that [get_other] does not give.  First the part in which the
    other child is black: true with the node the loop goes on with and its parent, false with
    the node it ends with. *)
Definition erase_black (get_other get_same : ptr -> RB -> option ptr) (rotate rotate_back : ptr -> RB -> option RB)
    (ptrbnParent ptrbnOther : ptr) (s : RB) : option (RB * bool * ptr * ptr) :=
  near ← get_same ptrbnOther s;
  far ← get_other ptrbnOther s;
  bn ← is_black near s;
  bf ← is_black far s;
  if bn && bf then
    s ← set_color ptrbnOther LW_TREE_RB_RED s;
    up ← get_parent ptrbnParent s;
    Some (s, true, ptrbnParent, up)
  else
    '(s, ptrbnOther) ←
      (if (bf : bool) then
         s ← set_color_if near LW_TREE_RB_BLACK s;
         s ← set_color ptrbnOther LW_TREE_RB_RED s;
         s ← rotate_back ptrbnOther s;
         ptrbnOther ← get_other ptrbnParent s;
         Some (s, ptrbnOther)
       else Some (s, ptrbnOther));
    c ← get_color ptrbnParent s;
    s ← set_color ptrbnOther c s;
    s ← set_color ptrbnParent LW_TREE_RB_BLACK s;
    far ← get_other ptrbnOther s;
    s ← set_color_if far LW_TREE_RB_BLACK s;
    s ← rotate ptrbnParent s;
    Some (s, false, TRBR_ptrbnNode s, NULL).

(** A red other child is rotated up first. *)
Definition erase_step (get_other get_same : ptr -> RB -> option ptr) (rotate rotate_back : ptr -> RB -> option RB)
    (ptrbnParent : ptr) (s : RB) : option (RB * bool * ptr * ptr) :=
  ptrbnOther ← get_other ptrbnParent s;
  c ← get_color ptrbnOther s;
  if c =? LW_TREE_RB_RED then
    s ← set_color ptrbnOther LW_TREE_RB_BLACK s;
    s ← set_color ptrbnParent LW_TREE_RB_RED s;
    s ← rotate ptrbnParent s;
    ptrbnOther ← get_other ptrbnParent s;
    erase_black get_other get_same rotate rotate_back ptrbnParent ptrbnOther s
  else erase_black get_other get_same rotate rotate_back ptrbnParent ptrbnOther s.

Fixpoint erase_loop (fuel : nat) (ptrbn ptrbnParent : ptr) (s : RB) : option (RB * ptr) :=
  match fuel with
  | O => None
  | S fuel =>
    black ← is_black ptrbn s;
    if black && negb (ptrbn =? TRBR_ptrbnNode s) then
      l ← get_left ptrbnParent s;
      '(s, go, ptrbn, ptrbnParent) ←
        (if l =? ptrbn
         then erase_step get_right get_left __tree_rb_rotate_left __tree_rb_rotate_right ptrbnParent s
         else erase_step get_left get_right __tree_rb_rotate_right __tree_rb_rotate_left ptrbnParent s);
      if (go : bool) then erase_loop fuel ptrbn ptrbnParent s else Some (s, ptrbn)
    else Some (s, ptrbn)
  end.

Definition __tree_rb_erase_color (ptrbn ptrbnParent : ptr) (s : RB) : option RB :=
  '(s, ptrbn) ← erase_loop (rb_fuel s) ptrbn ptrbnParent s;
  set_color_if ptrbn LW_TREE_RB_BLACK s.

(** [while ((ptrbnLeft = ptrbn->TRBN_ptrbnLeft) != LW_NULL) ptrbn = ptrbnLeft] *)
Fixpoint leftmost (fuel : nat) (ptrbn : ptr) (s : RB) : option ptr :=
  match fuel with
  | O => None
  | S fuel =>
    ptrbnLeft ← get_left ptrbn s;
    if ptrbnLeft =? NULL then Some ptrbn else leftmost fuel ptrbnLeft s
  end.

(** The node has at most one child, which takes its place.  Result: also [ptrbnChild],
    [ptrbnParent] and [iColor]. *)
Definition erase_one (ptrbn ptrbnChild : ptr) (s : RB) : option (RB * ptr * ptr * Z) :=
  ptrbnParent ← get_parent ptrbn s;
  iColor ← get_color ptrbn s;
  s ← set_parent_if ptrbnChild ptrbnParent s;
  s ← replace_child ptrbnParent ptrbn ptrbnChild s;
  Some (s, ptrbnChild, ptrbnParent, iColor).

(** [ptrbn] gets the place of [ptrbnOld]. *)
Definition take_place (ptrbn ptrbnOld : ptr) (s : RB) : option RB :=
  old ← rb_load ptrbnOld s;
  s ← set_parent ptrbn (TRBN_ptrbnParent old) s;
  s ← set_color ptrbn (TRBN_iColor old) s;
  s ← set_right ptrbn (TRBN_ptrbnRight old) s;
  s ← set_left ptrbn (TRBN_ptrbnLeft old) s;
  s ← replace_child (TRBN_ptrbnParent old) ptrbnOld ptrbn s;
  s ← set_parent (TRBN_ptrbnLeft old) ptrbn s;
  set_parent_if (TRBN_ptrbnRight old) ptrbn s.

(** The node has two children: the next node is taken out and gets its place. *)
Definition erase_two (ptrbnOld : ptr) (s : RB) : option (RB * ptr * ptr * Z) :=
  ptrbn ← get_right ptrbnOld s;
  ptrbn ← leftmost (rb_fuel s) ptrbn s;
  ptrbnChild ← get_right ptrbn s;
  '(s, ptrbnChild, ptrbnParent, iColor) ← erase_one ptrbn ptrbnChild s;
  p ← get_parent ptrbn s;
  s ← take_place ptrbn ptrbnOld s;
  Some (s, ptrbnChild, if p =? ptrbnOld then ptrbn else ptrbnParent, iColor).

Definition _Tree_Rb_Erase (ptrbn : ptr) (s : RB) : option RB :=
  l ← get_left ptrbn s;
  r ← get_right ptrbn s;
  '(s, ptrbnChild, ptrbnParent, iColor) ←
    (if l =? NULL then erase_one ptrbn r s
     else if r =? NULL then erase_one ptrbn l s
     else erase_two ptrbn s);
  if iColor =? LW_TREE_RB_BLACK then __tree_rb_erase_color ptrbnChild ptrbnParent s else Some s.
