(* ===== verification/RbSpec.v ===== *)
(** * Red-black trees: the representation and the pointer operations

    A tree with a hole (a path of frames, innermost first) says where the code
    works; [repr] relates it to the store.  The rotations, the re-colouring, the linking of a new
    node and the unlinking of an old one are described on trees with holes;
    the file RbLoop builds the loops on them. *)

From S2P Require Import Prelude Lists RbTree.

(** Distinct lists, taken apart. *)
Ltac distinct :=
  repeat match goal with
  | H : NoDup (_ ++ _) |- _ => apply NoDup_app in H as (? & ? & ?)
  | H : NoDup (_ :: _) |- _ => apply NoDup_cons in H as [? ?]
  end.

Ltac apart := let H := fresh in intros H; subst; set_solver.

(** ** Trees and paths *)

Inductive tree := E | T (c : Z) (l : tree) (k : ptr) (r : tree).

#[export] Instance tree_eq_dec : EqDecision tree.
Proof. solve_decision. Defined.

(** A node on the path and the child off the path: the hole is its left or its right child. *)
Inductive frame := FL (c : Z) (k : ptr) (r : tree) | FR (c : Z) (l : tree) (k : ptr).
Abbreviation path := (list frame).

Definition root (t : tree) : ptr := match t with E => NULL | T _ _ k _ => k end.

(** The nodes in order. *)
Fixpoint elems (t : tree) : list ptr :=
  match t with E => [] | T _ l k r => elems l ++ k :: elems r end.

Fixpoint before (c : path) : list ptr :=
  match c with [] => [] | FL _ _ _ :: c => before c | FR _ l k :: c => before c ++ elems l ++ [k] end.
Fixpoint after (c : path) : list ptr :=
  match c with [] => [] | FL _ k r :: c => k :: elems r ++ after c | FR _ _ _ :: c => after c end.

Definition fill (f : frame) (t : tree) : tree :=
  match f with FL c k r => T c t k r | FR c l k => T c l k t end.
Fixpoint plug (c : path) (t : tree) : tree := match c with [] => t | f :: c => plug c (fill f t) end.

Definition around (c : path) (t : tree) : list ptr := before c ++ elems t ++ after c.

Lemma around_fill f c t : around c (fill f t) = around (f :: c) t.
Proof. unfold around. destruct f; cbn; by rewrite <-?app_assoc. Qed.

Lemma elems_plug c : forall t, elems (plug c t) = around c t.
Proof.
  induction c as [|f c IH]; intros t; [unfold around; by rewrite app_nil_r|]. cbn [plug]. by rewrite IH, around_fill.
Qed.

(** ** Representation *)

Fixpoint tree_at (m : gmap ptr LW_TREE_RB_NODE) (par : ptr) (t : tree) : Prop :=
  match t with
  | E => True
  | T c l k r => m !! k = Some (mkRbn par (root l) (root r) c) /\ tree_at m k l /\ tree_at m k r
  end.

(** The innermost node of a path, the parent of the hole. *)
Definition up (c : path) : ptr := match c with [] => NULL | FL _ k _ :: _ | FR _ _ k :: _ => k end.

(** The path leads to a hole that holds the pointer [h]. *)
Fixpoint path_at (s : RB) (h : ptr) (c : path) : Prop :=
  match c with
  | [] => TRBR_ptrbnNode s = h
  | FL col k r :: c => RB_node s !! k = Some (mkRbn (up c) h (root r) col) /\ tree_at (RB_node s) k r /\ path_at s k c
  | FR col l k :: c => RB_node s !! k = Some (mkRbn (up c) (root l) h col) /\ tree_at (RB_node s) k l /\ path_at s k c
  end.

(** The tree [plug c t] is in the store, with distinct nodes, none of them NULL and all of them among [K]. *)
Record repr (K : list ptr) (s : RB) (c : path) (t : tree) : Prop := {
  rp_tree : tree_at (RB_node s) (up c) t;
  rp_path : path_at s (root t) c;
  rp_keys : NoDup (NULL :: around c t);
  rp_in : around c t ⊆ K
}.

(** Moving the hole. *)
Lemma repr_fill K s f c t : repr K s c (fill f t) <-> repr K s (f :: c) t.
Proof.
  split; intros [H1 H2 H3 H4]; (split; [| |by rewrite ?around_fill in *|by rewrite ?around_fill in *]); destruct f; cbn in *; by split_and?; destruct_and?.
Qed.

Lemma repr_plug K s c t : repr K s [] (plug c t) <-> repr K s c t.
Proof. revert t. induction c as [|f c IH]; intros t; [done|]. cbn [plug]. by rewrite IH, repr_fill. Qed.

(** ** Framing *)

Lemma tree_frame m m' par t : tree_at m par t -> (forall k, k ∈ elems t -> m' !! k = m !! k) -> tree_at m' par t.
Proof.
  revert par. induction t as [|c l IHl k r IHr]; intros par; [done|]. cbn. intros (H1 & H2 & H3) Hf.
  split; [|split]; [|apply IHl; [done|]|apply IHr; [done|]].
  - rewrite Hf; [done|]. set_solver.
  - intros x Hx. apply Hf. set_solver.
  - intros x Hx. apply Hf. set_solver.
Qed.

Lemma path_frame s s' h c : path_at s h c -> TRBR_ptrbnNode s' = TRBR_ptrbnNode s ->
  (forall k, k ∈ before c ++ after c -> RB_node s' !! k = RB_node s !! k) -> path_at s' h c.
Proof.
  revert h. induction c as [|f c IH]; intros h; [by cbn; intros <- <-|]. intros Hp Hr Hf.
  destruct f as [col k r|col l k]; cbn in *; destruct Hp as (H1 & H2 & H3);
    (split; [rewrite Hf; [done|set_solver]|split; [eapply tree_frame; [exact H2|]|apply IH; [done|done|]]]);
    intros x Hx; apply Hf; set_solver.
Qed.

(** ** Distinct regions *)

(** Lists of nodes that have nothing in common. *)
Fixpoint apart_from (l : list ptr) (ls : list (list ptr)) : Prop :=
  match ls with [] => True | l' :: ls => l ## l' /\ l' ## l /\ apart_from l ls end.
Fixpoint regions (ls : list (list ptr)) : Prop :=
  match ls with [] => True | l :: ls => NoDup (NULL :: l) /\ apart_from l ls /\ regions ls end.

Lemma nodup_regions ls : NoDup (NULL :: concat ls) -> regions ls.
Proof.
  induction ls as [|l ls IH]; [done|]. cbn. intros [H0 (H1 & H2 & H3)%NoDup_app]%NoDup_cons.
  split; [constructor; [set_solver|done]|]. split; [|apply IH; constructor; [set_solver|done]]. clear IH H0 H1 H3.
  induction ls as [|l' ls IH]; [done|]. cbn in *. split; [set_solver|]. split; [set_solver|]. apply IH. set_solver.
Qed.

Lemma around_perm c t : around c t ≡ₚ elems t ++ before c ++ after c.
Proof. unfold around. rewrite !app_assoc. f_equiv. apply Permutation_app_comm. Qed.

(** The regions of a tree with a hole, [ls] those of the tree at the hole. *)
Lemma around_regions c t ls : NoDup (NULL :: around c t) -> elems t = concat ls -> regions ((before c ++ after c) :: ls).
Proof.
  intros H E. apply nodup_regions. cbn. rewrite around_perm, E in H. by rewrite (Permutation_app_comm (before c ++ after c)).
Qed.

(** They are all among [K]. *)
Fixpoint inside (K : list ptr) (ls : list (list ptr)) : Prop :=
  match ls with [] => True | l :: ls => l ⊆ K /\ inside K ls end.
Lemma concat_inside K ls : concat ls ⊆ K -> inside K ls.
Proof. induction ls as [|l ls IH]; [done|]. cbn. intros H. split; [set_solver|apply IH; set_solver]. Qed.
Lemma around_inside K c t ls : around c t ⊆ K -> elems t = concat ls -> inside K ((before c ++ after c) :: ls).
Proof. intros H E. apply concat_inside. cbn. rewrite <-E. unfold around in H. set_solver. Qed.

(** ** Single steps *)

(** The step changed at most the nodes [ks]; the same memory holds nodes. *)
Record changes (s s' : RB) (ks : list ptr) : Prop := {
  ch_same : forall k, k ∉ ks -> RB_node s' !! k = RB_node s !! k;
  ch_dom : dom (RB_node s') = dom (RB_node s)
}.

Lemma changes_refl s ks : changes s s ks.
Proof. by split. Qed.
Lemma changes_mono s s' ks ks' : changes s s' ks -> (forall k, k ∈ ks -> k ∈ ks') -> changes s s' ks'.
Proof. intros [A B] H. split; [|done]. intros k Hk. apply A. set_solver. Qed.

Lemma changes_step K s1 s2 s3 ks : changes s1 s2 K -> changes s2 s3 ks -> ks ⊆ K -> changes s1 s3 K.
Proof. intros [A B] [C D] H. split; [|congruence]. intros k Hk. rewrite C, A; [done|done|set_solver]. Qed.
Lemma changes_trans K s1 s2 s3 : changes s1 s2 K -> changes s2 s3 K -> changes s1 s3 K.
Proof. intros H1 H2. by eapply changes_step. Qed.

Lemma node_changes s s' ks k : changes s s' ks -> [k] ## ks -> RB_node s' !! k = RB_node s !! k.
Proof. intros [H _] Hd. apply H. set_solver. Qed.
Lemma tree_changes s s' ks par t : changes s s' ks -> tree_at (RB_node s) par t -> elems t ## ks -> tree_at (RB_node s') par t.
Proof. intros [H _] Ht Hd. eapply tree_frame; [exact Ht|]. intros k Hk. apply H. set_solver. Qed.
Lemma path_changes s s' ks h c : changes s s' ks -> path_at s h c -> TRBR_ptrbnNode s' = TRBR_ptrbnNode s ->
  before c ++ after c ## ks -> path_at s' h c.
Proof. intros [H _] Hp Hr Hd. eapply path_frame; [exact Hp|done|]. intros k Hk. apply H. set_solver. Qed.

Lemma load_some p s n : p <> NULL -> RB_node s !! p = Some n -> rb_load p s = Some n.
Proof. intros Hp Hn. unfold rb_load. by rewrite (proj2 (Z.eqb_neq _ _) Hp). Qed.

Lemma not_null k : NoDup [NULL; k] -> k <> NULL.
Proof. intros H ->. distinct. set_solver. Qed.

Lemma node_store_spec p f s n : NoDup [NULL; p] -> RB_node s !! p = Some n -> exists s', rb_store p f s = Some s' /\
  RB_node s' !! p = Some (f n) /\ changes s s' [p] /\ TRBR_ptrbnNode s' = TRBR_ptrbnNode s.
Proof.
  intros Hp%not_null Hn. unfold rb_store. rewrite (load_some p s n) by done. cbn [mbind option_bind]. eexists. split; [done|].
  cbn. split; [apply lookup_insert_eq|]. split; [|done]. split; cbn.
  - intros k Hk. rewrite lookup_insert_ne; [done|]. set_solver.
  - rewrite dom_insert_lookup_L; [done|by eexists].
Qed.

Lemma keys_node c l k r : NoDup (NULL :: elems (T c l k r)) -> regions [elems l; [k]; elems r].
Proof. intros H. apply nodup_regions. cbn in *. by rewrite app_nil_r. Qed.

(** The root of a subtree gets another parent. *)
Lemma reparent s par par' t : tree_at (RB_node s) par t -> NoDup (NULL :: elems t) -> exists s',
  set_parent_if (root t) par' s = Some s' /\ tree_at (RB_node s') par' t /\ changes s s' (elems t) /\
  TRBR_ptrbnNode s' = TRBR_ptrbnNode s.
Proof.
  intros Ht Hn. destruct t as [|c l k r]; [by exists s; split; [|split; [|split; [apply changes_refl|]]]|].
  cbn in Ht. destruct Ht as (H1 & H2 & H3). destruct (keys_node _ _ _ _ Hn) as (_ & (Hlk & _ & _) & Hk & (_ & Hrk & _) & _ & _ & _).
  destruct (node_store_spec k (with_parent par') s _ Hk H1) as (s' & E & Hk' & Hc & Hr). exists s'.
  cbn [root]. unfold set_parent_if, set_parent. rewrite (proj2 (Z.eqb_neq _ _) (not_null k Hk)). split; [done|]. split; [|split; [|done]].
  - cbn. split; [done|]. split; by eapply tree_changes.
  - eapply changes_mono; [exact Hc|]. cbn. set_solver.
Qed.

(** The hole of a path gets another pointer. *)
Definition set_hole (c : path) (v : ptr) (s : RB) : option RB :=
  match c with [] => Some (set_root v s) | FL _ k _ :: _ => set_left k v s | FR _ _ k :: _ => set_right k v s end.

Lemma frame_regions f c : NoDup (NULL :: before (f :: c) ++ after (f :: c)) ->
  regions [before c ++ after c; elems (match f with FL _ _ r => r | FR _ l _ => l end); [up (f :: c)]].
Proof.
  intros H. apply nodup_regions. eapply NoDup_Permutation_proper; [|exact H]. f_equiv.
  destruct f as [col k r|col l k]; cbn; solve_Permutation.
Qed.

Lemma rehole s h c v : path_at s h c -> NoDup (NULL :: before c ++ after c) -> exists s',
  set_hole c v s = Some s' /\ path_at s' v c /\ changes s s' (before c ++ after c) /\
  (c <> [] -> TRBR_ptrbnNode s' = TRBR_ptrbnNode s).
Proof.
  intros Hp Hn. destruct c as [|f c]; [by exists (set_root v s)|]. pose proof (frame_regions f c Hn) as HR.
  destruct f as [col k r|col l k]; cbn in HR, Hp; destruct Hp as (H1 & H2 & H3); destruct_and!;
    (edestruct (node_store_spec k) as (s' & E & Hk' & Hc & Hr); [done|exact H1|]); exists s'; (split; [exact E|]);
    (split; [|split; [eapply changes_mono; [exact Hc|cbn; set_solver]|done]]); cbn; (split; [exact Hk'|split]);
    first [by eapply tree_changes|by eapply path_changes].
Qed.

(** The parent's link is the one that held [h]. *)
Lemma replace_hole s h c v : path_at s h c -> NoDup (NULL :: before c ++ after c) -> NoDup [NULL; h] -> [h] ## before c ++ after c ->
  replace_child (up c) h v s = set_hole c v s /\ replace_child_right (up c) h v s = set_hole c v s.
Proof.
  intros Hp Hn Hh%not_null Hd. destruct c as [|f c]; [done|]. pose proof (frame_regions f c Hn) as HR.
  assert (Hne : root (match f with FL _ _ r => r | FR _ l _ => l end) <> h).
  { intros E. destruct f as [col k [|c' l' k' r']|col [|c' l' k' r'] k]; cbn in E; try congruence; subst; cbn in Hd; set_solver. }
  unfold replace_child, replace_child_right. destruct f as [col k r|col l k]; cbn [path_at up] in *; destruct Hp as (H1 & _);
    cbn in HR; destruct_and!; assert (Hk : k <> NULL) by (by apply not_null); rewrite (proj2 (Z.eqb_neq _ _) Hk);
    unfold get_left, get_right; rewrite (load_some k s _ Hk H1); cbn [negb fmap option_fmap option_map mbind option_bind TRBN_ptrbnLeft TRBN_ptrbnRight];
    by rewrite (proj2 (Z.eqb_neq _ _) Hne), Z.eqb_refl.
Qed.

(** The facts about a state carried over to the next one. *)
Ltac carry Hc Hr :=
  match type of Hc with changes ?s ?s' _ =>
    repeat match goal with
    | H : tree_at (RB_node s) _ _ |- _ => apply (tree_changes s s' _ _ _ Hc) in H; [|assumption]
    | H : path_at s _ _ |- _ => apply (path_changes s s' _ _ _ Hc) in H; [|exact Hr|assumption]
    | H : RB_node s !! ?k = _ |- _ => rewrite <-(node_changes s s' _ k Hc) in H by assumption
    | H : changes _ s ?K |- _ => pose proof (changes_step K _ _ _ _ H Hc ltac:(assumption)); clear H
    end
  end.

(** One assignment [f] to the node [k] whose content is [H]. *)
Tactic Notation "assign" constr(k) constr(f) hyp(H) :=
  let s' := fresh "s" in let E := fresh "E" in let Hk := fresh "Hk" in let Hc := fresh "Hc" in let Hr := fresh "Hr" in
  edestruct (node_store_spec k f) as (s' & E & Hk & Hc & Hr); [assumption|exact H|];
  cbv [with_parent with_left with_right with_color TRBN_ptrbnParent TRBN_ptrbnLeft TRBN_ptrbnRight TRBN_iColor] in Hk;
  clear H; rename Hk into H; carry Hc Hr;
  unfold set_parent, set_left, set_right, set_color; rewrite E; cbn [mbind option_bind]; clear E Hc Hr.

(** A read of a field of such a node. *)
Tactic Notation "fetch" constr(k) hyp(H) :=
  unfold get_parent, get_left, get_right, get_color; rewrite (load_some k _ _ (not_null k ltac:(assumption)) H);
  cbn [mbind option_bind fmap option_fmap option_map TRBN_ptrbnParent TRBN_ptrbnLeft TRBN_ptrbnRight TRBN_iColor].

(** The root of the subtree at [Ht] gets another parent. *)
Tactic Notation "adopt" constr(par) hyp(Ht) :=
  let s' := fresh "s" in let E := fresh "E" in let Hk := fresh "Hk" in let Hc := fresh "Hc" in let Hr := fresh "Hr" in
  edestruct (reparent _ _ par _ Ht) as (s' & E & Hk & Hc & Hr); [assumption|];
  clear Ht; rename Hk into Ht; carry Hc Hr; rewrite E; cbn [mbind option_bind]; clear E Hc Hr.

(** The hole of the path at [Hp] gets the pointer [v]. *)
Tactic Notation "rehang" constr(v) hyp(Hp) :=
  let s' := fresh "s" in let E := fresh "E" in let Hk := fresh "Hk" in let Hc := fresh "Hc" in let Hr := fresh "Hr" in
  edestruct (rehole _ _ _ v Hp) as (s' & E & Hk & Hc & Hr); [assumption|];
  clear Hp; rename Hk into Hp; carry Hc I; rewrite E; cbn [mbind option_bind]; clear E Hc Hr.

(** The regions [ls] of the tree [t] at the hole of [c]. *)
Tactic Notation "split_regions" constr(K) constr(c) constr(t) constr(ls) hyp(Hn) hyp(Hin) :=
  let E := fresh "E" in let HR := fresh "HR" in let HI := fresh "HI" in
  assert (E : elems t = concat ls) by (cbn; by rewrite ?app_nil_r, <-?app_assoc);
  pose proof (around_regions c t ls Hn E) as HR; pose proof (around_inside K c t ls Hin E) as HI;
  cbn [regions inside apart_from] in HR, HI; clear E; destruct_and!.

(** ** Rotations *)

Lemma elems_rotate c1 c2 c3 c4 l p m q r : elems (T c1 (T c2 l p m) q r) = elems (T c3 l p (T c4 m q r)).
Proof. cbn. by rewrite <-app_assoc. Qed.
Lemma around_rotate c c1 c2 c3 c4 l p m q r : around c (T c1 (T c2 l p m) q r) = around c (T c3 l p (T c4 m q r)).
Proof. unfold around. by rewrite (elems_rotate c1 c2 c3 c4). Qed.

Lemma rotate_left_spec K s c cp l p cq rl q rr : repr K s c (T cp l p (T cq rl q rr)) -> exists s',
  __tree_rb_rotate_left p s = Some s' /\ repr K s' c (T cq (T cp l p rl) q rr) /\ changes s s' K.
Proof.
  intros [Ht Hp Hn Hin]. cbn in Ht, Hp. destruct Ht as (Hpn & Hl & Hqn & Hrl & Hrr).
  split_regions K c (T cp l p (T cq rl q rr)) [elems l; [p]; elems rl; [q]; elems rr] Hn Hin. pose proof (changes_refl s K) as Hch.
  unfold __tree_rb_rotate_left. fetch p Hpn. cbn [root]. fetch q Hqn.
  assign p (with_right (root rl)) Hpn. adopt p Hrl. assign q (with_left p) Hqn. fetch p Hpn. assign q (with_parent (up c)) Hqn.
  rewrite (proj1 (replace_hole _ p c q Hp ltac:(assumption) ltac:(assumption) ltac:(assumption))). rehang q Hp. assign p (with_parent q) Hpn.
  eexists. split; [done|]. split; [|done]. split; [by cbn|done|by rewrite (around_rotate c cq cp cp cq)..].
Qed.

Lemma rotate_right_spec K s c cp l p cq m q r : repr K s c (T cq (T cp l p m) q r) -> exists s',
  __tree_rb_rotate_right q s = Some s' /\ repr K s' c (T cp l p (T cq m q r)) /\ changes s s' K.
Proof.
  intros [Ht Hp Hn Hin]. cbn in Ht, Hp. destruct Ht as (Hqn & (Hpn & Hl & Hm) & Hr).
  split_regions K c (T cq (T cp l p m) q r) [elems l; [p]; elems m; [q]; elems r] Hn Hin. pose proof (changes_refl s K) as Hch.
  unfold __tree_rb_rotate_right. fetch q Hqn. cbn [root]. fetch p Hpn.
  assign q (with_left (root m)) Hqn. adopt q Hm. assign p (with_right q) Hpn. fetch q Hqn. assign p (with_parent (up c)) Hpn.
  rewrite (proj2 (replace_hole _ q c p Hp ltac:(assumption) ltac:(assumption) ltac:(assumption))). rehang p Hp. assign q (with_parent p) Hqn.
  eexists. split; [done|]. split; [|done]. split; [by cbn|done|by rewrite <-(around_rotate c cq cp cp cq)..].
Qed.

(** ** Colours *)

Lemma set_color_spec K s c col l k r v : repr K s c (T col l k r) -> exists s',
  set_color k v s = Some s' /\ repr K s' c (T v l k r) /\ changes s s' K.
Proof.
  intros [Ht Hp Hn Hin]. cbn in Ht, Hp. destruct Ht as (Hkn & Hl & Hr).
  split_regions K c (T col l k r) [elems l; [k]; elems r] Hn Hin. pose proof (changes_refl s K) as Hch.
  assign k (with_color v) Hkn. eexists. split; [done|]. split; [|done]. by split.
Qed.

(** What a node of the tree holds. *)
Lemma repr_load K s c col l k r : repr K s c (T col l k r) -> k <> NULL /\ rb_load k s = Some (mkRbn (up c) (root l) (root r) col).
Proof.
  intros [Ht _ Hn Hin]. cbn in Ht. destruct Ht as (Hkn & _).
  split_regions K c (T col l k r) [elems l; [k]; elems r] Hn Hin. assert (Hk : k <> NULL) by (by apply not_null). split; [done|by apply load_some].
Qed.
