(* ===== verification/RbLoop.v ===== *)
(** * Red-black trees: insertion and deletion

    The loops of treeRb.c keep the order of the nodes and restore the red-black
    invariant.  Left and right are treated at once: [side] is true when the subtree of
    interest is the left one. *)

From S2P Require Import Prelude Lists RbTree RbSpec.

(** ** The red-black invariant *)

(** [rbt col n t]: the root of [t] has colour [col] (black for the empty tree), red nodes have
    black children, and every way down meets [n] black nodes. *)
Inductive rbt : Z -> nat -> tree -> Prop :=
| rbt_E : rbt LW_TREE_RB_BLACK 0 E
| rbt_R n l k r : rbt LW_TREE_RB_BLACK n l -> rbt LW_TREE_RB_BLACK n r -> rbt LW_TREE_RB_RED n (T LW_TREE_RB_RED l k r)
| rbt_B n c1 c2 l k r : rbt c1 n l -> rbt c2 n r -> rbt LW_TREE_RB_BLACK (S n) (T LW_TREE_RB_BLACK l k r).

Definition color (t : tree) : Z := match t with E => LW_TREE_RB_BLACK | T c _ _ _ => c end.

Lemma rbt_color col n t : rbt col n t -> color t = col.
Proof. by intros []. Qed.
Lemma rbt_cases col n t : rbt col n t -> col = LW_TREE_RB_RED \/ col = LW_TREE_RB_BLACK.
Proof. intros []; auto. Qed.

(** ** Sides *)

Definition mk (side : bool) (c : Z) (a : tree) (k : ptr) (b : tree) : tree := if side then T c a k b else T c b k a.
Definition fr (side : bool) (c : Z) (k : ptr) (b : tree) : frame := if side then FL c k b else FR c b k.
Definition get_near (side : bool) : ptr -> RB -> option ptr := if side then get_left else get_right.
Definition get_far (side : bool) : ptr -> RB -> option ptr := if side then get_right else get_left.
Definition rot (side : bool) : ptr -> RB -> option RB := if side then __tree_rb_rotate_left else __tree_rb_rotate_right.

Lemma mk_negb side c a k b : mk (negb side) c a k b = mk side c b k a.
Proof. by destruct side. Qed.
Lemma root_mk side c a k b : root (mk side c a k b) = k.
Proof. by destruct side. Qed.
Lemma rbt_red side n a k b : rbt LW_TREE_RB_BLACK n a -> rbt LW_TREE_RB_BLACK n b -> rbt LW_TREE_RB_RED n (mk side LW_TREE_RB_RED a k b).
Proof. intros. destruct side; by constructor. Qed.
Lemma rbt_black side n c1 c2 a k b : rbt c1 n a -> rbt c2 n b -> rbt LW_TREE_RB_BLACK (S n) (mk side LW_TREE_RB_BLACK a k b).
Proof. intros. destruct side; by econstructor. Qed.

(** The path accepts a tree with [n] black nodes on every way down; it has to be black when
    the first index is red: under a red node, and at the top. *)
Inductive path_rb : Z -> nat -> path -> Prop :=
| pr_nil n : path_rb LW_TREE_RB_RED n []
| pr_red side n k b c : rbt LW_TREE_RB_BLACK n b -> path_rb LW_TREE_RB_BLACK n c ->
    path_rb LW_TREE_RB_RED n (fr side LW_TREE_RB_RED k b :: c)
| pr_black side n cb pc k b c : rbt cb n b -> path_rb pc (S n) c ->
    path_rb LW_TREE_RB_BLACK n (fr side LW_TREE_RB_BLACK k b :: c).

(** A tree that fits is put in its place. *)
Lemma plug_rb pc n c col t : path_rb pc n c -> rbt col n t -> (pc = LW_TREE_RB_RED -> col = LW_TREE_RB_BLACK) ->
  exists m, rbt LW_TREE_RB_BLACK m (plug c t).
Proof.
  intros Hp. revert col t. induction Hp as [n|side n k b c Hb Hp IH|side n cb pc k b c Hb Hp IH]; intros col t Ht Hc.
  - rewrite <-(Hc eq_refl). by exists n.
  - rewrite (Hc eq_refl) in Ht. assert (E : fill (fr side LW_TREE_RB_RED k b) t = mk side LW_TREE_RB_RED t k b) by (by destruct side).
    cbn [plug]. rewrite E. eapply IH; [by apply rbt_red|]. intros H. discriminate H.
  - assert (E : fill (fr side LW_TREE_RB_BLACK k b) t = mk side LW_TREE_RB_BLACK t k b) by (by destruct side).
    cbn [plug]. rewrite E. eapply IH; [by eapply rbt_black|done].
Qed.

(** Two trees with the same nodes in the same order. *)
Ltac same_order side := unfold around; do 2 f_equal; destruct side; cbn; rewrite <-?app_assoc; cbn; rewrite <-?app_assoc; reflexivity.

(** Steps one after another. *)
Ltac chain :=
  repeat match goal with
  | H1 : changes ?a ?b ?K, H2 : changes ?b ?c ?K |- _ =>
      lazymatch goal with H : changes a c K |- _ => fail | _ => pose proof (changes_trans K a b c H1 H2) end
  end.

Section Loops.
Context (K : list ptr).
Abbreviation repr := (RbSpec.repr K).

Lemma around_fr side col k b c t : around (fr side col k b :: c) t = around c (mk side col t k b).
Proof. rewrite <-around_fill. by destruct side. Qed.
Lemma repr_up s side col k b c t : repr s (fr side col k b :: c) t -> repr s c (mk side col t k b).
Proof. intros H%repr_fill. by destruct side. Qed.
Lemma repr_down s side col k b c t : repr s c (mk side col t k b) -> repr s (fr side col k b :: c) t.
Proof. intros H. apply repr_fill. by destruct side. Qed.
Lemma repr_far s side col k b c t : repr s c (mk side col t k b) -> repr s (fr (negb side) col k t :: c) b.
Proof. rewrite <-mk_negb. apply repr_down. Qed.
Lemma repr_back s side col k b c t : repr s (fr (negb side) col k t :: c) b -> repr s c (mk side col t k b).
Proof. intros H%repr_up. by rewrite mk_negb in H. Qed.

(** ** Reading and changing at the hole *)

Lemma read_node s c side col a k b : repr s c (mk side col a k b) ->
  k <> NULL /\ get_near side k s = Some (root a) /\ get_far side k s = Some (root b) /\ get_parent k s = Some (up c) /\
  get_color k s = Some col.
Proof.
  intros H. unfold get_near, get_far, get_left, get_right, get_parent, get_color.
  destruct side; apply repr_load in H as [Hk E]; by rewrite E.
Qed.

Lemma root_null s c t : repr s c t -> (root t =? NULL) = match t with E => true | _ => false end.
Proof. destruct t as [|col l k r]; intros H; [done|]. apply repr_load in H as [H _]. by apply Z.eqb_neq. Qed.

Lemma read_color s c t : repr s c t ->
  is_red (root t) s = Some (color t =? LW_TREE_RB_RED) /\ is_black (root t) s = Some (color t =? LW_TREE_RB_BLACK).
Proof.
  intros H. unfold is_red, is_black. rewrite (root_null s c t H). destruct t as [|col l k r]; [done|].
  destruct (read_node s c true col l k r H) as (_ & _ & _ & _ & E). cbn [root color]. by rewrite E.
Qed.

(** The pointers in the child links tell the sides apart, unless both children are missing. *)
Lemma children_differ s c col l k r : repr s c (T col l k r) -> l <> E \/ r <> E -> root l <> root r.
Proof.
  intros [_ _ Hn Hin] Hne. split_regions K c (T col l k r) [elems l; [k]; elems r] Hn Hin. destruct l as [|cl ll lk lr], r as [|cr rl rk rr]; cbn [root] in *; intros E.
  - by destruct Hne.
  - destruct_and?. distinct. cbn in *. subst. set_solver.
  - distinct. cbn in *. subst. set_solver.
  - cbn in *. subst. set_solver.
Qed.

Lemma far_differs s c side col a k b : repr s c (mk side col a k b) -> a <> E \/ b <> E -> (root b =? root a) = false.
Proof.
  intros H Hne. apply Z.eqb_neq. destruct side.
  - intros E. apply (children_differ s c col a k b H); [tauto|done].
  - apply (children_differ s c col b k a H). tauto.
Qed.

Lemma child_test s c side col a k b : repr s c (mk side col a k b) -> a <> E \/ b <> E ->
  exists v, get_left k s = Some v /\ (v =? root a) = side.
Proof.
  intros H Hne. destruct (read_node s c side col a k b H) as (_ & H1 & H2 & _). destruct side; cbn in *.
  - eexists. split; [done|]. apply Z.eqb_refl.
  - eexists. split; [done|]. apply Z.eqb_neq. apply (children_differ s c col b k a H). tauto.
Qed.

Lemma rot_spec s c side cp a p cq m q b : repr s c (mk side cp a p (mk side cq m q b)) -> exists s',
  rot side p s = Some s' /\ repr s' c (mk side cq (mk side cp a p m) q b) /\ changes s s' K.
Proof. destruct side; [apply rotate_left_spec|apply rotate_right_spec]. Qed.

Lemma rot_back_spec s c side cp a p cq m q b : repr s c (mk side cq (mk side cp a p m) q b) -> exists s',
  rot (negb side) q s = Some s' /\ repr s' c (mk side cp a p (mk side cq m q b)) /\ changes s s' K.
Proof.
  rewrite <-(mk_negb side cq), <-(mk_negb side cp). intros H. destruct (rot_spec s c (negb side) _ _ _ _ _ _ _ H) as (s' & E & H' & D).
  rewrite !mk_negb in H'. by exists s'.
Qed.

Lemma color_spec s c side col a k b v : repr s c (mk side col a k b) -> exists s',
  set_color k v s = Some s' /\ repr s' c (mk side v a k b) /\ changes s s' K.
Proof. destruct side; apply set_color_spec. Qed.

Definition paint (v : Z) (t : tree) : tree := match t with E => E | T _ l k r => T v l k r end.
Lemma paint_spec s c t v : repr s c t -> exists s',
  set_color_if (root t) v s = Some s' /\ repr s' c (paint v t) /\ changes s s' K.
Proof.
  intros H. unfold set_color_if. rewrite (root_null s c t H). destruct t as [|col l k r]; [by exists s|].
  by apply (color_spec s c true col).
Qed.

Lemma elems_paint v t : elems (paint v t) = elems t.
Proof. by destruct t. Qed.
Lemma rbt_paint col n t : rbt col n t -> t <> E -> exists m, rbt LW_TREE_RB_BLACK m (paint LW_TREE_RB_BLACK t).
Proof. intros [] Hne; [done|eexists; by eapply rbt_B..]. Qed.

(** ** Insertion *)

(** The loop stops at a red node under a black one, or at the top. *)
Lemma colour_stop fuel c s l x r pc : repr s c (T LW_TREE_RB_RED l x r) -> pc <> LW_TREE_RB_RED \/ c = [] ->
  (forall side col k b c', c = fr side col k b :: c' -> col = pc) -> insert_loop (S fuel) x s = Some s.
Proof.
  intros H Hpc Hcol. destruct (read_node s c true _ l x r H) as (_ & _ & _ & Ep & _). cbn [insert_loop]. rewrite Ep. cbn [mbind option_bind].
  destruct c as [|f c]; [done|].
  assert (Hf : exists side k b, f = fr side pc k b).
  { destruct f as [col k b|col b k]; [exists true, k, b|exists false, k, b]; cbn; f_equal.
    - by apply (Hcol true col k b c).
    - by apply (Hcol false col k b c). }
  destruct Hf as (side & k & b & ->). assert (Eu : up (fr side pc k b :: c) = k) by (by destruct side). rewrite Eu.
  apply repr_up in H. destruct (read_color _ _ _ H) as [Ec _]. rewrite root_mk in Ec. rewrite Ec. cbn [mbind option_bind].
  assert (Ecol : color (mk side pc (T LW_TREE_RB_RED l x r) k b) = pc) by (by destruct side). rewrite Ecol.
  destruct Hpc as [Hpc|]; [|done]. by rewrite (proj2 (Z.eqb_neq _ _) Hpc).
Qed.

(** The uncle is red: the colours of three nodes change. *)
Lemma insert_recolor s c side2 side t p b g ul u ur : repr s c (mk side2 LW_TREE_RB_BLACK (mk side LW_TREE_RB_RED t p b) g (T LW_TREE_RB_RED ul u ur)) ->
  exists s', insert_step (get_far side2) (rot side2) (rot (negb side2)) (root t) p g s = Some (s', g) /\
    repr s' c (mk side2 LW_TREE_RB_RED (mk side LW_TREE_RB_BLACK t p b) g (T LW_TREE_RB_BLACK ul u ur)) /\
    changes s s' K.
Proof.
  intros H. unfold insert_step. destruct (read_node _ _ side2 _ _ _ _ H) as (_ & _ & Ef & _). rewrite Ef. cbn [mbind option_bind].
  apply repr_far in H. destruct (read_color _ _ _ H) as [Ec _]. rewrite Ec. cbn [mbind option_bind root color].
  change (LW_TREE_RB_RED =? LW_TREE_RB_RED) with true. cbv iota.
  destruct (color_spec s _ true _ ul u ur LW_TREE_RB_BLACK H) as (s1 & -> & H1%repr_back%repr_down & D1). cbn [mbind option_bind].
  destruct (color_spec s1 _ side _ t p b LW_TREE_RB_BLACK H1) as (s2 & -> & H2%repr_up & D2). cbn [mbind option_bind].
  destruct (color_spec s2 _ side2 _ _ g _ LW_TREE_RB_RED H2) as (s3 & -> & H3 & D3). cbn [mbind option_bind].
  exists s3. split; [done|]. split; [exact H3|by chain].
Qed.

(** The uncle is black: the colours and the rotation of the grandparent. *)
Lemma insert_lift s c side cg cp a p b g u : repr s c (mk side cg (mk side cp a p b) g u) -> exists s',
  (s ← set_color p LW_TREE_RB_BLACK s; s ← set_color g LW_TREE_RB_RED s; rot (negb side) g s) = Some s' /\
  repr s' c (mk side LW_TREE_RB_BLACK a p (mk side LW_TREE_RB_RED b g u)) /\ changes s s' K.
Proof.
  intros H%repr_down. destruct (color_spec s _ side _ a p b LW_TREE_RB_BLACK H) as (s1 & -> & H1%repr_up & D1). cbn [mbind option_bind].
  destruct (color_spec s1 _ side _ _ g u LW_TREE_RB_RED H1) as (s2 & -> & H2 & D2). cbn [mbind option_bind].
  destruct (rot_back_spec s2 c side _ _ _ _ _ _ _ H2) as (s3 & -> & H3 & D3). exists s3. split; [done|]. split; [exact H3|by chain].
Qed.

Lemma insert_rotate s c side2 side t p b g u : repr s c (mk side2 LW_TREE_RB_BLACK (mk side LW_TREE_RB_RED t p b) g u) ->
  color u <> LW_TREE_RB_RED -> (exists l x r, t = T LW_TREE_RB_RED l x r) ->
  exists s' l x r k B, insert_step (get_far side2) (rot side2) (rot (negb side2)) (root t) p g s = Some (s', x) /\
    repr s' c (mk side2 LW_TREE_RB_BLACK (T LW_TREE_RB_RED l x r) k B) /\ changes s s' K /\
    around c (mk side2 LW_TREE_RB_BLACK (T LW_TREE_RB_RED l x r) k B)
      = around c (mk side2 LW_TREE_RB_BLACK (mk side LW_TREE_RB_RED t p b) g u) /\
    (forall n, rbt LW_TREE_RB_RED n t -> rbt LW_TREE_RB_BLACK n b -> rbt LW_TREE_RB_BLACK n u ->
      rbt LW_TREE_RB_RED n (T LW_TREE_RB_RED l x r) /\ rbt LW_TREE_RB_RED n B).
Proof.
  intros H Hu (tl & x & tr & ->). unfold insert_step. destruct (read_node _ _ side2 _ _ _ _ H) as (_ & _ & Ef & _). rewrite Ef. cbn [mbind option_bind].
  pose proof (repr_far _ _ _ _ _ _ _ H) as Hf. destruct (read_color _ _ _ Hf) as [Ec _]. rewrite Ec. cbn [mbind option_bind].
  rewrite (proj2 (Z.eqb_neq _ _) Hu). cbn [root]. apply repr_down in H.
  destruct (decide (side = side2)) as [->|Hs].
  - destruct (read_node _ _ side2 _ _ _ _ H) as (_ & _ & Ei & _). rewrite Ei. cbn [mbind option_bind].
    assert (Hne : (root b =? x) = false) by (apply (far_differs _ _ _ _ _ _ _ H); by left). rewrite Hne.
    cbn [mbind option_bind]. destruct (insert_lift s c side2 _ _ _ _ _ _ _ (repr_up _ _ _ _ _ _ _ H)) as (s1 & E1 & H1 & D1).
    exists s1, tl, x, tr, p, (mk side2 LW_TREE_RB_RED b g u). split; [|split; [exact H1|split; [exact D1|split]]].
    + do 2 (destruct (set_color _ _ _) as [?s|]; [|done]; cbn [mbind option_bind] in * ). by rewrite E1.
    + same_order side2.
    + intros n Ht Hb Hu'. split; [done|by apply rbt_red].
  - assert (Es : side = negb side2) by (by destruct side, side2). subst side. rewrite mk_negb in H.
    destruct (read_node _ _ side2 _ _ _ _ H) as (_ & _ & Ei & _). rewrite Ei. cbn [mbind option_bind root]. rewrite Z.eqb_refl.
    assert (Et : exists m q, T LW_TREE_RB_RED tl x tr = mk side2 LW_TREE_RB_RED m x q).
    { destruct side2; by eexists _, _. }
    destruct Et as (m & q & Et). rewrite Et in H |- *.
    destruct (rot_spec _ _ side2 _ _ _ _ _ _ _ H) as (s1 & -> & H1 & D1). cbn [mbind option_bind].
    destruct (insert_lift s1 c side2 _ _ _ _ _ _ _ (repr_up _ _ _ _ _ _ _ H1)) as (s2 & E2 & H2 & D2).
    assert (Eb : exists bl br, mk side2 LW_TREE_RB_RED b p m = T LW_TREE_RB_RED bl p br) by (destruct side2; by eexists _, _).
    destruct Eb as (bl & br & Eb). exists s2, bl, p, br, x, (mk side2 LW_TREE_RB_RED q g u). rewrite <-Eb.
    split; [|split; [exact H2|split; [by chain|split]]].
    + do 2 (destruct (set_color _ _ _) as [?s|]; [|done]; cbn [mbind option_bind] in * ). by rewrite E2.
    + rewrite mk_negb. same_order side2.
    + intros n Ht Hb Hu'. assert (Hmq : rbt LW_TREE_RB_BLACK n m /\ rbt LW_TREE_RB_BLACK n q).
      { clear -Ht. destruct side2; cbn in Ht; by inversion Ht; subst. }
      split; apply rbt_red; tauto.
Qed.

(** What the loop ends with: a tree of the nodes [ks] that is red-black but for a red root. *)
Definition settles (res : option RB) (s : RB) (ks : list ptr) : Prop :=
  exists s' t col m, res = Some s' /\ repr s' [] t /\ t <> E /\ changes s s' K /\ elems t = ks /\ rbt col m t.

Lemma plug_node c : forall t, t <> E -> plug c t <> E.
Proof. induction c as [|f c IH]; intros t Ht; [done|]. cbn. apply IH. by destruct f. Qed.

Lemma settle_black fuel s c side k b l x r n : repr s (fr side LW_TREE_RB_BLACK k b :: c) (T LW_TREE_RB_RED l x r) ->
  rbt LW_TREE_RB_RED n (T LW_TREE_RB_RED l x r) -> path_rb LW_TREE_RB_BLACK n (fr side LW_TREE_RB_BLACK k b :: c) ->
  settles (insert_loop (S fuel) x s) s (around (fr side LW_TREE_RB_BLACK k b :: c) (T LW_TREE_RB_RED l x r)).
Proof.
  intros H Ht Hp. destruct (plug_rb _ _ _ _ _ Hp Ht) as [m Hm]; [intros E; discriminate E|].
  exists s, (plug (fr side LW_TREE_RB_BLACK k b :: c) (T LW_TREE_RB_RED l x r)), LW_TREE_RB_BLACK, m.
  split; [|split; [by apply repr_plug|split; [by apply plug_node|split; [done|split; [apply elems_plug|done]]]]].
  apply (colour_stop fuel _ s l x r LW_TREE_RB_BLACK H); [by left|].
  intros side' col k' b' c' E. destruct side, side'; cbn in E; by injection E.
Qed.

Lemma insert_loop_spec fuel : forall c s l x r n pc, (length c < fuel)%nat -> repr s c (T LW_TREE_RB_RED l x r) ->
  rbt LW_TREE_RB_RED n (T LW_TREE_RB_RED l x r) -> path_rb pc n c ->
  settles (insert_loop fuel x s) s (around c (T LW_TREE_RB_RED l x r)).
Proof.
  induction fuel as [|fuel IH]; intros c s l x r n pc Hf H Ht Hp; [lia|].
  destruct Hp as [n|side n p b c Hb Hp|side n cb pc p b c Hb Hp].
  - exists s, (T LW_TREE_RB_RED l x r), LW_TREE_RB_RED, n. split; [by apply (colour_stop fuel [] s l x r LW_TREE_RB_RED); [|right|]|].
    split; [done|]. split; [done|]. split; [done|]. split; [by unfold around; cbn; rewrite app_nil_r|done].
  - inversion Hp as [|?|side2 n' cu pc' g u c' Hu Hp' E1 E2 E3]; subst. clear Hp.
    assert (Ep : up (fr side LW_TREE_RB_RED p b :: fr side2 LW_TREE_RB_BLACK g u :: c') = p) by (by destruct side).
    destruct (read_node s _ true _ l x r H) as (_ & _ & _ & Ex & _). rewrite Ep in Ex.
    cbn [insert_loop]. rewrite Ex. cbn [mbind option_bind]. pose proof (repr_up _ _ _ _ _ _ _ H) as H1.
    destruct (read_color _ _ _ H1) as [Ec _]. rewrite root_mk in Ec. rewrite Ec.
    assert (Ecol : color (mk side LW_TREE_RB_RED (T LW_TREE_RB_RED l x r) p b) = LW_TREE_RB_RED) by (by destruct side). rewrite Ecol. cbn [mbind option_bind].
    change (LW_TREE_RB_RED =? LW_TREE_RB_RED) with true. cbv iota.
    destruct (read_node _ _ side _ _ _ _ H1) as (_ & _ & _ & Eg & _). rewrite Eg.
    assert (Eg2 : up (fr side2 LW_TREE_RB_BLACK g u :: c') = g) by (by destruct side2). rewrite Eg2. cbn [mbind option_bind].
    pose proof (repr_up _ _ _ _ _ _ _ H1) as H2.
    destruct (child_test _ _ _ _ _ _ _ H2) as (v & Ev & Hv); [left; by destruct side|]. rewrite root_mk in Hv. rewrite Ev. cbn [mbind option_bind].
    rewrite Z.eqb_sym, Hv.
    assert (Estep : (if side2 then insert_step get_right __tree_rb_rotate_left __tree_rb_rotate_right x p g s
      else insert_step get_left __tree_rb_rotate_right __tree_rb_rotate_left x p g s)
      = insert_step (get_far side2) (rot side2) (rot (negb side2)) x p g s) by (by destruct side2). rewrite Estep.
    assert (Hlb : rbt LW_TREE_RB_BLACK n l /\ rbt LW_TREE_RB_BLACK n r) by (by inversion Ht; subst).
    cbn [length] in Hf. rewrite !around_fr. destruct (decide (color u = LW_TREE_RB_RED)) as [Eu|Eu].
    + destruct u as [|cu' ul uk ur]; [done|]. cbn in Eu. subst cu'.
      destruct (insert_recolor _ _ _ _ _ _ _ _ _ _ _ H2) as (s1 & A0 & H3 & D1). cbn [root] in A0. rewrite A0. cbn [mbind option_bind].
      assert (Hrb : rbt LW_TREE_RB_RED (S n) (mk side2 LW_TREE_RB_RED (mk side LW_TREE_RB_BLACK (T LW_TREE_RB_RED l x r) p b) g (T LW_TREE_RB_BLACK ul uk ur))).
      { apply rbt_red; [by eapply rbt_black|]. inversion Hu; subst. by eapply rbt_B. }
      assert (Em : exists L R, mk side2 LW_TREE_RB_RED (mk side LW_TREE_RB_BLACK (T LW_TREE_RB_RED l x r) p b) g (T LW_TREE_RB_BLACK ul uk ur) = T LW_TREE_RB_RED L g R).
      { destruct side2; by eexists _, _. }
      destruct Em as (L & R & Em). rewrite Em in *.
      destruct (IH c' s1 L g R _ _ ltac:(lia) H3 Hrb Hp') as (s2 & t2 & col2 & m2 & A1 & A2 & A3 & A4 & A5 & A6).
      exists s2, t2, col2, m2. split; [done|]. split; [done|]. split; [done|]. split; [by chain|]. split; [|done].
      rewrite A5, <-Em. unfold around. do 2 f_equal. by destruct side, side2.
    + destruct (insert_rotate _ _ _ _ _ _ _ _ _ H2 Eu) as (s1 & l1 & x1 & r1 & k1 & B1 & A1 & H3 & D1 & Ar & R1); [by eexists _, _, _|].
      cbn [root] in A1. rewrite A1. cbn [mbind option_bind]. destruct fuel as [|fuel]; [lia|].
      assert (Hu' : rbt LW_TREE_RB_BLACK n u) by (destruct (rbt_cases _ _ _ Hu) as [->| ->]; [by rewrite (rbt_color _ _ _ Hu) in Eu|done]).
      destruct (R1 n Ht Hb Hu') as [R2 R3].
      destruct (settle_black fuel s1 c' side2 k1 B1 l1 x1 r1 n (repr_down _ _ _ _ _ _ _ H3) R2) as (s2 & t2 & col2 & m2 & B2 & B3 & B4 & B5 & B6 & B7);
        [by eapply pr_black|].
      exists s2, t2, col2, m2. split; [done|]. split; [done|]. split; [done|]. split; [by chain|]. split; [|done].
      by rewrite B6, around_fr.
  - apply (settle_black fuel s c side p b l x r n); [done|done|by eapply pr_black].
Qed.

(** *** The whole insertion *)

(** Every node of the tree is in the store. *)
Lemma tree_dom m par t : tree_at m par t -> forall k, k ∈ elems t -> is_Some (m !! k).
Proof.
  revert par. induction t as [|c l IHl k r IHr]; intros par; cbn; [intros _ k H; by apply not_elem_of_nil in H|].
  intros (H1 & H2 & H3) x [Hx|[->|Hx]%elem_of_cons]%elem_of_app; [by eapply IHl|by eexists|by eapply IHr].
Qed.

Lemma size_bound (m : gmap ptr LW_TREE_RB_NODE) (l : list ptr) : NoDup l -> (forall k, k ∈ l -> is_Some (m !! k)) -> (length l <= size m)%nat.
Proof.
  intros Hn Hd. rewrite <-size_dom, <-(size_list_to_set (C := gset ptr) l Hn). apply subseteq_size. intros k Hk.
  apply elem_of_dom, Hd. by apply elem_of_list_to_set in Hk.
Qed.

Lemma length_path c t : (length c + length (elems t) <= length (around c t))%nat.
Proof. revert t. induction c as [|f c IH]; intros t; [unfold around; cbn; rewrite app_nil_r; lia|].
  specialize (IH (fill f t)). rewrite <-around_fill. assert (S (length (elems t)) <= length (elems (fill f t)))%nat
    by (destruct f; cbn; rewrite length_app; cbn; lia). cbn [length]. lia. Qed.

Lemma repr_fuel s c t : repr s c t -> (length c + length (elems t) < rb_fuel s)%nat.
Proof.
  intros H. pose proof (length_path c t) as Hl. rewrite <-elems_plug in Hl. apply repr_plug in H. destruct H as [Ht _ Hn].
  assert (length (elems (plug c t)) <= size (RB_node s))%nat.
  { apply size_bound; [|by eapply tree_dom]. unfold around in Hn. cbn in Hn. rewrite app_nil_r in Hn. by apply NoDup_cons in Hn as [_ Hn]. }
  unfold rb_fuel. lia.
Qed.

Lemma insert_color_spec s c l x r n pc : repr s c (T LW_TREE_RB_RED l x r) -> rbt LW_TREE_RB_RED n (T LW_TREE_RB_RED l x r) ->
  path_rb pc n c -> exists s' t m, _Tree_Rb_Insert_Color x s = Some s' /\ repr s' [] t /\ rbt LW_TREE_RB_BLACK m t /\
    changes s s' K /\ elems t = around c (T LW_TREE_RB_RED l x r).
Proof.
  intros H Ht Hp. unfold _Tree_Rb_Insert_Color. pose proof (repr_fuel s c _ H) as Hf.
  destruct (insert_loop_spec (rb_fuel s) c s l x r n pc ltac:(lia) H Ht Hp) as (s1 & t1 & col & m1 & -> & H1 & Hne & D1 & E1 & R1).
  cbn [mbind option_bind]. rewrite (rp_path _ _ _ _ H1). destruct t1 as [|cc ll k rr]; [done|]. cbn [root].
  destruct (color_spec s1 [] true cc ll k rr LW_TREE_RB_BLACK H1) as (s2 & -> & H2 & D2).
  destruct (rbt_paint _ _ _ R1 Hne) as [m2 R2]. exists s2, (T LW_TREE_RB_BLACK ll k rr), m2.
  split; [done|]. split; [done|]. split; [done|]. split; [by chain|]. by rewrite <-E1.
Qed.

(** ** Deletion *)

(** The number of black nodes on the ways down from a node of colour [c] over subtrees with [n]. *)
Definition bh (c : Z) (n : nat) : nat := if c =? LW_TREE_RB_BLACK then S n else n.

Lemma rbt_mk side cp n c1 c2 a k b : cp = LW_TREE_RB_RED \/ cp = LW_TREE_RB_BLACK -> rbt c1 n a -> rbt c2 n b ->
  (cp = LW_TREE_RB_RED -> c1 = LW_TREE_RB_BLACK /\ c2 = LW_TREE_RB_BLACK) -> rbt cp (bh cp n) (mk side cp a k b).
Proof.
  intros [->| ->] H1 H2 Hc; [|by eapply rbt_black]. destruct (Hc eq_refl) as [-> ->]. by apply rbt_red.
Qed.

Lemma path_inv side pc n cp p o c : path_rb pc n (fr side cp p o :: c) -> exists co pc', pc = cp /\ rbt co n o /\ path_rb pc' (bh cp n) c /\
  (cp = LW_TREE_RB_RED \/ cp = LW_TREE_RB_BLACK) /\ (cp = LW_TREE_RB_RED -> co = LW_TREE_RB_BLACK /\ pc' = LW_TREE_RB_BLACK).
Proof.
  intros H. inversion H as [|side' n' k b c' Hb Hp E1 E2 E3|side' n' cb pc' k b c' Hb Hp E1 E2 E3]; subst.
  - assert (E : cp = LW_TREE_RB_RED /\ b = o) by (destruct side, side'; cbn in E3; by simplify_eq). destruct E as [-> ->].
    eexists _, _. split; [done|]. split; [done|]. split; [exact Hp|]. split; [by left|done].
  - assert (E : cp = LW_TREE_RB_BLACK /\ b = o) by (destruct side, side'; cbn in E3; by simplify_eq). destruct E as [-> ->].
    eexists _, _. split; [done|]. split; [done|]. split; [exact Hp|]. split; [by right|]. intros E. discriminate E.
Qed.

Lemma side_tree side col l k r : exists a b, T col l k r = mk side col a k b.
Proof. destruct side; [by exists l, r|by exists r, l]. Qed.

(** The inverse of [rbt_mk]. *)
Lemma mk_inv side cp n a k b : rbt cp n (mk side cp a k b) -> exists c1 c2 m, n = bh cp m /\ rbt c1 m a /\ rbt c2 m b /\
  (cp = LW_TREE_RB_RED -> c1 = LW_TREE_RB_BLACK /\ c2 = LW_TREE_RB_BLACK).
Proof.
  intros H. assert (H' : rbt cp n (mk true cp a k b)).
  { destruct side; [done|]. cbn in *. inversion H; subst; econstructor; done. }
  cbn in H'. inversion H' as [|n' ? ? ? Ha Hb|n' c1 c2 ? ? ? Ha Hb]; subst.
  - by exists LW_TREE_RB_BLACK, LW_TREE_RB_BLACK, n.
  - exists c1, c2, n'. split; [done|]. split; [done|]. split; [done|]. intros E. discriminate E.
Qed.

(** The other child is black. *)
Definition erase_on (side : bool) : ptr -> ptr -> RB -> option (RB * bool * ptr * ptr) :=
  erase_black (get_far side) (get_near side) (rot side) (rot (negb side)).

Lemma erase_recolor s c side cp t p ol ok or : repr s c (mk side cp t p (mk side LW_TREE_RB_BLACK ol ok or)) ->
  color ol = LW_TREE_RB_BLACK -> color or = LW_TREE_RB_BLACK -> exists s',
  erase_on side p ok s = Some (s', true, p, up c) /\ repr s' c (mk side cp t p (mk side LW_TREE_RB_RED ol ok or)) /\
  changes s s' K.
Proof.
  intros H El Er. unfold erase_on, erase_black. apply repr_far in H. destruct (read_node _ _ side _ _ _ _ H) as (_ & En & Ef & _).
  rewrite En, Ef. cbn [mbind option_bind].
  destruct (read_color _ _ _ (repr_down _ _ _ _ _ _ _ H)) as [_ ->]. destruct (read_color _ _ _ (repr_far _ _ _ _ _ _ _ H)) as [_ ->].
  cbn [mbind option_bind]. rewrite El, Er. change (LW_TREE_RB_BLACK =? LW_TREE_RB_BLACK) with true. cbv iota. cbn [andb].
  destruct (color_spec s _ side _ ol ok or LW_TREE_RB_RED H) as (s1 & -> & H1%repr_back & D1). cbn [mbind option_bind].
  destruct (read_node _ _ side _ _ _ _ H1) as (_ & _ & _ & -> & _). cbn [mbind option_bind]. by exists s1.
Qed.

(** The last rotation. *)
Lemma erase_final s c side cp t p co a q b : repr s c (mk side cp t p (mk side co a q b)) -> exists s',
  (c ← get_color p s; s ← set_color q c s; s ← set_color p LW_TREE_RB_BLACK s; far ← get_far side q s;
   s ← set_color_if far LW_TREE_RB_BLACK s; s ← rot side p s; Some (s, false, TRBR_ptrbnNode s, NULL))
    = Some (s', false, TRBR_ptrbnNode s', NULL) /\
  repr s' c (mk side cp (mk side LW_TREE_RB_BLACK t p a) q (paint LW_TREE_RB_BLACK b)) /\ changes s s' K.
Proof.
  intros H. destruct (read_node _ _ side _ _ _ _ H) as (_ & _ & _ & _ & ->). cbn [mbind option_bind].
  destruct (color_spec s _ side _ a q b cp (repr_far _ _ _ _ _ _ _ H)) as (s1 & -> & H1%repr_back & D1). cbn [mbind option_bind].
  destruct (color_spec s1 _ side _ t p _ LW_TREE_RB_BLACK H1) as (s2 & -> & H2%repr_far & D2). cbn [mbind option_bind].
  destruct (read_node _ _ side _ _ _ _ H2) as (_ & _ & -> & _). cbn [mbind option_bind].
  destruct (paint_spec s2 _ b LW_TREE_RB_BLACK (repr_far _ _ _ _ _ _ _ H2)) as (s3 & -> & H3%repr_back%repr_back & D3). cbn [mbind option_bind].
  destruct (rot_spec s3 c side _ _ _ _ _ _ _ H3) as (s4 & -> & H4 & D4). cbn [mbind option_bind].
  exists s4. split; [done|]. split; [done|by chain].
Qed.

Lemma erase_far s c side cp t p ol ok or : repr s c (mk side cp t p (mk side LW_TREE_RB_BLACK ol ok or)) ->
  color or <> LW_TREE_RB_BLACK -> exists s', erase_on side p ok s = Some (s', false, TRBR_ptrbnNode s', NULL) /\
  repr s' c (mk side cp (mk side LW_TREE_RB_BLACK t p ol) ok (paint LW_TREE_RB_BLACK or)) /\ changes s s' K.
Proof.
  intros H Er. unfold erase_on, erase_black. pose proof (repr_far _ _ _ _ _ _ _ H) as H0. destruct (read_node _ _ side _ _ _ _ H0) as (_ & En & Ef & _).
  rewrite En, Ef. cbn [mbind option_bind].
  destruct (read_color _ _ _ (repr_down _ _ _ _ _ _ _ H0)) as [_ ->]. destruct (read_color _ _ _ (repr_far _ _ _ _ _ _ _ H0)) as [_ ->].
  cbn [mbind option_bind]. rewrite (proj2 (Z.eqb_neq _ _) Er), andb_false_r. cbv iota. cbn [mbind option_bind].
  by eapply erase_final.
Qed.

Lemma erase_near s c side cp t p cl ll lk lr ok or :
  repr s c (mk side cp t p (mk side LW_TREE_RB_BLACK (mk side cl ll lk lr) ok or)) ->
  cl <> LW_TREE_RB_BLACK -> color or = LW_TREE_RB_BLACK -> exists s', erase_on side p ok s = Some (s', false, TRBR_ptrbnNode s', NULL) /\
  repr s' c (mk side cp (mk side LW_TREE_RB_BLACK t p ll) lk (mk side LW_TREE_RB_BLACK lr ok or)) /\ changes s s' K.
Proof.
  intros H El Er. unfold erase_on, erase_black. pose proof (repr_far _ _ _ _ _ _ _ H) as H0. destruct (read_node _ _ side _ _ _ _ H0) as (_ & En & Ef & _).
  rewrite En, Ef. cbn [mbind option_bind].
  destruct (read_color _ _ _ (repr_down _ _ _ _ _ _ _ H0)) as [_ ->]. destruct (read_color _ _ _ (repr_far _ _ _ _ _ _ _ H0)) as [_ ->].
  assert (Ecl : color (mk side cl ll lk lr) = cl) by (by destruct side).
  cbn [mbind option_bind]. rewrite Ecl, Er, (proj2 (Z.eqb_neq _ _) El). change (LW_TREE_RB_BLACK =? LW_TREE_RB_BLACK) with true.
  cbn [andb]. cbv iota. cbn [mbind option_bind].
  destruct (paint_spec s _ _ LW_TREE_RB_BLACK (repr_down _ _ _ _ _ _ _ H0)) as (s1 & -> & H1%repr_up & D1). cbn [mbind option_bind].
  assert (Epl : paint LW_TREE_RB_BLACK (mk side cl ll lk lr) = mk side LW_TREE_RB_BLACK ll lk lr) by (by destruct side). rewrite Epl in H1.
  destruct (color_spec s1 _ side _ _ ok or LW_TREE_RB_RED H1) as (s2 & -> & H2 & D2). cbn [mbind option_bind].
  destruct (rot_back_spec s2 _ side _ _ _ _ _ _ _ H2) as (s3 & -> & H3%repr_back & D3). cbn [mbind option_bind].
  destruct (read_node _ _ side _ _ _ _ H3) as (_ & _ & -> & _). rewrite root_mk. cbn [mbind option_bind].
  destruct (erase_final s3 c side _ t p _ _ _ _ H3) as (s4 & -> & H4 & D4). exists s4. split; [done|]. split; [|by chain].
  by destruct side.
Qed.

(** All cases: the step goes up with a red sibling, or the tree is in order. *)
Lemma erase_black_spec s c side cp t p ok ol or n ct : repr s c (mk side cp t p (mk side LW_TREE_RB_BLACK ol ok or)) ->
  cp = LW_TREE_RB_RED \/ cp = LW_TREE_RB_BLACK -> rbt ct n t -> rbt LW_TREE_RB_BLACK (S n) (mk side LW_TREE_RB_BLACK ol ok or) ->
  (exists s', erase_on side p ok s = Some (s', true, p, up c) /\ repr s' c (mk side cp t p (mk side LW_TREE_RB_RED ol ok or)) /\
    changes s s' K /\ rbt LW_TREE_RB_RED n (mk side LW_TREE_RB_RED ol ok or)) \/
  (exists s' R, erase_on side p ok s = Some (s', false, TRBR_ptrbnNode s', NULL) /\ repr s' c R /\ R <> E /\
    changes s s' K /\ rbt cp (bh cp (S n)) R /\
    around c R = around c (mk side cp t p (mk side LW_TREE_RB_BLACK ol ok or))).
Proof.
  intros H Hcp Ht Ho. destruct (mk_inv _ _ _ _ _ _ Ho) as (c1 & c2 & m & Em & Hl & Hr & _). cbn in Em. injection Em as <-.
  destruct (decide (color or = LW_TREE_RB_BLACK)) as [Er|Er].
  - destruct (decide (color ol = LW_TREE_RB_BLACK)) as [El|El].
    + left. destruct (erase_recolor _ _ _ _ _ _ _ _ _ H El Er) as (s' & E1 & H1 & D1). exists s'. split; [done|]. split; [done|]. split; [done|].
      rewrite (rbt_color _ _ _ Hl) in El. rewrite (rbt_color _ _ _ Hr) in Er. subst. by apply rbt_red.
    + right. destruct ol as [|cl ll0 lk lr0]; [done|]. destruct (side_tree side cl ll0 lk lr0) as (ll & lr & El'). rewrite El' in *.
      assert (Ecl : color (mk side cl ll lk lr) = cl) by (by destruct side). rewrite Ecl in El.
      destruct (erase_near _ _ _ _ _ _ _ _ _ _ _ _ H El Er) as (s' & E1 & H1 & D1). eexists s', _. split; [done|]. split; [exact H1|].
      pose proof (rbt_color _ _ _ Hl) as Ec1. rewrite Ecl in Ec1. subst c1.
      destruct (mk_inv _ _ _ _ _ _ Hl) as (d1 & d2 & m' & Em' & Hll & Hlr & _).
      destruct (rbt_cases _ _ _ Hl) as [->|]; [|done]. cbn in Em'. subst m'.
      split; [by destruct side|]. split; [done|]. split.
      * eapply rbt_mk; [done|by eapply rbt_black|by eapply rbt_black|done].
      * same_order side.
  - right. destruct (erase_far _ _ _ _ _ _ _ _ _ H Er) as (s' & E1 & H1 & D1). eexists s', _. split; [done|]. split; [exact H1|].
    split; [by destruct side|]. split; [done|].
    destruct or as [|cr rl rk rr]; [done|]. cbn in Er. split.
    + pose proof (rbt_color _ _ _ Hr) as Ec. cbn in Ec. subst c2. destruct (rbt_cases _ _ _ Hr) as [->|]; [|done].
      inversion Hr; subst. eapply rbt_mk; [done|by eapply rbt_black|by eapply rbt_B|done].
    + same_order side.
Qed.

(** What the loop ends with, and the colouring after it: a red-black tree of the nodes [ks]. *)
Definition erases (res : option (RB * ptr)) (s : RB) (ks : list ptr) : Prop :=
  exists s1 x s2 t m, res = Some (s1, x) /\ set_color_if x LW_TREE_RB_BLACK s1 = Some s2 /\ repr s2 [] t /\
    changes s s2 K /\ elems t = ks /\ rbt LW_TREE_RB_BLACK m t.

Lemma erases_from res s s0 ks ks0 : erases res s ks -> changes s0 s K -> ks = ks0 -> erases res s0 ks0.
Proof. intros (s1 & x & s2 & t & m & H1 & H2 & H3 & H4 & H5) Hd <-. exists s1, x, s2, t, m. do 3 (split; [done|]). split; [by chain|done]. Qed.

(** The node of the hole is the root exactly when there is no path. *)
Lemma at_root s c t : repr s c t -> c <> [] -> (root t =? TRBR_ptrbnNode s) = false.
Proof.
  intros H Hc. assert (Hr : TRBR_ptrbnNode s ∈ before c ++ after c).
  { apply rp_path in H. revert H Hc. generalize (root t). induction c as [|f c IH]; intros h Hp Hc; [done|].
    destruct f as [col k r|col l k]; cbn in Hp; destruct Hp as (_ & _ & Hp); (destruct c as [|f' c]; [cbn in Hp; rewrite Hp; cbn; set_solver|]);
      specialize (IH k Hp ltac:(done)); cbn [before after] in *; set_solver. }
  apply Z.eqb_neq. intros E. rewrite <-E in Hr. pose proof (rp_keys _ _ _ _ H) as Hn.
  pose proof (around_regions c t [elems t] Hn ltac:(by cbn; rewrite app_nil_r)) as HR. cbn in HR. destruct_and!.
  destruct t as [|cc l k r]; cbn in *; distinct; set_solver.
Qed.

(** A red node at the hole, or no path: the loop stops. *)
Lemma erase_stop fuel c s t m pc : repr s c t -> rbt LW_TREE_RB_BLACK m (paint LW_TREE_RB_BLACK t) -> path_rb pc m c ->
  color t = LW_TREE_RB_RED \/ c = [] -> erases (erase_loop (S fuel) (root t) (up c) s) s (around c t).
Proof.
  intros H Ht Hp Hc. destruct (read_color _ _ _ H) as [_ Eb].
  assert (E1 : erase_loop (S fuel) (root t) (up c) s = Some (s, root t)).
  { cbn [erase_loop]. rewrite Eb. cbn [mbind option_bind]. destruct Hc as [->| ->]; [done|].
    rewrite (rp_path _ _ _ _ H), Z.eqb_refl, andb_false_r. done. }
  destruct (paint_spec s c t LW_TREE_RB_BLACK H) as (s2 & E2 & H2 & D2).
  destruct (plug_rb _ _ _ _ _ Hp Ht) as [m' Hb]; [done|]. exists s, (root t), s2, (plug c (paint LW_TREE_RB_BLACK t)), m'.
  split; [done|]. split; [done|]. split; [by apply repr_plug|]. split; [done|]. split; [|done].
  rewrite elems_plug. unfold around. by rewrite elems_paint.
Qed.

(** The tree is in order: the root is coloured. *)
Lemma erase_done s s0 c R m pc cp ks : repr s c R -> R <> E -> rbt cp m R -> path_rb pc m c -> (pc = LW_TREE_RB_RED -> cp = LW_TREE_RB_BLACK) ->
  around c R = ks -> changes s0 s K -> erases (Some (s, TRBR_ptrbnNode s)) s0 ks.
Proof.
  intros H Hne HR Hp Hc Ek D. destruct (plug_rb _ _ _ _ _ Hp HR Hc) as [m' Hm]. apply repr_plug in H.
  destruct (paint_spec s [] _ LW_TREE_RB_BLACK H) as (s2 & E2 & H2 & D2). rewrite <-(rp_path _ _ _ _ H) in E2.
  destruct (rbt_paint _ _ _ Hm (plug_node c R Hne)) as [m2 Hm2].
  exists s, (TRBR_ptrbnNode s), s2, (paint LW_TREE_RB_BLACK (plug c R)), m2. split; [done|]. split; [exact E2|]. split; [exact H2|]. split; [by chain|]. split; [|done].
  by rewrite elems_paint, elems_plug.
Qed.

Lemma paint_black n t : rbt LW_TREE_RB_BLACK n t -> paint LW_TREE_RB_BLACK t = t.
Proof. intros H. by inversion H. Qed.

Lemma erase_loop_spec fuel : forall c s t n pc col, (length c < fuel)%nat -> repr s c t -> rbt col n t -> path_rb pc (S n) c ->
  erases (erase_loop fuel (root t) (up c) s) s (around c t).
Proof.
  induction fuel as [|fuel IH]; intros c s t n pc col Hf H Ht Hp; [lia|].
  destruct (decide (col = LW_TREE_RB_RED)) as [->|Hcol]; [eapply erase_stop; [done| |exact Hp|left; by apply (rbt_color _ n)]; inversion Ht; subst; by eapply rbt_B|].
  assert (col = LW_TREE_RB_BLACK) as -> by (by destruct (rbt_cases _ _ _ Ht)).
  destruct c as [|f c]; [eapply erase_stop; [done| |apply pr_nil|by right]; rewrite (paint_black n t Ht); exact Ht|].
  assert (Hfr : exists side cp p o, f = fr side cp p o).
  { destruct f as [cc k b|cc b k]; [by exists true, cc, k, b|by exists false, cc, k, b]. }
  destruct Hfr as (side & cp & p & o & ->). destruct (path_inv _ _ _ _ _ _ _ Hp) as (co & pc' & -> & Ho & Hp' & Hcp & Hred).
  assert (Hone : o <> E) by (intros ->; inversion Ho). assert (Eup : up (fr side cp p o :: c) = p) by (by destruct side). rewrite Eup.
  cbn [erase_loop]. destruct (read_color _ _ _ H) as [_ Eb]. rewrite Eb, (rbt_color _ _ _ Ht), (at_root s _ t H) by done.
  cbn [mbind option_bind]. change (LW_TREE_RB_BLACK =? LW_TREE_RB_BLACK) with true. cbn [negb andb].
  apply repr_up in H. destruct (child_test _ _ _ _ _ _ _ H (or_intror Hone)) as (v & -> & Hv). cbn [mbind option_bind]. rewrite Hv.
  assert (Estep : (if side then erase_step get_right get_left __tree_rb_rotate_left __tree_rb_rotate_right p s
    else erase_step get_left get_right __tree_rb_rotate_right __tree_rb_rotate_left p s)
    = erase_step (get_far side) (get_near side) (rot side) (rot (negb side)) p s) by (by destruct side). rewrite Estep. clear Estep.
  destruct o as [|co' ol0 ok or0]; [done|]. destruct (side_tree side co' ol0 ok or0) as (ol & or & Eo). rewrite Eo in *.
  assert (co' = co) as -> by (rewrite <-(rbt_color _ _ _ Ho); by destruct side).
  unfold erase_step. destruct (read_node _ _ side _ _ _ _ H) as (_ & _ & -> & _). rewrite root_mk. cbn [mbind option_bind].
  destruct (read_node _ _ side _ _ _ _ (repr_far _ _ _ _ _ _ _ H)) as (_ & _ & _ & _ & ->). cbn [mbind option_bind]. cbn [length] in Hf.
  rewrite around_fr. destruct (rbt_cases _ _ _ Ho) as [->| ->].
  - change (LW_TREE_RB_RED =? LW_TREE_RB_RED) with true. cbv iota.
    assert (cp = LW_TREE_RB_BLACK) as -> by (destruct Hcp as [->|]; [by destruct (Hred eq_refl)|done]).
    destruct (color_spec s _ side _ ol ok or LW_TREE_RB_BLACK (repr_far _ _ _ _ _ _ _ H)) as (s1 & -> & H1%repr_back & D1). cbn [mbind option_bind].
    destruct (color_spec s1 _ side _ t p _ LW_TREE_RB_RED H1) as (s2 & -> & H2 & D2). cbn [mbind option_bind].
    destruct (rot_spec s2 _ side _ _ _ _ _ _ _ H2) as (s3 & -> & H3%repr_down & D3). cbn [mbind option_bind].
    destruct (read_node _ _ side _ _ _ _ H3) as (_ & _ & -> & _). cbn [mbind option_bind].
    destruct (mk_inv _ _ _ _ _ _ Ho) as (c1 & c2 & m & Em & Hl & Hr & Hc12). cbn in Em. subst m. destruct (Hc12 eq_refl) as [-> ->].
    assert (Hp3 : path_rb LW_TREE_RB_BLACK (S n) (fr side LW_TREE_RB_BLACK ok or :: c)) by (by eapply pr_black).
    destruct ol as [|cl ll0 lk lr0]; [inversion Hl|]. pose proof (rbt_color _ _ _ Hl) as Ecl. cbn in Ecl. subst cl.
    destruct (side_tree side LW_TREE_RB_BLACK ll0 lk lr0) as (ll & lr & El). rewrite El in *. rewrite root_mk.
    fold (erase_on side p lk s3).
    destruct (erase_black_spec _ _ _ _ _ _ _ _ _ _ _ H3 ltac:(by left) Ht Hl) as
      [(s4 & -> & H4 & D4 & R4)|(s4 & R & -> & H4 & Hne & D4 & R4 & A4)]; cbn [mbind option_bind].
    + destruct fuel as [|fuel]; [lia|]. rewrite <-(root_mk side LW_TREE_RB_RED t p (mk side LW_TREE_RB_RED ll lk lr)) at 1.
      eapply erases_from; [eapply (erase_stop fuel _ s4 _ (S n) LW_TREE_RB_BLACK H4); [|exact Hp3|left; by destruct side]|by chain|].
      * assert (Ep : paint LW_TREE_RB_BLACK (mk side LW_TREE_RB_RED t p (mk side LW_TREE_RB_RED ll lk lr)) =
          mk side LW_TREE_RB_BLACK t p (mk side LW_TREE_RB_RED ll lk lr)) by (by destruct side).
        rewrite Ep. by eapply rbt_black.
      * rewrite around_fr. same_order side.
    + eapply erase_done; [exact H4|done|exact R4|exact Hp3|intros E; discriminate E| |by chain].
      rewrite A4, around_fr. same_order side.
  - change (LW_TREE_RB_BLACK =? LW_TREE_RB_RED) with false. cbv iota. fold (erase_on side p ok s).
    destruct (erase_black_spec _ _ _ _ _ _ _ _ _ _ _ H Hcp Ht Ho) as
      [(s4 & -> & H4 & D4 & R4)|(s4 & R & -> & H4 & Hne & D4 & R4 & A4)]; cbn [mbind option_bind].
    + rewrite <-(root_mk side cp t p (mk side LW_TREE_RB_RED ol ok or)) at 1.
      assert (Ea : around c (mk side cp t p (mk side LW_TREE_RB_RED ol ok or)) = around c (mk side cp t p (mk side LW_TREE_RB_BLACK ol ok or)))
        by (same_order side).
      eapply erases_from; [|exact D4|exact Ea]. destruct Hcp as [->| ->].
      * destruct (Hred eq_refl) as [_ ->]. destruct fuel as [|fuel]; [lia|]. eapply (erase_stop fuel c s4 _ (S n)); [exact H4| |exact Hp'|left; by destruct side].
        assert (Ep : paint LW_TREE_RB_BLACK (mk side LW_TREE_RB_RED t p (mk side LW_TREE_RB_RED ol ok or)) =
          mk side LW_TREE_RB_BLACK t p (mk side LW_TREE_RB_RED ol ok or)) by (by destruct side).
        rewrite Ep. by eapply rbt_black.
      * eapply (IH c s4 _ (S n)); [lia|exact H4|by eapply rbt_black|exact Hp'].
    + eapply erase_done; [exact H4|done|exact R4|exact Hp'| |exact A4|by chain].
      intros ->. destruct Hcp as [->|]; [by destruct (Hred eq_refl)|done].
Qed.

Lemma erase_color_spec s c t n pc col : repr s c t -> rbt col n t -> path_rb pc (S n) c ->
  exists s' t' m, __tree_rb_erase_color (root t) (up c) s = Some s' /\ repr s' [] t' /\ rbt LW_TREE_RB_BLACK m t' /\
    changes s s' K /\ elems t' = around c t.
Proof.
  intros H Ht Hp. unfold __tree_rb_erase_color. pose proof (repr_fuel s c t H) as Hf.
  destruct (erase_loop_spec (rb_fuel s) c s t n pc col ltac:(lia) H Ht Hp) as (s1 & x & s2 & t2 & m & -> & E2 & H2 & D2 & A2 & R2).
  cbn [mbind option_bind]. exists s2, t2, m. by split_and!.
Qed.
End Loops.
