(* ===== verification/RbOps.v ===== *)
(** * Red-black trees: linking, unlinking and the complete operations

    A new node is put where a path leads; a node is taken out, its place taken by
    its child or by the next node; and the loops of the file RbLoop restore the
    red-black invariant. *)

From S2P Require Import Prelude Lists RbTree RbSpec RbLoop.

Section Ops.
Context (K : list ptr).
Abbreviation repr := (RbSpec.repr K).

(** ** Linking *)

(** The link a path leads to. *)
Definition link_of (c : path) : LINK :=
  match c with [] => LRoot | FL _ k _ :: _ => LLeftOf k | FR _ _ k :: _ => LRightOf k end.

Lemma set_link_hole c v s : set_link (link_of c) v s = set_hole c v s.
Proof. by destruct c as [|[]]. Qed.

Lemma link_spec s c x : repr s c E -> x ∈ K -> x ∉ before c ++ after c -> x <> NULL -> is_Some (RB_node s !! x) -> exists s',
  _tree_rb_link_node x (up c) (link_of c) s = Some s' /\ repr s' c (T LW_TREE_RB_RED E x E) /\ changes s s' K.
Proof.
  intros [Ht Hp Hn Hin] Hx Hxc Hx0 [n Hxn].
  assert (Hn' : NoDup (NULL :: around c (T LW_TREE_RB_RED E x E))).
  { rewrite around_perm. unfold around in Hn. cbn in *. apply NoDup_cons in Hn as [H0 H1]. constructor; [set_solver|]. by constructor. }
  assert (Hin' : around c (T LW_TREE_RB_RED E x E) ⊆ K) by (unfold around in *; cbn in *; set_solver).
  split_regions K c (T LW_TREE_RB_RED E x E) [[x]] Hn' Hin'. pose proof (changes_refl s K) as Hch. cbn [root] in Hp.
  unfold _tree_rb_link_node.
  assign x (with_parent (up c)) Hxn. assign x (with_color LW_TREE_RB_RED) Hxn. assign x (with_right NULL) Hxn. assign x (with_left NULL) Hxn.
  rewrite set_link_hole. rehang x Hp. eexists. split; [done|]. split; [|done]. by split.
Qed.

(** ** Unlinking a node with at most one child *)

Lemma erase_one_spec s c col z t a b : repr s c (T col a z b) -> (a = E /\ t = b) \/ (b = E /\ t = a) -> exists s',
  erase_one z (root t) s = Some (s', root t, up c, col) /\ repr s' c t /\ changes s s' K /\ RB_node s' !! z = RB_node s !! z.
Proof.
  intros [Ht Hp Hn Hin] Hab. cbn in Ht, Hp. destruct Ht as (Hzn & Ha & Hb).
  assert (Ht : tree_at (RB_node s) z t) by (by destruct Hab as [[_ ->]|[_ ->]]).
  assert (El : elems (T col a z b) ≡ₚ z :: elems t) by (destruct Hab as [[-> ->]|[-> ->]]; cbn; solve_Permutation).
  assert (Hn2 : NoDup (NULL :: around c t)).
  { rewrite around_perm in Hn |- *. rewrite El in Hn. cbn in Hn. apply NoDup_cons in Hn as [H0 [H1 H2]%NoDup_cons]. constructor; [set_solver|done]. }
  assert (Hin2 : around c t ⊆ K).
  { intros k Hk. apply Hin. rewrite around_perm, El. rewrite around_perm in Hk. cbn. by right. }
  assert (HR : regions [before c ++ after c; [z]; elems t]).
  { apply nodup_regions. cbn. rewrite around_perm, El in Hn. cbn in Hn. rewrite app_nil_r.
    eapply NoDup_Permutation_proper; [|exact Hn]. solve_Permutation. }
  assert (HI : inside K [before c ++ after c; [z]; elems t]).
  { apply concat_inside. intros k Hk. apply Hin. rewrite around_perm, El. cbn in *. set_solver. }
  cbn in HR, HI. destruct_and!. clear Ha Hb. pose proof (changes_refl s K) as Hch. rewrite Hzn. unfold erase_one.
  fetch z Hzn. adopt (up c) Ht.
  rewrite (proj1 (replace_hole _ z c (root t) Hp ltac:(assumption) ltac:(assumption) ltac:(assumption))). rehang (root t) Hp.
  eexists. split; [done|]. split; [by split|done].
Qed.

(** ** One node takes the place of another *)

Lemma take_place_spec s c col l z r y : repr s c (T col l z r) -> l <> E -> y ∈ K -> y ∉ around c (T col l z r) -> y <> NULL ->
  is_Some (RB_node s !! y) -> exists s', take_place y z s = Some s' /\ repr s' c (T col l y r) /\ changes s s' K.
Proof.
  intros [Ht Hp Hn Hin] Hl0 Hy Hyc Hy0 [n Hyn]. cbn in Ht, Hp. destruct Ht as (Hzn & Hl & Hr).
  assert (Hn2 : NoDup (NULL :: around c (T col l y r))).
  { rewrite around_perm in Hn, Hyc |- *. cbn in *. distinct. constructor; [set_solver|]. apply NoDup_app. split; [|split; [set_solver|by apply NoDup_app]].
    apply NoDup_app. split; [done|]. split; [set_solver|]. constructor; [set_solver|done]. }
  assert (Hin2 : around c (T col l y r) ⊆ K).
  { intros k Hk. rewrite around_perm in Hk. cbn in Hk. destruct (decide (k = y)) as [->|]; [done|]. apply Hin. rewrite around_perm. cbn. set_solver. }
  assert (HR : regions [before c ++ after c; [y]; elems l; [z]; elems r]).
  { apply nodup_regions. cbn. rewrite around_perm in Hn, Hyc. cbn in Hn, Hyc.
    apply (NoDup_Permutation_proper (NULL :: y :: (elems l ++ z :: elems r) ++ before c ++ after c)); [rewrite app_nil_r; solve_Permutation|].
    apply NoDup_cons in Hn as [H0 H1]. constructor; [set_solver|]. by constructor. }
  assert (HI : inside K [before c ++ after c; [y]; elems l; [z]; elems r]).
  { apply concat_inside. intros k Hk. destruct (decide (k = y)) as [->|]; [done|]. apply Hin. rewrite around_perm. cbn in *. set_solver. }
  cbn in HR, HI. destruct_and!. pose proof (changes_refl s K) as Hch. unfold take_place.
  fetch z Hzn. assign y (with_parent (up c)) Hyn. assign y (with_color col) Hyn. assign y (with_right (root r)) Hyn. assign y (with_left (root l)) Hyn.
  rewrite (proj1 (replace_hole _ z c y Hp ltac:(assumption) ltac:(assumption) ltac:(assumption))). rehang y Hp.
  assert (El : forall s, rb_store (root l) (with_parent y) s = set_parent_if (root l) y s).
  { intros s'. unfold set_parent_if. destruct l as [|cl ll lk lr]; [done|]. cbn [root]. rewrite (proj2 (Z.eqb_neq lk NULL)); [done|].
    intros ->. cbn in *. distinct. set_solver. }
  rewrite El. adopt y Hl. 
  edestruct (reparent _ _ y _ Hr) as (s' & E & Hk & Hc & Hr'); [assumption|]. clear Hr. carry Hc Hr'. rewrite E.
  eexists. split; [done|]. split; [|done]. by split.
Qed.

(** ** Unlinking a node with two children *)

Lemma plug_app c1 c2 t : plug (c1 ++ c2) t = plug c2 (plug c1 t).
Proof. revert t. induction c1 as [|f c1 IH]; intros t; [done|]. cbn. by rewrite IH. Qed.

(** The view of a part of a path. *)
Lemma repr_split s c1 c2 t : repr s (c1 ++ c2) t <-> repr s c2 (plug c1 t).
Proof. by rewrite <-(repr_plug K s (c1 ++ c2) t), plug_app, repr_plug. Qed.

(** The first node of a tree, at the end of a path of left children. *)
Lemma first_node t : t <> E -> exists c col k r, t = plug c (T col E k r) /\ before c = [].
Proof.
  induction t as [|c l IHl k r IHr]; [done|]. intros _. destruct l as [|cl ll lk lr].
  - by exists [], c, k, r.
  - destruct IHl as (c2 & col & y & yr & E1 & E2); [done|]. exists (c2 ++ [FL c k r]), col, y, yr. rewrite plug_app, <-E1.
    split; [done|]. clear E1. induction c2 as [|[cc kk rr|cc ll' kk] c2 IH]; cbn in *; [done|by apply IH|].
    by apply app_nil in E2 as [_ [_ ?]%app_nil].
Qed.

Lemma leftmost_spec fuel : forall s c2 c col y yr, (length c2 < fuel)%nat -> before c2 = [] -> repr s c (plug c2 (T col E y yr)) ->
  leftmost fuel (root (plug c2 (T col E y yr))) s = Some y.
Proof.
  induction fuel as [|fuel IH]; intros s c2 c col y yr Hf Hb H; [lia|].
  destruct c2 as [|f c2 _] using rev_ind.
  - cbn [plug root] in *. apply repr_load in H as [_ H]. cbn [leftmost]. unfold get_left. by rewrite H.
  - rewrite plug_app in *. cbn [plug] in *. rewrite length_app in Hf. cbn in Hf.
    assert (Hfb : before c2 = [] /\ exists fc k r, f = FL fc k r).
    { clear -Hb. revert Hb. induction c2 as [|[cc kk rr|cc ll kk] c2 IH]; cbn; intros Hb.
      - destruct f as [fc k r|fc l k]; [split; [done|by eexists _, _, _]|]. by apply app_nil in Hb as [_ ?].
      - by apply IH.
      - by apply app_nil in Hb as [_ [_ ?]%app_nil]. }
    destruct Hfb as [Hb2 (fc & k & r & ->)]. cbn [fill] in *. pose proof (repr_load _ _ _ _ _ _ _ H) as [_ Hl].
    apply (repr_fill K s (FL fc k r)) in H. pose proof (root_null K _ _ _ H) as Hnn.
    cbn [leftmost root]. unfold get_left. rewrite Hl. cbn [fmap option_fmap option_map mbind option_bind TRBN_ptrbnLeft]. rewrite Hnn.
    pose proof (plug_node c2 (T col E y yr) ltac:(done)) as Hne. destruct (plug c2 (T col E y yr)) as [|a1 a2 a3 a4] eqn:Ep; [done|].
    rewrite <-Ep in *. by eapply IH; [lia|done|].
Qed.

Lemma erase_two_spec s c col l z r : repr s c (T col l z r) -> l <> E -> r <> E -> exists c2 yc y yr s',
  r = plug c2 (T yc E y yr) /\ before c2 = [] /\ erase_two z s = Some (s', root yr, up (c2 ++ FR col l y :: c), yc) /\
  repr s' (c2 ++ FR col l y :: c) yr /\ changes s s' K.
Proof.
  intros H Hl Hr. destruct (first_node r Hr) as (c2 & yc & y & yr & Er & Hb). exists c2, yc, y, yr. rewrite Er in *. clear Er Hr.
  pose proof (repr_load _ _ _ _ _ _ _ H) as [_ Hz]. unfold erase_two, get_right. rewrite Hz. cbn [fmap option_fmap option_map mbind option_bind TRBN_ptrbnRight].
  apply (repr_fill K s (FR col l z)) in H. pose proof (repr_fuel K _ _ _ H) as Hf.
  assert (Hlen : (length c2 <= length (elems (plug c2 (T yc E y yr))))%nat).
  { rewrite elems_plug. pose proof (length_path c2 (T yc E y yr)). lia. }
  rewrite (leftmost_spec (rb_fuel s) s c2 _ yc y yr ltac:(lia) Hb H). cbn [mbind option_bind].
  assert (H2 : repr s (c2 ++ FR col l z :: c) (T yc E y yr)).
  { by apply repr_split. }
  pose proof (repr_load _ _ _ _ _ _ _ H2) as [Hy0 Hy]. rewrite Hy. cbn [fmap option_fmap option_map mbind option_bind TRBN_ptrbnRight].
  destruct (erase_one_spec s _ yc y yr E yr H2) as (s1 & -> & H3 & D3 & Ey); [by left|]. cbn [mbind option_bind].
  assert (Hyn : RB_node s !! y = Some (mkRbn (up (c2 ++ FR col l z :: c)) (root E) (root yr) yc)) by (by destruct (rp_tree _ _ _ _ H2)).
  rewrite Hyn in Ey. unfold get_parent. rewrite (load_some y s1 _ Hy0 Ey). cbn [fmap option_fmap option_map mbind option_bind TRBN_ptrbnParent].
  assert (H4 : repr s1 c (T col l z (plug c2 yr))) by (apply (proj1 (repr_split _ _ _ _)) in H3; by apply (repr_fill K s1 (FR col l z) c)).
  assert (Hys : y ∉ around c (T col l z (plug c2 yr))).
  { pose proof (rp_keys _ _ _ _ H2) as Hk. rewrite around_perm in Hk. cbn in Hk. apply NoDup_cons in Hk as [_ [Hk _]%NoDup_cons].
    intros Hy'. apply Hk. change (T col l z (plug c2 yr)) with (fill (FR col l z) (plug c2 yr)) in Hy'.
    rewrite around_fill, <-elems_plug, <-plug_app, elems_plug, around_perm in Hy'. exact Hy'. }
  assert (Hyk : y ∈ K) by (apply (rp_in _ _ _ _ H2); rewrite around_perm; left).
  destruct (take_place_spec s1 c col l z (plug c2 yr) y H4 Hl Hyk Hys Hy0) as (s2 & -> & H5 & D5); [by eexists|]. cbn [mbind option_bind].
  exists s2. split; [done|]. split; [done|]. split; [|split; [|by chain]].
  - do 3 f_equal. destruct c2 as [|f c2]; [cbn; by rewrite Z.eqb_refl|].
    assert (Hne : up (f :: c2) <> z); [|by destruct f; cbn in *; rewrite (proj2 (Z.eqb_neq _ _) Hne)].
    pose proof (rp_keys _ _ _ _ H4) as Hk. apply (proj1 (NoDup_cons _ _)) in Hk as [_ Hk]. intros E.
    assert (Hz2 : z ∈ elems (plug (f :: c2) yr)) by (rewrite elems_plug; unfold around; destruct f; cbn in *; subst; set_solver).
    unfold around in Hk. cbn [elems] in Hk. distinct. set_solver.
  - apply repr_split. by apply (repr_fill K s2 (FR col l y) c).
Qed.

(** ** The complete operations *)

Lemma path_mk side n cp p o co pc c : rbt co n o -> path_rb pc (bh cp n) c -> cp = LW_TREE_RB_RED \/ cp = LW_TREE_RB_BLACK ->
  (cp = LW_TREE_RB_RED -> co = LW_TREE_RB_BLACK /\ pc = LW_TREE_RB_BLACK) -> path_rb cp n (fr side cp p o :: c).
Proof.
  intros Ho Hp [->| ->] Hc; [destruct (Hc eq_refl) as [-> ->]; by apply pr_red|by eapply pr_black].
Qed.

Lemma frame_side f : exists side cp p o, f = fr side cp p o.
Proof. destruct f as [c k r|c l k]; [by exists true, c, k, r|by exists false, c, k, l]. Qed.

(** A red-black tree seen from a place in it. *)
Lemma unplug_rb c : forall t m, rbt LW_TREE_RB_BLACK m (plug c t) -> exists n pc col, rbt col n t /\ path_rb pc n c /\
  (pc = LW_TREE_RB_RED -> col = LW_TREE_RB_BLACK).
Proof.
  induction c as [|f c IH]; intros t m H; [by exists m, LW_TREE_RB_RED, LW_TREE_RB_BLACK; split; [|split; [constructor|]]|].
  destruct (IH _ _ H) as (n & pc & col & Ht & Hp & Hc). destruct (frame_side f) as (side & cp & p & o & ->).
  assert (Ef : fill (fr side cp p o) t = mk side cp t p o) by (by destruct side). rewrite Ef in Ht.
  assert (col = cp) as -> by (rewrite <-(rbt_color _ _ _ Ht); by destruct side).
  destruct (mk_inv _ _ _ _ _ _ Ht) as (c1 & c2 & m' & -> & H1 & H2 & Hc12). exists m', cp, c1. split; [done|]. split; [|by intros E; apply Hc12].
  eapply path_mk; [exact H2|exact Hp|by apply (rbt_cases _ _ _ Ht)|]. intros E. split; [by apply Hc12|].
  destruct Hp; [by specialize (Hc eq_refl); rewrite E in Hc|by specialize (Hc eq_refl); rewrite E in Hc|done].
Qed.

(** The names of the nodes on the path do not matter. *)
Lemma path_rename c2 col l z y c : forall pc n, path_rb pc n (c2 ++ FR col l z :: c) -> path_rb pc n (c2 ++ FR col l y :: c).
Proof.
  induction c2 as [|f c2 IH]; intros pc n H; cbn in *.
  - change (FR col l z) with (fr false col z l) in H. destruct (path_inv _ _ _ _ _ _ _ H) as (co & pc' & -> & Ho & Hp & Hcp & Hr).
    change (FR col l y) with (fr false col y l). by eapply path_mk.
  - destruct (frame_side f) as (side & cp & p & o & ->). destruct (path_inv _ _ _ _ _ _ _ H) as (co & pc' & -> & Ho & Hp & Hcp & Hr).
    eapply path_mk; [exact Ho|by apply IH|done|done].
Qed.

(** What is left of the black height when a node goes and its place is taken by a child. *)
Definition rb_tree (t : tree) : Prop := exists m, rbt LW_TREE_RB_BLACK m t.

Lemma erase_rest s c col t a b z : repr s c t -> rb_tree (plug c (T col a z b)) -> (a = E /\ t = b) \/ (b = E /\ t = a) -> exists s' t',
  (if col =? LW_TREE_RB_BLACK then __tree_rb_erase_color (root t) (up c) s else Some s) = Some s' /\
  repr s' [] t' /\ rb_tree t' /\ changes s s' K /\ elems t' = around c t.
Proof.
  intros H [m Hm] Hab. destruct (unplug_rb _ _ _ Hm) as (n & pc & col' & Ht & Hp & Hc).
  assert (col' = col) as -> by (by rewrite <-(rbt_color _ _ _ Ht)).
  destruct (mk_inv true _ _ _ _ _ Ht) as (c1 & c2 & m' & -> & H1 & H2 & Hc12).
  assert (Htt : exists ct, rbt ct m' t /\ (col = LW_TREE_RB_RED -> ct = LW_TREE_RB_BLACK)).
  { destruct Hab as [[_ ->]|[_ ->]]; [exists c2|exists c1]; (split; [done|]); intros E; by apply Hc12. }
  destruct Htt as (ct & Htt & Hct). destruct (rbt_cases _ _ _ Ht) as [->| ->].
  - change (LW_TREE_RB_RED =? LW_TREE_RB_BLACK) with false. cbv iota. rewrite (Hct eq_refl) in Htt. cbn in Hp.
    destruct (plug_rb _ _ _ _ _ Hp Htt) as [m2 Hm2]; [done|]. exists s, (plug c t). split; [done|]. split; [by apply repr_plug|].
    split; [by exists m2|]. split; [apply changes_refl|apply elems_plug].
  - change (LW_TREE_RB_BLACK =? LW_TREE_RB_BLACK) with true. cbv iota. cbn in Hp.
    destruct (erase_color_spec K s c t m' pc ct H Htt Hp) as (s' & t' & m2 & -> & H' & Hm2 & D & A).
    exists s', t'. split; [done|]. split; [done|]. split; [by exists m2|done].
Qed.

Lemma erase_at s c col l z r : repr s c (T col l z r) -> rb_tree (plug c (T col l z r)) -> exists s' t',
  _Tree_Rb_Erase z s = Some s' /\ repr s' [] t' /\ rb_tree t' /\ changes s s' K /\
  elems t' = (before c ++ elems l) ++ elems r ++ after c.
Proof.
  intros H Hrb. pose proof (repr_load _ _ _ _ _ _ _ H) as [_ Hz]. unfold _Tree_Rb_Erase, get_left, get_right. rewrite Hz.
  cbn [fmap option_fmap option_map mbind option_bind TRBN_ptrbnLeft TRBN_ptrbnRight].
  rewrite (root_null K s (FL col z r :: c) l) by (by apply repr_fill).
  rewrite (root_null K s (FR col l z :: c) r) by (by apply repr_fill).
  destruct (decide (l = E)) as [->|Hl]; [|destruct (decide (r = E)) as [->|Hr]].
  - destruct (erase_one_spec s c col z r E r H) as (s1 & -> & H1 & D1 & _); [by left|]. cbn [mbind option_bind].
    destruct (erase_rest s1 c col r E r z H1 Hrb) as (s2 & t2 & -> & H2 & R2 & D2 & A2); [by left|].
    exists s2, t2. split; [done|]. split; [done|]. split; [done|]. split; [by chain|]. by rewrite A2, app_nil_r.
  - destruct l as [|cl ll lk lr]; [done|].
    destruct (erase_one_spec s c col z (T cl ll lk lr) (T cl ll lk lr) E H) as (s1 & -> & H1 & D1 & _); [by right|]. cbn [mbind option_bind].
    destruct (erase_rest s1 c col (T cl ll lk lr) (T cl ll lk lr) E z H1 Hrb) as (s2 & t2 & -> & H2 & R2 & D2 & A2); [by right|].
    exists s2, t2. split; [done|]. split; [done|]. split; [done|]. split; [by chain|]. rewrite A2. unfold around. by rewrite <-app_assoc.
  - destruct (erase_two_spec s c col l z r H Hl Hr) as (c2 & yc & y & yr & s1 & Er & Hb2 & E1 & H1 & D1).
    destruct l as [|cl ll lk lr]; [done|]. destruct r as [|cr rl rk rr]; [done|]. rewrite E1. cbn [mbind option_bind].
    destruct Hrb as [m Hm]. change (plug c (T col (T cl ll lk lr) z (T cr rl rk rr))) with (plug (FR col (T cl ll lk lr) z :: c) (T cr rl rk rr)) in Hm.
    rewrite Er, <-plug_app in Hm. destruct (unplug_rb _ _ _ Hm) as (n & pc & yc' & Hy & Hp & Hc).
    apply path_rename with (y := y) in Hp. destruct (plug_rb _ _ _ _ _ Hp Hy Hc) as [m' Hm'].
    destruct (erase_rest s1 _ yc yr E yr y H1) as (s2 & t2 & -> & H2 & R2 & D2 & A2); [by exists m'|by left|].
    exists s2, t2. split; [done|]. split; [done|]. split; [done|]. split; [by chain|]. rewrite A2, Er.
    rewrite <-elems_plug, plug_app. cbn [plug fill]. rewrite !elems_plug. unfold around. cbn [elems]. rewrite !elems_plug. unfold around. rewrite Hb2. cbn [elems app].
    rewrite <-?app_assoc. cbn. rewrite <-?app_assoc. cbn. by rewrite <-?app_assoc.
Qed.
End Ops.
