(* ===== verification/RbLife.v ===== *)
(** * Red-black trees: what insertion and deletion promise

    The tree of a root is described by its nodes in order: a new node appears where the
    link is, a node that is taken out disappears from its place, nothing outside the tree
    changes, and no way down is longer than twice the logarithm of the number of nodes. *)

From S2P Require Import Prelude Lists RbTree RbSpec RbLoop RbOps.

(** ** Places in a tree *)

(** The nodes in front of a node and behind it are those of a place. *)
Lemma find_place z t : z ∈ elems t -> exists c col l r, t = plug c (T col l z r).
Proof.
  induction t as [|col l IHl k r IHr]; [by intros ?%elem_of_nil|]. cbn. intros [Hz|[->|Hz]%elem_of_cons]%elem_of_app.
  - destruct (IHl Hz) as (c & col' & l' & r' & ->). exists (c ++ [FL col k r]), col', l', r'. by rewrite plug_app.
  - by exists [], col, l, r.
  - destruct (IHr Hz) as (c & col' & l' & r' & ->). exists (c ++ [FR col l k]), col', l', r'. by rewrite plug_app.
Qed.

Lemma repr_mono K K' s c t : repr K s c t -> around c t ⊆ K' -> repr K' s c t.
Proof. by intros [H1 H2 H3 _] H. Qed.

(** ** Height *)

Fixpoint height (t : tree) : nat := match t with E => 0 | T _ l _ r => S (height l `max` height r) end.

Lemma rbt_size col n t : rbt col n t -> (2 ^ n <= S (length (elems t)))%nat.
Proof.
  intros H. induction H as [|n l k r _ IHl _ IHr|n c1 c2 l k r _ IHl _ IHr]; cbn [elems]; rewrite ?length_app; cbn [length] in *;
    [done|lia|rewrite Nat.pow_succ_r'; lia].
Qed.

Lemma rbt_height col n t : rbt col n t -> (height t <= 2 * n + (if decide (col = LW_TREE_RB_RED) then 1 else 0))%nat.
Proof.
  intros H. assert (Hb : LW_TREE_RB_BLACK <> LW_TREE_RB_RED) by done.
  induction H as [|n l k r _ IHl _ IHr|n c1 c2 l k r _ IHl _ IHr]; cbn [height];
    repeat case_decide; try done; lia.
Qed.

Lemma rb_height t : rb_tree t -> (height t <= 2 * Nat.log2 (S (length (elems t))))%nat.
Proof.
  intros [m H]. pose proof (rbt_height _ _ _ H) as Hh. pose proof (rbt_size _ _ _ H) as Hs. rewrite decide_False in Hh by done.
  apply Nat.log2_le_mono in Hs. rewrite Nat.log2_pow2 in Hs; lia.
Qed.

(** ** Insertion *)

Lemma insert_at K s c x : repr K s c E -> rb_tree (plug c E) -> x ∈ K -> x ∉ before c ++ after c -> x <> NULL ->
  is_Some (RB_node s !! x) -> exists s1 s' t, _tree_rb_link_node x (up c) (link_of c) s = Some s1 /\
  _Tree_Rb_Insert_Color x s1 = Some s' /\ repr K s' [] t /\ rb_tree t /\ changes s s' K /\ elems t = before c ++ x :: after c.
Proof.
  intros H [m Hm] Hx Hxc Hx0 Hxn. destruct (link_spec K s c x H Hx Hxc Hx0 Hxn) as (s1 & E1 & H1 & D1).
  destruct (unplug_rb _ _ _ Hm) as (n & pc & col & Ht & Hp & _). inversion Ht; subst.
  assert (Hrx : rbt LW_TREE_RB_RED 0 (T LW_TREE_RB_RED E x E)) by (constructor; constructor).
  destruct (insert_color_spec K s1 c E x E 0 pc H1 Hrx Hp) as (s' & t & m' & E2 & H2 & R2 & D2 & A2).
  exists s1, s', t. split_and!; [done|done|done|by exists m'|by chain|done].
Qed.

(** ** The promises *)

(** The root of [s] is that of the red-black tree [t], whose nodes are in the store. *)
Definition rb_rep (s : RB) (t : tree) : Prop := repr (elems t) s [] t /\ rb_tree t.

Lemma rb_rep_keys s t : rb_rep s t -> NoDup (elems t) /\ NULL ∉ elems t.
Proof. intros [[_ _ Hn _] _]. unfold around in Hn. cbn in Hn. rewrite app_nil_r in Hn. by apply NoDup_cons in Hn as [? ?]. Qed.

Lemma rb_rep_of K s t : repr K s [] t -> rb_tree t -> rb_rep s t.
Proof. intros H Ht. split; [|done]. eapply repr_mono; [done|]. unfold around. cbn. by rewrite app_nil_r. Qed.

Lemma insert_spec s c x : rb_rep s (plug c E) -> x ∉ elems (plug c E) -> x <> NULL -> is_Some (RB_node s !! x) ->
  exists s1 s' t, _tree_rb_link_node x (up c) (link_of c) s = Some s1 /\ _Tree_Rb_Insert_Color x s1 = Some s' /\
  rb_rep s' t /\ elems t = before c ++ x :: after c /\ changes s s' (x :: elems (plug c E)).
Proof.
  intros [H Ht] Hx Hx0 Hxn. rewrite elems_plug in *. unfold around in *. cbn in *.
  apply (repr_mono _ (x :: before c ++ after c)) in H; [|rewrite around_perm, elems_plug; unfold around; cbn; set_solver].
  apply (proj1 (repr_plug _ _ _ _)) in H. destruct (insert_at _ s c x H Ht) as (s1 & s' & t & E1 & E2 & H' & Ht' & D & A); [left|done|done|done|].
  exists s1, s', t. split_and!; [done|done|by eapply rb_rep_of|done|done].
Qed.

Lemma erase_spec s t z : rb_rep s t -> z ∈ elems t -> exists s' t', _Tree_Rb_Erase z s = Some s' /\
  rb_rep s' t' /\ elems t' = remove_node z (elems t) /\ changes s s' (elems t).
Proof.
  intros [H Ht] Hz. destruct (rb_rep_keys s t (conj H Ht)) as [Hn _].
  destruct (find_place z t Hz) as (c & col & l & r & ->). apply (proj1 (repr_plug _ _ _ _)) in H.
  destruct (erase_at _ s c col l z r H Ht) as (s' & t' & E & H' & Ht' & D & A). exists s', t'.
  split_and!; [done|by eapply rb_rep_of| |done]. rewrite A. rewrite elems_plug in *. unfold around in *. cbn in *.
  assert (El : before c ++ (elems l ++ z :: elems r) ++ after c = (before c ++ elems l) ++ z :: elems r ++ after c) by (by rewrite <-!app_assoc).
  rewrite El in Hn |- *. rewrite remove_node_app; [done|].
  apply NoDup_app in Hn as (_ & Hn & _). intros Hz'. apply (Hn z Hz'). left.
Qed.

(** ** The theorems *)

(** C20: Linking a new node at an empty link of a red-black tree and re-colouring succeeds; the result is a
    red-black tree in which the node stands exactly where the link was, the others keeping
    their order; its height is at most twice the logarithm of its size plus one; and only
    nodes of the tree have changed. *)
Theorem rb_insert_balanced s c x : rb_rep s (plug c E) -> x ∉ elems (plug c E) -> x <> NULL -> is_Some (RB_node s !! x) ->
  exists s1 s' t, _tree_rb_link_node x (up c) (link_of c) s = Some s1 /\ _Tree_Rb_Insert_Color x s1 = Some s' /\
  rb_rep s' t /\ elems t = before c ++ x :: after c /\ (height t <= 2 * Nat.log2 (S (length (elems t))))%nat /\
  (forall k, k <> x -> k ∉ elems (plug c E) -> RB_node s' !! k = RB_node s !! k).
Proof.
  intros H Hx Hx0 Hxn. destruct (insert_spec s c x H Hx Hx0 Hxn) as (s1 & s' & t & E1 & E2 & Hr & A & [Hc _]).
  exists s1, s', t. split_and!; [done|done|done|done|by apply rb_height, Hr|]. intros k Hk Hkt. apply Hc. set_solver.
Qed.

(** C21: Deleting any node of a red-black tree succeeds, whatever its children and colour; the result is a red-black
    tree with the other nodes in their order, at most twice the logarithm of its size
    plus one high; and only nodes of the tree have changed. *)
Theorem rb_erase_balanced s t z : rb_rep s t -> z ∈ elems t -> exists s' t', _Tree_Rb_Erase z s = Some s' /\
  rb_rep s' t' /\ elems t' = remove_node z (elems t) /\ (height t' <= 2 * Nat.log2 (S (length (elems t'))))%nat /\
  (forall k, k ∉ elems t -> RB_node s' !! k = RB_node s !! k).
Proof.
  intros H Hz. destruct (erase_spec s t z H Hz) as (s' & t' & E & Hr & A & [Hc _]).
  exists s', t'. by split_and!; [| | |apply rb_height, Hr|].
Qed.

(** ** A tree of five nodes *)

Definition demo_tree : tree :=
  T LW_TREE_RB_BLACK (T LW_TREE_RB_BLACK E 16 E) 32 (T LW_TREE_RB_BLACK (T LW_TREE_RB_RED E 48 E) 64 (T LW_TREE_RB_RED E 80 E)).
Definition demo_rb : RB := mkRb
  (<[32 := mkRbn 0 16 64 1]> (<[16 := mkRbn 32 0 0 1]> (<[64 := mkRbn 32 48 80 1]> (<[48 := mkRbn 64 0 0 0]> (<[80 := mkRbn 64 0 0 0]>
    (<[96 := mkRbn 5 5 5 5]> ∅)))))) 32.
Definition demo_path : path := [FR LW_TREE_RB_RED E 80; FR LW_TREE_RB_BLACK (T LW_TREE_RB_RED E 48 E) 64; FR LW_TREE_RB_BLACK (T LW_TREE_RB_BLACK E 16 E) 32].

Lemma demo_rb_rep : rb_rep demo_rb demo_tree.
Proof.
  split; [|exists 2%nat; repeat econstructor]. split; [by vm_compute|done|apply (bool_decide_unpack _); by vm_compute|].
  unfold around. cbn. by intros k.
Qed.

Lemma rb_insert_balanced_witness : exists s1 s' t, _tree_rb_link_node 96 80 (LRightOf 80) demo_rb = Some s1 /\
  _Tree_Rb_Insert_Color 96 s1 = Some s' /\ elems t = [16; 32; 48; 64; 80; 96] /\ rb_rep s' t.
Proof.
  destruct (rb_insert_balanced demo_rb demo_path 96) as (s1 & s' & t & E1 & E2 & Hr & A & _);
    [exact demo_rb_rep|cbn; set_solver|done|by eexists|]. exists s1, s', t. by split_and!.
Defined.

Lemma rb_erase_balanced_witness : exists s' t', _Tree_Rb_Erase 16 demo_rb = Some s' /\ elems t' = [32; 48; 64; 80] /\ rb_rep s' t'.
Proof.
  destruct (rb_erase_balanced demo_rb demo_tree 16) as (s' & t' & E & Hr & A & _); [exact demo_rb_rep|cbn; set_solver|].
  exists s', t'. by split_and!.
Defined.
