(* ===== verification/Vmm.v ===== *)
(** * Virtual memory: pages, zones, areas

    The data of kernel/vmm (pageLib.h, vmmArea.h): page control blocks with the red-black nodes embedded
    in them, the zones they belong to and the areas that find them by address.  A page and
    the list and tree nodes inside it are named by the address of the page; the lists
    ([PAGE_lineFreeHash], [PAGE_lineManage], the free control blocks) are the lists they
    denote (file Lists).  The configuration is the one of the ARM64 port. *)

From S2P Require Import Prelude Lists RbTree.

(** ** arch_mmu.h, cpu_cfg_arm64.h, vmm_cfg.h, k_error.h, vmm.h, pageTable.h *)

Definition LW_CFG_VMM_PAGE_SHIFT : Z := 12.
Definition LW_CFG_VMM_PAGE_SIZE : Z := 2 ^ 12.
Definition LW_CFG_VMM_ZONE_NUM : nat := 16.
Definition LW_CFG_VMM_VIR_NUM : nat := 8.
Definition LW_CFG_VMM_MAX_ORDER : nat := 11.
Definition LW_CFG_MB_SIZE : Z := 1024 * 1024.
Definition ERROR_NONE : Z := 0.
Definition ENOSPC : Z := 28.
Definition EINVAL : Z := 22.
Definition ERROR_KERNEL_LOW_MEMORY : Z := 308.
Definition ERROR_VMM_LOW_PHYSICAL_PAGE : Z := 5500.
Definition ERROR_VMM_PHYSICAL_PAGE : Z := 5502.
Definition ERROR_VMM_ALIGN : Z := 5506.
Definition ERROR_VMM_PAGE_INVAL : Z := 5507.
Definition ERROR_VMM_LOW_PAGE : Z := 5508.
Definition LW_ZONE_ATTR_NONE : Z := 0.
Definition LW_ZONE_ATTR_DMA : Z := 1.
Definition LW_VMM_FLAG_FAIL : Z := 0x41.
Definition PAGE_MAP_ADDR_INV : Z := ULONG_MAX.

Definition __VMM_PAGE_TYPE_PHYSICAL : Z := 0.
Definition __VMM_PAGE_TYPE_VIRTUAL : Z := 1.

(** ** Pages *)

(** The zone a page belongs to: an element of [_G_vmzonePhysical] or [_G_vmzoneVirApp], or [_G_vmzoneVirDev]. *)
Inductive ZONE := ZPhysical (i : nat) | ZVirApp (i : nat) | ZVirDev.

#[export] Instance ZONE_eq_dec : EqDecision ZONE.
Proof. solve_decision. Defined.

(** The union [__lw_vmm_page_status]: the link table is a list of lists of physical pages. *)
Inductive PAGE_STATUS :=
| PhyStatus (ulMapPageAddr : Z) (iChange : Z) (ulRef : Z) (pvmpageReal : ptr)
| VirStatus (pvAreaCb : ptr) (plinePhyLink : list (list ptr)).

#[export] Instance PAGE_STATUS_eq_dec : EqDecision PAGE_STATUS.
Proof. solve_decision. Defined.

Record LW_VMM_PAGE := mkPage {
  PAGE_ulCount : Z;
  PAGE_ulPageAddr : Z;
  PAGE_iPageType : Z;
  PAGE_ulFlags : Z;
  PAGE_bUsed : bool;
  PAGE_pvmzoneOwner : ZONE;
  PAGE_status : PAGE_STATUS
}.

#[export] Instance LW_VMM_PAGE_eq_dec : EqDecision LW_VMM_PAGE.
Proof. solve_decision. Defined.

Definition with_count (v : Z) (p : LW_VMM_PAGE) : LW_VMM_PAGE :=
  mkPage v (PAGE_ulPageAddr p) (PAGE_iPageType p) (PAGE_ulFlags p) (PAGE_bUsed p) (PAGE_pvmzoneOwner p) (PAGE_status p).
Definition with_flags (v : Z) (p : LW_VMM_PAGE) : LW_VMM_PAGE :=
  mkPage (PAGE_ulCount p) (PAGE_ulPageAddr p) (PAGE_iPageType p) v (PAGE_bUsed p) (PAGE_pvmzoneOwner p) (PAGE_status p).
Definition with_used (v : bool) (p : LW_VMM_PAGE) : LW_VMM_PAGE :=
  mkPage (PAGE_ulCount p) (PAGE_ulPageAddr p) (PAGE_iPageType p) (PAGE_ulFlags p) v (PAGE_pvmzoneOwner p) (PAGE_status p).
Definition with_status (v : PAGE_STATUS) (p : LW_VMM_PAGE) : LW_VMM_PAGE :=
  mkPage (PAGE_ulCount p) (PAGE_ulPageAddr p) (PAGE_iPageType p) (PAGE_ulFlags p) (PAGE_bUsed p) (PAGE_pvmzoneOwner p) v.

(** ** Zones and areas *)

Record LW_VMM_FREEAREA := mkFa { FA_lineFreeHeader : list ptr; FA_ulCount : Z }.

Record LW_VMM_ZONE := mkZone {
  ZONE_ulFreePage : Z;
  ZONE_ulAddr : Z;
  ZONE_stSize : Z;
  ZONE_uiAttr : Z;
  ZONE_vmfa : list LW_VMM_FREEAREA
}.

(** [AREA_ptrbrHash] is the array of the roots [TRBR_ptrbnNode]. *)
Record LW_VMM_AREA := mkArea {
  AREA_ptrbrHash : list ptr;
  AREA_ulHashSize : Z;
  AREA_ulAreaAddr : Z;
  AREA_stAreaSize : Z
}.

(** Static zones and areas start out zeroed. *)
Definition zero_zone : LW_VMM_ZONE := mkZone 0 0 0 0 (replicate LW_CFG_VMM_MAX_ORDER (mkFa [] 0)).
Definition zero_area : LW_VMM_AREA := mkArea [] 0 0 0.

(** Descriptors of physical and virtual memory: a size of 0 ends an array of them. *)
Record LW_MMU_PHYSICAL_DESC := mkPhyd { PHYD_ulPhyAddr : Z; PHYD_ulVirMap : Z; PHYD_stSize : Z; PHYD_uiType : Z }.
Record LW_MMU_VIRTUAL_DESC := mkVird { VIRD_ulVirAddr : Z; VIRD_stSize : Z; VIRD_uiType : Z }.
Definition LW_PHYSICAL_MEM_TEXT : Z := 0.
Definition LW_PHYSICAL_MEM_DATA : Z := 1.
Definition LW_PHYSICAL_MEM_DMA : Z := 5.
Definition LW_PHYSICAL_MEM_APP : Z := 6.
Definition LW_VIRTUAL_MEM_APP : Z := 0.
Definition LW_VIRTUAL_MEM_DEV : Z := 1.

(** The remaining static variables: the descriptors of the kernel's text and data, of the
    virtual zones and of the device zone, the switch page, and [ulZone] of [__vmmPhysicalCreate] and of
    [__areaPhysicalSpaceInit]. *)
Record VM_STATIC := mkStatic {
  _G_vmphydescKernel : LW_MMU_PHYSICAL_DESC * LW_MMU_PHYSICAL_DESC;
  _G_vmvirDescApp : list LW_MMU_VIRTUAL_DESC;
  _G_vmvirDescDev : LW_MMU_VIRTUAL_DESC;
  _G_ulVmmSwitchAddr : Z;
  ulZonePhysical : nat;
  ulZoneArea : nat
}.

Definition zero_static : VM_STATIC :=
  mkStatic (mkPhyd 0 0 0 0, mkPhyd 0 0 0 0) (replicate LW_CFG_VMM_VIR_NUM (mkVird 0 0 0)) (mkVird 0 0 0) PAGE_MAP_ADDR_INV 0 0.

(** The pages by address, the red-black nodes inside them, the chains of neighbours the nodes
    [PAGE_lineManage] form, the free physical control blocks, the zones and the areas ([AREA]
    names one). *)
Record VMM := mkVmm {
  VM_page : gmap ptr LW_VMM_PAGE;
  PAGE_trbnNode : gmap ptr LW_TREE_RB_NODE;
  PAGE_lineManage : list (list ptr);
  _K_pmonoPhyPageFreeList : list ptr;
  _G_vmzonePhysical : list LW_VMM_ZONE;
  _G_vmzoneVirApp : list LW_VMM_ZONE;
  _G_vmzoneVirDev : LW_VMM_ZONE;
  _G_vmareaZoneSpace : list LW_VMM_AREA;
  MMUCTX_vmareaVirSpace : LW_VMM_AREA;
  VM_static : VM_STATIC
}.

Inductive AREA := AZone (i : nat) | AVirtual.

Definition with_page (v : gmap ptr LW_VMM_PAGE) (s : VMM) : VMM :=
  mkVmm v (PAGE_trbnNode s) (PAGE_lineManage s) (_K_pmonoPhyPageFreeList s) (_G_vmzonePhysical s) (_G_vmzoneVirApp s)
    (_G_vmzoneVirDev s) (_G_vmareaZoneSpace s) (MMUCTX_vmareaVirSpace s) (VM_static s).
Definition with_node (v : gmap ptr LW_TREE_RB_NODE) (s : VMM) : VMM :=
  mkVmm (VM_page s) v (PAGE_lineManage s) (_K_pmonoPhyPageFreeList s) (_G_vmzonePhysical s) (_G_vmzoneVirApp s)
    (_G_vmzoneVirDev s) (_G_vmareaZoneSpace s) (MMUCTX_vmareaVirSpace s) (VM_static s).
Definition with_manage (v : list (list ptr)) (s : VMM) : VMM :=
  mkVmm (VM_page s) (PAGE_trbnNode s) v (_K_pmonoPhyPageFreeList s) (_G_vmzonePhysical s) (_G_vmzoneVirApp s)
    (_G_vmzoneVirDev s) (_G_vmareaZoneSpace s) (MMUCTX_vmareaVirSpace s) (VM_static s).
Definition with_free (v : list ptr) (s : VMM) : VMM :=
  mkVmm (VM_page s) (PAGE_trbnNode s) (PAGE_lineManage s) v (_G_vmzonePhysical s) (_G_vmzoneVirApp s)
    (_G_vmzoneVirDev s) (_G_vmareaZoneSpace s) (MMUCTX_vmareaVirSpace s) (VM_static s).
Definition with_zones (phy app : list LW_VMM_ZONE) (dev : LW_VMM_ZONE) (s : VMM) : VMM :=
  mkVmm (VM_page s) (PAGE_trbnNode s) (PAGE_lineManage s) (_K_pmonoPhyPageFreeList s) phy app dev
    (_G_vmareaZoneSpace s) (MMUCTX_vmareaVirSpace s) (VM_static s).
Definition with_areas (zones : list LW_VMM_AREA) (vir : LW_VMM_AREA) (s : VMM) : VMM :=
  mkVmm (VM_page s) (PAGE_trbnNode s) (PAGE_lineManage s) (_K_pmonoPhyPageFreeList s) (_G_vmzonePhysical s) (_G_vmzoneVirApp s)
    (_G_vmzoneVirDev s) zones vir (VM_static s).
Definition with_static (v : VM_STATIC) (s : VMM) : VMM :=
  mkVmm (VM_page s) (PAGE_trbnNode s) (PAGE_lineManage s) (_K_pmonoPhyPageFreeList s) (_G_vmzonePhysical s) (_G_vmzoneVirApp s)
    (_G_vmzoneVirDev s) (_G_vmareaZoneSpace s) (MMUCTX_vmareaVirSpace s) v.

Definition with_ulZonePhysical (n : nat) (s : VMM) : VMM :=
  let t := VM_static s in
  with_static (mkStatic (_G_vmphydescKernel t) (_G_vmvirDescApp t) (_G_vmvirDescDev t) (_G_ulVmmSwitchAddr t) n (ulZoneArea t)) s.
Definition with_ulZoneArea (n : nat) (s : VMM) : VMM :=
  let t := VM_static s in
  with_static (mkStatic (_G_vmphydescKernel t) (_G_vmvirDescApp t) (_G_vmvirDescDev t) (_G_ulVmmSwitchAddr t) (ulZonePhysical t) n) s.

Definition get_zone (z : ZONE) (s : VMM) : option LW_VMM_ZONE :=
  match z with ZPhysical i => _G_vmzonePhysical s !! i | ZVirApp i => _G_vmzoneVirApp s !! i | ZVirDev => Some (_G_vmzoneVirDev s) end.
Definition put_zone (z : ZONE) (v : LW_VMM_ZONE) (s : VMM) : VMM :=
  match z with
  | ZPhysical i => with_zones (<[i := v]> (_G_vmzonePhysical s)) (_G_vmzoneVirApp s) (_G_vmzoneVirDev s) s
  | ZVirApp i => with_zones (_G_vmzonePhysical s) (<[i := v]> (_G_vmzoneVirApp s)) (_G_vmzoneVirDev s) s
  | ZVirDev => with_zones (_G_vmzonePhysical s) (_G_vmzoneVirApp s) v s
  end.

Definition get_area (a : AREA) (s : VMM) : option LW_VMM_AREA :=
  match a with AZone i => _G_vmareaZoneSpace s !! i | AVirtual => Some (MMUCTX_vmareaVirSpace s) end.
Definition put_area (a : AREA) (v : LW_VMM_AREA) (s : VMM) : VMM :=
  match a with
  | AZone i => with_areas (<[i := v]> (_G_vmareaZoneSpace s)) (MMUCTX_vmareaVirSpace s) s
  | AVirtual => with_areas (_G_vmareaZoneSpace s) v s
  end.

(** Reading and writing a page. *)
Definition page (p : ptr) (s : VMM) : option LW_VMM_PAGE := if p =? NULL then None else VM_page s !! p.
Definition set_page (p : ptr) (f : LW_VMM_PAGE -> LW_VMM_PAGE) (s : VMM) : option VMM :=
  v ← page p s; Some (with_page (<[p := f v]> (VM_page s)) s).
