(* ===== verification/Area.v ===== *)
(** * Virtual memory: kernel/vmm/vmmArea.c

    An area finds a page by its address: a hash table whose entries are red-black
    trees ordered by [PAGE_ulPageAddr]. *)

From S2P Require Import Prelude Lists RbTree Vmm.

(** ** Construction *)

Definition _G_ulVmmAreaHashSizeTbl : list (Z * Z) :=
  [(8 * LW_CFG_MB_SIZE, 5); (16 * LW_CFG_MB_SIZE, 7); (32 * LW_CFG_MB_SIZE, 13); (64 * LW_CFG_MB_SIZE, 29);
   (128 * LW_CFG_MB_SIZE, 157); (256 * LW_CFG_MB_SIZE, 269); (512 * LW_CFG_MB_SIZE, 557);
   (1024 * LW_CFG_MB_SIZE, 1039); (0, 1999)].

(** The loop over the table; [None] is a read past its end. *)
Fixpoint hash_size (tbl : list (Z * Z)) (stSize : Z) : option Z :=
  match tbl with
  | [] => None
  | (lim, n) :: tbl => if lim =? 0 then Some n else if stSize >=? lim then hash_size tbl stSize else Some n
  end.

(** [mem] is false when [__KHEAP_ALLOC] returns NULL. *)
Definition __areaSpaceInit (pvmarea : AREA) (ulAddr stSize : Z) (mem : bool) (s : VMM) : option (VMM * Z) :=
  ulHashSize ← hash_size _G_ulVmmAreaHashSizeTbl stSize;
  a ← get_area pvmarea s;
  Some (if mem then
          (put_area pvmarea (mkArea (replicate (Z.to_nat ulHashSize) NULL) ulHashSize ulAddr stSize) s, ERROR_NONE)
        else
          (put_area pvmarea (mkArea [] ulHashSize ulAddr stSize) s, ERROR_KERNEL_LOW_MEMORY)).

(** The loop over at most [n] descriptors. *)
Fixpoint virtual_range (n : nat) (pvirdes : list LW_MMU_VIRTUAL_DESC) (ulAddr ulEnd : Z) : option (Z * Z) :=
  match n with
  | O => Some (ulAddr, ulEnd)
  | S n =>
    match pvirdes with
    | [] => None
    | d :: pvirdes =>
      if VIRD_stSize d =? 0 then Some (ulAddr, ulEnd)
      else
        let ulAddr := if ulAddr >? VIRD_ulVirAddr d then VIRD_ulVirAddr d else ulAddr in
        let last := VIRD_ulVirAddr d +64 VIRD_stSize d -64 1 in
        virtual_range n pvirdes ulAddr (if ulEnd <? last then last else ulEnd)
    end
  end.

Definition __areaVirtualSpaceInit (pvirdes : list LW_MMU_VIRTUAL_DESC) (mem : bool) (s : VMM) : option (VMM * Z) :=
  '(ulAddr, ulEnd) ← virtual_range LW_CFG_VMM_VIR_NUM pvirdes ULONG_MAX 0;
  if ulAddr =? ULONG_MAX then Some (s, ENOSPC)
  else __areaSpaceInit AVirtual ulAddr (ulEnd -64 ulAddr +64 1) mem s.

(** [mems] are the answers of [__KHEAP_ALLOC], one for each call. *)
Fixpoint __areaPhysicalSpaceInit (pphydesc : list LW_MMU_PHYSICAL_DESC) (mems : list bool) (s : VMM) : option (VMM * Z) :=
  match pphydesc with
  | [] => None
  | d :: pphydesc =>
    if PHYD_stSize d =? 0 then Some (s, ERROR_NONE)
    else if (PHYD_uiType d =? LW_PHYSICAL_MEM_DMA) || (PHYD_uiType d =? LW_PHYSICAL_MEM_APP) then
      let ulZone := ulZoneArea (VM_static s) in
      if bool_decide (ulZone < LW_CFG_VMM_ZONE_NUM)%nat then
        mem ← head mems;
        '(s, ulError) ← __areaSpaceInit (AZone ulZone) (PHYD_ulPhyAddr d) (PHYD_stSize d) mem s;
        if negb (ulError =? ERROR_NONE) then Some (s, ulError)
        else __areaPhysicalSpaceInit pphydesc (tail mems) (with_ulZoneArea (S ulZone) s)
      else __areaPhysicalSpaceInit pphydesc mems s
    else __areaPhysicalSpaceInit pphydesc mems s
  end.

(** ** The entry of an address *)

(** [None]: a division by zero. *)
Definition __VMM_AREA_HASH_INDEX (pvmarea : LW_VMM_AREA) (ulAddr : Z) : option nat :=
  if AREA_ulHashSize pvmarea =? 0 then None
  else Some (Z.to_nat (Z.shiftr ulAddr LW_CFG_VMM_PAGE_SHIFT mod AREA_ulHashSize pvmarea)).

(** The tree of the entry that the address selects, and its store back. *)
Definition tree_of (pvmarea : AREA) (ulAddr : Z) (s : VMM) : option (nat * RB) :=
  a ← get_area pvmarea s;
  ulHashIndex ← __VMM_AREA_HASH_INDEX a ulAddr;
  ptrbn ← AREA_ptrbrHash a !! ulHashIndex;
  Some (ulHashIndex, mkRb (PAGE_trbnNode s) ptrbn).

Definition put_tree (pvmarea : AREA) (ulHashIndex : nat) (ptrbr : RB) (s : VMM) : option VMM :=
  a ← get_area pvmarea s;
  Some (put_area pvmarea (mkArea (<[ulHashIndex := TRBR_ptrbnNode ptrbr]> (AREA_ptrbrHash a)) (AREA_ulHashSize a)
    (AREA_ulAreaAddr a) (AREA_stAreaSize a)) (with_node (RB_node ptrbr) s)).

(** ** Search *)

Fixpoint search_loop (fuel : nat) (ulAddr : Z) (ptrbn : ptr) (ptrbr : RB) (s : VMM) : option ptr :=
  match fuel with
  | O => None
  | S fuel =>
    if ptrbn =? NULL then Some NULL
    else
      pvmpage ← page ptrbn s;
      if ulAddr <? PAGE_ulPageAddr pvmpage then l ← get_left ptrbn ptrbr; search_loop fuel ulAddr l ptrbr s
      else if ulAddr >? PAGE_ulPageAddr pvmpage then r ← get_right ptrbn ptrbr; search_loop fuel ulAddr r ptrbr s
      else Some ptrbn
  end.

Definition __areaSearchPage (pvmarea : AREA) (ulAddr : Z) (s : VMM) : option ptr :=
  '(_, ptrbr) ← tree_of pvmarea ulAddr s;
  search_loop (rb_fuel ptrbr) ulAddr (TRBR_ptrbnNode ptrbr) ptrbr s.

Definition __areaVirtualSearchPage : Z -> VMM -> option ptr := __areaSearchPage AVirtual.
Definition __areaPhysicalSearchPage (ulZoneIndex : nat) : Z -> VMM -> option ptr := __areaSearchPage (AZone ulZoneIndex).

(** ** Insertion *)

(** Where the page goes: the parent and the link; nothing when the address is there already. *)
Fixpoint insert_find (fuel : nat) (ulAddr : Z) (pptrbnRoot : LINK) (ptrbnParent : ptr) (ptrbr : RB) (s : VMM) : option (option (ptr * LINK)) :=
  match fuel with
  | O => None
  | S fuel =>
    ptrbn ← get_link pptrbnRoot ptrbr;
    if ptrbn =? NULL then Some (Some (ptrbnParent, pptrbnRoot))
    else
      pvmpageTemp ← page ptrbn s;
      if ulAddr <? PAGE_ulPageAddr pvmpageTemp then insert_find fuel ulAddr (LLeftOf ptrbn) ptrbn ptrbr s
      else if ulAddr >? PAGE_ulPageAddr pvmpageTemp then insert_find fuel ulAddr (LRightOf ptrbn) ptrbn ptrbr s
      else Some None
  end.

Definition __areaInsertPage (pvmarea : AREA) (ulAddr : Z) (pvmpage : ptr) (s : VMM) : option VMM :=
  '(ulHashIndex, ptrbr) ← tree_of pvmarea ulAddr s;
  place ← insert_find (rb_fuel ptrbr) ulAddr LRoot NULL ptrbr s;
  match place with
  | None => Some s
  | Some (ptrbnParent, pptrbnRoot) =>
    ptrbr ← _tree_rb_link_node pvmpage ptrbnParent pptrbnRoot ptrbr;
    ptrbr ← _Tree_Rb_Insert_Color pvmpage ptrbr;
    put_tree pvmarea ulHashIndex ptrbr s
  end.

Definition __areaVirtualInsertPage : Z -> ptr -> VMM -> option VMM := __areaInsertPage AVirtual.
Definition __areaPhysicalInsertPage (ulZoneIndex : nat) : Z -> ptr -> VMM -> option VMM := __areaInsertPage (AZone ulZoneIndex).

(** ** Removal *)

Definition __areaUnlinkPage (pvmarea : AREA) (ulAddr : Z) (pvmpage : ptr) (s : VMM) : option VMM :=
  '(ulHashIndex, ptrbr) ← tree_of pvmarea ulAddr s;
  ptrbr ← _Tree_Rb_Erase pvmpage ptrbr;
  put_tree pvmarea ulHashIndex ptrbr s.

Definition __areaVirtualUnlinkPage : Z -> ptr -> VMM -> option VMM := __areaUnlinkPage AVirtual.
Definition __areaPhysicalUnlinkPage (ulZoneIndex : nat) : Z -> ptr -> VMM -> option VMM := __areaUnlinkPage (AZone ulZoneIndex).

(** ** Traversal *)

Section Traversal.
Context {A : Type} (pfuncCallback : ptr -> VMM * A -> option (VMM * A)).

(** The callback works on the state and on data of its own. *)
Fixpoint __areaSpaceRbTreeTraversal (fuel : nat) (ptrbn : ptr) (x : VMM * A) : option (VMM * A) :=
  match fuel with
  | O => None
  | S fuel =>
    if ptrbn =? NULL then Some x
    else
      l ← get_left ptrbn (mkRb (PAGE_trbnNode x.1) NULL);
      x ← __areaSpaceRbTreeTraversal fuel l x;
      x ← pfuncCallback ptrbn x;
      r ← get_right ptrbn (mkRb (PAGE_trbnNode x.1) NULL);
      __areaSpaceRbTreeTraversal fuel r x
  end.

(** [n] entries from entry [i] on. *)
Fixpoint traverse_entries (n i : nat) (pvmarea : AREA) (x : VMM * A) : option (VMM * A) :=
  match n with
  | O => Some x
  | S n =>
    a ← get_area pvmarea x.1;
    ptrbn ← AREA_ptrbrHash a !! i;
    x ← (if negb (ptrbn =? NULL) then __areaSpaceRbTreeTraversal (rb_fuel (mkRb (PAGE_trbnNode x.1) NULL)) ptrbn x else Some x);
    traverse_entries n (S i) pvmarea x
  end.

Definition __areaSpaceTraversal (pvmarea : AREA) (x : VMM * A) : option (VMM * A) :=
  a ← get_area pvmarea x.1; traverse_entries (Z.to_nat (AREA_ulHashSize a)) 0 pvmarea x.

Definition __areaVirtualSpaceTraversal : VMM * A -> option (VMM * A) := __areaSpaceTraversal AVirtual.
Definition __areaPhysicalSpaceTraversal (ulZoneIndex : nat) : VMM * A -> option (VMM * A) := __areaSpaceTraversal (AZone ulZoneIndex).
End Traversal.
