(* ===== verification/AreaSpec.v ===== *)
(** * Virtual memory: an area is a map from addresses to pages

    The trees of the hash entries are ordered by the address of their pages; together they
    hold exactly the pages of a finite map.  Searching is looking up, inserting and
    unlinking are the map's operations, and the other areas do not notice. *)

From Stdlib Require Import Sorted.
From stdpp Require Import sorting.
From S2P Require Import Prelude Lists RbTree RbSpec RbLoop RbOps RbLife Vmm Area.

(** ** One tree *)

Definition addr_of (s : VMM) (p : ptr) : Z := default 0 (PAGE_ulPageAddr <$> VM_page s !! p).

(** The pages are ordered by their addresses. *)
Definition in_order (s : VMM) : list ptr -> Prop := StronglySorted (fun p q => addr_of s p < addr_of s q).

Definition is_page (s : VMM) (p : ptr) : Prop := is_Some (VM_page s !! p).

Lemma in_order_mid s l1 p l2 : in_order s (l1 ++ p :: l2) <->
  in_order s (l1 ++ l2) /\ (forall q, q ∈ l1 -> addr_of s q < addr_of s p) /\ (forall q, q ∈ l2 -> addr_of s p < addr_of s q).
Proof.
  unfold in_order. rewrite !StronglySorted_app, StronglySorted_cons, Forall_forall. split.
  - intros (H1 & H2 & H3 & H4). split_and!; [|done|done| |done]; intros; apply H1; (done || set_solver).
  - intros ((H1 & H2 & H3) & H4 & H5). split_and!; [|done|done|done]. intros x y Hx [->|Hy]%elem_of_cons; [by apply H4|by apply H1].
Qed.

Lemma in_order_parts s l1 l2 : in_order s (l1 ++ l2) -> in_order s l1 /\ in_order s l2.
Proof. unfold in_order. rewrite StronglySorted_app. tauto. Qed.

(** Two pages of an ordered list have different addresses. *)
Lemma in_order_inj s l p q : in_order s l -> p ∈ l -> q ∈ l -> addr_of s p = addr_of s q -> p = q.
Proof.
  intros Hs Hp Hq E. destruct (list_elem_of_split _ _ Hp) as (l1 & l2 & ->). apply in_order_mid in Hs as (_ & H1 & H2).
  apply elem_of_app in Hq as [Hq|[->|Hq]%elem_of_cons]; [|done|].
  - specialize (H1 q Hq). lia.
  - specialize (H2 q Hq). lia.
Qed.

Lemma read_page s p : p <> NULL -> is_page s p -> exists v, page p s = Some v /\ PAGE_ulPageAddr v = addr_of s p.
Proof.
  intros Hp [v Hv]. exists v. unfold page, addr_of. rewrite (proj2 (Z.eqb_neq _ _) Hp), Hv. done.
Qed.

(** The page the search at [t] has to give: the one at address [a], or none. *)
Definition found (s : VMM) (a : Z) (l : list ptr) (p : ptr) : Prop :=
  (p ∈ l /\ addr_of s p = a) \/ (p = NULL /\ forall q, q ∈ l -> addr_of s q <> a).

Lemma search_spec K s rb a : forall fuel t c, repr K rb c t -> in_order s (elems t) -> (forall p, p ∈ elems t -> is_page s p) ->
  (height t < fuel)%nat -> exists p, search_loop fuel a (root t) rb s = Some p /\ found s a (elems t) p.
Proof.
  induction fuel as [|fuel IH]; intros t c H Hs Hpg Hf; [lia|]. destruct t as [|col l k r].
  - exists NULL. split; [done|]. right. split; [done|]. by intros q ?%elem_of_nil.
  - pose proof (repr_load _ _ _ _ _ _ _ H) as [Hk Hld]. cbn [root search_loop]. rewrite (proj2 (Z.eqb_neq _ _) Hk).
    destruct (read_page s k Hk) as (v & -> & Ev); [apply Hpg; cbn; set_solver|]. cbn [mbind option_bind]. rewrite Ev.
    unfold get_left, get_right. rewrite Hld. cbn [fmap option_fmap option_map mbind option_bind TRBN_ptrbnLeft TRBN_ptrbnRight].
    cbn [elems height] in *. pose proof (proj1 (in_order_mid _ _ _ _) Hs) as (Hlr & Hl & Hr). apply in_order_parts in Hlr as [Hsl Hsr].
    destruct (Z.ltb_spec a (addr_of s k)) as [Ha|Ha]; [|rewrite Z.gtb_ltb; destruct (Z.ltb_spec (addr_of s k) a) as [Ha2|Ha2]].
    + apply (repr_fill K rb (FL col k r)) in H. destruct (IH l _ H Hsl) as (p & E & Hp); [set_solver|lia|]. exists p. split; [done|].
      destruct Hp as [[Hp Ep]|[Hp Hn]]; [left; split; [set_solver|done]|right; split; [done|]].
      intros q [Hq|[->|Hq]%elem_of_cons]%elem_of_app; [by apply Hn|lia|]. specialize (Hr q Hq). lia.
    + apply (repr_fill K rb (FR col l k)) in H. destruct (IH r _ H Hsr) as (p & E & Hp); [set_solver|lia|]. exists p. split; [done|].
      destruct Hp as [[Hp Ep]|[Hp Hn]]; [left; split; [set_solver|done]|right; split; [done|]].
      intros q [Hq|[->|Hq]%elem_of_cons]%elem_of_app; [specialize (Hl q Hq); lia|lia|by apply Hn].
    + exists k. split; [done|]. left. split; [set_solver|lia].
Qed.

Lemma path_link K rb c t : repr K rb c t -> get_link (link_of c) rb = Some (root t).
Proof.
  intros H. destruct c as [|[col k r|col l k] c]; cbn [link_of get_link].
  - by rewrite (rp_path _ _ _ _ H).
  - apply (proj2 (repr_fill _ _ _ _ _)) in H. apply repr_load in H as [_ H]. unfold get_left. by rewrite H.
  - apply (proj2 (repr_fill _ _ _ _ _)) in H. apply repr_load in H as [_ H]. unfold get_right. by rewrite H.
Qed.

(** The search for a place ends at one between the smaller and the larger addresses. *)
Lemma insert_find_spec K s rb a : forall fuel t c, repr K rb c t -> in_order s (around c t) -> (forall p, p ∈ elems t -> is_page s p) ->
  (forall q, q ∈ before c -> addr_of s q < a) -> (forall q, q ∈ after c -> a < addr_of s q) -> (height t < fuel)%nat ->
  (exists p, p ∈ elems t /\ addr_of s p = a /\ insert_find fuel a (link_of c) (up c) rb s = Some None) \/
  (exists c', plug c' E = plug c t /\ insert_find fuel a (link_of c) (up c) rb s = Some (Some (up c', link_of c')) /\
     (forall q, q ∈ before c' -> addr_of s q < a) /\ (forall q, q ∈ after c' -> a < addr_of s q)).
Proof.
  induction fuel as [|fuel IH]; intros t c H Hs Hpg Hb Ha Hf; [lia|]. cbn [insert_find]. rewrite (path_link _ _ _ _ H). cbn [mbind option_bind].
  destruct t as [|col l k r]; [right; by exists c|]. pose proof (repr_load _ _ _ _ _ _ _ H) as [Hk Hld]. cbn [root].
  rewrite (proj2 (Z.eqb_neq _ _) Hk). destruct (read_page s k Hk) as (v & -> & Ev); [apply Hpg; cbn; set_solver|].
  cbn [mbind option_bind]. rewrite Ev. cbn [elems height] in *.
  destruct (Z.ltb_spec a (addr_of s k)) as [Hlt|Hge]; [|rewrite Z.gtb_ltb; destruct (Z.ltb_spec (addr_of s k) a) as [Hgt|Hle]].
  - apply (repr_fill K rb (FL col k r)) in H. pose proof Hs as Hs'. change (T col l k r) with (fill (FL col k r) l) in Hs. rewrite around_fill in Hs.
    assert (Hs2 : forall q, q ∈ elems r -> addr_of s k < addr_of s q).
    { unfold around in Hs'. cbn in Hs'. apply in_order_parts in Hs' as [_ [Hs' _]%in_order_parts].
      by apply in_order_mid in Hs' as (_ & _ & ?). }
    destruct (IH l _ H Hs) as [(p & Hp & Ep & E)|(c' & Ec & E & Hb' & Ha')]; [set_solver|done| |lia| |].
    + cbn. intros q [->|[Hq|Hq]%elem_of_app]%elem_of_cons; [done|specialize (Hs2 q Hq); lia|by apply Ha].
    + left. exists p. split; [set_solver|done].
    + right. exists c'. by split_and!.
  - apply (repr_fill K rb (FR col l k)) in H. pose proof Hs as Hs'. change (T col l k r) with (fill (FR col l k) r) in Hs. rewrite around_fill in Hs.
    assert (Hs2 : forall q, q ∈ elems l -> addr_of s q < addr_of s k).
    { unfold around in Hs'. cbn in Hs'. apply in_order_parts in Hs' as [_ [Hs' _]%in_order_parts].
      by apply in_order_mid in Hs' as (_ & ? & _). }
    destruct (IH r _ H Hs) as [(p & Hp & Ep & E)|(c' & Ec & E & Hb' & Ha')]; [set_solver| |done|lia| |].
    + cbn. intros q [Hq|[Hq|[->|Hq]%elem_of_cons]%elem_of_app]%elem_of_app; [by apply Hb|specialize (Hs2 q Hq); lia|done|by apply elem_of_nil in Hq].
    + left. exists p. split; [set_solver|done].
    + right. exists c'. by split_and!.
  - left. exists k. split; [set_solver|]. split; [lia|done].
Qed.

(** ** The whole area *)

(** The entry of an address, the area being a table of [n] entries. *)
Definition entry (n : Z) (a : Z) : nat := Z.to_nat (Z.shiftr a LW_CFG_VMM_PAGE_SHIFT mod n).

(** The pages of [M] by address, in the trees [ts] of the entries. *)
Record trees_rep (s : VMM) (v : LW_VMM_AREA) (ts : list tree) (M : gmap Z ptr) : Prop := {
  tr_size : 0 < AREA_ulHashSize v /\ AREA_ulHashSize v = Z.of_nat (length (AREA_ptrbrHash v));
  tr_trees : Forall2 (fun h t => rb_rep (mkRb (PAGE_trbnNode s) h) t) (AREA_ptrbrHash v) ts;
  tr_order : forall i t, ts !! i = Some t -> in_order s (elems t);
  tr_pages : forall i t p, ts !! i = Some t -> p ∈ elems t <-> exists a, M !! a = Some p /\ entry (AREA_ulHashSize v) a = i;
  tr_addr : forall a p, M !! a = Some p -> is_page s p /\ addr_of s p = a
}.

Definition area_rep (s : VMM) (ar : AREA) (M : gmap Z ptr) : Prop :=
  exists v ts, get_area ar s = Some v /\ trees_rep s v ts M.

(** Only the area [ar] and the nodes of the pages [ps] changed. *)
Definition area_step (s s' : VMM) (ar : AREA) (ps : list ptr) : Prop := exists v m,
  s' = put_area ar v (with_node m s) /\ (forall p, p ∉ ps -> m !! p = PAGE_trbnNode s !! p) /\ dom m = dom (PAGE_trbnNode s).

Lemma get_put_area ar v v0 s : get_area ar s = Some v0 -> get_area ar (put_area ar v s) = Some v.
Proof.
  destruct ar as [i|]; [|done]. cbn. intros H. apply list_lookup_insert_eq. by apply lookup_lt_Some in H.
Qed.

Lemma get_put_other ar ar' v s : ar <> ar' -> get_area ar' (put_area ar v s) = get_area ar' s.
Proof.
  destruct ar as [i|], ar' as [j|]; [|done..]. cbn. intros H. apply list_lookup_insert_ne. congruence.
Qed.

Lemma get_area_node ar m s : get_area ar (with_node m s) = get_area ar s.
Proof. by destruct ar. Qed.

Lemma area_fields ar v s : VM_page (put_area ar v s) = VM_page s /\ PAGE_trbnNode (put_area ar v s) = PAGE_trbnNode s.
Proof. by destruct ar. Qed.

Lemma height_elems t : (height t <= length (elems t))%nat.
Proof. induction t as [|c l IHl k r IHr]; [done|]. cbn. rewrite length_app. cbn. lia. Qed.

Lemma rep_fuel s t : rb_rep s t -> (height t < rb_fuel s)%nat.
Proof. intros [H _]. pose proof (repr_fuel _ _ _ _ H). pose proof (height_elems t). lia. Qed.

Lemma rep_frame m m' h t : rb_rep (mkRb m h) t -> (forall p, p ∈ elems t -> m' !! p = m !! p) -> rb_rep (mkRb m' h) t.
Proof.
  intros [[H1 H2 H3 H4] Ht] Hf. split; [|done]. split; [|done|done|done]. cbn in *. by eapply tree_frame.
Qed.

(** The tree an address selects. *)
Lemma tree_of_spec s ar v ts M a : get_area ar s = Some v -> trees_rep s v ts M -> exists h t,
  let i := entry (AREA_ulHashSize v) a in
  tree_of ar a s = Some (i, mkRb (PAGE_trbnNode s) h) /\ AREA_ptrbrHash v !! i = Some h /\ ts !! i = Some t /\
  rb_rep (mkRb (PAGE_trbnNode s) h) t.
Proof.
  intros Hv [Hn Ht _ _ _]. set (i := entry (AREA_ulHashSize v) a).
  assert (Hi : (i < length (AREA_ptrbrHash v))%nat).
  { unfold i, entry. pose proof (Z.mod_pos_bound (Z.shiftr a LW_CFG_VMM_PAGE_SHIFT) (AREA_ulHashSize v)). lia. }
  destruct (lookup_lt_is_Some_2 _ _ Hi) as [h Hh]. destruct (Forall2_lookup_l _ _ _ _ _ Ht Hh) as (t & Hts & Hr).
  exists h, t. split; [|done]. unfold tree_of, __VMM_AREA_HASH_INDEX. rewrite Hv. cbn [mbind option_bind].
  rewrite (proj2 (Z.eqb_neq _ 0)) by lia. cbn [mbind option_bind]. fold (entry (AREA_ulHashSize v) a). fold i. by rewrite Hh.
Qed.

Lemma found_map s v ts M i t a p : trees_rep s v ts M -> ts !! i = Some t -> entry (AREA_ulHashSize v) a = i ->
  found s a (elems t) p -> p = default NULL (M !! a).
Proof.
  intros H Ht Hi [[Hp Ea]|[-> Hn]].
  - apply (tr_pages _ _ _ _ H i t p Ht) in Hp as (a' & Hp & _). destruct (tr_addr _ _ _ _ H _ _ Hp) as [_ Ea']. rewrite <-Ea, Ea'. by rewrite Hp.
  - destruct (M !! a) as [q|] eqn:Eq; [|done]. exfalso. apply (Hn q); [|by apply (tr_addr _ _ _ _ H)].
    apply (tr_pages _ _ _ _ H i t q Ht). by exists a.
Qed.

(** The pages of two entries are different. *)
Lemma entries_apart s v ts M i j t u p : trees_rep s v ts M -> ts !! i = Some t -> ts !! j = Some u -> p ∈ elems t -> p ∈ elems u -> i = j.
Proof.
  intros H Ht Hu Hp Hq. apply (tr_pages _ _ _ _ H i t p Ht) in Hp as (a & Ha & <-). apply (tr_pages _ _ _ _ H j u p Hu) in Hq as (b & Hb & <-).
  destruct (tr_addr _ _ _ _ H _ _ Ha) as [_ <-]. by destruct (tr_addr _ _ _ _ H _ _ Hb) as [_ <-].
Qed.

(** One entry gets a new tree. *)
Lemma entry_update s v ts M M' i t h' m' t' (ks : list ptr) : trees_rep s v ts M -> ts !! i = Some t ->
  rb_rep (mkRb m' h') t' -> in_order s (elems t') -> (forall p, p ∉ ks -> m' !! p = PAGE_trbnNode s !! p) ->
  (forall j u p, ts !! j = Some u -> p ∈ elems u -> p ∈ ks -> j = i) ->
  (forall p, p ∈ elems t' <-> exists a, M' !! a = Some p /\ entry (AREA_ulHashSize v) a = i) ->
  (forall a, entry (AREA_ulHashSize v) a <> i -> M' !! a = M !! a) ->
  (forall a p, M' !! a = Some p -> is_page s p /\ addr_of s p = a) ->
  trees_rep (with_node m' s) (mkArea (<[i := h']> (AREA_ptrbrHash v)) (AREA_ulHashSize v) (AREA_ulAreaAddr v) (AREA_stAreaSize v)) (<[i := t']> ts) M'.
Proof.
  intros [Hn Ht Ho Hpg Ha] Hti Hr' Ho' Hm Hks Hp' Hoth Ha'.
  assert (Hlen : (i < length ts)%nat) by (by apply lookup_lt_Some in Hti).
  split; cbn [AREA_ulHashSize AREA_ptrbrHash].
  - by rewrite length_insert.
  - rewrite Forall2_same_length_lookup in Ht |- *. destruct Ht as [Hl Ht]. rewrite !length_insert. split; [done|]. intros j h u Hh Hu.
    destruct (decide (i = j)) as [<-|Hij].
    + rewrite list_lookup_insert_eq in Hh by lia. rewrite list_lookup_insert_eq in Hu by done. by simplify_eq.
    + rewrite list_lookup_insert_ne in Hh by done. rewrite list_lookup_insert_ne in Hu by done. eapply rep_frame; [by eapply Ht|]. intros p Hp. apply Hm.
      intros Hk. by destruct (Hks j u p Hu Hp Hk).
  - intros j u Hu. destruct (decide (i = j)) as [<-|Hij].
    + rewrite list_lookup_insert_eq in Hu by done. by simplify_eq.
    + rewrite list_lookup_insert_ne in Hu by done. by eapply Ho.
  - intros j u p Hu. destruct (decide (i = j)) as [<-|Hij].
    + rewrite list_lookup_insert_eq in Hu by done. simplify_eq. apply Hp'.
    + rewrite list_lookup_insert_ne in Hu by done. rewrite (Hpg j u p Hu).
      split; intros (a & E & Ea); exists a; (split; [|done]); [rewrite Hoth|rewrite <-Hoth]; (done || congruence).
  - done.
Qed.

Lemma put_tree_spec s ar v i m h : get_area ar s = Some v -> put_tree ar i (mkRb m h) s =
  Some (put_area ar (mkArea (<[i := h]> (AREA_ptrbrHash v)) (AREA_ulHashSize v) (AREA_ulAreaAddr v) (AREA_stAreaSize v)) (with_node m s)).
Proof. intros H. unfold put_tree. by rewrite H. Qed.

Lemma area_rep_put s ar v v0 ts M : get_area ar s = Some v0 -> trees_rep s v ts M -> area_rep (put_area ar v s) ar M.
Proof.
  intros H Ht. exists v, ts. split; [by eapply get_put_area|]. destruct (area_fields ar v s) as [Ep En].
  destruct Ht as [H1 H2 H3 H4 H5]. split; unfold is_page, in_order, addr_of in *; rewrite ?Ep, ?En; done.
Qed.

(** ** The operations *)

Lemma area_search s ar M a : area_rep s ar M -> __areaSearchPage ar a s = Some (default NULL (M !! a)).
Proof.
  intros (v & ts & Hv & H). destruct (tree_of_spec s ar v ts M a Hv H) as (h & t & Et & Hh & Ht & Hr).
  unfold __areaSearchPage. rewrite Et. cbn [mbind option_bind]. cbn [TRBR_ptrbnNode].
  assert (root t = h) as <-. { destruct Hr as [[_ Hp _ _] _]. by cbn in Hp. }
  destruct (search_spec (elems t) s (mkRb (PAGE_trbnNode s) (root t)) a (rb_fuel (mkRb (PAGE_trbnNode s) (root t))) t []) as (p & -> & Hp);
    [apply Hr|by eapply tr_order| |by apply rep_fuel|].
  - intros p Hp. apply (tr_pages _ _ _ _ H _ _ p Ht) in Hp as (a' & Hp & _). by apply (tr_addr _ _ _ _ H) in Hp as [? _].
  - f_equal. by eapply found_map.
Qed.

Lemma area_insert s ar M a p : area_rep s ar M -> p <> NULL -> is_page s p -> addr_of s p = a -> is_Some (PAGE_trbnNode s !! p) ->
  (forall b, M !! b <> Some p) -> exists s', __areaInsertPage ar a p s = Some s' /\
  area_rep s' ar (match M !! a with Some _ => M | None => <[a := p]> M end) /\ area_step s s' ar (p :: (map_to_list M).*2).
Proof.
  intros Ha Hp0 Hpg Hpa Hpn HpM. pose proof Ha as (v & ts & Hv & H). destruct (tree_of_spec s ar v ts M a Hv H) as (h & t & Et & Hh & Ht & Hr).
  set (i := entry (AREA_ulHashSize v) a) in *. unfold __areaInsertPage. rewrite Et. cbn [mbind option_bind].
  assert (Hpt : forall q, q ∈ elems t -> is_page s q /\ exists b, M !! b = Some q /\ entry (AREA_ulHashSize v) b = i).
  { intros q Hq. apply (tr_pages _ _ _ _ H _ _ q Ht) in Hq as (b & Hq & Hb). split; [by apply (tr_addr _ _ _ _ H) in Hq as [? _]|by exists b]. }
  destruct (insert_find_spec (elems t) s (mkRb (PAGE_trbnNode s) h) a (rb_fuel (mkRb (PAGE_trbnNode s) h)) t []) as [(q & Hq & Eq & E)|(c & Ec & E & Hb & Haf)];
    [apply Hr|unfold around; cbn; rewrite app_nil_r; by eapply tr_order|intros q Hq; by apply Hpt|by intros q ?%elem_of_nil|by intros q ?%elem_of_nil|by apply rep_fuel| |];
    cbn [link_of up] in E; rewrite E; cbn [mbind option_bind].
  - exists s. split; [done|]. destruct (Hpt q Hq) as [_ (b & Hqb & _)]. assert (b = a) as ->. { apply (tr_addr _ _ _ _ H) in Hqb as [_ <-]. done. }
    rewrite Hqb. split; [done|]. exists v, (PAGE_trbnNode s). split; [|done]. destruct ar as [j|]; cbn in *; [|by destruct s; simplify_eq].
    unfold with_areas. cbn. rewrite list_insert_id; [by destruct s|done].
  - cbn [plug] in Ec.
    assert (Hp2 : p ∉ elems t) by (intros Hp; destruct (Hpt p Hp) as [_ (b & Hq & _)]; by apply (HpM b)).
    assert (HMa : M !! a = None).
    { destruct (M !! a) as [q|] eqn:Eq; [|done]. exfalso. assert (Hq : q ∈ elems t) by (apply (tr_pages _ _ _ _ H _ _ q Ht); by exists a).
      apply (tr_addr _ _ _ _ H) in Eq as [_ Eq]. rewrite <-Ec, elems_plug in Hq. unfold around in Hq. cbn in Hq.
      apply elem_of_app in Hq as [Hq|Hq]; [specialize (Hb q Hq)|specialize (Haf q Hq)]; lia. }
    rewrite HMa. rewrite <-Ec in Hp2. destruct (insert_spec (mkRb (PAGE_trbnNode s) h) c p) as (s1 & s2 & t' & E1 & E2 & Hr' & Et' & [Hch Hdom]);
      [by rewrite Ec|done|done|done|]. rewrite E1. cbn [mbind option_bind]. rewrite E2. cbn [mbind option_bind]. destruct s2 as [m' h'].
    rewrite (put_tree_spec s ar v) by done. rewrite Ec in *. cbn [RB_node] in *. eexists. split; [done|]. split.
    + eapply area_rep_put; [by rewrite get_area_node|]. eapply (entry_update s v ts M); [done|done|done| |exact Hch| | | |].
      * rewrite Et'. apply in_order_mid. rewrite Hpa. split; [|done]. pose proof (tr_order _ _ _ _ H _ _ Ht) as Ho.
        rewrite <-Ec, elems_plug in Ho. done.
      * intros j u q Hu Hq [->|Hq']%elem_of_cons; [|by eapply entries_apart].
        exfalso. apply (tr_pages _ _ _ _ H _ _ p Hu) in Hq as (b & Hq & _). by apply (HpM b).
      * intros q. rewrite Et'. pose proof (tr_pages _ _ _ _ H _ _ q Ht) as Hq. rewrite <-Ec, elems_plug in Hq. unfold around in Hq. cbn in Hq.
        rewrite elem_of_app, elem_of_cons in *. split.
        -- intros [Hq'|[->|Hq']]; [|exists a; split; [apply lookup_insert_eq|done]|];
             (destruct (proj1 Hq) as (b & Hqb & Hbi); [tauto|]; exists b; split; [|done]; rewrite lookup_insert_ne; [done|by intros ->; simplify_eq]).
        -- intros (b & Hqb & Hbi). apply lookup_insert_Some in Hqb as [[<- <-]|[Hne Hqb]]; [tauto|]. destruct (proj2 Hq) as [|]; [by exists b|tauto|tauto].
      * intros b Hbi. rewrite lookup_insert_ne; [done|]. by intros <-.
      * intros b q Hqb. apply lookup_insert_Some in Hqb as [[<- <-]|[Hne Hqb]]; [done|by apply (tr_addr _ _ _ _ H)].
    + eexists _, m'. split; [done|]. split; [|done]. intros q Hq. apply Hch. intros [->|Hq']%elem_of_cons; [by apply Hq; left|].
      apply Hq. right. destruct (Hpt q Hq') as [_ (b & Hqb & _)]. apply list_elem_of_fmap. exists (b, q). split; [done|]. by apply elem_of_map_to_list.
Qed.

Lemma area_unlink s ar M a p : area_rep s ar M -> M !! a = Some p -> exists s', __areaUnlinkPage ar a p s = Some s' /\
  area_rep s' ar (delete a M) /\ area_step s s' ar (map_to_list M).*2.
Proof.
  intros Ha HMa. pose proof Ha as (v & ts & Hv & H). destruct (tree_of_spec s ar v ts M a Hv H) as (h & t & Et & Hh & Ht & Hr).
  set (i := entry (AREA_ulHashSize v) a) in *. unfold __areaUnlinkPage. rewrite Et. cbn [mbind option_bind].
  assert (Hp : p ∈ elems t) by (apply (tr_pages _ _ _ _ H _ _ p Ht); by exists a).
  destruct (erase_spec (mkRb (PAGE_trbnNode s) h) t p Hr Hp) as ([m' h'] & t' & -> & Hr' & Et' & [Hch Hdom]). cbn [mbind option_bind].
  rewrite (put_tree_spec s ar v) by done. cbn [RB_node] in *. eexists. split; [done|].
  destruct (rb_rep_keys _ _ Hr) as [Hnd _]. split.
  - eapply area_rep_put; [by rewrite get_area_node|]. eapply (entry_update s v ts M); [done|done|done| |exact Hch| | | |].
    + rewrite Et'. destruct (list_elem_of_split _ _ Hp) as (l1 & l2 & El). pose proof (tr_order _ _ _ _ H _ _ Ht) as Ho. rewrite El in *.
      apply NoDup_app in Hnd as (_ & Hnd & _). rewrite remove_node_app; [by apply in_order_mid in Ho as [? _]|]. intros Hpl. apply (Hnd p Hpl). left.
    + intros j u q Hu Hq Hq'. by eapply entries_apart.
    + intros q. rewrite Et', (elem_of_remove_node p (elems t) q Hnd), (tr_pages _ _ _ _ H _ _ q Ht). split.
      * intros [(b & Hqb & Hb) Hne]. exists b. split; [|done]. rewrite lookup_delete_ne; [done|]. intros <-. by simplify_eq.
      * intros (b & Hqb & Hb). apply lookup_delete_Some in Hqb as [Hne Hqb]. split; [by exists b|]. intros ->.
        apply (tr_addr _ _ _ _ H) in Hqb as [_ <-]. apply (tr_addr _ _ _ _ H) in HMa as [_ <-]. done.
    + intros b Hbi. rewrite lookup_delete_ne; [done|]. by intros <-.
    + intros b q Hqb. apply lookup_delete_Some in Hqb as [Hne Hqb]. by apply (tr_addr _ _ _ _ H).
  - eexists _, m'. split; [done|]. split; [|done]. intros q Hq. apply Hch. intros Hq'. apply Hq.
    apply (tr_pages _ _ _ _ H _ _ q Ht) in Hq' as (b & Hqb & _). apply list_elem_of_fmap. exists (b, q). split; [done|]. by apply elem_of_map_to_list.
Qed.
