(* ===== verification/AreaRun.v ===== *)
(** * Virtual memory: areas in use

    Several areas share the pages' nodes.  Any sequence of initialisations, insertions, searches and
    removals does on the areas what it does on one finite map for each; a search takes a
    logarithmic number of steps; a traversal visits every page once. *)

From stdpp Require Import sorting.
From S2P Require Import Prelude Lists RbTree RbSpec RbLoop RbOps RbLife Vmm Area AreaSpec.

(** ** Initialisation *)

Lemma hash_size_spec stSize : exists n, hash_size _G_ulVmmAreaHashSizeTbl stSize = Some n /\ 0 < n.
Proof.
  unfold _G_ulVmmAreaHashSizeTbl, LW_CFG_MB_SIZE. cbn [hash_size].
  repeat match goal with |- context [if stSize >=? ?x then _ else _] => destruct (stSize >=? x); [|by eexists] end. by eexists.
Qed.

Lemma empty_trees s n ad size : 0 < n -> trees_rep s (mkArea (replicate (Z.to_nat n) NULL) n ad size) (replicate (Z.to_nat n) E) ∅.
Proof.
  intros Hn. split; cbn [AREA_ulHashSize AREA_ptrbrHash].
  - rewrite length_replicate. lia.
  - apply Forall2_same_length_lookup. rewrite !length_replicate. split; [done|]. intros i h t [-> _]%lookup_replicate [-> _]%lookup_replicate.
    split; [split; [done|done| |done]|by exists 0%nat; constructor]. unfold around. cbn. constructor; [by intros ?%elem_of_nil|constructor].
  - intros i t [-> _]%lookup_replicate. constructor.
  - intros i t p [-> _]%lookup_replicate. cbn. split; [by intros ?%elem_of_nil|]. by intros (a & H & _).
  - done.
Qed.

Lemma area_init ar ad size mem s v : get_area ar s = Some v -> exists s', __areaSpaceInit ar ad size mem s =
    Some (s', if mem : bool then ERROR_NONE else ERROR_KERNEL_LOW_MEMORY) /\
  (mem = true -> area_rep s' ar ∅) /\ area_step s s' ar [].
Proof.
  intros Hv. unfold __areaSpaceInit. destruct (hash_size_spec size) as (n & -> & Hn). rewrite Hv. cbn [mbind option_bind].
  assert (Hid : forall w, put_area ar w s = put_area ar w (with_node (PAGE_trbnNode s) s)) by (intros w; by destruct s).
  destruct mem; (eexists; split; [done|]; split; [|by eexists _, (PAGE_trbnNode s); rewrite Hid]); [|done].
  intros _. eapply area_rep_put; [done|by apply empty_trees].
Qed.

(** ** Several areas *)

#[export] Instance AREA_eq_dec : EqDecision AREA.
Proof. solve_decision. Defined.

(** The maps of the areas that have been initialised. *)
Definition maps := AREA -> option (gmap Z ptr).

Definition pages_of (M : gmap Z ptr) : list ptr := (map_to_list M).*2.

Lemma elem_pages M p : p ∈ pages_of M <-> exists a, M !! a = Some p.
Proof.
  unfold pages_of. rewrite list_elem_of_fmap. split.
  - intros ([a q] & -> & H). exists a. by apply elem_of_map_to_list in H.
  - intros [a H]. exists (a, p). split; [done|]. by apply elem_of_map_to_list.
Qed.

(** A page is in one area at most. *)
Record areas_ok (s : VMM) (f : maps) : Prop := {
  ak_rep : forall ar M, f ar = Some M -> area_rep s ar M;
  ak_once : forall ar ar' M M' p, f ar = Some M -> f ar' = Some M' -> p ∈ pages_of M -> p ∈ pages_of M' -> ar = ar'
}.

Lemma area_rep_other s s' ar ar' M ps : area_rep s ar' M -> area_step s s' ar ps -> ar <> ar' ->
  (forall p, p ∈ ps -> p ∉ pages_of M) -> area_rep s' ar' M.
Proof.
  intros (v & ts & Hv & H) (w & m & -> & Hm & _) Hne Hd. exists v, ts. rewrite get_put_other, get_area_node by done. split; [done|].
  destruct (area_fields ar w (with_node m s)) as [Ep En]. pose proof H as [H1 H2 H3 H4 H5]. split; rewrite ?En; unfold is_page, in_order, addr_of in *; rewrite ?Ep; try done.
  cbn [PAGE_trbnNode with_node]. rewrite Forall2_same_length_lookup in H2 |- *. destruct H2 as [Hl H2]. split; [done|]. intros i h t Hh Ht.
  eapply rep_frame; [by eapply H2|]. intros p Hp. apply Hm. intros Hps. apply (Hd p Hps). apply elem_pages.
  apply (H4 i t p Ht) in Hp as (a & Ha & _). by exists a.
Qed.

Definition with_map (ar : AREA) (x : option (gmap Z ptr)) (f : maps) : maps := fun b => if decide (ar = b) then x else f b.

Lemma areas_step s s' f ar x ps : areas_ok s f -> area_step s s' ar ps ->
  (forall M, x = Some M -> area_rep s' ar M) -> (forall M p, x = Some M -> p ∈ pages_of M -> p ∈ ps) ->
  (forall ar' M p, ar <> ar' -> f ar' = Some M -> p ∈ ps -> p ∉ pages_of M) -> areas_ok s' (with_map ar x f).
Proof.
  intros [Hr Ho] Hs Hx Hxp Hd. split; unfold with_map.
  - intros ar' M H. case_decide as E; [subst; by apply Hx|]. eapply area_rep_other; [by apply Hr|exact Hs|done|]. intros p Hp. by eapply Hd.
  - intros a1 a2 M1 M2 p H1 H2 Hp1 Hp2. destruct (decide (ar = a1)) as [<-|N1], (decide (ar = a2)) as [<-|N2]; [done| | |by eapply Ho].
    + destruct (Hd a2 M2 p); [done|done|by eapply Hxp|done].
    + destruct (Hd a1 M1 p); [done|done|by eapply Hxp|done].
Qed.

(** ** Runs *)

Inductive area_op :=
| OInit (ar : AREA) (ulAddr stSize : Z) (mem : bool)
| OInsert (ar : AREA) (pvmpage : ptr)
| OUnlink (ar : AREA) (ulAddr : Z) (pvmpage : ptr)
| OSearch (ar : AREA) (ulAddr : Z).

(** The callers register a page under its own address. *)
Definition area_exec (op : area_op) (s : VMM) : option (VMM * Z) :=
  match op with
  | OInit ar ulAddr stSize mem => __areaSpaceInit ar ulAddr stSize mem s
  | OInsert ar pvmpage => v ← page pvmpage s; s ← __areaInsertPage ar (PAGE_ulPageAddr v) pvmpage s; Some (s, 0)
  | OUnlink ar ulAddr pvmpage => s ← __areaUnlinkPage ar ulAddr pvmpage s; Some (s, 0)
  | OSearch ar ulAddr => p ← __areaSearchPage ar ulAddr s; Some (s, p)
  end.

(** The same on the maps; [addr] gives the addresses of the pages.  An insertion is for a
    page that is in no area, a removal for the page at the address. *)
Definition free_page (p : ptr) (f : maps) : Prop := forall ar M, f ar = Some M -> p ∉ pages_of M.

Inductive area_spec (addr : ptr -> Z) : area_op -> maps -> maps -> Z -> Prop :=
| AS_init ar a n mem f : area_spec addr (OInit ar a n mem) f (with_map ar (if mem : bool then Some ∅ else None) f)
    (if mem : bool then ERROR_NONE else ERROR_KERNEL_LOW_MEMORY)
| AS_insert ar p M f : f ar = Some M -> free_page p f -> M !! addr p = None ->
    area_spec addr (OInsert ar p) f (with_map ar (Some (<[addr p := p]> M)) f) 0
| AS_present ar p q M f : f ar = Some M -> free_page p f -> M !! addr p = Some q -> area_spec addr (OInsert ar p) f f 0
| AS_unlink ar a p M f : f ar = Some M -> M !! a = Some p -> area_spec addr (OUnlink ar a p) f (with_map ar (Some (delete a M)) f) 0
| AS_search ar a M f : f ar = Some M -> area_spec addr (OSearch ar a) f f (default NULL (M !! a)).

Inductive area_specs (addr : ptr -> Z) : list area_op -> maps -> maps -> list Z -> Prop :=
| ASS_nil f : area_specs addr [] f f []
| ASS_cons op ops f f1 f2 r rs : area_spec addr op f f1 r -> area_specs addr ops f1 f2 rs -> area_specs addr (op :: ops) f f2 (r :: rs).

Fixpoint area_execs (ops : list area_op) (s : VMM) : option (VMM * list Z) :=
  match ops with
  | [] => Some (s, [])
  | op :: ops => '(s, r) ← area_exec op s; '(s, rs) ← area_execs ops s; Some (s, r :: rs)
  end.

(** Control blocks with their nodes and addresses; nothing is said of the areas. *)
Definition blocks_of (s : VMM) (addr : ptr -> Z) (ps : list ptr) : Prop :=
  forall p, p ∈ ps -> p <> NULL /\ is_page s p /\ is_Some (PAGE_trbnNode s !! p) /\ addr_of s p = addr p.

Definition areas_exist (s : VMM) : Prop := forall ar, match ar with AZone i => (i < LW_CFG_VMM_ZONE_NUM)%nat | AVirtual => True end -> is_Some (get_area ar s).

Definition op_area (op : area_op) : AREA := match op with OInit ar _ _ _ | OInsert ar _ | OUnlink ar _ _ | OSearch ar _ => ar end.
Definition op_legal (ps : list ptr) (op : area_op) : Prop :=
  (match op_area op with AZone i => (i < LW_CFG_VMM_ZONE_NUM)%nat | AVirtual => True end) /\ (match op with OInsert _ p => p ∈ ps | _ => True end).

Lemma step_keeps s s' ar ks addr ps : area_step s s' ar ks -> is_Some (get_area ar s) -> blocks_of s addr ps -> areas_exist s ->
  blocks_of s' addr ps /\ areas_exist s'.
Proof.
  intros (v & m & -> & _ & Hd) Hv Hb He. destruct (area_fields ar v (with_node m s)) as [Ep En]. split.
  - intros p Hp. destruct (Hb p Hp) as (H1 & H2 & H3 & H4). unfold is_page, addr_of in *. rewrite Ep, En. cbn. split_and!; [done|done| |done].
    apply elem_of_dom. rewrite Hd. by apply elem_of_dom.
  - intros ar' H. destruct (decide (ar = ar')) as [<-|Hne]; [|rewrite get_put_other, get_area_node by done; by apply He].
    destruct Hv as [v0 Hv]. erewrite get_put_area; [done|]. by rewrite get_area_node.
Qed.

Lemma area_exec_spec addr ps op s f f' r : areas_ok s f -> blocks_of s addr ps -> areas_exist s -> op_legal ps op ->
  area_spec addr op f f' r -> exists s' ks, area_exec op s = Some (s', r) /\ areas_ok s' f' /\ area_step s s' (op_area op) ks.
Proof.
  intros Hok Hb He [Hz Hop] Hsp. pose proof (He _ Hz) as [v Hv].
  destruct Hsp as [ar a n mem f|ar p M f Hf Hfree HM|ar p q M f Hf Hfree HM|ar a p M f Hf HM|ar a M f Hf]; cbn [op_area area_exec] in *.
  - destruct (area_init ar a n mem s v Hv) as (s' & -> & Hr & Hs). exists s', []. split; [done|]. split; [|done].
    eapply areas_step; [done|exact Hs| | |by intros ar' M p _ _ ?%elem_of_nil]; destruct mem; try done; intros M; [intros [= <-]; by apply Hr|].
    by intros p [= <-] [? ?]%elem_pages.
  - destruct (Hb p Hop) as (H1 & H2 & H3 & H4). destruct (read_page s p H1 H2) as (pg & -> & Epg). cbn [mbind option_bind]. rewrite Epg.
    destruct (area_insert s ar M (addr_of s p) p) as (s' & -> & Hr & Hs); [by apply Hok|done|done|done|done|by intros b Hq; apply (Hfree ar M Hf), elem_pages; exists b|].
    rewrite H4, HM in Hr. cbn [mbind option_bind]. exists s', (p :: pages_of M). split; [done|]. split; [|exact Hs].
    eapply areas_step; [done|exact Hs|by intros M' [= <-]| |].
    + intros M' q [= <-] [b Hq]%elem_pages. apply lookup_insert_Some in Hq as [[_ <-]|[_ Hq]]; [left|right; apply elem_pages; by exists b].
    + intros ar' M' q Hne Hf' [->|Hq]%elem_of_cons; [by apply (Hfree ar')|]. intros Hq'. apply Hne. by eapply (ak_once _ _ Hok).
  - destruct (Hb p Hop) as (H1 & H2 & H3 & H4). destruct (read_page s p H1 H2) as (pg & -> & Epg). cbn [mbind option_bind]. rewrite Epg.
    destruct (area_insert s ar M (addr_of s p) p) as (s' & -> & Hr & Hs); [by apply Hok|done|done|done|done|by intros b Hq; apply (Hfree ar M Hf), elem_pages; exists b|].
    rewrite H4, HM in Hr. cbn [mbind option_bind]. exists s', (p :: pages_of M). split; [done|]. split; [|exact Hs].
    assert (Hok' : areas_ok s' (with_map ar (Some M) f)).
    { eapply areas_step; [done|exact Hs|by intros M' [= <-]|intros M' x [= <-] Hx; by right|].
      intros ar' M' x Hne Hf' [->|Hx]%elem_of_cons; [by apply (Hfree ar')|]. intros Hx'. apply Hne. by eapply (ak_once _ _ Hok). }
    destruct Hok' as [Hr' Ho']. unfold with_map in *. split.
    + intros ar' M' Hf'. apply Hr'. case_decide; [congruence|done].
    + intros a1 a2 M1 M2 x Hf1 Hf2. apply (Ho' a1 a2 M1 M2); (case_decide; [congruence|done]).
  - destruct (area_unlink s ar M a p) as (s' & -> & Hr & Hs); [by apply Hok|done|]. cbn [mbind option_bind]. exists s', (pages_of M).
    split; [done|]. split; [|exact Hs]. eapply areas_step; [done|exact Hs|by intros M' [= <-]| |].
    + intros M' q [= <-] [b Hq]%elem_pages. apply lookup_delete_Some in Hq as [_ Hq]. apply elem_pages. by exists b.
    + intros ar' M' q Hne Hf' Hq Hq'. apply Hne. by eapply (ak_once _ _ Hok).
  - rewrite (area_search s ar M a) by (by apply Hok). cbn [mbind option_bind]. exists s, []. split; [done|]. split; [done|].
    exists v, (PAGE_trbnNode s). split; [|done]. destruct ar as [j|]; cbn in *; [|by destruct s; simplify_eq].
    unfold with_areas. cbn. rewrite list_insert_id; [by destruct s|done].
Qed.

Lemma area_execs_spec addr ps ops : forall s f f' rs, areas_ok s f -> blocks_of s addr ps -> areas_exist s -> Forall (op_legal ps) ops ->
  area_specs addr ops f f' rs -> exists s', area_execs ops s = Some (s', rs) /\ areas_ok s' f'.
Proof.
  induction ops as [|op ops IH]; intros s f f' rs Hok Hb He Hl Hsp; inversion Hsp; subst; [by exists s|].
  apply Forall_cons in Hl as [Hl1 Hl]. destruct (area_exec_spec addr ps op s _ _ _ Hok Hb He Hl1 ltac:(eassumption)) as (s1 & ks & E1 & Hok1 & Hs).
  destruct Hl1 as [Hz _]. destruct (step_keeps _ _ _ _ _ _ Hs (He _ Hz) Hb He) as [Hb1 He1].
  destruct (IH s1 _ _ _ Hok1 Hb1 He1 Hl ltac:(eassumption)) as (s2 & E2 & Hok2). exists s2. cbn [area_execs]. rewrite E1. cbn [mbind option_bind].
  by rewrite E2.
Qed.

(** ** Steps of a search *)

Lemma tree_size s v ts M i t : trees_rep s v ts M -> ts !! i = Some t -> NoDup (elems t) -> (length (elems t) <= size M)%nat.
Proof.
  intros H Ht Hn. rewrite <-length_map_to_list, <-(length_fmap snd). apply submseteq_length, NoDup_submseteq; [done|].
  intros p Hp. apply (tr_pages _ _ _ _ H _ _ p Ht) in Hp as (a & Ha & _). apply elem_pages. by exists a.
Qed.

Lemma search_steps s ar M a : area_rep s ar M -> exists i rb, tree_of ar a s = Some (i, rb) /\
  search_loop (S (2 * Nat.log2 (S (size M)))) a (TRBR_ptrbnNode rb) rb s = Some (default NULL (M !! a)).
Proof.
  intros (v & ts & Hv & H). destruct (tree_of_spec s ar v ts M a Hv H) as (h & t & Et & Hh & Ht & Hr).
  eexists _, _. split; [exact Et|]. cbn [TRBR_ptrbnNode]. assert (root t = h) as <-. { destruct Hr as [[_ Hp _ _] _]. by cbn in Hp. }
  pose proof (tree_size s v ts M _ t H Ht (proj1 (rb_rep_keys _ _ Hr))) as Hsz. pose proof (rb_height t (proj2 Hr)) as Hh2.
  assert (Nat.log2 (S (length (elems t))) <= Nat.log2 (S (size M)))%nat by (apply Nat.log2_le_mono; lia).
  destruct (search_spec (elems t) s (mkRb (PAGE_trbnNode s) (root t)) a (S (2 * Nat.log2 (S (size M)))) t []) as (p & -> & Hp);
    [apply Hr|by eapply tr_order| |lia|].
  - intros p Hp. apply (tr_pages _ _ _ _ H _ _ p Ht) in Hp as (a' & Hp & _). by apply (tr_addr _ _ _ _ H) in Hp as [? _].
  - f_equal. by eapply found_map.
Qed.

(** ** Traversal *)

Section Visit.
Context {A : Type} (g : ptr -> A -> A).

(** A callback that leaves pages and areas alone. *)
Definition visit (p : ptr) (x : VMM * A) : option (VMM * A) := Some (x.1, g p x.2).

Lemma traverse_tree s x fuel : forall par t, tree_at (PAGE_trbnNode s) par t -> NULL ∉ elems t -> (height t < fuel)%nat ->
  __areaSpaceRbTreeTraversal visit fuel (root t) (s, x) = Some (s, foldl (fun y p => g p y) x (elems t)).
Proof.
  revert x. induction fuel as [|fuel IH]; intros x par t Ht H0 Hf; [lia|]. destruct t as [|c l k r]; [done|].
  cbn [root __areaSpaceRbTreeTraversal]. cbn in Ht, H0, Hf. destruct Ht as (Hk & Hl & Hr).
  assert (Hk0 : k <> NULL) by (intros ->; set_solver). rewrite (proj2 (Z.eqb_neq _ _) Hk0).
  unfold get_left, get_right. cbn [fst]. rewrite (load_some k (mkRb _ _) _ Hk0 Hk). cbn [fmap option_fmap option_map mbind option_bind TRBN_ptrbnLeft].
  rewrite (IH x k l Hl) by (set_solver || lia). cbn [mbind option_bind visit]. cbn [fst snd].
  rewrite (load_some k (mkRb _ _) _ Hk0 Hk). cbn [fmap option_fmap option_map mbind option_bind TRBN_ptrbnRight].
  rewrite (IH _ k r Hr) by (set_solver || lia). cbn [elems]. rewrite foldl_app. done.
Qed.

Lemma traverse_spec s ar v ts M x : get_area ar s = Some v -> trees_rep s v ts M ->
  __areaSpaceTraversal visit ar (s, x) = Some (s, foldl (fun y p => g p y) x (concat (elems <$> ts))).
Proof.
  intros Hv H. unfold __areaSpaceTraversal. cbn [fst]. rewrite Hv. cbn [mbind option_bind]. destruct (tr_size _ _ _ _ H) as [_ ->].
  rewrite Nat2Z.id. rewrite (Forall2_length _ _ _ (tr_trees _ _ _ _ H)).
  assert (Hg : forall n i x, (n + i = length ts)%nat ->
    traverse_entries visit n i ar (s, x) = Some (s, foldl (fun y p => g p y) x (concat (elems <$> drop i ts)))).
  { induction n as [|n IH]; intros i y Hi; [by rewrite drop_ge by lia|]. cbn [traverse_entries fst]. rewrite Hv. cbn [mbind option_bind].
    destruct (lookup_lt_is_Some_2 ts i) as [t Ht]; [lia|]. destruct (Forall2_lookup_r _ _ _ _ _ (tr_trees _ _ _ _ H) Ht) as (h & Hh & Hr).
    assert (Hh' : @lookup nat Z (list ptr) _ i (AREA_ptrbrHash v) = Some h) by exact Hh. rewrite Hh'. clear Hh Hh'. cbn [mbind option_bind]. rewrite (drop_S _ _ _ Ht). cbn [fmap list_fmap concat]. rewrite foldl_app.
    assert (root t = h) as <-. { destruct Hr as [[_ Hp _ _] _]. by cbn in Hp. }
    pose proof (rb_rep_keys _ _ Hr) as [_ H0]. pose proof Hr as [[Htr _ _ _] _]. cbn in Htr. pose proof (rep_fuel _ _ Hr) as Hf. change (height t < rb_fuel (mkRb (PAGE_trbnNode s) NULL))%nat in Hf.
    destruct (root t =? NULL) eqn:Er; cbn [negb mbind option_bind].
    - apply Z.eqb_eq in Er. destruct t as [|c l k r]; [by rewrite IH by lia|]. cbn in Er. subst. cbn in H0. set_solver.
    - rewrite (traverse_tree s y _ _ t Htr H0 Hf). cbn [mbind option_bind]. by rewrite IH by lia. }
  by rewrite Hg by lia.
Qed.

Lemma concat_trees s v ts M : trees_rep s v ts M -> concat (elems <$> ts) ≡ₚ pages_of M.
Proof.
  intros H. apply NoDup_Permutation.
  - assert (Hn : forall us i, drop i ts = us -> NoDup (concat (elems <$> us))); [|by apply (Hn _ 0%nat)].
    induction us as [|u us IH]; intros i Hd; [constructor|]. assert (Hu : ts !! i = Some u) by (by rewrite <-(Nat.add_0_r i), <-lookup_drop, Hd).
    rewrite (drop_S _ _ _ Hu) in Hd. injection Hd as Hd. cbn. apply NoDup_app. split; [|split; [|by eapply IH]].
    + destruct (Forall2_lookup_r _ _ _ _ _ (tr_trees _ _ _ _ H) Hu) as (h & _ & Hr). by apply rb_rep_keys in Hr as [? _].
    + intros p Hp Hq. apply list_elem_of_In, in_concat in Hq as (l & Hl & Hq). apply list_elem_of_In, list_elem_of_fmap in Hl as (u' & -> & Hu').
      apply list_elem_of_In in Hq. rewrite <-Hd in Hu'. apply list_elem_of_lookup in Hu' as (j & Hj). rewrite lookup_drop in Hj.
      pose proof (entries_apart _ _ _ _ _ _ _ _ _ H Hu Hj Hp Hq). lia.
  - apply NoDup_fmap_2_strong; [|apply NoDup_map_to_list]. intros [a p] [b q] Ha%elem_of_map_to_list Hb%elem_of_map_to_list E. cbn in E. subst.
    destruct (tr_addr _ _ _ _ H _ _ Ha) as [_ <-]. by destruct (tr_addr _ _ _ _ H _ _ Hb) as [_ <-].
  - intros p. rewrite elem_pages. split.
    + intros (l & Hl & Hp)%list_elem_of_In%in_concat. apply list_elem_of_In, list_elem_of_fmap in Hl as (u & -> & Hu).
      apply list_elem_of_lookup in Hu as (i & Hu). apply list_elem_of_In in Hp. apply (tr_pages _ _ _ _ H _ _ p Hu) in Hp as (a & Ha & _). by exists a.
    + intros [a Ha]. pose proof (tr_size _ _ _ _ H) as [H1 H2]. pose proof (Forall2_length _ _ _ (tr_trees _ _ _ _ H)) as H3.
      pose proof (Z.mod_pos_bound (Z.shiftr a LW_CFG_VMM_PAGE_SHIFT) (AREA_ulHashSize v) ltac:(lia)) as H4.
      destruct (lookup_lt_is_Some_2 ts (entry (AREA_ulHashSize v) a)) as [u Hu]; [unfold entry; lia|].
      apply list_elem_of_In, in_concat. exists (elems u). split; [|apply list_elem_of_In, (tr_pages _ _ _ _ H _ _ p Hu); by exists a].
      apply list_elem_of_In, list_elem_of_fmap. exists u. split; [done|]. by eapply list_elem_of_lookup_2.
Qed.
End Visit.

(** ** The theorems *)

(** C22: Any sequence of operations on the areas of physical zones and of the virtual space (initialising an area, inserting
    a page, unlinking one, searching an address) that inserts only pages that are in no area and
    unlinks only a page that its area holds at that address runs through, and its results are
    those of one finite map from addresses to pages per area: a search gives the page at
    exactly that address or NULL, an insertion at an address that is taken changes nothing, and
    the areas, which share the nodes of the pages, do not disturb each other. *)
Theorem area_run_refines addr ps ops s f f' rs : areas_ok s f -> blocks_of s addr ps -> areas_exist s ->
  Forall (op_legal ps) ops -> area_specs addr ops f f' rs ->
  exists s', area_execs ops s = Some (s', rs) /\ (forall ar M, f' ar = Some M -> forall a, __areaSearchPage ar a s' = Some (default NULL (M !! a))).
Proof.
  intros Hok Hb He Hl Hsp. destruct (area_execs_spec addr ps ops s f f' rs Hok Hb He Hl Hsp) as (s' & E & [Hr _]).
  exists s'. split; [done|]. intros ar M Hf a. by apply area_search, Hr.
Qed.

(** A search ends after at most [2 * log2 (n + 1) + 1] rounds of its loop, [n] being the number of pages of the area. *)
Theorem area_search_log s ar M a : area_rep s ar M -> exists i rb, tree_of ar a s = Some (i, rb) /\
  search_loop (S (2 * Nat.log2 (S (size M)))) a (TRBR_ptrbnNode rb) rb s = Some (default NULL (M !! a)) /\
  __areaSearchPage ar a s = Some (default NULL (M !! a)).
Proof.
  intros H. destruct (search_steps s ar M a H) as (i & rb & E1 & E2). exists i, rb. split; [done|]. split; [done|]. by apply area_search.
Qed.

(** Traversing an area calls the callback exactly once for each page of it. *)
Theorem area_traversal s ar M : area_rep s ar M -> exists l, l ≡ₚ pages_of M /\
  forall (A : Type) (g : ptr -> A -> A) x, __areaSpaceTraversal (visit g) ar (s, x) = Some (s, foldl (fun y p => g p y) x l).
Proof.
  intros (v & ts & Hv & H). exists (concat (elems <$> ts)). split; [by eapply concat_trees|]. intros A g x. by eapply traverse_spec.
Qed.

(** ** A small system *)

(** Three control blocks; the first two addresses select the same entry of five. *)
Definition demo_page (a : Z) : LW_VMM_PAGE := mkPage 1 a __VMM_PAGE_TYPE_PHYSICAL 0 true (ZPhysical 0) (PhyStatus PAGE_MAP_ADDR_INV 0 1 NULL).
Definition demo_vmm : VMM :=
  mkVmm (<[64 := demo_page 0x100000]> (<[128 := demo_page 0x105000]> (<[192 := demo_page 0x102000]> ∅)))
    (<[64 := mkRbn 7 7 7 7]> (<[128 := mkRbn 7 7 7 7]> (<[192 := mkRbn 7 7 7 7]> ∅))) [] []
    (replicate LW_CFG_VMM_ZONE_NUM zero_zone) (replicate LW_CFG_VMM_VIR_NUM zero_zone) zero_zone
    (replicate LW_CFG_VMM_ZONE_NUM zero_area) zero_area zero_static.
Definition demo_ops : list area_op :=
  [OInit (AZone 0) 0x100000 0x100000 true; OInsert (AZone 0) 64; OInsert (AZone 0) 128; OSearch (AZone 0) 0x105000;
   OUnlink (AZone 0) 0x100000 64; OSearch (AZone 0) 0x100000; OSearch (AZone 0) 0x105000].
Definition demo_maps (n : nat) : maps :=
  match n with
  | 0%nat => fun _ => None
  | 1%nat => with_map (AZone 0) (Some ∅) (fun _ => None)
  | 2%nat => with_map (AZone 0) (Some (<[addr_of demo_vmm 64 := 64]> ∅)) (with_map (AZone 0) (Some ∅) (fun _ => None))
  | 3%nat => with_map (AZone 0) (Some (<[addr_of demo_vmm 128 := 128]> (<[addr_of demo_vmm 64 := 64]> ∅))) (with_map (AZone 0) (Some (<[addr_of demo_vmm 64 := 64]> ∅)) (with_map (AZone 0) (Some ∅) (fun _ => None)))
  | _ => with_map (AZone 0) (Some (delete 0x100000 (<[addr_of demo_vmm 128 := 128]> (<[addr_of demo_vmm 64 := 64]> ∅)))) (with_map (AZone 0) (Some (<[addr_of demo_vmm 128 := 128]> (<[addr_of demo_vmm 64 := 64]> ∅))) (with_map (AZone 0) (Some (<[addr_of demo_vmm 64 := 64]> ∅)) (with_map (AZone 0) (Some ∅) (fun _ => None))))
  end.

Lemma demo_area_specs : area_specs (addr_of demo_vmm) demo_ops (demo_maps 0) (demo_maps 4) [0; 0; 0; 128; 0; 0; 128].
Proof.
  unfold demo_ops. eapply ASS_cons; [exact (AS_init _ _ _ _ true _)|].
  eapply ASS_cons; [eapply (AS_insert _ _ _ ∅); [done| |done]|].
  { intros ar M H. unfold with_map in H. case_decide; [|done]. injection H as <-. intros [? ?]%elem_pages. done. }
  eapply ASS_cons; [eapply (AS_insert _ _ _ (<[addr_of demo_vmm 64 := 64]> ∅)); [done| |done]|].
  { intros ar M H. unfold with_map in H. case_decide; [|done]. injection H as <-. intros [a Ha]%elem_pages.
    apply lookup_insert_Some in Ha as [[_ ?]|[_ ?]]; done. }
  eapply (ASS_cons _ _ _ _ _ _ 128); [exact (AS_search _ _ 0x105000 (<[addr_of demo_vmm 128 := 128]> (<[addr_of demo_vmm 64 := 64]> ∅)) _ eq_refl)|].
  eapply ASS_cons; [eapply (AS_unlink _ _ _ _ (<[addr_of demo_vmm 128 := 128]> (<[addr_of demo_vmm 64 := 64]> ∅))); done|].
  eapply (ASS_cons _ _ _ _ _ _ 0); [exact (AS_search _ _ 0x100000 (delete 0x100000 (<[addr_of demo_vmm 128 := 128]> (<[addr_of demo_vmm 64 := 64]> ∅))) _ eq_refl)|].
  eapply (ASS_cons _ _ _ _ _ _ 128); [exact (AS_search _ _ 0x105000 (delete 0x100000 (<[addr_of demo_vmm 128 := 128]> (<[addr_of demo_vmm 64 := 64]> ∅))) _ eq_refl)|].
  constructor.
Qed.

Lemma demo_blocks : blocks_of demo_vmm (addr_of demo_vmm) [64; 128] /\ areas_exist demo_vmm /\ areas_ok demo_vmm (demo_maps 0).
Proof.
  split; [|split].
  - intros p Hp. apply list_elem_of_In in Hp. cbn in Hp. destruct Hp as [<-|[<-|[]]]; (split; [done|split; [by eexists|split; [by eexists|done]]]).
  - intros [i|] H; [|by eexists]. apply lookup_lt_is_Some_2. unfold demo_vmm. cbn [_G_vmareaZoneSpace]. by rewrite length_replicate.
  - by split.
Qed.

Lemma area_run_refines_witness : exists s', area_execs demo_ops demo_vmm = Some (s', [0; 0; 0; 128; 0; 0; 128]) /\
  __areaSearchPage (AZone 0) 0x105000 s' = Some 128.
Proof.
  destruct (area_run_refines (addr_of demo_vmm) [64; 128] demo_ops demo_vmm (demo_maps 0) (demo_maps 4) [0; 0; 0; 128; 0; 0; 128]) as (s' & E & H).
  - apply demo_blocks.
  - apply demo_blocks.
  - apply demo_blocks.
  - unfold demo_ops. repeat constructor; unfold LW_CFG_VMM_ZONE_NUM; cbn; (lia || set_solver).
  - apply demo_area_specs.
  - exists s'. split; [exact E|]. exact (H (AZone 0) _ eq_refl 0x105000).
Defined.

Lemma area_demo_runs : exists s', area_execs demo_ops demo_vmm = Some (s', [0; 0; 0; 128; 0; 0; 128]) /\
  area_rep s' (AZone 0) (delete 0x100000 (<[addr_of demo_vmm 128 := 128]> (<[addr_of demo_vmm 64 := 64]> ∅))).
Proof.
  destruct demo_blocks as (Hb & He & Hok).
  destruct (area_execs_spec (addr_of demo_vmm) [64; 128] demo_ops demo_vmm _ _ _ Hok Hb He ltac:(unfold demo_ops; repeat constructor; unfold LW_CFG_VMM_ZONE_NUM; cbn; (lia || set_solver)) demo_area_specs) as (s' & E & [Hr _]).
  exists s'. split; [exact E|]. exact (Hr (AZone 0) _ eq_refl).
Qed.

Lemma area_search_log_witness : exists s' i rb, tree_of (AZone 0) 0x105000 s' = Some (i, rb) /\
  search_loop 3 0x105000 (TRBR_ptrbnNode rb) rb s' = Some 128.
Proof.
  destruct area_demo_runs as (s' & _ & H). destruct (area_search_log s' (AZone 0) _ 0x105000 H) as (i & rb & E1 & E2 & _).
  exists s', i, rb. split; [exact E1|]. exact E2.
Defined.

Lemma area_traversal_witness : exists s' l, l ≡ₚ [128] /\
  forall x, __areaSpaceTraversal (visit (fun (p : ptr) (n : nat) => S n)) (AZone 0) (s', x) = Some (s', foldl (fun y _ => S y) x l).
Proof.
  destruct area_demo_runs as (s' & _ & H). destruct (area_traversal s' (AZone 0) _ H) as (l & Hl & Ht).
  exists s', l. split; [exact Hl|]. intros x. exact (Ht nat (fun _ n => S n) x).
Defined.
