(* ===== verification/PageLib.v ===== *)
(** * Virtual memory: kernel/vmm/pageLib.c

    A zone is a chain of page control blocks, used and free ones, that cover it from
    left to right; the free ones are also in the lists of the free hash, by the order of
    their size.  Control blocks of physical pages come from a list of their own, those of
    virtual pages from the kernel heap, whose answers are parameters ([CB]). *)

From S2P Require Import Prelude Lists RbTree Vmm.

Definition __VMM_PAGE_LINK_HASH_SIZE : nat := 32.
Definition __VMM_PAGE_LINK_HASH (key : Z) : nat :=
  Z.to_nat (Z.land (Z.shiftr key LW_CFG_VMM_PAGE_SHIFT) (Z.of_nat __VMM_PAGE_LINK_HASH_SIZE - 1)).

(** ** The chains of neighbours *)

Definition line_next (p : ptr) (m : list (list ptr)) : ptr :=
  foldr (fun l acc => match list_next p l with Some q => q | None => acc end) NULL m.
Definition line_prev (p : ptr) (m : list (list ptr)) : ptr :=
  foldr (fun l acc => match list_prev p l with Some q => q | None => acc end) NULL m.

(** [_List_Line_Add_Tail] with a header that points at [p]; [_List_Line_Del]. *)
Definition line_add_behind (p new : ptr) (s : VMM) : VMM := with_manage (insert_after new p <$> PAGE_lineManage s) s.
Definition line_del (p : ptr) (s : VMM) : VMM := with_manage (remove_node p <$> PAGE_lineManage s) s.

(** ** Control blocks *)

(** [sizeof(LW_VMM_PAGE_CB)]: two list nodes, the tree node, six words and the union. *)
Definition sizeof_LW_VMM_PAGE_CB : Z := 144.

(** What an allocation in the kernel heap gives: a block, with what is in its memory, or NULL. *)
Abbreviation CB := (option (ptr * LW_VMM_PAGE * LW_TREE_RB_NODE)).

Definition new_cb (p : ptr) (v : LW_VMM_PAGE) (n : LW_TREE_RB_NODE) (s : VMM) : VMM :=
  with_page (<[p := v]> (VM_page s)) (with_node (<[p := n]> (PAGE_trbnNode s)) s).

Fixpoint free_cbs (n i : nat) (base : ptr) (junk : nat -> LW_VMM_PAGE * LW_TREE_RB_NODE) (s : VMM) : VMM :=
  match n with
  | O => s
  | S n =>
    let p := base +64 Z.of_nat i * sizeof_LW_VMM_PAGE_CB in
    free_cbs n (S i) base junk (with_free (p :: _K_pmonoPhyPageFreeList s) (new_cb p (junk i).1 (junk i).2 s))
  end.

Definition __pageCbInit (ulPageNum : Z) (mem : option (ptr * (nat -> LW_VMM_PAGE * LW_TREE_RB_NODE))) (s : VMM) : VMM * Z :=
  match mem with
  | None => (s, ERROR_KERNEL_LOW_MEMORY)
  | Some (pvmpagecb, junk) => (free_cbs (Z.to_nat ulPageNum) 0 pvmpagecb junk s, ERROR_NONE)
  end.

Definition __pageCbAlloc (iPageType : Z) (mem : CB) (s : VMM) : VMM * ptr :=
  if iPageType =? __VMM_PAGE_TYPE_PHYSICAL then
    match _K_pmonoPhyPageFreeList s with
    | p :: l => (with_free l s, p)
    | [] => (s, NULL)
    end
  else match mem with Some (p, v, n) => (new_cb p v n s, p) | None => (s, NULL) end.

(** Memory given back to the heap holds nothing. *)
Definition __pageCbFree (pvmpage : ptr) (s : VMM) : option VMM :=
  v ← page pvmpage s;
  Some (if PAGE_iPageType v =? __VMM_PAGE_TYPE_PHYSICAL then with_free (pvmpage :: _K_pmonoPhyPageFreeList s) s
        else with_page (delete pvmpage (VM_page s)) (with_node (delete pvmpage (PAGE_trbnNode s)) s)).

(** [PAGE_pvAreaCb] is the first word of the union. *)
Definition area_cb (v : LW_VMM_PAGE) : Z :=
  match PAGE_status v with PhyStatus ulMapPageAddr _ _ _ => ulMapPageAddr | VirStatus pvAreaCb _ => pvAreaCb end.

Definition __pageInitLink (pvmpage : ptr) : VMM -> option VMM :=
  set_page pvmpage (fun v => with_status (VirStatus (area_cb v) (replicate __VMM_PAGE_LINK_HASH_SIZE [])) v).

(** ** The free hash *)

(** [for (i = 0; (1ul << i) < ulPageNum; i++)]; a shift by 64 is undefined. *)
Fixpoint page_order (fuel : nat) (i ulPageNum : Z) : option Z :=
  match fuel with
  | O => None
  | S fuel => if Z.shiftl 1 i <? ulPageNum then page_order fuel (i + 1) ulPageNum else Some i
  end.

Definition __pageFreeHashIndex (ulPageNum : Z) : option nat :=
  i ← page_order 64 0 ulPageNum;
  Some (if i >=? Z.of_nat LW_CFG_VMM_MAX_ORDER then (LW_CFG_VMM_MAX_ORDER - 1)%nat else Z.to_nat i).

Definition with_vmfa (fa : list LW_VMM_FREEAREA) (z : LW_VMM_ZONE) : LW_VMM_ZONE :=
  mkZone (ZONE_ulFreePage z) (ZONE_ulAddr z) (ZONE_stSize z) (ZONE_uiAttr z) fa.
Definition with_free_page (n : Z) (z : LW_VMM_ZONE) : LW_VMM_ZONE :=
  mkZone n (ZONE_ulAddr z) (ZONE_stSize z) (ZONE_uiAttr z) (ZONE_vmfa z).

Definition add_free_page (pvmzone : ZONE) (n : Z) (s : VMM) : option VMM :=
  z ← get_zone pvmzone s; Some (put_zone pvmzone (with_free_page (ZONE_ulFreePage z +64 n) z) s).

Definition fa_add (pvmzone : ZONE) (i : nat) (pvmpage : ptr) (s : VMM) : option VMM :=
  z ← get_zone pvmzone s;
  fa ← ZONE_vmfa z !! i;
  Some (put_zone pvmzone (with_vmfa (<[i := mkFa (pvmpage :: FA_lineFreeHeader fa) (FA_ulCount fa +64 1)]> (ZONE_vmfa z)) z) s).
Definition fa_del (pvmzone : ZONE) (i : nat) (pvmpage : ptr) (s : VMM) : option VMM :=
  z ← get_zone pvmzone s;
  fa ← ZONE_vmfa z !! i;
  Some (put_zone pvmzone (with_vmfa (<[i := mkFa (remove_node pvmpage (FA_lineFreeHeader fa)) (FA_ulCount fa -64 1)]> (ZONE_vmfa z)) z) s).

Definition __pageAddToFreeHash (pvmzone : ZONE) (pvmpage : ptr) (s : VMM) : option VMM :=
  v ← page pvmpage s; i ← __pageFreeHashIndex (PAGE_ulCount v); fa_add pvmzone i pvmpage s.
Definition __pageDelFromFreeHash (pvmzone : ZONE) (pvmpage : ptr) (s : VMM) : option VMM :=
  v ← page pvmpage s; i ← __pageFreeHashIndex (PAGE_ulCount v); fa_del pvmzone i pvmpage s.

Definition __pageStructSeparate (pvmpage pvmpageNew : ptr) (ulPageNum iPageType : Z) (s : VMM) : option VMM :=
  let s := line_add_behind pvmpage pvmpageNew s in
  v ← page pvmpage s;
  s ← set_page pvmpageNew (fun o => mkPage (PAGE_ulCount v -64 ulPageNum)
        (PAGE_ulPageAddr v +64 wrap 64 (Z.shiftl ulPageNum LW_CFG_VMM_PAGE_SHIFT)) iPageType (PAGE_ulFlags v) (PAGE_bUsed o)
        (PAGE_pvmzoneOwner v) (PAGE_status o)) s;
  set_page pvmpage (with_count ulPageNum) s.

(** ** Release *)

(** A free left neighbour takes the page over.  Result: also the page that is left. *)
Definition merge_left (pvmzone : ZONE) (pvmpageLeft pvmpage : ptr) (s : VMM) : option (VMM * ptr) :=
  l ← page pvmpageLeft s;
  if PAGE_bUsed l then Some (s, pvmpage)
  else
    s ← __pageDelFromFreeHash pvmzone pvmpageLeft s;
    v ← page pvmpage s;
    s ← set_page pvmpageLeft (fun l => with_count (PAGE_ulCount l +64 PAGE_ulCount v) l) s;
    s ← __pageCbFree pvmpage (line_del pvmpage s);
    Some (s, pvmpageLeft).

(** The page takes a free right neighbour over. *)
Definition merge_right (pvmzone : ZONE) (pvmpage pvmpageRight : ptr) (s : VMM) : option VMM :=
  r ← page pvmpageRight s;
  if PAGE_bUsed r then Some s
  else
    s ← __pageDelFromFreeHash pvmzone pvmpageRight s;
    s ← set_page pvmpage (fun v => with_count (PAGE_ulCount v +64 PAGE_ulCount r) v) s;
    __pageCbFree pvmpageRight (line_del pvmpageRight s).

Definition __pageFree (pvmzone : ZONE) (pvmpage : ptr) (s : VMM) : option VMM :=
  v ← page pvmpage s;
  let ulFreePageNum := PAGE_ulCount v in
  let pvmpageLeft := line_prev pvmpage (PAGE_lineManage s) in
  let pvmpageRight := line_next pvmpage (PAGE_lineManage s) in
  '(s, pvmpage) ← (if negb (pvmpageLeft =? NULL) then merge_left pvmzone pvmpageLeft pvmpage s else Some (s, pvmpage));
  s ← (if negb (pvmpageRight =? NULL) then merge_right pvmzone pvmpage pvmpageRight s else Some s);
  s ← set_page pvmpage (with_used false) s;
  s ← __pageAddToFreeHash pvmzone pvmpage s;
  add_free_page pvmzone ulFreePageNum s.

(** ** Allocation *)

(** The loop over one free list: the page that fits best so far and what it leaves. *)
Fixpoint scan_fit (ulPageNum : Z) (plineFree : list ptr) (pvmpageFit : ptr) (ulFit : Z) (s : VMM) : option (ptr * Z) :=
  match plineFree with
  | [] => Some (pvmpageFit, ulFit)
  | p :: plineFree =>
    v ← page p s;
    let ulTemp := PAGE_ulCount v -64 ulPageNum in
    if (PAGE_ulCount v >=? ulPageNum) && (ulTemp <? ulFit) then scan_fit ulPageNum plineFree p ulTemp s
    else scan_fit ulPageNum plineFree pvmpageFit ulFit s
  end.

(** [k] free lists from order [i] on: the order, the page and what it leaves. *)
Fixpoint find_fit (k i : nat) (z : LW_VMM_ZONE) (ulPageNum : Z) (s : VMM) : option (option (nat * ptr * Z)) :=
  match k with
  | O => Some None
  | S k =>
    fa ← ZONE_vmfa z !! i;
    if FA_ulCount fa =? 0 then find_fit k (S i) z ulPageNum s
    else
      '(pvmpageFit, ulFit) ← scan_fit ulPageNum (FA_lineFreeHeader fa) NULL ULONG_MAX s;
      if pvmpageFit =? NULL then find_fit k (S i) z ulPageNum s else Some (Some (i, pvmpageFit, ulFit))
  end.

(** The fields of a page that is handed out. *)
Definition page_handed (pvmpageFit : ptr) (iPageType : Z) (s : VMM) : option VMM :=
  if iPageType =? __VMM_PAGE_TYPE_PHYSICAL then set_page pvmpageFit (with_status (PhyStatus PAGE_MAP_ADDR_INV 0 1 NULL)) s
  else s ← set_page pvmpageFit (with_status (VirStatus NULL [])) s; __pageInitLink pvmpageFit s.

(** The pages behind the first [ulPageNum] of [pvmpageFit], which is used now, become a free page. *)
Definition split_right (pvmzone : ZONE) (pvmpageFit pvmpageNewFree : ptr) (ulPageNum iPageType : Z) (s : VMM) : option VMM :=
  s ← set_page pvmpageFit (with_used true) s;
  s ← set_page pvmpageNewFree (with_used false) s;
  s ← __pageStructSeparate pvmpageFit pvmpageNewFree ulPageNum iPageType s;
  __pageAddToFreeHash pvmzone pvmpageNewFree s.

Definition __pageAllocate (pvmzone : ZONE) (ulPageNum iPageType : Z) (mem : CB) (s : VMM) : option (VMM * ptr) :=
  iHashIndex ← __pageFreeHashIndex ulPageNum;
  z ← get_zone pvmzone s;
  fit ← find_fit (LW_CFG_VMM_MAX_ORDER - iHashIndex) iHashIndex z ulPageNum s;
  match fit with
  | None => Some (s, NULL)
  | Some (i, pvmpageFit, ulFit) =>
    if negb (ulFit =? 0) then
      let '(s, pvmpageNewFree) := __pageCbAlloc iPageType mem s in
      if pvmpageNewFree =? NULL then Some (s, NULL)
      else
        s ← fa_del pvmzone i pvmpageFit s;
        s ← split_right pvmzone pvmpageFit pvmpageNewFree ulPageNum iPageType s;
        s ← page_handed pvmpageFit iPageType s;
        s ← add_free_page pvmzone (- ulPageNum) s;
        Some (s, pvmpageFit)
    else
      s ← fa_del pvmzone i pvmpageFit s;
      s ← set_page pvmpageFit (with_used true) s;
      s ← page_handed pvmpageFit iPageType s;
      s ← add_free_page pvmzone (- ulPageNum) s;
      Some (s, pvmpageFit)
  end.

(** ** Aligned allocation *)

(** The pages in front of the first aligned address. *)
Definition left_pages (ulPageAddr ulAlignMask : Z) : Z :=
  if Z.land ulPageAddr ulAlignMask =? 0 then 0
  else Z.shiftr (Z.lor ulPageAddr ulAlignMask +64 1 -64 ulPageAddr) LW_CFG_VMM_PAGE_SHIFT.

Fixpoint scan_align (ulPageNum ulAlignMask : Z) (plineFree : list ptr) (pvmpageFit : ptr) (ulFit ulLeftFreePageNumFit : Z) (s : VMM) :
    option (ptr * Z * Z) :=
  match plineFree with
  | [] => Some (pvmpageFit, ulFit, ulLeftFreePageNumFit)
  | p :: plineFree =>
    v ← page p s;
    let ulLeftFreePageNum := left_pages (PAGE_ulPageAddr v) ulAlignMask in
    let ulTemp := PAGE_ulCount v -64 ulPageNum in
    if (PAGE_ulCount v >=? ulPageNum +64 ulLeftFreePageNum) && (ulTemp <? ulFit)
    then scan_align ulPageNum ulAlignMask plineFree p ulTemp ulLeftFreePageNum s
    else scan_align ulPageNum ulAlignMask plineFree pvmpageFit ulFit ulLeftFreePageNumFit s
  end.

Fixpoint find_align (k i : nat) (z : LW_VMM_ZONE) (ulPageNum ulAlignMask : Z) (s : VMM) : option (option (nat * ptr * Z * Z)) :=
  match k with
  | O => Some None
  | S k =>
    fa ← ZONE_vmfa z !! i;
    if FA_ulCount fa =? 0 then find_align k (S i) z ulPageNum ulAlignMask s
    else
      '(pvmpageFit, ulFit, ulLeft) ← scan_align ulPageNum ulAlignMask (FA_lineFreeHeader fa) NULL ULONG_MAX ULONG_MAX s;
      if ulFit =? ULONG_MAX then find_align k (S i) z ulPageNum ulAlignMask s else Some (Some (i, pvmpageFit, ulFit, ulLeft))
  end.

(** The first [ulLeft] pages of [pvmpageFit] stay free, the rest belongs to [pvmpageNew]. *)
Definition split_left (pvmzone : ZONE) (pvmpageFit pvmpageNew : ptr) (ulLeft : Z) (s : VMM) : option VMM :=
  s ← set_page pvmpageFit (with_used false) s;
  s ← set_page pvmpageNew (with_used true) s;
  v ← page pvmpageFit s;
  s ← __pageStructSeparate pvmpageFit pvmpageNew ulLeft (PAGE_iPageType v) s;
  __pageAddToFreeHash pvmzone pvmpageFit s.

(** The control blocks for what is left over on the two sides; [None] in the result: no
    memory. *)
Definition align_cbs (left right : bool) (iPageType : Z) (memL memR : CB) (s : VMM) : option (VMM * option (ptr * ptr)) :=
  let '(s, l) := if left then __pageCbAlloc iPageType memL s else (s, NULL) in
  if left && (l =? NULL) then Some (s, None)
  else
    let '(s, r) := if right then __pageCbAlloc iPageType memR s else (s, NULL) in
    if right && (r =? NULL) then
      s ← (if negb (l =? NULL) then __pageCbFree l s else Some s);
      Some (s, None)
    else Some (s, Some (l, r)).

Definition __pageAllocateAlign (pvmzone : ZONE) (ulPageNum stAlign iPageType : Z) (memL memR : CB) (s : VMM) : option (VMM * ptr) :=
  iHashIndex ← __pageFreeHashIndex ulPageNum;
  z ← get_zone pvmzone s;
  fit ← find_align (LW_CFG_VMM_MAX_ORDER - iHashIndex) iHashIndex z ulPageNum (stAlign -64 1) s;
  match fit with
  | None => Some (s, NULL)
  | Some (i, pvmpageFit, ulFit, ulLeft) =>
    '(s, cbs) ← align_cbs (negb (ulLeft =? 0)) (negb (ulFit =? ulLeft)) iPageType memL memR s;
    match cbs with
    | None => Some (s, NULL)
    | Some (pvmpageNewFreeLeft, pvmpageNewFreeRight) =>
      s ← fa_del pvmzone i pvmpageFit s;
      '(s, pvmpageFit) ←
        (if negb (ulLeft =? 0) then
           s ← split_left pvmzone pvmpageFit pvmpageNewFreeLeft ulLeft s; Some (s, pvmpageNewFreeLeft)
         else Some (s, pvmpageFit));
      s ← (if negb (ulFit =? ulLeft) then split_right pvmzone pvmpageFit pvmpageNewFreeRight ulPageNum iPageType s
           else set_page pvmpageFit (with_used true) s);
      s ← page_handed pvmpageFit iPageType s;
      s ← add_free_page pvmzone (- ulPageNum) s;
      Some (s, pvmpageFit)
    end
  end.

(** ** Virtual pages: growing, splitting, merging *)

Definition __pageExpand (pvmpage : ptr) (ulExpPageNum : Z) (mem : CB) (s : VMM) : option (VMM * Z) :=
  v ← page pvmpage s;
  if negb (PAGE_iPageType v =? __VMM_PAGE_TYPE_VIRTUAL) then Some (s, ERROR_VMM_PAGE_INVAL)
  else
    let pvmpageRight := line_next pvmpage (PAGE_lineManage s) in
    if pvmpageRight =? NULL then Some (s, ERROR_VMM_LOW_PAGE)
    else
      r ← page pvmpageRight s;
      if PAGE_bUsed r || (PAGE_ulCount r <? ulExpPageNum) then Some (s, ERROR_VMM_LOW_PAGE)
      else
        let pvmzone := PAGE_pvmzoneOwner v in
        iHashIndex ← __pageFreeHashIndex (PAGE_ulCount r);
        '(s, ulError) ←
          (if PAGE_ulCount r >? ulExpPageNum then
             let '(s, pvmpageNewFree) := __pageCbAlloc (PAGE_iPageType r) mem s in
             if pvmpageNewFree =? NULL then Some (s, ERROR_KERNEL_LOW_MEMORY)
             else
               s ← fa_del pvmzone iHashIndex pvmpageRight s;
               s ← split_right pvmzone pvmpageRight pvmpageNewFree ulExpPageNum (PAGE_iPageType r) s;
               Some (s, ERROR_NONE)
           else
             s ← fa_del pvmzone iHashIndex pvmpageRight s;
             s ← set_page pvmpageRight (with_used true) s;
             Some (s, ERROR_NONE));
        if negb (ulError =? ERROR_NONE) then Some (s, ulError)
        else
          s ← add_free_page pvmzone (- ulExpPageNum) s;
          s ← set_page pvmpage (fun v => with_count (PAGE_ulCount v +64 ulExpPageNum) v) s;
          s ← __pageCbFree pvmpageRight (line_del pvmpageRight s);
          Some (s, ERROR_NONE).

(** Result: also [*ppvmpageSplit]. *)
Definition __pageSplit (pvmpage : ptr) (ulPageNum : Z) (pvAreaCb : ptr) (mem : CB) (s : VMM) : option (VMM * Z * option ptr) :=
  v ← page pvmpage s;
  if negb (PAGE_iPageType v =? __VMM_PAGE_TYPE_VIRTUAL) then Some (s, ERROR_VMM_PAGE_INVAL, None)
  else if PAGE_ulCount v <=? ulPageNum then Some (s, ERROR_VMM_LOW_PAGE, None)
  else
    let '(s, pvmpageSplit) := __pageCbAlloc (PAGE_iPageType v) mem s in
    if pvmpageSplit =? NULL then Some (s, ERROR_KERNEL_LOW_MEMORY, None)
    else
      s ← set_page pvmpageSplit (with_used true) s;
      s ← __pageStructSeparate pvmpage pvmpageSplit ulPageNum (PAGE_iPageType v) s;
      s ← set_page pvmpageSplit (with_status (VirStatus pvAreaCb [])) s;
      s ← __pageInitLink pvmpageSplit s;
      Some (s, ERROR_NONE, Some pvmpageSplit).

Definition __pageMerge (pvmpageL pvmpageR : ptr) (s : VMM) : option (VMM * Z) :=
  l ← page pvmpageL s;
  r ← page pvmpageR s;
  if negb (PAGE_iPageType l =? __VMM_PAGE_TYPE_VIRTUAL) || negb (PAGE_iPageType r =? __VMM_PAGE_TYPE_VIRTUAL)
  then Some (s, ERROR_VMM_PAGE_INVAL)
  else
    s ← set_page pvmpageL (fun l => with_count (PAGE_ulCount l +64 PAGE_ulCount r) l) s;
    s ← __pageCbFree pvmpageR (line_del pvmpageR s);
    Some (s, ERROR_NONE).

(** ** The physical pages of a virtual page *)

Definition map_addr (v : LW_VMM_PAGE) : option Z := match PAGE_status v with PhyStatus a _ _ _ => Some a | VirStatus _ _ => None end.

(** The link table of a virtual page; one of its lists changes. *)
Definition set_link_list (ulKey : nat) (f : list ptr -> list ptr) (pvmpageVirtual : ptr) (s : VMM) : option VMM :=
  v ← page pvmpageVirtual s;
  match PAGE_status v with
  | VirStatus cb links => l ← links !! ulKey; set_page pvmpageVirtual (with_status (VirStatus cb (<[ulKey := f l]> links))) s
  | PhyStatus _ _ _ _ => None
  end.

Definition __pageLink (pvmpageVirtual pvmpagePhysical : ptr) (s : VMM) : option VMM :=
  v ← page pvmpagePhysical s; a ← map_addr v;
  set_link_list (__VMM_PAGE_LINK_HASH a) (cons pvmpagePhysical) pvmpageVirtual s.
Definition __pageUnlink (pvmpageVirtual pvmpagePhysical : ptr) (s : VMM) : option VMM :=
  v ← page pvmpagePhysical s; a ← map_addr v;
  set_link_list (__VMM_PAGE_LINK_HASH a) (remove_node pvmpagePhysical) pvmpageVirtual s.

Fixpoint find_link (l : list ptr) (ulVirAddr : Z) (s : VMM) : option ptr :=
  match l with
  | [] => Some NULL
  | p :: l => v ← page p s; a ← map_addr v; if a =? ulVirAddr then Some p else find_link l ulVirAddr s
  end.

Definition __pageFindLink (pvmpageVirtual : ptr) (ulVirAddr : Z) (s : VMM) : option ptr :=
  v ← page pvmpageVirtual s;
  match PAGE_status v with
  | VirStatus _ links => l ← links !! __VMM_PAGE_LINK_HASH ulVirAddr; find_link l ulVirAddr s
  | PhyStatus _ _ _ _ => None
  end.

(** ** Zones *)

(** [k] orders from order [i] on. *)
Fixpoint min_continue (k i : nat) (z : LW_VMM_ZONE) (s : VMM) : option Z :=
  match k with
  | O => Some 0
  | S k =>
    fa ← ZONE_vmfa z !! i;
    if negb (FA_ulCount fa =? 0) then p ← head (FA_lineFreeHeader fa); PAGE_ulCount <$> page p s
    else min_continue k (S i) z s
  end.

Definition __pageGetMinContinue (pvmzone : ZONE) (s : VMM) : option Z :=
  z ← get_zone pvmzone s; min_continue LW_CFG_VMM_MAX_ORDER 0 z s.

Definition __pageZoneCreate (pvmzone : ZONE) (ulAddr stSize uiAttr iPageType : Z) (mem : CB) (s : VMM) : option (VMM * Z) :=
  let '(s, pvmpage) := __pageCbAlloc iPageType mem s in
  if pvmpage =? NULL then Some (s, ERROR_KERNEL_LOW_MEMORY)
  else
    _ ← get_zone pvmzone s;
    let n := Z.shiftr stSize LW_CFG_VMM_PAGE_SHIFT in
    let s := put_zone pvmzone (mkZone n ulAddr stSize uiAttr (replicate LW_CFG_VMM_MAX_ORDER (mkFa [] 0))) s in
    let s := with_manage ([pvmpage] :: PAGE_lineManage s) s in
    s ← set_page pvmpage (fun o => mkPage n ulAddr iPageType 0 false pvmzone
          (if iPageType =? __VMM_PAGE_TYPE_PHYSICAL then PhyStatus PAGE_MAP_ADDR_INV 0 0 NULL else VirStatus NULL [])) s;
    s ← (if iPageType =? __VMM_PAGE_TYPE_PHYSICAL then Some s else __pageInitLink pvmpage s);
    s ← __pageAddToFreeHash pvmzone pvmpage s;
    Some (s, ERROR_NONE).
