(* ===== verification/PageSpec.v ===== *)
(** * Virtual memory: zones as lists of blocks

    A zone denotes the list of its pages from left to right, each a control block with its
    content.  While an operation works the free hash may differ from the used flags and
    control blocks may be in nobody's hands; [zst] describes such a state, and one lemma
    per step of pageLib.c says what the step does to it. *)

From S2P Require Import Prelude Lists RbTree Vmm PageLib.

Abbreviation block := (ptr * LW_VMM_PAGE)%type.

(** ** Orders *)

Definition order (n : Z) : nat := default 0%nat (__pageFreeHashIndex n).

Lemma page_order_spec n : 0 < n <= 2 ^ 63 -> forall fuel i, 0 <= i <= Z.log2_up n -> Z.log2_up n < i + Z.of_nat fuel ->
  page_order fuel i n = Some (Z.log2_up n).
Proof.
  intros Hn. induction fuel as [|fuel IH]; intros i Hi Hf; [lia|]. cbn [page_order]. rewrite Z.shiftl_mul_pow2, Z.mul_1_l by lia.
  destruct (Z.ltb_spec (2 ^ i) n) as [H|H].
  - apply IH; [|lia]. assert (i < Z.log2_up n); [|lia]. apply Z.log2_up_lt_pow2; lia.
  - f_equal. apply Z.le_antisymm; [lia|]. apply Z.log2_up_le_pow2; lia.
Qed.

Lemma order_index n : 0 < n <= 2 ^ 63 -> __pageFreeHashIndex n = Some (order n) /\ Z.of_nat (order n) = Z.min 10 (Z.log2_up n).
Proof.
  intros Hn. pose proof (Z.log2_up_nonneg n). assert (Z.log2_up n <= 63) by (apply Z.log2_up_le_pow2; lia).
  unfold order, __pageFreeHashIndex. rewrite (page_order_spec n Hn) by (cbn; lia). cbn [mbind option_bind default].
  split; [done|]. unfold LW_CFG_VMM_MAX_ORDER. unfold id. destruct (Z.geb_spec (Z.log2_up n) (Z.of_nat 11)); lia.
Qed.

Lemma order_mono a b : 0 < a <= b -> b <= 2 ^ 63 -> (order a <= order b)%nat.
Proof.
  intros Ha Hb. destruct (order_index a ltac:(lia)) as [_ H1]. destruct (order_index b ltac:(lia)) as [_ H2].
  pose proof (Z.log2_up_le_mono a b ltac:(lia)). lia.
Qed.

Lemma order_lt n : 0 < n <= 2 ^ 63 -> (order n < LW_CFG_VMM_MAX_ORDER)%nat.
Proof. intros Hn. destruct (order_index n Hn) as [_ H]. unfold LW_CFG_VMM_MAX_ORDER. lia. Qed.

(** ** The free hash *)

(** The lists hold exactly the pages [H], given with their sizes, by order. *)
Definition of_order (i : nat) (H : list (ptr * Z)) : list ptr := (filter (fun h => order h.2 = i) H).*1.

Definition hash_rep (fas : list LW_VMM_FREEAREA) (H : list (ptr * Z)) : Prop :=
  length fas = LW_CFG_VMM_MAX_ORDER /\ forall i fa, fas !! i = Some fa ->
    FA_lineFreeHeader fa ≡ₚ of_order i H /\ FA_ulCount fa = wrap 64 (Z.of_nat (length (FA_lineFreeHeader fa))).

Lemma of_order_cons i p c H : of_order i ((p, c) :: H) = if decide (order c = i) then p :: of_order i H else of_order i H.
Proof. unfold of_order. rewrite filter_cons. cbn. by case_decide. Qed.

Lemma of_order_perm i H H' : H ≡ₚ H' -> of_order i H ≡ₚ of_order i H'.
Proof. intros E. unfold of_order. by rewrite E. Qed.

Lemma hash_rep_perm fas H H' : hash_rep fas H -> H ≡ₚ H' -> hash_rep fas H'.
Proof.
  intros [Hl Hr] E. split; [done|]. intros i fa Hi. destruct (Hr i fa Hi) as [Hp Hc]. split; [|done]. by rewrite Hp, (of_order_perm i H H' E).
Qed.

Lemma wrap_add x y : wrap 64 (wrap 64 x + y) = wrap 64 (x + y).
Proof. unfold wrap. apply Zplus_mod_idemp_l. Qed.
Lemma wrap_sub x y : wrap 64 (wrap 64 x - y) = wrap 64 (x - y).
Proof. unfold wrap. apply Zminus_mod_idemp_l. Qed.

Lemma hash_add fas H p c fa : hash_rep fas H -> fas !! order c = Some fa ->
  hash_rep (<[order c := mkFa (p :: FA_lineFreeHeader fa) (FA_ulCount fa +64 1)]> fas) ((p, c) :: H).
Proof.
  intros [Hl Hr] Hf. split; [by rewrite length_insert|]. intros i fa' Hi. rewrite of_order_cons. destruct (decide (order c = i)) as [<-|Hne].
  - rewrite list_lookup_insert_eq in Hi by (by apply lookup_lt_Some in Hf). injection Hi as <-. cbn [FA_lineFreeHeader FA_ulCount].
    destruct (Hr _ _ Hf) as [Hp Hc]. split; [by rewrite Hp|]. rewrite Hc, wrap_add. cbn [length]. f_equal. lia.
  - rewrite list_lookup_insert_ne in Hi by done. by apply Hr.
Qed.

Lemma hash_del fas H p c fa : hash_rep fas ((p, c) :: H) -> fas !! order c = Some fa ->
  hash_rep (<[order c := mkFa (remove_node p (FA_lineFreeHeader fa)) (FA_ulCount fa -64 1)]> fas) H.
Proof.
  intros [Hl Hr] Hf. split; [by rewrite length_insert|]. intros i fa' Hi. destruct (decide (order c = i)) as [<-|Hne].
  - rewrite list_lookup_insert_eq in Hi by (by apply lookup_lt_Some in Hf). injection Hi as <-. cbn [FA_lineFreeHeader FA_ulCount].
    destruct (Hr _ _ Hf) as [Hp Hc]. rewrite of_order_cons, decide_True in Hp by done.
    assert (Hin : p ∈ FA_lineFreeHeader fa) by (rewrite Hp; left). pose proof (remove_node_perm _ _ Hin) as Hrm.
    split; [apply (Permutation_cons_inv (a := p)); by rewrite <-Hrm|]. rewrite Hc, wrap_sub. rewrite Hrm at 1. cbn [length]. f_equal. lia.
  - rewrite list_lookup_insert_ne in Hi by done. destruct (Hr _ _ Hi) as [Hp Hc]. rewrite of_order_cons, decide_False in Hp by done. done.
Qed.

(** ** Chains *)

Lemma map_others (f : list ptr -> list ptr) (p : ptr) (m : list (list ptr)) : (forall l, p ∉ l -> f l = l) -> p ∉ concat m -> f <$> m = m.
Proof.
  intros Hf. induction m as [|l m IH]; [done|]. cbn. intros Hp. rewrite Hf by set_solver. by rewrite IH by set_solver.
Qed.

Lemma insert_after_notin (new p : ptr) (l : list ptr) : p ∉ l -> insert_after new p l = l.
Proof.
  induction l as [|x l IH]; [done|]. cbn. intros [Hne Hn]%not_elem_of_cons. rewrite (proj2 (Z.eqb_neq x p)) by congruence. by rewrite IH.
Qed.

Lemma in_chain (l : list ptr) (m : list (list ptr)) (p : ptr) : l ∈ m -> p ∈ l -> p ∈ concat m.
Proof. intros Hl Hp. apply list_elem_of_In, in_concat. exists l. by rewrite <-!list_elem_of_In. Qed.

(** The chain of [p] among the others. *)
Lemma chain_split (m : list (list ptr)) (l : list ptr) : l ∈ m -> NoDup (concat m) -> exists m1 m2, m = m1 ++ l :: m2 /\
  (forall p, p ∈ l -> p ∉ concat m1 /\ p ∉ concat m2).
Proof.
  intros Hl Hn. destruct (list_elem_of_split _ _ Hl) as (m1 & m2 & ->). exists m1, m2. split; [done|]. intros p Hp.
  rewrite concat_app in Hn. cbn in Hn. apply NoDup_app in Hn as (_ & H1 & (_ & H2 & _)%NoDup_app). split; [|by apply H2].
  intros H. apply (H1 p H). set_solver.
Qed.

Lemma neighbour_spec (f : ptr -> list ptr -> option ptr) (m : list (list ptr)) (l : list ptr) (p : ptr) : l ∈ m -> p ∈ l -> NoDup (concat m) ->
  (forall l, p ∉ l -> f p l = None) ->
  foldr (fun l acc => match f p l with Some q => q | None => acc end) NULL m = default NULL (f p l).
Proof.
  intros Hl Hp Hn Hf. destruct (chain_split m l Hl Hn) as (m1 & m2 & -> & H). destruct (H p Hp) as [H1 H2]. clear H Hl Hn.
  assert (H0 : forall m, p ∉ concat m -> forall acc, foldr (fun l acc => match f p l with Some q => q | None => acc end) acc m = acc).
  { clear -Hf. induction m as [|l m IH]; [done|]. cbn. intros Hp acc. rewrite Hf by set_solver. apply IH. set_solver. }
  rewrite foldr_app, H0 by done. cbn. by rewrite H0.
Qed.

Lemma list_next_notin (p : ptr) (l : list ptr) : p ∉ l -> list_next p l = None.
Proof.
  induction l as [|x l IH]; [done|]. cbn. intros [Hne Hn]%not_elem_of_cons. rewrite (proj2 (Z.eqb_neq x p)) by congruence. by apply IH.
Qed.

Lemma line_next_spec (m : list (list ptr)) (l1 : list ptr) (p : ptr) (l2 : list ptr) : l1 ++ p :: l2 ∈ m -> NoDup (concat m) -> line_next p m = default NULL (head l2).
Proof.
  intros Hl Hn. etransitivity; [apply (neighbour_spec list_next m _ p Hl); (done || set_solver || apply list_next_notin)|].
  rewrite list_next_mid; [done|]. destruct (chain_split _ _ Hl Hn) as (m1 & m2 & -> & _). rewrite concat_app in Hn. cbn in Hn.
  apply NoDup_app in Hn as (_ & _ & (Hn & _)%NoDup_app). apply NoDup_app in Hn as (_ & Hn & _). intros Hp. apply (Hn p Hp). left.
Qed.

Lemma line_prev_spec (m : list (list ptr)) (l1 : list ptr) (p : ptr) (l2 : list ptr) : l1 ++ p :: l2 ∈ m -> NoDup (concat m) -> line_prev p m = default NULL (last l1).
Proof.
  intros Hl Hn. etransitivity; [apply (neighbour_spec list_prev m _ p Hl); [set_solver|done|]|].
  - intros l H. unfold list_prev. apply list_next_notin. by rewrite elem_of_reverse.
  - rewrite list_prev_mid; [done|]. destruct (chain_split _ _ Hl Hn) as (m1 & m2 & -> & _). rewrite concat_app in Hn. cbn in Hn.
    apply NoDup_app in Hn as (_ & _ & (Hn & _)%NoDup_app). apply NoDup_app in Hn as (_ & _ & Hn). by apply NoDup_cons in Hn as [? _].
Qed.

(** ** A zone at work *)

(** Only the zone [zid] and the control blocks [K] changed since [s]; for physical pages not even
    the tree nodes inside them. *)
Record pages_step (K : list ptr) (zid : ZONE) (ty : Z) (s s' : VMM) : Prop := {
  ps_zone : forall z, z <> zid -> get_zone z s' = get_zone z s;
  ps_area : _G_vmareaZoneSpace s' = _G_vmareaZoneSpace s /\ MMUCTX_vmareaVirSpace s' = MMUCTX_vmareaVirSpace s;
  ps_page : forall p, p ∉ K -> VM_page s' !! p = VM_page s !! p;
  ps_chain : forall l, l ∈ PAGE_lineManage s -> l ## K -> l ∈ PAGE_lineManage s';
  ps_node : forall p, p ∉ K -> PAGE_trbnNode s' !! p = PAGE_trbnNode s !! p;
  ps_nodes : ty = __VMM_PAGE_TYPE_PHYSICAL -> PAGE_trbnNode s' = PAGE_trbnNode s;
  ps_static : VM_static s' = VM_static s
}.

Lemma pages_step_refl K zid ty s : pages_step K zid ty s s.
Proof. by split. Qed.

(** The control blocks nobody uses, those at hand and those of all chains. *)
Definition owned (s : VMM) (sp : list block) : list ptr := sp.*1 ++ _K_pmonoPhyPageFreeList s ++ concat (PAGE_lineManage s).

Section AtWork.
Context (s0 : VMM) (K : list ptr) (zid : ZONE) (ty : Z) (geo : Z * Z * Z).

(** The zone consists of the blocks [bs]; its free hash holds [H] and its free page counter [fp]; [sp] are control
    blocks that the operation holds. *)
Record zst (s : VMM) (fp : Z) (bs : list block) (H : list (ptr * Z)) (sp : list block) : Prop := {
  zs_own : NoDup (NULL :: owned s sp);
  zs_cbs : forall p, p ∈ owned s sp -> is_Some (VM_page s !! p) /\ is_Some (PAGE_trbnNode s !! p);
  zs_zone : exists z, get_zone zid s = Some z /\ ZONE_ulFreePage z = wrap 64 fp /\ hash_rep (ZONE_vmfa z) H /\
    (ZONE_ulAddr z, ZONE_stSize z, ZONE_uiAttr z) = geo;
  zs_chain : bs.*1 ∈ PAGE_lineManage s;
  zs_pages : forall p v, (p, v) ∈ bs -> VM_page s !! p = Some v /\ PAGE_iPageType v = ty /\ PAGE_pvmzoneOwner v = zid;
  zs_spare : forall p v, (p, v) ∈ sp -> VM_page s !! p = Some v;
  zs_in : sp.*1 ++ _K_pmonoPhyPageFreeList s ++ bs.*1 ⊆ K;
  zs_step : pages_step K zid ty s0 s
}.

Lemma zst_perm s fp bs H H' sp : zst s fp bs H sp -> H ≡ₚ H' -> zst s fp bs H' sp.
Proof.
  intros [H1 H2 (z & Hz & Hf & Hh & Hg) H4 H5 H6 H7 H8] E. split; try done. exists z. split_and!; [done|done|by eapply hash_rep_perm|done].
Qed.

Lemma block_key (l1 l2 : list block) p v : p ∈ (l1 ++ (p, v) :: l2).*1.
Proof. rewrite fmap_app. cbn. set_solver. Qed.

Lemma zst_chain s fp bs H sp p : zst s fp bs H sp -> p ∈ bs.*1 -> p ∈ owned s sp.
Proof. intros Z Hp. unfold owned. rewrite !elem_of_app. right. right. eapply in_chain; [by apply (zs_chain _ _ _ _ _ Z)|done]. Qed.

(** Reading. *)
Lemma zst_read s fp bs H sp p v : zst s fp bs H sp -> (p, v) ∈ bs ++ sp -> page p s = Some v /\ p <> NULL.
Proof.
  intros Z Hp. assert (Hin : p ∈ owned s sp /\ VM_page s !! p = Some v).
  { apply elem_of_app in Hp as [Hp|Hp].
    - split; [eapply zst_chain; [done|]; apply list_elem_of_fmap; by exists (p, v)|by apply (zs_pages _ _ _ _ _ Z)].
    - split; [|by apply (zs_spare _ _ _ _ _ Z)]. unfold owned. apply elem_of_app. left. apply list_elem_of_fmap. by exists (p, v). }
  destruct Hin as [Hin Hv]. assert (Hp0 : p <> NULL).
  { intros ->. pose proof (zs_own _ _ _ _ _ Z) as Hn. by apply NoDup_cons in Hn as [? _]. }
  split; [|done]. unfold page. by rewrite (proj2 (Z.eqb_neq _ _) Hp0).
Qed.

Lemma page_lookup p s v : page p s = Some v -> VM_page s !! p = Some v.
Proof. unfold page. by destruct (p =? NULL). Qed.

(** Names of the zone's blocks and of those at hand are all different. *)
Lemma zst_distinct s fp bs H sp : zst s fp bs H sp -> NoDup (bs.*1 ++ sp.*1).
Proof.
  intros Z. pose proof (zs_own _ _ _ _ _ Z) as Hn. apply NoDup_cons in Hn as [_ Hn]. unfold owned in Hn.
  apply NoDup_app in Hn as (Hs & Hd & (_ & _ & Hc)%NoDup_app). destruct (list_elem_of_split _ _ (zs_chain _ _ _ _ _ Z)) as (m1 & m2 & Em).
  rewrite Em, concat_app in Hc, Hd. cbn in Hc, Hd. apply NoDup_app in Hc as (_ & _ & (Hb & _ & _)%NoDup_app).
  apply NoDup_app. split; [done|]. split; [|done]. intros p Hp Hps. apply (Hd p Hps). set_solver.
Qed.

(** ** Single steps *)

(** A field of a block of the zone. *)
Lemma set_block s fp l1 p v l2 H sp f : zst s fp (l1 ++ (p, v) :: l2) H sp -> PAGE_iPageType (f v) = PAGE_iPageType v ->
  PAGE_pvmzoneOwner (f v) = PAGE_pvmzoneOwner v -> exists s', set_page p f s = Some s' /\ zst s' fp (l1 ++ (p, f v) :: l2) H sp.
Proof.
  intros Z Ht Ho. destruct (zst_read _ _ _ _ _ p v Z) as [Hv Hp0]; [set_solver|]. unfold set_page. rewrite Hv. cbn [mbind option_bind].
  eexists. split; [done|]. pose proof (zst_distinct _ _ _ _ _ Z) as Hd. destruct Z as [H1 H2 H3 H4 H5 H6 H7 [P1 P2 P3 P4 P5 P6 P7]].
  assert (Ek : (l1 ++ (p, f v) :: l2).*1 = (l1 ++ (p, v) :: l2).*1) by (by rewrite !fmap_app).
  split; [done| |done|by rewrite Ek| | |by rewrite Ek|split; try done].
  - intros q Hq. destruct (H2 q Hq) as [Hq1 Hq2]. split; [|done]. cbn. destruct (decide (p = q)) as [<-|Hne]; [by rewrite lookup_insert_eq|by rewrite lookup_insert_ne].
  - rewrite fmap_app in Hd. cbn in Hd. intros q w [Hq|[Hq|Hq]%elem_of_cons]%elem_of_app.
    + destruct (decide (p = q)) as [<-|Hne]; [|cbn; rewrite lookup_insert_ne by done; apply H5; set_solver].
      exfalso. apply NoDup_app in Hd as (Hd & _). apply NoDup_app in Hd as (_ & Hd & _). apply (Hd p); [|left]. apply list_elem_of_fmap. by exists (p, w).
    + injection Hq as -> ->. cbn. rewrite lookup_insert_eq. destruct (H5 p v) as (_ & <- & <-); [set_solver|]. done.
    + destruct (decide (p = q)) as [<-|Hne]; [|cbn; rewrite lookup_insert_ne by done; apply H5; set_solver].
      exfalso. apply NoDup_app in Hd as (Hd & _). apply NoDup_app in Hd as (_ & _ & Hd). apply NoDup_cons in Hd as [Hd _]. apply Hd.
      apply list_elem_of_fmap. by exists (p, w).
  - intros q w Hq. cbn. rewrite lookup_insert_ne; [by apply H6|]. intros <-. apply NoDup_app in Hd as (_ & Hd & _).
    apply (Hd p); [by apply block_key|]. apply list_elem_of_fmap. by exists (p, w).
  - intros q Hq. cbn. rewrite lookup_insert_ne; [by apply P3|]. intros <-. apply Hq, H7. rewrite !elem_of_app. right. right. apply block_key.
Qed.

(** A field of a control block at hand. *)
Lemma set_spare s fp bs H p v sp f : zst s fp bs H ((p, v) :: sp) -> exists s', set_page p f s = Some s' /\ zst s' fp bs H ((p, f v) :: sp).
Proof.
  intros Z. destruct (zst_read _ _ _ _ _ p v Z) as [Hv Hp0]; [set_solver|]. unfold set_page. rewrite Hv. cbn [mbind option_bind].
  eexists. split; [done|]. pose proof (zst_distinct _ _ _ _ _ Z) as Hd. destruct Z as [H1 H2 H3 H4 H5 H6 H7 [P1 P2 P3 P4 P5 P6 P7]].
  cbn in Hd. apply NoDup_app in Hd as (_ & Hd1 & [Hd2 _]%NoDup_cons).
  split; [done| |done|done| | |done|split; try done].
  - intros q Hq. destruct (H2 q Hq) as [Hq1 Hq2]. split; [|done]. cbn. destruct (decide (p = q)) as [<-|Hne]; [by rewrite lookup_insert_eq|by rewrite lookup_insert_ne].
  - intros q w Hq. cbn. rewrite lookup_insert_ne; [by apply H5|]. intros <-. apply (Hd1 p); [|left]. apply list_elem_of_fmap. by exists (p, w).
  - intros q w [Hq|Hq]%elem_of_cons; cbn.
    + injection Hq as -> ->. by rewrite lookup_insert_eq.
    + rewrite lookup_insert_ne; [apply H6; by right|]. intros <-. apply Hd2, list_elem_of_fmap. by exists (p, w).
  - intros q Hq. cbn. rewrite lookup_insert_ne; [by apply P3|]. intros <-. apply Hq, H7. left.
Qed.

(** Zone records. *)
Lemma get_put_zone z v0 v s : get_zone z s = Some v0 -> get_zone z (put_zone z v s) = Some v.
Proof. destruct z as [i|i|]; [| |done]; cbn; intros H; apply list_lookup_insert_eq; by apply lookup_lt_Some in H. Qed.
Lemma get_put_zone_ne z z' v s : z' <> z -> get_zone z' (put_zone z v s) = get_zone z' s.
Proof. destruct z as [i|i|], z' as [j|j|]; try done; cbn; intros H; apply list_lookup_insert_ne; congruence. Qed.

Lemma put_zone_fields z v s : VM_page (put_zone z v s) = VM_page s /\ PAGE_trbnNode (put_zone z v s) = PAGE_trbnNode s /\
  PAGE_lineManage (put_zone z v s) = PAGE_lineManage s /\ _K_pmonoPhyPageFreeList (put_zone z v s) = _K_pmonoPhyPageFreeList s /\
  _G_vmareaZoneSpace (put_zone z v s) = _G_vmareaZoneSpace s /\ MMUCTX_vmareaVirSpace (put_zone z v s) = MMUCTX_vmareaVirSpace s /\
  VM_static (put_zone z v s) = VM_static s.
Proof. by destruct z. Qed.

Lemma zst_put s fp bs H sp z z' fp' H' : zst s fp bs H sp -> get_zone zid s = Some z -> ZONE_ulFreePage z' = wrap 64 fp' ->
  hash_rep (ZONE_vmfa z') H' -> (ZONE_ulAddr z', ZONE_stSize z', ZONE_uiAttr z') = (ZONE_ulAddr z, ZONE_stSize z, ZONE_uiAttr z) ->
  zst (put_zone zid z' s) fp' bs H' sp.
Proof.
  intros [H1 H2 (z2 & Hz2 & _ & _ & Hg) H4 H5 H6 H7 [P1 P2 P3 P4 P5 P6 P7]] Hz Hf Hh He. rewrite Hz in Hz2. injection Hz2 as <-.
  destruct (put_zone_fields zid z' s) as (E1 & E2 & E3 & E4 & E5 & E6 & E7).
  split; unfold owned in *; rewrite ?E1, ?E2, ?E3, ?E4; try done.
  - exists z'. split; [by eapply get_put_zone|]. by rewrite <-Hg.
  - split; rewrite ?E1, ?E2, ?E3, ?E4, ?E5, ?E6, ?E7; try done. intros w Hw. rewrite get_put_zone_ne by done. by apply P1.
Qed.

Lemma fa_add_spec s fp bs H sp p c : zst s fp bs H sp -> 0 < c <= 2 ^ 63 -> exists s', fa_add zid (order c) p s = Some s' /\
  zst s' fp bs ((p, c) :: H) sp.
Proof.
  intros Z Hc. pose proof (zs_zone _ _ _ _ _ Z) as (z & Hz & Hf & Hh & Hg). unfold fa_add. rewrite Hz. cbn [mbind option_bind].
  destruct (lookup_lt_is_Some_2 (ZONE_vmfa z) (order c)) as [fa Hfa]; [rewrite (proj1 Hh); by apply order_lt|]. rewrite Hfa. cbn [mbind option_bind].
  eexists. split; [done|]. eapply zst_put; [exact Z|exact Hz|done| |done]. by apply hash_add.
Qed.

Lemma fa_del_spec s fp bs H sp p c : zst s fp bs ((p, c) :: H) sp -> 0 < c <= 2 ^ 63 -> exists s', fa_del zid (order c) p s = Some s' /\
  zst s' fp bs H sp.
Proof.
  intros Z Hc. pose proof (zs_zone _ _ _ _ _ Z) as (z & Hz & Hf & Hh & Hg). unfold fa_del. rewrite Hz. cbn [mbind option_bind].
  destruct (lookup_lt_is_Some_2 (ZONE_vmfa z) (order c)) as [fa Hfa]; [rewrite (proj1 Hh); by apply order_lt|]. rewrite Hfa. cbn [mbind option_bind].
  eexists. split; [done|]. eapply zst_put; [exact Z|exact Hz|done| |done]. by apply hash_del.
Qed.

Lemma add_free_page_spec s fp bs H sp n : zst s fp bs H sp -> exists s', add_free_page zid n s = Some s' /\ zst s' (fp + n) bs H sp.
Proof.
  intros Z. pose proof (zs_zone _ _ _ _ _ Z) as (z & Hz & Hf & Hh & Hg). unfold add_free_page. rewrite Hz. cbn [mbind option_bind].
  eexists. split; [done|]. eapply zst_put; [exact Z|exact Hz| |done|done]. cbn. by rewrite Hf, wrap_add.
Qed.

(** The free hash of a block of the zone or at hand. *)
Lemma hash_index s fp bs H sp p v : zst s fp bs H sp -> (p, v) ∈ bs ++ sp -> 0 < PAGE_ulCount v <= 2 ^ 63 ->
  forall g : nat -> VMM -> option VMM, (v ← page p s; i ← __pageFreeHashIndex (PAGE_ulCount v); g i s) = g (order (PAGE_ulCount v)) s.
Proof. intros Z Hp Hc g. destruct (zst_read _ _ _ _ _ p v Z Hp) as [-> _]. cbn [mbind option_bind]. by rewrite (proj1 (order_index _ Hc)). Qed.

Lemma hash_add_spec s fp bs H sp p v : zst s fp bs H sp -> (p, v) ∈ bs ++ sp -> 0 < PAGE_ulCount v <= 2 ^ 63 -> exists s',
  __pageAddToFreeHash zid p s = Some s' /\ zst s' fp bs ((p, PAGE_ulCount v) :: H) sp.
Proof.
  intros Z Hp Hc. unfold __pageAddToFreeHash. rewrite (hash_index _ _ _ _ _ p v Z Hp Hc (fun i => fa_add zid i p)). by apply fa_add_spec.
Qed.
Lemma hash_del_spec s fp bs H sp p v : zst s fp bs ((p, PAGE_ulCount v) :: H) sp -> (p, v) ∈ bs ++ sp -> 0 < PAGE_ulCount v <= 2 ^ 63 -> exists s',
  __pageDelFromFreeHash zid p s = Some s' /\ zst s' fp bs H sp.
Proof.
  intros Z Hp Hc. unfold __pageDelFromFreeHash. rewrite (hash_index _ _ _ _ _ p v Z Hp Hc (fun i => fa_del zid i p)). by apply fa_del_spec.
Qed.

(** A control block at hand goes behind a block of the chain; a block leaves the chain. *)
Lemma owned_move (s s' : VMM) (sp sp' : list block) : owned s' sp' ≡ₚ owned s sp -> VM_page s' = VM_page s -> PAGE_trbnNode s' = PAGE_trbnNode s ->
  NoDup (NULL :: owned s sp) -> (forall p, p ∈ owned s sp -> is_Some (VM_page s !! p) /\ is_Some (PAGE_trbnNode s !! p)) ->
  NoDup (NULL :: owned s' sp') /\ (forall p, p ∈ owned s' sp' -> is_Some (VM_page s' !! p) /\ is_Some (PAGE_trbnNode s' !! p)).
Proof.
  intros E Ep En Hn Hc. split; [by rewrite E|]. intros p Hp. rewrite Ep, En. apply Hc. by rewrite <-E.
Qed.

(** A chain of the zone is replaced by another one. *)
Lemma zst_chain_step s fp bs bs' H sp sp' (f : list ptr -> list ptr) p : zst s fp bs H sp -> p ∈ bs.*1 -> (forall l, p ∉ l -> f l = l) ->
  f bs.*1 = bs'.*1 -> bs' ++ sp' ≡ₚ bs ++ sp -> (forall q w, (q, w) ∈ bs' -> (q, w) ∈ bs \/ PAGE_iPageType w = ty /\ PAGE_pvmzoneOwner w = zid) ->
  zst (with_manage (f <$> PAGE_lineManage s) s) fp bs' H sp'.
Proof.
  intros Z Hp Hf Ef Eb Hty. pose proof (zs_own _ _ _ _ _ Z) as Hn. apply NoDup_cons in Hn as [_ Hn].
  unfold owned in Hn. apply NoDup_app in Hn as (_ & _ & (_ & _ & Hm)%NoDup_app).
  destruct (chain_split _ _ (zs_chain _ _ _ _ _ Z) Hm) as (m1 & m2 & Em & Hoth). destruct (Hoth p Hp) as [Hp1 Hp2].
  assert (Em' : f <$> PAGE_lineManage s = m1 ++ bs'.*1 :: m2).
  { rewrite Em, fmap_app. cbn. rewrite Ef. by rewrite !(map_others f p) by done. }
  assert (Eo : owned (with_manage (f <$> PAGE_lineManage s) s) sp' ≡ₚ owned s sp).
  { unfold owned. cbn [PAGE_lineManage _K_pmonoPhyPageFreeList with_manage]. rewrite Em', Em, !concat_app. cbn.
    apply (fmap_Permutation fst) in Eb. rewrite !fmap_app in Eb.
    transitivity ((bs'.*1 ++ sp'.*1) ++ _K_pmonoPhyPageFreeList s ++ concat m1 ++ concat m2); [solve_Permutation|].
    rewrite Eb. solve_Permutation. }
  destruct (owned_move s _ sp sp' Eo eq_refl eq_refl (zs_own _ _ _ _ _ Z) (zs_cbs _ _ _ _ _ Z)) as [Hn' Hc'].
  destruct Z as [H1 H2 H3 H4 H5 H6 H7 [P1 P2 P3 P4 P5 P6 P7]]. split; [exact Hn'|exact Hc'|by destruct zid|cbn; rewrite Em'; set_solver| | | |].
  - intros q w Hq. assert (Hq' : (q, w) ∈ bs ++ sp) by (rewrite <-Eb; set_solver).
    destruct (Hty q w Hq) as [Hb|[Ht Ho]]; [by apply H5|]. split; [|done]. apply elem_of_app in Hq' as [Hq'|Hq']; [by apply H5|by apply H6].
  - intros q w Hq. assert (Hq' : (q, w) ∈ bs ++ sp) by (rewrite <-Eb; set_solver). apply elem_of_app in Hq' as [Hq'|Hq']; [by apply H5|by apply H6].
  - cbn. assert (E2 : bs'.*1 ++ sp'.*1 ≡ₚ bs.*1 ++ sp.*1) by (rewrite <-!fmap_app; by apply fmap_Permutation).
    intros q Hq. apply H7. assert (q ∈ bs'.*1 ++ sp'.*1 \/ q ∈ _K_pmonoPhyPageFreeList s) as [Hq'|Hq'] by (rewrite !elem_of_app in *; tauto);
      [rewrite E2 in Hq'|]; rewrite !elem_of_app in *; tauto.
  - split; cbn; try done. intros l Hl Hd. apply P4 in Hl; [|done]. rewrite Em in Hl. rewrite Em'. apply elem_of_app in Hl as [Hl|[->|Hl]%elem_of_cons]; [set_solver| |set_solver].
    exfalso. apply (Hd p Hp), H7. rewrite !elem_of_app. tauto.
Qed.

Lemma notin_mid (l1 l2 : list block) p v (sp : list block) : NoDup ((l1 ++ (p, v) :: l2).*1 ++ sp.*1) -> p ∉ l1.*1.
Proof.
  rewrite fmap_app. cbn. intros (Hn & _)%NoDup_app. apply NoDup_app in Hn as (_ & Hn & _). intros Hp. apply (Hn p Hp). left.
Qed.

Lemma line_add_spec s fp l1 p v l2 H q w sp : zst s fp (l1 ++ (p, v) :: l2) H ((q, w) :: sp) -> PAGE_iPageType w = ty -> PAGE_pvmzoneOwner w = zid ->
  zst (line_add_behind p q s) fp (l1 ++ (p, v) :: (q, w) :: l2) H sp.
Proof.
  intros Z Ht Ho. unfold line_add_behind. eapply zst_chain_step; [exact Z|apply block_key|apply insert_after_notin| | |].
  - rewrite !fmap_app. cbn. apply insert_after_app. eapply notin_mid, zst_distinct, Z.
  - solve_Permutation.
  - intros x y Hx. apply elem_of_app in Hx as [Hx|[Hx|[Hx|Hx]%elem_of_cons]%elem_of_cons]; [left; set_solver|left; set_solver|right; by injection Hx as -> ->|left; set_solver].
Qed.

Lemma line_del_spec s fp l1 p v l2 H sp : zst s fp (l1 ++ (p, v) :: l2) H sp -> zst (line_del p s) fp (l1 ++ l2) H ((p, v) :: sp).
Proof.
  intros Z. unfold line_del. eapply zst_chain_step; [exact Z|apply block_key|apply remove_node_notin| | |].
  - rewrite !fmap_app. cbn. apply remove_node_app. eapply notin_mid, zst_distinct, Z.
  - solve_Permutation.
  - intros x y Hx. left. set_solver.
Qed.

(** The pages behind the first [n] get a control block of their own. *)
Definition rest_page (v w : LW_VMM_PAGE) (n : Z) : LW_VMM_PAGE :=
  mkPage (PAGE_ulCount v -64 n) (PAGE_ulPageAddr v +64 wrap 64 (Z.shiftl n LW_CFG_VMM_PAGE_SHIFT)) ty (PAGE_ulFlags v) (PAGE_bUsed w)
    (PAGE_pvmzoneOwner v) (PAGE_status w).

Lemma set_page_line p f x y s s' : set_page p f s = Some s' -> set_page p f (line_add_behind x y s) = Some (line_add_behind x y s').
Proof.
  unfold set_page, page. destruct (p =? NULL); [done|]. cbn. destruct (VM_page s !! p); [|done]. cbn. by intros [= <-].
Qed.

Lemma separate_spec s fp l1 p v l2 H q w sp n : zst s fp (l1 ++ (p, v) :: l2) H ((q, w) :: sp) -> exists s',
  __pageStructSeparate p q n ty s = Some s' /\ zst s' fp (l1 ++ (p, with_count n v) :: (q, rest_page v w n) :: l2) H sp.
Proof.
  intros Z. destruct (zst_read _ _ _ _ _ p v Z) as [Hv _]; [set_solver|].
  assert (Ho : PAGE_pvmzoneOwner v = zid) by (apply (zs_pages _ _ _ _ _ Z p v); set_solver).
  unfold __pageStructSeparate. cbv zeta. assert (Hv' : page p (line_add_behind p q s) = Some v) by exact Hv. rewrite Hv'. cbn [mbind option_bind].
  destruct (set_spare _ _ _ _ q w sp (fun o => mkPage (PAGE_ulCount v -64 n) (PAGE_ulPageAddr v +64 wrap 64 (Z.shiftl n LW_CFG_VMM_PAGE_SHIFT)) ty
    (PAGE_ulFlags v) (PAGE_bUsed o) (PAGE_pvmzoneOwner v) (PAGE_status o)) Z) as (s1 & E1 & Z1).
  rewrite (set_page_line _ _ _ _ _ _ E1). cbn [mbind option_bind]. apply line_add_spec in Z1; [|done|done].
  by apply (set_block _ _ _ _ _ _ _ _ (with_count n)) in Z1.
Qed.

(** ** Control blocks *)

Definition mem_ok (s : VMM) (mem : CB) : Prop :=
  match mem with Some (p, _, _) => p <> NULL /\ VM_page s !! p = None /\ p ∈ K | None => True end.

Lemma cb_alloc_spec s fp bs H sp mem : zst s fp bs H sp -> (ty <> __VMM_PAGE_TYPE_PHYSICAL -> mem_ok s mem) ->
  exists s' p, __pageCbAlloc ty mem s = (s', p) /\
  ((p = NULL /\ s' = s /\ (ty = __VMM_PAGE_TYPE_PHYSICAL -> _K_pmonoPhyPageFreeList s = [])) \/
   (p <> NULL /\ exists v, zst s' fp bs H ((p, v) :: sp) /\
      (ty = __VMM_PAGE_TYPE_PHYSICAL -> _K_pmonoPhyPageFreeList s = p :: _K_pmonoPhyPageFreeList s') /\
      (ty <> __VMM_PAGE_TYPE_PHYSICAL -> exists n, mem = Some (p, v, n)) /\
      (forall x, VM_page s !! x = None -> x <> p -> VM_page s' !! x = None))).
Proof.
  intros Z Hm. unfold __pageCbAlloc. destruct (Z.eqb_spec ty __VMM_PAGE_TYPE_PHYSICAL) as [Et|Et].
  - destruct (_K_pmonoPhyPageFreeList s) as [|p l] eqn:El; [exists s, NULL; split; [done|by left]|].
    eexists _, p. split; [done|]. right. pose proof (zs_own _ _ _ _ _ Z) as Hn. pose proof (zs_cbs _ _ _ _ _ Z) as Hc.
    assert (Eo : forall v, owned (with_free l s) ((p, v) :: sp) ≡ₚ owned s sp) by (intros v; unfold owned; rewrite El; cbn; solve_Permutation).
    assert (Hp : p ∈ owned s sp) by (unfold owned; rewrite El; set_solver).
    split; [intros ->; by apply NoDup_cons in Hn as [? _]|]. destruct (Hc p Hp) as [[v Hv] _]. exists v. split; [|by split_and!].
    destruct (owned_move s (with_free l s) sp ((p, v) :: sp) (Eo v) eq_refl eq_refl Hn Hc) as [Hn' Hc'].
    destruct Z as [H1 H2 H3 H4 H5 H6 H7 [P1 P2 P3 P4 P5 P6 P7]]. split; [done|done|by destruct zid|done|done| |rewrite El in H7; cbn in *; set_solver|by split].
    intros q w [Hq|Hq]%elem_of_cons; [by injection Hq as -> ->|by apply H6].
  - destruct mem as [[[p v] n]|]; [|exists s, NULL; split; [done|by left]]. destruct (Hm Et) as (Hp0 & Hpv & HpK).
    eexists _, p. split; [done|]. right. split; [done|]. exists v. destruct Z as [H1 H2 H3 H4 H5 H6 H7 [P1 P2 P3 P4 P5 P6 P7]].
    assert (Hp : p ∉ owned s sp) by (intros Hp; destruct (H2 p Hp) as [[? ?] _]; congruence).
    assert (Hb : forall x, VM_page s !! x = None -> x <> p -> VM_page (new_cb p v n s) !! x = None) by (intros x Hx Hne; cbn; by rewrite lookup_insert_ne).
    split; [|split; [done|split; [by exists n|done]]]. split; [| |by destruct zid|done| | | |].
    + unfold owned in *. cbn. rewrite NoDup_cons, elem_of_cons in *. split; [intros [?|?]; [congruence|tauto]|]. apply NoDup_cons. tauto.
    + intros q Hq. cbn. destruct (decide (p = q)) as [<-|Hne]; [rewrite !lookup_insert_eq; by split; eexists|]. rewrite !lookup_insert_ne by done.
      apply H2. unfold owned in *. cbn in Hq. apply elem_of_cons in Hq as [->|Hq]; done.
    + intros q w Hq. cbn. rewrite lookup_insert_ne; [by apply H5|]. intros <-. destruct (H5 p w Hq) as [? _]. congruence.
    + intros q w [Hq|Hq]%elem_of_cons; cbn; [injection Hq as -> ->; by rewrite lookup_insert_eq|]. rewrite lookup_insert_ne; [by apply H6|].
      intros <-. specialize (H6 p w Hq). congruence.
    + cbn in *. set_solver.
    + split; try done; cbn; intros q Hq; (rewrite lookup_insert_ne; [by first [apply P3|apply P5]|by intros <-]).
Qed.

Lemma cb_free_spec s fp bs H p v sp : zst s fp bs H ((p, v) :: sp) -> (ty = __VMM_PAGE_TYPE_PHYSICAL -> PAGE_iPageType v = ty) -> exists s',
  __pageCbFree p s = Some s' /\ zst s' fp bs H sp /\
  (ty = __VMM_PAGE_TYPE_PHYSICAL -> _K_pmonoPhyPageFreeList s' = p :: _K_pmonoPhyPageFreeList s).
Proof.
  intros Z Ht. destruct (zst_read _ _ _ _ _ p v Z) as [Hv Hp0]; [set_solver|]. unfold __pageCbFree. rewrite Hv. cbn [mbind option_bind].
  eexists. split; [done|]. pose proof (zs_own _ _ _ _ _ Z) as Hn. pose proof (zs_cbs _ _ _ _ _ Z) as Hc.
  destruct (Z.eqb_spec (PAGE_iPageType v) __VMM_PAGE_TYPE_PHYSICAL) as [Et|Et].
  - split; [|done]. assert (Eo : owned (with_free (p :: _K_pmonoPhyPageFreeList s) s) sp ≡ₚ owned s ((p, v) :: sp)) by (unfold owned; cbn; solve_Permutation).
    destruct (owned_move s _ _ sp Eo eq_refl eq_refl Hn Hc) as [Hn' Hc'].
    destruct Z as [H1 H2 H3 H4 H5 H6 H7 [P1 P2 P3 P4 P5 P6 P7]]. split; [done|done|by destruct zid|done|done| |cbn in *; set_solver|by split].
    intros q w Hq. apply H6. by right.
  - assert (Et' : ty <> __VMM_PAGE_TYPE_PHYSICAL) by (intros Et'; apply Et; rewrite <-Et'; by apply Ht).
    split; [|done]. pose proof (zst_distinct _ _ _ _ _ Z) as Hd. destruct Z as [H1 H2 H3 H4 H5 H6 H7 [P1 P2 P3 P4 P5 P6 P7]].
    unfold owned in *. cbn in *. apply NoDup_cons in Hn as [Hn0 [Hnp Hn]%NoDup_cons].
    apply NoDup_app in Hd as (_ & Hd1 & [Hd2 _]%NoDup_cons).
    split; [constructor; [set_solver|done]| |by destruct zid|done| | |set_solver|split; try done]; cbn.
    + intros q Hq. rewrite !lookup_delete_ne by (intros <-; done). apply H2. by right.
    + intros q w Hq. rewrite lookup_delete_ne; [by apply H5|]. intros <-. apply (Hd1 p); [|left]. apply list_elem_of_fmap. by exists (p, w).
    + intros q w Hq. rewrite lookup_delete_ne; [apply H6; by right|]. intros <-. apply Hd2, list_elem_of_fmap. by exists (p, w).
    + intros q Hq. rewrite lookup_delete_ne; [by apply P3|]. intros <-. apply Hq, H7. left.
    + intros q Hq. rewrite lookup_delete_ne; [by apply P5|]. intros <-. apply Hq, H7. left.
Qed.
End AtWork.
