(* ===== verification/PageFit.v ===== *)
(** * Virtual memory: the search for a free page

    The searches of [__pageAllocate] and [__pageAllocateAlign] are one search, the first with the
    trivial alignment; it gives a page that fits and that no other page that fits is smaller
    than, although it looks at one order after the other. *)

From S2P Require Import Prelude Lists RbTree Vmm PageLib PageSpec.

(** The bound on page numbers: the address space. *)
Definition PAGES_MAX : Z := 2 ^ 52.

Definition fits (ulPageNum ulAlignMask : Z) (v : LW_VMM_PAGE) : Prop :=
  ulPageNum + left_pages (PAGE_ulPageAddr v) ulAlignMask <= PAGE_ulCount v.

Definition free_blocks (bs : list block) : list block := filter (fun b => PAGE_bUsed b.2 = false) bs.
Definition free_of (bs : list block) : list (ptr * Z) := (fun b => (b.1, PAGE_ulCount b.2)) <$> free_blocks bs.

Lemma elem_free p v bs : (p, v) ∈ free_blocks bs <-> (p, v) ∈ bs /\ PAGE_bUsed v = false.
Proof. unfold free_blocks. rewrite list_elem_of_filter. cbn. tauto. Qed.

Lemma left_pages_0 a : left_pages a 0 = 0.
Proof. unfold left_pages. by rewrite Z.land_0_r. Qed.

Lemma left_pages_range a m : 0 <= left_pages a m < PAGES_MAX.
Proof.
  unfold left_pages. destruct (Z.land a m =? 0); [by cbn|]. rewrite Z.shiftr_div_pow2 by (by cbn).
  pose proof (wrap_range 64 (wrap 64 (Z.lor a m + 1) - a) ltac:(lia)) as H. unfold LW_CFG_VMM_PAGE_SHIFT, PAGES_MAX. split; [apply Z.div_pos; lia|].
  apply Z.div_lt_upper_bound; lia.
Qed.

Section Search.
Context (s : VMM) (n mask : Z) (Hn : 0 < n <= PAGES_MAX).

(** The page [p] is the best of the list. *)
Definition best_of (l : list block) (p : ptr) (f lf : Z) : Prop := exists v, (p, v) ∈ l /\ fits n mask v /\
  f = PAGE_ulCount v - n /\ lf = left_pages (PAGE_ulPageAddr v) mask /\
  forall q w, (q, w) ∈ l -> fits n mask w -> f <= PAGE_ulCount w - n.

Lemma scan_spec l : (forall p v, (p, v) ∈ l -> page p s = Some v /\ 0 < PAGE_ulCount v <= 2 ^ 63) -> forall p0 f0 l0, f0 <= ULONG_MAX ->
  exists p f lf, scan_align n mask l.*1 p0 f0 l0 s = Some (p, f, lf) /\
  (((p, f, lf) = (p0, f0, l0) /\ forall q w, (q, w) ∈ l -> fits n mask w -> f0 <= PAGE_ulCount w - n) \/ (best_of l p f lf /\ f < f0)).
Proof.
  induction l as [|[p v] l IH]; intros Hl p0 f0 l0 Hf0.
  - exists p0, f0, l0. split; [done|]. left. split; [done|]. by intros q w ?%elem_of_nil.
  - cbn [fmap list_fmap scan_align fst]. destruct (Hl p v) as [Hv Hc]; [left|]. rewrite Hv. cbn [mbind option_bind].
    pose proof (left_pages_range (PAGE_ulPageAddr v) mask) as Hlr. unfold PAGES_MAX in *.
    rewrite (wrap_small 64 (n + _)) by lia.
    destruct (Z.geb_spec (PAGE_ulCount v) (n + left_pages (PAGE_ulPageAddr v) mask)) as [Hfit|Hfit]; cbn [andb].
    2: { destruct (IH ltac:(intros; apply Hl; by right) p0 f0 l0 Hf0) as (p1 & f1 & lf1 & E & Hr). exists p1, f1, lf1. split; [done|].
         destruct Hr as [[Er Hr]|[(v1 & H1 & H2 & H3 & H4 & H5) Hlt]].
         - left. split; [done|]. intros q w [Hq|Hq]%elem_of_cons Hw; [injection Hq as -> ->; unfold fits in Hw; lia|by apply (Hr q)].
         - right. split; [|done]. exists v1. split_and!; [by right|done|done|done|].
           intros q w [Hq|Hq]%elem_of_cons Hw; [injection Hq as -> ->; unfold fits in Hw; lia|by apply (H5 q)]. }
    rewrite (wrap_small 64 (PAGE_ulCount v - n)) by lia.
    destruct (Z.ltb_spec (PAGE_ulCount v - n) f0) as [Hlt|Hge].
    + destruct (IH ltac:(intros; apply Hl; by right) p (PAGE_ulCount v - n) (left_pages (PAGE_ulPageAddr v) mask)) as (p1 & f1 & lf1 & E & Hr);
        [unfold ULONG_MAX; lia|]. exists p1, f1, lf1. split; [done|]. right. destruct Hr as [[Er Hr]|[(v1 & H1 & H2 & H3 & H4 & H5) Hlt1]].
      * injection Er as -> -> ->. split; [|done]. exists v. split_and!; [left|unfold fits; lia|done|done|].
        intros q w [Hq|Hq]%elem_of_cons Hw; [injection Hq as -> ->; lia|by apply (Hr q)].
      * split; [|lia]. exists v1. split_and!; [by right|done|done|done|]. intros q w [Hq|Hq]%elem_of_cons Hw; [injection Hq as -> ->; lia|by apply (H5 q)].
    + destruct (IH ltac:(intros; apply Hl; by right) p0 f0 l0 Hf0) as (p1 & f1 & lf1 & E & Hr). exists p1, f1, lf1. split; [done|].
      destruct Hr as [[Er Hr]|[(v1 & H1 & H2 & H3 & H4 & H5) Hlt1]].
      * left. split; [done|]. intros q w [Hq|Hq]%elem_of_cons Hw; [injection Hq as -> ->; lia|by apply (Hr q)].
      * right. split; [|done]. exists v1. split_and!; [by right|done|done|done|].
        intros q w [Hq|Hq]%elem_of_cons Hw; [injection Hq as -> ->; lia|by apply (H5 q)].
Qed.

Context (z : LW_VMM_ZONE) (bs : list block) (Hh : hash_rep (ZONE_vmfa z) (free_of bs)) (Hlen : (Z.of_nat (length bs) < PAGES_MAX)%Z)
  (Hbs : forall p v, (p, v) ∈ bs -> page p s = Some v /\ p <> NULL /\ 0 < PAGE_ulCount v <= PAGES_MAX).

(** A free list is a list of free blocks of its order. *)
Lemma order_list i fa : ZONE_vmfa z !! i = Some fa -> exists l, FA_lineFreeHeader fa = l.*1 /\
  l ≡ₚ filter (fun b => order (PAGE_ulCount b.2) = i) (free_blocks bs) /\ (FA_ulCount fa =? 0) = bool_decide (l = []).
Proof.
  intros Hfa. destruct Hh as [_ Hr]. destruct (Hr i fa Hfa) as [Hp Hc].
  assert (Ho : of_order i (free_of bs) = (filter (fun b : block => order (PAGE_ulCount b.2) = i) (free_blocks bs)).*1).
  { unfold of_order, free_of. induction (free_blocks bs) as [|b l IH]; [done|]. rewrite fmap_cons, !filter_cons. cbn [snd].
    case_decide; cbn [fmap list_fmap]; by rewrite IH. }
  rewrite Ho in Hp. assert (Hl : exists l, FA_lineFreeHeader fa = l.*1 /\ l ≡ₚ filter (fun b : block => order (PAGE_ulCount b.2) = i) (free_blocks bs)).
  { revert Hp. generalize (filter (fun b : block => order (PAGE_ulCount b.2) = i) (free_blocks bs)). intros m Hp.
    destruct (Permutation_map_inv _ _ Hp) as (l & El & Hl). by exists l. }
  destruct Hl as (l & El & Hl). exists l. split; [done|]. split; [done|]. rewrite Hc, El, length_fmap.
  assert (Z.of_nat (length l) < PAGES_MAX).
  { rewrite Hl. unfold free_blocks. pose proof (length_filter (fun b : block => order (PAGE_ulCount b.2) = i) (filter (fun b : block => PAGE_bUsed b.2 = false) bs)).
    pose proof (length_filter (fun b : block => PAGE_bUsed b.2 = false) bs). lia. }
  unfold PAGES_MAX in *. rewrite wrap_small by lia. destruct l as [|b l]; [done|]. cbn [length]. rewrite bool_decide_eq_false_2 by done. apply Z.eqb_neq. lia.
Qed.

Lemma find_align_spec k : forall i, (k + i = LW_CFG_VMM_MAX_ORDER)%nat ->
  (exists j p f lf, find_align k i z n mask s = Some (Some (j, p, f, lf)) /\ p <> NULL /\
     exists v, (p, v) ∈ free_blocks bs /\ j = order (PAGE_ulCount v) /\ fits n mask v /\ f = PAGE_ulCount v - n /\
     lf = left_pages (PAGE_ulPageAddr v) mask /\
     forall q w, (q, w) ∈ free_blocks bs -> fits n mask w -> (i <= order (PAGE_ulCount w))%nat -> PAGE_ulCount v <= PAGE_ulCount w) \/
  (find_align k i z n mask s = Some None /\ forall q w, (q, w) ∈ free_blocks bs -> fits n mask w -> (order (PAGE_ulCount w) < i)%nat).
Proof.
  assert (Hb' : forall p v, (p, v) ∈ free_blocks bs -> page p s = Some v /\ p <> NULL /\ 0 < PAGE_ulCount v <= PAGES_MAX).
  { intros p v [Hp _]%elem_free. by apply Hbs. }
  induction k as [|k IH]; intros i Hk; cbn [find_align].
  - right. split; [done|]. intros q w Hq _. destruct (Hb' q w Hq) as (_ & _ & Hc). unfold PAGES_MAX in Hc.
    pose proof (order_lt (PAGE_ulCount w) ltac:(lia)). lia.
  - destruct (lookup_lt_is_Some_2 (ZONE_vmfa z) i) as [fa Hfa]; [rewrite (proj1 Hh); lia|]. rewrite Hfa. cbn [mbind option_bind].
    destruct (order_list i fa Hfa) as (l & El & Hl & ->).
    assert (Hin : forall q w, (q, w) ∈ l <-> (q, w) ∈ free_blocks bs /\ order (PAGE_ulCount w) = i).
    { intros q w. rewrite Hl, list_elem_of_filter. cbn. tauto. }
    assert (Hskip : (forall q w, (q, w) ∈ l -> ~ fits n mask w) ->
      (exists j p f lf, find_align k (S i) z n mask s = Some (Some (j, p, f, lf)) /\ p <> NULL /\
        exists v, (p, v) ∈ free_blocks bs /\ j = order (PAGE_ulCount v) /\ fits n mask v /\ f = PAGE_ulCount v - n /\
        lf = left_pages (PAGE_ulPageAddr v) mask /\
        forall q w, (q, w) ∈ free_blocks bs -> fits n mask w -> (i <= order (PAGE_ulCount w))%nat -> PAGE_ulCount v <= PAGE_ulCount w) \/
      (find_align k (S i) z n mask s = Some None /\ forall q w, (q, w) ∈ free_blocks bs -> fits n mask w -> (order (PAGE_ulCount w) < i)%nat)).
    { intros Hno. assert (Hne : forall q w, (q, w) ∈ free_blocks bs -> fits n mask w -> order (PAGE_ulCount w) <> i).
      { intros q w Hq Hw E. apply (Hno q w); [by apply Hin|done]. }
      destruct (IH (S i) ltac:(lia)) as [(j & p & f & lf & E & Hp0 & v & H1 & H2 & H3 & H4 & H5 & H6)|[E H]].
      - left. exists j, p, f, lf. split; [done|]. split; [done|]. exists v. split_and!; try done. intros q w Hq Hw Hi.
        apply (H6 q w Hq Hw). specialize (Hne q w Hq Hw). lia.
      - right. split; [done|]. intros q w Hq Hw. specialize (H q w Hq Hw). specialize (Hne q w Hq Hw). lia. }
    case_bool_decide as Hl0; [apply Hskip; intros q w; rewrite Hl0; by intros ?%elem_of_nil|].
    rewrite El. destruct (scan_spec l ltac:(intros p v [Hp _]%Hin; destruct (Hb' p v Hp) as (? & _ & ?); unfold PAGES_MAX in *; split; [done|lia]) NULL ULONG_MAX ULONG_MAX ltac:(lia))
      as (p & f & lf & E & Hr). rewrite E. cbn [mbind option_bind].
    destruct Hr as [[Er Hr]|[(v & H1 & H2 & H3 & H4 & H5) Hlt]].
    + injection Er as -> -> ->. rewrite Z.eqb_refl. apply Hskip. intros q w Hq Hw. specialize (Hr q w Hq Hw).
      apply Hin in Hq as [Hq _]. destruct (Hb' q w Hq) as (_ & _ & Hc). unfold ULONG_MAX, PAGES_MAX in *. lia.
    + rewrite (proj2 (Z.eqb_neq f ULONG_MAX)) by lia. left. exists i, p, f, lf. apply Hin in H1 as [H1 Ho]. split; [done|].
      destruct (Hb' p v H1) as (_ & Hp0 & Hc). split; [done|]. exists v. split_and!; try done.
      intros q w Hq Hw Hi. destruct (Hb' q w Hq) as (_ & _ & Hcw). destruct (decide (order (PAGE_ulCount w) = i)) as [Ei|Ne].
      * specialize (H5 q w ltac:(by apply Hin) Hw). lia.
      * destruct (Z.le_gt_cases (PAGE_ulCount v) (PAGE_ulCount w)) as [|Hgt]; [done|]. unfold PAGES_MAX in *.
        pose proof (order_mono (PAGE_ulCount w) (PAGE_ulCount v) ltac:(lia) ltac:(lia)). lia.
Qed.

(** Starting at the order of the request loses nothing. *)
Lemma find_align_best : let r := find_align (LW_CFG_VMM_MAX_ORDER - order n) (order n) z n mask s in
  (exists p v, r = Some (Some (order (PAGE_ulCount v), p, PAGE_ulCount v - n, left_pages (PAGE_ulPageAddr v) mask)) /\ (p, v) ∈ bs /\
     PAGE_bUsed v = false /\ fits n mask v /\
     forall q w, (q, w) ∈ bs -> PAGE_bUsed w = false -> fits n mask w -> PAGE_ulCount v <= PAGE_ulCount w) \/
  (r = Some None /\ forall q w, (q, w) ∈ bs -> PAGE_bUsed w = false -> ~ fits n mask w).
Proof.
  cbv zeta. unfold PAGES_MAX in Hn. pose proof (order_lt n ltac:(lia)) as Ho.
  assert (Hge : forall q w, (q, w) ∈ free_blocks bs -> fits n mask w -> (order n <= order (PAGE_ulCount w))%nat).
  { intros q w [Hq _]%elem_free Hw. destruct (Hbs q w Hq) as (_ & _ & Hc). unfold PAGES_MAX, fits in *.
    pose proof (left_pages_range (PAGE_ulPageAddr w) mask). apply order_mono; lia. }
  destruct (find_align_spec (LW_CFG_VMM_MAX_ORDER - order n) (order n) ltac:(lia)) as [(j & p & f & lf & E & Hp0 & v & H1 & -> & H3 & -> & -> & H6)|[E H]].
  - left. exists p, v. rewrite E. pose proof (proj1 (elem_free _ _ _) H1) as [H1a H1b]. split_and!; try done.
    intros q w Hq Hu Hw. assert (Hq' : (q, w) ∈ free_blocks bs) by (by apply elem_free). by apply (H6 q w Hq' Hw), (Hge q).
  - right. split; [done|]. intros q w Hq Hu Hw. assert (Hq' : (q, w) ∈ free_blocks bs) by (by apply elem_free).
    specialize (H q w Hq' Hw). specialize (Hge q w Hq' Hw). lia.
Qed.
End Search.

(** ** The unaligned search *)

Lemma scan_fit_align n s l : 0 < n <= PAGES_MAX -> (forall p, p ∈ l -> p <> NULL) -> forall p0 f0 l0,
  scan_fit n l p0 f0 s = (fun x => x.1) <$> scan_align n 0 l p0 f0 l0 s.
Proof.
  intros Hn. unfold PAGES_MAX in Hn. induction l as [|p l IH]; intros Hl p0 f0 l0; [done|]. cbn [scan_fit scan_align].
  destruct (page p s) as [v|]; [|done]. cbn [mbind option_bind]. rewrite left_pages_0, Z.add_0_r, (wrap_small 64 n) by lia.
  destruct ((PAGE_ulCount v >=? n) && (PAGE_ulCount v -64 n <? f0)); apply IH; intros q Hq; apply Hl; by right.
Qed.

Lemma find_fit_align s n z bs : 0 < n <= PAGES_MAX -> hash_rep (ZONE_vmfa z) (free_of bs) -> Z.of_nat (length bs) < PAGES_MAX ->
  (forall p v, (p, v) ∈ bs -> page p s = Some v /\ p <> NULL /\ 0 < PAGE_ulCount v <= PAGES_MAX) ->
  forall k i, (k + i = LW_CFG_VMM_MAX_ORDER)%nat -> find_fit k i z n s = fmap (M:=option) fst <$> find_align k i z n 0 s.
Proof.
  intros Hn Hh Hlen Hbs. induction k as [|k IH]; intros i Hk; [done|]. cbn [find_fit find_align].
  destruct (lookup_lt_is_Some_2 (ZONE_vmfa z) i) as [fa Hfa]; [rewrite (proj1 Hh); lia|]. rewrite Hfa. cbn [mbind option_bind].
  destruct (order_list z bs Hh Hlen i fa Hfa) as (l & El & Hl & _). rewrite (IH (S i)) by lia. destruct (FA_ulCount fa =? 0); [done|].
  assert (Hb' : forall p v, (p, v) ∈ l -> page p s = Some v /\ p <> NULL /\ 0 < PAGE_ulCount v <= 2 ^ 63).
  { intros p v Hp. rewrite Hl, list_elem_of_filter in Hp. destruct Hp as [_ [Hp _]%elem_free]. destruct (Hbs p v Hp) as (? & ? & ?).
    unfold PAGES_MAX in *. split_and!; [done|done|lia|lia]. }
  rewrite El, (scan_fit_align n s l.*1 Hn) with (l0 := ULONG_MAX).
  2: { intros p ([q v] & -> & Hq)%list_elem_of_fmap. by destruct (Hb' q v Hq) as (_ & ? & _). }
  destruct (scan_spec s n 0 Hn l ltac:(intros p v Hp; by destruct (Hb' p v Hp) as (? & _ & ?)) NULL ULONG_MAX ULONG_MAX ltac:(lia)) as (p & f & lf & E & Hr).
  rewrite E. cbn [fmap option_fmap option_map mbind option_bind fst]. destruct Hr as [[Er _]|[(v & H1 & _) Hlt]].
  - injection Er as -> -> _. by rewrite Z.eqb_refl.
  - destruct (Hb' p v H1) as (_ & Hp0 & _). rewrite (proj2 (Z.eqb_neq p NULL)) by done. by rewrite (proj2 (Z.eqb_neq f ULONG_MAX)) by lia.
Qed.
