(* ===== verification/PageLife.v ===== *)
(** * Virtual memory: allocation and release of pages

    A zone in rest is a list of blocks that tile it, no two free ones side by side, whose free
    blocks are in the free hash and counted.  Allocation carves the request out of a
    smallest free block that fits; release merges the block with its free neighbours. *)

From S2P Require Import Prelude Lists RbTree Vmm PageLib PageSpec PageFit.

(** ** Layout *)

Definition span (bs : list block) : Z := foldr (fun b z => PAGE_ulCount b.2 + z) 0 bs.

(** The blocks lie one behind the other from address [a] on. *)
Fixpoint tiles (a : Z) (bs : list block) : Prop :=
  match bs with
  | [] => True
  | b :: bs => PAGE_ulPageAddr b.2 = a /\ 0 < PAGE_ulCount b.2 /\ tiles (a + PAGE_ulCount b.2 * LW_CFG_VMM_PAGE_SIZE) bs
  end.

(** Of two neighbours one is used. *)
Fixpoint coalesced (bs : list block) : Prop :=
  match bs with
  | b :: (c :: _) as r => (PAGE_bUsed b.2 = true \/ PAGE_bUsed c.2 = true) /\ coalesced r
  | _ => True
  end.

Lemma span_app l1 l2 : span (l1 ++ l2) = span l1 + span l2.
Proof. induction l1 as [|b l1 IH]; [done|]. unfold span in *. cbn. lia. Qed.

Lemma span_cons b l : span (b :: l) = PAGE_ulCount b.2 + span l.
Proof. done. Qed.
Lemma span_nil : span [] = 0.
Proof. done. Qed.

Lemma tiles_at a a' bs : tiles a bs -> a = a' -> tiles a' bs.
Proof. by intros H <-. Qed.

Lemma block_tiles_app l1 l2 : forall a, tiles a (l1 ++ l2) <-> tiles a l1 /\ tiles (a + span l1 * LW_CFG_VMM_PAGE_SIZE) l2.
Proof.
  induction l1 as [|b l1 IH]; intros a.
  - cbn. rewrite Z.add_0_r. tauto.
  - cbn [app tiles]. rewrite IH. replace (a + PAGE_ulCount b.2 * LW_CFG_VMM_PAGE_SIZE + span l1 * LW_CFG_VMM_PAGE_SIZE)
      with (a + span (b :: l1) * LW_CFG_VMM_PAGE_SIZE) by (unfold span; cbn; lia). tauto.
Qed.

Lemma tiles_count a bs p v : tiles a bs -> (p, v) ∈ bs -> 0 < PAGE_ulCount v <= span bs.
Proof.
  revert a. induction bs as [|b bs IH]; intros a H Hp; [by apply elem_of_nil in Hp|]. cbn in H. destruct H as (H1 & H2 & H3).
  assert (H0 : 0 <= span bs).
  { clear -H3. revert H3. generalize (a + PAGE_ulCount b.2 * LW_CFG_VMM_PAGE_SIZE). induction bs as [|c bs IH]; intros x H3; [done|].
    cbn in H3. destruct H3 as (_ & H & H3). specialize (IH _ H3). unfold span in *. cbn. lia. }
  unfold span in *. cbn. apply elem_of_cons in Hp as [<-|Hp]; [cbn in *; lia|]. specialize (IH _ H3 Hp). cbn in *. lia.
Qed.

Lemma tiles_length a bs : tiles a bs -> Z.of_nat (length bs) <= span bs.
Proof.
  revert a. induction bs as [|b bs IH]; intros a H; [done|]. cbn in H. destruct H as (_ & H2 & H3). specialize (IH _ H3).
  unfold span in *. cbn [foldr length]. lia.
Qed.

Lemma span_nonneg a bs : tiles a bs -> 0 <= span bs.
Proof. intros H. pose proof (tiles_length a bs H). lia. Qed.

Lemma free_blocks_app l1 l2 : free_blocks (l1 ++ l2) = free_blocks l1 ++ free_blocks l2.
Proof. unfold free_blocks. apply filter_app. Qed.
Lemma free_blocks_cons b l : free_blocks (b :: l) = if PAGE_bUsed b.2 then free_blocks l else b :: free_blocks l.
Proof. unfold free_blocks. rewrite filter_cons. by destruct (PAGE_bUsed b.2). Qed.
Lemma free_of_app l1 l2 : free_of (l1 ++ l2) = free_of l1 ++ free_of l2.
Proof. unfold free_of. by rewrite free_blocks_app, fmap_app. Qed.
Lemma free_of_cons b l : free_of (b :: l) = if PAGE_bUsed b.2 then free_of l else (b.1, PAGE_ulCount b.2) :: free_of l.
Proof. unfold free_of. rewrite free_blocks_cons. by destruct (PAGE_bUsed b.2). Qed.

(** Coalescing around a place. *)
Definition used_end (o : option block) : Prop := match o with Some b => PAGE_bUsed b.2 = true | None => True end.

Lemma coalesced_free l1 b l2 : PAGE_bUsed b.2 = false ->
  coalesced (l1 ++ b :: l2) <-> coalesced l1 /\ used_end (last l1) /\ coalesced l2 /\ used_end (head l2).
Proof.
  intros Hb. induction l1 as [|x l1 IH].
  - destruct l2 as [|c l2]; cbn; [tauto|]. rewrite Hb. intuition congruence.
  - destruct l1 as [|y l1]; [|cbn [app coalesced] in *; rewrite last_cons_cons; tauto]. cbn [app] in *.
    change (coalesced (x :: b :: l2)) with ((PAGE_bUsed x.2 = true \/ PAGE_bUsed b.2 = true) /\ coalesced (b :: l2)). rewrite IH, Hb. cbn. intuition congruence.
Qed.

Lemma coalesced_used l1 b l2 : PAGE_bUsed b.2 = true -> coalesced (l1 ++ b :: l2) <-> coalesced l1 /\ coalesced l2.
Proof.
  intros Hb. induction l1 as [|x l1 IH].
  - destruct l2 as [|c l2]; cbn; [tauto|]. rewrite Hb. intuition congruence.
  - destruct l1 as [|y l1]; [|cbn [app coalesced] in *; tauto]. cbn [app] in *.
    change (coalesced (x :: b :: l2)) with ((PAGE_bUsed x.2 = true \/ PAGE_bUsed b.2 = true) /\ coalesced (b :: l2)). rewrite IH, Hb. cbn. intuition congruence.
Qed.

(** The zone at address, size and attribute [geo] consists of [bs]. *)
Record zone_ok (geo : Z * Z * Z) (bs : list block) : Prop := {
  zo_tiles : tiles geo.1.1 bs;
  zo_span : span bs = Z.shiftr geo.1.2 LW_CFG_VMM_PAGE_SHIFT;
  zo_addr : 0 < geo.1.1 /\ geo.1.1 mod LW_CFG_VMM_PAGE_SIZE = 0 /\ geo.1.1 + span bs * LW_CFG_VMM_PAGE_SIZE <= ULONG_MAX;
  zo_coal : coalesced bs
}.

Definition zone_rep (s : VMM) (zid : ZONE) (ty : Z) (geo : Z * Z * Z) (bs : list block) : Prop :=
  zst s (_K_pmonoPhyPageFreeList s ++ bs.*1) zid ty geo s (span (free_blocks bs)) bs (free_of bs) [] /\ zone_ok geo bs.

Lemma zone_counts geo bs p v : zone_ok geo bs -> (p, v) ∈ bs -> 0 < PAGE_ulCount v <= PAGES_MAX.
Proof.
  intros [H1 _ (H2 & _ & H3) _] Hp. pose proof (tiles_count _ _ _ _ H1 Hp). unfold LW_CFG_VMM_PAGE_SIZE, PAGES_MAX, ULONG_MAX in *. lia.
Qed.

Lemma zone_length geo bs : zone_ok geo bs -> Z.of_nat (length bs) < PAGES_MAX.
Proof. intros [H1 _ (H2 & _ & H3) _]. pose proof (tiles_length _ _ H1). unfold LW_CFG_VMM_PAGE_SIZE, PAGES_MAX, ULONG_MAX in *. lia. Qed.

(** ** Carving a request out of a free block *)

(** The block [v] is cut into [lf] free pages, the [n] pages of [b] and the rest. *)
Record carved (v : LW_VMM_PAGE) (lf n : Z) (L : list block) (b : block) (R : list block) : Prop := {
  ca_left : (lf = 0 /\ L = []) \/ (0 < lf /\ exists p w, L = [(p, w)] /\ PAGE_bUsed w = false /\ PAGE_ulCount w = lf /\ PAGE_ulPageAddr w = PAGE_ulPageAddr v);
  ca_block : PAGE_bUsed b.2 = true /\ PAGE_ulCount b.2 = n /\ PAGE_ulPageAddr b.2 = PAGE_ulPageAddr v + lf * LW_CFG_VMM_PAGE_SIZE;
  ca_right : (PAGE_ulCount v = lf + n /\ R = []) \/ (lf + n < PAGE_ulCount v /\ exists p w, R = [(p, w)] /\ PAGE_bUsed w = false /\
    PAGE_ulCount w = PAGE_ulCount v - lf - n /\ PAGE_ulPageAddr w = PAGE_ulPageAddr v + (lf + n) * LW_CFG_VMM_PAGE_SIZE)
}.

Ltac spans := rewrite ?span_app, ?span_cons, ?span_app, ?span_cons, ?span_nil; cbn [snd]; rewrite ?span_app, ?span_cons, ?span_nil; cbn [snd].

Lemma carved_span v lf n L b R : carved v lf n L b R -> span L = lf /\ span (L ++ b :: R) = PAGE_ulCount v.
Proof.
  intros [HL (Hb1 & Hb2 & Hb3) HR].
  destruct HL as [[-> ->]|(Hlf & pl & wl & -> & _ & Hcl & _)], HR as [[Hc ->]|(Hc & pr & wr & -> & _ & Hcr & _)]; spans; lia.
Qed.

Lemma carved_tiles v lf n L b R : carved v lf n L b R -> 0 < n -> tiles (PAGE_ulPageAddr v) (L ++ b :: R).
Proof.
  intros Hc Hn. pose proof (carved_span _ _ _ _ _ _ Hc) as [El _]. destruct Hc as [HL (Hb1 & Hb2 & Hb3) HR]. apply block_tiles_app. rewrite El. split.
  - destruct HL as [[_ ->]|(Hlf & pl & wl & -> & _ & Hcl & Hal)]; [done|]. cbn. split; [done|lia].
  - cbn [tiles]. split; [lia|]. split; [lia|]. rewrite Hb2.
    destruct HR as [[Hcv ->]|(Hcv & pr & wr & -> & _ & Hcr & Har)]; [done|]. cbn [tiles snd]. split; [lia|]. split; [lia|done].
Qed.

Lemma carved_coalesced v lf n L b R l1 l2 : carved v lf n L b R -> coalesced l1 -> used_end (last l1) -> coalesced l2 -> used_end (head l2) ->
  coalesced (l1 ++ (L ++ b :: R) ++ l2).
Proof.
  intros [HL (Hb1 & _) HR] C1 C2 C3 C4. rewrite <-app_assoc, app_assoc. cbn [app]. apply coalesced_used; [done|]. split.
  - destruct HL as [[_ ->]|(_ & pl & wl & -> & Hu & _)]; [by rewrite app_nil_r|]. apply coalesced_free; [done|]. exact (conj C1 (conj C2 (conj I I))).
  - destruct HR as [[_ ->]|(_ & pr & wr & -> & Hu & _)]; [done|]. cbn [app]. apply (coalesced_free [] (pr, wr)); [done|]. exact (conj I (conj I (conj C3 C4))).
Qed.

Lemma carved_free v lf n L b R : carved v lf n L b R -> span (free_blocks (L ++ b :: R)) = PAGE_ulCount v - n.
Proof.
  intros [HL (Hb1 & Hb2 & Hb3) HR]. rewrite free_blocks_app, free_blocks_cons, Hb1.
  destruct HL as [[-> ->]|(Hlf & pl & wl & -> & Hul & Hcl & _)], HR as [[Hc ->]|(Hc & pr & wr & -> & Hur & Hcr & _)];
    rewrite ?free_blocks_cons; cbn [snd]; rewrite ?Hul, ?Hur; unfold free_blocks; rewrite ?filter_nil; spans; lia.
Qed.

(** A block is replaced by others that fill its place. *)
Lemma zone_replace geo l1 p v l2 M : zone_ok geo (l1 ++ (p, v) :: l2) -> tiles (PAGE_ulPageAddr v) M -> span M = PAGE_ulCount v ->
  coalesced (l1 ++ M ++ l2) -> zone_ok geo (l1 ++ M ++ l2).
Proof.
  intros [H1 H2 H3 _] HM Hs Hc. assert (Hsp : span (l1 ++ M ++ l2) = span (l1 ++ (p, v) :: l2)) by (spans; lia).
  split; [|by rewrite Hsp|by rewrite Hsp|done]. apply block_tiles_app in H1 as [H1 H1']. cbn [tiles snd] in H1'. destruct H1' as (Ha & _ & H1').
  apply block_tiles_app. split; [done|]. apply block_tiles_app. rewrite <-Ha in H1' |- *. rewrite Hs. exact (conj HM H1').
Qed.

Lemma carved_ok geo l1 p v l2 lf n L b R : zone_ok geo (l1 ++ (p, v) :: l2) -> PAGE_bUsed v = false -> carved v lf n L b R -> 0 < n ->
  zone_ok geo (l1 ++ (L ++ b :: R) ++ l2).
Proof.
  intros H Hv Hc Hn. pose proof (proj1 (coalesced_free l1 (p, v) l2 Hv) (zo_coal _ _ H)) as (C1 & C2 & C3 & C4).
  eapply zone_replace; [exact H|by eapply carved_tiles|by eapply carved_span|by eapply carved_coalesced].
Qed.

(** ** The steps of an allocation *)

Definition handed (ty : Z) : PAGE_STATUS :=
  if ty =? __VMM_PAGE_TYPE_PHYSICAL then PhyStatus PAGE_MAP_ADDR_INV 0 1 NULL else VirStatus NULL (replicate __VMM_PAGE_LINK_HASH_SIZE []).

Section Steps.
Context (s0 : VMM) (K : list ptr) (zid : ZONE) (ty : Z) (geo : Z * Z * Z).
Abbreviation zst := (PageSpec.zst s0 K zid ty geo).

Lemma zst_fields s fp l1 p v l2 H sp : zst s fp (l1 ++ (p, v) :: l2) H sp -> PAGE_iPageType v = ty /\ PAGE_pvmzoneOwner v = zid.
Proof. intros Z. apply (zs_pages _ _ _ _ _ _ _ _ _ _ Z p v). set_solver. Qed.

Lemma split_right_spec s fp l1 p v l2 H q w sp n : zst s fp (l1 ++ (p, v) :: l2) H ((q, w) :: sp) -> 0 <= n < PAGE_ulCount v -> PAGE_ulCount v <= PAGES_MAX ->
  exists s' b, split_right zid p q n ty s = Some s' /\
    zst s' fp (l1 ++ (p, with_count n (with_used true v)) :: (q, b) :: l2) ((q, PAGE_ulCount b) :: H) sp /\
    PAGE_bUsed b = false /\ PAGE_ulCount b = PAGE_ulCount v - n /\
    PAGE_ulPageAddr b = PAGE_ulPageAddr v +64 n * LW_CFG_VMM_PAGE_SIZE.
Proof.
  intros Z Hn Hc. unfold split_right. unfold PAGES_MAX in Hc.
  destruct (set_block _ _ _ _ _ _ _ _ _ _ _ _ _ (with_used true) Z) as (s1 & -> & Z1); [done|done|]. cbn [mbind option_bind].
  destruct (set_spare _ _ _ _ _ _ _ _ _ _ _ _ (with_used false) Z1) as (s2 & -> & Z2). cbn [mbind option_bind].
  destruct (separate_spec _ _ _ _ _ _ _ _ _ _ _ _ _ _ _ n Z2) as (s3 & -> & Z3). cbn [mbind option_bind].
  set (b := rest_page ty (with_used true v) (with_used false w) n) in *.
  assert (Hb : PAGE_ulCount b = PAGE_ulCount v - n) by (unfold b; cbn; rewrite wrap_small; lia).
  destruct (hash_add_spec _ _ _ _ _ _ _ _ _ _ q b Z3) as (s4 & -> & Z4); [set_solver|lia|].
  exists s4, b. split_and!; [done|done|done|done|]. unfold b. cbn. rewrite Z.shiftl_mul_pow2 by (by cbn). f_equal. rewrite (wrap_small 64); [done|].
  unfold LW_CFG_VMM_PAGE_SHIFT. lia.
Qed.

Lemma split_left_spec s fp l1 p v l2 H q w sp m : zst s fp (l1 ++ (p, v) :: l2) H ((q, w) :: sp) -> 0 < m < PAGE_ulCount v -> PAGE_ulCount v <= PAGES_MAX ->
  exists s' b, split_left zid p q m s = Some s' /\
    zst s' fp (l1 ++ (p, with_count m (with_used false v)) :: (q, b) :: l2) ((p, m) :: H) sp /\
    PAGE_bUsed b = true /\ PAGE_ulCount b = PAGE_ulCount v - m /\
    PAGE_ulPageAddr b = PAGE_ulPageAddr v +64 m * LW_CFG_VMM_PAGE_SIZE.
Proof.
  intros Z Hn Hc. unfold split_left. unfold PAGES_MAX in Hc.
  destruct (set_block _ _ _ _ _ _ _ _ _ _ _ _ _ (with_used false) Z) as (s1 & -> & Z1); [done|done|]. cbn [mbind option_bind].
  destruct (set_spare _ _ _ _ _ _ _ _ _ _ _ _ (with_used true) Z1) as (s2 & -> & Z2). cbn [mbind option_bind].
  destruct (zst_read _ _ _ _ _ _ _ _ _ _ p (with_used false v) Z2) as [-> _]; [set_solver|]. cbn [mbind option_bind].
  rewrite (proj1 (zst_fields _ _ _ _ _ _ _ _ Z2)).
  destruct (separate_spec _ _ _ _ _ _ _ _ _ _ _ _ _ _ _ m Z2) as (s3 & -> & Z3). cbn [mbind option_bind].
  set (b := rest_page ty (with_used false v) (with_used true w) m) in *.
  assert (Hb : PAGE_ulCount b = PAGE_ulCount v - m) by (unfold b; cbn; rewrite wrap_small; lia).
  destruct (hash_add_spec _ _ _ _ _ _ _ _ _ _ p (with_count m (with_used false v)) Z3) as (s4 & -> & Z4); [set_solver|cbn; lia|].
  exists s4, b. split_and!; [done|done|done|done|]. unfold b. cbn. rewrite Z.shiftl_mul_pow2 by (by cbn). f_equal. rewrite (wrap_small 64); [done|].
  unfold LW_CFG_VMM_PAGE_SHIFT. lia.
Qed.

Lemma handed_spec s fp l1 p v l2 H sp : zst s fp (l1 ++ (p, v) :: l2) H sp -> exists s', page_handed p ty s = Some s' /\
  zst s' fp (l1 ++ (p, with_status (handed ty) v) :: l2) H sp.
Proof.
  intros Z. unfold page_handed, handed. destruct (ty =? __VMM_PAGE_TYPE_PHYSICAL).
  - by apply (set_block _ _ _ _ _ _ _ _ _ _ _ _ _ (with_status (PhyStatus PAGE_MAP_ADDR_INV 0 1 NULL)) Z).
  - destruct (set_block _ _ _ _ _ _ _ _ _ _ _ _ _ (with_status (VirStatus NULL [])) Z) as (s1 & -> & Z1); [done|done|]. cbn [mbind option_bind].
    by apply (set_block _ _ _ _ _ _ _ _ _ _ _ _ _ (fun v => with_status (VirStatus (area_cb v) (replicate __VMM_PAGE_LINK_HASH_SIZE [])) v) Z1).
Qed.

(** The last steps: the fields of the page and the count of free pages. *)
Lemma finish_spec s fp l1 p v l2 H sp n : zst s fp (l1 ++ (p, v) :: l2) H sp -> exists s',
  (s ← page_handed p ty s; s ← add_free_page zid (- n) s; Some (s, p)) = Some (s', p) /\
  zst s' (fp - n) (l1 ++ (p, with_status (handed ty) v) :: l2) H sp.
Proof.
  intros Z. destruct (handed_spec _ _ _ _ _ _ _ _ Z) as (s1 & -> & Z1). cbn [mbind option_bind].
  destruct (add_free_page_spec _ _ _ _ _ _ _ _ _ _ (- n) Z1) as (s2 & -> & Z2). cbn [mbind option_bind]. by exists s2.
Qed.

(** The control blocks an aligned allocation needs. *)
Definition mems_ok (s : VMM) (memL memR : CB) : Prop :=
  mem_ok K s memL /\ mem_ok K s memR /\ match memL, memR with Some (p, _, _), Some (q, _, _) => p <> q | _, _ => True end.

Definition need (b : bool) : nat := if b then 1 else 0.
Definition spare_of (b : bool) (p : ptr) (sp : list block) : Prop := if b then exists v, sp = [(p, v)] /\ p <> NULL else sp = [] /\ p = NULL.

Lemma one_cb s fp bs H sp (b : bool) mem : zst s fp bs H sp -> (ty <> __VMM_PAGE_TYPE_PHYSICAL -> mem_ok K s mem) ->
  (ty = __VMM_PAGE_TYPE_PHYSICAL -> (need b <= length (_K_pmonoPhyPageFreeList s))%nat) ->
  exists s' p, (if b then __pageCbAlloc ty mem s else (s, NULL)) = (s', p) /\
  ((b = true /\ p = NULL /\ s' = s /\ ty <> __VMM_PAGE_TYPE_PHYSICAL) \/
   (exists sl, zst s' fp bs H (sl ++ sp) /\ spare_of b p sl /\
     (ty = __VMM_PAGE_TYPE_PHYSICAL -> length (_K_pmonoPhyPageFreeList s) = (need b + length (_K_pmonoPhyPageFreeList s'))%nat) /\
     (ty <> __VMM_PAGE_TYPE_PHYSICAL -> forall mem', mem_ok K s mem' ->
        match mem, mem' with Some (p, _, _), Some (q, _, _) => p <> q | _, _ => True end -> mem_ok K s' mem'))).
Proof.
  intros Z Hm Hf. destruct b; [|exists s, NULL; split; [done|]; right; exists []; by split_and!].
  destruct (cb_alloc_spec _ _ _ _ _ _ _ _ _ _ mem Z Hm) as (s1 & p & E & Hr). exists s1, p. split; [done|].
  destruct Hr as [(-> & -> & Hemp)|(Hp0 & v & Z1 & Hlen & Hmem & Hfr)].
  - left. split_and!; [done|done|done|]. intros Ht. specialize (Hf Ht). rewrite (Hemp Ht) in Hf. cbn in Hf. lia.
  - right. exists [(p, v)]. split_and!; [done|by exists v|by intros Ht; rewrite (Hlen Ht)|]. intros Ht mem' Hm' Hne.
    destruct (Hmem Ht) as [n ->]. destruct mem' as [[[q w] m]|]; [|done]. destruct Hm' as (H1 & H2 & H3). split_and!; [done| |done]. by apply Hfr.
Qed.

Lemma align_cbs_spec s fp bs H left right memL memR : zst s fp bs H [] -> (ty <> __VMM_PAGE_TYPE_PHYSICAL -> mems_ok s memL memR) ->
  (ty = __VMM_PAGE_TYPE_PHYSICAL -> (need left + need right <= length (_K_pmonoPhyPageFreeList s))%nat) ->
  exists s' r, align_cbs left right ty memL memR s = Some (s', r) /\
  match r with
  | Some cbs => exists sl sr, zst s' fp bs H (sr ++ sl) /\ spare_of left cbs.1 sl /\ spare_of right cbs.2 sr /\
     (ty = __VMM_PAGE_TYPE_PHYSICAL -> length (_K_pmonoPhyPageFreeList s) = (need left + need right + length (_K_pmonoPhyPageFreeList s'))%nat)
  | None => zst s' fp bs H [] /\ ty <> __VMM_PAGE_TYPE_PHYSICAL
  end.
Proof.
  intros Z Hm Hf. unfold align_cbs.
  destruct (one_cb _ _ _ _ _ left memL Z) as (s1 & l & -> & [(-> & -> & -> & Ht)|(sl & Z1 & Hsl & Hlen1 & Hfr)]); [intros Ht; by apply Hm|intros Ht; specialize (Hf Ht); lia| |].
  { exists s, None. split; [done|]. by split. }
  rewrite app_nil_r in Z1. assert (Hl0 : left && (l =? NULL) = false).
  { destruct left; [|done]. destruct Hsl as (v & _ & Hl0). by apply Z.eqb_neq. }
  rewrite Hl0. destruct (one_cb _ _ _ _ _ right memR Z1) as (s2 & r & -> & [(-> & -> & -> & Ht)|(sr & Z2 & Hsr & Hlen2 & _)]).
  - intros Ht. destruct (Hm Ht) as (H1 & H2 & H3). by apply Hfr.
  - intros Ht. specialize (Hf Ht). specialize (Hlen1 Ht). lia.
  - cbn [andb]. rewrite Z.eqb_refl. destruct left.
    + destruct Hsl as (v & -> & Hl1). rewrite (proj2 (Z.eqb_neq _ _) Hl1). cbn [negb].
      destruct (cb_free_spec _ _ _ _ _ _ _ _ _ _ _ _ Z1) as (s2 & -> & Z2 & _); [by intros ?|]. exists s2, None. split; [done|]. by split.
    + destruct Hsl as [-> ->]. exists s1, None. split; [done|]. by split.
  - assert (Hr0 : right && (r =? NULL) = false).
    { destruct right; [|done]. destruct Hsr as (v & _ & Hr0). by apply Z.eqb_neq. }
    rewrite Hr0. exists s2, (Some (l, r)). split; [done|]. exists sl, sr. split_and!; [done|done|done|]. intros Ht. rewrite (Hlen1 Ht), (Hlen2 Ht). lia.
Qed.

(** The pages behind the aligned start: the block is cut, or used whole. *)
Definition right_part (p r : ptr) (fit lf n : Z) (s : VMM) : option VMM :=
  if negb (fit =? lf) then split_right zid p r n ty s else set_page p (with_used true) s.

Lemma right_part_spec s fp l1 p v l2 H r sr lf n : zst s fp (l1 ++ (p, v) :: l2) H sr -> 0 < n <= PAGE_ulCount v -> PAGE_ulCount v <= PAGES_MAX ->
  PAGE_ulPageAddr v + PAGE_ulCount v * LW_CFG_VMM_PAGE_SIZE <= ULONG_MAX -> 0 <= PAGE_ulPageAddr v ->
  spare_of (negb (PAGE_ulCount v - n + lf =? lf)) r sr -> exists s' v' R,
  right_part p r (PAGE_ulCount v - n + lf) lf n s = Some s' /\ zst s' fp (l1 ++ (p, v') :: R ++ l2) (free_of R ++ H) [] /\ carved v 0 n [] (p, v') R.
Proof.
  intros Z Hn Hc Ha Ha0 Hsr. unfold right_part. destruct (Z.eqb_spec (PAGE_ulCount v - n + lf) lf) as [E|E]; cbn [negb] in *.
  - destruct Hsr as [-> _]. destruct (set_block _ _ _ _ _ _ _ _ _ _ _ _ _ (with_used true) Z) as (s1 & -> & Z1); [done|done|].
    exists s1, (with_used true v), []. split; [done|]. split; [done|]. split; [by left|cbn; lia|left; split; [lia|done]].
  - destruct Hsr as (w & -> & Hr0). destruct (split_right_spec _ _ _ _ _ _ _ _ _ _ n Z) as (s1 & b & -> & Z1 & Hb1 & Hb2 & Hb3); [lia|lia|].
    exists s1, (with_count n (with_used true v)), [(r, b)]. split; [done|]. rewrite free_of_cons. cbn [snd]. rewrite Hb1. cbn [app fst]. split; [done|].
    split; [by left|cbn; lia|right; split; [lia|]]. exists r, b. split_and!; [done|done|lia|]. rewrite Hb3, wrap_small; [lia|]. unfold ULONG_MAX, LW_CFG_VMM_PAGE_SIZE in *. lia.
Qed.
End Steps.

(** ** Zones in rest *)

Lemma pages_step_mono K K' zid ty s s' : pages_step K zid ty s s' -> K ⊆ K' -> pages_step K' zid ty s s'.
Proof.
  intros [H1 H2 H3 H4 H5 H6 H7] HK. split; [done|done|..|done|done].
  - intros p Hp. apply H3. set_solver.
  - intros l Hl Hd. apply H4; [done|set_solver].
  - intros p Hp. apply H5. set_solver.
Qed.

Lemma zst_weaken s0 K K' zid ty geo s fp bs H sp : zst s0 K zid ty geo s fp bs H sp -> K ⊆ K' -> zst s0 K' zid ty geo s fp bs H sp.
Proof. intros [H1 H2 H3 H4 H5 H6 H7 H8] HK. split; try done; [set_solver|by eapply pages_step_mono]. Qed.

Lemma zone_rep_of s0 K zid ty geo s fp bs H : zst s0 K zid ty geo s fp bs H [] -> H ≡ₚ free_of bs -> fp = span (free_blocks bs) -> zone_ok geo bs ->
  zone_rep s zid ty geo bs.
Proof.
  intros Z Hf -> Hok. split; [|done]. eapply zst_perm in Z; [|exact Hf]. destruct Z as [H1 H2 H3 H4 H5 H6 H7 H8].
  by split.
Qed.

Lemma zone_rep_pages s zid ty geo bs p v : zone_rep s zid ty geo bs -> (p, v) ∈ bs -> page p s = Some v /\ p <> NULL /\ 0 < PAGE_ulCount v <= PAGES_MAX.
Proof.
  intros [Z Hok] Hp. destruct (zst_read _ _ _ _ _ _ _ _ _ _ p v Z) as [? ?]; [set_solver|]. split_and!; [done|done|by eapply zone_counts|by eapply zone_counts].
Qed.

Lemma zone_rep_zone s zid ty geo bs : zone_rep s zid ty geo bs -> exists z, get_zone zid s = Some z /\ hash_rep (ZONE_vmfa z) (free_of bs) /\
  ZONE_ulFreePage z = span (free_blocks bs) /\ (ZONE_ulAddr z, ZONE_stSize z, ZONE_uiAttr z) = geo.
Proof.
  intros [Z Hok]. destruct (zs_zone _ _ _ _ _ _ _ _ _ _ Z) as (z & Hz & Hf & Hh & Hg). exists z. split_and!; try done. rewrite Hf. apply wrap_small.
  assert (Hsp : 0 <= span (free_blocks bs) <= span bs).
  { destruct Hok as [Ht _ _ _]. revert Ht. clear. generalize geo.1.1. induction bs as [|b bs IH]; intros a Ht; [done|]. cbn in Ht. destruct Ht as (_ & Hb & Ht).
    specialize (IH _ Ht). rewrite free_blocks_cons. destruct (PAGE_bUsed b.2); rewrite ?span_cons; lia. }
  destruct (zo_addr _ _ Hok) as (H1 & _ & H2). unfold ULONG_MAX, LW_CFG_VMM_PAGE_SIZE in *. lia.
Qed.

(** The whole block behind its aligned start is in the address space. *)
Lemma zone_block_addr geo l1 p v l2 : zone_ok geo (l1 ++ (p, v) :: l2) ->
  0 < PAGE_ulPageAddr v /\ PAGE_ulPageAddr v + PAGE_ulCount v * LW_CFG_VMM_PAGE_SIZE <= ULONG_MAX /\ PAGE_ulPageAddr v mod LW_CFG_VMM_PAGE_SIZE = 0.
Proof.
  intros [H1 _ (H2 & H3 & H4) _]. apply block_tiles_app in H1 as [H1 (Ha & Hc & H5)]. cbn [snd] in *. rewrite span_app, span_cons in H4. cbn [snd] in H4.
  pose proof (span_nonneg _ _ H1). pose proof (span_nonneg _ _ H5). rewrite Ha. unfold LW_CFG_VMM_PAGE_SIZE in *. split_and!; [lia|lia|].
  rewrite Z.mod_add by lia. done.
Qed.

(** ** Allocation *)

Definition mem_ptr (mem : CB) : list ptr := match mem with Some (p, _, _) => [p] | None => [] end.
Definition fresh_mems (s : VMM) (memL memR : CB) : Prop := mems_ok (mem_ptr memL ++ mem_ptr memR) s memL memR.

Lemma fresh_mems_ok s memL memR K : fresh_mems s memL memR -> mem_ptr memL ++ mem_ptr memR ⊆ K -> mems_ok K s memL memR.
Proof.
  intros (H1 & H2 & H3) HK. split_and!; [| |done].
  - destruct memL as [[[p v] n]|]; [|done]. destruct H1 as (? & ? & ?). split_and!; [done|done|set_solver].
  - destruct memR as [[[p v] n]|]; [|done]. destruct H2 as (? & ? & ?). split_and!; [done|done|set_solver].
Qed.

(** There are control blocks for cutting any block into single pages. *)
Definition cbs_enough (s : VMM) (ty : Z) (bs : list block) : Prop := ty = __VMM_PAGE_TYPE_PHYSICAL ->
  forall p v, (p, v) ∈ bs -> PAGE_bUsed v = false -> PAGE_ulCount v <= 1 + Z.of_nat (length (_K_pmonoPhyPageFreeList s)).

(** What an allocation of [n] pages did: the block [p'] was carved out of a smallest block that fits. *)
Record allocated (s s' : VMM) (zid : ZONE) (ty : Z) (geo : Z * Z * Z) (bs : list block) (n mask : Z) (p' : ptr) (bs' : list block) : Prop := {
  al_cut : exists l1 p v l2 L v' R, bs = l1 ++ (p, v) :: l2 /\ bs' = l1 ++ (L ++ (p', v') :: R) ++ l2 /\
    PAGE_bUsed v = false /\ fits n mask v /\ (forall q w, (q, w) ∈ bs -> PAGE_bUsed w = false -> fits n mask w -> PAGE_ulCount v <= PAGE_ulCount w) /\
    carved v (left_pages (PAGE_ulPageAddr v) mask) n L (p', v') R /\ PAGE_status v' = handed ty /\
    (ty = __VMM_PAGE_TYPE_PHYSICAL -> length (_K_pmonoPhyPageFreeList s) = (length L + length R + length (_K_pmonoPhyPageFreeList s'))%nat);
  al_rep : zone_rep s' zid ty geo bs'
}.

Lemma carved_shift v b1 lf n L b R : carved b1 0 n [] b R -> PAGE_ulCount b1 = PAGE_ulCount v - lf -> PAGE_ulPageAddr b1 = PAGE_ulPageAddr v + lf * LW_CFG_VMM_PAGE_SIZE ->
  ((lf = 0 /\ L = []) \/ (0 < lf /\ exists p w, L = [(p, w)] /\ PAGE_bUsed w = false /\ PAGE_ulCount w = lf /\ PAGE_ulPageAddr w = PAGE_ulPageAddr v)) -> carved v lf n L b R.
Proof.
  intros [_ (H1 & H2 & H3) HR] Hc Ha HL. split; [done|split_and!; [done|done|lia]|].
  destruct HR as [[H4 ->]|(H4 & p & w & -> & H5 & H6 & H7)]; [left; split; [lia|done]|right]. split; [lia|]. exists p, w. split_and!; [done|done|lia|lia].
Qed.

Lemma zst_spare_perm s0 K zid ty geo s fp bs H sp sp' : zst s0 K zid ty geo s fp bs H sp -> sp ≡ₚ sp' -> zst s0 K zid ty geo s fp bs H sp'.
Proof.
  intros [H1 H2 H3 H4 H5 H6 H7 H8] E. assert (Ek : sp.*1 ≡ₚ sp'.*1) by (by apply fmap_Permutation).
  assert (Eo : owned s sp ≡ₚ owned s sp') by (unfold owned; by rewrite Ek).
  split; try done; [by rewrite <-Eo|intros p; rewrite <-Eo; apply H2|intros p v; rewrite <-E; apply H6|].
  intros p Hp. apply H7. rewrite !elem_of_app in *. by rewrite Ek.
Qed.

(** The part after the control blocks have been found: the free block is taken out of the hash and cut. *)
Definition cut (zid : ZONE) (ty n : Z) (i : nat) (p : ptr) (fit lf : Z) (l r : ptr) (s : VMM) : option (VMM * ptr) :=
  s ← fa_del zid i p s;
  '(s, p) ← (if negb (lf =? 0) then s ← split_left zid p l lf s; Some (s, l) else Some (s, p));
  s ← right_part zid ty p r fit lf n s;
  s ← page_handed p ty s;
  s ← add_free_page zid (- n) s;
  Some (s, p).

Lemma cut_spec s0 K zid ty geo s fp l1 p v l2 n mask l r sl sr : let lf := left_pages (PAGE_ulPageAddr v) mask in
  zst s0 K zid ty geo s fp (l1 ++ (p, v) :: l2) (free_of (l1 ++ (p, v) :: l2)) (sr ++ sl) -> zone_ok geo (l1 ++ (p, v) :: l2) -> PAGE_bUsed v = false ->
  0 < n -> fits n mask v -> spare_of (negb (lf =? 0)) l sl -> spare_of (negb (PAGE_ulCount v - n =? lf)) r sr -> exists s' p' v' L R,
  cut zid ty n (order (PAGE_ulCount v)) p (PAGE_ulCount v - n) lf l r s = Some (s', p') /\ p' <> NULL /\
  zst s0 K zid ty geo s' (fp - n) (l1 ++ (L ++ (p', v') :: R) ++ l2) (free_of (l1 ++ (L ++ (p', v') :: R) ++ l2)) [] /\
  carved v lf n L (p', v') R /\ PAGE_status v' = handed ty /\ length L = need (negb (lf =? 0)) /\ length R = need (negb (PAGE_ulCount v - n =? lf)).
Proof.
  intros lf Z Hok Hu Hn Hfit Hl Hr. pose proof (zone_counts _ _ p v Hok ltac:(set_solver)) as Hc. pose proof (zone_block_addr _ _ _ _ _ Hok) as (Ha0 & Ha & _).
  pose proof (left_pages_range (PAGE_ulPageAddr v) mask) as Hlf. fold lf in Hlf. unfold fits in Hfit. fold lf in Hfit. unfold cut.
  assert (Hp0 : p <> NULL) by (eapply (zst_read _ _ _ _ _ _ _ _ _ _ p v Z); set_solver).
  eapply (zst_perm _ _ _ _ _ _ _ _ _ ((p, PAGE_ulCount v) :: free_of (l1 ++ l2))) in Z; [|rewrite !free_of_app, free_of_cons; cbn [snd fst]; rewrite Hu; solve_Permutation].
  destruct (fa_del_spec _ _ _ _ _ _ _ _ _ _ _ _ Z) as (s1 & -> & Z1); [unfold PAGES_MAX in *; lia|]. cbn [mbind option_bind].
  destruct (Z.eqb_spec lf 0) as [E0|E0]; cbn [negb] in *.
  - destruct Hl as [-> ->]. rewrite app_nil_r in Z1. rewrite E0 in *. cbn [mbind option_bind].
    assert (Er : PAGE_ulCount v - n + 0 = PAGE_ulCount v - n) by lia. rewrite <-Er in Hr |- *.
    destruct (right_part_spec _ _ _ _ _ _ _ _ _ _ _ _ r _ 0 n Z1 ltac:(lia) ltac:(lia) Ha ltac:(lia) Hr) as (s2 & v2 & R & -> & Z2 & Hcar). cbn [mbind option_bind].
    destruct (finish_spec _ _ _ _ _ _ _ _ _ _ _ _ _ n Z2) as (s3 & -> & Z3). exists s3, p, (with_status (handed ty) v2), [], R.
    split_and!; [done|done| | |done|done|].
    + eapply zst_perm; [exact Z3|]. cbn [app]. rewrite !free_of_app, free_of_cons. cbn [snd with_status PAGE_bUsed].
      assert (Hu2 : PAGE_bUsed v2 = true) by apply (ca_block _ _ _ _ _ _ Hcar). rewrite Hu2, !free_of_app. solve_Permutation.
    + destruct Hcar as [H1 H2 H3]. by split.
    + destruct Hcar as [_ (_ & H2 & _) H3]. destruct (Z.eqb_spec (PAGE_ulCount v - n + 0) 0); destruct H3 as [[? ->]|(? & ? & ? & -> & _)]; cbn; (done || lia).
  - destruct Hl as (w & -> & Hl0). eapply zst_spare_perm in Z1; [|apply Permutation_app_comm]. cbn [app] in Z1.
    destruct (split_left_spec _ _ _ _ _ _ _ _ _ _ _ _ _ _ _ lf Z1 ltac:(lia) ltac:(lia)) as (s2 & b & -> & Z2 & Hb1 & Hb2 & Hb3). cbn [mbind option_bind].
    assert (Eb : l1 ++ (p, with_count lf (with_used false v)) :: (l, b) :: l2 = (l1 ++ [(p, with_count lf (with_used false v))]) ++ (l, b) :: l2) by (by rewrite <-app_assoc).
    rewrite Eb in Z2. assert (Hab : PAGE_ulPageAddr b = PAGE_ulPageAddr v + lf * LW_CFG_VMM_PAGE_SIZE).
    { rewrite Hb3, wrap_small; [done|]. unfold ULONG_MAX, LW_CFG_VMM_PAGE_SIZE in *. lia. }
    assert (Er : PAGE_ulCount b - n + lf = PAGE_ulCount v - n) by lia. rewrite <-Er in Hr |- *.
    destruct (right_part_spec _ _ _ _ _ _ _ _ _ _ _ _ r _ lf n Z2) as (s3 & v2 & R & -> & Z3 & Hcar); [lia|lia|unfold LW_CFG_VMM_PAGE_SIZE in *; lia|unfold LW_CFG_VMM_PAGE_SIZE in *; lia|exact Hr|].
    cbn [mbind option_bind]. destruct (finish_spec _ _ _ _ _ _ _ _ _ _ _ _ _ n Z3) as (s4 & -> & Z4).
    exists s4, l, (with_status (handed ty) v2), [(p, with_count lf (with_used false v))], R. split_and!; [done|done| | |done|done|].
    + rewrite <-app_assoc in Z4. eapply zst_perm; [exact Z4|]. cbn [app]. rewrite !free_of_app, !free_of_cons. cbn [snd fst with_status with_used with_count PAGE_bUsed PAGE_ulCount].
      assert (Hu2 : PAGE_bUsed v2 = true) by apply (ca_block _ _ _ _ _ _ Hcar). rewrite Hu2, !free_of_app. solve_Permutation.
    + assert (Hcar' : carved b 0 n [] (l, with_status (handed ty) v2) R) by (destruct Hcar as [H1 H2 H3]; by split).
      eapply carved_shift; [exact Hcar'|lia|done|]. right. split; [lia|]. by exists p, (with_count lf (with_used false v)).
    + destruct Hcar as [_ (_ & H2 & _) H3]. destruct (Z.eqb_spec (PAGE_ulCount b - n + lf) lf); destruct H3 as [[? ->]|(? & ? & ? & -> & _)]; cbn; (done || lia).
Qed.

(** The steps leave the list of free control blocks alone. *)
Definition keeps (f : VMM -> option VMM) : Prop := forall s s', f s = Some s' -> _K_pmonoPhyPageFreeList s' = _K_pmonoPhyPageFreeList s.

Ltac binds H := repeat (apply bind_Some in H as (? & ? & H)).

Lemma keeps_set_page p f : keeps (set_page p f).
Proof. intros s s' H. unfold set_page in H. binds H. by injection H as <-. Qed.
Lemma keeps_put z v s : _K_pmonoPhyPageFreeList (put_zone z v s) = _K_pmonoPhyPageFreeList s.
Proof. by destruct z. Qed.
Lemma keeps_fa_add z i p : keeps (fa_add z i p).
Proof. intros s s' H. unfold fa_add in H. binds H. injection H as <-. apply keeps_put. Qed.
Lemma keeps_fa_del z i p : keeps (fa_del z i p).
Proof. intros s s' H. unfold fa_del in H. binds H. injection H as <-. apply keeps_put. Qed.
Lemma keeps_add_free z n : keeps (add_free_page z n).
Proof. intros s s' H. unfold add_free_page in H. binds H. injection H as <-. apply keeps_put. Qed.
Lemma keeps_bind f g : keeps f -> keeps g -> keeps (fun s => s ← f s; g s).
Proof. intros Hf Hg s s' H. apply bind_Some in H as (s1 & H1 & H2). rewrite (Hg _ _ H2). by apply Hf. Qed.
Lemma keeps_read {A} (r : VMM -> option A) (g : A -> VMM -> option VMM) : (forall a, keeps (g a)) -> keeps (fun s => a ← r s; g a s).
Proof. intros Hg s s' H. apply bind_Some in H as (a & H1 & H2). by apply (Hg a). Qed.

Lemma keeps_separate p q n ty : keeps (__pageStructSeparate p q n ty).
Proof.
  intros s s' H. unfold __pageStructSeparate in H. cbv zeta in H. apply bind_Some in H as (v & _ & H). apply bind_Some in H as (s1 & H1 & H2).
  rewrite (keeps_set_page _ _ _ _ H2), (keeps_set_page _ _ _ _ H1). done.
Qed.
Lemma keeps_add_hash z p : keeps (__pageAddToFreeHash z p).
Proof. unfold __pageAddToFreeHash. apply keeps_read. intros v. apply keeps_read. intros i. apply keeps_fa_add. Qed.
Lemma keeps_del_hash z p : keeps (__pageDelFromFreeHash z p).
Proof. unfold __pageDelFromFreeHash. apply keeps_read. intros v. apply keeps_read. intros i. apply keeps_fa_del. Qed.
Lemma keeps_split_right z p q n ty : keeps (split_right z p q n ty).
Proof. unfold split_right. repeat (apply keeps_bind; [first [apply keeps_set_page|apply keeps_separate]|]). apply keeps_add_hash. Qed.
Lemma keeps_split_left z p q m : keeps (split_left z p q m).
Proof.
  unfold split_left. do 2 (apply keeps_bind; [apply keeps_set_page|]). apply keeps_read. intros v.
  apply keeps_bind; [apply keeps_separate|apply keeps_add_hash].
Qed.
Lemma keeps_handed p ty : keeps (page_handed p ty).
Proof.
  unfold page_handed. destruct (ty =? __VMM_PAGE_TYPE_PHYSICAL); [apply keeps_set_page|].
  apply keeps_bind; [apply keeps_set_page|]. unfold __pageInitLink. apply keeps_set_page.
Qed.

Lemma cut_keeps zid ty n i p fit lf l r s s' p' : cut zid ty n i p fit lf l r s = Some (s', p') -> _K_pmonoPhyPageFreeList s' = _K_pmonoPhyPageFreeList s.
Proof.
  unfold cut. intros H. apply bind_Some in H as (s1 & H1 & H). apply bind_Some in H as ([s2 p2] & H2 & H).
  apply bind_Some in H as (s3 & H3 & H). apply bind_Some in H as (s4 & H4 & H). apply bind_Some in H as (s5 & H5 & H). injection H as <- _.
  rewrite (keeps_add_free _ _ _ _ H5), (keeps_handed _ _ _ _ H4), <-(keeps_fa_del _ _ _ _ _ H1).
  assert (E2 : _K_pmonoPhyPageFreeList s2 = _K_pmonoPhyPageFreeList s1).
  { destruct (negb (lf =? 0)); [|by injection H2 as <- _]. apply bind_Some in H2 as (s6 & H6 & H2). injection H2 as <- _. by apply keeps_split_left in H6. }
  rewrite <-E2. unfold right_part in H3. destruct (negb (fit =? lf)); [by apply keeps_split_right in H3|by apply keeps_set_page in H3].
Qed.

(** The control blocks an operation may touch. *)
Definition touched (s : VMM) (bs : list block) (ms : list ptr) : list ptr := (_K_pmonoPhyPageFreeList s ++ bs.*1) ++ ms.

Lemma zone_start s zid ty geo bs ms : zone_rep s zid ty geo bs ->
  zst s (touched s bs ms) zid ty geo s (span (free_blocks bs)) bs (free_of bs) [] /\ zone_ok geo bs.
Proof. intros [Z Hok]. split; [|done]. eapply zst_weaken; [exact Z|]. unfold touched. set_solver. Qed.

Lemma page_align_spec s zid ty geo bs n align memL memR : let mask := align -64 1 in
  zone_rep s zid ty geo bs -> 0 < n <= PAGES_MAX -> (ty <> __VMM_PAGE_TYPE_PHYSICAL -> fresh_mems s memL memR) -> cbs_enough s ty bs -> exists s' p',
  __pageAllocateAlign zid n align ty memL memR s = Some (s', p') /\
  pages_step (touched s bs (mem_ptr memL ++ mem_ptr memR)) zid ty s s' /\
  ((p' = NULL /\ s' = s /\ (forall q w, (q, w) ∈ bs -> PAGE_bUsed w = false -> ~ fits n mask w)) \/
   (p' = NULL /\ zone_rep s' zid ty geo bs /\ ty <> __VMM_PAGE_TYPE_PHYSICAL) \/
   (p' <> NULL /\ exists bs', allocated s s' zid ty geo bs n mask p' bs')).
Proof.
  intros mask Hz Hn Hm Hcb. destruct (zone_rep_zone _ _ _ _ _ Hz) as (z & Ez & Hh & _).
  pose proof (zone_start _ _ _ _ _ (mem_ptr memL ++ mem_ptr memR) Hz) as [Z Hok].
  unfold __pageAllocateAlign. rewrite (proj1 (order_index n ltac:(unfold PAGES_MAX in *; lia))). cbn [mbind option_bind]. rewrite Ez. cbn [mbind option_bind]. fold mask.
  destruct (find_align_best s n mask Hn z bs Hh (zone_length _ _ Hok) (fun p v => zone_rep_pages _ _ _ _ _ p v Hz)) as [(p & v & -> & Hp & Hu & Hfit & Hbest)|[-> Hno]];
    cbn [mbind option_bind].
  2: { exists s, NULL. split; [done|]. split; [apply pages_step_refl|]. by left. }
  destruct (list_elem_of_split _ _ Hp) as (l1 & l2 & ->). set (lf := left_pages (PAGE_ulPageAddr v) mask) in *.
  pose proof (left_pages_range (PAGE_ulPageAddr v) mask) as Hlf. fold lf in Hlf. pose proof Hfit as Hfit'. unfold fits in Hfit'. fold lf in Hfit'.
  destruct (align_cbs_spec _ _ _ _ _ _ _ _ _ (negb (lf =? 0)) (negb (PAGE_ulCount v - n =? lf)) memL memR Z) as (s1 & cbs & -> & Hcbs).
  - intros Ht. apply fresh_mems_ok; [by apply Hm|]. unfold touched. set_solver.
  - intros Ht. specialize (Hcb Ht p v ltac:(set_solver) Hu).
    assert (Hlf2 : Z.of_nat (need (negb (lf =? 0))) <= lf) by (destruct (Z.eqb_spec lf 0); cbn; lia).
    assert (Hrt : Z.of_nat (need (negb (PAGE_ulCount v - n =? lf))) <= PAGE_ulCount v - n - lf) by (destruct (Z.eqb_spec (PAGE_ulCount v - n) lf); cbn; lia). lia.
  - cbn [mbind option_bind]. destruct cbs as [[l r]|]; [|destruct Hcbs as [Z1 Ht]; exists s1, NULL; split; [done|]; split; [apply Z1|]; right; left; split; [done|]; split; [by eapply zone_rep_of|done]].
    destruct Hcbs as (sl & sr & Z1 & Hsl & Hsr & Hlen). cbn [fst snd] in *.
    destruct (cut_spec _ _ _ _ _ _ _ _ _ _ _ n mask _ _ _ _ Z1 Hok Hu ltac:(lia) Hfit Hsl Hsr) as (s2 & p' & v' & L & R & E & Hp0 & Z2 & Hcar & Hst & HL & HR).
    change (cut zid ty n (order (PAGE_ulCount v)) p (PAGE_ulCount v - n) lf l r s1 = Some (s2, p')) in E.
    pose proof E as Ek. apply cut_keeps in Ek. unfold cut, right_part in E.
    exists s2, p'. split; [exact E|]. split; [apply Z2|]. right. right. split; [done|]. eexists. split.
    + exists l1, p, v, l2, L, v', R. split_and!; try done. intros Ht. rewrite HL, HR, Ek. by apply Hlen.
    + eapply zone_rep_of; [exact Z2|done| |eapply carved_ok; [exact Hok|done|exact Hcar|lia]].
      rewrite (free_blocks_app l1 ((p, v) :: l2)), free_blocks_cons. cbn [snd]. rewrite Hu, (free_blocks_app l1 (_ ++ l2)), (free_blocks_app (L ++ _)).
      pose proof (carved_free _ _ _ _ _ _ Hcar). spans. lia.
Qed.

(** An unaligned allocation is one aligned to one byte. *)
Lemma allocate_unaligned s zid ty geo bs n mem memL : zone_rep s zid ty geo bs -> 0 < n <= PAGES_MAX ->
  __pageAllocate zid n ty mem s = __pageAllocateAlign zid n 1 ty memL mem s.
Proof.
  intros Hz Hn. destruct (zone_rep_zone _ _ _ _ _ Hz) as (z & Ez & Hh & _). pose proof (proj2 Hz) as Hok.
  unfold __pageAllocate, __pageAllocateAlign. destruct (order_index n) as [-> _]; [unfold PAGES_MAX in *; lia|]. cbn [mbind option_bind]. rewrite Ez. cbn [mbind option_bind].
  change (1 -64 1) with 0. pose proof (order_lt n ltac:(unfold PAGES_MAX in *; lia)) as Ho.
  pose proof (fun p v => zone_rep_pages _ _ _ _ _ p v Hz) as Hpg.
  rewrite (find_fit_align s n z bs Hn Hh (zone_length _ _ Hok) Hpg) by lia.
  destruct (find_align_best s n 0 Hn z bs Hh (zone_length _ _ Hok) Hpg) as [(p & v & -> & _)|[-> _]]; [|done].
  rewrite left_pages_0. cbn [fmap option_fmap option_map mbind option_bind fst]. unfold align_cbs. change (0 =? 0) with true. cbn [negb andb].
  destruct (PAGE_ulCount v - n =? 0) eqn:E; cbn [negb andb]; [done|].
  destruct (__pageCbAlloc ty mem s) as [s1 r]. destruct (r =? NULL) eqn:Er; [done|]. cbn [mbind option_bind].
  destruct (fa_del zid (order (PAGE_ulCount v)) p s1); done.
Qed.

(** ** Release *)

Section Merge.
Context (s0 : VMM) (K : list ptr) (zid : ZONE) (ty : Z) (geo : Z * Z * Z).
Abbreviation zst := (PageSpec.zst s0 K zid ty geo).

Lemma merge_left_used s fp l1 pl vl p v l2 H : zst s fp (l1 ++ (pl, vl) :: (p, v) :: l2) H [] -> PAGE_bUsed vl = true ->
  merge_left zid pl p s = Some (s, p).
Proof.
  intros Z Hu. unfold merge_left. destruct (zst_read _ _ _ _ _ _ _ _ _ _ pl vl Z) as [-> _]; [set_solver|]. cbn [mbind option_bind]. by rewrite Hu.
Qed.

Lemma merge_left_free s fp l1 pl vl p v l2 H : zst s fp (l1 ++ (pl, vl) :: (p, v) :: l2) ((pl, PAGE_ulCount vl) :: H) [] -> PAGE_bUsed vl = false ->
  0 < PAGE_ulCount vl <= PAGES_MAX -> 0 < PAGE_ulCount v <= PAGES_MAX -> exists s', merge_left zid pl p s = Some (s', pl) /\
  zst s' fp (l1 ++ (pl, with_count (PAGE_ulCount vl + PAGE_ulCount v) vl) :: l2) H [] /\
  (ty = __VMM_PAGE_TYPE_PHYSICAL -> length (_K_pmonoPhyPageFreeList s') = S (length (_K_pmonoPhyPageFreeList s))).
Proof.
  intros Z Hu Hc1 Hc2. unfold PAGES_MAX in *. unfold merge_left. destruct (zst_read _ _ _ _ _ _ _ _ _ _ pl vl Z) as [-> _]; [set_solver|]. cbn [mbind option_bind]. rewrite Hu.
  destruct (hash_del_spec _ _ _ _ _ _ _ _ _ _ pl vl Z) as (s1 & E1 & Z1); [set_solver|lia|]. rewrite E1. cbn [mbind option_bind].
  destruct (zst_read _ _ _ _ _ _ _ _ _ _ p v Z1) as [-> _]; [set_solver|]. cbn [mbind option_bind].
  destruct (set_block _ _ _ _ _ _ _ _ _ _ _ _ _ (fun l => with_count (PAGE_ulCount l +64 PAGE_ulCount v) l) Z1) as (s2 & E2 & Z2); [done|done|]. rewrite E2. cbn [mbind option_bind].
  rewrite (wrap_small 64) in Z2 by lia. set (vl' := with_count _ vl) in *.
  assert (El : l1 ++ (pl, vl') :: (p, v) :: l2 = (l1 ++ [(pl, vl')]) ++ (p, v) :: l2) by (by rewrite <-app_assoc). rewrite El in Z2.
  pose proof (line_del_spec _ _ _ _ _ _ _ _ _ _ _ _ _ Z2) as Z3.
  destruct (cb_free_spec _ _ _ _ _ _ _ _ _ _ _ _ Z3) as (s4 & E4 & Z4 & Hl); [intros _; by eapply zst_fields|]. rewrite E4. cbn [mbind option_bind].
  exists s4. split; [done|]. rewrite <-app_assoc in Z4. split; [done|]. intros Ht. rewrite (Hl Ht). cbn [length]. f_equal. f_equal.
  unfold line_del. cbn. rewrite (keeps_set_page _ _ _ _ E2). by apply keeps_del_hash in E1.
Qed.

Lemma merge_right_used s fp l1 p v pr vr l2 H : zst s fp (l1 ++ (p, v) :: (pr, vr) :: l2) H [] -> PAGE_bUsed vr = true ->
  merge_right zid p pr s = Some s.
Proof.
  intros Z Hu. unfold merge_right. destruct (zst_read _ _ _ _ _ _ _ _ _ _ pr vr Z) as [-> _]; [set_solver|]. cbn [mbind option_bind]. by rewrite Hu.
Qed.

Lemma merge_right_free s fp l1 p v pr vr l2 H : zst s fp (l1 ++ (p, v) :: (pr, vr) :: l2) ((pr, PAGE_ulCount vr) :: H) [] -> PAGE_bUsed vr = false ->
  0 < PAGE_ulCount vr <= PAGES_MAX -> 0 < PAGE_ulCount v <= 2 * PAGES_MAX -> exists s', merge_right zid p pr s = Some s' /\
  zst s' fp (l1 ++ (p, with_count (PAGE_ulCount v + PAGE_ulCount vr) v) :: l2) H [] /\
  (ty = __VMM_PAGE_TYPE_PHYSICAL -> length (_K_pmonoPhyPageFreeList s') = S (length (_K_pmonoPhyPageFreeList s))).
Proof.
  intros Z Hu Hc1 Hc2. unfold PAGES_MAX in *. unfold merge_right. destruct (zst_read _ _ _ _ _ _ _ _ _ _ pr vr Z) as [-> _]; [set_solver|]. cbn [mbind option_bind]. rewrite Hu.
  destruct (hash_del_spec _ _ _ _ _ _ _ _ _ _ pr vr Z) as (s1 & E1 & Z1); [set_solver|lia|]. rewrite E1. cbn [mbind option_bind].
  destruct (set_block _ _ _ _ _ _ _ _ _ _ _ _ _ (fun v => with_count (PAGE_ulCount v +64 PAGE_ulCount vr) v) Z1) as (s2 & E2 & Z2); [done|done|]. rewrite E2. cbn [mbind option_bind].
  rewrite (wrap_small 64) in Z2 by lia. set (v' := with_count _ v) in *.
  assert (El : l1 ++ (p, v') :: (pr, vr) :: l2 = (l1 ++ [(p, v')]) ++ (pr, vr) :: l2) by (by rewrite <-app_assoc). rewrite El in Z2.
  pose proof (line_del_spec _ _ _ _ _ _ _ _ _ _ _ _ _ Z2) as Z3.
  destruct (cb_free_spec _ _ _ _ _ _ _ _ _ _ _ _ Z3) as (s4 & E4 & Z4 & Hl); [intros _; by eapply zst_fields|]. rewrite E4.
  exists s4. split; [done|]. rewrite <-app_assoc in Z4. split; [done|]. intros Ht. rewrite (Hl Ht). cbn [length]. f_equal. f_equal.
  unfold line_del. cbn. rewrite (keeps_set_page _ _ _ _ E2). by apply keeps_del_hash in E1.
Qed.
End Merge.

Definition used_blocks (bs : list block) : list block := filter (fun b => PAGE_bUsed b.2 = true) bs.

Lemma used_blocks_app l1 l2 : used_blocks (l1 ++ l2) = used_blocks l1 ++ used_blocks l2.
Proof. apply filter_app. Qed.
Lemma used_blocks_cons b l : used_blocks (b :: l) = if PAGE_bUsed b.2 then b :: used_blocks l else used_blocks l.
Proof. unfold used_blocks. rewrite filter_cons. by destruct (PAGE_bUsed b.2). Qed.

Lemma span_used bs : span (free_blocks bs) + span (used_blocks bs) = span bs.
Proof.
  induction bs as [|b bs IH]; [done|]. rewrite free_blocks_cons, used_blocks_cons. destruct (PAGE_bUsed b.2); rewrite ?span_cons; lia.
Qed.

Lemma tiles_join a l1 b c w l2 : tiles a (l1 ++ b :: c :: l2) -> PAGE_ulCount w.2 = PAGE_ulCount b.2 + PAGE_ulCount c.2 ->
  PAGE_ulPageAddr w.2 = PAGE_ulPageAddr b.2 -> tiles a (l1 ++ w :: l2) /\ span (l1 ++ w :: l2) = span (l1 ++ b :: c :: l2).
Proof.
  intros H Hc Ha. split; [|spans; lia]. apply block_tiles_app in H as [H1 H2]. apply block_tiles_app. split; [done|]. cbn [tiles] in *.
  destruct H2 as (H2 & H3 & H4 & H5 & H6). split; [lia|]. split; [lia|]. eapply tiles_at; [exact H6|]. lia.
Qed.

Section Release.
Context (s0 : VMM) (K : list ptr) (zid : ZONE) (ty : Z) (geo : Z * Z * Z) (a : Z).
Abbreviation zst := (PageSpec.zst s0 K zid ty geo).

(** The list of blocks during a release: one block is not in the free hash. *)
Record releasing (s : VMM) (fp sp : Z) (l1 : list block) (q : ptr) (w : LW_VMM_PAGE) (l2 : list block) : Prop := {
  re_zst : zst s fp (l1 ++ (q, w) :: l2) (free_of (l1 ++ l2)) [];
  re_tiles : tiles a (l1 ++ (q, w) :: l2);
  re_span : span (l1 ++ (q, w) :: l2) = sp
}.

Lemma releasing_counts s fp sp l1 q w l2 b : releasing s fp sp l1 q w l2 -> sp <= PAGES_MAX -> b ∈ l1 ++ (q, w) :: l2 -> 0 < PAGE_ulCount b.2 <= PAGES_MAX.
Proof. intros [_ Ht Hs] Hm Hb. destruct b as [p v]. pose proof (tiles_count _ _ _ _ Ht Hb). cbn. lia. Qed.

Lemma zst_manage s fp bs H sp : zst s fp bs H sp -> bs.*1 ∈ PAGE_lineManage s /\ NoDup (concat (PAGE_lineManage s)).
Proof.
  intros Z. split; [apply Z|]. pose proof (zs_own _ _ _ _ _ _ _ _ _ _ Z) as Hn. apply NoDup_cons in Hn as [_ Hn]. unfold owned in Hn.
  by apply NoDup_app in Hn as (_ & _ & (_ & _ & Hn)%NoDup_app).
Qed.

Definition left_phase (p : ptr) (s : VMM) : option (VMM * ptr) :=
  let l := line_prev p (PAGE_lineManage s) in if negb (l =? NULL) then merge_left zid l p s else Some (s, p).

Lemma left_phase_spec s fp sp l1 p v l2 : releasing s fp sp l1 p v l2 -> sp <= PAGES_MAX -> coalesced l1 -> exists s' l1' q w,
  left_phase p s = Some (s', q) /\ releasing s' fp sp l1' q w l2 /\ used_blocks l1' = used_blocks l1 /\ coalesced l1' /\ used_end (last l1') /\
  (ty = __VMM_PAGE_TYPE_PHYSICAL -> (length (_K_pmonoPhyPageFreeList s') + length l1' = length (_K_pmonoPhyPageFreeList s) + length l1)%nat).
Proof.
  intros R Hsp Hco. pose proof R as [Z Ht Hs]. destruct (zst_manage _ _ _ _ _ Z) as [Hch Hnd]. rewrite fmap_app in Hch. cbn [fmap list_fmap fst] in Hch.
  unfold left_phase. rewrite (line_prev_spec _ _ _ _ Hch Hnd). destruct l1 as [|[pl vl] l1 _] using rev_ind.
  { cbn. exists s, [], p, v. by split_and!. }
  rewrite fmap_app. cbn [fmap list_fmap fst]. rewrite last_snoc. cbn [default]. assert (Hpl : pl <> NULL) by (eapply (zst_read _ _ _ _ _ _ _ _ _ _ pl vl Z); set_solver).
  cbn [fst]. unfold id. rewrite (proj2 (Z.eqb_neq _ _) Hpl). cbn [negb]. rewrite <-app_assoc in Z, Ht, Hs. cbn [app] in Z, Ht, Hs.
  destruct (PAGE_bUsed vl) eqn:Hu.
  - rewrite (merge_left_used _ _ _ _ _ _ _ _ _ _ _ _ _ _ Z Hu). exists s, (l1 ++ [(pl, vl)]), p, v. split_and!; try done. rewrite last_snoc. by cbn.
  - eapply (zst_perm _ _ _ _ _ _ _ _ _ ((pl, PAGE_ulCount vl) :: free_of (l1 ++ l2))) in Z.
    2: { rewrite !free_of_app, free_of_cons. cbn [snd fst]. rewrite Hu. unfold free_of at 2. cbn. solve_Permutation. }
    pose proof (releasing_counts _ _ _ _ _ _ _ (pl, vl) R Hsp ltac:(set_solver)) as Hc1. pose proof (releasing_counts _ _ _ _ _ _ _ (p, v) R Hsp ltac:(set_solver)) as Hc2.
    destruct (merge_left_free _ _ _ _ _ _ _ _ _ _ _ _ _ _ Z Hu Hc1 Hc2) as (s1 & -> & Z1 & Hl).
    pose proof (proj1 (coalesced_free l1 (pl, vl) [] Hu) Hco) as (C1 & C2 & _).
    destruct (tiles_join a l1 (pl, vl) (p, v) (pl, with_count (PAGE_ulCount vl + PAGE_ulCount v) vl) l2 Ht) as [Ht1 Hs1]; [done|done|].
    exists s1, l1, pl, (with_count (PAGE_ulCount vl + PAGE_ulCount v) vl). split_and!; try done.
    + split; [done|done|by rewrite Hs1].
    + rewrite used_blocks_app, used_blocks_cons. cbn [snd]. rewrite Hu. unfold used_blocks at 3. cbn. by rewrite app_nil_r.
    + intros E. rewrite (Hl E), length_app. cbn. lia.
Qed.

Definition right_phase (q r : ptr) (s : VMM) : option VMM := if negb (r =? NULL) then merge_right zid q r s else Some s.

Lemma right_phase_spec s fp sp l1 q w l2 : releasing s fp sp l1 q w l2 -> sp <= PAGES_MAX -> coalesced l2 -> exists s' w' l2',
  right_phase q (default NULL (head l2.*1)) s = Some s' /\ releasing s' fp sp l1 q w' l2' /\ used_blocks l2' = used_blocks l2 /\ coalesced l2' /\ used_end (head l2') /\
  (ty = __VMM_PAGE_TYPE_PHYSICAL -> (length (_K_pmonoPhyPageFreeList s') + length l2' = length (_K_pmonoPhyPageFreeList s) + length l2)%nat).
Proof.
  intros R Hsp Hco. pose proof R as [Z Ht Hs]. unfold right_phase. destruct l2 as [|[pr vr] l2]; [cbn; exists s, w, []; by split_and!|].
  cbn [fmap list_fmap head default fst]. unfold id. assert (Hpr : pr <> NULL) by (eapply (zst_read _ _ _ _ _ _ _ _ _ _ pr vr Z); set_solver).
  rewrite (proj2 (Z.eqb_neq _ _) Hpr). cbn [negb]. destruct (PAGE_bUsed vr) eqn:Hu.
  - rewrite (merge_right_used _ _ _ _ _ _ _ _ _ _ _ _ _ _ Z Hu). exists s, w, ((pr, vr) :: l2). by split_and!.
  - eapply (zst_perm _ _ _ _ _ _ _ _ _ ((pr, PAGE_ulCount vr) :: free_of (l1 ++ l2))) in Z.
    2: { rewrite !free_of_app, free_of_cons. cbn [snd fst]. rewrite Hu. solve_Permutation. }
    pose proof (releasing_counts _ _ _ _ _ _ _ (pr, vr) R Hsp ltac:(set_solver)) as Hc1. pose proof (releasing_counts _ _ _ _ _ _ _ (q, w) R Hsp ltac:(set_solver)) as Hc2.
    cbn [snd] in Hc1, Hc2. destruct (merge_right_free _ _ _ _ _ _ _ _ _ _ _ _ _ _ Z Hu Hc1 ltac:(lia)) as (s1 & -> & Z1 & Hl).
    pose proof (proj1 (coalesced_free [] (pr, vr) l2 Hu) Hco) as (_ & _ & C3 & C4).
    destruct (tiles_join a l1 (q, w) (pr, vr) (q, with_count (PAGE_ulCount w + PAGE_ulCount vr) w) l2 Ht) as [Ht1 Hs1]; [done|done|].
    exists s1, (with_count (PAGE_ulCount w + PAGE_ulCount vr) w), l2. split_and!; try done.
    + split; [done|done|by rewrite Hs1].
    + rewrite used_blocks_cons. cbn [snd]. by rewrite Hu.
    + intros E. rewrite (Hl E). cbn. lia.
Qed.
End Release.

(** What a release did: the used blocks are the others. *)
Record released (s s' : VMM) (zid : ZONE) (ty : Z) (geo : Z * Z * Z) (l1 : list block) (l2 : list block) (bs' : list block) : Prop := {
  rl_used : used_blocks bs' = used_blocks l1 ++ used_blocks l2;
  rl_cbs : ty = __VMM_PAGE_TYPE_PHYSICAL -> (length (_K_pmonoPhyPageFreeList s') + length bs' = length (_K_pmonoPhyPageFreeList s) + S (length l1 + length l2))%nat;
  rl_rep : zone_rep s' zid ty geo bs'
}.

Lemma free_page_spec s zid ty geo l1 p v l2 : zone_rep s zid ty geo (l1 ++ (p, v) :: l2) -> PAGE_bUsed v = true -> exists s' bs',
  __pageFree zid p s = Some s' /\ pages_step (touched s (l1 ++ (p, v) :: l2) []) zid ty s s' /\ released s s' zid ty geo l1 l2 bs'.
Proof.
  intros Hz Hu. destruct (zone_start _ _ _ _ _ [] Hz) as [Z Hok]. pose proof Hok as [Ht Hs Ha Hco].
  apply (coalesced_used l1 (p, v) l2 Hu) in Hco as [C1 C2].
  assert (Ef : free_of (l1 ++ (p, v) :: l2) = free_of (l1 ++ l2)) by (rewrite !free_of_app, free_of_cons; cbn [snd]; by rewrite Hu).
  rewrite Ef in Z. set (sp := span (l1 ++ (p, v) :: l2)) in *.
  assert (Hsp : sp <= PAGES_MAX) by (unfold PAGES_MAX, ULONG_MAX, LW_CFG_VMM_PAGE_SIZE in *; lia).
  destruct (zst_manage _ _ _ _ _ _ _ _ _ _ Z) as [Hch Hnd]. rewrite fmap_app in Hch. cbn [fmap list_fmap fst] in Hch.
  unfold __pageFree. destruct (zst_read _ _ _ _ _ _ _ _ _ _ p v Z) as [-> _]; [set_solver|]. cbn [mbind option_bind]. cbv zeta.
  rewrite (line_next_spec _ _ _ _ Hch Hnd).
  destruct (left_phase_spec _ _ _ _ _ _ _ _ sp l1 p v l2 (Build_releasing _ _ _ _ _ _ _ _ _ _ _ _ _ Z Ht eq_refl) Hsp C1) as (s1 & l1' & q & w & E1 & R1 & U1 & C1' & N1 & L1).
  unfold left_phase in E1. cbv zeta in E1. rewrite E1. cbn [mbind option_bind].
  destruct (right_phase_spec _ _ _ _ _ _ _ _ _ _ _ _ _ R1 Hsp C2) as (s2 & w2 & l2' & E2 & R2 & U2 & C2' & N2 & L2).
  unfold right_phase in E2. rewrite E2. cbn [mbind option_bind]. pose proof R2 as [Z2 Ht2 Hs2].
  pose proof (releasing_counts _ _ _ _ _ _ _ _ _ _ _ _ _ (q, w2) R2 Hsp ltac:(set_solver)) as Hc2. cbn [snd] in Hc2. unfold PAGES_MAX in Hc2.
  destruct (set_block _ _ _ _ _ _ _ _ _ _ _ _ _ (with_used false) Z2) as (s3 & E3 & Z3); [done|done|]. rewrite E3. cbn [mbind option_bind].
  destruct (hash_add_spec _ _ _ _ _ _ _ _ _ _ q (with_used false w2) Z3) as (s4 & E4 & Z4); [set_solver|cbn; lia|]. rewrite E4. cbn [mbind option_bind].
  destruct (add_free_page_spec _ _ _ _ _ _ _ _ _ _ (PAGE_ulCount v) Z4) as (s5 & E5 & Z5). exists s5, (l1' ++ (q, with_used false w2) :: l2').
  split; [done|]. split; [apply Z5|]. assert (Hsp2 : span (l1' ++ (q, with_used false w2) :: l2') = sp) by (rewrite <-Hs2; spans; done).
  split.
  - rewrite used_blocks_app, used_blocks_cons. cbn. by rewrite U1, U2.
  - intros Et. specialize (L1 Et). specialize (L2 Et). rewrite (keeps_add_free _ _ _ _ E5), (keeps_add_hash _ _ _ _ E4), (keeps_set_page _ _ _ _ E3), length_app. cbn. lia.
  - eapply zone_rep_of; [exact Z5| | |].
    + rewrite !free_of_app, free_of_cons. cbn. solve_Permutation.
    + pose proof (span_used (l1 ++ (p, v) :: l2)) as U. pose proof (span_used (l1' ++ (q, with_used false w2) :: l2')) as U'.
      rewrite used_blocks_app, used_blocks_cons in U, U'. cbn [snd with_used PAGE_bUsed] in U, U'. rewrite Hu in U. rewrite Hsp2, U1, U2 in U'. fold sp in U.
      revert U U'. spans. lia.
    + split; [|by rewrite Hsp2|by rewrite Hsp2|apply coalesced_free; [done|exact (conj C1' (conj N1 (conj C2' N2)))]].
      apply block_tiles_app in Ht2 as [T1 T2]. apply block_tiles_app. split; [done|]. exact T2.
Qed.
