(* ===== verification/VirPage.v ===== *)
(** * Virtual memory: kernel/vmm/virPage.c and the overlap test of pageTable.c

    The zones of the virtual address space: up to eight for programs, one for devices. *)

From S2P Require Import Prelude Lists RbTree Vmm PageLib.

(** [ALIGNED(x, LW_CFG_VMM_PAGE_SIZE)] *)
Definition page_aligned (x : Z) : bool := Z.land x (LW_CFG_VMM_PAGE_SIZE - 1) =? 0.

(** Result: also [*pulFreePage]; [None] inside: an index out of range. *)
Definition __vmmVirtualDesc (uiType : Z) (ulZoneIndex : nat) (s : VMM) : option (option (LW_MMU_VIRTUAL_DESC * Z)) :=
  if bool_decide (LW_CFG_VMM_VIR_NUM <= ulZoneIndex)%nat then Some None
  else if uiType =? LW_VIRTUAL_MEM_APP then
    z ← _G_vmzoneVirApp s !! ulZoneIndex; d ← _G_vmvirDescApp (VM_static s) !! ulZoneIndex; Some (Some (d, ZONE_ulFreePage z))
  else Some (Some (_G_vmvirDescDev (VM_static s), ZONE_ulFreePage (_G_vmzoneVirDev s))).

Definition __vmmVirtualSwitch (s : VMM) : Z := _G_ulVmmSwitchAddr (VM_static s).

(** The address lies in a range of [stSize] bytes from [ulBase] on. *)
Definition in_range (ulAddr ulBase stSize : Z) : bool := (ulAddr >=? ulBase) && (ulAddr <=? ulBase +64 stSize -64 1).

(** The first of [zs] from index [i] on that holds the address; a zone of size 0 ends the array. *)
Fixpoint zone_of (zs : list LW_VMM_ZONE) (i : nat) (ulAddr : Z) : option nat :=
  match zs with
  | [] => None
  | z :: zs =>
    if ZONE_stSize z =? 0 then None
    else if in_range ulAddr (ZONE_ulAddr z) (ZONE_stSize z) then Some i else zone_of zs (S i) ulAddr
  end.

Definition __vmmVirtualGetZone (ulAddr : Z) (s : VMM) : nat := default LW_CFG_VMM_VIR_NUM (zone_of (_G_vmzoneVirApp s) 0 ulAddr).

Definition __vmmVirtualIsInside (ulAddr : Z) (s : VMM) : bool :=
  negb (bool_decide (LW_CFG_VMM_VIR_NUM <= __vmmVirtualGetZone ulAddr s)%nat).

(** [__vmmLibVirtualOverlap]: is an end of the range in a virtual zone? *)
Definition overlap_desc (ulAddr ulEnd : Z) (d : LW_MMU_VIRTUAL_DESC) : bool :=
  negb (VIRD_stSize d =? 0) && (in_range ulAddr (VIRD_ulVirAddr d) (VIRD_stSize d) || in_range ulEnd (VIRD_ulVirAddr d) (VIRD_stSize d)).

Definition __vmmLibVirtualOverlap (ulAddr stSize : Z) (s : VMM) : bool :=
  let ulEnd := ulAddr +64 stSize -64 1 in
  if ulEnd <=? ulAddr then true
  else existsb (overlap_desc ulAddr ulEnd) (_G_vmvirDescApp (VM_static s)) || overlap_desc ulAddr ulEnd (_G_vmvirDescDev (VM_static s)).

(** ** Creation *)

Definition with_virDesc (app : list LW_MMU_VIRTUAL_DESC) (dev : LW_MMU_VIRTUAL_DESC) (sw : Z) (s : VMM) : VMM :=
  let t := VM_static s in with_static (mkStatic (_G_vmphydescKernel t) app dev sw (ulZonePhysical t) (ulZoneArea t)) s.

(** One descriptor, a program zone being the [ulZone]-th; [None]: a stop in [_BugHandle].  Result: also the
    error and the next [ulZone]. *)
Definition create_virtual (d : LW_MMU_VIRTUAL_DESC) (ulZone : nat) (mem : CB) (s : VMM) : option (VMM * Z * nat) :=
  let t := VM_static s in
  if negb (page_aligned (VIRD_ulVirAddr d)) || __vmmLibVirtualOverlap (VIRD_ulVirAddr d) (VIRD_stSize d) s then None
  else if VIRD_uiType d =? LW_VIRTUAL_MEM_APP then
    if VIRD_ulVirAddr d =? 0 then None
    else if bool_decide (ulZone < LW_CFG_VMM_VIR_NUM)%nat then
      let first := _G_ulVmmSwitchAddr t =? PAGE_MAP_ADDR_INV in
      let sw := if first then VIRD_ulVirAddr d else _G_ulVmmSwitchAddr t in
      let ulAddr := if first then VIRD_ulVirAddr d +64 LW_CFG_VMM_PAGE_SIZE else VIRD_ulVirAddr d in
      let stSize := if first then VIRD_stSize d -64 LW_CFG_VMM_PAGE_SIZE else VIRD_stSize d in
      let s := with_virDesc (<[ulZone := d]> (_G_vmvirDescApp t)) (_G_vmvirDescDev t) sw s in
      '(s, ulError) ← __pageZoneCreate (ZVirApp ulZone) ulAddr stSize LW_ZONE_ATTR_NONE __VMM_PAGE_TYPE_VIRTUAL mem s;
      Some (s, ulError, if ulError =? ERROR_NONE then S ulZone else ulZone)
    else Some (s, ERROR_NONE, ulZone)
  else if VIRD_uiType d =? LW_VIRTUAL_MEM_DEV then
    if (VIRD_ulVirAddr d =? 0) || negb (VIRD_stSize (_G_vmvirDescDev t) =? 0) then None
    else
      let s := with_virDesc (_G_vmvirDescApp t) d (_G_ulVmmSwitchAddr t) s in
      '(s, ulError) ← __pageZoneCreate ZVirDev (VIRD_ulVirAddr d) (VIRD_stSize d) LW_ZONE_ATTR_NONE __VMM_PAGE_TYPE_VIRTUAL mem s;
      Some (s, ulError, ulZone)
  else Some (s, ERROR_NONE, ulZone).

Fixpoint create_virtuals (pvirdes : list LW_MMU_VIRTUAL_DESC) (ulZone : nat) (mems : list CB) (s : VMM) : option (VMM * Z) :=
  match pvirdes with
  | [] => None
  | d :: pvirdes =>
    if VIRD_stSize d =? 0 then
      if _G_ulVmmSwitchAddr (VM_static s) =? PAGE_MAP_ADDR_INV then None else Some (s, ERROR_NONE)
    else
      '(s, ulError, ulZone) ← create_virtual d ulZone (hd None mems) s;
      if negb (ulError =? ERROR_NONE) then Some (s, ulError) else create_virtuals pvirdes ulZone (tail mems) s
  end.

Definition __vmmVirtualCreate (pvirdes : list LW_MMU_VIRTUAL_DESC) : list CB -> VMM -> option (VMM * Z) := create_virtuals pvirdes 0.

(** ** Pages *)

(** The loop over the program zones; [alloc] is the allocation in one zone. *)
Fixpoint alloc_virtual (alloc : ZONE -> VMM -> option (VMM * ptr)) (k i : nat) (ulPageNum : Z) (s : VMM) : option (VMM * ptr) :=
  match k with
  | O => Some (s, NULL)
  | S k =>
    z ← _G_vmzoneVirApp s !! i;
    if ZONE_stSize z =? 0 then Some (s, NULL)
    else if ZONE_ulFreePage z >=? ulPageNum then
      '(s, pvmpage) ← alloc (ZVirApp i) s;
      if negb (pvmpage =? NULL) then Some (s, pvmpage) else alloc_virtual alloc k (S i) ulPageNum s
    else alloc_virtual alloc k (S i) ulPageNum s
  end.

Definition __vmmVirtualPageAlloc (ulPageNum : Z) (mem : CB) : VMM -> option (VMM * ptr) :=
  alloc_virtual (fun z => __pageAllocate z ulPageNum __VMM_PAGE_TYPE_VIRTUAL mem) LW_CFG_VMM_VIR_NUM 0 ulPageNum.
Definition __vmmVirDevPageAlloc (ulPageNum : Z) (mem : CB) : VMM -> option (VMM * ptr) :=
  __pageAllocate ZVirDev ulPageNum __VMM_PAGE_TYPE_VIRTUAL mem.
Definition __vmmVirtualPageAllocAlign (ulPageNum stAlign : Z) (memL memR : CB) : VMM -> option (VMM * ptr) :=
  alloc_virtual (fun z => __pageAllocateAlign z ulPageNum stAlign __VMM_PAGE_TYPE_VIRTUAL memL memR) LW_CFG_VMM_VIR_NUM 0 ulPageNum.
Definition __vmmVirDevPageAllocAlign (ulPageNum stAlign : Z) (memL memR : CB) : VMM -> option (VMM * ptr) :=
  __pageAllocateAlign ZVirDev ulPageNum stAlign __VMM_PAGE_TYPE_VIRTUAL memL memR.

Definition __vmmVirtualPageFree (pvmpage : ptr) (s : VMM) : option VMM :=
  v ← page pvmpage s; __pageFree (ZVirApp (__vmmVirtualGetZone (PAGE_ulPageAddr v) s)) pvmpage s.
Definition __vmmVirDevPageFree : ptr -> VMM -> option VMM := __pageFree ZVirDev.
