(* ===== verification/PhyPage.v ===== *)
(** * Virtual memory: kernel/vmm/phyPage.c

    The zones of physical memory, and their pages: allocation in a zone with the wanted attributes,
    references to a page that several virtual pages share ([PAGE_ulRef], fake pages), release. *)

From S2P Require Import Prelude Lists RbTree Vmm PageLib VirPage.

(** ** Creation *)

Definition with_phydescKernel (v : LW_MMU_PHYSICAL_DESC * LW_MMU_PHYSICAL_DESC) (s : VMM) : VMM :=
  let t := VM_static s in with_static (mkStatic v (_G_vmvirDescApp t) (_G_vmvirDescDev t) (_G_ulVmmSwitchAddr t) (ulZonePhysical t) (ulZoneArea t)) s.

(** Text and data of the kernel may come in several pieces. *)
Definition kernel_desc (d old : LW_MMU_PHYSICAL_DESC) : LW_MMU_PHYSICAL_DESC :=
  if PHYD_stSize old =? 0 then d else mkPhyd (PHYD_ulPhyAddr old) (PHYD_ulVirMap old) (PHYD_stSize old +64 PHYD_stSize d) (PHYD_uiType old).

(** A zone with the attribute, if there is one left; the address 0 stops in [_BugHandle]. *)
Definition create_zone (d : LW_MMU_PHYSICAL_DESC) (uiAttr : Z) (s : VMM) : option (VMM * Z) :=
  let ulZone := ulZonePhysical (VM_static s) in
  if PHYD_ulPhyAddr d =? 0 then None
  else if bool_decide (ulZone < LW_CFG_VMM_ZONE_NUM)%nat then
    if (uiAttr =? LW_ZONE_ATTR_DMA) && __vmmLibVirtualOverlap (PHYD_ulPhyAddr d) (PHYD_stSize d) s then None
    else
      '(s, ulError) ← __pageZoneCreate (ZPhysical ulZone) (PHYD_ulPhyAddr d) (PHYD_stSize d) uiAttr __VMM_PAGE_TYPE_PHYSICAL None s;
      Some (if ulError =? ERROR_NONE then with_ulZonePhysical (S ulZone) s else s, ulError)
  else Some (s, ERROR_NONE).

Definition create_physical (d : LW_MMU_PHYSICAL_DESC) (s : VMM) : option (VMM * Z) :=
  let '(text, data) := _G_vmphydescKernel (VM_static s) in
  if negb (page_aligned (PHYD_ulPhyAddr d)) then None
  else if PHYD_uiType d =? LW_PHYSICAL_MEM_TEXT then Some (with_phydescKernel (kernel_desc d text, data) s, ERROR_NONE)
  else if PHYD_uiType d =? LW_PHYSICAL_MEM_DATA then Some (with_phydescKernel (text, kernel_desc d data) s, ERROR_NONE)
  else if PHYD_uiType d =? LW_PHYSICAL_MEM_DMA then create_zone d LW_ZONE_ATTR_DMA s
  else if PHYD_uiType d =? LW_PHYSICAL_MEM_APP then create_zone d LW_ZONE_ATTR_NONE s
  else Some (s, ERROR_NONE).

Fixpoint __vmmPhysicalCreate (pphydesc : list LW_MMU_PHYSICAL_DESC) (s : VMM) : option (VMM * Z) :=
  match pphydesc with
  | [] => None
  | d :: pphydesc =>
    if PHYD_stSize d =? 0 then Some (s, ERROR_NONE)
    else '(s, ulError) ← create_physical d s; if negb (ulError =? ERROR_NONE) then Some (s, ulError) else __vmmPhysicalCreate pphydesc s
  end.

(** ** Allocation *)

(** One pass over [k] zones from zone [i] on; [ok] tests the attribute, [alloc] is the allocation in one
    zone.  Result: the page and its zone. *)
Fixpoint alloc_pass (ok : Z -> bool) (alloc : ZONE -> VMM -> option (VMM * ptr)) (k i : nat) (ulPageNum : Z) (s : VMM) : option (VMM * option (ptr * nat)) :=
  match k with
  | O => Some (s, None)
  | S k =>
    z ← _G_vmzonePhysical s !! i;
    if ZONE_stSize z =? 0 then Some (s, None)
    else if ok (ZONE_uiAttr z) && (ZONE_ulFreePage z >=? ulPageNum) then
      '(s, pvmpage) ← alloc (ZPhysical i) s;
      if negb (pvmpage =? NULL) then Some (s, Some (pvmpage, i)) else alloc_pass ok alloc k (S i) ulPageNum s
    else alloc_pass ok alloc k (S i) ulPageNum s
  end.

(** First the zones with exactly the attributes, then those that also have others. *)
Definition alloc_physical (alloc : ZONE -> VMM -> option (VMM * ptr)) (ulPageNum uiAttr : Z) (s : VMM) : option (VMM * option (ptr * nat)) :=
  '(s, r) ← alloc_pass (fun a => a =? uiAttr) alloc LW_CFG_VMM_ZONE_NUM 0 ulPageNum s;
  match r with
  | Some x => Some (s, Some x)
  | None => alloc_pass (fun a => Z.land a uiAttr =? uiAttr) alloc LW_CFG_VMM_ZONE_NUM 0 ulPageNum s
  end.

Definition __vmmPhysicalPageAlloc (ulPageNum uiAttr : Z) : VMM -> option (VMM * option (ptr * nat)) :=
  alloc_physical (fun z => __pageAllocate z ulPageNum __VMM_PAGE_TYPE_PHYSICAL None) ulPageNum uiAttr.
Definition __vmmPhysicalPageAllocAlign (ulPageNum stAlign uiAttr : Z) : VMM -> option (VMM * option (ptr * nat)) :=
  alloc_physical (fun z => __pageAllocateAlign z ulPageNum stAlign __VMM_PAGE_TYPE_PHYSICAL None None) ulPageNum uiAttr.

Definition __vmmPhysicalPageAllocZone (ulZoneIndex : nat) (ulPageNum uiAttr : Z) (s : VMM) : option (VMM * ptr) :=
  if bool_decide (LW_CFG_VMM_ZONE_NUM <= ulZoneIndex)%nat then Some (s, NULL)
  else
    z ← _G_vmzonePhysical s !! ulZoneIndex;
    if ZONE_stSize z =? 0 then Some (s, NULL)
    else if (Z.land (ZONE_uiAttr z) uiAttr =? uiAttr) && (ZONE_ulFreePage z >=? ulPageNum)
    then __pageAllocate (ZPhysical ulZoneIndex) ulPageNum __VMM_PAGE_TYPE_PHYSICAL None s
    else Some (s, NULL).

(** ** References and release *)

(** The part of the union for physical pages, and changing it. *)
Definition phy_status (v : LW_VMM_PAGE) : option (Z * Z * Z * ptr) :=
  match PAGE_status v with PhyStatus a c r real => Some (a, c, r, real) | VirStatus _ _ => None end.

Definition set_map_addr (pvmpage : ptr) (a : Z) (s : VMM) : option VMM :=
  v ← page pvmpage s; '(_, c, r, real) ← phy_status v; set_page pvmpage (with_status (PhyStatus a c r real)) s.
Definition add_ref (pvmpage : ptr) (n : Z) (s : VMM) : option VMM :=
  v ← page pvmpage s; '(a, c, r, real) ← phy_status v; set_page pvmpage (with_status (PhyStatus a c (r +64 n) real)) s.

(** [mem] is the answer of the heap; the copy includes the tree node. *)
Definition __vmmPhysicalPageRef (pvmpage : ptr) (mem : CB) (s : VMM) : option (VMM * ptr) :=
  match mem with
  | None => Some (s, NULL)
  | Some (pvmpageFake, _, _) =>
    v ← page pvmpage s;
    n ← PAGE_trbnNode s !! pvmpage;
    '(_, c, _, real) ← phy_status v;
    let pvmpageReal := if negb (real =? NULL) then real else pvmpage in
    s ← add_ref pvmpageReal 1 s;
    Some (new_cb pvmpageFake (with_status (PhyStatus PAGE_MAP_ADDR_INV c 0 pvmpageReal) v) n s, pvmpageFake)
  end.

Definition __vmmPhysicalPageFree (pvmpage : ptr) (s : VMM) : option VMM :=
  v ← page pvmpage s;
  '(_, _, _, real) ← phy_status v;
  '(s, pvmpageReal) ←
    (if negb (real =? NULL) then Some (with_page (delete pvmpage (VM_page s)) (with_node (delete pvmpage (PAGE_trbnNode s)) s), real)
     else s ← set_map_addr pvmpage PAGE_MAP_ADDR_INV s; Some (s, pvmpage));
  s ← add_ref pvmpageReal (-1) s;
  v' ← page pvmpageReal s;
  '(_, _, r, _) ← phy_status v';
  if r =? 0 then __pageFree (PAGE_pvmzoneOwner v) pvmpageReal s else Some s.

(** ** Reports *)

(** The zones from index [i] on. *)
Fixpoint zone_index (zs : list LW_VMM_ZONE) (i : nat) (ulAddr : Z) : nat :=
  match zs with
  | [] => LW_CFG_VMM_ZONE_NUM
  | z :: zs =>
    if ZONE_stSize z =? 0 then LW_CFG_VMM_ZONE_NUM
    else if in_range ulAddr (ZONE_ulAddr z) (ZONE_stSize z) then i else zone_index zs (S i) ulAddr
  end.

Definition __vmmPhysicalGetZone (ulAddr : Z) (s : VMM) : nat := zone_index (_G_vmzonePhysical s) 0 ulAddr.

(** Result: the smallest size of a free block, [ULONG_MAX] when there is none, and its zone. *)
Fixpoint min_pass (ok : Z -> bool) (k i : nat) (ulMin : Z) (ulZoneIndex : option nat) (s : VMM) : option (Z * option nat) :=
  match k with
  | O => Some (ulMin, ulZoneIndex)
  | S k =>
    z ← _G_vmzonePhysical s !! i;
    if ZONE_stSize z =? 0 then Some (ulMin, ulZoneIndex)
    else if ok (ZONE_uiAttr z) then
      ulTemp ← __pageGetMinContinue (ZPhysical i) s;
      if (ulTemp >? 0) && (ulMin >? ulTemp) then min_pass ok k (S i) ulTemp (Some i) s else min_pass ok k (S i) ulMin ulZoneIndex s
    else min_pass ok k (S i) ulMin ulZoneIndex s
  end.

Definition __vmmPhysicalPageGetMinContinue (uiAttr : Z) (s : VMM) : option (Z * option nat) :=
  '(ulMin, ulZoneIndex) ← min_pass (fun a => a =? uiAttr) LW_CFG_VMM_ZONE_NUM 0 ULONG_MAX None s;
  if negb (ulMin =? ULONG_MAX) then Some (ulMin, ulZoneIndex)
  else min_pass (fun a => Z.land a uiAttr =? uiAttr) LW_CFG_VMM_ZONE_NUM 0 ulMin ulZoneIndex s.

Definition __vmmPhysicalGetKernelDesc (s : VMM) : LW_MMU_PHYSICAL_DESC * LW_MMU_PHYSICAL_DESC := _G_vmphydescKernel (VM_static s).

(** ** The reserve for page faults *)

Record LW_VMM_PAGE_FAULT_LIMIT := mkPfl { VPFL_ulRootWarnPages : Z; VPFL_ulRootMinPages : Z; VPFL_ulUserWarnPages : Z; VPFL_ulUserMinPages : Z }.

(** [_G_vmpflPhysical] and [_G_ulPageFaultGuarder]. *)
Record PAGE_FAULT := mkPf { _G_vmpflPhysical : LW_VMM_PAGE_FAULT_LIMIT; _G_ulPageFaultGuarder : Z }.
Definition LW_OBJECT_HANDLE_INVALID : Z := 0.
Definition PX_ERROR : Z := -1.

(** Result: also the old limits. *)
Definition __vmmPhysicalPageFaultLimit (pvpflNew : option LW_VMM_PAGE_FAULT_LIMIT) (f : PAGE_FAULT) : PAGE_FAULT * LW_VMM_PAGE_FAULT_LIMIT * Z :=
  let old := _G_vmpflPhysical f in
  match pvpflNew with
  | None => (f, old, ERROR_NONE)
  | Some n =>
    if (VPFL_ulRootWarnPages n <? VPFL_ulRootMinPages n) || (VPFL_ulUserWarnPages n <? VPFL_ulUserMinPages n) then (f, old, PX_ERROR)
    else (mkPf n (_G_ulPageFaultGuarder f), old, ERROR_NONE)
  end.

(** The free pages of the zones, added up until they exceed [warnpages]. *)
Fixpoint count_free (zs : list LW_VMM_ZONE) (ulFreePage warnpages : Z) : Z :=
  match zs with
  | [] => ulFreePage
  | z :: zs =>
    if ZONE_stSize z =? 0 then ulFreePage
    else let n := ulFreePage +64 ZONE_ulFreePage z in if n >? warnpages then n else count_free zs n warnpages
  end.

(** Result: may the fault be served, and whom to warn ([*pulWarn], if it is set). *)
Definition __vmmPhysicalPageFaultCheck (euid : Z) (f : PAGE_FAULT) (s : VMM) : PAGE_FAULT * bool * option Z :=
  let l := _G_vmpflPhysical f in
  let '(warnpages, minpages) :=
    if euid =? 0 then (VPFL_ulRootWarnPages l, VPFL_ulRootMinPages l) else (VPFL_ulUserWarnPages l, VPFL_ulUserMinPages l) in
  if warnpages =? 0 then (f, true, None)
  else
    let ulFreePage := count_free (_G_vmzonePhysical s) 0 warnpages in
    if ulFreePage >? warnpages then (f, true, None)
    else if ulFreePage >? minpages then
      if negb (_G_ulPageFaultGuarder f =? LW_OBJECT_HANDLE_INVALID) then (mkPf l LW_OBJECT_HANDLE_INVALID, true, Some (_G_ulPageFaultGuarder f))
      else (f, true, None)
    else (f, false, None).

Definition __vmmPhysicalPageFaultClear (ulId : Z) (f : PAGE_FAULT) : PAGE_FAULT :=
  if _G_ulPageFaultGuarder f =? ulId then mkPf (_G_vmpflPhysical f) LW_OBJECT_HANDLE_INVALID else f.
Definition __vmmPhysicalPageFaultGuarder (ulGuarder : Z) (f : PAGE_FAULT) : PAGE_FAULT * Z := (mkPf (_G_vmpflPhysical f) ulGuarder, ERROR_NONE).
