(* ===== verification/PhySpec.v ===== *)
(** * Virtual memory: zones of physical memory side by side

    Each zone has its blocks and its area.  An operation in one zone leaves the others alone; [sys] is the
    invariant of all of them. *)

From S2P Require Import Prelude Lists RbTree RbSpec RbLife Vmm Area AreaSpec AreaRun PageLib PageSpec PageFit PageLife VirPage PhyPage.

Abbreviation PHYS := __VMM_PAGE_TYPE_PHYSICAL.

(** ** One zone *)

(** Address, size and attribute; the blocks; the pages the area finds. *)
Record zdata := mkZd { zd_geo : Z * Z * Z; zd_blocks : list block; zd_map : gmap Z ptr }.

(** No control block is in two places, and all exist. *)
Definition vm_ok (s : VMM) : Prop := NoDup (NULL :: owned s []) /\ forall p, p ∈ owned s [] -> is_page s p /\ is_Some (PAGE_trbnNode s !! p).

(** A used page has one reference and is not a copy. *)
Definition plain (v : LW_VMM_PAGE) : Prop := exists a c, PAGE_status v = PhyStatus a c 1 NULL.

Record zone_at (s : VMM) (i : nat) (d : zdata) : Prop := {
  za_zone : zone_rep s (ZPhysical i) PHYS (zd_geo d) (zd_blocks d);
  za_area : area_rep s (AZone i) (zd_map d);
  za_map : forall a p, zd_map d !! a = Some p -> exists v, (p, v) ∈ zd_blocks d /\ PAGE_bUsed v = true /\ PAGE_ulPageAddr v = a;
  za_plain : forall p v, (p, v) ∈ zd_blocks d -> PAGE_bUsed v = true -> plain v;
  za_size : 0 < (zd_geo d).1.2 /\ (zd_geo d).1.1 + (zd_geo d).1.2 <= ULONG_MAX
}.

Lemma rep_vm s zid ty geo bs : zone_rep s zid ty geo bs -> vm_ok s.
Proof. intros [Z _]. split; [apply Z|]. intros p Hp. by apply (zs_cbs _ _ _ _ _ _ _ _ _ _ Z). Qed.

Lemma rep_of_vm s zid ty geo bs : vm_ok s -> (exists z, get_zone zid s = Some z /\ ZONE_ulFreePage z = wrap 64 (span (free_blocks bs)) /\
    hash_rep (ZONE_vmfa z) (free_of bs) /\ (ZONE_ulAddr z, ZONE_stSize z, ZONE_uiAttr z) = geo) -> bs.*1 ∈ PAGE_lineManage s ->
  (forall p v, (p, v) ∈ bs -> VM_page s !! p = Some v /\ PAGE_iPageType v = ty /\ PAGE_pvmzoneOwner v = zid) -> zone_ok geo bs -> zone_rep s zid ty geo bs.
Proof.
  intros [H1 H2] H3 H4 H5 H6. split; [|done]. split; try done. by intros p v ?%elem_of_nil.
Qed.

Lemma rep_parts s zid ty geo bs : zone_rep s zid ty geo bs -> (exists z, get_zone zid s = Some z /\ ZONE_ulFreePage z = wrap 64 (span (free_blocks bs)) /\
    hash_rep (ZONE_vmfa z) (free_of bs) /\ (ZONE_ulAddr z, ZONE_stSize z, ZONE_uiAttr z) = geo) /\ bs.*1 ∈ PAGE_lineManage s /\
  (forall p v, (p, v) ∈ bs -> VM_page s !! p = Some v /\ PAGE_iPageType v = ty /\ PAGE_pvmzoneOwner v = zid) /\ zone_ok geo bs.
Proof. intros [Z H]. split_and!; [apply Z|apply Z|apply Z|done]. Qed.

(** Zones have different pages. *)
Lemma zones_apart s zid zid' ty ty' geo geo' bs bs' p : zone_rep s zid ty geo bs -> zone_rep s zid' ty' geo' bs' -> p ∈ bs.*1 -> p ∈ bs'.*1 -> zid = zid'.
Proof.
  intros H H' ([q v] & -> & Hq)%list_elem_of_fmap ([q' v'] & E & Hq')%list_elem_of_fmap. cbn in E. subst q'.
  apply rep_parts in H as (_ & _ & H & _). apply rep_parts in H' as (_ & _ & H' & _).
  destruct (H _ _ Hq) as (E1 & _ & <-). destruct (H' _ _ Hq') as (E2 & _ & <-). cbn in *. congruence.
Qed.

Lemma blocks_not_spare s zid ty geo bs p : zone_rep s zid ty geo bs -> p ∈ bs.*1 -> p ∉ _K_pmonoPhyPageFreeList s.
Proof.
  intros H Hp Hf. pose proof (rep_vm _ _ _ _ _ H) as [Hn _]. apply rep_parts in H as (_ & Hc & _).
  apply NoDup_cons in Hn as [_ Hn]. unfold owned in Hn. cbn in Hn. apply NoDup_app in Hn as (_ & Hn & _). apply (Hn p Hf). by eapply in_chain.
Qed.

Lemma untouched s zid zid' ty ty' geo geo' bs bs' : zone_rep s zid ty geo bs -> zone_rep s zid' ty' geo' bs' -> zid <> zid' -> bs'.*1 ## touched s bs [].
Proof.
  intros H H' Hne p Hp Ht. unfold touched in Ht. rewrite app_nil_r in Ht. apply elem_of_app in Ht as [Ht|Ht]; [by eapply blocks_not_spare|].
  apply Hne. by eapply zones_apart.
Qed.

(** ** Steps of one zone seen from another *)

Lemma zone_other s s' zid zid' ty ty' geo geo' bs bs' : zone_rep s zid ty geo bs -> zone_rep s zid' ty' geo' bs' -> zid <> zid' ->
  pages_step (touched s bs []) zid ty s s' -> vm_ok s' -> zone_rep s' zid' ty' geo' bs'.
Proof.
  intros H H' Hne Hs Hv. pose proof (untouched _ _ _ _ _ _ _ _ _ H H' Hne) as Hd. apply rep_parts in H' as (H1 & H2 & H3 & H4).
  apply rep_of_vm; [done| | | |done].
  - rewrite (ps_zone _ _ _ _ _ Hs) by done. done.
  - by apply (ps_chain _ _ _ _ _ Hs).
  - intros p v Hp. rewrite (ps_page _ _ _ _ _ Hs); [by apply H3|]. intros Ht. apply (Hd p); [|done]. apply list_elem_of_fmap. by exists (p, v).
Qed.

(** An area stays when its pages keep their addresses and their nodes. *)
Lemma area_pages s s' ar M : area_rep s ar M -> get_area ar s' = get_area ar s -> (forall p, p ∈ pages_of M -> PAGE_trbnNode s' !! p = PAGE_trbnNode s !! p) ->
  (forall a p, M !! a = Some p -> addr_of s' p = addr_of s p /\ is_page s' p) -> area_rep s' ar M.
Proof.
  intros (v & ts & Hv & [H1 H2 H3 H4 H5]) Ha Hn Hp. exists v, ts. split; [by rewrite Ha|]. split; [done| | |done|].
  - rewrite Forall2_same_length_lookup in H2 |- *. destruct H2 as [Hl H2]. split; [done|]. intros i h t Hh Ht.
    eapply rep_frame; [by eapply H2|]. intros p Hq. apply Hn. apply elem_pages. apply (H4 i t p Ht) in Hq as (a & Ha' & _). by exists a.
  - intros i t Ht. specialize (H3 i t Ht). unfold in_order in *. assert (Hin : forall q, q ∈ elems t -> addr_of s' q = addr_of s q).
    { intros q Hq. apply (H4 i t q Ht) in Hq as (a & Ha' & _). by apply (Hp a). }
    clear -H3 Hin. induction H3 as [|x l Hl IH Hx]; [constructor|]. constructor; [apply IH; intros; apply Hin; by right|].
    rewrite Forall_forall in Hx |- *. intros y Hy. rewrite (Hin x), (Hin y) by set_solver. by apply Hx.
  - intros a p HM. destruct (H5 a p HM) as (_ & Ea). destruct (Hp a p HM) as [-> ?]. done.
Qed.

Lemma addr_page s p v : VM_page s !! p = Some v -> addr_of s p = PAGE_ulPageAddr v /\ is_page s p.
Proof. intros H. unfold addr_of, is_page. rewrite H. by split. Qed.

Lemma step_area s s' K zid ty ar : pages_step K zid ty s s' -> get_area ar s' = get_area ar s.
Proof. intros H. destruct (ps_area _ _ _ _ _ H) as [E1 E2]. destruct ar; cbn; congruence. Qed.

(** The pages of an area in the blocks of its zone. *)
Definition found_in (M : gmap Z ptr) (bs : list block) : Prop :=
  forall a p, M !! a = Some p -> exists v, (p, v) ∈ bs /\ PAGE_bUsed v = true /\ PAGE_ulPageAddr v = a.

Lemma area_zone s s' K zid geo geo' bs bs' ar M : area_rep s ar M -> pages_step K zid PHYS s s' -> found_in M bs -> found_in M bs' ->
  zone_rep s zid PHYS geo bs -> zone_rep s' zid PHYS geo' bs' -> area_rep s' ar M.
Proof.
  intros Ha Hs Hf Hf' Hz Hz'. eapply area_pages; [done|by eapply step_area|intros q _; by rewrite (ps_nodes _ _ _ _ _ Hs)|].
  apply rep_parts in Hz as (_ & _ & Hz & _). apply rep_parts in Hz' as (_ & _ & Hz' & _). intros a p HM.
  destruct (Hf a p HM) as (v & Hp & _ & Ea). destruct (Hf' a p HM) as (v' & Hp' & _ & Ea').
  destruct (addr_page s p v) as [-> _]; [by apply Hz|]. destruct (addr_page s' p v') as [-> ?]; [by apply Hz'|]. split; [congruence|done].
Qed.

Lemma zone_at_other s s' i j d d' bs' : zone_at s i d -> zone_rep s' (ZPhysical i) PHYS (zd_geo d) bs' -> i <> j -> zone_at s j d' ->
  pages_step (touched s (zd_blocks d) []) (ZPhysical i) PHYS s s' -> zone_at s' j d'.
Proof.
  intros [Hz _ _ _ _] Hz' Hne [Hz2 Ha2 Hm2 Hp2 Hs2] Hs. assert (Hz2' : zone_rep s' (ZPhysical j) PHYS (zd_geo d') (zd_blocks d')).
  { eapply zone_other; [exact Hz|exact Hz2|congruence|done|by eapply rep_vm]. }
  split; try done. eapply area_pages; [done|by eapply step_area|intros q _; by rewrite (ps_nodes _ _ _ _ _ Hs)|]. intros a p HM. destruct (Hm2 a p HM) as (v & Hp & _).
  apply rep_parts in Hz2 as (_ & _ & Hz2 & _). apply rep_parts in Hz2' as (_ & _ & Hz2' & _).
  destruct (addr_page s p v) as [-> _]; [by apply Hz2|]. by destruct (addr_page s' p v) as [-> ?]; [by apply Hz2'|].
Qed.

(** ** Steps of an area *)

Lemma get_zone_area z ar v s : get_zone z (put_area ar v s) = get_zone z s.
Proof. by destruct z, ar. Qed.
Lemma area_rest ar v s : PAGE_lineManage (put_area ar v s) = PAGE_lineManage s /\ _K_pmonoPhyPageFreeList (put_area ar v s) = _K_pmonoPhyPageFreeList s /\
  VM_static (put_area ar v s) = VM_static s /\ _G_vmzonePhysical (put_area ar v s) = _G_vmzonePhysical s.
Proof. by destruct ar. Qed.

Lemma vm_area s s' ar ps : vm_ok s -> area_step s s' ar ps -> vm_ok s'.
Proof.
  intros [H1 H2] (v & m & -> & _ & Hd). destruct (area_rest ar v (with_node m s)) as (Em & Ef & _). destruct (area_fields ar v (with_node m s)) as [Ep En].
  unfold vm_ok, owned, is_page in *. rewrite Em, Ef, Ep, En. cbn in *. split; [done|]. intros p Hp. split; [by apply H2|]. apply elem_of_dom. rewrite Hd. apply elem_of_dom. by apply H2.
Qed.

Lemma zone_area s s' ar ps zid ty geo bs : zone_rep s zid ty geo bs -> area_step s s' ar ps -> zone_rep s' zid ty geo bs.
Proof.
  intros H Hs. pose proof (vm_area _ _ _ _ (rep_vm _ _ _ _ _ H) Hs) as Hv. destruct Hs as (v & m & -> & _ & _). apply rep_parts in H as (H1 & H2 & H3 & H4).
  destruct (area_rest ar v (with_node m s)) as (Em & _). destruct (area_fields ar v (with_node m s)) as [Ep _].
  apply rep_of_vm; [done| |by rewrite Em|by rewrite Ep|done]. rewrite get_zone_area. by destruct zid.
Qed.

Lemma zone_at_area s s' i j d : zone_at s j d -> forall ps, area_step s s' (AZone i) ps -> i <> j -> (forall p, p ∈ ps -> p ∉ (zd_blocks d).*1) -> zone_at s' j d.
Proof.
  intros [H1 H2 H3 H4 H5] ps Hs Hne Hd. split; try done; [by eapply zone_area|]. eapply area_rep_other; [done|exact Hs|congruence|].
  intros p Hp [a Ha]%elem_pages. destruct (H3 a p Ha) as (v & Hv & _). apply (Hd p Hp). apply list_elem_of_fmap. by exists (p, v).
Qed.

(** ** What an operation in zone [i] may change *)

Record only (i : nat) (s s' : VMM) : Prop := {
  on_other : forall j d, j <> i -> zone_at s j d -> zone_at s' j d;
  on_zone : forall j, j <> i -> get_zone (ZPhysical j) s' = get_zone (ZPhysical j) s;
  on_here : is_Some (get_zone (ZPhysical i) s') <-> is_Some (get_zone (ZPhysical i) s);
  on_area : forall j, is_Some (get_area (AZone j) s') <-> is_Some (get_area (AZone j) s);
  on_static : VM_static s' = VM_static s
}.

Lemma only_refl i s : only i s s.
Proof. by split. Qed.

Lemma only_trans i s s1 s2 : only i s s1 -> only i s1 s2 -> only i s s2.
Proof.
  intros [A1 A2 A3 A4 A5] [B1 B2 B3 B4 B5]. split; [|intros j Hj; by rewrite B2, A2|by rewrite B3|intros j; by rewrite B4|congruence].
  intros j d Hj Hd. apply B1; [done|]. by apply A1.
Qed.

Lemma only_step s s' i d bs' : zone_at s i d -> zone_rep s' (ZPhysical i) PHYS (zd_geo d) bs' ->
  pages_step (touched s (zd_blocks d) []) (ZPhysical i) PHYS s s' -> only i s s'.
Proof.
  intros Hd Hz' Hs. split; [|intros j Hj; apply Hs; congruence| |intros j; by rewrite (step_area _ _ _ _ _ _ Hs)|apply Hs].
  - intros j d' Hj Hd'. eapply zone_at_other; [exact Hd|exact Hz'|congruence|done|done].
  - apply rep_parts in Hz' as ((z & -> & _) & _). destruct Hd as [Hz _ _ _ _]. apply rep_parts in Hz as ((z' & -> & _) & _). done.
Qed.

Lemma only_area s s' i d ps : zone_at s i d -> area_step s s' (AZone i) ps -> (forall p, p ∈ ps -> p ∈ (zd_blocks d).*1) -> only i s s'.
Proof.
  intros Hd Hs Hp. split.
  - intros j d' Hj Hd'. eapply zone_at_area; [done|exact Hs|congruence|]. intros p Hp1%Hp Hp2.
    pose proof (zones_apart _ _ _ _ _ _ _ _ _ _ (za_zone _ _ _ Hd) (za_zone _ _ _ Hd') Hp1 Hp2) as E. congruence.
  - intros j _. destruct Hs as (v & m & -> & _). rewrite get_zone_area. done.
  - destruct Hs as (v & m & -> & _). by rewrite get_zone_area.
  - intros j. destruct Hs as (v & m & -> & _ & _). destruct (decide (i = j)) as [<-|Hne].
    + destruct (za_area _ _ _ Hd) as (v0 & ts & Hv0 & _). rewrite Hv0. rewrite (get_put_area _ _ v0) by (by rewrite get_area_node). done.
    + rewrite get_put_other by congruence. by rewrite get_area_node.
  - destruct Hs as (v & m & -> & _ & _). by destruct (area_rest (AZone i) v (with_node m s)) as (_ & _ & -> & _).
Qed.

(** ** A field of a page *)

(** Fields that are not part of the layout. *)
Definition same_shape (f : LW_VMM_PAGE -> LW_VMM_PAGE) (v : LW_VMM_PAGE) : Prop :=
  PAGE_ulCount (f v) = PAGE_ulCount v /\ PAGE_ulPageAddr (f v) = PAGE_ulPageAddr v /\ PAGE_bUsed (f v) = PAGE_bUsed v /\
  PAGE_iPageType (f v) = PAGE_iPageType v /\ PAGE_pvmzoneOwner (f v) = PAGE_pvmzoneOwner v.

Section Shape.
Context (p : ptr) (v w : LW_VMM_PAGE) (Hc : PAGE_ulCount w = PAGE_ulCount v) (Ha : PAGE_ulPageAddr w = PAGE_ulPageAddr v) (Hu : PAGE_bUsed w = PAGE_bUsed v).

Lemma shape_free l1 l2 : free_of (l1 ++ (p, w) :: l2) = free_of (l1 ++ (p, v) :: l2).
Proof. rewrite !free_of_app, !free_of_cons. cbn. by rewrite Hu, Hc. Qed.

Lemma shape_span l1 l2 : span (l1 ++ (p, w) :: l2) = span (l1 ++ (p, v) :: l2).
Proof. rewrite !span_app, !span_cons. cbn. by rewrite Hc. Qed.

Lemma shape_free_span l1 l2 : span (free_blocks (l1 ++ (p, w) :: l2)) = span (free_blocks (l1 ++ (p, v) :: l2)).
Proof. rewrite !free_blocks_app, !free_blocks_cons. cbn. rewrite Hu. destruct (PAGE_bUsed v); [done|]. by rewrite shape_span. Qed.

Lemma shape_ok geo l1 l2 : zone_ok geo (l1 ++ (p, v) :: l2) -> zone_ok geo (l1 ++ (p, w) :: l2).
Proof.
  intros [H1 H2 H3 H4]. split; rewrite ?shape_span; [|done|done|].
  - apply block_tiles_app in H1 as [H1 H1']. apply block_tiles_app. split; [done|]. cbn in *. by rewrite Ha, Hc.
  - destruct (PAGE_bUsed v) eqn:E.
    + apply coalesced_used in H4; [|done]. by apply coalesced_used.
    + apply coalesced_free in H4; [|done]. by apply coalesced_free.
Qed.
End Shape.

Lemma zone_set s zid geo l1 p v l2 f : zone_rep s zid PHYS geo (l1 ++ (p, v) :: l2) -> same_shape f v -> exists s', set_page p f s = Some s' /\
  zone_rep s' zid PHYS geo (l1 ++ (p, f v) :: l2) /\ pages_step (touched s (l1 ++ (p, v) :: l2) []) zid PHYS s s' /\
  _K_pmonoPhyPageFreeList s' = _K_pmonoPhyPageFreeList s.
Proof.
  intros Hz (H1 & H2 & H3 & H4 & H5). destruct (zone_start _ _ _ _ _ [] Hz) as [Z Hok].
  destruct (set_block _ _ _ _ _ _ _ _ _ _ _ _ _ f Z H4 H5) as (s' & E & Z'). exists s'. split; [done|]. split; [|split; [apply Z'|by eapply keeps_set_page]].
  eapply zone_rep_of; [exact Z'| | |].
  - by rewrite (shape_free p v (f v)).
  - by rewrite (shape_free_span p v (f v)).
  - by eapply (shape_ok p v (f v)).
Qed.

Lemma in_mid (l1 l2 : list block) b c x : x ∈ l1 ++ b :: l2 -> x = b \/ x ∈ l1 ++ c :: l2.
Proof. rewrite !elem_of_app, !elem_of_cons. tauto. Qed.

Lemma found_mid M l1 l2 p v w : found_in M (l1 ++ (p, v) :: l2) -> PAGE_ulPageAddr w = PAGE_ulPageAddr v -> PAGE_bUsed w = PAGE_bUsed v ->
  found_in M (l1 ++ (p, w) :: l2).
Proof.
  intros Hf Ha Hu a q Hq. destruct (Hf a q Hq) as (u & Hin & Hu' & Ea). apply (in_mid _ _ _ (p, w)) in Hin as [E|Hin]; [|by exists u].
  injection E as -> ->. exists w. split; [set_solver|]. split; congruence.
Qed.

Lemma za_set s i geo l1 p v l2 M f : zone_at s i (mkZd geo (l1 ++ (p, v) :: l2) M) -> same_shape f v -> (PAGE_bUsed v = true -> plain (f v)) -> exists s',
  set_page p f s = Some s' /\ zone_at s' i (mkZd geo (l1 ++ (p, f v) :: l2) M) /\ only i s s' /\ _K_pmonoPhyPageFreeList s' = _K_pmonoPhyPageFreeList s.
Proof.
  intros Hd Hf Hp. pose proof Hd as [Hz Ha Hm Hpl Hs]. cbn [zd_geo zd_blocks zd_map] in *. destruct (zone_set _ _ _ _ _ _ _ f Hz Hf) as (s' & E & Hz' & St & Ek).
  exists s'. split; [done|]. split; [|split; [by eapply (only_step s s' i _ _ Hd)|done]]. pose proof Hf as (F1 & F2 & F3 & _).
  pose proof (found_mid M _ _ _ _ (f v) Hm F2 F3) as Hm'. split; cbn [zd_geo zd_blocks zd_map]; [done| |done| |done].
  - eapply (area_zone s s'); [done|exact St|exact Hm|exact Hm'|exact Hz|exact Hz'].
  - intros q w Hq Hw. apply (in_mid _ _ _ (p, v)) in Hq as [E'|Hq]; [|by apply (Hpl q)]. injection E' as -> ->. apply Hp. congruence.
Qed.
