(* ===== verification/VmmApi.v ===== *)
(** * Virtual memory: kernel/vmm/vmm.c

    The calls that work on physical pages and on the tables of zones.  Each holds [_G_ulVmmLock] from
    its first access to the state to its last one, so it is one step of the state. *)

From S2P Require Import Prelude Lists RbTree Vmm Area PageLib VirPage PhyPage.

(** [stSize] in pages, rounded up. *)
Definition size_pages (stSize : Z) : Z :=
  Z.shiftr stSize LW_CFG_VMM_PAGE_SHIFT + (if Z.land stSize (LW_CFG_VMM_PAGE_SIZE - 1) =? 0 then 0 else 1).

(** ** Start-up and new memory *)

(** The pages of a table of descriptors, up to its end. *)
Fixpoint ram_pages (pphydesc : list LW_MMU_PHYSICAL_DESC) (ulPageNum : Z) : option Z :=
  match pphydesc with
  | [] => None
  | d :: pphydesc =>
    if PHYD_stSize d =? 0 then Some ulPageNum
    else if negb (PHYD_uiType d =? LW_PHYSICAL_MEM_DMA) && negb (PHYD_uiType d =? LW_PHYSICAL_MEM_APP) then ram_pages pphydesc ulPageNum
    else ram_pages pphydesc (ulPageNum +64 Z.shiftr (PHYD_stSize d) LW_CFG_VMM_PAGE_SHIFT)
  end.

(** What the heap gives for the array of control blocks, with what its memory holds. *)
Abbreviation CBS := (option (ptr * (nat -> LW_VMM_PAGE * LW_TREE_RB_NODE))).

(** A call that may fail, then the next ones. *)
Definition then_ok (r : option (VMM * Z)) (f : VMM -> option (VMM * Z)) : option (VMM * Z) :=
  '(s, ulError) ← r; if negb (ulError =? ERROR_NONE) then Some (s, ulError) else f s.

(** The part of [API_VmmLibPrimaryInit] that sets up the spaces; the other arguments are the answers of the heap. *)
Definition init_spaces (pphydesc : list LW_MMU_PHYSICAL_DESC) (pvirdes : list LW_MMU_VIRTUAL_DESC) (cbs : CBS) (vir : list CB) (virArea : bool)
    (phyAreas : list bool) (s : VMM) : option (VMM * Z) :=
  ulPageNum ← ram_pages pphydesc 0;
  if ulPageNum =? 0 then Some (s, EINVAL)
  else
    then_ok (Some (__pageCbInit ulPageNum cbs s)) (fun s =>
    then_ok (__vmmVirtualCreate pvirdes vir s) (fun s =>
    then_ok (__areaVirtualSpaceInit pvirdes virArea s) (fun s =>
    then_ok (__vmmPhysicalCreate pphydesc s) (fun s =>
    __areaPhysicalSpaceInit pphydesc phyAreas s)))).

Definition API_VmmLibAddPhyRam (ulPhyRam stSize : Z) (cbs : CBS) (area : bool) (s : VMM) : option (VMM * Z) :=
  if stSize <? LW_CFG_VMM_PAGE_SIZE then Some (s, EINVAL)
  else
    let phydesc := [mkPhyd ulPhyRam PAGE_MAP_ADDR_INV stSize LW_PHYSICAL_MEM_APP; mkPhyd 0 0 0 0] in
    then_ok (Some (__pageCbInit (Z.shiftr stSize LW_CFG_VMM_PAGE_SHIFT) cbs s)) (fun s =>
    then_ok (__vmmPhysicalCreate phydesc s) (fun s =>
    __areaPhysicalSpaceInit phydesc [area] s)).

(** ** Physical pages *)

(** The end of both allocations: the page is noted where it is mapped and found by its address. *)
Definition register_page (pvmpage : ptr) (ulZoneIndex : nat) (mapped : bool) (ulFlags : Z) (s : VMM) : option (VMM * Z * Z) :=
  v ← page pvmpage s;
  s ← set_map_addr pvmpage (if mapped then PAGE_ulPageAddr v else PAGE_MAP_ADDR_INV) s;
  s ← set_page pvmpage (with_flags ulFlags) s;
  s ← __areaPhysicalInsertPage ulZoneIndex (PAGE_ulPageAddr v) pvmpage s;
  Some (s, PAGE_ulPageAddr v, ERROR_NONE).

(** Both allocations check and round their arguments in the same way; [f] has the number of pages and the alignment. *)
Definition with_pages (stSize stAlign : Z) (f : Z -> Z -> VMM -> option (VMM * Z * Z)) (s : VMM) : option (VMM * Z * Z) :=
  let ulPageNum := size_pages stSize in
  if negb (Z.land stAlign (stAlign -64 1) =? 0) then Some (s, NULL, ERROR_VMM_ALIGN)
  else
    let stAlign := if stAlign <? LW_CFG_VMM_PAGE_SIZE then LW_CFG_VMM_PAGE_SIZE else stAlign in
    if ulPageNum <? 1 then Some (s, NULL, EINVAL) else f ulPageNum stAlign s.

(** Result: the address or NULL, and the error code of the thread. *)
Definition API_VmmPhyAllocAlign (stSize stAlign uiAttr : Z) : VMM -> option (VMM * Z * Z) :=
  with_pages stSize stAlign (fun ulPageNum stAlign s =>
    '(s, r) ← __vmmPhysicalPageAllocAlign ulPageNum stAlign uiAttr s;
    match r with
    | None => Some (s, NULL, ERROR_VMM_LOW_PHYSICAL_PAGE)
    | Some (pvmpage, ulZoneIndex) => register_page pvmpage ulZoneIndex false LW_VMM_FLAG_FAIL s
    end).

Definition API_VmmPhyAlloc (stSize : Z) : VMM -> option (VMM * Z * Z) := API_VmmPhyAllocAlign stSize LW_CFG_VMM_PAGE_SIZE LW_ZONE_ATTR_NONE.
Definition API_VmmPhyAllocEx (stSize uiAttr : Z) : VMM -> option (VMM * Z * Z) := API_VmmPhyAllocAlign stSize LW_CFG_VMM_PAGE_SIZE uiAttr.

(** [map] is the answer of [__vmmLibPageMap], which changes the page tables only. *)
Definition API_VmmDmaAllocAlignWithFlags (stSize stAlign ulFlags : Z) (map : Z) : VMM -> option (VMM * Z * Z) :=
  with_pages stSize stAlign (fun ulPageNum stAlign s =>
    '(s, r) ← __vmmPhysicalPageAllocAlign ulPageNum stAlign LW_ZONE_ATTR_DMA s;
    match r with
    | None => Some (s, NULL, ERROR_VMM_LOW_PHYSICAL_PAGE)
    | Some (pvmpage, ulZoneIndex) =>
      if negb (map =? ERROR_NONE) then s ← __vmmPhysicalPageFree pvmpage s; Some (s, NULL, map)
      else register_page pvmpage ulZoneIndex true ulFlags s
    end).

(** The page of an address is no longer found and is released. *)
Definition release_address (ulAddr : Z) (s : VMM) : option (VMM * Z) :=
  let ulZoneIndex := __vmmPhysicalGetZone ulAddr s in
  if bool_decide (LW_CFG_VMM_ZONE_NUM <= ulZoneIndex)%nat then Some (s, ERROR_VMM_PHYSICAL_PAGE)
  else
    pvmpage ← __areaPhysicalSearchPage ulZoneIndex ulAddr s;
    if pvmpage =? NULL then Some (s, ERROR_VMM_PHYSICAL_PAGE)
    else
      v ← page pvmpage s;
      s ← __areaPhysicalUnlinkPage ulZoneIndex (PAGE_ulPageAddr v) pvmpage s;
      s ← __vmmPhysicalPageFree pvmpage s;
      Some (s, ERROR_NONE).

Definition API_VmmPhyFree : Z -> VMM -> option (VMM * Z) := release_address.
(** The cache and the page tables are not part of the state. *)
Definition API_VmmDmaFree : Z -> VMM -> option (VMM * Z) := release_address.

(** ** Reports *)

(** Result: address, size, free pages and attribute. *)
Definition API_VmmZoneStatus (ulZoneIndex : nat) (s : VMM) : option (option (Z * Z * Z * Z) * Z) :=
  if bool_decide (LW_CFG_VMM_ZONE_NUM <= ulZoneIndex)%nat then Some (None, EINVAL)
  else
    z ← _G_vmzonePhysical s !! ulZoneIndex;
    Some (Some (ZONE_ulAddr z, ZONE_stSize z, ZONE_ulFreePage z, ZONE_uiAttr z), ERROR_NONE).

(** Result: address, size and free pages. *)
Definition API_VmmVirtualStatus (uiType : Z) (ulZoneIndex : nat) (s : VMM) : option (option (Z * Z * Z) * Z) :=
  r ← __vmmVirtualDesc uiType ulZoneIndex s;
  match r with
  | Some (pvmvirDesc, ulFreePage) => Some (Some (VIRD_ulVirAddr pvmvirDesc, VIRD_stSize pvmvirDesc, ulFreePage), ERROR_NONE)
  | None => Some (None, EINVAL)
  end.

Definition API_VmmVirtualIsInside : Z -> VMM -> bool := __vmmVirtualIsInside.
Definition API_VmmPhysicalKernelDesc : VMM -> LW_MMU_PHYSICAL_DESC * LW_MMU_PHYSICAL_DESC := __vmmPhysicalGetKernelDesc.

Definition API_VmmPageFaultLimit (euid : Z) (pvpflNew : option LW_VMM_PAGE_FAULT_LIMIT) (f : PAGE_FAULT) : PAGE_FAULT * option LW_VMM_PAGE_FAULT_LIMIT * Z :=
  match pvpflNew with
  | Some _ => if negb (euid =? 0) then (f, None, PX_ERROR) else let '(f, old, r) := __vmmPhysicalPageFaultLimit pvpflNew f in (f, Some old, r)
  | None => let '(f, old, r) := __vmmPhysicalPageFaultLimit pvpflNew f in (f, Some old, r)
  end.
Definition API_VmmPageFaultGuarder (euid ulGuarder : Z) (f : PAGE_FAULT) : PAGE_FAULT * Z :=
  if negb (euid =? 0) then (f, PX_ERROR) else __vmmPhysicalPageFaultGuarder ulGuarder f.
