(* ===== verification/PhyZone.v ===== *)
(** * Virtual memory: allocation and release in one zone of physical memory

    A page goes through three states: free, used, and used and found by its address. *)

From S2P Require Import Prelude Lists RbTree RbSpec RbLife Vmm Area AreaSpec AreaRun PageLib PageSpec PageFit PageLife VirPage PhyPage PhySpec VmmApi.

(** ** Layout *)

Definition block_end (v : LW_VMM_PAGE) : Z := PAGE_ulPageAddr v + PAGE_ulCount v * LW_CFG_VMM_PAGE_SIZE.

Lemma tiles_block a bs p v : tiles a bs -> (p, v) ∈ bs -> a <= PAGE_ulPageAddr v /\ 0 < PAGE_ulCount v /\ block_end v <= a + span bs * LW_CFG_VMM_PAGE_SIZE.
Proof.
  intros H (l1 & l2 & ->)%list_elem_of_split. apply block_tiles_app in H as [H1 H2]. pose proof (span_nonneg _ _ H1). cbn in H2. destruct H2 as (Ea & Hc & H2).
  pose proof (span_nonneg _ _ H2). unfold block_end. rewrite span_app, span_cons, Ea. cbn. unfold LW_CFG_VMM_PAGE_SIZE. lia.
Qed.

(** Blocks do not overlap. *)
Lemma tiles_disjoint a bs p v q w : tiles a bs -> (p, v) ∈ bs -> (q, w) ∈ bs -> (p, v) = (q, w) \/ block_end v <= PAGE_ulPageAddr w \/ block_end w <= PAGE_ulPageAddr v.
Proof.
  intros H (l1 & l2 & ->)%list_elem_of_split Hq. apply block_tiles_app in H as [H1 H2]. cbn [tiles snd] in H2. destruct H2 as (Ea & Hc & H2). fold (block_end v) in *.
  apply elem_of_app in Hq as [Hq|[Hq|Hq]%elem_of_cons]; [|by left|].
  - apply (tiles_block _ _ _ _ H1) in Hq. right. right. lia.
  - apply (tiles_block _ _ _ _ H2) in Hq. right. left. unfold block_end. lia.
Qed.

Lemma same_addr a bs p v q w : tiles a bs -> (p, v) ∈ bs -> (q, w) ∈ bs -> PAGE_ulPageAddr v = PAGE_ulPageAddr w -> (p, v) = (q, w).
Proof.
  intros H Hp Hq E. pose proof (tiles_block _ _ _ _ H Hp). pose proof (tiles_block _ _ _ _ H Hq). unfold block_end in *.
  destruct (tiles_disjoint _ _ _ _ _ _ H Hp Hq) as [?|[?|?]]; [done|..]; unfold block_end, LW_CFG_VMM_PAGE_SIZE in *; lia.
Qed.

(** The block around an address. *)
Lemma tiles_cover bs : forall a x, tiles a bs -> a <= x < a + span bs * LW_CFG_VMM_PAGE_SIZE -> exists p v, (p, v) ∈ bs /\ PAGE_ulPageAddr v <= x < block_end v.
Proof.
  induction bs as [|[p v] bs IH]; intros a x H Hx; [unfold span in Hx; cbn in Hx; lia|]. cbn in H. destruct H as (Ea & Hc & H). rewrite span_cons in Hx. cbn in Hx.
  destruct (Z.lt_ge_cases x (block_end v)) as [Hlt|Hge].
  - exists p, v. split; [left|]. lia.
  - destruct (IH _ x H) as (q & w & Hq & Hw); [unfold block_end, LW_CFG_VMM_PAGE_SIZE in *; lia|]. exists q, w. split; [by right|done].
Qed.

(** What no used block meets is inside one free block. *)
Lemma gap_free bs : forall a x y, tiles a bs -> coalesced bs -> a <= x -> x < y -> y <= a + span bs * LW_CFG_VMM_PAGE_SIZE ->
  (forall p v, (p, v) ∈ bs -> PAGE_bUsed v = true -> y <= PAGE_ulPageAddr v \/ block_end v <= x) ->
  exists p v, (p, v) ∈ bs /\ PAGE_bUsed v = false /\ PAGE_ulPageAddr v <= x /\ y <= block_end v.
Proof.
  induction bs as [|[p v] bs IH]; intros a x y H Hco Hx Hxy Hy Hu; [unfold span in Hy; cbn in Hy; lia|].
  cbn [tiles snd] in H. destruct H as (Ea & Hc & H). rewrite span_cons in Hy. cbn [snd] in Hy. destruct (Z.lt_ge_cases x (block_end v)) as [Hlt|Hge].
  - exists p, v. split; [left|]. destruct (PAGE_bUsed v) eqn:E.
    { destruct (Hu p v ltac:(left) E) as [?|?]; lia. }
    split; [done|]. split; [lia|]. destruct bs as [|[q w] bs]; [unfold block_end, span in *; cbn in Hy; lia|].
    cbn in Hco. destruct Hco as [[?|Hw] _]; [congruence|]. destruct H as (Ea' & Hc' & _). cbn [snd] in *.
    destruct (Hu q w ltac:(right; left) Hw) as [?|?]; unfold block_end, LW_CFG_VMM_PAGE_SIZE in *; lia.
  - destruct (IH (a + PAGE_ulCount v * LW_CFG_VMM_PAGE_SIZE) x y) as (q & w & Hq & Hr); [done| |unfold block_end in *; lia|done|lia| |].
    + destruct bs as [|c bs]; [done|]. by destruct Hco.
    + intros q w Hq. apply (Hu q w). by right.
    + exists q, w. split; [by right|done].
Qed.

(** ** Alignment *)

(** The first multiple of [2 ^ k] from [a] on. *)
Definition align_up (a k : Z) : Z := if a mod 2 ^ k =? 0 then a else (a / 2 ^ k + 1) * 2 ^ k.

Lemma align_up_spec a k : 0 <= k -> align_up a k mod 2 ^ k = 0 /\ a <= align_up a k < a + 2 ^ k /\
  forall x, a <= x -> x mod 2 ^ k = 0 -> align_up a k <= x.
Proof.
  intros Hk. unfold align_up. assert (Hp : 0 < 2 ^ k) by (apply Z.pow_pos_nonneg; lia). pose proof (Z.div_mod a (2 ^ k) ltac:(lia)) as Ha.
  pose proof (Z.mod_pos_bound a (2 ^ k) Hp) as Hm. destruct (Z.eqb_spec (a mod 2 ^ k) 0) as [E|E]; [split_and!; [done|lia|lia|done]|].
  split; [by rewrite Z.mod_mul by lia|]. split; [lia|]. intros x Hx Ex. apply Z.mod_divide in Ex as [y ->]; [|lia].
  assert (a / 2 ^ k < y); [|nia]. apply Z.div_lt_upper_bound; [done|]. assert (a <> y * 2 ^ k) by (intros ->; by rewrite Z.mod_mul in E by lia). lia.
Qed.

Lemma left_pages_spec a k : 0 < a < 2 ^ 64 -> a mod LW_CFG_VMM_PAGE_SIZE = 0 -> 12 <= k < 64 ->
  a + left_pages a (2 ^ k - 1) * LW_CFG_VMM_PAGE_SIZE = align_up a k.
Proof.
  intros Ha Hm Hk. unfold left_pages, align_up. assert (Hp : 0 < 2 ^ k) by (apply Z.pow_pos_nonneg; lia).
  assert (E : 2 ^ k - 1 = Z.ones k) by (rewrite Z.ones_equiv; lia). rewrite E, Z.land_ones by lia.
  destruct (Z.eqb_spec (a mod 2 ^ k) 0) as [Ez|Ez]; [lia|]. rewrite lor_ones_div by lia.
  pose proof (Z.div_mod a (2 ^ k) ltac:(lia)) as Hdm. pose proof (Z.mod_pos_bound a (2 ^ k) Hp).
  assert (H64 : 2 ^ 64 = 2 ^ (64 - k) * 2 ^ k) by (rewrite <-Z.pow_add_r by lia; f_equal; lia).
  assert (Hq : a / 2 ^ k < 2 ^ (64 - k)) by (apply Z.div_lt_upper_bound; lia).
  set (u := (a / 2 ^ k + 1) * 2 ^ k) in *. assert (Hu : a < u <= 2 ^ 64) by (unfold u; nia).
  unfold wrap. rewrite Zminus_mod_idemp_l, Z.mod_small by lia. rewrite Z.shiftr_div_pow2 by done. fold LW_CFG_VMM_PAGE_SIZE.
  unfold LW_CFG_VMM_PAGE_SHIFT, LW_CFG_VMM_PAGE_SIZE in *. assert (Hd : (2 ^ 12 | u - a)).
  { apply Z.divide_sub_r; [|by apply Z.mod_divide]. unfold u. exists ((a / 2 ^ k + 1) * 2 ^ (k - 12)). rewrite <-Z.mul_assoc, <-Z.pow_add_r by lia. do 2 f_equal. lia. }
  destruct Hd as [y Ey]. rewrite Ey, Z.div_mul by lia. lia.
Qed.

(** A block has room for an aligned request exactly if an aligned range of that size lies in it. *)
Lemma fits_range v n k : 0 < PAGE_ulPageAddr v < 2 ^ 64 -> PAGE_ulPageAddr v mod LW_CFG_VMM_PAGE_SIZE = 0 -> 12 <= k < 64 ->
  fits n (2 ^ k - 1) v <-> align_up (PAGE_ulPageAddr v) k + n * LW_CFG_VMM_PAGE_SIZE <= block_end v.
Proof.
  intros Ha Hm Hk. rewrite <-(left_pages_spec _ _ Ha Hm Hk). unfold fits, block_end, LW_CFG_VMM_PAGE_SIZE. lia.
Qed.

(** ** Allocation *)

Definition free_cbs_of (s : VMM) : nat := length (_K_pmonoPhyPageFreeList s).

(** There are control blocks for cutting the zone into single pages. *)
Definition cuttable (s : VMM) (bs : list block) : Prop := span bs <= Z.of_nat (length bs) + Z.of_nat (free_cbs_of s).

Lemma cuttable_enough s a bs : tiles a bs -> cuttable s bs -> cbs_enough s PHYS bs.
Proof.
  intros Ht Hc _ p v (l1 & l2 & ->)%list_elem_of_split _. unfold cuttable, free_cbs_of in Hc. rewrite span_app, span_cons, length_app in Hc. cbn in Hc.
  apply block_tiles_app in Ht as [T1 (_ & _ & T2)]. pose proof (tiles_length _ _ T1). pose proof (tiles_length _ _ T2). lia.
Qed.

(** The new used block [p] with content [v]. *)
Record gained (i : nat) (n k : Z) (s s' : VMM) (d d' : zdata) (p : ptr) (v : LW_VMM_PAGE) : Prop := {
  ga_zone : zone_at s' i d';
  ga_only : only i s s';
  ga_same : zd_geo d' = zd_geo d /\ zd_map d' = zd_map d;
  ga_used : used_blocks (zd_blocks d') ≡ₚ (p, v) :: used_blocks (zd_blocks d);
  ga_page : PAGE_ulCount v = n /\ PAGE_ulPageAddr v mod 2 ^ k = 0;
  ga_cbs : (free_cbs_of s + length (zd_blocks d) = free_cbs_of s' + length (zd_blocks d'))%nat
}.

Lemma elem_used p v bs : (p, v) ∈ used_blocks bs <-> (p, v) ∈ bs /\ PAGE_bUsed v = true.
Proof. unfold used_blocks. rewrite list_elem_of_filter. cbn. tauto. Qed.

Lemma carved_used v lf n L b R : carved v lf n L b R -> used_blocks (L ++ b :: R) = [b].
Proof.
  intros [HL (Hb & _) HR]. rewrite used_blocks_app, used_blocks_cons, Hb.
  destruct HL as [[_ ->]|(_ & pl & wl & -> & El & _)], HR as [[_ ->]|(_ & pr & wr & -> & Er & _)]; rewrite ?used_blocks_cons; cbn [snd]; rewrite ?El, ?Er; done.
Qed.

Lemma alloc_at s i d n k : zone_at s i d -> 0 < n <= PAGES_MAX -> 12 <= k < 64 -> cuttable s (zd_blocks d) -> exists s' p,
  __pageAllocateAlign (ZPhysical i) n (2 ^ k) PHYS None None s = Some (s', p) /\
  ((p = NULL /\ s' = s /\ forall q w, (q, w) ∈ zd_blocks d -> PAGE_bUsed w = false -> ~ fits n (2 ^ k - 1) w) \/
   (p <> NULL /\ exists d' v, gained i n k s s' d d' p v)).
Proof.
  intros Hd Hn Hk Hcut. pose proof Hd as [Hz Ha Hm Hp Hs]. assert (E1 : 2 ^ k -64 1 = 2 ^ k - 1).
  { apply wrap_small. assert (2 ^ 12 <= 2 ^ k) by (apply Z.pow_le_mono_r; lia). assert (2 ^ k <= 2 ^ 63) by (apply Z.pow_le_mono_r; lia). lia. }
  destruct Hz as [Z Hok]. pose proof (cuttable_enough _ _ _ (zo_tiles _ _ Hok) Hcut) as Hcb.
  destruct (page_align_spec s (ZPhysical i) PHYS (zd_geo d) (zd_blocks d) n (2 ^ k) None None (conj Z Hok) Hn ltac:(done) Hcb) as (s' & p & E & St & Hr).
  exists s', p. split; [done|]. rewrite E1 in Hr. destruct Hr as [(-> & -> & Hf)|[(_ & _ & ?)|(Hp0 & bs' & [(l1 & q & v & l2 & L & v' & R & Eb & Eb' & Hu & Hfit & Hbest & Hcar & Hst & Hcbs) Hz'])]]; [by left|done|].
  right. split; [done|]. exists (mkZd (zd_geo d) bs' (zd_map d)), v'. cbn [mem_ptr app] in St.
  assert (Hub : used_blocks bs' = used_blocks l1 ++ (p, v') :: used_blocks l2).
  { rewrite Eb', !used_blocks_app. change (used_blocks L ++ used_blocks ((p, v') :: R)) with (used_blocks L ++ used_blocks ((p, v') :: R)).
    rewrite <-used_blocks_app. by rewrite (carved_used _ _ _ _ _ _ Hcar). }
  assert (Hus : used_blocks (zd_blocks d) = used_blocks l1 ++ used_blocks l2) by (rewrite Eb, used_blocks_app, used_blocks_cons; cbn [snd]; by rewrite Hu).
  assert (Hperm : used_blocks bs' ≡ₚ (p, v') :: used_blocks (zd_blocks d)) by (rewrite Hub, Hus; solve_Permutation).
  assert (Hm' : found_in (zd_map d) bs').
  { intros a x Hx. destruct (Hm a x Hx) as (w & Hw & Hwu & Ea). exists w. split; [|done]. apply elem_used. rewrite Hperm. right. by apply elem_used. }
  split; cbn [zd_geo zd_map zd_blocks]; [|by eapply only_step|done|done| |].
  - split; cbn [zd_geo zd_map zd_blocks]; [done| |done| |done].
    + eapply (area_zone s s'); [done|exact St|exact Hm|exact Hm'|exact (conj Z Hok)|exact Hz'].
    + intros x w Hx Hw. assert (Hx' : (x, w) ∈ used_blocks bs') by (by apply elem_used). rewrite Hperm in Hx'. apply elem_of_cons in Hx' as [Ex|Hx'].
      * injection Ex as -> ->. unfold plain. rewrite Hst. by eexists _, _.
      * apply elem_used in Hx' as [Hx' _]. by apply (Hp x).
  - destruct Hcar as [_ (_ & Hc1 & Hc2) _]. cbn [snd] in Hc1, Hc2. split; [done|].
    pose proof (zone_block_addr (zd_geo d) l1 q v l2 ltac:(by rewrite <-Eb)) as (B1 & B2 & B3).
    pose proof (zone_counts _ _ q v Hok ltac:(rewrite Eb; set_solver)) as Hcv. unfold ULONG_MAX, LW_CFG_VMM_PAGE_SIZE in B2.
    rewrite Hc2, left_pages_spec by (unfold PAGES_MAX in *; lia || done). by apply align_up_spec; lia.
  - specialize (Hcbs eq_refl). unfold free_cbs_of. rewrite Eb, Eb', Hcbs, !length_app. cbn. lia.
Qed.

(** ** Registration *)

(** Address and number of pages of the used blocks. *)
Definition extents (bs : list block) : list (Z * Z) := (fun b => (PAGE_ulPageAddr b.2, PAGE_ulCount b.2)) <$> used_blocks bs.

(** The area finds every used page. *)
Definition full (d : zdata) : Prop := forall p v, (p, v) ∈ zd_blocks d -> PAGE_bUsed v = true -> zd_map d !! PAGE_ulPageAddr v = Some p.

Lemma shape_extents p v w l1 l2 : PAGE_ulCount w = PAGE_ulCount v -> PAGE_ulPageAddr w = PAGE_ulPageAddr v -> PAGE_bUsed w = PAGE_bUsed v ->
  extents (l1 ++ (p, w) :: l2) = extents (l1 ++ (p, v) :: l2).
Proof.
  intros Hc Ha Hu. unfold extents. rewrite !used_blocks_app, !used_blocks_cons. cbn [snd]. rewrite Hu.
  destruct (PAGE_bUsed v); rewrite !fmap_app; [cbn; by rewrite Hc, Ha|done].
Qed.

Lemma zone_at_page s i d p v : zone_at s i d -> (p, v) ∈ zd_blocks d -> page p s = Some v /\ p <> NULL /\ VM_page s !! p = Some v /\ is_Some (PAGE_trbnNode s !! p).
Proof.
  intros Hd Hp. destruct (zone_rep_pages _ _ _ _ _ p v (za_zone _ _ _ Hd) Hp) as (H1 & H2 & _). pose proof (rep_vm _ _ _ _ _ (za_zone _ _ _ Hd)) as [_ Hv].
  split_and!; [done|done|by apply page_lookup|]. apply Hv. unfold owned. cbn. apply elem_of_app. right.
  eapply in_chain; [by eapply (rep_parts _ _ _ _ _ (za_zone _ _ _ Hd))|]. apply list_elem_of_fmap. by exists (p, v).
Qed.

(** One key, one block. *)
Lemma block_unique s i d p v w : zone_at s i d -> (p, v) ∈ zd_blocks d -> (p, w) ∈ zd_blocks d -> v = w.
Proof. intros Hd Hv Hw. destruct (zone_at_page _ _ _ _ _ Hd Hv) as (E & _). destruct (zone_at_page _ _ _ _ _ Hd Hw) as (E' & _). congruence. Qed.

Lemma set_map_addr_at s i geo l1 p v l2 M a : zone_at s i (mkZd geo (l1 ++ (p, v) :: l2) M) -> PAGE_bUsed v = true -> exists s' w,
  set_map_addr p a s = Some s' /\ zone_at s' i (mkZd geo (l1 ++ (p, w) :: l2) M) /\ only i s s' /\ free_cbs_of s' = free_cbs_of s /\
  PAGE_ulCount w = PAGE_ulCount v /\ PAGE_ulPageAddr w = PAGE_ulPageAddr v /\ PAGE_bUsed w = true.
Proof.
  intros Hd Hu. destruct (zone_at_page _ _ _ p v Hd ltac:(cbn; set_solver)) as (Hv & Hp0 & _). destruct (za_plain _ _ _ Hd p v ltac:(cbn; set_solver) Hu) as (a0 & c & Est).
  unfold set_map_addr. rewrite Hv. cbn [mbind option_bind]. unfold phy_status. rewrite Est. cbn [mbind option_bind].
  destruct (za_set _ _ _ _ _ _ _ _ (with_status (PhyStatus a c 1 NULL)) Hd) as (s' & E & Hd' & Ho & Ek); [done|by eexists _, _|].
  rewrite E. eexists s', _. split; [done|]. split; [exact Hd'|]. split; [done|]. unfold free_cbs_of. rewrite Ek. done.
Qed.

Lemma register_at s i d p v mapped flags : zone_at s i d -> (p, v) ∈ zd_blocks d -> PAGE_bUsed v = true -> p ∉ pages_of (zd_map d) -> exists s' d',
  register_page p i mapped flags s = Some (s', PAGE_ulPageAddr v, ERROR_NONE) /\ zone_at s' i d' /\ only i s s' /\
  zd_geo d' = zd_geo d /\ extents (zd_blocks d') = extents (zd_blocks d) /\ free_cbs_of s' = free_cbs_of s /\ length (zd_blocks d') = length (zd_blocks d) /\
  ((forall q w, (q, w) ∈ zd_blocks d -> PAGE_bUsed w = true -> q <> p -> zd_map d !! PAGE_ulPageAddr w = Some q) -> full d').
Proof.
  intros Hd Hp Hu HpM. destruct (zone_at_page _ _ _ _ _ Hd Hp) as (Hv & Hp0 & _). destruct d as [geo bs M]. cbn [zd_geo zd_blocks zd_map] in *.
  unfold register_page. rewrite Hv. cbn [mbind option_bind]. set (a := PAGE_ulPageAddr v) in *. pose proof (list_elem_of_split _ _ Hp) as (l1 & l2 & ->).
  destruct (set_map_addr_at _ _ _ _ _ _ _ _ (if mapped then a else PAGE_MAP_ADDR_INV) Hd Hu) as (s1 & w & -> & Hd1 & O1 & K1 & W1 & W2 & W3). cbn [mbind option_bind].
  destruct (za_plain _ _ _ Hd1 p w ltac:(cbn; set_solver) W3) as (a0 & c0 & Est).
  destruct (za_set _ _ _ _ _ _ _ _ (with_flags flags) Hd1) as (s2 & -> & Hd2 & O2 & K2); [done|intros _; by exists a0, c0|]. cbn [mbind option_bind].
  set (w2 := with_flags flags w) in *. destruct (zone_at_page _ _ _ p w2 Hd2 ltac:(cbn; set_solver)) as (_ & _ & Hl & Hn).
  destruct (addr_page _ _ _ Hl) as [Ea Hpg]. assert (Ew : PAGE_ulPageAddr w2 = a) by (unfold w2, a; cbn; congruence). rewrite Ew in Ea.
  pose proof (za_area _ _ _ Hd2) as Har. cbn [zd_map] in Har.
  assert (HMa : M !! a = None).
  { destruct (M !! a) as [q|] eqn:E; [|done]. exfalso. destruct (za_map _ _ _ Hd a q E) as (u & Hu1 & _ & Eu). cbn [zd_blocks] in Hu1.
    pose proof (za_zone _ _ _ Hd) as [_ Hok]. assert (Eq : (q, u) = (p, v)) by (eapply same_addr; [apply (zo_tiles _ _ Hok)|done|done|done]).
    injection Eq as -> ->. apply HpM, elem_pages. by exists a. }
  destruct (area_insert s2 (AZone i) M a p Har Hp0 Hpg Ea Hn) as (s3 & E3 & Har' & St); [intros b Hb; apply HpM, elem_pages; by exists b|].
  rewrite HMa in Har'. unfold __areaPhysicalInsertPage. rewrite E3. cbn [mbind option_bind].
  exists s3, (mkZd geo (l1 ++ (p, w2) :: l2) (<[a := p]> M)). cbn [zd_geo zd_blocks zd_map]. split; [done|].
  assert (O3 : only i s2 s3).
  { eapply only_area; [exact Hd2|exact St|]. cbn [zd_blocks]. intros q [->|[b Hb]%elem_pages]%elem_of_cons; [rewrite fmap_app; cbn; set_solver|].
    destruct (za_map _ _ _ Hd2 b q Hb) as (u & Hu1 & _). apply list_elem_of_fmap. by exists (q, u). }
  assert (Hd3 : zone_at s3 i (mkZd geo (l1 ++ (p, w2) :: l2) (<[a := p]> M))).
  { pose proof Hd2 as [Z1 Z2 Z3 Z4 Z5]. cbn [zd_geo zd_blocks zd_map] in *. split; cbn [zd_geo zd_blocks zd_map]; try done; [by eapply zone_area|].
    intros b q [[<- <-]|[_ Hb]]%lookup_insert_Some; [|by apply Z3]. exists w2. split; [set_solver|]. by split. }
  split; [done|]. split; [exact (only_trans _ _ _ _ O1 (only_trans _ _ _ _ O2 O3))|]. split; [done|]. split; [by apply shape_extents; cbn; congruence|].
  split; [|split; [by rewrite !length_app|]].
  - destruct St as (x & m & -> & _). unfold free_cbs_of in *. destruct (area_rest (AZone i) x (with_node m s2)) as (_ & -> & _). cbn. congruence.
  - intros Hful q u Hq Huu. cbn [zd_blocks zd_map] in *. destruct (decide (q = p)) as [->|Hne].
    { assert (u = w2) as -> by (eapply block_unique; [exact Hd3|exact Hq|cbn; set_solver]). rewrite Ew. apply lookup_insert_eq. }
    apply (in_mid _ _ _ (p, v)) in Hq as [Eq|Hq]; [congruence|]. rewrite lookup_insert_ne; [by apply Hful|].
    intros Eau. apply Hne. pose proof (za_zone _ _ _ Hd) as [_ Hok]. assert (Eq : (q, u) = (p, v)) by (eapply same_addr; [apply (zo_tiles _ _ Hok)|done|done|done]). congruence.
Qed.

(** ** Release *)

Lemma pages_step_trans K zid ty s s1 s2 : pages_step K zid ty s s1 -> pages_step K zid ty s1 s2 -> pages_step K zid ty s s2.
Proof.
  intros [A1 [A2 A2'] A3 A4 A5 A6 A7] [B1 [B2 B2'] B3 B4 B5 B6 B7]. split.
  - intros z Hz. by rewrite B1, A1.
  - by rewrite B2, B2'.
  - intros p Hp. by rewrite B3, A3.
  - intros l Hl Hd. apply B4; [by apply A4|done].
  - intros p Hp. by rewrite B5, A5.
  - intros Ht. by rewrite B6, A6.
  - by rewrite B7.
Qed.

Lemma phy_status_plain v a c : PAGE_status v = PhyStatus a c 1 NULL -> phy_status v = Some (a, c, 1, NULL).
Proof. intros E. unfold phy_status. by rewrite E. Qed.

Lemma page_free_at s i d p v : zone_at s i d -> (p, v) ∈ zd_blocks d -> PAGE_bUsed v = true -> p ∉ pages_of (zd_map d) -> exists s' d',
  __vmmPhysicalPageFree p s = Some s' /\ zone_at s' i d' /\ only i s s' /\ zd_geo d' = zd_geo d /\ zd_map d' = zd_map d /\
  used_blocks (zd_blocks d) ≡ₚ (p, v) :: used_blocks (zd_blocks d') /\
  (free_cbs_of s + length (zd_blocks d) = free_cbs_of s' + length (zd_blocks d'))%nat.
Proof.
  intros Hd Hp Hu HpM. destruct (zone_at_page _ _ _ _ _ Hd Hp) as (Hv & Hp0 & _). destruct d as [geo bs M]. cbn [zd_geo zd_blocks zd_map] in *.
  pose proof (list_elem_of_split _ _ Hp) as (l1 & l2 & ->). destruct (za_plain _ _ _ Hd p v Hp Hu) as (a0 & c0 & Est).
  unfold __vmmPhysicalPageFree. rewrite Hv. cbn [mbind option_bind]. rewrite (phy_status_plain _ _ _ Est). cbn [mbind option_bind]. cbv beta iota. rewrite Z.eqb_refl. cbn [negb].
  destruct (set_map_addr_at _ _ _ _ _ _ _ _ PAGE_MAP_ADDR_INV Hd Hu) as (s1 & w & -> & Hd1 & O1 & K1 & W1 & W2 & W3). cbn [mbind option_bind].
  destruct (za_plain _ _ _ Hd1 p w ltac:(cbn; set_solver) W3) as (a1 & c1 & Est1).
  destruct (zone_at_page _ _ _ p w Hd1 ltac:(cbn; set_solver)) as (Hw & _). unfold add_ref. rewrite Hw. cbn [mbind option_bind]. rewrite (phy_status_plain _ _ _ Est1). cbn [mbind option_bind].
  change (1 +64 -1) with 0. pose proof (za_zone _ _ _ Hd1) as Hz1. cbn [zd_geo zd_blocks] in Hz1.
  destruct (zone_set _ _ _ _ _ _ _ (with_status (PhyStatus a1 c1 0 NULL)) Hz1) as (s2 & -> & Hz2 & St2 & Ek2); [done|]. cbn [mbind option_bind].
  set (w2 := with_status (PhyStatus a1 c1 0 NULL) w) in *. destruct (zone_rep_pages _ _ _ _ _ p w2 Hz2 ltac:(set_solver)) as (Hw2 & _ & _). rewrite Hw2. cbn [mbind option_bind].
  change (0 =? 0) with true. cbv iota.
  assert (Ho : PAGE_pvmzoneOwner v = ZPhysical i) by (destruct (rep_parts _ _ _ _ _ (za_zone _ _ _ Hd)) as (_ & _ & Hpp & _); by apply (Hpp p v)).
  rewrite Ho. destruct (free_page_spec _ _ _ _ _ _ _ _ Hz2 W3) as (s3 & bs' & E3 & St3 & [Hus Hcb Hz3]). cbn [PAGE_status w2 with_status mbind option_bind]. cbv beta iota.
  exists s3, (mkZd geo bs' M). cbn [zd_geo zd_blocks zd_map].
  assert (EK : touched s2 (l1 ++ (p, w2) :: l2) [] = touched s1 (l1 ++ (p, w) :: l2) []) by (unfold touched; rewrite Ek2, !fmap_app; done).
  rewrite EK in St3. pose proof (pages_step_trans _ _ _ _ _ _ St2 St3) as St.
  assert (Hub : used_blocks (l1 ++ (p, v) :: l2) ≡ₚ (p, v) :: used_blocks bs').
  { rewrite Hus, used_blocks_app, used_blocks_cons. cbn [snd]. rewrite Hu. solve_Permutation. }
  assert (Hin : forall q u, (q, u) ∈ bs' -> PAGE_bUsed u = true -> (q, u) ∈ l1 ++ l2 /\ (q, u) ∈ used_blocks bs').
  { intros q u Hq Hqu. assert (Hq' : (q, u) ∈ used_blocks bs') by (by apply elem_used). split; [|done].
    rewrite Hus, <-used_blocks_app in Hq'. by apply elem_used in Hq' as [? _]. }
  assert (Hm' : found_in M bs').
  { intros a q Hq. destruct (za_map _ _ _ Hd a q Hq) as (u & Hu1 & Hu2 & Eu). cbn [zd_blocks] in Hu1. exists u. split; [|done].
    assert (Hq' : (q, u) ∈ used_blocks (l1 ++ (p, v) :: l2)) by (by apply elem_used). rewrite Hub in Hq'. apply elem_of_cons in Hq' as [Eq|Hq']; [|by apply elem_used in Hq' as [? _]].
    injection Eq as -> ->. destruct HpM. apply elem_pages. by exists a. }
  split; [done|]. split.
  - split; cbn [zd_geo zd_blocks zd_map]; [done| |done| |apply Hd].
    + pose proof (za_map _ _ _ Hd1) as Hm1. eapply (area_zone s1 s3); [apply Hd1|exact St|exact Hm1|exact Hm'|exact Hz1|exact Hz3].
    + intros q u Hq Hqu. destruct (Hin q u Hq Hqu) as [Hq' _]. apply (za_plain _ _ _ Hd q u); [|done]. cbn. set_solver.
  - split; [eapply only_trans; [exact O1|]; by eapply (only_step s1 s3 i _ _ Hd1)|]. split_and!; [done|done|done|].
    specialize (Hcb eq_refl). unfold free_cbs_of in *. rewrite Ek2 in Hcb. rewrite Hcb. rewrite length_app. cbn. lia.
Qed.

Lemma release_at s i d a p : zone_at s i d -> zd_map d !! a = Some p -> __vmmPhysicalGetZone a s = i -> (i < LW_CFG_VMM_ZONE_NUM)%nat -> exists s' d' v,
  release_address a s = Some (s', ERROR_NONE) /\ zone_at s' i d' /\ only i s s' /\ zd_geo d' = zd_geo d /\ zd_map d' = delete a (zd_map d) /\
  (p, v) ∈ zd_blocks d /\ PAGE_ulPageAddr v = a /\ used_blocks (zd_blocks d) ≡ₚ (p, v) :: used_blocks (zd_blocks d') /\
  (free_cbs_of s + length (zd_blocks d) = free_cbs_of s' + length (zd_blocks d'))%nat.
Proof.
  intros Hd HM Hi Hlt. unfold release_address. rewrite Hi. rewrite bool_decide_eq_false_2 by lia. unfold __areaPhysicalSearchPage.
  rewrite (area_search s (AZone i) _ a (za_area _ _ _ Hd)), HM. cbn [mbind option_bind default]. unfold id.
  destruct (za_map _ _ _ Hd a p HM) as (v & Hp & Hu & Ea). destruct (zone_at_page _ _ _ _ _ Hd Hp) as (Hv & Hp0 & _).
  rewrite (proj2 (Z.eqb_neq _ _) Hp0), Hv. cbn [mbind option_bind]. rewrite Ea. unfold __areaPhysicalUnlinkPage.
  destruct (area_unlink s (AZone i) _ a p (za_area _ _ _ Hd) HM) as (s1 & -> & Har & St). cbn [mbind option_bind].
  assert (O1 : only i s s1).
  { eapply only_area; [exact Hd|exact St|]. intros q [b Hb]%elem_pages. destruct (za_map _ _ _ Hd b q Hb) as (u & Hu1 & _). apply list_elem_of_fmap. by exists (q, u). }
  assert (Hd1 : zone_at s1 i (mkZd (zd_geo d) (zd_blocks d) (delete a (zd_map d)))).
  { pose proof Hd as [Z1 Z2 Z3 Z4 Z5]. split; cbn [zd_geo zd_blocks zd_map]; try done; [by eapply zone_area|]. intros b q [_ Hb]%lookup_delete_Some. by apply Z3. }
  assert (Hnp : p ∉ pages_of (delete a (zd_map d))).
  { intros [b Hb]%elem_pages. apply lookup_delete_Some in Hb as [Hne Hb]. destruct (za_map _ _ _ Hd b p Hb) as (u & Hu1 & _ & Eu).
    rewrite (block_unique _ _ _ p u v Hd Hu1 Hp) in Eu. congruence. }
  destruct (page_free_at _ _ _ _ _ Hd1 Hp Hu Hnp) as (s2 & d' & -> & Hd2 & O2 & G2 & M2 & U2 & C2). cbn [zd_geo zd_blocks zd_map mbind option_bind] in *.
  exists s2, d', v. split; [done|]. split; [done|]. split; [by eapply only_trans|]. split_and!; try done.
  rewrite <-C2. f_equal. destruct St as (x & m & -> & _). unfold free_cbs_of. by destruct (area_rest (AZone i) x (with_node m s)) as (_ & -> & _).
Qed.
