(* ===== verification/PhySys.v ===== *)
(** * Virtual memory: all zones of physical memory

    [sys] is the state between two calls: the zones are consistent and apart, the areas find exactly the used
    pages, and the control blocks suffice for any cutting. *)

From S2P Require Import Prelude Lists RbTree RbSpec RbLife Vmm Area AreaSpec AreaRun PageLib PageSpec PageFit PageLife VirPage PhyPage PhySpec VmmApi PhyZone.

Abbreviation geometry := (Z * Z * Z)%type.

Definition apart (g h : geometry) : Prop := g.1.1 + g.1.2 <= h.1.1 \/ h.1.1 + h.1.2 <= g.1.1.

Definition total_span (zs : list zdata) : Z := foldr (fun d x => span (zd_blocks d) + x) 0 zs.
Definition total_blocks (zs : list zdata) : nat := foldr (fun d x => length (zd_blocks d) + x)%nat 0%nat zs.

Record sys (s : VMM) (zs : list zdata) (T : nat) : Prop := {
  sy_vm : vm_ok s;
  sy_len : (length zs <= LW_CFG_VMM_ZONE_NUM)%nat /\ ulZonePhysical (VM_static s) = length zs /\ ulZoneArea (VM_static s) = length zs;
  sy_tables : forall j, (is_Some (get_zone (ZPhysical j) s) <-> (j < LW_CFG_VMM_ZONE_NUM)%nat) /\ (is_Some (get_area (AZone j) s) <-> (j < LW_CFG_VMM_ZONE_NUM)%nat);
  sy_zone : forall i d, zs !! i = Some d -> zone_at s i d /\ full d;
  sy_rest : forall j z, (length zs <= j)%nat -> get_zone (ZPhysical j) s = Some z -> ZONE_stSize z = 0;
  sy_apart : forall i j d d', zs !! i = Some d -> zs !! j = Some d' -> i <> j -> apart (zd_geo d) (zd_geo d');
  sy_cbs : (T = free_cbs_of s + total_blocks zs)%nat;
  sy_enough : total_span zs <= Z.of_nat T
}.

Lemma total_cons e zs : total_span (e :: zs) = span (zd_blocks e) + total_span zs /\ total_blocks (e :: zs) = (length (zd_blocks e) + total_blocks zs)%nat.
Proof. done. Qed.

Lemma total_split zs i d : zs !! i = Some d -> exists x y, forall d', total_span (<[i := d']> zs) = span (zd_blocks d') + x /\
  total_blocks (<[i := d']> zs) = (length (zd_blocks d') + y)%nat.
Proof.
  revert i. induction zs as [|e zs IH]; intros [|i] H; [done|done| |].
  - exists (total_span zs), (total_blocks zs). intros d'. done.
  - destruct (IH i H) as (x & y & Hxy). exists (span (zd_blocks e) + x), (length (zd_blocks e) + y)%nat. intros d'. destruct (Hxy d') as [E1 E2].
    change (<[S i := d']> (e :: zs)) with (e :: <[i := d']> zs). destruct (total_cons e (<[i := d']> zs)) as [-> ->]. lia.
Qed.

Lemma zone_span s i d : zone_at s i d -> span (zd_blocks d) = Z.shiftr (zd_geo d).1.2 LW_CFG_VMM_PAGE_SHIFT /\ Z.of_nat (length (zd_blocks d)) <= span (zd_blocks d).
Proof. intros Hd. destruct (za_zone _ _ _ Hd) as [_ Hok]. split; [apply Hok|]. eapply tiles_length, Hok. Qed.

Lemma total_le s zs : (forall i d, zs !! i = Some d -> zone_at s i d) -> Z.of_nat (total_blocks zs) <= total_span zs.
Proof.
  assert (H : forall k, (forall i d, zs !! i = Some d -> zone_at s (k + i) d) -> Z.of_nat (total_blocks zs) <= total_span zs).
  { induction zs as [|e zs IH]; intros k H; [done|]. destruct (total_cons e zs) as [-> ->].
    destruct (zone_span s (k + 0) e ltac:(by apply (H 0%nat))) as [_ Hl]. specialize (IH (S k) ltac:(intros i d Hi; rewrite Nat.add_succ_comm; by apply (H (S i)))). lia. }
  exact (H 0%nat).
Qed.

Lemma sys_cuttable s zs T i d : sys s zs T -> zs !! i = Some d -> cuttable s (zd_blocks d).
Proof.
  intros S Hi. unfold cuttable. pose proof (sy_cbs _ _ _ S) as HT. pose proof (sy_enough _ _ _ S) as HE.
  assert (Hrest : Z.of_nat (total_blocks (delete i zs)) <= total_span (delete i zs) /\ total_span zs = span (zd_blocks d) + total_span (delete i zs) /\
    total_blocks zs = (length (zd_blocks d) + total_blocks (delete i zs))%nat).
  { assert (Ht : forall zs i, zs !! i = Some d -> total_span zs = span (zd_blocks d) + total_span (delete i zs) /\ total_blocks zs = (length (zd_blocks d) + total_blocks (delete i zs))%nat).
    { clear. induction zs as [|e zs IH]; intros [|i] H; [done|done|by injection H as ->|]. cbn in H. destruct (IH i H) as [E1 E2].
      change (delete (S i) (e :: zs)) with (e :: delete i zs). destruct (total_cons e zs) as [-> ->]. destruct (total_cons e (delete i zs)) as [-> ->]. lia. }
    split; [|by apply Ht]. assert (Hl : forall j e, delete i zs !! j = Some e -> exists k, zone_at s k e).
    { intros j e Hj. assert (He : e ∈ zs) by (eapply elem_of_submseteq; [by eapply list_elem_of_lookup_2|apply sublist_submseteq, sublist_delete]).
      apply list_elem_of_lookup in He as [k He]. exists k. by apply (sy_zone _ _ _ S). }
    revert Hl. clear. induction (delete i zs) as [|e l IH]; intros Hl; [done|]. destruct (Hl 0%nat e eq_refl) as [k Hk]. destruct (zone_span _ _ _ Hk) as [_ ?].
    specialize (IH ltac:(intros j x Hj; by apply (Hl (S j) x))). destruct (total_cons e l) as [-> ->]. lia. }
  lia.
Qed.

(** One zone changes. *)
Lemma sys_update s s' zs T i d d' : sys s zs T -> zs !! i = Some d -> zone_at s' i d' -> full d' -> only i s s' -> zd_geo d' = zd_geo d ->
  (free_cbs_of s + length (zd_blocks d) = free_cbs_of s' + length (zd_blocks d'))%nat -> sys s' (<[i := d']> zs) T.
Proof.
  intros S Hi Hd' Hf Ho Hg Hc. pose proof S as [S1 S2 S3 S4 S5 S6 S7 S8]. pose proof (lookup_lt_Some _ _ _ Hi) as Hlt.
  destruct (total_split zs i d Hi) as (x & y & Hxy). pose proof (list_insert_id _ _ _ Hi) as Eid. destruct (Hxy d) as [X1 Y1]. rewrite Eid in X1, Y1. destruct (Hxy d') as [X2 Y2].
  split.
  - eapply rep_vm, Hd'.
  - rewrite length_insert, (on_static _ _ _ Ho). done.
  - intros j. rewrite (on_area _ _ _ Ho). destruct (decide (j = i)) as [->|Hne]; [rewrite (on_here _ _ _ Ho)|rewrite (on_zone _ _ _ Ho) by done]; apply S3.
  - intros j e. destruct (decide (i = j)) as [<-|Hne].
    + rewrite list_lookup_insert_eq by done. by intros [= <-].
    + rewrite list_lookup_insert_ne by done. intros He. destruct (S4 j e He) as [? ?]. split; [|done]. by apply (on_other _ _ _ Ho).
  - intros j z. rewrite length_insert. intros Hj. rewrite (on_zone _ _ _ Ho) by lia. by apply S5.
  - intros j k e f Hj Hk Hne. assert (Hgeo : forall j e, <[i := d']> zs !! j = Some e -> exists e', zs !! j = Some e' /\ zd_geo e = zd_geo e').
    { intros m g. destruct (decide (i = m)) as [<-|Hm]; [rewrite list_lookup_insert_eq by done; intros [= <-]; by exists d|]. rewrite list_lookup_insert_ne by done. intros Hmg. by exists g. }
    destruct (Hgeo j e Hj) as (e' & Hj' & ->). destruct (Hgeo k f Hk) as (f' & Hk' & ->). by eapply S6.
  - rewrite Y2, S7, Y1. lia.
  - rewrite X2. destruct (zone_span _ _ _ Hd') as [-> _]. destruct (zone_span s i d) as [E _]; [by apply S4|]. rewrite Hg. lia.
Qed.

(** ** Allocation in the first zone that has room *)

Definition zone_fits (d : zdata) (n k : Z) : Prop := exists q w, (q, w) ∈ zd_blocks d /\ PAGE_bUsed w = false /\ fits n (2 ^ k - 1) w.

Lemma sys_table s zs T j : sys s zs T -> (j < LW_CFG_VMM_ZONE_NUM)%nat -> exists z, _G_vmzonePhysical s !! j = Some z /\
  match zs !! j with Some d => (ZONE_ulAddr z, ZONE_stSize z, ZONE_uiAttr z) = zd_geo d /\ ZONE_ulFreePage z = span (free_blocks (zd_blocks d)) /\ 0 < ZONE_stSize z
  | None => ZONE_stSize z = 0 end.
Proof.
  intros S Hj. destruct (proj2 (proj1 (sy_tables _ _ _ S j)) Hj) as [z Hz]. exists z. split; [exact Hz|]. destruct (zs !! j) as [d|] eqn:E.
  - destruct (sy_zone _ _ _ S j d E) as [Hd _]. destruct (zone_rep_zone _ _ _ _ _ (za_zone _ _ _ Hd)) as (z' & Hz' & _ & Hf & Hg). rewrite Hz in Hz'. injection Hz' as <-.
    destruct (za_size _ _ _ Hd) as [Hs _]. rewrite <-Hg in Hs. by split_and!.
  - eapply (sy_rest _ _ _ S j z); [by apply lookup_ge_None|done].
Qed.

Lemma fits_free s i d n k : zone_at s i d -> 12 <= k < 64 -> zone_fits d n k -> n <= span (free_blocks (zd_blocks d)).
Proof.
  intros Hd Hk (q & w & Hq & Hw & Hfit). unfold fits in Hfit. pose proof (left_pages_range (PAGE_ulPageAddr w) (2 ^ k - 1)).
  assert (H0 : forall l, (forall p v, (p, v) ∈ l -> 0 < PAGE_ulCount v) -> (q, w) ∈ l -> PAGE_ulCount w <= span l).
  { clear. induction l as [|[p v] l IH]; intros Hl Hq; [by apply elem_of_nil in Hq|]. rewrite span_cons. cbn [snd].
    assert (Hn : 0 <= span l) by (assert (H : forall p v, (p, v) ∈ l -> 0 < PAGE_ulCount v) by (intros; apply (Hl p0); by right); clear -H;
      induction l as [|[p v] l IH]; [done|]; rewrite span_cons; cbn [snd]; pose proof (H p v ltac:(left)); specialize (IH ltac:(intros; apply (H p0); by right)); lia).
    apply elem_of_cons in Hq as [Hq|Hq]; [injection Hq as -> ->; lia|]. specialize (IH ltac:(intros; apply (Hl p0); by right) Hq). pose proof (Hl p v ltac:(left)). lia. }
  specialize (H0 (free_blocks (zd_blocks d))). assert (PAGE_ulCount w <= span (free_blocks (zd_blocks d))); [|lia]. apply H0; [|by apply elem_free].
  intros p v [Hp _]%elem_free. destruct (zone_rep_pages _ _ _ _ _ p v (za_zone _ _ _ Hd) Hp) as (_ & _ & ? & _). done.
Qed.

Definition alloc_in (n k : Z) (z : ZONE) : VMM -> option (VMM * ptr) := __pageAllocateAlign z n (2 ^ k) PHYS None None.

(** The outcome of a search over zones whose attribute [ok] accepts. *)
Definition pass_result (ok : Z -> bool) (i : nat) (n k : Z) (s : VMM) (zs : list zdata) (s' : VMM) (r : option (ptr * nat)) : Prop :=
  match r with
  | None => s' = s /\ forall j d, (i <= j)%nat -> zs !! j = Some d -> ok (zd_geo d).2 = true -> ~ zone_fits d n k
  | Some (p, j) => (i <= j)%nat /\ exists d d' v, zs !! j = Some d /\ ok (zd_geo d).2 = true /\ p <> NULL /\ gained j n k s s' d d' p v
  end.

Lemma pass_spec s zs T ok n k : sys s zs T -> 0 < n <= PAGES_MAX -> 12 <= k < 64 -> forall m i, (m + i = LW_CFG_VMM_ZONE_NUM)%nat -> exists s' r,
  alloc_pass ok (alloc_in n k) m i n s = Some (s', r) /\ pass_result ok i n k s zs s' r.
Proof.
  intros S Hn Hk. induction m as [|m IH]; intros i Hi; cbn [alloc_pass].
  - exists s, None. split; [done|]. split; [done|]. intros j d Hj Hd. apply lookup_lt_Some in Hd. pose proof (sy_len _ _ _ S) as [? _]. lia.
  - destruct (sys_table s zs T i S ltac:(lia)) as (z & -> & Hz). cbn [mbind option_bind]. destruct (zs !! i) as [d|] eqn:E.
    2: { rewrite Hz. cbn. exists s, None. split; [done|]. split; [done|]. intros j d Hj Hd. apply lookup_ge_None in E. apply lookup_lt_Some in Hd. lia. }
    destruct Hz as (Hg & Hf & Hsz). rewrite (proj2 (Z.eqb_neq _ 0)) by lia. assert (Hattr : ZONE_uiAttr z = (zd_geo d).2) by (by rewrite <-Hg). rewrite Hattr, Hf.
    destruct (sy_zone _ _ _ S i d E) as [Hd _].
    destruct (IH (Datatypes.S i) ltac:(lia)) as (s' & r & Er & Hr).
    assert (Hskip : (ok (zd_geo d).2 = true -> ~ zone_fits d n k) -> pass_result ok i n k s zs s' r).
    { intros Hno. destruct r as [[p j]|]; [destruct Hr as [Hj Hr]; split; [lia|done]|]. destruct Hr as [-> Hr]. split; [done|].
      intros j e Hj He. destruct (decide (i = j)) as [<-|Hne]; [rewrite E in He; injection He as <-; done|]. apply (Hr j); [lia|done]. }
    destruct (ok (zd_geo d).2) eqn:Eok; cbn [andb]; [|by exists s', r; split; [done|apply Hskip]].
    destruct (Z.geb_spec (span (free_blocks (zd_blocks d))) n) as [Hfree|Hfree].
    2: { exists s', r. split; [done|]. apply Hskip. intros _ Hz. pose proof (fits_free _ _ _ _ _ Hd Hk Hz). lia. }
    destruct (alloc_at s i d n k Hd Hn Hk (sys_cuttable _ _ _ _ _ S E)) as (s1 & p & Ea & [(-> & -> & Hno)|(Hp0 & d' & v & Hga)]);
      change (alloc_in n k (ZPhysical i) s) with (__pageAllocateAlign (ZPhysical i) n (2 ^ k) PHYS None None s); rewrite Ea; cbn [mbind option_bind].
    + rewrite Z.eqb_refl. cbn [negb]. exists s', r. split; [done|]. apply Hskip. intros _ (q & w & Hq & Hw & Hfit). by apply (Hno q w).
    + rewrite (proj2 (Z.eqb_neq _ _) Hp0). cbn [negb]. exists s1, (Some (p, i)). split; [done|]. split; [done|]. by exists d, d', v.
Qed.

Lemma alloc_spec s zs T n k uiAttr : sys s zs T -> 0 < n <= PAGES_MAX -> 12 <= k < 64 -> exists s' r,
  __vmmPhysicalPageAllocAlign n (2 ^ k) uiAttr s = Some (s', r) /\
  (pass_result (fun a => a =? uiAttr) 0 n k s zs s' r /\ is_Some r \/
   pass_result (fun a => a =? uiAttr) 0 n k s zs s None /\ pass_result (fun a => Z.land a uiAttr =? uiAttr) 0 n k s zs s' r).
Proof.
  intros S Hn Hk. unfold __vmmPhysicalPageAllocAlign, alloc_physical. change (fun z => __pageAllocateAlign z n (2 ^ k) PHYS None None) with (alloc_in n k).
  destruct (pass_spec s zs T (fun a => a =? uiAttr) n k S Hn Hk LW_CFG_VMM_ZONE_NUM 0 ltac:(lia)) as (s1 & r1 & -> & H1). cbn [mbind option_bind].
  destruct r1 as [x|]; [exists s1, (Some x); split; [done|]; left; by split|]. pose proof H1 as [-> _].
  destruct (pass_spec s zs T (fun a => Z.land a uiAttr =? uiAttr) n k S Hn Hk LW_CFG_VMM_ZONE_NUM 0 ltac:(lia)) as (s2 & r2 & -> & H2). exists s2, r2. split; [done|]. by right.
Qed.

(** ** The zone of an address *)

Definition inside (g : geometry) (a : Z) : Prop := g.1.1 <= a < g.1.1 + g.1.2.

Lemma in_range_spec g a : 0 < g.1.1 -> 0 < g.1.2 -> g.1.1 + g.1.2 <= ULONG_MAX -> in_range a g.1.1 g.1.2 = true <-> inside g a.
Proof.
  intros H1 H2 H3. unfold in_range, inside, ULONG_MAX in *. rewrite (wrap_small 64 (g.1.1 + g.1.2)) by lia. rewrite (wrap_small 64) by lia.
  rewrite andb_true_iff, Z.geb_le, Z.leb_le. lia.
Qed.

Lemma zone_index_skip zs : forall i k a, (k <= length zs)%nat -> (forall j z, (j < k)%nat -> zs !! j = Some z -> ZONE_stSize z <> 0 /\ in_range a (ZONE_ulAddr z) (ZONE_stSize z) = false) ->
  zone_index zs i a = zone_index (drop k zs) (i + k) a.
Proof.
  induction zs as [|z zs IH]; intros i k a Hk H; [destruct k; [|cbn in Hk; lia]; by rewrite Nat.add_0_r|]. destruct k as [|k]; [by rewrite Nat.add_0_r|].
  cbn [zone_index drop]. destruct (H 0%nat z ltac:(lia) eq_refl) as [E1 E2]. rewrite (proj2 (Z.eqb_neq _ _) E1), E2. rewrite (IH (S i) k) by (cbn in Hk; lia || intros j y Hj Hy; by apply (H (S j) y ltac:(lia))).
  f_equal. lia.
Qed.

Lemma sys_skip s zs T k a : sys s zs T -> (k <= length zs)%nat -> (forall j d, (j < k)%nat -> zs !! j = Some d -> ~ inside (zd_geo d) a) ->
  __vmmPhysicalGetZone a s = zone_index (drop k (_G_vmzonePhysical s)) k a.
Proof.
  intros S Hk H. unfold __vmmPhysicalGetZone. apply (zone_index_skip _ 0).
  - destruct k as [|k]; [lia|]. pose proof (sy_len _ _ _ S) as [? _]. destruct (sys_table s zs T k S ltac:(lia)) as (z & Hz & _). by apply lookup_lt_Some in Hz.
  - intros j z Hj Hz. destruct (lookup_lt_is_Some_2 zs j ltac:(lia)) as [d Hd]. pose proof (sy_len _ _ _ S) as [? _].
    destruct (sys_table s zs T j S ltac:(lia)) as (z' & Hz' & Hg). assert (z' = z) as -> by congruence. rewrite Hd in Hg. destruct Hg as (Hg & _ & Hsz). split; [lia|].
    apply not_true_iff_false. intros Hr. apply (H j d Hj Hd). destruct (sy_zone _ _ _ S j d Hd) as [Hat _]. destruct (za_size _ _ _ Hat) as [Z1 Z2].
    destruct (za_zone _ _ _ Hat) as [_ Hok]. destruct (zo_addr _ _ Hok) as [Z3 _]. apply in_range_spec; [done|done|done|]. rewrite <-Hg. done.
Qed.

Lemma get_zone_at s zs T i d a : sys s zs T -> zs !! i = Some d -> inside (zd_geo d) a -> __vmmPhysicalGetZone a s = i.
Proof.
  intros S Hi Ha. pose proof (lookup_lt_Some _ _ _ Hi) as Hlt. pose proof (sy_len _ _ _ S) as [Hl _]. rewrite (sys_skip s zs T i a S ltac:(lia)).
  - destruct (sys_table s zs T i S ltac:(lia)) as (z & Hz & Hg). rewrite Hi in Hg. destruct Hg as (Hg & _ & Hsz). rewrite (drop_S _ _ _ Hz). cbn [zone_index].
    rewrite (proj2 (Z.eqb_neq _ _)) by lia. destruct (sy_zone _ _ _ S i d Hi) as [Hat _]. destruct (za_size _ _ _ Hat) as [Z1 Z2].
    destruct (za_zone _ _ _ Hat) as [_ Hok]. destruct (zo_addr _ _ Hok) as [Z3 _]. pose proof (proj2 (in_range_spec (zd_geo d) a Z3 Z1 Z2) Ha) as Hr.
    rewrite <-Hg in Hr. cbn in Hr. by rewrite Hr.
  - intros j e Hj He Hin. pose proof (sy_apart _ _ _ S i j d e Hi He ltac:(lia)) as Hap. unfold apart, inside in *. lia.
Qed.

Lemma get_zone_none s zs T a : sys s zs T -> (forall i d, zs !! i = Some d -> ~ inside (zd_geo d) a) -> __vmmPhysicalGetZone a s = LW_CFG_VMM_ZONE_NUM.
Proof.
  intros S H. pose proof (sy_len _ _ _ S) as [Hl _]. rewrite (sys_skip s zs T (length zs) a S ltac:(lia)) by (intros; by eapply H).
  destruct (drop (length zs) (_G_vmzonePhysical s)) as [|z l] eqn:E; [done|]. cbn [zone_index].
  assert (Hz : _G_vmzonePhysical s !! length zs = Some z) by (rewrite <-(Nat.add_0_r (length zs)), <-lookup_drop, E; done).
  rewrite (sy_rest _ _ _ S (length zs) z); [done|done|exact Hz].
Qed.
