(* ===== verification/PhyRun.v ===== *)
(** * Virtual memory: physical memory as its users see it

    A memory of regions in which ranges of pages are taken and given back: the calls of vmm.c refine
    it, and with everything given back each zone is one free block again. *)

From S2P Require Import Prelude Lists RbTree RbSpec RbLife Vmm Area AreaSpec AreaRun PageLib PageSpec PageFit PageLife VirPage PhyPage PhySpec VmmApi PhyZone PhySys.

(** ** The abstract memory *)

(** The ranges that are taken: number of pages by first address. *)
Abbreviation taken := (gmap Z Z).

Definition live_ok (zs : list zdata) (live : taken) : Prop :=
  forall a n, live !! a = Some n <-> exists i d, zs !! i = Some d /\ (a, n) ∈ extents (zd_blocks d).

Definition phys (s : VMM) (geos : list geometry) (live : taken) (T : nat) : Prop :=
  exists zs, sys s zs T /\ geos = zd_geo <$> zs /\ live_ok zs live.

Definition region_end (g : geometry) : Z := g.1.1 + Z.shiftr g.1.2 LW_CFG_VMM_PAGE_SHIFT * LW_CFG_VMM_PAGE_SIZE.

(** [n] pages from the multiple [a] of [2 ^ k] on are in a region with the right attribute, and free. *)
Definition room (geos : list geometry) (live : taken) (ok : Z -> bool) (n k a : Z) : Prop :=
  exists g, g ∈ geos /\ ok g.2 = true /\ a mod 2 ^ k = 0 /\ g.1.1 <= a /\ a + n * LW_CFG_VMM_PAGE_SIZE <= region_end g /\
    forall b m, live !! b = Some m -> b + m * LW_CFG_VMM_PAGE_SIZE <= a \/ a + n * LW_CFG_VMM_PAGE_SIZE <= b.

Lemma elem_extents a n bs : (a, n) ∈ extents bs <-> exists p v, (p, v) ∈ bs /\ PAGE_bUsed v = true /\ PAGE_ulPageAddr v = a /\ PAGE_ulCount v = n.
Proof.
  unfold extents. rewrite list_elem_of_fmap. split.
  - intros ([p v] & E & Hp). injection E as -> ->. apply elem_used in Hp as [Hp Hu]. by exists p, v.
  - intros (p & v & Hp & Hu & <- & <-). exists (p, v). split; [done|]. by apply elem_used.
Qed.

Lemma zone_end s i d : zone_at s i d -> (zd_geo d).1.1 + span (zd_blocks d) * LW_CFG_VMM_PAGE_SIZE = region_end (zd_geo d) /\
  region_end (zd_geo d) <= (zd_geo d).1.1 + (zd_geo d).1.2.
Proof.
  intros Hd. destruct (zone_span _ _ _ Hd) as [E _]. unfold region_end. rewrite E. split; [done|]. destruct (za_size _ _ _ Hd) as [H _].
  rewrite Z.shiftr_div_pow2 by done. change (2 ^ LW_CFG_VMM_PAGE_SHIFT) with LW_CFG_VMM_PAGE_SIZE.
  pose proof (Z.mul_div_le (zd_geo d).1.2 LW_CFG_VMM_PAGE_SIZE ltac:(done)). lia.
Qed.

Section Blocks.
Context (s : VMM) (zs : list zdata) (T : nat) (live : taken) (S : sys s zs T) (L : live_ok zs live).

(** A block lies in its region. *)
Lemma block_region i d p v : zs !! i = Some d -> (p, v) ∈ zd_blocks d -> (zd_geo d).1.1 <= PAGE_ulPageAddr v /\ block_end v <= region_end (zd_geo d) /\
  block_end v <= (zd_geo d).1.1 + (zd_geo d).1.2.
Proof.
  intros Hi Hp. destruct (sy_zone _ _ _ S i d Hi) as [Hd _]. destruct (za_zone _ _ _ Hd) as [_ Hok].
  destruct (tiles_block _ _ _ _ (zo_tiles _ _ Hok) Hp) as (H1 & _ & H2). destruct (zone_end _ _ _ Hd) as [E Hle]. lia.
Qed.

(** The ranges that are taken do not meet a free block. *)
Lemma taken_apart i d p v b m : zs !! i = Some d -> (p, v) ∈ zd_blocks d -> PAGE_bUsed v = false -> live !! b = Some m ->
  b + m * LW_CFG_VMM_PAGE_SIZE <= PAGE_ulPageAddr v \/ block_end v <= b.
Proof.
  intros Hi Hp Hu Hb. apply L in Hb as (j & e & Hj & (q & w & Hq & Hw & <- & <-)%elem_extents). fold (block_end w).
  destruct (decide (i = j)) as [<-|Hne].
  - assert (e = d) as -> by congruence. destruct (sy_zone _ _ _ S i d Hi) as [Hd _]. destruct (za_zone _ _ _ Hd) as [_ Hok].
    destruct (tiles_disjoint _ _ _ _ _ _ (zo_tiles _ _ Hok) Hp Hq) as [E|[?|?]]; [injection E as -> ->; congruence|by right|by left].
  - pose proof (sy_apart _ _ _ S i j d e Hi Hj Hne) as Hap. pose proof (block_region i d p v Hi Hp). pose proof (block_region j e q w Hj Hq).
    unfold apart in Hap. lia.
Qed.

Lemma block_aligned i d p v : zs !! i = Some d -> (p, v) ∈ zd_blocks d -> 0 < PAGE_ulPageAddr v < 2 ^ 64 /\ PAGE_ulPageAddr v mod LW_CFG_VMM_PAGE_SIZE = 0.
Proof.
  intros Hi Hp. destruct (sy_zone _ _ _ S i d Hi) as [Hd _]. destruct (za_zone _ _ _ Hd) as [_ Hok]. apply list_elem_of_split in Hp as (l1 & l2 & E).
  rewrite E in Hok. destruct (zone_block_addr _ _ _ _ _ Hok) as (H1 & H2 & H3). pose proof (zone_counts _ _ p v Hok ltac:(set_solver)).
  unfold ULONG_MAX, LW_CFG_VMM_PAGE_SIZE in *. split; [lia|done].
Qed.

(** There is room exactly if a free block fits. *)
Lemma fits_room ok n k i d : zs !! i = Some d -> ok (zd_geo d).2 = true -> 0 < n -> 12 <= k < 64 -> zone_fits d n k -> exists a, room (zd_geo <$> zs) live ok n k a.
Proof.
  intros Hi Hok Hn Hk (p & v & Hp & Hu & Hf). destruct (block_aligned i d p v Hi Hp) as [Ha Hm]. apply fits_range in Hf; [|done..].
  exists (align_up (PAGE_ulPageAddr v) k). destruct (align_up_spec (PAGE_ulPageAddr v) k ltac:(lia)) as (A1 & A2 & _).
  destruct (block_region i d p v Hi Hp) as (B1 & B2 & _). exists (zd_geo d). split_and!; [|done|done|lia|lia|].
  - apply list_elem_of_fmap. exists d. split; [done|]. by eapply list_elem_of_lookup_2.
  - intros b m Hb. destruct (taken_apart i d p v b m Hi Hp Hu Hb); lia.
Qed.

Lemma room_fits ok n k a : room (zd_geo <$> zs) live ok n k a -> 0 < n -> 12 <= k < 64 -> exists i d, zs !! i = Some d /\ ok (zd_geo d).2 = true /\ zone_fits d n k.
Proof.
  intros (g & (d & -> & Hd)%list_elem_of_fmap & Hok & Ha & Hlo & Hhi & Hfree) Hn Hk. apply list_elem_of_lookup in Hd as [i Hi]. exists i, d. split; [done|]. split; [done|].
  destruct (sy_zone _ _ _ S i d Hi) as [Hat _]. destruct (za_zone _ _ _ Hat) as [_ Hzo]. destruct (zone_end _ _ _ Hat) as [E _].
  destruct (gap_free (zd_blocks d) (zd_geo d).1.1 a (a + n * LW_CFG_VMM_PAGE_SIZE)) as (p & v & Hp & Hu & H1 & H2);
    [apply Hzo|apply Hzo|done|unfold LW_CFG_VMM_PAGE_SIZE; lia|lia| |].
  - intros q w Hq Hw. destruct (Hfree (PAGE_ulPageAddr w) (PAGE_ulCount w)) as [?|?]; [|by right|by left].
    apply L. exists i, d. split; [done|]. apply elem_extents. by exists q, w.
  - exists p, v. split; [done|]. split; [done|]. destruct (block_aligned i d p v Hi Hp) as [Hr Hm]. apply fits_range; [done..|].
    destruct (align_up_spec (PAGE_ulPageAddr v) k ltac:(lia)) as (_ & _ & A3). specialize (A3 a H1 Ha). lia.
Qed.
End Blocks.

(** ** The abstract calls *)

Definition power_ok (stAlign : Z) : Prop := stAlign = 0 \/ exists k, 0 <= k < 64 /\ stAlign = 2 ^ k.
(** The alignment in use, as an exponent. *)
Definition order_of (stAlign : Z) : Z := Z.log2 (Z.max stAlign LW_CFG_VMM_PAGE_SIZE).

Inductive alloc_result (geos : list geometry) (live : taken) (stSize stAlign uiAttr : Z) : taken -> Z -> Z -> Prop :=
| AR_align : ~ power_ok stAlign -> alloc_result geos live stSize stAlign uiAttr live NULL ERROR_VMM_ALIGN
| AR_empty : power_ok stAlign -> stSize = 0 -> alloc_result geos live stSize stAlign uiAttr live NULL EINVAL
| AR_none : power_ok stAlign -> 0 < stSize ->
    (forall a, ~ room geos live (fun x => Z.land x uiAttr =? uiAttr) (size_pages stSize) (order_of stAlign) a) ->
    alloc_result geos live stSize stAlign uiAttr live NULL ERROR_VMM_LOW_PHYSICAL_PAGE
| AR_exact a : power_ok stAlign -> 0 < stSize -> room geos live (fun x => x =? uiAttr) (size_pages stSize) (order_of stAlign) a ->
    alloc_result geos live stSize stAlign uiAttr (<[a := size_pages stSize]> live) a ERROR_NONE
| AR_more a : power_ok stAlign -> 0 < stSize -> (forall b, ~ room geos live (fun x => x =? uiAttr) (size_pages stSize) (order_of stAlign) b) ->
    room geos live (fun x => Z.land x uiAttr =? uiAttr) (size_pages stSize) (order_of stAlign) a ->
    alloc_result geos live stSize stAlign uiAttr (<[a := size_pages stSize]> live) a ERROR_NONE.

Inductive phy_op := OAlloc (stSize stAlign uiAttr : Z) | ODma (stSize stAlign ulFlags map : Z) | OFree (a : Z).

(** Result: address and error. *)
Definition phy_exec (op : phy_op) (s : VMM) : option (VMM * Z * Z) :=
  match op with
  | OAlloc stSize stAlign uiAttr => API_VmmPhyAllocAlign stSize stAlign uiAttr s
  | ODma stSize stAlign ulFlags map => API_VmmDmaAllocAlignWithFlags stSize stAlign ulFlags map s
  | OFree a => '(s, e) ← API_VmmPhyFree a s; Some (s, NULL, e)
  end.

Inductive phy_spec (geos : list geometry) (live : taken) : phy_op -> taken -> Z -> Z -> Prop :=
| PS_alloc sz al at' live' r e : alloc_result geos live sz al at' live' r e -> phy_spec geos live (OAlloc sz al at') live' r e
| PS_dma sz al fl map live' r e : alloc_result geos live sz al LW_ZONE_ATTR_DMA live' r e -> e <> ERROR_NONE \/ map = ERROR_NONE ->
    phy_spec geos live (ODma sz al fl map) live' r e
| PS_unmapped sz al fl map live' r : alloc_result geos live sz al LW_ZONE_ATTR_DMA live' r ERROR_NONE -> map <> ERROR_NONE ->
    phy_spec geos live (ODma sz al fl map) live NULL map
| PS_free a n : live !! a = Some n -> phy_spec geos live (OFree a) (delete a live) NULL ERROR_NONE
| PS_unknown a : live !! a = None -> phy_spec geos live (OFree a) live NULL ERROR_VMM_PHYSICAL_PAGE.

Definition word (x : Z) : Prop := 0 <= x < 2 ^ 64.
Definition op_args (op : phy_op) : Prop :=
  match op with OAlloc sz al _ => word sz /\ word al | ODma sz al _ _ => word sz /\ word al | OFree _ => True end.

(** ** The arguments *)

Lemma power_test x : word x -> (Z.land x (x -64 1) =? 0) = true <-> power_ok x.
Proof.
  intros Hx. unfold word in Hx. rewrite Z.eqb_eq. split.
  - intros H. destruct (Z.eq_dec x 0) as [->|Hne]; [by left|]. right. apply power_of_two; [lia|done].
  - intros [->|(k & Hk & ->)]; [done|]. assert (0 < 2 ^ k) by (apply Z.pow_pos_nonneg; lia). rewrite wrap_small by lia.
    replace (2 ^ k - 1) with (Z.ones k) by (rewrite Z.ones_equiv; lia). rewrite Z.land_ones by lia. by rewrite Z.mod_same by lia.
Qed.

Lemma size_pages_spec x : word x -> (x = 0 -> size_pages x = 0) /\ (0 < x -> 0 < size_pages x <= PAGES_MAX).
Proof.
  intros Hx. unfold word in Hx. unfold size_pages, PAGES_MAX. split; [by intros ->|]. intros Hp.
  replace (LW_CFG_VMM_PAGE_SIZE - 1) with (Z.ones 12) by done. rewrite Z.land_ones, Z.shiftr_div_pow2 by done. unfold LW_CFG_VMM_PAGE_SHIFT.
  pose proof (Z.div_mod x (2 ^ 12) ltac:(lia)). pose proof (Z.mod_pos_bound x (2 ^ 12) ltac:(lia)). assert (x / 2 ^ 12 < 2 ^ 52) by (apply Z.div_lt_upper_bound; lia).
  assert (0 <= x / 2 ^ 12) by (apply Z.div_pos; lia). destruct (Z.eqb_spec (x mod 2 ^ 12) 0); lia.
Qed.

Lemma order_of_spec al : word al -> power_ok al -> (if al <? LW_CFG_VMM_PAGE_SIZE then LW_CFG_VMM_PAGE_SIZE else al) = 2 ^ order_of al /\ 12 <= order_of al < 64.
Proof.
  intros Hw Hp. unfold order_of, word in *. change LW_CFG_VMM_PAGE_SIZE with (2 ^ 12).
  destruct (Z.ltb_spec al (2 ^ 12)) as [Hlt|Hge]; [rewrite Z.max_r by lia; by rewrite Z.log2_pow2|]. rewrite Z.max_l by lia. destruct Hp as [->|(k & Hk & ->)]; [lia|].
  rewrite Z.log2_pow2 by lia. split; [done|]. split; [|lia]. destruct (Z.lt_ge_cases k 12) as [Hk'|]; [|done].
  assert (2 ^ k < 2 ^ 12) by (apply Z.pow_lt_mono_r; lia). lia.
Qed.

(** Both allocations after their checks. *)
Lemma with_pages_spec sz al f s : word sz -> word al ->
  (~ power_ok al /\ with_pages sz al f s = Some (s, NULL, ERROR_VMM_ALIGN)) \/
  (power_ok al /\ sz = 0 /\ with_pages sz al f s = Some (s, NULL, EINVAL)) \/
  (power_ok al /\ 0 < sz /\ 0 < size_pages sz <= PAGES_MAX /\ 12 <= order_of al < 64 /\ with_pages sz al f s = f (size_pages sz) (2 ^ order_of al) s).
Proof.
  intros Hs Ha. unfold with_pages. pose proof (power_test al Ha) as Ht. destruct (Z.land al (al -64 1) =? 0); cbn [negb].
  - pose proof (proj1 Ht eq_refl) as Hp. right. destruct (size_pages_spec sz Hs) as [S0 S1]. destruct (order_of_spec al Ha Hp) as [-> Hk].
    unfold word in Hs. destruct (Z.eq_dec sz 0) as [->|Hne].
    + left. by rewrite S0.
    + right. specialize (S1 ltac:(lia)). rewrite (proj2 (Z.ltb_ge _ _)) by lia. split_and!; (done || lia).
  - left. split; [|done]. intros H. by apply Ht in H.
Qed.

(** ** Steps *)

Lemma used_keys s i d : zone_at s i d -> NoDup (used_blocks (zd_blocks d)).*1.
Proof.
  intros Hd. destruct (za_zone _ _ _ Hd) as [Z _]. pose proof (zst_distinct _ _ _ _ _ _ _ _ _ _ Z) as Hn. rewrite app_nil_r in Hn.
  revert Hn. clear. induction (zd_blocks d) as [|b l IH]; [done|]. cbn [fmap list_fmap]. rewrite NoDup_cons. intros [Hb Hn]. rewrite used_blocks_cons.
  destruct (PAGE_bUsed b.2); [|by apply IH]. cbn. apply NoDup_cons. split; [|by apply IH]. intros Hx. apply Hb.
  apply list_elem_of_fmap in Hx as (c & -> & Hc). apply list_elem_of_fmap. exists c. split; [done|]. by apply list_elem_of_filter in Hc as [_ ?].
Qed.

Lemma extents_perm bs bs' p v : used_blocks bs' ≡ₚ (p, v) :: used_blocks bs -> extents bs' ≡ₚ (PAGE_ulPageAddr v, PAGE_ulCount v) :: extents bs.
Proof. intros H. unfold extents. by rewrite H. Qed.

Section Gain.
Context (s s' : VMM) (zs : list zdata) (T : nat) (live : taken) (S : sys s zs T) (L : live_ok zs live).
Context (i : nat) (d d' : zdata) (n k : Z) (p : ptr) (v : LW_VMM_PAGE) (Hi : zs !! i = Some d) (G : gained i n k s s' d d' p v).

Lemma gained_in : (p, v) ∈ zd_blocks d' /\ PAGE_bUsed v = true /\ forall w, (p, w) ∉ used_blocks (zd_blocks d).
Proof.
  pose proof (used_keys _ _ _ (ga_zone _ _ _ _ _ _ _ _ _ G)) as Hn. rewrite (ga_used _ _ _ _ _ _ _ _ _ G) in Hn. cbn in Hn. apply NoDup_cons in Hn as [Hn _].
  assert (H : (p, v) ∈ used_blocks (zd_blocks d')) by (rewrite (ga_used _ _ _ _ _ _ _ _ _ G); left). apply elem_used in H as [H1 H2]. split_and!; [done|done|].
  intros w Hw. apply Hn. apply list_elem_of_fmap. by exists (p, w).
Qed.

Lemma gained_unmapped : p ∉ pages_of (zd_map d').
Proof.
  destruct gained_in as (_ & _ & Hno). rewrite (proj2 (ga_same _ _ _ _ _ _ _ _ _ G)). intros [a Ha]%elem_pages.
  destruct (sy_zone _ _ _ S i d Hi) as [Hd _]. destruct (za_map _ _ _ Hd a p Ha) as (w & Hw & Hu & _). apply (Hno w). by apply elem_used.
Qed.

Lemma gained_room ok : ok (zd_geo d).2 = true -> 0 < n -> room (zd_geo <$> zs) live ok n k (PAGE_ulPageAddr v).
Proof.
  intros Hok Hn. destruct gained_in as (Hp & Hu & Hno). pose proof (ga_zone _ _ _ _ _ _ _ _ _ G) as Hd'. destruct (ga_page _ _ _ _ _ _ _ _ _ G) as [Hc Ha].
  destruct (zone_end _ _ _ Hd') as [He Hle]. destruct (ga_same _ _ _ _ _ _ _ _ _ G) as [Eg _]. rewrite Eg in *. destruct (za_zone _ _ _ Hd') as [_ Hzo]. pose proof (zo_tiles _ _ Hzo) as Ht. rewrite Eg in Ht.
  destruct (tiles_block _ _ _ _ Ht Hp) as (B1 & B2 & B3). unfold block_end in B3. rewrite Hc in B3.
  exists (zd_geo d). split_and!; [|done|done|done|lia|].
  - apply list_elem_of_fmap. exists d. split; [done|]. by eapply list_elem_of_lookup_2.
  - intros b m Hb. apply L in Hb as (j & e & Hj & (q & w & Hq & Hw & <- & <-)%elem_extents). fold (block_end w). destruct (decide (i = j)) as [<-|Hne].
    + assert (e = d) as -> by congruence. assert (Hq' : (q, w) ∈ zd_blocks d').
      { apply elem_used. rewrite (ga_used _ _ _ _ _ _ _ _ _ G). right. by apply elem_used. }
      destruct (tiles_disjoint _ _ _ _ _ _ Ht Hp Hq') as [E|[?|?]]; [|unfold block_end in *; rewrite Hc in *; by right|by left].
      injection E as -> ->. destruct (Hno w). by apply elem_used.
    + pose proof (sy_apart _ _ _ S i j d e Hi Hj Hne) as Hap. pose proof (block_region s zs T S j e q w Hj Hq) as Hr. unfold apart in Hap. lia.
Qed.
End Gain.

Lemma live_pos s zs T live a n : sys s zs T -> live_ok zs live -> live !! a = Some n -> 0 < n.
Proof.
  intros S L Ha. apply L in Ha as (i & d & Hi & (p & v & Hp & _ & _ & <-)%elem_extents). destruct (sy_zone _ _ _ S i d Hi) as [Hd _].
  destruct (za_zone _ _ _ Hd) as [_ Hok]. by destruct (zone_counts _ _ _ _ Hok Hp).
Qed.

Lemma room_new s zs T live ok n k a : sys s zs T -> live_ok zs live -> room (zd_geo <$> zs) live ok n k a -> 0 < n -> live !! a = None.
Proof.
  intros S L (g & _ & _ & _ & _ & _ & H) Hn. destruct (live !! a) as [m|] eqn:E; [|done]. pose proof (live_pos _ _ _ _ _ _ S L E).
  destruct (H a m E); unfold LW_CFG_VMM_PAGE_SIZE in *; lia.
Qed.

Lemma live_insert zs live i d d' a n : live_ok zs live -> zs !! i = Some d -> extents (zd_blocks d') ≡ₚ (a, n) :: extents (zd_blocks d) -> live !! a = None ->
  live_ok (<[i := d']> zs) (<[a := n]> live).
Proof.
  intros L Hi He Hn b m. pose proof (lookup_lt_Some _ _ _ Hi) as Hlt. rewrite lookup_insert_Some, (L b m). split.
  - intros [[<- <-]|(Hne & j & e & Hj & Hin)].
    + exists i, d'. rewrite list_lookup_insert_eq by done. split; [done|]. rewrite He. left.
    + destruct (decide (i = j)) as [<-|Hij].
      * exists i, d'. rewrite list_lookup_insert_eq by done. split; [done|]. rewrite He. right. congruence.
      * exists j, e. by rewrite list_lookup_insert_ne.
  - assert (Hx : forall j e, zs !! j = Some e -> (b, m) ∈ extents (zd_blocks e) -> a <> b).
    { intros j e Hj Hin <-. assert (live !! a = Some m) by (apply L; by exists j, e). congruence. }
    intros (j & e & Hj & Hin). destruct (decide (i = j)) as [<-|Hij].
    + rewrite list_lookup_insert_eq in Hj by done. injection Hj as <-. rewrite He in Hin. apply elem_of_cons in Hin as [E|Hin]; [left; by injection E as -> ->|].
      right. split; [by eapply Hx|]. by exists i, d.
    + rewrite list_lookup_insert_ne in Hj by done. right. split; [by eapply Hx|]. by exists j, e.
Qed.

Lemma live_delete s zs T live i d d' p v : sys s zs T -> live_ok zs live -> zs !! i = Some d -> used_blocks (zd_blocks d) ≡ₚ (p, v) :: used_blocks (zd_blocks d') ->
  live_ok (<[i := d']> zs) (delete (PAGE_ulPageAddr v) live).
Proof.
  intros S L Hi Hu b m. pose proof (lookup_lt_Some _ _ _ Hi) as Hlt. set (a := PAGE_ulPageAddr v). pose proof (extents_perm _ _ _ _ Hu) as He. fold a in He.
  destruct (sy_zone _ _ _ S i d Hi) as [Hd _]. assert (Hpv : (p, v) ∈ zd_blocks d /\ PAGE_bUsed v = true) by (apply elem_used; rewrite Hu; left). destruct Hpv as [Hpv Hvu].
  assert (Hfresh : forall m, (a, m) ∉ extents (zd_blocks d')).
  { intros x (q & w & Hq & Hw & Ea & _)%elem_extents. assert (Hq' : (q, w) ∈ used_blocks (zd_blocks d')) by (by apply elem_used).
    assert (Hqd : (q, w) ∈ zd_blocks d) by (apply elem_used; rewrite Hu; by right). destruct (za_zone _ _ _ Hd) as [_ Hok].
    assert (E : (q, w) = (p, v)) by (eapply same_addr; [apply (zo_tiles _ _ Hok)|done|done|done]). injection E as -> ->.
    pose proof (used_keys _ _ _ Hd) as Hn. rewrite Hu in Hn. cbn in Hn. apply NoDup_cons in Hn as [Hn _]. apply Hn. apply list_elem_of_fmap. by exists (p, v). }
  rewrite lookup_delete_Some, (L b m). split.
  - intros (Hne & j & e & Hj & Hin). destruct (decide (i = j)) as [<-|Hij].
    + exists i, d'. rewrite list_lookup_insert_eq by done. split; [done|]. assert (e = d) as -> by congruence. rewrite He in Hin.
      apply elem_of_cons in Hin as [E|Hin]; [congruence|done].
    + exists j, e. by rewrite list_lookup_insert_ne.
  - intros (j & e & Hj & Hin). destruct (decide (i = j)) as [<-|Hij].
    + rewrite list_lookup_insert_eq in Hj by done. injection Hj as <-. split; [intros <-; by apply (Hfresh m)|]. exists i, d. split; [done|]. rewrite He. by right.
    + rewrite list_lookup_insert_ne in Hj by done. split; [|by exists j, e]. intros <-. pose proof Hin as (q & w & Hq & Hw & Ea & _)%elem_extents.
      pose proof (sy_apart _ _ _ S i j d e Hi Hj Hij) as Hap. pose proof (block_region s zs T S j e q w Hj Hq) as R1. pose proof (block_region s zs T S i d p v Hi Hpv) as R2.
      destruct (sy_zone _ _ _ S j e Hj) as [Hej _]. destruct (za_zone _ _ _ Hej) as [_ Hok1]. destruct (za_zone _ _ _ Hd) as [_ Hok2].
      pose proof (zone_counts _ _ _ _ Hok1 Hq). pose proof (zone_counts _ _ _ _ Hok2 Hpv). unfold apart, block_end, LW_CFG_VMM_PAGE_SIZE, a in *. lia.
Qed.

Lemma geo_insert (zs : list zdata) (i : nat) d d' : zs !! i = Some d -> zd_geo d' = zd_geo d -> zd_geo <$> <[i := d']> zs = zd_geo <$> zs.
Proof. intros Hi Hg. rewrite list_fmap_insert, Hg. apply list_insert_id. by rewrite list_lookup_fmap, Hi. Qed.

(** A page that was gained is registered, or given back. *)
Lemma take_page s s1 zs T live i d d1 n k p v mapped flags : sys s zs T -> live_ok zs live -> zs !! i = Some d -> gained i n k s s1 d d1 p v ->
  live !! PAGE_ulPageAddr v = None -> exists s2, register_page p i mapped flags s1 = Some (s2, PAGE_ulPageAddr v, ERROR_NONE) /\
  phys s2 (zd_geo <$> zs) (<[PAGE_ulPageAddr v := n]> live) T.
Proof.
  intros S L Hi G Hnew. pose proof (gained_in _ _ _ _ _ _ _ _ _ G) as (Hp & Hu & _). pose proof (gained_unmapped _ _ _ _ S _ _ _ _ _ _ _ Hi G) as HpM.
  destruct (register_at _ _ _ _ _ mapped flags (ga_zone _ _ _ _ _ _ _ _ _ G) Hp Hu HpM) as (s2 & d2 & E & Hd2 & O2 & Eg & Ex & Ek & El & Hfull).
  exists s2. split; [done|]. destruct (ga_same _ _ _ _ _ _ _ _ _ G) as [Eg1 Em1]. exists (<[i := d2]> zs). split; [|split].
  - apply (sys_update s s2 zs T i d d2 S Hi Hd2); [| |congruence|].
    + apply Hfull. intros q w Hq Hw Hne. rewrite Em1. destruct (sy_zone _ _ _ S i d Hi) as [_ Hf]. apply Hf; [|done].
      assert (Hq' : (q, w) ∈ used_blocks (zd_blocks d1)) by (by apply elem_used). rewrite (ga_used _ _ _ _ _ _ _ _ _ G) in Hq'.
      apply elem_of_cons in Hq' as [E'|Hq']; [congruence|]. by apply elem_used in Hq' as [? _].
    + eapply only_trans; [apply G|done].
    + rewrite (ga_cbs _ _ _ _ _ _ _ _ _ G). congruence.
  - symmetry. apply (geo_insert zs i d); [done|congruence].
  - apply (live_insert zs live i d); [done|done| |done]. rewrite Ex. destruct (ga_page _ _ _ _ _ _ _ _ _ G) as [<- _]. apply (extents_perm _ _ p v), G.
Qed.

Lemma back_page s s1 zs T live i d d1 n k p v : sys s zs T -> live_ok zs live -> zs !! i = Some d -> gained i n k s s1 d d1 p v ->
  exists s2, __vmmPhysicalPageFree p s1 = Some s2 /\ phys s2 (zd_geo <$> zs) live T.
Proof.
  intros S L Hi G. pose proof (gained_in _ _ _ _ _ _ _ _ _ G) as (Hp & Hu & _). pose proof (gained_unmapped _ _ _ _ S _ _ _ _ _ _ _ Hi G) as HpM.
  destruct (page_free_at _ _ _ _ _ (ga_zone _ _ _ _ _ _ _ _ _ G) Hp Hu HpM) as (s2 & d2 & E & Hd2 & O2 & Eg & Em & Eu & Ec).
  exists s2. split; [done|]. destruct (ga_same _ _ _ _ _ _ _ _ _ G) as [Eg1 Em1]. assert (Hus : used_blocks (zd_blocks d2) ≡ₚ used_blocks (zd_blocks d)).
  { rewrite (ga_used _ _ _ _ _ _ _ _ _ G) in Eu. by apply Permutation_cons_inv in Eu. }
  pose proof (lookup_lt_Some _ _ _ Hi) as Hlt. exists (<[i := d2]> zs). split; [|split].
  - apply (sys_update s s2 zs T i d d2 S Hi Hd2); [| |congruence|].
    + intros q w Hq Hw. rewrite Em, Em1. destruct (sy_zone _ _ _ S i d Hi) as [_ Hf]. apply Hf; [|done].
      assert (Hq' : (q, w) ∈ used_blocks (zd_blocks d2)) by (by apply elem_used). rewrite Hus in Hq'. by apply elem_used in Hq' as [? _].
    + eapply only_trans; [apply G|done].
    + rewrite (ga_cbs _ _ _ _ _ _ _ _ _ G). done.
  - symmetry. apply (geo_insert zs i d); [done|congruence].
  - intros a m. rewrite (L a m). assert (He : extents (zd_blocks d2) ≡ₚ extents (zd_blocks d)) by (unfold extents; by rewrite Hus).
    split; intros (j & e & Hj & Hin).
    + destruct (decide (i = j)) as [<-|Hij]; [|exists j, e; by rewrite list_lookup_insert_ne]. exists i, d2. rewrite list_lookup_insert_eq by done. split; [done|].
      rewrite He. by assert (e = d) as <- by congruence.
    + destruct (decide (i = j)) as [<-|Hij]; [|exists j, e; by rewrite list_lookup_insert_ne in Hj]. rewrite list_lookup_insert_eq in Hj by done. injection Hj as <-.
      exists i, d. split; [done|]. by rewrite <-He.
Qed.

(** The search of both allocations: nothing is free, or a page is gained where there was room. *)
Definition search_result (s : VMM) (zs : list zdata) (live : taken) (n k uiAttr : Z) (s' : VMM) (r : option (ptr * nat)) : Prop :=
  let geos := zd_geo <$> zs in
  match r with
  | None => s' = s /\ forall a, ~ room geos live (fun x => Z.land x uiAttr =? uiAttr) n k a
  | Some (p, i) => exists d d' v, zs !! i = Some d /\ p <> NULL /\ gained i n k s s' d d' p v /\
      (room geos live (fun x => x =? uiAttr) n k (PAGE_ulPageAddr v) \/
       (forall b, ~ room geos live (fun x => x =? uiAttr) n k b) /\ room geos live (fun x => Z.land x uiAttr =? uiAttr) n k (PAGE_ulPageAddr v))
  end.

Lemma find_zone_spec s zs T live n k uiAttr : sys s zs T -> live_ok zs live -> 0 < n <= PAGES_MAX -> 12 <= k < 64 -> exists s' r,
  __vmmPhysicalPageAllocAlign n (2 ^ k) uiAttr s = Some (s', r) /\ search_result s zs live n k uiAttr s' r.
Proof.
  intros S L Hn Hk. destruct (alloc_spec s zs T n k uiAttr S Hn Hk) as (s' & r & E & Hr). exists s', r. split; [done|].
  assert (Hno : forall ok s', pass_result ok 0 n k s zs s' None -> forall a, ~ room (zd_geo <$> zs) live ok n k a).
  { intros ok s1 [_ H] a Ha. destruct (room_fits s zs T live S L ok n k a Ha ltac:(lia) Hk) as (i & d & Hi & Hok & Hf). by apply (H i d ltac:(lia) Hi Hok). }
  destruct r as [[p i]|].
  - destruct Hr as [[(_ & d & d' & v & Hi & Hok & Hp & G) _]|[H1 (_ & d & d' & v & Hi & Hok & Hp & G)]]; exists d, d', v; split_and!; try done.
    + left. eapply (gained_room s s' zs T live S L i d d' n k p v Hi G (fun x => x =? uiAttr) Hok). lia.
    + right. split; [by eapply Hno|]. eapply (gained_room s s' zs T live S L i d d' n k p v Hi G (fun x => Z.land x uiAttr =? uiAttr) Hok). lia.
  - destruct Hr as [[_ Hr]|[_ Hr]]; [by destruct Hr|]. split; [apply Hr|by eapply Hno].
Qed.

Lemma result_room s zs T live sz al uiAttr d i s' d' p v n : sys s zs T -> live_ok zs live -> n = size_pages sz -> 0 < n -> power_ok al -> 0 < sz ->
  zs !! i = Some d -> gained i n (order_of al) s s' d d' p v ->
  (room (zd_geo <$> zs) live (fun x => x =? uiAttr) n (order_of al) (PAGE_ulPageAddr v) \/
   (forall b, ~ room (zd_geo <$> zs) live (fun x => x =? uiAttr) n (order_of al) b) /\ room (zd_geo <$> zs) live (fun x => Z.land x uiAttr =? uiAttr) n (order_of al) (PAGE_ulPageAddr v)) ->
  live !! PAGE_ulPageAddr v = None /\ alloc_result (zd_geo <$> zs) live sz al uiAttr (<[PAGE_ulPageAddr v := n]> live) (PAGE_ulPageAddr v) ERROR_NONE.
Proof.
  intros S L -> Hn Hp Hsz Hi G [Hr|[Hno Hr]]; (split; [by eapply room_new|]); [by apply AR_exact|by apply AR_more].
Qed.

(** One call. *)
Lemma phy_step op s geos live T : phys s geos live T -> op_args op -> exists s' live' r e,
  phy_exec op s = Some (s', r, e) /\ phys s' geos live' T /\ phy_spec geos live op live' r e /\
  (match op with ODma _ _ _ map => map = ERROR_NONE | _ => True end -> e <> ERROR_NONE -> s' = s).
Proof.
  intros P Hop. pose proof P as (zs & S & -> & L). destruct op as [sz al at'|sz al fl map|a]; cbn [phy_exec op_args] in *.
  - destruct Hop as [Hsz Hal]. unfold API_VmmPhyAllocAlign.
    match goal with |- context [with_pages sz al ?f s] => destruct (with_pages_spec sz al f s Hsz Hal) as [[Hp ->]|[(Hp & -> & ->)|(Hp & Hsz0 & Hn & Hk & ->)]] end.
    + exists s, live, NULL, ERROR_VMM_ALIGN. split_and!; [done|done|by apply PS_alloc, AR_align|done].
    + exists s, live, NULL, EINVAL. split_and!; [done|done|by apply PS_alloc, AR_empty|done].
    + destruct (find_zone_spec s zs T live _ _ at' S L Hn Hk) as (s1 & r & -> & Hr). cbn [mbind option_bind]. destruct r as [[p i]|].
      * destruct Hr as (d & d' & v & Hi & Hp0 & G & Hroom). destruct (result_room s zs T live sz al at' d i s1 d' p v _ S L eq_refl ltac:(lia) Hp Hsz0 Hi G Hroom) as [Hnew Har].
        destruct (take_page _ _ _ _ _ _ _ _ _ _ _ _ false LW_VMM_FLAG_FAIL S L Hi G Hnew) as (s2 & -> & P2).
        exists s2, (<[PAGE_ulPageAddr v := size_pages sz]> live), (PAGE_ulPageAddr v), ERROR_NONE. split_and!; [done|done|by apply PS_alloc|done].
      * destruct Hr as [-> Hno]. exists s, live, NULL, ERROR_VMM_LOW_PHYSICAL_PAGE. split_and!; [done|done|by apply PS_alloc, AR_none|done].
  - destruct Hop as [Hsz Hal]. unfold API_VmmDmaAllocAlignWithFlags.
    match goal with |- context [with_pages sz al ?f s] => destruct (with_pages_spec sz al f s Hsz Hal) as [[Hp ->]|[(Hp & -> & ->)|(Hp & Hsz0 & Hn & Hk & ->)]] end.
    + exists s, live, NULL, ERROR_VMM_ALIGN. split_and!; [done|done|apply PS_dma; [by apply AR_align|by left]|done].
    + exists s, live, NULL, EINVAL. split_and!; [done|done|apply PS_dma; [by apply AR_empty|by left]|done].
    + destruct (find_zone_spec s zs T live _ _ LW_ZONE_ATTR_DMA S L Hn Hk) as (s1 & r & -> & Hr). cbn [mbind option_bind]. destruct r as [[p i]|].
      * destruct Hr as (d & d' & v & Hi & Hp0 & G & Hroom). destruct (result_room s zs T live sz al _ d i s1 d' p v _ S L eq_refl ltac:(lia) Hp Hsz0 Hi G Hroom) as [Hnew Har].
        destruct (Z.eqb_spec map ERROR_NONE) as [->|Hmap]; cbn [negb].
        -- destruct (take_page _ _ _ _ _ _ _ _ _ _ _ _ true fl S L Hi G Hnew) as (s2 & -> & P2).
           exists s2, (<[PAGE_ulPageAddr v := size_pages sz]> live), (PAGE_ulPageAddr v), ERROR_NONE. split_and!; [done|done|apply PS_dma; [done|by right]|done].
        -- destruct (back_page _ _ _ _ _ _ _ _ _ _ _ _ S L Hi G) as (s2 & -> & P2). cbn [mbind option_bind]. exists s2, live, NULL, map.
           split_and!; [done|done|by eapply PS_unmapped|done].
      * destruct Hr as [-> Hno]. exists s, live, NULL, ERROR_VMM_LOW_PHYSICAL_PAGE. split_and!; [done|done|apply PS_dma; [by apply AR_none|by left]|done].
  - unfold API_VmmPhyFree. destruct (live !! a) as [n|] eqn:E.
    + pose proof E as (i & d & Hi & (p & v & Hp & Hu & Ea & En)%elem_extents)%L. destruct (sy_zone _ _ _ S i d Hi) as [Hd Hf].
      pose proof (lookup_lt_Some _ _ _ Hi) as Hlt. pose proof (sy_len _ _ _ S) as [Hl _]. pose proof (Hf p v Hp Hu) as HM. rewrite Ea in HM.
      assert (Hz : __vmmPhysicalGetZone a s = i).
      { eapply get_zone_at; [done|done|]. pose proof (block_region s zs T S i d p v Hi Hp) as R. destruct (za_zone _ _ _ Hd) as [_ Hok].
        pose proof (zone_counts _ _ _ _ Hok Hp). unfold inside, block_end, LW_CFG_VMM_PAGE_SIZE in *. lia. }
      destruct (release_at s i d a p Hd HM Hz ltac:(lia)) as (s' & d' & w & -> & Hd' & O & Eg & Em & Hw & Eaw & Eu & Ec). cbn [mbind option_bind].
      exists s', (delete a live), NULL, ERROR_NONE. split_and!; [done| |by eapply PS_free|done].
      exists (<[i := d']> zs). split; [|split; [symmetry; by apply (geo_insert zs i d)|rewrite <-Eaw; by eapply live_delete]].
      apply (sys_update s s' zs T i d d' S Hi Hd'); [|done|done|done]. intros q u Hq Hqu. rewrite Em.
      assert (Hq' : (q, u) ∈ used_blocks (zd_blocks d')) by (by apply elem_used). assert (Hqd : (q, u) ∈ zd_blocks d /\ PAGE_bUsed u = true) by (apply elem_used; rewrite Eu; by right).
      destruct Hqd as [Hqd _]. rewrite lookup_delete_ne; [by apply Hf|]. intros Eq. destruct (za_zone _ _ _ Hd) as [_ Hok].
      assert (Ex : (q, u) = (p, w)) by (eapply same_addr; [apply (zo_tiles _ _ Hok)|done|done|congruence]). injection Ex as -> ->.
      pose proof (used_keys _ _ _ Hd) as Hn. rewrite Eu in Hn. cbn in Hn. apply NoDup_cons in Hn as [Hn _]. apply Hn, list_elem_of_fmap. by exists (p, w).
    + exists s, live, NULL, ERROR_VMM_PHYSICAL_PAGE. split_and!; [|done|by apply PS_unknown|done]. unfold release_address.
      case_bool_decide as Hz; [done|]. assert (Hin : exists d, zs !! __vmmPhysicalGetZone a s = Some d).
      { destruct (decide (Exists (fun d => (zd_geo d).1.1 <= a < (zd_geo d).1.1 + (zd_geo d).1.2) zs)) as [Hex|Hnex].
        - apply Exists_exists in Hex as (d & Hd & Hin). apply list_elem_of_lookup in Hd as [i Hi]. exists d. by rewrite (get_zone_at s zs T i d a S Hi Hin).
        - destruct Hz. rewrite (get_zone_none s zs T a S); [lia|]. intros i d Hi Hin. apply Hnex, Exists_exists. exists d. split; [by eapply list_elem_of_lookup_2|done]. }
      destruct Hin as [d Hi]. set (i := __vmmPhysicalGetZone a s) in *. destruct (sy_zone _ _ _ S i d Hi) as [Hd _]. unfold __areaPhysicalSearchPage.
      rewrite (area_search s (AZone i) _ a (za_area _ _ _ Hd)). destruct (zd_map d !! a) as [p|] eqn:HM; [|done]. exfalso.
      destruct (za_map _ _ _ Hd a p HM) as (v & Hp & Hu & Ea). assert (Hl : live !! a = Some (PAGE_ulCount v)); [|congruence]. apply L. exists i, d. split; [done|].
      apply elem_extents. by exists p, v.
Qed.

(** ** Runs *)

Fixpoint phy_execs (ops : list phy_op) (s : VMM) : option (VMM * list (Z * Z)) :=
  match ops with
  | [] => Some (s, [])
  | op :: ops => '(s, r, e) ← phy_exec op s; '(s, rs) ← phy_execs ops s; Some (s, (r, e) :: rs)
  end.

Inductive phy_specs (geos : list geometry) : list phy_op -> taken -> taken -> list (Z * Z) -> Prop :=
| PSS_nil live : phy_specs geos [] live live []
| PSS_cons op ops live live1 live2 r e rs : phy_spec geos live op live1 r e -> phy_specs geos ops live1 live2 rs -> phy_specs geos (op :: ops) live live2 ((r, e) :: rs).

Lemma phy_run ops : forall s geos live T, phys s geos live T -> Forall op_args ops -> exists s' live' rs,
  phy_execs ops s = Some (s', rs) /\ phys s' geos live' T /\ phy_specs geos ops live live' rs.
Proof.
  induction ops as [|op ops IH]; intros s geos live T P Hops; [exists s, live, []; split_and!; [done|done|constructor]|].
  apply Forall_cons in Hops as [Hop Hops]. destruct (phy_step op s geos live T P Hop) as (s1 & live1 & r & e & E1 & P1 & S1 & _).
  destruct (IH s1 geos live1 T P1 Hops) as (s2 & live2 & rs & E2 & P2 & S2). exists s2, live2, ((r, e) :: rs). cbn [phy_execs]. rewrite E1. cbn [mbind option_bind].
  rewrite E2. split_and!; [done|done|by econstructor].
Qed.

(** C11: Any sequence of allocations (also aligned ones and DMA memory that is mapped or fails to be) and releases on physical
    memory runs through and answers as a memory of regions would: a request is served with an aligned range of free
    pages in a region that has exactly the wanted attributes, or, only when there is none, in one that has others
    too; it fails only when no region with the attributes has such a range; a release frees exactly the range that
    starts at the address, and is refused when none does. *)
Theorem phys_run_refines ops s geos live T : phys s geos live T -> Forall op_args ops -> exists s' live' rs,
  phy_execs ops s = Some (s', rs) /\ phys s' geos live' T /\ phy_specs geos ops live live' rs.
Proof. apply phy_run. Qed.

(** A call that reports an error (an alignment that is no power of two, a size of 0, no free range, an address where
    nothing starts) leaves the whole state of the memory manager as it was. *)
Theorem phys_errors op s geos live T : phys s geos live T -> op_args op -> match op with ODma _ _ _ map => map = ERROR_NONE | _ => True end ->
  exists s' r e, phy_exec op s = Some (s', r, e) /\ (e <> ERROR_NONE -> s' = s).
Proof.
  intros P Hop Hm. destruct (phy_step op s geos live T P Hop) as (s' & live' & r & e & E & _ & _ & H). exists s', r, e. split; [done|]. by apply H.
Qed.

(** ** Giving everything back *)

(** The zone is one free block. *)
Definition whole (s : VMM) (i : nat) (g : geometry) : Prop := exists z p v, get_zone (ZPhysical i) s = Some z /\
  ZONE_ulFreePage z = Z.shiftr g.1.2 LW_CFG_VMM_PAGE_SHIFT /\ [p] ∈ PAGE_lineManage s /\ page p s = Some v /\
  PAGE_bUsed v = false /\ PAGE_ulPageAddr v = g.1.1 /\ PAGE_ulCount v = Z.shiftr g.1.2 LW_CFG_VMM_PAGE_SHIFT.

Lemma coalesced_one bs : coalesced bs -> (forall b, b ∈ bs -> PAGE_bUsed b.2 = false) -> bs = [] \/ exists b, bs = [b].
Proof.
  destruct bs as [|b [|c bs]]; intros H Hf; [by left|right; by exists b|]. destruct H as [[H|H] _]; rewrite Hf in H by set_solver; done.
Qed.

Lemma unused s zs T i d : sys s zs T -> live_ok zs ∅ -> zs !! i = Some d -> LW_CFG_VMM_PAGE_SIZE <= (zd_geo d).1.2 ->
  whole s i (zd_geo d) /\ length (zd_blocks d) = 1%nat.
Proof.
  intros S L Hi Hsz. destruct (sy_zone _ _ _ S i d Hi) as [Hd _]. pose proof (za_zone _ _ _ Hd) as Hz. pose proof Hz as [Z Hok].
  assert (Hf : forall b, b ∈ zd_blocks d -> PAGE_bUsed b.2 = false).
  { intros [p v] Hp. destruct (PAGE_bUsed (p, v).2) eqn:Hu; [|done]. cbn in Hu. assert (H : (∅ : taken) !! PAGE_ulPageAddr v = Some (PAGE_ulCount v)); [|done].
    apply L. exists i, d. split; [done|]. apply elem_extents. by exists p, v. }
  destruct (zone_span _ _ _ Hd) as [Esp _]. assert (Hpos : 0 < Z.shiftr (zd_geo d).1.2 LW_CFG_VMM_PAGE_SHIFT).
  { rewrite Z.shiftr_div_pow2 by done. change (2 ^ LW_CFG_VMM_PAGE_SHIFT) with LW_CFG_VMM_PAGE_SIZE. apply Z.div_str_pos. unfold LW_CFG_VMM_PAGE_SIZE in *. lia. }
  destruct (coalesced_one _ (zo_coal _ _ Hok) Hf) as [E|[[p v] E]]; [rewrite E in Esp; cbn in Esp; lia|]. split; [|by rewrite E].
  destruct (zone_rep_zone _ _ _ _ _ Hz) as (z & Hgz & _ & Hfp & Hg). assert (Hp : (p, v) ∈ zd_blocks d) by (rewrite E; left).
  exists z, p, v. pose proof (zo_tiles _ _ Hok) as Ht. rewrite E in Ht, Esp. destruct Ht as (Ha & _). rewrite span_cons, span_nil in Esp. cbn [snd] in *.
  split_and!; [done| | | |by apply (Hf (p, v))|done|lia].
  - rewrite Hfp, E. unfold free_blocks. rewrite filter_cons, filter_nil. rewrite decide_True by (by apply (Hf (p, v))). rewrite span_cons, span_nil. cbn [snd]. lia.
  - apply rep_parts in Hz as (_ & Hc & _). by rewrite E in Hc.
  - by destruct (zone_at_page _ _ _ _ _ Hd Hp) as (? & _).
Qed.

Lemma sys_single s zs T : sys s zs T -> (forall i d, zs !! i = Some d -> length (zd_blocks d) = 1%nat) -> (free_cbs_of s + length zs = T)%nat.
Proof.
  intros S H. rewrite (sy_cbs _ _ _ S). f_equal. clear S. induction zs as [|d zs IH]; [done|]. destruct (total_cons d zs) as [_ ->].
  rewrite (H 0%nat d eq_refl). cbn [length]. rewrite IH; [done|]. intros i e Hi. by apply (H (S i)).
Qed.

(** C12: When a run has given back all it took (and what was taken before it), in any order, every zone is one
    free block again that covers it, its counter of free pages is its size, and all control blocks but one per zone are free. *)
Theorem phys_returns ops s geos live T : phys s geos live T -> Forall op_args ops -> (forall g, g ∈ geos -> LW_CFG_VMM_PAGE_SIZE <= g.1.2) ->
  exists s' live' rs, phy_execs ops s = Some (s', rs) /\ phy_specs geos ops live live' rs /\
  (live' = ∅ -> (forall i g, geos !! i = Some g -> whole s' i g) /\ (length (_K_pmonoPhyPageFreeList s') + length geos = T)%nat).
Proof.
  intros P Hops Hg. destruct (phy_run ops s geos live T P Hops) as (s' & live' & rs & E & P' & S'). exists s', live', rs. split; [done|]. split; [done|].
  intros ->. destruct P' as (zs & S & -> & L).
  assert (H : forall i d, zs !! i = Some d -> whole s' i (zd_geo d) /\ length (zd_blocks d) = 1%nat).
  { intros i d Hi. eapply unused; [done|done|done|]. apply Hg, list_elem_of_fmap. exists d. split; [done|]. by eapply list_elem_of_lookup_2. }
  split; [|rewrite length_fmap; eapply sys_single; [done|]; intros i d Hi; by apply (H i d)].
  intros i g Hi. rewrite list_lookup_fmap in Hi. destruct (zs !! i) as [d|] eqn:Ed; [|done]. injection Hi as <-. by apply H.
Qed.
