(* ===== verification/PhyRam.v ===== *)
(** * Virtual memory: adding physical memory

    [API_VmmLibAddPhyRam] makes a new zone, with control blocks for all its pages and an area of its own, and leaves
    the zones that are there alone; it builds any memory from nothing. *)

From S2P Require Import Prelude Lists RbTree RbSpec RbLife Vmm Area AreaSpec AreaRun PageLib PageSpec PageFit PageLife VirPage PhyPage PhySpec VmmApi PhyZone PhySys PhyRun.

(** ** Frames *)

Lemma zone_at_frame s s' i d : zone_at s i d -> vm_ok s' -> get_zone (ZPhysical i) s' = get_zone (ZPhysical i) s -> get_area (AZone i) s' = get_area (AZone i) s ->
  (zd_blocks d).*1 ∈ PAGE_lineManage s' ->
  (forall p, p ∈ (zd_blocks d).*1 -> VM_page s' !! p = VM_page s !! p /\ PAGE_trbnNode s' !! p = PAGE_trbnNode s !! p) -> zone_at s' i d.
Proof.
  intros [Hz Ha Hm Hp Hs] Hv Eg Ea Hc Hpg. apply rep_parts in Hz as (H1 & H2 & H3 & H4).
  assert (Hin : forall p v, (p, v) ∈ zd_blocks d -> p ∈ (zd_blocks d).*1) by (intros p v Hq; apply list_elem_of_fmap; by exists (p, v)).
  split; try done.
  - apply rep_of_vm; [done|by rewrite Eg|done| |done]. intros p v Hq. destruct (Hpg p) as [-> _]; [by eapply Hin|]. by apply H3.
  - eapply area_pages; [done|done| |].
    + intros p [a Hq]%elem_pages. destruct (Hm a p Hq) as (v & Hq' & _). apply Hpg. by eapply Hin.
    + intros a p Hq. destruct (Hm a p Hq) as (v & Hq' & _). destruct (H3 p v Hq') as (E & _). unfold addr_of, is_page.
      destruct (Hpg p) as [-> _]; [by eapply Hin|]. rewrite E. by split.
Qed.

Lemma chain_in s i d : zone_at s i d -> (zd_blocks d).*1 ∈ PAGE_lineManage s.
Proof. intros [Hz _ _ _ _]. by apply rep_parts in Hz as (_ & ? & _). Qed.

Lemma block_owned s i d p : zone_at s i d -> p ∈ (zd_blocks d).*1 -> p ∈ owned s [].
Proof. intros Hd Hp. unfold owned. cbn. apply elem_of_app. right. eapply in_chain; [by eapply chain_in|done]. Qed.

(** ** Control blocks *)

Definition cb_addr (base : ptr) (j : nat) : ptr := base + Z.of_nat j * sizeof_LW_VMM_PAGE_CB.

(** Memory from the heap for [n] control blocks. *)
Definition fresh_cbs (s : VMM) (base : ptr) (n : nat) : Prop :=
  0 < base /\ base + Z.of_nat n * sizeof_LW_VMM_PAGE_CB <= ULONG_MAX /\ forall j, (j < n)%nat -> VM_page s !! cb_addr base j = None.

(** What [free_cbs] leaves alone. *)
Record cbs_step (s s' : VMM) : Prop := {
  cs_zone : forall z, get_zone z s' = get_zone z s;
  cs_area : forall a, get_area a s' = get_area a s;
  cs_chain : PAGE_lineManage s' = PAGE_lineManage s;
  cs_static : VM_static s' = VM_static s;
  cs_page : forall p, is_page s p -> VM_page s' !! p = VM_page s !! p /\ PAGE_trbnNode s' !! p = PAGE_trbnNode s !! p
}.

Lemma one_cb_free s p v n : vm_ok s -> p <> NULL -> VM_page s !! p = None ->
  let s' := with_free (p :: _K_pmonoPhyPageFreeList s) (new_cb p v n s) in vm_ok s' /\ cbs_step s s'.
Proof.
  intros [H1 H2] Hp0 Hp. assert (Hno : p ∉ owned s []) by (intros Hin; destruct (H2 p Hin) as [[x Hx] _]; congruence).
  split; [split|split].
  - unfold owned in *. cbn in *. rewrite !NoDup_cons, elem_of_cons in *. split; [intros [?|?]; [congruence|tauto]|]. tauto.
  - intros q Hq. unfold owned, is_page in *. cbn in *. apply elem_of_cons in Hq as [->|Hq]; [rewrite !lookup_insert_eq; by split|].
    destruct (decide (p = q)) as [<-|Hne]; [by rewrite !lookup_insert_eq|]. rewrite !lookup_insert_ne by done. by apply H2.
  - by intros [].
  - by intros [].
  - done.
  - done.
  - intros q [x Hx]. cbn. assert (p <> q) by congruence. by rewrite !lookup_insert_ne.
Qed.

Lemma cbs_step_trans s s1 s2 : cbs_step s s1 -> cbs_step s1 s2 -> cbs_step s s2.
Proof.
  intros [A1 A2 A3 A4 A5] [B1 B2 B3 B4 B5]. split; [intros; by rewrite B1|intros; by rewrite B2|by rewrite B3|by rewrite B4|].
  intros p Hp. destruct (A5 p Hp) as [E1 E2]. destruct (B5 p) as [E3 E4]; [unfold is_page in *; by rewrite E1|]. by rewrite E3, E4.
Qed.

Lemma free_cbs_spec base junk n : forall i s, vm_ok s -> 0 < base -> base + Z.of_nat (i + n) * sizeof_LW_VMM_PAGE_CB <= ULONG_MAX ->
  (forall j, (i <= j < i + n)%nat -> VM_page s !! cb_addr base j = None) ->
  let s' := free_cbs n i base junk s in vm_ok s' /\ cbs_step s s' /\ free_cbs_of s' = (n + free_cbs_of s)%nat.
Proof.
  induction n as [|n IH]; intros i s Hv Hb Hm Hf; cbn [free_cbs]; [by split_and!|].
  assert (Ep : base +64 Z.of_nat i * sizeof_LW_VMM_PAGE_CB = cb_addr base i) by (unfold cb_addr, ULONG_MAX, sizeof_LW_VMM_PAGE_CB in *; apply wrap_small; lia).
  rewrite Ep. destruct (one_cb_free s (cb_addr base i) (junk i).1 (junk i).2 Hv) as [Hv1 Hs1]; [unfold cb_addr, sizeof_LW_VMM_PAGE_CB, NULL; lia|apply Hf; lia|].
  destruct (IH (S i) _ Hv1 Hb) as (H1 & H2 & H3); [by rewrite Nat.add_succ_comm| |].
  - intros j Hj. cbn. rewrite lookup_insert_ne; [apply Hf; lia|]. unfold cb_addr, sizeof_LW_VMM_PAGE_CB. lia.
  - split; [done|]. split; [by eapply cbs_step_trans|]. etransitivity; [exact H3|]. unfold free_cbs_of. cbn. lia.
Qed.

Lemma cbs_zone_at s s' i d : zone_at s i d -> vm_ok s' -> cbs_step s s' -> zone_at s' i d.
Proof.
  intros Hd Hv [A1 A2 A3 A4 A5]. eapply zone_at_frame; [done|done|done|done|rewrite A3; by eapply chain_in|]. intros p Hp. apply A5.
  pose proof (rep_vm _ _ _ _ _ (za_zone _ _ _ Hd)) as [_ Hv0]. apply Hv0. by eapply block_owned.
Qed.

(** ** The new zone *)

Lemma order_top n : 0 < n <= 2 ^ 63 -> (order n < LW_CFG_VMM_MAX_ORDER)%nat.
Proof. apply order_lt. Qed.

Lemma empty_hash : hash_rep (replicate LW_CFG_VMM_MAX_ORDER (mkFa [] 0)) [].
Proof. split; [done|]. by intros i fa [-> _]%lookup_replicate. Qed.

Definition first_page (i : nat) (addr n : Z) : LW_VMM_PAGE := mkPage n addr PHYS 0 false (ZPhysical i) (PhyStatus PAGE_MAP_ADDR_INV 0 0 NULL).

Lemma zone_create_spec s i addr size attr p l : vm_ok s -> is_Some (get_zone (ZPhysical i) s) -> _K_pmonoPhyPageFreeList s = p :: l ->
  let n := Z.shiftr size LW_CFG_VMM_PAGE_SHIFT in 0 < n -> 0 < addr -> addr mod LW_CFG_VMM_PAGE_SIZE = 0 -> addr + n * LW_CFG_VMM_PAGE_SIZE <= ULONG_MAX ->
  exists s', __pageZoneCreate (ZPhysical i) addr size attr PHYS None s = Some (s', ERROR_NONE) /\
    zone_rep s' (ZPhysical i) PHYS ((addr, size), attr) [(p, first_page i addr n)] /\ _K_pmonoPhyPageFreeList s' = l /\
    PAGE_lineManage s' = [p] :: PAGE_lineManage s /\ (forall z, z <> ZPhysical i -> get_zone z s' = get_zone z s) /\
    (forall a, get_area a s' = get_area a s) /\ VM_static s' = VM_static s /\ PAGE_trbnNode s' = PAGE_trbnNode s /\
    (forall q, q <> p -> VM_page s' !! q = VM_page s !! q).
Proof.
  intros [Hn Hc] [z0 Hz] El n Hn0 Ha Ham Hmax. unfold __pageZoneCreate, __pageCbAlloc. change (PHYS =? __VMM_PAGE_TYPE_PHYSICAL) with true. cbv iota. rewrite El.
  assert (Hp : p ∈ owned s []) by (unfold owned; rewrite El; set_solver). assert (Hp0 : p <> NULL) by (intros ->; by apply NoDup_cons in Hn as [? _]).
  rewrite (proj2 (Z.eqb_neq _ _) Hp0). destruct (Hc p Hp) as [[v Hv] [nd Hnd]].
  assert (Hz1 : get_zone (ZPhysical i) (with_free l s) = Some z0) by exact Hz. rewrite Hz1. cbn [mbind option_bind]. fold n.
  set (s1 := put_zone _ _ (with_free l s)). set (s2 := with_manage _ s1).
  assert (Hv2 : page p s2 = Some v) by (unfold page; rewrite (proj2 (Z.eqb_neq _ _) Hp0); exact Hv).
  unfold set_page at 1. rewrite Hv2. cbn [mbind option_bind]. set (s3 := with_page _ s2). fold (first_page i addr n) in s3.
  assert (Hv3 : page p s3 = Some (first_page i addr n)) by (unfold page; rewrite (proj2 (Z.eqb_neq _ _) Hp0); apply lookup_insert_eq).
  unfold __pageAddToFreeHash. rewrite Hv3. cbn [mbind option_bind].
  assert (Hn63 : n <= 2 ^ 63) by (unfold ULONG_MAX, LW_CFG_VMM_PAGE_SIZE in *; lia).
  change (PAGE_ulCount (first_page i addr n)) with n. rewrite (proj1 (order_index n ltac:(lia))). cbn [mbind option_bind]. unfold fa_add.
  assert (Hz3 : get_zone (ZPhysical i) s3 = Some (mkZone n addr size attr (replicate LW_CFG_VMM_MAX_ORDER (mkFa [] 0)))).
  { apply (get_put_zone (ZPhysical i) z0 _ (with_free l s)). exact Hz1. }
  rewrite Hz3. cbn [mbind option_bind ZONE_vmfa]. rewrite lookup_replicate_2 by (apply order_lt; lia). cbn [mbind option_bind].
  eexists. split; [done|]. set (z' := with_vmfa _ _).
  assert (Hown : owned (put_zone (ZPhysical i) z' s3) [] ≡ₚ owned s []) by (unfold owned; cbn; rewrite El; cbn; solve_Permutation).
  split; [|split_and!; [done|done| |by intros []|done|done|intros q Hq; cbn; by rewrite lookup_insert_ne]].
  - apply rep_of_vm.
    + split; [by rewrite Hown|]. intros q Hq. rewrite Hown in Hq. destruct (Hc q Hq) as [Hq1 Hq2]. split; [|done]. unfold is_page. cbn.
      destruct (decide (p = q)) as [<-|Hne]; [by rewrite lookup_insert_eq|by rewrite lookup_insert_ne].
    + exists z'. split; [by eapply get_put_zone|]. cbn [ZONE_ulFreePage with_vmfa z' ZONE_vmfa ZONE_ulAddr ZONE_stSize ZONE_uiAttr]. split_and!; [| |done].
      * unfold free_blocks. rewrite filter_cons, filter_nil. rewrite decide_True by done. rewrite span_cons, span_nil. cbn. rewrite Z.add_0_r. symmetry. apply wrap_small. lia.
      * unfold free_of, free_blocks. rewrite filter_cons, filter_nil. rewrite decide_True by done. cbn [fmap list_fmap fst snd first_page PAGE_ulCount].
        eapply hash_add; [apply empty_hash|]. apply lookup_replicate_2. apply order_lt. lia.
    + cbn. left.
    + intros q w [Hq|Hq]%elem_of_cons; [|by apply elem_of_nil in Hq]. injection Hq as -> ->. cbn. by rewrite lookup_insert_eq.
    + split; cbn [fst snd]; rewrite ?span_cons, ?span_nil; cbn [snd first_page PAGE_ulCount tiles]; rewrite ?Z.add_0_r; done.
  - intros z Hzz. assert (E1 : get_zone z (put_zone (ZPhysical i) z' s3) = get_zone z s3) by (by apply get_put_zone_ne). rewrite E1.
    assert (E2 : get_zone z s3 = get_zone z s1) by (by destruct z). rewrite E2. unfold s1. rewrite get_put_zone_ne by done. by destruct z.
Qed.

(** ** The call *)

Lemma static_zone_at t s i d : zone_at s i d -> zone_at (with_static t s) i d.
Proof. intros Hd. eapply zone_at_frame; [done|by eapply (rep_vm s), Hd|done|done|by eapply (chain_in s)|done]. Qed.

Lemma static_rep t s i geo bs : zone_rep s (ZPhysical i) PHYS geo bs -> zone_rep (with_static t s) (ZPhysical i) PHYS geo bs.
Proof. intros Hz. pose proof (rep_vm _ _ _ _ _ Hz) as Hv. apply rep_parts in Hz as (H1 & H2 & H3 & H4). by apply rep_of_vm. Qed.

Lemma area_tables s s' i ps j : area_step s s' (AZone i) ps -> is_Some (get_area (AZone i) s) -> is_Some (get_area (AZone j) s') <-> is_Some (get_area (AZone j) s).
Proof.
  intros (v & m & -> & _) [v0 Hv]. destruct (decide (i = j)) as [<-|Hne].
  - rewrite Hv, (get_put_area _ _ v0) by (by rewrite get_area_node). done.
  - rewrite get_put_other by congruence. by rewrite get_area_node.
Qed.

Lemma page_aligned_mod a : a mod LW_CFG_VMM_PAGE_SIZE = 0 -> page_aligned a = true.
Proof.
  intros H. unfold page_aligned. replace (LW_CFG_VMM_PAGE_SIZE - 1) with (Z.ones 12) by done. rewrite Z.land_ones by done. apply Z.eqb_eq. exact H.
Qed.

(** A region that can be added. *)
Record new_region (geos : list geometry) (addr size : Z) : Prop := {
  nr_size : LW_CFG_VMM_PAGE_SIZE <= size;
  nr_addr : 0 < addr /\ addr mod LW_CFG_VMM_PAGE_SIZE = 0 /\ addr + size <= ULONG_MAX;
  nr_apart : forall g, g ∈ geos -> apart g ((addr, size), LW_ZONE_ATTR_NONE);
  nr_left : (length geos < LW_CFG_VMM_ZONE_NUM)%nat
}.

Definition ram_blocks (size : Z) : nat := Z.to_nat (Z.shiftr size LW_CFG_VMM_PAGE_SHIFT).

Lemma size_blocks size : LW_CFG_VMM_PAGE_SIZE <= size -> 0 < Z.shiftr size LW_CFG_VMM_PAGE_SHIFT /\ Z.shiftr size LW_CFG_VMM_PAGE_SHIFT * LW_CFG_VMM_PAGE_SIZE <= size.
Proof.
  intros H. rewrite Z.shiftr_div_pow2 by done. change (2 ^ LW_CFG_VMM_PAGE_SHIFT) with LW_CFG_VMM_PAGE_SIZE. unfold LW_CFG_VMM_PAGE_SIZE in *. split.
  - apply Z.div_str_pos. lia.
  - pose proof (Z.mul_div_le size (2 ^ 12) ltac:(lia)). lia.
Qed.

(** The new zone next to the others. *)
Lemma sys_extend s s' zs T n d : sys s zs T -> let i := length zs in zone_at s' i d -> full d -> (forall j e, zs !! j = Some e -> zone_at s' j e) ->
  (i < LW_CFG_VMM_ZONE_NUM)%nat -> ulZonePhysical (VM_static s') = S i -> ulZoneArea (VM_static s') = S i ->
  (forall j, j <> i -> get_zone (ZPhysical j) s' = get_zone (ZPhysical j) s) -> (forall j, is_Some (get_area (AZone j) s') <-> is_Some (get_area (AZone j) s)) ->
  (forall j e, zs !! j = Some e -> apart (zd_geo e) (zd_geo d)) ->
  (free_cbs_of s' + length (zd_blocks d) = free_cbs_of s + n)%nat -> span (zd_blocks d) <= Z.of_nat n -> sys s' (zs ++ [d]) (T + n).
Proof.
  intros Sy i Hd Hf Hz Hi U1 U2 Hg Ha Hap Hc Hs. pose proof Sy as [S1 S2 S3 S4 S5 S6 S7 S8].
  assert (Htot : forall zs, total_span (zs ++ [d]) = total_span zs + span (zd_blocks d) /\ total_blocks (zs ++ [d]) = (total_blocks zs + length (zd_blocks d))%nat).
  { clear. induction zs as [|e zs [I1 I2]]; [unfold total_span, total_blocks; cbn; split; lia|]. destruct (total_cons e (zs ++ [d])) as [E1 E2]. destruct (total_cons e zs) as [E3 E4].
    cbn [app]. rewrite E1, E2, I1, I2, E3, E4. split; lia. }
  destruct (Htot zs) as [Ht1 Ht2]. split.
  - eapply rep_vm, Hd.
  - rewrite length_app. cbn. unfold i in *. split_and!; lia.
  - intros j. rewrite Ha. destruct (decide (j = i)) as [->|Hne]; [|rewrite Hg by done; apply S3]. split; [|apply S3].
    destruct Hd as [Hrep _ _ _ _]. apply rep_parts in Hrep as ((z & -> & _) & _). done.
  - intros j e [He|[Hj He]]%lookup_app_Some; [split; [by apply Hz|by eapply S4]|]. apply list_lookup_singleton_Some in He as [Hj0 <-].
    assert (j = i) as -> by (unfold i; lia). by split.
  - intros j z. rewrite length_app. cbn [length]. intros Hj. rewrite Hg by (unfold i; lia). apply S5. lia.
  - intros j k e f [He|[Hj He]]%lookup_app_Some [Hf'|[Hk Hf']]%lookup_app_Some Hne.
    + by eapply S6.
    + apply list_lookup_singleton_Some in Hf' as [_ <-]. by eapply Hap.
    + apply list_lookup_singleton_Some in He as [_ <-]. pose proof (Hap k f Hf') as H. unfold apart in *. lia.
    + apply list_lookup_singleton_Some in He as [? _]. apply list_lookup_singleton_Some in Hf' as [? _]. lia.
  - rewrite Ht2, S7. lia.
  - rewrite Ht1. lia.
Qed.

Lemma ram_added s geos live T addr size base junk : phys s geos live T -> new_region geos addr size -> fresh_cbs s base (ram_blocks size) -> exists s',
  API_VmmLibAddPhyRam addr size (Some (base, junk)) true s = Some (s', ERROR_NONE) /\
  phys s' (geos ++ [((addr, size), LW_ZONE_ATTR_NONE)]) live (T + ram_blocks size).
Proof.
  intros (zs & Sy & -> & L) [N1 (N2 & N3 & N4) N5 N6] (F1 & F2 & F3). rewrite length_fmap in N6. destruct (size_blocks size N1) as [Hn Hnsz]. set (n := ram_blocks size) in *.
  unfold API_VmmLibAddPhyRam, __pageCbInit, then_ok. rewrite (proj2 (Z.ltb_ge _ _)) by lia. cbn [mbind option_bind]. change (negb (ERROR_NONE =? ERROR_NONE)) with false. cbv iota.
  destruct (free_cbs_spec base junk n 0 s (sy_vm _ _ _ Sy) F1 F2) as (V1 & C1 & K1); [intros j Hj; apply F3; lia|]. fold n. fold (ram_blocks size). fold n.
  set (s1 := free_cbs n 0 base junk s) in *. pose proof (sy_len _ _ _ Sy) as (Hl & U1 & U2). set (i := length zs) in *.
  (* the zone *)
  cbn [__vmmPhysicalCreate PHYD_stSize]. rewrite (proj2 (Z.eqb_neq size 0)) by (unfold LW_CFG_VMM_PAGE_SIZE in *; lia). unfold create_physical.
  destruct (_G_vmphydescKernel (VM_static s1)) as [text data]. cbn [PHYD_ulPhyAddr PHYD_uiType]. rewrite (page_aligned_mod _ N3). cbn [negb].
  change (LW_PHYSICAL_MEM_APP =? LW_PHYSICAL_MEM_TEXT) with false. change (LW_PHYSICAL_MEM_APP =? LW_PHYSICAL_MEM_DATA) with false.
  change (LW_PHYSICAL_MEM_APP =? LW_PHYSICAL_MEM_DMA) with false. change (LW_PHYSICAL_MEM_APP =? LW_PHYSICAL_MEM_APP) with true. cbv iota.
  unfold create_zone. cbn [PHYD_ulPhyAddr PHYD_stSize]. rewrite (proj2 (Z.eqb_neq addr 0)) by lia. rewrite (cs_static _ _ C1), U1. rewrite bool_decide_eq_true_2 by lia.
  change (LW_ZONE_ATTR_NONE =? LW_ZONE_ATTR_DMA) with false. cbn [andb].
  destruct (_K_pmonoPhyPageFreeList s1) as [|p l] eqn:El; [exfalso; unfold free_cbs_of in K1; rewrite El in K1; unfold n, ram_blocks in K1; cbn in K1; lia|].
  assert (Hgz : is_Some (get_zone (ZPhysical i) s1)) by (rewrite (cs_zone _ _ C1); apply (proj1 (sy_tables _ _ _ Sy i)); lia).
  destruct (zone_create_spec s1 i addr size LW_ZONE_ATTR_NONE p l V1 Hgz El Hn N2 N3) as (s2 & -> & R2 & K2 & M2 & Z2 & A2 & T2 & D2 & P2); [unfold ULONG_MAX in *; lia|].
  cbn [mbind option_bind]. change (ERROR_NONE =? ERROR_NONE) with true. cbn [negb]. cbv iota. change (0 =? 0) with true. cbv iota.
  change (negb (ERROR_NONE =? ERROR_NONE)) with false. cbv iota. set (s3 := with_ulZonePhysical (S i) s2).
  (* the area *)
  cbn [__areaPhysicalSpaceInit PHYD_stSize PHYD_uiType PHYD_ulPhyAddr]. rewrite (proj2 (Z.eqb_neq size 0)) by (unfold LW_CFG_VMM_PAGE_SIZE in *; lia).
  change (LW_PHYSICAL_MEM_APP =? LW_PHYSICAL_MEM_DMA) with false. change (LW_PHYSICAL_MEM_APP =? LW_PHYSICAL_MEM_APP) with true. cbn [orb mbind option_bind].
  change (negb (ERROR_NONE =? ERROR_NONE)) with false. cbv iota.
  assert (EU : ulZoneArea (VM_static s3) = i) by (cbn; rewrite T2, (cs_static _ _ C1); exact U2). rewrite EU. rewrite bool_decide_eq_true_2 by lia. cbn [head mbind option_bind].
  assert (Har : is_Some (get_area (AZone i) s3)) by (change (is_Some (get_area (AZone i) s2)); rewrite A2, (cs_area _ _ C1); apply (proj2 (sy_tables _ _ _ Sy i)); lia).
  destruct Har as [a0 Har]. destruct (area_init (AZone i) addr size true s3 a0 Har) as (s4 & -> & R4 & St4). specialize (R4 eq_refl). cbn [mbind option_bind]. change (negb (ERROR_NONE =? ERROR_NONE)) with false. cbv iota.
  change (0 =? 0) with true. cbv iota. set (s5 := with_ulZoneArea (S i) s4). exists s5. split; [done|].
  assert (R3 : zone_rep s3 (ZPhysical i) PHYS ((addr, size), LW_ZONE_ATTR_NONE) [(p, first_page i addr (Z.shiftr size LW_CFG_VMM_PAGE_SHIFT))]) by (by apply static_rep).
  set (d := mkZd ((addr, size), LW_ZONE_ATTR_NONE) [(p, first_page i addr (Z.shiftr size LW_CFG_VMM_PAGE_SHIFT))] ∅).
  assert (Hd : zone_at s5 i d).
  { apply static_zone_at. split; cbn [zd_geo zd_blocks zd_map d]; [by eapply zone_area|done|done| |cbn; unfold LW_CFG_VMM_PAGE_SIZE in *; lia].
    intros q v Hq Hu. apply list_elem_of_singleton in Hq. injection Hq as -> ->. done. }
  assert (Hold : forall j e, zs !! j = Some e -> zone_at s5 j e).
  { intros j e He. destruct (sy_zone _ _ _ Sy j e He) as [Hj _]. pose proof (lookup_lt_Some _ _ _ He) as Hlt. apply static_zone_at. apply (cbs_zone_at _ s1) in Hj; [|done|done].
    assert (Hj3 : zone_at s3 j e).
    { apply static_zone_at. eapply zone_at_frame; [exact Hj|by eapply rep_vm|apply Z2; unfold i; intros [= ?]; lia|apply A2|rewrite M2; right; by eapply chain_in|].
      intros q Hq. rewrite D2. split; [|done]. apply P2. intros ->. eapply (blocks_not_spare s1 _ _ _ _ p (za_zone _ _ _ Hj) Hq). rewrite El. left. }
    eapply zone_at_area; [exact Hj3|exact St4|unfold i; lia|]. by intros q ?%elem_of_nil. }
  pose proof St4 as (x & m & E4 & _).
  assert (Hst : VM_static s4 = VM_static s3 /\ _K_pmonoPhyPageFreeList s4 = l /\ forall z, get_zone z s4 = get_zone z s3).
  { destruct (area_rest (AZone i) x (with_node m s3)) as (_ & Ef & Es & _). rewrite E4, Ef, Es. split_and!; [done|exact K2|]. intros z. rewrite get_zone_area. by destruct z. }
  destruct Hst as (Est & Ek & Ez). exists (zs ++ [d]). split; [|split; [by rewrite fmap_app|]].
  - apply (sys_extend s s5 zs T n d Sy Hd); [|done|done|by cbn; rewrite Est|done| | | | |].
    + intros q v Hq Hu. apply list_elem_of_singleton in Hq. by injection Hq as -> ->.
    + intros j Hj. change (get_zone (ZPhysical j) s4 = get_zone (ZPhysical j) s). rewrite Ez. change (get_zone (ZPhysical j) s2 = get_zone (ZPhysical j) s).
      rewrite Z2 by (intros [= ?]; lia). apply (cs_zone _ _ C1).
    + intros j. change (is_Some (get_area (AZone j) s4) <-> is_Some (get_area (AZone j) s)). rewrite (area_tables _ _ _ _ _ St4 (ex_intro _ _ Har)).
      change (is_Some (get_area (AZone j) s2) <-> is_Some (get_area (AZone j) s)). by rewrite A2, (cs_area _ _ C1).
    + intros j e He. apply N5, list_elem_of_fmap. exists e. split; [done|]. by eapply list_elem_of_lookup_2.
    + unfold free_cbs_of in *. change (_K_pmonoPhyPageFreeList s5) with (_K_pmonoPhyPageFreeList s4). rewrite Ek. rewrite El in K1. cbn in *. lia.
    + cbn [zd_blocks d]. rewrite span_cons, span_nil. cbn. unfold n, ram_blocks. lia.
  - intros a m'. rewrite (L a m'). split; intros (j & e & Hj & Hin).
    + exists j, e. split; [by apply lookup_app_l_Some|done].
    + apply lookup_app_Some in Hj as [Hj|[_ Hj]]; [by exists j, e|]. apply list_lookup_singleton_Some in Hj as [_ <-]. cbn in Hin. by apply elem_of_nil in Hin.
Qed.

(** Adding memory is refused for less than a page and without memory for control blocks, and changes nothing then; a page-aligned
    region apart from the others becomes one more region, all free, with control blocks enough for any cutting, and
    nothing that was taken before changes.  With [phys_run_refines] this holds for the memory built from nothing. *)
Theorem phys_ram s geos live T addr size base junk : phys s geos live T -> new_region geos addr size -> fresh_cbs s base (ram_blocks size) ->
  (exists s', API_VmmLibAddPhyRam addr size (Some (base, junk)) true s = Some (s', ERROR_NONE) /\
     phys s' (geos ++ [((addr, size), LW_ZONE_ATTR_NONE)]) live (T + ram_blocks size)) /\
  (forall area, API_VmmLibAddPhyRam addr size None area s = Some (s, ERROR_KERNEL_LOW_MEMORY)) /\
  (forall small cbs area, small < LW_CFG_VMM_PAGE_SIZE -> API_VmmLibAddPhyRam addr small cbs area s = Some (s, EINVAL)).
Proof.
  intros P N F. split; [by apply ram_added|]. split.
  - intros area. unfold API_VmmLibAddPhyRam, __pageCbInit, then_ok. rewrite (proj2 (Z.ltb_ge _ _)) by apply N. done.
  - intros small cbs area Hs. unfold API_VmmLibAddPhyRam. by rewrite (proj2 (Z.ltb_lt _ _)).
Qed.

(** ** A memory built from nothing *)

Definition empty_vmm : VMM :=
  mkVmm ∅ ∅ [] [] (replicate LW_CFG_VMM_ZONE_NUM zero_zone) (replicate LW_CFG_VMM_VIR_NUM zero_zone) zero_zone
    (replicate LW_CFG_VMM_ZONE_NUM zero_area) zero_area zero_static.

Lemma empty_phys : phys empty_vmm [] ∅ 0.
Proof.
  exists []. split; [|split; [done|]].
  - split; try done.
    + split; [|by intros p ?%elem_of_nil]. constructor; [by intros ?%elem_of_nil|constructor].
    + cbn. split_and!; [lia|done|done].
    + intros j. unfold get_zone, get_area. cbn [_G_vmzonePhysical _G_vmareaZoneSpace empty_vmm].
      assert (Hr : forall (A : Type) (x : A), is_Some (replicate LW_CFG_VMM_ZONE_NUM x !! j) <-> (j < LW_CFG_VMM_ZONE_NUM)%nat) by (intros A x; by rewrite lookup_lt_is_Some, length_replicate).
      split; apply Hr.
    + intros j z _ Hz. apply lookup_replicate in Hz as [-> _]. done.
  - intros a n. split; [done|]. intros (i & d & Hi & _). done.
Qed.

Definition junk_cb (n : nat) : LW_VMM_PAGE * LW_TREE_RB_NODE := (mkPage 7 7 7 7 true ZVirDev (PhyStatus 7 7 7 7), mkRbn 7 7 7 7).

Lemma demo_region : new_region [] 0x100000 0x4000.
Proof. split; [done|by split_and!|by intros g ?%elem_of_nil|cbn; unfold LW_CFG_VMM_ZONE_NUM; lia]. Qed.
Lemma demo_fresh : fresh_cbs empty_vmm 64 (ram_blocks 0x4000).
Proof. split_and!; [lia|done|]. intros j _. apply lookup_empty. Qed.

Lemma phys_ram_witness : exists s', API_VmmLibAddPhyRam 0x100000 0x4000 (Some (64, junk_cb)) true empty_vmm = Some (s', ERROR_NONE) /\
  phys s' [((0x100000, 0x4000), LW_ZONE_ATTR_NONE)] ∅ 4.
Proof. destruct (phys_ram empty_vmm [] ∅ 0 0x100000 0x4000 64 junk_cb empty_phys demo_region demo_fresh) as [H _]. exact H. Defined.

(** Four pages. *)
Definition demo_ram : VMM := match API_VmmLibAddPhyRam 0x100000 0x4000 (Some (64, junk_cb)) true empty_vmm with Some (s, _) => s | None => empty_vmm end.

Lemma demo_ram_phys : phys demo_ram [((0x100000, 0x4000), LW_ZONE_ATTR_NONE)] ∅ 4.
Proof.
  destruct (ram_added empty_vmm [] ∅ 0 0x100000 0x4000 64 junk_cb empty_phys demo_region demo_fresh) as (s' & E & H).
  assert (Hd : demo_ram = s') by exact (f_equal (fun r : option (VMM * Z) => match r with Some (s, _) => s | None => empty_vmm end) E). by rewrite Hd.
Qed.

(** A page; two aligned pages, which leave a gap; no room for two more; release of an unknown and of the known addresses. *)
Definition demo_calls : list phy_op :=
  [OAlloc 100 0 0; OAlloc 0x2000 0x2000 0; OAlloc 0x1001 0 0; OFree 0x101000; OFree 0x100000; OAlloc 0x1001 0 0; OFree 0x102000; OFree 0x100000].

Lemma demo_args : Forall op_args demo_calls.
Proof. unfold demo_calls. repeat constructor; unfold word; cbn; lia. Qed.

Lemma demo_results : snd <$> phy_execs demo_calls demo_ram =
  Some [(0x100000, 0); (0x102000, 0); (NULL, ERROR_VMM_LOW_PHYSICAL_PAGE); (NULL, ERROR_VMM_PHYSICAL_PAGE); (NULL, 0); (0x100000, 0); (NULL, 0); (NULL, 0)].
Proof. vm_compute. done. Qed.

Lemma phys_run_refines_witness : exists live', phy_specs [((0x100000, 0x4000), LW_ZONE_ATTR_NONE)] demo_calls ∅ live'
  [(0x100000, 0); (0x102000, 0); (NULL, ERROR_VMM_LOW_PHYSICAL_PAGE); (NULL, ERROR_VMM_PHYSICAL_PAGE); (NULL, 0); (0x100000, 0); (NULL, 0); (NULL, 0)].
Proof.
  destruct (phys_run_refines demo_calls demo_ram _ _ _ demo_ram_phys demo_args) as (s' & live' & rs & E & _ & H). exists live'.
  pose proof demo_results as Hr. rewrite E in Hr. injection Hr as <-. exact H.
Defined.

Lemma phys_errors_witness : exists s' r e, phy_exec (OAlloc 100 3 0) demo_ram = Some (s', r, e) /\ (e <> ERROR_NONE -> s' = demo_ram).
Proof. apply (phys_errors (OAlloc 100 3 0) demo_ram _ _ _ demo_ram_phys); [|exact I]. split; unfold word; lia. Defined.

Lemma phys_returns_witness : exists s' live' rs, phy_execs demo_calls demo_ram = Some (s', rs) /\
  phy_specs [((0x100000, 0x4000), LW_ZONE_ATTR_NONE)] demo_calls ∅ live' rs /\
  (live' = ∅ -> (forall i g, [((0x100000, 0x4000), LW_ZONE_ATTR_NONE)] !! i = Some g -> whole s' i g) /\ (length (_K_pmonoPhyPageFreeList s') + 1)%nat = 4%nat).
Proof.
  apply (phys_returns demo_calls demo_ram _ _ _ demo_ram_phys demo_args). intros g Hg. apply list_elem_of_singleton in Hg as ->. done.
Defined.

(** When there is no memory for the new area the zone exists all the same, and an allocation from it fails badly. *)
Lemma ram_half_added : exists s', API_VmmLibAddPhyRam 0x100000 0x4000 (Some (64, junk_cb)) false empty_vmm = Some (s', ERROR_KERNEL_LOW_MEMORY) /\
  ulZonePhysical (VM_static s') = 1%nat /\ ulZoneArea (VM_static s') = 0%nat /\ API_VmmPhyAlloc 100 s' = None.
Proof. eexists. split; [vm_compute; reflexivity|]. vm_compute. done. Qed.
