(* ===== verification/PageRun.v ===== *)
(** * Virtual memory: the contracts of allocation and release of pages

    For zones of physical and of virtual pages alike. *)

From S2P Require Import Prelude Lists RbTree RbSpec RbLife Vmm Area AreaSpec AreaRun PageLib PageSpec PageFit PageLife VirPage PhyPage PhySpec VmmApi PhyZone PhySys PhyRun PhyRam.

(** [p] with the content [w] was cut out of the free block [v], a smallest one that has room. *)
Record best_fit (bs bs' : list block) (n k : Z) (p : ptr) (w v : LW_VMM_PAGE) : Prop := {
  bf_from : (exists q, (q, v) ∈ bs) /\ PAGE_bUsed v = false /\ fits n (2 ^ k - 1) v;
  bf_least : forall q x, (q, x) ∈ bs -> PAGE_bUsed x = false -> fits n (2 ^ k - 1) x -> PAGE_ulCount v <= PAGE_ulCount x;
  bf_size : PAGE_ulCount w = n /\ PAGE_ulPageAddr v <= PAGE_ulPageAddr w /\ block_end w <= block_end v;
  bf_align : 12 <= k -> PAGE_ulPageAddr w = align_up (PAGE_ulPageAddr v) k;
  bf_used : used_blocks bs' ≡ₚ (p, w) :: used_blocks bs
}.

Lemma allocated_best s s' zid ty geo bs n k p bs' : zone_rep s zid ty geo bs -> 0 < n -> 0 <= k < 64 -> allocated s s' zid ty geo bs n (2 ^ k - 1) p bs' ->
  exists w v, best_fit bs bs' n k p w v /\ PAGE_status w = handed ty.
Proof.
  intros Hz Hn Hk [(l1 & q & v & l2 & L & w & R & -> & -> & Hu & Hf & Hb & Hc & Hst & _) _]. exists w, v. split; [|done].
  pose proof (carved_used _ _ _ _ _ _ Hc) as Hcu. pose proof (zone_block_addr geo l1 q v l2 (proj2 Hz)) as (B1 & B2 & B3).
  pose proof (left_pages_range (PAGE_ulPageAddr v) (2 ^ k - 1)) as Hl. destruct Hc as [_ (_ & C1 & C2) _]. cbn [snd] in C1, C2. split.
  - split; [exists q; set_solver|done].
  - exact Hb.
  - unfold fits, block_end, LW_CFG_VMM_PAGE_SIZE in *. rewrite C1, C2. split; [done|lia].
  - intros Hk12. rewrite C2. apply left_pages_spec; [|done|lia]. pose proof (zone_counts _ _ q v (proj2 Hz) ltac:(set_solver)). unfold ULONG_MAX, LW_CFG_VMM_PAGE_SIZE in *. lia.
  - rewrite !(used_blocks_app l1), used_blocks_app, Hcu, used_blocks_cons. cbn [snd]. rewrite Hu. solve_Permutation.
Qed.

(** An allocation of [n] pages aligned to [2 ^ k] bytes in a consistent zone returns.  It fails only when no free block has room for
    them, or, for virtual pages, without memory for a control block, and leaves the blocks as they are; else it
    cuts the first aligned [n] pages out of a smallest free block that has room, keeps every other used block, and the
    zone stays consistent (blocks tile it, no two free ones are neighbours, the free hash and counter agree). *)
Theorem page_allocates s zid ty geo bs n k memL memR : zone_rep s zid ty geo bs -> 0 < n <= PAGES_MAX -> 0 <= k < 64 ->
  (ty <> __VMM_PAGE_TYPE_PHYSICAL -> fresh_mems s memL memR) -> cbs_enough s ty bs -> exists s' p bs',
  __pageAllocateAlign zid n (2 ^ k) ty memL memR s = Some (s', p) /\ zone_rep s' zid ty geo bs' /\
  ((p = NULL /\ bs' = bs /\ (ty <> __VMM_PAGE_TYPE_PHYSICAL \/ forall q x, (q, x) ∈ bs -> PAGE_bUsed x = false -> ~ fits n (2 ^ k - 1) x)) \/
   (p <> NULL /\ exists w v, best_fit bs bs' n k p w v /\ PAGE_status w = handed ty)).
Proof.
  intros Hz Hn Hk Hm Hc. assert (E1 : 2 ^ k -64 1 = 2 ^ k - 1).
  { assert (0 < 2 ^ k) by (apply Z.pow_pos_nonneg; lia). assert (2 ^ k <= 2 ^ 63) by (apply Z.pow_le_mono_r; lia). apply wrap_small. lia. }
  destruct (page_align_spec s zid ty geo bs n (2 ^ k) memL memR Hz Hn Hm Hc) as (s' & p & E & _ & Hr). rewrite E1 in Hr.
  destruct Hr as [(-> & -> & Hno)|[(-> & Hz' & Ht)|(Hp & bs' & Hal)]].
  - exists s, NULL, bs. split_and!; [done|done|]. left. split_and!; [done|done|by right].
  - exists s', NULL, bs. split_and!; [done|done|]. left. split_and!; [done|done|by left].
  - exists s', p, bs'. split_and!; [done|apply Hal|]. right. split; [done|]. eapply allocated_best; [exact Hz|lia|done|exact Hal].
Qed.

(** A release of a used page in a consistent zone returns; exactly this page is no longer used, whatever the state of
    its neighbours, and the zone is consistent again, free neighbours being merged. *)
Theorem page_releases s zid ty geo bs p v : zone_rep s zid ty geo bs -> (p, v) ∈ bs -> PAGE_bUsed v = true -> exists s' bs',
  __pageFree zid p s = Some s' /\ zone_rep s' zid ty geo bs' /\ used_blocks bs ≡ₚ (p, v) :: used_blocks bs'.
Proof.
  intros Hz (l1 & l2 & ->)%list_elem_of_split Hu. destruct (free_page_spec s zid ty geo l1 p v l2 Hz Hu) as (s' & bs' & E & _ & [Hub _ Hz']).
  exists s', bs'. split_and!; [done|done|]. rewrite Hub, used_blocks_app, used_blocks_cons. cbn [snd]. rewrite Hu. solve_Permutation.
Qed.

(** The separate routine for unaligned requests is the aligned one with an alignment of one byte. *)
Theorem page_unaligned s zid ty geo bs n mem memL : zone_rep s zid ty geo bs -> 0 < n <= PAGES_MAX ->
  __pageAllocate zid n ty mem s = __pageAllocateAlign zid n 1 ty memL mem s.
Proof. apply allocate_unaligned. Qed.

(** ** A zone of eight pages *)

Definition demo_pool : VMM := free_cbs 9 0 64 junk_cb empty_vmm.
Definition demo_zone : VMM := match __pageZoneCreate (ZPhysical 0) 0x101000 0x8000 0 PHYS None demo_pool with Some (s, _) => s | None => empty_vmm end.
Definition demo_first : block := (1216, first_page 0 0x101000 8).

Lemma demo_zone_rep : zone_rep demo_zone (ZPhysical 0) PHYS ((0x101000, 0x8000), 0) [demo_first].
Proof.
  destruct (free_cbs_spec 64 junk_cb 9 0 empty_vmm) as (V & _ & _); [|done|done|by intros j _; apply lookup_empty|].
  { split; [|by intros p ?%elem_of_nil]. constructor; [by intros ?%elem_of_nil|constructor]. }
  destruct (zone_create_spec demo_pool 0 0x101000 0x8000 0 1216 [1072; 928; 784; 640; 496; 352; 208; 64] V) as (s' & E & R & _); [by exists zero_zone|by vm_compute|done..|].
  assert (Hd : demo_zone = s') by exact (f_equal (fun r : option (VMM * Z) => match r with Some (s, _) => s | None => empty_vmm end) E). rewrite Hd. exact R.
Qed.

Lemma demo_cbs : cbs_enough demo_zone PHYS [demo_first].
Proof. intros _ p v Hp _. apply list_elem_of_singleton in Hp. injection Hp as -> ->. vm_compute. done. Qed.

Lemma page_allocates_witness : exists s' p bs', __pageAllocateAlign (ZPhysical 0) 2 (2 ^ 14) PHYS None None demo_zone = Some (s', p) /\
  zone_rep s' (ZPhysical 0) PHYS ((0x101000, 0x8000), 0) bs' /\
  ((p = NULL /\ bs' = [demo_first] /\ (PHYS <> __VMM_PAGE_TYPE_PHYSICAL \/ forall q x, (q, x) ∈ [demo_first] -> PAGE_bUsed x = false -> ~ fits 2 (2 ^ 14 - 1) x)) \/
   (p <> NULL /\ exists w v, best_fit [demo_first] bs' 2 14 p w v /\ PAGE_status w = handed PHYS)).
Proof.
  apply (page_allocates demo_zone (ZPhysical 0) PHYS _ _ 2 14 None None demo_zone_rep); [unfold PAGES_MAX; lia|lia|intros H; by destruct H|exact demo_cbs].
Defined.

(** One allocation in it. *)
Lemma demo_taken : exists s p w bs, __pageAllocateAlign (ZPhysical 0) 3 (2 ^ 14) PHYS None None demo_zone = Some (s, p) /\
  zone_rep s (ZPhysical 0) PHYS ((0x101000, 0x8000), 0) bs /\ (p, w) ∈ bs /\ PAGE_bUsed w = true.
Proof.
  destruct (page_align_spec demo_zone (ZPhysical 0) PHYS _ _ 3 (2 ^ 14) None None demo_zone_rep) as (s & p & E & _ & Hr); [unfold PAGES_MAX; lia|intros H; by destruct H|exact demo_cbs|].
  destruct Hr as [(_ & _ & Hno)|[(_ & _ & H)|(_ & bs & Hal)]].
  - exfalso. apply (Hno 1216 (first_page 0 0x101000 8)); [left|done|vm_compute; done].
  - by destruct H.
  - destruct (allocated_best _ _ _ _ _ _ 3 14 _ _ demo_zone_rep ltac:(lia) ltac:(lia) Hal) as (w & v & Hb & _). exists s, p, w, bs. split; [done|]. split; [apply Hal|].
    apply elem_used. rewrite (bf_used _ _ _ _ _ _ _ Hb). left.
Qed.

Lemma page_releases_witness : exists s p w bs s' bs', __pageAllocateAlign (ZPhysical 0) 3 (2 ^ 14) PHYS None None demo_zone = Some (s, p) /\
  __pageFree (ZPhysical 0) p s = Some s' /\ zone_rep s' (ZPhysical 0) PHYS ((0x101000, 0x8000), 0) bs' /\ used_blocks bs ≡ₚ (p, w) :: used_blocks bs'.
Proof.
  destruct demo_taken as (s & p & w & bs & E & Hz & Hp & Hu). destruct (page_releases s (ZPhysical 0) PHYS _ bs p w Hz Hp Hu) as (s' & bs' & E' & Hz' & H).
  exists s, p, w, bs, s', bs'. exact (conj E (conj E' (conj Hz' H))).
Defined.

Lemma page_unaligned_witness : __pageAllocate (ZPhysical 0) 2 PHYS None demo_zone = __pageAllocateAlign (ZPhysical 0) 2 1 PHYS None None demo_zone.
Proof. apply (page_unaligned demo_zone (ZPhysical 0) PHYS _ _ 2 None None demo_zone_rep). unfold PAGES_MAX. lia. Defined.
