(* ===== verification/Thread.v ===== *)
(** * Thread control: kernel/core/_ThreadStatus.c, _ThreadMiscLib.c, _ThreadSafeLib.c, the scheduling
    points of _Sched.c, and the calls of kernel/interface that suspend, stop, put to
    sleep and wake threads

    The fields of the thread control blocks these use, next to the kernel of the waiting
    services (file Kernel), and every call with the kernel locked.  A thread that runs
    on another CPU cannot be suspended there: the caller leaves a request with
    it and waits; the other CPU, told by an interrupt, carries the request out at its next
    scheduling point. *)

From S2P Require Import Prelude Lists Bitmap Sched SchedSpec Object Wakeup Kernel Event Semaphore Mutex.

(** ** k_typemacro.h, k_class.h, k_error.h *)

Definition LW_THREAD_STATUS_INIT : Z := 0x0040.
Definition LW_THREAD_STATUS_SUSPEND : Z := 0x0080.
Definition LW_THREAD_STATUS_STOP : Z := 0x0100.
Definition LW_THREAD_STATUS_WDEATH : Z := 0x0200.
Definition LW_THREAD_STATUS_WSTAT : Z := 0x0400.
Definition LW_TCB_REQ_SUSPEND : Z := 1.
Definition LW_TCB_REQ_STOP : Z := 2.
Definition LW_TCB_REQ_WDEATH : Z := 3.
Definition EINVAL : Z := 22.
Definition ERROR_THREAD_NULL : Z := 507.
Definition ERROR_THREAD_NOT_INIT : Z := 509.
Definition ERROR_THREAD_NOT_READY : Z := 514.
Definition ERROR_THREAD_OTHER_DELETE : Z := 516.
Definition ERROR_THREAD_NOT_SLEEP : Z := 520.

(** ** Data *)

(** The control fields of [LW_CLASS_TCB].  The list of requests names the threads whose
    [TCB_lineStatusPend] is in it. *)
Record CTL := mkCtl {
  TCB_ulSuspendNesting : Z;
  TCB_ulStopNesting : Z;
  TCB_ptcbWaitStatus : option Z;
  TCB_uiStatusChangeReq : Z;
  TCB_plineStatusReqHeader : list Z
}.

(** The kernel, the control fields of each thread, the thread table
    [_K_ptcbTCBIdTable], the CPUs with a pending inter-processor interrupt, and LW_CFG_MAX_THREADS. *)
Record THREADS := mkThreads {
  T_kern : KERNEL;
  T_ctl : gmap Z CTL;
  _K_ptcbTCBIdTable : gmap Z Z;
  T_ipi : gset Z;
  LW_CFG_MAX_THREADS : Z
}.

Definition set_TCB_ulSuspendNesting (v : Z) (c : CTL) : CTL :=
  mkCtl v (TCB_ulStopNesting c) (TCB_ptcbWaitStatus c) (TCB_uiStatusChangeReq c) (TCB_plineStatusReqHeader c).
Definition set_TCB_ulStopNesting (v : Z) (c : CTL) : CTL :=
  mkCtl (TCB_ulSuspendNesting c) v (TCB_ptcbWaitStatus c) (TCB_uiStatusChangeReq c) (TCB_plineStatusReqHeader c).
Definition set_TCB_ptcbWaitStatus (v : option Z) (c : CTL) : CTL :=
  mkCtl (TCB_ulSuspendNesting c) (TCB_ulStopNesting c) v (TCB_uiStatusChangeReq c) (TCB_plineStatusReqHeader c).
Definition set_TCB_uiStatusChangeReq (v : Z) (c : CTL) : CTL :=
  mkCtl (TCB_ulSuspendNesting c) (TCB_ulStopNesting c) (TCB_ptcbWaitStatus c) v (TCB_plineStatusReqHeader c).
Definition set_TCB_plineStatusReqHeader (v : list Z) (c : CTL) : CTL :=
  mkCtl (TCB_ulSuspendNesting c) (TCB_ulStopNesting c) (TCB_ptcbWaitStatus c) (TCB_uiStatusChangeReq c) v.

Definition set_kern (k : KERNEL) (s : THREADS) : THREADS :=
  mkThreads k (T_ctl s) (_K_ptcbTCBIdTable s) (T_ipi s) (LW_CFG_MAX_THREADS s).
Definition upd_ctl (t : Z) (f : CTL -> CTL) (s : THREADS) : THREADS :=
  mkThreads (T_kern s) (alter f t (T_ctl s)) (_K_ptcbTCBIdTable s) (T_ipi s) (LW_CFG_MAX_THREADS s).
Definition set_ipi (i : gset Z) (s : THREADS) : THREADS :=
  mkThreads (T_kern s) (T_ctl s) (_K_ptcbTCBIdTable s) i (LW_CFG_MAX_THREADS s).

(** [ptcb->TCB_usStatus |= st] and [&= ~st]. *)
Definition status_or (t st : Z) (k : KERNEL) : option KERNEL :=
  o ← status k t; Some (set_status t (Z.lor o st) k).
Definition status_andn (t st : Z) (k : KERNEL) : option KERNEL :=
  o ← status k t; Some (set_status t (Z.ldiff o st) k).

(** k_sched.h *)
Definition __LW_THREAD_IS_RUNNING (k : KERNEL) (ptcb : Z) : option bool :=
  T ← tcbs (K_sched k) !! ptcb;
  c ← cpus (K_sched k) !! TCB_ulCPUId T;
  Some (CPU_ptcbTCBCur c =? ptcb).

Definition thread_is_ready (k : KERNEL) (ptcb : Z) : option bool :=
  T ← tcbs (K_sched k) !! ptcb; Some (__LW_THREAD_IS_READY T).

(** [if (__LW_THREAD_IS_READY(ptcb)) __DEL_FROM_READY_RING(ptcb, _GetPcb(ptcb))]. *)
Definition unready_if (k : KERNEL) (ptcb : Z) : option KERNEL :=
  b ← thread_is_ready k ptcb;
  if (b : bool) then unready k ptcb else Some k.

(** ** _ThreadStatus.c *)

(** _SmpIpi.c: all CPUs are active in this configuration. *)
Definition _SmpUpdateIpi (s : THREADS) (pcpu : Z) : THREADS := set_ipi ({[pcpu]} ∪ T_ipi s) s.

Definition _ThreadWaitStatus (s : THREADS) (ptcbCur ptcbDest uiStatusReq : Z) : option THREADS :=
  k ← unready_if (T_kern s) ptcbCur;
  let s := set_kern k s in
  let s := upd_ctl ptcbCur (set_TCB_ptcbWaitStatus (Some ptcbDest)) s in
  let s := upd_ctl ptcbCur (set_TCB_uiStatusChangeReq uiStatusReq) s in
  k ← status_or ptcbCur LW_THREAD_STATUS_WSTAT (T_kern s);
  let s := set_kern k s in
  Some (upd_ctl ptcbDest (fun c => set_TCB_plineStatusReqHeader (ptcbCur :: TCB_plineStatusReqHeader c) c) s).

(** The [switch (uiStatusReq)] on the thread that changes. *)
Definition status_switch (s : THREADS) (ptcb uiStatusReq : Z) : option THREADS :=
  if uiStatusReq =? LW_TCB_REQ_SUSPEND then
    let s := upd_ctl ptcb (fun c => set_TCB_ulSuspendNesting (TCB_ulSuspendNesting c +64 1) c) s in
    k ← status_or ptcb LW_THREAD_STATUS_SUSPEND (T_kern s); Some (set_kern k s)
  else if uiStatusReq =? LW_TCB_REQ_STOP then
    let s := upd_ctl ptcb (fun c => set_TCB_ulStopNesting (TCB_ulStopNesting c +64 1) c) s in
    k ← status_or ptcb LW_THREAD_STATUS_STOP (T_kern s); Some (set_kern k s)
  else if uiStatusReq =? LW_TCB_REQ_WDEATH then
    k ← status_or ptcb LW_THREAD_STATUS_WDEATH (T_kern s); Some (set_kern k s)
  else Some s.

(** A thread that waits for a status change goes on. *)
Definition wstat_end (k : KERNEL) (ptcb : Z) : option KERNEL :=
  b ← thread_is_ready k ptcb;
  if (b : bool) then Some k
  else k ← status_andn ptcb LW_THREAD_STATUS_WSTAT k; ready_if k ptcb LW_SCHED_ACT_INTERRUPT.

(** One turn of the loop of [_ThreadStatusChangeCur]: the request of [ptcb]. *)
Definition change_one (s : THREADS) (ptcbCur ptcb : Z) : option THREADS :=
  c ← T_ctl s !! ptcb;
  s ← status_switch s ptcbCur (TCB_uiStatusChangeReq c);
  let s := upd_ctl ptcb (fun c => set_TCB_uiStatusChangeReq 0 (set_TCB_ptcbWaitStatus None c)) s in
  let s := upd_ctl ptcbCur (fun c => set_TCB_plineStatusReqHeader (remove_node ptcb (TCB_plineStatusReqHeader c)) c) s in
  k ← wstat_end (T_kern s) ptcb;
  Some (set_kern k s).

Fixpoint change_loop (n : nat) (s : THREADS) (ptcbCur : Z) : option THREADS :=
  c ← T_ctl s !! ptcbCur;
  match TCB_plineStatusReqHeader c, n with
  | [], _ => Some s
  | _ :: _, O => None
  | ptcb :: _, S n => s ← change_one s ptcbCur ptcb; change_loop n s ptcbCur
  end.

Definition _ThreadStatusChangeCur (s : THREADS) (pcpuCur : Z) : option THREADS :=
  p ← cpus (K_sched (T_kern s)) !! pcpuCur;
  let ptcbCur := CPU_ptcbTCBCur p in
  c ← T_ctl s !! ptcbCur;
  match TCB_plineStatusReqHeader c with
  | [] => Some s
  | l => k ← unready_if (T_kern s) ptcbCur; change_loop (length l) (set_kern k s) ptcbCur
  end.

(** Result: the error code. *)
Definition _ThreadStatusChange (s : THREADS) (c : CALL) (ptcb uiStatusReq : Z) : option (THREADS * Z) :=
  let ptcbCur := LW_TCB_GET_CUR c in
  let change2 s :=
    let s := upd_ctl ptcbCur (set_TCB_uiStatusChangeReq 0) s in
    s ← status_switch s ptcb uiStatusReq; Some (s, ERROR_NONE) in
  b ← thread_is_ready (T_kern s) ptcb;
  if ptcb =? ptcbCur then k ← unready_if (T_kern s) ptcb; change2 (set_kern k s)
  else if negb b then change2 s
  else if negb (LW_CPU_GET_CUR_NESTING c =? 0) then Some (s, ERROR_KERNEL_IN_ISR)
  else
    r ← __LW_THREAD_IS_RUNNING (T_kern s) ptcb;
    if negb r then k ← unready (T_kern s) ptcb; change2 (set_kern k s)
    else
      s ← _ThreadWaitStatus s ptcbCur ptcb uiStatusReq;
      T ← tcbs (K_sched (T_kern s)) !! ptcb;
      Some (_SmpUpdateIpi s (TCB_ulCPUId T), ERROR_NONE).

(** ** _Sched.c: scheduling points *)

Definition __LW_STATUS_CHANGE_EN (k : KERNEL) (ptcb pcpu : Z) : option bool :=
  p ← cpus (K_sched k) !! pcpu;
  T ← tcbs (K_sched k) !! ptcb;
  Some ((CPU_ulInterNesting p =? 0) && (TCB_ulThreadLockCounter T <=? 1)).

(** The requests to the running thread, where they may be carried out now. *)
Definition status_point (s : THREADS) (pcpuCur : Z) : option THREADS :=
  p ← cpus (K_sched (T_kern s)) !! pcpuCur;
  en ← __LW_STATUS_CHANGE_EN (T_kern s) (CPU_ptcbTCBCur p) pcpuCur;
  if (en : bool) then _ThreadStatusChangeCur s pcpuCur else Some s.

(** [_SchedGetCand] and what follows it. *)
Definition schedule_tail (s : THREADS) (pcpuCur : Z) : option THREADS :=
  r ← SchedSpec._Schedule (K_sched (T_kern s)) pcpuCur;
  Some (set_kern (set_sched r (T_kern s)) s).

Definition _Schedule (s : THREADS) (pcpuCur : Z) : option THREADS :=
  p ← cpus (K_sched (T_kern s)) !! pcpuCur;
  c ← T_ctl s !! CPU_ptcbTCBCur p;
  s ← match TCB_plineStatusReqHeader c with
      | [] => Some s
      | _ => status_point s pcpuCur
      end;
  schedule_tail s pcpuCur.

(** At the end of an interrupt. *)
Definition _ScheduleInt (s : THREADS) (pcpuCur : Z) : option THREADS :=
  s ← status_point s pcpuCur;
  schedule_tail s pcpuCur.

(** The CPU takes its inter-processor interrupt. *)
Definition ipi_taken (s : THREADS) (pcpuCur : Z) : option THREADS :=
  _ScheduleInt (set_ipi (T_ipi s ∖ {[pcpuCur]}) s) pcpuCur.

(** ** _ThreadMiscLib.c, ThreadLock.c, ThreadUnlock.c: the scheduling lock of a thread *)

Definition PX_ERROR : Z := -1.

Definition set_TCB_ulThreadLockCounter (v : Z) (t : TCB) : TCB :=
  mkTCB (TCB_ucPriority t) (TCB_ucSchedPolicy t) (TCB_ucSchedActivateMode t) (TCB_ucSchedActivate t) (TCB_usSchedSlice t)
    (TCB_usSchedCounter t) (TCB_bCPULock t) (TCB_ulCPULock t) (TCB_ulCPUId t) (TCB_bIsCand t) (TCB_usStatus t) v.
Definition set_thread_lock (ptcb v : Z) (s : THREADS) : THREADS :=
  set_kern (set_sched (upd_tcb ptcb (set_TCB_ulThreadLockCounter v) (K_sched (T_kern s))) (T_kern s)) s.

Definition _ThreadLock (s : THREADS) (c : CALL) : option THREADS :=
  if negb (LW_SYS_STATUS_IS_RUNNING c) then Some s
  else
    let ptcbCur := LW_TCB_GET_CUR c in
    T ← tcbs (K_sched (T_kern s)) !! ptcbCur;
    if TCB_ulThreadLockCounter T =? ULONG_MAX then Some s
    else Some (set_thread_lock ptcbCur (TCB_ulThreadLockCounter T +64 1) s).

(** [_ThreadSched] also runs the jobs of the kernel's queue, which are not part of this state. *)
Definition _ThreadUnlock (s : THREADS) (c : CALL) (pcpuCur : Z) : option THREADS :=
  if negb (LW_SYS_STATUS_IS_RUNNING c) then Some s
  else
    let ptcbCur := LW_TCB_GET_CUR c in
    T ← tcbs (K_sched (T_kern s)) !! ptcbCur;
    let s := if TCB_ulThreadLockCounter T =? 0 then s else set_thread_lock ptcbCur (TCB_ulThreadLockCounter T - 1) s in
    b ← __COULD_SCHED (K_sched (T_kern s)) pcpuCur 0;
    if (b : bool) then _Schedule s pcpuCur else Some s.

Definition API_ThreadLock (s : THREADS) (c : CALL) : option (THREADS * Z) :=
  if negb (LW_CPU_GET_CUR_NESTING c =? 0) then Some (s, PX_ERROR)
  else s ← _ThreadLock s c; Some (s, ERROR_NONE).
Definition API_ThreadUnlock (s : THREADS) (c : CALL) (pcpuCur : Z) : option (THREADS * Z) :=
  if negb (LW_CPU_GET_CUR_NESTING c =? 0) then Some (s, PX_ERROR)
  else s ← _ThreadUnlock s c pcpuCur; Some (s, ERROR_NONE).

(** ** inlObjectCheck.h and the checks of the calls *)

Definition _Thread_Invalid (s : THREADS) (usIndex : Z) : bool :=
  match _K_ptcbTCBIdTable s !! usIndex with None => true | Some _ => false end.
Definition _Thread_Index_Invalid (s : THREADS) (usIndex : Z) : bool :=
  (LW_CFG_MAX_THREADS s <=? usIndex) || (usIndex <? LW_NCPUS (K_sched (T_kern s))).

(** The thread of a handle, or the error code; [bad] is the check of the index. *)
Definition thread_of (bad : THREADS -> Z -> bool) (s : THREADS) (ulId : Z) : Z + Z :=
  if negb (_ObjectClassOK ulId _OBJECT_THREAD) then inl ERROR_KERNEL_HANDLE_NULL
  else if bad s (_ObjectGetIndex ulId) then inl ERROR_THREAD_NULL
  else match _K_ptcbTCBIdTable s !! _ObjectGetIndex ulId with
       | None => inl ERROR_THREAD_NULL
       | Some ptcb => inr ptcb
       end.

(** The check some calls make: [usIndex >= LW_CFG_MAX_THREADS]. *)
Definition index_beyond (s : THREADS) (usIndex : Z) : bool := LW_CFG_MAX_THREADS s <=? usIndex.

(** ** ThreadSuspend.c, ThreadResume.c, ThreadForceResume.c, ThreadIsSuspend.c *)

Definition API_ThreadSuspend (s : THREADS) (c : CALL) (ulId : Z) : option (THREADS * Z) :=
  match thread_of _Thread_Index_Invalid s ulId with
  | inl err => Some (s, err)
  | inr ptcb => _ThreadStatusChange s c ptcb LW_TCB_REQ_SUSPEND
  end.

Definition deleting (s : THREADS) (ptcb : Z) : option bool :=
  w ← K_wait (T_kern s) !! ptcb; Some (negb (TCB_iDeleteProcStatus w =? 0)).

(** The last suspension is gone. *)
Definition suspend_end (s : THREADS) (ptcb : Z) : option THREADS :=
  k ← status_andn ptcb LW_THREAD_STATUS_SUSPEND (T_kern s);
  k ← ready_if k ptcb LW_SCHED_ACT_INTERRUPT;
  Some (set_kern k s).

(** _ThreadSafeLib.c; [API_ThreadResume] has the same body. *)
Definition _ThreadSafeResume (s : THREADS) (ptcb : Z) : option THREADS :=
  x ← T_ctl s !! ptcb;
  if TCB_ulSuspendNesting x =? 0 then Some s
  else
    let s := upd_ctl ptcb (set_TCB_ulSuspendNesting (TCB_ulSuspendNesting x - 1)) s in
    if TCB_ulSuspendNesting x - 1 =? 0 then suspend_end s ptcb else Some s.

Definition API_ThreadResume (s : THREADS) (ulId : Z) : option (THREADS * Z) :=
  match thread_of _Thread_Index_Invalid s ulId with
  | inl err => Some (s, err)
  | inr ptcb =>
    d ← deleting s ptcb;
    if (d : bool) then Some (s, ERROR_THREAD_OTHER_DELETE)
    else s ← _ThreadSafeResume s ptcb; Some (s, ERROR_NONE)
  end.

Definition API_ThreadForceResume (s : THREADS) (ulId : Z) : option (THREADS * Z) :=
  match thread_of _Thread_Index_Invalid s ulId with
  | inl err => Some (s, err)
  | inr ptcb =>
    d ← deleting s ptcb;
    if (d : bool) then Some (s, ERROR_THREAD_OTHER_DELETE)
    else
      x ← T_ctl s !! ptcb;
      if TCB_ulSuspendNesting x =? 0 then Some (s, ERROR_NONE)
      else s ← suspend_end (upd_ctl ptcb (set_TCB_ulSuspendNesting 0) s) ptcb; Some (s, ERROR_NONE)
  end.

(** Result: the error code, and what is returned. *)
Definition API_ThreadIsSuspend (s : THREADS) (ulId : Z) : option (Z * Z) :=
  match thread_of _Thread_Index_Invalid s ulId with
  | inl err => Some (err, 0)
  | inr ptcb => x ← T_ctl s !! ptcb; Some (ERROR_NONE, TCB_ulSuspendNesting x)
  end.

(** ** ThreadStop.c *)

Definition API_ThreadStop (s : THREADS) (c : CALL) (ulId : Z) : option (THREADS * Z) :=
  match thread_of index_beyond s ulId with
  | inl err => Some (s, err)
  | inr ptcb =>
    d ← deleting s ptcb;
    if (d : bool) then Some (s, ERROR_THREAD_NULL)
    else _ThreadStatusChange s c ptcb LW_TCB_REQ_STOP
  end.

(** The end of the call, when its thread runs again: a request that is still
    there means that the other thread has gone. *)
Definition API_ThreadStop_resume (s : THREADS) (ptcbCur ulError : Z) : option (THREADS * Z) :=
  x ← T_ctl s !! ptcbCur;
  if negb (TCB_uiStatusChangeReq x =? 0)
  then Some (upd_ctl ptcbCur (set_TCB_uiStatusChangeReq 0) s, ERROR_THREAD_NULL)
  else Some (s, ulError).

Definition _ThreadContinue (s : THREADS) (ptcb : Z) (bForce : bool) : option THREADS :=
  st ← status (T_kern s) ptcb;
  if negb (has_option st LW_THREAD_STATUS_STOP) then Some s
  else
    x ← T_ctl s !! ptcb;
    if TCB_ulStopNesting x =? 0 then Some s
    else
      let s := upd_ctl ptcb (set_TCB_ulStopNesting (TCB_ulStopNesting x - 1)) s in
      if (TCB_ulStopNesting x - 1 =? 0) || bForce then
        let s := upd_ctl ptcb (set_TCB_ulStopNesting 0) s in
        k ← status_andn ptcb LW_THREAD_STATUS_STOP (T_kern s);
        k ← ready_if k ptcb LW_SCHED_ACT_INTERRUPT;
        Some (set_kern k s)
      else Some s.

Definition API_ThreadContinue (s : THREADS) (ulId : Z) : option (THREADS * Z) :=
  match thread_of index_beyond s ulId with
  | inl err => Some (s, err)
  | inr ptcb => s ← _ThreadContinue s ptcb false; Some (s, ERROR_NONE)
  end.

(** _ThreadMiscLib.c: the thread is to be deleted. *)
Definition _ThreadDeleteWaitDeath (s : THREADS) (c : CALL) (ptcbDel : Z) : option THREADS :=
  fst <$> _ThreadStatusChange s c ptcbDel LW_TCB_REQ_WDEATH.

(** ** ThreadWakeup.c *)

(** The part behind the checks: the delay and the wait end as by a time-out. *)
Definition wake_up (k : KERNEL) (ptcb : Z) : option KERNEL :=
  k ← stop_delay k ptcb;
  st ← status k ptcb;
  k ← (if has_option st LW_THREAD_STATUS_PEND_ANY then
         let k := set_status ptcb (Z.ldiff st LW_THREAD_STATUS_PEND_ANY) k in
         let k := upd_wait ptcb (set_TCB_ucWaitTimeout LW_WAIT_TIME_OUT) k in
         unpend k ptcb
       else Some k);
  ready_if k ptcb LW_SCHED_ACT_OTHER.

Definition API_ThreadWakeupEx (s : THREADS) (ulId : Z) (bWithInfPend : bool) : option (THREADS * Z) :=
  match thread_of _Thread_Index_Invalid s ulId with
  | inl err => Some (s, err)
  | inr ptcb =>
    st ← status (T_kern s) ptcb;
    if st =? LW_THREAD_STATUS_RDY then Some (s, ERROR_THREAD_NOT_SLEEP)
    else if negb bWithInfPend && negb (has_option st LW_THREAD_STATUS_DELAY) then Some (s, ERROR_THREAD_NOT_SLEEP)
    else k ← wake_up (T_kern s) ptcb; Some (set_kern k s, ERROR_NONE)
  end.
Definition API_ThreadWakeup (s : THREADS) (ulId : Z) : option (THREADS * Z) := API_ThreadWakeupEx s ulId false.

(** ** TimeSleep.c *)

(** From [__wait_again] to the scheduling point: the thread sleeps, or there is no
    time left. *)
Definition sleep_wait_again (k : KERNEL) (ptcbCur ulTick : Z) : option (KERNEL * PEND) :=
  if ulTick =? 0 then Some (k, Return ERROR_NONE)
  else
    k ← unready k ptcbCur;
    k ← __ADD_TO_WAKEUP_LINE (set_TCB_ulDelay ptcbCur ulTick k) ptcbCur;
    Some (k, Wait 0).

Definition API_TimeSleepEx (k : KERNEL) (c : CALL) (ulTick : Z) : option (KERNEL * PEND) :=
  if negb (LW_CPU_GET_CUR_NESTING c =? 0) then Some (k, Return ERROR_KERNEL_IN_ISR)
  else sleep_wait_again k (LW_TCB_GET_CUR c) ulTick.

(** The call goes on: [iSchedRet] is the result of the scheduling point,
    [ulKernelTime] the time when the sleep began, [ulNow] the time now. *)
Definition API_TimeSleepEx_resume (k : KERNEL) (ptcbCur ulNow ulKernelTime ulTick : Z) (bSigRet : bool)
    (iSchedRet : Z) : option (KERNEL * PEND) :=
  if negb (iSchedRet =? 0) then
    if bSigRet then Some (k, Return EINTR)
    else sleep_wait_again k ptcbCur (_sigTimeoutRecalc ulNow ulKernelTime ulTick)
  else Some (k, Return ERROR_NONE).

(** [API_TimeSleep] is the same without a result. *)
Definition API_TimeSleep (k : KERNEL) (c : CALL) (ulTick : Z) : option (KERNEL * PEND) := API_TimeSleepEx k c ulTick.
Definition API_TimeSleep_resume (k : KERNEL) (ptcbCur ulNow ulKernelTime ulTick iSchedRet : Z) : option (KERNEL * PEND) :=
  API_TimeSleepEx_resume k ptcbCur ulNow ulKernelTime ulTick false iSchedRet.

(** ** ThreadStart.c, without the join ([bJoin] is [LW_FALSE])

    The index is not checked: one beyond the thread table is read out of its bounds. *)

Definition API_ThreadStart (s : THREADS) (c : CALL) (ulId : Z) : option (THREADS * Z) :=
  if negb (LW_CPU_GET_CUR_NESTING c =? 0) then Some (s, ERROR_KERNEL_IN_ISR)
  else if negb (_ObjectClassOK ulId _OBJECT_THREAD) then Some (s, ERROR_KERNEL_HANDLE_NULL)
  else if index_beyond s (_ObjectGetIndex ulId) then None
  else match thread_of index_beyond s ulId with
  | inl err => Some (s, err)
  | inr ptcb =>
    st ← status (T_kern s) ptcb;
    if has_option st LW_THREAD_STATUS_INIT then
      k ← status_andn ptcb LW_THREAD_STATUS_INIT (T_kern s);
      b ← thread_is_ready k ptcb;
      if (b : bool) then k ← ready_if k ptcb LW_SCHED_ACT_OTHER; Some (set_kern k s, ERROR_NONE)
      else Some (set_kern k s, ERROR_THREAD_NOT_READY)
    else Some (s, ERROR_THREAD_NOT_INIT)
  end.

(** ** ThreadSetPriority.c, ThreadGetPriority.c, ThreadYield.c, ThreadSetSchedParam.c, ThreadSetSlice.c *)

Definition API_ThreadSetPriority (s : THREADS) (c : CALL) (ulId ucPriority : Z) : option (THREADS * Z) :=
  if negb (LW_CPU_GET_CUR_NESTING c =? 0) then Some (s, ERROR_KERNEL_IN_ISR)
  else if negb (_ObjectClassOK ulId _OBJECT_THREAD) then Some (s, ERROR_KERNEL_HANDLE_NULL)
  else if _PriorityCheck ucPriority then Some (s, ERROR_THREAD_PRIORITY_WRONG)
  else match thread_of _Thread_Index_Invalid s ulId with
  | inl err => Some (s, err)
  | inr ptcb =>
    d ← deleting s ptcb;
    if (d : bool) then Some (s, ERROR_THREAD_OTHER_DELETE)
    else
      p ← prio (T_kern s) ptcb;
      if p =? ucPriority then Some (s, ERROR_NONE)
      else k ← SchedSetPrio (T_kern s) ptcb ucPriority; Some (set_kern k s, ERROR_NONE)
  end.

Definition API_ThreadGetPriority (s : THREADS) (ulId : Z) : option (Z * option Z) :=
  match thread_of index_beyond s ulId with
  | inl err => Some (err, None)
  | inr ptcb => p ← prio (T_kern s) ptcb; Some (ERROR_NONE, Some p)
  end.

Definition API_ThreadYield (s : THREADS) (c : CALL) (ulId : Z) : option (THREADS * Z) :=
  if negb (LW_CPU_GET_CUR_NESTING c =? 0) then Some (s, ERROR_KERNEL_IN_ISR)
  else match thread_of _Thread_Index_Invalid s ulId with
  | inl err => Some (s, err)
  | inr ptcb =>
    b ← thread_is_ready (T_kern s) ptcb;
    if (b : bool) then r ← _SchedYield (K_sched (T_kern s)) ptcb; Some (set_kern (set_sched r (T_kern s)) s, ERROR_NONE)
    else Some (s, ERROR_THREAD_NOT_READY)
  end.

Definition set_TCB_sched (ucPolicy ucActivatedMode usSlice usCounter : Z) (t : TCB) : TCB :=
  mkTCB (TCB_ucPriority t) ucPolicy ucActivatedMode (TCB_ucSchedActivate t) usSlice usCounter (TCB_bCPULock t)
    (TCB_ulCPULock t) (TCB_ulCPUId t) (TCB_bIsCand t) (TCB_usStatus t) (TCB_ulThreadLockCounter t).

Definition API_ThreadSetSchedParam (s : THREADS) (ulId ucPolicy ucActivatedMode : Z) : option (THREADS * Z) :=
  match thread_of _Thread_Index_Invalid s ulId with
  | inl err => Some (s, err)
  | inr ptcb =>
    let f t := set_TCB_sched ucPolicy ucActivatedMode (TCB_usSchedSlice t)
                 (if ucPolicy =? LW_OPTION_SCHED_FIFO then TCB_usSchedSlice t else TCB_usSchedCounter t) t in
    let k := T_kern s in
    Some (set_kern (set_sched (upd_tcb ptcb f (K_sched k)) k) s, ERROR_NONE)
  end.

Definition API_ThreadSetSlice (s : THREADS) (ulId usSlice : Z) : option (THREADS * Z) :=
  if usSlice =? 0 then Some (s, EINVAL)
  else match thread_of _Thread_Index_Invalid s ulId with
  | inl err => Some (s, err)
  | inr ptcb =>
    let f t := set_TCB_sched (TCB_ucSchedPolicy t) (TCB_ucSchedActivateMode t) usSlice (TCB_usSchedCounter t) t in
    let k := T_kern s in
    Some (set_kern (set_sched (upd_tcb ptcb f (K_sched k)) k) s, ERROR_NONE)
  end.

(** ** ThreadIsReady.c, ThreadIsSafe.c, ThreadVerify.c: what they return *)

Definition API_ThreadIsReady (s : THREADS) (ulId : Z) : option bool :=
  match thread_of _Thread_Index_Invalid s ulId with
  | inl err => Some false
  | inr ptcb => thread_is_ready (T_kern s) ptcb
  end.
Definition API_ThreadIsRunning (s : THREADS) (ulId : Z) : option (Z * option bool) :=
  match thread_of _Thread_Index_Invalid s ulId with
  | inl err => Some (err, None)
  | inr ptcb => r ← __LW_THREAD_IS_RUNNING (T_kern s) ptcb; Some (ERROR_NONE, Some r)
  end.
Definition API_ThreadIsSafe (s : THREADS) (ulId : Z) : option bool :=
  match thread_of _Thread_Index_Invalid s ulId with
  | inl err => Some false
  | inr ptcb => w ← K_wait (T_kern s) !! ptcb; Some (negb (TCB_ulThreadSafeCounter w =? 0))
  end.
Definition API_ThreadVerify (s : THREADS) (ulId : Z) : bool :=
  match thread_of _Thread_Index_Invalid s ulId with inl _ => false | inr _ => true end.
