(* ===== verification/ThreadFrame.v ===== *)
(** * What the waiting services leave alone

    No service of the semaphores, tick or step of the scheduler touches the status bits
    that the thread control (file Thread) keeps for itself, the scheduling locks, the thread that runs on a
    CPU or its interrupt nesting.  Each operation is read through once for this, by one tactic. *)

From S2P Require Import Prelude Lists Bitmap Sched SchedSpec Object Wakeup Kernel Event Semaphore Mutex LifeSpec SemRefine MutexSpec RwSpec System.

(** The bits of a delay and of the waits. *)
Definition WAIT_MASK : Z := Z.lor LW_THREAD_STATUS_DELAY LW_THREAD_STATUS_PEND_ANY.
Definition held_bits (st : Z) : Z := Z.ldiff st WAIT_MASK.

Definition thread_part (T : TCB) : Z * Z := (held_bits (TCB_usStatus T), TCB_ulThreadLockCounter T).
Definition cpu_part (c : CPU) : Z * Z * Z := (CPU_ptcbTCBCur c, CPU_ulInterNesting c, CPU_iKernelCounter c).

Record frame (s s' : SCHED) : Prop := {
  fm_thread : forall t, thread_part <$> tcbs s' !! t = thread_part <$> tcbs s !! t;
  fm_cpu : forall i, cpu_part <$> cpus s' !! i = cpu_part <$> cpus s !! i;
  fm_ncpus : LW_NCPUS s' = LW_NCPUS s
}.

Definition kframe (k k' : KERNEL) : Prop := frame (K_sched k) (K_sched k').

Lemma sframe_refl s : frame s s.
Proof. by split. Qed.
Lemma sframe_trans s1 s2 s3 : frame s1 s2 -> frame s2 s3 -> frame s1 s3.
Proof. intros [A1 B1 C1] [A2 B2 C2]. split; [intros; by rewrite A2|intros; by rewrite B2|by rewrite C2]. Qed.

Lemma frame_tcb s a t f : (forall T, thread_part (f T) = thread_part T) -> frame s a -> frame s (upd_tcb t f a).
Proof.
  intros Hf Ha. eapply sframe_trans; [exact Ha|]. split; [|done|done]. intros u. rewrite lookup_upd_tcb.
  destruct (decide (u = t)); [|done]. destruct (tcbs a !! u); simpl; by rewrite ?Hf.
Qed.
Lemma frame_cpu s a i f : (forall c, cpu_part (f c) = cpu_part c) -> frame s a -> frame s (upd_cpu i f a).
Proof.
  intros Hf Ha. eapply sframe_trans; [exact Ha|]. split; [done| |done]. intros j. rewrite lookup_upd_cpu.
  destruct (decide (j = i)); [|done]. destruct (cpus a !! j); simpl; by rewrite ?Hf.
Qed.
Lemma frame_ring s a p l : frame s a -> frame s (set_ring p l a).
Proof. intros []. by split. Qed.
Lemma frame_bmap s a r b : frame s a -> frame s (set_bmap r b a).
Proof. intros []. by split. Qed.
Lemma frame_cand s a i v : frame s a -> frame s (LW_CAND_TCB_set i v a).
Proof. by apply frame_cpu. Qed.
Lemma frame_rot s a i v : frame s a -> frame s (LW_CAND_ROT_set i v a).
Proof. by apply frame_cpu. Qed.
Lemma frame_take s a t i : frame s a -> frame s (take_cand a t i).
Proof. intros H. by apply frame_tcb, frame_cand. Qed.

Create HintDb frame discriminated.
#[export] Hint Resolve sframe_refl frame_ring frame_bmap frame_cand frame_rot frame_take : frame.
#[export] Hint Extern 2 (frame _ (upd_tcb _ _ _)) => (apply frame_tcb; [intros; reflexivity|]) : frame.
#[export] Hint Extern 2 (frame _ (upd_cpu _ _ _)) => (apply frame_cpu; [intros; reflexivity|]) : frame.
#[export] Hint Extern 0 (_ = Some _) => eassumption : frame.
#[export] Hint Extern 3 (frame _ (if ?b then _ else _)) => destruct b : frame.

(** Read an operation through: every step of it that succeeded. *)
Ltac read_through :=
  cbv zeta in *;
  repeat (cbn [mbind option_bind fmap option_fmap option_map fst snd] in *;
  match goal with
  | H : None = Some _ |- _ => discriminate H
  | H : Some _ = Some _ |- _ => injection H; clear H; intros; subst
  | p : (_ * _)%type |- _ => destruct p
  | H : mbind _ ?m = Some _ |- _ => destruct m eqn:?
  | H : option_bind _ ?m = Some _ |- _ => destruct m eqn:?
  | H : (match ?x with _ => _ end) = Some _ |- _ => destruct x eqn:?
  | H : fmap _ ?m = Some _ |- _ => destruct m eqn:?
  end).
Ltac framed := intros; read_through; eauto 12 with frame.

(** ** The scheduler *)

Lemma AddReady_frame s a t p h b : _AddTCBToReadyRing a t p h = Some b -> frame s a -> frame s b.
Proof. unfold _AddTCBToReadyRing. framed. Qed.
Lemma DelReady_frame s a t p b : _DelTCBFromReadyRing a t p = Some b -> frame s a -> frame s b.
Proof. unfold _DelTCBFromReadyRing. framed. Qed.
Lemma TableAdd_frame s a t b : _ReadyTableAdd a t = Some b -> frame s a -> frame s b.
Proof. unfold _ReadyTableAdd. framed. Qed.
Lemma TableDel_frame s a t b : _ReadyTableDel a t = Some b -> frame s a -> frame s b.
Proof. unfold _ReadyTableDel. framed. Qed.
Lemma Next_frame s a p b t : _CandTableNext a p = Some (b, t) -> frame s a -> frame s b.
Proof. unfold _CandTableNext. framed. Qed.
#[export] Hint Resolve AddReady_frame DelReady_frame TableAdd_frame TableDel_frame Next_frame : frame.
Lemma Resel_frame s a i p b : _CandTableResel a i p = Some b -> frame s a -> frame s b.
Proof. unfold _CandTableResel. framed. Qed.
Lemma Fill_frame s a i b : _CandTableFill a i = Some b -> frame s a -> frame s b.
Proof. unfold _CandTableFill. framed. Qed.
Lemma Empty_frame s a i b : _CandTableEmpty a i = Some b -> frame s a -> frame s b.
Proof. unfold _CandTableEmpty. framed. Qed.
#[export] Hint Resolve Resel_frame Fill_frame Empty_frame : frame.

(** The state a scan of the CPUs ends with. *)
Definition scan_is (r : cand_scan) (b : SCHED) : Prop := r = ScanTaken b \/ r = ScanRot b \/ r = ScanEnd b.
Ltac scan_now := solve [by left | by right; left | by right; right].
Ltac scan_inv H := try (destruct H as [H|[H|H]]; first [discriminate H | injection H; intros; subst]).
#[export] Hint Extern 1 (scan_is _ _) => scan_now : frame.

Lemma tryadd_idle_frame s ids i t r b : forall a, tryadd_idle ids i t a = Some r -> scan_is r b -> frame s a -> frame s b.
Proof.
  induction ids as [|j ids IH]; cbn [tryadd_idle]; intros a E Hr Ha; read_through;
    scan_inv Hr; eauto with frame.
Qed.
Lemma tryadd_lower_frame s ids t p r b : forall a, tryadd_lower ids t p a = Some r -> scan_is r b -> frame s a -> frame s b.
Proof.
  induction ids as [|j ids IH]; cbn [tryadd_lower]; intros a E Hr Ha; read_through;
    scan_inv Hr; eauto with frame.
Qed.
Lemma notify_idle_frame s ids i r b : forall a, notify_idle ids i a = Some r -> scan_is r b -> frame s a -> frame s b.
Proof.
  induction ids as [|j ids IH]; cbn [notify_idle]; intros a E Hr Ha; read_through;
    scan_inv Hr; eauto with frame.
Qed.
Lemma notify_lower_frame s ids i p b : forall a, notify_lower ids i p a = Some b -> frame s a -> frame s b.
Proof. induction ids as [|j ids IH]; cbn [notify_lower]; framed. Qed.
#[export] Hint Resolve tryadd_idle_frame tryadd_lower_frame notify_idle_frame notify_lower_frame : frame.

Definition scan_frame (s : SCHED) (r : cand_scan) : Prop :=
  match r with ScanTaken b | ScanRot b | ScanEnd b => frame s b end.

Lemma cannot_frame s a t p b r : __can_not_cand a t p = Some (b, r) -> frame s a -> frame s b.
Proof. unfold __can_not_cand. framed. Qed.
#[export] Hint Resolve cannot_frame : frame.
Lemma TryAdd_frame s a t p b r : _CandTableTryAdd a t p = Some (b, r) -> frame s a -> frame s b.
Proof.
  assert (Hend : forall r1, scan_frame s r1 -> match r1 with ScanTaken a => Some (a, true) | ScanRot a | ScanEnd a => __can_not_cand a t p end
    = Some (b, r) -> frame s b) by (intros []; unfold scan_frame; framed).
  assert (Hstep : forall r1 f r2, scan_frame s r1 -> (forall a r2, frame s a -> f a = Some r2 -> scan_frame s r2) ->
    match r1 with ScanEnd a => f a | _ => Some r1 end = Some r2 -> scan_frame s r2).
  { intros [] f r2 H1 H2 E; try (by injection E as <-). by eapply H2. }
  unfold _CandTableTryAdd. intros E Ha. destruct (tcbs a !! t) as [T|]; [|done]. cbn [mbind option_bind] in E.
  destruct (TCB_bCPULock T); [framed|]. destruct (cpus a !! TCB_ulCPUId T) as [c|]; [|done]. cbn [mbind option_bind] in E.
  match type of E with mbind _ ?m = _ => destruct m as [r1|] eqn:E1; [|done] end. cbn [mbind option_bind] in E.
  match type of E with mbind _ ?m = _ => destruct m as [r2|] eqn:E2; [|done] end. cbn [mbind option_bind] in E.
  match type of E with mbind _ ?m = _ => destruct m as [r3|] eqn:E3; [|done] end. cbn [mbind option_bind] in E.
  apply (Hend r3); [|exact E]. eapply (Hstep r2); [|..|exact E3]; [eapply (Hstep r1); [|..|exact E2]|].
  - clear E E2 E3. unfold scan_frame. framed.
  - intros a' [] Ha' E'; unfold scan_frame; eauto with frame.
  - intros a' [] Ha' E'; unfold scan_frame; eauto with frame.
Qed.
Lemma TryDel_frame s a t p b : _CandTableTryDel a t p = Some b -> frame s a -> frame s b.
Proof. unfold _CandTableTryDel. framed. Qed.
Lemma Notify_frame s a i t b : _CandTableNotify a i t = Some b -> frame s a -> frame s b.
Proof. unfold _CandTableNotify. framed. Qed.
#[export] Hint Resolve TryAdd_frame TryDel_frame Notify_frame : frame.
Lemma Update_frame s a i b : _CandTableUpdate a i = Some b -> frame s a -> frame s b.
Proof. unfold _CandTableUpdate. framed. Qed.
Lemma ADD_frame s a t p b : __ADD_TO_READY_RING a t p = Some b -> frame s a -> frame s b.
Proof. unfold __ADD_TO_READY_RING. framed. Qed.
Lemma DEL_frame s a t p b : __DEL_FROM_READY_RING a t p = Some b -> frame s a -> frame s b.
Proof. unfold __DEL_FROM_READY_RING. framed. Qed.
#[export] Hint Resolve Update_frame ADD_frame DEL_frame : frame.
Lemma Yield_frame s a t b : _SchedYield a t = Some b -> frame s a -> frame s b.
Proof. unfold _SchedYield. framed. Qed.
Lemma SetPrio_frame s a t p b : _SchedSetPrio a t p = Some b -> frame s a -> frame s b.
Proof. unfold _SchedSetPrio. framed. Qed.
Lemma ticks_frame s ids b : forall a, sched_ticks ids a = Some b -> frame s a -> frame s b.
Proof. induction ids as [|j ids IH]; cbn [sched_ticks]; unfold sched_tick1; framed. Qed.
#[export] Hint Resolve Yield_frame SetPrio_frame ticks_frame : frame.
Lemma GetCand_frame s a i m b t : _SchedGetCand a i m = Some (b, t) -> frame s a -> frame s b.
Proof. unfold _SchedGetCand. framed. Qed.
#[export] Hint Resolve GetCand_frame : frame.

(** ** The kernel *)

Lemma kframe_refl k : kframe k k.
Proof. apply sframe_refl. Qed.
Lemma kframe_trans k1 k2 k3 : kframe k1 k2 -> kframe k2 k3 -> kframe k1 k3.
Proof. apply sframe_trans. Qed.
Lemma kframe_sched k a s : frame (K_sched k) s -> kframe k (set_sched s a).
Proof. done. Qed.
Lemma kframe_wait k a t f : kframe k a -> kframe k (upd_wait t f a).
Proof. done. Qed.
Lemma kframe_event k a e f : kframe k a -> kframe k (upd_event e f a).
Proof. done. Qed.
Lemma kframe_es k a e f : kframe k a -> kframe k (upd_es e f a).
Proof. done. Qed.
Lemma kframe_wring k a p l : kframe k a -> kframe k (set_wring p l a).
Proof. done. Qed.
Lemma kframe_num k a q n : kframe k a -> kframe k (set_num q n a).
Proof. done. Qed.
Lemma kframe_delay k a w m : kframe k a -> kframe k (set_delay w m a).
Proof. done. Qed.
Lemma kframe_counter k a t v : kframe k a -> kframe k (set_TCB_ulDelay t v a).
Proof. done. Qed.
Lemma kframe_resrc k a r : kframe k a -> kframe k (set_resrc r a).
Proof. done. Qed.
Lemma kframe_of k a : frame (K_sched k) (K_sched a) -> kframe k a.
Proof. done. Qed.
Lemma kframe_in k a : kframe k a -> frame (K_sched k) (K_sched a).
Proof. done. Qed.
#[export] Hint Resolve kframe_refl kframe_sched kframe_wait kframe_event kframe_es kframe_wring kframe_num
  kframe_delay kframe_counter kframe_resrc : frame.
#[export] Hint Resolve kframe_in : frame.
#[export] Hint Extern 3 (kframe _ (if ?b then _ else _)) => destruct b : frame.

Lemma kframe_status k a t st st' : status a t = Some st -> held_bits st' = held_bits st -> kframe k a -> kframe k (set_status t st' a).
Proof.
  unfold status, kframe, set_status. cbn [set_sched K_sched]. intros E Hb H. eapply sframe_trans; [exact H|].
  split; [|done|done]. intros u. rewrite lookup_upd_tcb. destruct (decide (u = t)) as [->|]; [|done].
  destruct (tcbs (K_sched a) !! t) as [T|]; [|done]. injection E as <-. unfold thread_part. simpl. by rewrite Hb.
Qed.

(** A bit of a delay or a wait. *)
Definition wait_bit (b : Z) : Prop := Z.ldiff b WAIT_MASK = 0.
Lemma held_or st b : wait_bit b -> held_bits (Z.lor st b) = held_bits st.
Proof.
  intros H. unfold held_bits. apply Z.bits_inj'. intros i Hi. rewrite !Z.ldiff_spec, Z.lor_spec.
  assert (Hb : Z.testbit (Z.ldiff b WAIT_MASK) i = false) by (rewrite H; apply Z.bits_0). rewrite Z.ldiff_spec in Hb.
  destruct (Z.testbit st i), (Z.testbit b i), (Z.testbit WAIT_MASK i); done.
Qed.
Lemma held_andn st b : wait_bit b -> held_bits (Z.ldiff st b) = held_bits st.
Proof.
  intros H. unfold held_bits. apply Z.bits_inj'. intros i Hi. rewrite !Z.ldiff_spec.
  assert (Hb : Z.testbit (Z.ldiff b WAIT_MASK) i = false) by (rewrite H; apply Z.bits_0). rewrite Z.ldiff_spec in Hb.
  destruct (Z.testbit st i), (Z.testbit b i), (Z.testbit WAIT_MASK i); done.
Qed.
Lemma kframe_or k a t st b : status a t = Some st -> wait_bit b -> kframe k a -> kframe k (set_status t (Z.lor st b) a).
Proof. intros E Hb. apply kframe_status with st; [done|by apply held_or]. Qed.
Lemma kframe_andn k a t st b : status a t = Some st -> wait_bit b -> kframe k a -> kframe k (set_status t (Z.ldiff st b) a).
Proof. intros E Hb. apply kframe_status with st; [done|by apply held_andn]. Qed.
#[export] Hint Resolve kframe_or kframe_andn : frame.
#[export] Hint Extern 1 (wait_bit _) => first [assumption | reflexivity] : frame.

Lemma ready_if_frame k a t x b : ready_if a t x = Some b -> kframe k a -> kframe k b.
Proof. unfold ready_if. framed. Qed.
Lemma unready_frame k a t b : unready a t = Some b -> kframe k a -> kframe k b.
Proof. unfold unready. framed. Qed.
Lemma SetPrio_kframe k a t p b : SchedSetPrio a t p = Some b -> kframe k a -> kframe k b.
Proof. unfold SchedSetPrio. framed. Qed.
Lemma ADD_WU_frame k a t b : __ADD_TO_WAKEUP_LINE a t = Some b -> kframe k a -> kframe k b.
Proof. unfold __ADD_TO_WAKEUP_LINE. framed. Qed.
Lemma DEL_WU_frame k a t b : __DEL_FROM_WAKEUP_LINE a t = Some b -> kframe k a -> kframe k b.
Proof. unfold __DEL_FROM_WAKEUP_LINE. framed. Qed.
#[export] Hint Resolve ready_if_frame unready_frame SetPrio_kframe ADD_WU_frame DEL_WU_frame : frame.

(** *** Event.v *)

Lemma num_add_frame k a t e d b : num_add a t e d = Some b -> kframe k a -> kframe k b.
Proof. unfold num_add. framed. Qed.
Lemma wring_del_frame k a t p b : wring_del a t p = Some b -> kframe k a -> kframe k b.
Proof. unfold wring_del. framed. Qed.
#[export] Hint Resolve num_add_frame wring_del_frame : frame.
Lemma AddFifo_frame k a t e p b : _AddTCBToEventFifo a t e p = Some b -> kframe k a -> kframe k b.
Proof. unfold _AddTCBToEventFifo. framed. Qed.
Lemma DelFifo_frame k a t e p b : _DelTCBFromEventFifo a t e p = Some b -> kframe k a -> kframe k b.
Proof. unfold _DelTCBFromEventFifo. framed. Qed.
Lemma AddPrio_frame k a t e p b : _AddTCBToEventPriority a t e p = Some b -> kframe k a -> kframe k b.
Proof. unfold _AddTCBToEventPriority. framed. Qed.
Lemma DelPrio_frame k a t e p b : _DelTCBFromEventPriority a t e p = Some b -> kframe k a -> kframe k b.
Proof. unfold _DelTCBFromEventPriority. framed. Qed.
Lemma start_frame k a t b : start_delay a t = Some b -> kframe k a -> kframe k b.
Proof. unfold start_delay. framed. Qed.
Lemma stop_frame k a t b : stop_delay a t = Some b -> kframe k a -> kframe k b.
Proof. unfold stop_delay. framed. Qed.
#[export] Hint Resolve AddFifo_frame DelFifo_frame AddPrio_frame DelPrio_frame start_frame stop_frame : frame.
Lemma WaitFifo_frame k a t e p b : _EventWaitFifo a t e p = Some b -> kframe k a -> kframe k b.
Proof. unfold _EventWaitFifo. framed. Qed.
Lemma WaitPrio_frame k a t e p b : _EventWaitPriority a t e p = Some b -> kframe k a -> kframe k b.
Proof. unfold _EventWaitPriority. framed. Qed.
Lemma LowFifo_frame k a e m p b t : _EventReadyFifoLowLevel a e m p = Some (b, t) -> kframe k a -> kframe k b.
Proof. unfold _EventReadyFifoLowLevel. framed. Qed.
Lemma LowPrio_frame k a e m p b t : _EventReadyPriorityLowLevel a e m p = Some (b, t) -> kframe k a -> kframe k b.
Proof. unfold _EventReadyPriorityLowLevel. framed. Qed.
Lemma High_frame k a t w x b : _EventReadyHighLevel a t w x = Some b -> wait_bit w -> kframe k a -> kframe k b.
Proof. unfold _EventReadyHighLevel. framed. Qed.
Lemma Boost_frame k a e t b : _EventPrioTryBoost a e t = Some b -> kframe k a -> kframe k b.
Proof. unfold _EventPrioTryBoost. framed. Qed.
Lemma Unboost_frame k a e t b : _EventPrioTryResume a e t = Some b -> kframe k a -> kframe k b.
Proof. unfold _EventPrioTryResume. framed. Qed.
Lemma UnQueue_frame k a t b : _EventUnQueue a t = Some b -> kframe k a -> kframe k b.
Proof. unfold _EventUnQueue. framed. Qed.
Lemma EsUnQueue_frame k a t b : _EventSetUnQueue a t = Some b -> kframe k a -> kframe k b.
Proof. unfold _EventSetUnQueue. framed. Qed.
#[export] Hint Resolve WaitFifo_frame WaitPrio_frame LowFifo_frame LowPrio_frame High_frame Boost_frame Unboost_frame
  UnQueue_frame EsUnQueue_frame : frame.
Lemma event_pend_frame k a t e q w n b : event_pend a t e q w n = Some b -> wait_bit w -> kframe k a -> kframe k b.
Proof. unfold event_pend. framed. Qed.
Lemma event_take_frame k a e q m b t : event_take a e q m = Some (b, t) -> kframe k a -> kframe k b.
Proof. unfold event_take. framed. Qed.
#[export] Hint Resolve event_pend_frame event_take_frame : frame.
Lemma event_ready_frame k a e q m w x b t : event_ready a e q m w x = Some (b, t) -> wait_bit w -> kframe k a -> kframe k b.
Proof. unfold event_ready. framed. Qed.
Lemma unpend_frame k a t b : unpend a t = Some b -> kframe k a -> kframe k b.
Proof. unfold unpend. framed. Qed.
#[export] Hint Resolve event_ready_frame unpend_frame : frame.
Lemma expired_frame k a t b : tick_expired a t = Some b -> kframe k a -> kframe k b.
Proof. unfold tick_expired. framed. Qed.
#[export] Hint Resolve expired_frame : frame.

Lemma pass_frame k fuel : forall w m a c w' m' b l,
  wakeup_pass fuel thread_tick_handler w m a c = Some (w', m', b, l) -> kframe k a -> kframe k b.
Proof.
  induction fuel as [|fuel IH]; cbn [wakeup_pass]; unfold thread_tick_handler; framed.
Qed.
#[export] Hint Resolve pass_frame : frame.
Lemma tick_frame k a b l : _ThreadTick a = Some (b, l) -> kframe k a -> kframe k b.
Proof. unfold _ThreadTick, __WAKEUP_PASS. framed. Qed.
#[export] Hint Resolve tick_frame : frame.

(** *** Semaphore.v and Mutex.v *)

Lemma init_rings_frame k n : forall a e i, kframe k a -> kframe k (init_rings n a e i).
Proof. induction n as [|n IH]; cbn [init_rings]; intros; [done|]. by apply IH. Qed.
#[export] Hint Resolve init_rings_frame : frame.
Lemma event_create_frame k a c n f b i x : event_create a c n f = Some (b, i, x) -> kframe k a -> kframe k b.
Proof. unfold event_create, event_init. framed. Qed.
Lemma wait_again_frame k a cl ty f t i n b r : sem_wait_again cl ty f a t i n = Some (b, r) -> kframe k a -> kframe k b.
Proof. unfold sem_wait_again. framed. Qed.
Lemma give_frame k a f e m x b y o : sem_give f a e m x = Some (b, y, o) -> kframe k a -> kframe k b.
Proof. unfold sem_give. framed. Qed.
#[export] Hint Resolve event_create_frame wait_again_frame give_frame : frame.
Lemma post_frame k a cl ty f i m b y o : sem_post cl ty f a i m = Some (b, y, o) -> kframe k a -> kframe k b.
Proof. unfold sem_post. framed. Qed.
Lemma release_frame k f n : forall a e b y, sem_release f n a e = Some (b, y) -> kframe k a -> kframe k b.
Proof. induction n as [|n IH]; cbn [sem_release]; framed. Qed.
Lemma flush_frame k w n : forall a e q b, flush_loop w n a e q = Some b -> wait_bit w -> kframe k a -> kframe k b.
Proof. induction n as [|n IH]; cbn [flush_loop]; framed. Qed.
Lemma delete_frame k w n : forall a e q b, delete_loop w n a e q = Some b -> wait_bit w -> kframe k a -> kframe k b.
Proof. induction n as [|n IH]; cbn [delete_loop]; framed. Qed.
#[export] Hint Resolve post_frame release_frame flush_frame delete_frame : frame.
Lemma delete_waiters_frame k a w e q b : delete_waiters w a e q = Some b -> wait_bit w -> kframe k a -> kframe k b.
Proof. unfold delete_waiters. framed. Qed.
Lemma release_call_frame k a cl ty f i n b y o : sem_release_call cl ty f a i n = Some (b, y, o) -> kframe k a -> kframe k b.
Proof. unfold sem_release_call. framed. Qed.
Lemma sem_flush_frame k a cl ty i b y o : sem_flush cl ty a i = Some (b, y, o) -> kframe k a -> kframe k b.
Proof. unfold sem_flush. framed. Qed.
Lemma sem_clear_frame k a cl ty i b y : sem_clear cl ty a i = Some (b, y) -> kframe k a -> kframe k b.
Proof. unfold sem_clear. framed. Qed.
#[export] Hint Resolve delete_waiters_frame release_call_frame sem_flush_frame sem_clear_frame : frame.
Lemma sem_delete_frame k a cl ty c i b y j : sem_delete cl ty a c i = Some (b, y, j) -> kframe k a -> kframe k b.
Proof. unfold sem_delete. framed. Qed.
#[export] Hint Resolve sem_delete_frame : frame.

Lemma safe_enter_frame k a o t : kframe k a -> kframe k (safe_enter a o t).
Proof. unfold safe_enter, _ThreadSafeInKern. framed. Qed.
Lemma safe_leave_frame k a o t b : safe_leave a o t = Some b -> kframe k a -> kframe k b.
Proof. unfold safe_leave, _ThreadUnsafeInternalEx. framed. Qed.
#[export] Hint Resolve safe_enter_frame safe_leave_frame : frame.
Lemma mutex_again_frame k a g t i n b r : mutex_wait_again g a t i n = Some (b, r) -> kframe k a -> kframe k b.
Proof. unfold mutex_wait_again. framed. Qed.
Lemma mutex_release_frame k a t e E b y : mutex_release a t e E = Some (b, y) -> kframe k a -> kframe k b.
Proof. unfold mutex_release. framed. Qed.
#[export] Hint Resolve mutex_again_frame mutex_release_frame : frame.
Lemma MPost_frame k a c i b y : API_SemaphoreMPost a c i = Some (b, y) -> kframe k a -> kframe k b.
Proof. unfold API_SemaphoreMPost. framed. Qed.
Lemma MDelete_frame k a c i b y j : API_SemaphoreMDelete a c i = Some (b, y, j) -> kframe k a -> kframe k b.
Proof. unfold API_SemaphoreMDelete. framed. Qed.
Lemma rwr_frame k a g t i n b r : rwr_wait_again g a t i n = Some (b, r) -> kframe k a -> kframe k b.
Proof. unfold rwr_wait_again. framed. Qed.
Lemma rww_frame k a g t i n b r : rww_wait_again g a t i n = Some (b, r) -> kframe k a -> kframe k b.
Proof. unfold rww_wait_again. framed. Qed.
Lemma readers_frame k n : forall a e o b, readers_loop n a e o = Some b -> kframe k a -> kframe k b.
Proof. induction n as [|n IH]; cbn [readers_loop]; framed. Qed.
#[export] Hint Resolve MPost_frame MDelete_frame rwr_frame rww_frame readers_frame : frame.
Lemma rw_release_frame k a t e E g b y : rw_release a t e E g = Some (b, y) -> kframe k a -> kframe k b.
Proof. unfold rw_release. framed. Qed.
#[export] Hint Resolve rw_release_frame : frame.
Lemma RWPost_frame k a c i b y : API_SemaphoreRWPost a c i = Some (b, y) -> kframe k a -> kframe k b.
Proof. unfold API_SemaphoreRWPost. framed. Qed.
Lemma RWDelete_frame k a c i b y j : API_SemaphoreRWDelete a c i = Some (b, y, j) -> kframe k a -> kframe k b.
Proof. unfold API_SemaphoreRWDelete. framed. Qed.
#[export] Hint Resolve RWPost_frame RWDelete_frame : frame.

(** A resumed wait, whose rest [again] has the property. *)
Lemma resume_frame k again a t now save tmo opt r b x :
  pend_resume again a t now save tmo opt r = Some (b, x) ->
  (forall a n b x, again a n = Some (b, x) -> kframe k a -> kframe k b) -> kframe k a -> kframe k b.
Proof. unfold pend_resume. framed. Qed.

(** ** The system of the semaphores *)

(** Every step but those of the scheduler that switch threads. *)
Definition no_switch (op : SYS) : Prop :=
  match op with SysSched (EvSchedule _) => False | SysSched e => quiet e | _ => True end.

Lemma sys_frame k op k' : no_switch op -> sys_exec k op = Some k' -> kframe k k'.
Proof.
  pose proof (kframe_refl k) as H0. destruct op as [e| |c r|i o|i o|i m|i o|i o|c i|q t i now save tmo opt ret]; cbn [sys_exec no_switch]; intros Hq E.
  - destruct e; try done; cbn [exec] in E; unfold _SchedTick in E; framed.
  - framed.
  - destruct r; cbn [create_call] in E; unfold API_SemaphoreCCreate, API_SemaphoreBCreate, API_SemaphoreMCreate, API_SemaphoreRWCreate in E; framed.
  - destruct o; cbn [semc_call] in E; unfold API_SemaphoreCPend, API_SemaphoreCTryPend, API_SemaphoreCPost, API_SemaphoreCRelease, API_SemaphoreCFlush, API_SemaphoreCClear in E; framed.
  - destruct o; cbn [semb_call] in E; unfold API_SemaphoreBPend, API_SemaphoreBTryPend, API_SemaphoreBPost, API_SemaphoreBRelease, API_SemaphoreBFlush, API_SemaphoreBClear in E; framed.
  - unfold API_SemaphoreBPostEx in E. framed.
  - destruct o; cbn [mutex_call] in E; unfold API_SemaphoreMPend in E; framed.
  - destruct o; cbn [rw_call] in E; unfold API_SemaphoreRWPendR, API_SemaphoreRWPendW in E; framed.
  - unfold API_SemaphoreDelete, API_SemaphoreBDelete, API_SemaphoreCDelete in E. framed.
  - destruct (resume_call q k t i now save tmo opt ret) as [[b x]|] eqn:Er; [|done]. injection E as <-.
    destruct q; cbn [resume_call] in Er; eapply resume_frame in Er; eauto with frame.
Qed.
