(* ===== verification/ThreadSpec.v ===== *)
(** * The invariant of thread control

    A thread is held back by exactly what its control fields say: it has the bit of a
    suspension while it is suspended at least once, the bit of a stop while it is stopped,
    and the bit of a status change while it has a request with another thread.  Requests
    are with threads that run, or that have locked the scheduler.  The operations of the file Thread keep this, and the invariant of the
    waiting kernel. *)

From S2P Require Import Prelude Lists Bitmap Sched SchedSpec Object Wakeup Kernel Event EventSpec Boot TickSpec Semaphore Mutex SemSpec LifeSpec System ThreadFrame Thread.

(** ** The scheduler: what holding back and letting go of a thread changes *)

Definition status_lock (T : TCB) : Z * Z := (TCB_usStatus T, TCB_ulThreadLockCounter T).

(** Nothing but the status of [t], now [st], and the ready tables. *)
Record held_step (s s' : SCHED) (t st : Z) : Prop := {
  hs_view : forall u, (fun T => (TCB_ucPriority T, status_lock T)) <$> tcbs s' !! u =
    if decide (u = t) then (fun T => (TCB_ucPriority T, (st, TCB_ulThreadLockCounter T))) <$> tcbs s !! u
    else (fun T => (TCB_ucPriority T, status_lock T)) <$> tcbs s !! u;
  hs_cpu : forall i, cpu_part <$> cpus s' !! i = cpu_part <$> cpus s !! i;
  hs_ncpus : LW_NCPUS s' = LW_NCPUS s
}.

Lemma held_step_intro s s' t p st st' k :
  sview s t = Some (p, st) -> schg s s' t (p, st') -> kframe (set_status t st' k) (set_sched s' k) -> K_sched k = s -> held_step s s' t st'.
Proof.
  intros Hv [En Hc] [F1 F2 F3] <-. cbn [set_status set_sched K_sched] in *. split; [|done|done].
  intros u. specialize (Hc u). specialize (F1 u). rewrite lookup_upd_tcb in F1. unfold sview, thread_part in *.
  destruct (tcbs s' !! u) as [U'|], (tcbs (K_sched k) !! u) as [U|] eqn:EU; simpl in *; case_decide; subst;
    try discriminate; simpl in *; rewrite ?EU in Hv; simpl in Hv; unfold status_lock; congruence.
Qed.

Section Steps.
Context (idle : Z -> Z).

Lemma status_view k t : status k t = snd <$> sview (K_sched k) t.
Proof. unfold status, sview. by destruct (tcbs (K_sched k) !! t). Qed.

(** Any bit can be set in the status of [t]; [k0] is the kernel before the thread left the ready
    tables. *)
Definition holding (k0 k : KERNEL) (t st : Z) : Prop := forall b, b <> 0 ->
  exists s', status_or t b k = Some (set_sched s' k0) /\ sys_inv idle s' /\ held_step (K_sched k0) s' t (Z.lor st b).

Lemma lor_nonzero_r a b : b <> 0 -> Z.lor a b <> 0.
Proof. intros Hb H. apply Hb. by apply Z.lor_eq_0_iff in H as [_ ?]. Qed.

Lemma set_status_sched t v k : set_status t v k = set_sched (upd_tcb t (set_TCB_usStatus v) (K_sched k)) k.
Proof. done. Qed.

Lemma kframe_twice k t v w : kframe (set_status t v k) (set_status t v (set_status t w k)).
Proof. rewrite set_status_twice. apply kframe_refl. Qed.

Lemma holding_blocked k t p st : sys_inv idle (K_sched k) -> sview (K_sched k) t = Some (p, st) -> st <> 0 -> holding k k t st.
Proof.
  intros Hi Hv Hst b Hb. unfold status_or. rewrite status_view, Hv. cbn [fmap option_fmap option_map snd mbind option_bind].
  destruct (sched_status idle (K_sched k) t p st (Z.lor st b) Hi Hv Hst) as [H1 H2]; [by apply lor_nonzero_r|by eapply waiting_not_idle|].
  eexists. split; [done|]. split; [done|]. by apply (held_step_intro _ _ t p st _ k Hv H2).
Qed.

(** A ready thread leaves the tables. *)
Lemma holding_ready k t p : sys_inv idle (K_sched k) -> sview (K_sched k) t = Some (p, 0) -> not_idle idle (K_sched k) t ->
  exists s1, unready k t = Some (set_sched s1 k) /\ holding k (set_sched s1 k) t 0.
Proof.
  intros Hi Hv Hid. destruct (sview_some _ _ _ _ Hv) as (T & HT & Ep & Es). pose proof (si_wf _ _ Hi) as Hwf.
  assert (Hl : linked (K_sched k) t) by (apply (si_ready idle _ Hi t T HT); unfold __LW_THREAD_IS_READY; by rewrite Es).
  destruct (del_ready (K_sched k) t T Hwf HT Hl) as (s1 & E & (W & A & HL) & Hk & _).
  { intros Hc. destruct (sw_isc _ Hwf t T HT Hc) as (c & Hcc & Hct).
    destruct (si_has_ready idle _ _ c t Hi Hcc Hct) as (c' & r & q & H); [|by exists c', r, q].
    apply Hid. by apply (sched_wf_cpu _ _ c Hwf). }
  exists s1. split; [unfold unready; rewrite HT; cbn [mbind option_bind]; by rewrite E|].
  intros b Hb. rewrite Z.lor_0_l. unfold status_or.
  assert (Ev1 : sview s1 t = Some (p, 0)) by (by rewrite (same_attrs_sview _ _ t A)).
  rewrite status_view. cbn [set_sched K_sched]. rewrite Ev1. cbn [fmap option_fmap option_map snd mbind option_bind]. rewrite Z.lor_0_l.
  destruct (sview_some _ _ _ _ Ev1) as (T1 & HT1 & Ep1 & Es1).
  set (s2 := upd_tcb t (set_TCB_usStatus b) s1). exists s2. split; [done|].
  destruct (wf_status s1 t b W) as [W2 L2].
  assert (Hch : schg (K_sched k) s2 t (p, b)).
  { split; [apply A|]. intros u. unfold s2. rewrite (upd_tcb_sview s1 t _ T1 HT1 u). simpl. rewrite Ep1.
    case_decide; [done|]. apply (same_attrs_sview _ _ u A). }
  split.
  - assert (HLn : forall u, linked s2 u <-> u <> t /\ linked (K_sched k) u) by (intros u; unfold s2; rewrite L2; apply HL).
    apply (sys_inv_step idle (K_sched k)); try done.
    + intros u U HU. rewrite HLn. unfold s2 in HU. rewrite lookup_upd_tcb in HU. destruct (decide (u = t)) as [->|Hne].
      * rewrite HT1 in HU. injection HU as <-. unfold __LW_THREAD_IS_READY. cbn [set_TCB_usStatus TCB_usStatus].
        change LW_THREAD_STATUS_RDY with 0. rewrite (proj2 (Z.eqb_neq b 0)) by done. split; [done|by intros [? _]].
      * destruct A as [_ A]. specialize (A u). rewrite HU in A. destruct (tcbs (K_sched k) !! u) as [U0|] eqn:E0; [|done].
        simpl in A. injection A as _ _ _ EA. unfold __LW_THREAD_IS_READY. rewrite EA. rewrite <-(si_ready idle _ Hi u U0 E0).
        unfold __LW_THREAD_IS_READY. tauto.
    + apply A.
    + intros u U HU. unfold s2. rewrite lookup_upd_tcb. destruct (same_attrs_get _ _ u U A HU) as (U' & HU' & _). rewrite HU'.
      by destruct (decide (u = t)).
    + intros i U Hi' HU. destruct (same_attrs_get _ _ _ U A HU) as (U' & HU' & EA). exists U'. unfold s2.
      rewrite lookup_upd_tcb, decide_False by (intros E'; by apply (Hid i)). injection EA as _ ? ? ?. by splits.
  - apply (held_step_intro _ _ t p 0 _ k Hv Hch); [|done].
    assert (Hf : frame (K_sched k) s1) by (eapply DEL_frame; [exact E|apply sframe_refl]). destruct Hf as [F1 F2 F3].
    split; [|exact F2|exact F3]. intros u. cbn [set_status set_sched K_sched]. unfold s2. rewrite !lookup_upd_tcb. specialize (F1 u).
    case_decide as Eu; [|done]. destruct (tcbs s1 !! u), (tcbs (K_sched k) !! u); try done. simpl in *. unfold thread_part in *. simpl. congruence.
Qed.

Lemma unready_if_spec k t p st : sys_inv idle (K_sched k) -> sview (K_sched k) t = Some (p, st) -> not_idle idle (K_sched k) t ->
  exists s1, unready_if k t = Some (set_sched s1 k) /\ holding k (set_sched s1 k) t st.
Proof.
  intros Hi Hv Hid. unfold unready_if, thread_is_ready. destruct (sview_some _ _ _ _ Hv) as (T & HT & Ep & Es). rewrite HT.
  cbn [mbind option_bind]. unfold __LW_THREAD_IS_READY. rewrite Es. change LW_THREAD_STATUS_RDY with 0.
  destruct (Z.eqb_spec st 0) as [->|Hne].
  - by apply (holding_ready k t p).
  - exists (K_sched k). assert (set_sched (K_sched k) k = k) as -> by (by destruct k). split; [done|]. by apply (holding_blocked k t p).
Qed.

(** A bit is cleared, and the thread enters the tables when it was the last one. *)
Lemma let_ready_spec k t p st b x : sys_inv idle (K_sched k) -> sview (K_sched k) t = Some (p, st) -> st <> 0 ->
  exists s', (k ← status_andn t b k; ready_if k t x) = Some (set_sched s' k) /\ sys_inv idle s' /\ held_step (K_sched k) s' t (Z.ldiff st b).
Proof.
  intros Hi Hv Hst. unfold status_andn. rewrite status_view, Hv. cbn [fmap option_fmap option_map snd mbind option_bind].
  destruct (ready_if_spec idle k t p st (Z.ldiff st b) x Hi Hv Hst) as (s' & E & H1 & H2). exists s'. split; [done|]. split; [done|].
  apply (held_step_intro _ _ t p st _ k Hv H2); [|done]. eapply kframe_trans; [|eapply ready_if_frame; [exact E|apply kframe_refl]].
  apply kframe_refl.
Qed.
End Steps.

(** ** The kernel under these steps *)

(** A bit that no wait uses. *)
Definition ctl_bit (b : Z) : Prop := b <> 0 /\ Z.land b (Z.lor WAIT_BITS LW_THREAD_STATUS_DELAY) = 0.

Lemma ctl_bit_sub b d : ctl_bit b -> Z.land (Z.lor WAIT_BITS LW_THREAD_STATUS_DELAY) d = d -> Z.land b d = 0.
Proof. intros [_ H] Hd. by rewrite <-Hd, Z.land_assoc, H. Qed.

Lemma land_lor_off st b d : Z.land b d = 0 -> Z.land (Z.lor st b) d = Z.land st d.
Proof. intros H. by rewrite Z.land_lor_distr_l, H, Z.lor_0_r. Qed.
Lemma land_ldiff_off st b d : Z.land b d = 0 -> Z.land (Z.ldiff st b) d = Z.land st d.
Proof.
  intros H. apply Z.bits_inj'. intros i Hi. rewrite !Z.land_spec, Z.ldiff_spec.
  assert (E : Z.testbit (Z.land b d) i = false) by (rewrite H; apply Z.bits_0). rewrite Z.land_spec in E.
  destruct (Z.testbit st i), (Z.testbit b i), (Z.testbit d i); done.
Qed.

Lemma ctl_bits st b p q : ctl_bit b -> same_bits (p, st) (q, Z.lor st b) /\ same_bits (p, st) (q, Z.ldiff st b).
Proof.
  intros Hb. unfold same_bits, has_option. cbn [snd].
  rewrite !land_lor_off, !land_ldiff_off by (by apply ctl_bit_sub). done.
Qed.

Lemma ctl_bit_or st b d : has_option (Z.lor st b) d = has_option st d || has_option b d.
Proof.
  unfold has_option. rewrite Z.land_lor_distr_l.
  destruct (Z.eqb_spec (Z.land st d) 0) as [E|E], (Z.eqb_spec (Z.land b d) 0) as [E'|E'].
  - by rewrite E, E'.
  - rewrite E, Z.lor_0_l. by apply Z.eqb_neq in E' as ->.
  - rewrite E', Z.lor_0_r. by apply Z.eqb_neq in E as ->.
  - apply negb_true_iff, Z.eqb_neq. intros [? _]%Z.lor_eq_0_iff. done.
Qed.
Lemma ctl_bit_andn st b d : Z.land b d = 0 -> has_option (Z.ldiff st b) d = has_option st d.
Proof. intros H. unfold has_option. by rewrite land_ldiff_off. Qed.
Lemma ctl_bit_gone st b : has_option (Z.ldiff st b) b = false.
Proof. apply has_option_false. rewrite land_ldiff, Z.ldiff_diag. apply Z.land_0_r. Qed.

Lemma held_sview s s' t st' u : held_step s s' t st' -> sview s' u = if decide (u = t) then (fun v => (v.1, st')) <$> sview s u else sview s u.
Proof.
  intros [H _ _]. specialize (H u). unfold sview. destruct (tcbs s' !! u), (tcbs s !! u); simpl in *; case_decide; unfold status_lock in *; try done; simpl in *; congruence.
Qed.

Lemma sem_inv_sched idle k s' : sem_inv idle k -> sys_inv idle s' ->
  (forall t, match sview (K_sched k) t, sview s' t with
             | Some v, Some v' => same_bits v v' | None, None => True | _, _ => False end) ->
  sem_inv idle (set_sched s' k).
Proof.
  intros Hi Hs Hv. pose proof (sv_kern _ _ Hi) as [Hk Hd]. split.
  - split; [by apply kern_ok_sched|exact Hd].
  - intros e0 E0 HE0. apply (ev_ok_alive k); [by intros|]. by apply (sv_ev _ _ Hi).
  - destruct (sv_pool _ _ Hi) as [P1 P2 P3 P4 P5]. by split.
  - apply (sv_mark _ _ Hi).
Qed.

Lemma sem_inv_held idle k s' t p st st' : sem_inv idle k -> sys_inv idle s' -> sview (K_sched k) t = Some (p, st) ->
  held_step (K_sched k) s' t st' -> same_bits (p, st) (p, st') -> sem_inv idle (set_sched s' k).
Proof.
  intros Hi Hs Hv Hh Hb. apply sem_inv_sched; [done|done|]. intros u. rewrite (held_sview _ _ t st' u Hh).
  case_decide as E; [subst; by rewrite Hv|]. destruct (sview (K_sched k) u); [by split|done].
Qed.

(** ** The invariant *)

Record thread_ctl (c : CTL) (st : Z) : Prop := {
  tc_suspend : has_option st LW_THREAD_STATUS_SUSPEND = true <-> TCB_ulSuspendNesting c <> 0;
  tc_stop : has_option st LW_THREAD_STATUS_STOP = true <-> TCB_ulStopNesting c <> 0;
  tc_wait : has_option st LW_THREAD_STATUS_WSTAT = true <-> TCB_ptcbWaitStatus c <> None;
  tc_nest : 0 <= TCB_ulSuspendNesting c /\ 0 <= TCB_ulStopNesting c;
  tc_room : TCB_ulSuspendNesting c + TCB_ulStopNesting c + Z.of_nat (length (TCB_plineStatusReqHeader c)) <= ULONG_MAX;
  tc_req : TCB_ptcbWaitStatus c <> None -> TCB_uiStatusChangeReq c ∈ [LW_TCB_REQ_SUSPEND; LW_TCB_REQ_STOP; LW_TCB_REQ_WDEATH]
}.

(** Thread [u] has a request with [t]. *)
Definition waits_on (s : THREADS) (u t : Z) : Prop := TCB_ptcbWaitStatus <$> T_ctl s !! u = Some (Some t).

(** [t] runs on a CPU. *)
Definition on_cpu (s : THREADS) (t : Z) : Prop :=
  exists i p, cpus (K_sched (T_kern s)) !! i = Some p /\ CPU_ptcbTCBCur p = t.
Definition locked (s : THREADS) (t : Z) : Prop :=
  exists T, tcbs (K_sched (T_kern s)) !! t = Some T /\ 1 < TCB_ulThreadLockCounter T.

Section Invariant.
Context (idle : Z -> Z).

Record ctl_inv (s : THREADS) : Prop := {
  ci_sem : sem_inv idle (T_kern s);
  ci_dom : forall t, is_Some (T_ctl s !! t) <-> is_Some (tcbs (K_sched (T_kern s)) !! t);
  ci_ctl : forall t c T, T_ctl s !! t = Some c -> tcbs (K_sched (T_kern s)) !! t = Some T -> thread_ctl c (TCB_usStatus T);
  ci_list : forall t c, T_ctl s !! t = Some c ->
    NoDup (TCB_plineStatusReqHeader c) /\ forall u, u ∈ TCB_plineStatusReqHeader c <-> waits_on s u t;
  ci_target : forall u t, waits_on s u t -> u <> t /\ is_Some (T_ctl s !! t) /\ not_idle idle (K_sched (T_kern s)) t;
  ci_runs : forall u t, waits_on s u t -> on_cpu s t \/ locked s t;
  ci_table : forall j t, _K_ptcbTCBIdTable s !! j = Some t -> is_Some (T_ctl s !! t) /\
    (LW_NCPUS (K_sched (T_kern s)) <= j -> not_idle idle (K_sched (T_kern s)) t)
}.

(** What a step does not change: locks, CPUs, the thread table, the interrupts that were sent. *)
Record still (s s' : THREADS) : Prop := {
  sl_lock : forall t, TCB_ulThreadLockCounter <$> tcbs (K_sched (T_kern s')) !! t = TCB_ulThreadLockCounter <$> tcbs (K_sched (T_kern s)) !! t;
  sl_cpu : forall i, cpu_part <$> cpus (K_sched (T_kern s')) !! i = cpu_part <$> cpus (K_sched (T_kern s)) !! i;
  sl_ncpus : LW_NCPUS (K_sched (T_kern s')) = LW_NCPUS (K_sched (T_kern s));
  sl_table : _K_ptcbTCBIdTable s' = _K_ptcbTCBIdTable s;
  sl_ipi : T_ipi s ⊆ T_ipi s';
  sl_dom : forall t, is_Some (T_ctl s' !! t) <-> is_Some (T_ctl s !! t);
  sl_max : LW_CFG_MAX_THREADS s' = LW_CFG_MAX_THREADS s
}.

Lemma still_refl s : still s s.
Proof. by split. Qed.
Lemma still_trans s1 s2 s3 : still s1 s2 -> still s2 s3 -> still s1 s3.
Proof.
  intros [A1 A2 A3 A4 A5 A6 A7] [B1 B2 B3 B4 B5 B6 B7]. split.
  - intros t. by rewrite B1.
  - intros i. by rewrite B2.
  - congruence.
  - congruence.
  - by etrans.
  - intros t. by rewrite B6.
  - congruence.
Qed.

Lemma still_idle s s' t : still s s' -> not_idle idle (K_sched (T_kern s)) t -> not_idle idle (K_sched (T_kern s')) t.
Proof. intros Hs H i Hi. apply H. unfold cpu_id in *. by rewrite <-(sl_ncpus _ _ Hs). Qed.

Lemma still_on_cpu s s' t : still s s' -> on_cpu s t -> on_cpu s' t.
Proof.
  intros Hs (i & p & Hp & Hc). pose proof (sl_cpu _ _ Hs i) as H. rewrite Hp in H.
  destruct (cpus (K_sched (T_kern s')) !! i) as [p'|] eqn:Hp'; [|done]. injection H as H _ _.
  exists i, p'. by split; [|congruence].
Qed.
Lemma still_locked s s' t : still s s' -> locked s t -> locked s' t.
Proof.
  intros Hs (T & HT & Hl). pose proof (sl_lock _ _ Hs t) as H. rewrite HT in H.
  destruct (tcbs (K_sched (T_kern s')) !! t) as [T'|] eqn:HT'; [|done]. injection H as H. exists T'. by rewrite H.
Qed.

(** A step that changes no request. *)
Lemma ctl_inv_step s s' : ctl_inv s -> still s s' -> sem_inv idle (T_kern s') ->
  (forall t c T', T_ctl s !! t = Some c -> tcbs (K_sched (T_kern s')) !! t = Some T' ->
     exists c', T_ctl s' !! t = Some c' /\ TCB_ptcbWaitStatus c' = TCB_ptcbWaitStatus c /\
       TCB_plineStatusReqHeader c' = TCB_plineStatusReqHeader c /\ thread_ctl c' (TCB_usStatus T')) ->
  ctl_inv s'.
Proof.
  intros Hi Hs Hsem Hc. pose proof Hi as [_ I2 I3 I4 I5 I6 I7].
  assert (Hd : forall t, is_Some (tcbs (K_sched (T_kern s')) !! t) <-> is_Some (tcbs (K_sched (T_kern s)) !! t)).
  { intros t. pose proof (sl_lock _ _ Hs t) as H. destruct (tcbs _ !! t), (tcbs (K_sched (T_kern s)) !! t); try done; by split; eexists. }
  assert (Hback : forall t c', T_ctl s' !! t = Some c' -> exists c T', T_ctl s !! t = Some c /\ tcbs (K_sched (T_kern s')) !! t = Some T' /\
    TCB_ptcbWaitStatus c' = TCB_ptcbWaitStatus c /\ TCB_plineStatusReqHeader c' = TCB_plineStatusReqHeader c /\ thread_ctl c' (TCB_usStatus T')).
  { intros t c' Hc'. assert (is_Some (T_ctl s !! t)) as [c Hct] by (apply (sl_dom _ _ Hs); by eexists).
    assert (is_Some (tcbs (K_sched (T_kern s')) !! t)) as [T' HT'] by (apply Hd, I2; by eexists).
    destruct (Hc t c T' Hct HT') as (c2 & Hc2 & H). rewrite Hc' in Hc2. injection Hc2 as <-. by exists c, T'. }
  assert (Hw : forall u t, waits_on s' u t <-> waits_on s u t).
  { intros u t. unfold waits_on. destruct (T_ctl s' !! u) as [c'|] eqn:E'.
    - destruct (Hback u c' E') as (c & T' & -> & _ & Ew & _). simpl. by rewrite Ew.
    - destruct (T_ctl s !! u) eqn:E; [|done]. assert (is_Some (T_ctl s' !! u)) as [? ?] by (apply (sl_dom _ _ Hs); by eexists). congruence. }
  split; [done|..].
  - intros t. by rewrite (sl_dom _ _ Hs), I2, Hd.
  - intros t c' T' Hc' HT'. destruct (Hback t c' Hc') as (c & T2 & _ & HT2 & _ & _ & H). congruence.
  - intros t c' Hc'. destruct (Hback t c' Hc') as (c & T2 & Hct & _ & _ & -> & _). destruct (I4 t c Hct) as [H1 H2].
    split; [done|]. intros u. by rewrite H2, Hw.
  - intros u t H%Hw. destruct (I5 u t H) as (A & B & C). splits; [done|by apply (sl_dom _ _ Hs)|by apply (still_idle s)].
  - intros u t H%Hw. destruct (I6 u t H); [left; by apply (still_on_cpu s)|right; by apply (still_locked s)].
  - intros j t. rewrite (sl_table _ _ Hs), (sl_ncpus _ _ Hs). intros H. destruct (I7 j t H) as [A B].
    split; [by apply (sl_dom _ _ Hs)|]. intros Hj. apply (still_idle s); auto.
Qed.

(** *** Steps of the rest of the kernel *)

Lemma held_option st st' b : held_bits st = held_bits st' -> Z.land b WAIT_MASK = 0 -> has_option st b = has_option st' b.
Proof.
  intros H Hb. unfold has_option. do 2 f_equal.
  assert (E : forall x, Z.land x b = Z.land (held_bits x) b).
  { intros x. unfold held_bits. apply Z.bits_inj'. intros i Hi. rewrite !Z.land_spec, Z.ldiff_spec.
    assert (Hz : Z.testbit (Z.land b WAIT_MASK) i = false) by (rewrite Hb; apply Z.bits_0). rewrite Z.land_spec in Hz.
    destruct (Z.testbit x i), (Z.testbit b i), (Z.testbit WAIT_MASK i); done. }
  by rewrite (E st), (E st'), H.
Qed.

Lemma thread_ctl_held c st st' : held_bits st = held_bits st' -> thread_ctl c st -> thread_ctl c st'.
Proof.
  intros H [A1 A2 A3 A4 A5 A6]. split; try done; rewrite <-(held_option st st'); done.
Qed.

Lemma ctl_inv_kern s k : ctl_inv s -> sem_inv idle k -> kframe (T_kern s) k -> ctl_inv (set_kern k s) /\ still s (set_kern k s).
Proof.
  intros Hi Hk [F1 F2 F3].
  assert (Hs : still s (set_kern k s)).
  { split; try done. intros t. specialize (F1 t). cbn [set_kern T_kern]. destruct (tcbs (K_sched k) !! t), (tcbs (K_sched (T_kern s)) !! t); try done.
    injection F1 as _ H. simpl. by rewrite H. }
  split; [|done]. apply (ctl_inv_step s); [done|done|done|]. intros t c T' Hc HT'. cbn [set_kern T_kern T_ctl] in *. exists c. splits; try done.
  specialize (F1 t). rewrite HT' in F1. destruct (tcbs (K_sched (T_kern s)) !! t) as [T|] eqn:HT; [|done]. injection F1 as F1 _.
  eapply thread_ctl_held; [symmetry; exact F1|]. by apply (ci_ctl _ Hi t).
Qed.

(** *** One status change *)

Definition req_bit (r : Z) : Z :=
  if r =? LW_TCB_REQ_SUSPEND then LW_THREAD_STATUS_SUSPEND
  else if r =? LW_TCB_REQ_STOP then LW_THREAD_STATUS_STOP else LW_THREAD_STATUS_WDEATH.
Definition req_count (r : Z) (c : CTL) : CTL :=
  if r =? LW_TCB_REQ_SUSPEND then set_TCB_ulSuspendNesting (TCB_ulSuspendNesting c +64 1) c
  else if r =? LW_TCB_REQ_STOP then set_TCB_ulStopNesting (TCB_ulStopNesting c +64 1) c else c.
Definition a_request (r : Z) : Prop := r ∈ [LW_TCB_REQ_SUSPEND; LW_TCB_REQ_STOP; LW_TCB_REQ_WDEATH].

Lemma req_bit_ctl r : ctl_bit (req_bit r).
Proof. unfold req_bit. repeat case_match; split; by vm_compute. Qed.

Lemma a_request_cases r : a_request r -> r = 1 \/ r = 2 \/ r = 3.
Proof. unfold a_request. rewrite !elem_of_cons, elem_of_nil. unfold LW_TCB_REQ_SUSPEND, LW_TCB_REQ_STOP, LW_TCB_REQ_WDEATH. tauto. Qed.

Lemma upd_ctl_id t s : upd_ctl t (fun c => c) s = s.
Proof. destruct s. unfold upd_ctl. simpl. f_equal. apply map_eq. intros u. destruct (decide (u = t)) as [->|]; [rewrite lookup_alter_eq; by destruct (_ !! t)|by rewrite lookup_alter_ne]. Qed.

Lemma lookup_upd_ctl t f s u : T_ctl (upd_ctl t f s) !! u = if decide (u = t) then f <$> T_ctl s !! u else T_ctl s !! u.
Proof. simpl. case_decide; [subst; apply lookup_alter_eq|by apply lookup_alter_ne]. Qed.

Lemma switch_spec k0 s t st r : holding idle k0 (T_kern s) t st -> a_request r ->
  exists s', status_switch s t r = Some (set_kern (set_sched s' k0) (upd_ctl t (req_count r) s)) /\ sys_inv idle s' /\
    held_step (K_sched k0) s' t (Z.lor st (req_bit r)).
Proof.
  intros Hh Hr. destruct (Hh (req_bit r)) as (s' & E & H); [apply req_bit_ctl|]. exists s'. split; [|exact H].
  unfold status_switch. destruct (a_request_cases r Hr) as [->|[->| ->]].
  - cbn [upd_ctl T_kern]. change LW_THREAD_STATUS_SUSPEND with (req_bit 1). simpl Z.eqb. cbv iota. by rewrite E.
  - cbn [upd_ctl T_kern]. change LW_THREAD_STATUS_STOP with (req_bit 2). simpl Z.eqb. cbv iota. by rewrite E.
  - change LW_THREAD_STATUS_WDEATH with (req_bit 3). simpl Z.eqb. cbv iota. rewrite E. cbn [mbind option_bind].
    change (req_count 3) with (fun c : CTL => c). by rewrite upd_ctl_id.
Qed.

(** The control block of a thread that is held once more. *)
Lemma thread_ctl_hold c st r l : a_request r -> thread_ctl c st ->
  TCB_ulSuspendNesting c + TCB_ulStopNesting c + Z.of_nat (length l) < ULONG_MAX ->
  thread_ctl (set_TCB_plineStatusReqHeader l (req_count r c)) (Z.lor st (req_bit r)).
Proof.
  intros Hr [A1 A2 A3 [A4 A4'] A5 A6] Hl.
  assert (W1 : TCB_ulSuspendNesting c +64 1 = TCB_ulSuspendNesting c + 1) by (apply wrap64_small; lia).
  assert (W2 : TCB_ulStopNesting c +64 1 = TCB_ulStopNesting c + 1) by (apply wrap64_small; lia).
  destruct (a_request_cases r Hr) as [->|[->| ->]];
    [change (req_bit 1) with LW_THREAD_STATUS_SUSPEND; change (req_count 1 c) with (set_TCB_ulSuspendNesting (TCB_ulSuspendNesting c +64 1) c)
    |change (req_bit 2) with LW_THREAD_STATUS_STOP; change (req_count 2 c) with (set_TCB_ulStopNesting (TCB_ulStopNesting c +64 1) c)
    |change (req_bit 3) with LW_THREAD_STATUS_WDEATH; change (req_count 3 c) with c];
    split; cbn [TCB_ulSuspendNesting TCB_ulStopNesting TCB_ptcbWaitStatus TCB_uiStatusChangeReq TCB_plineStatusReqHeader
      set_TCB_plineStatusReqHeader set_TCB_ulSuspendNesting set_TCB_ulStopNesting];
    rewrite ?ctl_bit_or, ?W1, ?W2; try done; try lia.
  - change (has_option LW_THREAD_STATUS_SUSPEND LW_THREAD_STATUS_SUSPEND) with true. rewrite orb_true_r. split; [lia|done].
  - change (has_option LW_THREAD_STATUS_SUSPEND LW_THREAD_STATUS_STOP) with false. by rewrite orb_false_r.
  - change (has_option LW_THREAD_STATUS_SUSPEND LW_THREAD_STATUS_WSTAT) with false. by rewrite orb_false_r.
  - change (has_option LW_THREAD_STATUS_STOP LW_THREAD_STATUS_SUSPEND) with false. by rewrite orb_false_r.
  - change (has_option LW_THREAD_STATUS_STOP LW_THREAD_STATUS_STOP) with true. rewrite orb_true_r. split; [lia|done].
  - change (has_option LW_THREAD_STATUS_STOP LW_THREAD_STATUS_WSTAT) with false. by rewrite orb_false_r.
  - change (has_option LW_THREAD_STATUS_WDEATH LW_THREAD_STATUS_SUSPEND) with false. by rewrite orb_false_r.
  - change (has_option LW_THREAD_STATUS_WDEATH LW_THREAD_STATUS_STOP) with false. by rewrite orb_false_r.
  - change (has_option LW_THREAD_STATUS_WDEATH LW_THREAD_STATUS_WSTAT) with false. by rewrite orb_false_r.
Qed.

Definition stat (s : THREADS) (t : Z) : option Z := TCB_usStatus <$> tcbs (K_sched (T_kern s)) !! t.

Lemma held_lock s s' t st u : held_step s s' t st ->
  TCB_ulThreadLockCounter <$> tcbs s' !! u = TCB_ulThreadLockCounter <$> tcbs s !! u.
Proof.
  intros [H _ _]. specialize (H u). destruct (tcbs s' !! u), (tcbs s !! u); simpl in *; case_decide; unfold status_lock in *; try done; simpl in *; congruence.
Qed.
Lemma held_stat s s' t st u : held_step s s' t st ->
  TCB_usStatus <$> tcbs s' !! u = if decide (u = t) then (fun _ => st) <$> tcbs s !! u else TCB_usStatus <$> tcbs s !! u.
Proof.
  intros [H _ _]. specialize (H u). destruct (tcbs s' !! u), (tcbs s !! u); simpl in *; case_decide; unfold status_lock in *; try done; simpl in *; congruence.
Qed.

Lemma still_held s s' t st : held_step (K_sched (T_kern s)) (K_sched (T_kern s')) t st ->
  _K_ptcbTCBIdTable s' = _K_ptcbTCBIdTable s -> T_ipi s ⊆ T_ipi s' -> (forall u, is_Some (T_ctl s' !! u) <-> is_Some (T_ctl s !! u)) ->
  LW_CFG_MAX_THREADS s' = LW_CFG_MAX_THREADS s -> still s s'.
Proof. intros H H1 H2 H3 H4. split; try done; [intros u; by eapply held_lock|apply H|apply H]. Qed.

Lemma ctl_thread s t c : ctl_inv s -> T_ctl s !! t = Some c -> exists T p, tcbs (K_sched (T_kern s)) !! t = Some T /\
  sview (K_sched (T_kern s)) t = Some (p, TCB_usStatus T) /\ stat s t = Some (TCB_usStatus T) /\ thread_ctl c (TCB_usStatus T).
Proof.
  intros Hi Hc. assert (is_Some (tcbs (K_sched (T_kern s)) !! t)) as [T HT] by (apply (ci_dom _ Hi); by eexists).
  exists T, (TCB_ucPriority T). unfold sview, stat. rewrite HT. splits; try done. by apply (ci_ctl _ Hi t).
Qed.

(** What an operation did to the control blocks and the status of the threads. *)
Definition ctl_is (s' : THREADS) (f : Z -> option CTL) (g : Z -> option Z) : Prop :=
  (forall u, T_ctl s' !! u = f u) /\ forall u, stat s' u = g u.

(** The status of [t], or of its reader, changes; no request does. *)
Lemma held_inv s s2 t st st' p f : ctl_inv s -> sys_inv idle s2 -> sview (K_sched (T_kern s)) t = Some (p, st) ->
  held_step (K_sched (T_kern s)) s2 t st' -> same_bits (p, st) (p, st') ->
  (forall u c, T_ctl s !! u = Some c -> exists c', f u = Some c' /\ TCB_ptcbWaitStatus c' = TCB_ptcbWaitStatus c /\
     TCB_plineStatusReqHeader c' = TCB_plineStatusReqHeader c /\ thread_ctl c' (if decide (u = t) then st' else default 0 (stat s u))) ->
  forall s', T_kern s' = set_sched s2 (T_kern s) -> _K_ptcbTCBIdTable s' = _K_ptcbTCBIdTable s -> T_ipi s' = T_ipi s ->
  LW_CFG_MAX_THREADS s' = LW_CFG_MAX_THREADS s -> (forall u, T_ctl s' !! u = f u) -> (forall u, is_Some (f u) -> is_Some (T_ctl s !! u)) ->
  ctl_inv s' /\ still s s'.
Proof.
  intros Hi Hs Hv Hh Hb Hf s' Ek Et Ei Em Ec Hd.
  assert (Hst : still s s').
  { apply (still_held s s' t st'); try done; [by rewrite Ek|by rewrite Ei|]. intros u. rewrite Ec. split; [apply Hd|].
    intros [c Hc]. destruct (Hf u c Hc) as (c' & -> & _). by eexists. }
  split; [|done]. apply (ctl_inv_step s); [done|done| |].
  - rewrite Ek. by eapply sem_inv_held; [apply Hi|..].
  - intros u c T' Hc HT'. destruct (Hf u c Hc) as (c' & E & E1 & E2 & E3). exists c'. rewrite Ec. splits; try done.
    pose proof (held_stat _ _ _ _ u Hh) as Hu. rewrite Ek in HT'. cbn [set_sched K_sched] in HT'. rewrite HT' in Hu. simpl in Hu.
    unfold stat in E3. destruct (tcbs (K_sched (T_kern s)) !! u); case_decide; try done; injection Hu as ->; done.
Qed.

(** The bits of a control block that only its reader clears. *)
Lemma thread_ctl_noreq c st v : TCB_ptcbWaitStatus c = None -> thread_ctl c st -> thread_ctl (set_TCB_uiStatusChangeReq v c) st.
Proof. intros Hn [A1 A2 A3 A4 A5 A6]. by split. Qed.

Lemma req_count_wait r c : TCB_ptcbWaitStatus (req_count r c) = TCB_ptcbWaitStatus c.
Proof. unfold req_count. by repeat case_match. Qed.
Lemma req_count_list r c : TCB_plineStatusReqHeader (req_count r c) = TCB_plineStatusReqHeader c.
Proof. unfold req_count. by repeat case_match. Qed.
Lemma req_count_req r c : TCB_uiStatusChangeReq (req_count r c) = TCB_uiStatusChangeReq c.
Proof. unfold req_count. by repeat case_match. Qed.
Lemma req_count_header r c : set_TCB_plineStatusReqHeader (TCB_plineStatusReqHeader c) (req_count r c) = req_count r c.
Proof. unfold req_count. destruct c. by repeat case_match. Qed.

Lemma hold_now s k cur cc t c p st r : ctl_inv s -> holding idle (T_kern s) k t st ->
  sview (K_sched (T_kern s)) t = Some (p, st) -> T_ctl s !! t = Some c -> T_ctl s !! cur = Some cc -> TCB_ptcbWaitStatus cc = None ->
  a_request r -> TCB_ulSuspendNesting c + TCB_ulStopNesting c + Z.of_nat (length (TCB_plineStatusReqHeader c)) < ULONG_MAX ->
  exists s', status_switch (upd_ctl cur (set_TCB_uiStatusChangeReq 0) (set_kern k s)) t r = Some s' /\ ctl_inv s' /\ still s s' /\
    (forall u, T_ctl s' !! u = (fun c => if decide (u = t) then req_count r c else c) <$>
      ((fun c => if decide (u = cur) then set_TCB_uiStatusChangeReq 0 c else c) <$> T_ctl s !! u)) /\
    held_step (K_sched (T_kern s)) (K_sched (T_kern s')) t (Z.lor st (req_bit r)).
Proof.
  intros Hi Hh Hv Hc Hcc Hn Hr Hroom.
  destruct (switch_spec (T_kern s) (upd_ctl cur (set_TCB_uiStatusChangeReq 0) (set_kern k s)) t st r Hh Hr) as (s2 & E & H1 & H2).
  match type of E with _ = Some ?x => set (s' := x) in * end. exists s'. split; [done|].
  assert (Hl : forall u, T_ctl s' !! u = (fun c => if decide (u = t) then req_count r c else c) <$>
      ((fun c => if decide (u = cur) then set_TCB_uiStatusChangeReq 0 c else c) <$> T_ctl s !! u)).
  { intros u. unfold s'. cbn [set_kern T_ctl]. rewrite !lookup_upd_ctl. cbn [set_kern T_ctl].
    repeat case_decide; destruct (T_ctl s !! u); done. }
  assert (Hst : thread_ctl c st).
  { destruct (ctl_thread s t c Hi Hc) as (T & q & HT & Hv' & _ & H). rewrite Hv in Hv'. by injection Hv' as <- ->. }
  assert (Hk : forall u x, T_ctl s !! u = Some x -> u = cur -> TCB_ptcbWaitStatus x = None).
  { intros u x Hx ->. congruence. }
  destruct (held_inv s s2 t st (Z.lor st (req_bit r)) p (fun u => T_ctl s' !! u) Hi H1 Hv H2
    ltac:(by apply (ctl_bits st (req_bit r) p p), req_bit_ctl)) with (s' := s') as [Hi' Hs']; try done.
  - intros u x Hx. rewrite Hl, Hx. cbn [fmap option_fmap option_map]. eexists. split; [done|].
    destruct (ctl_thread s u x Hi Hx) as (T & q & _ & Hvu & -> & Hu).
    set (x' := if decide (u = cur) then set_TCB_uiStatusChangeReq 0 x else x).
    assert (Hx' : thread_ctl x' (TCB_usStatus T) /\ TCB_ptcbWaitStatus x' = TCB_ptcbWaitStatus x /\ TCB_plineStatusReqHeader x' = TCB_plineStatusReqHeader x /\
      TCB_ulSuspendNesting x' = TCB_ulSuspendNesting x /\ TCB_ulStopNesting x' = TCB_ulStopNesting x).
    { unfold x'. case_decide; [|done]. splits; try done. apply thread_ctl_noreq; [by eapply Hk|done]. }
    clearbody x'. destruct Hx' as (X1 & X2 & X3 & X4 & X5). case_decide as Eu; [|by splits].
    subst u. rewrite Hc in Hx. injection Hx as <-. rewrite Hv in Hvu. injection Hvu as <- ->.
    pose proof (thread_ctl_hold x' _ r (TCB_plineStatusReqHeader x') Hr X1) as Ht. rewrite X4, X5, X3 in Ht. specialize (Ht Hroom).
    rewrite <-X3 in Ht. rewrite req_count_header in Ht. by rewrite req_count_wait, req_count_list, X2, X3.
  - intros u [y Hy]. rewrite Hl in Hy. by destruct (T_ctl s !! u).
Qed.

(** *** Requests carried out *)

Definition ctl_clear (c : CTL) : CTL := set_TCB_uiStatusChangeReq 0 (set_TCB_ptcbWaitStatus None c).

Lemma thread_ctl_clear c st : thread_ctl c st -> thread_ctl (ctl_clear c) (Z.ldiff st LW_THREAD_STATUS_WSTAT).
Proof.
  intros [A1 A2 A3 A4 A5 A6]. split; try done; rewrite ?ctl_bit_gone; try done; by rewrite ctl_bit_andn.
Qed.

Lemma waits_listed s u t c : ctl_inv s -> T_ctl s !! t = Some c -> u ∈ TCB_plineStatusReqHeader c -> waits_on s u t.
Proof. intros Hi Hc. by apply (ci_list _ Hi t c Hc). Qed.

Lemma waits_thread s u t : ctl_inv s -> waits_on s u t -> exists cu T p, T_ctl s !! u = Some cu /\ TCB_ptcbWaitStatus cu = Some t /\
  tcbs (K_sched (T_kern s)) !! u = Some T /\ sview (K_sched (T_kern s)) u = Some (p, TCB_usStatus T) /\ TCB_usStatus T <> 0 /\
  thread_ctl cu (TCB_usStatus T) /\ a_request (TCB_uiStatusChangeReq cu) /\ stat s u = Some (TCB_usStatus T).
Proof.
  intros Hi Hw. unfold waits_on in Hw. destruct (T_ctl s !! u) as [cu|] eqn:Hcu; [|done]. injection Hw as Hw.
  destruct (ctl_thread s u cu Hi Hcu) as (T & p & HT & Hv & Hs & Ht). exists cu, T, p. splits; try done.
  - intros E. pose proof (tc_wait _ _ Ht) as H. rewrite E, Hw in H. by assert (has_option 0 LW_THREAD_STATUS_WSTAT = true) by (by apply H).
  - apply (tc_req _ _ Ht). by rewrite Hw.
Qed.

(** The thread [u] goes on; [k] is the kernel with the status of [t] written. *)
Lemma wstat_spec k u p st : sys_inv idle (K_sched k) -> sview (K_sched k) u = Some (p, st) -> st <> 0 ->
  exists s', wstat_end k u = Some (set_sched s' k) /\ sys_inv idle s' /\ held_step (K_sched k) s' u (Z.ldiff st LW_THREAD_STATUS_WSTAT).
Proof.
  intros Hi Hv Hst. unfold wstat_end, thread_is_ready. destruct (sview_some _ _ _ _ Hv) as (T & HT & Ep & Es). rewrite HT.
  cbn [mbind option_bind]. unfold __LW_THREAD_IS_READY. rewrite Es. change LW_THREAD_STATUS_RDY with 0.
  rewrite (proj2 (Z.eqb_neq st 0)) by done. by apply (let_ready_spec idle k u p).
Qed.

(** The list of requests of [t] has lost its first, [u]: the control blocks of the invariant. *)
Lemma served_inv s s' t u c cu l st stu r : ctl_inv s -> T_ctl s !! t = Some c -> T_ctl s !! u = Some cu ->
  TCB_plineStatusReqHeader c = u :: l -> stat s t = Some st -> stat s u = Some stu -> a_request r ->
  sem_inv idle (T_kern s') -> still s s' ->
  (forall v, T_ctl s' !! v = if decide (v = t) then Some (set_TCB_plineStatusReqHeader l (req_count r c))
     else if decide (v = u) then Some (ctl_clear cu) else T_ctl s !! v) ->
  (forall v, stat s' v = if decide (v = t) then Some (Z.lor st (req_bit r))
     else if decide (v = u) then Some (Z.ldiff stu LW_THREAD_STATUS_WSTAT) else stat s v) ->
  ctl_inv s'.
Proof.
  intros Hi Hc Hcu Hl Hst Hstu Hr Hsem Hs Ec Est. pose proof Hi as [_ I2 I3 I4 I5 I6 I7].
  destruct (I4 t c Hc) as [Hnd Hin]. rewrite Hl in Hnd, Hin. apply NoDup_cons in Hnd as [Hul Hnd].
  assert (Hut : waits_on s u t) by (apply Hin; left). destruct (I5 u t Hut) as (Hne & _ & _).
  assert (Hwt : forall x, ~ waits_on s t x -> True) by done.
  assert (Hw : forall v x, waits_on s' v x <-> waits_on s v x /\ v <> u).
  { intros v x. unfold waits_on. rewrite Ec. case_decide as Ev.
    - subst v. rewrite Hc. simpl. rewrite req_count_wait. split; [intros H; split; congruence|by intros [H _]].
    - case_decide as Ev'; [|tauto]. subst v. simpl. split; [done|by intros [_ ?]]. }
  assert (Hd : forall v, is_Some (tcbs (K_sched (T_kern s')) !! v) <-> is_Some (tcbs (K_sched (T_kern s)) !! v)).
  { intros v. pose proof (sl_lock _ _ Hs v) as H. destruct (tcbs _ !! v), (tcbs (K_sched (T_kern s)) !! v); try done; by split; eexists. }
  split; [done|..].
  - intros v. by rewrite (sl_dom _ _ Hs), I2, Hd.
  - intros v c' T' Hc' HT'. specialize (Est v). unfold stat in Est at 1. rewrite HT' in Est. simpl in Est. rewrite Ec in Hc'.
    case_decide; [subst v|case_decide; [subst v|]].
    + injection Hc' as <-. injection Est as ->. destruct (ctl_thread s t c Hi Hc) as (T & p & _ & _ & Hs1 & Ht). rewrite Hst in Hs1. injection Hs1 as ->.
      apply thread_ctl_hold; [done|done|]. pose proof (tc_room _ _ Ht) as H. rewrite Hl in H. cbn [length] in H. lia.
    + injection Hc' as <-. injection Est as ->. destruct (ctl_thread s u cu Hi Hcu) as (T & p & _ & _ & Hs1 & Ht). rewrite Hstu in Hs1. injection Hs1 as ->.
      by apply thread_ctl_clear.
    + destruct (ctl_thread s v c' Hi Hc') as (T & p & _ & _ & Hs1 & Ht). rewrite Hs1 in Est. by injection Est as ->.
  - intros v c' Hc'. rewrite Ec in Hc'. case_decide; [subst v|case_decide; [subst v|]].
    + injection Hc' as <-. cbn [set_TCB_plineStatusReqHeader TCB_plineStatusReqHeader]. split; [done|]. intros x. rewrite Hw, <-Hin, elem_of_cons.
      split; [intros H; split; [by right|by intros ->]|]. intros [[->|H] Hx]; done.
    + injection Hc' as <-. destruct (I4 u cu Hcu) as [H1 H2]. split; [done|]. intros x. change (TCB_plineStatusReqHeader (ctl_clear cu)) with (TCB_plineStatusReqHeader cu).
      rewrite Hw, H2. split; [|by intros [? _]]. intros Hx. split; [done|]. intros ->. by destruct (I5 u u Hx).
    + destruct (I4 v c' Hc') as [H1 H2]. split; [done|]. intros x. rewrite Hw, H2. split; [|by intros [? _]]. intros H'. split; [done|]. intros ->.
      unfold waits_on in H', Hut. congruence.
  - intros v x [H _]%Hw. destruct (I5 v x H) as (A & B & C). splits; [done|by apply (sl_dom _ _ Hs)|by apply (still_idle s)].
  - intros v x [H _]%Hw. destruct (I6 v x H); [left; by apply (still_on_cpu s)|right; by apply (still_locked s)].
  - intros j v. rewrite (sl_table _ _ Hs), (sl_ncpus _ _ Hs). intros H. destruct (I7 j v H) as [A B].
    split; [by apply (sl_dom _ _ Hs)|]. intros Hj. apply (still_idle s); auto.
Qed.

Lemma change_one_spec s k t c u l p st cu : ctl_inv s -> holding idle (T_kern s) k t st -> sview (K_sched (T_kern s)) t = Some (p, st) ->
  T_ctl s !! t = Some c -> TCB_plineStatusReqHeader c = u :: l -> T_ctl s !! u = Some cu ->
  let r := TCB_uiStatusChangeReq cu in
  exists s', change_one (set_kern k s) t u = Some s' /\ ctl_inv s' /\ still s s' /\ a_request r /\
    (forall v, T_ctl s' !! v = if decide (v = t) then Some (set_TCB_plineStatusReqHeader l (req_count r c))
       else if decide (v = u) then Some (ctl_clear cu) else T_ctl s !! v) /\
    (forall v, stat s' v = if decide (v = t) then Some (Z.lor st (req_bit r))
       else if decide (v = u) then (fun st => Z.ldiff st LW_THREAD_STATUS_WSTAT) <$> stat s u else stat s v).
Proof.
  intros Hi Hh Hv Hc Hl Hcu r. assert (Hw : waits_on s u t) by (apply (waits_listed s u t c Hi Hc); rewrite Hl; left).
  destruct (waits_thread s u t Hi Hw) as (cu' & Tu & pu & Hcu' & Ewu & HTu & Hvu & Hnu & Htu & Hr & Hsu). rewrite Hcu in Hcu'. injection Hcu' as <-.
  destruct (ci_target _ Hi u t Hw) as (Hne & _ & _).
  destruct (switch_spec (T_kern s) (set_kern k s) t st r Hh Hr) as (s2 & E & H1 & H2).
  destruct (wstat_spec (set_sched s2 (T_kern s)) u pu (TCB_usStatus Tu) H1) as (s3 & E3 & H3 & H4).
  { cbn [set_sched K_sched]. rewrite (held_sview _ _ t _ u H2), decide_False by done. done. }
  { done. }
  set (s' := set_kern (set_sched s3 (T_kern s)) (upd_ctl t (fun c => set_TCB_plineStatusReqHeader (remove_node u (TCB_plineStatusReqHeader c)) c)
     (upd_ctl u ctl_clear (upd_ctl t (req_count r) s)))). exists s'.
  assert (Ec : forall v, T_ctl s' !! v = if decide (v = t) then Some (set_TCB_plineStatusReqHeader l (req_count r c))
       else if decide (v = u) then Some (ctl_clear cu) else T_ctl s !! v).
  { intros v. unfold s'. cbn [set_kern T_ctl]. rewrite !lookup_upd_ctl. destruct (decide (v = t)) as [->|Hvt].
    - rewrite decide_False by done. rewrite Hc. cbn [fmap option_fmap option_map]. rewrite req_count_list, Hl. cbn [remove_node]. by rewrite Z.eqb_refl.
    - destruct (decide (v = u)) as [->|]; [by rewrite Hcu|done]. }
  assert (Est : forall v, stat s' v = if decide (v = t) then Some (Z.lor st (req_bit r))
       else if decide (v = u) then Some (Z.ldiff (TCB_usStatus Tu) LW_THREAD_STATUS_WSTAT) else stat s v).
  { intros v. change (stat s' v) with (TCB_usStatus <$> tcbs s3 !! v). rewrite (held_stat _ _ _ _ v H4). cbn [set_sched K_sched].
    pose proof (held_stat _ _ _ _ v H2) as H5. destruct (decide (v = u)) as [->|Hvu'].
    - rewrite decide_False in H5 by done. rewrite decide_False by done. rewrite HTu in H5. by destruct (tcbs s2 !! u).
    - rewrite H5. destruct (decide (v = t)) as [->|]; [|done]. destruct (sview_some _ _ _ _ Hv) as (T & -> & _). done. }
  assert (Hs : still s s').
  { split; try done.
    - intros v. change (TCB_ulThreadLockCounter <$> tcbs s3 !! v = TCB_ulThreadLockCounter <$> tcbs (K_sched (T_kern s)) !! v).
      rewrite (held_lock _ _ _ _ v H4). by apply (held_lock _ _ t (Z.lor st (req_bit r)) v).
    - intros i. change (cpu_part <$> cpus s3 !! i = cpu_part <$> cpus (K_sched (T_kern s)) !! i). rewrite (hs_cpu _ _ _ _ H4). apply (hs_cpu _ _ _ _ H2).
    - change (LW_NCPUS s3 = LW_NCPUS (K_sched (T_kern s))). rewrite (hs_ncpus _ _ _ _ H4). apply (hs_ncpus _ _ _ _ H2).
    - intros v. rewrite Ec. repeat case_decide; subst; rewrite ?Hc, ?Hcu; done. }
  split; [|split; [|splits; try done]].
  - unfold change_one. cbn [set_kern T_ctl]. rewrite Hcu. cbn [mbind option_bind]. fold r. rewrite E. cbn [mbind option_bind].
    cbn [set_kern upd_ctl T_kern]. rewrite E3. done.
  - apply (served_inv s s' t u c cu l st (TCB_usStatus Tu) r); try done.
    + rewrite <-Hv at 1 || idtac. unfold stat. destruct (sview_some _ _ _ _ Hv) as (T & -> & _ & Es). simpl. by rewrite Es.
    + change (T_kern s') with (set_sched s3 (set_sched s2 (T_kern s))).
      apply (sem_inv_held idle (set_sched s2 (T_kern s)) s3 u pu (TCB_usStatus Tu) (Z.ldiff (TCB_usStatus Tu) LW_THREAD_STATUS_WSTAT)).
      * apply (sem_inv_held idle _ _ t p st (Z.lor st (req_bit r))); [apply Hi|done..|]. by apply (ctl_bits st (req_bit r) p p), req_bit_ctl.
      * done.
      * cbn [set_sched K_sched]. rewrite (held_sview _ _ t _ u H2), decide_False by done. done.
      * done.
      * by apply (ctl_bits _ _ pu pu).
  - intros v. rewrite Est. by rewrite Hsu.
Qed.

(** All requests with a thread. *)
Definition reqs (s : THREADS) (l : list Z) : list Z := (fun u => default 0 (TCB_uiStatusChangeReq <$> T_ctl s !! u)) <$> l.
Definition hold_all (rs : list Z) (c : CTL) : CTL := foldl (fun c r => req_count r c) c rs.
Definition bits_all (rs : list Z) (st : Z) : Z := foldl (fun st r => Z.lor st (req_bit r)) st rs.

Lemma set_header_twice l l' c : set_TCB_plineStatusReqHeader l (set_TCB_plineStatusReqHeader l' c) = set_TCB_plineStatusReqHeader l c.
Proof. done. Qed.
Lemma set_header_count l r c : req_count r (set_TCB_plineStatusReqHeader l c) = set_TCB_plineStatusReqHeader l (req_count r c).
Proof. unfold req_count. by repeat case_match. Qed.
Lemma set_header_all l rs : forall c, hold_all rs (set_TCB_plineStatusReqHeader l c) = set_TCB_plineStatusReqHeader l (hold_all rs c).
Proof. induction rs as [|r rs IH]; intros c; [done|]. cbn [hold_all foldl]. rewrite set_header_count. apply IH. Qed.
Lemma set_header_nil c : TCB_plineStatusReqHeader c = [] -> set_TCB_plineStatusReqHeader [] c = c.
Proof. intros <-. by destruct c. Qed.

(** The requests in the list [l] of [t] are carried out, nothing else happens. *)
Record served (s s' : THREADS) (t : Z) (c : CTL) (st : Z) (l : list Z) : Prop := {
  sd_ctl : forall v, T_ctl s' !! v = if decide (v = t) then Some (set_TCB_plineStatusReqHeader [] (hold_all (reqs s l) c))
    else if decide (v ∈ l) then ctl_clear <$> T_ctl s !! v else T_ctl s !! v;
  sd_stat : forall v, stat s' v = if decide (v = t) then Some (bits_all (reqs s l) st)
    else if decide (v ∈ l) then (fun st => Z.ldiff st LW_THREAD_STATUS_WSTAT) <$> stat s v else stat s v;
  sd_still : still s s'
}.

Lemma change_loop_spec t : forall n s k c l p st, ctl_inv s -> holding idle (T_kern s) k t st -> (l = [] -> k = T_kern s) ->
  sview (K_sched (T_kern s)) t = Some (p, st) -> T_ctl s !! t = Some c -> TCB_plineStatusReqHeader c = l -> (length l <= n)%nat ->
  exists s', change_loop n (set_kern k s) t = Some s' /\ ctl_inv s' /\ served s s' t c st l.
Proof.
  induction n as [|n IH]; intros s k c l p st Hi Hh Hk Hv Hc Hl Hn.
  all: cbn [change_loop set_kern T_ctl]; rewrite Hc; cbn [mbind option_bind]; rewrite Hl.
  all: destruct l as [|u l]; [specialize (Hk eq_refl) as ->; exists s; split; [by destruct s|split; [done|split; [| |apply still_refl]; intros v]]|].
  - case_decide as E; [subst v; rewrite Hc; cbn [reqs fmap list_fmap hold_all foldl]; by rewrite set_header_nil|].
    rewrite decide_False by apply not_elem_of_nil. done.
  - case_decide as E; [subst v; unfold stat; destruct (sview_some _ _ _ _ Hv) as (T & -> & _ & <-); done|].
    rewrite decide_False by apply not_elem_of_nil. done.
  - cbn [length] in Hn. lia.
  - case_decide as E; [subst v; rewrite Hc; cbn [reqs fmap list_fmap hold_all foldl]; by rewrite set_header_nil|].
    rewrite decide_False by apply not_elem_of_nil. done.
  - case_decide as E; [subst v; unfold stat; destruct (sview_some _ _ _ _ Hv) as (T & -> & _ & <-); done|].
    rewrite decide_False by apply not_elem_of_nil. done.
  - assert (Hw : waits_on s u t) by (apply (waits_listed s u t c Hi Hc); rewrite Hl; left).
    destruct (waits_thread s u t Hi Hw) as (cu & _ & _ & Hcu & _).
    destruct (ci_target _ Hi u t Hw) as (Hne & _ & _).
    assert (Hul : u ∉ l) by (destruct (ci_list _ Hi t c Hc) as [Hnd _]; rewrite Hl in Hnd; by apply NoDup_cons in Hnd as [? _]).
    destruct (change_one_spec s k t c u l p st cu Hi Hh Hv Hc Hl Hcu) as (s1 & E1 & Hi1 & Hs1 & Hr & Ec1 & Est1).
    rewrite E1. cbn [mbind option_bind]. set (r := TCB_uiStatusChangeReq cu) in *.
    assert (Hc1 : T_ctl s1 !! t = Some (set_TCB_plineStatusReqHeader l (req_count r c))) by (by rewrite Ec1, decide_True).
    destruct (ctl_thread s1 t _ Hi1 Hc1) as (T1 & p1 & HT1 & Hv1 & Hst1 & _). rewrite Est1, decide_True in Hst1 by done. injection Hst1 as Hst1.
    rewrite <-Hst1 in Hv1.
    assert (Hnz : Z.lor st (req_bit r) <> 0) by (apply lor_nonzero_r, req_bit_ctl).
    destruct (IH s1 (T_kern s1) _ l p1 _ Hi1 (holding_blocked idle _ _ _ _ (ko_sched _ _ _ _ (proj1 (sv_kern _ _ (ci_sem _ Hi1)))) Hv1 Hnz)
      ltac:(done) Hv1 Hc1 eq_refl ltac:(cbn [length] in Hn; lia)) as (s' & E' & Hi' & [D1 D2 D3]).
    assert (set_kern (T_kern s1) s1 = s1) as Es1 by (by destruct s1). rewrite Es1 in E'. exists s'. split; [done|]. split; [done|].
    assert (Ereq : reqs s1 l = reqs s l).
    { unfold reqs. apply list_fmap_ext. intros i v Hv'. apply list_elem_of_lookup_2 in Hv'. rewrite Ec1.
      rewrite decide_False; [rewrite decide_False; [done|by intros ->]|]. intros ->.
      assert (Hwt : waits_on s t t) by (apply (waits_listed s t t c Hi Hc); rewrite Hl; by right). by destruct (ci_target _ Hi t t Hwt). }
    assert (Eru : reqs s (u :: l) = r :: reqs s l) by (unfold reqs; cbn [fmap list_fmap]; by rewrite Hcu).
    split; [intros v|intros v|by eapply still_trans].
    + rewrite D1, Ereq, Eru. cbn [hold_all foldl]. fold (hold_all (reqs s l)). case_decide as Ev.
      * by rewrite set_header_all.
      * rewrite Ec1, (decide_False (P := v = t)) by done. destruct (decide (v = u)) as [->|Hvu].
        -- rewrite (decide_False (P := u ∈ l)), (decide_True (P := u ∈ u :: l)) by (done || left). by rewrite Hcu.
        -- destruct (decide (v ∈ l)); [rewrite decide_True by (by right); done|]. rewrite decide_False; [done|]. by intros [?|?]%elem_of_cons.
    + rewrite D2, Ereq, Eru. cbn [bits_all foldl]. case_decide as Ev; [done|].
      rewrite Est1, (decide_False (P := v = t)) by done. destruct (decide (v = u)) as [->|Hvu].
      -- rewrite (decide_False (P := u ∈ l)), (decide_True (P := u ∈ u :: l)) by (done || left). done.
      -- destruct (decide (v ∈ l)); [rewrite decide_True by (by right); done|]. rewrite decide_False; [done|]. by intros [?|?]%elem_of_cons.
Qed.

Lemma StatusChangeCur_spec s i p c : ctl_inv s -> cpus (K_sched (T_kern s)) !! i = Some p ->
  T_ctl s !! CPU_ptcbTCBCur p = Some c ->
  exists s' st, _ThreadStatusChangeCur s i = Some s' /\ ctl_inv s' /\ stat s (CPU_ptcbTCBCur p) = Some st /\
    served s s' (CPU_ptcbTCBCur p) c st (TCB_plineStatusReqHeader c).
Proof.
  intros Hi Hp Hc. set (t := CPU_ptcbTCBCur p) in *. unfold _ThreadStatusChangeCur. rewrite Hp. cbn [mbind option_bind]. fold t. rewrite Hc. cbn [mbind option_bind].
  destruct (ctl_thread s t c Hi Hc) as (T & q & HT & Hv & Hst & _).
  assert (Hsys : sys_inv idle (K_sched (T_kern s))) by apply (ko_sched _ _ _ _ (proj1 (sv_kern _ _ (ci_sem _ Hi)))).
  destruct (TCB_plineStatusReqHeader c) as [|u l] eqn:Hl.
  - exists s, (TCB_usStatus T). split; [done|]. split; [done|]. split; [done|]. split; [intros v|intros v|apply still_refl].
    + case_decide as E; [subst v; rewrite Hc; cbn [reqs fmap list_fmap hold_all foldl]; by rewrite set_header_nil|].
      rewrite decide_False by apply not_elem_of_nil. done.
    + case_decide as E; [by subst v|]. rewrite decide_False by apply not_elem_of_nil. done.
  - assert (Hw : waits_on s u t) by (apply (waits_listed s u t c Hi Hc); rewrite Hl; left).
    destruct (ci_target _ Hi u t Hw) as (_ & _ & Hid).
    destruct (unready_if_spec idle (T_kern s) t q (TCB_usStatus T) Hsys Hv Hid) as (s1 & E & Hh). rewrite E. cbn [mbind option_bind].
    destruct (change_loop_spec t (length (u :: l)) s (set_sched s1 (T_kern s)) c (u :: l) q (TCB_usStatus T) Hi Hh ltac:(done) Hv Hc Hl ltac:(done)) as (s' & E' & H).
    exists s', (TCB_usStatus T). rewrite E'. by destruct H.
Qed.
End Invariant.
