(* ===== verification/ThreadCalls.v ===== *)
(** * What the calls of thread control do

    Each call of the file Thread, on every branch: it is defined, keeps the invariant, and
    changes the control fields and the status of the threads as its abstract step says. *)

From S2P Require Import Prelude Lists Bitmap Sched SchedSpec Object Wakeup Kernel Event EventSpec Boot TickSpec Semaphore Mutex SemSpec LifeSpec System ThreadFrame Thread ThreadSpec.

Section Calls.
Context (idle : Z -> Z).
Abbreviation ctl_inv := (ctl_inv idle).

Lemma ctl_sys s : ctl_inv s -> sys_inv idle (K_sched (T_kern s)).
Proof. intros Hi. apply (ko_sched _ _ _ _ (proj1 (sv_kern _ _ (ci_sem _ _ Hi)))). Qed.

Lemma stat_view s t p st : sview (K_sched (T_kern s)) t = Some (p, st) -> stat s t = Some st.
Proof. intros H. unfold stat. by destruct (sview_some _ _ _ _ H) as (T & -> & _ & <-). Qed.

(** ** _ThreadStatusChange *)

(** The thread [t] is held once more, for the reason [r]. *)
Definition holds_now (s s' : THREADS) (cur t r : Z) : Prop :=
  (forall u, T_ctl s' !! u = (fun c => if decide (u = t) then req_count r c else c) <$>
      ((fun c => if decide (u = cur) then set_TCB_uiStatusChangeReq 0 c else c) <$> T_ctl s !! u)) /\
  (forall u, stat s' u = if decide (u = t) then (fun st => Z.lor st (req_bit r)) <$> stat s u else stat s u).

(** The thread [cur] leaves a request with [t] and waits. *)
Definition asks (s s' : THREADS) (cur t r : Z) : Prop :=
  (forall u, T_ctl s' !! u = if decide (u = cur) then (fun c => set_TCB_uiStatusChangeReq r (set_TCB_ptcbWaitStatus (Some t) c)) <$> T_ctl s !! u
     else if decide (u = t) then (fun c => set_TCB_plineStatusReqHeader (cur :: TCB_plineStatusReqHeader c) c) <$> T_ctl s !! u
     else T_ctl s !! u) /\
  (forall u, stat s' u = if decide (u = cur) then Some LW_THREAD_STATUS_WSTAT else stat s u) /\
  exists T, tcbs (K_sched (T_kern s')) !! t = Some T /\ T_ipi s' = {[TCB_ulCPUId T]} ∪ T_ipi s.

Lemma hold_spec s k cur cc t c p st r : ctl_inv s -> holding idle (T_kern s) k t st ->
  sview (K_sched (T_kern s)) t = Some (p, st) -> T_ctl s !! t = Some c -> T_ctl s !! cur = Some cc -> TCB_ptcbWaitStatus cc = None ->
  a_request r -> TCB_ulSuspendNesting c + TCB_ulStopNesting c + Z.of_nat (length (TCB_plineStatusReqHeader c)) < ULONG_MAX ->
  exists s', status_switch (upd_ctl cur (set_TCB_uiStatusChangeReq 0) (set_kern k s)) t r = Some s' /\ ctl_inv s' /\ still s s' /\
    T_ipi s' = T_ipi s /\ holds_now s s' cur t r.
Proof.
  intros Hi Hh Hv Hc Hcc Hn Hr Hroom.
  destruct (hold_now idle s k cur cc t c p st r Hi Hh Hv Hc Hcc Hn Hr Hroom) as (s' & E & H1 & H2 & H3 & H4).
  exists s'. split; [done|]. split; [done|]. split; [done|]. split.
  - unfold status_switch in E. cbn [upd_ctl set_kern T_kern] in E. by read_through.
  - split; [done|]. intros u. unfold stat. rewrite (held_stat _ _ _ _ u H4). case_decide; [subst u|done].
    destruct (sview_some _ _ _ _ Hv) as (T & -> & _ & <-). done.
Qed.

Lemma thread_ctl_ask c t r : a_request r -> thread_ctl c 0 -> thread_ctl (set_TCB_uiStatusChangeReq r (set_TCB_ptcbWaitStatus (Some t) c)) LW_THREAD_STATUS_WSTAT.
Proof. intros Hr [A1 A2 A3 A4 A5 A6]. by split. Qed.

(** A thread is added to the list of requests of another: the invariant. *)
Lemma asked_inv s s' cur t c cc r : ctl_inv s -> sem_inv idle (T_kern s') -> still s s' -> asks s s' cur t r ->
  T_ctl s !! t = Some c -> T_ctl s !! cur = Some cc -> cur <> t -> not_idle idle (K_sched (T_kern s)) t -> thread_ctl cc 0 ->
  on_cpu s t -> a_request r -> TCB_ulSuspendNesting c + TCB_ulStopNesting c + Z.of_nat (length (TCB_plineStatusReqHeader c)) < ULONG_MAX -> ctl_inv s'.
Proof.
  intros Hi Hsem Hs (Ec & Est & _) Hc Hcc Hne Hidt Htc Hon Hr Hroom.
  assert (Hnw : TCB_ptcbWaitStatus cc = None).
  { destruct (TCB_ptcbWaitStatus cc) eqn:Ew; [|done]. by assert (has_option 0 LW_THREAD_STATUS_WSTAT = true) by (apply (tc_wait _ _ Htc); congruence). }
  assert (Hw : forall u x, waits_on s' u x <-> waits_on s u x \/ u = cur /\ x = t).
  { intros u x. unfold waits_on. rewrite Ec. case_decide as Eu.
    - subst u. rewrite Hcc. simpl. rewrite Hnw. split; [intros [= ->]; by right|by intros [?|[_ ->]]].
    - case_decide as Eu'; [subst u|]; [rewrite Hc; simpl|]; tauto. }
  assert (Hd : forall v, is_Some (tcbs (K_sched (T_kern s')) !! v) <-> is_Some (tcbs (K_sched (T_kern s)) !! v)).
  { intros v. pose proof (sl_lock _ _ Hs v) as H. destruct (tcbs _ !! v), (tcbs (K_sched (T_kern s)) !! v); try done; by split; eexists. }
  pose proof Hi as [I1 I2 I3 I4 I5 I6 I7]. split.
  - done.
  - intros v. by rewrite (sl_dom _ _ Hs), I2, Hd.
  - intros v c' T' Hc' HT'. specialize (Est v). unfold stat in Est at 1. rewrite HT' in Est. simpl in Est. rewrite Ec in Hc'.
    case_decide; [subst v|case_decide; [subst v|]].
    + rewrite Hcc in Hc'. injection Hc' as <-. injection Est as ->. by apply thread_ctl_ask.
    + rewrite Hc in Hc'. injection Hc' as <-. destruct (ctl_thread idle s t c Hi Hc) as (T0 & p0 & _ & _ & Hs1 & Ht). rewrite Hs1 in Est. injection Est as ->.
      destruct Ht as [A1 A2 A3 A4 A5 A6]. split; try done. cbn [set_TCB_plineStatusReqHeader TCB_ulSuspendNesting TCB_ulStopNesting TCB_plineStatusReqHeader length]. lia.
    + destruct (ctl_thread idle s v c' Hi Hc') as (T0 & p0 & _ & _ & Hs1 & Ht). rewrite Hs1 in Est. by injection Est as ->.
  - intros v c' Hc'. rewrite Ec in Hc'. case_decide; [subst v|case_decide; [subst v|]].
    + rewrite Hcc in Hc'. injection Hc' as <-. destruct (I4 cur cc Hcc) as [B1 B2]. split; [done|]. intros x.
      change (TCB_plineStatusReqHeader _) with (TCB_plineStatusReqHeader cc). rewrite Hw, B2. split; [by left|]. intros [?|[_ ?]]; congruence.
    + rewrite Hc in Hc'. injection Hc' as <-. destruct (I4 t c Hc) as [B1 B2]. cbn [set_TCB_plineStatusReqHeader TCB_plineStatusReqHeader]. split.
      * apply NoDup_cons. split; [|done]. rewrite B2. unfold waits_on. rewrite Hcc. simpl. by rewrite Hnw.
      * intros x. rewrite elem_of_cons, B2, Hw. naive_solver.
    + destruct (I4 v c' Hc') as [B1 B2]. split; [done|]. intros x. rewrite Hw, B2. split; [by left|]. intros [?|[_ ?]]; congruence.
  - intros v x [H|[-> ->]]%Hw; [destruct (I5 v x H) as (A & B & C); splits; [done|by apply (sl_dom _ _ Hs)|by apply (still_idle idle s)]|].
    splits; [done|apply (sl_dom _ _ Hs); by eexists|by apply (still_idle idle s)].
  - intros v x [H|[-> ->]]%Hw; [|left; by apply (still_on_cpu s)].
    destruct (I6 v x H); [left; by apply (still_on_cpu s)|right; by apply (still_locked s)].
  - intros j v. rewrite (sl_table _ _ Hs), (sl_ncpus _ _ Hs). intros H. destruct (I7 j v H) as [A B].
    split; [by apply (sl_dom _ _ Hs)|]. intros Hj. apply (still_idle idle s); auto.
Qed.

Lemma ask_spec s cur t T P p c cc r : ctl_inv s -> runs idle (T_kern s) cur -> cur <> t -> not_idle idle (K_sched (T_kern s)) t ->
  sview (K_sched (T_kern s)) t = Some p -> tcbs (K_sched (T_kern s)) !! t = Some T -> cpus (K_sched (T_kern s)) !! TCB_ulCPUId T = Some P ->
  CPU_ptcbTCBCur P = t -> T_ctl s !! t = Some c -> T_ctl s !! cur = Some cc -> a_request r ->
  TCB_ulSuspendNesting c + TCB_ulStopNesting c + Z.of_nat (length (TCB_plineStatusReqHeader c)) < ULONG_MAX ->
  exists s', (s ← _ThreadWaitStatus s cur t r; T ← tcbs (K_sched (T_kern s)) !! t; Some (_SmpUpdateIpi s (TCB_ulCPUId T), ERROR_NONE)) = Some (s', ERROR_NONE) /\
    ctl_inv s' /\ still s s' /\ asks s s' cur t r.
Proof.
  intros Hi [[q Hv] Hid] Hne Hidt Hvt HT HP Hcur Hc Hcc Hr Hroom. pose proof (ctl_sys s Hi) as Hsys.
  destruct (unready_if_spec idle (T_kern s) cur q 0 Hsys Hv Hid) as (s1 & E & Hh).
  destruct (Hh LW_THREAD_STATUS_WSTAT ltac:(done)) as (s2 & E2 & H2 & H3). rewrite Z.lor_0_l in H3.
  unfold _ThreadWaitStatus. rewrite E. cbn [mbind option_bind upd_ctl set_kern T_kern]. rewrite E2. cbn [mbind option_bind].
  pose proof (held_lock _ _ _ _ t H3) as Hl. rewrite HT in Hl. cbn [set_sched K_sched].
  destruct (tcbs s2 !! t) as [T2|] eqn:HT2; [|done].
  match goal with |- context [tcbs (K_sched (T_kern ?y)) !! t] => change (tcbs (K_sched (T_kern y)) !! t) with (tcbs s2 !! t) end.
  rewrite HT2. cbn [mbind option_bind].
  match goal with |- context [Some (?x, ERROR_NONE) = _] => set (s' := x) end. exists s'. split; [done|].
  assert (Ec : forall u, T_ctl s' !! u = if decide (u = cur) then (fun c => set_TCB_uiStatusChangeReq r (set_TCB_ptcbWaitStatus (Some t) c)) <$> T_ctl s !! u
     else if decide (u = t) then (fun c => set_TCB_plineStatusReqHeader (cur :: TCB_plineStatusReqHeader c) c) <$> T_ctl s !! u
     else T_ctl s !! u).
  { intros u. unfold s'. cbn [_SmpUpdateIpi set_ipi T_ctl]. rewrite lookup_upd_ctl. cbn [set_kern T_ctl]. rewrite !lookup_upd_ctl. cbn [set_kern T_ctl].
    destruct (decide (u = cur)) as [->|]; [rewrite decide_False by done; by rewrite Hcc|done]. }
  assert (Est : forall u, stat s' u = if decide (u = cur) then Some LW_THREAD_STATUS_WSTAT else stat s u).
  { intros u. change (stat s' u) with (TCB_usStatus <$> tcbs s2 !! u). rewrite (held_stat _ _ _ _ u H3). case_decide; [subst u|done].
    by destruct (sview_some _ _ _ _ Hv) as (Tc & -> & _ & _). }
  assert (Hs : still s s').
  { apply (still_held s s' cur LW_THREAD_STATUS_WSTAT); [exact H3|done| |intros u|done].
    - cbn. set_solver.
    - rewrite Ec. repeat case_decide; subst; rewrite ?fmap_is_Some; done. }
  assert (Hask : asks s s' cur t r) by (split; [done|split; [done|by exists T2]]).
  split; [|by split]. destruct (ctl_thread idle s cur cc Hi Hcc) as (Tc & qc & _ & Hvc & _ & Htc). rewrite Hv in Hvc. injection Hvc as <- Hz. rewrite <-Hz in Htc.
  apply (asked_inv s s' cur t c cc r); try done; [|by exists (TCB_ulCPUId T), P].
  by apply (sem_inv_held idle (T_kern s) s2 cur q 0 LW_THREAD_STATUS_WSTAT); try done; apply Hi.
Qed.

Definition room (c : CTL) : Prop :=
  TCB_ulSuspendNesting c + TCB_ulStopNesting c + Z.of_nat (length (TCB_plineStatusReqHeader c)) < ULONG_MAX.

(** Who may ask for a change of [t]: a thread that runs, or an interrupt of a
    thread that waits for no change; the counters of [t] have room. *)
Record change_legal (s : THREADS) (C : CALL) (t : Z) : Prop := {
  cl_cur : TCB_ptcbWaitStatus <$> T_ctl s !! LW_TCB_GET_CUR C = Some None;
  cl_runs : LW_CPU_GET_CUR_NESTING C = 0 -> runs idle (T_kern s) (LW_TCB_GET_CUR C);
  cl_room : forall c, T_ctl s !! t = Some c -> room c
}.

(** What becomes of the request [r] for a change of [t]: error code and new state. *)
Inductive change_step (s : THREADS) (C : CALL) (t r : Z) : THREADS -> Z -> Prop :=
| cs_now s' : (t = LW_TCB_GET_CUR C \/ stat s t <> Some 0 \/
      LW_CPU_GET_CUR_NESTING C = 0 /\ __LW_THREAD_IS_RUNNING (T_kern s) t = Some false) ->
    holds_now s s' (LW_TCB_GET_CUR C) t r -> T_ipi s' = T_ipi s -> change_step s C t r s' ERROR_NONE
| cs_isr : t <> LW_TCB_GET_CUR C -> stat s t = Some 0 -> LW_CPU_GET_CUR_NESTING C <> 0 -> change_step s C t r s ERROR_KERNEL_IN_ISR
| cs_ask s' : t <> LW_TCB_GET_CUR C -> stat s t = Some 0 -> LW_CPU_GET_CUR_NESTING C = 0 ->
    __LW_THREAD_IS_RUNNING (T_kern s) t = Some true -> asks s s' (LW_TCB_GET_CUR C) t r -> change_step s C t r s' ERROR_NONE.

Lemma status_change_spec s C t r c : ctl_inv s -> change_legal s C t -> not_idle idle (K_sched (T_kern s)) t -> T_ctl s !! t = Some c -> a_request r ->
  exists s' e, _ThreadStatusChange s C t r = Some (s', e) /\ ctl_inv s' /\ still s s' /\ change_step s C t r s' e.
Proof.
  intros Hi [L1 L2 L4] L3 Hc Hr. specialize (L4 c Hc). set (cur := LW_TCB_GET_CUR C) in *.
  destruct (T_ctl s !! cur) as [cc|] eqn:Hcc; [|done]. injection L1 as Hn.
  destruct (ctl_thread idle s t c Hi Hc) as (T & p & HT & Hv & Hst & _). pose proof (ctl_sys s Hi) as Hsys.
  assert (Hready : thread_is_ready (T_kern s) t = Some (TCB_usStatus T =? 0)) by (unfold thread_is_ready; by rewrite HT).
  assert (Hnow : forall k, holding idle (T_kern s) k t (TCB_usStatus T) ->
    (t = cur \/ stat s t <> Some 0 \/ LW_CPU_GET_CUR_NESTING C = 0 /\ __LW_THREAD_IS_RUNNING (T_kern s) t = Some false) ->
    exists s' e, (s' ← status_switch (upd_ctl cur (set_TCB_uiStatusChangeReq 0) (set_kern k s)) t r; Some (s', ERROR_NONE)) = Some (s', e) /\
      ctl_inv s' /\ still s s' /\ change_step s C t r s' e).
  { intros k Hh Hwhy. destruct (hold_spec s k cur cc t c p _ r Hi Hh Hv Hc Hcc Hn Hr L4) as (s' & -> & H1 & H2 & H3 & H4).
    exists s', ERROR_NONE. splits; try done. by apply cs_now. }
  unfold _ThreadStatusChange. fold cur. rewrite Hready. cbn [mbind option_bind].
  destruct (Z.eqb_spec t cur) as [->|Hne].
  { destruct (unready_if_spec idle (T_kern s) cur p _ Hsys Hv L3) as (s1 & E & Hh). rewrite E. cbn [mbind option_bind]. apply Hnow; [done|by left]. }
  destruct (Z.eqb_spec (TCB_usStatus T) 0) as [Hz|Hz]; cbn [negb].
  2: { apply (Hnow (T_kern s)); [by apply (holding_blocked idle _ _ p)|]. right. left. rewrite Hst. congruence. }
  rewrite Hz in *. destruct (Z.eqb_spec (LW_CPU_GET_CUR_NESTING C) 0) as [Hn0|Hn0]; cbn [negb].
  2: { exists s, ERROR_KERNEL_IN_ISR. splits; [done|done|apply still_refl|by apply cs_isr]. }
  assert (is_Some (cpus (K_sched (T_kern s)) !! TCB_ulCPUId T)) as [P HP].
  { apply (sw_cpu _ (si_wf _ _ Hsys)). apply (sw_tcb _ (si_wf _ _ Hsys) t T HT). }
  assert (Hrun : __LW_THREAD_IS_RUNNING (T_kern s) t = Some (CPU_ptcbTCBCur P =? t)) by (unfold __LW_THREAD_IS_RUNNING; rewrite HT; cbn; by rewrite HP).
  rewrite Hrun. cbn [mbind option_bind]. destruct (Z.eqb_spec (CPU_ptcbTCBCur P) t) as [Hcur|Hcur]; cbn [negb].
  - destruct (ask_spec s cur t T P (p, 0) c cc r Hi (L2 Hn0) ltac:(congruence) L3 Hv HT HP Hcur Hc Hcc Hr L4) as (s' & E & H1 & H2 & H3).
    exists s', ERROR_NONE. splits; [exact E|done|done|by apply cs_ask].
  - destruct (holding_ready idle (T_kern s) t p Hsys Hv L3) as (s1 & E & Hh). rewrite E. cbn [mbind option_bind].
    apply Hnow; [done|]. right. right. split; [done|]. done.
Qed.

(** The thread of a handle that the checks accept. *)
Lemma thread_of_table bad s ulId ptcb : thread_of bad s ulId = inr ptcb ->
  _ObjectClassOK ulId _OBJECT_THREAD = true /\ bad s (_ObjectGetIndex ulId) = false /\ _K_ptcbTCBIdTable s !! _ObjectGetIndex ulId = Some ptcb.
Proof.
  unfold thread_of. destruct (_ObjectClassOK ulId _OBJECT_THREAD); [|done]. cbn [negb].
  destruct (bad s _); [done|]. destruct (_K_ptcbTCBIdTable s !! _); [|done]. by intros [= ->].
Qed.

Lemma thread_of_user s ulId ptcb : ctl_inv s -> thread_of _Thread_Index_Invalid s ulId = inr ptcb ->
  is_Some (T_ctl s !! ptcb) /\ not_idle idle (K_sched (T_kern s)) ptcb.
Proof.
  intros Hi (_ & Hb & Ht)%thread_of_table. destruct (ci_table _ _ Hi _ _ Ht) as [H1 H2]. split; [done|]. apply H2.
  unfold _Thread_Index_Invalid in Hb. apply orb_false_iff in Hb as [_ Hb]. lia.
Qed.
Lemma thread_of_any bad s ulId ptcb : ctl_inv s -> thread_of bad s ulId = inr ptcb -> is_Some (T_ctl s !! ptcb).
Proof. intros Hi (_ & _ & Ht)%thread_of_table. by apply (ci_table _ _ Hi _ _ Ht). Qed.

Lemma deleting_spec s t : ctl_inv s -> is_Some (T_ctl s !! t) -> exists b, deleting s t = Some b.
Proof.
  intros Hi Ht. apply (ci_dom _ _ Hi), (ko_dom _ _ _ _ (proj1 (sv_kern _ _ (ci_sem _ _ Hi)))) in Ht as [w Hw].
  unfold deleting. rewrite Hw. by eexists.
Qed.

(** ** Threads that go on *)

(** Only the control block of [t] and the status of [t] change. *)
Definition lets_go (s s' : THREADS) (t : Z) (f : CTL -> CTL) (g : Z -> Z) : Prop :=
  (forall u, T_ctl s' !! u = if decide (u = t) then f <$> T_ctl s !! u else T_ctl s !! u) /\
  (forall u, stat s' u = if decide (u = t) then g <$> stat s u else stat s u) /\ T_ipi s' = T_ipi s.

Lemma upd_ctl_inv s t c f : ctl_inv s -> T_ctl s !! t = Some c ->
  TCB_ptcbWaitStatus (f c) = TCB_ptcbWaitStatus c -> TCB_plineStatusReqHeader (f c) = TCB_plineStatusReqHeader c ->
  (forall st, thread_ctl c st -> thread_ctl (f c) st) ->
  ctl_inv (upd_ctl t f s) /\ still s (upd_ctl t f s) /\ lets_go s (upd_ctl t f s) t f (fun st => st).
Proof.
  intros Hi Hc H1 H2 H3.
  assert (Hs : still s (upd_ctl t f s)).
  { split; try done. intros u. rewrite lookup_upd_ctl. case_decide; [by rewrite fmap_is_Some|done]. }
  split; [|split; [done|split; [intros u; apply lookup_upd_ctl|split; [|done]]]].
  - apply (ctl_inv_step idle s); [done|done|apply Hi|]. intros u x T Hx HT. rewrite lookup_upd_ctl. cbn [upd_ctl T_kern] in HT.
    pose proof (ci_ctl _ _ Hi u x T Hx HT) as Hxt. case_decide as E; [|by exists x].
    subst u. rewrite Hc in Hx. injection Hx as <-. rewrite Hc. exists (f c). splits; auto.
  - intros u. case_decide; [|done]. change (stat (upd_ctl t f s) u) with (stat s u). by destruct (stat s u).
Qed.

Lemma let_go_spec s t c p st b f x : ctl_inv s -> T_ctl s !! t = Some c -> sview (K_sched (T_kern s)) t = Some (p, st) -> st <> 0 -> ctl_bit b ->
  TCB_ptcbWaitStatus (f c) = TCB_ptcbWaitStatus c -> TCB_plineStatusReqHeader (f c) = TCB_plineStatusReqHeader c ->
  thread_ctl (f c) (Z.ldiff st b) ->
  exists s', (k ← status_andn t b (T_kern s); k ← ready_if k t x; Some (set_kern k (upd_ctl t f s))) = Some s' /\
    ctl_inv s' /\ still s s' /\ lets_go s s' t f (fun st => Z.ldiff st b).
Proof.
  intros Hi Hc Hv Hst Hb H1 H2 H3.
  destruct (let_ready_spec idle (T_kern s) t p st b x (ctl_sys s Hi) Hv Hst) as (s2 & E & Hs2 & Hh).
  destruct (status_andn t b (T_kern s)) as [k1|]; [|done]. cbn [mbind option_bind] in E |- *. rewrite E. cbn [mbind option_bind].
  set (s' := set_kern (set_sched s2 (T_kern s)) (upd_ctl t f s)). exists s'. split; [done|].
  destruct (held_inv idle s s2 t st (Z.ldiff st b) p (fun u => T_ctl s' !! u) Hi Hs2 Hv Hh) with (s' := s') as [H4 H5]; try done.
  - by apply (ctl_bits st b p p).
  - intros u y Hy. unfold s'. cbn [set_kern T_ctl]. rewrite lookup_upd_ctl.
    case_decide as E1; [subst u; rewrite Hc in Hy; injection Hy as <-; rewrite Hc; by exists (f c)|].
    exists y. splits; try done. destruct (ctl_thread idle s u y Hi Hy) as (T & q & _ & _ & -> & ?). done.
  - intros u. unfold s'. cbn [set_kern T_ctl]. rewrite lookup_upd_ctl. case_decide; [by rewrite fmap_is_Some|done].
  - split; [done|]. split; [done|]. split; [|split; [|done]].
    + intros u. unfold s'. cbn [set_kern T_ctl]. apply lookup_upd_ctl.
    + intros u. change (stat s' u) with (TCB_usStatus <$> tcbs s2 !! u). rewrite (held_stat _ _ _ _ u Hh). case_decide; [subst u|done].
      rewrite (stat_view _ _ _ _ Hv). by destruct (sview_some _ _ _ _ Hv) as (T & -> & _).
Qed.

Lemma upd_ctl_twice t f g s : upd_ctl t g (upd_ctl t f s) = upd_ctl t (fun c => g (f c)) s.
Proof.
  unfold upd_ctl. simpl. f_equal. apply map_eq. intros u. destruct (decide (u = t)) as [->|].
  - rewrite !lookup_alter_eq. by destruct (T_ctl s !! t).
  - by rewrite !lookup_alter_ne.
Qed.

Lemma upd_ctl_ext t c f g s : T_ctl s !! t = Some c -> f c = g c -> upd_ctl t f s = upd_ctl t g s.
Proof.
  intros Hc He. unfold upd_ctl. f_equal. apply map_eq. intros u. destruct (decide (u = t)) as [->|]; [|by rewrite !lookup_alter_ne].
  by rewrite !lookup_alter_eq, Hc; simpl; rewrite He.
Qed.

Definition less_suspended (c : CTL) : CTL := set_TCB_ulSuspendNesting (TCB_ulSuspendNesting c - 1) c.
Definition less_stopped (c : CTL) : CTL := set_TCB_ulStopNesting (TCB_ulStopNesting c - 1) c.

Lemma thread_ctl_suspend c st n : thread_ctl c st -> 0 < n <= TCB_ulSuspendNesting c -> thread_ctl (set_TCB_ulSuspendNesting n c) st.
Proof.
  intros [A1 A2 A3 A4 A5 A6] Hn. split; try done; cbn [set_TCB_ulSuspendNesting TCB_ulSuspendNesting TCB_ulStopNesting TCB_plineStatusReqHeader]; [|lia|lia].
  split; [lia|]. intros _. apply A1. lia.
Qed.
Lemma thread_ctl_resumed c st : thread_ctl c st -> thread_ctl (set_TCB_ulSuspendNesting 0 c) (Z.ldiff st LW_THREAD_STATUS_SUSPEND).
Proof.
  intros [A1 A2 A3 A4 A5 A6]. split; cbn [set_TCB_ulSuspendNesting TCB_ulSuspendNesting TCB_ulStopNesting TCB_plineStatusReqHeader]; try done; [|by rewrite ctl_bit_andn..|lia|lia].
  by rewrite ctl_bit_gone.
Qed.
Lemma thread_ctl_stop c st n : thread_ctl c st -> 0 < n <= TCB_ulStopNesting c -> thread_ctl (set_TCB_ulStopNesting n c) st.
Proof.
  intros [A1 A2 A3 A4 A5 A6] Hn. split; try done; cbn [set_TCB_ulStopNesting TCB_ulSuspendNesting TCB_ulStopNesting TCB_plineStatusReqHeader]; [|lia|lia].
  split; [lia|]. intros _. apply A2. lia.
Qed.
Lemma thread_ctl_continued c st : thread_ctl c st -> thread_ctl (set_TCB_ulStopNesting 0 c) (Z.ldiff st LW_THREAD_STATUS_STOP).
Proof.
  intros [A1 A2 A3 A4 A5 A6]. split; cbn [set_TCB_ulStopNesting TCB_ulSuspendNesting TCB_ulStopNesting TCB_plineStatusReqHeader]; try done; [by rewrite ctl_bit_andn| |by rewrite ctl_bit_andn|lia|lia].
  by rewrite ctl_bit_gone.
Qed.

Lemma bit_nonzero st b : has_option st b = true -> st <> 0.
Proof. intros H ->. unfold has_option in H. by rewrite Z.land_0_l in H. Qed.

(** What a resumption does to the status of a thread with control block [c]. *)
Definition resumed_status (c : CTL) (st : Z) : Z := if TCB_ulSuspendNesting c =? 1 then Z.ldiff st LW_THREAD_STATUS_SUSPEND else st.
Definition continued_status (c : CTL) (st : Z) : Z := if TCB_ulStopNesting c =? 1 then Z.ldiff st LW_THREAD_STATUS_STOP else st.

Lemma SafeResume_spec s t c : ctl_inv s -> T_ctl s !! t = Some c ->
  exists s', _ThreadSafeResume s t = Some s' /\ ctl_inv s' /\ still s s' /\
    if TCB_ulSuspendNesting c =? 0 then s' = s else lets_go s s' t less_suspended (resumed_status c).
Proof.
  intros Hi Hc. destruct (ctl_thread idle s t c Hi Hc) as (T & p & HT & Hv & Hst & Ht).
  unfold _ThreadSafeResume, resumed_status. rewrite Hc. cbn [mbind option_bind]. pose proof (tc_nest _ _ Ht) as [Hn _].
  destruct (Z.eqb_spec (TCB_ulSuspendNesting c) 0) as [Hz|Hz]; [exists s; splits; [done|done|apply still_refl|done]|].
  assert (Ef : upd_ctl t (set_TCB_ulSuspendNesting (TCB_ulSuspendNesting c - 1)) s = upd_ctl t less_suspended s) by (by apply (upd_ctl_ext t c)).
  rewrite Ef. destruct (Z.eqb_spec (TCB_ulSuspendNesting c - 1) 0) as [H1|H1].
  - rewrite (proj2 (Z.eqb_eq _ 1)) by lia. unfold suspend_end. cbn [upd_ctl T_kern].
    apply (let_go_spec s t c p (TCB_usStatus T)); try done.
    + apply (bit_nonzero _ LW_THREAD_STATUS_SUSPEND). by apply (tc_suspend _ _ Ht).
    + unfold less_suspended. rewrite H1. by apply thread_ctl_resumed.
  - rewrite (proj2 (Z.eqb_neq _ 1)) by lia. eexists. split; [done|]. apply (upd_ctl_inv s t c); try done.
    intros st Hst'. apply thread_ctl_suspend; [done|lia].
Qed.

Lemma ForceResume_spec s t c : ctl_inv s -> T_ctl s !! t = Some c -> TCB_ulSuspendNesting c <> 0 ->
  exists s', suspend_end (upd_ctl t (set_TCB_ulSuspendNesting 0) s) t = Some s' /\ ctl_inv s' /\ still s s' /\
    lets_go s s' t (set_TCB_ulSuspendNesting 0) (fun st => Z.ldiff st LW_THREAD_STATUS_SUSPEND).
Proof.
  intros Hi Hc Hz. destruct (ctl_thread idle s t c Hi Hc) as (T & p & HT & Hv & Hst & Ht). unfold suspend_end. cbn [upd_ctl T_kern].
  apply (let_go_spec s t c p (TCB_usStatus T)); try done.
  - apply (bit_nonzero _ LW_THREAD_STATUS_SUSPEND). by apply (tc_suspend _ _ Ht).
  - by apply thread_ctl_resumed.
Qed.

Lemma Continue_spec s t c : ctl_inv s -> T_ctl s !! t = Some c ->
  exists s', _ThreadContinue s t false = Some s' /\ ctl_inv s' /\ still s s' /\
    if TCB_ulStopNesting c =? 0 then s' = s else lets_go s s' t less_stopped (continued_status c).
Proof.
  intros Hi Hc. destruct (ctl_thread idle s t c Hi Hc) as (T & p & HT & Hv & Hst & Ht).
  unfold _ThreadContinue, continued_status. rewrite status_view, Hv. cbn [fmap option_fmap option_map snd mbind option_bind].
  pose proof (tc_nest _ _ Ht) as [_ Hn]. pose proof (tc_stop _ _ Ht) as Hb.
  destruct (Z.eqb_spec (TCB_ulStopNesting c) 0) as [Hz|Hz].
  { destruct (has_option (TCB_usStatus T) LW_THREAD_STATUS_STOP); [by destruct (proj1 Hb eq_refl)|]. exists s. splits; [done|done|apply still_refl|done]. }
  rewrite (proj2 Hb Hz). cbn [negb]. rewrite Hc. cbn [mbind option_bind]. rewrite (proj2 (Z.eqb_neq _ 0) Hz), orb_false_r.
  assert (Ef : upd_ctl t (set_TCB_ulStopNesting (TCB_ulStopNesting c - 1)) s = upd_ctl t less_stopped s) by (by apply (upd_ctl_ext t c)).
  rewrite Ef. destruct (Z.eqb_spec (TCB_ulStopNesting c - 1) 0) as [H1|H1].
  - rewrite (proj2 (Z.eqb_eq _ 1)) by lia. cbn [upd_ctl T_kern]. fold (upd_ctl t less_stopped s).
    rewrite upd_ctl_twice, (upd_ctl_ext t c _ less_stopped) by (done || (unfold less_stopped; by rewrite H1)).
    apply (let_go_spec s t c p (TCB_usStatus T)); try done.
    + apply (bit_nonzero _ LW_THREAD_STATUS_STOP). by apply Hb.
    + unfold less_stopped. rewrite H1. by apply thread_ctl_continued.
  - rewrite (proj2 (Z.eqb_neq _ 1)) by lia. eexists. split; [done|]. apply (upd_ctl_inv s t c); try done.
    intros st Hst'. apply thread_ctl_stop; [done|lia].
Qed.
End Calls.
