(* ===== verification/ThreadSleep.v ===== *)
(** * Sleeping and waking

    [API_TimeSleep] and [API_ThreadWakeup] in the waiting kernel: a wake-up ends a delay and a
    wait of any kind as a time-out does, a sleep enters the delay line; both keep
    the invariant of the services. *)

From S2P Require Import Prelude Lists Bitmap Sched SchedSpec Object Wakeup Kernel Event EventSpec Boot TickSpec Semaphore Mutex SemSpec LifeSpec System ThreadFrame Thread ThreadSpec.

Section Sleep.
Context (idle : Z -> Z).

(** ** The end of a wait *)

Lemma wait_over_sem f k k' t p st w2 m2 w : sem_inv idle k -> wait_over idle SEMB f k k' t p st w2 m2 -> delay_ok k' ->
  K_wait k !! t = Some w -> TCB_peventPtr (f w) = None -> sem_inv idle k'.
Proof.
  intros Hi [V1 V2 V3 V4 (V5 & V6 & V7) V8 V9 V10] Hd Hw Hn. rewrite Hw in V9.
  assert (Hal : forall u, alive k u -> alive k' u).
  { intros u [y Hy]. unfold alive. destruct (decide (u = t)) as [->|Hu]; [by rewrite V9|]. destruct (V4 u Hu) as [-> _]. by eexists. }
  split.
  - by split.
  - intros e E HE. rewrite V5 in HE. rewrite !V8.
    apply (ev_ok_fewer k k' E (wview k e 0) (wview k e 1)); [done|by intros ->|by intros ->|]. by apply (sv_ev _ _ Hi).
  - destruct (sv_pool _ _ Hi) as [P1 P2 P3 P4 P5]. split; rewrite ?V6, ?V7; try done; by rewrite V5.
  - intros u y Hy Hs. destruct (decide (u = t)) as [->|Hu].
    + rewrite V9 in Hy. injection Hy as <-. rewrite Hn in Hs. by destruct Hs.
    + destruct (V4 u Hu) as [Ew _]. rewrite Ew in Hy. by apply (sv_mark _ _ Hi u y).
Qed.

(** ** ThreadWakeup.c *)

Lemma set_status_same k t p st : sview (K_sched k) t = Some (p, st) -> set_status t st k = k.
Proof.
  intros Hv. destruct (sview_some _ _ _ _ Hv) as (T & HT & _ & <-). unfold set_status, upd_tcb, set_sched.
  destruct k as [s ? ? ? ? ? ? ? ? ? ? ? ?]. cbn in *. f_equal. destruct s as [ts ? ? ?]. cbn in *. f_equal.
  apply map_eq. intros u. destruct (decide (u = t)) as [->|Hu]; [|by rewrite lookup_alter_ne].
  rewrite lookup_alter_eq, HT. simpl. by destruct T.
Qed.

Lemma ldiff_same st b : has_option st b = false -> Z.ldiff st b = st.
Proof.
  intros H. apply has_option_false in H. apply Z.bits_inj'. intros i Hi. rewrite Z.ldiff_spec.
  assert (E : Z.testbit (Z.land st b) i = false) by (rewrite H; apply Z.bits_0). rewrite Z.land_spec in E.
  destruct (Z.testbit st i), (Z.testbit b i); done.
Qed.

Lemma stop_delay_any k t p st w q : kern_ok idle SEMB (fun _ => 0) k -> K_wait k !! t = Some w -> sview (K_sched k) t = Some (p, st) ->
  line_queue (WU_line (K_wuDelay k)) (K_wun k) q ->
  exists w2 m2, stop_delay k t = Some (set_delay w2 m2 (set_status t (Z.ldiff st LW_THREAD_STATUS_DELAY) k)) /\
    WU_line w2 = remove_node t (WU_line (K_wuDelay k)) /\ same_dom (K_wun k) m2 /\ line_queue (WU_line w2) m2 (q_remove t q).
Proof.
  intros Hk Hw Hv Hq. destruct (th_status _ _ _ _ _ (ko_thread idle SEMB _ k Hk t w Hw)) as (p' & st' & Hv' & _ & Hd).
  rewrite Hv in Hv'. injection Hv' as <- <-. pose proof Hq as (El & Hnd & _).
  unfold stop_delay. rewrite status_view, Hv. cbn [fmap option_fmap option_map snd mbind option_bind].
  destruct (has_option st LW_THREAD_STATUS_DELAY) eqn:Eh.
  - assert (Hin : t ∈ WU_line (K_wuDelay k)) by (by apply Hd).
    unfold __DEL_FROM_WAKEUP_LINE. rewrite status_view, Hv. cbn [fmap option_fmap option_map snd mbind option_bind].
    destruct (del_spec (K_wuDelay k) (K_wun k) q t false 0 Hq eq_refl Hin) as (m' & E & Hq' & _).
    cbn [set_status set_sched K_wuDelay K_wun]. rewrite E. cbn [mbind option_bind].
    eexists _, (set_counter t 0 m'). split; [reflexivity|].
    assert (Elq : (q_remove t q).*1 = remove_node t (WU_line (K_wuDelay k))) by (rewrite El; by apply q_remove_fst; rewrite <-El).
    split; [exact Elq|]. split; [eapply same_dom_trans; [by eapply del_dom|apply same_dom_counter]|].
    eapply line_queue_other; [exact Hq'|]. intros x Hx. rewrite lookup_counter, decide_False; [done|]. intros ->.
    cbn [set_line WU_line set_delay K_wuDelay] in Hx. rewrite Elq in Hx. apply elem_of_remove_node in Hx as [? ?]; [done|exact Hnd].
  - assert (Hin : t ∉ WU_line (K_wuDelay k)) by (intros H%Hd; done).
    exists (K_wuDelay k), (K_wun k). rewrite ldiff_same by done. rewrite (set_status_same k t p st Hv). split; [by destruct k|].
    rewrite remove_node_notin by done. rewrite q_remove_notin by (by rewrite <-El). done.
Qed.

(** What a wake-up writes in the control block. *)
Definition woken (st : Z) : WAIT -> WAIT := if pending st then expire true else fun w => w.

Lemma wake_up_spec k t p st w q : sem_inv idle k -> K_wait k !! t = Some w -> sview (K_sched k) t = Some (p, st) -> st <> 0 ->
  line_queue (WU_line (K_wuDelay k)) (K_wun k) q ->
  exists k' w2 m2, wake_up k t = Some k' /\ wait_over idle SEMB (woken st) k k' t p st w2 m2 /\ sem_inv idle k' /\
    line_queue (WU_line (K_wuDelay k')) (K_wun k') (q_remove t q).
Proof.
  intros Hi Hw Hv Hst Hq. pose proof (sv_kern _ _ Hi) as [Hk _]. pose proof Hq as (_ & Hnd & _).
  destruct (stop_delay_any k t p st w q Hk Hw Hv Hq) as (w2 & m2 & E & El & Hdom & Hq2).
  set (k1 := set_delay w2 m2 (set_status t (Z.ldiff st LW_THREAD_STATUS_DELAY) k)) in *.
  assert (Hv1 : status k1 t = Some (Z.ldiff st LW_THREAD_STATUS_DELAY)).
  { destruct (sview_some _ _ _ _ Hv) as (T & HT & _). unfold status, k1. cbn [set_delay set_status set_sched K_sched].
    by rewrite lookup_upd_tcb, decide_True, HT. }
  assert (Hgo : exists k2, (if has_option (Z.ldiff st LW_THREAD_STATUS_DELAY) LW_THREAD_STATUS_PEND_ANY then
       let k := set_status t (Z.ldiff (Z.ldiff st LW_THREAD_STATUS_DELAY) LW_THREAD_STATUS_PEND_ANY) k1 in
       let k := upd_wait t (set_TCB_ucWaitTimeout LW_WAIT_TIME_OUT) k in unpend k t else Some k1) = Some k2 /\
     given_up (woken st) k k2 t st w2 m2 /\ TCB_peventPtr (woken st w) = None /\ TCB_pesnPtr (woken st w) = None).
  { rewrite pending_delay. unfold woken. destruct (give_up_spec idle SEMB k t p st w w2 m2 Hk Hw Hv) as (k2 & E2 & G).
    destruct (pending st) eqn:Hp.
    - exists k2. split; [|split; [done|done]]. cbv zeta. rewrite <-E2. f_equal. unfold overdue, expired_status. rewrite pending_delay, Hp.
      unfold k1, set_status, set_sched, upd_tcb, set_delay, upd_wait. cbn. by rewrite alter_alter_eq.
    - destruct (not_pending idle SEMB k t p st w Hk Hw Hv Hp) as [N1 N2]. exists k1. split; [done|]. split; [|done].
      injection E2 as <-. destruct G as [G1 G2 G3 G4 G5 G6 G7 G8 G9 G10 G11 G12]. split; try done.
      + unfold k1, expired_status. rewrite pending_delay, Hp. done.
      + symmetry. apply alter_id. done.
      + destruct (ko_rings _ _ _ _ Hk) as [R1 R2 R3]. split; [exact R1|exact R2|exact R3]. }
  destruct Hgo as (k2 & E2 & G & N1 & N2).
  destruct (given_up_ready idle SEMB (woken st) k k2 t p st w w2 m2 LW_SCHED_ACT_OTHER Hk Hnd Hw Hv Hst El Hdom G N1 N2) as (k' & E3 & V).
  exists k', w2, m2. assert (Hq' : line_queue (WU_line (K_wuDelay k')) (K_wun k') (q_remove t q)).
  { by rewrite (wo_delay _ _ _ _ _ _ _ _ _ _ V), (wo_wun _ _ _ _ _ _ _ _ _ _ V). }
  splits; try done.
  - unfold wake_up. rewrite E. cbn [mbind option_bind]. rewrite Hv1. cbn [mbind option_bind].
    cbv zeta in E2 |- *. rewrite E2. exact E3.
  - eapply wait_over_sem; [done|exact V|by eexists|exact Hw|exact N1].
Qed.

(** ** TimeSleep.c *)

(** The thread [t] has left the ready tables and is in the delay line for [n] ticks. *)
Record asleep (k k' : KERNEL) (t n : Z) : Prop := {
  as_others : forall u, u <> t -> sview (K_sched k') u = sview (K_sched k) u;
  as_wait : K_wait k' = K_wait k;
  as_event : K_event k' = K_event k;
  as_view : forall e iq, wview k' e iq = wview k e iq;
  as_self : exists p, sview (K_sched k) t = Some (p, 0) /\ sview (K_sched k') t = Some (p, LW_THREAD_STATUS_DELAY);
  as_queue : forall q, line_queue (WU_line (K_wuDelay k)) (K_wun k) q -> line_queue (WU_line (K_wuDelay k')) (K_wun k') (q_insert t n q)
}.

(** A thread that was not waiting enters the delay line: the invariant. *)
Lemma slept_inv k s2 w2 m2 t p w q : sem_inv idle k -> K_wait k !! t = Some w -> sview (K_sched k) t = Some (p, 0) ->
  sys_inv idle s2 -> held_step (K_sched k) s2 t LW_THREAD_STATUS_DELAY -> same_dom (K_wun k) m2 ->
  (forall u, u ∈ WU_line w2 <-> u = t \/ u ∈ WU_line (K_wuDelay k)) -> line_queue (WU_line w2) m2 q ->
  sem_inv idle (set_delay w2 m2 (set_sched s2 k)).
Proof.
  intros Hi Hw Hv Hs2 Hst Hdom Hel Hq. pose proof (sv_kern _ _ Hi) as [Hk _]. set (k' := set_delay w2 m2 (set_sched s2 k)).
  pose proof (ko_thread idle SEMB _ k Hk t w Hw) as [(p' & st' & Hv' & Hb & Hd) Hpl Hen Hwn]. rewrite Hv in Hv'. injection Hv' as <- <-.
  assert (Hview : forall u, sview (K_sched k') u = if decide (u = t) then Some (p, LW_THREAD_STATUS_DELAY) else sview (K_sched k) u).
  { intros u. change (K_sched k') with s2. rewrite (held_sview _ _ t _ u Hst). case_decide; [subst; by rewrite Hv|done]. }
  assert (Hw0 : wait_bits SEMB w = 0).
  { rewrite Z.land_0_l in Hb. symmetry in Hb. by apply Z.lor_eq_0_iff in Hb as [-> _]. }
  assert (Hvs : forall e iq, wview k' e iq = wview k e iq) by (apply wview_same; done).
  assert (Hk' : kern_ok idle SEMB (fun _ => 0) k').
  { apply (kern_ok_step idle SEMB (fun _ => 0) _ k _ t w Hk); try done.
    - intros u Hu. split; [done|]. split; [by rewrite Hview, decide_False|]. change (u ∈ WU_line w2 <-> u ∈ WU_line (K_wuDelay k)). rewrite Hel. tauto.
    - intros e E' HE'. destruct (ko_es _ _ _ _ Hk e E' HE') as [H1 H2]. by split.
    - destruct (ko_rings _ _ _ _ Hk) as [R1 R2 R3]. split; [exact R1|exact R2|exact R3].
    - split; [|done|exact Hen|by apply Hdom].
      exists p, LW_THREAD_STATUS_DELAY. rewrite Hview, decide_True by done. split; [done|]. split; [by rewrite Hw0|].
      change (has_option LW_THREAD_STATUS_DELAY LW_THREAD_STATUS_DELAY = true <-> t ∈ WU_line w2). rewrite Hel. split; [by left|done]. }
  split.
  - split; [done|]. by exists q.
  - intros e E' HE. rewrite !Hvs. apply (ev_ok_alive k); [by intros|]. by apply (sv_ev _ _ Hi).
  - destruct (sv_pool _ _ Hi) as [P1 P2 P3 P4 P5]. by split.
  - apply (sv_mark _ _ Hi).
Qed.

(** The counter is written, and the delay line entered. *)
Lemma enter_line k t c0 n q : K_wun k !! t = Some c0 -> t ∉ WU_line (K_wuDelay k) -> 0 < n <= ULONG_MAX ->
  line_queue (WU_line (K_wuDelay k)) (K_wun k) q -> exists m',
    _WakeupAdd (K_wuDelay k) (set_counter t n (K_wun k)) t false 0 = Some (set_line (q_insert t n q).*1 (K_wuDelay k), m', false) /\
    line_queue (q_insert t n q).*1 m' (q_insert t n q) /\ same_dom (K_wun k) m'.
Proof.
  intros Hc0 Ht Hn Hq. set (m1 := set_counter t n (K_wun k)).
  assert (Hc1 : m1 !! t = Some (mkWun (WUN_bInQ c0) n)) by (unfold m1; by rewrite lookup_counter, decide_True, Hc0).
  assert (Hq1 : line_queue (WU_line (K_wuDelay k)) m1 q).
  { eapply line_queue_other; [exact Hq|]. intros x Hx. unfold m1. rewrite lookup_counter, decide_False; [done|]. by intros ->. }
  destruct (add_spec (K_wuDelay k) m1 q t _ false 0 Hq1 eq_refl Ht Hc1) as (m' & E3 & H & _); [cbn; lia|].
  exists m'. split; [exact E3|]. split; [exact H|]. eapply same_dom_trans; [apply same_dom_counter|by eapply add_dom].
Qed.

Lemma sleep_spec k t n : sem_inv idle k -> runs idle k t -> 0 < n <= ULONG_MAX ->
  exists k', sleep_wait_again k t n = Some (k', Wait 0) /\ sem_inv idle k' /\ asleep k k' t n.
Proof.
  intros Hi [[p Hv] Hid] Hn. pose proof (sv_kern _ _ Hi) as [Hk [q0 Hq0]].
  assert (is_Some (K_wait k !! t)) as [w Hw].
  { apply (ko_dom _ _ _ _ Hk). destruct (sview_some _ _ _ _ Hv) as (T & HT & _). by eexists. }
  pose proof (ko_thread idle SEMB _ k Hk t w Hw) as [(p' & st' & Hv' & _ & Hd) _ _ [c0 Hwn]]. rewrite Hv in Hv'. injection Hv' as <- <-.
  assert (Ht : t ∉ WU_line (K_wuDelay k)) by (intros H; by assert (has_option 0 LW_THREAD_STATUS_DELAY = true) by (by apply Hd)).
  destruct (holding_ready idle k t p (ko_sched _ _ _ _ Hk) Hv Hid) as (s1 & E & Hh).
  destruct (Hh LW_THREAD_STATUS_DELAY ltac:(done)) as (s2 & E2 & Hs2 & Hst). rewrite Z.lor_0_l in Hst.
  unfold sleep_wait_again. rewrite (proj2 (Z.eqb_neq n 0)) by lia. rewrite E. cbn [mbind option_bind].
  unfold status_or in E2. unfold __ADD_TO_WAKEUP_LINE. change (status (set_TCB_ulDelay t n (set_sched s1 k)) t) with (status (set_sched s1 k) t).
  destruct (status (set_sched s1 k) t) as [o|]; [|done]. cbn [mbind option_bind] in E2 |- *.
  assert (Es : upd_tcb t (set_TCB_usStatus (Z.lor o LW_THREAD_STATUS_DELAY)) s1 = s2) by (by injection E2).
  destruct (enter_line k t c0 n q0 Hwn Ht Hn Hq0) as (m' & E3 & Hq' & Hdom). cbn [set_TCB_ulDelay set_status set_sched set_delay K_wuDelay K_wun].
  rewrite E3. cbn [mbind option_bind]. unfold set_status. cbn [set_TCB_ulDelay set_delay set_sched K_sched]. rewrite Es.
  set (w2 := set_line (q_insert t n q0).*1 (K_wuDelay k)). exists (set_delay w2 m' (set_sched s2 k)). split; [done|]. split.
  - apply (slept_inv k s2 w2 m' t p w (q_insert t n q0)); try done. intros u. change (WU_line w2) with ((q_insert t n q0).*1).
    rewrite q_insert_fst, elem_of_cons. by rewrite (proj1 Hq0).
  - split; try done.
    + intros u Hu. change (sview s2 u = sview (K_sched k) u). by rewrite (held_sview _ _ t _ u Hst), decide_False.
    + exists p. split; [done|]. change (sview s2 t = Some (p, LW_THREAD_STATUS_DELAY)). by rewrite (held_sview _ _ t _ t Hst), decide_True, Hv.
    + intros q Hq. destruct (enter_line k t c0 n q Hwn Ht Hn Hq) as (m2 & E4 & H4 & _). rewrite E3 in E4. injection E4 as E5 <-.
      change (line_queue (q_insert t n q0).*1 m' (q_insert t n q)). by rewrite E5.
Qed.
End Sleep.
