(* ===== verification/ThreadPoint.v ===== *)
(** * Scheduling points

    What a CPU does at a scheduling point: the requests to the running thread are carried out, then the
    candidate runs. *)

From S2P Require Import Prelude Lists Bitmap Sched SchedSpec Object Wakeup Kernel Event EventSpec Boot TickSpec Semaphore Mutex SemSpec LifeSpec System ThreadFrame Thread ThreadSpec ThreadCalls.

(** ** The switch *)

(** On CPU [i] the running thread may have changed, to the candidate. *)
Record switched (s s' : SCHED) (i : Z) (p p' : CPU) : Prop := {
  sw_thread : forall t, thread_part <$> tcbs s' !! t = thread_part <$> tcbs s !! t;
  sw_ncpus : LW_NCPUS s' = LW_NCPUS s;
  sw_others : forall j, j <> i -> cpu_part <$> cpus s' !! j = cpu_part <$> cpus s !! j;
  sw_new : cpus s' !! i = Some p';
  sw_nest : CPU_ulInterNesting p' = CPU_ulInterNesting p;
  sw_case : __COULD_SCHED s i 1 = Some false /\ s' = s /\ p' = p \/
    __COULD_SCHED s i 1 = Some true /\ CAND_ptcbCand p' = Some (CPU_ptcbTCBCur p')
}.

Lemma schedule_switched s i p s' : cpus s !! i = Some p -> SchedSpec._Schedule s i = Some s' -> exists p', switched s s' i p p'.
Proof.
  intros Hp. unfold SchedSpec._Schedule, _SchedGetCand. rewrite Hp. cbn [mbind option_bind].
  destruct (__COULD_SCHED s i 1) as [b|] eqn:Eb; [|done]. cbn [mbind option_bind]. destruct b; cbn [negb].
  2: { cbn [mbind option_bind snd fst]. rewrite Z.eqb_refl. intros [= <-]. exists p. split; try done. by left. }
  destruct (if CAND_bNeedRotate p then _CandTableUpdate s i else Some s) as [s1|] eqn:E1; [|done]. cbn [mbind option_bind].
  assert (Hf : frame s s1).
  { destruct (CAND_bNeedRotate p); [eapply Update_frame; [exact E1|apply sframe_refl]|]. injection E1 as ->. apply sframe_refl. }
  destruct Hf as [F1 F2 F3]. pose proof (F2 i) as Fi. rewrite Hp in Fi.
  destruct (cpus s1 !! i) as [p1|] eqn:Hp1; [|done]. cbn [mbind option_bind snd fst]. injection Fi as Fc Fn Fk.
  destruct (CAND_ptcbCand p1) as [t|] eqn:Ec; [|done]. cbn [mbind option_bind]. destruct (Z.eqb_spec t (CPU_ptcbTCBCur p)) as [Et|Et]; intros [= <-].
  - exists p1. split; try done. right. split; [done|]. congruence.
  - exists (set_CPU_ptcbTCBCur t p1). split; try done.
    + intros j Hj. rewrite lookup_upd_cpu, decide_False by done. apply F2.
    + by rewrite lookup_upd_cpu, decide_True, Hp1.
    + by right.
Qed.

Section Points.
Context (idle : Z -> Z).
Abbreviation ctl_inv := (ctl_inv idle).

(** What a scheduling point leaves alone: everything but the running thread of the CPU. *)
Record dispatched (s s' : THREADS) (i : Z) : Prop := {
  dp_ctl : T_ctl s' = T_ctl s;
  dp_stat : forall u, stat s' u = stat s u;
  dp_ipi : T_ipi s' = T_ipi s;
  dp_table : _K_ptcbTCBIdTable s' = _K_ptcbTCBIdTable s /\ LW_CFG_MAX_THREADS s' = LW_CFG_MAX_THREADS s;
  dp_switch : forall p, cpus (K_sched (T_kern s)) !! i = Some p -> exists p', switched (K_sched (T_kern s)) (K_sched (T_kern s')) i p p'
}.

Lemma tail_spec s i p : ctl_inv s -> cpus (K_sched (T_kern s)) !! i = Some p ->
  (__COULD_SCHED (K_sched (T_kern s)) i 1 = Some true -> forall u, waits_on s u (CPU_ptcbTCBCur p) -> locked s (CPU_ptcbTCBCur p)) ->
  exists s', schedule_tail s i = Some s' /\ ctl_inv s' /\ dispatched s s' i.
Proof.
  intros Hi Hp Hw. pose proof (ctl_sys idle s Hi) as Hsys.
  assert (Hid : cpu_id (K_sched (T_kern s)) i) by (by apply (sched_wf_cpu _ _ p (si_wf _ _ Hsys))).
  destruct (sched_step_safe idle (T_kern s) (EvSchedule i) (ci_sem _ _ Hi) Hid I) as (r & E & Hr).
  pose proof (exec_quiet idle _ (EvSchedule i) _ Hsys Hid I E) as Ha. cbn [exec] in E.
  destruct (schedule_switched _ i p r Hp E) as (p' & Hsw). unfold schedule_tail. rewrite E. cbn [mbind option_bind].
  set (s' := set_kern (set_sched r (T_kern s)) s). exists s'. split; [done|].
  assert (Hst : forall u, stat s' u = stat s u).
  { intros u. change (stat s' u) with (TCB_usStatus <$> tcbs r !! u). destruct Ha as [_ Ha]. specialize (Ha u). unfold stat.
    destruct (tcbs r !! u), (tcbs (K_sched (T_kern s)) !! u); try done.
    injection Ha as _ _ _ Ha. simpl. by rewrite Ha. }
  assert (Hd : dispatched s s' i).
  { split; try done. intros q Hq. rewrite Hp in Hq. injection Hq as <-. by exists p'. }
  split; [|done]. destruct Hsw as [W1 W2 W3 W4 W5 W6]. pose proof Hi as [I1 I2 I3 I4 I5 I6 I7].
  assert (Hdom : forall u, is_Some (tcbs r !! u) <-> is_Some (tcbs (K_sched (T_kern s)) !! u)).
  { intros u. specialize (W1 u). destruct (tcbs r !! u), (tcbs (K_sched (T_kern s)) !! u); try done; by split; eexists. }
  assert (Hlk : forall u, locked s u -> locked s' u).
  { intros u (T & HT & Hl). specialize (W1 u). rewrite HT in W1. destruct (tcbs r !! u) as [T'|] eqn:HT'; [|done].
    injection W1 as _ W1. exists T'. split; [done|]. by rewrite W1. }
  assert (Hidle : forall u, not_idle idle (K_sched (T_kern s)) u -> not_idle idle r u).
  { intros u H j Hj. apply H. unfold cpu_id in *. by rewrite <-W2. }
  split.
  - done.
  - intros t. change (is_Some (T_ctl s !! t) <-> is_Some (tcbs r !! t)). by rewrite I2, Hdom.
  - intros t c T Hc HT. specialize (Hst t). unfold stat in Hst. rewrite HT in Hst. cbn [set_kern T_ctl] in Hc.
    destruct (tcbs (K_sched (T_kern s)) !! t) as [T0|] eqn:HT0; [|done]. injection Hst as ->. by apply (I3 t).
  - apply I4.
  - intros u t H. destruct (I5 u t H) as (A & B & C). splits; auto.
  - intros u t H. destruct (I6 u t H) as [(j & q & Hq & Ht)|Hl]; [|right; by apply Hlk].
    destruct (decide (j = i)) as [->|Hj].
    + rewrite Hp in Hq. injection Hq as <-. destruct W6 as [(_ & -> & _)|[Hc _]]; [left; by exists i, p|].
      right. apply Hlk. subst t. by apply (Hw Hc u).
    + left. specialize (W3 j Hj). rewrite Hq in W3. destruct (cpus r !! j) as [q'|] eqn:Hq'; [|done]. injection W3 as W3 _ _.
      exists j, q'. split; [done|]. congruence.
  - intros j t H. destruct (I7 j t H) as [A B]. split; [done|]. intros Hj. apply Hidle, B. change (LW_NCPUS r <= j) in Hj. by rewrite <-W2.
Qed.

(** ** The requests *)

Definition change_en (p : CPU) (T : TCB) : bool := (CPU_ulInterNesting p =? 0) && (TCB_ulThreadLockCounter T <=? 1).

Lemma point_spec s i p T c : ctl_inv s -> cpus (K_sched (T_kern s)) !! i = Some p -> tcbs (K_sched (T_kern s)) !! CPU_ptcbTCBCur p = Some T ->
  T_ctl s !! CPU_ptcbTCBCur p = Some c ->
  exists s1, status_point s i = Some s1 /\ ctl_inv s1 /\
    if change_en p T then exists st, stat s (CPU_ptcbTCBCur p) = Some st /\ served s s1 (CPU_ptcbTCBCur p) c st (TCB_plineStatusReqHeader c)
    else s1 = s.
Proof.
  intros Hi Hp HT Hc. unfold status_point, __LW_STATUS_CHANGE_EN. rewrite Hp. cbn [mbind option_bind].
  rewrite HT. cbn [mbind option_bind]. unfold change_en. destruct (_ && _); [|by exists s].
  destruct (StatusChangeCur_spec idle s i p c Hi Hp Hc) as (s1 & st & E & H1 & H2 & H3). exists s1. split; [done|]. split; [done|]. by exists st.
Qed.

Lemma running_thread s i p : ctl_inv s -> cpus (K_sched (T_kern s)) !! i = Some p ->
  exists T c, tcbs (K_sched (T_kern s)) !! CPU_ptcbTCBCur p = Some T /\ T_ctl s !! CPU_ptcbTCBCur p = Some c.
Proof.
  intros Hi Hp. destruct (si_cpu _ _ (ctl_sys idle s Hi) i p Hp) as (_ & _ & [T HT]).
  assert (is_Some (T_ctl s !! CPU_ptcbTCBCur p)) as [c Hc] by (apply (ci_dom _ _ Hi); by eexists). by exists T, c.
Qed.

(** The two forms of a scheduling point do the same. *)
Lemma Schedule_eq s i p : ctl_inv s -> cpus (K_sched (T_kern s)) !! i = Some p -> Thread._Schedule s i = _ScheduleInt s i.
Proof.
  intros Hi Hp. destruct (running_thread s i p Hi Hp) as (T & c & HT & Hc). unfold Thread._Schedule, _ScheduleInt. rewrite Hp. cbn [mbind option_bind].
  rewrite Hc. cbn [mbind option_bind]. destruct (TCB_plineStatusReqHeader c) eqn:El; [|done].
  unfold status_point, __LW_STATUS_CHANGE_EN. rewrite Hp. cbn [mbind option_bind]. rewrite HT. cbn [mbind option_bind].
  destruct (_ && _); [|done]. unfold _ThreadStatusChangeCur. rewrite Hp. cbn [mbind option_bind]. rewrite Hc. cbn [mbind option_bind]. by rewrite El.
Qed.

Lemma schedule_spec s i p T c : ctl_inv s -> cpus (K_sched (T_kern s)) !! i = Some p -> tcbs (K_sched (T_kern s)) !! CPU_ptcbTCBCur p = Some T ->
  T_ctl s !! CPU_ptcbTCBCur p = Some c ->
  exists s1 s', status_point s i = Some s1 /\ _ScheduleInt s i = Some s' /\ ctl_inv s1 /\ ctl_inv s' /\ dispatched s1 s' i /\
    if change_en p T then exists st, stat s (CPU_ptcbTCBCur p) = Some st /\ served s s1 (CPU_ptcbTCBCur p) c st (TCB_plineStatusReqHeader c)
    else s1 = s.
Proof.
  intros Hi Hp HT Hc. destruct (point_spec s i p T c Hi Hp HT Hc) as (s1 & E & Hi1 & H).
  assert (Hp1 : exists p1, cpus (K_sched (T_kern s1)) !! i = Some p1 /\ cpu_part p1 = cpu_part p).
  { destruct (change_en p T); [|subst s1; by exists p]. destruct H as (st & _ & [_ _ Hs]). pose proof (sl_cpu _ _ Hs i) as Hx.
    rewrite Hp in Hx. destruct (cpus (K_sched (T_kern s1)) !! i) as [p1|]; [|done]. exists p1. split; [done|]. by injection Hx as ? ? ?; unfold cpu_part; f_equal; [f_equal|]. }
  destruct Hp1 as (p1 & Hp1 & Ep). injection Ep as Ec En Ek.
  destruct (tail_spec s1 i p1 Hi1 Hp1) as (s' & E' & Hi' & Hd).
  { intros Hcould u Hw. rewrite Ec in Hw |- *. destruct (change_en p T) eqn:Een.
    - destruct H as (st & _ & [D1 _ _]). exfalso.
      assert (Hin : u ∈ []); [|by apply not_elem_of_nil in Hin].
      destruct (ci_list _ _ Hi1 (CPU_ptcbTCBCur p) _ (eq_trans (D1 _) (decide_True _ _ eq_refl))) as [_ Hl]. by apply Hl in Hw.
    - subst s1. rewrite Hp in Hp1. injection Hp1 as <-. unfold __COULD_SCHED in Hcould. rewrite Hp in Hcould. cbn [mbind option_bind] in Hcould.
      rewrite HT in Hcould. cbn [mbind option_bind] in Hcould. injection Hcould as Hcould. exists T. split; [done|]. unfold change_en in Een.
      destruct (Z.eqb_spec (CPU_ulInterNesting p) 0); [|done]. cbn [negb orb andb] in *. lia. }
  exists s1, s'. unfold _ScheduleInt. rewrite E. cbn [mbind option_bind]. by rewrite E'.
Qed.
End Points.
