(* ===== verification/ThreadRun.v ===== *)
(** * Thread control as a system

    The services of the semaphores, the calls of thread control, the ticks and the
    scheduling points of all CPUs, in any order. *)

From S2P Require Import Prelude Lists Bitmap Sched SchedSpec Object Wakeup Kernel Event EventSpec Boot TickSpec Semaphore Mutex SemSpec LifeSpec SemRefine MutexSpec System ThreadFrame Thread ThreadSpec ThreadCalls ThreadSleep ThreadPoint.

(** ** The system *)

Inductive TOP :=
| TBase (op : SYS)
| TSuspend (c : CALL) (ulId : Z)
| TResume (ulId : Z)
| TForceResume (ulId : Z)
| TStop (c : CALL) (ulId : Z)
| TStopResume (ptcbCur ulError : Z)
| TContinue (ulId : Z)
| TWaitDeath (c : CALL) (ptcb : Z)
| TWakeup (ulId : Z) (bWithInfPend : bool)
| TSleep (c : CALL) (ulTick : Z)
| TSleepResume (ptcbCur ulNow ulKernelTime ulTick : Z) (bSigRet : bool) (iSchedRet : Z)
| TStart (c : CALL) (ulId : Z)
| TSetPriority (c : CALL) (ulId ucPriority : Z)
| TYield (c : CALL) (ulId : Z)
| TSchedParam (ulId ucPolicy ucActivatedMode : Z)
| TSlice (ulId usSlice : Z)
| TLock (c : CALL)
| TUnlock (c : CALL) (pcpuCur : Z)
| TSchedule (pcpuCur : Z)
| TIpi (pcpuCur : Z).

Definition on_kern {A} (s : THREADS) (res : option (KERNEL * A)) : option THREADS := '(k, _) ← res; Some (set_kern k s).

Definition t_exec (s : THREADS) (op : TOP) : option THREADS :=
  match op with
  | TBase op => k ← sys_exec (T_kern s) op; Some (set_kern k s)
  | TSuspend c h => fst <$> API_ThreadSuspend s c h
  | TResume h => fst <$> API_ThreadResume s h
  | TForceResume h => fst <$> API_ThreadForceResume s h
  | TStop c h => fst <$> API_ThreadStop s c h
  | TStopResume t e => fst <$> API_ThreadStop_resume s t e
  | TContinue h => fst <$> API_ThreadContinue s h
  | TWaitDeath c t => _ThreadDeleteWaitDeath s c t
  | TWakeup h b => fst <$> API_ThreadWakeupEx s h b
  | TSleep c n => on_kern s (API_TimeSleepEx (T_kern s) c n)
  | TSleepResume t now save n b r => on_kern s (API_TimeSleepEx_resume (T_kern s) t now save n b r)
  | TStart c h => fst <$> API_ThreadStart s c h
  | TSetPriority c h p => fst <$> API_ThreadSetPriority s c h p
  | TYield c h => fst <$> API_ThreadYield s c h
  | TSchedParam h p m => fst <$> API_ThreadSetSchedParam s h p m
  | TSlice h n => fst <$> API_ThreadSetSlice s h n
  | TLock c => fst <$> API_ThreadLock s c
  | TUnlock c i => fst <$> API_ThreadUnlock s c i
  | TSchedule i => Thread._Schedule s i
  | TIpi i => ipi_taken s i
  end.

(** The callers run, the counters of a thread that is held have room, the arguments have their C types;
    the checks that the calls leave out (file Thread) are asked of the callers: no idle thread is stopped,
    and no handle beyond the thread table is started. *)
Definition t_legal (idle : Z -> Z) (s : THREADS) (op : TOP) : Prop :=
  match op with
  | TBase op => sys_legal idle (T_kern s) op /\ no_switch op
  | TSuspend c h => forall t, thread_of _Thread_Index_Invalid s h = inr t -> change_legal idle s c t
  | TStop c h => forall t, thread_of index_beyond s h = inr t -> change_legal idle s c t /\ not_idle idle (K_sched (T_kern s)) t
  | TWaitDeath c t => is_Some (T_ctl s !! t) /\ change_legal idle s c t /\ not_idle idle (K_sched (T_kern s)) t
  | TStopResume t _ => runs idle (T_kern s) t
  | TSleep c n => (LW_CPU_GET_CUR_NESTING c = 0 -> runs idle (T_kern s) (LW_TCB_GET_CUR c)) /\ 0 <= n <= ULONG_MAX
  | TSleepResume t now save n _ _ => runs idle (T_kern s) t /\ 0 <= now <= ULONG_MAX /\ 0 <= save <= ULONG_MAX /\ 0 <= n <= ULONG_MAX
  | TStart _ h => index_beyond s (_ObjectGetIndex h) = false
  | TSetPriority _ _ p => 0 <= p
  | TLock c => on_cpu s (LW_TCB_GET_CUR c)
  | TUnlock c i => exists p, cpus (K_sched (T_kern s)) !! i = Some p /\ CPU_ptcbTCBCur p = LW_TCB_GET_CUR c
  | TSchedule i | TIpi i => is_Some (cpus (K_sched (T_kern s)) !! i)
  | _ => True
  end.

Inductive t_reachable (idle : Z -> Z) (s0 : THREADS) : THREADS -> Prop :=
| t_init : t_reachable idle s0 s0
| t_step s op s' : t_reachable idle s0 s -> t_legal idle s op -> t_exec s op = Some s' -> t_reachable idle s0 s'.

Lemma request_is r : r = LW_TCB_REQ_SUSPEND \/ r = LW_TCB_REQ_STOP \/ r = LW_TCB_REQ_WDEATH -> a_request r.
Proof. unfold a_request. rewrite !elem_of_cons. tauto. Qed.

Section Safe.
Context (idle : Z -> Z).
Abbreviation ctl_inv := (ctl_inv idle).

Definition t_safe (r : option THREADS) : Prop := exists s', r = Some s' /\ ctl_inv s'.

Lemma t_safe_fst {A} s' (x : A) : ctl_inv s' -> t_safe (fst <$> Some (s', x)).
Proof. intros H. by exists s'. Qed.

(** ** Calls that change only the kernel *)

Lemma kern_safe s k : ctl_inv s -> sem_inv idle k -> kframe (T_kern s) k -> t_safe (Some (set_kern k s)).
Proof. intros Hi Hk Hf. exists (set_kern k s). split; [done|]. by apply ctl_inv_kern. Qed.

Lemma wake_frame k t k' : wake_up k t = Some k' -> kframe k k'.
Proof. pose proof (kframe_refl k). unfold wake_up. framed. Qed.
Lemma sleep_frame k t n k' r : sleep_wait_again k t n = Some (k', r) -> kframe k k'.
Proof. pose proof (kframe_refl k). unfold sleep_wait_again. framed. Qed.

Lemma sleep_safe s t n : ctl_inv s -> runs idle (T_kern s) t -> 0 <= n <= ULONG_MAX -> t_safe (on_kern s (sleep_wait_again (T_kern s) t n)).
Proof.
  intros Hi Hr Hn. destruct (Z.eqb_spec n 0) as [->|Hne].
  - apply kern_safe; [done|apply Hi|apply kframe_refl].
  - destruct (sleep_spec idle (T_kern s) t n (ci_sem _ _ Hi) Hr ltac:(lia)) as (k' & E & H & _). unfold on_kern. rewrite E.
    apply kern_safe; [done|done|by eapply sleep_frame].
Qed.

(** A write to a thread that the scheduler does not read for its tables. *)
Lemma harmless_sem k t f : sem_inv idle k -> harmless_tcb f -> (forall T, TCB_usStatus (f T) = TCB_usStatus T) ->
  sem_inv idle (set_sched (upd_tcb t f (K_sched k)) k).
Proof.
  intros Hi Hf Hs. assert (Hsys : sys_inv idle (K_sched k)) by apply (ko_sched _ _ _ _ (proj1 (sv_kern _ _ Hi))).
  assert (Hv : forall u, sview (upd_tcb t f (K_sched k)) u = sview (K_sched k) u).
  { intros u. unfold sview. rewrite lookup_upd_tcb. case_decide; [|done]. destruct (tcbs (K_sched k) !! u) as [T|]; [|done].
    simpl. rewrite Hs. by destruct (Hf T) as (-> & _). }
  apply sem_inv_sched; [done| |].
  - destruct (tcbs (K_sched k) !! t) as [T|] eqn:HT.
    + apply (sys_inv_upd idle _ t T); [done|done|done|by rewrite Hs|left; apply Hs].
    + assert (upd_tcb t f (K_sched k) = K_sched k) as ->; [|done]. destruct (K_sched k). unfold upd_tcb. simpl in *. f_equal. apply map_eq. intros u. destruct (decide (u = t)) as [->|]; [by rewrite lookup_alter_eq, HT|by rewrite lookup_alter_ne].
  - intros u. rewrite Hv. destruct (sview (K_sched k) u); [by split|done].
Qed.

(** ** The calls *)

Lemma handle_safe bad s h (f : Z -> option (THREADS * Z)) : ctl_inv s ->
  (forall t, thread_of bad s h = inr t -> t_safe (fst <$> f t)) ->
  t_safe (fst <$> match thread_of bad s h with inl err => Some (s, err) | inr t => f t end).
Proof. intros Hi Hf. destruct (thread_of bad s h); [by apply t_safe_fst|by apply Hf]. Qed.

Lemma deleting_safe s t err (f : option (THREADS * Z)) : ctl_inv s -> is_Some (T_ctl s !! t) -> t_safe (fst <$> f) ->
  t_safe (fst <$> (d ← deleting s t; if (d : bool) then Some (s, err) else f)).
Proof.
  intros Hi Ht Hf. destruct (deleting_spec idle s t Hi Ht) as (b & ->). cbn [mbind option_bind]. destruct b; [by apply t_safe_fst|done].
Qed.

Lemma change_safe s c t r : ctl_inv s -> change_legal idle s c t -> not_idle idle (K_sched (T_kern s)) t -> is_Some (T_ctl s !! t) -> a_request r ->
  t_safe (fst <$> _ThreadStatusChange s c t r).
Proof.
  intros Hi Hl Hid [x Hx] Hr. destruct (status_change_spec idle s c t r x Hi Hl Hid Hx Hr) as (s' & e & -> & H & _). by apply t_safe_fst.
Qed.

Lemma thread_view s t : ctl_inv s -> is_Some (T_ctl s !! t) -> exists w p st, K_wait (T_kern s) !! t = Some w /\
  sview (K_sched (T_kern s)) t = Some (p, st) /\ stat s t = Some st.
Proof.
  intros Hi [c Hc]. destruct (ctl_thread idle s t c Hi Hc) as (T & p & HT & Hv & Hst & _).
  assert (is_Some (K_wait (T_kern s) !! t)) as [w Hw].
  { apply (ko_dom _ _ _ _ (proj1 (sv_kern _ _ (ci_sem _ _ Hi)))). by eexists. }
  by exists w, p, (TCB_usStatus T).
Qed.

Lemma wakeup_safe s h b : ctl_inv s -> t_safe (fst <$> API_ThreadWakeupEx s h b).
Proof.
  intros Hi. apply handle_safe; [done|]. intros t Ht. destruct (thread_view s t Hi) as (w & p & st & Hw & Hv & Hst).
  { by apply (thread_of_user idle s h t). }
  rewrite status_view, Hv. cbn [fmap option_fmap option_map snd mbind option_bind]. change LW_THREAD_STATUS_RDY with 0.
  destruct (Z.eqb_spec st 0) as [Hz|Hz]; [by apply t_safe_fst|].
  destruct (negb b && negb (has_option st LW_THREAD_STATUS_DELAY)); [by apply t_safe_fst|].
  destruct (proj2 (sv_kern _ _ (ci_sem _ _ Hi))) as [q Hq].
  destruct (wake_up_spec idle (T_kern s) t p st w q (ci_sem _ _ Hi) Hw Hv Hz Hq) as (k' & w2 & m2 & E & _ & Hs & _).
  rewrite E. cbn [mbind option_bind]. apply kern_safe; [done|done|by eapply wake_frame].
Qed.

Lemma thread_ctl_bit c st b : thread_ctl c st -> Z.land b LW_THREAD_STATUS_SUSPEND = 0 -> Z.land b LW_THREAD_STATUS_STOP = 0 ->
  Z.land b LW_THREAD_STATUS_WSTAT = 0 -> thread_ctl c (Z.ldiff st b).
Proof. intros [A1 A2 A3 A4 A5 A6] H1 H2 H3. split; try done; by rewrite ctl_bit_andn. Qed.

Lemma start_safe s c h : ctl_inv s -> index_beyond s (_ObjectGetIndex h) = false -> t_safe (fst <$> API_ThreadStart s c h).
Proof.
  intros Hi Hb. unfold API_ThreadStart. destruct (negb (_ =? 0)); [by apply t_safe_fst|]. destruct (negb (_ObjectClassOK _ _)); [by apply t_safe_fst|].
  rewrite Hb. apply handle_safe; [done|]. intros t Ht. pose proof (thread_of_any idle _ s h t Hi Ht) as [x Hx].
  destruct (ctl_thread idle s t x Hi Hx) as (T & p & HT & Hv & Hst & Htc).
  rewrite status_view, Hv. cbn [fmap option_fmap option_map snd mbind option_bind].
  destruct (has_option (TCB_usStatus T) LW_THREAD_STATUS_INIT) eqn:Ei; [|by apply t_safe_fst].
  destruct (let_go_spec idle s t x p (TCB_usStatus T) LW_THREAD_STATUS_INIT (fun c => c) LW_SCHED_ACT_OTHER Hi Hx Hv) as (s' & E & Hi' & _); try done.
  { by eapply bit_nonzero. }
  { by apply thread_ctl_bit. }
  rewrite upd_ctl_id in E.
  destruct (status_andn t LW_THREAD_STATUS_INIT (T_kern s)) as [k1|]; [|done]. cbn [mbind option_bind] in E |- *. unfold thread_is_ready.
  unfold ready_if in E |- *. destruct (tcbs (K_sched k1) !! t) as [T1|]; [|done]. cbn [mbind option_bind] in E |- *.
  destruct (__LW_THREAD_IS_READY T1).
  - destruct (__ADD_TO_READY_RING _ _ _); [|done]. cbn [mbind option_bind] in E |- *. injection E as <-. by apply t_safe_fst.
  - injection E as <-. by apply t_safe_fst.
Qed.

Lemma set_priority_safe s c h q : ctl_inv s -> 0 <= q -> t_safe (fst <$> API_ThreadSetPriority s c h q).
Proof.
  intros Hi Hq. unfold API_ThreadSetPriority. destruct (negb (_ =? 0)); [by apply t_safe_fst|]. destruct (negb (_ObjectClassOK _ _)); [by apply t_safe_fst|].
  destruct (_PriorityCheck q) eqn:Ec; [by apply t_safe_fst|]. apply handle_safe; [done|]. intros t Ht.
  pose proof (thread_of_any idle _ s h t Hi Ht) as Hx. apply deleting_safe; [done|done|].
  destruct (thread_view s t Hi Hx) as (w & p & st & Hw & Hv & _). rewrite prio_sview, Hv. cbn [fmap option_fmap option_map fst mbind option_bind].
  destruct (p =? q); [by apply t_safe_fst|].
  assert (Hok : prio_ok q) by (unfold _PriorityCheck, LW_PRIO_LOWEST in Ec; unfold prio_ok; lia).
  pose proof (sv_kern _ _ (ci_sem _ _ Hi)) as [Hk Hd].
  destruct (set_prio_gen idle (fun _ => 0) (T_kern s) t p st q Hk Hv Hok) as (s2 & E & Hk2 & Hc). rewrite E. cbn [mbind option_bind].
  apply kern_safe; [done| |by eapply SetPrio_kframe; [exact E|apply kframe_refl]].
  apply sem_inv_sched; [apply Hi|apply Hk2|]. intros u. destruct Hc as [_ Hc]. rewrite Hc. destruct (sview (K_sched (T_kern s)) u) as [[p' st']|]; [|done].
  by case_decide.
Qed.

Lemma yield_safe s c h : ctl_inv s -> t_safe (fst <$> API_ThreadYield s c h).
Proof.
  intros Hi. unfold API_ThreadYield. destruct (negb (_ =? 0)); [by apply t_safe_fst|]. apply handle_safe; [done|]. intros t Ht.
  pose proof (thread_of_any idle _ s h t Hi Ht) as Hx. assert (is_Some (tcbs (K_sched (T_kern s)) !! t)) as [T HT] by (by apply (ci_dom _ _ Hi)).
  unfold thread_is_ready. rewrite HT. cbn [mbind option_bind]. destruct (__LW_THREAD_IS_READY T); [|by apply t_safe_fst].
  destruct (sched_step_safe idle (T_kern s) (EvYield t) (ci_sem _ _ Hi) ltac:(by eexists) I) as (r & E & Hr). cbn [exec] in E. rewrite E. cbn [mbind option_bind].
  apply kern_safe; [done|done|]. apply kframe_sched. by eapply Yield_frame; [exact E|apply sframe_refl].
Qed.

Lemma param_safe s t f : ctl_inv s -> harmless_tcb f -> (forall T, status_lock (f T) = status_lock T) ->
  t_safe (Some (set_kern (set_sched (upd_tcb t f (K_sched (T_kern s))) (T_kern s)) s)).
Proof.
  intros Hi Hf Hs. apply kern_safe; [done| |].
  - apply harmless_sem; [apply Hi|done|]. intros T. by injection (Hs T).
  - apply kframe_sched, frame_tcb; [|apply sframe_refl]. intros T. injection (Hs T) as E1 E2. unfold thread_part. by rewrite E1, E2.
Qed.

(** *** The scheduling lock *)

Lemma lock_inv s t n : ctl_inv s -> on_cpu s t -> ctl_inv (set_thread_lock t n s).
Proof.
  intros Hi Ht. pose proof Hi as [I1 I2 I3 I4 I5 I6 I7].
  assert (Hl : forall u, tcbs (K_sched (T_kern (set_thread_lock t n s))) !! u =
    (fun T => if decide (u = t) then set_TCB_ulThreadLockCounter n T else T) <$> tcbs (K_sched (T_kern s)) !! u).
  { intros u. unfold set_thread_lock. cbn [set_kern T_kern set_sched K_sched]. rewrite lookup_upd_tcb. case_decide; [done|]. by destruct (_ !! u). }
  split; try done.
  - by apply harmless_sem.
  - intros u. rewrite Hl, fmap_is_Some. apply I2.
  - intros u c T Hc HT. rewrite Hl in HT. destruct (tcbs (K_sched (T_kern s)) !! u) as [T0|] eqn:HT0; [|done]. injection HT as <-.
    pose proof (I3 u c T0 Hc HT0). by case_decide.
  - intros u v H. destruct (I6 u v H) as [Hv|(T & HT & Hlt)]; [by left|]. destruct (decide (v = t)) as [->|Hne]; [by left|].
    right. exists T. split; [|done]. rewrite Hl, HT. simpl. by rewrite decide_False.
Qed.

Lemma schedule_safe s i : ctl_inv s -> is_Some (cpus (K_sched (T_kern s)) !! i) -> t_safe (Thread._Schedule s i) /\ t_safe (_ScheduleInt s i).
Proof.
  intros Hi [p Hp]. rewrite (Schedule_eq idle s i p Hi Hp). destruct (running_thread idle s i p Hi Hp) as (T & c & HT & Hc).
  destruct (schedule_spec idle s i p T c Hi Hp HT Hc) as (s1 & s' & _ & E & _ & Hi' & _). split; by exists s'.
Qed.

Lemma ipi_inv s l : ctl_inv s -> ctl_inv (set_ipi l s).
Proof. intros []. by split. Qed.

Lemma lock_safe s c : ctl_inv s -> on_cpu s (LW_TCB_GET_CUR c) -> t_safe (fst <$> API_ThreadLock s c).
Proof.
  intros Hi Hc. unfold API_ThreadLock. destruct (negb (_ =? 0)); [by apply t_safe_fst|]. unfold _ThreadLock.
  destruct (negb (LW_SYS_STATUS_IS_RUNNING c)); [by apply t_safe_fst|]. pose proof Hc as (i & p & Hp & Ep).
  destruct (running_thread idle s i p Hi Hp) as (T & x & HT & _). rewrite <-Ep, HT. cbn [mbind option_bind].
  destruct (_ =? ULONG_MAX); [by apply t_safe_fst|]. apply t_safe_fst. rewrite Ep. by apply lock_inv.
Qed.

Lemma unlock_safe s c i p : ctl_inv s -> cpus (K_sched (T_kern s)) !! i = Some p -> CPU_ptcbTCBCur p = LW_TCB_GET_CUR c ->
  t_safe (fst <$> API_ThreadUnlock s c i).
Proof.
  intros Hi Hp Ep. unfold API_ThreadUnlock. destruct (negb (_ =? 0)); [by apply t_safe_fst|]. unfold _ThreadUnlock.
  destruct (negb (LW_SYS_STATUS_IS_RUNNING c)); [by apply t_safe_fst|].
  destruct (running_thread idle s i p Hi Hp) as (T & x & HT & _). rewrite <-Ep, HT. cbn [mbind option_bind].
  set (s1 := if TCB_ulThreadLockCounter T =? 0 then s else set_thread_lock (CPU_ptcbTCBCur p) (TCB_ulThreadLockCounter T - 1) s).
  assert (H1 : ctl_inv s1 /\ cpus (K_sched (T_kern s1)) !! i = Some p).
  { unfold s1. destruct (_ =? 0); [done|]. split; [apply lock_inv; [done|by exists i, p]|done]. }
  destruct H1 as [Hi1 Hp1]. destruct (running_thread idle s1 i p Hi1 Hp1) as (T1 & x1 & HT1 & _).
  unfold __COULD_SCHED. rewrite Hp1. cbn [mbind option_bind]. rewrite HT1. cbn [mbind option_bind].
  destruct (if _ || _ then false else _); [|by apply t_safe_fst].
  destruct (proj1 (schedule_safe s1 i Hi1 ltac:(by eexists))) as (s' & E & H). rewrite E. by apply t_safe_fst.
Qed.

(** *** Every step *)

Lemma t_step_safe s op : ctl_inv s -> t_legal idle s op -> t_safe (t_exec s op).
Proof.
  intros Hi Hl. destruct op as [op|c h|h|h|c h|t e|h|c t|h b|c n|t now save n b r|c h|c h q|c h|h p m|h n|c|c i|i|i]; cbn [t_exec t_legal] in *.
  - destruct Hl as [Hl Hn]. destruct (sys_step_safe idle (T_kern s) op (ci_sem _ _ Hi) Hl) as (k' & E & Hk). rewrite E. cbn [mbind option_bind].
    apply kern_safe; [done|done|]. by apply (sys_frame _ op).
  - apply handle_safe; [done|]. intros t Ht. destruct (thread_of_user idle s h t Hi Ht). apply change_safe; auto. by apply request_is; left.
  - apply handle_safe; [done|]. intros t Ht. pose proof (thread_of_any idle _ s h t Hi Ht) as Hx. apply deleting_safe; [done|done|].
    destruct Hx as [x Hx]. destruct (SafeResume_spec idle s t x Hi Hx) as (s' & E & H & _). rewrite E. by apply t_safe_fst.
  - apply handle_safe; [done|]. intros t Ht. pose proof (thread_of_any idle _ s h t Hi Ht) as Hx. apply deleting_safe; [done|done|].
    destruct Hx as [x Hx]. rewrite Hx. cbn [mbind option_bind]. destruct (Z.eqb_spec (TCB_ulSuspendNesting x) 0) as [|Hz]; [by apply t_safe_fst|].
    destruct (ForceResume_spec idle s t x Hi Hx Hz) as (s' & E & H & _). rewrite E. by apply t_safe_fst.
  - apply handle_safe; [done|]. intros t Ht. pose proof (thread_of_any idle _ s h t Hi Ht) as Hx. apply deleting_safe; [done|done|].
    destruct (Hl t Ht). apply change_safe; auto. by apply request_is; right; left.
  - unfold API_ThreadStop_resume. destruct Hl as [[p Hv] _]. assert (is_Some (T_ctl s !! t)) as [x Hx].
    { apply (ci_dom _ _ Hi). destruct (sview_some _ _ _ _ Hv) as (T & HT & _). by eexists. }
    rewrite Hx. cbn [mbind option_bind]. destruct (negb _); [|by apply t_safe_fst]. apply t_safe_fst.
    apply (upd_ctl_inv idle s t x); try done. intros st H. apply thread_ctl_noreq; [|done].
    destruct (ctl_thread idle s t x Hi Hx) as (T & p' & _ & Hv' & _ & Htc). rewrite Hv in Hv'. injection Hv' as _ Hz.
    destruct (TCB_ptcbWaitStatus x) eqn:Ew; [|done]. pose proof (tc_wait _ _ Htc) as Hw. rewrite Ew, <-Hz in Hw. by assert (has_option 0 LW_THREAD_STATUS_WSTAT = true) by (by apply Hw).
  - apply handle_safe; [done|]. intros t Ht. destruct (thread_of_any idle _ s h t Hi Ht) as [x Hx].
    destruct (Continue_spec idle s t x Hi Hx) as (s' & E & H & _). rewrite E. by apply t_safe_fst.
  - destruct Hl as ([x Hx] & Hl & Hid). unfold _ThreadDeleteWaitDeath. apply change_safe; try done. by apply request_is; right; right.
  - by apply wakeup_safe.
  - destruct Hl as [Hr Hn]. unfold API_TimeSleepEx. destruct (Z.eqb_spec (LW_CPU_GET_CUR_NESTING c) 0) as [Hz|Hz]; cbn [negb].
    + apply sleep_safe; auto.
    + apply kern_safe; [done|apply Hi|apply kframe_refl].
  - destruct Hl as (Hr & H1 & H2 & H3). unfold API_TimeSleepEx_resume. destruct (negb (r =? 0)); [destruct b|].
    + apply kern_safe; [done|apply Hi|apply kframe_refl].
    + apply sleep_safe; [done|done|]. by apply recalc_range.
    + apply kern_safe; [done|apply Hi|apply kframe_refl].
  - by apply start_safe.
  - by apply set_priority_safe.
  - by apply yield_safe.
  - apply handle_safe; [done|]. intros t Ht. by apply param_safe.
  - unfold API_ThreadSetSlice. destruct (n =? 0); [by apply t_safe_fst|]. apply handle_safe; [done|]. intros t Ht. by apply param_safe.
  - by apply lock_safe.
  - destruct Hl as (p & Hp & Ep). by apply (unlock_safe s c i p).
  - by apply schedule_safe.
  - unfold ipi_taken. apply schedule_safe; [by apply ipi_inv|done].
Qed.

Lemma t_reachable_inv s0 s : ctl_inv s0 -> t_reachable idle s0 s -> ctl_inv s.
Proof.
  intros H0 H. induction H as [|s op s' _ IH Hl E]; [done|].
  destruct (t_step_safe s op IH Hl) as (s1 & E1 & H1). rewrite E in E1. by injection E1 as ->.
Qed.
End Safe.
