(* ===== verification/ThreadLife.v ===== *)
(** * The theorems of thread control *)

From S2P Require Import Prelude Lists Bitmap Sched SchedSpec Object Wakeup Kernel Event EventSpec Boot TickSpec Semaphore Mutex SemSpec LifeSpec SemRefine System ThreadFrame Thread ThreadSpec ThreadCalls ThreadSleep ThreadPoint ThreadRun.

Section Life.
Context (idle : Z -> Z).

(** C6: thread control is safe together with the rest of the kernel.  From a consistent state, under any
    interleaving of suspensions, stops, resumptions, continuations, sleeps, wake-ups, starts,
    changes of priority, yields, scheduling locks, all services of the semaphores, ticks and
    the scheduling points and inter-processor interrupts of all CPUs, every reachable state is consistent,
    and every further legal step is defined. *)
Theorem thread_system_safe s0 s : ctl_inv idle s0 -> t_reachable idle s0 s ->
  ctl_inv idle s /\ forall op, t_legal idle s op -> is_Some (t_exec s op).
Proof.
  intros H0 Hr. pose proof (t_reachable_inv idle s0 s H0 Hr) as Hi. split; [done|].
  intros op Hl. destruct (t_step_safe idle s op Hi Hl) as (s' & -> & _). by eexists.
Qed.

(** ** Threads that are held *)

Lemma blocked_nowhere s t st : ctl_inv idle s -> stat s t = Some st -> st <> 0 ->
  (forall q, t ∉ ring (K_sched (T_kern s)) q) /\
  forall j d, cpus (K_sched (T_kern s)) !! j = Some d -> CAND_ptcbCand d <> Some t.
Proof.
  intros Hi Hst Hne. pose proof (ctl_sys idle s Hi) as Hsys. unfold stat in Hst.
  destruct (tcbs (K_sched (T_kern s)) !! t) as [T|] eqn:HT; [|done]. injection Hst as Hst.
  assert (Hnl : ~ linked (K_sched (T_kern s)) t).
  { intros Hl. apply (si_ready idle _ Hsys t T HT) in Hl. unfold __LW_THREAD_IS_READY in Hl. change LW_THREAD_STATUS_RDY with 0 in Hl. lia. }
  pose proof (si_wf _ _ Hsys) as Hwf.
  split; [by apply not_linked_ring|]. intros j d Hd Hc. by apply Hnl, (linked_cand _ j d).
Qed.

(** C10: a thread that is held does not run.  In every reachable state a thread has the status bit of a
    suspension exactly while its suspension count is not zero, the bit of a stop exactly
    while its stop count is not zero, and the bit of a status change exactly while it waits for one; any of
    these keeps it out of all ready rings and from being the candidate of any CPU.  A thread that
    waits for a status change has left its request with another thread, once, that runs on a CPU or has locked the
    scheduler; nobody's list of requests names a thread that does not wait for it. *)
Theorem held_threads_wait s0 s t c : ctl_inv idle s0 -> t_reachable idle s0 s -> T_ctl s !! t = Some c ->
  exists st, stat s t = Some st /\
    (has_option st LW_THREAD_STATUS_SUSPEND = true <-> TCB_ulSuspendNesting c <> 0) /\
    (has_option st LW_THREAD_STATUS_STOP = true <-> TCB_ulStopNesting c <> 0) /\
    (has_option st LW_THREAD_STATUS_WSTAT = true <-> TCB_ptcbWaitStatus c <> None) /\
    (TCB_ulSuspendNesting c <> 0 \/ TCB_ulStopNesting c <> 0 \/ TCB_ptcbWaitStatus c <> None ->
       st <> 0 /\ (forall q, t ∉ ring (K_sched (T_kern s)) q) /\
       forall j d, cpus (K_sched (T_kern s)) !! j = Some d -> CAND_ptcbCand d <> Some t) /\
    (forall v, TCB_ptcbWaitStatus c = Some v -> v <> t /\ (on_cpu s v \/ locked s v) /\
       exists cv, T_ctl s !! v = Some cv /\ t ∈ TCB_plineStatusReqHeader cv) /\
    NoDup (TCB_plineStatusReqHeader c) /\ forall u, u ∈ TCB_plineStatusReqHeader c -> waits_on s u t.
Proof.
  intros H0 Hr Hc. pose proof (t_reachable_inv idle s0 s H0 Hr) as Hi.
  destruct (ctl_thread idle s t c Hi Hc) as (T & p & _ & _ & Hst & [A1 A2 A3 _ _ _]). exists (TCB_usStatus T).
  split; [done|]. split; [done|]. split; [done|]. split; [done|]. split; [|split].
  - intros Hh. assert (Hne : TCB_usStatus T <> 0).
    { destruct Hh as [H|[H|H]]; [apply A1 in H|apply A2 in H|apply A3 in H]; by eapply bit_nonzero. }
    split; [done|]. by apply (blocked_nowhere s t (TCB_usStatus T)).
  - intros v Hv. assert (Hw : waits_on s t v) by (unfold waits_on; rewrite Hc; simpl; by rewrite Hv).
    destruct (ci_target _ _ Hi t v Hw) as (Hne & [cv Hcv] & _). split; [done|]. split; [by apply (ci_runs _ _ Hi t v)|].
    exists cv. split; [done|]. by apply (ci_list _ _ Hi v cv Hcv).
  - destruct (ci_list _ _ Hi t c Hc) as [Hnd Hl]. split; [done|]. intros u. apply Hl.
Qed.

(** ** Requests *)

Lemma bits_all_keep rs : forall st b, has_option st b = true -> has_option (bits_all rs st) b = true.
Proof. induction rs as [|r rs IH]; intros st b H; [done|]. cbn [bits_all foldl]. apply IH. by rewrite ctl_bit_or, H. Qed.

Lemma bits_all_in rs : forall st r, r ∈ rs -> has_option (bits_all rs st) (req_bit r) = true.
Proof.
  induction rs as [|x rs IH]; intros st r Hr; [by apply not_elem_of_nil in Hr|]. cbn [bits_all foldl].
  apply elem_of_cons in Hr as [->|Hr]; [|by apply IH]. apply bits_all_keep. rewrite ctl_bit_or.
  assert (has_option (req_bit x) (req_bit x) = true) as ->; [|apply orb_true_r]. unfold req_bit. by repeat case_match.
Qed.

Lemma could_sched_on s i p T : cpus s !! i = Some p -> tcbs s !! CPU_ptcbTCBCur p = Some T -> CPU_ulInterNesting p = 0 ->
  CPU_iKernelCounter p = 0 -> TCB_ulThreadLockCounter T <= 1 -> __COULD_SCHED s i 1 = Some true.
Proof.
  intros Hp HT H1 H2 H3. unfold __COULD_SCHED. rewrite Hp. cbn [mbind option_bind]. rewrite HT. cbn [mbind option_bind].
  rewrite H1, H2. cbn [negb orb Z.eqb]. rewrite (proj2 (Z.ltb_ge _ _)) by done. done.
Qed.

Lemma point_of s i op : ctl_inv idle s -> is_Some (cpus (K_sched (T_kern s)) !! i) -> op = TSchedule i \/ op = TIpi i ->
  exists l, ctl_inv idle (set_ipi l s) /\ t_exec s op = _ScheduleInt (set_ipi l s) i.
Proof.
  intros Hi [p Hp] [->| ->]; cbn [t_exec].
  - exists (T_ipi s). assert (set_ipi (T_ipi s) s = s) as -> by (by destruct s). split; [done|]. by eapply Schedule_eq.
  - eexists. split; [by apply ipi_inv|done].
Qed.

(** C8: requests are served.  Let threads wait with a request for the thread that runs on CPU [i], where no interrupt
    is under way and the scheduler is not locked.  Its next scheduling point, by an inter-processor interrupt
    or otherwise, carries all of them out, in order: the thread is suspended and stopped as often as was asked for, has
    the bit of every request, and another thread runs on the CPU; each of the waiting threads has lost
    the bit of the status change, and is ready unless something else holds it; no other thread's status
    or control fields change. *)
Theorem requests_served s0 s op u i p T : ctl_inv idle s0 -> t_reachable idle s0 s ->
  cpus (K_sched (T_kern s)) !! i = Some p -> tcbs (K_sched (T_kern s)) !! CPU_ptcbTCBCur p = Some T ->
  waits_on s u (CPU_ptcbTCBCur p) -> CPU_ulInterNesting p = 0 -> CPU_iKernelCounter p = 0 -> TCB_ulThreadLockCounter T <= 1 ->
  op = TSchedule i \/ op = TIpi i ->
  exists s' c st' p', let l := TCB_plineStatusReqHeader c in
    t_exec s op = Some s' /\ T_ctl s !! CPU_ptcbTCBCur p = Some c /\ u ∈ l /\
    T_ctl s' !! CPU_ptcbTCBCur p = Some (set_TCB_plineStatusReqHeader [] (hold_all (reqs s l) c)) /\
    stat s' (CPU_ptcbTCBCur p) = Some st' /\ (forall r, r ∈ reqs s l -> has_option st' (req_bit r) = true) /\
    cpus (K_sched (T_kern s')) !! i = Some p' /\ CPU_ptcbTCBCur p' <> CPU_ptcbTCBCur p /\
    (forall v, v ∈ l -> TCB_ptcbWaitStatus <$> T_ctl s' !! v = Some None /\
       stat s' v = (fun st => Z.ldiff st LW_THREAD_STATUS_WSTAT) <$> stat s v) /\
    forall v, v <> CPU_ptcbTCBCur p -> v ∉ l -> T_ctl s' !! v = T_ctl s !! v /\ stat s' v = stat s v.
Proof.
  intros H0 Hr Hp HT Hw Hn Hk Hlk Hop. pose proof (t_reachable_inv idle s0 s H0 Hr) as Hi. set (t := CPU_ptcbTCBCur p) in *.
  destruct (point_of s i op Hi ltac:(by eexists) Hop) as (ip & Hi2 & Eop). set (s2 := set_ipi ip s) in *.
  destruct (running_thread idle s i p Hi Hp) as (T' & c & HT' & Hc). fold t in HT', Hc. rewrite HT in HT'. injection HT' as <-.
  destruct (schedule_spec idle s2 i p T c Hi2 Hp HT Hc) as (s1 & s' & _ & E & Hi1 & Hi' & Hd & Hs).
  assert (Een : change_en p T = true) by (unfold change_en; rewrite Hn; apply Z.leb_le; done).
  rewrite Een in Hs. destruct Hs as (st & Hst & [D1 D2 D3]). fold t in D1, D2.
  assert (Hin : u ∈ TCB_plineStatusReqHeader c) by (by apply (ci_list _ _ Hi t c Hc)).
  set (l := TCB_plineStatusReqHeader c) in *. change (reqs s2 l) with (reqs s l) in D1, D2.
  assert (Hst' : stat s' t = Some (bits_all (reqs s l) st)) by (by rewrite (dp_stat _ _ _ Hd), D2, decide_True).
  assert (Hru : exists r, r ∈ reqs s l).
  { destruct (T_ctl s !! u) as [cu|] eqn:Hcu; [|unfold waits_on in Hw; by rewrite Hcu in Hw].
    exists (TCB_uiStatusChangeReq cu). unfold reqs. apply list_elem_of_fmap. exists u. by rewrite Hcu. }
  pose proof (sl_cpu _ _ D3 i) as Hp1. change (cpus (K_sched (T_kern s2)) !! i) with (cpus (K_sched (T_kern s)) !! i) in Hp1. rewrite Hp in Hp1.
  destruct (cpus (K_sched (T_kern s1)) !! i) as [p1|] eqn:Ep1; [|done]. injection Hp1 as Hc1 Hn1 Hk1.
  destruct (dp_switch _ _ _ Hd p1 Ep1) as (p' & Hsw).
  pose proof (sl_lock _ _ D3 t) as Hl1. change (tcbs (K_sched (T_kern s2)) !! t) with (tcbs (K_sched (T_kern s)) !! t) in Hl1. rewrite HT in Hl1.
  destruct (tcbs (K_sched (T_kern s1)) !! t) as [T1|] eqn:HT1; [|done]. injection Hl1 as Hl1.
  assert (Hcould : __COULD_SCHED (K_sched (T_kern s1)) i 1 = Some true).
  { apply (could_sched_on _ i p1 T1); [done|by rewrite Hc1|congruence|congruence|by rewrite Hl1]. }
  destruct (sw_case _ _ _ _ _ Hsw) as [(Hf & _)|[_ Hcand]]; [congruence|].
  exists s', c, (bits_all (reqs s l) st), p'. split; [by rewrite Eop|]. split; [done|]. split; [done|].
  split; [by rewrite (dp_ctl _ _ _ Hd), D1, decide_True|]. split; [done|]. split; [intros r; apply bits_all_in|].
  split; [apply (sw_new _ _ _ _ _ Hsw)|]. split; [|split].
  - intros Ht. destruct Hru as [r Hru]. assert (Hne : bits_all (reqs s l) st <> 0) by (eapply bit_nonzero; by apply bits_all_in).
    destruct (blocked_nowhere s' t _ Hi' Hst' Hne) as [_ Hno]. apply (Hno i p' (sw_new _ _ _ _ _ Hsw)). by rewrite Hcand, Ht.
  - intros v Hv. assert (Hvt : v <> t).
    { intros ->. assert (Hwt : waits_on s t t) by (by apply (ci_list _ _ Hi t c Hc)). by destruct (ci_target _ _ Hi t t Hwt). }
    rewrite (dp_ctl _ _ _ Hd), D1, (dp_stat _ _ _ Hd), D2, !(decide_False (P := v = t)), !(decide_True (P := v ∈ l)) by done. split; [|done].
    assert (Hwv : waits_on s v t) by (by apply (ci_list _ _ Hi t c Hc)). unfold waits_on in Hwv. change (T_ctl s2) with (T_ctl s). by destruct (T_ctl s !! v).
  - intros v Hvt Hv. by rewrite (dp_ctl _ _ _ Hd), D1, (dp_stat _ _ _ Hd), D2, !decide_False.
Qed.

(** C27: suspending and stopping on every branch.  A handle of another class, beyond the table, of an idle thread (for
    [API_ThreadSuspend]) or without a thread, and a thread that is being deleted (for
    [API_ThreadStop]), are refused without effect; in an interrupt, a thread that is ready and is not the
    interrupted one is refused.  A thread that does not run on a CPU, and the caller itself, is
    held at once, once more than before; a thread that runs elsewhere stays as it is, its CPU is interrupted, and the caller,
    which loses the CPU, waits with its request. *)
Theorem thread_requests s C h : ctl_inv idle s ->
  t_legal idle s (TSuspend C h) -> t_legal idle s (TStop C h) ->
  (forall err, thread_of _Thread_Index_Invalid s h = inl err ->
     API_ThreadSuspend s C h = Some (s, err) /\ (err = ERROR_KERNEL_HANDLE_NULL \/ err = ERROR_THREAD_NULL)) /\
  (forall t, thread_of _Thread_Index_Invalid s h = inr t -> exists s' e, API_ThreadSuspend s C h = Some (s', e) /\ ctl_inv idle s' /\
     still s s' /\ change_step s C t LW_TCB_REQ_SUSPEND s' e) /\
  (forall err, thread_of index_beyond s h = inl err ->
     API_ThreadStop s C h = Some (s, err) /\ (err = ERROR_KERNEL_HANDLE_NULL \/ err = ERROR_THREAD_NULL)) /\
  forall t w, thread_of index_beyond s h = inr t -> K_wait (T_kern s) !! t = Some w ->
    if TCB_iDeleteProcStatus w =? 0
    then exists s' e, API_ThreadStop s C h = Some (s', e) /\ ctl_inv idle s' /\ still s s' /\ change_step s C t LW_TCB_REQ_STOP s' e
    else API_ThreadStop s C h = Some (s, ERROR_THREAD_NULL).
Proof.
  intros Hi Hl1 Hl2. assert (Herr : forall bad err, thread_of bad s h = inl err -> err = ERROR_KERNEL_HANDLE_NULL \/ err = ERROR_THREAD_NULL).
  { intros bad err. unfold thread_of. repeat case_match; intros [= <-]; auto. }
  split; [|split; [|split]].
  - intros err H. split; [|by eapply Herr]. unfold API_ThreadSuspend. by rewrite H.
  - intros t H. destruct (thread_of_user idle s h t Hi H) as [[x Hx] Hid]. unfold API_ThreadSuspend. rewrite H.
    apply (status_change_spec idle s C t _ x Hi (Hl1 t H) Hid Hx). by apply request_is; left.
  - intros err H. split; [|by eapply Herr]. unfold API_ThreadStop. by rewrite H.
  - intros t w H Hw. destruct (thread_of_any idle _ s h t Hi H) as [x Hx]. destruct (Hl2 t H) as [Hc Hid].
    unfold API_ThreadStop. rewrite H. unfold deleting. rewrite Hw. cbn [mbind option_bind].
    destruct (TCB_iDeleteProcStatus w =? 0); cbn [negb]; [|done].
    apply (status_change_spec idle s C t _ x Hi Hc Hid Hx). by apply request_is; right; left.
Qed.

(** ** Suspension and resumption *)

Lemma change_wait s c t r s' e : _ThreadStatusChange s c t r = Some (s', e) -> K_wait (T_kern s') = K_wait (T_kern s).
Proof.
  unfold _ThreadStatusChange, _ThreadWaitStatus, unready_if, unready, status_switch, status_or, thread_is_ready. intros H. by read_through.
Qed.
Lemma resume_wait s t s' : _ThreadSafeResume s t = Some s' -> K_wait (T_kern s') = K_wait (T_kern s).
Proof. unfold _ThreadSafeResume, suspend_end, status_andn, ready_if. intros H. by read_through. Qed.

Definition sus_status (n st : Z) : Z := if n =? 0 then Z.ldiff st LW_THREAD_STATUS_SUSPEND else Z.lor st LW_THREAD_STATUS_SUSPEND.

(** [t] is suspended [n] times, everything else is as in [s]. *)
Record suspended (s s' : THREADS) (t n : Z) : Prop := {
  su_inv : ctl_inv idle s';
  su_ctl : forall u, T_ctl s' !! u = (fun c => if decide (u = t) then set_TCB_ulSuspendNesting n c else c) <$> T_ctl s !! u;
  su_stat : forall u, stat s' u = (fun st => if decide (u = t) then sus_status n st else st) <$> stat s u;
  su_wait : K_wait (T_kern s') = K_wait (T_kern s);
  su_still : still s s'
}.

Lemma has_or st b : b <> 0 -> has_option (Z.lor st b) b = true.
Proof.
  intros Hb. rewrite ctl_bit_or. assert (has_option b b = true) as ->; [|apply orb_true_r].
  unfold has_option. rewrite Z.land_diag. by apply negb_true_iff, Z.eqb_neq.
Qed.

Lemma lor_twice st b : Z.lor (Z.lor st b) b = Z.lor st b.
Proof. by rewrite <-Z.lor_assoc, Z.lor_diag. Qed.
Lemma lor_ldiff st b : Z.lor (Z.ldiff st b) b = Z.lor st b.
Proof. apply Z.bits_inj'. intros i Hi. rewrite !Z.lor_spec, Z.ldiff_spec. by destruct (Z.testbit st i), (Z.testbit b i). Qed.
Lemma ldiff_lor st b : Z.ldiff (Z.lor st b) b = Z.ldiff st b.
Proof. apply Z.bits_inj'. intros i Hi. rewrite !Z.ldiff_spec, Z.lor_spec. by destruct (Z.testbit st i), (Z.testbit b i). Qed.

Lemma sus_more n st : 0 <= n -> Z.lor (sus_status n st) LW_THREAD_STATUS_SUSPEND = sus_status (n + 1) st.
Proof. intros Hn. unfold sus_status. rewrite (proj2 (Z.eqb_neq (n + 1) 0)) by lia. destruct (n =? 0); [apply lor_ldiff|apply lor_twice]. Qed.
Lemma sus_less n st : 0 <= n -> (if n + 1 =? 1 then Z.ldiff (sus_status (n + 1) st) LW_THREAD_STATUS_SUSPEND else sus_status (n + 1) st) = sus_status n st.
Proof.
  intros Hn. unfold sus_status. rewrite (proj2 (Z.eqb_neq (n + 1) 0)) by lia.
  destruct (Z.eqb_spec n 0) as [->|]; [apply ldiff_lor|]. by rewrite (proj2 (Z.eqb_neq (n + 1) 1)) by lia.
Qed.

Section Nested.
Context (s : THREADS) (C : CALL) (h t : Z) (c cc : CTL) (w : WAIT).
Context (Hi : ctl_inv idle s) (Ht : thread_of _Thread_Index_Invalid s h = inr t) (Hc : T_ctl s !! t = Some c)
  (Hcur : runs idle (T_kern s) (LW_TCB_GET_CUR C)) (Hcc : T_ctl s !! LW_TCB_GET_CUR C = Some cc) (Hreq : TCB_uiStatusChangeReq cc = 0)
  (Hne : t <> LW_TCB_GET_CUR C) (Hw : K_wait (T_kern s) !! t = Some w) (Hdel : TCB_iDeleteProcStatus w = 0).

Let n0 := TCB_ulSuspendNesting c.

Lemma suspended_start : suspended s s t n0.
Proof.
  destruct (ctl_thread idle s t c Hi Hc) as (T & p & _ & _ & Hst & Htc). split; [done| | |done|apply still_refl].
  - intros u. case_decide as E; [subst u; rewrite Hc; simpl; by destruct c|]. by destruct (T_ctl s !! u).
  - intros u. case_decide as E; [subst u; rewrite Hst; simpl; f_equal|by destruct (stat s u)].
    unfold sus_status. pose proof (tc_suspend _ _ Htc) as Hb. fold n0 in Hb. destruct (Z.eqb_spec n0 0) as [Hz|Hz].
    + symmetry. apply ldiff_same. destruct (has_option (TCB_usStatus T) LW_THREAD_STATUS_SUSPEND); [by destruct (proj1 Hb eq_refl)|done].
    + symmetry. apply Z.bits_inj'. intros i Hi0. rewrite Z.lor_spec. apply Hb in Hz.
      assert (E : Z.land (TCB_usStatus T) 0x80 <> 0) by (by apply has_option_spec).
      destruct (Z.testbit LW_THREAD_STATUS_SUSPEND i) eqn:Eb; [|by rewrite orb_false_r]. rewrite orb_true_r.
      change LW_THREAD_STATUS_SUSPEND with (2 ^ 7) in Eb. rewrite Z.pow2_bits_eqb in Eb by lia. apply Z.eqb_eq in Eb as <-.
      destruct (Z.testbit (TCB_usStatus T) 7) eqn:E7; [done|]. destruct E. apply Z.bits_inj'. intros j Hj. rewrite Z.land_spec, Z.bits_0.
      change 0x80 with (2 ^ 7). rewrite Z.pow2_bits_eqb by lia. destruct (Z.eqb_spec 7 j) as [<-|]; [by rewrite E7|apply andb_false_r].
Qed.

Lemma thread_of_still s1 : still s s1 -> thread_of _Thread_Index_Invalid s1 h = inr t.
Proof.
  intros Hs. rewrite <-Ht. unfold thread_of, _Thread_Index_Invalid. by rewrite (sl_table _ _ Hs), (sl_max _ _ Hs), (sl_ncpus _ _ Hs).
Qed.

Lemma cur_waits_not : TCB_ptcbWaitStatus cc = None.
Proof.
  destruct Hcur as [[p Hv] _]. destruct (ctl_thread idle s _ cc Hi Hcc) as (T & q & _ & Hv' & _ & Htc). rewrite Hv in Hv'. injection Hv' as _ Hz.
  destruct (TCB_ptcbWaitStatus cc) eqn:E; [|done]. pose proof (tc_wait _ _ Htc) as H. rewrite E, <-Hz in H.
  by assert (has_option 0 LW_THREAD_STATUS_WSTAT = true) by (by apply H).
Qed.

Lemma suspended_more s1 n : suspended s s1 t n -> 0 <= n -> LW_CPU_GET_CUR_NESTING C = 0 ->
  stat s1 t <> Some 0 \/ __LW_THREAD_IS_RUNNING (T_kern s1) t = Some false ->
  n + TCB_ulStopNesting c + Z.of_nat (length (TCB_plineStatusReqHeader c)) < ULONG_MAX ->
  exists s2, API_ThreadSuspend s1 C h = Some (s2, ERROR_NONE) /\ suspended s s2 t (n + 1).
Proof.
  intros [S1 S2 S3 S4 S5] Hn Hnest Hrun Hroom. unfold API_ThreadSuspend. rewrite (thread_of_still s1 S5).
  assert (Hc1 : T_ctl s1 !! t = Some (set_TCB_ulSuspendNesting n c)) by (rewrite S2, Hc; simpl; by rewrite decide_True).
  assert (Hcc1 : T_ctl s1 !! LW_TCB_GET_CUR C = Some cc) by (rewrite S2, Hcc; simpl; by rewrite decide_False).
  destruct (thread_of_user idle s h t Hi Ht) as [_ Hid].
  assert (Hst1 : stat s1 (LW_TCB_GET_CUR C) = Some 0).
  { destruct Hcur as [[p Hv] _]. rewrite S3, (stat_view _ _ _ _ Hv). simpl. by rewrite decide_False. }
  assert (Hl : change_legal idle s1 C t).
  { split.
    - rewrite Hcc1. simpl. by rewrite cur_waits_not.
    - intros _. split; [|by apply (still_idle idle s), Hcur].
      unfold stat in Hst1. unfold sview. destruct (tcbs (K_sched (T_kern s1)) !! _); [|done]. injection Hst1 as <-. by eexists.
    - intros x. rewrite Hc1. intros [= <-]. exact Hroom. }
  destruct (status_change_spec idle s1 C t LW_TCB_REQ_SUSPEND _ S1 Hl (still_idle idle s s1 t S5 Hid) Hc1 (request_is _ (or_introl eq_refl)))
    as (s2 & e & E & Hi2 & Hs2 & Hstep). pose proof (change_wait _ _ _ _ _ _ E) as Hwait.
  inversion Hstep as [s2' _ Hh _ E1 E2|_ _ Hx E1 E2|s2' _ Hz _ Hx _ E1 E2]; subst; [|congruence|by destruct Hrun; congruence].
  exists s2. split; [done|]. destruct Hh as [Q1 Q2]. split; [done| | |congruence|by eapply still_trans].
  - intros u. rewrite Q1, S2. destruct (decide (u = t)) as [->|Hut].
    + rewrite Hc. simpl. rewrite (decide_False (P := t = LW_TCB_GET_CUR C)) by done.
      unfold req_count, set_TCB_ulSuspendNesting. simpl.
      rewrite wrap64_small; [done|]. destruct (ctl_thread idle s t c Hi Hc) as (T & p & _ & _ & _ & Htc). pose proof (tc_nest _ _ Htc). lia.
    + destruct (decide (u = LW_TCB_GET_CUR C)) as [->|].
      * rewrite Hcc. simpl. f_equal. destruct cc. simpl in *. by subst.
      * by destruct (T_ctl s !! u).
  - intros u. rewrite Q2, S3. case_decide; [|done]. destruct (stat s u) as [st|]; [|done]. simpl. f_equal. by apply sus_more.
Qed.

Lemma suspended_less s1 n : suspended s s1 t (n + 1) -> 0 <= n ->
  exists s2, API_ThreadResume s1 h = Some (s2, ERROR_NONE) /\ suspended s s2 t n.
Proof.
  intros [S1 S2 S3 S4 S5] Hn. unfold API_ThreadResume. rewrite (thread_of_still s1 S5). unfold deleting. rewrite S4, Hw. cbn [mbind option_bind].
  rewrite Hdel. cbn [Z.eqb negb].
  assert (Hc1 : T_ctl s1 !! t = Some (set_TCB_ulSuspendNesting (n + 1) c)) by (rewrite S2, Hc; simpl; by rewrite decide_True).
  destruct (SafeResume_spec idle s1 t _ S1 Hc1) as (s2 & E & Hi2 & Hs2 & Hl). pose proof (resume_wait _ _ _ E) as Hwait.
  rewrite E. cbn [mbind option_bind]. exists s2. split; [done|]. cbn [set_TCB_ulSuspendNesting TCB_ulSuspendNesting] in Hl.
  rewrite (proj2 (Z.eqb_neq (n + 1) 0)) in Hl by lia. destruct Hl as (Q1 & Q2 & _). split; [done| | |congruence|by eapply still_trans].
  - intros u. rewrite Q1, S2. case_decide; [|done]. destruct (T_ctl s !! u); [|done]. simpl. unfold less_suspended, set_TCB_ulSuspendNesting. simpl.
    do 2 f_equal. lia.
  - intros u. rewrite Q2, S3. case_decide; [|done]. destruct (stat s u) as [st|]; [|done]. simpl. f_equal. unfold resumed_status. simpl. by apply sus_less.
Qed.

Lemma suspend_all : LW_CPU_GET_CUR_NESTING C = 0 -> stat s t <> Some 0 \/ __LW_THREAD_IS_RUNNING (T_kern s) t = Some false ->
  forall k : nat, n0 + Z.of_nat k + TCB_ulStopNesting c + Z.of_nat (length (TCB_plineStatusReqHeader c)) <= ULONG_MAX ->
  exists s1, Nat.iter k (fun o => o ≫= fun s => t_exec s (TSuspend C h)) (Some s) = Some s1 /\ suspended s s1 t (n0 + Z.of_nat k) /\ (k = O -> s1 = s).
Proof.
  intros Hnest Hrun. pose proof suspended_start as H0. destruct (ctl_thread idle s t c Hi Hc) as (T & p & HT & _ & Hst & Htc).
  assert (Hn0 : 0 <= n0) by apply (tc_nest _ _ Htc).
  induction k as [|k IH]; intros Hroom; [exists s; rewrite Z.add_0_r; by splits|].
  destruct IH as (s1 & E & H1 & H2); [lia|]. rewrite Nat.iter_succ, E. cbn [mbind option_bind t_exec].
  destruct (suspended_more s1 (n0 + Z.of_nat k) H1 ltac:(lia) Hnest) as (s2 & E2 & H3); [|lia|].
  - destruct k as [|k]; [by rewrite H2|]. left. rewrite (su_stat _ _ _ _ H1), Hst. simpl. rewrite decide_True by done. intros [= Hz].
    unfold sus_status in Hz. rewrite (proj2 (Z.eqb_neq _ 0)) in Hz by lia. by apply lor_nonzero_r in Hz.
  - exists s2. rewrite E2. split; [done|]. split; [|done]. by replace (n0 + Z.of_nat (S k)) with (n0 + Z.of_nat k + 1) by lia.
Qed.

Lemma resume_all k : forall s1, suspended s s1 t (n0 + Z.of_nat k) -> forall m, (m <= k)%nat ->
  exists s2, Nat.iter m (fun o => o ≫= fun s => t_exec s (TResume h)) (Some s1) = Some s2 /\ suspended s s2 t (n0 + Z.of_nat k - Z.of_nat m).
Proof.
  intros s1 H1 m. destruct (ctl_thread idle s t c Hi Hc) as (T & p & HT & _ & Hst & Htc). assert (Hn0 : 0 <= n0) by apply (tc_nest _ _ Htc).
  induction m as [|m IH]; intros Hm; [exists s1; by rewrite Z.sub_0_r|]. destruct IH as (s2 & E & H2); [lia|].
  replace (n0 + Z.of_nat k - Z.of_nat m) with (n0 + Z.of_nat k - Z.of_nat (S m) + 1) in H2 by lia.
  destruct (suspended_less s2 _ H2 ltac:(lia)) as (s3 & E3 & H3). exists s3. rewrite Nat.iter_succ, E. cbn [mbind option_bind t_exec]. by rewrite E3.
Qed.
End Nested.

(** C24: suspensions nest.  A running thread suspends another one, which does not run on a CPU at that moment, [k] times, and
    the thread is resumed [m <= k] times: every call succeeds, the thread's suspension count is higher by [k - m], it has
    the bit of a suspension, and so is not ready, while the count is not zero; after [k]
    resumptions the control fields and the status of all threads are what they were. *)
Theorem suspend_resume_roundtrip s C h t c cc w (k m : nat) : ctl_inv idle s ->
  thread_of _Thread_Index_Invalid s h = inr t -> T_ctl s !! t = Some c -> K_wait (T_kern s) !! t = Some w -> TCB_iDeleteProcStatus w = 0 ->
  runs idle (T_kern s) (LW_TCB_GET_CUR C) -> LW_CPU_GET_CUR_NESTING C = 0 -> t <> LW_TCB_GET_CUR C ->
  T_ctl s !! LW_TCB_GET_CUR C = Some cc -> TCB_uiStatusChangeReq cc = 0 ->
  stat s t <> Some 0 \/ __LW_THREAD_IS_RUNNING (T_kern s) t = Some false ->
  TCB_ulSuspendNesting c + Z.of_nat k + TCB_ulStopNesting c + Z.of_nat (length (TCB_plineStatusReqHeader c)) <= ULONG_MAX -> (m <= k)%nat ->
  exists s1 s2, Nat.iter k (fun o => o ≫= fun s => t_exec s (TSuspend C h)) (Some s) = Some s1 /\
    Nat.iter m (fun o => o ≫= fun s => t_exec s (TResume h)) (Some s1) = Some s2 /\ ctl_inv idle s1 /\ ctl_inv idle s2 /\
    T_ctl s2 !! t = Some (set_TCB_ulSuspendNesting (TCB_ulSuspendNesting c + Z.of_nat k - Z.of_nat m) c) /\
    (exists st2, stat s2 t = Some st2 /\
       (has_option st2 LW_THREAD_STATUS_SUSPEND = true <-> TCB_ulSuspendNesting c + Z.of_nat k - Z.of_nat m <> 0)) /\
    (m = k -> (forall u, T_ctl s2 !! u = T_ctl s !! u) /\ forall u, stat s2 u = stat s u).
Proof.
  intros Hi Ht Hc Hw Hdel Hcur Hnest Hne Hcc Hreq Hrun Hroom Hm.
  destruct (suspend_all s C h t c cc Hi Ht Hc Hcur Hcc Hreq Hne Hnest Hrun k Hroom) as (s1 & E1 & H1 & _).
  destruct (resume_all s h t c w Hi Ht Hc Hw Hdel k s1 H1 m Hm) as (s2 & E2 & H2).
  exists s1, s2. split; [done|]. split; [done|]. split; [apply H1|]. split; [apply H2|].
  assert (Hc2 : T_ctl s2 !! t = Some (set_TCB_ulSuspendNesting (TCB_ulSuspendNesting c + Z.of_nat k - Z.of_nat m) c)).
  { rewrite (su_ctl _ _ _ _ H2), Hc. simpl. by rewrite decide_True. }
  split; [done|]. split.
  - destruct (ctl_thread idle s2 t _ (su_inv _ _ _ _ H2) Hc2) as (T & p & _ & _ & Hst & Htc). exists (TCB_usStatus T). split; [done|]. apply (tc_suspend _ _ Htc).
  - intros ->. pose proof (suspended_start s t c Hi Hc) as [_ P1 P2 _ _]. destruct H2 as [_ Q1 Q2 _ _]. split; intros u.
    + rewrite Q1. symmetry. rewrite P1 at 1. by replace (TCB_ulSuspendNesting c + Z.of_nat k - Z.of_nat k) with (TCB_ulSuspendNesting c) by lia.
    + rewrite Q2. symmetry. rewrite P2 at 1. by replace (TCB_ulSuspendNesting c + Z.of_nat k - Z.of_nat k) with (TCB_ulSuspendNesting c) by lia.
Qed.
End Life.
