(* ===== verification/ThreadNap.v ===== *)
(** * How long a thread sleeps

    No step of the system but a tick and a wake-up of the thread itself touches its sleep, whoever
    enters and leaves the delay line meanwhile; a tick shortens it by one. *)

From S2P Require Import Prelude Lists Bitmap Sched SchedSpec Object Wakeup Kernel Event EventSpec Boot TickSpec Semaphore Mutex SemSpec LifeSpec SemRefine MutexSpec System ThreadFrame Thread ThreadSpec ThreadCalls ThreadSleep ThreadPoint ThreadRun.

(** A thread of the delay line expires when its time is up, and else stays. *)
Lemma q_time base q m c x d : deltas base q m -> NoDup q.*1 -> (x, d) ∈ q ->
  (x ∈ q_expired c q <-> d <= c) /\ (c < d -> (x, d) ∈ q_rest c q).
Proof.
  revert base. induction q as [|[y e] q IH]; intros base Hd Hnd Hin; [by apply not_elem_of_nil in Hin|].
  destruct Hd as (Hb & _ & Hd). cbn [fmap list_fmap fst] in Hnd. apply NoDup_cons in Hnd as [Hy Hnd]. cbn [q_expired q_rest].
  apply elem_of_cons in Hin as [[= -> ->]|Hin].
  - destruct (Z.leb_spec e c) as [Hle|Hgt].
    + split; [split; [done|by left]|lia].
    + split; [|by left]. rewrite elem_of_nil. lia.
  - destruct (IH e Hd Hnd Hin) as [H1 H2]. pose proof (deltas_lower e q m x d Hd Hin) as Hlow.
    assert (Hxy : x <> y) by (intros ->; apply Hy, list_elem_of_fmap; by exists (y, d)).
    destruct (Z.leb_spec e c) as [Hle|Hgt].
    + split; [|done]. rewrite elem_of_cons, H1. tauto.
    + split; [rewrite elem_of_nil; lia|]. intros _. by right.
Qed.

(** ** The calls that leave the time of the threads alone *)

Definition same_time (k k' : KERNEL) : Prop :=
  K_wait k' = K_wait k /\ K_wuDelay k' = K_wuDelay k /\ K_wun k' = K_wun k.

Lemma same_time_refl k : same_time k k.
Proof. done. Qed.
Lemma same_time_sched k a s : same_time k a -> same_time k (set_sched s a).
Proof. done. Qed.
Lemma same_time_status k a t st : same_time k a -> same_time k (set_status t st a).
Proof. done. Qed.

Create HintDb timeless discriminated.
#[export] Hint Resolve same_time_refl same_time_sched same_time_status : timeless.
#[export] Hint Extern 0 (_ = Some _) => eassumption : timeless.
#[export] Hint Extern 3 (same_time _ (if ?b then _ else _)) => destruct b : timeless.
Ltac timeless := intros; read_through; cbn [T_kern set_kern upd_ctl set_ipi] in *; eauto 10 with timeless.

Lemma time_ready_if k a t x b : ready_if a t x = Some b -> same_time k a -> same_time k b.
Proof. unfold ready_if. timeless. Qed.
Lemma time_unready k a t b : unready a t = Some b -> same_time k a -> same_time k b.
Proof. unfold unready. timeless. Qed.
Lemma time_or k a t x b : status_or t x a = Some b -> same_time k a -> same_time k b.
Proof. unfold status_or. timeless. Qed.
Lemma time_andn k a t x b : status_andn t x a = Some b -> same_time k a -> same_time k b.
Proof. unfold status_andn. timeless. Qed.
Lemma time_prio k a t x b : SchedSetPrio a t x = Some b -> same_time k a -> same_time k b.
Proof. unfold SchedSetPrio. timeless. Qed.
#[export] Hint Resolve time_ready_if time_unready time_or time_andn time_prio : timeless.
Lemma time_unready_if k a t b : unready_if a t = Some b -> same_time k a -> same_time k b.
Proof. unfold unready_if. timeless. Qed.
#[export] Hint Resolve time_unready_if : timeless.

Abbreviation timed s s' := (same_time (T_kern s) (T_kern s')).

Lemma time_switch k s t r s' : status_switch s t r = Some s' -> same_time k (T_kern s) -> same_time k (T_kern s').
Proof. unfold status_switch. timeless. Qed.
#[export] Hint Resolve time_switch : timeless.
Lemma time_wstat k a t b : wstat_end a t = Some b -> same_time k a -> same_time k b.
Proof. unfold wstat_end. timeless. Qed.
Lemma time_wait_status k s t u r s' : _ThreadWaitStatus s t u r = Some s' -> same_time k (T_kern s) -> same_time k (T_kern s').
Proof. unfold _ThreadWaitStatus. timeless. Qed.
#[export] Hint Resolve time_wstat time_wait_status : timeless.
Lemma time_change_one k s t u s' : change_one s t u = Some s' -> same_time k (T_kern s) -> same_time k (T_kern s').
Proof. unfold change_one. timeless. Qed.
#[export] Hint Resolve time_change_one : timeless.
Lemma time_change_loop k n : forall s t s', change_loop n s t = Some s' -> same_time k (T_kern s) -> same_time k (T_kern s').
Proof. induction n as [|n IH]; cbn [change_loop]; timeless. Qed.
#[export] Hint Resolve time_change_loop : timeless.
Lemma time_change_cur k s i s' : _ThreadStatusChangeCur s i = Some s' -> same_time k (T_kern s) -> same_time k (T_kern s').
Proof.
  unfold _ThreadStatusChangeCur. intros E H. destruct (cpus _ !! i) as [p|]; [|done]. cbn [mbind option_bind] in E.
  destruct (T_ctl s !! _) as [c|]; [|done]. cbn [mbind option_bind] in E.
  destruct (TCB_plineStatusReqHeader c) as [|u l]; [by injection E as <-|].
  destruct (unready_if _ _) as [k1|] eqn:E1; [|done]. cbn [mbind option_bind] in E.
  eapply time_change_loop; [exact E|]. cbn [set_kern T_kern]. by eapply time_unready_if.
Qed.
#[export] Hint Resolve time_change_cur : timeless.
Lemma time_ipi k s i : same_time k (T_kern s) -> same_time k (T_kern (_SmpUpdateIpi s i)).
Proof. done. Qed.
Lemma time_set_kern k s k' : same_time k k' -> same_time k (T_kern (set_kern k' s)).
Proof. done. Qed.
#[export] Hint Resolve time_ipi time_set_kern : timeless.
Lemma time_change s c t r s' e : _ThreadStatusChange s c t r = Some (s', e) -> timed s s'.
Proof. unfold _ThreadStatusChange. timeless. Qed.
Lemma time_point s i s' : status_point s i = Some s' -> timed s s'.
Proof. unfold status_point. timeless. Qed.
Lemma time_tail k s i s' : schedule_tail s i = Some s' -> same_time k (T_kern s) -> same_time k (T_kern s').
Proof. unfold schedule_tail. timeless. Qed.
#[export] Hint Resolve time_change time_point time_tail : timeless.
Lemma time_schedule k s i s' : Thread._Schedule s i = Some s' -> same_time k (T_kern s) -> same_time k (T_kern s').
Proof.
  unfold Thread._Schedule. intros E H. destruct (cpus _ !! i) as [p|]; [|done]. cbn [mbind option_bind] in E.
  destruct (T_ctl s !! _) as [c|]; [|done]. cbn [mbind option_bind] in E.
  destruct (TCB_plineStatusReqHeader c) as [|u l]; [by eapply time_tail|].
  destruct (status_point s i) as [s1|] eqn:E1; [|done]. cbn [mbind option_bind] in E. eapply time_tail; [exact E|].
  apply time_point in E1. unfold same_time in *. intuition congruence.
Qed.
Lemma time_schedule_int s i s' : _ScheduleInt s i = Some s' -> timed s s'.
Proof. unfold _ScheduleInt. timeless. Qed.
Lemma time_resume s t s' : _ThreadSafeResume s t = Some s' -> timed s s'.
Proof. unfold _ThreadSafeResume, suspend_end. timeless. Qed.
Lemma time_continue s t b s' : _ThreadContinue s t b = Some s' -> timed s s'.
Proof. unfold _ThreadContinue. timeless. Qed.
#[export] Hint Resolve time_schedule time_schedule_int time_resume time_continue : timeless.

#[export] Hint Extern 3 (same_time _ (T_kern (if ?b then _ else _))) => destruct b : timeless.

(** The calls that concern neither the waits nor the delay line. *)
Definition timeless_op (op : TOP) : Prop :=
  match op with TBase _ | TWakeup _ _ | TSleep _ _ | TSleepResume _ _ _ _ _ _ => False | _ => True end.

Lemma timeless_step s op s' : timeless_op op -> t_exec s op = Some s' -> timed s s'.
Proof.
  destruct op; try done; intros _; cbn [t_exec].
  - unfold API_ThreadSuspend. timeless.
  - unfold API_ThreadResume. timeless.
  - unfold API_ThreadForceResume, suspend_end. timeless.
  - unfold API_ThreadStop. timeless.
  - unfold API_ThreadStop_resume. timeless.
  - unfold API_ThreadContinue. timeless.
  - unfold _ThreadDeleteWaitDeath. timeless.
  - unfold API_ThreadStart. timeless.
  - unfold API_ThreadSetPriority. timeless.
  - unfold API_ThreadYield. timeless.
  - unfold API_ThreadSetSchedParam. timeless.
  - unfold API_ThreadSetSlice. timeless.
  - unfold API_ThreadLock, _ThreadLock, set_thread_lock. timeless.
  - unfold API_ThreadUnlock, _ThreadUnlock, set_thread_lock. timeless.
  - intros E. apply (time_schedule (T_kern s) s _ s' E). done.
  - unfold ipi_taken. intros E. by apply time_schedule_int in E.
Qed.

Section Nap.
Context (idle : Z -> Z).

(** ** A sleep and the steps of the others *)

Lemma stat_sview s t st : stat s t = Some st -> exists p, sview (K_sched (T_kern s)) t = Some (p, st).
Proof. unfold stat, sview. destruct (tcbs (K_sched (T_kern s)) !! t) as [T|]; [|done]. intros [= <-]. by eexists. Qed.

(** The status of a sleeping thread. *)
Lemma sleeps_stat s t d : ctl_inv idle s -> sleeps (T_kern s) t d -> exists w p st, K_wait (T_kern s) !! t = Some w /\
  sview (K_sched (T_kern s)) t = Some (p, st) /\ stat s t = Some st /\ has_option st LW_THREAD_STATUS_DELAY = true /\ st <> 0.
Proof.
  intros Hi [(w & Hw & _) (q & Hq & Hin)]. pose proof (sv_kern _ _ (ci_sem _ _ Hi)) as [Hk _].
  destruct (th_status _ _ _ _ _ (ko_thread idle SEMB _ _ Hk t w Hw)) as (p & st & Hv & _).
  pose proof (sleeping_delay idle SEMB _ _ t p st q d Hk Hv Hq Hin) as Hd. exists w, p, st. split; [done|]. split; [done|].
  split; [by apply stat_view in Hv|]. split; [done|]. by intros ->.
Qed.

Lemma sleeps_runs s t d u : ctl_inv idle s -> sleeps (T_kern s) t d -> runs idle (T_kern s) u -> u <> t.
Proof.
  intros Hi Hs [[p Hv] _] ->. destruct (sleeps_stat s t d Hi Hs) as (w & p' & st & _ & Hv' & _ & _ & Hst).
  rewrite Hv in Hv'. by injection Hv' as _ <-.
Qed.

Lemma sleep_other k k' r u n t d : sem_inv idle k -> runs idle k u -> 0 <= n <= ULONG_MAX -> u <> t ->
  sleep_wait_again k u n = Some (k', r) -> sleeps k t d -> sleeps k' t d.
Proof.
  intros Hi Hr Hn Hu E Hs. destruct (Z.eqb_spec n 0) as [->|Hz]; [by injection E as <- _|].
  destruct (sleep_spec idle k u n Hi Hr ltac:(lia)) as (k1 & E1 & _ & [_ A2 _ _ _ A6]). rewrite E in E1. injection E1 as <- _.
  apply (sleeps_queue k k' t d u (q_insert u n)); [done|intros x _; by rewrite A2|done| |done].
  intros q Hin. rewrite q_insert_perm. by right.
Qed.

(** The wake-up of a thread: its delay ends, its other reasons to be held stay. *)
Definition awake (s s' : THREADS) (t : Z) : Prop := exists st st', stat s t = Some st /\ stat s' t = Some st' /\
  has_option st' LW_THREAD_STATUS_DELAY = false /\ held_bits st' = held_bits st /\ (held_bits st = 0 -> st' = LW_THREAD_STATUS_RDY).

Lemma frame_held s s' t st st' : kframe (T_kern s) (T_kern s') -> stat s t = Some st -> stat s' t = Some st' -> held_bits st' = held_bits st.
Proof.
  intros [F _ _] H H'. specialize (F t). unfold stat in *. destruct (tcbs (K_sched (T_kern s)) !! t), (tcbs (K_sched (T_kern s')) !! t); try done.
  injection F as F _. injection H as <-. injection H' as <-. exact F.
Qed.

Lemma expired_held st : held_bits st = 0 -> expired_status st = 0.
Proof.
  unfold held_bits, expired_status, WAIT_MASK. intros H. rewrite <-Z.ldiff_ldiff_l in H. cbv zeta.
  destruct (has_option (Z.ldiff st LW_THREAD_STATUS_DELAY) LW_THREAD_STATUS_PEND_ANY) eqn:Ho; [done|].
  by rewrite (ldiff_same _ _ Ho) in H.
Qed.

Lemma wakeup_cases s h b s' : ctl_inv idle s -> fst <$> API_ThreadWakeupEx s h b = Some s' ->
  s' = s \/ exists u k', thread_of _Thread_Index_Invalid s h = inr u /\ wake_up (T_kern s) u = Some k' /\ s' = set_kern k' s /\ stat s u <> Some 0.
Proof.
  intros Hi. unfold API_ThreadWakeupEx. destruct (thread_of _ s h) as [e|u] eqn:Ht; [intros [= <-]; by left|].
  destruct (status (T_kern s) u) as [st|] eqn:Es; [|done]. cbn [mbind option_bind].
  destruct (Z.eqb_spec st LW_THREAD_STATUS_RDY) as [|Hz]; [intros [= <-]; by left|].
  destruct (_ && _); [intros [= <-]; by left|]. destruct (wake_up (T_kern s) u) as [k'|] eqn:E; [|done]. intros [= <-].
  right. exists u, k'. split; [done|]. split; [done|]. split; [done|]. unfold stat. unfold status in Es. rewrite Es. by intros [= ->].
Qed.

(** Every step but a tick and a wake-up of [t]. *)
Lemma step_sleeps s op s' t d : ctl_inv idle s -> t_legal idle s op -> t_exec s op = Some s' -> op <> TBase SysTick ->
  (forall h b, op = TWakeup h b -> thread_of _Thread_Index_Invalid s h <> inr t) -> sleeps (T_kern s) t d -> sleeps (T_kern s') t d.
Proof.
  intros Hi Hl E Ht Hw Hs. pose proof (ci_sem _ _ Hi) as Hsem.
  assert (Hcall : timeless_op op -> sleeps (T_kern s') t d).
  { intros Ho. destruct (timeless_step s op s' Ho E) as (E1 & E2 & E3). apply (sleeps_keep (T_kern s)); [done|done| |done].
    intros w Hk. exists w. by rewrite E1. }
  assert (Hnap : forall u n r, runs idle (T_kern s) u -> 0 <= n <= ULONG_MAX -> on_kern s r = Some s' ->
    r = sleep_wait_again (T_kern s) u n -> sleeps (T_kern s') t d).
  { intros u n r Hr Hn Er ->. unfold on_kern in Er. destruct (sleep_wait_again _ u n) as [[k' x]|] eqn:E1; [|done]. injection Er as <-.
    by apply (sleep_other (T_kern s) k' x u n t d Hsem Hr Hn (sleeps_runs s t d u Hi Hs Hr) E1). }
  destruct op; try by apply Hcall.
  - destruct Hl as [Hl _]. destruct (sys_step idle (T_kern s) op Hsem Hl) as (k' & E1 & _ & Hp). cbn [t_exec] in E. rewrite E1 in E. injection E as <-.
    destruct op; cbn [passed] in Hp; try by apply (mv_sleep _ _ Hp).
    + done.
    + destruct Hp as [-> |Hd]; [done|by apply (de_sleep _ _ _ Hd)].
  - destruct (wakeup_cases s _ _ s' Hi E) as [-> |(u & k' & Hu & E1 & -> & Hst)]; [done|].
    assert (Hut : u <> t) by (intros ->; by apply (Hw _ _ eq_refl)).
    destruct (thread_of_user idle s _ u Hi Hu) as [Hx _]. destruct (thread_view idle s u Hi Hx) as (w & p & st & Hk & Hv & Hst').
    destruct (proj2 (sv_kern _ _ Hsem)) as [q Hq].
    destruct (wake_up_spec idle (T_kern s) u p st w q Hsem Hk Hv ltac:(congruence) Hq) as (k1 & w2 & m2 & E2 & V & _).
    rewrite E1 in E2. injection E2 as <-. apply (sleeps_queue (T_kern s) k' t d u (q_remove u)); [done| | |by intros; apply q_remove_other|done].
    + intros x Hx'. by destruct (wo_others _ _ _ _ _ _ _ _ _ _ V x Hx') as [-> _].
    + intros q' Hq'. destruct (wake_up_spec idle (T_kern s) u p st w q' Hsem Hk Hv ltac:(congruence) Hq') as (k2 & _ & _ & E2 & _ & _ & H).
      rewrite E1 in E2. by injection E2 as <-.
  - destruct Hl as [Hr Hn]. cbn [t_exec] in E. unfold API_TimeSleepEx in E.
    destruct (Z.eqb_spec (LW_CPU_GET_CUR_NESTING c) 0) as [Hz|Hz]; cbn [negb] in E; [|by injection E as <-].
    by apply (Hnap (LW_TCB_GET_CUR c) ulTick _ (Hr Hz) Hn E).
  - destruct Hl as (Hr & H1 & H2 & H3). cbn [t_exec] in E. unfold API_TimeSleepEx_resume in E.
    destruct (negb _); [destruct bSigRet|]; [by injection E as <-| |by injection E as <-].
    eapply (Hnap ptcbCur _ _ Hr); [|exact E|done]. by apply recalc_range.
Qed.

(** A tick. *)
Lemma sleep_tick s t d : ctl_inv idle s -> sleeps (T_kern s) t d -> exists s' l, _ThreadTick (T_kern s) = Some (T_kern s', l) /\
  t_exec s (TBase SysTick) = Some s' /\ ctl_inv idle s' /\ (t ∈ l <-> d <= 1) /\
  (d <= 1 -> awake s s' t) /\ (1 < d -> sleeps (T_kern s') t (d - 1)).
Proof.
  intros Hi Hs. destruct (sleeps_stat s t d Hi Hs) as (w & p & st & Hw & Hv & Hst & _). destruct Hs as [(w' & Hw' & Hwe) (q & Hq & Hin)].
  rewrite Hw in Hw'. injection Hw' as <-. pose proof (sv_kern _ _ (ci_sem _ _ Hi)) as [Hk _].
  destruct (thread_tick_spec idle SEMB (T_kern s) q Hk Hq) as (k' & E & Hk' & Hq' & [T1 T2 T3 T4 T5 T6]).
  destruct (tick_safe idle (T_kern s) (ci_sem _ _ Hi)) as (k2 & l2 & E2 & Hsem'). rewrite E in E2. injection E2 as <- <-.
  pose proof (tick_frame (T_kern s) (T_kern s) k' _ E (kframe_refl _)) as Hf.
  destruct (ctl_inv_kern idle s k' Hi Hsem' Hf) as [Hi' _].
  destruct (q_time 0 q (K_wun (T_kern s)) 1 t d) as [Hx1 Hx2]; [apply Hq|rewrite <-(proj1 Hq); apply Hq|done|].
  exists (set_kern k' s), (q_expired 1 q). split; [done|]. split; [cbn [t_exec sys_exec]; by rewrite E|]. split; [done|]. split; [done|].
  split.
  - intros Hd. apply Hx1 in Hd. destruct (T6 t Hd) as (w0 & p0 & st0 & st' & _ & Hv0 & Hv1 & Hn & _ & _ & Hz).
    rewrite Hv in Hv0. injection Hv0 as <- <-. apply (stat_view (set_kern k' s)) in Hv1. exists st, st'. split; [done|]. split; [done|].
    split; [done|]. split; [by apply (frame_held s (set_kern k' s) t)|exact Hz].
  - intros Hd. assert (Hn : t ∉ q_expired 1 q) by (rewrite Hx1; lia). destruct (T1 t Hn) as [Ew _]. split.
    + exists w. split; [exact (eq_trans Ew Hw)|exact Hwe].
    + exists (q_shift 1 (q_rest 1 q)). split; [exact Hq'|]. unfold q_shift. apply list_elem_of_fmap. exists (t, d). split; [done|]. by apply Hx2.
Qed.

(** A wake-up. *)
Lemma sleep_woken s t d h b : ctl_inv idle s -> sleeps (T_kern s) t d -> thread_of _Thread_Index_Invalid s h = inr t ->
  exists s', API_ThreadWakeupEx s h b = Some (s', ERROR_NONE) /\ ctl_inv idle s' /\ awake s s' t.
Proof.
  intros Hi Hs Ht. destruct (sleeps_stat s t d Hi Hs) as (w & p & st & Hw & Hv & Hst & Hd & Hz). destruct Hs as [_ (q & Hq & _)].
  unfold API_ThreadWakeupEx. rewrite Ht, status_view, Hv. cbn [fmap option_fmap option_map snd mbind option_bind].
  change LW_THREAD_STATUS_RDY with 0. rewrite (proj2 (Z.eqb_neq st 0)) by done. rewrite Hd. cbn [negb]. rewrite andb_false_r.
  destruct (wake_up_spec idle (T_kern s) t p st w q (ci_sem _ _ Hi) Hw Hv Hz Hq) as (k' & w2 & m2 & E & V & Hs & _).
  rewrite E. cbn [mbind option_bind]. exists (set_kern k' s). split; [done|]. pose proof (wake_frame _ _ _ E) as Hf.
  split; [by apply ctl_inv_kern|]. pose proof (stat_view (set_kern k' s) t p _ (wo_status _ _ _ _ _ _ _ _ _ _ V)) as Hst'.
  exists st, (expired_status st). split; [done|]. split; [done|]. split; [apply expired_status_bits|].
  split; [by apply (frame_held s (set_kern k' s) t)|apply expired_held].
Qed.

(** ** Runs *)

Definition ticks (op : TOP) : nat := match op with TBase SysTick => 1 | _ => 0 end.

(** [undisturbed t s0 j s]: from [s0] to [s] in any legal steps, [j] of which are ticks and none wakes [t] up. *)
Inductive undisturbed (t : Z) (s0 : THREADS) : nat -> THREADS -> Prop :=
| ud_init : undisturbed t s0 0 s0
| ud_step j s op s' : undisturbed t s0 j s -> t_legal idle s op -> t_exec s op = Some s' ->
    (forall h b, op = TWakeup h b -> thread_of _Thread_Index_Invalid s h <> inr t) -> undisturbed t s0 (ticks op + j) s'.

Lemma undisturbed_sleeps t s0 n j s : ctl_inv idle s0 -> sleeps (T_kern s0) t n -> undisturbed t s0 j s ->
  ctl_inv idle s /\ (Z.of_nat j < n -> sleeps (T_kern s) t (n - Z.of_nat j)).
Proof.
  intros H0 Hs H. induction H as [|j s op s' _ IH Hl E Hw]; [split; [done|by rewrite Z.sub_0_r]|]. destruct IH as [Hi Hj].
  destruct (t_step_safe idle s op Hi Hl) as (s1 & E1 & Hi'). rewrite E in E1. injection E1 as <-. split; [done|]. intros Hn.
  destruct (decide (ticks op = 0%nat)) as [Ht|Ht].
  - rewrite Ht in *. apply (step_sleeps s op); [done|done|done| |done|by apply Hj]. by intros ->.
  - assert (op = TBase SysTick) as -> by (destruct op as [op| | | | | | | | | | | | | | | | | | |]; try done; by destruct op).
    cbn [ticks] in *. destruct (sleep_tick s t _ Hi (Hj ltac:(lia))) as (s2 & l & _ & E2 & _ & _ & _ & Hn'). rewrite E in E2. injection E2 as <-.
    replace (n - Z.of_nat (1 + j)) with (n - Z.of_nat j - 1) by lia. apply Hn'. lia.
Qed.

(** C26: a sleep lasts as long as it was asked for.  A thread that runs and sleeps for [n] ticks is in the delay line.
    Whatever the other threads do meanwhile - start and end sleeps and timed waits of their own, which changes the
    neighbours of the thread in the line, post, suspend it, change its priority, run on any CPU -, it is not
    ready as long as fewer than [n] ticks have passed and nobody wakes it up, and the tick that ends its delay is the
    [n]-th.  A wake-up at any time before ends the delay at once.  Then the thread is ready, unless it is held for
    another reason, such as a suspension.  A sleep of no ticks returns at once and changes nothing, and
    none is allowed in an interrupt. *)
Theorem sleep_lasts s c n : ctl_inv idle s -> let t := LW_TCB_GET_CUR c in
  runs idle (T_kern s) t -> 0 <= n <= ULONG_MAX ->
  (LW_CPU_GET_CUR_NESTING c <> 0 -> API_TimeSleepEx (T_kern s) c n = Some (T_kern s, Return ERROR_KERNEL_IN_ISR)) /\
  (LW_CPU_GET_CUR_NESTING c = 0 -> n = 0 -> API_TimeSleepEx (T_kern s) c n = Some (T_kern s, Return ERROR_NONE)) /\
  (LW_CPU_GET_CUR_NESTING c = 0 -> 0 < n -> exists s0, API_TimeSleepEx (T_kern s) c n = Some (T_kern s0, Wait 0) /\
     t_exec s (TSleep c n) = Some s0 /\ ctl_inv idle s0 /\
     forall j sj, undisturbed t s0 j sj -> Z.of_nat j < n -> ctl_inv idle sj /\
       (exists st, stat sj t = Some st /\ has_option st LW_THREAD_STATUS_DELAY = true /\ st <> LW_THREAD_STATUS_RDY) /\
       (forall h b, thread_of _Thread_Index_Invalid sj h = inr t ->
          exists s', API_ThreadWakeupEx sj h b = Some (s', ERROR_NONE) /\ ctl_inv idle s' /\ awake sj s' t) /\
       exists s' l, _ThreadTick (T_kern sj) = Some (T_kern s', l) /\ t_exec sj (TBase SysTick) = Some s' /\
         (t ∈ l <-> Z.of_nat j + 1 = n) /\ (Z.of_nat j + 1 = n -> awake sj s' t)).
Proof.
  intros Hi t Hr Hn. unfold API_TimeSleepEx. fold t. split; [|split].
  - intros Hx. by rewrite (proj2 (Z.eqb_neq _ 0)).
  - intros -> ->. done.
  - intros Hx Hpos. rewrite Hx. cbn [Z.eqb negb].
    destruct (sleep_spec idle (T_kern s) t n (ci_sem _ _ Hi) Hr ltac:(lia)) as (k' & E & Hs & [_ A2 _ _ _ A6]).
    destruct (ctl_inv_kern idle s k' Hi Hs (sleep_frame _ _ _ _ _ E)) as [Hi0 _].
    exists (set_kern k' s). split; [done|]. split; [cbn [t_exec]; unfold API_TimeSleepEx; rewrite Hx; cbn [Z.eqb negb]; fold t; by rewrite E|].
    split; [done|]. assert (Hsl : sleeps k' t n).
    { split.
      - destruct (runs_alive idle (T_kern s) t (sv_kern _ _ (ci_sem _ _ Hi)) Hr) as [w Hw]. exists w. rewrite A2. split; [done|].
        by apply (runs_free idle (T_kern s) t w (sv_kern _ _ (ci_sem _ _ Hi)) Hr).
      - destruct (proj2 (sv_kern _ _ (ci_sem _ _ Hi))) as [q Hq]. exists (q_insert t n q). split; [by apply A6|]. rewrite q_insert_perm. left. }
    intros j sj Hu Hj. destruct (undisturbed_sleeps t _ n j sj Hi0 Hsl Hu) as [Hij Hsj]. specialize (Hsj Hj). split; [done|]. split; [|split].
    + destruct (sleeps_stat sj t _ Hij Hsj) as (_ & _ & st & _ & _ & H1 & H2 & H3). by exists st.
    + intros h b Hh. by apply (sleep_woken sj t (n - Z.of_nat j)).
    + destruct (sleep_tick sj t _ Hij Hsj) as (s' & l & E1 & E2 & _ & H1 & H2 & _). exists s', l. split; [done|]. split; [done|].
      split; [rewrite H1; lia|]. intros ?. apply H2. lia.
Qed.
End Nap.
