(* ===== verification/ThreadDemo.v ===== *)
(** * A small system under thread control

    The theorems of thread control at work on a concrete system of two CPUs, and what the
    calls do where their checks are missing. *)

From S2P Require Import Prelude Lists Bitmap Sched SchedSpec Object Wakeup Kernel Event EventSpec Boot TickSpec Semaphore Mutex SemSpec LifeSpec SemRefine System ThreadFrame Thread ThreadSpec ThreadCalls ThreadSleep ThreadPoint ThreadRun ThreadLife ThreadNap.

(** Threads 0 and 1 are the idle threads, 10 runs on CPU 0, 20 on CPU 1; 11 and 12 are suspended. *)
Definition demo_ctl (T : TCB) : CTL :=
  mkCtl (if has_option (TCB_usStatus T) LW_THREAD_STATUS_SUSPEND then 1 else 0) 0 None 0 [].
Definition demo_table : gmap Z Z := list_to_map [(0, 0); (1, 1); (10, 10); (11, 11); (12, 12); (20, 20); (21, 21)].
Definition demo_threads : THREADS := mkThreads demo_sys (demo_ctl <$> tcbs (K_sched demo_sys)) demo_table ∅ 32.
Definition thread_id (t : Z) : Z := _MakeObjectId _OBJECT_THREAD LW_CFG_PROCESSOR_NUMBER t.

Lemma demo_thread_bits t T : tcbs (K_sched demo_sys) !! t = Some T ->
  has_option (TCB_usStatus T) LW_THREAD_STATUS_STOP = false /\ has_option (TCB_usStatus T) LW_THREAD_STATUS_WSTAT = false.
Proof.
  assert (H : map_Forall (fun _ T => has_option (TCB_usStatus T) LW_THREAD_STATUS_STOP = false /\
    has_option (TCB_usStatus T) LW_THREAD_STATUS_WSTAT = false) (tcbs (K_sched demo_sys))) by decide_now. apply H.
Qed.

Lemma demo_table_ok j t : demo_table !! j = Some t -> is_Some (tcbs (K_sched demo_sys) !! t) /\ t = j.
Proof.
  assert (H : map_Forall (fun j t => is_Some (tcbs (K_sched demo_sys) !! t) /\ t = j) demo_table) by decide_now. apply H.
Qed.

(** A system in which nobody waits for a status change. *)
Section Start.
Context (k : KERNEL) (table : gmap Z Z) (max : Z).
Let s0 : THREADS := mkThreads k (demo_ctl <$> tcbs (K_sched k)) table ∅ max.

Lemma start_ctl t c : T_ctl s0 !! t = Some c -> exists T, tcbs (K_sched k) !! t = Some T /\ c = demo_ctl T.
Proof. unfold s0. cbn [T_ctl]. rewrite lookup_fmap. destruct (tcbs (K_sched k) !! t) as [T|]; [|done]. intros [= <-]. by exists T. Qed.

Lemma start_no_waits u t : ~ waits_on s0 u t.
Proof. unfold waits_on. destruct (T_ctl s0 !! u) as [c|] eqn:E; [|done]. by apply start_ctl in E as (T & _ & ->). Qed.

Lemma start_inv : sem_inv id k ->
  (forall t T, tcbs (K_sched k) !! t = Some T -> has_option (TCB_usStatus T) LW_THREAD_STATUS_STOP = false /\
     has_option (TCB_usStatus T) LW_THREAD_STATUS_WSTAT = false) ->
  (forall j t, table !! j = Some t -> is_Some (tcbs (K_sched k) !! t) /\ t = j) -> ctl_inv id s0.
Proof.
  intros Hk Hb Ht. split.
  - done.
  - intros t. unfold s0. cbn [T_ctl T_kern]. rewrite lookup_fmap. apply fmap_is_Some.
  - intros t c T Hc HT. apply start_ctl in Hc as (T' & HT' & ->). unfold s0 in HT. cbn [T_kern] in HT. rewrite HT in HT'. injection HT' as <-.
    destruct (Hb t T HT) as [H1 H2]. unfold demo_ctl. split; cbn; rewrite ?H1, ?H2; try done.
    + by destruct (has_option (TCB_usStatus T) LW_THREAD_STATUS_SUSPEND).
    + by destruct (has_option (TCB_usStatus T) LW_THREAD_STATUS_SUSPEND).
    + by destruct (has_option (TCB_usStatus T) LW_THREAD_STATUS_SUSPEND).
  - intros t c Hc. apply start_ctl in Hc as (T' & _ & ->). split; [constructor|]. intros u. split; [by intros ?%not_elem_of_nil|by intros ?%start_no_waits].
  - by intros u t ?%start_no_waits.
  - by intros u t ?%start_no_waits.
  - intros j t Hj. destruct (Ht j t Hj) as [H1 ->]. split.
    + unfold s0. cbn [T_ctl]. rewrite lookup_fmap. by apply fmap_is_Some.
    + intros Hj2 i Hi. unfold cpu_id in Hi. unfold s0 in Hj2, Hi. cbn [T_kern] in Hj2, Hi. unfold id. lia.
Qed.
End Start.

Lemma demo_threads_inv : ctl_inv id demo_threads.
Proof. exact (start_inv demo_sys demo_table 32 demo_sys_inv demo_thread_bits demo_table_ok). Qed.

Lemma demo_ncpus : LW_NCPUS (K_sched demo_sys) = 2.
Proof. by vm_compute. Qed.

(** The callers of the small system, and what their handles mean. *)
Lemma demo_kern : T_kern demo_threads = demo_sys.
Proof. reflexivity. Qed.

Lemma demo_not_idle t : 2 <= t -> not_idle id (K_sched (T_kern demo_threads)) t.
Proof. rewrite demo_kern. intros Ht i Hi. unfold cpu_id in Hi. rewrite demo_ncpus in Hi. unfold id. lia. Qed.

Lemma demo_ten_runs : runs id (T_kern demo_threads) 10.
Proof. split; [exists 100; by vm_compute|by apply demo_not_idle]. Qed.

Lemma demo_handles : thread_of _Thread_Index_Invalid demo_threads (thread_id 10) = inr 10 /\
  thread_of _Thread_Index_Invalid demo_threads (thread_id 20) = inr 20 /\ thread_of _Thread_Index_Invalid demo_threads (thread_id 21) = inr 21 /\
  thread_of index_beyond demo_threads (thread_id 20) = inr 20.
Proof. by vm_compute. Qed.

Lemma demo_change t : change_legal id demo_threads (call 10) t.
Proof.
  split; [by vm_compute|intros _; exact demo_ten_runs|].
  intros c Hc. apply (start_ctl demo_sys demo_table 32 t c) in Hc as (T & _ & ->). unfold room, demo_ctl.
  cbn [TCB_ulSuspendNesting TCB_ulStopNesting TCB_plineStatusReqHeader length]. unfold ULONG_MAX.
  destruct (has_option (TCB_usStatus T) LW_THREAD_STATUS_SUSPEND); lia.
Qed.

Lemma demo_legal h : t_legal id demo_threads (TSuspend (call 10) h).
Proof. intros t _. apply demo_change. Qed.
Lemma demo_stop_legal : t_legal id demo_threads (TStop (call 10) (thread_id 20)).
Proof.
  intros t Ht. rewrite (proj2 (proj2 (proj2 demo_handles))) in Ht. injection Ht as <-. split; [apply demo_change|by apply demo_not_idle].
Qed.

(** Thread 10 asks for the suspension of thread 20, which runs on CPU 1. *)
Definition demo_asked : THREADS := default demo_threads (t_exec demo_threads (TSuspend (call 10) (thread_id 20))).

Lemma demo_asked_reachable : t_reachable id demo_threads demo_asked.
Proof.
  apply (t_step id demo_threads demo_threads (TSuspend (call 10) (thread_id 20))); [constructor|apply demo_legal|].
  destruct (t_step_safe id demo_threads (TSuspend (call 10) (thread_id 20)) demo_threads_inv (demo_legal _)) as (s' & E & _).
  unfold demo_asked. by rewrite E.
Qed.

Lemma thread_system_safe_witness :
  (ctl_inv id demo_threads /\ t_reachable id demo_threads demo_asked) /\
  ctl_inv id demo_asked /\ is_Some (t_exec demo_asked (TBase SysTick)).
Proof.
  split; [split; [exact demo_threads_inv|exact demo_asked_reachable]|].
  destruct (thread_system_safe id demo_threads demo_asked demo_threads_inv demo_asked_reachable) as [H1 H2].
  split; [exact H1|]. apply (H2 (TBase SysTick)). split; exact I.
Defined.

Lemma held_threads_wait_witness :
  (ctl_inv id demo_threads /\ t_reachable id demo_threads demo_asked /\ T_ctl demo_asked !! 10 = Some (mkCtl 0 0 (Some 20) LW_TCB_REQ_SUSPEND [])) /\
  forall j d, cpus (K_sched (T_kern demo_asked)) !! j = Some d -> CAND_ptcbCand d <> Some 10.
Proof.
  assert (Hc : T_ctl demo_asked !! 10 = Some (mkCtl 0 0 (Some 20) LW_TCB_REQ_SUSPEND [])) by (vm_compute; reflexivity).
  split; [split; [exact demo_threads_inv|split; [exact demo_asked_reachable|exact Hc]]|].
  destruct (held_threads_wait id demo_threads demo_asked 10 _ demo_threads_inv demo_asked_reachable Hc) as (st & _ & _ & _ & _ & H & _).
  apply H. right. right. discriminate.
Defined.

Lemma requests_served_witness :
  exists p T, (ctl_inv id demo_threads /\ t_reachable id demo_threads demo_asked /\ cpus (K_sched (T_kern demo_asked)) !! 1 = Some p /\
    tcbs (K_sched (T_kern demo_asked)) !! CPU_ptcbTCBCur p = Some T /\ waits_on demo_asked 10 (CPU_ptcbTCBCur p) /\ CPU_ptcbTCBCur p = 20) /\
  exists s' st', t_exec demo_asked (TIpi 1) = Some s' /\ stat s' 20 = Some st' /\
    has_option st' LW_THREAD_STATUS_SUSPEND = true /\ stat s' 10 = Some 0.
Proof.
  do 2 eexists. split.
  { split; [exact demo_threads_inv|]. split; [exact demo_asked_reachable|]. split; [vm_compute; reflexivity|]. split; [vm_compute; reflexivity|].
    split; vm_compute; reflexivity. }
  destruct (requests_served id demo_threads demo_asked (TIpi 1) 10 1 (mkCPU true false (Some 20) false 20 0 0)
    (mkTCB 50 0 1 1 5 5 false 1 1 true 0 0) demo_threads_inv demo_asked_reachable) as (s' & c & st' & p' & E & Hc & Hin & _ & Hst & Hb & _ & _ & Hv & _);
    [vm_compute; reflexivity|vm_compute; reflexivity|vm_compute; reflexivity|reflexivity|reflexivity|simpl; lia|right; reflexivity|].
  exists s', st'. split; [exact E|]. split; [exact Hst|]. split.
  - apply (Hb LW_TCB_REQ_SUSPEND). assert (Ec : T_ctl demo_asked !! 20 = Some (mkCtl 0 0 None 0 [10])) by (vm_compute; reflexivity).
    change (T_ctl demo_asked !! 20 = Some c) in Hc. rewrite Ec in Hc. injection Hc as <-.
    assert (Er : reqs demo_asked [10] = [LW_TCB_REQ_SUSPEND]) by (vm_compute; reflexivity). cbn [TCB_plineStatusReqHeader]. rewrite Er. left.
  - destruct (Hv 10 Hin) as [_ H]. rewrite H. vm_compute. reflexivity.
Defined.

Lemma thread_requests_witness :
  (ctl_inv id demo_threads /\ t_legal id demo_threads (TSuspend (call 10) (thread_id 20)) /\ t_legal id demo_threads (TStop (call 10) (thread_id 20))) /\
  exists s' e, API_ThreadSuspend demo_threads (call 10) (thread_id 20) = Some (s', e) /\ ctl_inv id s'.
Proof.
  split; [split; [exact demo_threads_inv|split; [exact (demo_legal _)|exact demo_stop_legal]]|].
  destruct (thread_requests id demo_threads (call 10) (thread_id 20) demo_threads_inv (demo_legal _) demo_stop_legal) as (_ & H & _).
  destruct (H 20 (proj1 (proj2 demo_handles))) as (s' & e & E & Hi & _). exists s', e. split; [exact E|exact Hi].
Defined.

Lemma suspend_resume_roundtrip_witness :
  (ctl_inv id demo_threads /\ thread_of _Thread_Index_Invalid demo_threads (thread_id 21) = inr 21 /\ runs id (T_kern demo_threads) 10 /\
   __LW_THREAD_IS_RUNNING (T_kern demo_threads) 21 = Some false) /\
  exists s1 s2, Nat.iter 2 (fun o => o ≫= fun s => t_exec s (TSuspend (call 10) (thread_id 21))) (Some demo_threads) = Some s1 /\
    Nat.iter 2 (fun o => o ≫= fun s => t_exec s (TResume (thread_id 21))) (Some s1) = Some s2 /\ stat s2 21 = stat demo_threads 21.
Proof.
  destruct demo_handles as (_ & _ & Ht & _). pose proof demo_ten_runs as Hr.
  assert (Hn : __LW_THREAD_IS_RUNNING (T_kern demo_threads) 21 = Some false) by (vm_compute; reflexivity).
  split; [split; [exact demo_threads_inv|split; [exact Ht|split; [exact Hr|exact Hn]]]|].
  assert (Hc : T_ctl demo_threads !! 21 = Some (mkCtl 0 0 None 0 [])) by (vm_compute; reflexivity).
  assert (Hcc : T_ctl demo_threads !! 10 = Some (mkCtl 0 0 None 0 [])) by (vm_compute; reflexivity).
  assert (Hw : exists w, K_wait (T_kern demo_threads) !! 21 = Some w /\ TCB_iDeleteProcStatus w = 0) by (eexists; split; vm_compute; reflexivity).
  destruct Hw as (w & Hw & Hd).
  destruct (suspend_resume_roundtrip id demo_threads (call 10) (thread_id 21) 21 _ _ w 2 2 demo_threads_inv Ht Hc Hw Hd Hr eq_refl
    ltac:(discriminate) Hcc eq_refl (or_intror Hn)) as (s1 & s2 & E1 & E2 & _ & _ & _ & _ & H); [vm_compute; discriminate|lia|].
  exists s1, s2. split; [exact E1|]. split; [exact E2|]. exact (proj2 (H eq_refl) 21).
Defined.

(** Thread 10 sleeps for three ticks; thread 20 goes to sleep in front of it in the delay line and is woken
    again; then two ticks pass. *)
Definition t_next (s : THREADS) (op : TOP) : THREADS := default s (t_exec s op).
Definition demo_nap0 : THREADS := t_next demo_threads (TSleep (call 10) 3).
Definition demo_nap1 : THREADS := t_next demo_nap0 (TSleep (call 20) 1).
Definition demo_nap2 : THREADS := t_next demo_nap1 (TWakeup (thread_id 20) false).
Definition demo_nap3 : THREADS := t_next demo_nap2 (TBase SysTick).
Definition demo_nap4 : THREADS := t_next demo_nap3 (TBase SysTick).

Lemma t_next_ok s op : ctl_inv id s -> t_legal id s op -> t_exec s op = Some (t_next s op) /\ ctl_inv id (t_next s op).
Proof. intros Hi Hl. unfold t_next. by destruct (t_step_safe id s op Hi Hl) as (s' & -> & H). Qed.

Lemma demo_nap_legal : t_legal id demo_nap0 (TSleep (call 20) 1).
Proof.
  split; [|by vm_compute]. intros _. split; [exists 50; by vm_compute|]. intros i Hi. unfold cpu_id in Hi.
  assert (En : LW_NCPUS (K_sched (T_kern demo_nap0)) = 2) by (by vm_compute). rewrite En in Hi. unfold id. cbn. lia.
Qed.

Lemma demo_nap_other : thread_of _Thread_Index_Invalid demo_nap1 (thread_id 20) = inr 20.
Proof. by vm_compute. Qed.

Lemma demo_nap_run : t_exec demo_threads (TSleep (call 10) 3) = Some demo_nap0 /\ undisturbed id 10 demo_nap0 2 demo_nap4.
Proof.
  assert (Ht : forall s, t_legal id s (TBase SysTick)) by done.
  assert (L0 : t_legal id demo_threads (TSleep (call 10) 3)) by (split; [intros _; exact demo_ten_runs|by vm_compute]).
  assert (N0 : t_exec demo_threads (TSleep (call 10) 3) = Some demo_nap0 /\ ctl_inv id demo_nap0) by exact (t_next_ok _ _ demo_threads_inv L0).
  destruct N0 as [E0 I0]. split; [exact E0|].
  pose proof demo_nap_legal as L1.
  assert (N1 : t_exec demo_nap0 (TSleep (call 20) 1) = Some demo_nap1 /\ ctl_inv id demo_nap1) by exact (t_next_ok _ _ I0 L1).
  destruct N1 as [E1 I1].
  assert (N2 : t_exec demo_nap1 (TWakeup (thread_id 20) false) = Some demo_nap2 /\ ctl_inv id demo_nap2) by exact (t_next_ok _ (TWakeup (thread_id 20) false) I1 I).
  destruct N2 as [E2 I2].
  assert (N3 : t_exec demo_nap2 (TBase SysTick) = Some demo_nap3 /\ ctl_inv id demo_nap3) by exact (t_next_ok _ _ I2 (Ht _)).
  destruct N3 as [E3 I3].
  assert (E4 : t_exec demo_nap3 (TBase SysTick) = Some demo_nap4) by exact (proj1 (t_next_ok _ _ I3 (Ht _))).
  assert (U1 : undisturbed id 10 demo_nap0 0 demo_nap1) by (apply (ud_step id 10 demo_nap0 0 demo_nap0 _ _ (ud_init id 10 demo_nap0) L1 E1); discriminate).
  assert (U2 : undisturbed id 10 demo_nap0 0 demo_nap2).
  { apply (ud_step id 10 demo_nap0 0 demo_nap1 (TWakeup (thread_id 20) false) _ U1 I E2). intros h b Ew.
    injection Ew as <- <-. rewrite demo_nap_other. discriminate. }
  assert (U3 : undisturbed id 10 demo_nap0 1 demo_nap3) by (apply (ud_step id 10 demo_nap0 0 demo_nap2 (TBase SysTick) _ U2 (Ht _) E3); discriminate).
  apply (ud_step id 10 demo_nap0 1 demo_nap3 (TBase SysTick) _ U3 (Ht _) E4). discriminate.
Qed.

Lemma sleep_lasts_witness :
  (ctl_inv id demo_threads /\ runs id (T_kern demo_threads) 10 /\ t_exec demo_threads (TSleep (call 10) 3) = Some demo_nap0 /\
   WU_line (K_wuDelay (T_kern demo_nap1)) = [20; 10] /\ WU_line (K_wuDelay (T_kern demo_nap2)) = [10] /\
   undisturbed id 10 demo_nap0 2 demo_nap4) /\
  stat demo_nap4 10 = Some LW_THREAD_STATUS_DELAY /\
  exists s', t_exec demo_nap4 (TBase SysTick) = Some s' /\ stat s' 10 = Some LW_THREAD_STATUS_RDY.
Proof.
  destruct demo_nap_run as [E0 U]. assert (Hst : stat demo_nap4 10 = Some LW_THREAD_STATUS_DELAY) by (by vm_compute).
  split; [split; [exact demo_threads_inv|split; [exact demo_ten_runs|split; [exact E0|split; [by vm_compute|split; [by vm_compute|exact U]]]]]|].
  split; [exact Hst|].
  destruct (sleep_lasts id demo_threads (call 10) 3 demo_threads_inv demo_ten_runs ltac:(unfold ULONG_MAX; lia)) as (_ & _ & H).
  destruct (H eq_refl eq_refl) as (s0 & _ & E & _ & Hj). assert (Es : Some demo_nap0 = Some s0) by exact (eq_trans (eq_sym E0) E).
  apply (inj Some) in Es. subst s0. destruct (Hj 2%nat demo_nap4 U eq_refl) as (_ & _ & _ & s' & l & _ & E1 & _ & Ha).
  exists s'. split; [exact E1|]. destruct (Ha eq_refl) as (st & st' & H1 & H2 & _ & _ & H3).
  assert (Est : Some LW_THREAD_STATUS_DELAY = Some st) by exact (eq_trans (eq_sym Hst) H1). apply (inj Some) in Est. subst st.
  rewrite H3 in H2; [exact H2|]. vm_compute. reflexivity.
Defined.

(** ** Missing checks *)

Fixpoint t_run (s : THREADS) (ops : list TOP) : option THREADS :=
  match ops with [] => Some s | op :: ops => s ← t_exec s op; t_run s ops end.

(** [API_ThreadStop] takes the idle thread of CPU 1; when the last other thread of that CPU sleeps, the
    scheduler finds no thread to fill the candidate with. *)
Lemma stopped_idle_thread :
  let ops := [TStop (call 10) (thread_id 1); TSleep (call 20) 5; TSchedule 1] in
  (fun s => stat s 1) <$> t_run demo_threads ops = Some (Some LW_THREAD_STATUS_STOP) /\
  t_run demo_threads (ops ++ [TSleep (call 21) 5]) = None /\
  is_Some (t_run demo_threads [TSleep (call 20) 5; TSchedule 1; TSleep (call 21) 5]).
Proof. split; [by vm_compute|]. split; [by vm_compute|]. eexists. vm_compute. reflexivity. Qed.

(** [API_ThreadStart] reads the thread table at any index. *)
Lemma started_beyond_table : t_exec demo_threads (TStart (call 10) (thread_id 4000)) = None.
Proof. by vm_compute. Qed.

(** An interrupt that comes before the switch and suspends some other thread wipes the request of
    the interrupted thread: the suspension of thread 20 is lost, thread 10 goes on as if it had succeeded. *)
Lemma wiped_request :
  let ops := [TSuspend (call 10) (thread_id 20); TSuspend (mkCall 10 1 true) (thread_id 11); TIpi 1] in
  (fun s => (stat s 20, TCB_ulSuspendNesting <$> T_ctl s !! 20, stat s 10)) <$> t_run demo_threads ops =
    Some (Some 0, Some 0, Some 0).
Proof. by vm_compute. Qed.
